(* ===== verification/_CoqProject ===== *)
-Q . S2P
Prelude.v
Traces.v
PyValues.v
Ipaddress.v
Digest.v
Models.v
RateLimit.v
TopologyModels.v
LinuxNet.v
TopologyPlan.v
Topology.v
TopologyLeases.v
TopologySubnets.v
TopologyRepair.v
TopologyAttach.v
Session.v
Services.v
Frames.v
FailureHandling.v
Sessions.v
Capacity.v
Scheduling.v
Placement.v
NodeBootstrap.v
Ec2Registry.v
Ec2Cleanup.v
SweepSafety.v
NodeLifecycle.v
NodeInvariants.v
Ec2UserData.v
Autoscaler.v
FleetSafety.v
Cleanup.v
Quota.v
Policy.v
Gateway.v
Runtime.v
HostFiles.v
ProjectDirs.v
DockerRuntime.v
SsmRuntime.v
RuntimeContracts.v
Probes.v
Orchestration.v
SnapshotArchives.v
ArchiveSafety.v
BringUp.v
OrchestratorOps.v
Waits.v
BringUpOutcome.v
OrchestratorTopology.v
Notifications.v
WorkerRows.v
Finalizers.v
SnapshotJobs.v
Reconcile.v
Worker.v
Settlement.v
Binding.v
Execution.v
Queue.v
Routing.v
Accounts.v
AccountSafety.v
GatewayAuth.v
RouteAdminApp.v
Intents.v
Secrets.v
Creation.v
Access.v
Snapshots.v
System.v
SnapshotSystem.v
Scenarios.v
EdgeScenarios.v
TopologyScenarios.v
OrchestratorScenarios.v
ArchiveScenarios.v
AccountScenarios.v
Witnesses.v
