(* ===== verification/Prelude.v ===== *)
(** * DevNest control plane: verification library (root)

    DevNest (src/backend/app) runs development workspaces in containers on a pool of
    execution nodes.  Its control plane is a set of Python services over one
    relational database: an HTTP request records an intent (a transitional status
    and a queued job), a job worker claims the job, binds it to a node, drives the
    orchestrator, and writes the outcome back; quota and policy checks guard the
    requests; sessions grant access to running workspaces; reconcile jobs repair
    drift; cleanup tasks pay the debts of failed stops.  This library models these
    services as executable state-passing functions over the database rows and
    proves what they promise, for every behaviour of what they call outside the
    database.

    ** Files, and the sources they model (below src/backend/app)

    - [Prelude] (this file): record update, the string functions of Python the code
      uses ([Py]), the state and error monad [eff] with its weakest preconditions
      [wp] and its relational frame rule [within], and keys, row queries and unique
      columns of maps;
      [Traces]: what a computation may call, and why, as predicates on its log.
    - [Models]: enumerations, rows, exceptions, settings, [Db] (all tables as one
      session sees them) and [Env] (clock, settings, retry jitter).
    - [Session]: the transaction state [St] (session view, committed database,
      outside world); flush, commit, rollback, row access; the event, audit and
      usage recorders.
    - [Services]: the interfaces of the collaborators (orchestrator, route-admin,
      snapshot storage, git, advisory lock); [Frames]: computations that leave jobs
      and statuses alone, and the interfaces that build orchestrators and provision
      nodes.
    - [FailureHandling]: workers/workspace_job_worker/failure_handling.py.
    - [Sessions]: workspace_service/services/workspace_session_service.py.
    - [Capacity], [Scheduling], [Placement]: placement_service and
      scheduler_service: what is reserved on a node, which node is chosen, which
      node and topology a job runs on.
    - [NodeBootstrap]: placement_service/bootstrap.py and node_heartbeat.py;
      [Ec2Registry]: providers/ec2_provider.py; [Ec2Cleanup]:
      infrastructure_service/ec2_cleanup.py and the tick of its janitor, [SweepSafety]:
      its properties; [NodeLifecycle]: infrastructure_service/lifecycle.py and the
      heartbeat route; [Ec2UserData]: the boot script of
      infrastructure_service/models.py.  [NodeInvariants]: the properties of nodes.
    - [Autoscaler]: autoscaler_service/service.py and the ticks of
      workers/autoscaler_loop.py; [FleetSafety]: its properties.
    - [Cleanup], [Quota], [Policy]: cleanup_service, quota_service, policy_service;
      [RateLimit]: libs/security/rate_limit.py with its properties.
    - [Gateway]: gateway_client, the route decisions of reconcile_service and the
      route helpers of the worker.
    - [WorkerRows], [Finalizers], [SnapshotJobs], [Worker]:
      workers/workspace_job_worker/worker.py, from row helpers to the drivers.
    - [Reconcile]: reconcile_service/reconcile_runtime.py.
    - [Binding]: orchestrator_service/app_factory.py and
      node_execution_service/factory.py: from the placement of a job to the engine
      of its node.
    - [Runtime]: libs/runtime (runtime_orchestrator.py, models.py,
      workspace_container_policy.py), libs/probes/results.py and the polling loops;
      [HostFiles]: the file tree of a host; [ProjectDirs]:
      node_execution_service/workspace_project_dir.py.
    - [PyValues]: Python's dynamic values, as JSON and the Docker SDK give them;
      [DockerRuntime], [SsmRuntime]: libs/runtime/docker_runtime.py and
      ssm_docker_runtime.py with the SSM runner, two instances of the engine
      interface of [Runtime]; [RuntimeContracts]: the contract they keep; [Probes]:
      libs/probes/probe_runner.py.
    - [Orchestration], [BringUp], [OrchestratorOps]: orchestrator_service/service.py:
      preparing and starting a container; its waits, attachment, probes, stop and
      rollback; the other operations.  [Waits], [BringUpOutcome],
      [OrchestratorTopology]: its properties, the last over the topology adapter.
      [SnapshotArchives]: its exports and imports, orchestrator_service/
      snapshot_filesystem.py and node_execution_service/ssh_command_runner.py;
      [ArchiveSafety]: their properties.
    - [Ipaddress], [Digest]: what the code uses of Python's ipaddress and hashlib.
    - [TopologyModels]: the topology tables and the adapter's transactions;
      [LinuxNet]: libs/topology/system; [TopologyPlan], [Topology]:
      libs/topology/db_topology_adapter.py.  [TopologyLeases], [TopologySubnets],
      [TopologyRepair], [TopologyAttach]: its properties.
    - [Routing]: libs/routing/workspace_routing.py, the public addresses;
      [GatewayAuth]: workspace_service/api/routers/internal_gateway_auth.py, reading
      them back and judging a request; [RouteAdminApp]:
      src/devnest-gateway/route_admin/route_admin_app.py, the service behind the
      gateway client.
    - [Accounts]: auth_service (services, api/dependencies.py, api/routers/auth.py):
      registration, sign-in, tokens, passwords, OAuth, deletion; [AccountSafety]: its
      properties.
    - [Notifications]: notification_service, with its properties: creation, dispatch,
      delivery and retry, reading, preferences, subscriptions, job outcomes.
    - [Intents], [Creation], [Access]:
      workspace_service/services/workspace_intent_service.py: the lifecycle requests,
      creating and listing workspaces, opening them; [Secrets]:
      workspace_service/services/workspace_secret_service.py.
    - [Snapshots]: snapshot_service/snapshot_service.py.
    - [Settlement], [Execution], [Queue]: proofs only: what
      the execution of a job does to it and its workspace, on every path.
    - [System]: the transition system of requests, workers and reclaims;
      [SnapshotSystem] adds the snapshot requests to its steps.
    - [Scenarios], [EdgeScenarios], [TopologyScenarios], [OrchestratorScenarios],
      [ArchiveScenarios], [AccountScenarios], [Witnesses]: concrete rows
      and collaborators, traces evaluated by computation, and an instance of each theorem that has hypotheses.

    A definition has the name of its source function without a leading underscore;
    [jid] and [wid] stand for the [job] and [ws] objects of the source, whose rows
    are looked up where they are used, so that aliasing is that of the ORM's
    identity map.

    ** What the theorems show

    - Life cycle ([System]): over all interleavings of creations, requests, worker
      passes, crashes of a pass and reclaims, a workspace has at most one outstanding
      lifecycle job, and is busy as long as it has one.  [Scenarios] shows why
      reconcile jobs are not among the steps: they break the property.
    - Queue ([Queue], [Scenarios]): a claimed job is settled or its transaction
      aborted, with no effect on other jobs; the retry budget is final; a tick
      drains the queue; stuck jobs are reclaimed.
    - Requests ([Intents], [Creation], [Secrets]): what each request accepts and
      queues; a new workspace is within the limits and addressable; a stored key is
      the one a container gets.
    - Placement ([Placement], [Scheduling], [Binding]): jobs run where their rows say
      or where the scheduler puts them, on the engine of that node; the scheduler
      never overcommits, is best-fit, and its two formulations agree.
    - Bring-up ([BringUpOutcome], [OrchestratorTopology], [Waits]): it ends healthy,
      refused or rolled back, a successful rollback gives the workspace's network
      back, and its waits end.
    - Runtimes and probes ([RuntimeContracts], [Probes]): a runtime returned as running
      is the one asked for and has a process, over any adapter that keeps the
      contract, which both do; they create the same container from a spec, and a
      container with other bind mounts is never reused by Docker; a health check that
      reports healthy has seen the container, the network and the service.
    - Archives ([ArchiveSafety]): a restore replaces the files and links of a project
      or keeps them, and gives back what an export wrote; [ArchiveScenarios] shows the
      links and names that break this without a filter, what an export leaves out, and
      why exports over SSH cannot work.
    - Networks ([TopologyLeases], [TopologySubnets], [TopologyAttach],
      [TopologyRepair]): addresses are in range and leased once, subnets of nodes are
      disjoint, whatever other sessions commit in between; a free address is found.
      With commits that succeed and no other session in between ([calm]), an attachment
      ends ATTACHED or FAILED with its lease given back and the janitor repairs what is
      left over; [TopologyScenarios] shows what it breaks.
    - Limits ([Quota], [Policy]): the checks enforce the most specific limit
      exactly, and denials are durable.
    - Snapshots ([Snapshots], [SnapshotSystem]): what each request accepts, queues and
      reports; a workspace has at most one outstanding snapshot job; a download is
      offered from the newest snapshot whose archive is there.
    - Fleet ([NodeInvariants], [FleetSafety]): node rows keep their service states
      under every operation but the registration of stubs; a scale-out stays within its
      caps; a scale-in terminates no node a live workspace is placed on, and commits
      what the cloud answers; the sweeps of cloud resources
      ([SweepSafety]) delete only unused ones that carry all tags, which those of a
      launch do.
    - Rates ([RateLimit]): a window admits at most its number of calls, refuses only for
      that, and a client that waits as told is let in.
    - Addresses and opening ([Routing], [GatewayAuth], [Access]): an attached user is
      let in with the token he got; slugs are found and free; a request routed
      to a workspace is judged by the sessions of that workspace, except under a
      subdomain that looks like a workspace host.
    - Accounts ([AccountSafety]): names, addresses and links stay distinct under all
      requests; a sign-in gives the account whose password was given; a new password
      ends the sessions of before.  [AccountScenarios] shows what it leaves, and that
      an address a provider has not verified opens the account that has it.
    - Notifications ([Notifications]): a notification reaches every recipient over the
      channels each has enabled, at most once, and its status tells the outcome;
      [AccountScenarios] shows when that status goes stale.
    - Routes ([Gateway], [RouteAdminApp]): repair converges; route-admin loses no
      route in a restart, and every router it writes checks the session first.
    - Cleanup ([Cleanup]) and access ([Sessions]).

    ** Conventions and bounds

    Integers of the source are Python's unbounded [int], so [Z]; a CPU amount, a
    float in the source, is a whole number of nano-cores, and a time a whole number
    of microseconds.  One reading of the clock stands for those of one transaction.
    Most loops are over lists of rows, and the loop of [run_pending_jobs] is bounded
    by its own limit.  These need fuel: the polling loops get [poll_fuel], one
    round for each pause that fits into the wait and two more, which is enough
    because every round but the last sleeps ([bring_up_waits_end]); the wait for an SSM
    command likewise [poll_rounds] ([ssm_wait_ends]); [sub_auth] and
    [replace_from], substitutions in a text, get one step per character; [first_free],
    the search for a free slug, gets one round more than there are rows
    ([slug_allocation_ends]), and [free_username] two ([unique_username_free]);
    [namei] follows at most the 40 links the kernel does, [realpath] one more than the
    tree has nodes, since no link is read within itself, and [extract_at] copies at
    most as many members in the place of links as the archive has.  A call of a collaborator may
    change the world in any way, commit the session it shares, return anything of
    its result type, or raise.  Rows locked by other workers are given by a
    predicate on job ids, as [SKIP LOCKED] sees them.  Transactions are serial: a
    concurrent one appears as the state between two steps; only in the topology
    tables, whose operations retry on conflicts, may other sessions commit anything
    that keeps the constraints just before each commit ([SharedTables]).  The 16 and
    24 attempts of those retries are loops over the lists of attempt numbers.  The order in which SQL
    returns rows without ORDER BY is that of the map.

    ** Not modelled

    Metrics, logging, the in-process event bus and correlation scopes
    have no effect on the rows.  Error messages keep their first clause; JSON
    columns are records or opaque strings, without the cut at 8192 characters.  Texts are
    strings of characters below 256, with the white space and the letters of ASCII.  A
    column's length is checked where what a request gives can exceed it (workspaces,
    secrets, notifications), and a foreign key where a row a request names or deletes
    can break it.
    The worker does not pass the container's environment, secrets and features on.  A
    host's files are directories, regular files and symbolic links, without modes: what is
    denied, and how far a failed recursive operation got, is up to the interface [HostFs].  The latency of
    probes and the log tails in error messages are left out, and so is what a broken
    stream left in an archive.  Code outside the repository is an interface: the
    Docker SDK, boto3, ssh and its processes, Redis, the formats of JSON, YAML and tar,
    ciphers and signatures.  The worker is proved over any orchestrator, not over
    [Orchestration]'s, whose results have the same type.
    bcrypt, PyJWT and random values are interfaces of [Accounts], and the rate limits of
    its routes are [RateLimit]'s.  The rows of notifications are [Notifications]'s alone:
    in the worker a notification is the commit it makes, and one whose text does not
    fit its column, which raises, is left out there.  Third-party integrations, storage providers, the reading of
    settings, HTTP routers and the frontend are left out: they pass data on to other
    services, or turn what is modelled here into requests and responses. *)

From Stdlib Require Export ZArith Ascii String Lia.
From stdpp Require Export base gmap sets list strings pretty fin_maps sorting.

#[global] Open Scope Z_scope.

(** ** Record update

    [r <| f := v |>] is Python's [r.f = v] on an ORM row; [r <| f ::= g |>]
    applies [g] to the field.  The setter of a projection is found by type
    class resolution from the record's registered eta expansion. *)

Class Rebuild (R : Type) := rebuild : R → R.
#[global] Hint Mode Rebuild ! : typeclass_instances.

Class FieldUpdate {R F : Type} (proj : R → F) := field_update : (F → F) → R → R.

Ltac build_field_update :=
  lazymatch goal with
  | |- @FieldUpdate ?R ?F ?proj =>
      let inst := constr:(_ : Rebuild R) in
      let upd :=
        constr:(fun (g : F → F) (r : R) =>
          ltac:(let whole := eval hnf in (@rebuild R inst r) in
                lazymatch (eval pattern (proj r) in whole) with
                | ?ctx _ =>
                    let out := eval cbv beta in (ctx (g (proj r))) in
                    exact out
                end)) in
      exact upd
  end.

#[global] Hint Extern 1 (FieldUpdate _) => build_field_update : typeclass_instances.

Declare Scope row_scope.
Delimit Scope row_scope with row.
Notation "r <| f ::= g |>" := (field_update (proj := f) g r)
  (at level 1, f at next level, left associativity,
   format "r  <| f  ::=  g |>") : row_scope.
Notation "r <| f := v |>" := (field_update (proj := f) (fun _ => v) r)
  (at level 1, f at next level, left associativity,
   format "r  <| f  :=  v |>") : row_scope.
#[global] Open Scope row_scope.

(** ** Python strings *)
Module Py.

(** ASCII whitespace of [str.strip()]. *)
Definition is_space (c : ascii) : bool :=
  let n := N_of_ascii c in
  ((9 <=? n) && (n <=? 13) || (28 <=? n) && (n <=? 32))%N.

Fixpoint lstrip_by (P : ascii → bool) (l : list ascii) : list ascii :=
  match l with
  | [] => []
  | c :: r => if P c then lstrip_by P r else l
  end.

Definition rstrip_by (P : ascii → bool) (l : list ascii) : list ascii :=
  rev (lstrip_by P (rev l)).
Definition strip_by (P : ascii → bool) (l : list ascii) : list ascii :=
  rstrip_by P (lstrip_by P l).
Definition on_chars (f : list ascii → list ascii) (s : string) : string :=
  string_of_list_ascii (f (list_ascii_of_string s)).

(** [s.strip()], [s.strip(".")] and [s.rstrip("/")] *)
Definition strip : string → string := on_chars (strip_by is_space).
Definition strip_dots : string → string := on_chars (strip_by (Ascii.eqb ".")).
Definition rstrip_slash : string → string := on_chars (rstrip_by (Ascii.eqb "/")).

(** [(x or "").strip()] for an optional string. *)
Definition strip_opt (o : option string) : string := strip (default ""%string o).

(** [(x or "").strip() or None] *)
Definition strip_or_none (o : option string) : option string :=
  let s := strip_opt o in if decide (s = ""%string) then None else Some s.

Definition lower_ascii (c : ascii) : ascii :=
  let n := N_of_ascii c in
  if ((65 <=? n) && (n <=? 90))%N then ascii_of_N (n + 32) else c.

(** [s.lower()] on ASCII text *)
Fixpoint lower (s : string) : string :=
  match s with
  | EmptyString => EmptyString
  | String c r => String (lower_ascii c) (lower r)
  end.

(** [s.startswith(p)] *)
Definition startswith (p s : string) : bool := String.prefix p s.

(** [p in s] *)
Fixpoint contains (p s : string) : bool :=
  startswith p s ||
  match s with
  | EmptyString => false
  | String _ r => contains p r
  end.

Definition len (s : string) : Z := Z.of_nat (String.length s).

(** [s[:n]] for a non-negative [n] *)
Definition prefix_to (n : Z) (s : string) : string :=
  String.substring 0 (Z.to_nat n) s.

(** [str(n)] *)
Definition str_of_Z (n : Z) : string := pretty n.

Definition str_of_opt_Z (n : option Z) : string :=
  match n with Some v => str_of_Z v | None => "None"%string end.

(** [sep.join(l)] *)
Definition join (sep : string) (l : list string) : string :=
  String.concat sep l.

(** Python truthiness of a string. *)
Definition truthy (s : string) : bool := negb (String.eqb s "").

(** [x or y] on strings *)
Definition or_else (x y : string) : string := if truthy x then x else y.

(** [s.partition(c)]: what precedes the first [c], and what follows it *)
Fixpoint partition (c : ascii) (s : string) : string * option string :=
  match s with
  | EmptyString => (EmptyString, None)
  | String d r =>
      if Ascii.eqb c d then (EmptyString, Some r)
      else let '(a, b) := partition c r in (String d a, b)
  end.

(** What follows the last [c], when there is one: [s.rpartition(c)] *)
Fixpoint after_last (c : ascii) (s : string) : option string :=
  match s with
  | EmptyString => None
  | String d r =>
      match after_last c r with
      | Some t => Some t
      | None => if Ascii.eqb c d then Some r else None
      end
  end.

(** The prefix of [s] before the first character satisfying [P]. *)
Fixpoint until (P : ascii → bool) (s : string) : string :=
  match s with
  | EmptyString => EmptyString
  | String d r => if P d then EmptyString else String d (until P r)
  end.

Definition digit_value (c : ascii) : option Z :=
  let n := Z.of_N (N_of_ascii c) in
  if (48 <=? n) && (n <=? 57) then Some (n - 48) else None.

(** The value of a non-empty string of ASCII digits: [s.isdigit()] and [int(s)] *)
Fixpoint digits_from (acc : Z) (s : string) : option Z :=
  match s with
  | EmptyString => Some acc
  | String c r => d ← digit_value c; digits_from (10 * acc + d) r
  end.
Definition digits (s : string) : option Z :=
  if truthy s then digits_from 0 s else None.

(** [int(s, 10)] of a stripped string, [None] for the [ValueError]; digit
    separators ("1_000") are not accepted. *)
Definition parse_int (s : string) : option Z :=
  match s with
  | String "-" r => Z.opp <$> digits r
  | String "+" r => digits r
  | _ => digits s
  end.

Lemma lower_ascii_idem c : lower_ascii (lower_ascii c) = lower_ascii c.
Proof.
  destruct c as [b0 b1 b2 b3 b4 b5 b6 b7].
  destruct b0, b1, b2, b3, b4, b5, b6, b7; vm_compute; reflexivity.
Qed.

Lemma lower_idem s : lower (lower s) = lower s.
Proof. induction s as [|c s IH]; simpl; [done|]. by rewrite lower_ascii_idem, IH. Qed.

(** *** Stripping *)

Lemma lstrip_by_id P l : (∀ c r, l = c :: r → P c = false) → lstrip_by P l = l.
Proof. destruct l as [|c r]; [done|]. intros H. simpl. by rewrite (H c r). Qed.
Lemma lstrip_by_head P l c r : lstrip_by P l = c :: r → P c = false.
Proof.
  induction l as [|d l IH]; simpl; [done|]. destruct (P d) eqn:E; [apply IH|]. congruence.
Qed.
Lemma lstrip_by_idem P l : lstrip_by P (lstrip_by P l) = lstrip_by P l.
Proof. apply lstrip_by_id. intros c r. apply lstrip_by_head. Qed.

(** The last character survives stripping on the left. *)
Lemma lstrip_by_snoc P l c : P c = false → lstrip_by P (l ++ [c]) = lstrip_by P l ++ [c].
Proof.
  intros Hc. induction l as [|d l IH]; simpl; [by rewrite Hc|]. by destruct (P d).
Qed.
Lemma rstrip_by_cons P c l : P c = false → rstrip_by P (c :: l) = c :: rstrip_by P l.
Proof.
  intros Hc. unfold rstrip_by. simpl. rewrite lstrip_by_snoc by done. by rewrite rev_app_distr.
Qed.
Lemma rstrip_by_app P l1 l2 : rstrip_by P l2 ≠ [] → rstrip_by P (l1 ++ l2) = l1 ++ rstrip_by P l2.
Proof.
  unfold rstrip_by. rewrite rev_app_distr. generalize (rev l2). intros l H.
  assert (Hl : lstrip_by P l ≠ []) by (intros E; by rewrite E in H).
  enough (lstrip_by P (l ++ rev l1) = lstrip_by P l ++ rev l1) as ->.
  { by rewrite rev_app_distr, rev_involutive. }
  clear H. induction l as [|c l IH]; simpl in *; [done|]. destruct (P c); [by apply IH|done].
Qed.
Lemma rstrip_by_idem P l : rstrip_by P (rstrip_by P l) = rstrip_by P l.
Proof. unfold rstrip_by. by rewrite rev_involutive, lstrip_by_idem. Qed.

Lemma list_ascii_on_chars f s : list_ascii_of_string (on_chars f s) = f (list_ascii_of_string s).
Proof. apply list_ascii_of_string_of_list_ascii. Qed.
Lemma on_chars_on_chars f g s : on_chars f (on_chars g s) = on_chars (λ l, f (g l)) s.
Proof. unfold on_chars. by rewrite list_ascii_of_string_of_list_ascii. Qed.

Lemma lstrip_rstrip_by P l : lstrip_by P (rstrip_by P (lstrip_by P l)) = rstrip_by P (lstrip_by P l).
Proof.
  destruct (lstrip_by P l) as [|c r] eqn:E; [done|]. apply lstrip_by_head in E.
  rewrite rstrip_by_cons by done. simpl. by rewrite E.
Qed.
Lemma strip_by_idem P l : strip_by P (strip_by P l) = strip_by P l.
Proof. unfold strip_by. by rewrite lstrip_rstrip_by, rstrip_by_idem. Qed.
Lemma strip_idem s : strip (strip s) = strip s.
Proof.
  unfold strip. rewrite on_chars_on_chars. unfold on_chars. by rewrite strip_by_idem.
Qed.

Lemma list_ascii_of_app a b :
  list_ascii_of_string (a ++ b)%string = list_ascii_of_string a ++ list_ascii_of_string b.
Proof. induction a as [|c a IH]; simpl; [done|]. by rewrite IH. Qed.

(** Text in front of a stripped, non-empty string is kept when its first
    character is no space. *)
Lemma strip_app_stripped c p s :
  is_space c = false → strip s = s → s ≠ ""%string →
  strip (String c p ++ s) = (String c p ++ s)%string.
Proof.
  intros Hc Hs Hne. unfold strip, on_chars. rewrite list_ascii_of_app.
  rewrite <- (string_of_list_ascii_of_string (String c p ++ s)) at 1.
  rewrite list_ascii_of_app. f_equal. unfold strip_by. simpl. rewrite Hc.
  assert (Hl : strip_by is_space (list_ascii_of_string s) = list_ascii_of_string s).
  { rewrite <- list_ascii_on_chars. f_equal. exact Hs. }
  assert (Hr : rstrip_by is_space (list_ascii_of_string s) = list_ascii_of_string s).
  { rewrite <- Hl at 1. unfold strip_by. rewrite rstrip_by_idem. exact Hl. }
  rewrite rstrip_by_cons by done. rewrite rstrip_by_app; [by rewrite Hr|].
  rewrite Hr. by destruct s.
Qed.

Lemma prefix_app p r : String.prefix p (p ++ r) = true.
Proof. induction p as [|c p IH]; simpl; [by destruct r|]. by destruct (ascii_dec c c). Qed.

Lemma string_of_list_app l1 l2 :
  string_of_list_ascii (l1 ++ l2) = (string_of_list_ascii l1 ++ string_of_list_ascii l2)%string.
Proof. induction l1 as [|c l1 IH]; simpl; [done|]. by rewrite IH. Qed.

(** Stripping keeps a prefix that neither starts nor ends with a space. *)
Lemma startswith_strip c l d r : is_space c = false → is_space d = false →
  let p := string_of_list_ascii (c :: l ++ [d]) in startswith p (strip (p ++ r)) = true.
Proof.
  intros Hc Hd p. unfold startswith, strip, on_chars. rewrite list_ascii_of_app. unfold p.
  rewrite list_ascii_of_string_of_list_ascii. unfold strip_by. simpl lstrip_by. rewrite Hc.
  rewrite <- app_assoc, rstrip_by_cons by done. simpl app.
  rewrite rstrip_by_app by (by rewrite rstrip_by_cons). rewrite rstrip_by_cons by done.
  change (c :: l ++ d :: rstrip_by is_space (list_ascii_of_string r))
    with ((c :: l) ++ [d] ++ rstrip_by is_space (list_ascii_of_string r)).
  rewrite app_assoc, string_of_list_app. apply prefix_app.
Qed.

(** *** Numerals *)

Lemma digit_value_pretty (x : N) :
  (x < 10)%N → digit_value (pretty_N_char x) = Some (Z.of_N x).
Proof.
  intros H. assert (x = 0 ∨ x = 1 ∨ x = 2 ∨ x = 3 ∨ x = 4 ∨ x = 5 ∨ x = 6 ∨ x = 7 ∨ x = 8 ∨ x = 9)%N
    as Hx by lia. by repeat destruct Hx as [->|Hx]; [..|rewrite Hx].
Qed.

Lemma digits_from_pretty (x : N) t : digits_from 0 (pretty_N_go x t) = digits_from (Z.of_N x) t.
Proof.
  revert t. induction (N.lt_wf_0 x) as [x _ IH]; intros t.
  assert (x = 0 ∨ 0 < x)%N as [->|Hx] by lia; [by rewrite pretty_N_go_0|].
  rewrite pretty_N_go_step by done. rewrite IH by (by apply N.div_lt). simpl.
  rewrite digit_value_pretty by (by apply N.mod_lt). simpl. f_equal.
  rewrite (N.div_mod x 10) at 3 by done. lia.
Qed.

Lemma pretty_N_go_nonempty (x : N) t : t ≠ ""%string ∨ (0 < x)%N → pretty_N_go x t ≠ ""%string.
Proof.
  revert t. induction (N.lt_wf_0 x) as [x _ IH]; intros t Ht.
  assert (x = 0 ∨ 0 < x)%N as [->|Hx] by lia.
  - rewrite pretty_N_go_0. destruct Ht; [done|lia].
  - rewrite pretty_N_go_step by done. apply IH; [by apply N.div_lt|by left].
Qed.

Lemma digits_str_of_Z n : 0 ≤ n → digits (str_of_Z n) = Some n.
Proof.
  intros Hn. unfold str_of_Z, pretty, pretty_Z. destruct n as [|p|p]; [done| |lia].
  unfold pretty, pretty_positive, pretty, pretty_N. rewrite decide_False by done.
  unfold digits, truthy. rewrite (proj2 (String.eqb_neq _ _)) by (apply pretty_N_go_nonempty; right; lia).
  cbn [negb]. by rewrite digits_from_pretty.
Qed.

(** Stripping keeps a string that starts with no space non-empty. *)
Lemma truthy_strip c r : is_space c = false → truthy (strip (String c r)) = true.
Proof.
  intros Hc. unfold strip, on_chars, strip_by. simpl. rewrite Hc, rstrip_by_cons by done. done.
Qed.

(** [int(str(n))] gives back [n]. *)
Lemma parse_int_str_of_Z n : parse_int (str_of_Z n) = Some n.
Proof.
  destruct (Z.leb_spec 0 n) as [Hn|Hn].
  - pose proof (digits_str_of_Z n Hn) as Hd. unfold parse_int.
    destruct (str_of_Z n) as [|c r] eqn:E; [done|].
    destruct (Ascii.eqb_spec c "-") as [->|H1]; [by cbn in Hd|].
    destruct (Ascii.eqb_spec c "+") as [->|H2]; [by cbn in Hd|].
    rewrite <- Hd. by destruct c as [[] [] [] [] [] [] [] []].
  - destruct n as [|p|p]; [lia|lia|].
    change (str_of_Z (Z.neg p)) with (String "-" (str_of_Z (Z.pos p))).
    change (Z.opp <$> digits (str_of_Z (Z.pos p)) = Some (Z.neg p)).
    by rewrite digits_str_of_Z.
Qed.

Lemma truthy_strip_str_of_Z n : truthy (strip (str_of_Z n)) = true.
Proof.
  pose proof (parse_int_str_of_Z n) as H. destruct (str_of_Z n) as [|c r]; [done|].
  apply truthy_strip. revert H. clear. destruct c as [[] [] [] [] [] [] [] []]; by vm_compute.
Qed.

End Py.

(** ** Strings *)

Lemma append_assoc (a b c : string) : ((a ++ b) ++ c = a ++ b ++ c)%string.
Proof. induction a as [|d a IH]; [done|]. exact (f_equal (String d) IH). Qed.
Lemma append_nil_r (a : string) : (a ++ "" = a)%string.
Proof. induction a as [|d a IH]; [done|]. exact (f_equal (String d) IH). Qed.
Lemma startswith_cons c p d s :
  Py.startswith (String c p) (String d s) = if ascii_dec c d then Py.startswith p s else false.
Proof. done. Qed.
Lemma length_app_string a b : String.length (a ++ b)%string = (String.length a + String.length b)%nat.
Proof. induction a; simpl; auto. Qed.

(** ** Texts

    Strings all of whose characters satisfy a predicate. *)

Definition all_chars (P : ascii → bool) (s : string) : Prop :=
  Forall (λ c, P c = true) (list_ascii_of_string s).

Lemma all_chars_app P a b : all_chars P (a ++ b) ↔ all_chars P a ∧ all_chars P b.
Proof. unfold all_chars. by rewrite Py.list_ascii_of_app, Forall_app. Qed.

Lemma all_chars_weaken (P Q : ascii → bool) s :
  (∀ c, P c = true → Q c = true) → all_chars P s → all_chars Q s.
Proof. intros HPQ H. eapply Forall_impl; [exact H|exact HPQ]. Qed.

(** *** Text for shells and files *)

Definition alphanumeric (c : ascii) : bool :=
  let n := N_of_ascii c in
  ((48 <=? n) && (n <=? 57) || (65 <=? n) && (n <=? 90) || (97 <=? n) && (n <=? 122))%N.
Definition newline : string := String "010" EmptyString.
Definition dquoted (s : string) : string := String "034" (s ++ String "034" EmptyString).

(** [shlex.quote] on ASCII *)
Definition shell_safe (c : ascii) : bool :=
  alphanumeric c || existsb (Ascii.eqb c) ["_"; "@"; "%"; "+"; "="; ":"; ","; "."; "/"; "-"]%char.
Fixpoint escape_quotes (s : string) : string :=
  match s with
  | EmptyString => EmptyString
  | String c r => if Ascii.eqb c "'" then ("'" ++ dquoted "'" ++ "'" ++ escape_quotes r)%string
                  else String c (escape_quotes r)
  end.
Definition shlex_quote (s : string) : string :=
  if negb (Py.truthy s) then "''"
  else if List.forallb shell_safe (list_ascii_of_string s) then s
  else ("'" ++ escape_quotes s ++ "'")%string.

Lemma length_append (a b : string) :
  String.length (a ++ b) = (String.length a + String.length b)%nat.
Proof. induction a as [|c a IH]; [done|]. exact (f_equal S IH). Qed.
Lemma length_prefix_short n s : Py.len s ≤ n → Py.prefix_to n s = s.
Proof.
  unfold Py.len, Py.prefix_to. intros Hn.
  assert (H : ∀ u m, (String.length u ≤ m)%nat → String.substring 0 m u = u).
  { induction u as [|c r IH]; intros [|m]; simpl; try done; [lia|]. intros. by rewrite IH by lia. }
  apply H. lia.
Qed.

Definition is_digit_char (c : ascii) : bool := bool_decide (is_Some (Py.digit_value c)).

Lemma pretty_N_go_digits x t : all_chars is_digit_char t → all_chars is_digit_char (pretty_N_go x t).
Proof.
  revert t. induction (N.lt_wf_0 x) as [x _ IH]; intros t Ht.
  assert (x = 0 ∨ 0 < x)%N as [->|Hx] by lia; [by rewrite pretty_N_go_0|].
  rewrite pretty_N_go_step by done. apply IH; [by apply N.div_lt|].
  constructor; [|done]. unfold is_digit_char. rewrite Py.digit_value_pretty by (by apply N.mod_lt). done.
Qed.
Lemma str_of_Z_digits p : 0 ≤ p → all_chars is_digit_char (Py.str_of_Z p).
Proof.
  intros Hp. unfold Py.str_of_Z, pretty, pretty_Z. destruct p as [|p|p]; [by repeat constructor| |lia].
  unfold pretty, pretty_positive, pretty, pretty_N. rewrite decide_False by done.
  apply pretty_N_go_digits. constructor.
Qed.

Lemma strip_no_space s : all_chars (λ c, negb (Py.is_space c)) s → Py.strip s = s.
Proof.
  unfold all_chars. intros H. unfold Py.strip, Py.on_chars.
  rewrite <- (string_of_list_ascii_of_string s) at 2. f_equal.
  assert (Hid : ∀ l, Forall (λ c, negb (Py.is_space c) = true) l → Py.lstrip_by Py.is_space l = l).
  { intros l Hl. apply Py.lstrip_by_id. intros c r ->. inversion Hl; subst. by apply negb_true_iff. }
  unfold Py.strip_by, Py.rstrip_by. rewrite (Hid _ H), Hid; [apply rev_involutive|].
  by apply Forall_rev.
Qed.
Lemma strip_str_of_Z n : Py.strip (Py.str_of_Z n) = Py.str_of_Z n.
Proof.
  apply strip_no_space.
  assert (H : ∀ p, 0 ≤ p → all_chars (λ c, negb (Py.is_space c)) (Py.str_of_Z p)).
  { intros p Hp. eapply all_chars_weaken; [|by apply str_of_Z_digits].
    intros c Hc. destruct c as [[] [] [] [] [] [] [] []]; by vm_compute in Hc |- *. }
  destruct n as [|p|p]; [by apply H..|]. change (Py.str_of_Z (Z.neg p)) with (String "-" (Py.str_of_Z (Z.pos p))).
  constructor; [done|by apply H].
Qed.

Lemma until_none P s : all_chars (λ c, negb (P c)) s → Py.until P s = s.
Proof.
  induction s as [|c s IH]; intros H; [done|]. inversion H; subst. simpl.
  rewrite (proj1 (negb_true_iff _)) by done. f_equal. by apply IH.
Qed.

Lemma partition_host c a b : all_chars (λ d, negb (Ascii.eqb c d)) a →
  Py.partition c (a ++ String c b) = (a, Some b).
Proof.
  induction a as [|d a IH]; intros H; simpl; [by rewrite Ascii.eqb_refl|].
  inversion H; subst. rewrite (proj1 (negb_true_iff _)) by done. by rewrite IH.
Qed.

Lemma after_last_none c s : all_chars (λ d, negb (Ascii.eqb c d)) s → Py.after_last c s = None.
Proof.
  induction s as [|d s IH]; intros H; [done|]. inversion H; subst. simpl. rewrite IH by done.
  by rewrite (proj1 (negb_true_iff _)).
Qed.

Lemma all_chars_strip_by (P Q : ascii → bool) s : all_chars Q s → all_chars Q (Py.on_chars (Py.strip_by P) s).
Proof.
  unfold all_chars. rewrite Py.list_ascii_on_chars. unfold Py.strip_by, Py.rstrip_by.
  assert (Hl : ∀ l, Forall (λ c, Q c = true) l → Forall (λ c, Q c = true) (Py.lstrip_by P l)).
  { induction 1 as [|c l Hc Hl IH]; cbn; [done|]. destruct (P c); [done|by constructor]. }
  intros H. by apply Forall_rev, Hl, Forall_rev, Hl.
Qed.
Lemma all_chars_prefix P n s : all_chars P s → all_chars P (Py.prefix_to n s).
Proof.
  unfold Py.prefix_to. generalize (Z.to_nat n) as k. intros k H. revert k.
  induction s as [|c s IH]; intros [|k]; [done|done|by constructor|]. inversion H; subst.
  constructor; [done|]. by apply IH.
Qed.

(** ** State and exceptions

    A Python function that reads and writes the session and may raise is a
    computation [eff S E A]: it runs from a state to a new state and either a
    value or the exception.  The state at the [raise] is kept, as SQLAlchemy
    keeps the pending changes of a session until a rollback. *)

Definition eff (S E A : Type) : Type := S → S * (A + E).

Section effects.
Context {S E : Type}.

Definition raise {A} (e : E) : eff S E A := fun s => (s, inr e).
Definition gets {A} (f : S → A) : eff S E A := fun s => (s, inl (f s)).
Definition modify (f : S → S) : eff S E unit := fun s => (f s, inl tt).

#[global] Instance eff_ret : MRet (eff S E) := fun A a s => (s, inl a).
#[global] Instance eff_bind : MBind (eff S E) := fun A B k m s =>
  match m s with
  | (s', inl a) => k a s'
  | (s', inr e) => (s', inr e)
  end.

(** [try: m except e: h e]; the handler decides what it re-raises. *)
Definition try_except {A} (m : eff S E A) (h : E → eff S E A) : eff S E A :=
  fun s => match m s with
           | (s', inl a) => (s', inl a)
           | (s', inr e) => h e s'
           end.

(** [try: m ... else-result] with the exception as a value. *)
Definition attempt {A} (m : eff S E A) : eff S E (A + E) :=
  fun s => match m s with (s', r) => (s', inl r) end.

(** [try: m finally: f] *)
Definition finally {A} (m : eff S E A) (f : eff S E unit) : eff S E A :=
  fun s => match m s with
           | (s', r) => match f s' with
                        | (s'', inl _) => (s'', r)
                        | (s'', inr e) => (s'', inr e)
                        end
           end.

(** [if b: m] *)
Definition when (b : bool) (m : eff S E unit) : eff S E unit :=
  if b then m else mret tt.

(** [for x in l: body x] *)
Fixpoint for_each {A} (l : list A) (body : A → eff S E unit) : eff S E unit :=
  match l with
  | [] => mret tt
  | x :: r => body x ;; for_each r body
  end.

(** Weakest precondition with an exceptional postcondition. *)
Definition wp {A} (m : eff S E A) (Q : A → S → Prop) (X : E → S → Prop) (s : S) : Prop :=
  match m s with
  | (s', inl a) => Q a s'
  | (s', inr e) => X e s'
  end.

Lemma wp_ret {A} (a : A) (Q : A → S → Prop) X s : Q a s → wp (mret a) Q X s.
Proof. done. Qed.
Lemma wp_raise {A} (e : E) (Q : A → S → Prop) X s : X e s → wp (raise e) Q X s.
Proof. done. Qed.
Lemma wp_gets {A} (f : S → A) (Q : A → S → Prop) X s : Q (f s) s → wp (gets f) Q X s.
Proof. done. Qed.
Lemma wp_modify f (Q : unit → S → Prop) X s : Q tt (f s) → wp (modify f) Q X s.
Proof. done. Qed.
Lemma wp_bind {A B} (m : eff S E A) (k : A → eff S E B) Q X s :
  wp m (λ a, wp (k a) Q X) X s → wp (m ≫= k) Q X s.
Proof. unfold wp, mbind, eff_bind. by destruct (m s) as [s' [a|e]]. Qed.
Lemma wp_bind_inv {A B} (m : eff S E A) (k : A → eff S E B) Q X s :
  wp (m ≫= k) Q X s → wp m (λ a, wp (k a) Q X) X s.
Proof. unfold wp, mbind, eff_bind. by destruct (m s) as [s' [a|e]]. Qed.
Lemma wp_try {A} (m : eff S E A) h (Q : A → S → Prop) X s :
  wp m Q (λ e, wp (h e) Q X) s → wp (try_except m h) Q X s.
Proof. unfold wp, try_except. by destruct (m s) as [s' [a|e]]. Qed.
Lemma wp_attempt {A} (m : eff S E A) (Q : A + E → S → Prop) X s :
  wp m (λ a, Q (inl a)) (λ e, Q (inr e)) s → wp (attempt m) Q X s.
Proof. unfold wp, attempt. by destruct (m s) as [s' [a|e]]. Qed.
Lemma wp_finally {A} (m : eff S E A) f (Q : A → S → Prop) X s :
  wp m (λ a, wp f (λ _, Q a) X) (λ e, wp f (λ _, X e) X) s → wp (finally m f) Q X s.
Proof. unfold wp, finally. destruct (m s) as [s' [a|e]]; by destruct (f s') as [s'' [u|e']]. Qed.
(** A loop establishes any loop invariant [I] of its body. *)
Lemma wp_for_each {A} (l : list A) body (I : S → Prop) (Q : unit → S → Prop) X s :
  I s → (∀ x s', x ∈ l → I s' → wp (body x) (λ _, I) X s') → (∀ s', I s' → Q tt s') →
  wp (for_each l body) Q X s.
Proof.
  intros HI Hbody HQ. revert s HI.
  induction l as [|x l IH]; intros s HI; simpl; [apply wp_ret; auto|].
  apply wp_bind. pose proof (Hbody x s ltac:(left) HI) as Hx.
  unfold wp in Hx |- *. destruct (body x s) as [s' [u|e]]; [|done].
  apply IH; [|done]. intros y s'' Hy. apply Hbody. by right.
Qed.
Lemma wp_mono {A} (m : eff S E A) (Q Q' : A → S → Prop) (X X' : E → S → Prop) s :
  wp m Q X s → (∀ a s', Q a s' → Q' a s') → (∀ e s', X e s' → X' e s') →
  wp m Q' X' s.
Proof. unfold wp. destruct (m s) as [s' [a|e]]; eauto. Qed.
Lemma wp_any {A} (m : eff S E A) (Q : A → S → Prop) X s :
  (∀ a s', Q a s') → (∀ e s', X e s') → wp m Q X s.
Proof. intros HQ HX. unfold wp. by destruct (m s) as [s' [a|e]]. Qed.
Lemma wp_run {A} (m : eff S E A) Q X s s' r :
  m s = (s', r) → wp m Q X s → match r with inl a => Q a s' | inr e => X e s' end.
Proof. unfold wp. by intros ->. Qed.

(** [within R m]: whatever [m] does, returning or raising, relates the state
    before and after by [R].  For a preorder [R] it is closed under every
    combinator, which is how the frame conditions are proved. *)
Definition within {A} (R : S → S → Prop) (m : eff S E A) : Prop :=
  ∀ s, R s (m s).1.

Section closure.
Context (R : S → S → Prop) `{!PreOrder R}.
Lemma within_ret {A} (a : A) : within R (mret a).
Proof. intros s. simpl. reflexivity. Qed.
Lemma within_raise {A} (e : E) : within (A:=A) R (raise e).
Proof. intros s. simpl. reflexivity. Qed.
Lemma within_gets {A} (f : S → A) : within R (gets f).
Proof. intros s. simpl. reflexivity. Qed.
Lemma within_modify f : (∀ s, R s (f s)) → within R (modify f).
Proof. intros H s. apply H. Qed.
Lemma within_bind {A B} (m : eff S E A) (k : A → eff S E B) :
  within R m → (∀ a, within R (k a)) → within R (m ≫= k).
Proof.
  intros Hm Hk s. unfold mbind, eff_bind. specialize (Hm s).
  destruct (m s) as [s' [a|e]]; simpl in *; [|done].
  etrans; [exact Hm|apply Hk].
Qed.
Lemma within_try {A} (m : eff S E A) h :
  within R m → (∀ e, within R (h e)) → within R (try_except m h).
Proof.
  intros Hm Hh s. unfold try_except. specialize (Hm s).
  destruct (m s) as [s' [a|e]]; simpl in *; [done|].
  etrans; [exact Hm|apply Hh].
Qed.
Lemma within_attempt {A} (m : eff S E A) : within R m → within R (attempt m).
Proof. intros Hm s. unfold attempt. specialize (Hm s). by destruct (m s). Qed.
Lemma within_when b m : (b = true → within R m) → within R (when b m).
Proof. destruct b; [by intros H; apply H|intros _; apply within_ret]. Qed.
Lemma within_for_each {A} (l : list A) body :
  (∀ x, within R (body x)) → within R (for_each l body).
Proof.
  intros H. induction l as [|x l IH]; simpl; [apply within_ret|].
  by apply within_bind.
Qed.
End closure.
End effects.

Create HintDb within discriminated.
#[export] Hint Resolve within_ret within_raise within_gets within_bind within_try
  within_attempt within_when within_for_each : within.

(** ** Generic lemmas on maps and options *)

(** A primary key no row of [m] has: what the database's sequence hands out. *)
Definition max_key (l : list Z) : Z := foldr Z.max 0 l.
Definition fresh_key {A} (m : gmap Z A) : Z := 1 + max_key (map_to_list m).*1.

Lemma max_key_bound l k : k ∈ l → k ≤ max_key l.
Proof. unfold max_key. induction 1; simpl; lia. Qed.

Lemma fresh_key_bound {A} (m : gmap Z A) k v : m !! k = Some v → k < fresh_key m.
Proof.
  intros H. unfold fresh_key.
  enough (k ≤ max_key (map_to_list m).*1) by lia.
  apply max_key_bound, list_elem_of_fmap. exists (k, v). split; [done|].
  by apply elem_of_map_to_list.
Qed.

Lemma fresh_key_fresh {A} (m : gmap Z A) : m !! fresh_key m = None.
Proof.
  destruct (m !! fresh_key m) eqn:H; [|done].
  apply fresh_key_bound in H. lia.
Qed.

(** UPDATE of an existing row. *)
Lemma alter_row {A} (f : A → A) (m : gmap Z A) k v : m !! k = Some v → alter f k m = <[k := f v]> m.
Proof.
  intros Hk. apply map_eq. intros i. rewrite lookup_alter, lookup_insert.
  case_decide; [subst|done]. by rewrite Hk.
Qed.

Lemma alter_lookup_same {A} (f : A → A) (m : gmap Z A) k :
  alter f k m !! k = f <$> m !! k.
Proof. rewrite lookup_alter. by case_decide. Qed.

Lemma alter_lookup_other {A} (f : A → A) (m : gmap Z A) k j :
  k ≠ j → alter f k m !! j = m !! j.
Proof. intros. rewrite lookup_alter. by case_decide. Qed.

(** [select(..).where(P)].first(): some row of the table satisfying [P]. *)
(** [SELECT count()] of the rows that satisfy [P] *)
Definition count_rows {A} (P : Z * A → bool) (m : gmap Z A) : Z :=
  Z.of_nat (length (List.filter P (map_to_list m))).

Definition first_row {A} (P : Z * A → Prop) `{∀ kv, Decision (P kv)} (m : gmap Z A)
    : option (Z * A) :=
  head (filter P (map_to_list m)).

Lemma first_row_Some {A} (P : Z * A → Prop) `{∀ kv, Decision (P kv)} (m : gmap Z A) k v :
  first_row P m = Some (k, v) → m !! k = Some v ∧ P (k, v).
Proof.
  unfold first_row. intros Hh. apply head_Some_elem_of, list_elem_of_filter in Hh as [? Hin].
  by apply elem_of_map_to_list in Hin.
Qed.

Lemma first_row_None {A} (P : Z * A → Prop) `{∀ kv, Decision (P kv)} (m : gmap Z A) k v :
  first_row P m = None → m !! k = Some v → ¬ P (k, v).
Proof.
  unfold first_row. intros Hh Hk HP. apply head_None in Hh.
  assert (Hin : (k, v) ∈ filter P (map_to_list m)).
  { apply list_elem_of_filter. split; [done|]. by apply elem_of_map_to_list. }
  rewrite Hh in Hin. by apply not_elem_of_nil in Hin.
Qed.

Lemma first_row_unique {A} (P : Z * A → Prop) `{∀ kv, Decision (P kv)} (m : gmap Z A) k v :
  m !! k = Some v → P (k, v) → (∀ k' v', m !! k' = Some v' → P (k', v') → k' = k) →
  first_row P m = Some (k, v).
Proof.
  intros Hk HP Hu. destruct (first_row P m) as [[k' v']|] eqn:Hf.
  - apply first_row_Some in Hf as [Hk' HP']. rewrite (Hu _ _ Hk' HP') in Hk' |- *. congruence.
  - exfalso. by eapply first_row_None.
Qed.

(** ** Unique columns *)

Section unique.
Context {R C : Type}.
Implicit Types (m : gmap Z R) (f : R → C) (P : R → Prop).

(** No two rows that satisfy [P] agree on [f]. *)
Definition unique_by P f m : Prop :=
  ∀ i j x y, m !! i = Some x → m !! j = Some y → P x → P y → f x = f y → i = j.
Lemma unique_by_insert P f m k x : unique_by P f m → m !! k = None →
  (P x → ∀ j y, m !! j = Some y → P y → f y ≠ f x) → unique_by P f (<[k := x]> m).
Proof.
  intros Hu Hk Hx i j a b Hi Hj Ha Hb He.
  destruct (decide (i = k)) as [->|Hik]; destruct (decide (j = k)) as [->|Hjk]; [done| | |].
  - rewrite lookup_insert_eq in Hi. rewrite lookup_insert_ne in Hj by done. apply (inj Some) in Hi. subst a.
    by destruct (Hx Ha j b Hj Hb).
  - rewrite lookup_insert_eq in Hj. rewrite lookup_insert_ne in Hi by done. apply (inj Some) in Hj. subst b.
    by destruct (Hx Hb i a Hi Ha).
  - rewrite lookup_insert_ne in Hi, Hj by done. eauto.
Qed.
(** Rows that are dropped, or changed elsewhere, or no longer satisfy [P] *)
Lemma unique_by_within P f m m' :
  (∀ k x', m' !! k = Some x' → P x' → ∃ x, m !! k = Some x ∧ P x ∧ f x = f x') → unique_by P f m → unique_by P f m'.
Proof.
  intros H Hu i j a b Hi Hj Ha Hb He. destruct (H i a Hi Ha) as (x & Hx & Px & Ex). destruct (H j b Hj Hb) as (y & Hy & Py' & Ey).
  apply (Hu i j x y); congruence.
Qed.
End unique.
Definition always {R} (_ : R) : Prop := True.
#[global] Hint Extern 0 (always _) => exact I : core.

(** Keys come from the sequence. *)
Definition below_seq {R} (m : gmap Z R) (seq : Z) : Prop := ∀ k x, m !! k = Some x → k < seq.
Lemma below_seq_fresh {R} (m : gmap Z R) seq : below_seq m seq → m !! seq = None.
Proof. intros H. apply eq_None_not_Some. intros [x Hx]. apply H in Hx. lia. Qed.
Lemma below_seq_insert {R} (m : gmap Z R) seq x : below_seq m seq → below_seq (<[seq := x]> m) (seq + 1).
Proof. intros H k y. destruct (decide (k = seq)) as [->|]; [lia|]. rewrite lookup_insert_ne by done. intros Hk%H. lia. Qed.
Lemma below_seq_within {R} (m m' : gmap Z R) seq : (∀ k x, m' !! k = Some x → is_Some (m !! k)) → below_seq m seq → below_seq m' seq.
Proof. intros H Hb k x Hk. destruct (H k x Hk) as [y Hy]. by eapply Hb. Qed.
Lemma alter_lookup_Some {R} (f : R → R) (m : gmap Z R) k i y : alter f k m !! i = Some y →
  ∃ x, m !! i = Some x ∧ (y = x ∨ y = f x).
Proof.
  destruct (decide (k = i)) as [<-|]; [rewrite lookup_alter_eq|rewrite lookup_alter_ne by done]; [|by eauto].
  intros (x & Hx & ->)%fmap_Some. eauto.
Qed.
Lemma alter_insert {R} (f : R → R) (m : gmap Z R) k x : m !! k = Some x → alter f k m = <[k := f x]> m.
Proof.
  intros Hk. apply map_eq. intros i. destruct (decide (i = k)) as [->|]; [by rewrite lookup_alter_eq, lookup_insert_eq, Hk|].
  by rewrite lookup_alter_ne, lookup_insert_ne.
Qed.
