(* ===== verification/Traces.v ===== *)
(** * Traces: the calls a computation makes

    A collaborator whose answers are written down next to the state, and the two
    frame relations of such a log: it grows by calls that satisfy a predicate
    ([only_calls]), or by calls each justified by what was in the log before
    ([justified]). *)

From S2P Require Import Prelude.

Section logs.
Context {W C : Type}.

(** The log grows by calls that satisfy [P]. *)
Definition only_calls (P : C → Prop) (s s' : W * list C) : Prop :=
  ∃ calls, s'.2 = s.2 ++ calls ∧ Forall P calls.
#[export] Instance only_calls_preorder P : PreOrder (only_calls P).
Proof.
  split; [intros s; exists []; by rewrite app_nil_r|].
  intros a b c (l1 & H1 & F1) (l2 & H2 & F2). exists (l1 ++ l2). rewrite H2, H1, app_assoc. split; [done|].
  by apply Forall_app_2.
Qed.

(** The log grows by calls each of which [J] allows after the ones before it. *)
Inductive extends (J : list C → C → Prop) (l : list C) : list C → Prop :=
| extends_refl : extends J l l
| extends_snoc l' c : extends J l l' → J l' c → extends J l (l' ++ [c]).
Lemma extends_trans J a b c : extends J a b → extends J b c → extends J a c.
Proof. intros Hab Hbc. induction Hbc; [done|by apply extends_snoc]. Qed.
Lemma extends_in J a b c : extends J a b → c ∈ a → c ∈ b.
Proof. intros H Hc. induction H; [done|]. apply elem_of_app. by left. Qed.
Lemma extends_before J l l' : extends J l l' → ∀ l1 c l2, l' = l ++ l1 ++ c :: l2 → J (l ++ l1) c.
Proof.
  induction 1 as [|l' c' H IH HJ]; intros l1 c l2 E.
  - apply (f_equal length) in E. rewrite !length_app in E. cbn in E. lia.
  - destruct l2 as [|x l2] using rev_ind.
    + rewrite app_assoc in E. apply app_inj_tail in E as [-> ->]. done.
    + apply (IH l1 c l2). rewrite app_comm_cons, !app_assoc in E. apply app_inj_tail in E as [-> _]. by rewrite <- app_assoc.
Qed.
Definition justified (J : list C → C → Prop) (s s' : W * list C) : Prop := extends J s.2 s'.2.
#[export] Instance justified_preorder J : PreOrder (justified J).
Proof. split; [intros s; apply extends_refl|intros a b c; apply extends_trans]. Qed.

(** A call that is written down when it is made, or with its answer when it has one. *)
Definition traced {E A} (call : C) (op : W → W * (A + E)) : eff (W * list C) E A := λ s,
  let '(w, r) := op s.1 in ((w, s.2 ++ [call]), r).
Definition answered {E A} (ev : A → C) (op : W → W * (A + E)) : eff (W * list C) E A := λ s,
  let '(w, r) := op s.1 in ((w, match r with inl a => s.2 ++ [ev a] | inr _ => s.2 end), r).
Lemma within_traced (P : C → Prop) {E A} call (op : W → W * (A + E)) : P call → within (only_calls P) (traced call op).
Proof. intros H s. unfold traced. destruct (op s.1) as [w r]. exists [call]. by repeat constructor. Qed.

(** [sound J m Q]: every call of [m] is justified, and [Q] holds if it returns. *)
Definition sound (J : list C → C → Prop) {E A} (m : eff (W * list C) E A) (Q : A → W * list C → Prop)
    (s : W * list C) : Prop :=
  wp m (λ a s', justified J s s' ∧ Q a s') (λ _ s', justified J s s') s.
Lemma sound_ret J {E A} (a : A) Q s : Q a s → sound (E:=E) J (mret a) Q s.
Proof. intros H. apply wp_ret. by split. Qed.
Lemma sound_bind J {E A B} (m : eff (W * list C) E A) (k : A → eff (W * list C) E B) Q R s :
  sound J m Q s → (∀ a s', justified J s s' → Q a s' → sound J (k a) R s') → sound J (m ≫= k) R s.
Proof.
  intros Hm Hk. apply wp_bind. eapply wp_mono; [exact Hm| |done]. intros a s1 [H1 HQ].
  eapply wp_mono; [by apply Hk| |]; intros x s2; [intros [H2 ?]|intros H2]; [split; [|done]|]; by etrans.
Qed.
Lemma sound_mono J {E A} (m : eff (W * list C) E A) (Q Q' : A → W * list C → Prop) s :
  sound J m Q s → (∀ a s', justified J s s' → Q a s' → Q' a s') → sound J m Q' s.
Proof. intros H HQ. eapply wp_mono; [exact H| |done]. intros a s' [H1 H2]. split; [done|by apply HQ]. Qed.
Lemma sound_caught J {E A} (m : eff (W * list C) E A) (a : A) s :
  sound J m (λ _ _, True) s → sound J (try_except m (λ _, mret a)) (λ _ _, True) s.
Proof. intros H. apply wp_try. eapply wp_mono; [exact H|done|]. intros e s' H'. by apply wp_ret. Qed.
Lemma sound_traced J {E A} call (op : W → W * (A + E)) s : J s.2 call →
  sound J (traced call op) (λ _ s', call ∈ s'.2) s.
Proof.
  intros H. unfold sound, wp, traced. destruct (op s.1) as [w [a|e]]; [split|]; cbn; try by apply extends_snoc; [apply extends_refl|].
  apply elem_of_app. right. by apply list_elem_of_singleton.
Qed.
Lemma sound_answered J {E A} (ev : A → C) (op : W → W * (A + E)) s : (∀ l a, J l (ev a)) →
  sound J (answered ev op) (λ a s', ev a ∈ s'.2) s.
Proof.
  intros H. unfold sound, wp, answered. destruct (op s.1) as [w [a|e]]; [split|]; cbn.
  - by apply extends_snoc; [apply extends_refl|].
  - apply elem_of_app. right. by apply list_elem_of_singleton.
  - apply extends_refl.
Qed.
Lemma sound_log J {E A} (m : eff (W * list C) E A) Q w : sound J m Q (w, []) →
  let '((w', log), res) := m (w, []) in
  (∀ l1 c l2, log = l1 ++ c :: l2 → J l1 c) ∧ (∀ a, res = inl a → Q a (w', log)).
Proof.
  unfold sound, wp. destruct (m (w, [])) as [[w' log] res]. intros H.
  assert (Hj : extends J [] log) by (destruct res; [by destruct H|done]).
  split; [intros l1 c l2 ->; by apply (extends_before _ _ _ Hj l1 c l2)|]. intros a ->. by destruct H.
Qed.
End logs.
