(* ===== verification/PyValues.v ===== *)
(** * PyValues: Python values as JSON and YAML loads give them

    The values the code takes apart with [isinstance] and [dict.get]: the document of
    route-admin, and what the container engine reports.  A dict is an association
    list in insertion order. *)

From S2P Require Import Prelude.

(** ** Values *)

(** What [json.loads] and [yaml.safe_load] return: a float, a date and the like is its
    [str()] and truth value; a mapping key that is not a string is [None]. *)
#[warnings="-register-all"]
Inductive PyValue :=
  | PNone | PBool (b : bool) | PInt (n : Z) | PStr (s : string)
  | PScalar (text : string) (truth : bool)
  | PList (l : list PyValue) | PDict (m : list (option string * PyValue)).

(** [str()] of a list or a dict. *)
Class PyRepr := py_repr : PyValue → string.

Definition py_truthy (v : PyValue) : bool :=
  match v with
  | PNone => false
  | PBool b => b
  | PInt n => negb (n =? 0)
  | PStr s => Py.truthy s
  | PScalar _ b => b
  | PList l => match l with [] => false | _ => true end
  | PDict m => match m with [] => false | _ => true end
  end.

Definition py_str `{PyRepr} (v : PyValue) : string :=
  match v with
  | PNone => "None"
  | PBool b => if b then "True" else "False"
  | PInt n => Py.str_of_Z n
  | PStr s | PScalar s _ => s
  | PList _ | PDict _ => py_repr v
  end.

(** [isinstance(v, dict)], [isinstance(v, list)] *)
Definition as_map (v : PyValue) : option (list (option string * PyValue)) :=
  match v with PDict m => Some m | _ => None end.
Definition as_list (v : PyValue) : option (list PyValue) :=
  match v with PList l => Some l | _ => None end.

(** A dict in insertion order. *)
Fixpoint dict_get (k : string) (m : list (option string * PyValue)) : option PyValue :=
  match m with
  | [] => None
  | (k', v) :: m => if bool_decide (k' = Some k) then Some v else dict_get k m
  end.
Fixpoint dict_set (k : string) (v : PyValue) (m : list (option string * PyValue)) : list (option string * PyValue) :=
  match m with
  | [] => [(Some k, v)]
  | (k', v') :: m => if bool_decide (k' = Some k) then (k', v) :: m else (k', v') :: dict_set k v m
  end.
Definition dict_of (items : list (string * PyValue)) : list (option string * PyValue) :=
  foldl (λ m kv, dict_set kv.1 kv.2 m) [] items.

(** The keys that are strings *)
Definition dict_names (m : list (option string * PyValue)) : list string := omap fst m.

(** [v.get(k) or d] *)
Definition get_or (k : string) (d : PyValue) (m : list (option string * PyValue)) : PyValue :=
  match dict_get k m with
  | Some v => if py_truthy v then v else d
  | None => d
  end.

(** ** Lemmas on dictionaries *)

Section dicts.
Implicit Types (m : list (option string * PyValue)) (l : list (string * PyValue)).

Lemma dict_get_set k k' v m : dict_get k' (dict_set k v m) = if bool_decide (k = k') then Some v else dict_get k' m.
Proof.
  assert (Hk : bool_decide (Some k = Some k') = bool_decide (k = k')) by (apply bool_decide_ext; naive_solver).
  induction m as [|[j w] m IH]; simpl; [by rewrite Hk|].
  destruct (bool_decide_reflect (j = Some k)) as [->|Hj]; simpl; rewrite ?Hk.
  - by destruct (bool_decide (k = k')).
  - rewrite IH. destruct (bool_decide_reflect (k = k')) as [<-|]; [|done].
    by rewrite bool_decide_eq_false_2.
Qed.
Lemma dict_keys_set k v m j : j ∈ (dict_set k v m).*1 ↔ j = Some k ∨ j ∈ m.*1.
Proof.
  induction m as [|[i w] m IH]; simpl; [set_solver|].
  case_bool_decide as E; simpl; [subst; set_solver|]. rewrite !elem_of_cons, IH. tauto.
Qed.
Lemma dict_set_nodup k v m : NoDup m.*1 → NoDup (dict_set k v m).*1.
Proof.
  induction m as [|[i w] m IH]; simpl; intros Hm; [by repeat constructor; set_solver|].
  apply NoDup_cons in Hm as [Hi Hm]. case_bool_decide as E; simpl; apply NoDup_cons; [done|].
  split; [|auto]. rewrite dict_keys_set. by intros [?|?].
Qed.

Lemma dict_fold_nodup l m : NoDup m.*1 → NoDup (foldl (λ m kv, dict_set kv.1 kv.2 m) m l).*1.
Proof. revert m. induction l as [|kv l IH]; intros m Hm; [done|]. by apply IH, dict_set_nodup. Qed.
Lemma dict_fold_keys l m j :
  j ∈ (foldl (λ m kv, dict_set kv.1 kv.2 m) m l).*1 ↔ j ∈ m.*1 ∨ (∃ k, j = Some k ∧ k ∈ l.*1).
Proof.
  revert m. induction l as [|[k v] l IH]; intros m; simpl; [set_solver|].
  rewrite IH, dict_keys_set. simpl. set_solver.
Qed.
Lemma dict_fold_get_other l m k : k ∉ l.*1 →
  dict_get k (foldl (λ m kv, dict_set kv.1 kv.2 m) m l) = dict_get k m.
Proof.
  revert m. induction l as [|[j v] l IH]; intros m Hk; [done|]. simpl in *.
  rewrite IH by set_solver. rewrite dict_get_set, bool_decide_eq_false_2 by set_solver. done.
Qed.
Lemma dict_fold_get l m k v : NoDup l.*1 → (k, v) ∈ l →
  dict_get k (foldl (λ m kv, dict_set kv.1 kv.2 m) m l) = Some v.
Proof.
  revert m. induction l as [|[j w] l IH]; intros m Hl Hin; [by apply not_elem_of_nil in Hin|].
  simpl in *. apply NoDup_cons in Hl as [Hj Hl]. apply elem_of_cons in Hin as [[= -> ->]|Hin]; [|by apply IH].
  rewrite dict_fold_get_other by done. by rewrite dict_get_set, bool_decide_eq_true_2.
Qed.

Lemma dict_of_get l k v : NoDup l.*1 → (k, v) ∈ l → dict_get k (dict_of l) = Some v.
Proof. apply dict_fold_get. Qed.
Lemma dict_of_names l k : k ∈ dict_names (dict_of l) ↔ k ∈ l.*1.
Proof.
  unfold dict_names. rewrite list_elem_of_omap. split.
  - intros ([j v] & Hin & [= Hj]). simpl in Hj. subst j.
    assert (Hk : Some k ∈ (dict_of l).*1) by (apply list_elem_of_fmap; by exists (Some k, v)).
    apply dict_fold_keys in Hk as [Hk|(k' & [= ->] & ?)]; [by apply not_elem_of_nil in Hk|done].
  - intros Hk. assert (Hk' : Some k ∈ (dict_of l).*1) by (apply dict_fold_keys; eauto).
    apply list_elem_of_fmap in Hk' as (kv & Hj & Hin). by exists kv.
Qed.

Lemma dict_set_in k v m j w : (Some j, w) ∈ dict_set k v m → j = k ∧ w = v ∨ (Some j, w) ∈ m.
Proof.
  induction m as [|[i x] m IH]; simpl.
  - intros [= -> ->]%list_elem_of_singleton. by left.
  - destruct (bool_decide_reflect (i = Some k)) as [->|_]; rewrite !elem_of_cons.
    + intros [[= -> ->]|]; [by left|by right; right].
    + intros [|Hin%IH]; [by right; left|tauto].
Qed.
Lemma dict_of_in l k v : (Some k, v) ∈ dict_of l → (k, v) ∈ l.
Proof.
  unfold dict_of. enough (∀ m, (Some k, v) ∈ foldl (λ m kv, dict_set kv.1 kv.2 m) m l → (k, v) ∈ l ∨ (Some k, v) ∈ m) as H.
  { intros Hin. apply H in Hin as [|Hin]; [done|]. by apply not_elem_of_nil in Hin. }
  induction l as [|[j w] l IH]; intros m; simpl; [by right|]. rewrite elem_of_cons.
  intros [|[[-> ->]|]%dict_set_in]%IH; auto.
Qed.

(** The values YAML text carries without loss: mappings with distinct string keys. *)
Fixpoint dumpable (v : PyValue) : bool :=
  match v with
  | PNone | PBool _ | PInt _ | PStr _ => true
  | PScalar _ _ => false
  | PList l => forallb dumpable l
  | PDict m => bool_decide (NoDup m.*1) && forallb (λ kv, bool_decide (is_Some kv.1) && dumpable kv.2) m
  end.

Lemma dumpable_entries m :
  dumpable (PDict m) = true ↔ NoDup m.*1 ∧ Forall (λ kv, is_Some kv.1 ∧ dumpable kv.2 = true) m.
Proof.
  cbn [dumpable]. rewrite andb_true_iff, bool_decide_eq_true. apply and_iff_compat_l.
  rewrite forallb_forall, Forall_forall. apply forall_proper. intros kv.
  by rewrite <- list_elem_of_In, andb_true_iff, bool_decide_eq_true.
Qed.
Lemma dumpable_dict_set k v m : dumpable v = true → dumpable (PDict m) = true →
  dumpable (PDict (dict_set k v m)) = true.
Proof.
  rewrite !dumpable_entries. intros Hv [Hm Hf]. split; [by apply dict_set_nodup|].
  clear Hm. induction m as [|[i w] m IH]; simpl; [by repeat constructor; eauto|].
  apply Forall_cons in Hf as [[H1 H2] Hf]. case_bool_decide as E; subst; constructor; auto.
Qed.
Lemma dumpable_dict_of l : Forall (λ kv, dumpable kv.2 = true) l → dumpable (PDict (dict_of l)) = true.
Proof.
  intros Hl. unfold dict_of. assert (Hm : dumpable (PDict []) = true) by done.
  revert Hm. generalize (@nil (option string * PyValue)).
  induction Hl as [|[k v] l Hv Hl IH]; intros m Hm; [done|]. by apply IH, dumpable_dict_set.
Qed.
Lemma dumpable_strings (l : list string) : dumpable (PList (PStr <$> l)) = true.
Proof. induction l; [done|]. exact IHl. Qed.
End dicts.
