(* ===== verification/Ipaddress.v ===== *)
(** * Ipaddress: addresses and networks of Python's [ipaddress]

    The part of the standard library's [ipaddress] module that
    libs/topology/db_topology_adapter.py relies on: parsing and printing of IPv4
    addresses and networks ([strict=False]), membership, overlap, host ranges and
    subnets, with addresses as integers below 2^32, as in the module.  An IPv6
    literal is only recognised: the topology code refuses every one. *)

From S2P Require Import Prelude.

(** ** Text *)

(** [s.split(c)] *)
Fixpoint split_on (c : ascii) (s : string) : list string :=
  match s with
  | EmptyString => [EmptyString]
  | String d r =>
      if Ascii.eqb c d then EmptyString :: split_on c r
      else match split_on c r with
           | [] => [String d EmptyString]
           | w :: ws => String d w :: ws
           end
  end.

Fixpoint char_in (c : ascii) (s : string) : bool :=
  match s with
  | EmptyString => false
  | String d r => Ascii.eqb c d || char_in c r
  end.

(** ** IPv4 addresses *)

Definition all_ones : Z := 2 ^ 32 - 1.

(** [IPv4Address._parse_octet] *)
Definition parse_octet (s : string) : option Z :=
  n ← Py.digits s;
  if (3 <? Py.len s) || (negb (String.eqb s "0") && Py.startswith "0" s) || (255 <? n) then None
  else Some n.

(** [IPv4Address._ip_int_from_string] *)
Definition parse_ipv4 (s : string) : option Z :=
  match split_on "." s with
  | [w1; w2; w3; w4] =>
      a ← parse_octet w1; b ← parse_octet w2; c ← parse_octet w3; d ← parse_octet w4;
      Some (((a * 256 + b) * 256 + c) * 256 + d)
  | _ => None
  end.

(** [str(IPv4Address(a))] *)
Definition str_of_ipv4 (a : Z) : string :=
  (Py.str_of_Z (a / 16777216 mod 256) ++ "." ++ Py.str_of_Z (a / 65536 mod 256) ++ "." ++
   Py.str_of_Z (a / 256 mod 256) ++ "." ++ Py.str_of_Z (a mod 256))%string.

(** ** IPv6 literals *)

Definition is_hex (c : ascii) : bool :=
  let n := Z.of_N (N_of_ascii c) in
  ((48 <=? n) && (n <=? 57)) || ((65 <=? n) && (n <=? 70)) || ((97 <=? n) && (n <=? 102)).
Definition is_hextet (s : string) : bool :=
  Py.truthy s && (Py.len s <=? 4) && forallb is_hex (list_ascii_of_string s).

(** Positions strictly between the first and the last part that are empty. *)
Definition gaps (parts : list string) : list Z :=
  List.filter (λ i, String.eqb (default "x"%string (parts !! Z.to_nat i)) "")
    (seqZ 1 (Z.of_nat (length parts) - 2)).

Definition ipv6_parts_ok (parts : list string) : bool :=
  let n := Z.of_nat (length parts) in
  let first := default ""%string (head parts) in
  let lst := default ""%string (last parts) in
  if (n <? 3) || (9 <? n) then false
  else match gaps parts with
  | [] => (n =? 8) && forallb is_hextet parts
  | [skip] =>
      let hi := if Py.truthy first then skip else skip - 1 in
      let lo := if Py.truthy lst then n - skip - 1 else n - skip - 2 in
      (Py.truthy first || (hi =? 0)) && (Py.truthy lst || (lo =? 0)) &&
      (hi + lo <? 8) &&
      forallb is_hextet (take (Z.to_nat hi) parts) &&
      forallb is_hextet (drop (Z.to_nat (n - lo)) parts)
  | _ => false
  end.

(** A trailing dotted quad counts as two hextets. *)
Definition ipv6_hextets (s : string) : option (list string) :=
  let parts := split_on ":" s in
  match last parts with
  | Some l =>
      if char_in "." l then
        match parse_ipv4 l with
        | Some _ => if 3 <=? Z.of_nat (length parts)
                    then Some (take (length parts - 1) parts ++ ["0"; "0"]%string) else None
        | None => None
        end
      else Some parts
  | None => None
  end.

Definition is_ipv6_address (s : string) : bool :=
  let '(addr, scope) := Py.partition "%" s in
  match scope with Some z => Py.truthy z && negb (char_in "%" z) | None => true end &&
  negb (char_in "/" s) &&
  match ipv6_hextets addr with Some parts => ipv6_parts_ok parts | None => false end.

Definition is_ipv6_network (s : string) : bool :=
  match split_on "/" s with
  | [a] => is_ipv6_address a
  | [a; m] => is_ipv6_address a && match Py.digits m with Some p => p <=? 128 | None => false end
  | _ => false
  end.

(** ** Addresses of either family *)

Inductive IpAddress : Set := V4 (a : Z) | V6 (text : string).
#[export] Instance ip_address_eq_dec : EqDecision IpAddress.
Proof. solve_decision. Defined.

(** [ipaddress.ip_address(s)], [None] for the [ValueError] *)
Definition ip_address (s : string) : option IpAddress :=
  match parse_ipv4 s with
  | Some a => Some (V4 a)
  | None => if is_ipv6_address s then Some (V6 s) else None
  end.

(** ** IPv4 networks *)

Record IPv4Network := mkNetwork { net_address : Z; net_prefixlen : Z }.
#[export] Instance network_eq_dec : EqDecision IPv4Network.
Proof. solve_decision. Defined.

(** [_ip_int_from_prefix] *)
Definition netmask (p : Z) : Z := Z.lxor all_ones (Z.shiftr all_ones p).
Definition hostmask (p : Z) : Z := Z.lxor (netmask p) all_ones.
Definition broadcast (n : IPv4Network) : Z := Z.lor (net_address n) (hostmask (net_prefixlen n)).

(** [IPv4Network((a, p), strict=False)] *)
Definition network_of (a p : Z) : IPv4Network := mkNetwork (Z.land a (netmask p)) p.

(** [_prefix_from_ip_int]: the prefix length with this mask *)
Definition prefix_from_ip_int (ip : Z) : option Z :=
  List.find (λ p, netmask p =? ip) (seqZ 0 33).

(** [_make_netmask] of a string *)
Definition parse_netmask (m : string) : option Z :=
  match Py.digits m with
  | Some p => if p <=? 32 then Some p else None
  | None =>
      ip ← parse_ipv4 m;
      match prefix_from_ip_int ip with
      | Some p => Some p
      | None => prefix_from_ip_int (Z.lxor ip all_ones)
      end
  end.

Definition parse_ipv4_net (s : string) : option IPv4Network :=
  match split_on "/" s with
  | [a] => ip ← parse_ipv4 a; Some (network_of ip 32)
  | [a; m] => ip ← parse_ipv4 a; p ← parse_netmask m; Some (network_of ip p)
  | _ => None
  end.

Inductive IpNetwork : Set := Net4 (n : IPv4Network) | Net6 (text : string).

(** [ipaddress.ip_network(s, strict=False)] *)
Definition ip_network (s : string) : option IpNetwork :=
  match parse_ipv4_net s with
  | Some n => Some (Net4 n)
  | None => if is_ipv6_network s then Some (Net6 s) else None
  end.

(** [str(net)] *)
Definition str_of_network (n : IPv4Network) : string :=
  (str_of_ipv4 (net_address n) ++ "/" ++ Py.str_of_Z (net_prefixlen n))%string.

(** [a in net] *)
Definition contains4 (n : IPv4Network) (a : Z) : bool :=
  Z.land a (netmask (net_prefixlen n)) =? net_address n.
Definition ip_in_net (n : IPv4Network) (ip : IpAddress) : bool :=
  match ip with V4 a => contains4 n a | V6 _ => false end.

(** [a.overlaps(b)] *)
Definition overlaps (a b : IPv4Network) : bool :=
  contains4 a (net_address b) || contains4 a (broadcast b) ||
  contains4 b (net_address a) || contains4 b (broadcast a).

(** [list(net.hosts())] *)
Definition hosts (n : IPv4Network) : list Z :=
  if net_prefixlen n =? 32 then [net_address n]
  else if net_prefixlen n =? 31 then seqZ (net_address n) (broadcast n + 1 - net_address n)
  else seqZ (net_address n + 1) (broadcast n - net_address n - 1).

(** [list(net.subnets(new_prefix=p))] for a prefix no shorter than the network's *)
Definition subnets (n : IPv4Network) (p : Z) : list IPv4Network :=
  let step := Z.shiftr (hostmask (net_prefixlen n) + 1) (p - net_prefixlen n) in
  (λ i, mkNetwork (net_address n + i * step) p) <$>
    seqZ 0 ((broadcast n + 1 - net_address n) / step).

Example ipv4_net_text : parse_ipv4_net "10.128.16.7/20" = Some (mkNetwork 176164864 20).
Proof. vm_compute. reflexivity. Qed.
Example ipv4_net_masks :
  parse_ipv4_net "10.0.0.9/255.255.255.0" = Some (mkNetwork 167772160 24) ∧
  parse_ipv4_net "10.0.0.9/0.0.0.255" = Some (mkNetwork 167772160 24) ∧
  parse_ipv4_net "10.0.0.09/24" = None ∧ parse_ipv4_net "10.0.0.1/33" = None.
Proof. vm_compute. done. Qed.
Example ipv6_texts :
  forallb is_ipv6_address ["::"; "::1"; "fe80::1%eth0"; "1:2:3:4:5:6:7:8"; "::ffff:10.0.0.1"; "1::"]%string = true ∧
  existsb is_ipv6_address ["1:2"; ":::"; "1::2::3"; "1:2:3:4:5:6:7:8:9"; "12345::"; ":1:2:3:4:5:6:7"; "fe80::1%"]%string = false.
Proof. vm_compute. done. Qed.

(** ** Printing and parsing are inverse *)

Definition ipv4 (a : Z) : Prop := 0 ≤ a < 2 ^ 32.
#[export] Instance ipv4_dec a : Decision (ipv4 a).
Proof. unfold ipv4. apply _. Defined.

(** A property of a small range, by evaluation. *)
Lemma all_in_range (lo n : Z) (P : Z → bool) :
  forallb P (seqZ lo n) = true → ∀ x, lo ≤ x < lo + n → P x = true.
Proof. intros H x Hx. eapply forallb_forall in H; [done|]. apply list_elem_of_In, elem_of_seqZ. lia. Qed.

Lemma parse_octet_str n : 0 ≤ n < 256 → parse_octet (Py.str_of_Z n) = Some n.
Proof.
  intros Hn.
  pose proof (all_in_range 0 256 (λ n, match parse_octet (Py.str_of_Z n) with Some m => m =? n | None => false end)
    ltac:(vm_compute; reflexivity) n ltac:(lia)) as H.
  cbv beta in H. destruct (parse_octet _) as [m|]; [|done]. apply Z.eqb_eq in H. by subst.
Qed.

Lemma octet_no_sep c n : c = "."%char ∨ c = "/"%char → 0 ≤ n < 256 → char_in c (Py.str_of_Z n) = false.
Proof.
  intros Hc Hn. apply negb_true_iff.
  destruct Hc as [->| ->];
    [apply (all_in_range 0 256 (λ n, negb (char_in "." (Py.str_of_Z n))))
    |apply (all_in_range 0 256 (λ n, negb (char_in "/" (Py.str_of_Z n))))];
    try lia; vm_compute; reflexivity.
Qed.

Lemma split_on_none c s : char_in c s = false → split_on c s = [s].
Proof.
  induction s as [|d r IH]; simpl; [done|]. intros [-> H]%orb_false_iff. by rewrite IH.
Qed.
Lemma split_on_app c s r :
  char_in c s = false → split_on c (s ++ String c "" ++ r) = s :: split_on c r.
Proof.
  induction s as [|d s IH]; simpl; [by rewrite Ascii.eqb_refl|].
  intros [-> H]%orb_false_iff. by rewrite IH.
Qed.
Lemma char_in_app c a b : char_in c (a ++ b) = char_in c a || char_in c b.
Proof. induction a as [|d a IH]; simpl; [done|]. by rewrite IH, orb_assoc. Qed.

Lemma octets_value a : ipv4 a →
  ((a / 16777216 mod 256 * 256 + a / 65536 mod 256) * 256 + a / 256 mod 256) * 256 + a mod 256 = a.
Proof.
  intros Ha. unfold ipv4 in Ha. change (2 ^ 32) with 4294967296 in Ha.
  replace (a / 16777216) with (a / 256 / 256 / 256) by (rewrite !Z.div_div by lia; done).
  replace (a / 65536) with (a / 256 / 256) by (rewrite !Z.div_div by lia; done).
  rewrite (Z.mod_small (a / 256 / 256 / 256)).
  - pose proof (Z.div_mod a 256). pose proof (Z.div_mod (a / 256) 256).
    pose proof (Z.div_mod (a / 256 / 256) 256). lia.
  - rewrite !Z.div_div by lia. split; [apply Z.div_pos; lia|apply Z.div_lt_upper_bound; lia].
Qed.

Lemma parse_ipv4_octets w1 w2 w3 w4 :
  0 ≤ w1 < 256 → 0 ≤ w2 < 256 → 0 ≤ w3 < 256 → 0 ≤ w4 < 256 →
  parse_ipv4 (Py.str_of_Z w1 ++ "." ++ Py.str_of_Z w2 ++ "." ++ Py.str_of_Z w3 ++ "." ++ Py.str_of_Z w4)
  = Some (((w1 * 256 + w2) * 256 + w3) * 256 + w4).
Proof.
  intros H1 H2 H3 H4. unfold parse_ipv4.
  rewrite !split_on_app by (apply octet_no_sep; auto).
  rewrite split_on_none by (apply octet_no_sep; auto).
  by rewrite !parse_octet_str.
Qed.

Lemma parse_str_of_ipv4 a : ipv4 a → parse_ipv4 (str_of_ipv4 a) = Some a.
Proof.
  intros Ha. unfold str_of_ipv4. rewrite parse_ipv4_octets by (apply Z.mod_pos_bound; lia).
  f_equal. by apply octets_value.
Qed.

Lemma str_of_ipv4_no_slash a : char_in "/" (str_of_ipv4 a) = false.
Proof.
  unfold str_of_ipv4. rewrite !char_in_app. cbn.
  rewrite !octet_no_sep by (auto; apply Z.mod_pos_bound; lia). done.
Qed.

Lemma ip_address_str a : ipv4 a → ip_address (str_of_ipv4 a) = Some (V4 a).
Proof. intros H. unfold ip_address. by rewrite parse_str_of_ipv4. Qed.

(** *** Accepted texts are canonical *)

Lemma digit_value_char c d : Py.digit_value c = Some d → 0 ≤ d < 10 ∧ c = ascii_of_N (Z.to_N (48 + d)).
Proof.
  unfold Py.digit_value. destruct ((48 <=? _) && _) eqn:E; [|done]. intros [= <-].
  apply andb_true_iff in E as [H1%Z.leb_le H2%Z.leb_le]. split; [lia|].
  replace (Z.to_N (48 + (Z.of_N (N_of_ascii c) - 48))) with (N_of_ascii c) by lia.
  by rewrite ascii_N_embedding.
Qed.

Definition digit_char (d : Z) : ascii := ascii_of_N (Z.to_N (48 + d)).
Definition octet_text (s : string) : bool :=
  match parse_octet s with
  | Some n => (0 <=? n) && (n <? 256) && String.eqb s (Py.str_of_Z n)
  | None => true
  end.

Lemma octet_text_digits :
  forallb (λ a, octet_text (String (digit_char a) "") &&
    forallb (λ b, octet_text (String (digit_char a) (String (digit_char b) "")) &&
      forallb (λ c, octet_text (String (digit_char a) (String (digit_char b) (String (digit_char c) ""))))
        (seqZ 0 10)) (seqZ 0 10)) (seqZ 0 10) = true.
Proof. vm_compute. reflexivity. Qed.

Lemma octet_text_all s : octet_text s = true.
Proof.
  destruct (Py.digits s) as [v|] eqn:Hd; [|unfold octet_text, parse_octet; by rewrite Hd].
  destruct (3 <? Py.len s) eqn:Hl; [unfold octet_text, parse_octet; by rewrite Hd, Hl|].
  apply Z.ltb_ge in Hl. unfold Py.len in Hl. pose proof octet_text_digits as H.
  assert (Hc : ∀ P d, forallb P (seqZ 0 10) = true → 0 ≤ d < 10 → P d = true)
    by (intros P d HP Hx; apply (all_in_range 0 10 P HP); lia).
  unfold Py.digits in Hd. destruct s as [|c1 s]; [done|]. cbn [Py.truthy String.eqb negb] in Hd.
  cbn in Hd. destruct (Py.digit_value c1) as [d1|] eqn:E1; [|done].
  apply digit_value_char in E1 as [H1 ->]. apply (Hc _ d1) in H; [|done].
  apply andb_true_iff in H as [Ha H]. destruct s as [|c2 s]; [done|].
  cbn in Hd. destruct (Py.digit_value c2) as [d2|] eqn:E2; [|done].
  apply digit_value_char in E2 as [H2 ->]. apply (Hc _ d2) in H; [|done].
  apply andb_true_iff in H as [Hb H]. destruct s as [|c3 s]; [done|].
  cbn in Hd. destruct (Py.digit_value c3) as [d3|] eqn:E3; [|done].
  apply digit_value_char in E3 as [H3 ->]. apply (Hc _ d3) in H; [|done].
  destruct s as [|c4 s]; [done|]. cbn [String.length] in Hl. lia.
Qed.

Lemma parse_octet_canonical s n : parse_octet s = Some n → 0 ≤ n < 256 ∧ s = Py.str_of_Z n.
Proof.
  intros H. pose proof (octet_text_all s) as Ht. unfold octet_text in Ht. rewrite H in Ht.
  apply andb_true_iff in Ht as [[H1%Z.leb_le H2%Z.ltb_lt]%andb_true_iff H3%String.eqb_eq]. done.
Qed.

Lemma split_on_nonempty c s : split_on c s ≠ [].
Proof. destruct s as [|d r]; [done|]. simpl. destruct (Ascii.eqb c d); [done|]. by destruct (split_on c r). Qed.
Lemma split_on_concat c s : String.concat (String c "") (split_on c s) = s.
Proof.
  induction s as [|d r IH]; [done|]. pose proof (split_on_nonempty c r) as Hne. simpl.
  destruct (Ascii.eqb_spec c d) as [<-|]; (destruct (split_on c r) as [|w ws]; [done|]).
  - change (String c (String.concat (String c "") (w :: ws)) = String c r). by rewrite IH.
  - transitivity (String d (String.concat (String c "") (w :: ws))); [by destruct ws|by rewrite IH].
Qed.

Lemma parse_ipv4_canonical s a : parse_ipv4 s = Some a → ipv4 a ∧ s = str_of_ipv4 a.
Proof.
  unfold parse_ipv4. rewrite <- (split_on_concat "." s) at 2.
  destruct (split_on "." s) as [|w1 [|w2 [|w3 [|w4 [|]]]]]; try done. cbn [mbind option_bind].
  destruct (parse_octet w1) as [n1|] eqn:E1; [|done]. destruct (parse_octet w2) as [n2|] eqn:E2; [|done].
  destruct (parse_octet w3) as [n3|] eqn:E3; [|done]. destruct (parse_octet w4) as [n4|] eqn:E4; [|done].
  cbn [mbind option_bind]. intros [= <-].
  apply parse_octet_canonical in E1 as [H1 ->], E2 as [H2 ->], E3 as [H3 ->], E4 as [H4 ->].
  split; [unfold ipv4; change (2 ^ 32) with 4294967296; lia|].
  unfold str_of_ipv4.
  assert (Hq : ∀ q r, 0 ≤ r < 256 → (q * 256 + r) / 256 = q)
    by (intros q r Hr; rewrite Z.div_add_l by lia; rewrite Z.div_small by done; lia).
  assert (Hm : ∀ q r, 0 ≤ r < 256 → (q * 256 + r) mod 256 = r)
    by (intros q r Hr; rewrite Z.add_comm, Z_mod_plus_full; by apply Z.mod_small).
  replace ((((n1 * 256 + n2) * 256 + n3) * 256 + n4) / 16777216) with n1.
  2:{ change 16777216 with (256 * 256 * 256). rewrite <- !Z.div_div by lia. by rewrite !Hq. }
  replace ((((n1 * 256 + n2) * 256 + n3) * 256 + n4) / 65536) with (n1 * 256 + n2).
  2:{ change 65536 with (256 * 256). rewrite <- !Z.div_div by lia. by rewrite !Hq. }
  rewrite !Hq, !Hm, Z.mod_small by done. reflexivity.
Qed.

(** Two texts of the same address are the same text. *)
Lemma parse_ipv4_inj s t a : parse_ipv4 s = Some a → parse_ipv4 t = Some a → s = t.
Proof. intros [_ ->]%parse_ipv4_canonical [_ ->]%parse_ipv4_canonical. done. Qed.

(** ** Networks as intervals *)

(** The number of addresses of a network. *)
Definition net_size (n : IPv4Network) : Z := 2 ^ (32 - net_prefixlen n).

(** What [IPv4Network(_, strict=False)] builds. *)
Definition wf_net (n : IPv4Network) : Prop :=
  0 ≤ net_prefixlen n ≤ 32 ∧ ipv4 (net_address n) ∧ (net_size n | net_address n).

(** The addresses of a network. *)
Definition in_net (n : IPv4Network) (a : Z) : Prop :=
  net_address n ≤ a < net_address n + net_size n.

Lemma mask_values p : 0 ≤ p ≤ 32 →
  netmask p = Z.ldiff (Z.ones 32) (Z.ones (32 - p)) ∧ hostmask p = Z.ones (32 - p).
Proof.
  intros Hp.
  pose proof (all_in_range 0 33 (λ p, (netmask p =? Z.ldiff (Z.ones 32) (Z.ones (32 - p))) &&
                                       (hostmask p =? Z.ones (32 - p)))
                ltac:(vm_compute; reflexivity) p ltac:(lia)) as H.
  by apply andb_true_iff in H as [H1%Z.eqb_eq H2%Z.eqb_eq].
Qed.

Lemma land_netmask a p : ipv4 a → 0 ≤ p ≤ 32 →
  Z.land a (netmask p) = a / 2 ^ (32 - p) * 2 ^ (32 - p).
Proof.
  intros Ha Hp. destruct (mask_values p Hp) as [-> _].
  rewrite Z.ldiff_land, Z.land_assoc, Z.land_ones by lia. rewrite (Z.mod_small a) by done.
  rewrite <- Z.ldiff_land, Z.ldiff_ones_r by lia. by rewrite Z.shiftl_mul_pow2, Z.shiftr_div_pow2 by lia.
Qed.

Lemma net_size_pos n : wf_net n → 0 < net_size n.
Proof. intros ((? & ?) & _). unfold net_size. apply Z.pow_pos_nonneg; lia. Qed.

Lemma size_divides p : 0 ≤ p ≤ 32 → (2 ^ (32 - p) | 2 ^ 32).
Proof.
  intros Hp. exists (2 ^ p). rewrite <- Z.pow_add_r by lia. f_equal. lia.
Qed.

Lemma network_of_wf a p : ipv4 a → 0 ≤ p ≤ 32 → wf_net (network_of a p) ∧ in_net (network_of a p) a.
Proof.
  intros Ha Hp. assert (Hs : 0 < 2 ^ (32 - p)) by (apply Z.pow_pos_nonneg; lia).
  unfold wf_net, in_net, network_of, net_size. cbn [net_address net_prefixlen].
  rewrite land_netmask by done. pose proof (Z.div_mod a (2 ^ (32 - p))) as Hd.
  pose proof (Z.mod_pos_bound a (2 ^ (32 - p)) Hs). pose proof (Z.div_pos a (2 ^ (32 - p))).
  unfold ipv4 in *. split_and!; try lia; try nia. by exists (a / 2 ^ (32 - p)).
Qed.

(** The last address is an IPv4 address too. *)
Lemma wf_net_bound n : wf_net n → net_address n + net_size n ≤ 2 ^ 32.
Proof.
  intros Hn. pose proof (net_size_pos n Hn) as Hs. destruct Hn as (Hp & [_ Ha] & [k Hk]).
  destruct (size_divides _ Hp) as [m Hm]. fold (net_size n) in Hm.
  rewrite Hk, Hm in *. assert (k < m) by nia. nia.
Qed.

Lemma in_net_ipv4 n a : wf_net n → in_net n a → ipv4 a.
Proof. intros Hn. pose proof (wf_net_bound n Hn). destruct Hn as (_ & [? ?] & _). unfold in_net, ipv4. lia. Qed.

Lemma contains4_spec n a : wf_net n → ipv4 a → contains4 n a = true ↔ in_net n a.
Proof.
  intros Hn Ha. pose proof (net_size_pos n Hn) as Hs. destruct Hn as (Hp & _ & [k Hk]).
  unfold contains4. rewrite Z.eqb_eq, land_netmask by done. fold (net_size n).
  unfold in_net. rewrite Hk. pose proof (Z.mod_pos_bound a (net_size n) Hs).
  split; intros H'.
  - rewrite <- H'. pose proof (Z.div_mod a (net_size n)). lia.
  - f_equal. symmetry. apply Z.div_unique with (a - k * net_size n); lia.
Qed.

Lemma broadcast_spec n : wf_net n → broadcast n = net_address n + net_size n - 1.
Proof.
  intros Hn. pose proof (net_size_pos n Hn). destruct Hn as (Hp & _ & Hd).
  unfold broadcast. destruct (mask_values _ Hp) as [_ ->].
  assert (Hl : Z.land (net_address n) (Z.ones (32 - net_prefixlen n)) = 0).
  { rewrite Z.land_ones by lia. by apply Z.mod_divide; [unfold net_size in *; lia|]. }
  rewrite <- Z.lxor_lor by done. rewrite <- Z.add_nocarry_lxor by done.
  rewrite Z.ones_equiv. unfold net_size. lia.
Qed.

Lemma hosts_in_net n h : wf_net n → h ∈ hosts n → in_net n h.
Proof.
  intros Hn. pose proof (net_size_pos n Hn). unfold hosts, in_net. rewrite broadcast_spec by done.
  destruct (_ =? 32) eqn:E1; [rewrite list_elem_of_singleton; lia|].
  destruct (_ =? 31) eqn:E2; rewrite elem_of_seqZ; lia.
Qed.

(** In a network of more than two addresses no host is the first or the last. *)
Lemma hosts_inner n h : wf_net n → net_prefixlen n ≤ 30 → h ∈ hosts n →
  net_address n < h < broadcast n.
Proof.
  intros Hn Hp. unfold hosts.
  destruct (_ =? 32) eqn:E1; [lia|]. destruct (_ =? 31) eqn:E2; [lia|]. rewrite elem_of_seqZ. lia.
Qed.

Lemma hosts_NoDup n : NoDup (hosts n).
Proof.
  unfold hosts. destruct (_ =? 32); [apply NoDup_singleton|]. destruct (_ =? 31); apply NoDup_seqZ.
Qed.

Lemma overlaps_spec a b : wf_net a → wf_net b →
  overlaps a b = true ↔ ∃ x, in_net a x ∧ in_net b x.
Proof.
  intros Ha Hb. pose proof (net_size_pos a Ha). pose proof (net_size_pos b Hb).
  pose proof (wf_net_bound a Ha). pose proof (wf_net_bound b Hb).
  assert (Hia : ipv4 (net_address a)) by apply Ha. assert (Hib : ipv4 (net_address b)) by apply Hb.
  assert (Hba : ipv4 (broadcast a)) by (rewrite broadcast_spec by done; unfold ipv4 in *; lia).
  assert (Hbb : ipv4 (broadcast b)) by (rewrite broadcast_spec by done; unfold ipv4 in *; lia).
  unfold overlaps. rewrite !orb_true_iff, !contains4_spec by done. rewrite !broadcast_spec by done.
  unfold in_net. split.
  - intros [[[Hx|Hx]|Hx]|Hx]; [exists (net_address b)|exists (net_address b + net_size b - 1)
      |exists (net_address a)|exists (net_address a + net_size a - 1)]; lia.
  - intros [x ?]. destruct (Z.le_gt_cases (net_address a) (net_address b)); [do 3 left|left; right]; lia.
Qed.

Lemma overlaps_comm a b : wf_net a → wf_net b → overlaps a b = overlaps b a.
Proof.
  intros. apply eq_true_iff_eq. rewrite !overlaps_spec by done. by split; intros (x & ? & ?); exists x.
Qed.

(** *** Parsed and printed networks *)

Lemma parse_netmask_range m p : parse_netmask m = Some p → 0 ≤ p ≤ 32.
Proof.
  unfold parse_netmask. destruct (Py.digits m) as [v|] eqn:E.
  - destruct (v <=? 32) eqn:Ev; [|done]. intros [= <-]. split; [|lia].
    unfold Py.digits in E. destruct (Py.truthy m); [|done].
    assert (H : ∀ s acc v, 0 ≤ acc → Py.digits_from acc s = Some v → 0 ≤ v).
    { induction s as [|c s IH]; simpl; intros acc v' Ha Hd; [congruence|].
      destruct (Py.digit_value c) as [d|] eqn:Ed; [|done]. apply digit_value_char in Ed as [Hr _].
      simpl in Hd. apply IH in Hd; lia. }
    by apply H in E.
  - destruct (parse_ipv4 m) as [ip|]; [|done]. cbn.
    assert (H : ∀ ip q, prefix_from_ip_int ip = Some q → 0 ≤ q ≤ 32).
    { intros ip' q Hq. apply find_some in Hq as [Hq _]. apply list_elem_of_In, elem_of_seqZ in Hq. lia. }
    destruct (prefix_from_ip_int ip) eqn:E1; intros Hp; [simplify_eq|]; eauto.
Qed.

Lemma parse_ipv4_net_wf s n : parse_ipv4_net s = Some n → wf_net n.
Proof.
  unfold parse_ipv4_net. destruct (split_on "/" s) as [|a [|m [|]]]; try done.
  - destruct (parse_ipv4 a) as [ip|] eqn:E; [|done]. intros [= <-].
    apply parse_ipv4_canonical in E as [Hip _]. by apply network_of_wf.
  - destruct (parse_ipv4 a) as [ip|] eqn:E; [|done]. cbn.
    destruct (parse_netmask m) as [p|] eqn:Em; [|done]. intros [= <-].
    apply parse_ipv4_canonical in E as [Hip _]. apply parse_netmask_range in Em. by apply network_of_wf.
Qed.

(** A well-formed network is its own masked form. *)
Lemma network_of_wf_id n : wf_net n → network_of (net_address n) (net_prefixlen n) = n.
Proof.
  intros Hn. pose proof (net_size_pos n Hn) as Hs. destruct Hn as (Hp & Ha & Hd).
  unfold network_of. rewrite land_netmask by done. fold (net_size n).
  destruct Hd as [k Hk]. rewrite Hk at 1. rewrite Z.div_mul by lia. rewrite <- Hk. by destruct n.
Qed.

Lemma parse_str_of_network n : wf_net n → parse_ipv4_net (str_of_network n) = Some n.
Proof.
  intros Hn. pose proof Hn as (Hp & Ha & _). unfold parse_ipv4_net, str_of_network.
  assert (Hns : char_in "/" (Py.str_of_Z (net_prefixlen n)) = false)
    by (apply octet_no_sep; [by right|lia]).
  rewrite (split_on_app "/") by apply str_of_ipv4_no_slash. rewrite split_on_none by done.
  rewrite parse_str_of_ipv4 by done. cbn [mbind option_bind]. unfold parse_netmask.
  rewrite Py.digits_str_of_Z by lia. rewrite (proj2 (Z.leb_le _ _)) by lia. cbn.
  by rewrite network_of_wf_id.
Qed.

Lemma ip_network_str n : wf_net n → ip_network (str_of_network n) = Some (Net4 n).
Proof. intros H. unfold ip_network. by rewrite parse_str_of_network. Qed.

(** *** Subnets *)

Lemma subnets_wf n p c : wf_net n → net_prefixlen n ≤ p ≤ 32 → c ∈ subnets n p →
  wf_net c ∧ net_prefixlen c = p ∧ (∀ x, in_net c x → in_net n x) ∧ (net_size c | net_address c - net_address n).
Proof.
  intros Hn Hp. pose proof (net_size_pos n Hn) as Hs. pose proof (wf_net_bound n Hn) as Hb.
  unfold subnets. rewrite broadcast_spec by done. pose proof Hn as (Hpn & Ha & Hd).
  destruct (mask_values _ Hpn) as [_ ->]. rewrite Z.ones_equiv, Z.shiftr_div_pow2 by lia.
  replace (Z.pred (2 ^ (32 - net_prefixlen n)) + 1) with (2 ^ (32 - p) * 2 ^ (p - net_prefixlen n))
    by (rewrite <- Z.pow_add_r by lia; replace (32 - p + (p - net_prefixlen n)) with (32 - net_prefixlen n); lia).
  rewrite Z.div_mul by (apply Z.pow_nonzero; lia).
  assert (Hsz : net_size n = 2 ^ (p - net_prefixlen n) * 2 ^ (32 - p)).
  { unfold net_size. rewrite <- Z.pow_add_r by lia. f_equal. lia. }
  replace (net_address n + net_size n - 1 + 1 - net_address n) with (net_size n) by lia.
  rewrite Hsz at 1. rewrite Z.div_mul by (apply Z.pow_nonzero; lia).
  intros (i & -> & Hi%elem_of_seqZ)%list_elem_of_fmap.
  assert (Hq : 0 < 2 ^ (32 - p)) by (apply Z.pow_pos_nonneg; lia).
  unfold wf_net, in_net, net_size. cbn [net_address net_prefixlen].
  fold (net_size n) in *. rewrite Z.add_simpl_l.
  assert (Hdiv : (2 ^ (32 - p) | net_address n)).
  { etrans; [|exact Hd]. rewrite Hsz. apply Z.divide_factor_r. }
  split_and!; try lia; try done.
  - unfold ipv4 in *. nia.
  - apply Z.divide_add_r; [done|apply Z.divide_factor_r].
  - intros x Hx. nia.
  - apply Z.divide_factor_r.
Qed.

(** Blocks of one size, all aligned, overlap only when equal. *)
Lemma aligned_disjoint a b : wf_net a → wf_net b → net_prefixlen a = net_prefixlen b →
  overlaps a b = true → a = b.
Proof.
  intros Ha Hb Hp Ho. apply overlaps_spec in Ho as (x & Hx & Hy); [|done..].
  pose proof (net_size_pos a Ha) as Hs. destruct Ha as (_ & _ & [i Hi]), Hb as (_ & _ & [j Hj]).
  assert (Hsz : net_size b = net_size a) by (unfold net_size; by rewrite Hp).
  rewrite Hsz in *. unfold in_net in *. rewrite Hsz in *.
  assert (i = j) by nia. subst j. destruct a, b; simpl in *; f_equal; congruence.
Qed.
