(* ===== verification/Digest.v ===== *)
(** * Digest: [hashlib.sha256(text.encode()).hexdigest()]

    SHA-256 of an ASCII text, from FIPS 180-4, executable: the topology code derives
    interface names from it.  The round constants are computed from the roots of
    the first primes, as the standard defines them. *)

From S2P Require Import Prelude.

Section words.

Definition word (x : Z) : Z := x mod 2 ^ 32.
Definition rotr (n x : Z) : Z := Z.lor (Z.shiftr x n) (word (Z.shiftl x (32 - n))).

(** The first [n] primes. *)
Definition is_prime (n : Z) : bool := forallb (λ d, negb (n mod d =? 0)) (seqZ 2 (Z.sqrt n - 1)).
Definition primes (n : nat) : list Z := take n (List.filter is_prime (seqZ 2 400)).

(** Integer cube root, bit by bit. *)
Definition cbrt (n : Z) : Z :=
  foldl (λ r b, let r' := r + Z.shiftl 1 (39 - b) in if r' * r' * r' <=? n then r' else r) 0 (seqZ 0 40).

(** The first 32 fractional bits of the cube roots and the square roots. *)
Definition round_constants : list Z :=
  Eval vm_compute in (λ p, word (cbrt (Z.shiftl p 96))) <$> primes 64.
Definition initial_hash : list Z :=
  Eval vm_compute in (λ p, word (Z.sqrt (Z.shiftl p 64))) <$> primes 8.

Definition small_sigma (a b c x : Z) : Z := Z.lxor (rotr a x) (Z.lxor (rotr b x) (Z.shiftr x c)).
Definition big_sigma (a b c x : Z) : Z := Z.lxor (rotr a x) (Z.lxor (rotr b x) (rotr c x)).
Definition choose (x y z : Z) : Z := Z.lxor z (Z.land x (Z.lxor y z)).
Definition majority (x y z : Z) : Z := Z.lor (Z.land x y) (Z.land z (Z.lor x y)).

(** The message schedule, newest word first. *)
Definition extend_schedule (ws : list Z) : list Z :=
  word (small_sigma 17 19 10 (nth 1 ws 0) + nth 6 ws 0 + small_sigma 7 18 3 (nth 14 ws 0) + nth 15 ws 0) :: ws.
Definition schedule (block : list Z) : list Z := rev (Nat.iter 48 extend_schedule (rev block)).

Definition round (h : list Z) (kw : Z * Z) : list Z :=
  match h with
  | [a; b; c; d; e; f; g; i] =>
      let t := i + big_sigma 6 11 25 e + choose e f g + kw.1 + kw.2 in
      [word (t + big_sigma 2 13 22 a + majority a b c); a; b; c; word (d + t); e; f; g]
  | _ => h
  end.
Definition compress (h block : list Z) : list Z :=
  zip_with (λ x y, word (x + y)) h (foldl round h (zip round_constants (schedule block))).

(** Big-endian words of a byte list, blocks of sixteen words. *)
Fixpoint words_of (bs : list Z) : list Z :=
  match bs with
  | a :: b :: c :: d :: r => ((a * 256 + b) * 256 + c) * 256 + d :: words_of r
  | _ => []
  end.
Fixpoint blocks_of (fuel : nat) (ws : list Z) : list (list Z) :=
  match fuel, ws with
  | S k, _ :: _ => take 16 ws :: blocks_of k (drop 16 ws)
  | _, _ => []
  end.

Definition padded (bs : list Z) : list Z :=
  let n := Z.of_nat (length bs) in
  bs ++ 128 :: replicate (Z.to_nat ((55 - n) mod 64)) 0 ++
  ((λ i, Z.shiftr (8 * n) (56 - 8 * i) mod 256) <$> seqZ 0 8).

Definition sha256_words (bs : list Z) : list Z :=
  let ws := words_of (padded bs) in foldl compress initial_hash (blocks_of (length ws) ws).

Definition hex_char (d : Z) : ascii := ascii_of_N (Z.to_N (if d <? 10 then 48 + d else 87 + d)).
Definition hex_word (w : Z) : list ascii := (λ i, hex_char (Z.shiftr w (28 - 4 * i) mod 16)) <$> seqZ 0 8.
End words.

Definition sha256_hexdigest (s : string) : string :=
  string_of_list_ascii
    (mjoin (hex_word <$> sha256_words ((λ c, Z.of_N (N_of_ascii c)) <$> list_ascii_of_string s))).

(** The test vectors of the standard. *)
Example sha256_empty :
  sha256_hexdigest "" = "e3b0c44298fc1c149afbf4c8996fb92427ae41e4649b934ca495991b7852b855"%string.
Proof. vm_compute. reflexivity. Qed.
Example sha256_two_blocks :
  sha256_hexdigest "abcdbcdecdefdefgefghfghighijhijkijkljklmklmnlmnomnopnopq" =
  "248d6a61d20638b8e5c026930c3e6039a33ce45964ff2167f6ecedd419db06c1"%string.
Proof. vm_compute. reflexivity. Qed.

(** ** Shape of the digest *)

Definition is_hex_lower (c : ascii) : bool :=
  let n := Z.of_N (N_of_ascii c) in ((48 <=? n) && (n <=? 57)) || ((97 <=? n) && (n <=? 102)).

Lemma hex_char_lower d : 0 ≤ d < 16 → is_hex_lower (hex_char d) = true.
Proof.
  intros Hd.
  assert (H : forallb (λ d, is_hex_lower (hex_char d)) (seqZ 0 16) = true) by (vm_compute; reflexivity).
  eapply forallb_forall in H; [done|]. apply list_elem_of_In, elem_of_seqZ. lia.
Qed.

Lemma round_length h kw : length (round h kw) = length h.
Proof. by destruct h as [|? [|? [|? [|? [|? [|? [|? [|? [|]]]]]]]]]. Qed.
Lemma compress_length h b : length (compress h b) = length h.
Proof.
  unfold compress. rewrite length_zip_with.
  assert (H : ∀ l g, length (foldl round g l) = length g).
  { induction l as [|x l IH]; intros g; simpl; [done|]. by rewrite IH, round_length. }
  rewrite H. lia.
Qed.
Lemma sha256_words_length bs : length (sha256_words bs) = 8%nat.
Proof.
  unfold sha256_words. change 8%nat with (length initial_hash). generalize initial_hash.
  generalize (blocks_of (length (words_of (padded bs))) (words_of (padded bs))).
  induction l as [|b l IH]; intros h; simpl; [done|]. by rewrite IH, compress_length.
Qed.

Lemma length_string_of_list l : String.length (string_of_list_ascii l) = length l.
Proof. induction l; simpl; congruence. Qed.

(** Sixty-four lowercase hexadecimal digits. *)
Lemma sha256_hexdigest_shape s :
  String.length (sha256_hexdigest s) = 64%nat ∧
  Forall (λ c, is_hex_lower c = true) (list_ascii_of_string (sha256_hexdigest s)).
Proof.
  unfold sha256_hexdigest. set (bs := _ <$> list_ascii_of_string s).
  rewrite length_string_of_list, list_ascii_of_string_of_list_ascii. split.
  - pose proof (sha256_words_length bs) as Hl. revert Hl. generalize (sha256_words bs).
    intros [|? [|? [|? [|? [|? [|? [|? [|? [|]]]]]]]]]; done.
  - apply Forall_forall. intros c Hc. apply list_elem_of_join in Hc as (l & Hc & Hl).
    apply list_elem_of_fmap in Hl as (w & -> & _). unfold hex_word in Hc.
    apply list_elem_of_fmap in Hc as (i & -> & _). apply hex_char_lower, Z.mod_pos_bound. lia.
Qed.
