(* ===== verification/Models.v ===== *)
(** * Models: the rows of the control-plane database

    The tables of [src/backend/app/services/*/models] that the modelled code
    reads and writes, their enumerations, the exceptions the services raise,
    the settings they consult, and [Db], one database session's view of all the
    tables.  A row is identified by its primary key, the key of its map.
    Columns no modelled code reads or writes are left out.

    - times are microseconds since the epoch ([seconds] converts);
    - a CPU amount (a float number of cores in the source) is a whole number of
      nano-cores, so the order and sums of amounts are exact;
    - a column of JSON text that the code only passes on is an opaque string. *)

From S2P Require Import Prelude.

Abbreviation time := Z (only parsing).
Definition seconds (n : Z) : Z := n * 1000000.
Abbreviation cpu := Z (only parsing).
Definition cores (n : Z) : Z := n * 1000000000.

(** code-server's port in a workspace container (libs/runtime/models.py) *)
Definition WORKSPACE_IDE_CONTAINER_PORT : Z := 8080.

(** ** Enumerations *)

Module WorkspaceStatus.
Inductive workspace_status : Set := CREATING | PENDING | STARTING | RUNNING | STOPPING | STOPPED | RESTARTING | UPDATING | ERROR | DELETING | DELETED.
#[export] Instance workspace_status_eq_dec : EqDecision workspace_status.
Proof. solve_decision. Defined.
Definition value (s : workspace_status) : string :=
  match s with
  | CREATING => "CREATING"
  | PENDING => "PENDING"
  | STARTING => "STARTING"
  | RUNNING => "RUNNING"
  | STOPPING => "STOPPING"
  | STOPPED => "STOPPED"
  | RESTARTING => "RESTARTING"
  | UPDATING => "UPDATING"
  | ERROR => "ERROR"
  | DELETING => "DELETING"
  | DELETED => "DELETED"
  end%string.
End WorkspaceStatus.
Export (hints) WorkspaceStatus.
Abbreviation workspace_status := WorkspaceStatus.workspace_status (only parsing).

Module WorkspaceJobStatus.
Inductive workspace_job_status : Set := QUEUED | RUNNING | SUCCEEDED | FAILED | CANCELLED.
#[export] Instance workspace_job_status_eq_dec : EqDecision workspace_job_status.
Proof. solve_decision. Defined.
End WorkspaceJobStatus.
Export (hints) WorkspaceJobStatus.
Abbreviation workspace_job_status := WorkspaceJobStatus.workspace_job_status (only parsing).

Module WorkspaceJobType.
(** [Unrecognized] is any other string in the [type] column. *)
Inductive workspace_job_type : Set :=
| CREATE | START | STOP | RESTART | DELETE | UPDATE | RECONCILE_RUNTIME
| SNAPSHOT_CREATE | SNAPSHOT_RESTORE | REPO_IMPORT
| Unrecognized (raw : string).
#[export] Instance workspace_job_type_eq_dec : EqDecision workspace_job_type.
Proof. solve_decision. Defined.
End WorkspaceJobType.
Export (hints) WorkspaceJobType.
Abbreviation workspace_job_type := WorkspaceJobType.workspace_job_type (only parsing).

Module WorkspaceSnapshotStatus.
Inductive workspace_snapshot_status : Set := CREATING | AVAILABLE | FAILED | RESTORING.
#[export] Instance workspace_snapshot_status_eq_dec : EqDecision workspace_snapshot_status.
Proof. solve_decision. Defined.
End WorkspaceSnapshotStatus.
Export (hints) WorkspaceSnapshotStatus.
Abbreviation workspace_snapshot_status := WorkspaceSnapshotStatus.workspace_snapshot_status (only parsing).

Module WorkspaceRuntimeHealthStatus.
Inductive runtime_health_status : Set := UNKNOWN | HEALTHY | DEGRADED | UNHEALTHY | CLEANUP_REQUIRED.
#[export] Instance runtime_health_status_eq_dec : EqDecision runtime_health_status.
Proof. solve_decision. Defined.
Definition value (s : runtime_health_status) : string :=
  match s with
  | UNKNOWN => "UNKNOWN"
  | HEALTHY => "HEALTHY"
  | DEGRADED => "DEGRADED"
  | UNHEALTHY => "UNHEALTHY"
  | CLEANUP_REQUIRED => "CLEANUP_REQUIRED"
  end%string.
End WorkspaceRuntimeHealthStatus.
Export (hints) WorkspaceRuntimeHealthStatus.
Abbreviation runtime_health_status := WorkspaceRuntimeHealthStatus.runtime_health_status (only parsing).

Module FailureStage.
Inductive failure_stage : Set := STORAGE | NETWORK | CONTAINER | PROXY | PLACEMENT | CAPACITY | AUTH | UNKNOWN.
#[export] Instance failure_stage_eq_dec : EqDecision failure_stage.
Proof. solve_decision. Defined.
Definition value (s : failure_stage) : string :=
  match s with
  | STORAGE => "STORAGE"
  | NETWORK => "NETWORK"
  | CONTAINER => "CONTAINER"
  | PROXY => "PROXY"
  | PLACEMENT => "PLACEMENT"
  | CAPACITY => "CAPACITY"
  | AUTH => "AUTH"
  | UNKNOWN => "UNKNOWN"
  end%string.
End FailureStage.
Export (hints) FailureStage.
Abbreviation failure_stage := FailureStage.failure_stage (only parsing).

Module WorkspaceCleanupTaskStatus.
Inductive cleanup_task_status : Set := PENDING | SUCCEEDED.
#[export] Instance cleanup_task_status_eq_dec : EqDecision cleanup_task_status.
Proof. solve_decision. Defined.
End WorkspaceCleanupTaskStatus.
Export (hints) WorkspaceCleanupTaskStatus.
Abbreviation cleanup_task_status := WorkspaceCleanupTaskStatus.cleanup_task_status (only parsing).

Module WorkspaceSessionStatus.
Inductive workspace_session_status : Set := ACTIVE | REVOKED | EXPIRED.
#[export] Instance workspace_session_status_eq_dec : EqDecision workspace_session_status.
Proof. solve_decision. Defined.
End WorkspaceSessionStatus.
Export (hints) WorkspaceSessionStatus.
Abbreviation workspace_session_status := WorkspaceSessionStatus.workspace_session_status (only parsing).

Module ExecutionNodeProviderType.
Inductive execution_node_provider_type : Set := LOCAL | EC2 | UNSPECIFIED.
#[export] Instance execution_node_provider_type_eq_dec : EqDecision execution_node_provider_type.
Proof. solve_decision. Defined.
End ExecutionNodeProviderType.
Export (hints) ExecutionNodeProviderType.
Abbreviation execution_node_provider_type := ExecutionNodeProviderType.execution_node_provider_type (only parsing).

Module ExecutionNodeStatus.
Inductive execution_node_status : Set := PROVISIONING | READY | NOT_READY | DRAINING | TERMINATING | TERMINATED | ERROR.
#[export] Instance execution_node_status_eq_dec : EqDecision execution_node_status.
Proof. solve_decision. Defined.
End ExecutionNodeStatus.
Export (hints) ExecutionNodeStatus.
Abbreviation execution_node_status := ExecutionNodeStatus.execution_node_status (only parsing).

Module ExecutionNodeExecutionMode.
Inductive execution_node_execution_mode : Set := LOCAL_DOCKER | SSH_DOCKER | SSM_DOCKER.
#[export] Instance execution_node_execution_mode_eq_dec : EqDecision execution_node_execution_mode.
Proof. solve_decision. Defined.
End ExecutionNodeExecutionMode.
Export (hints) ExecutionNodeExecutionMode.
Abbreviation execution_node_execution_mode := ExecutionNodeExecutionMode.execution_node_execution_mode (only parsing).

Module ExecutionNodeResourceStatus.
Inductive execution_node_resource_status : Set := OK | LOW_DISK | LOW_MEMORY.
#[export] Instance execution_node_resource_status_eq_dec : EqDecision execution_node_resource_status.
Proof. solve_decision. Defined.
End ExecutionNodeResourceStatus.
Export (hints) ExecutionNodeResourceStatus.
Abbreviation execution_node_resource_status := ExecutionNodeResourceStatus.execution_node_resource_status (only parsing).

Module ScopeType.
Inductive scope_type : Set := GLOBAL | USER | WORKSPACE.
#[export] Instance scope_type_eq_dec : EqDecision scope_type.
Proof. solve_decision. Defined.
End ScopeType.
Export (hints) ScopeType.
Abbreviation scope_type := ScopeType.scope_type (only parsing).

(** ** Rows *)

(** [Workspace]: *)
Record Workspace := mkWorkspace {
  ws_execution_node_id : option Z;
  ws_project_storage_key : option string;
  ws_name : string;
  ws_url_slug : string;
  ws_owner_user_id : Z;
  ws_status : workspace_status;
  ws_status_reason : option string;
  ws_last_error_code : option string;
  ws_last_error_message : option string;
  ws_endpoint_ref : option string;
  ws_public_host : option string;
  ws_gateway_path_prefix : option string;
  ws_active_sessions_count : Z;
  ws_is_private : bool;
  ws_created_at : time;
  ws_updated_at : time;
  ws_last_started : option time;
  ws_last_stopped : option time
}.
#[export] Instance rebuild_Workspace : Rebuild Workspace := fun r =>
    mkWorkspace (ws_execution_node_id r) (ws_project_storage_key r) (ws_name r)
    (ws_url_slug r) (ws_owner_user_id r) (ws_status r) (ws_status_reason r)
    (ws_last_error_code r) (ws_last_error_message r) (ws_endpoint_ref r)
    (ws_public_host r) (ws_gateway_path_prefix r) (ws_active_sessions_count r)
    (ws_is_private r) (ws_created_at r) (ws_updated_at r) (ws_last_started r)
    (ws_last_stopped r).

(** [WorkspaceJob]: *)
Record WorkspaceJob := mkWorkspaceJob {
  job_workspace_id : Z;
  job_workspace_snapshot_id : option Z;
  job_type : workspace_job_type;
  job_status : workspace_job_status;
  job_requested_by_user_id : Z;
  job_requested_config_version : Z;
  job_attempt : Z;
  job_error_msg : option string;
  job_created_at : time;
  job_started_at : option time;
  job_finished_at : option time;
  job_correlation_id : option string;
  job_max_attempts : Z;
  job_failure_stage : option failure_stage;
  job_failure_code : option string;
  job_next_attempt_after : option time
}.
#[export] Instance rebuild_WorkspaceJob : Rebuild WorkspaceJob := fun r =>
    mkWorkspaceJob (job_workspace_id r) (job_workspace_snapshot_id r) (job_type r)
    (job_status r) (job_requested_by_user_id r) (job_requested_config_version r)
    (job_attempt r) (job_error_msg r) (job_created_at r) (job_started_at r)
    (job_finished_at r) (job_correlation_id r) (job_max_attempts r) (job_failure_stage
    r) (job_failure_code r) (job_next_attempt_after r).

(** [WorkspaceContainerSecuritySpec.to_applied_dict()], the JSON of
    [applied_security_options]: *)
Record AppliedSecurityOptions := mkAppliedSecurityOptions {
  aso_security_opt : list string;
  aso_cap_drop : list string;
  aso_read_only_rootfs : bool;
  aso_seccomp : string
}.

(** [WorkspaceRuntime], keyed by its unique [workspace_id]: *)
Record WorkspaceRuntime := mkWorkspaceRuntime {
  rt_node_id : option string;
  rt_container_id : option string;
  rt_container_state : option string;
  rt_topology_id : option Z;
  rt_internal_endpoint : option string;
  rt_gateway_route_target : option string;
  rt_config_version : option Z;
  rt_health_status : runtime_health_status;
  rt_reserved_cpu : cpu;
  rt_reserved_memory_mb : Z;
  rt_reserved_disk_mb : Z;
  rt_applied_cpu_limit_cores : option cpu;
  rt_applied_memory_limit_mb : option Z;
  rt_applied_pids_limit : option Z;
  rt_applied_security_options : option AppliedSecurityOptions;
  rt_last_heartbeat_at : option time;
  rt_updated_at : time
}.
#[export] Instance rebuild_WorkspaceRuntime : Rebuild WorkspaceRuntime := fun r =>
    mkWorkspaceRuntime (rt_node_id r) (rt_container_id r) (rt_container_state r)
    (rt_topology_id r) (rt_internal_endpoint r) (rt_gateway_route_target r)
    (rt_config_version r) (rt_health_status r) (rt_reserved_cpu r)
    (rt_reserved_memory_mb r) (rt_reserved_disk_mb r) (rt_applied_cpu_limit_cores r)
    (rt_applied_memory_limit_mb r) (rt_applied_pids_limit r)
    (rt_applied_security_options r) (rt_last_heartbeat_at r) (rt_updated_at r).

(** The keys of [ExecutionNode.metadata_json] that are read: [ec2.state], the presence
    of [catalog_ec2_stub], and [docker_ok] and [disk_free_mb] of [heartbeat]. *)
Record NodeMetadata := mkNodeMetadata {
  nm_ec2_state : option string;
  nm_catalog_ec2_stub : bool;
  nm_docker_ok : option bool;
  nm_disk_free_mb : option Z
}.
#[export] Instance rebuild_NodeMetadata : Rebuild NodeMetadata := fun r =>
    mkNodeMetadata (nm_ec2_state r) (nm_catalog_ec2_stub r) (nm_docker_ok r) (nm_disk_free_mb r).
Definition empty_metadata : NodeMetadata := mkNodeMetadata None false None None.

(** [ExecutionNode]: *)
Record ExecutionNode := mkExecutionNode {
  node_node_key : string;
  node_provider_type : execution_node_provider_type;
  node_provider_instance_id : option string;
  node_region : option string;
  node_private_ip : option string;
  node_execution_mode : execution_node_execution_mode;
  node_status : execution_node_status;
  node_schedulable : bool;
  node_allocatable_cpu : cpu;
  node_allocatable_memory_mb : Z;
  node_allocatable_disk_mb : Z;
  node_max_workspaces : Z;
  node_default_topology_id : option Z;
  node_last_heartbeat_at : option time;
  node_last_error_code : option string;
  node_last_error_message : option string;
  node_updated_at : time;
  node_disk_free_mb : option Z;
  node_memory_free_mb : option Z;
  node_last_resource_check_at : option time;
  node_resource_status : option execution_node_resource_status;
  node_ssh_host : option string;
  node_hostname : option string;
  node_ssh_user : option string;
  node_ssh_port : Z;
  node_created_at : time;
  node_metadata : NodeMetadata
}.
#[export] Instance rebuild_ExecutionNode : Rebuild ExecutionNode := fun r =>
    mkExecutionNode (node_node_key r) (node_provider_type r)
    (node_provider_instance_id r) (node_region r) (node_private_ip r)
    (node_execution_mode r) (node_status r) (node_schedulable r) (node_allocatable_cpu
    r) (node_allocatable_memory_mb r) (node_allocatable_disk_mb r)
    (node_max_workspaces r) (node_default_topology_id r) (node_last_heartbeat_at r)
    (node_last_error_code r) (node_last_error_message r) (node_updated_at r)
    (node_disk_free_mb r) (node_memory_free_mb r) (node_last_resource_check_at r)
    (node_resource_status r)
    (node_ssh_host r) (node_hostname r) (node_ssh_user r) (node_ssh_port r)
    (node_created_at r) (node_metadata r).

(** [WorkspaceSession]: *)
Record WorkspaceSession := mkWorkspaceSession {
  sess_workspace_id : Z;
  sess_user_id : Z;
  sess_status : workspace_session_status;
  sess_session_token_hash : string;
  sess_issued_at : time;
  sess_expires_at : time;
  sess_last_seen_at : time;
  sess_updated_at : time
}.
#[export] Instance rebuild_WorkspaceSession : Rebuild WorkspaceSession := fun r =>
    mkWorkspaceSession (sess_workspace_id r) (sess_user_id r) (sess_status r)
    (sess_session_token_hash r) (sess_issued_at r) (sess_expires_at r)
    (sess_last_seen_at r) (sess_updated_at r).

(** [WorkspaceSnapshot]: *)
Record WorkspaceSnapshot := mkWorkspaceSnapshot {
  snap_workspace_id : Z;
  snap_name : string;
  snap_description : option string;
  snap_storage_uri : string;
  snap_status : workspace_snapshot_status;
  snap_size_bytes : option Z;
  snap_created_by_user_id : Z;
  snap_created_at : time
}.
#[export] Instance rebuild_WorkspaceSnapshot : Rebuild WorkspaceSnapshot := fun r =>
    mkWorkspaceSnapshot (snap_workspace_id r) (snap_name r) (snap_description r) (snap_storage_uri r)
    (snap_status r) (snap_size_bytes r) (snap_created_by_user_id r) (snap_created_at
    r).

(** A [cpu_limit_cores]/[memory_limit_mib]/[pids_limit] entry of
    [WorkspaceConfig.config_json], classified by what [float()]/[int()] make of
    it: JSON [null], a number (in the column's unit), [nan], an infinity, or a
    value they reject. *)
Inductive ConfigValue : Set :=
| CfgNull | CfgNumber (v : Z) | CfgNaN | CfgInfinite | CfgUnparseable.

(** [config_json]: [None] is an absent key. *)

Record RuntimeConfig := mkRuntimeConfig {
  cfg_cpu_limit_cores : option ConfigValue;
  cfg_memory_limit_mib : option ConfigValue;
  cfg_pids_limit : option ConfigValue
}.
#[export] Instance rebuild_RuntimeConfig : Rebuild RuntimeConfig := fun r =>
    mkRuntimeConfig (cfg_cpu_limit_cores r) (cfg_memory_limit_mib r) (cfg_pids_limit
    r).

(** [UserAuth]: *)
Record UserAuth := mkUserAuth {
  ua_username : string;
  ua_route_subdomain_slug : option string
}.

(** [WorkspaceSecret]: *)
Record WorkspaceSecret := mkWorkspaceSecret {
  wsec_workspace_id : Z;
  wsec_secret_name : string;
  wsec_encrypted_value : string;
  wsec_created_at : time;
  wsec_updated_at : time
}.
#[export] Instance rebuild_WorkspaceSecret : Rebuild WorkspaceSecret := fun r =>
  mkWorkspaceSecret (wsec_workspace_id r) (wsec_secret_name r) (wsec_encrypted_value r)
    (wsec_created_at r) (wsec_updated_at r).

(** [WorkspaceConfig]: *)
Record WorkspaceConfig := mkWorkspaceConfig {
  wc_workspace_id : Z;
  wc_version : Z;
  wc_config_json : RuntimeConfig
}.
#[export] Instance rebuild_WorkspaceConfig : Rebuild WorkspaceConfig := fun r =>
    mkWorkspaceConfig (wc_workspace_id r) (wc_version r) (wc_config_json r).

(** The JSON object of [WorkspaceCleanupTask.detail]; a [None] key is absent. *)
Record CleanupDetail := mkCleanupDetail {
  cd_issues : option (list string);
  cd_error : option string;
  cd_attempt : option Z;
  cd_deferred_reason : option string;
  cd_deferred_workspace_id : option Z
}.
#[export] Instance rebuild_CleanupDetail : Rebuild CleanupDetail := fun r =>
    mkCleanupDetail (cd_issues r) (cd_error r) (cd_attempt r) (cd_deferred_reason r)
    (cd_deferred_workspace_id r).

(** [WorkspaceCleanupTask]: *)
Record WorkspaceCleanupTask := mkWorkspaceCleanupTask {
  ct_workspace_id : Z;
  ct_scope : string;
  ct_detail : option CleanupDetail;
  ct_status : cleanup_task_status;
  ct_attempts : Z;
  ct_updated_at : time
}.
#[export] Instance rebuild_WorkspaceCleanupTask : Rebuild WorkspaceCleanupTask := fun r =>
    mkWorkspaceCleanupTask (ct_workspace_id r) (ct_scope r) (ct_detail r) (ct_status
    r) (ct_attempts r) (ct_updated_at r).

(** [WorkspaceRepository]: *)
Record WorkspaceRepository := mkWorkspaceRepository {
  repo_workspace_id : Z;
  repo_clone_status : string;
  repo_error_msg : option string;
  repo_last_synced_at : option time;
  repo_updated_at : time;
  repo_provider : option string;
  repo_owner_user_id : Z;
  repo_branch : string;
  repo_repo_url : string;
  repo_clone_dir : string
}.
#[export] Instance rebuild_WorkspaceRepository : Rebuild WorkspaceRepository := fun r =>
    mkWorkspaceRepository (repo_workspace_id r) (repo_clone_status r) (repo_error_msg
    r) (repo_last_synced_at r) (repo_updated_at r) (repo_provider r)
    (repo_owner_user_id r) (repo_branch r) (repo_repo_url r) (repo_clone_dir r).

(** [WorkspaceEvent]: *)
Record WorkspaceEvent := mkWorkspaceEvent {
  ev_workspace_id : Z;
  ev_type : string;
  ev_status : option workspace_status;
  ev_message : string;
  ev_created_at : time
}.
#[export] Instance rebuild_WorkspaceEvent : Rebuild WorkspaceEvent := fun r =>
    mkWorkspaceEvent (ev_workspace_id r) (ev_type r) (ev_status r) (ev_message r)
    (ev_created_at r).

(** [AuditLog]: *)
Record AuditLog := mkAuditLog {
  au_action : string;
  au_resource_type : string;
  au_outcome : string;
  au_actor_user_id : option Z;
  au_actor_type : string;
  au_resource_id : option string;
  au_workspace_id : option Z;
  au_job_id : option Z;
  au_reason : option string;
  au_created_at : time
}.
#[export] Instance rebuild_AuditLog : Rebuild AuditLog := fun r =>
    mkAuditLog (au_action r) (au_resource_type r) (au_outcome r) (au_actor_user_id r)
    (au_actor_type r) (au_resource_id r) (au_workspace_id r) (au_job_id r) (au_reason
    r) (au_created_at r).

(** [WorkspaceUsageRecord]: *)
Record WorkspaceUsageRecord := mkWorkspaceUsageRecord {
  us_workspace_id : option Z;
  us_owner_user_id : option Z;
  us_event_type : string;
  us_quantity : Z;
  us_node_id : option string;
  us_job_id : option Z;
  us_created_at : time
}.
#[export] Instance rebuild_WorkspaceUsageRecord : Rebuild WorkspaceUsageRecord := fun r =>
    mkWorkspaceUsageRecord (us_workspace_id r) (us_owner_user_id r) (us_event_type r)
    (us_quantity r) (us_node_id r) (us_job_id r) (us_created_at r).

(** [Quota]; [q_max_runtime_hours] is kept in seconds (a float number of hours in
    the source). *)
Record Quota := mkQuota {
  q_scope_type : scope_type;
  q_scope_id : option Z;
  q_max_workspaces : option Z;
  q_max_running_workspaces : option Z;
  q_max_cpu : option cpu;
  q_max_memory_mb : option Z;
  q_max_sessions : option Z;
  q_max_snapshots : option Z;
  q_max_runtime_hours : option Z
}.
#[export] Instance rebuild_Quota : Rebuild Quota := fun r =>
    mkQuota (q_scope_type r) (q_scope_id r) (q_max_workspaces r)
    (q_max_running_workspaces r) (q_max_cpu r) (q_max_memory_mb r) (q_max_sessions r)
    (q_max_snapshots r) (q_max_runtime_hours r).

(** The keys of [Policy.rules_json] the evaluators read; [None] is an absent or
    [null] entry. *)

Record PolicyRules := mkPolicyRules {
  pr_allow_workspace_creation : option bool;
  pr_allowed_runtime_images : option (list string);
  pr_require_private_workspaces : option bool;
  pr_allow_workspace_start : option bool;
  pr_allow_snapshot_creation : option bool;
  pr_allow_session_creation : option bool;
  pr_allow_node_provisioning : option bool
}.
#[export] Instance rebuild_PolicyRules : Rebuild PolicyRules := fun r =>
    mkPolicyRules (pr_allow_workspace_creation r) (pr_allowed_runtime_images r)
    (pr_require_private_workspaces r) (pr_allow_workspace_start r)
    (pr_allow_snapshot_creation r) (pr_allow_session_creation r)
    (pr_allow_node_provisioning r).

(** [Policy]: *)
Record Policy := mkPolicy {
  pol_policy_id : Z;
  pol_name : string;
  pol_scope_type : scope_type;
  pol_scope_id : option Z;
  pol_is_active : bool;
  pol_rules_json : PolicyRules;
  pol_created_at : time
}.
#[export] Instance rebuild_Policy : Rebuild Policy := fun r =>
    mkPolicy (pol_policy_id r) (pol_name r) (pol_scope_type r) (pol_scope_id r)
    (pol_is_active r) (pol_rules_json r) (pol_created_at r).

(** ** Exceptions *)

(** [WorkspaceBringUpError] carries the outcome of the compensating rollback. *)
Record BringUpFailure := mkBringUpFailure {
  bue_message : string;
  bue_rollback_attempted : bool;
  bue_rollback_succeeded : option bool;
  bue_rollback_issues : option (list string);
  bue_rollback_container_id : option string;
  bue_rollback_container_state : option string
}.
#[export] Instance rebuild_BringUpFailure : Rebuild BringUpFailure := fun r =>
    mkBringUpFailure (bue_message r) (bue_rollback_attempted r)
    (bue_rollback_succeeded r) (bue_rollback_issues r) (bue_rollback_container_id r)
    (bue_rollback_container_state r).

(** The exception classes the modelled code raises or handles. *)
Inductive Exn : Type :=
(* workspace_service/errors.py *)
| WorkspaceNotFoundError | WorkspaceInvalidStateError (msg : string)
| WorkspaceBusyError (msg : string) | WorkspaceAccessDeniedError (msg : string)
| WorkspaceGatewayUnavailableError (msg : string)
| SnapshotNotFoundError (msg : string) | SnapshotConflictError (msg : string)
| WorkspaceSchedulingInvalidError (msg : string)
(* quota_service, policy_service *)
| QuotaExceededError (quota_field : string) (limit current : Z) (scope : string)
| PolicyViolationError (policy_name action reason : string)
(* placement_service/errors.py: the subclasses of PlacementError *)
| NoSchedulableNodeError (msg : string) | ExecutionNodeNotFoundError (msg : string)
| InvalidPlacementParametersError (msg : string) | AuthoritativePlacementError (msg : string)
(* orchestrator_service/errors.py *)
| AppOrchestratorBindingError (msg : string) | WorkspaceBringUpError (f : BringUpFailure)
| WorkspaceStopError (msg : string) | WorkspaceDeleteError (msg : string)
| WorkspaceRestartError (msg : string) | WorkspaceUpdateError (msg : string)
| WorkspaceSnapshotError (msg : string)
(* libs/topology/errors.py *)
| TopologyRuntimeCreateError (msg : string) | TopologyRuntimeNotFoundError (msg : string)
| TopologyDeleteError (msg : string) | WorkspaceIPAllocationError (msg : string)
| WorkspaceAttachmentError (msg : string) | WorkspaceDetachError (msg : string)
(* libs/runtime/errors.py: the subclasses of RuntimeAdapterError *)
| ContainerNotFoundError (msg : string) | ContainerCreateError (msg : string)
| ContainerStartError (msg : string) | ContainerStopError (msg : string)
| ContainerDeleteError (msg : string) | NetnsRefError (msg : string)
(* docker.errors: NotFound, its subclass ImageNotFound, and APIError, their superclass *)
| DockerNotFound (msg : string) | DockerImageNotFound (msg : string) | DockerAPIError (msg : string)
(* OSError, its subclasses FileNotFoundError and FileExistsError, tarfile.TarError and
   KeyError *)
| OSError (msg : string) | FileNotFoundError (msg : string) | FileExistsError (msg : string)
| TarError (msg : string) | KeyError (msg : string)
(* infrastructure_service/errors.py, providers/errors.py (the last two are Ec2ProviderErrors),
   workspace_service/errors.py: the operator-pinned creation *)
| Ec2ProvisionConfigurationError (msg : string) | NodeLifecycleError (msg : string)
| Ec2ProviderError (msg : string) | Ec2InstanceNotFoundError (msg : string)
| Ec2InvalidInstanceIdError (msg : string)
| WorkspaceOperatorPinnedDisabledError (msg : string)
| WorkspaceOperatorPinnedNotAllowlistedError (msg : string)
| WorkspaceOperatorPinnedNodeInvalidError (msg : string)
(* others *)
| IntegrityError | DataError (msg : string) | GatewayClientError (msg : string) | UnsupportedWorkspaceJobTypeError (msg : string)
| GitExecutionError (msg : string) | NodeExecutionBindingError (msg : string)
| RuntimeError (msg : string)
| ValueError (msg : string) | AttributeError (msg : string) | AssertionError
| ObjectDeletedError | HTTPException (status_code : Z) (detail : string) | OtherException (msg : string).

(** [str(e)] *)
Definition exn_str (e : Exn) : string :=
  match e with
  | WorkspaceNotFoundError => "Workspace not found"
  | WorkspaceInvalidStateError m | WorkspaceBusyError m | WorkspaceAccessDeniedError m
  | WorkspaceGatewayUnavailableError m
  | SnapshotNotFoundError m | SnapshotConflictError m | WorkspaceSchedulingInvalidError m
  | NoSchedulableNodeError m | ExecutionNodeNotFoundError m
  | InvalidPlacementParametersError m | AuthoritativePlacementError m
  | AppOrchestratorBindingError m | WorkspaceStopError m | WorkspaceDeleteError m
  | WorkspaceRestartError m | WorkspaceUpdateError m | WorkspaceSnapshotError m
  | GatewayClientError m | UnsupportedWorkspaceJobTypeError m | GitExecutionError m
  | NodeExecutionBindingError m | RuntimeError m
  | TopologyRuntimeCreateError m | TopologyRuntimeNotFoundError m | TopologyDeleteError m
  | WorkspaceIPAllocationError m | WorkspaceAttachmentError m | WorkspaceDetachError m
  | ContainerNotFoundError m | ContainerCreateError m | ContainerStartError m
  | ContainerStopError m | ContainerDeleteError m | NetnsRefError m
  | DockerNotFound m | DockerImageNotFound m | DockerAPIError m
  | OSError m | FileNotFoundError m | FileExistsError m | TarError m | KeyError m | DataError m
  | Ec2ProvisionConfigurationError m | NodeLifecycleError m | Ec2ProviderError m
  | Ec2InstanceNotFoundError m | Ec2InvalidInstanceIdError m
  | WorkspaceOperatorPinnedDisabledError m | WorkspaceOperatorPinnedNotAllowlistedError m
  | WorkspaceOperatorPinnedNodeInvalidError m
  | ValueError m | AttributeError m | HTTPException _ m | OtherException m => m
  | IntegrityError => "IntegrityError"
  | WorkspaceBringUpError f => bue_message f
  | QuotaExceededError f _ _ _ => f
  | PolicyViolationError p _ _ => p
  | AssertionError => ""
  | ObjectDeletedError => "Instance has been deleted"
  end%string.

(** [isinstance(e, PlacementError)] *)
Definition is_placement_error (e : Exn) : bool :=
  match e with
  | NoSchedulableNodeError _ | ExecutionNodeNotFoundError _
  | InvalidPlacementParametersError _ | AuthoritativePlacementError _ => true
  | _ => false
  end.

(** [isinstance(e, TopologyError)], [isinstance(e, RuntimeAdapterError)],
    [isinstance(e, OSError)] *)
Definition is_topology_error (e : Exn) : bool :=
  match e with
  | TopologyRuntimeCreateError _ | TopologyRuntimeNotFoundError _ | TopologyDeleteError _
  | WorkspaceIPAllocationError _ | WorkspaceAttachmentError _ | WorkspaceDetachError _ => true
  | _ => false
  end.
Definition is_runtime_adapter_error (e : Exn) : bool :=
  match e with
  | ContainerNotFoundError _ | ContainerCreateError _ | ContainerStartError _
  | ContainerStopError _ | ContainerDeleteError _ | NetnsRefError _ => true
  | _ => false
  end.
Definition is_oserror (e : Exn) : bool :=
  match e with OSError _ | FileNotFoundError _ | FileExistsError _ => true | _ => false end.

(** ** Settings and the environment of a call *)

(** The DEVNEST_AUTOSCALER_* settings. *)
Record AutoscalerSettings := mkAutoscalerSettings {
  as_enabled : bool;
  as_evaluate_only : bool;
  as_provision_on_no_capacity : bool;
  as_min_nodes : Z;
  as_max_nodes : Z;
  as_min_idle_slots : Z;
  as_max_concurrent_provisioning : Z;
  as_scale_out_cooldown_seconds : Z;
  as_scale_in_cooldown_seconds : Z;
  as_suppress_scale_out_recent_provision_seconds : Z;
  as_min_ec2_nodes_before_reclaim : Z;
  as_recent_activity_window_seconds : Z;
  as_scale_down_idle_seconds : Z
}.
#[export] Instance rebuild_AutoscalerSettings : Rebuild AutoscalerSettings := fun r =>
    mkAutoscalerSettings (as_enabled r) (as_evaluate_only r) (as_provision_on_no_capacity r)
    (as_min_nodes r) (as_max_nodes r) (as_min_idle_slots r) (as_max_concurrent_provisioning r)
    (as_scale_out_cooldown_seconds r) (as_scale_in_cooldown_seconds r)
    (as_suppress_scale_out_recent_provision_seconds r) (as_min_ec2_nodes_before_reclaim r)
    (as_recent_activity_window_seconds r) (as_scale_down_idle_seconds r).

(** [ec2_user_data] is the text [_user_data_from_settings] makes of
    DEVNEST_EC2_USER_DATA and DEVNEST_EC2_USER_DATA_B64, or its error;
    [ec2_extra_tags_json] what [json.loads] makes of DEVNEST_EC2_EXTRA_TAGS, with keys
    and values as text, or the error. *)
Record Ec2Settings := mkEc2Settings {
  ec2_ssh_user_default : string;
  ec2_default_execution_mode : string;
  ec2_ami_id : string;
  ec2_instance_type : string;
  ec2_subnet_id : string;
  ec2_security_group_ids : string;
  ec2_instance_profile : string;
  ec2_key_name : string;
  ec2_has_custom_user_data : bool;
  ec2_user_data : option string + string;
  ec2_heartbeat_internal_api_base_url : string;
  ec2_internal_api_base_url : string;
  ec2_internal_api_key_infrastructure : string;
  ec2_internal_api_key : string;
  ec2_workspace_projects_base : string;
  ec2_default_workspace_projects_base : string;
  ec2_heartbeat_interval_seconds : Z;
  ec2_bootstrap_prebaked : bool;
  ec2_post_terminate_cleanup_enabled : bool;
  ec2_workspace_container_image : string;
  ec2_tag_prefix : string;
  ec2_extra_tags : string;
  ec2_extra_tags_json : list (string * string) + string;
  ec2_control_plane_instance_ids : string;
  ec2_orphan_scan_elastic_ips : bool
}.
#[export] Instance rebuild_Ec2Settings : Rebuild Ec2Settings := fun r =>
    mkEc2Settings (ec2_ssh_user_default r) (ec2_default_execution_mode r) (ec2_ami_id r)
    (ec2_instance_type r) (ec2_subnet_id r) (ec2_security_group_ids r) (ec2_instance_profile r)
    (ec2_key_name r) (ec2_has_custom_user_data r) (ec2_user_data r)
    (ec2_heartbeat_internal_api_base_url r) (ec2_internal_api_base_url r) (ec2_internal_api_key_infrastructure r)
    (ec2_internal_api_key r) (ec2_workspace_projects_base r) (ec2_default_workspace_projects_base r)
    (ec2_heartbeat_interval_seconds r) (ec2_bootstrap_prebaked r)
    (ec2_post_terminate_cleanup_enabled r) (ec2_workspace_container_image r) (ec2_tag_prefix r) (ec2_extra_tags r)
    (ec2_extra_tags_json r) (ec2_control_plane_instance_ids r) (ec2_orphan_scan_elastic_ips r).

(** The fields of [app/libs/common/config.py]'s [Settings] the modelled code reads.
    [cfg_pinned_create_execution_node_ids] is the parsed comma list;
    [cfg_env_topology_id] and [cfg_env_node_key] are DEVNEST_TOPOLOGY_ID and
    DEVNEST_NODE_ID with their defaults applied; [cfg_workspace_projects_root] is
    WORKSPACE_PROJECTS_BASE with [expanduser] and [realpath] applied, empty when unset;
    [cfg_execution_mode] is [devnest_execution_mode]. *)
Record Settings := mkSettings {
  cfg_workspace_job_max_attempts : Z;
  cfg_workspace_job_retry_backoff_seconds : Z;
  cfg_workspace_job_stuck_timeout_seconds : Z;
  cfg_workspace_capacity_retry_timeout_seconds : Z;
  cfg_workspace_capacity_retry_backoff_seconds : Z;
  cfg_workspace_session_ttl_seconds : Z;
  cfg_reconcile_lease_ttl_seconds : Z;
  cfg_gateway_enabled : bool;
  cfg_base_domain : string;
  cfg_required_cpu : cpu;
  cfg_required_memory_mb : Z;
  cfg_required_disk_mb : Z;
  cfg_required_slots : Z;
  cfg_node_provider : string;
  cfg_enable_multi_node_scheduling : bool;
  cfg_require_fresh_node_heartbeat : bool;
  cfg_node_heartbeat_max_age_seconds : Z;
  cfg_node_resource_monitor_enabled : bool;
  cfg_node_resource_check_interval_seconds : Z;
  cfg_node_min_free_disk_mb : Z;
  cfg_node_min_free_memory_mb : Z;
  cfg_devnest_env : string;
  cfg_allow_runtime_env_fallback : bool;
  cfg_topology_janitor_enabled : bool;
  cfg_allow_pinned_create_placement : bool;
  cfg_pinned_create_execution_node_ids : list Z;
  cfg_env_topology_id : Z;
  cfg_env_node_key : string;
  cfg_aws_region : string;
  cfg_workspace_domain_mode : string;
  cfg_tenant_subdomain_routing_enabled : bool;
  cfg_workspace_projects_root : string;
  cfg_execution_mode : string;
  cfg_public_base_domain : option string;
  cfg_public_scheme : string;
  cfg_public_port : Z;
  cfg_gateway_public_scheme : string;
  cfg_gateway_public_port : Z;
  cfg_gateway_auth_enabled : bool;
  cfg_gateway_traefik_http_probe_base : string;
  cfg_node_heartbeat_enabled : bool;
  cfg_worker_emit_execution_node_heartbeat : bool;
  cfg_worker_heartbeat_internal_api_base_url : string;
  cfg_autoscaler : AutoscalerSettings;
  cfg_ec2 : Ec2Settings
}.
#[export] Instance rebuild_Settings : Rebuild Settings := fun r =>
    mkSettings (cfg_workspace_job_max_attempts r)
    (cfg_workspace_job_retry_backoff_seconds r)
    (cfg_workspace_job_stuck_timeout_seconds r)
    (cfg_workspace_capacity_retry_timeout_seconds r)
    (cfg_workspace_capacity_retry_backoff_seconds r)
    (cfg_workspace_session_ttl_seconds r) (cfg_reconcile_lease_ttl_seconds r)
    (cfg_gateway_enabled r) (cfg_base_domain r) (cfg_required_cpu r)
    (cfg_required_memory_mb r) (cfg_required_disk_mb r) (cfg_required_slots r)
    (cfg_node_provider r) (cfg_enable_multi_node_scheduling r)
    (cfg_require_fresh_node_heartbeat r) (cfg_node_heartbeat_max_age_seconds r)
    (cfg_node_resource_monitor_enabled r) (cfg_node_resource_check_interval_seconds r)
    (cfg_node_min_free_disk_mb r) (cfg_node_min_free_memory_mb r) (cfg_devnest_env r)
    (cfg_allow_runtime_env_fallback r) (cfg_topology_janitor_enabled r)
    (cfg_allow_pinned_create_placement r) (cfg_pinned_create_execution_node_ids r)
    (cfg_env_topology_id r) (cfg_env_node_key r) (cfg_aws_region r)
    (cfg_workspace_domain_mode r) (cfg_tenant_subdomain_routing_enabled r)
    (cfg_workspace_projects_root r) (cfg_execution_mode r) (cfg_public_base_domain r)
    (cfg_public_scheme r) (cfg_public_port r) (cfg_gateway_public_scheme r)
    (cfg_gateway_public_port r) (cfg_gateway_auth_enabled r)
    (cfg_gateway_traefik_http_probe_base r) (cfg_node_heartbeat_enabled r)
    (cfg_worker_emit_execution_node_heartbeat r)
    (cfg_worker_heartbeat_internal_api_base_url r) (cfg_autoscaler r) (cfg_ec2 r).

(** What a call reads from the process: the clock, the settings and the random
    generator of the retry jitter.  One reading of the clock stands for all the
    [datetime.now] calls of one transaction. *)
Class Env := {
  env_now : time;
  env_settings : Settings;
  env_randint : Z → Z → Z;
  env_randint_bounds : ∀ lo hi, lo ≤ hi → lo ≤ env_randint lo hi ≤ hi
}.

(** ** The database as one session sees it

    [sessions] holds the [WorkspaceSession] objects of the session's identity
    map and [sessions_sql] the table as of the last flush: both session
    factories of the source are built with [autoflush=False], so a query reads
    [sessions_sql] while the rows it returns are the objects of [sessions].
    The other tables need no such pair: every query the modelled code makes on
    them after an unflushed change selects by columns that never change. *)

Record Db := mkDb {
  workspaces : gmap Z Workspace;
  jobs : gmap Z WorkspaceJob;
  runtimes : gmap Z WorkspaceRuntime;
  configs : list WorkspaceConfig;
  nodes : gmap Z ExecutionNode;
  snapshots : gmap Z WorkspaceSnapshot;
  sessions : gmap Z WorkspaceSession;
  sessions_sql : gmap Z WorkspaceSession;
  cleanup_tasks : gmap Z WorkspaceCleanupTask;
  repositories : gmap Z WorkspaceRepository;
  topologies : gset Z;
  events : list WorkspaceEvent;
  audit_logs : list AuditLog;
  usage_records : list WorkspaceUsageRecord;
  quotas : list Quota;
  policies : list Policy;
  users : gmap Z UserAuth;
  secrets : gmap Z WorkspaceSecret
}.
#[export] Instance rebuild_Db : Rebuild Db := fun r =>
    mkDb (workspaces r) (jobs r) (runtimes r) (configs r) (nodes r) (snapshots r)
    (sessions r) (sessions_sql r) (cleanup_tasks r) (repositories r) (topologies r)
    (events r) (audit_logs r) (usage_records r) (quotas r) (policies r) (users r)
    (secrets r).
