(* ===== verification/RateLimit.v ===== *)
(** * RateLimit: the request limiters

    [src/backend/app/libs/security/rate_limit.py]: the in-memory sliding window, the
    one over Redis, the middleware and the limits of single endpoints.  Times are
    microseconds; a limiter's lock makes each of its calls one step, but the clock is
    read before the lock is taken, so readings may arrive out of order.  Redis is the
    interface [RateLimitHost].  The theorems bound what a window admits and show that
    a client that waits as told is let in. *)

From S2P Require Import Prelude Models.
Open Scope Z_scope.

(** ** The sliding window *)

Record SlidingWindowRateLimiter := mkSlidingWindow {
  sw_calls : Z;
  sw_period : Z;
  sw_windows : gmap string (list Z)
}.
Definition limits_ok (calls period : Z) : bool := negb ((calls <=? 0) || (period <=? 0)).
(** [period] in whole seconds *)
Definition new_sliding_window (calls period : Z) : SlidingWindowRateLimiter + Exn :=
  if limits_ok calls period then inl (mkSlidingWindow calls (1000000 * period) ∅)
  else inr (ValueError "calls and period must be positive integers").

Fixpoint evict (cutoff : Z) (window : list Z) : list Z :=
  match window with
  | [] => []
  | t :: window' => if t <=? cutoff then evict cutoff window' else window
  end.
Definition window_of (key : string) (l : SlidingWindowRateLimiter) : list Z := default [] (sw_windows l !! key).
Definition with_window (key : string) (window : list Z) (l : SlidingWindowRateLimiter) : SlidingWindowRateLimiter :=
  mkSlidingWindow (sw_calls l) (sw_period l) (<[key := window]> (sw_windows l)).

Definition is_allowed (key : string) (now : Z) (l : SlidingWindowRateLimiter) : SlidingWindowRateLimiter * bool :=
  let window := evict (now - sw_period l) (window_of key l) in
  if sw_calls l <=? Z.of_nat (length window) then (with_window key window l, false)
  else (with_window key (window ++ [now]) l, true).
Definition retry_after (key : string) (now : Z) (l : SlidingWindowRateLimiter) : Z :=
  match window_of key l with
  | [] => 0
  | oldest :: _ => Z.max 0 (oldest + sw_period l - now)
  end.
(** [str(int(retry_after) + 1)] *)
Definition retry_after_header (retry : Z) : Z := retry / 1000000 + 1.

(** ** Requests *)

Record RateRequest := mkRateRequest { rr_x_forwarded_for : option string; rr_client_host : option string }.
Definition client_ip (r : RateRequest) : string :=
  let xff := default ""%string (rr_x_forwarded_for r) in
  if Py.truthy xff then Py.strip (Py.partition "," xff).1
  else Py.or_else (default ""%string (rr_client_host r)) "unknown".

(** ** Redis, clocks and settings *)

Inductive RedisCommand :=
| ZRemRangeByScore (key : string) (max : Z)
| ZCard (key : string)
| ZAdd (key member : string) (score : Z)
| Expire (key : string) (seconds : Z).

(** [rh_execute] runs a pipeline and answers a number for each command; [rh_oldest] the
    score of the first member from a score on; both may raise anything. *)
Class RateLimitHost (W : Type) := {
  rh_monotonic : W → W * Z;
  rh_time : W → W * Z;
  rh_object_id : W → W * string;
  rh_redis_from_url : string → W → W * bool;
  rh_execute : list RedisCommand → W → W * (list Z + Exn);
  rh_oldest : string → Z → W → W * (option Z + Exn)
}.
Record RateLimitSettings := mkRateLimitSettings {
  rl_enabled : bool;
  rl_auth_per_minute : Z;
  rl_sse_per_minute : Z;
  rl_backend : string;
  rl_redis_url : string
}.

Record RedisRateLimiter := mkRedisLimiter { rd_calls : Z; rd_period : Z; rd_url : string; rd_connected : bool }.
Definition new_redis_limiter (calls period : Z) (url : string) : RedisRateLimiter + Exn :=
  if limits_ok calls period then inl (mkRedisLimiter calls (1000000 * period) url false)
  else inr (ValueError "calls and period must be positive integers").
Definition with_connected (c : bool) (l : RedisRateLimiter) : RedisRateLimiter :=
  mkRedisLimiter (rd_calls l) (rd_period l) (rd_url l) c.

Inductive Limiter := MemoryLimiter (l : SlidingWindowRateLimiter) | RedisLimiter (l : RedisRateLimiter).
Definition NamedLimiters : Type := gmap string Limiter.

Section limiters.
Context {W : Type} {host : RateLimitHost W}.

Definition redis_get_client (l : RedisRateLimiter) (w : W) : W * RedisRateLimiter :=
  if rd_connected l then (w, l)
  else let '(w, ok) := rh_redis_from_url (rd_url l) w in (w, with_connected ok l).
Definition redis_commands (key member : string) (now period : Z) : list RedisCommand :=
  [ZRemRangeByScore key (now - period); ZCard key; ZAdd key member now; Expire key (period / 1000000 + 5)].
(** Fails open: without a client, or when the pipeline raises or answers too little. *)
Definition redis_is_allowed (key : string) (l : RedisRateLimiter) (w : W) : W * RedisRateLimiter * bool :=
  let '(w, l) := redis_get_client l w in
  if negb (rd_connected l) then (w, l, true)
  else
    let '(w, now) := rh_time w in
    let redis_key := ("devnest:rl:" ++ key)%string in
    let '(w, id) := rh_object_id w in
    let '(w, r) := rh_execute (redis_commands redis_key (Py.str_of_Z now ++ ":" ++ id)%string now (rd_period l)) w in
    match r with
    | inl (_ :: count_before :: _) => (w, l, count_before <? rd_calls l)
    | _ => (w, with_connected false l, true)
    end.
Definition redis_retry_after (key : string) (l : RedisRateLimiter) (w : W) : W * RedisRateLimiter * Z :=
  let '(w, l) := redis_get_client l w in
  if negb (rd_connected l) then (w, l, 0)
  else
    let '(w, now) := rh_time w in
    let '(w, r) := rh_oldest ("devnest:rl:" ++ key)%string (now - rd_period l) w in
    match r with
    | inl (Some oldest) => (w, l, Z.max 0 (oldest + rd_period l - now))
    | _ => (w, l, 0)
    end.

Definition limiter_is_allowed (key : string) (l : Limiter) (w : W) : W * Limiter * bool :=
  match l with
  | MemoryLimiter m => let '(w, now) := rh_monotonic w in let '(m, ok) := is_allowed key now m in (w, MemoryLimiter m, ok)
  | RedisLimiter r => let '(w, r, ok) := redis_is_allowed key r w in (w, RedisLimiter r, ok)
  end.
Definition limiter_retry_after (key : string) (l : Limiter) (w : W) : W * Limiter * Z :=
  match l with
  | MemoryLimiter m => let '(w, now) := rh_monotonic w in (w, l, retry_after key now m)
  | RedisLimiter r => let '(w, r, t) := redis_retry_after key r w in (w, RedisLimiter r, t)
  end.

(** ** Applying a limit *)

(** [None] lets the request through, [Some s] answers 429 with Retry-After: [s]. *)
Definition check_limit (r : RateRequest) (l : Limiter) (w : W) : W * Limiter * option Z :=
  let '(w, l, ok) := limiter_is_allowed (client_ip r) l w in
  if ok then (w, l, None)
  else let '(w, l, retry) := limiter_retry_after (client_ip r) l w in (w, l, Some (retry_after_header retry)).

(** The middleware and the dependency of [make_rate_limit_dependency], each with a
    memory limiter of its own. *)
Definition dispatch (s : RateLimitSettings) (r : RateRequest) (m : SlidingWindowRateLimiter) (w : W)
    : W * SlidingWindowRateLimiter * option Z :=
  if negb (rl_enabled s) then (w, m, None)
  else
    match check_limit r (MemoryLimiter m) w with
    | (w, MemoryLimiter m, v) => (w, m, v)
    | (w, RedisLimiter _, v) => (w, m, v)
    end.
Definition rate_limit_dependency (s : RateLimitSettings) (r : RateRequest)
    : eff (SlidingWindowRateLimiter * W) Exn unit := λ st,
  let '(w, m, v) := dispatch s r st.1 st.2 in
  ((m, w), match v with None => inl tt | Some _ => inr (HTTPException 429 "rate_limit_exceeded") end).

Definition is_redis_backend (s : RateLimitSettings) : bool :=
  String.eqb (Py.lower (Py.strip (Py.or_else (rl_backend s) "memory"))) "redis" && Py.truthy (Py.strip (rl_redis_url s)).
Definition new_limiter (s : RateLimitSettings) (calls period : Z) : Limiter + Exn :=
  if is_redis_backend s then
    match new_redis_limiter calls period (Py.strip (rl_redis_url s)) with inl l => inl (RedisLimiter l) | inr e => inr e end
  else match new_sliding_window calls period with inl l => inl (MemoryLimiter l) | inr e => inr e end.
Definition get_or_create_limiter (s : RateLimitSettings) (name : string) (calls period : Z) (named : NamedLimiters)
    : Limiter + Exn :=
  match named !! name with
  | Some l => inl l
  | None => new_limiter s calls period
  end.
Definition named_rate_limit (s : RateLimitSettings) (name : string) (calls : Z) (detail : string) (r : RateRequest)
    : eff (NamedLimiters * W) Exn unit := λ st,
  if negb (rl_enabled s) then (st, inl tt)
  else
    match get_or_create_limiter s name calls 60 st.1 with
    | inr e => (st, inr e)
    | inl l =>
        let '(w, l, v) := check_limit r l st.2 in
        ((<[name := l]> st.1, w), match v with None => inl tt | Some _ => inr (HTTPException 429 detail) end)
    end.
Definition auth_rate_limit (s : RateLimitSettings) : RateRequest → eff (NamedLimiters * W) Exn unit :=
  named_rate_limit s "auth" (rl_auth_per_minute s) "auth_rate_limit_exceeded".
Definition sse_rate_limit (s : RateLimitSettings) : RateRequest → eff (NamedLimiters * W) Exn unit :=
  named_rate_limit s "sse" (rl_sse_per_minute s) "sse_rate_limit_exceeded".
End limiters.

(** ** What the sliding window admits *)

Definition Call : Type := string * Z.
(** The calls in the order in which they get the lock, with their verdicts. *)
Fixpoint serve_calls (l : SlidingWindowRateLimiter) (calls : list Call) : SlidingWindowRateLimiter * list (Call * bool) :=
  match calls with
  | [] => (l, [])
  | c :: calls =>
      let '(l, ok) := is_allowed c.1 c.2 l in
      let '(l, log) := serve_calls l calls in
      (l, (c, ok) :: log)
  end.
(** Readings arrive at most [skew] out of order. *)
Fixpoint skewed (skew : Z) (seen : list Z) (calls : list Call) : Prop :=
  match calls with
  | [] => True
  | c :: calls => Forall (λ t, t ≤ c.2 + skew) seen ∧ skewed skew (c.2 :: seen) calls
  end.
(** The readings of the requests for [key] that were admitted *)
Definition admitted (key : string) (log : list (Call * bool)) : list Z :=
  omap (λ e : Call * bool, if e.2 && String.eqb e.1.1 key then Some e.1.2 else None) log.
Definition between (lo hi : Z) (ts : list Z) : Z := Z.of_nat (length (List.filter (λ t, (lo <? t) && (t <=? hi)) ts)).

Lemma evict_spec cutoff ts : ∃ old, ts = old ++ evict cutoff ts ∧ Forall (λ t, t ≤ cutoff) old ∧
  match evict cutoff ts with [] => True | t :: _ => cutoff < t end.
Proof.
  induction ts as [|t ts IH]; cbn; [by exists []|]. destruct (Z.leb_spec t cutoff) as [H|H]; [|by exists []].
  destruct IH as (old & E & F & G). exists (t :: old). split_and!; [by rewrite <- app_comm_cons, <- E|by constructor|done].
Qed.
Lemma window_of_same key w l : window_of key (with_window key w l) = w.
Proof. unfold window_of, with_window. cbn. by rewrite lookup_insert_eq. Qed.
Lemma window_of_other key key' w l : key ≠ key' → window_of key (with_window key' w l) = window_of key l.
Proof. intros H. unfold window_of, with_window. cbn. by rewrite lookup_insert_ne. Qed.

(** The state after some calls, in the order they got the lock: per key, the window is
    what is left of the admitted readings [adm key] after evicting some that were a
    period behind some reading, and every reading is in [seen]. *)
Record reachable (calls period skew : Z) (seen : list Z) (adm : string → list Z) (l : SlidingWindowRateLimiter) : Prop := {
  rc_calls : sw_calls l = calls;
  rc_period : sw_period l = period;
  rc_split key : ∃ old, adm key = old ++ window_of key l ∧ Forall (λ t, ∃ r, r ∈ seen ∧ t + period ≤ r) old;
  rc_seen key t : t ∈ adm key → t ∈ seen;
  rc_sorted key : StronglySorted (λ a b, a ≤ b + skew) (adm key);
  rc_length key : Z.of_nat (length (window_of key l)) ≤ calls;
  rc_bound key t : between (t - (period - skew)) t (adm key) ≤ calls
}.

Definition with_reading (key : string) (now : Z) (adm : string → list Z) (k : string) : list Z :=
  if String.eqb key k then adm k ++ [now] else adm k.

Lemma between_app lo hi a b : between lo hi (a ++ b) = between lo hi a + between lo hi b.
Proof. unfold between. rewrite List.filter_app, length_app. lia. Qed.
Lemma between_none lo hi ts : Forall (λ t, t ≤ lo) ts → between lo hi ts = 0.
Proof.
  intros H. unfold between. induction H as [|t ts Ht H IH]; [done|]. cbn.
  by rewrite (proj2 (Z.ltb_ge lo t) Ht).
Qed.
Lemma between_length lo hi ts : between lo hi ts ≤ Z.of_nat (length ts).
Proof. unfold between. pose proof (List.filter_length_le (λ t, (lo <? t) && (t <=? hi)) ts). lia. Qed.
Lemma filter_all (P : Z → bool) ts : Forall (λ t, P t = true) ts → List.filter P ts = ts.
Proof. induction 1 as [|t ts Ht H IH]; [done|]. cbn. by rewrite Ht, IH. Qed.

Lemma new_reachable calls period skew l : new_sliding_window calls period = inl l →
  reachable calls (1000000 * period) skew [] (λ _, []) l.
Proof.
  unfold new_sliding_window, limits_ok. destruct (_ || _) eqn:E; [done|]. intros [= <-].
  apply orb_false_iff in E as [E1 E2]. split.
  - done.
  - done.
  - intros key. by exists [].
  - intros key t H. by apply not_elem_of_nil in H.
  - intros key. constructor.
  - intros key. unfold window_of. cbn [sw_windows]. rewrite lookup_empty. cbn. lia.
  - intros key t. unfold between. cbn. lia.
Qed.

Section step.
Context (calls period skew : Z) (Hskew : 0 ≤ skew) (seen : list Z) (adm : string → list Z)
  (l : SlidingWindowRateLimiter) (Hr : reachable calls period skew seen adm l) (key : string) (now : Z)
  (Hnow : Forall (λ t, t ≤ now + skew) seen).
#[local] Abbreviation window := (evict (now - period) (window_of key l)).

Lemma kept_window : ∃ old, adm key = old ++ window ∧ Forall (λ t, ∃ r, r ∈ now :: seen ∧ t + period ≤ r) old.
Proof.
  destruct (rc_split _ _ _ _ _ _ Hr key) as (old & E & F). destruct (evict_spec (now - period) (window_of key l)) as (o & E' & F' & _).
  exists (old ++ o). rewrite E, E' at 1. split; [by rewrite app_assoc|]. apply Forall_app_2.
  - eapply Forall_impl; [exact F|]. intros t (r & ? & ?). exists r. split; [by apply list_elem_of_further|done].
  - eapply Forall_impl; [exact F'|]. intros t Ht. exists now. split; [apply list_elem_of_here|cbn in *; lia].
Qed.

(** The window is recent, and everything recent is in the window. *)
Lemma window_recent : Forall (λ t, now - period - skew < t) window.
Proof.
  destruct kept_window as (old & E & _). pose proof (rc_sorted _ _ _ _ _ _ Hr key) as Hs. rewrite E in Hs.
  apply StronglySorted_app_1_r in Hs. destruct (evict_spec (now - period) (window_of key l)) as (_ & _ & _ & Hh).
  destruct window as [|t w]; [constructor|]. apply StronglySorted_inv in Hs as [_ Hw]. constructor; [lia|].
  eapply Forall_impl; [exact Hw|]. cbn. intros; lia.
Qed.
Lemma bound_with_now t : Z.of_nat (length window) < calls → between (t - (period - skew)) t (adm key ++ [now]) ≤ calls.
Proof.
  intros Hl. rewrite between_app. destruct (decide (t - (period - skew) < now ∧ now ≤ t)) as [[H1 H2]|H].
  - destruct kept_window as (old & -> & F). rewrite between_app, (between_none _ _ old).
    + pose proof (between_length (t - (period - skew)) t window). pose proof (between_length (t - (period - skew)) t [now]).
      cbn [length] in *. lia.
    + eapply Forall_impl; [exact F|]. intros o (r & Hin & Hro). cbn.
      apply elem_of_cons in Hin as [->|Hin]; [lia|]. rewrite Forall_forall in Hnow. specialize (Hnow r Hin). lia.
  - pose proof (rc_bound _ _ _ _ _ _ Hr key t). enough (between (t - (period - skew)) t [now] = 0) by lia.
    unfold between. cbn. destruct (_ <? now) eqn:E1, (now <=? t) eqn:E2; cbn; try done. exfalso. apply H. split.
    + by apply Z.ltb_lt.
    + by apply Z.leb_le.
Qed.
End step.

Lemma step_reachable calls period skew seen adm l key now l' ok : 0 ≤ skew →
  reachable calls period skew seen adm l → Forall (λ t, t ≤ now + skew) seen →
  is_allowed key now l = (l', ok) →
  reachable calls period skew (now :: seen) (if ok then with_reading key now adm else adm) l' ∧
  (ok = false → calls ≤ Z.of_nat (length (List.filter (λ t, now - period - skew <? t) (adm key)))).
Proof.
  intros Hskew Hr Hnow E. unfold is_allowed in E. rewrite (rc_period _ _ _ _ _ _ Hr), (rc_calls _ _ _ _ _ _ Hr) in E.
  destruct (kept_window _ _ _ _ _ _ Hr key now) as (old & Hadm & Hold).
  assert (Hold' : ∀ o, Forall (λ t, ∃ r, r ∈ seen ∧ t + period ≤ r) o → Forall (λ t, ∃ r, r ∈ now :: seen ∧ t + period ≤ r) o).
  { intros o H. eapply Forall_impl; [exact H|]. intros t (r & ? & ?). exists r. split; [by apply list_elem_of_further|done]. }
  destruct (calls <=? _) eqn:Ec; injection E as <- <-.
  - apply Z.leb_le in Ec. split; [split|].
    + apply (rc_calls _ _ _ _ _ _ Hr).
    + apply (rc_period _ _ _ _ _ _ Hr).
    + intros k. destruct (decide (k = key)) as [->|Hk]; [rewrite window_of_same; by exists old|].
      rewrite window_of_other by done. destruct (rc_split _ _ _ _ _ _ Hr k) as (o & ? & ?). exists o. split; [done|by apply Hold'].
    + intros k t Ht. by apply list_elem_of_further, (rc_seen _ _ _ _ _ _ Hr k).
    + apply (rc_sorted _ _ _ _ _ _ Hr).
    + intros k. destruct (decide (k = key)) as [->|Hk]; [|rewrite window_of_other by done; apply (rc_length _ _ _ _ _ _ Hr)].
      rewrite window_of_same. pose proof (rc_length _ _ _ _ _ _ Hr key).
      destruct (evict_spec (now - period) (window_of key l)) as (o & Ho & _). apply (f_equal length) in Ho.
      rewrite length_app in Ho. lia.
    + apply (rc_bound _ _ _ _ _ _ Hr).
    + intros _. rewrite Hadm, List.filter_app, length_app, (filter_all _ (evict _ _)); [lia|].
      eapply Forall_impl; [exact (window_recent calls period skew Hskew seen adm l Hr key now)|]. intros t Ht. by apply Z.ltb_lt.
  - apply Z.leb_gt in Ec. split; [|done].
    assert (Hsame : ∀ k, k ≠ key → with_reading key now adm k = adm k).
    { intros k Hk. unfold with_reading. by rewrite (proj2 (String.eqb_neq key k)). }
    assert (Hkey : with_reading key now adm key = adm key ++ [now]) by (unfold with_reading; by rewrite String.eqb_refl).
    split.
    + apply (rc_calls _ _ _ _ _ _ Hr).
    + apply (rc_period _ _ _ _ _ _ Hr).
    + intros k. destruct (decide (k = key)) as [->|Hk].
      * rewrite window_of_same, Hkey. exists old. split; [by rewrite Hadm at 1; rewrite app_assoc|done].
      * rewrite window_of_other, Hsame by done. destruct (rc_split _ _ _ _ _ _ Hr k) as (o & ? & ?). exists o. split; [done|by apply Hold'].
    + intros k t. destruct (decide (k = key)) as [->|Hk]; [rewrite Hkey|rewrite Hsame by done].
      * intros [H|H%list_elem_of_singleton]%elem_of_app; [|subst t; apply list_elem_of_here].
        by apply list_elem_of_further, (rc_seen _ _ _ _ _ _ Hr key).
      * intros Ht. by apply list_elem_of_further, (rc_seen _ _ _ _ _ _ Hr k).
    + intros k. destruct (decide (k = key)) as [->|Hk]; [rewrite Hkey|rewrite Hsame by done; apply (rc_sorted _ _ _ _ _ _ Hr)].
      apply StronglySorted_app_2; [|apply (rc_sorted _ _ _ _ _ _ Hr)|by repeat constructor].
      intros a b Ha Hb%list_elem_of_singleton. subst b. rewrite Forall_forall in Hnow. by apply Hnow, (rc_seen _ _ _ _ _ _ Hr key).
    + intros k. destruct (decide (k = key)) as [->|Hk]; [|rewrite window_of_other by done; apply (rc_length _ _ _ _ _ _ Hr)].
      rewrite window_of_same, length_app. cbn. lia.
    + intros k t. destruct (decide (k = key)) as [->|Hk]; [rewrite Hkey; by apply (bound_with_now _ _ _ Hskew _ _ _ Hr)|].
      rewrite Hsame by done. apply (rc_bound _ _ _ _ _ _ Hr).
Qed.

Lemma reachable_ext calls period skew seen adm adm' l : (∀ k, adm k = adm' k) →
  reachable calls period skew seen adm l → reachable calls period skew seen adm' l.
Proof. intros He []. split; try done; intros k; rewrite <- He; eauto. Qed.
Lemma admitted_cons key c ok log :
  admitted key ((c, ok) :: log) = (if ok && String.eqb c.1 key then [c.2] else []) ++ admitted key log.
Proof. unfold admitted. cbn. by destruct (ok && _). Qed.

Lemma serve_reachable calls period skew cs seen adm l : 0 ≤ skew → reachable calls period skew seen adm l →
  skewed skew seen cs →
  let '(l', log) := serve_calls l cs in
  (∃ seen', reachable calls period skew seen' (λ k, adm k ++ admitted k log) l') ∧
  (∀ l1 key now l2, log = l1 ++ ((key, now), false) :: l2 →
     calls ≤ Z.of_nat (length (List.filter (λ t, now - period - skew <? t) (adm key ++ admitted key l1)))).
Proof.
  intros Hskew. revert seen adm l. induction cs as [|[k t] cs IH]; intros seen adm l Hr Hs; cbn [serve_calls].
  { split; [exists seen; eapply reachable_ext; [|done]; intros key; by rewrite app_nil_r|].
    intros [] * H; discriminate. }
  destruct Hs as [Hnow Hs]. cbn [fst snd] in *. destruct (is_allowed k t l) as [l1 ok] eqn:E.
  destruct (step_reachable _ _ _ _ _ _ _ _ _ _ Hskew Hr Hnow E) as [Hr1 Href]. specialize (IH _ _ _ Hr1 Hs).
  destruct (serve_calls l1 cs) as [l' log] eqn:El. destruct IH as [(seen' & Hr') Hall].
  assert (Hadm : ∀ key rest, adm key ++ admitted key (((k, t), ok) :: rest) =
    (if ok then with_reading k t adm else adm) key ++ admitted key rest).
  { intros key rest. rewrite admitted_cons. cbn [fst snd]. destruct ok; [|done]. cbn [andb]. unfold with_reading.
    destruct (String.eqb k key); [by rewrite app_assoc|done]. }
  split.
  - exists seen'. eapply reachable_ext; [|exact Hr']. intros key. cbn beta. by rewrite <- Hadm.
  - intros [|e l0] key now l2 Heq; cbn [app] in Heq.
    + injection Heq as -> -> -> _. rewrite app_nil_r. by apply Href.
    + injection Heq as <- Heq. rewrite Hadm. by eapply Hall.
Qed.

(** C40. The in-memory limiter keeps its rate and refuses only for it: whatever calls
    arrive, with clock readings at most [skew] out of order, in any window of the
    period less the skew at most [calls] requests of a key are admitted, and whenever
    one is refused that many were admitted within the period and the skew before. *)
Theorem sliding_window_keeps_rate (calls period skew : Z) (lim : SlidingWindowRateLimiter) (cs : list Call)
    (Hskew : 0 ≤ skew) (Hnew : new_sliding_window calls period = inl lim) (Hcs : skewed skew [] cs) :
  let log := (serve_calls lim cs).2 in
  (∀ key t, between (t - (1000000 * period - skew)) t (admitted key log) ≤ calls) ∧
  (∀ l1 key now l2, log = l1 ++ ((key, now), false) :: l2 →
     calls ≤ Z.of_nat (length (List.filter (λ t, now - 1000000 * period - skew <? t) (admitted key l1)))).
Proof.
  pose proof (serve_reachable _ _ _ cs _ _ _ Hskew (new_reachable _ _ skew _ Hnew) Hcs) as H. cbn beta in H.
  destruct (serve_calls lim cs) as [l' log]. destruct H as [(seen' & Hr) Hall]. split; [|exact Hall].
  intros key t. apply (rc_bound _ _ _ _ _ _ Hr).
Qed.

(** *** Waiting *)

Definition fits (l : SlidingWindowRateLimiter) : Prop :=
  0 < sw_calls l ∧ ∀ key, Z.of_nat (length (window_of key l)) ≤ sw_calls l.
Lemma evict_length cutoff ts : (length (evict cutoff ts) ≤ length ts)%nat.
Proof. induction ts as [|t ts IH]; cbn; [done|]. destruct (t <=? cutoff); cbn; lia. Qed.
Lemma is_allowed_fits key now l : fits l → fits (is_allowed key now l).1.
Proof.
  intros [Hp Hl]. unfold is_allowed. pose proof (Hl key) as Hk. pose proof (evict_length (now - sw_period l) (window_of key l)) as He.
  destruct (_ <=? _) eqn:E; (split; [done|]; intros k; cbn [fst];
    destruct (decide (k = key)) as [->|H]; [rewrite window_of_same|rewrite window_of_other by done; apply Hl]); cbn [sw_calls with_window].
  - lia.
  - apply Z.leb_gt in E. rewrite length_app. cbn. lia.
Qed.
Lemma serve_fits cs l : fits l → fits (serve_calls l cs).1.
Proof.
  revert l. induction cs as [|c cs IH]; intros l Hl; cbn [serve_calls]; [done|].
  pose proof (is_allowed_fits c.1 c.2 l Hl) as H. destruct (is_allowed _ _ l) as [l1 ok]. specialize (IH l1 H).
  by destruct (serve_calls l1 cs).
Qed.
Lemma serve_others key cs l : Forall (λ c : Call, c.1 ≠ key) cs →
  window_of key (serve_calls l cs).1 = window_of key l ∧ sw_calls (serve_calls l cs).1 = sw_calls l ∧
  sw_period (serve_calls l cs).1 = sw_period l.
Proof.
  intros H. revert l. induction H as [|c cs Hc H IH]; intros l; cbn [serve_calls]; [done|].
  assert (Hone : window_of key (is_allowed c.1 c.2 l).1 = window_of key l ∧ sw_calls (is_allowed c.1 c.2 l).1 = sw_calls l ∧
    sw_period (is_allowed c.1 c.2 l).1 = sw_period l).
  { unfold is_allowed. by destruct (_ <=? _); (split; [by apply window_of_other|]). }
  destruct (is_allowed _ _ l) as [l1 ok]. specialize (IH l1). destruct (serve_calls l1 cs) as [l2 log].
  cbn [fst] in *. destruct IH as (-> & -> & ->). exact Hone.
Qed.

(** A client that waits as told is let in: after any calls, when a request is
    refused and the client comes back no earlier than the Retry-After header says, it is
    admitted, whatever requests of other clients came in between. *)
Lemma retry_after_is_enough (calls period : Z) (lim : SlidingWindowRateLimiter) (cs others : list Call)
    (key : string) (now answered t : Z) (refused : SlidingWindowRateLimiter)
    (Hnew : new_sliding_window calls period = inl lim)
    (Href : is_allowed key now (serve_calls lim cs).1 = (refused, false))
    (Hothers : Forall (λ c : Call, c.1 ≠ key) others)
    (Ht : answered + 1000000 * retry_after_header (retry_after key answered refused) ≤ t) :
  (is_allowed key t (serve_calls refused others).1).2 = true.
Proof.
  assert (Hf : fits refused).
  { assert (Hl : fits lim).
    { pose proof (new_reachable _ _ 0 _ Hnew) as Hr. split.
      - unfold new_sliding_window, limits_ok in Hnew. destruct (_ || _) eqn:E; [done|]. injection Hnew as <-.
        apply orb_false_iff in E as [E _]. cbn. lia.
      - intros k. rewrite (rc_calls _ _ _ _ _ _ Hr). apply (rc_length _ _ _ _ _ _ Hr). }
    pose proof (is_allowed_fits key now _ (serve_fits cs _ Hl)) as H. by rewrite Href in H. }
  destruct (serve_others key others refused Hothers) as (Ew & Ec & Ep).
  unfold is_allowed. rewrite Ew, Ec, Ep.
  destruct (sw_calls refused <=? _) eqn:E; [|done]. exfalso. apply Z.leb_le in E.
  destruct Hf as [Hp Hl]. specialize (Hl key).
  unfold retry_after, retry_after_header in Ht. destruct (window_of key refused) as [|oldest w]; [cbn in *; lia|].
  cbn [evict] in E. destruct (Z.leb_spec oldest (t - sw_period refused)) as [H|H].
  - pose proof (evict_length (t - sw_period refused) w). cbn [length] in Hl. lia.
  - pose proof (Z.mod_pos_bound (Z.max 0 (oldest + sw_period refused - answered)) 1000000 ltac:(lia)).
    pose proof (Z.div_mod (Z.max 0 (oldest + sw_period refused - answered)) 1000000 ltac:(lia)). lia.
Qed.

(** ** Concrete runs *)

Definition minute_limit (calls : Z) : SlidingWindowRateLimiter := mkSlidingWindow calls (1000000 * 60) ∅.
Definition at_second (s : Z) : Z := 1000000 * s.
Definition busy_client : list Call := [("10.0.0.1", at_second 1); ("10.0.0.2", at_second 2); ("10.0.0.1", at_second 2);
  ("10.0.0.1", at_second 3); ("10.0.0.1", at_second 61); ("10.0.0.1", at_second 62)]%string.

Lemma sliding_window_keeps_rate_witness :
  let log := (serve_calls (minute_limit 2) busy_client).2 in
  log.*2 = [true; true; true; false; true; true] ∧
  (∀ key t, between (t - (1000000 * 60 - 0)) t (admitted key log) ≤ 2).
Proof.
  split; [by vm_compute|].
  refine (proj1 (sliding_window_keeps_rate 2 60 0 (minute_limit 2) busy_client _ eq_refl _)); [lia|].
  cbn [skewed busy_client fst snd]. unfold at_second. split_and!; repeat (apply Forall_cons; split; [lia|]); by constructor.
Defined.
Lemma retry_after_is_enough_witness :
  let refused := (is_allowed "10.0.0.1" (at_second 3) (serve_calls (minute_limit 2) (take 3 busy_client)).1).1 in
  retry_after_header (retry_after "10.0.0.1" (at_second 3) refused) = 59 ∧
  (is_allowed "10.0.0.1" (at_second 62) (serve_calls refused [("10.0.0.2", at_second 9)%string]).1).2 = true.
Proof.
  split; [by vm_compute|].
  refine (retry_after_is_enough 2 60 (minute_limit 2) (take 3 busy_client) _ "10.0.0.1" (at_second 3) (at_second 3) _ _ eq_refl _ _ _).
  - by vm_compute.
  - by repeat constructor.
  - by vm_compute.
Defined.

(** A Redis of one sorted set, with the time of day. *)
Definition OneSet : Type := Z * list (string * Z).
Definition run_command (acc : list (string * Z) * list Z) (c : RedisCommand) : list (string * Z) * list Z :=
  match c with
  | ZRemRangeByScore _ max => (List.filter (λ m, max <? m.2) acc.1, acc.2 ++ [0])
  | ZCard _ => (acc.1, acc.2 ++ [Z.of_nat (length acc.1)])
  | ZAdd _ member score => (acc.1 ++ [(member, score)], acc.2 ++ [1])
  | Expire _ _ => (acc.1, acc.2 ++ [1])
  end.
#[local] Instance one_set_host : RateLimitHost OneSet := {
  rh_monotonic w := (w, w.1); rh_time w := (w, w.1); rh_object_id w := (w, "1"%string);
  rh_redis_from_url _ w := (w, true);
  rh_execute cs w := let '(set, out) := foldl run_command (w.2, []) cs in ((w.1, set), inl out);
  rh_oldest _ lo w := (w, inl (snd <$> head (List.filter (λ m, lo <=? m.2) w.2)))
}.
Fixpoint verdicts (l : Limiter) (w : OneSet) (times : list Z) : list bool :=
  match times with
  | [] => []
  | t :: times =>
      let '(w, l, ok) := limiter_is_allowed "10.0.0.1" l (at_second t, w.2) in ok :: verdicts l w times
  end.
(** The Redis limiter also counts the requests it refuses: a client that comes back as
    the window of its admitted request ends is let in by the memory limiter, and kept
    out by the Redis one for having tried before. *)
Example redis_counts_refusals :
  verdicts (MemoryLimiter (minute_limit 1)) (0, []) [0; 30; 61; 91; 122] = [true; false; true; false; true] ∧
  verdicts (RedisLimiter (mkRedisLimiter 1 (1000000 * 60) "redis://r" false)) (0, []) [0; 30; 61; 91; 122] =
    [true; false; false; false; false].
Proof. by vm_compute. Qed.
