(* ===== verification/TopologyModels.v ===== *)
(** * TopologyModels: the tables of the topology adapter and its transactions

    The rows of libs/topology/models, the unique constraints they declare, and the
    state [DbTopologyAdapter] works in: its own view of these tables, what is
    committed, and the world (the host's network, the Docker engine).  For the rest
    of the control plane these tables are part of the outside world: only the
    adapter reads and writes them.

    Several adapters run at once.  [SharedTables] gives what other sessions commit
    between the reads of a transaction and its own commit, and whether that commit
    fails for a reason of its own; the database enforces the unique constraints on
    the merge. *)

From S2P Require Import Prelude Models.

(** ** Rows *)

Module TopologyRuntimeStatus.
Inductive topology_runtime_status : Set := READY | DEGRADED | FAILED | DELETING.
#[export] Instance topology_runtime_status_eq_dec : EqDecision topology_runtime_status.
Proof. solve_decision. Defined.
Definition value (s : topology_runtime_status) : string :=
  match s with READY => "READY" | DEGRADED => "DEGRADED" | FAILED => "FAILED" | DELETING => "DELETING" end.
End TopologyRuntimeStatus.
Export (hints) TopologyRuntimeStatus.
Abbreviation topology_runtime_status := TopologyRuntimeStatus.topology_runtime_status (only parsing).

Module TopologyAttachmentStatus.
Inductive topology_attachment_status : Set := ATTACHING | ATTACHED | DETACHING | DETACHED | FAILED.
#[export] Instance topology_attachment_status_eq_dec : EqDecision topology_attachment_status.
Proof. solve_decision. Defined.
Definition value (s : topology_attachment_status) : string :=
  match s with
  | ATTACHING => "ATTACHING" | ATTACHED => "ATTACHED" | DETACHING => "DETACHING"
  | DETACHED => "DETACHED" | FAILED => "FAILED"
  end.
End TopologyAttachmentStatus.
Export (hints) TopologyAttachmentStatus.
Abbreviation topology_attachment_status := TopologyAttachmentStatus.topology_attachment_status (only parsing).

(** A value of [spec_json]: JSON null, a string, or anything else, with its [str()]. *)
Inductive JsonValue : Set := JsonNull | JsonString (s : string) | JsonOther (text : string).

(** The keys of [spec_json] V1 reads; [None] is an absent key. *)
Record TopologySpec := mkTopologySpec {
  spec_mode_value : option JsonValue;
  spec_cidr_value : option JsonValue;
  spec_gateway_ip_value : option JsonValue;
  spec_bridge_name_value : option JsonValue
}.

(** [Topology]: [None] when [spec_json] is not an object. *)
Record Topology := mkTopology { topo_spec_json : option TopologySpec }.

Record TopologyRuntime := mkTopologyRuntime {
  tr_topology_id : Z;
  tr_node_id : string;
  tr_status : topology_runtime_status;
  tr_bridge_name : option string;
  tr_cidr : option string;
  tr_gateway_ip : option string;
  tr_last_checked_at : option time;
  tr_last_error_code : option string;
  tr_last_error_message : option string;
  tr_updated_at : time
}.
#[export] Instance rebuild_TopologyRuntime : Rebuild TopologyRuntime := fun r =>
  mkTopologyRuntime (tr_topology_id r) (tr_node_id r) (tr_status r) (tr_bridge_name r) (tr_cidr r)
    (tr_gateway_ip r) (tr_last_checked_at r) (tr_last_error_code r) (tr_last_error_message r)
    (tr_updated_at r).

Record IpAllocation := mkIpAllocation {
  ipa_node_id : string;
  ipa_topology_id : Z;
  ipa_workspace_id : Z;
  ipa_ip : string;
  ipa_leased_at : time;
  ipa_released_at : option time
}.
#[export] Instance rebuild_IpAllocation : Rebuild IpAllocation := fun r =>
  mkIpAllocation (ipa_node_id r) (ipa_topology_id r) (ipa_workspace_id r) (ipa_ip r) (ipa_leased_at r)
    (ipa_released_at r).

Record TopologyAttachment := mkTopologyAttachment {
  att_topology_id : Z;
  att_node_id : string;
  att_workspace_id : Z;
  att_container_id : option string;
  att_status : topology_attachment_status;
  att_workspace_ip : option string;
  att_interface_host : option string;
  att_interface_container : option string;
  att_bridge_name : option string;
  att_gateway_ip : option string;
  att_updated_at : time
}.
#[export] Instance rebuild_TopologyAttachment : Rebuild TopologyAttachment := fun r =>
  mkTopologyAttachment (att_topology_id r) (att_node_id r) (att_workspace_id r) (att_container_id r)
    (att_status r) (att_workspace_ip r) (att_interface_host r) (att_interface_container r)
    (att_bridge_name r) (att_gateway_ip r) (att_updated_at r).

(** The tables; [tt_workspaces] is the [status] column of the workspace table, which
    the janitor joins. *)
Record TopologyTables := mkTopologyTables {
  tt_topologies : gmap Z Topology;
  tt_runtimes : gmap Z TopologyRuntime;
  tt_allocations : gmap Z IpAllocation;
  tt_attachments : gmap Z TopologyAttachment;
  tt_workspaces : gmap Z workspace_status
}.
#[export] Instance rebuild_TopologyTables : Rebuild TopologyTables := fun r =>
  mkTopologyTables (tt_topologies r) (tt_runtimes r) (tt_allocations r) (tt_attachments r) (tt_workspaces r).

(** ** Unique constraints *)

Definition unique_rows {A} (clash : A → A → bool) (m : gmap Z A) : bool :=
  forallb (λ x : Z * A, forallb (λ y : Z * A, (x.1 =? y.1) || negb (clash x.2 y.2)) (map_to_list m))
    (map_to_list m).

(** uq_topology_runtime_topology_node and uq_topology_runtime_topology_cidr (NULLs
    are distinct). *)
Definition runtimes_clash (a b : TopologyRuntime) : bool :=
  (tr_topology_id a =? tr_topology_id b) &&
  (String.eqb (tr_node_id a) (tr_node_id b) ||
   match tr_cidr a, tr_cidr b with Some c, Some d => String.eqb c d | _, _ => false end).

Definition lease_active (a : IpAllocation) : bool := bool_decide (ipa_released_at a = None).

(** uq_ip_allocation_node_topology_workspace and the partial index
    uq_ip_allocation_active_topology_node_ip. *)
Definition allocations_clash (a b : IpAllocation) : bool :=
  (ipa_topology_id a =? ipa_topology_id b) && String.eqb (ipa_node_id a) (ipa_node_id b) &&
  ((ipa_workspace_id a =? ipa_workspace_id b) ||
   (lease_active a && lease_active b && String.eqb (ipa_ip a) (ipa_ip b))).

(** uq_topology_attachment_topology_node_workspace. *)
Definition attachments_clash (a b : TopologyAttachment) : bool :=
  (att_topology_id a =? att_topology_id b) && String.eqb (att_node_id a) (att_node_id b) &&
  (att_workspace_id a =? att_workspace_id b).

Definition tables_ok (t : TopologyTables) : bool :=
  unique_rows runtimes_clash (tt_runtimes t) && unique_rows allocations_clash (tt_allocations t) &&
  unique_rows attachments_clash (tt_attachments t).

Lemma unique_rows_spec {A} (clash : A → A → bool) m :
  unique_rows clash m = true ↔
  ∀ i j a b, m !! i = Some a → m !! j = Some b → clash a b = true → i = j.
Proof.
  unfold unique_rows. rewrite forallb_forall. split.
  - intros H i j a b Hi Hj Hc.
    assert (Hin : ∀ k (x : A), m !! k = Some x → List.In (k, x) (map_to_list m))
      by (intros k x Hk; by apply list_elem_of_In, elem_of_map_to_list).
    specialize (H _ (Hin _ _ Hi)). rewrite forallb_forall in H. specialize (H _ (Hin _ _ Hj)).
    simpl in H. rewrite Hc in H. rewrite orb_false_r in H. by apply Z.eqb_eq.
  - intros H [i a] Hi%list_elem_of_In%elem_of_map_to_list. apply forallb_forall.
    intros [j b] Hj%list_elem_of_In%elem_of_map_to_list. simpl.
    destruct (clash a b) eqn:E; [|by rewrite orb_true_r].
    by rewrite (proj2 (Z.eqb_eq i j)) by eauto.
Qed.

Lemma unique_rows_insert {A} (clash : A → A → bool) m k a :
  unique_rows clash m = true →
  (∀ j b, j ≠ k → m !! j = Some b → clash a b = false ∧ clash b a = false) →
  unique_rows clash (<[k := a]> m) = true.
Proof.
  rewrite !unique_rows_spec. intros Hm Ha i j b c Hi Hj Hc.
  apply lookup_insert_Some in Hi as [[<- <-]|[Hik Hi]], Hj as [[<- <-]|[Hjk Hj]]; [done|..].
  - destruct (Ha j c); [done..|congruence].
  - destruct (Ha i b); [done..|congruence].
  - by eapply Hm.
Qed.

(** ** The adapter's transactions *)

Record TopologyState (W : Type) := mkTopologyState {
  ts_tables : TopologyTables;
  ts_committed : TopologyTables;
  ts_world : W
}.
Arguments mkTopologyState {W}.
Arguments ts_tables {W}.
Arguments ts_committed {W}.
Arguments ts_world {W}.
#[export] Instance rebuild_TopologyState W : Rebuild (TopologyState W) := fun r =>
  mkTopologyState (ts_tables r) (ts_committed r) (ts_world r).

Abbreviation T W := (eff (TopologyState W) Exn).

(** Primary keys are not reused and the columns of the unique keys not updated. *)
Definition same_identity {A B} (key : A → B) (m m' : gmap Z A) : Prop :=
  ∀ k a a', m !! k = Some a → m' !! k = Some a' → key a' = key a.
Definition runtime_key (r : TopologyRuntime) := (tr_topology_id r, tr_node_id r).
Definition allocation_key (a : IpAllocation) := (ipa_topology_id a, ipa_node_id a, ipa_workspace_id a).
Definition attachment_key (a : TopologyAttachment) := (att_topology_id a, att_node_id a, att_workspace_id a).
Definition identities_kept (t t' : TopologyTables) : Prop :=
  same_identity runtime_key (tt_runtimes t) (tt_runtimes t') ∧
  same_identity allocation_key (tt_allocations t) (tt_allocations t') ∧
  same_identity attachment_key (tt_attachments t) (tt_attachments t').

Class SharedTables (W : Type) := {
  (** what the others commit first, and the error of the commit itself, if any *)
  sh_commit : W → W * (TopologyTables → TopologyTables) * option string;
  sh_constraints : ∀ w t, tables_ok t = true → tables_ok ((sh_commit w).1.2 t) = true;
  sh_identities : ∀ w t, identities_kept t ((sh_commit w).1.2 t)
}.

Section transactions.
Context {W : Type} {shared : SharedTables W}.

Definition tquery {A} (f : TopologyTables → A) : T W A := gets (λ s, f (ts_tables s)).

(** [session.commit()] of the pending change [g]; [None] is an UPDATE whose row is
    gone. *)
Definition commit_change (g : TopologyTables → option TopologyTables) : T W unit := λ s,
  let '(w, others, failure) := sh_commit (ts_world s) in
  let s' := s <| ts_world := w |> <| ts_committed ::= others |> in
  match failure with
  | Some m => (s', inr (OtherException m))
  | None =>
      match g (others (ts_tables s)) with
      | None => (s', inr (OtherException "StaleDataError"))
      | Some t => if tables_ok t then (mkTopologyState t t w, inl tt) else (s', inr IntegrityError)
      end
  end.

(** [session.rollback()] *)
Definition trollback : T W unit := modify (λ s, s <| ts_tables := ts_committed s |>).

(** UPDATE of one row, and INSERT of a new one. *)
Definition update_row {A} (get : TopologyTables → gmap Z A)
    (put : (gmap Z A → gmap Z A) → TopologyTables → TopologyTables) (k : Z) (f : A → A)
    (t : TopologyTables) : option TopologyTables :=
  if bool_decide (k ∈ dom (get t)) then Some (put (alter f k) t) else None.
Definition update_runtime := update_row tt_runtimes (λ f t, t <| tt_runtimes ::= f |>).
Definition update_allocation := update_row tt_allocations (λ f t, t <| tt_allocations ::= f |>).
Definition update_attachment := update_row tt_attachments (λ f t, t <| tt_attachments ::= f |>).

Definition insert_runtime (r : TopologyRuntime) (t : TopologyTables) : option TopologyTables :=
  Some (t <| tt_runtimes ::= <[fresh_key (tt_runtimes t) := r]> |>).
Definition insert_allocation (r : IpAllocation) (t : TopologyTables) : option TopologyTables :=
  Some (t <| tt_allocations ::= <[fresh_key (tt_allocations t) := r]> |>).
Definition insert_attachment (r : TopologyAttachment) (t : TopologyTables) : option TopologyTables :=
  Some (t <| tt_attachments ::= <[fresh_key (tt_attachments t) := r]> |>).

(** *** Queries by the unique columns *)

Definition find_runtime (topology_id : Z) (node_id : string) (t : TopologyTables)
    : option (Z * TopologyRuntime) :=
  first_row (λ kr, tr_topology_id kr.2 = topology_id ∧ tr_node_id kr.2 = node_id) (tt_runtimes t).
Definition find_allocation (topology_id : Z) (node_id : string) (wid : Z) (t : TopologyTables)
    : option (Z * IpAllocation) :=
  first_row (λ kr, ipa_topology_id kr.2 = topology_id ∧ ipa_node_id kr.2 = node_id ∧
                   ipa_workspace_id kr.2 = wid) (tt_allocations t).
Definition find_active_allocation (topology_id : Z) (node_id : string) (wid : Z) (t : TopologyTables)
    : option (Z * IpAllocation) :=
  first_row (λ kr, ipa_topology_id kr.2 = topology_id ∧ ipa_node_id kr.2 = node_id ∧
                   ipa_workspace_id kr.2 = wid ∧ ipa_released_at kr.2 = None) (tt_allocations t).
Definition find_attachment (topology_id : Z) (node_id : string) (wid : Z) (t : TopologyTables)
    : option (Z * TopologyAttachment) :=
  first_row (λ kr, att_topology_id kr.2 = topology_id ∧ att_node_id kr.2 = node_id ∧
                   att_workspace_id kr.2 = wid) (tt_attachments t).

(** *** Rules *)

Lemma wp_tquery {A} (f : TopologyTables → A) (Q : A → TopologyState W → Prop) X s :
  Q (f (ts_tables s)) s → wp (tquery f) Q X s.
Proof. done. Qed.
Lemma wp_trollback (Q : unit → TopologyState W → Prop) X s :
  Q tt (s <| ts_tables := ts_committed s |>) → wp trollback Q X s.
Proof. done. Qed.

(** What other sessions commit between two points of a transaction. *)
Definition rival_step (t t' : TopologyTables) : Prop := ∃ w, t' = (sh_commit w).1.2 t.

Lemma rival_step_ok t t' : rival_step t t' → tables_ok t = true → tables_ok t' = true.
Proof. intros [w ->]. apply sh_constraints. Qed.
Lemma rival_steps_ok t t' : rtc rival_step t t' → tables_ok t = true → tables_ok t' = true.
Proof. induction 1; [done|]. eauto using rival_step_ok. Qed.
Lemma rival_step_identities t t' : rival_step t t' → identities_kept t t'.
Proof. intros [w ->]. apply sh_identities. Qed.

(** Between its operations the adapter has no pending change. *)
Definition clean (s : TopologyState W) : Prop :=
  ts_tables s = ts_committed s ∧ tables_ok (ts_tables s) = true.

Lemma clean_intro t w : tables_ok t = true → clean (mkTopologyState t t w).
Proof. done. Qed.

(** A commit from a clean state lands on what the others left, or nothing of it
    does; [IntegrityError] only for a violated constraint. *)
Lemma wp_commit_change g (Q : unit → TopologyState W → Prop) X s : clean s →
  (∀ w t0 t, rival_step (ts_tables s) t0 → g t0 = Some t → tables_ok t = true → Q tt (mkTopologyState t t w)) →
  (∀ w t0 e, rival_step (ts_tables s) t0 →
     (e = IntegrityError ∧ (∃ t, g t0 = Some t ∧ tables_ok t = false) ∨ ∃ m, e = OtherException m) →
     X e (mkTopologyState (ts_tables s) t0 w)) →
  wp (commit_change g) Q X s.
Proof.
  intros [Heq Hok] HQ HX. unfold wp, commit_change.
  assert (Hr : rival_step (ts_tables s) ((sh_commit (ts_world s)).1.2 (ts_tables s))) by by eexists.
  destruct (sh_commit (ts_world s)) as [[w others] failure]. simpl in Hr.
  destruct s as [t tc w0]. simpl in *. subst tc.
  destruct failure as [m|]; [apply HX; [done|]; right; by eexists|].
  destruct (g _) as [t'|] eqn:Eg; [|apply HX; [done|]; right; by eexists].
  destruct (tables_ok t') eqn:Et; [by eapply HQ|]. apply HX; [done|]. left. split; [done|]. by exists t'.
Qed.

(** No other session commits anything and the database takes every commit. *)
Definition calm : Prop := ∀ w, (∀ t, (sh_commit w).1.2 t = t) ∧ (sh_commit w).2 = None.

Lemma calm_commit g s t : calm → clean s → g (ts_tables s) = Some t → tables_ok t = true →
  ∃ w, commit_change g s = (mkTopologyState t t w, inl tt).
Proof.
  intros Hcalm [Heq Hok] Hg Ht. unfold commit_change. destruct (Hcalm (ts_world s)) as [Hf Hn].
  destruct (sh_commit (ts_world s)) as [[w others] failure]. simpl in *. subst failure.
  rewrite Hf, Hg, Ht. by exists w.
Qed.

(** [try: commit except Exception: rollback, h]: a failed change is rolled back to
    what the others left. *)
Lemma wp_commit_or g h (Q : unit → TopologyState W → Prop) X s : clean s →
  (∀ w t0 t, rival_step (ts_tables s) t0 → g t0 = Some t → tables_ok t = true → Q tt (mkTopologyState t t w)) →
  (∀ w t0 e, rival_step (ts_tables s) t0 → wp (h e) Q X (mkTopologyState t0 t0 w)) →
  wp (try_except (commit_change g) (λ e, trollback ;; h e)) Q X s.
Proof.
  intros Hs HQ Hh. apply wp_try, wp_commit_change; [done..|].
  intros w t0 e Ht _. apply wp_bind, wp_trollback. by apply Hh.
Qed.
End transactions.

(** [wp_topo] runs the goal up to the next commit, call or case distinction. *)
Ltac wp_topo :=
  repeat first
    [ simple apply wp_bind | simple apply wp_ret | simple apply wp_raise
    | simple apply wp_tquery | simple apply wp_trollback | simple apply wp_try
    | simple apply wp_attempt | simple apply wp_gets | simple apply wp_modify ];
  cbn beta iota.
