(* ===== verification/LinuxNet.v ===== *)
(** * LinuxNet: bridges, veth pairs and network namespaces

    libs/topology/system: [command_runner.py], [bridge_ops.py] and
    [attachment_ops.py].  Every operation is a sequence of [ip] commands whose
    output is parsed; running a command is the interface [HostNetwork], and the
    parsing is modelled on ASCII text. *)

From S2P Require Import Prelude Models Ipaddress TopologyModels.

(** ** Text of command output *)

(** [s.splitlines()] *)
Definition is_line_end (c : ascii) : bool :=
  let n := N_of_ascii c in ((10 <=? n) && (n <=? 13) || (28 <=? n) && (n <=? 30))%N.
Fixpoint lines_from (cur : string) (after_cr : bool) (s : string) : list string :=
  match s with
  | EmptyString => if Py.truthy cur then [cur] else []
  | String c r =>
      if after_cr && Ascii.eqb c "010" then lines_from cur false r
      else if is_line_end c then cur :: lines_from EmptyString (Ascii.eqb c "013") r
      else lines_from (cur ++ String c EmptyString) false r
  end.
Definition splitlines (s : string) : list string := lines_from EmptyString false s.

(** [s.split()] *)
Fixpoint words_from (cur : string) (s : string) : list string :=
  match s with
  | EmptyString => if Py.truthy cur then [cur] else []
  | String c r =>
      if Py.is_space c then
        if Py.truthy cur then cur :: words_from EmptyString r else words_from EmptyString r
      else words_from (cur ++ String c EmptyString) r
  end.
Definition split_words (s : string) : list string := words_from EmptyString s.

(** [\w] *)
Definition is_word_char (c : ascii) : bool :=
  let n := Z.of_N (N_of_ascii c) in
  ((48 <=? n) && (n <=? 57)) || ((65 <=? n) && (n <=? 90)) || (n =? 95) || ((97 <=? n) && (n <=? 122)).
Definition word_at (o : option ascii) : bool := match o with Some c => is_word_char c | None => false end.
(** [\b] between the characters [a] and [b] *)
Definition boundary (a b : option ascii) : bool := xorb (word_at a) (word_at b).
Definition first_char (s : string) : option ascii := match s with String c _ => Some c | EmptyString => None end.
Fixpoint last_char (p : option ascii) (s : string) : option ascii :=
  match s with EmptyString => p | String c r => last_char (Some c) r end.

Fixpoint strip_prefix (p s : string) : option string :=
  match p, s with
  | EmptyString, _ => Some s
  | String a p', String b s' => if Ascii.eqb a b then strip_prefix p' s' else None
  | _, EmptyString => None
  end.
Fixpoint skip_spaces (s : string) : string :=
  match s with String c r => if Py.is_space c then skip_spaces r else s | EmptyString => s end.

(** [\b w \b] at the start of [s], after the character [prev] *)
Definition word_here (w : string) (prev : option ascii) (s : string) : bool :=
  match strip_prefix w s with
  | Some rest => boundary prev (first_char s) && boundary (last_char prev w) (first_char rest)
  | None => false
  end.
Fixpoint search_word (w : string) (prev : option ascii) (s : string) : bool :=
  word_here w prev s ||
  match s with String c r => search_word w (Some c) r | EmptyString => false end.

(** [re.search(rf"\bmaster\s+{re.escape(br)}\b", out)] *)
Definition master_here (br : string) (prev : option ascii) (s : string) : bool :=
  match strip_prefix "master" s with
  | Some rest =>
      boundary prev (first_char s) &&
      match rest with
      | String c _ => Py.is_space c
      | EmptyString => false
      end &&
      match strip_prefix br (skip_spaces rest) with
      | Some rest' => boundary (last_char None br) (first_char rest')
      | None => false
      end
  | None => false
  end.
Fixpoint search_master (br : string) (prev : option ascii) (s : string) : bool :=
  master_here br prev s ||
  match s with String c r => search_master br (Some c) r | EmptyString => false end.

(** [re.search(r"<[^>]*\bUP\b[^>]*>", out)] *)
Fixpoint search_flags (s : string) : bool :=
  match s with
  | EmptyString => false
  | String c r =>
      (Ascii.eqb c "<" && char_in ">" r && search_word "UP" (Some "<"%char) (Py.until (Ascii.eqb ">") r))
      || search_flags r
  end.

(** [re.match(r"^\d+:\s*([^:@\s]+)(?:@|:)", line)]: the interface of a listing line *)
Definition is_digit (c : ascii) : bool := bool_decide (is_Some (Py.digit_value c)).
Definition ifname_of_line (line : string) : option string :=
  let num := Py.until (λ c, negb (is_digit c)) line in
  rest ← strip_prefix num line;
  rest ← strip_prefix ":" rest;
  let rest := skip_spaces rest in
  let name := Py.until (λ c, Ascii.eqb c ":" || Ascii.eqb c "@" || Py.is_space c) rest in
  after ← strip_prefix name rest;
  match after with
  | String c _ => if Py.truthy num && Py.truthy name && negb (Py.is_space c) then Some name else None
  | EmptyString => None
  end.

Example text_examples :
  search_master "dn1abcd" None "5: vh12@if4: <UP> mtu 1500 master dn1abcd state UP" = true ∧
  search_master "dn1abc" None "5: vh12@if4: <UP> mtu 1500 master dn1abcd state UP" = false ∧
  search_flags "3: br0: <NO-CARRIER,BROADCAST,UP> mtu 1500 state DOWN" = true ∧
  search_flags "3: br0: <LOWER_UP> mtu 1500 state DOWN" = false ∧
  ifname_of_line "12: vhabc123@if11: <BROADCAST>" = Some "vhabc123"%string ∧
  splitlines ("a" ++ String "010" ("b" ++ String "013" (String "010" "c")))%string = ["a"; "b"; "c"]%string ∧
  split_words "  inet 10.0.0.1/24  brd x " = ["inet"; "10.0.0.1/24"; "brd"; "x"]%string.
Proof. vm_compute. done. Qed.

(** ** Commands *)

(** [subprocess.run]: exit status with stdout and stderr, a timeout, or another
    exception (the program cannot be started). *)
Inductive ProcessResult : Set :=
| Completed (returncode : Z) (stdout stderr : string)
| TimedOut
| SpawnFailed (msg : string).

Class HostNetwork (W : Type) := {
  hn_run : list string → W → W * ProcessResult;
  hn_linux : bool;                                  (* sys.platform == "linux" *)
  hn_pid_visible : string → W → bool;               (* os.path.isdir(f"/proc/{pid}") *)
  hn_sidecar_netns : W → bool;                      (* infer_docker_sidecar_default_netns_differs_from_pid1 *)
  hn_via_host_nsenter : option string               (* DEVNEST_TOPOLOGY_IP_VIA_HOST_NSENTER *)
}.

Section linux.
Context {W : Type} {host : HostNetwork W}.

(** [CommandRunner.run] *)
Definition run (cmd : list string) : T W string := λ s,
  match cmd with
  | [] => (s, inr (ValueError "cmd must be a non-empty list of strings"))
  | _ =>
      let '(w, r) := hn_run cmd (ts_world s) in
      (s <| ts_world := w |>,
       match r with
       | Completed 0 out _ => inl out
       | Completed _ out err => inr (RuntimeError ("command failed: stdout: " ++ Py.strip out ++ " stderr: " ++ Py.strip err))
       | TimedOut => inr (RuntimeError "command timed out")
       | SpawnFailed m => inr (OtherException m)
       end)
  end.

Definition ask {A} (f : W → A) : T W A := gets (λ s, f (ts_world s)).

(** [try: m except RuntimeError: h] *)
Definition except_runtime {A} (m : T W A) (h : string → T W A) : T W A :=
  try_except m (λ e, match e with RuntimeError msg => h msg | _ => raise e end).

(** [_validate_linux_ifname] and [_validate_ifname] *)
Definition validate_linux_ifname (label name : string) : T W string :=
  let s := Py.strip name in
  if negb (Py.truthy s) then raise (ValueError (label ++ " must be a non-empty string"))
  else if 15 <? Py.len s then raise (ValueError (label ++ " too long for Linux interface name"))
  else if existsb Py.is_space (list_ascii_of_string s) then raise (ValueError (label ++ " must not contain whitespace"))
  else mret s.
Definition validate_ifname := validate_linux_ifname.

(** *** bridge_ops.py *)

Definition check_bridge_exists (bridge_name : string) : T W bool :=
  br ← validate_linux_ifname "bridge_name" bridge_name;
  except_runtime (run ["ip"; "link"; "show"; "dev"; br] ;; mret true) (λ _, mret false).

Definition check_bridge_link_up (bridge_name : string) : T W bool :=
  br ← validate_linux_ifname "bridge_name" bridge_name;
  except_runtime
    (out ← run ["ip"; "link"; "show"; "dev"; br];
     mret (search_word "state UP" None out || search_flags out))
    (λ _, mret false).

(** [ipaddress.ip_interface(token)], when it is an IPv4 one *)
Definition parse_ipv4_interface (token : string) : option (Z * Z) :=
  match split_on "/" token with
  | [a] => ip ← parse_ipv4 a; Some (ip, 32)
  | [a; m] => ip ← parse_ipv4 a; p ← parse_netmask m; Some (ip, p)
  | _ => None
  end.

(** [parts.index("inet")] and the next part *)
Fixpoint after_inet (parts : list string) : option string :=
  match parts with
  | [] => None
  | w :: r => if String.eqb w "inet" then head r else after_inet r
  end.
Definition ipv4_iface_on_dev_from_ip_addr_output (out : string) (want : Z * Z) : bool :=
  existsb (λ line, match after_inet (split_words line) with
                   | Some token => bool_decide (parse_ipv4_interface token = Some want)
                   | None => false
                   end) (splitlines out).

Definition check_bridge_has_ipv4_address (bridge_name gateway_ip cidr : string) : T W bool :=
  br ← validate_linux_ifname "bridge_name" bridge_name;
  match ip_network cidr, ip_address (Py.strip gateway_ip) with
  | Some (Net4 net), Some (V4 gw) =>
      if negb (contains4 net gw) then mret false
      else
        let want := (gw, net_prefixlen net) in
        found ← except_runtime
          (out ← run ["ip"; "-o"; "-4"; "addr"; "show"; "dev"; br];
           mret (ipv4_iface_on_dev_from_ip_addr_output out want)) (λ _, mret false);
        if found : bool then mret true
        else except_runtime
          (out2 ← run ["ip"; "-4"; "addr"; "show"; "dev"; br];
           mret (ipv4_iface_on_dev_from_ip_addr_output out2 want)) (λ _, mret false)
  | _, _ => mret false
  end.

Definition remove_bridge_if_exists (bridge_name : string) : T W unit :=
  br ← validate_linux_ifname "bridge_name" bridge_name;
  exists_ ← check_bridge_exists br;
  if exists_ : bool then run ["ip"; "link"; "del"; "dev"; br] ;; mret tt else mret tt.

Definition ensure_bridge_exists (bridge_name : string) : T W unit :=
  br ← validate_linux_ifname "bridge_name" bridge_name;
  exists_ ← check_bridge_exists br;
  if exists_ : bool then mret tt
  else except_runtime (run ["ip"; "link"; "add"; br; "type"; "bridge"] ;; mret tt)
    (λ m, again ← check_bridge_exists br;
          if again : bool then mret tt else raise (RuntimeError m)).

Definition ensure_bridge_up (bridge_name : string) : T W unit :=
  br ← validate_linux_ifname "bridge_name" bridge_name;
  ensure_bridge_exists br ;;
  run ["ip"; "link"; "set"; "dev"; br; "up"] ;;
  mret tt.

(** Tokens of iproute2's wordings for an address that is already there. *)
Definition already_there (m : string) : bool :=
  existsb (λ token, Py.contains token (Py.lower m))
    ["file exists"; "already exists"; "address already"; "rtnetlink answers: file exists"]%string.

Definition ensure_bridge_address (bridge_name gateway_ip cidr : string) : T W unit :=
  br ← validate_linux_ifname "bridge_name" bridge_name;
  ensure_bridge_exists br ;;
  match ip_network cidr with
  | None => raise (ValueError "invalid cidr")
  | Some (Net6 _) => raise (ValueError "V1 bridge ops only support IPv4 CIDR")
  | Some (Net4 net) =>
      match ip_address gateway_ip with
      | None => raise (ValueError "invalid gateway_ip")
      | Some ip =>
          match ip with
          | V4 a =>
              if negb (contains4 net a) then raise (ValueError "gateway_ip not in cidr")
              else
                let addr := (str_of_ipv4 a ++ "/" ++ Py.str_of_Z (net_prefixlen net))%string in
                let gw_s := Py.strip gateway_ip in
                present ← check_bridge_has_ipv4_address br gw_s cidr;
                if present : bool then mret tt
                else except_runtime (run ["ip"; "addr"; "add"; addr; "dev"; br] ;; mret tt)
                  (λ m,
                    now ← check_bridge_has_ipv4_address br gw_s cidr;
                    if now : bool then mret tt
                    else if already_there m then
                      again ← check_bridge_has_ipv4_address br gw_s cidr;
                      if again : bool then mret tt else raise (RuntimeError m)
                    else raise (RuntimeError m))
          | V6 _ => raise (ValueError "gateway_ip not in cidr")
          end
      end
  end.

(** *** attachment_ops.py *)

Definition env_truthy (val : option string) : bool :=
  match val with
  | None => false
  | Some v => bool_decide (Py.lower (Py.strip v) ∈ ["1"; "true"; "yes"; "on"]%string)
  end.

Definition assert_host_topology_ip_via_nsenter_config_or_raise : T W unit :=
  sidecar ← ask hn_sidecar_netns;
  if negb sidecar then mret tt
  else if env_truthy (Some (default ""%string hn_via_host_nsenter)) then mret tt
  else raise (RuntimeError "refusing topology Linux attach: this process runs in a Docker sidecar netns").

Definition all_digits (s : string) : bool := bool_decide (is_Some (Py.digits s)).

Definition assert_netns_target_pid_visible (pid : string) : T W unit :=
  if negb (all_digits pid) then mret tt
  else if negb hn_linux then mret tt
  else
    visible ← ask (hn_pid_visible pid);
    if visible : bool then mret tt
    else raise (RuntimeError ("target PID " ++ pid ++ " for netns move is not visible")).

(** [/proc/<pid>/ns/net] or a decimal PID *)
Definition pid_of_netns_path (s : string) : option string :=
  rest ← strip_prefix "/proc/" s;
  let pid := Py.until (λ c, negb (is_digit c)) rest in
  after ← strip_prefix pid rest;
  if Py.truthy pid && String.eqb after "/ns/net" then Some pid else None.

Definition pid_from_netns_ref (netns_ref : string) : T W string :=
  let s := Py.strip netns_ref in
  if negb (Py.truthy s) then raise (ValueError "netns_ref must be a non-empty string")
  else match Py.digits s with
  | Some pid => if pid <=? 0 then raise (ValueError "invalid PID in netns_ref") else mret s
  | None => match pid_of_netns_path s with
            | Some pid => mret pid
            | None => raise (ValueError "unsupported netns_ref")
            end
  end.

Definition validate_netns_ref (netns_ref : string) : T W string :=
  let s := Py.strip netns_ref in
  if negb (Py.truthy s) then raise (ValueError "netns_ref is required for V1 attach")
  else pid_from_netns_ref s ;; mret s.

Definition assert_netns_attach_target_visible (netns_ref : string) : T W unit :=
  s ← validate_netns_ref netns_ref;
  pid ← pid_from_netns_ref s;
  assert_netns_target_pid_visible pid.

Definition netns_prefix (netns_ref : string) : T W (list string) :=
  pid ← pid_from_netns_ref netns_ref;
  assert_netns_target_pid_visible pid ;;
  mret ["nsenter"; "-n"; "-t"; pid; "--"]%string.

Definition check_host_veth_enslaved_to_bridge (host_if bridge_name : string) : T W bool :=
  h ← validate_ifname "host_if" host_if;
  br ← validate_ifname "bridge_name" bridge_name;
  except_runtime (out ← run ["ip"; "link"; "show"; "dev"; h]; mret (search_master br None out)) (λ _, mret false).

Definition check_interface_exists (ifname : string) (netns_ref : option string) : T W bool :=
  ifn ← validate_ifname "interface" ifname;
  except_runtime
    (match netns_ref with
     | None => run ["ip"; "link"; "show"; "dev"; ifn]%string ;; mret true
     | Some nr => prefix ← netns_prefix nr;
                  run (prefix ++ ["ip"; "link"; "show"; "dev"; ifn]%string) ;; mret true
     end) (λ _, mret false).

Definition both_exist (h c : string) : T W bool :=
  e ← check_interface_exists h None;
  if e : bool then check_interface_exists c None else mret false.

Definition create_veth_pair (host_if container_if : string) : T W unit :=
  h ← validate_ifname "host_if" host_if;
  c ← validate_ifname "container_if" container_if;
  if String.eqb h c then raise (ValueError "host_if and container_if must differ")
  else
    exist ← both_exist h c;
    if exist : bool then mret tt
    else except_runtime (run ["ip"; "link"; "add"; h; "type"; "veth"; "peer"; "name"; c] ;; mret tt)
      (λ m, again ← both_exist h c;
            if again : bool then mret tt else raise (RuntimeError m)).

Definition attach_host_if_to_bridge (host_if bridge_name : string) : T W unit :=
  h ← validate_ifname "host_if" host_if;
  br ← validate_ifname "bridge" bridge_name;
  enslaved ← check_host_veth_enslaved_to_bridge h br;
  (if enslaved : bool then mret tt else run ["ip"; "link"; "set"; "dev"; h; "master"; br]%string ;; mret tt) ;;
  run ["ip"; "link"; "set"; "dev"; h; "up"]%string ;; mret tt.

(** The hint added to the message for an invalid netns is left out. *)
Definition move_container_if_to_netns (container_if netns_ref : string) : T W unit :=
  c ← validate_ifname "container_if" container_if;
  pid ← pid_from_netns_ref netns_ref;
  assert_netns_target_pid_visible pid ;;
  run ["ip"; "link"; "set"; "dev"; c; "netns"; pid]%string ;; mret tt.

Definition assign_ip_in_netns (netns_ref container_if workspace_ip cidr : string) : T W unit :=
  pid_from_netns_ref netns_ref ;;
  ifn ← validate_ifname "container_if" container_if;
  match ip_network cidr with
  | None => raise (ValueError "invalid cidr")
  | Some (Net6 _) => raise (ValueError "V1 attachment ops support IPv4 CIDR only")
  | Some (Net4 net) =>
      match ip_address (Py.strip workspace_ip) with
      | None => raise (ValueError "invalid workspace_ip")
      | Some (V6 _) => raise (ValueError "V1 attachment ops support IPv4 workspace_ip only")
      | Some (V4 ip) =>
          if negb (contains4 net ip) then raise (ValueError "workspace_ip not in cidr")
          else
            let addr := (str_of_ipv4 ip ++ "/" ++ Py.str_of_Z (net_prefixlen net))%string in
            prefix ← netns_prefix netns_ref;
            except_runtime (run (prefix ++ ["ip"; "addr"; "add"; addr; "dev"; ifn]%string) ;; mret tt)
              (λ m, if Py.contains "File exists" m then mret tt else raise (RuntimeError m)) ;;
            run (prefix ++ ["ip"; "link"; "set"; "dev"; ifn; "up"]%string) ;; mret tt
      end
  end.

Definition bridge_master_slave_ifnames (bridge_name : string) : T W (list string) :=
  br ← validate_ifname "bridge_name" bridge_name;
  except_runtime
    (out ← run ["ip"; "link"; "show"; "master"; br];
     mret (omap (λ line, ifname_of_line (Py.strip line)) (splitlines out)))
    (λ _, mret []).

Definition check_bridge_master_list_contains_if (host_if bridge_name : string) : T W bool :=
  h ← validate_ifname "host_if" host_if;
  br ← validate_ifname "bridge_name" bridge_name;
  slaves ← bridge_master_slave_ifnames br;
  mret (bool_decide (h ∈ slaves)).

Definition check_workspace_ipv4_assigned_on_iface (netns_ref container_if workspace_ip cidr : string) : T W bool :=
  ifn ← validate_ifname "container_if" container_if;
  match ip_network cidr, ip_address (Py.strip workspace_ip) with
  | Some (Net4 net), Some (V4 ip) =>
      if negb (contains4 net ip) then mret false
      else
        let expect := (str_of_ipv4 ip ++ "/" ++ Py.str_of_Z (net_prefixlen net))%string in
        except_runtime
          (prefix ← netns_prefix netns_ref;
           out ← run (prefix ++ ["ip"; "-brief"; "addr"; "show"; "dev"; ifn]%string);
           mret (Py.contains expect out))
          (λ _, mret false)
  | _, _ => mret false
  end.

(** One list of reasons the plumbing is not usable; empty is good. *)
Definition topology_attach_plumbing_failures
    (host_if container_if bridge_name workspace_ip cidr netns_ref : string) : T W (list string) :=
  br ← validate_ifname "bridge_name" bridge_name;
  h ← validate_ifname "host_if" host_if;
  c ← validate_ifname "container_if" container_if;
  slaves ← bridge_master_slave_ifnames br;
  let r1 : list string := match slaves with [] => ["topology bridge has no slave interfaces"%string] | _ => [] end in
  present ← check_interface_exists h None;
  if negb present then mret (r1 ++ ["host veth does not exist in the topology ip netns"%string])
  else
    enslaved ← check_host_veth_enslaved_to_bridge h br;
    (if enslaved : bool then mret tt
     else except_runtime (run ["ip"; "link"; "show"; "dev"; h]%string ;; mret tt) (λ _, mret tt)) ;;
    let r2 : list string := if enslaved : bool then [] else ["host veth is not enslaved to bridge"%string] in
    let r3 : list string := if bool_decide (h ∈ slaves) then [] else ["ip link show master does not list host leg"%string] in
    nr ← validate_netns_ref netns_ref;
    inside ← check_interface_exists c (Some nr);
    let r4 : list string := if inside : bool then [] else ["container leg not present in workspace netns"%string] in
    assigned ← check_workspace_ipv4_assigned_on_iface nr c workspace_ip cidr;
    let r5 : list string := if assigned : bool then [] else ["workspace IP not assigned inside workspace netns"%string] in
    mret (r1 ++ r2 ++ r3 ++ r4 ++ r5).

Definition remove_veth_if_exists (host_if : string) : T W unit :=
  h ← validate_ifname "host_if" host_if;
  present ← check_interface_exists h None;
  if present : bool then run ["ip"; "link"; "del"; "dev"; h]%string ;; mret tt else mret tt.
End linux.

(** ** What they leave alone *)

(** The host's network is the world: no operation here touches a table, and errors
    are exceptions, never a lost transaction. *)
Section frame.
Context {W : Type} {host : HostNetwork W}.

Definition same_tables (s s' : TopologyState W) : Prop :=
  ts_tables s' = ts_tables s ∧ ts_committed s' = ts_committed s.
#[export] Instance same_tables_preorder : PreOrder same_tables.
Proof. split; [by intros s|]. intros a b c [] []. split; congruence. Qed.

(** The exceptions of a host operation. *)
Definition is_os_error (e : Exn) : bool :=
  match e with ValueError _ | RuntimeError _ | OtherException _ => true | _ => false end.

(** [m] works on the host: no table changes, and only such exceptions escape. *)
Definition os_op {A} (m : T W A) : Prop :=
  ∀ s, same_tables s (m s).1 ∧ ∀ e, (m s).2 = inr e → is_os_error e = true.

Lemma os_op_frame {A} (m : T W A) : os_op m → within same_tables m.
Proof. intros H s. apply H. Qed.
Lemma os_ret {A} (a : A) : os_op (mret a).
Proof. by intros s. Qed.
Lemma os_raise {A} e : is_os_error e = true → os_op (raise e : T W A).
Proof. intros He s. split; [done|]. by intros e' [= <-]. Qed.
Lemma os_bind {A B} (m : T W A) (k : A → T W B) : os_op m → (∀ a, os_op (k a)) → os_op (m ≫= k).
Proof.
  intros Hm Hk s. destruct (Hm s) as [H1 H2]. unfold mbind, eff_bind.
  destruct (m s) as [s' [a|e]]; simpl in *; [|split; [done|]; by intros e' [= <-]; apply H2].
  destruct (Hk a s') as [H3 H4]. split; [by etrans|done].
Qed.
Lemma os_try {A} (m : T W A) h : os_op m → (∀ e, is_os_error e = true → os_op (h e)) → os_op (try_except m h).
Proof.
  intros Hm Hh s. destruct (Hm s) as [H1 H2]. unfold try_except.
  destruct (m s) as [s' [a|e]]; simpl in *; [done|].
  destruct (Hh e (H2 e eq_refl) s') as [H3 H4]. split; [by etrans|done].
Qed.
Lemma os_except_runtime {A} (m : T W A) h : os_op m → (∀ x, os_op (h x)) → os_op (except_runtime m h).
Proof. intros Hm Hh. apply os_try; [done|]. intros e He. destruct e; first [by apply os_raise|apply Hh]. Qed.
Lemma run_frame cmd : os_op (run cmd).
Proof.
  intros s. unfold run. destruct cmd as [|x l]; [split; [done|by intros e [= <-]]|].
  destruct (hn_run _ _) as [w [[|c|c] out err| |m]]; (split; [done|]); intros e [= <-]; done.
Qed.
Lemma ask_frame {A} (f : W → A) : os_op (ask f).
Proof. by intros s. Qed.
End frame.

Create HintDb linux discriminated.
#[export] Hint Resolve run_frame ask_frame os_ret os_op_frame : linux.

(** Decomposes a computation of this file along its binds and case distinctions. *)
Ltac linux_frame :=
  repeat first
    [ solve [eauto with linux]
    | simple apply os_op_frame
    | simple apply os_bind; [|intros ?]
    | simple apply os_raise; done
    | simple apply os_except_runtime; [|intros ?]
    | simple apply os_try; [|intros ? ?]
    | match goal with |- os_op (match ?x with _ => _ end) => destruct x end
    | progress cbv beta zeta ].

Section frames.
Context {W : Type} {host : HostNetwork W}.

#[local] Tactic Notation "frame" reference(def) := intros; unfold def; linux_frame.

Lemma validate_frame l n : os_op (validate_linux_ifname (W := W) l n).
Proof. frame validate_linux_ifname. Qed.
#[local] Hint Resolve validate_frame : linux.
Lemma validate_ifname_frame l n : os_op (validate_ifname (W := W) l n).
Proof. apply validate_frame. Qed.
#[local] Hint Resolve validate_ifname_frame : linux.
Lemma check_bridge_exists_frame b : os_op (check_bridge_exists b).
Proof. frame check_bridge_exists. Qed.
#[local] Hint Resolve check_bridge_exists_frame : linux.
Lemma check_bridge_link_up_frame b : os_op (check_bridge_link_up b).
Proof. frame check_bridge_link_up. Qed.
Lemma check_bridge_has_ipv4_address_frame b g c : os_op (check_bridge_has_ipv4_address b g c).
Proof. frame check_bridge_has_ipv4_address. Qed.
#[local] Hint Resolve check_bridge_has_ipv4_address_frame : linux.
Lemma remove_bridge_frame b : os_op (remove_bridge_if_exists b).
Proof. frame remove_bridge_if_exists. Qed.
Lemma ensure_bridge_exists_frame b : os_op (ensure_bridge_exists b).
Proof. frame ensure_bridge_exists. Qed.
#[local] Hint Resolve ensure_bridge_exists_frame : linux.
Lemma ensure_bridge_up_frame b : os_op (ensure_bridge_up b).
Proof. frame ensure_bridge_up. Qed.
Lemma ensure_bridge_address_frame b g c : os_op (ensure_bridge_address b g c).
Proof. frame ensure_bridge_address. Qed.
Lemma assert_nsenter_frame : os_op assert_host_topology_ip_via_nsenter_config_or_raise.
Proof. frame assert_host_topology_ip_via_nsenter_config_or_raise. Qed.
Lemma assert_pid_visible_frame p : os_op (assert_netns_target_pid_visible p).
Proof. frame assert_netns_target_pid_visible. Qed.
Lemma pid_from_netns_ref_frame n : os_op (pid_from_netns_ref (W := W) n).
Proof. frame pid_from_netns_ref. Qed.
#[local] Hint Resolve assert_pid_visible_frame pid_from_netns_ref_frame : linux.
Lemma validate_netns_ref_frame n : os_op (validate_netns_ref (W := W) n).
Proof. frame validate_netns_ref. Qed.
#[local] Hint Resolve validate_netns_ref_frame : linux.
Lemma assert_netns_visible_frame n : os_op (assert_netns_attach_target_visible n).
Proof. frame assert_netns_attach_target_visible. Qed.
Lemma netns_prefix_frame n : os_op (netns_prefix n).
Proof. frame netns_prefix. Qed.
#[local] Hint Resolve netns_prefix_frame : linux.
Lemma check_enslaved_frame h b : os_op (check_host_veth_enslaved_to_bridge h b).
Proof. frame check_host_veth_enslaved_to_bridge. Qed.
Lemma check_interface_exists_frame i n : os_op (check_interface_exists i n).
Proof. frame check_interface_exists. Qed.
#[local] Hint Resolve check_enslaved_frame check_interface_exists_frame : linux.
Lemma both_exist_frame h c : os_op (both_exist h c).
Proof. frame both_exist. Qed.
#[local] Hint Resolve both_exist_frame : linux.
Lemma create_veth_pair_frame h c : os_op (create_veth_pair h c).
Proof. frame create_veth_pair. Qed.
Lemma attach_host_if_frame h b : os_op (attach_host_if_to_bridge h b).
Proof. frame attach_host_if_to_bridge. Qed.
Lemma move_container_if_frame c n : os_op (move_container_if_to_netns c n).
Proof. frame move_container_if_to_netns. Qed.
Lemma assign_ip_frame n c i cidr : os_op (assign_ip_in_netns n c i cidr).
Proof. frame assign_ip_in_netns. Qed.
Lemma slaves_frame b : os_op (bridge_master_slave_ifnames b).
Proof. frame bridge_master_slave_ifnames. Qed.
#[local] Hint Resolve slaves_frame : linux.
Lemma master_list_frame h b : os_op (check_bridge_master_list_contains_if h b).
Proof. frame check_bridge_master_list_contains_if. Qed.
Lemma assigned_frame n c i cidr : os_op (check_workspace_ipv4_assigned_on_iface n c i cidr).
Proof. frame check_workspace_ipv4_assigned_on_iface. Qed.
#[local] Hint Resolve assigned_frame : linux.
Lemma plumbing_failures_frame h c b i cidr n : os_op (topology_attach_plumbing_failures h c b i cidr n).
Proof. frame topology_attach_plumbing_failures. Qed.
Lemma remove_veth_frame h : os_op (remove_veth_if_exists h).
Proof. frame remove_veth_if_exists. Qed.
End frames.

#[export] Hint Resolve check_bridge_exists_frame check_bridge_link_up_frame
  check_bridge_has_ipv4_address_frame remove_bridge_frame ensure_bridge_exists_frame
  ensure_bridge_up_frame ensure_bridge_address_frame assert_nsenter_frame validate_netns_ref_frame
  assert_netns_visible_frame check_enslaved_frame check_interface_exists_frame
  create_veth_pair_frame attach_host_if_frame move_container_if_frame assign_ip_frame
  master_list_frame plumbing_failures_frame remove_veth_frame : linux.
