(* ===== verification/TopologyPlan.v ===== *)
(** * TopologyPlan: names, subnets and addresses of the topology adapter

    The planning functions of libs/topology/db_topology_adapter.py: interface names,
    the subnet and gateway of a node's bridge, the candidate addresses of its
    workspaces, and the consistency issues of a runtime row. *)

From S2P Require Import Prelude Models Ipaddress Digest TopologyModels.

Definition V1_MODE : string := "node_bridge".
Definition V1_PARENT_POOL_CIDR : string := "10.128.0.0/9".
Definition V1_CHILD_PREFIXLEN : Z := 20.
Definition V1_INFRA_RESERVED_USABLE_HOSTS : Z := 10.
Definition ENSURE_NODE_CIDR_MAX_ATTEMPTS : Z := 16.
Definition ALLOCATE_IP_MAX_ATTEMPTS : Z := 24.

(** [x and str(x).strip()] for an optional column. *)
Definition is_set (o : option string) : bool := Py.truthy (Py.strip_opt o).

(** [sum(map(ord, s))] *)
Definition ord_sum (s : string) : Z :=
  foldr (λ c n, Z.of_N (N_of_ascii c) + n) 0 (list_ascii_of_string s).

(** ** Names *)

Definition bridge_name_for (topology_id : Z) (node_id : string) : string :=
  let h := Py.prefix_to 4 (sha256_hexdigest node_id) in
  Py.prefix_to 15 ("dn" ++ Py.str_of_Z topology_id ++ h).

Definition veth_pair_names (topology_id : Z) (node_id : string) (workspace_id : Z) : string * string :=
  let h := Py.prefix_to 6 (sha256_hexdigest
             (Py.str_of_Z topology_id ++ ":" ++ node_id ++ ":" ++ Py.str_of_Z workspace_id)) in
  ("vh" ++ h, "vc" ++ h)%string.

(** [m.strip().lower().replace("-", "_")] *)
Fixpoint dashes_to_underscores (s : string) : string :=
  match s with
  | EmptyString => EmptyString
  | String c r => String (if Ascii.eqb c "-" then "_"%char else c) (dashes_to_underscores r)
  end.

Definition spec_mode (spec : TopologySpec) : string :=
  match spec_mode_value spec with
  | None | Some JsonNull => V1_MODE
  | Some (JsonString m) => dashes_to_underscores (Py.lower (Py.strip m))
  | Some (JsonOther text) => text
  end.

(** A non-blank string value, stripped. *)
Definition spec_text (v : option JsonValue) : option string :=
  match v with
  | Some (JsonString s) => if Py.truthy (Py.strip s) then Some (Py.strip s) else None
  | _ => None
  end.

Definition empty_spec : TopologySpec := mkTopologySpec None None None None.

Section plan.
Context {W : Type}.

Definition node_bridge_plan (topology_id : Z) (topology : Topology) (node_id : string)
    : T W (option string * option string * string) :=
  let spec := default empty_spec (topo_spec_json topology) in
  if negb (String.eqb (spec_mode spec) V1_MODE) then
    raise (TopologyRuntimeCreateError "topology V1 supports mode 'node_bridge' only")
  else
    let bridge_name := match spec_text (spec_bridge_name_value spec) with
                       | Some b => Py.prefix_to 15 b
                       | None => bridge_name_for topology_id node_id
                       end in
    mret (spec_text (spec_cidr_value spec), spec_text (spec_gateway_ip_value spec), bridge_name).

Definition parse_ipv4_network (cidr : string) : T W IPv4Network :=
  match ip_network cidr with
  | None => raise (TopologyRuntimeCreateError "invalid cidr")
  | Some (Net6 _) => raise (TopologyRuntimeCreateError "V1 runtime CIDR must be IPv4")
  | Some (Net4 net) => mret net
  end.

Definition first_usable_host (net : IPv4Network) : T W Z :=
  match hosts net with
  | h :: _ => mret h
  | [] => raise (TopologyRuntimeCreateError "no usable hosts in CIDR")
  end.

(** The networks of the topology's other nodes; unreadable and IPv6 ones are skipped. *)
Definition used_network (topology_id : Z) (exclude_node_id : string) (r : TopologyRuntime)
    : option IPv4Network :=
  if (tr_topology_id r =? topology_id) && negb (String.eqb (tr_node_id r) exclude_node_id) then
    match ip_network (Py.strip_opt (tr_cidr r)) with Some (Net4 n) => Some n | _ => None end
  else None.
Definition list_used_runtime_networks (topology_id : Z) (exclude_node_id : string) (t : TopologyTables)
    : list IPv4Network :=
  omap (λ kr, used_network topology_id exclude_node_id kr.2) (map_to_list (tt_runtimes t)).

Definition net_overlaps_any (net : IPv4Network) (used : list IPv4Network) : bool :=
  existsb (overlaps net) used.

Definition iter_pool_child_subnets : list IPv4Network :=
  match parse_ipv4_net V1_PARENT_POOL_CIDR with
  | Some parent => subnets parent V1_CHILD_PREFIXLEN
  | None => []
  end.

(** [l[(start + k) % n]] for [k] in [range(n)] *)
Definition rotation {A} (start : Z) (l : list A) : list A :=
  drop (Z.to_nat start) l ++ take (Z.to_nat start) l.

Definition allocate_child_subnet (topology_id : Z) (node_id : string) (retry_index : Z) : T W IPv4Network :=
  used ← tquery (list_used_runtime_networks topology_id node_id);
  let children := iter_pool_child_subnets in
  let n := Z.of_nat (length children) in
  if n =? 0 then raise (TopologyRuntimeCreateError "parent pool produced no children")
  else
    let start := if 0 <? retry_index
                 then (retry_index * 7919 + topology_id * 17 + ord_sum node_id) mod n else 0 in
    match List.find (λ child, negb (net_overlaps_any child used)) (rotation start children) with
    | Some child => mret child
    | None => raise (TopologyRuntimeCreateError "no free subnets remaining in parent pool")
    end.

(** The gateway of the spec in [net], or the first usable host. *)
Definition gateway_for (net : IPv4Network) (spec_gateway_ip : option string) : T W string :=
  match spec_gateway_ip with
  | Some gw =>
      match ip_address gw with
      | None => raise (TopologyRuntimeCreateError "invalid gateway_ip in spec")
      | Some (V4 a) => if contains4 net a then mret (str_of_ipv4 a)
                       else raise (TopologyRuntimeCreateError "gateway_ip not in network")
      | Some (V6 _) => raise (TopologyRuntimeCreateError "gateway_ip not in network")
      end
  | None => h ← first_usable_host net; mret (str_of_ipv4 h)
  end.

Definition choose_runtime_cidr_and_gateway (topology_id : Z) (node_id : string)
    (existing : option TopologyRuntime) (spec_cidr spec_gateway_ip : option string)
    (pool_retry_index : Z) : T W (string * string) :=
  let old_cidr := Py.strip_opt (existing ≫= tr_cidr) in
  let old_gw := Py.strip_opt (existing ≫= tr_gateway_ip) in
  if Py.truthy old_cidr then
    net ← parse_ipv4_network old_cidr;
    if Py.truthy old_gw then
      match ip_address old_gw with
      | None => raise (ValueError "does not appear to be an IPv4 or IPv6 address")
      | Some g => if ip_in_net net g then mret (str_of_network net, old_gw)
                  else raise (TopologyRuntimeCreateError "existing gateway_ip not in runtime CIDR")
      end
    else h ← first_usable_host net; mret (str_of_network net, str_of_ipv4 h)
  else match spec_cidr with
  | Some cidr =>
      net ← parse_ipv4_network cidr;
      used ← tquery (list_used_runtime_networks topology_id node_id);
      if net_overlaps_any net used then
        raise (TopologyRuntimeCreateError "spec cidr conflicts with an existing topology runtime CIDR")
      else gw ← gateway_for net spec_gateway_ip; mret (str_of_network net, gw)
  | None =>
      net ← allocate_child_subnet topology_id node_id pool_retry_index;
      gw ← gateway_for net spec_gateway_ip;
      mret (str_of_network net, gw)
  end.

Definition runtime_row_complete (row : TopologyRuntime) : bool :=
  is_set (tr_bridge_name row) && is_set (tr_cidr row) && is_set (tr_gateway_ip row).

(** [None] is a [ValueError] of [ip_network], an exception the allocation lets
    through. *)
Definition gateway_as_address (net : IpNetwork) (gateway_ip : string) : T W Z :=
  match ip_address gateway_ip with
  | None => raise (WorkspaceIPAllocationError "invalid gateway_ip on runtime")
  | Some (V6 _) => raise (WorkspaceIPAllocationError "gateway not in runtime CIDR")
  | Some (V4 g) =>
      match net with
      | Net4 n => if contains4 n g then mret g else raise (WorkspaceIPAllocationError "gateway not in runtime CIDR")
      | Net6 _ => raise (WorkspaceIPAllocationError "gateway not in runtime CIDR")
      end
  end.

(** The loop over [net.hosts()]: the candidates and the number of hosts seen. *)
Fixpoint scan_hosts (gw : Z) (usable_idx : Z) (hs : list Z) : list Z * Z :=
  match hs with
  | [] => ([], usable_idx)
  | h :: r =>
      let idx := usable_idx + 1 in
      let '(out, n) := scan_hosts gw idx r in
      if (h =? gw) || (idx <=? V1_INFRA_RESERVED_USABLE_HOSTS) then (out, n) else (h :: out, n)
  end.
Definition candidate_hosts (net : IPv4Network) (gw : Z) : list Z :=
  let '(out, usable_idx) := scan_hosts gw 0 (hosts net) in
  if bool_decide (out = []) && (0 <? usable_idx) && (usable_idx <=? V1_INFRA_RESERVED_USABLE_HOSTS)
  then List.filter (λ h, negb (h =? gw)) (hosts net) else out.

Definition iter_candidate_workspace_hosts (cidr gateway_ip : string) : T W (list Z) :=
  match ip_network cidr with
  | None => raise (ValueError "does not appear to be an IPv4 or IPv6 network")
  | Some net =>
      gw ← gateway_as_address net gateway_ip;
      match net with
      | Net4 n => mret (candidate_hosts n gw)
      | Net6 _ => mret []
      end
  end.

Definition pick_first_free_host (candidates : list Z) (used_ips : list IpAddress) (scan_offset : Z)
    : option Z :=
  let n := Z.of_nat (length candidates) in
  if n =? 0 then None
  else List.find (λ h, negb (bool_decide (V4 h ∈ used_ips))) (rotation (scan_offset mod n) candidates).

Definition runtime_consistency_issues (cidr gateway_ip : option string) : list string :=
  if negb (is_set cidr) then []
  else match ip_network (Py.strip_opt cidr) with
  | None => ["runtime: cidr is invalid"]
  | Some (Net6 _) => ["runtime: cidr is not IPv4"]
  | Some (Net4 net) =>
      if negb (is_set gateway_ip) then []
      else match ip_address (Py.strip_opt gateway_ip) with
      | None => ["runtime: gateway_ip is invalid"]
      | Some (V6 _) => ["runtime: gateway_ip is not IPv4"]
      | Some (V4 g) => if contains4 net g then [] else ["runtime: gateway_ip is not within cidr"]
      end
  end%string.

(** [_apply_linux_bridge_env_default], [_apply_linux_attachment_env_default]: the
    value of DEVNEST_TOPOLOGY_SKIP_LINUX_BRIDGE and _ATTACHMENT. *)
Definition apply_linux_env_default (raw : string) : bool :=
  negb (bool_decide (Py.lower raw ∈ ["1"; "true"; "yes"]%string)).

Definition topology_runtime_not_ready_detail (r : TopologyRuntime) : string :=
  Py.join ", " ((("status='" ++ TopologyRuntimeStatus.value (tr_status r) ++ "'") ::
    (if Py.truthy (default "" (tr_last_error_code r))
     then ["last_error_code='" ++ default "" (tr_last_error_code r) ++ "'"] else []) ++
    (if Py.truthy (default "" (tr_last_error_message r))
     then ["last_error_message='" ++ default "" (tr_last_error_message r) ++ "'"] else []))%string).
End plan.

Example bridge_name_of_node_1 : bridge_name_for 1 "node-1" = "dn13597"%string.
Proof. vm_compute. reflexivity. Qed.

(** ** Lemmas *)

Lemma elem_of_rotation {A} start (l : list A) x : x ∈ rotation start l ↔ x ∈ l.
Proof.
  unfold rotation. rewrite elem_of_app.
  rewrite <- (take_drop (Z.to_nat start) l) at 3. rewrite elem_of_app. tauto.
Qed.

Lemma find_spec {A} (f : A → bool) l :
  match List.find f l with
  | Some x => x ∈ l ∧ f x = true
  | None => ∀ x, x ∈ l → f x = false
  end.
Proof.
  destruct (List.find f l) as [x|] eqn:E.
  - apply find_some in E as [H1 H2]. split; [by apply list_elem_of_In|done].
  - intros x Hx%list_elem_of_In. by eapply find_none.
Qed.

(** *** Names *)

Lemma length_prefix_to n s : 0 ≤ n → Py.len (Py.prefix_to n s) ≤ n.
Proof.
  intros Hn. unfold Py.len, Py.prefix_to.
  assert (H : ∀ m s, (String.length (String.substring 0 m s) ≤ m)%nat).
  { induction m as [|m IH]; intros [|c r]; simpl; try lia. specialize (IH r). lia. }
  specialize (H (Z.to_nat n) s). lia.
Qed.

Lemma bridge_name_fits topology_id node_id : Py.len (bridge_name_for topology_id node_id) ≤ 15.
Proof. by apply length_prefix_to. Qed.

Lemma veth_names_differ topology_id node_id wid :
  (veth_pair_names topology_id node_id wid).1 ≠ (veth_pair_names topology_id node_id wid).2.
Proof. done. Qed.

(** *** Subnets *)

Definition pool : IPv4Network := mkNetwork 176160768 9.

Lemma pool_parsed : parse_ipv4_net V1_PARENT_POOL_CIDR = Some pool.
Proof. vm_compute. reflexivity. Qed.
Lemma pool_wf : wf_net pool.
Proof. apply (parse_ipv4_net_wf V1_PARENT_POOL_CIDR), pool_parsed. Qed.

Lemma children_number : length iter_pool_child_subnets = 2048%nat.
Proof. vm_compute. reflexivity. Qed.

(** A subnet of the pool. *)
Definition pool_child (n : IPv4Network) : Prop :=
  wf_net n ∧ net_prefixlen n = V1_CHILD_PREFIXLEN ∧ ∀ x, in_net n x → in_net pool x.

Lemma child_in_pool n : n ∈ iter_pool_child_subnets → pool_child n.
Proof.
  unfold iter_pool_child_subnets. rewrite pool_parsed. intros Hn.
  destruct (subnets_wf pool V1_CHILD_PREFIXLEN n pool_wf ltac:(vm_compute; split; discriminate) Hn)
    as (H1 & H2 & H3 & _). done.
Qed.

Lemma used_networks_spec tid nid t n :
  n ∈ list_used_runtime_networks tid nid t ↔
  ∃ i r, tt_runtimes t !! i = Some r ∧ used_network tid nid r = Some n.
Proof.
  unfold list_used_runtime_networks. rewrite list_elem_of_omap. split.
  - intros ([i r] & Hr%elem_of_map_to_list & Hn). eauto.
  - intros (i & r & Hr%elem_of_map_to_list & Hn). by exists (i, r).
Qed.

Lemma ip_network_wf s n : ip_network s = Some (Net4 n) → wf_net n.
Proof.
  unfold ip_network. destruct (parse_ipv4_net s) as [m|] eqn:E; [|by destruct (is_ipv6_network s)].
  intros [= <-]. by eapply parse_ipv4_net_wf.
Qed.

Lemma used_network_wf tid nid r n : used_network tid nid r = Some n → wf_net n.
Proof.
  unfold used_network. destruct (_ && _); [|done].
  destruct (ip_network _) as [[m|]|] eqn:E; [|done..]. intros [= <-]. by eapply ip_network_wf.
Qed.

Lemma no_overlap net used : net_overlaps_any net used = false ↔ ∀ u, u ∈ used → overlaps net u = false.
Proof.
  unfold net_overlaps_any. rewrite <- not_true_iff_false, existsb_exists. split.
  - intros H u Hu. apply not_true_iff_false. intros Ho. apply H. exists u. by rewrite <- list_elem_of_In.
  - intros H (u & Hu%list_elem_of_In & Ho). rewrite H in Ho; done.
Qed.

Section plan_rules.
Context {W : Type}.
Implicit Types s : TopologyState W.

(** The networks a new subnet of the node has to avoid. *)
Definition clear_of_others s (tid : Z) (nid : string) (net : IPv4Network) : Prop :=
  ∀ u, u ∈ list_used_runtime_networks tid nid (ts_tables s) → overlaps net u = false.

Lemma wp_allocate_child tid nid k (Q : IPv4Network → TopologyState W → Prop) X s :
  (∀ net, pool_child net → clear_of_others s tid nid net → Q net s) →
  ((∀ net, net ∈ iter_pool_child_subnets → ∃ u, u ∈ list_used_runtime_networks tid nid (ts_tables s) ∧
      overlaps net u = true) → ∀ m, X (TopologyRuntimeCreateError m) s) →
  wp (allocate_child_subnet tid nid k) Q X s.
Proof.
  intros HQ HX. unfold allocate_child_subnet. wp_topo. rewrite children_number. cbn [Z.eqb Z.of_nat].
  set (start := if 0 <? k then _ else 0). change (Z.of_nat 2048 =? 0) with false. cbv iota.
  pose proof (find_spec (λ child, negb (net_overlaps_any child (list_used_runtime_networks tid nid (ts_tables s))))
    (rotation start iter_pool_child_subnets)) as Hf.
  destruct (List.find _ _) as [child|].
  - destruct Hf as [Hin Hno%negb_true_iff]. apply wp_ret, HQ.
    + apply child_in_pool. by apply elem_of_rotation in Hin.
    + exact (proj1 (no_overlap _ _) Hno).
  - apply wp_raise, HX. intros net Hnet. specialize (Hf net). rewrite elem_of_rotation in Hf.
    specialize (Hf Hnet). apply negb_false_iff in Hf. unfold net_overlaps_any in Hf.
    apply existsb_exists in Hf as (u & Hu%list_elem_of_In & Ho). eauto.
Qed.

Lemma first_host_in_net net h l : wf_net net → hosts net = h :: l → in_net net h.
Proof. intros Hn E. apply hosts_in_net; [done|]. rewrite E. left. Qed.

(** The gateway chosen for a network lies in it. *)
Definition gateway_of (net : IPv4Network) (gw : string) : Prop :=
  ∃ a, in_net net a ∧ gw = str_of_ipv4 a.

Lemma wp_first_usable net (Q : Z → TopologyState W → Prop) X s :
  wf_net net → (∀ h, in_net net h → Q h s) → (∀ m, X (TopologyRuntimeCreateError m) s) →
  wp (first_usable_host net) Q X s.
Proof.
  intros Hn HQ HX. unfold first_usable_host. destruct (hosts net) as [|h l] eqn:E;
    [by apply wp_raise|apply wp_ret, HQ]. by eapply first_host_in_net.
Qed.

Lemma wp_gateway_for net sg (Q : string → TopologyState W → Prop) X s :
  wf_net net → (∀ gw, gateway_of net gw → Q gw s) → (∀ m, X (TopologyRuntimeCreateError m) s) →
  wp (gateway_for net sg) Q X s.
Proof.
  intros Hn HQ HX. unfold gateway_for. destruct sg as [gw|].
  - destruct (ip_address gw) as [[a|]|] eqn:E; [|apply wp_raise; done..].
    assert (Ha : ipv4 a).
    { unfold ip_address in E. destruct (parse_ipv4 gw) as [b|] eqn:Eb; [|by destruct (is_ipv6_address gw)].
      simplify_eq. by apply parse_ipv4_canonical in Eb as [? _]. }
    destruct (contains4 net a) eqn:Ec; [|by apply wp_raise].
    apply wp_ret, HQ. exists a. split; [by apply contains4_spec|done].
  - wp_topo. apply wp_first_usable; [done| |done]. intros h Hh. apply wp_ret, HQ. by exists h.
Qed.
End plan_rules.

(** *** Candidates *)

(** What the loop is documented to do: all hosts but the gateway, less the first ten
    usable ones when there are more than ten. *)
Definition candidate_hosts_spec (net : IPv4Network) (gw : Z) : list Z :=
  List.filter (λ h, negb (h =? gw))
    (if (length (hosts net) <=? 10)%nat then hosts net else drop 10 (hosts net)).

Lemma scan_hosts_spec gw i hs : 0 ≤ i →
  scan_hosts gw i hs = (List.filter (λ h, negb (h =? gw)) (drop (Z.to_nat (10 - i)) hs), i + Z.of_nat (length hs)).
Proof.
  revert i. induction hs as [|h r IH]; intros i Hi; simpl.
  - rewrite drop_nil. simpl. f_equal. lia.
  - rewrite IH by lia. change V1_INFRA_RESERVED_USABLE_HOSTS with 10.
    destruct (i + 1 <=? 10) eqn:E.
    + rewrite orb_true_r. replace (Z.to_nat (10 - i)) with (S (Z.to_nat (10 - (i + 1)))) by lia.
      simpl. f_equal. lia.
    + rewrite orb_false_r. replace (Z.to_nat (10 - (i + 1))) with 0%nat by lia.
      replace (Z.to_nat (10 - i)) with 0%nat by lia. rewrite !drop_0. simpl.
      destruct (h =? gw); simpl; f_equal; lia.
Qed.

Lemma candidate_hosts_eq net gw : candidate_hosts net gw = candidate_hosts_spec net gw.
Proof.
  unfold candidate_hosts, candidate_hosts_spec. rewrite scan_hosts_spec by lia.
  change (Z.to_nat (10 - 0)) with 10%nat. change V1_INFRA_RESERVED_USABLE_HOSTS with 10.
  destruct (Nat.leb_spec (length (hosts net)) 10) as [Hl|Hl].
  - rewrite drop_ge by done. simpl. destruct (hosts net) as [|h l]; [done|].
    rewrite (proj2 (Z.leb_le _ _)) by (simpl in *; lia). by rewrite (proj2 (Z.ltb_lt _ _)) by (simpl; lia).
  - rewrite (proj2 (Z.leb_gt _ _)) by lia. by rewrite andb_false_r.
Qed.

Lemma candidate_hosts_sound net gw h : wf_net net → h ∈ candidate_hosts net gw →
  in_net net h ∧ h ≠ gw ∧ (net_prefixlen net ≤ 30 → net_address net < h < broadcast net) ∧
  (net_prefixlen net ≤ 28 → net_address net + 10 < h).
Proof.
  intros Hn. rewrite candidate_hosts_eq. unfold candidate_hosts_spec.
  rewrite list_elem_of_In, filter_In, <- list_elem_of_In. intros [Hh Hgw%negb_true_iff%Z.eqb_neq].
  assert (Hhost : h ∈ hosts net).
  { destruct (_ <=? 10)%nat; [done|]. rewrite <- (take_drop 10 (hosts net)). apply elem_of_app. by right. }
  split_and!; [by apply hosts_in_net|done|intros; by apply hosts_inner|]. intros Hp.
  assert (Hs : 16 ≤ net_size net).
  { unfold net_size. change 16 with (2 ^ 4). apply Z.pow_le_mono_r; lia. }
  revert Hh. unfold hosts. destruct (_ =? 32) eqn:E1; [lia|]. destruct (_ =? 31) eqn:E2; [lia|].
  rewrite length_seqZ, broadcast_spec by done.
  rewrite (proj2 (Nat.leb_gt _ _)) by lia.
  intros (i & Hi)%list_elem_of_lookup. rewrite lookup_drop in Hi. apply lookup_seqZ in Hi as [-> Hi]. lia.
Qed.

(** *** First free host *)

Lemma pick_first_free_spec cands used off :
  match pick_first_free_host cands used off with
  | Some h => h ∈ cands ∧ V4 h ∉ used
  | None => ∀ h, h ∈ cands → V4 h ∈ used
  end.
Proof.
  unfold pick_first_free_host. destruct (_ =? 0) eqn:E.
  { apply Z.eqb_eq in E. destruct cands as [|c l]; [intros h Hh; by apply elem_of_nil in Hh|done]. }
  pose proof (find_spec (λ h, negb (bool_decide (V4 h ∈ used)))
    (rotation (off mod Z.of_nat (length cands)) cands)) as Hf.
  destruct (List.find _ _) as [h|].
  - destruct Hf as [Hin Hu%negb_true_iff%bool_decide_eq_false]. by apply elem_of_rotation in Hin.
  - intros h Hh. specialize (Hf h). rewrite elem_of_rotation in Hf. specialize (Hf Hh).
    apply negb_false_iff, bool_decide_eq_true in Hf. done.
Qed.

(** With no retry the scan starts at the first candidate. *)
Lemma rotation_0 {A} (l : list A) : rotation 0 l = l.
Proof. unfold rotation. simpl. by rewrite drop_0, app_nil_r. Qed.
