(* ===== verification/Topology.v ===== *)
(** * Topology: the operations of [DbTopologyAdapter]

    libs/topology/db_topology_adapter.py: ensuring a node's bridge and subnet,
    leasing workspace addresses, attaching and detaching workspaces, deletion,
    health checks and the janitor.  Every method commits its own changes; a commit
    meets what other sessions committed meanwhile ([TopologyModels.SharedTables]).
    The diagnostics text for log messages is left out. *)

From S2P Require Import Prelude Models Ipaddress TopologyModels LinuxNet TopologyPlan.

(** The constructor's arguments. *)
Class AdapterConfig (W : Type) := {
  ac_apply_linux_bridge : bool;
  ac_apply_linux_attachment : bool;
  (** [container_init_pid_resolver], when configured; the error is its exception's text *)
  ac_pid_resolver : option (string → W → W * (option Z + string));
  ac_docker_cli : bool                              (* shutil.which("docker") *)
}.

Record EnsureNodeTopologyResult := mkEnsureResult {
  en_topology_runtime_id : Z;
  en_bridge_name : option string;
  en_cidr : option string;
  en_gateway_ip : option string;
  en_status : topology_runtime_status
}.
Record AllocateWorkspaceIPResult := mkAllocateResult { al_workspace_ip : string; al_leased_existing : bool }.
Record AttachWorkspaceResult := mkAttachResult {
  at_attachment_id : Z;
  at_workspace_ip : string;
  at_bridge_name : option string;
  at_gateway_ip : option string;
  at_internal_endpoint : string
}.
Record DetachWorkspaceResult := mkDetachResult {
  de_detached : bool;
  de_status : topology_attachment_status;
  de_workspace_id : Z;
  de_workspace_ip : option string;
  de_released_ip : bool
}.
Record CheckTopologyResult := mkCheckTopology {
  ct_healthy : bool;
  ct_runtime_status : topology_runtime_status;
  ct_issues : list string;
  ct_topology_runtime_id : option Z;
  ct_bridge_name : option string;
  ct_cidr : option string;
  ct_gateway_ip : option string
}.
Record CheckAttachmentResult := mkCheckAttachment {
  ca_healthy : bool;
  ca_status : topology_attachment_status;
  ca_workspace_ip : option string;
  ca_internal_endpoint : option string;
  ca_issues : list string;
  ca_attachment_id : option Z
}.
Record TopologyJanitorResult := mkJanitorResult {
  ja_stale_attachments_cleaned : Z;
  ja_orphan_ip_leases_released : Z;
  ja_drift_repairs : Z;
  ja_issues : list string
}.

(** [node_id.strip()[:128]] *)
Definition normal_node_id (node_id : string) : string := Py.prefix_to 128 (Py.strip node_id).

(** [if bad: issues.append(m)] *)
Definition issue_if (bad : bool) (m : string) : list string := if bad then [m] else [].

Section adapter.
Context {W : Type} {env : Env} {shared : SharedTables W} {host : HostNetwork W} {config : AdapterConfig W}.

(** ** Bridge synchronisation *)

Definition runtime_of (rid : Z) : T W TopologyRuntime :=
  o ← tquery (λ t, tt_runtimes t !! rid);
  match o with Some r => mret r | None => raise ObjectDeletedError end.

(** The assignments to the row before the commit. *)
Definition synced (status : topology_runtime_status) (code message : option string) (r : TopologyRuntime)
    : TopologyRuntime :=
  r <| tr_status := status |> <| tr_last_error_code := code |> <| tr_last_error_message := message |>
    <| tr_last_checked_at := Some env_now |> <| tr_updated_at := env_now |>.

Definition sync_linux_node_bridge (rid : Z) : T W unit :=
  row ← runtime_of rid;
  if negb ac_apply_linux_bridge then
    commit_change (update_runtime rid (synced TopologyRuntimeStatus.READY None None))
  else if negb (is_set (tr_bridge_name row) && is_set (tr_cidr row) && is_set (tr_gateway_ip row)) then
    commit_change (update_runtime rid (synced TopologyRuntimeStatus.DEGRADED (Some "INCOMPLETE_RUNTIME")
      (Some "topology runtime missing bridge_name, cidr, or gateway_ip")))
  else
    let br := default ""%string (tr_bridge_name row) in
    outcome ← attempt
      (ensure_bridge_exists br ;; ensure_bridge_up br ;;
       ensure_bridge_address br (Py.strip_opt (tr_gateway_ip row)) (Py.strip_opt (tr_cidr row)));
    f ← match outcome with
        | inl _ => mret (synced TopologyRuntimeStatus.READY None None)
        | inr (ValueError m) =>
            mret (synced TopologyRuntimeStatus.DEGRADED (Some "BRIDGE_CONFIG") (Some (Py.prefix_to 2048 m)))
        | inr (RuntimeError m) =>
            mret (synced TopologyRuntimeStatus.DEGRADED (Some "BRIDGE_OS") (Some (Py.prefix_to 2048 m)))
        | inr e => raise e
        end;
    try_except (commit_change (update_runtime rid f))
      (λ e, trollback ;;
            raise (TopologyRuntimeCreateError ("failed to persist topology runtime after bridge sync: " ++ exn_str e))).

(** ** ensure_node_topology *)

Definition runtime_to_ensure_result (rid : Z) : T W EnsureNodeTopologyResult :=
  row ← runtime_of rid;
  mret (mkEnsureResult rid (tr_bridge_name row) (tr_cidr row) (tr_gateway_ip row) (tr_status row)).

Definition new_runtime_row (topology_id : Z) (node_id bridge_name cidr gateway_ip : string) : TopologyRuntime :=
  mkTopologyRuntime topology_id node_id TopologyRuntimeStatus.READY (Some bridge_name) (Some cidr)
    (Some gateway_ip) None None None env_now.

(** The missing columns of an incomplete row. *)
Definition fill_runtime (existing : TopologyRuntime) (bridge_name cidr gateway_ip : string)
    (r : TopologyRuntime) : TopologyRuntime :=
  let r := if is_set (tr_bridge_name existing) then r else r <| tr_bridge_name := Some bridge_name |> in
  let r := if is_set (tr_cidr existing) then r else r <| tr_cidr := Some cidr |> in
  let r := if is_set (tr_gateway_ip existing) then r else r <| tr_gateway_ip := Some gateway_ip |> in
  r <| tr_updated_at := env_now |>.

Definition write_runtime (topology_id : Z) (node_id : string) (plan : option string * option string * string)
    (existing : option (Z * TopologyRuntime)) (attempt_index : Z) : T W unit :=
  let '(spec_cidr, spec_gateway_ip, bridge_name) := plan in
  cg ← choose_runtime_cidr_and_gateway topology_id node_id (snd <$> existing) spec_cidr spec_gateway_ip attempt_index;
  commit_change
    (match existing with
     | None => insert_runtime (new_runtime_row topology_id node_id bridge_name cg.1 cg.2)
     | Some (rid, row) => update_runtime rid (fill_runtime row bridge_name cg.1 cg.2)
     end).

(** The loop over the attempts [ks]. *)
Fixpoint ensure_attempts (topology_id : Z) (node_id : string) (plan : option string * option string * string)
    (ks : list Z) : T W unit :=
  match ks with
  | [] => mret tt
  | k :: ks =>
      existing ← tquery (find_runtime topology_id node_id);
      if match existing with Some (_, row) => runtime_row_complete row | None => false end then mret tt
      else
        r ← attempt (write_runtime topology_id node_id plan existing k);
        match r with
        | inl _ => mret tt
        | inr IntegrityError =>
            trollback ;;
            (if ENSURE_NODE_CIDR_MAX_ATTEMPTS <=? k + 1 then
               raise (TopologyRuntimeCreateError
                 "failed to allocate a unique runtime CIDR after repeated DB conflicts")
             else ensure_attempts topology_id node_id plan ks)
        | inr (TopologyRuntimeCreateError m) => trollback ;; raise (TopologyRuntimeCreateError m)
        | inr e => trollback ;;
                   raise (TopologyRuntimeCreateError ("failed to persist topology runtime: " ++ exn_str e))
        end
  end.

Definition ensure_node_topology (topology_id : Z) (node_id_arg : string) : T W EnsureNodeTopologyResult :=
  if negb (Py.truthy (Py.strip node_id_arg)) then raise (TopologyRuntimeCreateError "node_id is required")
  else
    let node_id := normal_node_id node_id_arg in
    topo ← tquery (λ t, tt_topologies t !! topology_id);
    match topo with
    | None => raise (TopologyRuntimeCreateError "topology id not found")
    | Some topo =>
        existing ← tquery (find_runtime topology_id node_id);
        plan ← node_bridge_plan topology_id topo node_id;
        match existing with
        | Some (rid, row) =>
            if runtime_row_complete row then
              sync_linux_node_bridge rid ;; runtime_to_ensure_result rid
            else
              ensure_attempts topology_id node_id plan (seqZ 0 ENSURE_NODE_CIDR_MAX_ATTEMPTS) ;;
              row ← tquery (find_runtime topology_id node_id);
              match row with
              | None => raise (TopologyRuntimeCreateError "failed to ensure topology runtime row")
              | Some (rid, _) => sync_linux_node_bridge rid ;; runtime_to_ensure_result rid
              end
        | None =>
            ensure_attempts topology_id node_id plan (seqZ 0 ENSURE_NODE_CIDR_MAX_ATTEMPTS) ;;
            row ← tquery (find_runtime topology_id node_id);
            match row with
            | None => raise (TopologyRuntimeCreateError "failed to ensure topology runtime row")
            | Some (rid, _) => sync_linux_node_bridge rid ;; runtime_to_ensure_result rid
            end
        end
    end.

(** ** allocate_workspace_ip *)

(** The checks made before the loop, after a conflict and at each attempt. *)
Definition ready_runtime (topology_id : Z) (node_id : string) : T W (string * string) :=
  found ← tquery (find_runtime topology_id node_id);
  match found with
  | None => raise (TopologyRuntimeNotFoundError "no topology runtime")
  | Some (_, r) =>
      if negb (bool_decide (tr_status r = TopologyRuntimeStatus.READY)) then
        raise (WorkspaceIPAllocationError ("topology runtime is not READY: " ++ topology_runtime_not_ready_detail r))
      else if negb (Py.truthy (default ""%string (tr_cidr r)) && Py.truthy (default ""%string (tr_gateway_ip r))) then
        raise (WorkspaceIPAllocationError "topology runtime missing cidr or gateway_ip")
      else mret (default ""%string (tr_cidr r), default ""%string (tr_gateway_ip r))
  end.

(** [{ipaddress.ip_address(s) for s in ...}] of the active leases of the node. *)
Definition active_lease_texts (topology_id : Z) (node_id : string) (t : TopologyTables) : list string :=
  omap (λ kr : Z * IpAllocation,
    if (ipa_topology_id kr.2 =? topology_id) && String.eqb (ipa_node_id kr.2) node_id && lease_active kr.2
    then Some (ipa_ip kr.2) else None) (map_to_list (tt_allocations t)).
Definition used_ips (topology_id : Z) (node_id : string) : T W (list IpAddress) :=
  texts ← tquery (active_lease_texts topology_id node_id);
  match mapM ip_address texts with
  | Some ips => mret ips
  | None => raise (ValueError "does not appear to be an IPv4 or IPv6 address")
  end.

(** The part of an attempt after the workspace's own lease was not found active. *)
Definition lease_free_host (topology_id : Z) (node_id : string) (workspace_id retry_index : Z)
    (cg : string * string) (row : option (Z * IpAllocation)) : T W AllocateWorkspaceIPResult :=
  candidates ← iter_candidate_workspace_hosts cg.1 cg.2;
  used ← used_ips topology_id node_id;
  match candidates with
  | [] => raise (WorkspaceIPAllocationError "no free IPv4 addresses in topology CIDR")
  | _ =>
      let scan_offset := if 0 <? retry_index
        then (retry_index * 10007 + workspace_id * 31 + ord_sum node_id) mod Z.of_nat (length candidates)
        else 0 in
      match pick_first_free_host candidates used scan_offset with
      | None => raise (WorkspaceIPAllocationError "no free IPv4 addresses in topology CIDR")
      | Some chosen =>
          let ip_str := str_of_ipv4 chosen in
          try_except
            (commit_change
               (match row with
                | None => insert_allocation (mkIpAllocation node_id topology_id workspace_id ip_str env_now None)
                | Some (aid, _) => update_allocation aid (λ r, r <| ipa_ip := ip_str |>
                                     <| ipa_leased_at := env_now |> <| ipa_released_at := None |>)
                end))
            (λ e, match e with
                  | IntegrityError => raise IntegrityError
                  | _ => trollback ;;
                         raise (WorkspaceIPAllocationError ("failed to persist IP allocation: " ++ exn_str e))
                  end) ;;
          mret (mkAllocateResult ip_str false)
      end
  end.

Definition allocate_workspace_ip_attempt (topology_id : Z) (node_id : string) (workspace_id retry_index : Z)
    : T W AllocateWorkspaceIPResult :=
  cg ← ready_runtime topology_id node_id;
  row ← tquery (find_allocation topology_id node_id workspace_id);
  match row with
  | Some (_, a) =>
      if lease_active a then mret (mkAllocateResult (ipa_ip a) true)
      else lease_free_host topology_id node_id workspace_id retry_index cg row
  | None => lease_free_host topology_id node_id workspace_id retry_index cg row
  end.

Fixpoint allocate_attempts (topology_id : Z) (node_id : string) (workspace_id : Z) (ks : list Z)
    : T W AllocateWorkspaceIPResult :=
  match ks with
  | [] => raise (WorkspaceIPAllocationError "internal error: IP allocation loop exited without result")
  | k :: ks =>
      try_except (allocate_workspace_ip_attempt topology_id node_id workspace_id k)
        (λ e, match e with
              | IntegrityError =>
                  trollback ;;
                  ready_runtime topology_id node_id ;;
                  (if ALLOCATE_IP_MAX_ATTEMPTS <=? k + 1 then
                     raise (WorkspaceIPAllocationError "IP allocation hit repeated database conflicts")
                   else allocate_attempts topology_id node_id workspace_id ks)
              | _ => raise e
              end)
  end.

Definition allocate_workspace_ip (topology_id : Z) (node_id_arg : string) (workspace_id : Z)
    : T W AllocateWorkspaceIPResult :=
  let node_id := normal_node_id node_id_arg in
  ready_runtime topology_id node_id ;;
  allocate_attempts topology_id node_id workspace_id (seqZ 0 ALLOCATE_IP_MAX_ATTEMPTS).

(** ** detach_workspace and release_workspace_ip_lease *)

Definition linux_detach_host_veth (topology_id : Z) (node_id : string) (workspace_id : Z)
    (interface_host : option string) : T W unit :=
  let host_nm := if is_set interface_host then Py.strip_opt interface_host
                 else (veth_pair_names topology_id node_id workspace_id).1 in
  except_runtime (remove_veth_if_exists host_nm)
    (λ m, raise (WorkspaceDetachError ("linux detach failed: " ++ m))).

Definition detach_workspace (topology_id : Z) (node_id_arg : string) (workspace_id : Z)
    : T W DetachWorkspaceResult :=
  let node_id := normal_node_id node_id_arg in
  found ← tquery (find_attachment topology_id node_id workspace_id);
  match found with
  | None => mret (mkDetachResult false TopologyAttachmentStatus.DETACHED workspace_id None false)
  | Some (aid, att) =>
      let prev_ip := att_workspace_ip att in
      if bool_decide (att_status att = TopologyAttachmentStatus.DETACHED) then
        mret (mkDetachResult false TopologyAttachmentStatus.DETACHED workspace_id prev_ip false)
      else
        (if ac_apply_linux_attachment
         then linux_detach_host_veth topology_id node_id workspace_id (att_interface_host att)
         else mret tt) ;;
        try_except
          (commit_change (update_attachment aid (λ a, a <| att_status := TopologyAttachmentStatus.DETACHED |>
             <| att_container_id := None |> <| att_interface_host := None |>
             <| att_interface_container := None |> <| att_updated_at := env_now |>)))
          (λ e, trollback ;;
                raise (WorkspaceDetachError ("failed to persist workspace detach: " ++ exn_str e))) ;;
        mret (mkDetachResult true TopologyAttachmentStatus.DETACHED workspace_id prev_ip false)
  end.

Definition release_workspace_ip_lease (topology_id : Z) (node_id_arg : string) (workspace_id : Z) : T W bool :=
  let node_id := normal_node_id node_id_arg in
  found ← tquery (find_active_allocation topology_id node_id workspace_id);
  match found with
  | None => mret false
  | Some (aid, _) =>
      try_except
        (commit_change (update_allocation aid (λ r, r <| ipa_released_at := Some env_now |>)))
        (λ e, trollback ;;
              raise (WorkspaceIPAllocationError ("failed to release workspace IP lease: " ++ exn_str e))) ;;
      mret true
  end.

(** ** attach_workspace *)

Definition run_linux_attach (host_if container_if bridge_name cidr gateway_ip workspace_ip netns_ref : string)
    : T W unit :=
  assert_host_topology_ip_via_nsenter_config_or_raise ;;
  assert_netns_attach_target_visible netns_ref ;;
  try_except
    (create_veth_pair host_if container_if ;;
     attach_host_if_to_bridge host_if bridge_name ;;
     assert_netns_attach_target_visible netns_ref ;;
     move_container_if_to_netns container_if netns_ref ;;
     assign_ip_in_netns netns_ref container_if workspace_ip cidr ;;
     except_runtime (run ["ip"; "link"; "show"; "master"; bridge_name]%string) (λ m, mret m) ;;
     fails ← topology_attach_plumbing_failures host_if container_if bridge_name workspace_ip cidr netns_ref;
     match fails with
     | [] => mret tt
     | _ => raise (RuntimeError ("post-attach verification failed (Linux plumbing incomplete): " ++
                                 Py.join "; " fails))
     end)
    (λ e, match e with
          | RuntimeError _ | ValueError _ =>
              except_runtime (remove_veth_if_exists host_if) (λ _, mret tt) ;; raise e
          | _ => raise e
          end).

(** [try: ... except Exception: rollback] *)
Definition best_effort (m : T W unit) : T W unit := try_except m (λ _, trollback).

Definition attach_failure_best_effort (topology_id : Z) (node_id : string) (workspace_id attachment_id : Z)
    (interface_host : option string) (workspace_ip : string) (release_ip : bool) : T W unit :=
  (if ac_apply_linux_attachment
   then try_except (linux_detach_host_veth topology_id node_id workspace_id interface_host) (λ _, mret tt)
   else mret tt) ;;
  best_effort
    (att ← tquery (λ t, tt_attachments t !! attachment_id);
     match att with
     | Some _ => commit_change (update_attachment attachment_id
                   (λ a, a <| att_status := TopologyAttachmentStatus.FAILED |> <| att_updated_at := env_now |>))
     | None => mret tt
     end) ;;
  if negb release_ip then mret tt
  else best_effort
    (found ← tquery (find_active_allocation topology_id node_id workspace_id);
     match found with
     | Some (aid, alloc) =>
         if String.eqb (ipa_ip alloc) workspace_ip
         then commit_change (update_allocation aid (λ r, r <| ipa_released_at := Some env_now |>))
         else mret tt
     | None => mret tt
     end).

(** The runtime row an attachment needs. *)
Definition attachable_runtime (topology_id : Z) (node_id : string) : T W TopologyRuntime :=
  found ← tquery (find_runtime topology_id node_id);
  match found with
  | None => raise (TopologyRuntimeNotFoundError "no topology runtime")
  | Some (_, r) =>
      if negb (bool_decide (tr_status r = TopologyRuntimeStatus.READY)) then
        raise (WorkspaceAttachmentError ("topology runtime is not READY: " ++ topology_runtime_not_ready_detail r))
      else if negb (is_set (tr_bridge_name r)) then
        raise (WorkspaceAttachmentError "topology runtime missing bridge_name")
      else if negb (is_set (tr_cidr r) && is_set (tr_gateway_ip r)) then
        raise (WorkspaceAttachmentError "topology runtime missing cidr or gateway_ip")
      else mret r
  end.

(** The lease and the address the caller names. *)
Definition require_leased_ip (topology_id : Z) (node_id : string) (workspace_id : Z) (workspace_ip cidr : string)
    : T W unit :=
  alloc ← tquery (find_active_allocation topology_id node_id workspace_id);
  if negb (match alloc with Some (_, a) => String.eqb (ipa_ip a) workspace_ip | None => false end) then
    raise (WorkspaceAttachmentError "workspace_ip must match an active allocation; call allocate_workspace_ip first")
  else match ip_address workspace_ip, ip_network cidr with
  | Some (V4 a), Some (Net4 n) =>
      if contains4 n a then mret tt
      else raise (WorkspaceAttachmentError "workspace_ip is not within runtime CIDR")
  | Some _, Some _ => raise (WorkspaceAttachmentError "V1 attach requires IPv4 workspace_ip and runtime CIDR")
  | _, _ => raise (WorkspaceAttachmentError "invalid workspace_ip or runtime cidr")
  end.

(** [validate_netns_ref] and the nsenter check, as attachment errors. *)
Definition checked_netns (netns_ref : string) : T W string :=
  if ac_apply_linux_attachment then
    clean ← try_except (validate_netns_ref netns_ref)
      (λ e, match e with ValueError m => raise (WorkspaceAttachmentError m) | _ => raise e end);
    except_runtime assert_host_topology_ip_via_nsenter_config_or_raise
      (λ m, raise (WorkspaceAttachmentError m)) ;;
    mret clean
  else if Py.truthy (Py.strip netns_ref) then mret (Py.strip netns_ref)
  else raise (WorkspaceAttachmentError "netns_ref is required").

Definition already_attached (container_id workspace_ip : string) (att : TopologyAttachment) : bool :=
  bool_decide (att_status att = TopologyAttachmentStatus.ATTACHED) &&
  String.eqb (default ""%string (att_container_id att)) container_id &&
  String.eqb (default ""%string (att_workspace_ip att)) workspace_ip.

(** The fast path of a row that is ATTACHED already: is its plumbing there?  The
    failures are computed a second time for the log. *)
Definition fast_path (topology_id : Z) (node_id : string) (workspace_id : Z) (r : TopologyRuntime)
    (workspace_ip netns_clean : string) (att : TopologyAttachment) : T W bool :=
  if negb ac_apply_linux_attachment then mret true
  else
    let names := veth_pair_names topology_id node_id workspace_id in
    let host_if := if is_set (att_interface_host att) then Py.strip_opt (att_interface_host att) else names.1 in
    let ctr_if := if is_set (att_interface_container att) then Py.strip_opt (att_interface_container att) else names.2 in
    let check := topology_attach_plumbing_failures host_if ctr_if (Py.strip_opt (tr_bridge_name r)) workspace_ip
                   (Py.strip_opt (tr_cidr r)) netns_clean in
    fails ← check;
    match fails with
    | [] => mret true
    | _ => check ;; mret false
    end.

Definition attach_result (aid : Z) (r : TopologyRuntime) (workspace_ip : string) : AttachWorkspaceResult :=
  mkAttachResult aid workspace_ip (tr_bridge_name r) (tr_gateway_ip r)
    (workspace_ip ++ ":" ++ Py.str_of_Z WORKSPACE_IDE_CONTAINER_PORT).

(** The row written before the wiring starts. *)
Definition attaching (topology_id : Z) (node_id : string) (workspace_id : Z) (r : TopologyRuntime)
    (container_id workspace_ip : string) (att : option (Z * TopologyAttachment))
    : TopologyTables → option TopologyTables :=
  let '(host_if, ctr_if) := veth_pair_names topology_id node_id workspace_id in
  match att with
  | None => insert_attachment
      (mkTopologyAttachment topology_id node_id workspace_id (Some container_id)
         TopologyAttachmentStatus.ATTACHING (Some workspace_ip) (Some host_if) (Some ctr_if)
         (tr_bridge_name r) (tr_gateway_ip r) env_now)
  | Some (aid, _) => update_attachment aid (λ a, a <| att_container_id := Some container_id |>
      <| att_workspace_ip := Some workspace_ip |> <| att_bridge_name := tr_bridge_name r |>
      <| att_gateway_ip := tr_gateway_ip r |> <| att_interface_host := Some host_if |>
      <| att_interface_container := Some ctr_if |> <| att_status := TopologyAttachmentStatus.ATTACHING |>
      <| att_updated_at := env_now |>)
  end.

Definition persist_attached (topology_id : Z) (node_id : string) (workspace_id aid : Z)
    (workspace_ip : string) (release_ip : bool) : T W unit :=
  try_except
    (commit_change (update_attachment aid
       (λ a, a <| att_status := TopologyAttachmentStatus.ATTACHED |> <| att_updated_at := env_now |>)))
    (λ e, trollback ;;
          attach_failure_best_effort topology_id node_id workspace_id aid
            (Some (veth_pair_names topology_id node_id workspace_id).1) workspace_ip release_ip ;;
          raise (WorkspaceAttachmentError ("failed to persist topology attachment: " ++ exn_str e))).

(** Wiring, persisting ATTACHED and the check after the commit. *)
Definition wire_attachment (topology_id : Z) (node_id : string) (workspace_id : Z) (r : TopologyRuntime)
    (workspace_ip netns_clean : string) (aid : Z) (att_was_new : bool) : T W AttachWorkspaceResult :=
  let '(host_if, ctr_if) := veth_pair_names topology_id node_id workspace_id in
  let bridge := Py.strip_opt (tr_bridge_name r) in
  let cidr := Py.strip_opt (tr_cidr r) in
  let fail_with (m : string) : T W unit :=
    attach_failure_best_effort topology_id node_id workspace_id aid (Some host_if) workspace_ip att_was_new ;;
    raise (WorkspaceAttachmentError m) in
  try_except
    (run_linux_attach host_if ctr_if bridge cidr (Py.strip_opt (tr_gateway_ip r)) workspace_ip netns_clean)
    (λ e, match e with
          | RuntimeError m | ValueError m => trollback ;; fail_with ("linux attach failed: " ++ m)%string
          | _ => raise e
          end) ;;
  persist_attached topology_id node_id workspace_id aid workspace_ip att_was_new ;;
  fails ← topology_attach_plumbing_failures host_if ctr_if bridge workspace_ip cidr netns_clean;
  match fails with
  | [] => mret (attach_result aid r workspace_ip)
  | _ => fail_with "topology attach reported success and persisted ATTACHED, but Linux plumbing did not match DB state"%string ;;
         mret (attach_result aid r workspace_ip)
  end.

(** The slow path: a new row or the row [found] again, written as ATTACHING, then
    wired and ATTACHED. *)
Definition attach_anew (topology_id : Z) (node_id : string) (workspace_id : Z) (r : TopologyRuntime)
    (container_id workspace_ip netns_clean : string) (found : option (Z * TopologyAttachment))
    : T W AttachWorkspaceResult :=
  (match found with
   | Some (_, att) =>
       if ac_apply_linux_attachment && Py.truthy (default ""%string (att_interface_host att))
       then except_runtime (remove_veth_if_exists (Py.strip_opt (att_interface_host att))) (λ _, mret tt)
       else mret tt
   | None => mret tt
   end) ;;
  try_except (commit_change (attaching topology_id node_id workspace_id r container_id workspace_ip found))
    (λ e, trollback ;;
          raise (WorkspaceAttachmentError ("failed to persist topology attachment: " ++ exn_str e))) ;;
  row ← tquery (find_attachment topology_id node_id workspace_id);
  match row with
  | None => raise AssertionError
  | Some (aid, _) =>
      if ac_apply_linux_attachment then
        wire_attachment topology_id node_id workspace_id r workspace_ip netns_clean aid
          (bool_decide (found = None))
      else
        persist_attached topology_id node_id workspace_id aid workspace_ip (bool_decide (found = None)) ;;
        mret (attach_result aid r workspace_ip)
  end.

Definition attach_workspace (topology_id : Z) (node_id_arg : string) (workspace_id : Z)
    (container_id_arg netns_ref workspace_ip_arg : string) : T W AttachWorkspaceResult :=
  if negb (Py.truthy (Py.strip container_id_arg)) then raise (WorkspaceAttachmentError "container_id is required")
  else
    let container_id := Py.prefix_to 128 (Py.strip container_id_arg) in
    let node_id := normal_node_id node_id_arg in
    let workspace_ip := Py.strip workspace_ip_arg in
    ensure_node_topology topology_id node_id ;;
    r ← attachable_runtime topology_id node_id;
    require_leased_ip topology_id node_id workspace_id workspace_ip (Py.strip_opt (tr_cidr r)) ;;
    found ← tquery (find_attachment topology_id node_id workspace_id);
    netns_clean ← checked_netns netns_ref;
    good ← (match found with
            | Some (_, att) =>
                if already_attached container_id workspace_ip att
                then fast_path topology_id node_id workspace_id r workspace_ip netns_clean att
                else mret false
            | None => mret false
            end);
    match found, good with
    | Some (aid, _), true => mret (attach_result aid r workspace_ip)
    | _, _ => attach_anew topology_id node_id workspace_id r container_id workspace_ip netns_clean found
    end.

(** ** delete_topology *)

Definition at_node (topology_id : Z) (node_id : string) (a : TopologyAttachment) : bool :=
  (att_topology_id a =? topology_id) && String.eqb (att_node_id a) node_id.

(** The attachment rows of a node, and [session.delete] of selected rows. *)
Definition attachments_at (topology_id : Z) (node_id : string) (t : TopologyTables) : list Z :=
  omap (λ kr : Z * TopologyAttachment, if at_node topology_id node_id kr.2 then Some kr.1 else None)
    (map_to_list (tt_attachments t)).
Definition delete_attachments (keys : list Z) (t : TopologyTables) : TopologyTables :=
  t <| tt_attachments ::= filter (λ kr, kr.1 ∉ keys) |>.

Definition blocking_attachment (topology_id : Z) (node_id : string) (t : TopologyTables) : bool :=
  existsb (λ kr : Z * TopologyAttachment, at_node topology_id node_id kr.2 &&
             negb (bool_decide (att_status kr.2 = TopologyAttachmentStatus.DETACHED)))
    (map_to_list (tt_attachments t)).

Definition delete_topology (topology_id : Z) (node_id_arg : string) : T W unit :=
  if negb (Py.truthy (Py.strip node_id_arg)) then raise (TopologyDeleteError "node_id is required")
  else
    let node_id := normal_node_id node_id_arg in
    blocked ← tquery (blocking_attachment topology_id node_id);
    if blocked : bool then
      raise (TopologyDeleteError "cannot delete topology runtime: non-DETACHED attachments remain")
    else
      found ← tquery (find_runtime topology_id node_id);
      keys ← tquery (attachments_at topology_id node_id);
      match found with
      | None => best_effort (commit_change (λ t, Some (delete_attachments keys t)))
      | Some (rid, r) =>
          try_except
            (commit_change (λ t, Some ((delete_attachments keys t) <| tt_runtimes ::= delete rid |>)))
            (λ e, trollback ;; raise (TopologyDeleteError ("failed to persist topology deletion: " ++ exn_str e))) ;;
          let bridge_name := Py.strip_opt (tr_bridge_name r) in
          if ac_apply_linux_bridge && Py.truthy bridge_name then
            try_except (remove_bridge_if_exists bridge_name)
              (λ e, match e with
                    | ValueError m => raise (TopologyDeleteError ("cannot delete bridge: " ++ m))
                    | RuntimeError m => raise (TopologyDeleteError ("linux bridge removal failed: " ++ m))
                    | _ => raise e
                    end)
          else mret tt
      end.

(** ** Health checks *)

Definition check_topology (topology_id : Z) (node_id_arg : string) : T W CheckTopologyResult :=
  let node_id := normal_node_id node_id_arg in
  found ← tquery (find_runtime topology_id node_id);
  match found with
  | None => mret (mkCheckTopology false TopologyRuntimeStatus.FAILED
                    ["db: topology runtime not found for this topology and node"%string] None None None None)
  | Some (rid, row) =>
      let db_issues :=
        issue_if (negb (is_set (tr_bridge_name row))) "db: bridge_name is not set" ++
        issue_if (negb (is_set (tr_cidr row))) "db: cidr is not set" ++
        issue_if (negb (is_set (tr_gateway_ip row))) "db: gateway_ip is not set" ++
        issue_if (negb (bool_decide (tr_status row = TopologyRuntimeStatus.READY)))
          ("db: runtime status is " ++ TopologyRuntimeStatus.value (tr_status row) ++
           ", expected READY for V1 healthy") in
      let runtime_issues := runtime_consistency_issues (tr_cidr row) (tr_gateway_ip row) in
      let bn := Py.strip_opt (tr_bridge_name row) in
      linux_issues ←
        (if ac_apply_linux_bridge && Py.truthy bn then
           try_except
             (present ← check_bridge_exists bn;
              if negb present then mret ["linux: bridge network device not found on host"%string]
              else
                up ← check_bridge_link_up bn;
                if negb up then mret ["linux: bridge interface is not UP"%string]
                else if is_set (tr_cidr row) && is_set (tr_gateway_ip row) then
                  addressed ← check_bridge_has_ipv4_address bn (Py.strip_opt (tr_gateway_ip row))
                                (Py.strip_opt (tr_cidr row));
                  mret (if addressed : bool then []
                        else ["linux: bridge lacks expected IPv4/gateway address from topology runtime"%string])
                else mret [])
             (λ e, match e with
                   | ValueError m => mret [("linux: bridge check skipped or invalid (" ++ m ++ ")")%string]
                   | RuntimeError m => mret [("linux: bridge check failed (" ++ m ++ ")")%string]
                   | _ => raise e
                   end)
         else mret []);
      let issues := db_issues ++ runtime_issues ++ linux_issues in
      mret (mkCheckTopology (bool_decide (issues = [])) (tr_status row) issues (Some rid)
              (tr_bridge_name row) (tr_cidr row) (tr_gateway_ip row))
  end.

(** The container's init PID, or why it is unknown. *)
Definition workspace_init_pid_str (container_id : string) : T W (string * option string) :=
  let cid := Py.strip container_id in
  if negb (Py.truthy cid) then mret (""%string, Some "empty container_id"%string)
  else match ac_pid_resolver with
  | Some resolve => λ s,
      let '(w, r) := resolve cid (ts_world s) in
      (s <| ts_world := w |>,
       inl (match r with
            | inl (Some pid) => if 0 <? pid then (Py.str_of_Z pid, None)
                                else (""%string, Some "container_init_pid_resolver returned no usable PID"%string)
            | inl None => (""%string, Some "container_init_pid_resolver returned no usable PID"%string)
            | inr m => (""%string, Some (Py.prefix_to 900 ("container_init_pid_resolver failed: " ++ m)))
            end))
  | None =>
      if negb ac_docker_cli then
        mret (""%string, Some "check_attachment cannot resolve workspace init PID: docker CLI is not in PATH"%string)
      else except_runtime
        (out ← run ["docker"; "inspect"; "-f"; "{{.State.Pid}}"; cid]; mret (Py.strip out, None))
        (λ m, mret (""%string, Some (Py.prefix_to 900 m)))
  end.

Definition attachment_db_issues (att : TopologyAttachment) (alloc : option (Z * IpAllocation)) : list string :=
  issue_if (negb (bool_decide (att_status att = TopologyAttachmentStatus.ATTACHED)))
    ("db: attachment status is " ++ TopologyAttachmentStatus.value (att_status att) ++
     ", expected ATTACHED for healthy V1") ++
  issue_if (negb (is_set (att_container_id att))) "db: container_id is not set" ++
  issue_if (negb (is_set (att_workspace_ip att))) "db: workspace_ip is not set" ++
  issue_if (negb (is_set (att_bridge_name att))) "db: bridge_name is not set" ++
  issue_if (negb (is_set (att_gateway_ip att))) "db: gateway_ip is not set" ++
  match alloc with
  | None => ["db: no active IpAllocation for this workspace"%string]
  | Some (_, a) =>
      issue_if (Py.truthy (default "" (att_workspace_ip att)) && negb (bool_decide (Some (ipa_ip a) = att_workspace_ip att)))
        "db: workspace_ip on attachment does not match active lease ip"
  end.

Definition attachment_runtime_issues (att : TopologyAttachment) (runtime : option (Z * TopologyRuntime))
    : list string :=
  match runtime with
  | None => ["runtime: topology runtime not found for this node"%string]
  | Some (_, r) =>
      let base := runtime_consistency_issues (tr_cidr r) (tr_gateway_ip r) in
      base ++
      (if Py.truthy (default "" (att_workspace_ip att)) && is_set (tr_cidr r) &&
          negb (existsb (Py.startswith "runtime: cidr is") base) then
         match ip_network (Py.strip_opt (tr_cidr r)), ip_address (Py.strip_opt (att_workspace_ip att)) with
         | Some (Net4 n), Some (V4 a) =>
             issue_if (negb (contains4 n a)) "runtime: workspace_ip is not within runtime cidr"
         | Some _, Some _ => ["runtime: workspace_ip/cidr family mismatch"%string]
         | _, _ => ["runtime: workspace_ip/cidr validation failed"%string]
         end
       else [])
  end.

(** The [linux:] issues of an attachment whose rows agree. *)
Definition attachment_linux_issues (host_if ctr_if brn : string) (att : TopologyAttachment)
    (runtime : option (Z * TopologyRuntime)) : T W (list string) :=
  pid ← workspace_init_pid_str (Py.strip_opt (att_container_id att));
  let '(pid_s, pid_err) := pid in
  let i1 : list string :=
    match pid_err with
    | Some m => if Py.truthy m && negb (Py.truthy pid_s) then [("linux: " ++ m)%string] else []
    | None => []
    end in
  let cidr := Py.strip_opt (runtime ≫= λ kr, tr_cidr kr.2) in
  if all_digits pid_s && Py.truthy cidr && is_set (att_gateway_ip att) then
    fails ← topology_attach_plumbing_failures host_if ctr_if brn (Py.strip_opt (att_workspace_ip att)) cidr
              ("/proc/" ++ pid_s ++ "/ns/net");
    mret (i1 ++ match fails with
                | [] => []
                | _ => "linux: DB reports ATTACHED but Linux bridge/netns plumbing does not match"%string
                       :: ((λ f, "linux: " ++ f)%string <$> fails)
                end)
  else
    present ← check_interface_exists host_if None;
    if negb present then mret (i1 ++ ["linux: host-side veth for workspace attachment not found on node"%string])
    else
      enslaved ← check_host_veth_enslaved_to_bridge host_if brn;
      if negb enslaved then mret (i1 ++ ["linux: host veth is not enslaved to expected topology bridge"%string])
      else
        listed ← check_bridge_master_list_contains_if host_if brn;
        mret (i1 ++ issue_if (negb listed)
                      "linux: topology bridge does not list the host veth under `ip link show master`").

Definition check_attachment (topology_id : Z) (node_id_arg : string) (workspace_id : Z) : T W CheckAttachmentResult :=
  let node_id := normal_node_id node_id_arg in
  found ← tquery (find_attachment topology_id node_id workspace_id);
  match found with
  | None => mret (mkCheckAttachment false TopologyAttachmentStatus.DETACHED None None
                    ["db: topology attachment not found"%string] None)
  | Some (aid, att) =>
      alloc ← tquery (find_active_allocation topology_id node_id workspace_id);
      runtime ← tquery (find_runtime topology_id node_id);
      let db_issues := attachment_db_issues att alloc in
      let runtime_issues := attachment_runtime_issues att runtime in
      let names := veth_pair_names topology_id node_id workspace_id in
      let host_if := if is_set (att_interface_host att) then Py.strip_opt (att_interface_host att) else names.1 in
      let ctr_if := if is_set (att_interface_container att) then Py.strip_opt (att_interface_container att) else names.2 in
      let db_ok_for_link :=
        bool_decide (att_status att = TopologyAttachmentStatus.ATTACHED) && is_set (att_container_id att) &&
        is_set (att_workspace_ip att) && is_set (att_bridge_name att) &&
        bool_decide ((λ kr : Z * IpAllocation, ipa_ip kr.2) <$> alloc = att_workspace_ip att) in
      linux_issues ←
        (if ac_apply_linux_attachment && db_ok_for_link then
           try_except (attachment_linux_issues host_if ctr_if (Py.strip_opt (att_bridge_name att)) att runtime)
             (λ e, match e with
                   | ValueError m | RuntimeError m => mret [("linux: host interface check failed (" ++ m ++ ")")%string]
                   | _ => raise e
                   end)
         else mret []);
      let issues := db_issues ++ runtime_issues ++ linux_issues in
      mret (mkCheckAttachment (bool_decide (issues = [])) (att_status att) (att_workspace_ip att)
              (match att_workspace_ip att with
               | Some ip => if Py.truthy ip then Some (ip ++ ":" ++ Py.str_of_Z WORKSPACE_IDE_CONTAINER_PORT)%string else None
               | None => None
               end) issues (Some aid))
  end.

(** ** run_topology_janitor *)

Definition janitor_stuck (topology_id : Z) (node_id : string) (cutoff : time) (t : TopologyTables) : list Z :=
  omap (λ kr : Z * TopologyAttachment,
    if at_node topology_id node_id kr.2 &&
       bool_decide (att_status kr.2 ∈ [TopologyAttachmentStatus.ATTACHING; TopologyAttachmentStatus.FAILED]) &&
       (att_updated_at kr.2 <? cutoff)
    then Some (att_workspace_id kr.2) else None) (map_to_list (tt_attachments t)).
Definition janitor_leases (topology_id : Z) (node_id : string) (t : TopologyTables) : list Z :=
  omap (λ kr : Z * IpAllocation,
    if (ipa_topology_id kr.2 =? topology_id) && String.eqb (ipa_node_id kr.2) node_id && lease_active kr.2
    then Some (ipa_workspace_id kr.2) else None) (map_to_list (tt_allocations t)).
Definition settled_workspace (t : TopologyTables) (wid : Z) : bool :=
  match tt_workspaces t !! wid with
  | Some st => bool_decide (st ∈ [WorkspaceStatus.STOPPED; WorkspaceStatus.ERROR; WorkspaceStatus.DELETED])
  | None => false
  end.
Definition janitor_drift (topology_id : Z) (node_id : string) (t : TopologyTables) : list Z :=
  omap (λ kr : Z * TopologyAttachment,
    if at_node topology_id node_id kr.2 && bool_decide (att_status kr.2 = TopologyAttachmentStatus.ATTACHED) &&
       settled_workspace t (att_workspace_id kr.2)
    then Some (att_workspace_id kr.2) else None) (map_to_list (tt_attachments t)).

(** [str(e)] in an issue entry of the janitor *)
Definition janitor_issue (what : string) (wid : Z) (e : Exn) : string :=
  ("janitor:" ++ what ++ ":" ++ Py.str_of_Z wid ++ ":" ++ exn_str e)%string.

(** [try: release except WorkspaceIPAllocationError: on_error] *)
Definition release_caught (topology_id : Z) (node_id : string) (wid : Z) (on_error : Exn → list string)
    : T W (list string) :=
  try_except (release_workspace_ip_lease topology_id node_id wid ;; mret [])
    (λ e, match e with WorkspaceIPAllocationError _ => mret (on_error e) | _ => raise e end).

(** One round of each loop: the count it adds and the issues it reports. *)
Definition janitor_detach (what : string) (on_release_error : Z → Exn → list string)
    (topology_id : Z) (node_id : string) (wid : Z) : T W (Z * list string) :=
  try_except
    (detach_workspace topology_id node_id wid ;;
     issues ← release_caught topology_id node_id wid (on_release_error wid);
     mret (1, issues))
    (λ e, mret (0, [janitor_issue what wid e])).
Definition janitor_orphan (topology_id : Z) (node_id : string) (wid : Z) : T W (Z * list string) :=
  att_row ← tquery (find_attachment topology_id node_id wid);
  if match att_row with
     | Some (_, a) => bool_decide (att_status a = TopologyAttachmentStatus.ATTACHED)
     | None => false
     end then mret (0, [])
  else try_except
    (released ← release_workspace_ip_lease topology_id node_id wid;
     mret (if released : bool then 1 else 0, []))
    (λ e, match e with
          | WorkspaceIPAllocationError _ => mret (0, [janitor_issue "orphan_ip" wid e])
          | _ => raise e
          end).

(** [for wid in wids: ...], accumulating the count and the issue list. *)
Fixpoint janitor_loop (body : Z → T W (Z * list string)) (wids : list Z) (issues : list string)
    : T W (Z * list string) :=
  match wids with
  | [] => mret (0, issues)
  | wid :: r =>
      one ← body wid;
      rest ← janitor_loop body r (issues ++ one.2);
      mret (one.1 + rest.1, rest.2)
  end.

Definition run_topology_janitor (topology_id : Z) (node_id_arg : string) (stale_attaching_seconds : Z)
    : T W TopologyJanitorResult :=
  let node_id := normal_node_id node_id_arg in
  let cutoff := env_now - seconds (Z.max 0 stale_attaching_seconds) in
  stuck ← tquery (janitor_stuck topology_id node_id cutoff);
  a ← janitor_loop (janitor_detach "stuck_detach" (λ wid e, [janitor_issue "stuck_ip_release" wid e])
                      topology_id node_id) stuck [];
  leases ← tquery (janitor_leases topology_id node_id);
  b ← janitor_loop (janitor_orphan topology_id node_id) leases a.2;
  drift ← tquery (janitor_drift topology_id node_id);
  c ← janitor_loop (janitor_detach "drift_detach" (λ _ _, []) topology_id node_id) drift b.2;
  mret (mkJanitorResult a.1 b.1 c.1 c.2).
End adapter.
