(* ===== verification/TopologyLeases.v ===== *)
(** * TopologyLeases: what [allocate_workspace_ip] guarantees

    Proofs about the leases of Topology.v: a fresh lease is in range and unique
    whatever other sessions commit meanwhile; without interference a free address
    is always found at the first attempt. *)

From S2P Require Import Prelude Models Ipaddress TopologyModels LinuxNet TopologyPlan.
From S2P Require Import Topology.

Section leases.
Context {W : Type} {env : Env} {shared : SharedTables W} {host : HostNetwork W} {config : AdapterConfig W}.
Implicit Types s : TopologyState W.

(** A row at the node of a topology. *)
Definition lease_at (tid : Z) (nid : string) (l : IpAllocation) : bool :=
  (ipa_topology_id l =? tid) && String.eqb (ipa_node_id l) nid && lease_active l.

(** Address [x] is leased on the node. *)
Definition leased (t : TopologyTables) (tid : Z) (nid : string) (x : Z) : Prop :=
  ∃ aid l, tt_allocations t !! aid = Some l ∧ lease_at tid nid l = true ∧ ipa_ip l = str_of_ipv4 x.

(** The range of a READY runtime row: its network and gateway. *)
Definition runtime_range (t : TopologyTables) (tid : Z) (nid : string) (net : IPv4Network) (gw : Z) : Prop :=
  ∃ rid r, find_runtime tid nid t = Some (rid, r) ∧ tr_status r = TopologyRuntimeStatus.READY ∧
    ip_network (default "" (tr_cidr r)) = Some (Net4 net) ∧
    ip_address (default "" (tr_gateway_ip r)) = Some (V4 gw) ∧ contains4 net gw = true.

(** *** The reads of an attempt *)

Definition is_allocation_error (e : Exn) : Prop :=
  match e with
  | TopologyRuntimeNotFoundError _ | WorkspaceIPAllocationError _ | ValueError _ => True
  | _ => False
  end.

Lemma wp_ready_runtime tid nid (Q : string * string → TopologyState W → Prop) X s :
  (∀ rid r, find_runtime tid nid (ts_tables s) = Some (rid, r) → tr_status r = TopologyRuntimeStatus.READY →
     Q (default "" (tr_cidr r), default "" (tr_gateway_ip r)) s) →
  (∀ e, is_allocation_error e → X e s) →
  wp (ready_runtime tid nid) Q X s.
Proof.
  intros HQ HX. unfold ready_runtime. wp_topo.
  destruct (find_runtime tid nid (ts_tables s)) as [[rid r]|]; [|by apply wp_raise, HX].
  case_bool_decide as Hst; cbn [negb]; [|by apply wp_raise, HX].
  destruct (_ && _); cbn [negb]; [by apply wp_ret, (HQ rid)|by apply wp_raise, HX].
Qed.

Lemma wp_used_ips tid nid (Q : list IpAddress → TopologyState W → Prop) X s :
  (∀ ips, (∀ x, ipv4 x → V4 x ∈ ips ↔ leased (ts_tables s) tid nid x) → Q ips s) →
  (∀ e, is_allocation_error e → X e s) →
  wp (used_ips tid nid) Q X s.
Proof.
  intros HQ HX. unfold used_ips. wp_topo.
  destruct (mapM ip_address _) as [ips|] eqn:E; [|by apply wp_raise, HX].
  apply wp_ret, HQ. intros x Hx. apply mapM_Some in E.
  assert (Htext : ∀ text, text ∈ active_lease_texts tid nid (ts_tables s) ↔
    ∃ aid l, tt_allocations (ts_tables s) !! aid = Some l ∧ lease_at tid nid l = true ∧ ipa_ip l = text).
  { intros text. unfold active_lease_texts. rewrite list_elem_of_omap. unfold lease_at. split.
    - intros ([aid l] & Hl%elem_of_map_to_list & Hi). simpl in Hi. destruct (_ && _) eqn:Ec; [|done].
      simplify_eq. by exists aid, l.
    - intros (aid & l & Hl%elem_of_map_to_list & Hc & <-). exists (aid, l). simpl. by rewrite Hc. }
  split.
  - intros Hin. apply list_elem_of_lookup in Hin as [i Hi].
    destruct (Forall2_lookup_r _ _ _ _ _ E Hi) as (text & Ht & Hip).
    apply list_elem_of_lookup_2 in Ht. apply Htext in Ht as (aid & l & Hl & Ha & <-).
    exists aid, l. split_and!; [done..|]. unfold ip_address in Hip.
    destruct (parse_ipv4 (ipa_ip l)) as [y|] eqn:Ey; [|by destruct (is_ipv6_address _)].
    simplify_eq. by apply parse_ipv4_canonical in Ey as [_ ?].
  - intros (aid & l & Hl & Ha & Hip).
    assert (Hin : ipa_ip l ∈ active_lease_texts tid nid (ts_tables s)) by (apply Htext; by exists aid, l).
    apply list_elem_of_lookup in Hin as [i Hi].
    destruct (Forall2_lookup_l _ _ _ _ _ E Hi) as (ip & Hip' & Hp).
    rewrite Hip, ip_address_str in Hp by done. simplify_eq. by eapply list_elem_of_lookup_2.
Qed.

Lemma wp_candidates tid nid rid r (Q : list Z → TopologyState W → Prop) X s :
  find_runtime tid nid (ts_tables s) = Some (rid, r) → tr_status r = TopologyRuntimeStatus.READY →
  (∀ net gw, runtime_range (ts_tables s) tid nid net gw → Q (candidate_hosts net gw) s) →
  (∀ e, is_allocation_error e → X e s) →
  wp (iter_candidate_workspace_hosts (default "" (tr_cidr r)) (default "" (tr_gateway_ip r))) Q X s.
Proof.
  intros Hf Hst HQ HX. unfold iter_candidate_workspace_hosts.
  destruct (ip_network _) as [net|] eqn:En; [|by apply wp_raise, HX].
  unfold gateway_as_address.
  destruct (ip_address _) as [[gw|]|] eqn:Eg; [|wp_topo; by apply HX..].
  destruct net as [n|]; [|wp_topo; by apply HX].
  destruct (contains4 n gw) eqn:Ec; wp_topo; [|by apply HX].
  apply HQ. by exists rid, r.
Qed.

(** *** The outcome of an attempt *)

(** [ip] was chosen from the tables [tr] and leased in the tables [t]: it lies in the
    runtime's network, is neither its gateway nor an address kept for the
    infrastructure, nobody had it, and in [t] the workspace's lease is the only
    active one with it. *)
Definition fresh_lease (tr t : TopologyTables) (tid : Z) (nid : string) (wid : Z) (ip : string) : Prop :=
  ∃ net gw x, runtime_range tr tid nid net gw ∧ x ∈ candidate_hosts net gw ∧ ip = str_of_ipv4 x ∧
    ¬ leased tr tid nid x ∧
    ∃ aid l, tt_allocations t !! aid = Some l ∧ ipa_workspace_id l = wid ∧ lease_at tid nid l = true ∧
      ipa_ip l = ip ∧
      ∀ aid' l', tt_allocations t !! aid' = Some l' → lease_at tid nid l' = true → ipa_ip l' = ip → aid' = aid.

Lemma active_leases_unique t tid nid aid aid' l l' :
  tables_ok t = true → tt_allocations t !! aid = Some l → tt_allocations t !! aid' = Some l' →
  lease_at tid nid l = true → lease_at tid nid l' = true → ipa_ip l' = ipa_ip l → aid' = aid.
Proof.
  unfold tables_ok, lease_at. intros Hok Hl Hl' H H' Hip.
  apply andb_true_iff in Hok as [Hok _]. apply andb_true_iff in Hok as [_ Hok].
  apply unique_rows_spec with (a := l') (b := l) (i := aid') (j := aid) in Hok; [done..|].
  rewrite !andb_true_iff, Z.eqb_eq, String.eqb_eq in H, H'.
  destruct H as [[H1 H2] H3], H' as [[H1' H2'] H3']. unfold allocations_clash.
  by rewrite H1, H1', H2, H2', H3, H3', Hip, Z.eqb_refl, !String.eqb_refl, orb_true_r.
Qed.

Lemma find_allocation_key tid nid wid t aid l :
  find_allocation tid nid wid t = Some (aid, l) →
  tt_allocations t !! aid = Some l ∧ allocation_key l = (tid, nid, wid).
Proof.
  intros [Hl (H1 & H2 & H3)]%first_row_Some. split; [done|]. unfold allocation_key. simpl in *. congruence.
Qed.

Lemma lease_at_intro tid nid l :
  ipa_topology_id l = tid → ipa_node_id l = nid → ipa_released_at l = None → lease_at tid nid l = true.
Proof.
  intros <- <- H. unfold lease_at, lease_active. by rewrite Z.eqb_refl, String.eqb_refl, bool_decide_eq_true_2.
Qed.

(** What a row written by the attempt says. *)
Lemma written_lease tid nid wid ip row t0 t : rival_step t0 t →
  (match row with Some (aid, l) => find_allocation tid nid wid t0 = Some (aid, l) | None => True end) →
  ∀ t', (match row with
         | None => insert_allocation (mkIpAllocation nid tid wid ip env_now None)
         | Some (aid, _) => update_allocation aid (λ r, r <| ipa_ip := ip |>
                              <| ipa_leased_at := env_now |> <| ipa_released_at := None |>)
         end) t = Some t' →
  ∃ aid l, tt_allocations t' !! aid = Some l ∧ ipa_workspace_id l = wid ∧ lease_at tid nid l = true ∧ ipa_ip l = ip.
Proof.
  intros Ht Hrow t'. destruct row as [[aid l0]|].
  - unfold update_allocation, update_row. case_bool_decide as Hd; [|done]. intros [= <-].
    apply elem_of_dom in Hd as [l Hl]. apply find_allocation_key in Hrow as [Hl0 Hk0].
    destruct (rival_step_identities _ _ Ht) as (_ & Hid & _).
    pose proof (Hid _ _ _ Hl0 Hl) as Hk. rewrite Hk0 in Hk. injection Hk as H1 H2 H3.
    exists aid. eexists. split; [simpl; by rewrite lookup_alter_eq, Hl|].
    split_and!; [done| |done]. by apply lease_at_intro.
  - unfold insert_allocation. intros [= <-]. eexists _, _. split; [simpl; apply lookup_insert_eq|].
    split_and!; [done| |done]. by apply lease_at_intro.
Qed.

(** One attempt: an existing lease, a fresh one, a conflict, or an error. *)
Definition attempt_result (s : TopologyState W) (tid : Z) (nid : string) (wid : Z)
    (a : AllocateWorkspaceIPResult) (s' : TopologyState W) : Prop :=
  if al_leased_existing a
  then s' = s ∧ ∃ aid l, find_allocation tid nid wid (ts_tables s) = Some (aid, l) ∧
         ipa_released_at l = None ∧ al_workspace_ip a = ipa_ip l
  else clean s' ∧ fresh_lease (ts_tables s) (ts_tables s') tid nid wid (al_workspace_ip a).

Lemma wp_lease_free_host tid nid wid k rid r row (Q : AllocateWorkspaceIPResult → TopologyState W → Prop) X s :
  clean s → find_runtime tid nid (ts_tables s) = Some (rid, r) → tr_status r = TopologyRuntimeStatus.READY →
  (match row with Some (aid, l) => find_allocation tid nid wid (ts_tables s) = Some (aid, l) | None => True end) →
  (∀ ip s', clean s' → fresh_lease (ts_tables s) (ts_tables s') tid nid wid ip → Q (mkAllocateResult ip false) s') →
  (∀ w t0, rival_step (ts_tables s) t0 → X IntegrityError (mkTopologyState (ts_tables s) t0 w)) →
  (∀ e s', clean s' → rtc rival_step (ts_tables s) (ts_tables s') → is_allocation_error e → X e s') →
  wp (lease_free_host tid nid wid k (default "" (tr_cidr r), default "" (tr_gateway_ip r)) row) Q X s.
Proof.
  intros Hc Hf Hst Hrow HQ HI HX. unfold lease_free_host. wp_topo.
  assert (HX' : ∀ e, is_allocation_error e → X e s) by (intros e; apply HX; [done|apply rtc_refl]).
  eapply wp_candidates; [done..| |done]. intros net gw Hrange. wp_topo.
  apply wp_used_ips; [|done]. intros ips Hips.
  set (cands := candidate_hosts net gw). set (off := if 0 <? k then _ else 0).
  assert (Hcands : ∀ (A B : T W AllocateWorkspaceIPResult), wp A Q X s → wp B Q X s →
    wp (match cands with [] => A | _ => B end) Q X s) by (intros; by destruct cands).
  apply Hcands; [by apply wp_raise, HX'|]. cbv zeta.
  pose proof (pick_first_free_spec cands ips off) as Hp.
  destruct (pick_first_free_host cands ips off) as [x|]; [|by apply wp_raise, HX'].
  destruct Hp as [Hx Hfree]. apply wp_bind, wp_try, wp_commit_change; [done| |].
  - intros w t0 t Ht Hg Hok. apply wp_ret, HQ; [by apply clean_intro|].
    assert (Hx4 : ipv4 x).
    { destruct Hrange as (? & ? & _ & _ & Hn%ip_network_wf & _).
      eapply in_net_ipv4; [done|]. by eapply candidate_hosts_sound. }
    exists net, gw, x. split_and!; [done..| |].
    { intros Hl. by apply Hfree, Hips. }
    destruct (written_lease tid nid wid (str_of_ipv4 x) row _ _ Ht Hrow _ Hg) as (aid & l & Hl & Hw & Ha & Hip).
    exists aid, l. split_and!; [done..|]. intros aid' l' Hl' Ha' Hip'.
    eapply active_leases_unique; [done|exact Hl|exact Hl'|done..|congruence].
  - intros w t0 e Ht [[-> _]|[m ->]]; [by apply wp_raise, HI|].
    wp_topo. apply HX; [|by apply rtc_once|done].
    split; [done|]. eapply rival_step_ok; [done|]. apply Hc.
Qed.

Lemma wp_allocate_attempt tid nid wid k (Q : AllocateWorkspaceIPResult → TopologyState W → Prop) X s :
  clean s →
  (∀ a s', attempt_result s tid nid wid a s' → Q a s') →
  (∀ w t0, rival_step (ts_tables s) t0 → X IntegrityError (mkTopologyState (ts_tables s) t0 w)) →
  (∀ e s', clean s' → rtc rival_step (ts_tables s) (ts_tables s') → is_allocation_error e → X e s') →
  wp (allocate_workspace_ip_attempt tid nid wid k) Q X s.
Proof.
  intros Hc HQ HI HX. unfold allocate_workspace_ip_attempt. wp_topo.
  apply wp_ready_runtime; [|intros e; apply HX; [done|apply rtc_refl]].
  intros rid r Hf Hst. wp_topo.
  assert (Hfresh : ∀ row, (match row with Some (aid, l) => find_allocation tid nid wid (ts_tables s) = Some (aid, l)
                           | None => True end) →
    wp (lease_free_host tid nid wid k (default "" (tr_cidr r), default "" (tr_gateway_ip r)) row) Q X s).
  { intros row Hrow. eapply wp_lease_free_host; [done..| |done|done]. intros ip s' Hs' Hl. by apply HQ. }
  destruct (find_allocation tid nid wid (ts_tables s)) as [[aid l]|] eqn:Ea; [|by apply Hfresh].
  destruct (lease_active l) eqn:El; [|by apply Hfresh].
  apply wp_ret, HQ. unfold attempt_result. cbn [al_leased_existing al_workspace_ip]. split; [done|].
  exists aid, l. split_and!; [done| |done]. by apply bool_decide_eq_true in El.
Qed.

(** *** The loop *)

(** The result of the call: that of an attempt made from a state the others led to. *)
Definition allocation_result (s : TopologyState W) (tid : Z) (nid : string) (wid : Z)
    (a : AllocateWorkspaceIPResult) (s' : TopologyState W) : Prop :=
  ∃ s0, clean s0 ∧ rtc rival_step (ts_tables s) (ts_tables s0) ∧ attempt_result s0 tid nid wid a s'.

Lemma wp_allocate_attempts tid nid wid ks (Q : AllocateWorkspaceIPResult → TopologyState W → Prop) X s :
  clean s →
  (∀ a s', allocation_result s tid nid wid a s' → Q a s') →
  (∀ e s', clean s' → rtc rival_step (ts_tables s) (ts_tables s') → is_allocation_error e → X e s') →
  wp (allocate_attempts tid nid wid ks) Q X s.
Proof.
  revert s. induction ks as [|k ks IH]; intros s Hc HQ HX; simpl.
  { apply wp_raise, HX; [done|apply rtc_refl|done]. }
  apply wp_try, wp_allocate_attempt; [done| | |].
  - intros a s' Ha. apply HQ. exists s. split_and!; [done|apply rtc_refl|done].
  - intros w t0 Ht. wp_topo.
    assert (Hc0 : clean (mkTopologyState t0 t0 w)).
    { apply clean_intro. eapply rival_step_ok; [done|apply Hc]. }
    apply wp_ready_runtime.
    + intros rid r _ _. destruct (_ <=? _).
      * apply wp_raise, HX; [done|by apply rtc_once|done].
      * apply IH; [done| |].
        -- intros a s' (s0 & H0 & Hs0 & Ha). apply HQ. exists s0. split_and!; [done| |done].
           eapply rtc_l; [exact Ht|exact Hs0].
        -- intros e s' Hs' Hr He. apply HX; [done| |done]. eapply rtc_l; [exact Ht|exact Hr].
    + intros e He. apply HX; [done|by apply rtc_once|done].
  - intros e s' Hs' Hr He. destruct e; try done; by apply wp_raise, HX.
Qed.

(** *** Without interference *)

(** Every active lease of the node has a readable address. *)
Definition leases_readable (t : TopologyTables) (tid : Z) (nid : string) : Prop :=
  ∀ aid l, tt_allocations t !! aid = Some l → lease_at tid nid l = true → is_Some (ip_address (ipa_ip l)).

Lemma readable_mapM t tid nid : leases_readable t tid nid → is_Some (mapM ip_address (active_lease_texts tid nid t)).
Proof.
  intros H. apply mapM_is_Some_2, Forall_forall. intros text Hin.
  unfold active_lease_texts in Hin. apply list_elem_of_omap in Hin as ([aid l] & Hl%elem_of_map_to_list & Hi).
  simpl in Hi. fold (lease_at tid nid l) in Hi. destruct (lease_at tid nid l) eqn:E; [|done].
  simplify_eq. by eapply H.
Qed.

(** Leasing an unleased address violates no constraint. *)
Lemma lease_keeps_constraints tid nid wid x t t' :
  tables_ok t = true → ¬ leased t tid nid x →
  (match find_allocation tid nid wid t with
   | None => insert_allocation (mkIpAllocation nid tid wid (str_of_ipv4 x) env_now None)
   | Some (aid, _) => update_allocation aid (λ r, r <| ipa_ip := str_of_ipv4 x |>
                        <| ipa_leased_at := env_now |> <| ipa_released_at := None |>)
   end) t = Some t' → tables_ok t' = true.
Proof.
  intros Hok Hfree Hg. unfold tables_ok in *.
  apply andb_true_iff in Hok as [[Hr Ha]%andb_true_iff Hat].
  assert (Hnew : ∀ k l, allocation_key l = (tid, nid, wid) → ipa_ip l = str_of_ipv4 x →
    (∀ j b, j ≠ k → tt_allocations t !! j = Some b → allocation_key b ≠ (tid, nid, wid)) →
    unique_rows allocations_clash (<[k := l]> (tt_allocations t)) = true).
  { intros k l Hk Hip Hothers. apply unique_rows_insert; [done|]. intros j b Hjk Hb.
    unfold allocation_key in Hk. injection Hk as H1 H2 H3.
    assert (Hc : ∀ c, (ipa_topology_id b =? tid) && String.eqb (ipa_node_id b) nid = false ∨ c = false →
      (ipa_topology_id b =? tid) && String.eqb (ipa_node_id b) nid && c = false).
    { intros c [->| ->]; [done|apply andb_false_r]. }
    unfold allocations_clash. rewrite H1, H2, H3, Hip. rewrite (Z.eqb_sym tid), (String.eqb_sym nid), (Z.eqb_sym wid).
    destruct ((ipa_topology_id b =? tid) && String.eqb (ipa_node_id b) nid) eqn:En; [|done].
    apply andb_true_iff in En as [E1%Z.eqb_eq E2%String.eqb_eq].
    assert (Hw : ipa_workspace_id b ≠ wid).
    { intros E3. apply (Hothers j b Hjk Hb). unfold allocation_key. congruence. }
    rewrite (proj2 (Z.eqb_neq _ _) Hw). simpl.
    destruct (lease_active b) eqn:Eb; [|by rewrite !andb_false_r].
    assert (Hneq : ipa_ip b ≠ str_of_ipv4 x).
    { intros E. apply Hfree. exists j, b. split_and!; [done| |done]. unfold lease_at.
      by rewrite E1, E2, Eb, Z.eqb_refl, String.eqb_refl. }
    rewrite (String.eqb_sym (str_of_ipv4 x)), (proj2 (String.eqb_neq _ _) Hneq). by rewrite !andb_false_r. }
  destruct (find_allocation tid nid wid t) as [[aid l0]|] eqn:Ef.
  - pose proof Ef as [Hl0 Hk0]%find_allocation_key. unfold update_allocation, update_row in Hg.
    rewrite bool_decide_eq_true_2 in Hg by (by eapply elem_of_dom_2). injection Hg as <-.
    cbn. rewrite Hr, Hat, andb_true_r. rewrite (alter_row _ _ _ _ Hl0).
    apply Hnew; [done..|]. intros j b Hjk Hb Hk. apply Hjk.
    eapply unique_rows_spec; [exact Ha|exact Hb|exact Hl0|].
    unfold allocation_key in Hk, Hk0. injection Hk as Hb1 Hb2 Hb3. injection Hk0 as H1 H2 H3.
    unfold allocations_clash. by rewrite Hb1, Hb2, Hb3, H1, H2, H3, !Z.eqb_refl, String.eqb_refl.
  - unfold insert_allocation in Hg. injection Hg as <-. cbn. rewrite Hr, Hat, andb_true_r. cbn.
    apply Hnew; [done..|]. intros j b _ Hb Hk. eapply first_row_None in Ef; [|exact Hb].
    apply Ef. unfold allocation_key in Hk. simpl. naive_solver.
Qed.

Lemma ip_network_truthy t net : ip_network t = Some net → Py.truthy t = true.
Proof. by destruct t. Qed.
Lemma ip_address_truthy t ip : ip_address t = Some ip → Py.truthy t = true.
Proof. by destruct t. Qed.

Lemma ready_runtime_ok tid nid net gw s : runtime_range (ts_tables s) tid nid net gw →
  ∃ r, ready_runtime tid nid s = (s, inl (default "" (tr_cidr r), default "" (tr_gateway_ip r))%string) ∧
    iter_candidate_workspace_hosts (default "" (tr_cidr r)) (default "" (tr_gateway_ip r)) s
    = (s, inl (candidate_hosts net gw)).
Proof.
  intros (rid & r & Hf & Hst & Hn & Hg & Hc). exists r.
  unfold ready_runtime, tquery, mbind, eff_bind, gets. rewrite Hf, bool_decide_eq_true_2 by done. cbn [negb].
  rewrite (ip_network_truthy _ _ Hn), (ip_address_truthy _ _ Hg). split; [done|].
  unfold iter_candidate_workspace_hosts, gateway_as_address, mbind, eff_bind. by rewrite Hn, Hg, Hc.
Qed.

Lemma free_attempt tid nid wid net gw s : calm → clean s →
  runtime_range (ts_tables s) tid nid net gw → leases_readable (ts_tables s) tid nid →
  (∀ aid l, find_allocation tid nid wid (ts_tables s) = Some (aid, l) → lease_active l = false) →
  (∃ x, x ∈ candidate_hosts net gw ∧ ¬ leased (ts_tables s) tid nid x) →
  ∃ x s', allocate_workspace_ip_attempt tid nid wid 0 s = (s', inl (mkAllocateResult (str_of_ipv4 x) false)) ∧
    x ∈ candidate_hosts net gw.
Proof.
  intros Hcalm Hc Hrange Hread Hmine (x0 & Hx0 & Hfree0).
  destruct (ready_runtime_ok tid nid net gw s Hrange) as (r & Hrr & Hcand).
  destruct (readable_mapM _ _ _ Hread) as [ips Hmap].
  assert (Hused : used_ips tid nid s = (s, inl ips)).
  { unfold used_ips, tquery, mbind, eff_bind, gets. by rewrite Hmap. }
  assert (Hips : ∀ x, ipv4 x → V4 x ∈ ips ↔ leased (ts_tables s) tid nid x).
  { assert (H : wp (used_ips tid nid)
      (λ ips' _, ∀ x, ipv4 x → V4 x ∈ ips' ↔ leased (ts_tables s) tid nid x) (λ _ _, True) s)
      by (by apply wp_used_ips).
    unfold wp in H. by rewrite Hused in H. }
  assert (Hnet : wf_net net) by (destruct Hrange as (? & ? & _ & _ & Hn & _); by eapply ip_network_wf).
  assert (Hi4 : ∀ x, x ∈ candidate_hosts net gw → ipv4 x).
  { intros x Hx. eapply in_net_ipv4; [done|]. by eapply candidate_hosts_sound. }
  pose proof (pick_first_free_spec (candidate_hosts net gw) ips 0) as Hp.
  destruct (pick_first_free_host (candidate_hosts net gw) ips 0) as [x|] eqn:Epick;
    [|exfalso; apply Hfree0, Hips; [by apply Hi4|by apply Hp]].
  destruct Hp as [Hx Hfree].
  assert (Hnl : ¬ leased (ts_tables s) tid nid x) by (intros Hl; apply Hfree, Hips; [by apply Hi4|done]).
  set (row := find_allocation tid nid wid (ts_tables s)).
  assert (Hlease : ∃ s', lease_free_host tid nid wid 0
     (default "" (tr_cidr r), default "" (tr_gateway_ip r))%string row s
     = (s', inl (mkAllocateResult (str_of_ipv4 x) false))).
  { unfold lease_free_host, mbind at 1 2, eff_bind at 1 2. cbn [fst snd]. rewrite Hcand, Hused.
    destruct (candidate_hosts net gw) as [|c l] eqn:El; [by apply elem_of_nil in Hx|].
    change (0 <? 0) with false. cbv iota zeta. rewrite Epick.
    set (g := match row with None => _ | Some _ => _ end).
    assert (∃ t, g (ts_tables s) = Some t) as [t Ht].
    { subst g row. destruct (find_allocation tid nid wid (ts_tables s)) as [[aid l0]|] eqn:Ef; [|by eexists].
      apply find_allocation_key in Ef as [Hl0 _]. unfold update_allocation, update_row.
      rewrite bool_decide_eq_true_2 by (by eapply elem_of_dom_2). by eexists. }
    assert (Htok : tables_ok t = true).
    { eapply (lease_keeps_constraints tid nid wid x (ts_tables s)); [apply Hc|done|].
      rewrite <- Ht. subst g row. by destruct (find_allocation _ _ _ _) as [[]|]. }
    destruct (calm_commit g s t Hcalm Hc Ht Htok) as [w Hcommit].
    unfold mbind, eff_bind, try_except. rewrite Hcommit. by eexists. }
  destruct Hlease as [s' Hlease]. exists x, s'. split; [|done].
  unfold allocate_workspace_ip_attempt, mbind at 1, eff_bind at 1. rewrite Hrr.
  unfold tquery, mbind, eff_bind, gets. fold row. destruct row as [[aid l]|] eqn:Erow; [|done].
  by rewrite (Hmine aid l).
Qed.

(** C20. Leases are in range and unique: whatever other sessions commit meanwhile,
    an address [allocate_workspace_ip] leases freshly is a host of the READY
    runtime's network, not its gateway, not its network or broadcast address, past
    the ten addresses kept for the infrastructure when the network is a /28 or
    larger, free when it was chosen, and leased to no other row of the node when the
    lease is committed; otherwise the workspace's active lease is returned as it is;
    and an error is one of the allocation's, with no change of its own committed. *)
Theorem allocated_ip_in_range_and_unique s tid node wid (Hc : clean s) :
  let nid := normal_node_id node in
  let '(s', res) := allocate_workspace_ip tid node wid s in
  clean s' ∧
  match res with
  | inl a => ∃ s0, rtc rival_step (ts_tables s) (ts_tables s0) ∧
      if al_leased_existing a
      then s' = s0 ∧ ∃ aid l, find_allocation tid nid wid (ts_tables s') = Some (aid, l) ∧
             ipa_released_at l = None ∧ al_workspace_ip a = ipa_ip l
      else ∃ net gw x, runtime_range (ts_tables s0) tid nid net gw ∧
             parse_ipv4 (al_workspace_ip a) = Some x ∧ in_net net x ∧ x ≠ gw ∧
             (net_prefixlen net ≤ 30 → net_address net < x < broadcast net) ∧
             (net_prefixlen net ≤ 28 → net_address net + 10 < x) ∧
             ¬ leased (ts_tables s0) tid nid x ∧
             ∃ aid l, tt_allocations (ts_committed s') !! aid = Some l ∧ ipa_workspace_id l = wid ∧
               lease_at tid nid l = true ∧ ipa_ip l = al_workspace_ip a ∧
               ∀ aid' l', tt_allocations (ts_committed s') !! aid' = Some l' → lease_at tid nid l' = true →
                 ipa_ip l' = ipa_ip l → aid' = aid
  | inr e => is_allocation_error e ∧ rtc rival_step (ts_tables s) (ts_committed s')
  end.
Proof.
  intros nid. destruct (allocate_workspace_ip tid node wid s) as [s' res] eqn:E.
  eapply (wp_run _ (λ a s', allocation_result s tid nid wid a s')
    (λ e s', clean s' ∧ rtc rival_step (ts_tables s) (ts_tables s') ∧ is_allocation_error e)) in E.
  2:{ unfold allocate_workspace_ip. fold nid. apply wp_bind, wp_ready_runtime.
      - intros _ _ _ _. by apply wp_allocate_attempts.
      - intros e He. split_and!; [done|apply rtc_refl|done]. }
  destruct res as [a|e].
  2:{ destruct E as ((Heq & Hok) & Hr & He). split; [done|]. by rewrite <- Heq. }
  destruct E as (s0 & Hc0 & Hr & Ha). unfold attempt_result in Ha. destruct (al_leased_existing a) eqn:Ee.
  - destruct Ha as [-> Ha]. split; [done|]. by exists s0.
  - destruct Ha as [Hc' (net & gw & x & Hrange & Hx & Hip & Hfree & aid & l & Hl & Hw & Hat & Hli & Hu)].
    split; [done|]. exists s0. split; [done|]. exists net, gw, x.
    assert (Hnet : wf_net net) by (destruct Hrange as (? & ? & _ & _ & Hn & _); by eapply ip_network_wf).
    destruct (candidate_hosts_sound net gw x Hnet Hx) as (H1 & H2 & H3 & H4).
    split_and!; [done| |done..|].
    { rewrite Hip. by apply parse_str_of_ipv4, in_net_ipv4 with net. }
    destruct Hc' as [<- _]. exists aid, l. split_and!; [done..|congruence|]. intros aid' l' Hl' Ha' Hi'.
    eapply Hu; [done..|congruence].
Qed.

(** No needless refusal: without interference, a workspace that holds no active
    lease gets an address at the first attempt as soon as one candidate of the READY
    runtime's range is not leased. *)
Lemma free_address_is_leased s tid node wid net gw
    (Hcalm : calm) (Hc : clean s)
    (Hrange : runtime_range (ts_tables s) tid (normal_node_id node) net gw)
    (Hread : leases_readable (ts_tables s) tid (normal_node_id node))
    (Hmine : ∀ aid l, find_allocation tid (normal_node_id node) wid (ts_tables s) = Some (aid, l) →
       lease_active l = false)
    (Hfree : ∃ x, x ∈ candidate_hosts_spec net gw ∧ ¬ leased (ts_tables s) tid (normal_node_id node) x) :
  ∃ x s', allocate_workspace_ip tid node wid s = (s', inl (mkAllocateResult (str_of_ipv4 x) false)) ∧
    x ∈ candidate_hosts_spec net gw.
Proof.
  rewrite <- candidate_hosts_eq in *. set (nid := normal_node_id node) in *.
  destruct (free_attempt tid nid wid net gw s Hcalm Hc Hrange Hread Hmine Hfree) as (x & s' & Ha & Hx).
  exists x, s'. split; [|done]. unfold allocate_workspace_ip, mbind, eff_bind. fold nid.
  destruct (ready_runtime_ok tid nid net gw s Hrange) as (r & -> & _).
  change (seqZ 0 ALLOCATE_IP_MAX_ATTEMPTS) with (0 :: seqZ 1 23). cbn [allocate_attempts].
  unfold try_except. by rewrite Ha.
Qed.
End leases.
