(* ===== verification/TopologySubnets.v ===== *)
(** * TopologySubnets: the subnets [ensure_node_topology] hands out

    Proofs about the runtime rows of Topology.v: in a topology whose subnets come
    from the parent pool, no two nodes ever get overlapping ones, although several
    workers allocate them at once. *)

From S2P Require Import Prelude Models Ipaddress TopologyModels LinuxNet TopologyPlan.
From S2P Require Import Topology.

(** ** Printed networks have no spaces *)

Definition spaceless (s : string) : bool := forallb (λ c, negb (Py.is_space c)) (list_ascii_of_string s).

Lemma spaceless_app a b : spaceless (a ++ b) = spaceless a && spaceless b.
Proof. unfold spaceless. by rewrite Py.list_ascii_of_app, forallb_app. Qed.

Lemma strip_spaceless s : spaceless s = true → Py.strip s = s.
Proof.
  unfold spaceless. intros H. unfold Py.strip, Py.on_chars.
  rewrite <- (string_of_list_ascii_of_string s) at 2. f_equal.
  revert H. generalize (list_ascii_of_string s). intros l H.
  assert (Hl : ∀ l, forallb (λ c, negb (Py.is_space c)) l = true → Py.lstrip_by Py.is_space l = l).
  { intros l' Hl'. apply Py.lstrip_by_id. intros c r ->. simpl in Hl'.
    apply andb_true_iff in Hl' as [Hc _]. by apply negb_true_iff. }
  unfold Py.strip_by, Py.rstrip_by. rewrite (Hl l) by done. rewrite Hl; [apply rev_involutive|].
  apply forallb_forall. intros c Hc%in_rev. eapply forallb_forall in H; done.
Qed.

Lemma spaceless_octet n : 0 ≤ n < 256 → spaceless (Py.str_of_Z n) = true.
Proof.
  intros Hn. apply (all_in_range 0 256 (λ n, spaceless (Py.str_of_Z n))); [|lia]. vm_compute. reflexivity.
Qed.

Lemma spaceless_ipv4 a : spaceless (str_of_ipv4 a) = true.
Proof.
  unfold str_of_ipv4. rewrite !spaceless_app, !spaceless_octet by (apply Z.mod_pos_bound; lia). done.
Qed.

Lemma spaceless_network n : wf_net n → spaceless (str_of_network n) = true.
Proof.
  intros [Hp _]. unfold str_of_network. rewrite !spaceless_app, spaceless_ipv4.
  rewrite spaceless_octet by lia. done.
Qed.

Lemma network_text_set n : wf_net n → is_set (Some (str_of_network n)) = true.
Proof.
  intros Hn. unfold is_set, Py.strip_opt. simpl. rewrite strip_spaceless by (by apply spaceless_network).
  pose proof (parse_str_of_network n Hn) as H. by destruct (str_of_network n).
Qed.

(** ** Pooled topologies *)

(** The network a row stands for, as the allocator reads it. *)
Definition runtime_network (r : TopologyRuntime) : option IPv4Network :=
  match ip_network (Py.strip_opt (tr_cidr r)) with Some (Net4 n) => Some n | _ => None end.

(** Every subnet of the topology is one of the pool's, in its canonical text. *)
Definition pooled (tid : Z) (t : TopologyTables) : Prop :=
  ∀ i r, tt_runtimes t !! i = Some r → tr_topology_id r = tid → is_set (tr_cidr r) = true →
    ∃ n, pool_child n ∧ tr_cidr r = Some (str_of_network n).

Definition subnets_disjoint (tid : Z) (t : TopologyTables) : Prop :=
  ∀ i j a b na nb, tt_runtimes t !! i = Some a → tt_runtimes t !! j = Some b →
    tr_topology_id a = tid → tr_topology_id b = tid →
    runtime_network a = Some na → runtime_network b = Some nb → i ≠ j → overlaps na nb = false.

Lemma runtime_network_set r n : runtime_network r = Some n → is_set (tr_cidr r) = true.
Proof. unfold runtime_network, is_set. by destruct (Py.strip_opt (tr_cidr r)). Qed.

Lemma pooled_network r n : wf_net n → tr_cidr r = Some (str_of_network n) → runtime_network r = Some n.
Proof.
  intros Hn Hc. unfold runtime_network, Py.strip_opt. rewrite Hc. simpl.
  rewrite strip_spaceless by (by apply spaceless_network). by rewrite ip_network_str.
Qed.

(** The unique constraint on the text of the subnet is enough. *)
Lemma pooled_disjoint tid t : tables_ok t = true → pooled tid t → subnets_disjoint tid t.
Proof.
  intros Hok Hp i j a b na nb Ha Hb Hta Htb Hna Hnb Hij. apply not_true_iff_false. intros Ho. apply Hij.
  destruct (Hp i a Ha Hta (runtime_network_set _ _ Hna)) as (ma & (Hwa & Hpa & _) & Hca).
  destruct (Hp j b Hb Htb (runtime_network_set _ _ Hnb)) as (mb & (Hwb & Hpb & _) & Hcb).
  rewrite (pooled_network _ _ Hwa Hca) in Hna. rewrite (pooled_network _ _ Hwb Hcb) in Hnb. simplify_eq.
  assert (na = nb) as <- by (apply aligned_disjoint; congruence).
  unfold tables_ok in Hok. apply andb_true_iff in Hok as [[Hr _]%andb_true_iff _].
  eapply unique_rows_spec; [exact Hr|exact Ha|exact Hb|].
  unfold runtimes_clash. by rewrite Htb, Z.eqb_refl, Hca, Hcb, String.eqb_refl, orb_true_r.
Qed.

(** ** ensure_node_topology *)

Section ensure.
Context {W : Type} {env : Env} {shared : SharedTables W} {host : HostNetwork W} {config : AdapterConfig W}.
Implicit Types s : TopologyState W.

Lemma wp_frame {A} (m : T W A) s : within same_tables m → wp m (λ _ s', same_tables s s') (λ _ s', same_tables s s') s.
Proof. intros H. specialize (H s). unfold wp. by destruct (m s) as [s' [a|e]]. Qed.

Lemma wp_choose tid nid existing sg k (Q : string * string → TopologyState W → Prop) X s :
  (∀ net gw, wf_net net →
     (Py.truthy (Py.strip_opt (existing ≫= tr_cidr)) = false →
        pool_child net ∧ clear_of_others s tid nid net ∧ gateway_of net gw) →
     Q (str_of_network net, gw) s) →
  (∀ e, X e s) →
  wp (choose_runtime_cidr_and_gateway tid nid existing None sg k) Q X s.
Proof.
  intros HQ HX. unfold choose_runtime_cidr_and_gateway.
  destruct (Py.truthy (Py.strip_opt (existing ≫= tr_cidr))) eqn:Ec.
  - unfold parse_ipv4_network. destruct (ip_network _) as [[net|]|] eqn:En; wp_topo; try apply HX.
    assert (Hn : wf_net net) by (by eapply ip_network_wf).
    destruct (Py.truthy (Py.strip_opt (existing ≫= tr_gateway_ip))).
    + destruct (ip_address _) as [g|]; [|apply HX]. destruct (ip_in_net net g); [|apply HX].
      apply wp_ret. by apply HQ.
    + wp_topo. apply wp_first_usable; [done| |intros; apply HX]. intros h Hh. apply wp_ret. by apply HQ.
  - wp_topo. apply wp_allocate_child; [|intros _ m; apply HX]. intros net Hnet Hclear. wp_topo.
    apply wp_gateway_for; [apply Hnet| |intros; apply HX]. intros gw Hgw. apply wp_ret, HQ; [apply Hnet|done].
Qed.

(** The hypotheses of a pooled topology: so are the rows other sessions commit, and
    the spec names no subnet of its own. *)
Variable tid : Z.
Hypothesis others_pooled : ∀ t t', rival_step t t' → pooled tid t → pooled tid t'.

(** What is committed is fine; and nothing is pending. *)
Definition committed_pooled s : Prop := tables_ok (ts_committed s) = true ∧ pooled tid (ts_committed s).
Definition clean_pooled s : Prop := clean s ∧ pooled tid (ts_tables s).

Lemma clean_committed s : clean_pooled s → committed_pooled s.
Proof. intros [[Heq Hok] Hp]. unfold committed_pooled. by rewrite <- Heq. Qed.
Lemma rival_committed s t0 w : clean_pooled s → rival_step (ts_tables s) t0 →
  committed_pooled (mkTopologyState (ts_tables s) t0 w).
Proof. intros [[_ Hok] Hp] Ht. split; [by eapply rival_step_ok|by eapply others_pooled]. Qed.
Lemma rolled_back s : committed_pooled s → clean_pooled (s <| ts_tables := ts_committed s |>).
Proof. by intros [Hok Hp]. Qed.
Lemma same_clean s s' : same_tables s s' → clean_pooled s → clean_pooled s'.
Proof. intros [H1 H2] [[Heq Hok] Hp]. unfold clean_pooled, clean. by rewrite H1, H2, <- Heq. Qed.

Lemma pooled_insert t r n : pooled tid t → pool_child n → tr_cidr r = Some (str_of_network n) →
  pooled tid (t <| tt_runtimes ::= <[fresh_key (tt_runtimes t) := r]> |>).
Proof.
  intros Hp Hn Hc i r' Hi Ht Hs. cbn in Hi. apply lookup_insert_Some in Hi as [[_ <-]|[_ Hi]]; [by exists n|].
  by eapply Hp.
Qed.
Lemma pooled_alter t k f : pooled tid t →
  (∀ r, tr_topology_id (f r) = tr_topology_id r) →
  (∀ r, is_set (tr_cidr (f r)) = true → tr_cidr (f r) = tr_cidr r ∨
     ∃ n, pool_child n ∧ tr_cidr (f r) = Some (str_of_network n)) →
  pooled tid (t <| tt_runtimes ::= alter f k |>).
Proof.
  intros Hp Htid Hf i r Hi Ht Hs. cbn in Hi. apply lookup_alter_Some in Hi as [(<- & r0 & Hr0 & ->)|[_ Hi]].
  - destruct (Hf r0 Hs) as [Hc|Hc]; [|done]. rewrite Hc in *. rewrite Htid in Ht. by eapply Hp.
  - by eapply Hp.
Qed.

Lemma wp_write_runtime nid sg b existing k (Q : unit → TopologyState W → Prop) X s :
  clean_pooled s →
  (∀ s', clean_pooled s' → Q tt s') → (∀ e s', committed_pooled s' → X e s') →
  wp (write_runtime tid nid (None, sg, b) existing k) Q X s.
Proof.
  intros Hs HQ HX. unfold write_runtime. apply wp_bind, wp_choose; [|intros e; by apply HX, clean_committed].
  intros net gw Hnet Hchild. cbn [fst snd]. apply wp_commit_change; [apply Hs| |].
  - intros w t0 t Ht Hg Hok. apply HQ. split; [by apply clean_intro|]. cbn.
    assert (Hp0 : pooled tid t0) by (eapply others_pooled; [done|apply Hs]).
    destruct existing as [[rid row]|].
    + unfold update_runtime, update_row in Hg. case_bool_decide; [|done]. injection Hg as <-.
      apply pooled_alter; [done| |].
      * intros r. unfold fill_runtime. by destruct (is_set (tr_bridge_name row)), (is_set (tr_cidr row)),
          (is_set (tr_gateway_ip row)).
      * intros r _. destruct (is_set (tr_cidr row)) eqn:Ec.
        -- left. unfold fill_runtime. rewrite Ec.
           by destruct (is_set (tr_bridge_name row)), (is_set (tr_gateway_ip row)).
        -- right. destruct (Hchild Ec) as (Hc & _ & _). exists net. split; [done|].
           unfold fill_runtime. rewrite Ec.
           by destruct (is_set (tr_bridge_name row)), (is_set (tr_gateway_ip row)).
    + unfold insert_runtime in Hg. injection Hg as <-.
      destruct (Hchild eq_refl) as (Hc & _ & _). by eapply pooled_insert.
  - intros w t0 e Ht _. by apply HX, rival_committed.
Qed.

Lemma wp_ensure_attempts nid sg b ks (Q : unit → TopologyState W → Prop) X s :
  clean_pooled s →
  (∀ s', clean_pooled s' → Q tt s') → (∀ e s', committed_pooled s' → X e s') →
  wp (ensure_attempts tid nid (None, sg, b) ks) Q X s.
Proof.
  revert s. induction ks as [|k ks IH]; intros s Hs HQ HX; simpl; [by apply wp_ret, HQ|].
  wp_topo. destruct (match find_runtime tid nid (ts_tables s) with Some _ => _ | None => _ end);
    [by apply wp_ret, HQ|].
  apply wp_bind, wp_attempt, wp_write_runtime; [done|intros s' Hs'; by apply wp_ret, HQ|].
  intros e s' Hs'. pose proof (rolled_back s' Hs') as Hr.
  destruct e; wp_topo; try (by apply HX, clean_committed).
  destruct (_ <=? _); [by apply wp_raise, HX, clean_committed|]. by apply IH.
Qed.

Lemma pooled_synced t k st code msg : pooled tid t → pooled tid (t <| tt_runtimes ::= alter (synced st code msg) k |>).
Proof. intros Hp. apply pooled_alter; [done..|]. intros r _. by left. Qed.

Lemma wp_sync_commit rid f (Q : unit → TopologyState W → Prop) X s :
  clean_pooled s → (∃ st code msg, f = synced st code msg) →
  (∀ s', clean_pooled s' → rid ∈ dom (tt_runtimes (ts_tables s')) → Q tt s') →
  (∀ e s', committed_pooled s' → X e s') →
  wp (commit_change (update_runtime rid f)) Q X s.
Proof.
  intros Hs (st & code & msg & ->) HQ HX. apply wp_commit_change; [apply Hs| |].
  - intros w t0 t Ht Hg Hok. unfold update_runtime, update_row in Hg. case_bool_decide as Hd; [|done].
    injection Hg as <-. apply HQ.
    + split; [by apply clean_intro|]. apply pooled_synced. eapply others_pooled; [done|apply Hs].
    + cbn. by rewrite dom_alter.
  - intros w t0 e Ht _. by apply HX, rival_committed.
Qed.

Lemma wp_sync rid (Q : unit → TopologyState W → Prop) X s :
  clean_pooled s →
  (∀ s', clean_pooled s' → rid ∈ dom (tt_runtimes (ts_tables s')) → Q tt s') →
  (∀ e s', committed_pooled s' → X e s') →
  wp (sync_linux_node_bridge rid) Q X s.
Proof.
  intros Hs HQ HX. unfold sync_linux_node_bridge, runtime_of. wp_topo.
  destruct (tt_runtimes (ts_tables s) !! rid) as [row|]; [|by apply wp_raise, HX, clean_committed].
  apply wp_ret. destruct (negb ac_apply_linux_bridge).
  { apply wp_sync_commit; [done|by eexists _, _, _|done..]. }
  destruct (negb _).
  { apply wp_sync_commit; [done|by eexists _, _, _|done..]. }
  cbv zeta. apply wp_bind, wp_attempt.
  eapply wp_mono; [apply wp_frame; linux_frame| |].
  - intros [] s' Hsame. apply wp_bind, wp_ret, wp_try.
    apply wp_sync_commit; [by eapply same_clean|by eexists _, _, _|done|].
    intros e s2 H2. wp_topo. by apply HX, clean_committed, rolled_back.
  - intros e s' Hsame. pose proof (same_clean _ _ Hsame Hs) as Hs'.
    assert (Hf : ∀ f, (∃ st code msg, f = synced st code msg) →
      wp (try_except (commit_change (update_runtime rid f)) (λ e, trollback ;;
         raise (TopologyRuntimeCreateError
           ("failed to persist topology runtime after bridge sync: " ++ exn_str e)))) Q X s').
    { intros f Hf. apply wp_try, wp_sync_commit; [done..|].
      intros e2 s2 H2. wp_topo. by apply HX, clean_committed, rolled_back. }
    destruct e; apply wp_bind; first
      [by apply wp_raise, HX, clean_committed|apply wp_ret, Hf; by eexists _, _, _].
Qed.
End ensure.

Section theorem.
Context {W : Type} {env : Env} {shared : SharedTables W} {host : HostNetwork W} {config : AdapterConfig W}.

(** C21. Subnets of different nodes never overlap: in a topology whose spec names no
    subnet, if every stored subnet is one of the parent pool's /20 blocks and the
    other sessions keep it so, then whatever they commit in between, after
    [ensure_node_topology] (returned or raised) the committed subnets are still
    pool blocks and pairwise disjoint, and a result describes a committed row. *)
Theorem ensure_keeps_subnets_disjoint (s : TopologyState W) tid node
    (Hc : clean s) (Hpool : pooled tid (ts_tables s))
    (Hothers : ∀ t t', rival_step t t' → pooled tid t → pooled tid t')
    (Hspec : ∀ topo, tt_topologies (ts_tables s) !! tid = Some topo →
       spec_text (spec_cidr_value (default empty_spec (topo_spec_json topo))) = None) :
  let '(s', res) := ensure_node_topology tid node s in
  tables_ok (ts_committed s') = true ∧ pooled tid (ts_committed s') ∧
  subnets_disjoint tid (ts_committed s') ∧
  match res with
  | inl r => ∃ row, tt_runtimes (ts_committed s') !! en_topology_runtime_id r = Some row ∧
      en_cidr r = tr_cidr row ∧ en_gateway_ip r = tr_gateway_ip row ∧ en_status r = tr_status row
  | inr _ => True
  end.
Proof.
  destruct (ensure_node_topology tid node s) as [s' res] eqn:E.
  enough (H : committed_pooled tid s' ∧ match res with
    | inl r => ∃ row, tt_runtimes (ts_committed s') !! en_topology_runtime_id r = Some row ∧
        en_cidr r = tr_cidr row ∧ en_gateway_ip r = tr_gateway_ip row ∧ en_status r = tr_status row
    | inr _ => True end).
  { destruct H as [[Hok Hp] Hr]. split_and!; [done|done|by apply pooled_disjoint|done]. }
  eapply (wp_run _ (λ r s', committed_pooled tid s' ∧ ∃ row,
      tt_runtimes (ts_committed s') !! en_topology_runtime_id r = Some row ∧
      en_cidr r = tr_cidr row ∧ en_gateway_ip r = tr_gateway_ip row ∧ en_status r = tr_status row)
    (λ e s', committed_pooled tid s')) in E; [by destruct res|].
  assert (Hs : clean_pooled tid s) by done. clear E.
  assert (Hfinish : ∀ rid s, clean_pooled tid s →
    wp (sync_linux_node_bridge rid ;; runtime_to_ensure_result rid) (λ r s', committed_pooled tid s' ∧ ∃ row,
      tt_runtimes (ts_committed s') !! en_topology_runtime_id r = Some row ∧
      en_cidr r = tr_cidr row ∧ en_gateway_ip r = tr_gateway_ip row ∧ en_status r = tr_status row)
    (λ e s', committed_pooled tid s') s).
  { intros rid s1 H1. apply wp_bind. eapply wp_sync; [done..| |done]. intros s2 H2 Hd.
    apply elem_of_dom in Hd as [row Hrow]. unfold runtime_to_ensure_result, runtime_of. wp_topo.
    rewrite Hrow. apply wp_ret, wp_ret. split; [by apply clean_committed|]. exists row.
    destruct H2 as [[<- _] _]. done. }
  unfold ensure_node_topology. destruct (negb _); [by apply wp_raise, clean_committed|]. cbv zeta.
  wp_topo. destruct (tt_topologies (ts_tables s) !! tid) as [topo|] eqn:Et; [|by apply wp_raise, clean_committed].
  wp_topo. unfold node_bridge_plan. cbv zeta. destruct (negb _); wp_topo; [by apply clean_committed|].
  rewrite (Hspec topo eq_refl). set (nid := normal_node_id node).
  assert (Hslow : ∀ sg b, wp (ensure_attempts tid nid (None, sg, b) (seqZ 0 ENSURE_NODE_CIDR_MAX_ATTEMPTS) ;;
      row ← tquery (find_runtime tid nid);
      match row with
      | None => raise (TopologyRuntimeCreateError "failed to ensure topology runtime row")
      | Some (rid, _) => sync_linux_node_bridge rid ;; runtime_to_ensure_result rid
      end) (λ r s', committed_pooled tid s' ∧ ∃ row,
      tt_runtimes (ts_committed s') !! en_topology_runtime_id r = Some row ∧
      en_cidr r = tr_cidr row ∧ en_gateway_ip r = tr_gateway_ip row ∧ en_status r = tr_status row)
    (λ e s', committed_pooled tid s') s).
  { intros sg b. apply wp_bind, wp_ensure_attempts; [done..| |done]. intros s1 H1. wp_topo.
    destruct (find_runtime tid nid (ts_tables s1)) as [[rid row]|]; [by apply Hfinish|].
    by apply wp_raise, clean_committed. }
  destruct (find_runtime tid nid (ts_tables s)) as [[rid row]|]; [|apply Hslow].
  destruct (runtime_row_complete row); [by apply Hfinish|apply Hslow].
Qed.
End theorem.
