(* ===== verification/TopologyRepair.v ===== *)
(** * TopologyRepair: releasing, detaching and the janitor

    Proofs about the parts of Topology.v that give resources back, for a worker
    that no other session interferes with ([calm]): what detaching and releasing do
    to the tables, and the state the janitor leaves. *)

From S2P Require Import Prelude Models Ipaddress TopologyModels LinuxNet TopologyPlan.
From S2P Require Import Topology.

(** ** Constraints survive updates of non-key columns *)

Lemma unique_rows_alter {A} (clash : A → A → bool) m k f :
  unique_rows clash m = true →
  (∀ a b, clash (f a) b = true → clash a b = true) → (∀ a b, clash b (f a) = true → clash b a = true) →
  unique_rows clash (alter f k m) = true.
Proof.
  rewrite !unique_rows_spec. intros Hm Hl Hr i j a b Hi Hj Hc.
  apply lookup_alter_Some in Hi as [(-> & a0 & Ha0 & ->)|[Hik Hi]],
    Hj as [(Hkj & b0 & Hb0 & ->)|[Hjk Hj]]; [done|eapply Hm; eauto..].
Qed.

Section calm.
Context {W : Type} {env : Env} {shared : SharedTables W} {host : HostNetwork W} {config : AdapterConfig W}.
Implicit Types s : TopologyState W.
Hypothesis quiet : calm.

Lemma wp_commit_calm g (Q : unit → TopologyState W → Prop) X s : clean s →
  (∀ w t, g (ts_tables s) = Some t → tables_ok t = true → Q tt (mkTopologyState t t w)) →
  (∀ w e, (g (ts_tables s) = None ∨ ∃ t, g (ts_tables s) = Some t ∧ tables_ok t = false) →
     X e (mkTopologyState (ts_tables s) (ts_tables s) w)) →
  wp (commit_change g) Q X s.
Proof.
  intros [Heq Hok] HQ HX. unfold wp, commit_change. destruct (quiet (ts_world s)) as [Hf Hn].
  destruct (sh_commit (ts_world s)) as [[w others] failure]. simpl in *. subst failure.
  destruct s as [t tc w0]. simpl in *. subst tc.
  change ((mkTopologyState t t w0) <| ts_world := w |> <| ts_committed ::= others |>) with (mkTopologyState t (others t) w).
  rewrite !Hf.
  destruct (g t) as [t'|] eqn:Eg; [|apply HX; by left].
  destruct (tables_ok t') eqn:Et; [by apply HQ|]. apply HX. right. by exists t'.
Qed.

(** A commit whose change lands and breaks no constraint cannot fail. *)
Lemma wp_commit_sure g t (Q : unit → TopologyState W → Prop) X s : clean s →
  g (ts_tables s) = Some t → tables_ok t = true →
  (∀ w, Q tt (mkTopologyState t t w)) → wp (commit_change g) Q X s.
Proof.
  intros Hc Hg Hok HQ. apply wp_commit_calm; [done| |].
  - intros w t' Ht' _. rewrite Hg in Ht'. by injection Ht' as <-.
  - intros w e [Hn|(t' & Ht' & Hf)]; congruence.
Qed.

(** *** Rows by their keys *)

Definition attachment_of (t : TopologyTables) (tid : Z) (nid : string) (wid aid : Z) (a : TopologyAttachment) : Prop :=
  tt_attachments t !! aid = Some a ∧ attachment_key a = (tid, nid, wid).
Definition lease_of (t : TopologyTables) (tid : Z) (nid : string) (wid aid : Z) (l : IpAllocation) : Prop :=
  tt_allocations t !! aid = Some l ∧ allocation_key l = (tid, nid, wid) ∧ ipa_released_at l = None.

Lemma attachment_unique t tid nid wid i j a b : tables_ok t = true →
  attachment_of t tid nid wid i a → attachment_of t tid nid wid j b → i = j ∧ a = b.
Proof.
  intros Hok [Ha Hka] [Hb Hkb]. unfold tables_ok in Hok. apply andb_true_iff in Hok as [_ Hu].
  assert (i = j) as <-; [|split; [done|congruence]].
  eapply unique_rows_spec; [exact Hu|exact Ha|exact Hb|]. unfold attachment_key in *.
  injection Hka as H1 H2 H3. injection Hkb as H1' H2' H3'. unfold attachments_clash.
  by rewrite H1, H2, H3, H1', H2', H3', !Z.eqb_refl, String.eqb_refl.
Qed.

Lemma find_attachment_spec tid nid wid t :
  match find_attachment tid nid wid t with
  | Some (aid, a) => attachment_of t tid nid wid aid a
  | None => ∀ aid a, ¬ attachment_of t tid nid wid aid a
  end.
Proof.
  unfold find_attachment, attachment_of, attachment_key.
  destruct (first_row _ _) as [[aid a]|] eqn:E.
  - apply first_row_Some in E as [Ha (H1 & H2 & H3)]. simpl in *. split; [done|congruence].
  - intros aid a [Ha Hk]. eapply first_row_None in E; [|exact Ha]. apply E. simpl. naive_solver.
Qed.

Lemma find_active_spec tid nid wid t :
  match find_active_allocation tid nid wid t with
  | Some (aid, l) => lease_of t tid nid wid aid l
  | None => ∀ aid l, ¬ lease_of t tid nid wid aid l
  end.
Proof.
  unfold find_active_allocation, lease_of, allocation_key.
  destruct (first_row _ _) as [[aid l]|] eqn:E.
  - apply first_row_Some in E as [Ha (H1 & H2 & H3 & H4)]. simpl in *. split_and!; [done|congruence|done].
  - intros aid l (Ha & Hk & Hr). eapply first_row_None in E; [|exact Ha]. apply E. simpl. naive_solver.
Qed.

Lemma lease_unique t tid nid wid i j a b : tables_ok t = true →
  lease_of t tid nid wid i a → lease_of t tid nid wid j b → i = j.
Proof.
  intros Hok (Ha & Hka & _) (Hb & Hkb & _). unfold tables_ok in Hok.
  apply andb_true_iff in Hok as [[_ Hu]%andb_true_iff _].
  eapply unique_rows_spec; [exact Hu|exact Ha|exact Hb|]. unfold allocation_key in *.
  injection Hka as H1 H2 H3. injection Hkb as H1' H2' H3'. unfold allocations_clash.
  by rewrite H1, H2, H3, H1', H2', H3', !Z.eqb_refl, String.eqb_refl.
Qed.

(** *** Updates of one attachment or lease *)

Lemma tables_ok_attachment t k f : tables_ok t = true → (∀ a, attachment_key (f a) = attachment_key a) →
  tables_ok (t <| tt_attachments ::= alter f k |>) = true.
Proof.
  intros Hok Hf. unfold tables_ok in *. apply andb_true_iff in Hok as [Hra Ht].
  apply andb_true_iff. split; [done|]. cbn. apply unique_rows_alter; [done|..]; intros a b;
    specialize (Hf a); unfold attachment_key in Hf; injection Hf as H1 H2 H3; unfold attachments_clash;
    by rewrite H1, H2, H3.
Qed.

Lemma tables_ok_release t k now : tables_ok t = true →
  tables_ok (t <| tt_allocations ::= alter (λ r, r <| ipa_released_at := Some now |>) k |>) = true.
Proof.
  intros Hok. unfold tables_ok in *. apply andb_true_iff in Hok as [[Hr Ha]%andb_true_iff Ht].
  rewrite !andb_true_iff. split_and!; [done| |done]. cbn. apply unique_rows_alter; [done|..];
    intros a b; unfold allocations_clash; cbn;
    change (lease_active (a <| ipa_released_at := Some now |>)) with false;
    rewrite ?andb_false_l, ?andb_false_r, ?andb_false_l, orb_false_r; intros [-> ->]%andb_true_iff; done.
Qed.

(** [try: commit except: rollback, raise] of such a change does not fail. *)
Lemma wp_update_attachment k f h (Q : unit → TopologyState W → Prop) X s : clean s →
  k ∈ dom (tt_attachments (ts_tables s)) → (∀ a, attachment_key (f a) = attachment_key a) →
  (∀ w, let t := (ts_tables s) <| tt_attachments ::= alter f k |> in
        tables_ok t = true → Q tt (mkTopologyState t t w)) →
  wp (try_except (commit_change (update_attachment k f)) h) Q X s.
Proof.
  intros Hc Hk Hf HQ. assert (Hok := tables_ok_attachment (ts_tables s) k f (proj2 Hc) Hf).
  apply wp_try. eapply wp_commit_sure; [done| |exact Hok|intros w; by apply HQ].
  unfold update_attachment, update_row. by rewrite bool_decide_eq_true_2.
Qed.
Lemma wp_release_allocation k now h (Q : unit → TopologyState W → Prop) X s : clean s →
  k ∈ dom (tt_allocations (ts_tables s)) →
  (∀ w, let t := (ts_tables s) <| tt_allocations ::= alter (λ r, r <| ipa_released_at := Some now |>) k |> in
        tables_ok t = true → Q tt (mkTopologyState t t w)) →
  wp (try_except (commit_change (update_allocation k (λ r, r <| ipa_released_at := Some now |>))) h) Q X s.
Proof.
  intros Hc Hk HQ. assert (Hok := tables_ok_release (ts_tables s) k now (proj2 Hc)).
  apply wp_try. eapply wp_commit_sure; [done| |exact Hok|intros w; by apply HQ].
  unfold update_allocation, update_row. by rewrite bool_decide_eq_true_2.
Qed.

(** *** Detaching and releasing *)

(** [m] touched no row outside the workspace [wid] at the node. *)
Definition only_workspace (tid : Z) (nid : string) (wid : Z) (t t' : TopologyTables) : Prop :=
  tt_runtimes t' = tt_runtimes t ∧ tt_workspaces t' = tt_workspaces t ∧ tt_topologies t' = tt_topologies t ∧
  (∀ aid, tt_attachments t' !! aid = tt_attachments t !! aid ∨
     ∃ a a', attachment_of t tid nid wid aid a ∧ attachment_of t' tid nid wid aid a' ∧
             att_status a' = TopologyAttachmentStatus.DETACHED) ∧
  (∀ aid, tt_allocations t' !! aid = tt_allocations t !! aid ∨
     ∃ l l', lease_of t tid nid wid aid l ∧ tt_allocations t' !! aid = Some l' ∧
             allocation_key l' = (tid, nid, wid) ∧ ipa_released_at l' = Some env_now).

Lemma only_workspace_refl tid nid wid t : only_workspace tid nid wid t t.
Proof. split_and!; [done..| |]; by left. Qed.

Definition detached_of (t : TopologyTables) (tid : Z) (nid : string) (wid : Z) : Prop :=
  ∀ aid a, attachment_of t tid nid wid aid a → att_status a = TopologyAttachmentStatus.DETACHED.
Definition released_of (t : TopologyTables) (tid : Z) (nid : string) (wid : Z) : Prop :=
  ∀ aid l, ¬ lease_of t tid nid wid aid l.

Lemma linux_frame_clean {A} (m : T W A) (Q : A → TopologyState W → Prop) X s :
  within same_tables m → clean s →
  (∀ a s', clean s' → ts_tables s' = ts_tables s → Q a s') →
  (∀ e s', clean s' → ts_tables s' = ts_tables s → X e s') → wp m Q X s.
Proof.
  intros Hm [Heq Hok] HQ HX. specialize (Hm s) as [H1 H2]. unfold wp. destruct (m s) as [s' [a|e]]; simpl in *;
    [apply HQ|apply HX]; rewrite ?H1; try done; split; congruence.
Qed.

Lemma detach_veth_frame tid nid wid i : within same_tables (linux_detach_host_veth tid nid wid i).
Proof.
  unfold linux_detach_host_veth. cbv zeta. destruct (is_set i); apply within_try; try apply _;
    eauto with linux; intros []; apply within_raise, _.
Qed.

Lemma wp_detach tid node wid (Q : DetachWorkspaceResult → TopologyState W → Prop) X s : clean s →
  (∀ r s', clean s' → only_workspace tid (normal_node_id node) wid (ts_tables s) (ts_tables s') →
     tt_allocations (ts_tables s') = tt_allocations (ts_tables s) →
     detached_of (ts_tables s') tid (normal_node_id node) wid → Q r s') →
  (∀ e s', clean s' → ts_tables s' = ts_tables s → X e s') →
  wp (detach_workspace tid node wid) Q X s.
Proof.
  intros Hc HQ HX. unfold detach_workspace. cbv zeta. set (nid := normal_node_id node) in *.
  apply wp_bind, wp_tquery. pose proof (find_attachment_spec tid nid wid (ts_tables s)) as Hf.
  destruct (find_attachment tid nid wid (ts_tables s)) as [[aid att]|].
  2:{ apply wp_ret, HQ; [done|apply only_workspace_refl|done|]. intros aid a Ha. by destruct (Hf aid a). }
  case_bool_decide as Hst.
  { apply wp_ret, HQ; [done|apply only_workspace_refl|done|]. intros aid' a Ha.
    by destruct (attachment_unique _ _ _ _ _ _ _ _ (proj2 Hc) Hf Ha) as [_ <-]. }
  apply wp_bind.
  assert (Hrest : ∀ s1, clean s1 → ts_tables s1 = ts_tables s →
    wp (try_except (commit_change (update_attachment aid
          (λ a, a <| att_status := TopologyAttachmentStatus.DETACHED |> <| att_container_id := None |>
             <| att_interface_host := None |> <| att_interface_container := None |> <| att_updated_at := env_now |>)))
        (λ e, trollback ;; raise (WorkspaceDetachError ("failed to persist workspace detach: " ++ exn_str e))) ;;
        mret (mkDetachResult true TopologyAttachmentStatus.DETACHED wid (att_workspace_ip att) false)) Q X s1).
  { intros s1 Hc1 Heq. destruct Hf as [Hl Hk]. apply wp_bind, wp_update_attachment; [done| |done|].
    { rewrite Heq. by eapply elem_of_dom_2. }
    intros w t Hok. apply wp_ret. subst t. rewrite Heq in *. apply HQ; [by apply clean_intro| |done|].
    - split_and!; [done..| |by left]. intros k. cbn. destruct (decide (aid = k)) as [<-|Hne];
        [|left; by rewrite lookup_alter_ne]. right. eexists _, _. split; [by split|].
      split; [split; [cbn; by rewrite lookup_alter_eq, Hl|done]|done].
    - intros k a [Ha Hka]. cbn in Ha. apply lookup_alter_Some in Ha as [(<- & a0 & Ha0 & ->)|[Hne Ha]]; [done|].
      destruct (attachment_unique (ts_tables s) tid nid wid aid k att a (proj2 Hc)) as [? _]; done. }
  destruct ac_apply_linux_attachment; [|by apply wp_ret, Hrest].
  apply linux_frame_clean; [apply detach_veth_frame|done| |by auto]. intros [] s1 H1 H2. by apply Hrest.
Qed.

Lemma wp_release tid node wid (Q : bool → TopologyState W → Prop) X s : clean s →
  (∀ b s', clean s' → only_workspace tid (normal_node_id node) wid (ts_tables s) (ts_tables s') →
     tt_attachments (ts_tables s') = tt_attachments (ts_tables s) →
     released_of (ts_tables s') tid (normal_node_id node) wid → Q b s') →
  wp (release_workspace_ip_lease tid node wid) Q X s.
Proof.
  intros Hc HQ. unfold release_workspace_ip_lease. cbv zeta. set (nid := normal_node_id node) in *.
  apply wp_bind, wp_tquery. pose proof (find_active_spec tid nid wid (ts_tables s)) as Hf.
  destruct (find_active_allocation tid nid wid (ts_tables s)) as [[aid l]|].
  2:{ by apply wp_ret, HQ; [|apply only_workspace_refl| |]. }
  apply wp_bind, wp_release_allocation; [done|eapply elem_of_dom_2, Hf|].
  intros w t Hok. apply wp_ret. subst t. apply HQ; [by apply clean_intro| |done|].
  - split_and!; [done..|by left|]. intros k. cbn. destruct (decide (aid = k)) as [<-|Hne];
      [|left; by rewrite lookup_alter_ne]. right. exists l. destruct Hf as (Hl & Hk & Hr).
    eexists. split; [done|]. split_and!; [by rewrite lookup_alter_eq, Hl|done|done].
  - intros k l' (Hl' & Hk' & Hr'). cbn in Hl'. apply lookup_alter_Some in Hl' as [(<- & l0 & _ & ->)|[Hne Hl']]; [done|].
    apply Hne. eapply lease_unique; [apply Hc|exact Hf|by split].
Qed.

(** ** The janitor *)

(** A loop of the janitor reports no issue only when none of its rounds does; then
    each round established its goal [P], which the other rounds keep. *)
Lemma wp_janitor_loop (body : Z → T W (Z * list string)) (J : TopologyState W → Prop)
    (P : Z → TopologyState W → Prop) (wids : list Z) issues (Q : Z * list string → TopologyState W → Prop) X s :
  J s →
  (∀ wid s, wid ∈ wids → J s → wp (body wid) (λ r s', J s' ∧ (r.2 = [] → P wid s') ∧ ∀ wid', P wid' s → P wid' s') X s) →
  (∀ n out s', J s' → (out = [] → issues = [] ∧ ∀ wid, wid ∈ wids → P wid s') →
     (∀ wid, P wid s → P wid s') → Q (n, out) s') →
  wp (janitor_loop body wids issues) Q X s.
Proof.
  revert issues s Q. induction wids as [|wid wids IH]; intros issues s Q HJ Hbody HQ; simpl.
  { apply wp_ret, HQ; [done| |done]. intros ->. split; [done|]. intros wid Hw. by apply elem_of_nil in Hw. }
  apply wp_bind. eapply wp_mono; [by apply Hbody; [left|]| |done].
  intros [n iss] s1 (HJ1 & HP1 & Hk1). cbn [fst snd] in *. apply wp_bind.
  apply IH; [done|intros; by apply Hbody; [right|]|].
  intros n2 out s2 HJ2 Hout Hk2. apply wp_ret, HQ; [done| |auto].
  cbn [fst snd]. intros ->. destruct Hout as [Hi Hw]; [done|]. apply app_eq_nil in Hi as [-> ->].
  split; [done|]. intros wid' [->|Hin]%elem_of_cons; auto.
Qed.

Variable tid : Z.
Variable nid : string.
Hypothesis nid_normal : normal_node_id nid = nid.

(** What each loop looks for. *)
Definition stuck_row (cutoff : time) (a : TopologyAttachment) : Prop :=
  (att_status a = TopologyAttachmentStatus.ATTACHING ∨ att_status a = TopologyAttachmentStatus.FAILED) ∧
  att_updated_at a < cutoff.
Definition attached_of (t : TopologyTables) (wid : Z) : Prop :=
  ∃ aid a, attachment_of t tid nid wid aid a ∧ att_status a = TopologyAttachmentStatus.ATTACHED.

Lemma key_at_node a wid : attachment_key a = (tid, nid, wid) ↔ at_node tid nid a = true ∧ att_workspace_id a = wid.
Proof.
  unfold attachment_key, at_node. rewrite andb_true_iff, Z.eqb_eq, String.eqb_eq.
  split; [by intros [= -> -> ->]|by intros [[-> ->] ->]].
Qed.

Lemma stuck_listed cutoff t wid aid a :
  attachment_of t tid nid wid aid a → stuck_row cutoff a → wid ∈ janitor_stuck tid nid cutoff t.
Proof.
  intros [Ha [Hn Hw]%key_at_node] [Hst Hc]. unfold janitor_stuck. apply list_elem_of_omap.
  exists (aid, a). split; [by apply elem_of_map_to_list|]. simpl.
  rewrite Hn, bool_decide_eq_true_2 by (rewrite !elem_of_cons; tauto).
  rewrite (proj2 (Z.ltb_lt _ _)) by done. simpl. by rewrite Hw.
Qed.
Lemma lease_listed t wid aid l : lease_of t tid nid wid aid l → wid ∈ janitor_leases tid nid t.
Proof.
  intros (Hl & Hk & Hr). unfold allocation_key in Hk. injection Hk as H1 H2 H3.
  unfold janitor_leases. apply list_elem_of_omap. exists (aid, l). split; [by apply elem_of_map_to_list|].
  simpl. unfold lease_active. by rewrite H1, H2, Hr, Z.eqb_refl, String.eqb_refl, bool_decide_eq_true_2, H3.
Qed.
Lemma drift_listed t wid aid a : attachment_of t tid nid wid aid a →
  att_status a = TopologyAttachmentStatus.ATTACHED → settled_workspace t wid = true → wid ∈ janitor_drift tid nid t.
Proof.
  intros [Ha [Hn Hw]%key_at_node] Hst Hs. unfold janitor_drift. apply list_elem_of_omap.
  exists (aid, a). split; [by apply elem_of_map_to_list|]. simpl.
  by rewrite Hn, Hw, Hs, bool_decide_eq_true_2.
Qed.

(** *** What a change to one workspace keeps *)

Lemma only_attachment wid t t' aid a wid' : only_workspace tid nid wid t t' →
  attachment_of t' tid nid wid' aid a → att_status a ≠ TopologyAttachmentStatus.DETACHED →
  attachment_of t tid nid wid' aid a.
Proof.
  intros (_ & _ & _ & Ha & _) [Hl Hk] Hst. destruct (Ha aid) as [Heq|(b & b' & _ & [Hb' _] & Hd)].
  - split; [congruence|done].
  - congruence.
Qed.
Lemma only_lease wid t t' aid l wid' : only_workspace tid nid wid t t' →
  lease_of t' tid nid wid' aid l → lease_of t tid nid wid' aid l.
Proof.
  intros (_ & _ & _ & _ & Hal) (Hl & Hk & Hr). destruct (Hal aid) as [Heq|(b & b' & _ & Hb' & _ & Hrel)].
  - split_and!; [congruence|done|done].
  - congruence.
Qed.
Lemma only_detached wid t t' wid' : only_workspace tid nid wid t t' → detached_of t tid nid wid' → detached_of t' tid nid wid'.
Proof.
  intros Ho Hd aid a Ha. destruct (decide (att_status a = TopologyAttachmentStatus.DETACHED)) as [?|Hn]; [done|].
  by eapply Hd, only_attachment.
Qed.
Lemma only_released wid t t' wid' : only_workspace tid nid wid t t' → released_of t tid nid wid' → released_of t' tid nid wid'.
Proof. intros Ho Hr aid l Hl. by eapply Hr, only_lease. Qed.
Lemma only_attached wid t t' wid' : wid' ≠ wid → only_workspace tid nid wid t t' → attached_of t wid' → attached_of t' wid'.
Proof.
  intros Hne (_ & _ & _ & Ha & _) (aid & a & [Hl Hk] & Hst). exists aid, a. split; [|done].
  destruct (Ha aid) as [Heq|(b & b' & [Hb Hkb] & _)]; [split; congruence|]. congruence.
Qed.
Lemma only_trans wid t1 t2 t3 : only_workspace tid nid wid t1 t2 → only_workspace tid nid wid t2 t3 →
  tt_allocations t2 = tt_allocations t1 → tt_attachments t3 = tt_attachments t2 → only_workspace tid nid wid t1 t3.
Proof.
  intros (H1 & H2 & H3 & H4 & H5) (H1' & H2' & H3' & H4' & H5') Hal Hat.
  split_and!; [congruence..| |].
  - intros aid. unfold attachment_of. rewrite Hat. apply H4.
  - intros aid. destruct (H5' aid) as [Heq|(l & l' & Hl & Hrest)].
    + left. by rewrite Heq, Hal.
    + right. exists l, l'. split; [|done]. unfold lease_of in *. by rewrite <- Hal.
Qed.

(** *** Rounds *)

Lemma wp_detach_release what on_err wid (Q : Z * list string → TopologyState W → Prop) X s : clean s →
  (∀ r s', clean s' → only_workspace tid nid wid (ts_tables s) (ts_tables s') →
     (r.2 = [] → detached_of (ts_tables s') tid nid wid ∧ released_of (ts_tables s') tid nid wid) →
     (r.2 ≠ [] → ts_tables s' = ts_tables s) → Q r s') →
  wp (janitor_detach what on_err tid nid wid) Q X s.
Proof.
  intros Hc HQ. unfold janitor_detach. apply wp_try, wp_bind. rewrite <- nid_normal in HQ.
  apply wp_detach; [done| |].
  - intros r1 s1 Hc1 Ho1 Hal1 Hd1. apply wp_bind. unfold release_caught. apply wp_try, wp_bind.
    apply wp_release; [done|]. intros b s2 Hc2 Ho2 Hat2 Hr2. apply wp_ret, wp_ret.
    rewrite !nid_normal in *. apply HQ; [done|by eapply only_trans| |done].
    intros _. split; [by eapply only_detached|done].
  - intros e s1 Hc1 Heq. apply wp_ret, HQ; [done|rewrite Heq; apply only_workspace_refl|done|done].
Qed.

(** The rows of the other nodes, and the columns of no row of this one, change. *)
Definition other_rows_kept (t t' : TopologyTables) : Prop :=
  (∀ aid a, tt_attachments t !! aid = Some a → at_node tid nid a = false → tt_attachments t' !! aid = Some a) ∧
  (∀ aid l, tt_allocations t !! aid = Some l → (ipa_topology_id l, ipa_node_id l) ≠ (tid, nid) →
     tt_allocations t' !! aid = Some l) ∧
  tt_runtimes t' = tt_runtimes t ∧ tt_workspaces t' = tt_workspaces t.
#[export] Instance other_rows_preorder : PreOrder other_rows_kept.
Proof.
  split; [intros t; by split_and!|]. intros a b c (H1 & H2 & H3 & H4) (H1' & H2' & H3' & H4').
  split_and!; [intros; apply H1'; [by apply H1|done]|intros; apply H2'; [by apply H2|done]|congruence|congruence].
Qed.
Lemma only_others wid t t' : only_workspace tid nid wid t t' → other_rows_kept t t'.
Proof.
  intros (H1 & H2 & _ & H4 & H5). split_and!; [| |done..].
  - intros aid a Ha Hn. destruct (H4 aid) as [->|(b & _ & [Hb [Hk _]%key_at_node] & _)]; [done|congruence].
  - intros aid l Hl Hn. destruct (H5 aid) as [->|(b & _ & (Hb & Hk & _) & _)]; [done|].
    unfold allocation_key in Hk. congruence.
Qed.
End calm.

Section janitor.
Context {W : Type} {env : Env} {shared : SharedTables W} {host : HostNetwork W} {config : AdapterConfig W}.

Lemma normal_node_id_idem node : Py.len (Py.strip node) ≤ 128 → normal_node_id (normal_node_id node) = normal_node_id node.
Proof.
  intros H. unfold normal_node_id. rewrite (length_prefix_short 128 (Py.strip node)) by done.
  by rewrite Py.strip_idem, length_prefix_short.
Qed.

(** *** The three loops *)

Definition no_stuck (tid : Z) (nid : string) (cutoff : time) (t : TopologyTables) : Prop :=
  ∀ wid aid a, attachment_of t tid nid wid aid a → ¬ stuck_row cutoff a.
Definition leases_attached (tid : Z) (nid : string) (t : TopologyTables) : Prop :=
  ∀ wid aid l, lease_of t tid nid wid aid l → attached_of tid nid t wid.
Definition no_drift (tid : Z) (nid : string) (t : TopologyTables) : Prop :=
  ∀ wid, attached_of tid nid t wid → settled_workspace t wid = false.
Definition repaired (tid : Z) (nid : string) (cutoff : time) (t0 t : TopologyTables) (r : TopologyJanitorResult) : Prop :=
  ja_issues r = [] → no_stuck tid nid cutoff t ∧ leases_attached tid nid t ∧ no_drift tid nid t ∧
    other_rows_kept tid nid t0 t.

Section loops.
Hypothesis quiet : calm.
Variable tid : Z.
Variable nid : string.
Hypothesis nid_normal : normal_node_id nid = nid.
Variable t0 : TopologyTables.
Variable cutoff : time.
Implicit Types s : TopologyState W.

Lemma no_stuck_only wid t t' : only_workspace tid nid wid t t' → no_stuck tid nid cutoff t → no_stuck tid nid cutoff t'.
Proof.
  intros Ho Hs wid' aid a Ha Hst. eapply (Hs wid' aid a); [|done].
  eapply only_attachment; [done|done|]. destruct Hst as [[-> | ->] _]; done.
Qed.

Lemma wp_stuck_loop what on_err (Q : Z * list string → TopologyState W → Prop) X s :
  clean s → ts_tables s = t0 →
  (∀ n out s', clean s' → other_rows_kept tid nid t0 (ts_tables s') →
     (out = [] → no_stuck tid nid cutoff (ts_tables s')) → Q (n, out) s') →
  wp (janitor_loop (janitor_detach what on_err tid nid) (janitor_stuck tid nid cutoff t0) []) Q X s.
Proof.
  intros Hc H0 HQ.
  apply (wp_janitor_loop _ (λ s', clean s' ∧ other_rows_kept tid nid t0 (ts_tables s') ∧
      ∀ wid aid a, attachment_of (ts_tables s') tid nid wid aid a → stuck_row cutoff a →
        wid ∈ janitor_stuck tid nid cutoff t0) (λ wid s', detached_of (ts_tables s') tid nid wid)).
  - split_and!; [done|by rewrite H0|]. rewrite H0. intros wid aid a. apply stuck_listed.
  - intros wid s1 _ (Hc1 & Ho1 & Hl1). apply wp_detach_release; [done..|].
    intros r s2 Hc2 Ho2 Hd _. split_and!; [done| | |by intros Hr; apply Hd|].
    + etrans; [done|by eapply only_others].
    + intros wid' aid a Ha Hst. eapply (Hl1 wid' aid a); [|done].
      eapply only_attachment; [done|done|]. destruct Hst as [[-> | ->] _]; done.
    + intros wid'. by eapply only_detached.
  - intros n out s1 (Hc1 & Ho1 & Hl1) Hout _. apply HQ; [done..|]. intros Hn wid aid a Ha Hst.
    destruct (Hout Hn) as [_ Hall]. specialize (Hall wid (Hl1 _ _ _ Ha Hst) aid a Ha).
    destruct Hst as [[Hs | Hs] _]; congruence.
Qed.

Lemma wp_orphan_loop issues (Q : Z * list string → TopologyState W → Prop) X s :
  clean s → other_rows_kept tid nid t0 (ts_tables s) → (issues = [] → no_stuck tid nid cutoff (ts_tables s)) →
  (∀ n out s', clean s' → other_rows_kept tid nid t0 (ts_tables s') →
     (out = [] → no_stuck tid nid cutoff (ts_tables s') ∧ leases_attached tid nid (ts_tables s')) → Q (n, out) s') →
  wp (janitor_loop (janitor_orphan tid nid) (janitor_leases tid nid (ts_tables s)) issues) Q X s.
Proof.
  intros Hc Ho Hs HQ.
  apply (wp_janitor_loop _ (λ s', clean s' ∧ other_rows_kept tid nid t0 (ts_tables s') ∧
      (issues = [] → no_stuck tid nid cutoff (ts_tables s')) ∧
      ∀ wid aid l, lease_of (ts_tables s') tid nid wid aid l → wid ∈ janitor_leases tid nid (ts_tables s))
    (λ wid s', attached_of tid nid (ts_tables s') wid ∨ released_of (ts_tables s') tid nid wid)).
  - split_and!; [done..|]. intros wid aid l. apply lease_listed.
  - intros wid s1 _ (Hc1 & Ho1 & Hs1 & Hl1). unfold janitor_orphan. apply wp_bind, wp_tquery.
    pose proof (find_attachment_spec tid nid wid (ts_tables s1)) as Hf.
    destruct (match find_attachment tid nid wid (ts_tables s1) with Some _ => _ | None => _ end) eqn:Eat.
    + apply wp_ret. split_and!; [done..| |done]. intros _. left.
      destruct (find_attachment tid nid wid (ts_tables s1)) as [[aid a]|]; [|done].
      apply bool_decide_eq_true in Eat. by exists aid, a.
    + apply wp_try, wp_bind, wp_release; [done..|]. rewrite nid_normal. intros b s2 Hc2 Ho2 Hat2 Hr2. apply wp_ret.
      assert (Hatt : ∀ w, attached_of tid nid (ts_tables s1) w → attached_of tid nid (ts_tables s2) w)
        by (intros w; unfold attached_of, attachment_of; by rewrite Hat2).
      split_and!; [done| | | |by right|].
      * etrans; [done|by eapply only_others].
      * intros Hi. eapply no_stuck_only; [done|by apply Hs1].
      * intros w aid l Hl. by eapply Hl1, only_lease.
      * intros w [Ha|Hr]; [left; by apply Hatt|right; by eapply only_released].
  - intros n out s1 (Hc1 & Ho1 & Hs1 & Hl1) Hout _. apply HQ; [done..|]. intros Hn.
    destruct (Hout Hn) as [Hi Hall]. split; [by apply Hs1|]. intros wid aid l Hl.
    destruct (Hall wid (Hl1 _ _ _ Hl)) as [?|Hr]; [done|]. by destruct (Hr aid l).
Qed.

Lemma wp_drift_loop what on_err issues (Q : Z * list string → TopologyState W → Prop) X s :
  clean s → other_rows_kept tid nid t0 (ts_tables s) →
  (issues = [] → no_stuck tid nid cutoff (ts_tables s) ∧ leases_attached tid nid (ts_tables s)) →
  (∀ n out s', clean s' → (out = [] → no_stuck tid nid cutoff (ts_tables s') ∧
     leases_attached tid nid (ts_tables s') ∧ no_drift tid nid (ts_tables s') ∧
     other_rows_kept tid nid t0 (ts_tables s')) → Q (n, out) s') →
  wp (janitor_loop (janitor_detach what on_err tid nid) (janitor_drift tid nid (ts_tables s)) issues) Q X s.
Proof.
  intros Hc Ho Hs HQ.
  apply (wp_janitor_loop _ (λ s', clean s' ∧ other_rows_kept tid nid t0 (ts_tables s') ∧
      (issues = [] → no_stuck tid nid cutoff (ts_tables s') ∧ leases_attached tid nid (ts_tables s')) ∧
      ∀ wid, attached_of tid nid (ts_tables s') wid → settled_workspace (ts_tables s') wid = true →
        wid ∈ janitor_drift tid nid (ts_tables s))
    (λ wid s', detached_of (ts_tables s') tid nid wid)).
  - split_and!; [done..|]. intros wid (aid & a & Ha & Hst) Hset. by eapply drift_listed.
  - intros wid s1 _ (Hc1 & Ho1 & Hs1 & Hl1). apply wp_detach_release; [done..|].
    intros r s2 Hc2 Ho2 Hd Hsame. split_and!; [done| | | |by intros Hr; apply Hd|].
    + etrans; [done|by eapply only_others].
    + intros Hi. destruct (Hs1 Hi) as [Hn Hla]. split; [by eapply no_stuck_only|].
      destruct r as [n [|e l]]; [|rewrite Hsame by done; done].
      destruct Hd as [_ Hrel]; [done|]. intros w aid l Hl. destruct (decide (w = wid)) as [->|Hne].
      { by destruct (Hrel aid l). }
      eapply only_attached; [done..|]. by eapply Hla, only_lease.
    + intros w Ha Hset. apply Hl1.
      * destruct Ha as (aid & a & Ha & Hst). exists aid, a. split; [|done].
        eapply only_attachment; [done|done|congruence].
      * revert Hset. unfold settled_workspace. by rewrite (proj1 (proj2 Ho2)).
    + intros w. by eapply only_detached.
  - intros n out s1 (Hc1 & Ho1 & Hs1 & Hl1) Hout _. apply HQ; [done|]. intros Hn.
    destruct (Hout Hn) as [Hi Hall]. destruct (Hs1 Hi) as [H1 H2]. split_and!; [done..| |done].
    intros wid Hatt. apply not_true_iff_false. intros Hset. pose proof (Hall wid (Hl1 _ Hatt Hset)) as Hd.
    destruct Hatt as (aid & a & Ha & Hst). specialize (Hd aid a Ha). congruence.
Qed.
End loops.

Lemma wp_janitor tid node stale (s : TopologyState W) :
  calm → clean s → Py.len (Py.strip node) ≤ 128 →
  wp (run_topology_janitor tid node stale)
    (λ r s', clean s' ∧ repaired tid (normal_node_id node) (env_now - seconds (Z.max 0 stale))
                          (ts_tables s) (ts_tables s') r) (λ _ _, True) s.
Proof.
  intros Hcalm Hc Hshort. pose proof (normal_node_id_idem node Hshort) as Hn.
  unfold run_topology_janitor. cbv zeta. apply wp_bind, wp_tquery, wp_bind.
  apply (wp_stuck_loop Hcalm _ _ Hn (ts_tables s)); [done..|]. intros n1 out1 s1 Hc1 Ho1 Hs1.
  apply wp_bind, wp_tquery, wp_bind.
  apply (wp_orphan_loop Hcalm _ _ Hn (ts_tables s) (env_now - seconds (Z.max 0 stale))); [done..|].
  intros n2 out2 s2 Hc2 Ho2 Hs2. apply wp_bind, wp_tquery, wp_bind.
  apply (wp_drift_loop Hcalm _ _ Hn (ts_tables s) (env_now - seconds (Z.max 0 stale))); [done..|].
  intros n3 out3 s3 Hc3 Hs3. apply wp_ret. by split.
Qed.

(** C23. The janitor repairs the node: when no other session interferes and its own
    commits succeed ([calm]), the node id has at most 128 characters and the janitor
    reports no issue, no attachment of the node older than the cutoff is left in
    ATTACHING or FAILED, every active lease belongs to an ATTACHED workspace, no
    stopped, failed or deleted workspace is ATTACHED, and the rows of other nodes,
    the runtimes and the workspaces are as before. *)
Theorem janitor_repairs_node (s s' : TopologyState W) tid node stale res
    (Hcalm : calm) (Hc : clean s) (Hshort : Py.len (Py.strip node) ≤ 128)
    (Hrun : run_topology_janitor tid node stale s = (s', inl res)) (Hok : ja_issues res = []) :
  let nid := normal_node_id node in
  let t := ts_committed s' in
  (∀ wid aid a, attachment_of t tid nid wid aid a →
     ¬ stuck_row (env_now - seconds (Z.max 0 stale)) a) ∧
  (∀ wid aid l, lease_of t tid nid wid aid l → attached_of tid nid t wid) ∧
  (∀ wid, attached_of tid nid t wid → settled_workspace t wid = false) ∧
  other_rows_kept tid nid (ts_committed s) t.
Proof.
  intros nid. set (cutoff := env_now - _).
  assert (Hn : normal_node_id nid = nid) by (by apply normal_node_id_idem).
  assert (H : wp (run_topology_janitor tid node stale)
    (λ r s', clean s' ∧ repaired tid nid cutoff (ts_tables s) (ts_tables s') r) (λ _ _, True) s)
    by (by apply wp_janitor).
  unfold wp in H. rewrite Hrun in H. destruct H as [[<- _] Hrep]. destruct (Hrep Hok) as (H1 & H2 & H3 & H4).
  destruct Hc as [<- _]. done.
Qed.
End janitor.
