(* ===== verification/TopologyAttach.v ===== *)
(** * TopologyAttach: the outcome of [attach_workspace]

    Proofs about attaching a workspace in Topology.v, for a worker that no other
    session interferes with: an attachment ends ATTACHED with its lease, or FAILED
    with the lease given back when the attachment was new. *)

From S2P Require Import Prelude Models Ipaddress TopologyModels LinuxNet TopologyPlan.
From S2P Require Import Topology TopologyRepair.

Section attach.
Context {W : Type} {env : Env} {shared : SharedTables W} {host : HostNetwork W} {config : AdapterConfig W}.
Implicit Types s : TopologyState W.
Hypothesis quiet : calm.

(** ** What does not touch leases and attachments *)

Definition leases_kept s s' : Prop :=
  clean s → clean s' ∧ tt_allocations (ts_tables s') = tt_allocations (ts_tables s) ∧
    tt_attachments (ts_tables s') = tt_attachments (ts_tables s).
#[local] Instance leases_kept_preorder : PreOrder leases_kept.
Proof.
  split; [by intros s|]. intros a b c H H' Ha. destruct (H Ha) as (Hb & H1 & H2).
  destruct (H' Hb) as (Hc & H1' & H2'). split_and!; [done|congruence|congruence].
Qed.

Lemma same_leases_kept {A} (m : T W A) : within same_tables m → within leases_kept m.
Proof.
  intros H s [Heq Hok]. destruct (H s) as [H1 H2]. unfold clean. rewrite H1, H2. by rewrite <- Heq.
Qed.
Lemma query_kept {A} (f : TopologyTables → A) : within leases_kept (tquery f).
Proof. by intros s. Qed.
Lemma rollback_kept : within leases_kept trollback.
Proof. intros s [Heq Hok]. split; [split; [done|]|]; cbn; by rewrite <- Heq. Qed.
Lemma runtime_commit_kept g :
  (∀ t t', g t = Some t' → tt_allocations t' = tt_allocations t ∧ tt_attachments t' = tt_attachments t) →
  within leases_kept (commit_change g).
Proof.
  intros Hg s Hc.
  assert (H : wp (commit_change g)
    (λ _ s', clean s' ∧ tt_allocations (ts_tables s') = tt_allocations (ts_tables s) ∧
       tt_attachments (ts_tables s') = tt_attachments (ts_tables s))
    (λ _ s', clean s' ∧ tt_allocations (ts_tables s') = tt_allocations (ts_tables s) ∧
       tt_attachments (ts_tables s') = tt_attachments (ts_tables s)) s).
  { apply (wp_commit_calm quiet); [done| |].
    - intros w t Ht Hok. split; [by apply clean_intro|by apply Hg].
    - intros w e _. split; [split; [done|apply Hc]|done]. }
  unfold wp in H. by destruct (commit_change g s) as [s' [?|?]].
Qed.
Lemma update_runtime_kept rid f : within leases_kept (commit_change (update_runtime rid f)).
Proof.
  apply runtime_commit_kept. intros t t'. unfold update_runtime, update_row. case_bool_decide; [|done].
  by intros [= <-].
Qed.
Lemma insert_runtime_kept r : within leases_kept (commit_change (insert_runtime r)).
Proof. apply runtime_commit_kept. intros t t'. unfold insert_runtime. by intros [= <-]. Qed.

Lemma kept_ret {A} (a : A) : within leases_kept (mret (M := T W) a).
Proof. apply within_ret, _. Qed.
Lemma kept_raise {A} e : within leases_kept (raise e : T W A).
Proof. apply within_raise, _. Qed.

#[local] Hint Resolve query_kept rollback_kept update_runtime_kept insert_runtime_kept kept_ret kept_raise : linux.

Ltac kept :=
  repeat first
    [ solve [eauto with linux]
    | solve [apply same_leases_kept; linux_frame]
    | simple apply within_bind; [apply leases_kept_preorder| |intros ?]
    | simple apply within_try; [apply leases_kept_preorder| |intros ?]
    | simple apply within_attempt
    | progress unfold except_runtime
    | match goal with |- within _ (match ?x with _ => _ end) => destruct x end
    | progress cbv beta zeta ].

Lemma runtime_of_kept rid : within leases_kept (runtime_of rid).
Proof. unfold runtime_of. kept. Qed.
#[local] Hint Resolve runtime_of_kept : linux.
Lemma sync_kept rid : within leases_kept (sync_linux_node_bridge rid).
Proof. unfold sync_linux_node_bridge. kept. Qed.
#[local] Hint Resolve sync_kept : linux.
Lemma choose_kept tid nid ex sc sg k : within leases_kept (choose_runtime_cidr_and_gateway (W := W) tid nid ex sc sg k).
Proof.
  unfold choose_runtime_cidr_and_gateway, parse_ipv4_network, first_usable_host, allocate_child_subnet, gateway_for,
    first_usable_host. kept.
Qed.
#[local] Hint Resolve choose_kept : linux.
Lemma write_runtime_kept tid nid plan ex k : within leases_kept (write_runtime tid nid plan ex k).
Proof. unfold write_runtime. destruct ex as [[rid row]|]; kept. Qed.
#[local] Hint Resolve write_runtime_kept : linux.
Lemma ensure_attempts_kept tid nid plan ks : within leases_kept (ensure_attempts tid nid plan ks).
Proof. induction ks as [|k ks IH]; simpl; kept. Qed.
#[local] Hint Resolve ensure_attempts_kept : linux.
Lemma ensure_kept tid node : within leases_kept (ensure_node_topology tid node).
Proof. unfold ensure_node_topology, node_bridge_plan, runtime_to_ensure_result. kept. Qed.
#[local] Hint Resolve ensure_kept : linux.
Lemma attachable_kept tid nid : within leases_kept (attachable_runtime (W := W) tid nid).
Proof. unfold attachable_runtime. kept. Qed.
Lemma checked_netns_kept n : within leases_kept (checked_netns n).
Proof. unfold checked_netns. kept. Qed.
Lemma require_leased_kept tid nid wid ip c : within leases_kept (require_leased_ip (W := W) tid nid wid ip c).
Proof. unfold require_leased_ip. kept. Qed.
Lemma fast_path_kept tid nid wid r ip n att : within leases_kept (fast_path tid nid wid r ip n att).
Proof. unfold fast_path. kept. Qed.
Lemma run_linux_attach_frame h c b cidr gw ip n : os_op (run_linux_attach h c b cidr gw ip n).
Proof.
  unfold run_linux_attach. linux_frame.
Qed.

(** A computation that keeps leases and attachments, as a rule. *)
Lemma wp_kept {A} (m : T W A) (Q : A → TopologyState W → Prop) X s : within leases_kept m → clean s →
  (∀ a s', clean s' → tt_allocations (ts_tables s') = tt_allocations (ts_tables s) →
     tt_attachments (ts_tables s') = tt_attachments (ts_tables s) → Q a s') →
  (∀ e s', clean s' → tt_allocations (ts_tables s') = tt_allocations (ts_tables s) →
     tt_attachments (ts_tables s') = tt_attachments (ts_tables s) → X e s') →
  wp m Q X s.
Proof.
  intros Hm Hc HQ HX. destruct (Hm s Hc) as (H1 & H2 & H3). unfold wp.
  destruct (m s) as [s' [a|e]]; simpl in *; auto.
Qed.

(** A host operation, as a rule. *)
Lemma os_op_clean {A} (m : T W A) (Q : A → TopologyState W → Prop) X s : os_op m → clean s →
  (∀ a s', clean s' → ts_tables s' = ts_tables s → Q a s') →
  (∀ e s', is_os_error e = true → clean s' → ts_tables s' = ts_tables s → X e s') → wp m Q X s.
Proof.
  intros Hm [Heq Hok] HQ HX. destruct (Hm s) as [[H1 H2] He]. unfold wp.
  destruct (m s) as [s' [a|e]]; simpl in *; [apply HQ|apply HX; [by apply He|..]];
    rewrite ?H1; try done; split; congruence.
Qed.

(** ** The outcomes *)

Section outcome.
Variables (tid : Z) (nid : string) (wid : Z) (ip : string).

(** The workspace holds [ip]. *)
Definition holds_lease (t : TopologyTables) : Prop :=
  ∃ lid l, lease_of t tid nid wid lid l ∧ ipa_ip l = ip.

(** The row is FAILED; and when the call made it, the lease is given back. *)
Definition attach_failed (was_new : bool) (t0 t : TopologyTables) : Prop :=
  (∃ aid att, attachment_of t tid nid wid aid att ∧ att_status att = TopologyAttachmentStatus.FAILED) ∧
  if was_new then released_of t tid nid wid else tt_allocations t = tt_allocations t0.

Definition attach_done (cid : string) (t : TopologyTables) (a : AttachWorkspaceResult) : Prop :=
  (∃ att, attachment_of t tid nid wid (at_attachment_id a) att ∧
     att_status att = TopologyAttachmentStatus.ATTACHED ∧
     default ""%string (att_container_id att) = cid ∧ default ""%string (att_workspace_ip att) = ip) ∧
  holds_lease t ∧ at_workspace_ip a = ip.

Lemma holds_lease_kept t t' : tt_allocations t' = tt_allocations t → holds_lease t → holds_lease t'.
Proof. intros H (lid & l & (Hl & Hr) & Hip). exists lid, l. split; [|done]. split; [by rewrite H|done]. Qed.

Lemma wp_best_effort_failed aid h rel (Q : unit → TopologyState W → Prop) X s att :
  clean s → attachment_of (ts_tables s) tid nid wid aid att → holds_lease (ts_tables s) →
  (∀ s', clean s' → attach_failed rel (ts_tables s) (ts_tables s') → Q tt s') →
  wp (attach_failure_best_effort tid nid wid aid h ip rel) Q X s.
Proof.
  intros Hc Hatt Hlease HQ. unfold attach_failure_best_effort.
  assert (Hmark : ∀ s1, clean s1 → ts_tables s1 = ts_tables s →
    wp (best_effort
      (o ← tquery (λ t, tt_attachments t !! aid);
       match o with
       | Some _ => commit_change (update_attachment aid
           (λ a, a <| att_status := TopologyAttachmentStatus.FAILED |> <| att_updated_at := env_now |>))
       | None => mret tt
       end) ;;
     if negb rel then mret tt else best_effort
       (found ← tquery (find_active_allocation tid nid wid);
        match found with
        | Some (lid, alloc) =>
            if String.eqb (ipa_ip alloc) ip
            then commit_change (update_allocation lid (λ r, r <| ipa_released_at := Some env_now |>))
            else mret tt
        | None => mret tt
        end)) Q X s1).
  2:{ apply wp_bind. destruct ac_apply_linux_attachment; [|by apply wp_ret, Hmark].
      apply wp_try. apply linux_frame_clean; [apply detach_veth_frame|done| |]; [|intros e s1 H1 H2; by apply wp_ret, Hmark].
      intros [] s1 H1 H2. by apply Hmark. }
  intros s1 Hc1 Heq. destruct Hatt as [Hat Hk]. apply wp_bind. unfold best_effort at 1.
  apply wp_try, wp_bind, wp_tquery. rewrite Heq, Hat. rewrite <- Heq in Hat.
  set (f := λ a, a <| att_status := _ |> <| att_updated_at := _ |>).
  assert (Hok := tables_ok_attachment (ts_tables s1) aid f (proj2 Hc1) (λ _, eq_refl)).
  eapply (wp_commit_sure quiet); [done| |exact Hok|].
  { unfold update_attachment, update_row. by rewrite bool_decide_eq_true_2 by (by eapply elem_of_dom_2). }
  intros w. set (s2 := mkTopologyState _ _ w).
  assert (Hc2 : clean s2) by (by apply clean_intro).
  assert (Hrow : attachment_of (ts_tables s2) tid nid wid aid (f att)).
  { split; [|done]. cbn. by rewrite lookup_alter_eq, Hat. }
  destruct rel; cbn [negb].
  2:{ apply wp_ret, HQ; [done|]. split; [by eexists _, _|]. cbn. by rewrite Heq. }
  unfold best_effort. apply wp_try, wp_bind, wp_tquery.
  pose proof (find_active_spec tid nid wid (ts_tables s2)) as Hf.
  assert (Hl2 : holds_lease (ts_tables s2)) by (eapply holds_lease_kept; [|exact Hlease]; cbn; by rewrite Heq).
  destruct Hl2 as (lid & l & Hl & Hip).
  destruct (find_active_allocation tid nid wid (ts_tables s2)) as [[lid' l']|]; [|by destruct (Hf lid l)].
  assert (lid' = lid) as -> by (eapply lease_unique; [apply Hc2|exact Hf|exact Hl]).
  assert (l' = l) as -> by (destruct Hl as [H1 _], Hf as [H2 _]; congruence).
  rewrite Hip, String.eqb_refl.
  assert (Hok2 := tables_ok_release (ts_tables s2) lid env_now (proj2 Hc2)).
  eapply (wp_commit_sure quiet); [done| |exact Hok2|].
  { unfold update_allocation, update_row. rewrite bool_decide_eq_true_2; [done|]. eapply elem_of_dom_2, Hl. }
  intros w2. apply HQ; [by apply clean_intro|]. split; [by exists aid, (f att)|].
  intros k m (Hm & Hkm & Hrm). cbn in Hm. apply lookup_alter_Some in Hm as [(-> & m0 & _ & ->)|[Hne Hm]]; [done|].
  apply Hne. eapply lease_unique; [apply Hc2|exact Hl|by split].
Qed.

(** Persisting ATTACHED succeeds. *)
Lemma wp_persist_attached aid rel (Q : unit → TopologyState W → Prop) X s : clean s →
  aid ∈ dom (tt_attachments (ts_tables s)) →
  (∀ w, let t := (ts_tables s) <| tt_attachments ::=
            alter (λ a, a <| att_status := TopologyAttachmentStatus.ATTACHED |> <| att_updated_at := env_now |>) aid |> in
        tables_ok t = true → Q tt (mkTopologyState t t w)) →
  wp (persist_attached tid nid wid aid ip rel) Q X s.
Proof. intros Hc Hd HQ. unfold persist_attached. by apply (wp_update_attachment quiet). Qed.

Definition is_attachment_error (e : Exn) : bool :=
  match e with WorkspaceAttachmentError _ => true | _ => false end.

(** How an attachment error leaves the tables. *)
Definition attach_error_settled (was_new : bool) (t0 : TopologyTables) (e : Exn) s : Prop :=
  clean s ∧ (is_attachment_error e = true → attach_failed was_new t0 (ts_tables s)).

Lemma attach_failed_from was_new t0 t1 t : tt_allocations t1 = tt_allocations t0 →
  attach_failed was_new t1 t → attach_failed was_new t0 t.
Proof. intros H [H1 H2]. split; [done|]. destruct was_new; [done|congruence]. Qed.

Lemma wp_wire r n cid aid att was_new (Q : AttachWorkspaceResult → TopologyState W → Prop) s :
  clean s → attachment_of (ts_tables s) tid nid wid aid att →
  default ""%string (att_container_id att) = cid → default ""%string (att_workspace_ip att) = ip → holds_lease (ts_tables s) →
  (∀ a s', clean s' → attach_done cid (ts_tables s') a → Q a s') →
  wp (wire_attachment tid nid wid r ip n aid was_new) Q (attach_error_settled was_new (ts_tables s)) s.
Proof.
  intros Hc Hatt Hcid Hip Hlease HQ. unfold wire_attachment.
  destruct (veth_pair_names tid nid wid) as [host_if ctr_if]. cbv zeta.
  assert (Hfail : ∀ (QA : unit → TopologyState W → Prop) m s1 att1, clean s1 →
    attachment_of (ts_tables s1) tid nid wid aid att1 → tt_allocations (ts_tables s1) = tt_allocations (ts_tables s) →
    wp (attach_failure_best_effort tid nid wid aid (Some host_if) ip was_new ;;
        raise (WorkspaceAttachmentError m)) QA (attach_error_settled was_new (ts_tables s)) s1).
  { intros QA m s1 att1 Hc1 Hatt1 Hal1. apply wp_bind.
    eapply wp_best_effort_failed; [done|exact Hatt1|by eapply holds_lease_kept|].
    intros s2 Hc2 Hf. apply wp_raise. split; [done|]. intros _. by eapply attach_failed_from. }
  apply wp_bind, wp_try, os_op_clean; [apply run_linux_attach_frame|done| |].
  2:{ intros e s1 He [H1 H2] Heq. assert (Heq' : ts_committed s1 = ts_tables s) by congruence.
      destruct e; try (apply wp_raise; by split); apply wp_bind, wp_trollback;
        (eapply Hfail; [split; cbn; congruence|cbn; by rewrite Heq'|cbn; by rewrite Heq']). }
  intros [] s1 Hc1 Heq1. apply wp_bind, wp_persist_attached; [done|rewrite Heq1; eapply elem_of_dom_2, Hatt|].
  intros w t Hok. subst t. set (s2 := mkTopologyState _ _ w). assert (Hc2 : clean s2) by (by apply clean_intro).
  set (f := λ a : TopologyAttachment, a <| att_status := _ |> <| att_updated_at := _ |>) in *.
  assert (Hatt2 : attachment_of (ts_tables s2) tid nid wid aid (f att)).
  { destruct Hatt as [Ha Hk]. split; [|done]. cbn. by rewrite Heq1, lookup_alter_eq, Ha. }
  apply wp_bind, os_op_clean; [apply plumbing_failures_frame|done| |].
  2:{ intros e s3 He Hc3 _. split; [done|]. by destruct e. }
  intros fails s3 Hc3 Heq3. destruct fails as [|x l].
  - apply wp_ret, HQ; [done|]. split; [|split; [|done]].
    + exists (f att). split; [by rewrite Heq3|]. cbn. by rewrite Hcid, Hip.
    + eapply holds_lease_kept, Hlease. rewrite Heq3. cbn. by rewrite Heq1.
  - apply wp_bind. eapply Hfail; [done|by rewrite Heq3|]. rewrite Heq3. cbn. by rewrite Heq1.
Qed.

(** The row as written before the wiring. *)
Lemma wp_attaching r cid (Q : unit → TopologyState W → Prop) X s : clean s →
  (∀ s' aid att, clean s' → attachment_of (ts_tables s') tid nid wid aid att →
     default ""%string (att_container_id att) = cid → default ""%string (att_workspace_ip att) = ip →
     tt_allocations (ts_tables s') = tt_allocations (ts_tables s) → Q tt s') →
  (∀ e s', clean s' → ts_tables s' = ts_tables s → X e s') →
  wp (try_except (commit_change (attaching tid nid wid r cid ip (find_attachment tid nid wid (ts_tables s))))
        (λ e, trollback ;; raise (WorkspaceAttachmentError ("failed to persist topology attachment: " ++ exn_str e)))) Q X s.
Proof.
  intros Hc HQ HX. apply wp_try, (wp_commit_calm quiet); [done| |].
  2:{ intros w e _. apply wp_bind, wp_trollback, wp_raise, HX; [split; [done|apply Hc]|done]. }
  intros w t Hg Hok. unfold attaching in Hg. destruct (veth_pair_names tid nid wid) as [h c].
  pose proof (find_attachment_spec tid nid wid (ts_tables s)) as Hf.
  destruct (find_attachment tid nid wid (ts_tables s)) as [[aid att]|].
  - destruct Hf as [Hl Hk]. unfold update_attachment, update_row in Hg. case_bool_decide; [|done].
    injection Hg as <-. eapply HQ; [by apply clean_intro| | | |done]; [split; [cbn; by rewrite lookup_alter_eq, Hl|done]|done..].
  - unfold insert_attachment in Hg. injection Hg as <-.
    eapply HQ; [by apply clean_intro| | | |done]; [split; [cbn; by rewrite lookup_insert_eq|done]|done..].
Qed.

(** How [attach_workspace] may fail. *)
Definition attach_refused (t0 : TopologyTables) (e : Exn) s : Prop :=
  clean s ∧
  (is_attachment_error e = true →
     (tt_allocations (ts_tables s) = tt_allocations t0 ∧ tt_attachments (ts_tables s) = tt_attachments t0) ∨
     attach_failed (bool_decide (find_attachment tid nid wid t0 = None)) t0 (ts_tables s)).

Lemma find_attachment_same t t' : tt_attachments t' = tt_attachments t →
  find_attachment tid nid wid t' = find_attachment tid nid wid t.
Proof. unfold find_attachment. by intros ->. Qed.

Lemma attach_refused_kept t0 e s : clean s → tt_allocations (ts_tables s) = tt_allocations t0 →
  tt_attachments (ts_tables s) = tt_attachments t0 → attach_refused t0 e s.
Proof. split; [done|]. by left. Qed.

(** From the row on. *)
Lemma wp_finish r n cid was_new t0 (Q : AttachWorkspaceResult → TopologyState W → Prop) s aid att :
  clean s → attachment_of (ts_tables s) tid nid wid aid att →
  default ""%string (att_container_id att) = cid → default ""%string (att_workspace_ip att) = ip →
  holds_lease (ts_tables s) → tt_allocations (ts_tables s) = tt_allocations t0 →
  was_new = bool_decide (find_attachment tid nid wid t0 = None) →
  (∀ a s', clean s' → attach_done cid (ts_tables s') a → Q a s') →
  wp (if ac_apply_linux_attachment then wire_attachment tid nid wid r ip n aid was_new
      else persist_attached tid nid wid aid ip was_new ;; mret (attach_result aid r ip)) Q (attach_refused t0) s.
Proof.
  intros Hc Hatt Hcid Hip Hl Hal -> HQ. destruct ac_apply_linux_attachment.
  - eapply wp_mono; [by eapply wp_wire|done|]. intros e s' [Hc' Hs]. split; [done|]. intros He. right.
    eapply attach_failed_from; [exact Hal|by apply Hs].
  - apply wp_bind, wp_persist_attached; [done|eapply elem_of_dom_2, Hatt|]. intros w t Hok. apply wp_ret, HQ; [by apply clean_intro|].
    destruct Hatt as [Ha Hk]. split; [|split; [|done]].
    + eexists. split; [split; [cbn; by rewrite lookup_alter_eq, Ha|done]|done].
    + by eapply holds_lease_kept, Hl.
Qed.

Lemma wp_require_leased c (Q : unit → TopologyState W → Prop) X s :
  (holds_lease (ts_tables s) → Q tt s) → (∀ e, X e s) → wp (require_leased_ip tid nid wid ip c) Q X s.
Proof.
  intros HQ HX. unfold require_leased_ip. apply wp_bind, wp_tquery.
  pose proof (find_active_spec tid nid wid (ts_tables s)) as Hf.
  destruct (find_active_allocation tid nid wid (ts_tables s)) as [[lid l]|]; [|by apply wp_raise].
  destruct (String.eqb_spec (ipa_ip l) ip) as [<-|]; cbn [negb]; [|by apply wp_raise].
  destruct (ip_address _) as [[a|a]|], (ip_network c) as [[n|n]|]; try by apply wp_raise.
  destruct (contains4 n a); [|by apply wp_raise]. apply wp_ret, HQ. by exists lid, l.
Qed.

(** Whether the call can return at once. *)
Lemma wp_fast_path r cid n t0 (found : option (Z * TopologyAttachment)) (Q : bool → TopologyState W → Prop) s :
  clean s → tt_allocations (ts_tables s) = tt_allocations t0 → tt_attachments (ts_tables s) = tt_attachments t0 →
  (∀ (good : bool) s', clean s' → tt_allocations (ts_tables s') = tt_allocations t0 →
     tt_attachments (ts_tables s') = tt_attachments t0 →
     (good = true → ∃ aid att, found = Some (aid, att) ∧ already_attached cid ip att = true) → Q good s') →
  wp (match found with
      | Some (_, att) => if already_attached cid ip att then fast_path tid nid wid r ip n att else mret false
      | None => mret false
      end) Q (attach_refused t0) s.
Proof.
  intros Hc Ha Ht HQ. destruct found as [[aid att]|]; [|by apply wp_ret, HQ].
  destruct (already_attached cid ip att) eqn:E; [|by apply wp_ret, HQ].
  apply wp_kept; [apply fast_path_kept|done| |intros; apply attach_refused_kept; congruence].
  intros good s' Hc' Ha' Ht'. apply HQ; [done|congruence..|]. intros _. by exists aid, att.
Qed.

(** Removing the old interface changes no table. *)
Lemma wp_drop_old_if (found : option (Z * TopologyAttachment)) t0 (Q : unit → TopologyState W → Prop) s :
  clean s → tt_allocations (ts_tables s) = tt_allocations t0 → tt_attachments (ts_tables s) = tt_attachments t0 →
  (∀ s', clean s' → ts_tables s' = ts_tables s → Q tt s') →
  wp (match found with
      | Some (_, att) =>
          if ac_apply_linux_attachment && Py.truthy (default ""%string (att_interface_host att))
          then except_runtime (remove_veth_if_exists (Py.strip_opt (att_interface_host att))) (λ _, mret tt)
          else mret tt
      | None => mret tt
      end) Q (attach_refused t0) s.
Proof.
  intros Hc Ha Ht HQ. destruct found as [[aid att]|]; [|by apply wp_ret, HQ].
  destruct (_ && _); [|by apply wp_ret, HQ].
  apply linux_frame_clean; [linux_frame; apply remove_veth_frame|done|by intros []; apply HQ|].
  intros e s' Hc' He. apply attach_refused_kept; [done|by rewrite He..].
Qed.

Lemma wp_attach_anew r cid n t0 (Q : AttachWorkspaceResult → TopologyState W → Prop) s :
  clean s → tt_allocations (ts_tables s) = tt_allocations t0 → tt_attachments (ts_tables s) = tt_attachments t0 →
  holds_lease (ts_tables s) → (∀ a s', clean s' → attach_done cid (ts_tables s') a → Q a s') →
  wp (attach_anew tid nid wid r cid ip n (find_attachment tid nid wid t0)) Q (attach_refused t0) s.
Proof.
  intros Hc Ha Ht Hl HQ. unfold attach_anew.
  apply wp_bind, wp_drop_old_if; [done..|]. intros s5 Hc5 Heq5.
  apply wp_bind. rewrite <- (find_attachment_same t0 (ts_tables s5)) by congruence.
  apply wp_attaching; [done| |intros e s6 Hc6 Heq6; apply attach_refused_kept; congruence].
  intros s6 aid att Hc6 Hatt Hcid Hip Hal.
  apply wp_bind, wp_tquery. pose proof (find_attachment_spec tid nid wid (ts_tables s6)) as Hf6.
  destruct (find_attachment tid nid wid (ts_tables s6)) as [[aid' att']|]; [|by destruct (Hf6 aid att)].
  destruct (attachment_unique _ _ _ _ _ _ _ _ (proj2 Hc6) Hf6 Hatt) as [-> ->].
  eapply wp_finish; [done|exact Hatt|done|done| |congruence| |done].
  - eapply holds_lease_kept, Hl. congruence.
  - rewrite (find_attachment_same t0 (ts_tables s5)) by congruence. done.
Qed.
End outcome.

(** C22. For a worker that no other session interferes with and whose own commits
    succeed ([calm]), [attach_workspace] either
    returns with the workspace's row ATTACHED for this container and this address, which the
    workspace holds a lease of; or it raises and leaves no pending change.  When the error is
    the [WorkspaceAttachmentError] its callers handle, either no lease and no attachment has
    changed, or the row is FAILED and a row the call itself made has given its lease back. *)
Theorem attach_workspace_settles s tid node wid cid_arg netns ip_arg (Hc : clean s) :
  let nid := normal_node_id node in
  let ip := Py.strip ip_arg in
  let '(s', res) := attach_workspace tid node wid cid_arg netns ip_arg s in
  match res with
  | inl a => clean s' ∧ attach_done tid nid wid ip (Py.prefix_to 128 (Py.strip cid_arg)) (ts_tables s') a
  | inr e => attach_refused tid nid wid (ts_tables s) e s'
  end.
Proof.
  intros nid ip. destruct (attach_workspace tid node wid cid_arg netns ip_arg s) as [s' res] eqn:E.
  eapply (wp_run _ (λ a s', clean s' ∧ attach_done tid nid wid ip (Py.prefix_to 128 (Py.strip cid_arg)) (ts_tables s') a)
    (attach_refused tid nid wid (ts_tables s))) in E; [exact E|].
  unfold attach_workspace. destruct (Py.truthy (Py.strip cid_arg)); cbn [negb]; [|by apply wp_raise, attach_refused_kept].
  cbv zeta. fold nid ip. set (cid := Py.prefix_to 128 _).
  apply wp_bind, wp_kept; [apply ensure_kept|done| |intros; by apply attach_refused_kept].
  intros _ s1 Hc1 Ha1 Ht1.
  apply wp_bind, wp_kept; [apply attachable_kept|done| |intros; apply attach_refused_kept; congruence].
  intros r s2 Hc2 Ha2 Ht2. rewrite Ha1 in Ha2. rewrite Ht1 in Ht2.
  apply wp_bind, wp_require_leased; [intros Hl|intros; by apply attach_refused_kept].
  apply wp_bind, wp_tquery. rewrite (find_attachment_same _ _ _ (ts_tables s)) by done.
  apply wp_bind, wp_kept; [apply checked_netns_kept|done| |intros; apply attach_refused_kept; congruence].
  intros n s3 Hc3 Ha3 Ht3. eapply holds_lease_kept in Hl; [|exact Ha3]. rewrite Ha2 in Ha3. rewrite Ht2 in Ht3.
  apply wp_bind, (wp_fast_path _ _ _ _ _ cid); [done..|]. intros good s4 Hc4 Ha4 Ht4 Hgood.
  eapply holds_lease_kept in Hl; [|by rewrite Ha4, <- Ha3].
  pose proof (find_attachment_spec tid nid wid (ts_tables s4)) as Hf.
  rewrite (find_attachment_same _ _ _ (ts_tables s)) in Hf by done.
  destruct good.
  { destruct Hgood as (aid & att & Hfound & Hst); [done|]. rewrite Hfound in *. apply wp_ret. split; [done|].
    unfold already_attached in Hst. apply andb_true_iff in Hst as [[Hst Hcid]%andb_true_iff Hip].
    apply bool_decide_eq_true in Hst. apply String.eqb_eq in Hcid, Hip.
    split; [|by split]. by exists att. }
  assert (Hrest := wp_attach_anew tid nid wid ip r cid n (ts_tables s)
    (λ a s', clean s' ∧ attach_done tid nid wid ip cid (ts_tables s') a) s4 Hc4 Ha4 Ht4 Hl (λ a s' H H', conj H H')).
  by destruct (find_attachment tid nid wid (ts_tables s)) as [[aid att]|].
Qed.
End attach.
