(* ===== verification/Session.v ===== *)
(** * Session: transactions, row access and the append-only tables

    The state a request or worker transaction runs in, the SQLAlchemy session
    operations on it ([commit], [rollback], [flush], [get], [add]), and the three
    append-only recorders every service calls:
    [record_workspace_event] (workspace_event_service.py), [record_audit]
    (audit_service/service.py) and [record_usage] (usage_service/service.py).
    Logging, metrics and the in-process event bus have no effect on the rows and
    are not modelled. *)

From S2P Require Import Prelude Models.

(** [st_db] is the open transaction, [st_committed] what other sessions see,
    [st_world] the outside: Docker hosts, topology, gateway, snapshot storage. *)
Record St (W : Type) := mkSt { st_db : Db; st_committed : Db; st_world : W }.
Arguments mkSt {W}.
Arguments st_db {W}.
Arguments st_committed {W}.
Arguments st_world {W}.
#[export] Instance rebuild_St W : Rebuild (St W) := fun r =>
  mkSt (st_db r) (st_committed r) (st_world r).

Abbreviation M W := (eff (St W) Exn).

(** [session.flush()] *)
Definition flush_db (db : Db) : Db := db <| sessions_sql := sessions db |>.

Section session.
Context {W : Type} {env : Env}.

Definition on_db (f : Db → Db) : M W unit := modify (λ s, s <| st_db ::= f |>).
Definition query {A} (f : Db → A) : M W A := gets (λ s, f (st_db s)).

Definition flush : M W unit := on_db flush_db.
(** [session.commit()]: flush, then the transaction becomes visible. *)
Definition commit : M W unit :=
  flush ;; modify (λ s, s <| st_committed := st_db s |>).
(** [session.rollback()] *)
Definition rollback : M W unit := modify (λ s, s <| st_db := st_committed s |>).

(** What the database refuses of a text for a VARCHAR column: more characters than it
    holds, and NUL. *)
Definition fits_varchar (n : Z) (s : string) : bool :=
  (Py.len s <=? n) && forallb (λ c, negb (Ascii.eqb c "000")) (list_ascii_of_string s).
(** A flush or commit the database refuses rolls the transaction back. *)
Definition refuse_flush {A} (e : Exn) : M W A := rollback ;; raise e.
Definition flush_refused (s s' : St W) : Prop := st_db s' = st_committed s ∧ st_committed s' = st_committed s.

(** An attribute of an ORM object whose row is gone raises. *)
Definition row {A} (table : Db → gmap Z A) (k : Z) : M W A :=
  o ← query (λ db, table db !! k);
  match o with Some r => mret r | None => raise ObjectDeletedError end.

Definition get_workspace_row := row workspaces.
Definition get_job_row := row jobs.

Definition set_ws (wid : Z) (f : Workspace → Workspace) : M W unit :=
  on_db (λ db, db <| workspaces ::= alter f wid |>).
Definition set_job (jid : Z) (f : WorkspaceJob → WorkspaceJob) : M W unit :=
  on_db (λ db, db <| jobs ::= alter f jid |>).
Definition set_rt (wid : Z) (f : WorkspaceRuntime → WorkspaceRuntime) : M W unit :=
  on_db (λ db, db <| runtimes ::= alter f wid |>).
Definition set_node (nid : Z) (f : ExecutionNode → ExecutionNode) : M W unit :=
  on_db (λ db, db <| nodes ::= alter f nid |>).
Definition set_snap (sid : Z) (f : WorkspaceSnapshot → WorkspaceSnapshot) : M W unit :=
  on_db (λ db, db <| snapshots ::= alter f sid |>).
Definition set_task (cid : Z) (f : WorkspaceCleanupTask → WorkspaceCleanupTask) : M W unit :=
  on_db (λ db, db <| cleanup_tasks ::= alter f cid |>).
Definition set_repo (rid : Z) (f : WorkspaceRepository → WorkspaceRepository) : M W unit :=
  on_db (λ db, db <| repositories ::= alter f rid |>).

(** [session.add(job); session.flush()], returning the generated key *)
Definition add_job (j : WorkspaceJob) : M W Z :=
  jid ← query (λ db, fresh_key (jobs db));
  on_db (λ db, flush_db (db <| jobs ::= <[jid := j]> |>)) ;;
  mret jid.

(** [session.exec(select(WorkspaceRuntime).where(workspace_id == wid)).first()] *)
Definition runtime_row (wid : Z) : M W (option WorkspaceRuntime) :=
  query (λ db, runtimes db !! wid).

(** The execution node with this unique [node_key]. *)
Definition find_node (key : string) (db : Db) : option (Z * ExecutionNode) :=
  first_row (λ kn, node_node_key kn.2 = key) (nodes db).
Definition node_by_key (key : string) : M W (option (Z * ExecutionNode)) :=
  query (find_node key).

Definition append_event (e : WorkspaceEvent) (db : Db) : Db :=
  flush_db (db <| events ::= (λ l, l ++ [e]) |>).

Definition record_workspace_event (wid : Z) (event_type : string)
    (status : option workspace_status) (message : string) : M W unit :=
  on_db (append_event (mkWorkspaceEvent wid event_type status message env_now)).

Definition append_audit (a : AuditLog) (db : Db) : Db :=
  flush_db (db <| audit_logs ::= (λ l, l ++ [a]) |>).

Definition record_audit (action resource_type outcome : string)
    (actor_user_id : option Z) (actor_type : string) (resource_id : option string)
    (workspace_id job_id : option Z) (reason : option string) : M W unit :=
  let r := Py.prefix_to 4096 (default ""%string reason) in
  on_db (append_audit
    (mkAuditLog action resource_type outcome actor_user_id actor_type resource_id
       workspace_id job_id (if decide (r = ""%string) then None else Some r) env_now)).

Definition append_usage (u : WorkspaceUsageRecord) (db : Db) : Db :=
  flush_db (db <| usage_records ::= (λ l, l ++ [u]) |>).

Definition record_usage (workspace_id owner_user_id : option Z) (event_type : string)
    (quantity : Z) (node_id : option string) (job_id : option Z) : M W unit :=
  on_db (append_usage
    (mkWorkspaceUsageRecord workspace_id owner_user_id event_type (Z.max 0 quantity)
       node_id job_id env_now)).

(** *** Rules for the primitives *)

Lemma wp_on_db f (Q : unit → St W → Prop) X s :
  Q tt (s <| st_db ::= f |>) → wp (on_db f) Q X s.
Proof. done. Qed.
Lemma wp_query {A} (f : Db → A) (Q : A → St W → Prop) X s :
  Q (f (st_db s)) s → wp (query f) Q X s.
Proof. done. Qed.
Lemma wp_row {A} (t : Db → gmap Z A) k v (Q : A → St W → Prop) X s :
  t (st_db s) !! k = Some v → Q v s → wp (row t k) Q X s.
Proof. unfold row. intros H HQ. apply wp_bind, wp_query. by rewrite H. Qed.

(** [tracked R]: the open transaction moves along [R], and what other sessions
    see is what they saw, or a state the transaction went through. *)
Definition tracked (R : Db → Db → Prop) (s s' : St W) : Prop :=
  R (st_db s) (st_db s') ∧
  (st_committed s' = st_committed s ∨ R (st_db s) (st_committed s')).

Definition db_within {A} (R : Db → Db → Prop) (m : M W A) : Prop := within (tracked R) m.

Lemma db_within_on_db (R : Db → Db → Prop) f :
  (∀ db, R db (f db)) → db_within R (on_db f).
Proof. intros H s. split; [apply H|by left]. Qed.
End session.

#[export] Instance st_rel_preorder {W} (R : Db → Db → Prop) `{!PreOrder R} :
  PreOrder (@tracked W R).
Proof.
  split; [intros s; split; [reflexivity|by left]|].
  intros s1 s2 s3 [H1 H1'] [H2 H2']. split; [by etrans|].
  destruct H2' as [->|H2']; [done|]. right. by etrans.
Qed.

(** Steps that only touch the world. *)
Section world.
Context {W : Type}.

Definition world_only (s s' : St W) : Prop := st_db s' = st_db s ∧ st_committed s' = st_committed s.
#[export] Instance world_only_preorder : PreOrder world_only.
Proof. split; [by split|]. intros s1 s2 s3 [] []. split; congruence. Qed.

Lemma wp_world {A} (m : M W A) (Q : A → St W → Prop) X s : within world_only m →
  (∀ a s', world_only s s' → Q a s') → (∀ e s', world_only s s' → X e s') → wp m Q X s.
Proof.
  intros Hm HQ HX. specialize (Hm s). unfold wp. destruct (m s) as [s' [a|e]]; [by apply HQ|by apply HX].
Qed.
(** They keep what is known of the rows since [s0]. *)
Lemma wp_world_bind {A B} (m : M W A) (k : A → M W B) (Q : B → St W → Prop) X s0 s :
  within world_only m → world_only s0 s → (∀ e s', world_only s0 s' → X e s') →
  (∀ a s', world_only s0 s' → wp (k a) Q X s') → wp (m ≫= k) Q X s.
Proof.
  intros Hm H0 HX Hk. apply wp_bind, wp_world; [done|intros a s' H; apply Hk|intros e s' H; apply HX]; by etrans.
Qed.
End world.

(** [wp_db] runs the goal's computation up to the next call of another
    component, a [row] read, or a case distinction. *)
Ltac wp_db :=
  repeat (unfold set_ws, set_job, set_rt, set_node, set_snap, set_task, set_repo,
            runtime_row, node_by_key, record_workspace_event, record_audit, record_usage,
            flush, get_workspace_row, get_job_row, when;
          progress repeat first
            [ simple apply wp_bind | simple apply wp_ret | simple apply wp_raise
            | simple apply wp_on_db | simple apply wp_query | simple apply wp_try
            | simple apply wp_attempt | simple apply wp_gets | simple apply wp_modify ];
          cbn beta iota).
