(* ===== verification/Services.v ===== *)
(** * Services: what the job worker calls outside the database

    The interfaces between the control plane and its collaborators:
    [OrchestratorService] (orchestrator_service/interfaces.py, with the result
    records of results.py), the route-admin HTTP service behind
    gateway_client/gateway_client.py, the snapshot storage provider
    (storage/interfaces.py) and git inside a workspace container
    (integration_service/git_executor.py).  The worker's theorems hold for every
    instance, so for whatever the Docker hosts and the network do. *)

From S2P Require Import Prelude Models Session.

(** ** Orchestrator results (results.py) *)
Record WorkspaceBringUpResult := mkWorkspaceBringUpResult {
  br_workspace_id : string;
  br_success : bool;
  br_node_id : option string;
  br_topology_id : option string;
  br_container_id : option string;
  br_container_state : option string;
  br_netns_ref : option string;
  br_workspace_ip : option string;
  br_internal_endpoint : option string;
  br_gateway_route_target : option string;
  br_probe_healthy : option bool;
  br_issues : option (list string);
  br_rollback_attempted : bool;
  br_rollback_succeeded : option bool;
  br_rollback_issues : option (list string);
  br_applied_cpu_limit_cores : option cpu;
  br_applied_memory_limit_mib : option Z;
  br_applied_pids_limit : option Z;
  br_applied_security_options : option AppliedSecurityOptions
}.

Record WorkspaceStopResult := mkWorkspaceStopResult {
  sr_workspace_id : string;
  sr_success : bool;
  sr_container_id : option string;
  sr_container_state : option string;
  sr_topology_detached : option bool;
  sr_issues : option (list string)
}.

Record WorkspaceDeleteResult := mkWorkspaceDeleteResult {
  dr_workspace_id : string;
  dr_success : bool;
  dr_container_deleted : option bool;
  dr_topology_detached : option bool;
  dr_topology_deleted : option bool;
  dr_container_id : option string;
  dr_issues : option (list string)
}.

Record WorkspaceRestartResult := mkWorkspaceRestartResult {
  rr_workspace_id : string;
  rr_success : bool;
  rr_stop_success : option bool;
  rr_bringup_success : option bool;
  rr_container_id : option string;
  rr_container_state : option string;
  rr_node_id : option string;
  rr_topology_id : option string;
  rr_workspace_ip : option string;
  rr_internal_endpoint : option string;
  rr_gateway_route_target : option string;
  rr_probe_healthy : option bool;
  rr_issues : option (list string);
  rr_applied_cpu_limit_cores : option cpu;
  rr_applied_memory_limit_mib : option Z;
  rr_applied_pids_limit : option Z;
  rr_applied_security_options : option AppliedSecurityOptions
}.

Record WorkspaceUpdateResult := mkWorkspaceUpdateResult {
  ur_workspace_id : string;
  ur_success : bool;
  ur_current_config_version : Z;
  ur_requested_config_version : Z;
  ur_update_strategy : option string;
  ur_no_op : bool;
  ur_stop_success : option bool;
  ur_bringup_success : option bool;
  ur_container_id : option string;
  ur_container_state : option string;
  ur_node_id : option string;
  ur_topology_id : option string;
  ur_workspace_ip : option string;
  ur_internal_endpoint : option string;
  ur_gateway_route_target : option string;
  ur_probe_healthy : option bool;
  ur_issues : option (list string);
  ur_applied_cpu_limit_cores : option cpu;
  ur_applied_memory_limit_mib : option Z;
  ur_applied_pids_limit : option Z;
  ur_applied_security_options : option AppliedSecurityOptions
}.

Record WorkspaceSnapshotOperationResult := mkWorkspaceSnapshotOperationResult {
  so_workspace_id : string;
  so_success : bool;
  so_size_bytes : option Z;
  so_issues : option (list string)
}.

#[export] Instance rebuild_WorkspaceBringUpResult : Rebuild WorkspaceBringUpResult := fun r =>
  mkWorkspaceBringUpResult (br_workspace_id r) (br_success r) (br_node_id r) (br_topology_id r)
    (br_container_id r) (br_container_state r) (br_netns_ref r) (br_workspace_ip r) (br_internal_endpoint r)
    (br_gateway_route_target r) (br_probe_healthy r) (br_issues r) (br_rollback_attempted r)
    (br_rollback_succeeded r) (br_rollback_issues r) (br_applied_cpu_limit_cores r)
    (br_applied_memory_limit_mib r) (br_applied_pids_limit r) (br_applied_security_options r).

(** ** Calls *)

(** A call into the orchestrator changes the world, may commit the session it
    shares with the worker (the topology adapter does), and returns or raises. *)
Definition Call (W R : Type) : Type := W → W * bool * (R + Exn).

(** The orchestrator object of one job: [build_orchestrator_for_workspace_job]
    binds it to a node, whose key is [oc_node_id].  Arguments are in the order of
    the source: the workspace, its project storage key where it is passed, then the
    rest without [requested_by], [env] and [features]; the last of [oc_bring_up]
    tells launch mode "new" from "resume". *)
Record Orchestrator (W : Type) := mkOrchestrator {
  oc_node_id : option string;
  oc_bring_up : Z → option string → Z → option cpu → option Z → option Z → bool → Call W WorkspaceBringUpResult;
  oc_stop : Z → option string → bool → Call W WorkspaceStopResult;
  oc_delete : Z → option string → Call W WorkspaceDeleteResult;
  oc_restart : Z → option string → option string → Z → Call W WorkspaceRestartResult;
  oc_update : Z → option string → option string → Z → Call W WorkspaceUpdateResult;
  oc_check_health : Z → option string → Call W WorkspaceBringUpResult;
  oc_export_snapshot : Z → option string → string → option string → Call W WorkspaceSnapshotOperationResult;
  oc_import_snapshot : Z → option string → string → Call W WorkspaceSnapshotOperationResult;
  oc_run_topology_janitor : Call W unit
}.
Arguments oc_node_id {W}.
Arguments oc_bring_up {W}.
Arguments oc_stop {W}.
Arguments oc_delete {W}.
Arguments oc_restart {W}.
Arguments oc_update {W}.
Arguments oc_check_health {W}.
Arguments oc_export_snapshot {W}.
Arguments oc_import_snapshot {W}.
Arguments oc_run_topology_janitor {W}.

(** A row of route-admin's listing. *)
Record RouteRow := mkRouteRow {
  route_workspace_id : string;
  route_target : option string;
  route_public_host : option string;
  route_path_prefix : option string
}.

(** The body of POST /routes. *)
Record RoutePayload := mkRoutePayload {
  rp_workspace_id : string;
  rp_public_host : string;
  rp_target : string;
  rp_path_prefix : option string;
  rp_node_key : option string;
  rp_execution_node_id : option Z
}.

(** The route-admin HTTP service: [inr] is the [GatewayClientError] the client
    makes of an error status or a transport failure. *)
Class RouteAdmin (W : Type) := {
  ra_post_route : RoutePayload → W → W * (unit + string);
  ra_delete_route : string → W → W * (unit + string);
  ra_get_routes : W → W * (list RouteRow + string)
}.

(** [SnapshotStorageProvider]; [ss_remote] tells an object-storage provider,
    which alone has [upload_archive], [download_archive] and
    [presign_archive_get_url] (workspace, snapshot, filename, seconds). *)
Class SnapshotStorage (W : Type) := {
  ss_remote : bool;
  ss_archive_path : Z → Z → string;
  ss_storage_uri : Z → Z → string;
  ss_has_nonempty_archive : Z → Z → W → W * (bool + Exn);
  ss_upload_archive : Z → Z → W → W * (unit + Exn);
  ss_download_archive : Z → Z → W → W * (unit + Exn);
  ss_delete_archive : Z → Z → W → W * (unit + Exn);
  ss_presign : Z → Z → string → Z → W → W * (string + Exn);
  (** [export_running_workspace_tar_to_s3_via_ssm]: workspace, snapshot, container,
      instance, region *)
  ss_export_via_ssm : Z → Z → string → string → string → W →
                      W * (bool * option Z * option (list string) + Exn)
}.

(** [resolve_provider_token], and [resolve_node_execution_bundle] with
    [run_git_in_container] for a clone: node, container, branch, URL, directory,
    token; the result is [success] and [output]. *)
Class GitExecutor (W : Type) := {
  git_provider_token : Z → string → W → W * (option string + Exn);
  git_clone : option string → string → string → string → string → option string → W →
              W * (bool * string + Exn)
}.

(** [uuid.uuid4().hex] *)
Class Uuids (W : Type) := { uuid4_hex : W → W * string }.

(** The PostgreSQL advisory lock of reconcile_service/reconcile_lock.py; on other
    databases it is always acquired. *)
Class ReconcileLock (W : Type) := {
  rl_try_acquire : Z → W → W * bool;
  rl_release : Z → W → W
}.

Section calls.
Context {W : Type}.

Definition call {R} (c : Call W R) : M W R := fun s =>
  match c (st_world s) with
  | (w, commits, r) =>
      let db := if commits : bool then flush_db (st_db s) else st_db s in
      (mkSt db (if commits then db else st_committed s) w, r)
  end.

(** A client call that raises [GatewayClientError]. *)
Definition call_gateway {R} (c : W → W * (R + string)) : M W R := fun s =>
  match c (st_world s) with
  | (w, r) => (s <| st_world := w |>,
               match r with inl a => inl a | inr m => inr (GatewayClientError m) end)
  end.

Definition call_storage {R} (c : W → W * (R + Exn)) : M W R := fun s =>
  match c (st_world s) with (w, r) => (s <| st_world := w |>, r) end.

Definition touch_world (f : W → W) : M W unit := modify (λ s, s <| st_world ::= f |>).

Definition new_uuid {uuids : Uuids W} : M W string := fun s =>
  let '(w, u) := uuid4_hex (st_world s) in (s <| st_world := w |>, inl u).

Definition ask_world {R} (f : W → R) : M W R := gets (λ s, f (st_world s)).

Lemma wp_call {R} (c : Call W R) (Q : R → St W → Prop) X s :
  (∀ w b r, let db := if b : bool then flush_db (st_db s) else st_db s in
     let s' := mkSt db (if b then db else st_committed s) w in
     match r with inl a => Q a s' | inr e => X e s' end) →
  wp (call c) Q X s.
Proof.
  intros H. unfold wp, call. destruct (c (st_world s)) as [[w b] r].
  specialize (H w b r). by destruct r.
Qed.
End calls.
