(* ===== verification/Frames.v ===== *)
(** * Frames: computations that leave jobs and statuses alone

    [quiet] relates two states of the transaction that agree on every job row, on
    the status of every workspace and on the configurations.  Most of what a job's
    execution does is quiet: runtime rows, sessions, snapshots, events, audit,
    usage, cleanup tasks, nodes.  [quietly m] adds that [m] does not raise;
    [wp_quiet] lets a proof step over such a call. *)

From S2P Require Import Prelude Models Session Services.

Record quiet (db db' : Db) : Prop := mkQuiet {
  quiet_jobs : jobs db' = jobs db;
  quiet_status : ∀ wid, ws_status <$> workspaces db' !! wid = ws_status <$> workspaces db !! wid;
  quiet_configs : configs db' = configs db
}.

#[export] Instance quiet_preorder : PreOrder quiet.
Proof.
  split; [by intros db|]. intros a b c [] []. split; try congruence.
Qed.

(** A change of tables other than these. *)
Lemma quiet_other db db' :
  jobs db' = jobs db → workspaces db' = workspaces db → configs db' = configs db → quiet db db'.
Proof. intros ? Hw ?. split; try done. by rewrite Hw. Qed.

Section frames.
Context {W : Type}.

Definition no_raise {A} (m : M W A) : Prop := ∀ s e, (m s).2 ≠ inr e.
Definition quietly {A} (m : M W A) : Prop := db_within quiet m ∧ no_raise m.

Lemma wp_quiet {A} (m : M W A) (Q : A → St W → Prop) X s :
  quietly m → (∀ a s', tracked quiet s s' → Q a s') → wp m Q X s.
Proof.
  intros [Hq Hn] HQ. unfold wp. specialize (Hq s). pose proof (Hn s) as Hs.
  destruct (m s) as [s' [a|e]]; [by apply HQ|by destruct (Hs e)].
Qed.

Lemma wp_quiet_raise {A} (m : M W A) (Q : A → St W → Prop) X s :
  db_within quiet m → (∀ a s', tracked quiet s s' → Q a s') →
  (∀ e s', tracked quiet s s' → X e s') → wp m Q X s.
Proof.
  intros Hq HQ HX. unfold wp. specialize (Hq s).
  destruct (m s) as [s' [a|e]]; [by apply HQ|by apply HX].
Qed.

Lemma quietly_within {A} (m : M W A) : quietly m → db_within quiet m.
Proof. by intros []. Qed.

(** *** Closure *)

Lemma quietly_ret {A} (a : A) : quietly (mret a).
Proof. split; [intros s; simpl; reflexivity|intros s e; by simpl]. Qed.
Lemma quietly_gets {A} (f : St W → A) : quietly (gets f).
Proof. split; [intros s; simpl; reflexivity|intros s e; by simpl]. Qed.
Lemma quietly_query {A} (f : Db → A) : quietly (query f : M W A).
Proof. apply quietly_gets. Qed.
Lemma quietly_on_db f : (∀ db, quiet db (f db)) → quietly (on_db f : M W unit).
Proof. intros H. split; [by apply db_within_on_db|intros s e; by simpl]. Qed.
Lemma quietly_bind {A B} (m : M W A) (k : A → M W B) :
  quietly m → (∀ a, quietly (k a)) → quietly (m ≫= k).
Proof.
  intros [Hm Hn] Hk. split.
  - apply within_bind; [apply _|done|]. intros a. apply Hk.
  - intros s e. unfold mbind, eff_bind. specialize (Hn s). destruct (m s) as [s' [a|e']]; [apply Hk|].
    by destruct (Hn e').
Qed.
Lemma quietly_attempt {A} (m : M W A) : db_within quiet m → quietly (attempt m).
Proof.
  intros Hm. split; [by apply within_attempt|]. intros s e. unfold attempt. by destruct (m s).
Qed.
Lemma quietly_try {A} (m : M W A) h :
  db_within quiet m → (∀ e, quietly (h e)) → quietly (try_except m h).
Proof.
  intros Hm Hh. split; [apply within_try; [apply _|done|]; intros e; apply Hh|].
  intros s e. unfold try_except. destruct (m s) as [s' [a|e']]; [by simpl|apply Hh].
Qed.
Lemma quietly_when b (m : M W unit) : (b = true → quietly m) → quietly (when b m).
Proof. destruct b; [by intros H; apply H|intros _; apply quietly_ret]. Qed.
Lemma quietly_for_each {A} (l : list A) (body : A → M W unit) :
  (∀ x, quietly (body x)) → quietly (for_each l body).
Proof.
  intros H. induction l as [|x l IH]; simpl; [apply quietly_ret|]. by apply quietly_bind.
Qed.
Lemma within_call {R} (c : Call W R) : db_within quiet (call c).
Proof.
  intros s. unfold call. destruct (c (st_world s)) as [[w []] r]; simpl.
  - assert (quiet (st_db s) (flush_db (st_db s))) by (by apply quiet_other). split; [done|by right].
  - split; [reflexivity|by left].
Qed.
Lemma quietly_call_attempt {R} (c : Call W R) : quietly (attempt (call c)).
Proof. apply quietly_attempt, within_call. Qed.
Lemma within_call_storage {R} (c : W → W * (R + Exn)) : db_within quiet (call_storage c).
Proof. intros s. unfold call_storage. destruct (c (st_world s)) as [w r]. split; [reflexivity|by left]. Qed.
Lemma within_call_gateway {R} (c : W → W * (R + string)) : db_within quiet (call_gateway c).
Proof. intros s. unfold call_gateway. destruct (c (st_world s)) as [w r]. split; [reflexivity|by left]. Qed.
Lemma quietly_ask_world {R} (f : W → R) : quietly (ask_world f : M W R).
Proof. apply quietly_gets. Qed.
Lemma quietly_touch_world (f : W → W) : quietly (touch_world f : M W unit).
Proof. split; [intros s; split; [reflexivity|by left]|intros s e; by simpl]. Qed.

(** Writes to workspace rows that keep the status. *)
Lemma quietly_set_ws wid f : (∀ w, ws_status (f w) = ws_status w) → quietly (set_ws wid f : M W unit).
Proof.
  intros Hf. apply quietly_on_db. intros db. split; try done. intros k. cbn.
  rewrite lookup_alter. case_decide; [|done]. subst.
  destruct (workspaces db !! k) as [w|]; simpl; [by rewrite Hf|done].
Qed.
Lemma quietly_set_rt wid f : quietly (set_rt wid f : M W unit).
Proof. apply quietly_on_db. intros db. by apply quiet_other. Qed.
Lemma quietly_set_node nid f : quietly (set_node nid f : M W unit).
Proof. apply quietly_on_db. intros db. by apply quiet_other. Qed.
Lemma quietly_set_task cid f : quietly (set_task cid f : M W unit).
Proof. apply quietly_on_db. intros db. by apply quiet_other. Qed.
Lemma quietly_set_repo rid f : quietly (set_repo rid f : M W unit).
Proof. apply quietly_on_db. intros db. by apply quiet_other. Qed.
Lemma quietly_set_snap sid f : quietly (set_snap sid f : M W unit).
Proof. apply quietly_on_db. intros db. by apply quiet_other. Qed.
Lemma quietly_flush : quietly (flush : M W unit).
Proof. apply quietly_on_db. intros db. by apply quiet_other. Qed.
Lemma quietly_commit : quietly (commit : M W unit).
Proof. split; [|by intros s e]. intros s. split; [|right]; by apply quiet_other. Qed.

Lemma within_raise_quiet {A} (e : Exn) : db_within quiet (raise e : M W A).
Proof. intros s. simpl. reflexivity. Qed.
Lemma within_row {A} (t : Db → gmap Z A) k : db_within quiet (row t k : M W A).
Proof.
  intros s. unfold row, mbind, eff_bind, query, gets. simpl.
  destruct (t (st_db s) !! k); simpl; reflexivity.
Qed.
Lemma within_bind_quiet {A B} (m : M W A) (k : A → M W B) :
  db_within quiet m → (∀ a, db_within quiet (k a)) → db_within quiet (m ≫= k).
Proof. apply within_bind. apply _. Qed.
Lemma within_try_quiet {A} (m : M W A) h :
  db_within quiet m → (∀ e, db_within quiet (h e)) → db_within quiet (try_except m h).
Proof. apply within_try. apply _. Qed.
End frames.

Section recorders.
Context {W : Type} {env : Env}.
Lemma quietly_event wid ty st msg : quietly (record_workspace_event wid ty st msg : M W unit).
Proof. apply quietly_on_db. intros db. by apply quiet_other. Qed.
Lemma quietly_audit a b c d e f g h i : quietly (record_audit a b c d e f g h i : M W unit).
Proof. apply quietly_on_db. intros db. by apply quiet_other. Qed.
Lemma quietly_usage a b c d e f : quietly (record_usage a b c d e f : M W unit).
Proof. apply quietly_on_db. intros db. by apply quiet_other. Qed.
End recorders.

Create HintDb quiet discriminated.
#[export] Hint Resolve quietly_ret quietly_gets quietly_query quietly_when quietly_for_each
  quietly_attempt quietly_ask_world quietly_touch_world quietly_set_rt
  quietly_set_node quietly_set_snap quietly_set_task quietly_set_repo quietly_flush quietly_commit quietly_event quietly_audit
  quietly_usage within_call within_call_storage within_call_gateway within_raise_quiet within_row
  quietly_call_attempt : quiet.

(** [solve_quiet] closes the quietness of a composed computation. *)
Ltac solve_quiet_step :=
  match goal with
  | |- quietly (_ ≫= _) => apply quietly_bind; [|intros ?]
  | |- quietly (try_except _ _) => apply quietly_try; [|intros ?]
  | |- quietly (when _ _) => apply quietly_when; intros ?
  | |- quietly (for_each _ _) => apply quietly_for_each; intros ?
  | |- quietly (attempt _) => apply quietly_attempt
  | |- quietly (set_ws _ _) => apply quietly_set_ws; by intros []
  | |- quietly (match ?x with _ => _ end) => destruct x
  | |- quietly (let _ := _ in _) => cbv zeta
  | |- db_within quiet (_ ≫= _) => apply within_bind_quiet; [|intros ?]
  | |- db_within quiet (try_except _ _) => apply within_try_quiet; [|intros ?]
  | |- db_within quiet (match ?x with _ => _ end) => destruct x
  | |- db_within quiet (let _ := _ in _) => cbv zeta
  | |- db_within quiet (mret _) => apply quietly_within
  | |- db_within quiet (gets _) => apply quietly_within
  | |- db_within quiet (query _) => apply quietly_within
  | |- _ => solve [auto with quiet]
  | |- db_within quiet (when _ _) => apply quietly_within
  | |- db_within quiet (for_each _ _) => apply quietly_within
  | |- db_within quiet (attempt _) => apply quietly_within
  | |- db_within quiet _ => solve [apply quietly_within; auto with quiet]
  end.
Ltac solve_quiet := repeat solve_quiet_step.

(** ** Interfaces the worker is verified against *)

(** [get_orchestrator(session, ws, job)], the callable the drivers are given, and
    [build_default_orchestrator_for_session] for a node and a topology: binding an
    orchestrator may assign topologies to nodes and raise, but writes no job and no
    status.  [Binding] gives the instance of the source. *)
Class OrchestratorSource (W : Type) := {
  get_orchestrator : Z → workspace_job_type → M W (Orchestrator W);
  build_default_orchestrator : string → Z → M W (Orchestrator W);
  get_orchestrator_quiet : ∀ wid jt, db_within quiet (get_orchestrator wid jt);
  build_default_orchestrator_quiet : ∀ key tid, db_within quiet (build_default_orchestrator key tid)
}.

(** [maybe_provision_on_no_schedulable_capacity]: the autoscaler's hook adds and
    changes execution nodes and audit rows. *)
Class Autoscaler (W : Type) := {
  maybe_provision_on_no_schedulable_capacity : M W unit;
  maybe_provision_quiet : db_within quiet maybe_provision_on_no_schedulable_capacity
}.

#[export] Hint Resolve get_orchestrator_quiet build_default_orchestrator_quiet
  maybe_provision_quiet : quiet.
