(* ===== verification/FailureHandling.v ===== *)
(** * FailureHandling: failure classification and bounded retry

    [src/backend/app/workers/workspace_job_worker/failure_handling.py]: which
    failures are retried, how often and with what backoff, and which queued jobs
    a worker may claim; with [_truncate] of worker.py, which bounds every stored
    message. *)

From S2P Require Import Prelude Models Session.

Definition WORKSPACE_CAPACITY_PENDING_LAST_ERROR : string := "Waiting for execution capacity".

(** [worker._truncate] on a present string *)
Definition truncate (max_len : Z) (s : string) : string :=
  let t := Py.strip s in
  if Py.len t <=? max_len then t
  else (Py.prefix_to (max_len - 3) t ++ "...")%string.

Definition truncate_opt (max_len : Z) (s : option string) : option string :=
  truncate max_len <$> s.

Definition classify_placement_error (e : Exn) : failure_stage * bool :=
  match e with
  | NoSchedulableNodeError _ => (FailureStage.CAPACITY, true)
  | _ => (FailureStage.PLACEMENT, true)
  end.

Definition orchestrator_binding_retryable : failure_stage * bool :=
  (FailureStage.NETWORK, true).

Definition lifecycle_result_failure_retryable (jt : workspace_job_type) : bool :=
  match jt with
  | WorkspaceJobType.CREATE | WorkspaceJobType.START | WorkspaceJobType.RESTART
  | WorkspaceJobType.UPDATE | WorkspaceJobType.SNAPSHOT_CREATE
  | WorkspaceJobType.SNAPSHOT_RESTORE => true
  | _ => false
  end.

Definition orchestrator_exception_retryable (jt : workspace_job_type) : bool :=
  match jt with
  | WorkspaceJobType.CREATE | WorkspaceJobType.START | WorkspaceJobType.RESTART
  | WorkspaceJobType.UPDATE | WorkspaceJobType.RECONCILE_RUNTIME
  | WorkspaceJobType.SNAPSHOT_CREATE | WorkspaceJobType.SNAPSHOT_RESTORE => true
  | _ => false
  end.

Definition classify_reconcile_failure (message : string) : failure_stage * bool :=
  let m := Py.lower (Py.strip message) in
  if Py.contains "reconcile:advisory_lock_contended" m then (FailureStage.PLACEMENT, true)
  else if Py.contains "reconcile:workspace_busy" m
       || Py.contains "reconcile:unsupported_workspace_status" m
  then (FailureStage.UNKNOWN, false)
  else if Py.contains "gateway_" m || Py.contains "gateway:" m then (FailureStage.PROXY, true)
  else if Py.contains "health_check_failed" m || Py.contains "runtime_not_healthy" m
  then (FailureStage.CONTAINER, true)
  else if Py.contains "stop_failed" m then (FailureStage.CONTAINER, true)
  else (FailureStage.UNKNOWN, true).

(** SQL filter of the dequeue: QUEUED and no backoff, or the backoff elapsed. *)
Definition queued_job_eligible (now : time) (j : WorkspaceJob) : bool :=
  bool_decide (job_status j = WorkspaceJobStatus.QUEUED) &&
  match job_next_attempt_after j with None => true | Some t => t <=? now end.

Section failure_handling.
Context {W : Type} {env : Env}.

Definition effective_max_attempts (j : WorkspaceJob) : Z :=
  if 1 <=? job_max_attempts j then job_max_attempts j
  else Z.max 1 (cfg_workspace_job_max_attempts env_settings).

(** The row [try_schedule_workspace_job_retry] leaves behind. *)
Definition requeued_for_retry (message : string) (stage : failure_stage)
    (failure_code : option string) (now : time) (j : WorkspaceJob) : WorkspaceJob :=
  let backoff := Z.max 0 (cfg_workspace_job_retry_backoff_seconds env_settings) in
  let code := default ""%string failure_code in
  j <| job_status := WorkspaceJobStatus.QUEUED |>
    <| job_finished_at := None |>
    <| job_started_at := None |>
    <| job_error_msg := Some (truncate 8192 message) |>
    <| job_failure_stage := Some stage |>
    <| job_failure_code :=
         Some (Py.prefix_to 64 (if Py.truthy code then code else FailureStage.value stage)) |>
    <| job_next_attempt_after := Some (now + seconds backoff) |>.

Definition try_schedule_workspace_job_retry (jid : Z) (message : string)
    (stage : failure_stage) (failure_code : option string) (now : time) : M W bool :=
  j ← get_job_row jid;
  if effective_max_attempts j <=? job_attempt j then mret false
  else set_job jid (requeued_for_retry message stage failure_code now) ;; mret true.

Definition capacity_retry_timeout_seconds : Z :=
  Z.max 1 (cfg_workspace_capacity_retry_timeout_seconds env_settings).

Definition capacity_retry_backoff_seconds : Z :=
  let v := cfg_workspace_capacity_retry_backoff_seconds env_settings in
  if v <=? 0 then 0
  else if v <? 15 then v
  else env_randint 15 (Z.min v 30).

Definition capacity_wait_timed_out (j : WorkspaceJob) (now : time) : bool :=
  seconds capacity_retry_timeout_seconds <=? now - job_created_at j.

(** The row of the two capacity-class retries, which differ in the code only. *)
Definition requeued_for_capacity (message code : string) (now : time)
    (j : WorkspaceJob) : WorkspaceJob :=
  j <| job_status := WorkspaceJobStatus.QUEUED |>
    <| job_finished_at := None |>
    <| job_started_at := None |>
    <| job_error_msg := Some (truncate 8192 message) |>
    <| job_failure_stage := Some FailureStage.CAPACITY |>
    <| job_failure_code := Some code |>
    <| job_next_attempt_after := Some (now + seconds capacity_retry_backoff_seconds) |>.

Definition try_schedule_capacity_retry (jid : Z) (message : string) (now : time) : M W bool :=
  j ← get_job_row jid;
  if capacity_wait_timed_out j now then mret false
  else set_job jid (requeued_for_capacity message "no_schedulable_node" now) ;; mret true.

Definition try_schedule_node_readiness_retry (jid : Z) (message : string) (now : time)
    : M W bool :=
  j ← get_job_row jid;
  if capacity_wait_timed_out j now then mret false
  else set_job jid (requeued_for_capacity message "node_readiness" now) ;; mret true.

(** *** Rules for callers *)

Lemma wp_try_retry jid msg st fc now j (Q : bool → St W → Prop) X s :
  jobs (st_db s) !! jid = Some j →
  (job_attempt j < effective_max_attempts j →
     Q true (s <| st_db ::= λ db,
               db <| jobs ::= alter (requeued_for_retry msg st fc now) jid |> |>)) →
  (effective_max_attempts j ≤ job_attempt j → Q false s) →
  wp (try_schedule_workspace_job_retry jid msg st fc now) Q X s.
Proof.
  intros Hj Ht Hf. unfold try_schedule_workspace_job_retry.
  wp_db. eapply wp_row; [exact Hj|].
  destruct (Z.leb_spec (effective_max_attempts j) (job_attempt j)); wp_db; auto.
Qed.

Lemma wp_try_capacity jid msg code now j (Q : bool → St W → Prop) X s :
  jobs (st_db s) !! jid = Some j →
  (capacity_wait_timed_out j now = false →
     Q true (s <| st_db ::= λ db,
               db <| jobs ::= alter (requeued_for_capacity msg code now) jid |> |>)) →
  (capacity_wait_timed_out j now = true → Q false s) →
  wp (j ← get_job_row jid;
      if capacity_wait_timed_out j now then mret false
      else set_job jid (requeued_for_capacity msg code now) ;; mret true) Q X s.
Proof.
  intros Hj Ht Hf. wp_db. eapply wp_row; [exact Hj|].
  destruct (capacity_wait_timed_out j now) eqn:E; wp_db; auto.
Qed.

(** A capacity backoff is between 0 and 30 seconds, and at least 15 when the
    setting allows it. *)
Lemma capacity_retry_backoff_range :
  0 ≤ capacity_retry_backoff_seconds ≤ 30 ∧
  (15 ≤ cfg_workspace_capacity_retry_backoff_seconds env_settings →
   15 ≤ capacity_retry_backoff_seconds).
Proof.
  unfold capacity_retry_backoff_seconds.
  set (v := cfg_workspace_capacity_retry_backoff_seconds env_settings).
  destruct (Z.leb_spec v 0); [lia|]. destruct (Z.ltb_spec v 15); [lia|].
  pose proof (env_randint_bounds 15 (Z.min v 30)). lia.
Qed.

(** A row put back on the queue is not claimable before its backoff is over. *)
Lemma requeued_not_eligible_before_backoff msg st fc now t j :
  now ≤ t →
  t < now + seconds (Z.max 0 (cfg_workspace_job_retry_backoff_seconds env_settings)) →
  queued_job_eligible t (requeued_for_retry msg st fc now j) = false.
Proof.
  intros H1 H2. unfold queued_job_eligible. cbn. apply Z.leb_gt. done.
Qed.
End failure_handling.

(** *** Truncation *)

Lemma length_substring n s m : (m ≤ String.length s)%nat → n = 0%nat →
  String.length (String.substring n m s) = m.
Proof.
  intros Hm ->. revert m Hm. induction s as [|c s IH]; intros [|m] Hm; simpl in *; try lia.
  f_equal. apply IH. lia.
Qed.


(** Every stored message fits its column. *)
Lemma truncate_length max_len s : 3 ≤ max_len → Py.len (truncate max_len s) ≤ max_len.
Proof.
  intros H. unfold truncate, Py.len, Py.prefix_to.
  set (t := Py.strip s). destruct (Z.leb_spec (Z.of_nat (String.length t)) max_len); [done|].
  rewrite length_app_string, length_substring; simpl; lia.
Qed.
