(* ===== verification/Sessions.v ===== *)
(** * Sessions: workspace session issuance, verification and revocation

    [src/backend/app/services/workspace_service/services/workspace_session_service.py].
    Queries follow the identity-map discipline of [Models.Db]: the SQL filter
    sees [sessions_sql], the objects that come back are those of [sessions].
    Token generation and the HMAC are parameters: the token is an argument of
    [create_workspace_session] and [hash_workspace_session_token] a class. *)

From S2P Require Import Prelude Models Session.

(** [hmac.new(jwt_secret_key, token, sha256).hexdigest()] *)
Class TokenHash := hash_workspace_session_token : string → string.

(** The rows [SELECT .. WHERE workspace_id = wid AND status = 'ACTIVE'] finds. *)
Definition active_session_ids (wid : Z) (db : Db) : list Z :=
  (filter (λ kr : Z * WorkspaceSession,
             sess_workspace_id kr.2 = wid ∧ sess_status kr.2 = WorkspaceSessionStatus.ACTIVE)
     (map_to_list (sessions_sql db))).*1.

Definition session_unexpired (ts : time) (db : Db) (sid : Z) : bool :=
  match sessions db !! sid with
  | Some r => ts <? sess_expires_at r
  | None => false
  end.

Definition count_effective_active_sessions (wid : Z) (ts : time) (db : Db) : Z :=
  Z.of_nat (length (List.filter (session_unexpired ts db) (active_session_ids wid db))).

Section sessions.
Context {W : Type} {env : Env} {tokens : TokenHash}.

Definition reconcile_workspace_active_session_count (wid : Z) (now : time) : M W Z :=
  ws ← query (λ db, workspaces db !! wid);
  match ws with
  | None => mret 0
  | Some _ =>
      cnt ← query (count_effective_active_sessions wid now);
      set_ws wid (λ w, w <| ws_active_sessions_count := cnt |> <| ws_updated_at := now |>) ;;
      mret cnt
  end.

Definition new_session (wid user_id : Z) (token : string) : WorkspaceSession :=
  let ttl := Z.max 60 (cfg_workspace_session_ttl_seconds env_settings) in
  {| sess_workspace_id := wid; sess_user_id := user_id;
     sess_status := WorkspaceSessionStatus.ACTIVE;
     sess_session_token_hash := hash_workspace_session_token token;
     sess_issued_at := env_now; sess_expires_at := env_now + seconds ttl;
     sess_last_seen_at := env_now; sess_updated_at := env_now |}.

Definition create_workspace_session (wid user_id : Z) (token : string) : M W (string * Z) :=
  sid ← query (λ db, fresh_key (sessions db));
  on_db (λ db, flush_db (db <| sessions ::= <[sid := new_session wid user_id token]> |>)) ;;
  reconcile_workspace_active_session_count wid env_now ;;
  mret (token, sid).

(** [select(WorkspaceSession).where(session_token_hash == th).first()] *)
Definition session_by_hash (th : string) (db : Db) : option (Z * WorkspaceSession) :=
  kr ← first_row (λ kr, sess_session_token_hash kr.2 = th) (sessions_sql db);
  r ← sessions db !! kr.1;
  Some (kr.1, r).

Definition expire_session (sid : Z) (db : Db) : Db :=
  db <| sessions ::= alter (λ r,
    r <| sess_status := WorkspaceSessionStatus.EXPIRED |>
      <| sess_updated_at := env_now |>) sid |>.

Definition refresh_session (sid : Z) (db : Db) : Db :=
  db <| sessions ::= alter (λ r,
    r <| sess_last_seen_at := env_now |> <| sess_updated_at := env_now |>) sid |>.

Definition resolve_workspace_session_for_access (wid user_id : Z) (token_plain : string)
    : M W Z :=
  let raw := Py.strip token_plain in
  if negb (Py.truthy raw) then
    raise (WorkspaceAccessDeniedError
      "Workspace session token required (use POST /workspaces/attach/{id} first).")
  else
    found ← query (session_by_hash (hash_workspace_session_token raw));
    match found with
    | None => raise (WorkspaceAccessDeniedError "Invalid workspace session token.")
    | Some (sid, r) =>
        if negb (bool_decide (sess_workspace_id r = wid) && bool_decide (sess_user_id r = user_id))
        then raise (WorkspaceAccessDeniedError "Invalid workspace session token.")
        else if negb (bool_decide (sess_status r = WorkspaceSessionStatus.ACTIVE))
        then raise (WorkspaceAccessDeniedError "Workspace session is no longer active.")
        else if sess_expires_at r <=? env_now then
          on_db (expire_session sid) ;;
          reconcile_workspace_active_session_count wid env_now ;;
          commit ;;
          raise (WorkspaceAccessDeniedError "Workspace session expired; attach again.")
        else
          on_db (λ db, flush_db (refresh_session sid db)) ;;
          mret sid
    end.

Definition revoke (r : WorkspaceSession) : WorkspaceSession :=
  r <| sess_status := WorkspaceSessionStatus.REVOKED |> <| sess_updated_at := env_now |>.

Definition revoke_sessions (sids : list Z) (db : Db) : Db :=
  db <| sessions ::= λ m, foldr (alter revoke) m sids |>.

Definition revoke_all_workspace_sessions (wid : Z) : M W Z :=
  sids ← query (active_session_ids wid);
  on_db (revoke_sessions sids) ;;
  when (negb (bool_decide (sids = [])))
    (reconcile_workspace_active_session_count wid env_now ;; mret tt) ;;
  mret (Z.of_nat (length sids)).
End sessions.

(** ** What revocation does to the rows *)

Section revoke_db.
Context {env : Env}.

(** The database after [revoke_all_workspace_sessions]. *)
Definition revoke_all_db (wid : Z) (db : Db) : Db :=
  let sids := active_session_ids wid db in
  let db1 := revoke_sessions sids db in
  if decide (sids = []) then db1
  else db1 <| workspaces ::= alter (λ w,
         w <| ws_active_sessions_count := count_effective_active_sessions wid env_now db1 |>
           <| ws_updated_at := env_now |>) wid |>.

Lemma revoke_all_run {W} wid (s : St W) :
  revoke_all_workspace_sessions wid s
  = (s <| st_db ::= revoke_all_db wid |>,
     inl (Z.of_nat (length (active_session_ids wid (st_db s))))).
Proof.
  destruct s as [db cm w]. unfold revoke_all_workspace_sessions, revoke_all_db, when.
  unfold reconcile_workspace_active_session_count.
  cbv [mbind eff_bind mret eff_ret query gets on_db modify set_ws field_update rebuild]. cbn.
  destruct (decide (active_session_ids wid db = [])) as [E|E].
  - by rewrite bool_decide_true.
  - rewrite bool_decide_false by done. cbn.
    destruct (workspaces db !! wid) eqn:Hw; cbn; [done|].
    rewrite alter_id; [done|]. intros ? Hw'. congruence.
Qed.

Lemma lookup_revoke_fold sids (m : gmap Z WorkspaceSession) k :
  foldr (alter revoke) m sids !! k = if decide (k ∈ sids) then revoke <$> m !! k else m !! k.
Proof.
  induction sids as [|i sids IH]; [done|]. cbn [foldr].
  rewrite lookup_alter. pose proof (elem_of_cons sids k i) as Hc.
  destruct (decide (k ∈ i :: sids)) as [Hin|Hin]; rewrite Hc in Hin.
  - destruct (decide (i = k)) as [->|Hne]; rewrite IH; [case_decide|].
    + by destruct (m !! k).
    + done.
    + by rewrite decide_True by (destruct Hin; congruence || done).
  - rewrite decide_False, IH, decide_False; [done|tauto|]. intros ->. tauto.
Qed.

Lemma elem_of_active_session_ids wid db sid :
  sid ∈ active_session_ids wid db ↔
  ∃ r, sessions_sql db !! sid = Some r ∧ sess_workspace_id r = wid ∧
       sess_status r = WorkspaceSessionStatus.ACTIVE.
Proof.
  unfold active_session_ids. rewrite list_elem_of_fmap. split.
  - intros [[k r] [-> H]]. apply list_elem_of_filter in H as [[H1 H2] H3].
    apply elem_of_map_to_list in H3. eauto.
  - intros (r & H1 & H2 & H3). exists (sid, r). split; [done|].
    apply list_elem_of_filter. split; [done|]. by apply elem_of_map_to_list.
Qed.

Lemma sessions_revoke_all wid db k :
  sessions (revoke_all_db wid db) !! k =
  if decide (k ∈ active_session_ids wid db) then revoke <$> sessions db !! k
  else sessions db !! k.
Proof.
  unfold revoke_all_db. case_decide; cbn; apply lookup_revoke_fold.
Qed.

(** Revocation does not touch any expiry, so the unflushed query of the
    recount finds exactly the sessions it found before. *)
Lemma count_after_revoke (wid : Z) ts db sids :
  count_effective_active_sessions wid ts (revoke_sessions sids db)
  = count_effective_active_sessions wid ts db.
Proof.
  unfold count_effective_active_sessions. f_equal. f_equal.
  change (active_session_ids wid (revoke_sessions sids db)) with (active_session_ids wid db).
  apply List.filter_ext. intros k. unfold session_unexpired. cbn.
  rewrite lookup_revoke_fold. case_decide; [|done]. by destruct (sessions db !! k).
Qed.

(** What the revocation leaves alone. *)
Lemma revoke_all_frame wid db :
  jobs (revoke_all_db wid db) = jobs db ∧ runtimes (revoke_all_db wid db) = runtimes db ∧
  snapshots (revoke_all_db wid db) = snapshots db ∧ nodes (revoke_all_db wid db) = nodes db ∧
  configs (revoke_all_db wid db) = configs db ∧
  cleanup_tasks (revoke_all_db wid db) = cleanup_tasks db ∧
  sessions_sql (revoke_all_db wid db) = sessions_sql db.
Proof. unfold revoke_all_db. by case_decide. Qed.

Lemma revoke_all_workspaces wid db k :
  workspaces (revoke_all_db wid db) !! k =
  if decide (k = wid ∧ active_session_ids wid db ≠ []) then
    (λ w, w <| ws_active_sessions_count := count_effective_active_sessions wid env_now db |>
            <| ws_updated_at := env_now |>) <$> workspaces db !! k
  else workspaces db !! k.
Proof.
  unfold revoke_all_db. destruct (decide (active_session_ids wid db = [])) as [E|E]; cbn.
  - rewrite decide_False; [done|]. by intros [_ ?].
  - rewrite lookup_alter, count_after_revoke.
    destruct (decide (wid = k)) as [->|]; [by rewrite decide_True|].
    rewrite decide_False; [done|]. by intros [-> _].
Qed.

Lemma revoke_all_ws_status wid db k :
  ws_status <$> workspaces (revoke_all_db wid db) !! k = ws_status <$> workspaces db !! k.
Proof. rewrite revoke_all_workspaces. case_decide; [|done]. by destruct (workspaces db !! k). Qed.
End revoke_db.

(** ** Properties *)

Section properties.
Context {W : Type} {env : Env} {tokens : TokenHash}.

Lemma revoke_all_db_sessions (db : Db) (wid sid : Z) (r : WorkspaceSession) :
  sessions_sql db = sessions db →
  sessions (revoke_all_db wid db) !! sid = Some r →
  (sess_workspace_id r = wid → sess_status r ≠ WorkspaceSessionStatus.ACTIVE) ∧
  (sess_workspace_id r ≠ wid → sessions db !! sid = Some r).
Proof.
  intros Hfl. rewrite sessions_revoke_all. case_decide as Hin; intros Hr.
  - apply elem_of_active_session_ids in Hin as (r0 & H1 & H2 & _).
    rewrite Hfl in H1. rewrite H1 in Hr. injection Hr as <-. done.
  - split; [|done]. intros Hw Ha. apply Hin, elem_of_active_session_ids.
    exists r. by rewrite Hfl.
Qed.

(** Revocation is complete and confined: with every earlier change flushed,
    no session of the workspace is ACTIVE afterwards, and the sessions of other
    workspaces are untouched. *)
Lemma revoke_all_revokes_every_session (s : St W) (wid sid : Z) (r : WorkspaceSession)
    (Hflushed : sessions_sql (st_db s) = sessions (st_db s))
    (Hr : sessions (st_db (revoke_all_workspace_sessions wid s).1) !! sid = Some r) :
  (sess_workspace_id r = wid → sess_status r ≠ WorkspaceSessionStatus.ACTIVE) ∧
  (sess_workspace_id r ≠ wid → sessions (st_db s) !! sid = Some r).
Proof. rewrite revoke_all_run in Hr. by apply revoke_all_db_sessions. Qed.

(** Because the recount queries the database before the revocation is
    flushed, the workspace keeps counting the sessions it has just revoked:
    the stored [active_sessions_count] is the count from before, while the
    count a flushed query would give is zero. *)
Lemma revoke_all_leaves_stale_count (s : St W) (wid : Z) (w : Workspace)
    (Hflushed : sessions_sql (st_db s) = sessions (st_db s))
    (Hw : workspaces (st_db s) !! wid = Some w)
    (Hactive : active_session_ids wid (st_db s) ≠ []) :
  let s' := (revoke_all_workspace_sessions wid s).1 in
  (ws_active_sessions_count <$> workspaces (st_db s') !! wid
   = Some (count_effective_active_sessions wid env_now (st_db s))) ∧
  count_effective_active_sessions wid env_now (flush_db (st_db s')) = 0.
Proof.
  rewrite revoke_all_run. cbn. split.
  - rewrite revoke_all_workspaces, decide_True, Hw by done. done.
  - set (db' := flush_db _). unfold count_effective_active_sessions.
    enough (active_session_ids wid db' = []) as -> by done.
    destruct (active_session_ids wid db') as [|sid l] eqn:E; [done|exfalso].
    assert (Hin : sid ∈ active_session_ids wid db') by (rewrite E; left).
    apply elem_of_active_session_ids in Hin as (r & Hr & Hrw & Hra).
    by eapply (revoke_all_db_sessions (st_db s) wid sid r).
Qed.

Lemma session_by_hash_Some th db sid r :
  session_by_hash th db = Some (sid, r) →
  sessions db !! sid = Some r ∧
  ∃ r0, sessions_sql db !! sid = Some r0 ∧ sess_session_token_hash r0 = th.
Proof.
  unfold session_by_hash. destruct (first_row _ _) as [[k r0]|] eqn:E; [|done]. simpl.
  apply first_row_Some in E as [H1 H2].
  destruct (sessions db !! k) eqn:Hk; [|done]. simpl. intros [= <- <-]. eauto.
Qed.

(** Access is granted only to the bearer of the token of a live session: the
    session belongs to this workspace and this user, is ACTIVE and has not
    expired; granting changes no session but its last-seen stamps, and commits
    nothing. *)
Lemma resolve_grants_only_live_sessions (s s' : St W) (wid user_id sid : Z) (token : string)
    (Hflushed : sessions_sql (st_db s) = sessions (st_db s))
    (Hrun : resolve_workspace_session_for_access wid user_id token s = (s', inl sid)) :
  (∃ r, sessions (st_db s) !! sid = Some r ∧
     sess_session_token_hash r = hash_workspace_session_token (Py.strip token) ∧
     sess_workspace_id r = wid ∧ sess_user_id r = user_id ∧
     sess_status r = WorkspaceSessionStatus.ACTIVE ∧ env_now < sess_expires_at r) ∧
  sess_status <$> sessions (st_db s') = sess_status <$> sessions (st_db s) ∧
  st_committed s' = st_committed s.
Proof.
  revert Hrun. unfold resolve_workspace_session_for_access.
  case_match; [done|]. cbv [mbind eff_bind query gets on_db modify mret eff_ret raise commit flush].
  destruct (session_by_hash _ _) as [[k r]|] eqn:E; [|done].
  apply session_by_hash_Some in E as (Hr & r0 & Hr0 & Hth).
  rewrite Hflushed, Hr in Hr0. injection Hr0 as <-.
  destruct (bool_decide (sess_workspace_id r = wid) && _) eqn:E1; [|done].
  apply andb_true_iff in E1 as [E1%bool_decide_eq_true E2%bool_decide_eq_true].
  destruct (bool_decide (sess_status r = _)) eqn:E3; [|done].
  apply bool_decide_eq_true in E3. cbn [negb].
  destruct (Z.leb_spec (sess_expires_at r) env_now).
  { unfold reconcile_workspace_active_session_count, set_ws.
    cbv [mbind eff_bind query gets on_db modify mret eff_ret]. cbn.
    by destruct (workspaces (st_db s) !! wid). }
  intros [= <- <-]. split_and!; [eauto 10| |done].
  cbn. apply map_eq. intros i. rewrite !lookup_fmap, lookup_alter.
  case_decide; [subst|done]. by rewrite Hr.
Qed.

(** Presenting the token of an expired session is refused, and the expiry is
    recorded durably: the committed row is EXPIRED although the request fails,
    and the workspace's committed session count no longer counts it. *)
Lemma resolve_expires_durably (s : St W) (wid user_id sid : Z) (token : string)
    (r : WorkspaceSession)
    (Hflushed : sessions_sql (st_db s) = sessions (st_db s))
    (Htoken : Py.strip token ≠ ""%string)
    (Hfound : session_by_hash (hash_workspace_session_token (Py.strip token)) (st_db s)
              = Some (sid, r))
    (Howner : sess_workspace_id r = wid ∧ sess_user_id r = user_id)
    (Hactive : sess_status r = WorkspaceSessionStatus.ACTIVE)
    (Hexp : sess_expires_at r ≤ env_now) :
  let '(s', res) := resolve_workspace_session_for_access wid user_id token s in
  res = inr (WorkspaceAccessDeniedError "Workspace session expired; attach again.") ∧
  (sess_status <$> sessions (st_committed s') !! sid = Some WorkspaceSessionStatus.EXPIRED) ∧
  sid ∉ active_session_ids wid (st_committed s').
Proof.
  destruct Howner as [<- <-].
  unfold resolve_workspace_session_for_access.
  replace (Py.truthy (Py.strip token)) with true; cbn [negb].
  2:{ symmetry. apply negb_true_iff, String.eqb_neq. done. }
  cbv [mbind eff_bind query gets on_db modify mret eff_ret raise commit flush].
  rewrite Hfound, !bool_decide_true by done. cbn [negb andb].
  destruct (Z.leb_spec (sess_expires_at r) env_now); [|lia].
  apply session_by_hash_Some in Hfound as (Hr & _).
  set (db1 := expire_session sid (st_db s)).
  assert (H1 : sess_status <$> sessions db1 !! sid = Some WorkspaceSessionStatus.EXPIRED).
  { unfold db1. cbn. rewrite alter_lookup_same, Hr. done. }
  assert (H2 : ∀ db, sessions db = sessions db1 →
             sid ∉ active_session_ids (sess_workspace_id r) (flush_db db)).
  { intros db Hdb (r' & Hr' & _ & Ha)%elem_of_active_session_ids. cbn in Hr'.
    rewrite Hdb in Hr'. rewrite Hr' in H1. cbn in H1. congruence. }
  unfold reconcile_workspace_active_session_count, set_ws.
  cbv [mbind eff_bind query gets on_db modify mret eff_ret]. cbn.
  destruct (workspaces (st_db s) !! sess_workspace_id r); cbn; split_and!; auto.
Qed.

Definition with_new_session (wid user_id : Z) (token : string) (db : Db) : Db :=
  let sid := fresh_key (sessions db) in
  flush_db (db <| sessions ::= <[sid := new_session wid user_id token]> |>).

Lemma create_session_run (s : St W) wid user_id token :
  ∃ db', create_workspace_session wid user_id token s
         = (s <| st_db := db' |>, inl (token, fresh_key (sessions (st_db s)))) ∧
         sessions db' = sessions (with_new_session wid user_id token (st_db s)) ∧
         sessions_sql db' = sessions db'.
Proof.
  unfold create_workspace_session, reconcile_workspace_active_session_count, set_ws.
  cbv [mbind eff_bind query gets on_db modify mret eff_ret]. cbn.
  destruct (workspaces (st_db s) !! wid); eexists; done.
Qed.

(** Attach and access round trip: the token handed out by
    [create_workspace_session] resolves, for the same workspace and user, to the
    session just created. *)
Lemma created_session_token_resolves (s : St W) (wid user_id : Z) (token : string)
    (Hflushed : sessions_sql (st_db s) = sessions (st_db s))
    (Htoken : Py.strip token = token ∧ token ≠ ""%string)
    (Hunique : ∀ sid r, sessions (st_db s) !! sid = Some r →
               sess_session_token_hash r ≠ hash_workspace_session_token token) :
  (ts ← create_workspace_session wid user_id token;
   resolve_workspace_session_for_access wid user_id ts.1) s
  = ((resolve_workspace_session_for_access wid user_id token
        (create_workspace_session wid user_id token s).1).1,
     inl (fresh_key (sessions (st_db s)))).
Proof.
  destruct (create_session_run s wid user_id token) as (db' & Hrun & Hs & Hsql).
  destruct Htoken as [Hstrip Hne]. unfold mbind, eff_bind. rewrite Hrun. cbn [fst snd].
  unfold resolve_workspace_session_for_access. rewrite Hstrip.
  replace (Py.truthy token) with true; cbn [negb].
  2:{ symmetry. by apply negb_true_iff, String.eqb_neq. }
  cbv [mbind eff_bind query gets on_db modify mret eff_ret]. cbn [st_db].
  set (sid := fresh_key _) in *.
  assert (Hnew : sessions db' !! sid = Some (new_session wid user_id token)).
  { rewrite Hs. cbn. by rewrite lookup_insert_eq. }
  assert (Hf : session_by_hash (hash_workspace_session_token token) db'
               = Some (sid, new_session wid user_id token)).
  { unfold session_by_hash. rewrite (first_row_unique _ _ sid (new_session wid user_id token)).
    - cbn. by rewrite Hnew.
    - by rewrite Hsql.
    - done.
    - intros k v Hk Hh. rewrite Hsql, Hs in Hk. cbn in Hk.
      destruct (decide (k = sid)) as [|Hks]; [done|].
      rewrite lookup_insert_ne in Hk by done. by destruct (Hunique k v Hk). }
  cbn. rewrite Hf, !bool_decide_true by done. cbn [negb andb].
  destruct (Z.leb_spec (sess_expires_at (new_session wid user_id token)) env_now) as [H|]; [|done].
  exfalso. cbn in H. unfold seconds in H. lia.
Qed.
End properties.
