(* ===== verification/Capacity.v ===== *)
(** * Capacity: node capacity accounting

    [src/backend/app/services/placement_service/capacity.py]: what the workspaces
    pinned to a node reserve, and what is left of its allocatable capacity.  A
    workspace holds its slot and its reservation unless it is STOPPED, DELETED or
    ERROR.  The SQL subqueries correlate on [ExecutionNode.node_key]; the Python
    helpers take a key, strip it, and clamp at zero. *)

From S2P Require Import Prelude Models.

(** [_WORKSPACE_STATUSES_EXCLUDED_FROM_RESERVATION_SUM] *)
Definition releases_capacity (st : workspace_status) : bool :=
  match st with
  | WorkspaceStatus.STOPPED | WorkspaceStatus.DELETED | WorkspaceStatus.ERROR => true
  | _ => false
  end.

(** The status of a joined [Workspace] row counts toward the sums. *)
Definition holds_slot (db : Db) (wid : Z) : bool :=
  match workspaces db !! wid with
  | Some w => negb (releases_capacity (ws_status w))
  | None => false
  end.

(** [_runtime_pin_predicates_*] joined with the status filter *)
Definition pinned_row (db : Db) (key : string) (kr : Z * WorkspaceRuntime) : bool :=
  bool_decide (rt_node_id kr.2 = Some key) && Py.truthy key && holds_slot db kr.1.

Definition pinned_rows (db : Db) (key : string) : list (Z * WorkspaceRuntime) :=
  List.filter (pinned_row db key) (map_to_list (runtimes db)).

Definition sum_of (f : WorkspaceRuntime → Z) (l : list (Z * WorkspaceRuntime)) : Z :=
  foldr (λ kr acc, f kr.2 + acc) 0 l.

Definition reserved_cpu_sum (db : Db) (key : string) : cpu :=
  sum_of rt_reserved_cpu (pinned_rows db key).
Definition reserved_memory_sum (db : Db) (key : string) : Z :=
  sum_of rt_reserved_memory_mb (pinned_rows db key).
Definition reserved_disk_sum (db : Db) (key : string) : Z :=
  sum_of rt_reserved_disk_mb (pinned_rows db key).

Definition effective_free_cpu (db : Db) (n : ExecutionNode) : cpu :=
  node_allocatable_cpu n - reserved_cpu_sum db (node_node_key n).
Definition effective_free_memory_mb (db : Db) (n : ExecutionNode) : Z :=
  node_allocatable_memory_mb n - reserved_memory_sum db (node_node_key n).
Definition effective_free_disk_mb (db : Db) (n : ExecutionNode) : Z :=
  node_allocatable_disk_mb n - reserved_disk_sum db (node_node_key n).

Definition active_workload_count (db : Db) (key : string) : Z :=
  Z.of_nat (length (pinned_rows db key)).

(** Workspaces assigned to the node by [Workspace.execution_node_id]. *)
Definition workspace_slot_claim_count (db : Db) (nid : Z) : Z :=
  Z.of_nat (length (List.filter
    (λ kw : Z * Workspace, bool_decide (ws_execution_node_id kw.2 = Some nid)
                           && negb (releases_capacity (ws_status kw.2)))
    (map_to_list (workspaces db)))).

(** *** The Python helpers *)

Definition total_reserved_on_node_key (db : Db) (node_key : string) : cpu * Z :=
  let key := Py.strip node_key in
  if Py.truthy key
  then (Z.max 0 (reserved_cpu_sum db key), Z.max 0 (reserved_memory_sum db key))
  else (0, 0).

Definition total_reserved_disk_mb_on_node_key (db : Db) (node_key : string) : Z :=
  let key := Py.strip node_key in
  if Py.truthy key then Z.max 0 (reserved_disk_sum db key) else 0.

Definition count_active_workloads_on_node_key (db : Db) (node_key : string) : Z :=
  let key := Py.strip node_key in
  if Py.truthy key then active_workload_count db key else 0.

Definition count_workspace_slot_claims_on_node_id (db : Db) (nid : option Z) : Z :=
  match nid with None => 0 | Some n => workspace_slot_claim_count db n end.

(** Reservations are never negative (the CHECK constraints of the table). *)
Definition reservations_nonneg (db : Db) : Prop :=
  ∀ wid r, runtimes db !! wid = Some r →
    0 ≤ rt_reserved_cpu r ∧ 0 ≤ rt_reserved_memory_mb r ∧ 0 ≤ rt_reserved_disk_mb r.

Section accounting.
Lemma elem_of_pinned_rows db key wid r :
  (wid, r) ∈ pinned_rows db key ↔
  runtimes db !! wid = Some r ∧ rt_node_id r = Some key ∧ key ≠ ""%string ∧
  holds_slot db wid = true.
Proof.
  unfold pinned_rows. rewrite list_elem_of_In, List.filter_In, <- list_elem_of_In.
  rewrite elem_of_map_to_list. unfold pinned_row, Py.truthy.
  rewrite !andb_true_iff, bool_decide_eq_true, negb_true_iff, String.eqb_neq. tauto.
Qed.

Lemma sum_of_nonneg f l : (∀ kr, kr ∈ l → 0 ≤ f kr.2) → 0 ≤ sum_of f l.
Proof.
  unfold sum_of. induction l as [|kr l IH]; intros Hf; simpl; [lia|].
  pose proof (Hf kr ltac:(left)). specialize (IH ltac:(intros; apply Hf; by right)). lia.
Qed.

Lemma reserved_sums_nonneg db key :
  reservations_nonneg db →
  0 ≤ reserved_cpu_sum db key ∧ 0 ≤ reserved_memory_sum db key ∧
  0 ≤ reserved_disk_sum db key.
Proof.
  intros Hn. split_and!; apply sum_of_nonneg; intros [wid r] Hin;
    apply elem_of_pinned_rows in Hin as (Hr & _); apply (Hn _ _ Hr).
Qed.

(** On a stripped, non-empty key the Python helpers compute the SQL sums. *)
Lemma python_totals_are_sql_sums db key :
  reservations_nonneg db → Py.strip key = key → key ≠ ""%string →
  total_reserved_on_node_key db key = (reserved_cpu_sum db key, reserved_memory_sum db key) ∧
  total_reserved_disk_mb_on_node_key db key = reserved_disk_sum db key ∧
  count_active_workloads_on_node_key db key = active_workload_count db key.
Proof.
  intros Hn Hs Hk. pose proof (reserved_sums_nonneg db key Hn).
  unfold total_reserved_on_node_key, total_reserved_disk_mb_on_node_key,
    count_active_workloads_on_node_key, Py.truthy.
  rewrite Hs, (proj2 (String.eqb_neq key "") Hk). cbn. split_and!; [f_equal; lia|lia|done].
Qed.

(** A workspace that is stopped, deleted or in error consumes nothing on any
    node, whatever its runtime row still says. *)
Lemma released_workspace_not_counted db key wid w r :
  workspaces db !! wid = Some w → releases_capacity (ws_status w) = true →
  (wid, r) ∉ pinned_rows db key.
Proof.
  intros Hw Hrel (_ & _ & _ & H)%elem_of_pinned_rows.
  unfold holds_slot in H. rewrite Hw, Hrel in H. done.
Qed.
End accounting.
