(* ===== verification/Scheduling.v ===== *)
(** * Scheduling: the placement pool, SQL selection and the ranking policy

    [placement_service/node_placement.py], [placement_service/host_resource.py],
    [placement_service/node_heartbeat.py] (freshness) and
    [scheduler_service/policy.py], [scheduler_service/service.py].  A node is
    chosen twice in the code: by an ordered SQL query that reserves it, and by a
    Python filter-and-sort that explains the choice; both are modelled and the
    agreement the comments ask for is the main theorem.  An ORDER BY on
    [node_key] is byte order (the C collation), as in Python. *)

From S2P Require Import Prelude Models Session Capacity.

(** ** Stable sorting *)

Section sorting.
Context {A : Type}.

Fixpoint insert_by (le : A → A → bool) (x : A) (l : list A) : list A :=
  match l with
  | [] => [x]
  | y :: r => if le x y then x :: l else y :: insert_by le x r
  end.
(** [sorted(l)] for the order [le]: stable insertion sort. *)
Definition sort_by (le : A → A → bool) (l : list A) : list A :=
  foldr (insert_by le) [] l.

Lemma insert_by_perm le x l : insert_by le x l ≡ₚ x :: l.
Proof.
  induction l as [|y l IH]; simpl; [done|]. case_match; [done|].
  rewrite IH. apply Permutation_swap.
Qed.
Lemma sort_by_perm le l : sort_by le l ≡ₚ l.
Proof. induction l as [|x l IH]; simpl; [done|]. by rewrite insert_by_perm, IH. Qed.

Lemma insert_by_head le x l :
  (∀ a b, le a b = true ∨ le b a = true) → (∀ a b c, le a b → le b c → le a c) →
  (∀ y z, head l = Some y → z ∈ l → le y z) →
  ∀ y z, head (insert_by le x l) = Some y → z ∈ insert_by le x l → le y z.
Proof.
  intros Htot Htr Hl y z Hy. rewrite insert_by_perm, elem_of_cons.
  assert (Hrefl : ∀ a, le a a) by (intros a; destruct (Htot a a) as [->| ->]; done).
  destruct l as [|h l]; simpl in *.
  - injection Hy as <-. intros [->|Hz]; [apply Hrefl|]. by apply not_elem_of_nil in Hz.
  - destruct (le x h) eqn:E; simpl in Hy; injection Hy as <-.
    + intros [->|Hz]; [apply Hrefl|]. eapply Htr; [by rewrite E|]. by apply Hl.
    + intros [->|Hz]; [|by apply Hl]. by destruct (Htot x h) as [H| ->]; [congruence|].
Qed.

(** The first element of a sorted list is least. *)
Lemma sort_by_head_least le l y z :
  (∀ a b, le a b = true ∨ le b a = true) → (∀ a b c, le a b → le b c → le a c) →
  head (sort_by le l) = Some y → z ∈ l → le y z.
Proof.
  intros Htot Htr. revert y z.
  enough (∀ y z, head (sort_by le l) = Some y → z ∈ sort_by le l → le y z).
  { intros y z Hy Hz. apply (H y z Hy). by rewrite sort_by_perm. }
  induction l as [|x l IH]; simpl; [done|]. by apply insert_by_head.
Qed.

Lemma sort_by_head_in le l y : head (sort_by le l) = Some y → y ∈ l.
Proof.
  intros Hy. rewrite <- (sort_by_perm le l). by apply head_Some_elem_of.
Qed.
Lemma sort_by_nil le l : head (sort_by le l) = None → l = [].
Proof. intros H%head_None. pose proof (sort_by_perm le l). rewrite H in H0. by apply Permutation_nil. Qed.

Lemma insert_by_sorted le x l : (∀ a b, le a b = true ∨ le b a = true) → (∀ a b c, le a b → le b c → le a c) →
  StronglySorted (λ a b, le a b) l → StronglySorted (λ a b, le a b) (insert_by le x l).
Proof.
  intros Htot Htr. induction 1 as [|h l Hl IH Hh]; simpl; [by repeat constructor|].
  destruct (le x h) eqn:E.
  - constructor; [by constructor|]. constructor; [by rewrite E|].
    eapply Forall_impl; [exact Hh|]. intros y Hy. eapply Htr; [by rewrite E|exact Hy].
  - constructor; [done|]. rewrite insert_by_perm. constructor; [|done].
    destruct (Htot x h) as [H| ->]; [congruence|done].
Qed.
Lemma sort_by_sorted le l : (∀ a b, le a b = true ∨ le b a = true) → (∀ a b c, le a b → le b c → le a c) →
  StronglySorted (λ a b, le a b) (sort_by le l).
Proof. intros Htot Htr. induction l as [|x l IH]; simpl; [constructor|by apply insert_by_sorted]. Qed.
End sorting.

(** ** Sort keys *)

Record SortKey := mkSortKey {
  sk_cpu : cpu; sk_memory : Z; sk_disk : Z; sk_workload : Z; sk_node_key : string
}.

Definition lex (c1 c2 : comparison) : comparison :=
  match c1 with Eq => c2 | _ => c1 end.

(** Tuple comparison, field by field. *)
Definition key_compare (a b : SortKey) : comparison :=
  lex (sk_cpu a ?= sk_cpu b)
   (lex (sk_memory a ?= sk_memory b)
     (lex (sk_disk a ?= sk_disk b)
       (lex (sk_workload a ?= sk_workload b)
         (String.compare (sk_node_key a) (sk_node_key b))))).

Definition key_le (a b : SortKey) : bool :=
  match key_compare a b with Gt => false | _ => true end.

Lemma ascii_compare_trans a b c :
  Ascii.compare a b ≠ Gt → Ascii.compare b c ≠ Gt →
  Ascii.compare a c ≠ Gt ∧ (Ascii.compare a c = Eq → Ascii.compare a b = Eq ∧ Ascii.compare b c = Eq).
Proof. unfold Ascii.compare. rewrite !N.compare_le_iff, !N.compare_eq_iff. lia. Qed.

Lemma string_compare_trans a b c :
  String.compare a b ≠ Gt → String.compare b c ≠ Gt →
  String.compare a c ≠ Gt ∧ (String.compare a c = Eq → String.compare a b = Eq ∧ String.compare b c = Eq).
Proof.
  revert b c. induction a as [|x a IH]; intros [|y b] [|z c]; simpl; try done.
  intros H1 H2. pose proof (ascii_compare_trans x y z) as Hc.
  destruct (Ascii.compare x y) eqn:E1, (Ascii.compare y z) eqn:E2; try done;
    destruct Hc as [Hc1 Hc2]; try done;
    destruct (Ascii.compare x z) eqn:E3; try done; try (by destruct Hc2);
    try (by apply IH).
  all: unfold Ascii.compare in *; rewrite ?N.compare_eq_iff, ?N.compare_lt_iff in *; lia.
Qed.

(** A comparison whose "not greater" is transitive, with equality only through
    equality: the closure condition of [lex]. *)
Definition cmp_trans {A} (cmp : A → A → comparison) : Prop :=
  ∀ a b c, cmp a b ≠ Gt → cmp b c ≠ Gt →
    cmp a c ≠ Gt ∧ (cmp a c = Eq → cmp a b = Eq ∧ cmp b c = Eq).

Lemma cmp_trans_Z {A} (f : A → Z) : cmp_trans (λ a b, f a ?= f b).
Proof. intros a b c. rewrite !Z.compare_le_iff, !Z.compare_eq_iff. lia. Qed.

Lemma cmp_trans_lex {A} (c1 c2 : A → A → comparison) :
  cmp_trans c1 → cmp_trans c2 →
  (∀ a b c, c1 a b = Eq → c1 b c = Eq → c1 a c = Eq) →
  cmp_trans (λ a b, lex (c1 a b) (c2 a b)).
Proof.
  intros H1 H2 Heq a b c. specialize (H1 a b c). specialize (H2 a b c). specialize (Heq a b c).
  unfold lex. destruct (c1 a b), (c1 b c); try done; intros Ha Hb;
    destruct H1 as [H1 H1']; try done; destruct (c1 a c); try done;
    try (by destruct H1'); try (by apply H2); by discriminate Heq.
Qed.

Lemma key_compare_trans : cmp_trans key_compare.
Proof.
  unfold key_compare.
  repeat apply (cmp_trans_lex (λ a b : SortKey, _ ?= _));
    try apply cmp_trans_Z; try (intros a b c; rewrite !Z.compare_eq_iff; congruence).
  intros a b c. apply string_compare_trans.
Qed.

Lemma key_le_trans a b c : key_le a b → key_le b c → key_le a c.
Proof.
  unfold key_le. pose proof (key_compare_trans a b c) as H.
  destruct (key_compare a b), (key_compare b c), (key_compare a c); try done;
    by destruct H.
Qed.

Lemma key_compare_antisym a b : key_compare a b = CompOpp (key_compare b a).
Proof.
  unfold key_compare.
  rewrite (Z.compare_antisym (sk_cpu b)), (Z.compare_antisym (sk_memory b)),
    (Z.compare_antisym (sk_disk b)), (Z.compare_antisym (sk_workload b)),
    (String.compare_antisym (sk_node_key b)).
  unfold lex.
  destruct (sk_cpu b ?= sk_cpu a), (sk_memory b ?= sk_memory a), (sk_disk b ?= sk_disk a),
    (sk_workload b ?= sk_workload a); try done.
  by destruct (String.compare _ _).
Qed.

Lemma key_le_total a b : key_le a b = true ∨ key_le b a = true.
Proof.
  unfold key_le. rewrite (key_compare_antisym b a). destruct (key_compare a b); auto.
Qed.

Lemma key_le_antisym a b : key_le a b → key_le b a → sk_node_key a = sk_node_key b.
Proof.
  unfold key_le. rewrite (key_compare_antisym b a).
  destruct (key_compare a b) eqn:E; try done. intros _ _. revert E.
  unfold key_compare, lex. repeat case_match; try done. apply String.compare_eq_iff.
Qed.

(** ** The placement pool *)

Record WorkspaceComputeRequest := mkComputeRequest {
  requested_cpu : cpu; requested_memory_mb : Z; requested_disk_mb : Z; requested_slots : Z
}.

(** A row of [execution_node] with its primary key. *)
Abbreviation node_row := (Z * ExecutionNode)%type (only parsing).

Section pool.
Context {env : Env}.

(** [_provider_type_clause] *)
Definition provider_type_clause (n : ExecutionNode) : bool :=
  let raw := cfg_node_provider env_settings in
  let mode := Py.lower (Py.strip (if Py.truthy raw then raw else "all")) in
  if String.eqb mode "local" then
    match node_provider_type n with
    | ExecutionNodeProviderType.LOCAL | ExecutionNodeProviderType.UNSPECIFIED => true
    | _ => false
    end
  else if String.eqb mode "ec2" then
    bool_decide (node_provider_type n = ExecutionNodeProviderType.EC2)
  else true.

Definition ready_schedulable_provider_predicates (n : ExecutionNode) : bool :=
  node_schedulable n && bool_decide (node_status n = ExecutionNodeStatus.READY)
  && provider_type_clause n.

(** [SELECT MIN(id)] over the rows satisfying [P]; NULL when there are none *)
Definition min_id (P : ExecutionNode → bool) (l : list node_row) : option Z :=
  foldr (λ kn acc, if P kn.2
                   then Some (match acc with None => kn.1 | Some m => Z.min kn.1 m end)
                   else acc) None l.

(** [_single_node_primary_id_clause] *)
Definition single_node_primary_id_clause (db : Db) (nid : Z) : bool :=
  cfg_enable_multi_node_scheduling env_settings ||
  bool_decide (min_id ready_schedulable_provider_predicates (map_to_list (nodes db)) = Some nid).

(** [resource_stale_cutoff_utc] *)
Definition resource_stale_cutoff : time :=
  let interval := Z.max 10 (cfg_node_resource_check_interval_seconds env_settings) in
  env_now - seconds (Z.max (interval * 3) (interval + 120)).

(** [ec2_host_resource_placement_predicates] *)
Definition ec2_host_resource_placement_predicates (n : ExecutionNode) : bool :=
  negb (cfg_node_resource_monitor_enabled env_settings) ||
  negb (bool_decide (node_provider_type n = ExecutionNodeProviderType.EC2)) ||
  match node_disk_free_mb n, node_memory_free_mb n, node_last_resource_check_at n with
  | Some d, Some m, Some t =>
      (cfg_node_min_free_disk_mb env_settings <=? d) &&
      (cfg_node_min_free_memory_mb env_settings <=? m) &&
      (resource_stale_cutoff <=? t) &&
      match node_resource_status n with
      | Some ExecutionNodeResourceStatus.LOW_DISK
      | Some ExecutionNodeResourceStatus.LOW_MEMORY => false
      | _ => true
      end
  | _, _, _ => false
  end.

(** [_schedulable_base_predicates] *)
Definition schedulable_base_predicates (db : Db) (kn : node_row) : bool :=
  ready_schedulable_provider_predicates kn.2 &&
  single_node_primary_id_clause db kn.1 &&
  ec2_host_resource_placement_predicates kn.2.

(** [heartbeat_fresh_sql_predicates] *)
Definition heartbeat_fresh_predicates (n : ExecutionNode) : bool :=
  negb (cfg_require_fresh_node_heartbeat env_settings) ||
  let age := cfg_node_heartbeat_max_age_seconds env_settings in
  let max_age := if age =? 0 then 300 else age in
  match node_last_heartbeat_at n with
  | None => false
  | Some t => env_now - seconds max_age <=? t
  end.

(** [list_schedulable_nodes]: ordered by node_key *)
Definition list_schedulable_nodes (db : Db) : list node_row :=
  sort_by (λ a b, match String.compare (node_node_key a.2) (node_node_key b.2) with
                  | Gt => false | _ => true end)
    (List.filter (schedulable_base_predicates db) (map_to_list (nodes db))).
End pool.

(** ** Selection by SQL *)

Section selection.
Context {env : Env}.

(** The WHERE clause of [select_node_for_workspace]. *)
Definition sql_candidate (db : Db) (req : WorkspaceComputeRequest) (kn : node_row) : bool :=
  let n := kn.2 in
  schedulable_base_predicates db kn &&
  heartbeat_fresh_predicates n &&
  (requested_cpu req <=? effective_free_cpu db n) &&
  (requested_memory_mb req <=? effective_free_memory_mb db n) &&
  (requested_disk_mb req <=? effective_free_disk_mb db n) &&
  (workspace_slot_claim_count db kn.1 <=? node_max_workspaces n - requested_slots req) &&
  (active_workload_count db (node_node_key n) <=? node_max_workspaces n - requested_slots req).

(** The ORDER BY clause: residual CPU, memory, disk ascending, workloads
    descending, node_key ascending. *)
Definition sql_order_key (db : Db) (req : WorkspaceComputeRequest) (kn : node_row) : SortKey :=
  let n := kn.2 in
  {| sk_cpu := effective_free_cpu db n - requested_cpu req;
     sk_memory := effective_free_memory_mb db n - requested_memory_mb req;
     sk_disk := effective_free_disk_mb db n - requested_disk_mb req;
     sk_workload := - active_workload_count db (node_node_key n);
     sk_node_key := node_node_key n |}.

Definition order_by (key : node_row → SortKey) (l : list node_row) : list node_row :=
  sort_by (λ a b, key_le (key a) (key b)) l.

(** [session.exec(stmt).first()] *)
Definition sql_select_node (db : Db) (req : WorkspaceComputeRequest) : option node_row :=
  head (order_by (sql_order_key db req)
          (List.filter (sql_candidate db req) (map_to_list (nodes db)))).

(** [_assign_missing_default_topology_for_ready_nodes] with
    [ensure_execution_node_default_topology]; the topology row itself is only
    created in development. *)
Definition system_default_topology_id : Z := 1.
Definition needs_default_topology (n : ExecutionNode) : bool :=
  bool_decide (node_status n = ExecutionNodeStatus.READY) && node_schedulable n &&
  bool_decide (node_default_topology_id n = None).
Definition is_development_env : bool :=
  String.eqb (Py.lower (Py.strip (cfg_devnest_env env_settings))) "development".
Definition assign_missing_default_topology (db : Db) : Db :=
  let hit := List.existsb (λ kn : node_row, needs_default_topology kn.2) (map_to_list (nodes db)) in
  db <| nodes ::= fmap (λ n, if needs_default_topology n
                             then n <| node_default_topology_id := Some system_default_topology_id |>
                             else n) |>
     <| topologies ::= λ t, if hit && is_development_env
                            then {[system_default_topology_id]} ∪ t else t |>.

Context {W : Type}.

Definition default_request (c : option cpu) (m d s : option Z) : WorkspaceComputeRequest :=
  {| requested_cpu := default (cfg_required_cpu env_settings) c;
     requested_memory_mb := default (cfg_required_memory_mb env_settings) m;
     requested_disk_mb := default (cfg_required_disk_mb env_settings) d;
     requested_slots := default (cfg_required_slots env_settings) s |}.

(** The diagnostics appended to the two messages are left out. *)
Definition select_node_for_workspace (req : WorkspaceComputeRequest) : M W node_row :=
  on_db assign_missing_default_topology ;;
  if (requested_cpu req <=? 0) || (requested_memory_mb req <=? 0)
     || (requested_disk_mb req <=? 0) || (requested_slots req <=? 0)
  then raise (InvalidPlacementParametersError
    "placement requires positive requested_cpu, requested_memory_mb, requested_disk_mb, and requested_slots")
  else
    found ← query (λ db, sql_select_node db req);
    match found with
    | Some kn => mret kn
    | None => raise (NoSchedulableNodeError "no execution node matches placement policy")
    end.

Definition reserve_node_for_workspace := select_node_for_workspace.

(** [WorkspaceScheduleResult] *)
Record WorkspaceScheduleResult := mkScheduleResult {
  sched_execution_node : option node_row;
  sched_insufficient_capacity : bool;
  sched_invalid_request : bool;
  sched_message : string
}.

(** The explanation logged on success reads only and swallows its errors. *)
Definition schedule_workspace (c : option cpu) (m d : option Z) : M W WorkspaceScheduleResult :=
  try_except
    (kn ← reserve_node_for_workspace (default_request c m d None);
     mret (mkScheduleResult (Some kn) false false "ok"))
    (λ e, match e with
          | InvalidPlacementParametersError msg => mret (mkScheduleResult None false true msg)
          | NoSchedulableNodeError msg => mret (mkScheduleResult None true false msg)
          | _ => raise e
          end).
End selection.

(** ** The Python ranking (scheduler_service/policy.py) *)

(** [round(x, 6)] on nano-cores: to a multiple of 1000, ties to even. *)
Definition round6 (n : cpu) : cpu :=
  let q := n / 1000 in
  let r := n mod 1000 in
  1000 * (if r <? 500 then q else if 500 <? r then q + 1 else if Z.even q then q else q + 1).

Definition scheduling_sort_key_packing (free_cpu : cpu) (free_mem free_disk workload_count : Z)
    (req : WorkspaceComputeRequest) (node_key : string) : SortKey :=
  {| sk_cpu := round6 (free_cpu - requested_cpu req);
     sk_memory := free_mem - requested_memory_mb req;
     sk_disk := free_disk - requested_disk_mb req;
     sk_workload := - workload_count;
     sk_node_key := Py.strip node_key |}.

Definition can_fit_workspace_effective (free_cpu : cpu) (free_mem free_disk : Z)
    (req : WorkspaceComputeRequest) : bool :=
  negb (free_cpu <? requested_cpu req) && negb (free_mem <? requested_memory_mb req)
  && negb (free_disk <? requested_disk_mb req).

(** [_is_v1_scheduling_candidate] *)
Definition is_v1_scheduling_candidate (n : ExecutionNode) : bool :=
  node_schedulable n && bool_decide (node_status n = ExecutionNodeStatus.READY).

(** The body of the loop of [rank_candidate_nodes]: the node's score, if kept. *)
Definition score_node (db : Db) (req : WorkspaceComputeRequest) (kn : node_row)
    : option (SortKey * node_row) :=
  let n := kn.2 in
  if negb (is_v1_scheduling_candidate n) then None else
  let k := Py.strip (node_node_key n) in
  let '(used_c, used_m) := total_reserved_on_node_key db k in
  let used_d := total_reserved_disk_mb_on_node_key db k in
  let free_c := Z.max 0 (node_allocatable_cpu n - used_c) in
  let free_m := Z.max 0 (node_allocatable_memory_mb n - used_m) in
  let free_d := Z.max 0 (node_allocatable_disk_mb n - used_d) in
  let wcount := count_active_workloads_on_node_key db k in
  let slot_claims := count_workspace_slot_claims_on_node_id db (Some kn.1) in
  if negb (can_fit_workspace_effective free_c free_m free_d req) then None else
  let free_slots := Z.max 0 (node_max_workspaces n - Z.max wcount slot_claims) in
  if free_slots <? requested_slots req then None else
  Some (scheduling_sort_key_packing free_c free_m free_d wcount req k, kn).

Definition rank_candidate_nodes (db : Db) (l : list node_row) (req : WorkspaceComputeRequest)
    : list node_row :=
  snd <$> sort_by (λ a b, key_le a.1 b.1) (omap (score_node db req) l).

(** ** Properties *)

Section properties.
Context {env : Env}.

Definition key_order_le (key : node_row → SortKey) (a b : node_row) : bool :=
  key_le (key a) (key b).

Lemma sql_select_spec db req kn :
  sql_select_node db req = Some kn →
  nodes db !! kn.1 = Some kn.2 ∧ sql_candidate db req kn = true ∧
  ∀ kn', nodes db !! kn'.1 = Some kn'.2 → sql_candidate db req kn' = true →
         key_le (sql_order_key db req kn) (sql_order_key db req kn').
Proof.
  unfold sql_select_node, order_by. intros Hh.
  assert (Hmem : ∀ x, x ∈ List.filter (sql_candidate db req) (map_to_list (nodes db)) ↔
                 nodes db !! x.1 = Some x.2 ∧ sql_candidate db req x = true).
  { intros [i n]. by rewrite list_elem_of_In, List.filter_In, <- list_elem_of_In, elem_of_map_to_list. }
  pose proof (proj1 (Hmem kn) (sort_by_head_in _ _ _ Hh)) as [H1 H2].
  split_and!; [done|done|]. intros kn' H3 H4.
  apply (sort_by_head_least (λ a b, key_le (sql_order_key db req a) (sql_order_key db req b)) _ kn kn'
           ltac:(intros; apply key_le_total) ltac:(intros ???; apply key_le_trans) Hh).
  by apply Hmem.
Qed.

Lemma sql_select_None db req kn :
  sql_select_node db req = None → nodes db !! kn.1 = Some kn.2 → sql_candidate db req kn = false.
Proof.
  unfold sql_select_node, order_by. intros Hh Hk. apply sort_by_nil in Hh.
  destruct (sql_candidate db req kn) eqn:E; [exfalso|done].
  assert (Hin : kn ∈ List.filter (sql_candidate db req) (map_to_list (nodes db))).
  { rewrite list_elem_of_In, List.filter_In, <- list_elem_of_In. destruct kn.
    by rewrite elem_of_map_to_list. }
  rewrite Hh in Hin. by apply not_elem_of_nil in Hin.
Qed.

Lemma sql_candidate_spec db req kn :
  sql_candidate db req kn = true →
  node_status kn.2 = ExecutionNodeStatus.READY ∧ node_schedulable kn.2 = true ∧
  reserved_cpu_sum db (node_node_key kn.2) + requested_cpu req ≤ node_allocatable_cpu kn.2 ∧
  reserved_memory_sum db (node_node_key kn.2) + requested_memory_mb req ≤ node_allocatable_memory_mb kn.2 ∧
  reserved_disk_sum db (node_node_key kn.2) + requested_disk_mb req ≤ node_allocatable_disk_mb kn.2 ∧
  active_workload_count db (node_node_key kn.2) + requested_slots req ≤ node_max_workspaces kn.2 ∧
  workspace_slot_claim_count db kn.1 + requested_slots req ≤ node_max_workspaces kn.2.
Proof.
  unfold sql_candidate, schedulable_base_predicates, ready_schedulable_provider_predicates,
    effective_free_cpu, effective_free_memory_mb, effective_free_disk_mb.
  rewrite !andb_true_iff, bool_decide_eq_true, !Z.leb_le. intuition lia.
Qed.

Lemma min_id_None P (l : list node_row) nid n :
  min_id P l = None → (nid, n) ∈ l → P n = true → False.
Proof.
  intros Hmin Hin HP. induction l as [|[i m] l IH]; [by apply not_elem_of_nil in Hin|].
  cbn in Hmin. apply elem_of_cons in Hin as [[= <- <-]|Hin]; [by rewrite HP in Hmin|].
  destruct (P m); [done|]. by apply IH.
Qed.

Lemma min_id_le P (l : list node_row) k nid n :
  min_id P l = Some k → (nid, n) ∈ l → P n = true → k ≤ nid.
Proof.
  intros Hmin Hin HP. revert k Hmin. induction l as [|[i m] l IH]; intros k; cbn.
  { by apply not_elem_of_nil in Hin. }
  apply elem_of_cons in Hin as [[= <- <-]|Hin].
  - rewrite HP. intros [= <-]. case_match; lia.
  - specialize (IH Hin). destruct (P m); [|apply IH]. fold (min_id P l).
    destruct (min_id P l) as [j|] eqn:E; intros [= <-].
    + specialize (IH _ eq_refl). lia.
    + exfalso. by eapply min_id_None.
Qed.

(** Selection changes nothing but the default topologies it assigns. *)
Lemma wp_select_node {W} (req : WorkspaceComputeRequest) (Q : node_row → St W → Prop) X s :
  (∀ kn, let s' := s <| st_db ::= assign_missing_default_topology |> in
     nodes (st_db s') !! kn.1 = Some kn.2 → sql_candidate (st_db s') req kn = true → Q kn s') →
  (∀ e, let s' := s <| st_db ::= assign_missing_default_topology |> in
     is_placement_error e = true → X e s') →
  wp (select_node_for_workspace req) Q X s.
Proof.
  intros HQ HX. unfold select_node_for_workspace. wp_db.
  destruct (_ || _); wp_db; [by apply HX|].
  destruct (sql_select_node _ req) as [kn|] eqn:Hs; wp_db; [|by apply HX].
  apply sql_select_spec in Hs as (H1 & H2 & _). by apply HQ.
Qed.

(** C16. Placement never overcommits: the node it reserves is READY and
    schedulable, has room for the request in CPU, memory, disk and workspace
    slots on top of everything already reserved there, and leaves the least
    residual capacity of all candidates (best fit, the sort policy of the docstring and
    of the code; documents under docs/ describe a spread over the freest nodes); and
    when it gives up, either the request was not positive or no node of the catalog is
    a candidate. *)
Theorem placement_is_sound_best_fit {W} (s : St W) (req : WorkspaceComputeRequest) :
  let '(s', res) := select_node_for_workspace req s in
  let db := st_db s' in
  match res with
  | inl kn =>
      nodes db !! kn.1 = Some kn.2 ∧
      node_status kn.2 = ExecutionNodeStatus.READY ∧ node_schedulable kn.2 = true ∧
      reserved_cpu_sum db (node_node_key kn.2) + requested_cpu req ≤ node_allocatable_cpu kn.2 ∧
      reserved_memory_sum db (node_node_key kn.2) + requested_memory_mb req
        ≤ node_allocatable_memory_mb kn.2 ∧
      reserved_disk_sum db (node_node_key kn.2) + requested_disk_mb req
        ≤ node_allocatable_disk_mb kn.2 ∧
      active_workload_count db (node_node_key kn.2) + requested_slots req
        ≤ node_max_workspaces kn.2 ∧
      workspace_slot_claim_count db kn.1 + requested_slots req ≤ node_max_workspaces kn.2 ∧
      ∀ kn', nodes db !! kn'.1 = Some kn'.2 → sql_candidate db req kn' = true →
             key_le (sql_order_key db req kn) (sql_order_key db req kn')
  | inr (InvalidPlacementParametersError _) =>
      requested_cpu req ≤ 0 ∨ requested_memory_mb req ≤ 0 ∨ requested_disk_mb req ≤ 0 ∨
      requested_slots req ≤ 0
  | inr (NoSchedulableNodeError _) =>
      ∀ kn, nodes db !! kn.1 = Some kn.2 → sql_candidate db req kn = false
  | inr _ => False
  end.
Proof.
  unfold select_node_for_workspace. cbv [mbind eff_bind on_db modify query gets mret eff_ret raise].
  destruct (_ || _) eqn:E; cbn.
  { rewrite !orb_true_iff, !Z.leb_le in E. tauto. }
  destruct (sql_select_node _ req) as [kn|] eqn:Hs; cbn.
  - apply sql_select_spec in Hs as (H1 & H2 & H3).
    pose proof (sql_candidate_spec _ _ _ H2). tauto.
  - intros kn Hkn. eapply sql_select_None; [exact Hs|exact Hkn].
Qed.

(** With the single-node gate on, the only node ever chosen is the one of
    lowest id among the READY, schedulable rows of the provider pool. *)
Lemma single_node_gate_picks_primary {W} (s s' : St W) (req : WorkspaceComputeRequest) kn
    (Hgate : cfg_enable_multi_node_scheduling env_settings = false)
    (Hrun : select_node_for_workspace req s = (s', inl kn)) :
  ∀ nid n, nodes (st_db s') !! nid = Some n →
           ready_schedulable_provider_predicates n = true → kn.1 ≤ nid.
Proof.
  revert Hrun. unfold select_node_for_workspace.
  cbv [mbind eff_bind on_db modify query gets mret eff_ret raise].
  destruct (_ || _); [done|]. destruct (sql_select_node _ req) as [kn'|] eqn:Hs; [|done].
  intros [= <- <-] nid n Hn Hp. apply sql_select_spec in Hs as (_ & Hc & _).
  unfold sql_candidate, schedulable_base_predicates in Hc.
  rewrite !andb_true_iff in Hc. destruct Hc as [[[[[[[[_ Hmin] _] _] _] _] _] _] _].
  unfold single_node_primary_id_clause in Hmin. rewrite Hgate in Hmin. cbn in Hmin.
  apply bool_decide_eq_true in Hmin. eapply min_id_le; [exact Hmin| |exact Hp].
  apply elem_of_map_to_list. exact Hn.
Qed.

(** *** The two selections agree *)

Lemma rank_head_Some db l req kn :
  head (rank_candidate_nodes db l req) = Some kn →
  kn ∈ l ∧ ∃ k, score_node db req kn = Some (k, kn) ∧
  ∀ kn' k', kn' ∈ l → score_node db req kn' = Some (k', kn') → key_le k k'.
Proof.
  unfold rank_candidate_nodes. set (L := omap (score_node db req) l).
  destruct (sort_by _ L) as [|[k x] rest] eqn:E; [done|]. intros [= ->].
  assert (Hh : head (sort_by (λ a b, key_le a.1 b.1) L) = Some (k, kn)) by (rewrite E; done).
  pose proof (sort_by_head_in _ _ _ Hh) as Hin.
  assert (Hsnd : ∀ a b, score_node db req a = Some b → b.2 = a).
  { intros a b. unfold score_node. repeat case_match; try done. by intros [= <-]. }
  apply list_elem_of_omap in Hin as (kn0 & Hin & Hsc).
  pose proof (Hsnd _ _ Hsc) as Hs. cbn in Hs. subst kn0. split; [done|].
  exists k. split; [done|]. intros kn' k' Hin' Hsc'.
  apply (sort_by_head_least (λ a b, key_le a.1 b.1) L (k, kn) (k', kn')
           ltac:(intros; apply key_le_total) ltac:(intros ???; apply key_le_trans) Hh).
  apply list_elem_of_omap. eauto.
Qed.

Lemma rank_head_None db l req kn :
  head (rank_candidate_nodes db l req) = None → kn ∈ l → score_node db req kn = None.
Proof.
  unfold rank_candidate_nodes. set (L := omap (score_node db req) l).
  destruct (sort_by _ L) as [|x rest] eqn:E; [|done]. intros _ Hin.
  destruct (score_node db req kn) as [k|] eqn:Hsc; [|done].
  assert (Hk : k ∈ L) by (apply list_elem_of_omap; eauto).
  rewrite (sort_by_nil (λ a b, key_le a.1 b.1) L) in Hk by (rewrite E; done).
  by apply not_elem_of_nil in Hk.
Qed.

Lemma elem_of_list_schedulable_nodes db kn :
  kn ∈ list_schedulable_nodes db ↔
  nodes db !! kn.1 = Some kn.2 ∧ schedulable_base_predicates db kn = true.
Proof.
  unfold list_schedulable_nodes. rewrite sort_by_perm, list_elem_of_In, List.filter_In,
    <- list_elem_of_In. destruct kn. by rewrite elem_of_map_to_list.
Qed.

(** The node keys of the catalog are unique (a UNIQUE column) and stored
    stripped and non-empty. *)
Definition node_keys_wf (db : Db) : Prop :=
  (∀ i n, nodes db !! i = Some n →
     Py.strip (node_node_key n) = node_node_key n ∧ node_node_key n ≠ ""%string) ∧
  (∀ i j n m, nodes db !! i = Some n → nodes db !! j = Some m →
     node_node_key n = node_node_key m → i = j).

(** Every free-CPU residual is a whole number of micro-cores, so [round(_, 6)]
    changes nothing. *)
Definition micro_core_residuals (db : Db) (req : WorkspaceComputeRequest) : Prop :=
  ∀ i n, nodes db !! i = Some n → (effective_free_cpu db n - requested_cpu req) mod 1000 = 0.

Definition request_positive (req : WorkspaceComputeRequest) : Prop :=
  0 < requested_cpu req ∧ 0 < requested_memory_mb req ∧ 0 < requested_disk_mb req ∧
  0 < requested_slots req.

Lemma round6_exact n : n mod 1000 = 0 → round6 n = n.
Proof.
  intros H. unfold round6. rewrite H. cbn. rewrite (Z.div_mod n 1000) at 2 by lia. lia.
Qed.

Lemma fit_clamped a u r : 0 < r → negb (Z.max 0 (a - u) <? r) = (r <=? a - u).
Proof. intros. destruct (Z.ltb_spec (Z.max 0 (a - u)) r), (Z.leb_spec r (a - u)); lia. Qed.

Lemma slots_clamped m w c r :
  0 < r → (Z.max 0 (m - Z.max w c) <? r) = negb ((c <=? m - r) && (w <=? m - r)).
Proof.
  intros. destruct (Z.ltb_spec (Z.max 0 (m - Z.max w c)) r), (Z.leb_spec c (m - r)),
    (Z.leb_spec w (m - r)); cbn; lia.
Qed.

(** On the rows of the pool, the Python filter and score are the SQL ones. *)
Lemma score_node_is_sql db req kn :
  cfg_require_fresh_node_heartbeat env_settings = false →
  reservations_nonneg db → node_keys_wf db → micro_core_residuals db req →
  request_positive req →
  nodes db !! kn.1 = Some kn.2 → schedulable_base_predicates db kn = true →
  score_node db req kn =
  if sql_candidate db req kn then Some (sql_order_key db req kn, kn) else None.
Proof.
  intros Hhb Hres Hwf Hmicro (Hc & Hm & Hd & Hs) Hn Hbase.
  destruct (proj1 Hwf _ _ Hn) as [Hstrip Hne].
  destruct (python_totals_are_sql_sums db _ Hres Hstrip Hne) as (E1 & E2 & E3).
  unfold score_node, sql_candidate, heartbeat_fresh_predicates.
  rewrite Hbase, Hhb, Hstrip, E1, E2, E3.
  replace (is_v1_scheduling_candidate kn.2) with true; cbn [negb andb orb].
  2:{ symmetry. unfold schedulable_base_predicates, ready_schedulable_provider_predicates in Hbase.
      rewrite !andb_true_iff in Hbase. unfold is_v1_scheduling_candidate. rewrite andb_true_iff. tauto. }
  unfold can_fit_workspace_effective. rewrite !fit_clamped by done.
  rewrite slots_clamped by done.
  unfold effective_free_cpu, effective_free_memory_mb, effective_free_disk_mb,
    count_workspace_slot_claims_on_node_id.
  destruct (Z.leb_spec (requested_cpu req) (node_allocatable_cpu kn.2 - reserved_cpu_sum db (node_node_key kn.2))); [|done].
  destruct (Z.leb_spec (requested_memory_mb req) (node_allocatable_memory_mb kn.2 - reserved_memory_sum db (node_node_key kn.2))); [|done].
  destruct (Z.leb_spec (requested_disk_mb req) (node_allocatable_disk_mb kn.2 - reserved_disk_sum db (node_node_key kn.2))); [|done].
  cbn [negb andb]. destruct (_ && _); [|done]. cbn [negb]. do 2 f_equal.
  unfold scheduling_sort_key_packing, sql_order_key, effective_free_cpu,
    effective_free_memory_mb, effective_free_disk_mb. rewrite Hstrip.
  specialize (Hmicro _ _ Hn). unfold effective_free_cpu in Hmicro.
  rewrite !Z.max_r by lia. by rewrite round6_exact.
Qed.

(** C17. The SQL selection and the Python ranking it must stay aligned with pick
    the same node, or both none, whenever the heartbeat gate (which only the SQL
    applies) is off and no CPU residual is finer than the six decimals the
    Python key rounds to. *)
Theorem sql_selection_agrees_with_ranking (db : Db) (req : WorkspaceComputeRequest)
    (Hhb : cfg_require_fresh_node_heartbeat env_settings = false)
    (Hres : reservations_nonneg db)
    (Hkeys : node_keys_wf db)
    (Hmicro : micro_core_residuals db req)
    (Hreq : request_positive req) :
  sql_select_node db req = head (rank_candidate_nodes db (list_schedulable_nodes db) req).
Proof.
  assert (Hscore : ∀ kn, kn ∈ list_schedulable_nodes db → score_node db req kn =
            if sql_candidate db req kn then Some (sql_order_key db req kn, kn) else None).
  { intros kn [H1 H2]%elem_of_list_schedulable_nodes. by apply score_node_is_sql. }
  assert (Hin : ∀ kn, nodes db !! kn.1 = Some kn.2 → sql_candidate db req kn = true →
            kn ∈ list_schedulable_nodes db).
  { intros kn H1 H2. apply elem_of_list_schedulable_nodes. split; [done|].
    unfold sql_candidate in H2. rewrite !andb_true_iff in H2. tauto. }
  destruct (sql_select_node db req) as [kn|] eqn:E1;
    destruct (head (rank_candidate_nodes _ _ _)) as [kn2|] eqn:E2; [| | |done].
  - apply sql_select_spec in E1 as (Hk & Hc & Hleast).
    apply rank_head_Some in E2 as (Hin2 & k & Hk2 & Hleast2).
    pose proof (Hscore _ Hin2) as Hs2. rewrite Hk2 in Hs2.
    destruct (sql_candidate db req kn2) eqn:Hc2; [|done]. injection Hs2 as ->.
    pose proof (proj1 (elem_of_list_schedulable_nodes _ _) Hin2) as [Hk2' _].
    assert (Hkey : node_node_key kn.2 = node_node_key kn2.2).
    { apply (key_le_antisym (sql_order_key db req kn) (sql_order_key db req kn2)); [by apply Hleast|].
      apply (Hleast2 kn); [by apply Hin|]. by rewrite Hscore, Hc by (by apply Hin). }
    assert (kn.1 = kn2.1) as Hid by (by eapply (proj2 Hkeys)).
    destruct kn, kn2; cbn in *; subst. congruence.
  - apply sql_select_spec in E1 as (Hk & Hc & _).
    pose proof (rank_head_None _ _ _ _ E2 (Hin _ Hk Hc)) as Hs.
    rewrite Hscore, Hc in Hs by (by apply Hin). done.
  - apply rank_head_Some in E2 as (Hin2 & k & Hk2 & _).
    rewrite Hscore in Hk2 by done. apply elem_of_list_schedulable_nodes in Hin2 as [Hk _].
    by rewrite (sql_select_None _ _ _ E1 Hk) in Hk2.
Qed.
End properties.
