(* ===== verification/Placement.v ===== *)
(** * Placement: which node and topology a job runs on

    [placement_service/orchestrator_binding.py] with [runtime_policy.py] and
    [operator_pinned_create.py]: a job is bound to the node and topology of the
    workspace's runtime row, to a freshly scheduled node, to the pinned node of an
    operator test workspace, or, in development only, to the environment's
    defaults.  Error messages keep their first clause. *)

From S2P Require Import Prelude Models Session Scheduling.

(** ** runtime_policy.py *)

Definition runtime_placement_row_complete (rt : option WorkspaceRuntime) : bool :=
  match rt with
  | None => false
  | Some r => Py.truthy (Py.strip_opt (rt_node_id r)) && bool_decide (is_Some (rt_topology_id r))
  end.

Section runtime_policy.
Context {env : Env}.

Definition runtime_env_fallback_allowed : bool :=
  String.eqb (cfg_devnest_env env_settings) "development"
  && cfg_allow_runtime_env_fallback env_settings.
Definition placement_strict_enforced : bool := negb runtime_env_fallback_allowed.
Definition authoritative_container_ref_required : bool := placement_strict_enforced.

(** *** operator_pinned_create.py *)

Definition PINNED_OPERATOR_TEST_WORKSPACE_NAME_PREFIX : string := "devnest-op-pinned-test-".

Definition workspace_uses_operator_pinned_create (ws : Workspace) : bool :=
  cfg_allow_pinned_create_placement env_settings &&
  match ws_execution_node_id ws with
  | None => false
  | Some nid =>
      bool_decide (nid ∈ cfg_pinned_create_execution_node_ids env_settings) &&
      Py.startswith PINNED_OPERATOR_TEST_WORKSPACE_NAME_PREFIX (Py.strip (ws_name ws))
  end.

(** [execution_node_heartbeat_within_max_age] *)
Definition execution_node_heartbeat_within_max_age (n : ExecutionNode) : bool :=
  let age := cfg_node_heartbeat_max_age_seconds env_settings in
  let max_age := if age =? 0 then 300 else age in
  match node_last_heartbeat_at n with
  | None => false
  | Some t => negb (t <? env_now - seconds max_age)
  end.
End runtime_policy.

(** [_JOBS_NEED_RUNTIME_PLACEMENT] *)
Definition job_needs_runtime_placement (jt : workspace_job_type) : bool :=
  match jt with
  | WorkspaceJobType.START | WorkspaceJobType.STOP | WorkspaceJobType.DELETE
  | WorkspaceJobType.RECONCILE_RUNTIME | WorkspaceJobType.RESTART | WorkspaceJobType.UPDATE
  | WorkspaceJobType.SNAPSHOT_CREATE | WorkspaceJobType.SNAPSHOT_RESTORE
  | WorkspaceJobType.REPO_IMPORT => true
  | WorkspaceJobType.CREATE | WorkspaceJobType.Unrecognized _ => false
  end.

(** [_SNAPSHOT_JOB_TYPES] *)
Definition is_snapshot_job (jt : workspace_job_type) : bool :=
  match jt with
  | WorkspaceJobType.SNAPSHOT_CREATE | WorkspaceJobType.SNAPSHOT_RESTORE => true
  | _ => false
  end.

Section placement.
Context {W : Type} {env : Env}.

Definition validate_operator_pinned_create_node_gates (n : ExecutionNode) : M W unit :=
  if negb (cfg_enable_multi_node_scheduling env_settings) then
    raise (InvalidPlacementParametersError
      "Pinned operator CREATE requires DEVNEST_ENABLE_MULTI_NODE_SCHEDULING=true")
  else if negb (execution_node_heartbeat_within_max_age n) then
    raise (InvalidPlacementParametersError
      "Pinned operator CREATE requires a fresh execution node heartbeat")
  else mret tt.

Definition validate_topology_catalog_exists (tid : Z) : M W unit :=
  known ← query (λ db, bool_decide (tid ∈ topologies db));
  if known : bool then mret tt
  else raise (InvalidPlacementParametersError
         ("topology id " ++ Py.str_of_Z tid ++ " has no Topology catalog row.")).

(** The topology of a node new work is placed on. *)
Definition node_topology (n : ExecutionNode) (missing : string) : M W Z :=
  match node_default_topology_id n with
  | Some t => mret t
  | None => if placement_strict_enforced then raise (InvalidPlacementParametersError missing)
            else mret (cfg_env_topology_id env_settings)
  end.

Definition schedule_workspace_placement : M W (string * Z) :=
  sch ← schedule_workspace None None None;
  if sched_invalid_request sch then raise (InvalidPlacementParametersError (sched_message sch))
  else match sched_execution_node sch with
  | None => raise (NoSchedulableNodeError (sched_message sch))
  | Some (_, n) =>
      tid ← node_topology n
        "Strict production/staging placement requires execution_node.default_topology_id for new workload placement";
      validate_topology_catalog_exists tid ;;
      mret (node_node_key n, tid)
  end.

Definition pinned_operator_create_placement (ws : Workspace) : M W (string * Z) :=
  match ws_execution_node_id ws with
  | None => raise AssertionError
  | Some nid =>
      found ← query (λ db, nodes db !! nid);
      match found with
      | None => raise (InvalidPlacementParametersError
          ("pinned CREATE: execution_node id=" ++ Py.str_of_Z nid ++ " not found"))
      | Some n =>
          if negb (bool_decide (node_status n = ExecutionNodeStatus.READY)) then
            raise (InvalidPlacementParametersError "pinned CREATE: execution_node is not READY")
          else if negb (node_schedulable n) then
            raise (InvalidPlacementParametersError "pinned CREATE: execution_node is not schedulable")
          else
            validate_operator_pinned_create_node_gates n ;;
            tid ← node_topology n
              "Strict production/staging placement requires execution_node.default_topology_id for pinned operator CREATE";
            validate_topology_catalog_exists tid ;;
            let nk := Py.strip (node_node_key n) in
            if negb (Py.truthy nk) then
              raise (InvalidPlacementParametersError "pinned CREATE: execution_node has empty node_key")
            else mret (nk, tid)
      end
  end.

(** [_execution_node_by_key] *)
Definition execution_node_by_key (node_key : string) : M W (option ExecutionNode) :=
  let nk := Py.strip node_key in
  if negb (Py.truthy nk) then mret None
  else query (λ db, snd <$> find_node nk db).

Definition snapshot_placement_from_runtime_or_workspace (ws : Workspace)
    (rt : option WorkspaceRuntime) : M W (option (string * Z)) :=
  let rt_key := match rt with Some r => Py.strip_opt (rt_node_id r) | None => ""%string end in
  let rt_topology := rt ≫= rt_topology_id in
  node_from_workspace ← query (λ db, ws_execution_node_id ws ≫= λ nid, nodes db !! nid);
  let nk := if Py.truthy rt_key then rt_key
            else match node_from_workspace with
                 | Some n => Py.strip (node_node_key n)
                 | None => rt_key
                 end in
  if negb (Py.truthy nk) then mret None else
  catalog_node ←
    match node_from_workspace with
    | Some n => if String.eqb (Py.strip (node_node_key n)) nk then mret (Some n)
                else execution_node_by_key nk
    | None => execution_node_by_key nk
    end;
  match catalog_node with
  | None => mret None
  | Some n =>
      tid ← match rt_topology with
            | Some t => mret t
            | None => node_topology n
                "snapshot placement: node has no default_topology_id; cannot infer topology"
            end;
      validate_topology_catalog_exists tid ;;
      mret (Some (nk, tid))
  end.

Definition env_placement : M W (string * Z) :=
  let tid := cfg_env_topology_id env_settings in
  validate_topology_catalog_exists tid ;;
  mret (cfg_env_node_key env_settings, tid).

Definition resolve_orchestrator_placement (wid : Z) (jt : workspace_job_type)
    : M W (string * Z) :=
  ws ← get_workspace_row wid;
  rt ← runtime_row wid;
  match jt with
  | WorkspaceJobType.CREATE =>
      if workspace_uses_operator_pinned_create ws then pinned_operator_create_placement ws
      else schedule_workspace_placement
  | _ =>
    if negb (job_needs_runtime_placement jt) then
      if runtime_env_fallback_allowed then env_placement
      else raise (AuthoritativePlacementError "Job type has no authoritative placement rule")
    else
    if runtime_placement_row_complete rt then
      match rt with
      | Some r => match rt_topology_id r with
                  | Some tid => mret (Py.strip_opt (rt_node_id r), tid)
                  | None => raise AssertionError
                  end
      | None => raise AssertionError
      end
    else if is_snapshot_job jt then
      sp ← snapshot_placement_from_runtime_or_workspace ws rt;
      match sp with
      | Some p => mret p
      | None => raise (AuthoritativePlacementError "Snapshot job requires placement")
      end
    else if bool_decide (jt = WorkspaceJobType.START) then
      if bool_decide (is_Some rt) && placement_strict_enforced then
        raise (AuthoritativePlacementError
          "START requires complete WorkspaceRuntime (node_id and topology_id) in production/staging")
      else schedule_workspace_placement
    else if placement_strict_enforced then
      raise (AuthoritativePlacementError "Job requires WorkspaceRuntime with node_id and topology_id")
    else if runtime_env_fallback_allowed then env_placement
    else raise (AuthoritativePlacementError
           "WorkspaceRuntime placement is incomplete and env fallback is disabled")
  end.
End placement.

(** ** Properties *)

Section properties.
Context {W : Type} {env : Env}.
Implicit Types s : St W.

(** What placement may leave behind: the session as it was, or with the missing
    default topologies assigned. *)
Definition placement_state (s s' : St W) : Prop :=
  s' = s ∨ s' = s <| st_db ::= assign_missing_default_topology |>.

Lemma wp_validate_topology tid (Q : unit → St W → Prop) X s :
  (tid ∈ topologies (st_db s) → Q tt s) → (∀ e, is_placement_error e = true → X e s) →
  wp (validate_topology_catalog_exists tid) Q X s.
Proof.
  intros HQ HX. unfold validate_topology_catalog_exists. wp_db.
  case_bool_decide; [by apply HQ|by apply HX].
Qed.

Lemma wp_node_topology n msg (Q : Z → St W → Prop) X s :
  (∀ t, node_default_topology_id n = Some t ∨
        placement_strict_enforced = false ∧ t = cfg_env_topology_id env_settings → Q t s) →
  (∀ e, is_placement_error e = true → X e s) →
  wp (node_topology n msg) Q X s.
Proof.
  intros HQ HX. unfold node_topology.
  destruct (node_default_topology_id n); [apply HQ; auto|].
  destruct placement_strict_enforced eqn:E; [by apply HX|apply HQ; auto].
Qed.

(** A node of the catalog that new work may go to, with its key and topology. *)
Definition catalog_target (s : St W) (key : string) (tid : Z) (n : ExecutionNode) : Prop :=
  (∃ nid, nodes (st_db s) !! nid = Some n) ∧ tid ∈ topologies (st_db s) ∧
  (key = node_node_key n ∨ key = Py.strip (node_node_key n)) ∧
  (placement_strict_enforced = true → node_default_topology_id n = Some tid).

Definition ready_target (s : St W) (key : string) (tid : Z) : Prop :=
  ∃ n, catalog_target s key tid n ∧ node_status n = ExecutionNodeStatus.READY ∧
       node_schedulable n = true.

Lemma wp_schedule_placement (Q : string * Z → St W → Prop) X s :
  (∀ key tid s', placement_state s s' → ready_target s' key tid → Q (key, tid) s') →
  (∀ e s', placement_state s s' → is_placement_error e = true → X e s') →
  wp schedule_workspace_placement Q X s.
Proof.
  intros HQ HX. unfold schedule_workspace_placement, schedule_workspace. wp_db.
  apply wp_select_node.
  - intros [nid n] s' Hn Hc. wp_db. cbn.
    wp_db. apply wp_node_topology; [|intros; apply HX; [by right|done]]. intros t Ht.
    wp_db. apply wp_validate_topology; [|intros; apply HX; [by right|done]].
    intros Htop. wp_db. apply HQ; [by right|]. exists n.
    destruct (sql_candidate_spec _ _ _ Hc) as (H1 & H2 & _). split_and!; try done.
    split_and!; eauto. intros Hstrict. destruct Ht as [|[Hns _]]; [done|congruence].
  - intros e s' He. destruct e; try done; wp_db; apply HX; try done; by right.
Qed.

Lemma wp_pinned_placement ws (Q : string * Z → St W → Prop) X s :
  workspace_uses_operator_pinned_create ws = true →
  (∀ key tid, ready_target s key tid → Q (key, tid) s) →
  (∀ e, is_placement_error e = true → X e s) →
  wp (pinned_operator_create_placement ws) Q X s.
Proof.
  intros Hp HQ HX. unfold workspace_uses_operator_pinned_create in Hp.
  apply andb_true_iff in Hp as [_ Hp]. unfold pinned_operator_create_placement.
  destruct (ws_execution_node_id ws) as [nid|]; [clear Hp|done]. wp_db.
  destruct (nodes (st_db s) !! nid) as [n|] eqn:Hn; [|by apply HX].
  case_bool_decide as Hr; [|by apply HX]. destruct (node_schedulable n) eqn:Hs; [|by apply HX].
  cbn [negb]. unfold validate_operator_pinned_create_node_gates. wp_db.
  destruct (cfg_enable_multi_node_scheduling _); [|by apply HX]. cbn [negb].
  destruct (execution_node_heartbeat_within_max_age n); [|by apply HX]. cbn [negb]. wp_db.
  apply wp_node_topology; [|done]. intros t Ht. wp_db.
  apply wp_validate_topology; [|done]. intros Htop.
  destruct (Py.truthy _); [|by apply HX]. cbn [negb]. apply wp_ret, HQ.
  exists n. split_and!; try done. split_and!; eauto.
  intros ?. destruct Ht as [|[??]]; [done|congruence].
Qed.

(** A snapshot job's host: a node of the catalog that the runtime row or the
    workspace row names. *)
Definition snapshot_target (s : St W) (ws : Workspace) (rt : option WorkspaceRuntime)
    (key : string) (tid : Z) : Prop :=
  tid ∈ topologies (st_db s) ∧
  (∃ nid n, nodes (st_db s) !! nid = Some n ∧
     (Py.strip (node_node_key n) = key ∨ node_node_key n = Py.strip key)) ∧
  ((∃ r, rt = Some r ∧ key = Py.strip_opt (rt_node_id r)) ∨
   (∃ nid n, ws_execution_node_id ws = Some nid ∧ nodes (st_db s) !! nid = Some n ∧
             key = Py.strip (node_node_key n))).

Lemma wp_execution_node_by_key key (Q : option ExecutionNode → St W → Prop) X s :
  (∀ nid n, nodes (st_db s) !! nid = Some n → node_node_key n = Py.strip key → Q (Some n) s) →
  Q None s →
  wp (execution_node_by_key key) Q X s.
Proof.
  intros HS HN. unfold execution_node_by_key. destruct (negb _); [done|]. wp_db.
  unfold find_node. destruct (first_row _ _) as [[nid n]|] eqn:E; [|done].
  apply first_row_Some in E as [H1 H2]. by apply (HS nid n).
Qed.

Lemma wp_snapshot_placement ws rt (Q : option (string * Z) → St W → Prop) X s :
  (∀ key tid, snapshot_target s ws rt key tid → Q (Some (key, tid)) s) →
  Q None s → (∀ e, is_placement_error e = true → X e s) →
  wp (snapshot_placement_from_runtime_or_workspace ws rt) Q X s.
Proof.
  intros HQ HN HX. unfold snapshot_placement_from_runtime_or_workspace. wp_db.
  set (rk := match rt with Some r => _ | None => _ end).
  set (nfw := ws_execution_node_id ws ≫= _).
  set (nk := if Py.truthy rk then rk else _).
  destruct (Py.truthy nk) eqn:Htr; cbn [negb]; [|done].
  assert (Hfrom : (∃ r, rt = Some r ∧ nk = Py.strip_opt (rt_node_id r)) ∨
     (∃ nid n, ws_execution_node_id ws = Some nid ∧ nodes (st_db s) !! nid = Some n ∧
               nk = Py.strip (node_node_key n))).
  { unfold nk in Htr |- *. unfold rk in Htr |- *. unfold nfw in Htr |- *.
    destruct rt as [r|], (ws_execution_node_id ws) as [nid|]; cbn in Htr |- *;
      [destruct (Py.truthy (Py.strip_opt _)); [by eauto|]|by destruct (Py.truthy (Py.strip_opt _)); eauto
      | |done];
      destruct (nodes (st_db s) !! nid) eqn:En; try done; eauto 10. }
  assert (Hfin : ∀ n, (∃ nid, nodes (st_db s) !! nid = Some n ∧
            (Py.strip (node_node_key n) = nk ∨ node_node_key n = Py.strip nk)) →
    wp (tid ← match rt ≫= rt_topology_id with Some t => mret t | None => node_topology n
                "snapshot placement: node has no default_topology_id; cannot infer topology" end;
        validate_topology_catalog_exists tid ;; mret (Some (nk, tid))) Q X s).
  { intros n (nid & Hn & Hk). apply wp_bind.
    assert (Hv : ∀ t, wp (validate_topology_catalog_exists t ;; mret (Some (nk, t))) Q X s).
    { intros t. wp_db. apply wp_validate_topology; [|done]. intros Ht. apply wp_ret, HQ.
      split_and!; [done|by exists nid, n|done]. }
    destruct (rt ≫= rt_topology_id); [by apply wp_ret|]. by apply wp_node_topology. }
  assert (Hby : wp (execution_node_by_key nk) (λ cn, wp (match cn with None => mret None
      | Some n => tid ← match rt ≫= rt_topology_id with Some t => mret t | None => node_topology n
                "snapshot placement: node has no default_topology_id; cannot infer topology" end;
        validate_topology_catalog_exists tid ;; mret (Some (nk, tid)) end) Q X) X s).
  { apply wp_execution_node_by_key; [|done]. intros nid n H1 H2. apply Hfin. exists nid. auto. }
  apply wp_bind. destruct nfw as [n|] eqn:En; [|exact Hby]. destruct (String.eqb_spec (Py.strip (node_node_key n)) nk); [|exact Hby].
  apply wp_ret, Hfin. unfold nfw in En. destruct (ws_execution_node_id ws) as [nid|]; [|done].
  exists nid. auto.
Qed.

(** Where a job may be placed, and on what grounds. *)
Inductive placed (s s' : St W) (wid : Z) (ws : Workspace) (jt : workspace_job_type)
  : string → Z → Prop :=
| placed_existing r tid :
    jt ≠ WorkspaceJobType.CREATE → s' = s → runtimes (st_db s) !! wid = Some r →
    rt_topology_id r = Some tid → Py.strip_opt (rt_node_id r) ≠ ""%string →
    placed s s' wid ws jt (Py.strip_opt (rt_node_id r)) tid
| placed_ready key tid :
    jt = WorkspaceJobType.CREATE ∨
    (jt = WorkspaceJobType.START ∧
     (runtimes (st_db s) !! wid = None ∨ placement_strict_enforced = false)) →
    ready_target s' key tid → placed s s' wid ws jt key tid
| placed_snapshot key tid :
    is_snapshot_job jt = true → s' = s →
    snapshot_target s ws (runtimes (st_db s) !! wid) key tid →
    placed s s' wid ws jt key tid
| placed_env tid :
    placement_strict_enforced = false → is_snapshot_job jt = false →
    jt ≠ WorkspaceJobType.CREATE → s' = s → tid ∈ topologies (st_db s) →
    placed s s' wid ws jt (cfg_env_node_key env_settings) tid.

Lemma wp_resolve_placement wid jt ws (Q : string * Z → St W → Prop) X s :
  workspaces (st_db s) !! wid = Some ws →
  (∀ key tid s', placement_state s s' → placed s s' wid ws jt key tid → Q (key, tid) s') →
  (∀ e s', placement_state s s' → is_placement_error e = true → X e s') →
  wp (resolve_orchestrator_placement wid jt) Q X s.
Proof.
  intros Hws HQ HX. unfold resolve_orchestrator_placement. wp_db.
  eapply wp_row; [exact Hws|]. wp_db.
  assert (Hfail : ∀ e, is_placement_error e = true → X e s) by (intros; apply HX; [by left|done]).
  assert (Henv : placement_strict_enforced = false → is_snapshot_job jt = false →
            jt ≠ WorkspaceJobType.CREATE → wp env_placement Q X s).
  { intros ???. unfold env_placement. wp_db. apply wp_validate_topology; [|done].
    intros Ht. apply wp_ret, HQ; [by left|]. by apply placed_env. }
  set (rt := runtimes (st_db s) !! wid) in *.
  destruct (decide (jt = WorkspaceJobType.CREATE)) as [->|Hnc].
  { destruct (workspace_uses_operator_pinned_create ws) eqn:Hp.
    - apply wp_pinned_placement; [done| |done]. intros. apply HQ; [by left|]. apply placed_ready; auto.
    - apply wp_schedule_placement; [|done]. intros. apply HQ; [done|]. apply placed_ready; auto. }
  assert (Hbody : wp (if negb (job_needs_runtime_placement jt) then
      if runtime_env_fallback_allowed then env_placement
      else raise (AuthoritativePlacementError "Job type has no authoritative placement rule")
    else if runtime_placement_row_complete rt then
      match rt with
      | Some r => match rt_topology_id r with
                  | Some tid => mret (Py.strip_opt (rt_node_id r), tid)
                  | None => raise AssertionError
                  end
      | None => raise AssertionError
      end
    else if is_snapshot_job jt then
      sp ← snapshot_placement_from_runtime_or_workspace ws rt;
      match sp with
      | Some p => mret p
      | None => raise (AuthoritativePlacementError "Snapshot job requires placement")
      end
    else if bool_decide (jt = WorkspaceJobType.START) then
      if bool_decide (is_Some rt) && placement_strict_enforced then
        raise (AuthoritativePlacementError
          "START requires complete WorkspaceRuntime (node_id and topology_id) in production/staging")
      else schedule_workspace_placement
    else if placement_strict_enforced then
      raise (AuthoritativePlacementError "Job requires WorkspaceRuntime with node_id and topology_id")
    else if runtime_env_fallback_allowed then env_placement
    else raise (AuthoritativePlacementError
           "WorkspaceRuntime placement is incomplete and env fallback is disabled")) Q X s).
  2:{ destruct jt; try done; exact Hbody. }
  destruct (job_needs_runtime_placement jt) eqn:Hneed; cbn [negb].
  2:{ destruct runtime_env_fallback_allowed eqn:E; [|by apply Hfail].
      apply Henv; [unfold placement_strict_enforced; by rewrite E|by destruct jt|done]. }
  destruct (runtime_placement_row_complete rt) eqn:Hc.
  { destruct rt as [r|] eqn:Er; [|done]. cbn in Hc. apply andb_true_iff in Hc as [H1 H2].
    destruct (rt_topology_id r) as [tid|] eqn:Et; [|by case_bool_decide as Hx; [destruct Hx|]].
    apply wp_ret, HQ; [by left|]. apply placed_existing; try done.
    unfold Py.truthy in H1. by apply negb_true_iff, String.eqb_neq in H1. }
  destruct (is_snapshot_job jt) eqn:Hsn.
  { apply wp_bind, wp_snapshot_placement; [|by apply Hfail|done].
    intros. apply wp_ret, HQ; [by left|]. by apply placed_snapshot. }
  case_bool_decide as Hst.
  { destruct (bool_decide (is_Some rt) && placement_strict_enforced) eqn:E; [by apply Hfail|].
    apply wp_schedule_placement; [|done]. intros. apply HQ; [done|]. apply placed_ready; [|done].
    right. split; [done|]. apply andb_false_iff in E as [E|E]; [left|by right].
    apply bool_decide_eq_false in E. by apply eq_None_not_Some. }
  destruct placement_strict_enforced eqn:Hstr; [by apply Hfail|].
  destruct runtime_env_fallback_allowed; [|by apply Hfail]. by apply Henv.
Qed.

(** C15. Placement is authoritative.  A job lands on the node and topology of its
    complete runtime row, and is rescheduled only when it is a CREATE, or a START
    that has no runtime row (or any in development); new work only lands on a
    READY, schedulable node with a known topology, which in strict mode is the
    node's own; a snapshot job only lands on a catalog node its rows name, never
    on the environment's node; every refusal is a placement error; and all that
    changes in the session is the assignment of missing default topologies. *)
Theorem placement_is_authoritative s wid jt ws (Hws : workspaces (st_db s) !! wid = Some ws) :
  let '(s', res) := resolve_orchestrator_placement wid jt s in
  placement_state s s' ∧
  match res with
  | inl (key, tid) => placed s s' wid ws jt key tid
  | inr e => is_placement_error e = true
  end.
Proof.
  destruct (resolve_orchestrator_placement wid jt s) as [s' r] eqn:E.
  pose proof (wp_run _ (λ p s', placement_state s s' ∧ placed s s' wid ws jt p.1 p.2)
    (λ e s', placement_state s s' ∧ is_placement_error e = true) _ _ _ E) as Hrun.
  specialize (Hrun ltac:(eapply wp_resolve_placement; eauto)).
  by destruct r as [[key tid]|e].
Qed.
End properties.
