(* ===== verification/NodeBootstrap.v ===== *)
(** * NodeBootstrap: the local node's row and the nodes' heartbeats

    [placement_service/bootstrap.py] and [placement_service/node_heartbeat.py]: the
    row of the configured local node is created or completed idempotently, and a
    heartbeat records liveness.  Of a node's [metadata_json] the entries that are read
    are kept ([Models.NodeMetadata]); the PostgreSQL key sequence of [topology] is
    not modelled, new keys are fresh. *)

From S2P Require Import Prelude Models Session Services Capacity Scheduling.

Section bootstrap.
Context {W : Type} {env : Env}.

Definition default_local_node_key : string := cfg_env_node_key env_settings.

(** [session.add(Topology(topology_id=tid, ..)); session.flush()] *)
Definition ensure_topology_row_for_local_dev (tid : Z) : M W unit :=
  known ← query (λ db, bool_decide (tid ∈ topologies db));
  when (is_development_env && negb known) (on_db (λ db, flush_db (db <| topologies ::= λ t, {[tid]} ∪ t |>))).

Definition ensure_execution_node_default_topology (nid : Z) (n : ExecutionNode) : M W bool :=
  match node_default_topology_id n with
  | Some _ => mret false
  | None =>
      set_node nid (λ n, n <| node_default_topology_id := Some system_default_topology_id |>) ;;
      flush ;;
      when is_development_env (ensure_topology_row_for_local_dev system_default_topology_id) ;;
      mret true
  end.

Definition DEFAULT_EXECUTION_NODE_MAX_WORKSPACES : Z := 32.
Definition DEFAULT_EXECUTION_NODE_ALLOCATABLE_DISK_MB : Z := 102400.

Definition bootstrap_node : ExecutionNode :=
  {| node_node_key := default_local_node_key;
     node_provider_type := ExecutionNodeProviderType.LOCAL; node_provider_instance_id := None;
     node_region := None; node_private_ip := None;
     node_execution_mode := ExecutionNodeExecutionMode.LOCAL_DOCKER;
     node_status := ExecutionNodeStatus.READY; node_schedulable := true;
     node_allocatable_cpu := cores 4; node_allocatable_memory_mb := 8192;
     node_allocatable_disk_mb := DEFAULT_EXECUTION_NODE_ALLOCATABLE_DISK_MB;
     node_max_workspaces := DEFAULT_EXECUTION_NODE_MAX_WORKSPACES;
     node_default_topology_id := Some system_default_topology_id;
     node_last_heartbeat_at := None; node_last_error_code := None; node_last_error_message := None;
     node_updated_at := env_now; node_disk_free_mb := None; node_memory_free_mb := None;
     node_last_resource_check_at := None; node_resource_status := None;
     node_ssh_host := None; node_hostname := Some "localhost"%string; node_ssh_user := None;
     node_ssh_port := 22; node_created_at := env_now; node_metadata := empty_metadata |}.

(** The capacity columns of an existing row, defaulted when not positive. *)
Definition with_default_capacity (n : ExecutionNode) : ExecutionNode :=
  let n := if node_max_workspaces n <=? 0
           then n <| node_max_workspaces := DEFAULT_EXECUTION_NODE_MAX_WORKSPACES |> else n in
  if node_allocatable_disk_mb n <=? 0
  then n <| node_allocatable_disk_mb := DEFAULT_EXECUTION_NODE_ALLOCATABLE_DISK_MB |> else n.

(** Returns the key of the row. *)
Definition ensure_default_local_execution_node : M W Z :=
  existing ← node_by_key default_local_node_key;
  match existing with
  | Some (nid, n) =>
      ensure_execution_node_default_topology nid n ;;
      set_node nid with_default_capacity ;;
      flush ;;
      n ← row nodes nid;
      match node_default_topology_id n with
      | Some tid => when is_development_env (ensure_topology_row_for_local_dev tid)
      | None => mret tt
      end ;;
      mret nid
  | None =>
      nid ← query (λ db, fresh_key (nodes db));
      on_db (λ db, flush_db (db <| nodes ::= <[nid := bootstrap_node]> |>)) ;;
      ensure_topology_row_for_local_dev system_default_topology_id ;;
      mret nid
  end.

(** ** Heartbeats *)

Definition accepts_ready (st : execution_node_status) : bool :=
  negb (bool_decide (st = ExecutionNodeStatus.DRAINING ∨ st = ExecutionNodeStatus.TERMINATING ∨
                     st = ExecutionNodeStatus.TERMINATED ∨ st = ExecutionNodeStatus.PROVISIONING)).

(** [_merge_heartbeat_metadata] *)
Definition merge_heartbeat_metadata (docker_ok : bool) (disk_free_mb : option Z) (m : NodeMetadata) : NodeMetadata :=
  let m := m <| nm_docker_ok := Some docker_ok |> in
  match disk_free_mb with Some d => m <| nm_disk_free_mb := Some d |> | None => m end.

Definition heartbeat_on (docker_ok : bool) (disk_free_mb : Z) (n : ExecutionNode) : ExecutionNode :=
  let n := n <| node_last_heartbeat_at := Some env_now |> <| node_updated_at := env_now |>
             <| node_metadata ::= merge_heartbeat_metadata docker_ok (Some (Z.max 0 disk_free_mb)) |> in
  if docker_ok then
    let n := n <| node_last_error_code := None |> <| node_last_error_message := None |> in
    if node_schedulable n && accepts_ready (node_status n) then
      if bool_decide (node_status n = ExecutionNodeStatus.NOT_READY)
      then n <| node_status := ExecutionNodeStatus.READY |> else n
    else n
  else n <| node_last_error_code := Some "DOCKER_UNREACHABLE"%string |>
         <| node_last_error_message := Some "Heartbeat reported docker_ok=false"%string |>.

Definition heartbeat_target (node_key : option string) (execution_node_id : option Z) : M W Z :=
  match execution_node_id with
  | Some nid =>
      found ← query (λ db, nodes db !! nid);
      match found with
      | Some _ => mret nid
      | None => raise (ExecutionNodeNotFoundError ("execution node id=" ++ Py.str_of_Z nid ++ " not found"))
      end
  | None =>
      let key := Py.strip_opt node_key in
      if Py.truthy key then
        found ← node_by_key key;
        match found with
        | Some (nid, _) => mret nid
        | None => raise (ExecutionNodeNotFoundError ("execution node key='" ++ key ++ "' not found"))
        end
      else raise (ExecutionNodeNotFoundError "node_key or execution_node_id is required")
  end.

Definition record_execution_node_heartbeat (node_key : option string) (execution_node_id : option Z)
    (docker_ok : bool) (disk_free_mb : Z) : M W Z :=
  nid ← heartbeat_target node_key execution_node_id;
  set_node nid (heartbeat_on docker_ok disk_free_mb) ;;
  flush ;;
  mret nid.

(** [internal_api_execution_node_heartbeat_post_url] *)
Definition ends_with (suffix s : string) : bool :=
  Nat.leb (String.length suffix) (String.length s) &&
  String.eqb (substring (String.length s - String.length suffix) (String.length suffix) s) suffix.
Definition internal_api_execution_node_heartbeat_post_url (base_url : string) : string :=
  let raw := Py.rstrip_slash (Py.strip base_url) in
  if negb (Py.truthy raw) then "/internal/execution-nodes/heartbeat"
  else if ends_with "/internal/execution-nodes" raw then raw ++ "/heartbeat"
  else raw ++ "/internal/execution-nodes/heartbeat".

Definition heartbeat_freshness_seconds (node_key : option string) (db : Db) : option Z :=
  let key := Py.or_else (Py.strip (Py.or_else (default ""%string node_key) default_local_node_key)) "node-1" in
  kn ← find_node key db;
  t ← node_last_heartbeat_at kn.2;
  Some (Z.max 0 (env_now - t)).

Definition execution_node_heartbeat_age_seconds (n : option ExecutionNode) : option Z :=
  n ← n;
  t ← node_last_heartbeat_at n;
  Some (Z.max 0 (Z.quot (env_now - t) (seconds 1))).
End bootstrap.

(** What the worker's host and the internal API answer: [docker.ping] succeeds, the
    megabytes free below the projects directory (0 when unknown), and the POST of a
    heartbeat, which another process records in its own transaction. *)
Class HeartbeatHost (W : Type) := {
  hh_docker_ok : W → bool;
  hh_disk_free_mb : W → Z;
  hh_post_heartbeat : string → string → bool → Z → Z → W → W * bool
}.

Section emitter.
Context {W : Type} {env : Env} {host : HeartbeatHost W}.

(** [(docker_ok, disk_free_mb, slots_in_use, node_key)] *)
Definition collect_local_execution_node_heartbeat_metrics : M W (bool * Z * Z * string) :=
  nid ← ensure_default_local_execution_node;
  n ← row nodes nid;
  let key := Py.or_else (Py.strip (Py.or_else (node_node_key n) default_local_node_key)) "node-1" in
  docker_ok ← ask_world hh_docker_ok;
  disk_free_mb ← ask_world hh_disk_free_mb;
  slots ← query (λ db, count_active_workloads_on_node_key db key);
  mret (docker_ok, disk_free_mb, slots, key).

(** The URL, node key, liveness, free disk and slots of the POST. *)
Definition post_internal_execution_node_heartbeat_http (base_url node_key : string) (docker_ok : bool)
    (disk_free_mb slots_in_use : Z) : M W bool := fun s =>
  let '(w, ok) := hh_post_heartbeat (internal_api_execution_node_heartbeat_post_url base_url) node_key docker_ok
                    (Z.max 0 disk_free_mb) (Z.max 0 slots_in_use) (st_world s) in
  (s <| st_world := w |>, inl ok).

Definition emit_default_local_execution_node_heartbeat : M W unit :=
  if cfg_node_heartbeat_enabled env_settings then mret tt
  else if negb (cfg_worker_emit_execution_node_heartbeat env_settings) then mret tt
  else
    metrics ← collect_local_execution_node_heartbeat_metrics;
    let '(docker_ok, disk_free_mb, slots, node_key) := metrics in
    let base := Py.strip (cfg_worker_heartbeat_internal_api_base_url env_settings) in
    posted ← (if Py.truthy base then
                commit ;; post_internal_execution_node_heartbeat_http base node_key docker_ok disk_free_mb slots
              else mret false);
    if posted : bool then mret tt
    else record_execution_node_heartbeat (Some node_key) None docker_ok disk_free_mb ;; mret tt.

(** A failure is logged and the transaction abandoned with its connection. *)
Definition try_emit_default_local_execution_node_heartbeat : M W unit :=
  if cfg_node_heartbeat_enabled env_settings then mret tt
  else try_except (emit_default_local_execution_node_heartbeat ;; commit) (λ _, rollback).
End emitter.
