(* ===== verification/Ec2Registry.v ===== *)
(** * Ec2Registry: EC2 instances and their rows

    [src/backend/app/services/providers/ec2_provider.py] and [aws_throttle.py]:
    describing an instance, the status a description gives a row, and the upsert of
    the row.  The EC2 API is the interface [Ec2Cloud]; boto3 is not modelled, the
    pauses between throttled calls neither.  Columns only the API responses show
    (name, zone, public address, instance type, totals) are left out. *)

From S2P Require Import Prelude Models Session Services Scheduling NodeBootstrap.

(** ** The EC2 and SSM API *)

(** A [ClientError]: its code and its text. *)
Record AwsError := mkAwsError { aws_code : string; aws_text : string }.

(** One instance of a [describe_instances] or [run_instances] response; of its block
    devices the volume ids, of its network interfaces their ids and those of their
    elastic addresses. *)
Record Ec2Instance := mkEc2Instance {
  ei_instance_id : string;
  ei_state : option string;
  ei_instance_type : option string;
  ei_private_ip : option string;
  ei_volume_ids : list (option string);
  ei_network_interfaces : list (option string * option string)
}.

(** A tag: [Key] and [Value]. *)
Definition Ec2Tag : Type := string * string.
(** What the describe calls say of volumes, interfaces, elastic addresses and security
    groups. *)
Record Ec2Volume := mkEc2Volume {
  vol_id : option string;
  vol_state : option string;
  vol_attached : bool;
  vol_tags : list Ec2Tag
}.
Record Ec2NetworkInterface := mkEc2NetworkInterface {
  eni_id : option string;
  eni_status : option string;
  eni_tags : list Ec2Tag
}.
Record Ec2Address := mkEc2Address {
  addr_allocation_id : option string;
  addr_association_id : option string;
  addr_instance_id : option string;
  addr_network_interface_id : option string;
  addr_tags : list Ec2Tag
}.
Record Ec2SecurityGroup := mkEc2SecurityGroup {
  sg_id : option string;
  sg_tags : list Ec2Tag
}.
(** The parameters of [run_instances]; the tags are those of instance and volume. *)
Record RunInstancesParams := mkRunInstancesParams {
  ri_image_id : string;
  ri_instance_type : string;
  ri_subnet_id : string;
  ri_security_group_ids : list string;
  ri_tags : list Ec2Tag;
  ri_iam_instance_profile : option string;
  ri_key_name : option string;
  ri_user_data : option string
}.

(** [Ec2ProvisionRequest] (infrastructure_service/models.py). *)
Record Ec2ProvisionRequest := mkEc2ProvisionRequest {
  rq_ami_id : string;
  rq_instance_type : string;
  rq_subnet_id : string;
  rq_security_group_ids : list string;
  rq_iam_instance_profile_name : option string;
  rq_key_name : option string;
  rq_region : option string;
  rq_node_key : option string;
  rq_name_tag : option string;
  rq_execution_mode : option string;
  rq_ssh_user : option string;
  rq_user_data : option string;
  rq_extra_tags : list Ec2Tag
}.
#[export] Instance rebuild_Ec2ProvisionRequest : Rebuild Ec2ProvisionRequest := fun r =>
  mkEc2ProvisionRequest (rq_ami_id r) (rq_instance_type r) (rq_subnet_id r) (rq_security_group_ids r)
    (rq_iam_instance_profile_name r) (rq_key_name r) (rq_region r) (rq_node_key r) (rq_name_tag r)
    (rq_execution_mode r) (rq_ssh_user r) (rq_user_data r) (rq_extra_tags r).

(** Each call names the region of its client.  A describe call answers the first
    instance of the first reservation, if there is one; a type's capacity is its
    default vCPUs and its MiB; [ssm_run_ready_gate] runs the gate script for an image
    and answers stdout and stderr.  The describe calls of the sweep get the tag filters
    and answer all pages; the two about a security group answer the interfaces and the
    states of the instances that have it. *)
Class Ec2Cloud (W : Type) := {
  ec2_describe_instance : string → string → W → W * (option Ec2Instance + AwsError);
  ec2_describe_instance_type : string → string → W → W * (option (option Z * option Z) + AwsError);
  ec2_run_instances : string → RunInstancesParams → W → W * (option Ec2Instance + AwsError);
  ec2_wait_running : string → string → W → W * (unit + string);
  ec2_terminate_instances : string → string → W → W * (unit + AwsError);
  ec2_wait_terminated : string → string → W → W;
  ec2_create_tags : string → list string → list Ec2Tag → W → W * (unit + AwsError);
  ec2_describe_volumes : string → list Ec2Tag → W → W * (list Ec2Volume + AwsError);
  ec2_describe_network_interfaces : string → list Ec2Tag → W → W * (list Ec2NetworkInterface + AwsError);
  ec2_describe_addresses : string → W → W * (list Ec2Address + AwsError);
  ec2_describe_security_groups : string → list Ec2Tag → W → W * (list Ec2SecurityGroup + AwsError);
  ec2_interfaces_of_group : string → string → W → W * (list string + AwsError);
  ec2_instance_states_of_group : string → string → W → W * (list (option string) + AwsError);
  ec2_delete_volume : string → string → W → W * (unit + AwsError);
  ec2_delete_network_interface : string → string → W → W * (unit + AwsError);
  ec2_release_address : string → string → W → W * (unit + AwsError);
  ec2_delete_security_group : string → string → W → W * (unit + AwsError);
  ssm_run_ready_gate : string → string → string → W → W * (string * string + string)
}.

(** [client_call_with_throttle_retry]: at most five more calls after the first. *)
Definition throttled (e : AwsError) : bool :=
  String.eqb (aws_code e) "ThrottlingException" || String.eqb (aws_code e) "RequestLimitExceeded".
Fixpoint throttle_retry {W R} (retries : nat) (call : W → W * (R + AwsError)) (w : W) : W * (R + AwsError) :=
  match call w with
  | (w', inl r) => (w', inl r)
  | (w', inr e) =>
      match retries with
      | O => (w', inr e)
      | S k => if throttled e then throttle_retry k call w' else (w', inr e)
      end
  end.
Definition client_call_with_throttle_retry {W R} (call : W → W * (R + AwsError)) : M W (R + AwsError) := fun s =>
  let '(w, r) := throttle_retry 5 call (st_world s) in (s <| st_world := w |>, inl r).

Definition EC2_CLIENT_AUTH_ERROR_CODES : list string :=
  ["AuthFailure"; "UnauthorizedOperation"; "InvalidClientTokenId"; "ExpiredToken"; "RequestExpired"]%string.

(** [_INSTANCE_ID_RE], [^i-[0-9a-f]{8,32}$] ignoring case *)
Definition is_hex_char (c : ascii) : bool :=
  let n := N_of_ascii c in (((48 <=? n) && (n <=? 57)) || ((97 <=? n) && (n <=? 102)))%N.
Definition valid_instance_id (iid : string) : bool :=
  match Py.lower iid with
  | String "i" (String "-" r) =>
      forallb is_hex_char (list_ascii_of_string r) && (8 <=? Py.len r) && (Py.len r <=? 32)
  | _ => false
  end.

(** [Ec2InstanceDescription] *)
Record Ec2InstanceDescription := mkEc2InstanceDescription {
  de_instance_id : string;
  de_state : string;
  de_instance_type : string;
  de_private_ip : option string;
  de_region : string
}.

Definition is_ec2_provider_error (e : Exn) : bool :=
  match e with Ec2ProviderError _ | Ec2InstanceNotFoundError _ | Ec2InvalidInstanceIdError _ => true | _ => false end.

Definition mode_value (m : execution_node_execution_mode) : string :=
  match m with
  | ExecutionNodeExecutionMode.LOCAL_DOCKER => "local_docker"
  | ExecutionNodeExecutionMode.SSH_DOCKER => "ssh_docker"
  | ExecutionNodeExecutionMode.SSM_DOCKER => "ssm_docker"
  end.
Definition remote_mode (s : string) : option execution_node_execution_mode :=
  if String.eqb s "ssh_docker" then Some ExecutionNodeExecutionMode.SSH_DOCKER
  else if String.eqb s "ssm_docker" then Some ExecutionNodeExecutionMode.SSM_DOCKER else None.

Definition is_state_in (state : string) (l : list string) : bool := bool_decide (state ∈ l).

(** The status and schedulability a description gives a row, or a new one. *)
Definition compute_status_schedulable_after_ec2_sync (existing : option execution_node_status) (state : string)
    : execution_node_status * bool :=
  let running := String.eqb state "running" in
  match existing with
  | None => if running then (ExecutionNodeStatus.READY, true) else (ExecutionNodeStatus.NOT_READY, false)
  | Some ExecutionNodeStatus.PROVISIONING =>
      if is_state_in state ["terminated"; "shutting-down"; "stopped"; "stopping"]%string
      then (ExecutionNodeStatus.ERROR, false) else (ExecutionNodeStatus.PROVISIONING, false)
  | Some ExecutionNodeStatus.DRAINING => (ExecutionNodeStatus.DRAINING, false)
  | Some ExecutionNodeStatus.TERMINATING =>
      if is_state_in state ["terminated"; "shutting-down"]%string
      then (ExecutionNodeStatus.TERMINATED, false) else (ExecutionNodeStatus.TERMINATING, false)
  | Some ExecutionNodeStatus.TERMINATED => (ExecutionNodeStatus.TERMINATED, false)
  | Some ExecutionNodeStatus.ERROR => (ExecutionNodeStatus.ERROR, false)
  | Some (ExecutionNodeStatus.READY | ExecutionNodeStatus.NOT_READY) =>
      if running then (ExecutionNodeStatus.READY, true) else (ExecutionNodeStatus.NOT_READY, false)
  end.

Section registry.
Context {W : Type} {env : Env} {cloud : Ec2Cloud W}.

Definition require_instance_id (instance_id : string) : M W string :=
  let iid := Py.strip instance_id in
  if Py.truthy iid && valid_instance_id iid then mret iid
  else raise (Ec2InvalidInstanceIdError ("invalid EC2 instance id: '" ++ instance_id ++ "'")).

(** The region of [build_ec2_client(region=r)]. *)
Definition client_region (r : option string) : string :=
  Py.or_else (Py.strip (Py.or_else (default ""%string r) (cfg_aws_region env_settings))) "unknown".

Definition describe_ec2_instance (region instance_id : string) : M W Ec2InstanceDescription :=
  iid ← require_instance_id instance_id;
  resp ← client_call_with_throttle_retry (ec2_describe_instance region iid);
  match resp with
  | inr e =>
      if String.eqb (aws_code e) "InvalidInstanceID.NotFound"
      then raise (Ec2InstanceNotFoundError ("EC2 instance not found: " ++ iid))
      else if bool_decide (aws_code e ∈ EC2_CLIENT_AUTH_ERROR_CODES)
      then raise (Ec2ProviderError ("AWS denied EC2 describe_instances (" ++ aws_code e ++ ")"))
      else raise (Ec2ProviderError ("describe_instances failed for " ++ iid ++ ": " ++ aws_text e))
  | inl None => raise (Ec2InstanceNotFoundError ("EC2 instance not found: " ++ iid))
  | inl (Some i) =>
      mret {| de_instance_id := iid;
              de_state := Py.or_else (Py.lower (Py.strip_opt (ei_state i))) "unknown";
              de_instance_type := Py.or_else (Py.strip_opt (ei_instance_type i)) "unknown";
              de_private_ip := Py.strip_or_none (ei_private_ip i);
              de_region := region |}
  end.

(** A count the API leaves out or gives as 0 takes the default. *)
Definition positive_or (v : option Z) (d : Z) : Z :=
  match v with Some n => if n =? 0 then d else n | None => d end.
Definition ec2_instance_type_capacity (region instance_type : string) : M W (cpu * Z) :=
  let it := Py.strip instance_type in
  if negb (Py.truthy it) || String.eqb it "unknown" then mret (cores 4, 8192) else
  resp ← client_call_with_throttle_retry (ec2_describe_instance_type region it);
  match resp with
  | inr _ | inl None => mret (cores 4, 8192)
  | inl (Some (vcpu, mem)) =>
      mret (Z.max (cores 1) (cores (positive_or vcpu 4)), Z.max 512 (positive_or mem 8192))
  end.

Definition chosen_execution_mode (execution_mode : option string) : execution_node_execution_mode :=
  let default_em := Py.lower (Py.strip (ec2_default_execution_mode (cfg_ec2 env_settings))) in
  match remote_mode (Py.lower (Py.strip (Py.or_else (default ""%string execution_mode) default_em))) with
  | Some m => m
  | None => default ExecutionNodeExecutionMode.SSM_DOCKER (remote_mode default_em)
  end.
Definition chosen_ssh_user (ssh_user : option string) : string :=
  Py.or_else (Py.strip_opt ssh_user)
    (Py.or_else (Py.strip (ec2_ssh_user_default (cfg_ec2 env_settings))) "ubuntu").

Definition find_node_by_instance (iid : string) (db : Db) : option (Z * ExecutionNode) :=
  first_row (λ kn, node_provider_instance_id kn.2 = Some iid) (nodes db).

(** The row to refresh: by instance, else by key unless another node has the key. *)
Definition ec2_row (iid key : string) : M W (option (Z * ExecutionNode)) :=
  by_instance ← query (find_node_by_instance iid);
  match by_instance with
  | Some kn => mret (Some kn)
  | None =>
      by_key ← node_by_key key;
      match by_key with
      | None => mret None
      | Some (nid, n) =>
          if bool_decide (node_provider_type n = ExecutionNodeProviderType.LOCAL) then
            raise (Ec2ProviderError ("node_key '" ++ key ++ "' is already used by a local execution node"))
          else
            let other := Py.strip_opt (node_provider_instance_id n) in
            if Py.truthy other && negb (String.eqb (Py.lower other) (Py.lower iid)) then
              raise (Ec2ProviderError ("node_key '" ++ key ++ "' is already bound to instance '" ++ other ++ "'"))
            else mret (Some (nid, n))
      end
  end.

(** A registered node's row, before its first refresh. *)
Definition ec2_node (key iid region : string) (ip : option string) (mode : execution_node_execution_mode)
    (user : string) (status : execution_node_status) (schedulable : bool) (c : cpu) (mem : Z)
    (meta : NodeMetadata) : ExecutionNode :=
  {| node_node_key := key; node_provider_type := ExecutionNodeProviderType.EC2;
     node_provider_instance_id := Some iid; node_region := Some region; node_private_ip := ip;
     node_execution_mode := mode; node_status := status; node_schedulable := schedulable;
     node_allocatable_cpu := c; node_allocatable_memory_mb := mem;
     node_allocatable_disk_mb := DEFAULT_EXECUTION_NODE_ALLOCATABLE_DISK_MB;
     node_max_workspaces := DEFAULT_EXECUTION_NODE_MAX_WORKSPACES;
     node_default_topology_id := Some system_default_topology_id;
     node_last_heartbeat_at := None; node_last_error_code := None; node_last_error_message := None;
     node_updated_at := env_now; node_disk_free_mb := None; node_memory_free_mb := None;
     node_last_resource_check_at := None; node_resource_status := None;
     node_ssh_host := None; node_hostname := None; node_ssh_user := Some user; node_ssh_port := 22;
     node_created_at := env_now; node_metadata := meta |}.

Definition not_running_error (state : string) : string :=
  "EC2 left provisioning path: instance state is '" ++ state ++ "' (expected running for readiness)".

(** The attributes a description overwrites. *)
Definition refreshed (key : string) (d : Ec2InstanceDescription) (mode : execution_node_execution_mode)
    (user : string) (status : execution_node_status) (schedulable : bool) (c : cpu) (mem : Z)
    (n : ExecutionNode) : ExecutionNode :=
  let n :=
    if bool_decide (status = ExecutionNodeStatus.ERROR) &&
       bool_decide (node_status n = ExecutionNodeStatus.PROVISIONING)
    then n <| node_last_error_code := Some "Ec2NotRunningDuringProvisioning"%string |>
           <| node_last_error_message := Some (Py.prefix_to 4096 (not_running_error (de_state d))) |>
    else n in
  let n := n <| node_node_key := key |> <| node_provider_type := ExecutionNodeProviderType.EC2 |>
             <| node_provider_instance_id := Some (de_instance_id d) |> <| node_region := Some (de_region d) |>
             <| node_private_ip := de_private_ip d |> <| node_execution_mode := mode |>
             <| node_ssh_user := Some user |> <| node_status := status |> <| node_schedulable := schedulable |> in
  let n := if bool_decide (status = ExecutionNodeStatus.READY)
           then n <| node_last_error_code := None |> <| node_last_error_message := None |> else n in
  with_default_capacity (n <| node_allocatable_cpu := c |> <| node_allocatable_memory_mb := mem |>).

Definition key_of_other_node (nid : Z) (key : string) (db : Db) : bool :=
  bool_decide (is_Some (first_row (λ kn, kn.1 ≠ nid ∧ node_node_key kn.2 = key) (nodes db))).

Definition register_ec2_instance (region instance_id : string) (node_key ssh_user execution_mode : option string)
    (catalog_only : bool) : M W Z :=
  iid ← require_instance_id instance_id;
  desc ← describe_ec2_instance region iid;
  let key := Py.or_else (Py.strip_opt node_key) ("ec2-" ++ iid) in
  let mode := chosen_execution_mode execution_mode in
  let user := chosen_ssh_user ssh_user in
  capacity ← ec2_instance_type_capacity region (de_instance_type desc);
  let '(vcpu, mem_mb) := capacity in
  found ← ec2_row iid key;
  let '(status, schedulable) :=
    compute_status_schedulable_after_ec2_sync (node_status <$> (snd <$> found)) (de_state desc) in
  let schedulable := schedulable && negb catalog_only in
  match found with
  | None =>
      nid ← query (λ db, fresh_key (nodes db));
      on_db (λ db, flush_db (db <| nodes ::= <[nid :=
        ec2_node key iid (de_region desc) (de_private_ip desc) mode user status schedulable vcpu mem_mb
          (empty_metadata <| nm_ec2_state := Some (de_state desc) |>)]> |>)) ;;
      mret nid
  | Some (nid, _) =>
      clash ← query (key_of_other_node nid key);
      if clash : bool then raise IntegrityError else
      set_node nid (refreshed key desc mode user status schedulable vcpu mem_mb) ;;
      n ← row nodes nid;
      ensure_execution_node_default_topology nid n ;;
      set_node nid (λ n, n <| node_metadata ::= λ m, m <| nm_ec2_state := Some (de_state desc) |> |>
                           <| node_updated_at := env_now |>) ;;
      flush ;;
      mret nid
  end.

(** Every EC2 row that names an instance, in key order; the first failure ends it. *)
Definition ec2_instance_ids (db : Db) : list string :=
  omap (λ kn : Z * ExecutionNode,
          if bool_decide (node_provider_type kn.2 = ExecutionNodeProviderType.EC2)
          then Py.strip_or_none (node_provider_instance_id kn.2) else None)
    (map_to_list (nodes db)).
Definition sync_ec2_instances (region : string) (instance_ids : list string) : M W unit :=
  ids ← (match instance_ids with [] => query ec2_instance_ids | _ => mret (Py.strip <$> instance_ids) end);
  for_each ids (λ iid, register_ec2_instance region iid None None None false ;; mret tt).
End registry.
