(* ===== verification/Ec2Cleanup.v ===== *)
(** * Ec2Cleanup: tags of launched resources and the sweep of orphans

    [src/backend/app/services/infrastructure_service/ec2_cleanup.py] and the tick of
    [workers/lifespan_ec2_orphan_janitor.py]: the tags an instance and what comes with
    it carry, the sweeps that delete what an instance left behind, and the rows of
    instances that are gone.  A [ClientError] that is not handled is the error of the
    sweep.  The theorems say that a sweep deletes only what the cloud described as
    DevNest's own and unused, and that launched resources are recognised. *)

From S2P Require Import Prelude Models Session Services Scheduling NodeBootstrap.
From S2P Require Import Ec2Registry.

(** ** Tags *)

Definition TAG_MANAGED_BY : string := "ManagedBy".
Definition TAG_PROJECT : string := "Project".
Definition TAG_AUTO_CLEANUP : string := "AutoCleanup".
Definition TAG_EXECUTION_NODE : string := "ExecutionNode".
Definition VALUE_DEVNEST : string := "DevNest".
Definition VALUE_AUTO_CLEANUP_TRUE : string := "true".
Definition PROTECTED_EXTRA_TAG_KEYS : list string := ["managedby"; "project"; "autocleanup"; "executionnode"]%string.

(** A dict of strings: a new key goes last, an old one keeps its place. *)
Fixpoint tag_put (k v : string) (m : list Ec2Tag) : list Ec2Tag :=
  match m with
  | [] => [(k, v)]
  | (k', v') :: m => if String.eqb k' k then (k, v) :: m else (k', v') :: tag_put k v m
  end.
Fixpoint tag_get (k : string) (m : list Ec2Tag) : option string :=
  match m with
  | [] => None
  | (k', v) :: m => if String.eqb k' k then Some v else tag_get k m
  end.
Definition tags_list_to_map (tags : list Ec2Tag) : list Ec2Tag :=
  foldl (λ m t, if Py.truthy (Py.strip t.1) then tag_put (Py.strip t.1) (Py.strip t.2) m else m) [] tags.
Definition normalized_tag_map (tags : list Ec2Tag) : list Ec2Tag :=
  foldl (λ m t, tag_put (Py.lower t.1) t.2 m) [] (tags_list_to_map tags).

Definition devnest_autocleanup_eligible (tags : list Ec2Tag) : bool :=
  let raw := tags_list_to_map tags in
  bool_decide (tag_get TAG_MANAGED_BY raw = Some VALUE_DEVNEST) &&
  bool_decide (tag_get TAG_PROJECT raw = Some VALUE_DEVNEST) &&
  String.eqb (Py.lower (Py.strip_opt (tag_get TAG_AUTO_CLEANUP raw))) VALUE_AUTO_CLEANUP_TRUE &&
  Py.truthy (Py.strip_opt (tag_get TAG_EXECUTION_NODE raw)).
(** [(tmap.get("executionnode") or "").strip()] *)
Definition node_of_tags (tags : list Ec2Tag) : string :=
  Py.strip_opt (tag_get "executionnode" (normalized_tag_map tags)).

Definition extra_tag (t : Ec2Tag) : option Ec2Tag :=
  let k := Py.strip t.1 in
  let v := Py.strip t.2 in
  if negb (Py.truthy k) || negb (Py.truthy v) then None
  else if bool_decide (Py.lower k ∈ PROTECTED_EXTRA_TAG_KEYS) then None
  else Some (Py.prefix_to 127 k, Py.prefix_to 256 v).
Definition merge_extra_tags (tags extra : list Ec2Tag) : list Ec2Tag := tags ++ omap extra_tag extra.

Fixpoint distinct_from (seen l : list string) : list string :=
  match l with
  | [] => []
  | x :: l => if bool_decide (x ∈ seen) then distinct_from seen l else x :: distinct_from (x :: seen) l
  end.
(** [list(dict.fromkeys(seen))] of the ids that are there *)
Definition resource_ids_from_run_instances_instance (i : Ec2Instance) : list string :=
  distinct_from [] (List.filter Py.truthy
    (Py.strip (ei_instance_id i) :: (Py.strip_opt <$> ei_volume_ids i) ++
     concat ((λ ni : option string * option string, [Py.strip_opt ni.1; Py.strip_opt ni.2]) <$> ei_network_interfaces i))).

(** [[x.strip() for x in s.split(",") if x.strip()]] *)
Fixpoint split_commas (s : string) : string * list string :=
  match s with
  | EmptyString => (EmptyString, [])
  | String c r => let '(a, l) := split_commas r in
                  if Ascii.eqb c "," then (EmptyString, a :: l) else (String c a, l)
  end.
Definition comma_list (s : string) : list string :=
  let '(a, l) := split_commas (Py.strip s) in List.filter Py.truthy (Py.strip <$> (a :: l)).

(** ** Orphans *)

Definition is_available (state : option string) : bool := String.eqb (Py.lower (default ""%string state)) "available".
Definition is_blank (s : option string) : bool := negb (Py.truthy (Py.strip_opt s)).
Definition volume_orphan (v : Ec2Volume) : bool :=
  devnest_autocleanup_eligible (vol_tags v) && is_available (vol_state v) && negb (vol_attached v).
Definition interface_orphan (n : Ec2NetworkInterface) : bool :=
  devnest_autocleanup_eligible (eni_tags n) && is_available (eni_status n).
Definition address_orphan (a : Ec2Address) : bool :=
  devnest_autocleanup_eligible (addr_tags a) && is_blank (addr_association_id a) &&
  is_blank (addr_instance_id a) && is_blank (addr_network_interface_id a).
(** The sweep after a termination asks for less, but for the node's own. *)
Definition address_of_node (nk : string) (a : Ec2Address) : bool :=
  devnest_autocleanup_eligible (addr_tags a) && String.eqb (node_of_tags (addr_tags a)) nk &&
  is_blank (addr_association_id a).
Definition group_of_node (nk : string) (g : Ec2SecurityGroup) : bool :=
  devnest_autocleanup_eligible (sg_tags g) && String.eqb (node_of_tags (sg_tags g)) nk.

Definition devnest_filters : list Ec2Tag :=
  [("tag:" ++ TAG_MANAGED_BY, VALUE_DEVNEST); ("tag:" ++ TAG_PROJECT, VALUE_DEVNEST);
   ("tag:" ++ TAG_AUTO_CLEANUP, VALUE_AUTO_CLEANUP_TRUE)]%string.
Definition node_filter (nk : string) : list Ec2Tag := [("tag:" ++ TAG_EXECUTION_NODE, nk)%string].

(** An instance in this state still has its security groups. *)
Definition still_there (state : option string) : bool :=
  negb (is_state_in (Py.lower (default ""%string state)) ["terminated"; "shutting-down"]%string).

(** The summaries of the report keep id and tags; here they are the descriptions. *)
Record AwsOrphansReport := mkAwsOrphansReport {
  or_volumes : list Ec2Volume;
  or_network_interfaces : list Ec2NetworkInterface;
  or_elastic_ips : list Ec2Address;
  or_security_groups : list Ec2SecurityGroup
}.
Record CleanupCounts := mkCleanupCounts {
  volumes_deleted : Z; enis_deleted : Z; eips_released : Z; security_groups_deleted : Z
}.

Section cleanup.
Context {W : Type} {env : Env} {cloud : Ec2Cloud W}.

Definition tag_prefix : string := Py.or_else (Py.strip (Py.or_else (ec2_tag_prefix (cfg_ec2 env_settings)) "devnest")) "devnest".
Definition control_plane_instance_ids : list string := comma_list (ec2_control_plane_instance_ids (cfg_ec2 env_settings)).

(** *** Tagging *)

Definition common_tags (name : string) : list Ec2Tag := [("Name", Py.prefix_to 256 name); (Py.prefix_to 127 (tag_prefix ++ ":managed"), "true")]%string.
Definition owner_tags : list Ec2Tag :=
  [(TAG_MANAGED_BY, VALUE_DEVNEST); (TAG_PROJECT, VALUE_DEVNEST); (TAG_AUTO_CLEANUP, VALUE_AUTO_CLEANUP_TRUE)].
Definition node_key_tag (nk : string) : Ec2Tag := (Py.prefix_to 127 (tag_prefix ++ ":node_key")%string, Py.prefix_to 256 nk).
Definition build_launch_tags_for_run_instances (node_key : option string) (display_name : string)
    (extra_tags : list Ec2Tag) : list Ec2Tag :=
  let nk := Py.strip_opt node_key in
  merge_extra_tags
    (owner_tags ++ common_tags (Py.or_else (Py.strip display_name) "devnest-node") ++
     (if Py.truthy nk then [(TAG_EXECUTION_NODE, Py.prefix_to 256 nk); node_key_tag nk] else []))
    extra_tags.
Definition build_complete_devnest_autoscale_tags (node_key display_name : string) (extra_tags : list Ec2Tag)
    : list Ec2Tag + Exn :=
  let nk := Py.strip node_key in
  if negb (Py.truthy nk) then inr (ValueError "node_key is required for complete DevNest autoscale tags")
  else inl (merge_extra_tags
    (owner_tags ++ [(TAG_EXECUTION_NODE, Py.prefix_to 256 nk)] ++ common_tags (Py.or_else (Py.strip display_name) nk) ++
     [node_key_tag nk]) extra_tags).

Definition apply_devnest_tags_to_instance_bundle (region node_key display_name : string) (i : Ec2Instance)
    (extra_tags : list Ec2Tag) : eff W Exn unit :=
  match build_complete_devnest_autoscale_tags node_key display_name extra_tags with
  | inr e => raise e
  | inl tags =>
      match resource_ids_from_run_instances_instance i with
      | [] => mret tt
      | rids => λ w, let '(w, _) := throttle_retry 5 (ec2_create_tags region rids tags) w in (w, inl tt)
      end
  end.

(** *** Sweeping *)

Definition security_group_in_use (region gid : string) : eff W AwsError bool :=
  interfaces ← (throttle_retry 5 (ec2_interfaces_of_group region gid) : eff W AwsError (list string));
  match interfaces with
  | _ :: _ => mret true
  | [] =>
      states ← (throttle_retry 5 (ec2_instance_states_of_group region gid) : eff W AwsError (list (option string)));
      mret (List.existsb still_there states)
  end.

Definition describe_filtered_volumes (region : string) (extra_filters : list Ec2Tag) : eff W AwsError (list Ec2Volume) :=
  ec2_describe_volumes region (devnest_filters ++ extra_filters).
Definition describe_filtered_enis (region : string) (extra_filters : list Ec2Tag)
    : eff W AwsError (list Ec2NetworkInterface) :=
  ec2_describe_network_interfaces region (devnest_filters ++ extra_filters).
Definition describe_filtered_security_groups (region : string) : eff W AwsError (list Ec2SecurityGroup) :=
  ec2_describe_security_groups region devnest_filters.
Definition describe_all_ec2_addresses (region : string) : eff W AwsError (list Ec2Address) :=
  throttle_retry 5 (ec2_describe_addresses region).
Definition scanned_addresses (region : string) : eff W AwsError (list Ec2Address) :=
  if ec2_orphan_scan_elastic_ips (cfg_ec2 env_settings) then describe_all_ec2_addresses region else mret [].

Fixpoint unused_groups (region : string) (l : list Ec2SecurityGroup) : eff W AwsError (list Ec2SecurityGroup) :=
  match l with
  | [] => mret []
  | g :: l =>
      let gid := Py.strip_opt (sg_id g) in
      free ← (if devnest_autocleanup_eligible (sg_tags g) && Py.truthy gid
              then (used ← security_group_in_use region gid; mret (negb used)) else mret false);
      rest ← unused_groups region l;
      mret (if free : bool then g :: rest else rest)
  end.

Definition discover_devnest_autocleanup_orphans (region : string) : eff W AwsError AwsOrphansReport :=
  volumes ← describe_filtered_volumes region [];
  enis ← describe_filtered_enis region [];
  addresses ← scanned_addresses region;
  groups ← describe_filtered_security_groups region;
  unused ← unused_groups region groups;
  mret (mkAwsOrphansReport (List.filter volume_orphan volumes) (List.filter interface_orphan enis)
          (List.filter address_orphan addresses) unused).

(** One call for each resource with an id; a [ClientError], its absence included, only
    means that it is not counted. *)
Definition delete_one (call : eff W AwsError unit) : eff W AwsError Z :=
  try_except ((throttle_retry 5 call : eff W AwsError unit) ;; mret 1) (λ _, mret 0).
Fixpoint delete_all {R} (id_of : R → option string) (call : string → eff W AwsError unit) (l : list R)
    : eff W AwsError Z :=
  match l with
  | [] => mret 0
  | r :: l =>
      let id := Py.strip_opt (id_of r) in
      n ← (if Py.truthy id then delete_one (call id) else mret 0);
      m ← delete_all id_of call l;
      mret (n + m)
  end.

Definition cleanup_devnest_autocleanup_orphans (region : string) : eff W AwsError CleanupCounts :=
  report ← discover_devnest_autocleanup_orphans region;
  v ← delete_all vol_id (ec2_delete_volume region) (or_volumes report);
  e ← delete_all eni_id (ec2_delete_network_interface region) (or_network_interfaces report);
  a ← delete_all addr_allocation_id (ec2_release_address region) (or_elastic_ips report);
  g ← delete_all sg_id (ec2_delete_security_group region) (or_security_groups report);
  mret (mkCleanupCounts v e a g).

(** The groups of the node: each is looked at just before it is deleted. *)
Fixpoint delete_groups_of (region nk : string) (l : list Ec2SecurityGroup) : eff W AwsError unit :=
  match l with
  | [] => mret tt
  | g :: l =>
      let gid := Py.strip_opt (sg_id g) in
      when (group_of_node nk g && Py.truthy gid)
        (used ← security_group_in_use region gid;
         if used : bool then mret tt else delete_one (ec2_delete_security_group region gid) ;; mret tt) ;;
      delete_groups_of region nk l
  end.

Definition cleanup_after_instance_terminated (region instance_id node_key : string) : eff W AwsError unit :=
  let iid := Py.strip instance_id in
  let nk := Py.strip node_key in
  if negb (Py.truthy iid) || negb (Py.truthy nk) then mret tt
  else if bool_decide (iid ∈ control_plane_instance_ids) then mret tt
  else
    volumes ← describe_filtered_volumes region (node_filter nk);
    delete_all vol_id (ec2_delete_volume region) (List.filter volume_orphan volumes) ;;
    enis ← describe_filtered_enis region (node_filter nk);
    delete_all eni_id (ec2_delete_network_interface region) (List.filter interface_orphan enis) ;;
    addresses ← scanned_addresses region;
    delete_all addr_allocation_id (ec2_release_address region) (List.filter (address_of_node nk) addresses) ;;
    groups ← describe_filtered_security_groups region;
    delete_groups_of region nk groups.

(** ** Rows of instances that are gone *)

Definition stale_candidate (n : ExecutionNode) : bool :=
  bool_decide (node_provider_type n = ExecutionNodeProviderType.EC2) &&
  Py.truthy (default ""%string (node_provider_instance_id n)) &&
  match node_status n with ExecutionNodeStatus.TERMINATING | ExecutionNodeStatus.ERROR => true | _ => false end.
Definition reconcile_stale_row (region : string) (kn : Z * ExecutionNode) : M W Z :=
  let iid := Py.strip_opt (node_provider_instance_id kn.2) in
  if negb (Py.truthy iid) || Py.startswith "catalog-pending:" iid || bool_decide (iid ∈ control_plane_instance_ids)
  then mret 0
  else
    state ← try_except (d ← describe_ec2_instance region iid; mret (Py.lower (de_state d)))
              (λ e, match e with Ec2InstanceNotFoundError _ => mret "terminated"%string | _ => raise e end);
    if is_state_in state ["terminated"; "shutting-down"]%string then
      set_node kn.1 (λ n, n <| node_status := ExecutionNodeStatus.TERMINATED |> <| node_schedulable := false |>
                            <| node_updated_at := env_now |>) ;;
      mret 1
    else mret 0.
Fixpoint reconcile_stale_rows (region : string) (l : list (Z * ExecutionNode)) : M W Z :=
  match l with
  | [] => mret 0
  | kn :: l => n ← reconcile_stale_row region kn; m ← reconcile_stale_rows region l; mret (n + m)
  end.
Definition reconcile_stale_ec2_execution_nodes : M W Z :=
  let region := Py.strip (cfg_aws_region env_settings) in
  if negb (Py.truthy region) then mret 0
  else
    rows ← query (λ db, List.filter (λ kn : Z * ExecutionNode, stale_candidate kn.2) (map_to_list (nodes db)));
    reconcile_stale_rows (client_region (Some region)) rows.

(** One tick of the janitor: the rows in a session of its own, then the sweep. *)
Definition sweep_orphans : M W CleanupCounts := λ s,
  let '(w, r) := cleanup_devnest_autocleanup_orphans (client_region None) (st_world s) in
  (s <| st_world := w |>, match r with inl c => inl c | inr e => inr (OtherException (aws_text e)) end).
Definition reconcile_in_session : M W Z :=
  rollback ;; try_except (n ← reconcile_stale_ec2_execution_nodes; commit ;; mret n) (λ e, rollback ;; raise e).
Definition run_ec2_orphan_janitor_tick_sync : M W (Z * CleanupCounts) :=
  reconciled ← (if Py.truthy (Py.strip (cfg_aws_region env_settings)) then reconcile_in_session else mret 0);
  stats ← sweep_orphans;
  mret (reconciled, stats).
End cleanup.
