(* ===== verification/SweepSafety.v ===== *)
(** * SweepSafety: the sweep of cloud resources deletes only orphans

    The theorems about [Ec2Cleanup]: over a cloud whose answers are written down, each
    deletion of a sweep is justified by an earlier description of the resource, every
    orphan described is tried, and what a launch tags is what a sweep recognises. *)

From S2P Require Import Prelude Traces Models Session Services Scheduling.
From S2P Require Import NodeBootstrap Ec2Registry Ec2Cleanup.

Inductive SweepEvent :=
| SawVolumes (filters : list Ec2Tag) (l : list Ec2Volume)
| SawInterfaces (filters : list Ec2Tag) (l : list Ec2NetworkInterface)
| SawAddresses (l : list Ec2Address)
| SawGroups (filters : list Ec2Tag) (l : list Ec2SecurityGroup)
| SawGroupInterfaces (gid : string) (l : list string)
| SawGroupInstances (gid : string) (l : list (option string))
| TriedVolume (id : string) | TriedInterface (id : string) | TriedAddress (id : string) | TriedGroup (id : string).

(** What a sweep asks for: DevNest's resources, those of a node if it is for one. *)
Definition sweep_filters (nk : option string) : list Ec2Tag := devnest_filters ++ from_option node_filter [] nk.
Definition address_swept (nk : option string) (a : Ec2Address) : bool :=
  match nk with Some k => address_of_node k a | None => address_orphan a end.
Definition group_swept (nk : option string) (g : Ec2SecurityGroup) : bool :=
  match nk with Some k => group_of_node k g | None => devnest_autocleanup_eligible (sg_tags g) end.

(** A deletion is justified by descriptions made before it. *)
Definition deletion_justified (nk : option string) (seen : list SweepEvent) (e : SweepEvent) : Prop :=
  match e with
  | TriedVolume id => ∃ l v, SawVolumes (sweep_filters nk) l ∈ seen ∧ v ∈ l ∧ volume_orphan v = true ∧
                             Py.strip_opt (vol_id v) = id
  | TriedInterface id => ∃ l n, SawInterfaces (sweep_filters nk) l ∈ seen ∧ n ∈ l ∧ interface_orphan n = true ∧
                                Py.strip_opt (eni_id n) = id
  | TriedAddress id => ∃ l a, SawAddresses l ∈ seen ∧ a ∈ l ∧ address_swept nk a = true ∧
                              Py.strip_opt (addr_allocation_id a) = id
  | TriedGroup id => ∃ l g states, SawGroups devnest_filters l ∈ seen ∧ g ∈ l ∧ group_swept nk g = true ∧
                                   Py.strip_opt (sg_id g) = id ∧ SawGroupInterfaces id [] ∈ seen ∧
                                   SawGroupInstances id states ∈ seen ∧ List.existsb still_there states = false
  | _ => True
  end.

(** Every orphan of the answers was tried. *)
Definition tried {R} (id_of : R → option string) (ev : string → SweepEvent) (orphan : R → bool) (l : list R)
    (log : list SweepEvent) : Prop :=
  ∀ r, r ∈ l → orphan r = true → Py.truthy (Py.strip_opt (id_of r)) = true → ev (Py.strip_opt (id_of r)) ∈ log.
Definition all_tried {env : Env} (nk : option string) (log : list SweepEvent) : Prop :=
  (∃ l, SawVolumes (sweep_filters nk) l ∈ log ∧ tried vol_id TriedVolume volume_orphan l log) ∧
  (∃ l, SawInterfaces (sweep_filters nk) l ∈ log ∧ tried eni_id TriedInterface interface_orphan l log) ∧
  (ec2_orphan_scan_elastic_ips (cfg_ec2 env_settings) = true →
   ∃ l, SawAddresses l ∈ log ∧ tried addr_allocation_id TriedAddress (address_swept nk) l log).

Section sweeps.
Context {W : Type} {env : Env} {cloud : Ec2Cloud W}.

(** The same cloud, which also writes down the descriptions and deletions. *)
#[local] Instance watched_cloud : Ec2Cloud (W * list SweepEvent) := {
  ec2_describe_instance r i s := let '(w, x) := ec2_describe_instance r i s.1 in ((w, s.2), x);
  ec2_describe_instance_type r i s := let '(w, x) := ec2_describe_instance_type r i s.1 in ((w, s.2), x);
  ec2_run_instances r p s := let '(w, x) := ec2_run_instances r p s.1 in ((w, s.2), x);
  ec2_wait_running r i s := let '(w, x) := ec2_wait_running r i s.1 in ((w, s.2), x);
  ec2_terminate_instances r i s := let '(w, x) := ec2_terminate_instances r i s.1 in ((w, s.2), x);
  ec2_wait_terminated r i s := (ec2_wait_terminated r i s.1, s.2);
  ec2_create_tags r l t s := let '(w, x) := ec2_create_tags r l t s.1 in ((w, s.2), x);
  ec2_describe_volumes r f := answered (SawVolumes f) (ec2_describe_volumes r f);
  ec2_describe_network_interfaces r f := answered (SawInterfaces f) (ec2_describe_network_interfaces r f);
  ec2_describe_addresses r := answered SawAddresses (ec2_describe_addresses r);
  ec2_describe_security_groups r f := answered (SawGroups f) (ec2_describe_security_groups r f);
  ec2_interfaces_of_group r g := answered (SawGroupInterfaces g) (ec2_interfaces_of_group r g);
  ec2_instance_states_of_group r g := answered (SawGroupInstances g) (ec2_instance_states_of_group r g);
  ec2_delete_volume r i := traced (TriedVolume i) (ec2_delete_volume r i);
  ec2_delete_network_interface r i := traced (TriedInterface i) (ec2_delete_network_interface r i);
  ec2_release_address r i := traced (TriedAddress i) (ec2_release_address r i);
  ec2_delete_security_group r i := traced (TriedGroup i) (ec2_delete_security_group r i);
  ssm_run_ready_gate r a b s := let '(w, x) := ssm_run_ready_gate r a b s.1 in ((w, s.2), x)
}.

Section node.
Context (nk : option string).
#[local] Abbreviation ok := (sound (deletion_justified nk)).
#[local] Abbreviation grown := (justified (W:=W) (deletion_justified nk)).

Lemma grown_in s s' e : grown s s' → e ∈ s.2 → e ∈ s'.2.
Proof. apply extends_in. Qed.

(** A throttled call is made again; each time the log has only grown. *)
Lemma ok_retry {R} n (call : eff (W * list SweepEvent) AwsError R) Q s :
  (∀ s', grown s s' → ok call Q s') → ok (throttle_retry n call : eff _ _ _) Q s.
Proof.
  intros Hc. revert s Hc. induction n as [|n IH]; intros s Hc; pose proof (Hc s (reflexivity s)) as H;
    unfold sound, wp in *; cbn [throttle_retry]; destruct (call s) as [s1 [a|e]]; [done|done|done|].
  destruct (throttled e); [|done].
  pose proof (IH s1 (λ s' H', Hc s' (transitivity (R:=grown) H H'))) as H1.
  destruct (throttle_retry n call s1) as [s2 [a|e2]]; [destruct H1 as [H1 ?]; split; [|done]|]; by etrans.
Qed.

Lemma retried_call {R} n ev (op : W → W * (R + AwsError)) s : (∀ s', grown s s' → deletion_justified nk s'.2 ev) →
  grown s (throttle_retry n (traced ev op) s).1 ∧ ev ∈ (throttle_retry n (traced ev op) s).1.2.
Proof.
  assert (Hone : ∀ s, (∀ s', grown s s' → deletion_justified nk s'.2 ev) →
    grown s (traced ev op s).1 ∧ ev ∈ (traced ev op s).1.2).
  { intros s' H'. unfold traced. destruct (op s'.1). cbn. split; [apply extends_snoc; [apply extends_refl|by apply H']|].
    apply elem_of_app. right. by apply list_elem_of_singleton. }
  revert s. induction n as [|n IH]; intros s Hj; pose proof (Hone s Hj) as H; cbn [throttle_retry];
    destruct (traced ev op s) as [s1 [a|e]]; [done|done|done|]. destruct (throttled e); [|done].
  destruct H as [H1 H2]. destruct (IH s1) as [H3 H4]; [intros s' H'; apply Hj; by etrans|]. split; [by etrans|done].
Qed.
Lemma ok_delete_one ev (op : W → W * (unit + AwsError)) s : (∀ s', grown s s' → deletion_justified nk s'.2 ev) →
  ok (delete_one (traced ev op)) (λ _ s', ev ∈ s'.2) s.
Proof.
  intros Hj. destruct (retried_call 5 ev op s Hj) as [H1 H2]. unfold sound, delete_one. apply wp_try, wp_bind.
  unfold wp at 1. destruct (throttle_retry 5 (traced ev op) s) as [s1 [[]|e]]; by apply wp_ret.
Qed.
Lemma ok_delete_all {R} (id_of : R → option string) (ev : string → SweepEvent)
    (op : string → W → W * (unit + AwsError)) l s :
  (∀ r s', r ∈ l → grown s s' → deletion_justified nk s'.2 (ev (Py.strip_opt (id_of r)))) →
  ok (delete_all id_of (λ id, traced (ev id) (op id)) l)
    (λ _ s', ∀ r, r ∈ l → Py.truthy (Py.strip_opt (id_of r)) = true → ev (Py.strip_opt (id_of r)) ∈ s'.2) s.
Proof.
  revert s. induction l as [|r l IH]; intros s Hj; cbn [delete_all]; [by apply sound_ret; intros r ?%not_elem_of_nil|].
  eapply (sound_bind _ _ _ (λ _ s', Py.truthy (Py.strip_opt (id_of r)) = true → ev (Py.strip_opt (id_of r)) ∈ s'.2)).
  - destruct (Py.truthy _); [|by apply sound_ret]. eapply sound_mono; [apply ok_delete_one|by auto].
    intros s' H'. apply Hj; [by apply list_elem_of_here|done].
  - intros n s1 H1 Hr. eapply sound_bind; [apply IH|].
    + intros r' s' Hin H'. apply Hj; [by apply list_elem_of_further|by etrans].
    + intros m s2 H2 Hl. apply sound_ret. intros r' [->|Hin]%elem_of_cons Ht; [|by apply Hl].
      eapply grown_in; [exact H2|by apply Hr].
Qed.

Definition unused_seen (gid : string) (s : W * list SweepEvent) : Prop :=
  SawGroupInterfaces gid [] ∈ s.2 ∧
  ∃ states, SawGroupInstances gid states ∈ s.2 ∧ List.existsb still_there states = false.
Lemma unused_seen_grown gid s s' : grown s s' → unused_seen gid s → unused_seen gid s'.
Proof. intros H (H1 & states & H2 & H3). split; [by eapply grown_in|]. exists states. split; [by eapply grown_in|done]. Qed.
Lemma ok_in_use region gid s :
  ok (security_group_in_use region gid) (λ used s', used = false → unused_seen gid s') s.
Proof.
  unfold security_group_in_use. eapply sound_bind; [apply ok_retry; intros s' _; by apply sound_answered|].
  intros [|x l] s1 H1 Hs1; [|by apply sound_ret].
  eapply sound_bind; [apply ok_retry; intros s' _; by apply sound_answered|]. intros states s2 H2 Hs2.
  apply sound_ret. intros Hu. split; [by eapply grown_in|by exists states].
Qed.
Lemma ok_unused_groups region l s :
  ok (unused_groups region l) (λ gs s', ∀ g, g ∈ gs → g ∈ l ∧ devnest_autocleanup_eligible (sg_tags g) = true ∧
                                             unused_seen (Py.strip_opt (sg_id g)) s') s.
Proof.
  revert s. induction l as [|g l IH]; intros s; cbn [unused_groups]; [by apply sound_ret; intros g ?%not_elem_of_nil|].
  eapply (sound_bind _ _ _ (λ free s', free = true → devnest_autocleanup_eligible (sg_tags g) = true ∧
                                                     unused_seen (Py.strip_opt (sg_id g)) s')).
  - destruct (devnest_autocleanup_eligible _ && _) eqn:E; [|by apply sound_ret].
    apply andb_true_iff in E as [E _]. eapply sound_bind; [apply ok_in_use|]. intros used s1 _ Hu. apply sound_ret.
    intros Hn. split; [done|]. apply Hu. by destruct used.
  - intros free s1 H1 Hfree. eapply sound_bind; [apply IH|]. intros rest s2 H2 Hrest. apply sound_ret.
    assert (Hl : ∀ g', g' ∈ rest → g' ∈ g :: l ∧ devnest_autocleanup_eligible (sg_tags g') = true ∧
      unused_seen (Py.strip_opt (sg_id g')) s2).
    { intros g' Hg'. destruct (Hrest g' Hg') as (? & ? & ?). split_and!; [by apply list_elem_of_further|done|done]. }
    destruct free; [|done]. intros g' [->|Hg']%elem_of_cons; [|by apply Hl].
    destruct (Hfree eq_refl) as [? Hus]. split_and!; [by apply list_elem_of_here|done|by eapply unused_seen_grown].
Qed.

Lemma tried_grown {R} id_of ev orphan (l : list R) s s' :
  grown s s' → tried id_of ev orphan l s.2 → tried id_of ev orphan l s'.2.
Proof. intros H Ht r Hr Ho Hid. eapply grown_in; [exact H|by apply Ht]. Qed.
(** Deleting the orphans among the resources seen *)
Lemma ok_sweep {R} (id_of : R → option string) (ev : string → SweepEvent) (orphan : R → bool)
    (op : string → W → W * (unit + AwsError)) l s :
  (∀ r s', r ∈ l → orphan r = true → grown s s' → deletion_justified nk s'.2 (ev (Py.strip_opt (id_of r)))) →
  ok (delete_all id_of (λ id, traced (ev id) (op id)) (List.filter orphan l)) (λ _ s', tried id_of ev orphan l s'.2) s.
Proof.
  intros Hj. eapply sound_mono; [apply ok_delete_all|].
  - intros r s' Hr. apply Hj; apply list_elem_of_In, filter_In in Hr as [H1 H2]; [by apply list_elem_of_In|done].
  - intros n s' _ H r Hr Ho. apply H. by apply list_elem_of_In, filter_In; split; [apply list_elem_of_In|].
Qed.
Lemma ok_scanned region s :
  ok (scanned_addresses region)
    (λ l s', match l with [] => True | _ => SawAddresses l ∈ s'.2 end ∧
             (ec2_orphan_scan_elastic_ips (cfg_ec2 env_settings) = true → SawAddresses l ∈ s'.2)) s.
Proof.
  unfold scanned_addresses. destruct (ec2_orphan_scan_elastic_ips _); [|by apply sound_ret].
  eapply sound_mono; [apply ok_retry; intros s' _; by apply sound_answered|]. intros l s' _ H. by destruct l.
Qed.
End node.

Lemma ok_orphan_sweep region s :
  sound (deletion_justified None) (cleanup_devnest_autocleanup_orphans region) (λ _ s', all_tried None s'.2) s.
Proof.
  unfold cleanup_devnest_autocleanup_orphans, discover_devnest_autocleanup_orphans.
  eapply (sound_bind _ _ _ (λ rep s', ∃ vs es as_ gs,
    rep = mkAwsOrphansReport (List.filter volume_orphan vs) (List.filter interface_orphan es)
            (List.filter address_orphan as_) gs ∧
    SawVolumes (sweep_filters None) vs ∈ s'.2 ∧ SawInterfaces (sweep_filters None) es ∈ s'.2 ∧
    (match as_ with [] => True | _ => SawAddresses as_ ∈ s'.2 end) ∧
    (ec2_orphan_scan_elastic_ips (cfg_ec2 env_settings) = true → SawAddresses as_ ∈ s'.2) ∧
    (∃ l, SawGroups devnest_filters l ∈ s'.2 ∧ ∀ g, g ∈ gs → g ∈ l ∧
       devnest_autocleanup_eligible (sg_tags g) = true ∧ unused_seen (Py.strip_opt (sg_id g)) s'))).
  - eapply sound_bind; [by apply sound_answered|]. intros vs s1 H1 Hv.
    eapply sound_bind; [by apply sound_answered|]. intros es s2 H2 He.
    eapply sound_bind; [apply ok_scanned|]. intros as_ s3 H3 [Ha Ha'].
    eapply sound_bind; [by apply sound_answered|]. intros l s4 H4 Hl.
    eapply sound_bind; [apply ok_unused_groups|]. intros gs s5 H5 Hg. apply sound_ret.
    exists vs, es, as_, gs. split_and!; [done|eapply grown_in; [|exact Hv]; by do 3 (etrans; [|done])
      |eapply grown_in; [|exact He]; by do 2 (etrans; [|done])| | |].
    + destruct as_; [done|]. eapply grown_in; [|exact Ha]. by etrans.
    + intros Hs. eapply grown_in; [|exact (Ha' Hs)]. by etrans.
    + exists l. split; [by eapply grown_in|exact Hg].
  - intros rep s1 H1 (vs & es & as_ & gs & -> & Hv & He & Ha & Ha' & (l & Hl & Hg)). cbn [or_volumes or_network_interfaces or_elastic_ips or_security_groups].
    eapply sound_bind; [apply ok_sweep; intros v s' Hin Ho H'; exists vs, v; split_and!; [by eapply grown_in|done..]|].
    intros n1 s2 H2 T1. eapply sound_bind; [apply ok_sweep; intros v s' Hin Ho H'; exists es, v; split_and!;
      [eapply grown_in; [|exact He]; by etrans|done..]|].
    intros n2 s3 H3 T2. eapply sound_bind; [apply ok_sweep; intros v s' Hin Ho H'; exists as_, v; split_and!; [|done..]|].
    { destruct as_; [by apply not_elem_of_nil in Hin|]. eapply grown_in; [|exact Ha]. by do 2 (etrans; [|done]). }
    intros n3 s4 H4 T3.
    eapply sound_bind; [apply ok_delete_all|].
    { intros g s' Hin H'. destruct (Hg g Hin) as (Hgl & Hge & Hgu).
      assert (H14 : justified (deletion_justified None) s1 s') by (by do 3 (etrans; [|done])).
      eapply unused_seen_grown in Hgu as (Hi & states & Hst & Hdead); [|exact H14].
      exists l, g, states. split_and!; try done. by eapply grown_in. }
    intros n4 s5 H5 _. apply sound_ret. split_and!.
    + exists vs. split; [eapply grown_in; [|exact Hv]; by do 4 (etrans; [|done])|].
      eapply tried_grown; [|exact T1]. by do 2 (etrans; [|done]).
    + exists es. split; [eapply grown_in; [|exact He]; by do 4 (etrans; [|done])|].
      eapply tried_grown; [|exact T2]. by etrans.
    + intros Hs. exists as_. split; [eapply grown_in; [|exact (Ha' Hs)]; by do 4 (etrans; [|done])|].
      by eapply tried_grown.
Qed.

Lemma ok_delete_groups region k l all s : (∀ g, g ∈ l → g ∈ all) → SawGroups devnest_filters all ∈ s.2 →
  sound (deletion_justified (Some k)) (delete_groups_of region k l) (λ _ _, True) s.
Proof.
  revert s. induction l as [|g l IH]; intros s Hin Hs; cbn [delete_groups_of]; [by apply sound_ret|].
  eapply (sound_bind _ _ _ (λ _ _, True)).
  - destruct (group_of_node k g && _) eqn:E; cbn [when]; [|by apply sound_ret]. apply andb_true_iff in E as [E _].
    eapply sound_bind; [apply ok_in_use|]. intros [|] s1 H1 Hu; [by apply sound_ret|].
    eapply sound_bind; [apply ok_delete_one|by intros; apply sound_ret]. intros s' H'.
    eapply unused_seen_grown in Hu as (Hi & states & Hst & Hdead); [|exact H'|done].
    exists all, g, states. split_and!; try done; [|apply Hin, list_elem_of_here].
    eapply grown_in; [|exact Hs]. by etrans.
  - intros [] s1 H1 _. apply IH; [intros g' Hg'; by apply Hin, list_elem_of_further|by eapply grown_in].
Qed.
Lemma ok_node_sweep region iid nk s :
  let k := Py.strip nk in
  sound (deletion_justified (Some k)) (cleanup_after_instance_terminated region iid nk)
    (λ _ s', Py.truthy (Py.strip iid) = true → Py.truthy k = true → Py.strip iid ∉ control_plane_instance_ids →
             all_tried (Some k) s'.2) s.
Proof.
  intros k. unfold cleanup_after_instance_terminated. fold k. cbv zeta.
  destruct (negb _ || _) eqn:E1.
  { apply sound_ret. intros H1 H2. by rewrite H1, H2 in E1. }
  case_bool_decide as E2; [by apply sound_ret|].
  eapply sound_bind; [by apply sound_answered|]. intros vs s1 H1 Hv.
  eapply sound_bind; [apply ok_sweep; intros v s' Hin Ho H'; exists vs, v; split_and!; [by eapply grown_in|done..]|].
  intros n1 s2 H2 T1.
  eapply sound_bind; [by apply sound_answered|]. intros es s3 H3 He.
  eapply sound_bind; [apply ok_sweep; intros v s' Hin Ho H'; exists es, v; split_and!; [by eapply grown_in|done..]|].
  intros n2 s4 H4 T2.
  eapply sound_bind; [apply ok_scanned|]. intros as_ s5 H5 [Ha Ha'].
  eapply sound_bind; [apply (ok_sweep _ _ _ (address_swept (Some k))); intros v s' Hin Ho H'; exists as_, v; split_and!; [|done..]|].
  { destruct as_; [by apply not_elem_of_nil in Hin|]. by eapply grown_in. }
  intros n3 s6 H6 T3.
  eapply sound_bind; [by apply sound_answered|]. intros gs s7 H7 Hg.
  eapply sound_mono; [by apply (ok_delete_groups _ _ _ gs)|]. intros [] s8 H8 _ _ _ _. split_and!.
  - exists vs. split; [eapply grown_in; [|exact Hv]; by do 6 (etrans; [|done])|].
    eapply tried_grown; [|exact T1]. by do 5 (etrans; [|done]).
  - exists es. split; [eapply grown_in; [|exact He]; by do 4 (etrans; [|done])|].
    eapply tried_grown; [|exact T2]. by do 3 (etrans; [|done]).
  - intros Hs. exists as_. split; [eapply grown_in; [|exact (Ha' Hs)]; by do 2 (etrans; [|done])|].
    eapply tried_grown; [|exact T3]. by etrans.
Qed.

(** C34. Both sweeps, the periodic one and the one after a termination, delete only what
    is DevNest's own and unused: whatever the cloud answers and whichever calls it
    throttles or refuses, each deletion follows a description of the resource with all
    four autocleanup tags, of a volume as available and without attachment, of an interface
    as available, of an address without association (in the periodic sweep without
    instance and interface too), of a group without interfaces and live instances.  After
    a termination an address or a group is described with the tag of that node, a volume or
    an interface in the answer to a request filtered by it, which the code trusts; for a
    control-plane instance nothing is asked.  A sweep that returns has tried every orphan
    volume, interface and address described. *)
Theorem sweeps_delete_only_orphans (region : string) (w : W) :
  (let '((_, log), res) := cleanup_devnest_autocleanup_orphans region (w, []) in
   (∀ l1 e l2, log = l1 ++ e :: l2 → deletion_justified None l1 e) ∧
   (∀ counts, res = inl counts → all_tried None log)) ∧
  (∀ iid nk, let '((_, log), res) := cleanup_after_instance_terminated region iid nk (w, []) in
   (∀ l1 e l2, log = l1 ++ e :: l2 → deletion_justified (Some (Py.strip nk)) l1 e) ∧
   (Py.strip iid ∈ control_plane_instance_ids → log = []) ∧
   (Py.truthy (Py.strip iid) = true → Py.truthy (Py.strip nk) = true → Py.strip iid ∉ control_plane_instance_ids →
    res = inl tt → all_tried (Some (Py.strip nk)) log)).
Proof.
  split.
  - pose proof (sound_log _ _ _ w (ok_orphan_sweep region (w, []))) as H.
    destruct (cleanup_devnest_autocleanup_orphans region (w, [])) as [[w' log] res]. exact H.
  - intros iid nk. pose proof (sound_log _ _ _ w (ok_node_sweep region iid nk (w, []))) as H.
    destruct (cleanup_after_instance_terminated region iid nk (w, [])) as [[w' log] res] eqn:E.
    destruct H as [Hj Hr]. split_and!; [exact Hj| |intros H1 H2 H3 ->; by eapply Hr].
    intros Hc. unfold cleanup_after_instance_terminated in E. cbv zeta in E.
    destruct (negb _ || _); [by injection E as <- <- <-|]. rewrite bool_decide_true in E by done. by injection E as <- <- <-.
Qed.
End sweeps.

(** ** Tags *)

Lemma tag_get_put k k' v m : tag_get k (tag_put k' v m) = if String.eqb k' k then Some v else tag_get k m.
Proof.
  induction m as [|[k1 v1] m IH]; cbn; [done|]. destruct (String.eqb_spec k1 k') as [->|H]; cbn; [by destruct (String.eqb k' k)|].
  rewrite IH. destruct (String.eqb_spec k1 k) as [->|H1]; [|done]. by rewrite (proj2 (String.eqb_neq _ _)).
Qed.
Lemma elem_of_tag_put t k v m : t ∈ tag_put k v m → t = (k, v) ∨ t ∈ m.
Proof.
  induction m as [|[k1 v1] m IH]; cbn; [by intros [->|?%not_elem_of_nil]%elem_of_cons; [left|]|].
  destruct (String.eqb k1 k); intros [->|H]%elem_of_cons; [by left|right; by apply list_elem_of_further|right; apply list_elem_of_here|].
  destruct (IH H); [by left|right; by apply list_elem_of_further].
Qed.

(** A fold that puts the value [v] whenever it puts the key [K] gives [K] that value. *)
Section fold.
Context (P : Ec2Tag → bool) (f g : Ec2Tag → string).
#[local] Abbreviation fold := (foldl (λ m t, if P t then tag_put (f t) (g t) m else m)).
Lemma fold_get K v l m : (∀ t, t ∈ l → P t = true → f t = K → g t = v) →
  (tag_get K m = Some v ∨ ∃ t, t ∈ l ∧ P t = true ∧ f t = K) → tag_get K (fold m l) = Some v.
Proof.
  revert m. induction l as [|t l IH]; intros m Hv H; cbn.
  { destruct H as [?|(t & ?%not_elem_of_nil & _)]; done. }
  apply IH; [intros t' Ht'; apply Hv; by apply list_elem_of_further|].
  destruct (P t) eqn:Ep.
  - rewrite tag_get_put. destruct (String.eqb_spec (f t) K) as [E|E].
    + left. f_equal. apply Hv; [apply list_elem_of_here|done..].
    + destruct H as [H|(t' & [->|Ht']%elem_of_cons & ? & ?)]; [by left|done|right; by exists t'].
  - destruct H as [H|(t' & [->|Ht']%elem_of_cons & ? & ?)]; [by left|congruence|right; by exists t'].
Qed.
Lemma elem_of_fold t l m : t ∈ fold m l → t ∈ m ∨ ∃ t', t' ∈ l ∧ P t' = true ∧ t = (f t', g t').
Proof.
  revert m. induction l as [|t1 l IH]; intros m; cbn; [by left|]. intros [H|(t' & ? & ?)]%IH.
  - destruct (P t1) eqn:Ep; [|by left]. apply elem_of_tag_put in H as [->|H]; [|by left]. right. exists t1.
    split_and!; [apply list_elem_of_here|done..].
  - right. exists t'. split; [by apply list_elem_of_further|done].
Qed.
End fold.

(** A tag the sweep does not look at, and those it does *)
Definition plain_tag (t : Ec2Tag) : Prop := Py.lower (Py.strip t.1) ∉ PROTECTED_EXTRA_TAG_KEYS.
Definition cleanup_tags (nk : string) : list Ec2Tag := (TAG_EXECUTION_NODE, nk) :: owner_tags.

Section tags.
Context (nk : string) (Hs : Py.strip nk = nk) (Ht : Py.truthy nk = true).
Lemma cleanup_tags_stripped : Forall (λ t, Py.strip t.1 = t.1 ∧ Py.strip t.2 = t.2 ∧ Py.truthy t.1 = true ∧
  Py.lower t.1 ∈ PROTECTED_EXTRA_TAG_KEYS) (cleanup_tags nk).
Proof.
  repeat constructor; cbn [fst snd]; try (by vm_compute); try exact Hs;
    apply (bool_decide_eq_true_1 (_ ∈ PROTECTED_EXTRA_TAG_KEYS)); by vm_compute.
Qed.
Lemma cleanup_tags_unique : Forall (λ t, Forall (λ t', Py.lower t.1 = Py.lower t'.1 → t = t') (cleanup_tags nk)) (cleanup_tags nk).
Proof. repeat constructor; cbn; intros E; first [done|by vm_compute in E]. Qed.

(** Tags are recognised whatever plain tags stand between those the sweep looks at. *)
Context (tags : list Ec2Tag) (Hall : ∀ t, t ∈ tags → plain_tag t ∨ t ∈ cleanup_tags nk)
  (Hin : ∀ t, t ∈ cleanup_tags nk → t ∈ tags).
Lemma raw_cleanup_tag t : t ∈ cleanup_tags nk → tag_get t.1 (tags_list_to_map tags) = Some t.2.
Proof.
  intros H. pose proof (proj1 (Forall_forall _ _) cleanup_tags_stripped) as Hst.
  destruct (Hst t H) as (E1 & E2 & E3 & E4). unfold tags_list_to_map.
  apply (fold_get (λ t, Py.truthy (Py.strip t.1)) (λ t, Py.strip t.1) (λ t, Py.strip t.2)).
  - intros t' H' _ Hk. destruct (Hall t' H') as [Hp|Hc]; [by rewrite <- Hk in E4|].
    destruct (Hst t' Hc) as (E1' & E2' & _). rewrite E2'. rewrite E1' in Hk.
    pose proof cleanup_tags_unique as Hu. rewrite Forall_forall in Hu. specialize (Hu _ H). rewrite Forall_forall in Hu.
    by rewrite (Hu _ Hc) by (by rewrite Hk).
  - right. exists t. rewrite E1. auto.
Qed.
Lemma tags_recognised : devnest_autocleanup_eligible tags = true ∧ node_of_tags tags = nk.
Proof.
  assert (Hexec : (TAG_EXECUTION_NODE, nk) ∈ cleanup_tags nk) by apply list_elem_of_here.
  assert (Hown : ∀ i t, owner_tags !! i = Some t → t ∈ cleanup_tags nk)
    by (intros i t H; by apply list_elem_of_further, (list_elem_of_lookup_2 _ i)).
  split.
  - unfold devnest_autocleanup_eligible.
    pose proof (raw_cleanup_tag _ (Hown 0%nat _ eq_refl)) as H0.
    pose proof (raw_cleanup_tag _ (Hown 1%nat _ eq_refl)) as H1.
    pose proof (raw_cleanup_tag _ (Hown 2%nat _ eq_refl)) as H2.
    pose proof (raw_cleanup_tag _ Hexec) as H3. cbn [fst snd] in H0, H1, H2, H3. rewrite H0, H1, H2, H3. change (Py.strip_opt (Some nk)) with (Py.strip nk). rewrite Hs, Ht. by vm_compute.
  - unfold node_of_tags, normalized_tag_map.
    rewrite (fold_get (λ _, true) (λ t, Py.lower t.1) (λ t, t.2) "executionnode" nk); [exact Hs| |].
    + intros t [?%not_elem_of_nil|(t' & H' & _ & ->)]%elem_of_fold _ Hk; [done|]. cbn in *.
      destruct (Hall t' H') as [Hp|Hc].
      * destruct Hp. rewrite Hk. apply (bool_decide_eq_true_1 (_ ∈ PROTECTED_EXTRA_TAG_KEYS)). by vm_compute.
      * pose proof (proj1 (Forall_forall _ _) cleanup_tags_stripped t' Hc) as (E1 & E2 & _). rewrite E1 in Hk.
        pose proof cleanup_tags_unique as Hu. rewrite Forall_forall in Hu. specialize (Hu _ Hexec). rewrite Forall_forall in Hu.
        by rewrite E2, <- (Hu _ Hc) by (by rewrite Hk).
    + right. pose proof (raw_cleanup_tag _ Hexec) as H. cbn [fst snd] in H. exists (TAG_EXECUTION_NODE, nk).
      split_and!; [|done|by vm_compute]. clear -H. induction (tags_list_to_map tags) as [|[k v] m IH]; [done|].
      cbn in H. destruct (String.eqb_spec k TAG_EXECUTION_NODE) as [->|Hk]; [injection H as ->; apply list_elem_of_here|].
      by apply list_elem_of_further, IH.
Qed.
End tags.

(** A colon survives stripping and lower-casing, and no protected key has one. *)
Definition has_colon (s : string) : Prop := In ":"%char (list_ascii_of_string s).
Lemma colon_lstrip l : In ":"%char l → In ":"%char (Py.lstrip_by Py.is_space l).
Proof. induction l as [|c l IH]; [done|]. cbn [Py.lstrip_by]. destruct (Py.is_space c) eqn:E; [|done]. by intros [->|H]; [|apply IH]. Qed.
Lemma colon_strip s : has_colon s → has_colon (Py.strip s).
Proof.
  unfold has_colon, Py.strip. rewrite Py.list_ascii_on_chars. unfold Py.strip_by, Py.rstrip_by. intros H.
  apply -> in_rev. apply colon_lstrip. apply -> in_rev. by apply colon_lstrip.
Qed.
Lemma colon_lower s : has_colon s → has_colon (Py.lower s).
Proof. unfold has_colon. induction s as [|c s IH]; [done|]. cbn. intros [->|H]; [by left|right; by apply IH]. Qed.
Lemma colon_plain k v : has_colon k → plain_tag (k, v).
Proof.
  intros H%colon_strip%colon_lower. unfold plain_tag. cbn [fst]. intros Hin.
  assert (Hf : Forall (λ k, ¬ has_colon k) PROTECTED_EXTRA_TAG_KEYS) by (repeat constructor; unfold has_colon; cbn; naive_solver).
  rewrite Forall_forall in Hf. by eapply Hf.
Qed.
Lemma extra_plain t t' : extra_tag t = Some t' → Py.len (Py.strip t.1) ≤ 127 → plain_tag t'.
Proof.
  unfold extra_tag. intros H Hl. destruct (_ || _); [done|]. case_bool_decide as E; [done|]. injection H as <-.
  unfold plain_tag. cbn [fst]. by rewrite length_prefix_short, Py.strip_idem.
Qed.

Section launch.
Context {env : Env}.
Lemma prefix_plain x v : Py.len (tag_prefix ++ x)%string ≤ 127 → has_colon x →
  plain_tag (Py.prefix_to 127 (tag_prefix ++ x)%string, v).
Proof.
  intros Hl Hx. rewrite length_prefix_short by done. apply colon_plain. unfold has_colon.
  rewrite Py.list_ascii_of_app. apply in_or_app. by right.
Qed.
Lemma common_plain name nk t : Py.len tag_prefix ≤ 100 → t ∈ common_tags name ++ [node_key_tag nk] → plain_tag t.
Proof.
  intros Hp. unfold common_tags, node_key_tag.
  intros [->|[->|[->|?%not_elem_of_nil]%elem_of_cons]%elem_of_cons]%elem_of_cons; [| | |done].
  - intros H. by apply (bool_decide_eq_true_2 (_ ∈ PROTECTED_EXTRA_TAG_KEYS)) in H; vm_compute in H.
  - apply prefix_plain; [unfold Py.len in *; rewrite length_append; cbn; lia|by left].
  - apply prefix_plain; [unfold Py.len in *; rewrite length_append; cbn; lia|by left].
Qed.

(** What a launch tags is what a sweep recognises: the tags of a launch with a node
    key, and those put on the instance and all that came with it afterwards, make a
    resource eligible for the cleanup and read back to that node, whatever the display
    name and the operator's extra tags are, as long as no tag key is cut. *)
Lemma launched_resources_are_recognised (node_key name : string) (extra : list Ec2Tag)
    (Hk : Py.truthy (Py.strip node_key) = true) (Hl : Py.len (Py.strip node_key) ≤ 256)
    (Hp : Py.len tag_prefix ≤ 100) (He : Forall (λ t, Py.len (Py.strip t.1) ≤ 127) extra) :
  (∃ tags, build_complete_devnest_autoscale_tags node_key name extra = inl tags ∧
           devnest_autocleanup_eligible tags = true ∧ node_of_tags tags = Py.strip node_key) ∧
  let tags := build_launch_tags_for_run_instances (Some node_key) name extra in
  devnest_autocleanup_eligible tags = true ∧ node_of_tags tags = Py.strip node_key.
Proof.
  set (nk := Py.strip node_key) in *.
  assert (Hextra : ∀ t, t ∈ omap extra_tag extra → plain_tag t).
  { intros t (t0 & H1 & H2)%list_elem_of_omap. rewrite Forall_forall in He. by eapply extra_plain, He. }
  assert (Hrec : ∀ tags, (∀ t, t ∈ cleanup_tags nk → t ∈ tags) →
      (∀ t, t ∈ tags → t ∈ cleanup_tags nk ∨ t ∈ omap extra_tag extra ∨ ∃ n, t ∈ common_tags n ++ [node_key_tag nk]) →
    devnest_autocleanup_eligible tags = true ∧ node_of_tags tags = nk).
  { intros tags Hin Htags. apply tags_recognised; [apply Py.strip_idem|done| |done].
    intros t [H|[H|(n & H)]]%Htags; [by right|left; by apply Hextra|left; by eapply common_plain]. }
  split.
  - unfold build_complete_devnest_autoscale_tags. fold nk. rewrite Hk. cbn [negb]. eexists. split; [done|].
    unfold merge_extra_tags. rewrite length_prefix_short by done. set (n := Py.or_else _ _).
    apply Hrec; unfold cleanup_tags; [set_solver|]. intros t H. destruct (decide (t ∈ common_tags n ++ [node_key_tag nk])) as [Hc|Hc]; [by eauto|set_solver].
  - unfold build_launch_tags_for_run_instances. change (Py.strip_opt (Some node_key)) with nk. rewrite Hk.
    unfold merge_extra_tags. rewrite length_prefix_short by done. set (n := Py.or_else _ _).
    apply Hrec; unfold cleanup_tags; [set_solver|]. intros t H. destruct (decide (t ∈ common_tags n ++ [node_key_tag nk])) as [Hc|Hc]; [by eauto|set_solver].
Qed.
End launch.
