(* ===== verification/NodeLifecycle.v ===== *)
(** * NodeLifecycle: provisioning, readiness, draining and termination of nodes

    [src/backend/app/services/infrastructure_service/lifecycle.py], and the heartbeat
    endpoint of [api/routers/internal_execution_nodes.py].  A node is named by its
    row key; the lifecycle timestamps kept in [metadata_json] only for people are
    left out, as are the display columns of [Ec2Registry]. *)

From S2P Require Import Prelude Models Session Services Scheduling NodeBootstrap.
From S2P Require Import Ec2Registry Ec2Cleanup.

(** [s.upper()] on ASCII text *)
Definition upper_ascii (c : ascii) : ascii :=
  let n := N_of_ascii c in
  if ((97 <=? n) && (n <=? 122))%N then ascii_of_N (n - 32) else c.
Definition upper : string → string := Py.on_chars (map upper_ascii).

Section lifecycle.
Context {W : Type} {env : Env} {cloud : Ec2Cloud W}.

(** [get_node] (placement_service/node_placement.py) *)
Definition get_node (node_id : option Z) (node_key : option string) : M W Z :=
  match node_id with
  | Some nid =>
      found ← query (λ db, nodes db !! nid);
      match found with
      | Some _ => mret nid
      | None => raise (ExecutionNodeNotFoundError ("execution node id=" ++ Py.str_of_Z nid ++ " not found"))
      end
  | None =>
      let key := Py.strip_opt node_key in
      if negb (Py.truthy key) then raise (ExecutionNodeNotFoundError "node_id or node_key is required") else
      found ← node_by_key key;
      match found with
      | Some (nid, _) => mret nid
      | None => raise (ExecutionNodeNotFoundError ("execution node key='" ++ key ++ "' not found"))
      end
  end.

(** ** Drain, undrain, deregister *)

Definition set_lifecycle (st : execution_node_status) (schedulable : bool) (n : ExecutionNode) : ExecutionNode :=
  n <| node_status := st |> <| node_schedulable := schedulable |> <| node_updated_at := env_now |>.

(** [row.status = ..; session.add(row); session.flush()] *)
Definition update_node (nid : Z) (f : ExecutionNode → ExecutionNode) : M W unit :=
  set_node nid f ;; flush.

Definition mark_node_draining (node_id : option Z) (node_key : option string) : M W Z :=
  nid ← get_node node_id node_key;
  n ← row nodes nid;
  (if bool_decide (node_status n = ExecutionNodeStatus.TERMINATED) then mret tt
   else if bool_decide (node_status n = ExecutionNodeStatus.DRAINING) && negb (node_schedulable n) then mret tt
   else update_node nid (set_lifecycle ExecutionNodeStatus.DRAINING false)) ;;
  mret nid.

Definition undrain_node (node_id : option Z) (node_key : option string) : M W Z :=
  nid ← get_node node_id node_key;
  n ← row nodes nid;
  match node_status n with
  | ExecutionNodeStatus.TERMINATED => raise (NodeLifecycleError "cannot undrain TERMINATED node")
  | ExecutionNodeStatus.READY =>
      (if node_schedulable n then mret tt else update_node nid (set_lifecycle ExecutionNodeStatus.READY true)) ;;
      mret nid
  | ExecutionNodeStatus.DRAINING =>
      update_node nid (set_lifecycle ExecutionNodeStatus.READY true) ;;
      mret nid
  | _ => raise (NodeLifecycleError "undrain supports DRAINING or READY+schedulable=false")
  end.

Definition deregister_node (node_id : option Z) (node_key : option string) : M W Z :=
  nid ← get_node node_id node_key;
  n ← row nodes nid;
  (if bool_decide (node_status n = ExecutionNodeStatus.TERMINATED) && negb (node_schedulable n) then mret tt
   else update_node nid (set_lifecycle ExecutionNodeStatus.TERMINATED false)) ;;
  mret nid.

(** ** Termination *)

Definition assert_ec2_node (n : ExecutionNode) (op : string) : M W unit :=
  if bool_decide (node_provider_type n = ExecutionNodeProviderType.EC2) then mret tt
  else raise (NodeLifecycleError (op ++ " requires provider_type=ec2 (node_key='" ++ node_node_key n ++ "')")).

Definition instance_of_node (n : ExecutionNode) : M W string :=
  let iid := Py.strip_opt (node_provider_instance_id n) in
  if Py.truthy iid then mret iid
  else raise (NodeLifecycleError ("node '" ++ node_node_key n ++ "' has no provider_instance_id")).

Definition with_error (code message : string) (n : ExecutionNode) : ExecutionNode :=
  n <| node_last_error_code := Some code |> <| node_last_error_message := Some (Py.prefix_to 4096 message) |>
    <| node_updated_at := env_now |>.

Definition gone_state (state : string) : bool := is_state_in state ["terminated"; "shutting-down"]%string.

(** What the instance's description says after the request. *)
Definition state_after_terminate (region iid : string) : M W string :=
  try_except (d ← describe_ec2_instance region iid; mret (de_state d))
    (λ e, match e with
          | Ec2InstanceNotFoundError _ => mret "terminated"%string
          | Ec2ProviderError _ | Ec2InvalidInstanceIdError _ => mret "unknown"%string
          | _ => raise e
          end).

Definition terminate_ec2_node (node_id : option Z) (node_key : option string) (wait_until_terminated : bool)
    : M W Z :=
  nid ← get_node node_id node_key;
  n ← row nodes nid;
  assert_ec2_node n "terminate_ec2_node" ;;
  if bool_decide (node_status n = ExecutionNodeStatus.TERMINATED) then mret nid else
  iid ← instance_of_node n;
  when (negb (bool_decide (node_status n = ExecutionNodeStatus.TERMINATING)))
    (update_node nid (set_lifecycle ExecutionNodeStatus.TERMINATING false)) ;;
  let region := client_region (node_region n) in
  resp ← client_call_with_throttle_retry (ec2_terminate_instances region iid);
  match resp with
  | inr e =>
      update_node nid (λ n, with_error (Py.or_else (Py.prefix_to 64 (aws_code e)) "TerminateFailed") (aws_text e)
                              (n <| node_status := ExecutionNodeStatus.ERROR |>)) ;;
      raise (Ec2ProviderError ("terminate_instances failed for " ++ iid ++ ": " ++ aws_text e))
  | inl _ =>
      when wait_until_terminated (touch_world (ec2_wait_terminated region iid)) ;;
      state ← state_after_terminate region iid;
      update_node nid (λ n,
        set_lifecycle (if gone_state state then ExecutionNodeStatus.TERMINATED else ExecutionNodeStatus.TERMINATING)
          false n <| node_metadata ::= λ m, m <| nm_ec2_state := Some state |> |>) ;;
      when (gone_state state && ec2_post_terminate_cleanup_enabled (cfg_ec2 env_settings))
        (touch_world (λ w, (cleanup_after_instance_terminated region iid (node_node_key n) w).1)) ;;
      mret nid
  end.

(** ** Readiness *)

Definition promotable (st : execution_node_status) : bool :=
  match st with ExecutionNodeStatus.PROVISIONING | ExecutionNodeStatus.NOT_READY => true | _ => false end.

Definition MIN_READY_DISK_MB : Z := 4096.

(** [_ec2_heartbeat_readiness]: [None] when ready, else the reason. *)
Definition ec2_heartbeat_readiness (n : ExecutionNode) (ec2_state : option string) : option string :=
  match node_last_heartbeat_at n with
  | None => Some "missing_heartbeat"%string
  | Some hb =>
      let setting := cfg_node_heartbeat_max_age_seconds env_settings in
      let max_age := if setting =? 0 then 300 else setting in
      let age := env_now - hb in
      if (age <? 0) || (seconds max_age <? age) then Some "stale_heartbeat"%string else
      let meta := node_metadata n in
      let state := Py.lower (Py.strip (Py.or_else (default ""%string ec2_state) (default ""%string (nm_ec2_state meta)))) in
      if Py.truthy state && negb (String.eqb state "running") then Some ("ec2_state_" ++ state)%string
      else if negb (bool_decide (nm_docker_ok meta = Some true)) then Some "docker_not_ready"%string
      else match nm_disk_free_mb meta with
           | None => Some "missing_disk_free_mb"%string
           | Some d => if d <? MIN_READY_DISK_MB then Some "insufficient_disk_free_mb"%string else None
           end
  end.

(** The setting's image, else the environment's; the default is the script's. *)
Definition workspace_image_for_ready_gate : string :=
  Py.or_else (Py.strip (ec2_workspace_container_image (cfg_ec2 env_settings))) "devnest/workspace:latest".

Definition run_ssm_ready_gate (n : ExecutionNode) : M W (option string) :=
  let iid := Py.strip_opt (node_provider_instance_id n) in
  let region := Py.strip (Py.or_else (default ""%string (node_region n)) (cfg_aws_region env_settings)) in
  if negb (Py.truthy iid) then mret (Some "missing_provider_instance_id"%string)
  else if negb (Py.truthy region) then mret (Some "missing_region"%string)
  else if bool_decide (node_default_topology_id n = None) then mret (Some "missing_default_topology_id"%string)
  else fun s =>
    let '(w, r) := ssm_run_ready_gate region iid workspace_image_for_ready_gate (st_world s) in
    (s <| st_world := w |>, inl
      match r with
      | inr e => Some ("ssm_ready_gate_failed:" ++ e)%string
      | inl (stdout, stderr) =>
          let out := (stdout ++ String "010" stderr)%string in
          if negb (Py.contains "node.ready_gate.image_pull_success" out)
          then Some "image_pull_missing_success_marker"%string
          else if negb (Py.contains "node.ready_gate.passed" out)
          then Some "ready_gate_missing_pass_marker"%string
          else None
      end).

Definition ready_gate_failure (nid : Z) (reason : string) : M W unit :=
  update_node nid (λ n, with_error "ReadyGatePending" reason (set_lifecycle ExecutionNodeStatus.PROVISIONING false n)).

Definition promote_ec2_node_if_heartbeat_ready (nid : Z) (ec2_state : option string) : M W bool :=
  n ← row nodes nid;
  if negb (bool_decide (node_provider_type n = ExecutionNodeProviderType.EC2)) then mret false
  else if negb (promotable (node_status n)) then mret false
  else if nm_catalog_ec2_stub (node_metadata n) then mret false
  else
    ok ← (if bool_decide (node_execution_mode n = ExecutionNodeExecutionMode.SSM_DOCKER) then
            reason ← run_ssm_ready_gate n;
            match reason with
            | Some reason => ready_gate_failure nid reason ;; mret false
            | None => mret true
            end
          else mret (bool_decide (ec2_heartbeat_readiness n ec2_state = None)));
    if ok : bool then
      update_node nid (λ n, set_lifecycle ExecutionNodeStatus.READY true n
        <| node_last_error_code := None |> <| node_last_error_message := None |>) ;;
      mret true
    else mret false.

Definition sync_node_state (node_id : option Z) (node_key : option string) (promote_provisioning_when_ready : bool)
    : M W Z :=
  nid ← get_node node_id node_key;
  n ← row nodes nid;
  assert_ec2_node n "sync_node_state" ;;
  let original_status := node_status n in
  iid ← instance_of_node n;
  let region := client_region (node_region n) in
  register_ec2_instance region iid (Some (node_node_key n)) (node_ssh_user n)
    (Some (mode_value (node_execution_mode n))) false ;;
  if negb promote_provisioning_when_ready then mret nid
  else if negb (promotable original_status) then mret nid
  else
    desc ← attempt (describe_ec2_instance region iid);
    match desc with
    | inr e => if is_ec2_provider_error e then mret nid else raise e
    | inl d =>
        if negb (String.eqb (de_state d) "running") then mret nid else
        n ← row nodes nid;
        when (bool_decide (node_status n = ExecutionNodeStatus.READY))
          (set_node nid (λ n, n <| node_status := original_status |> <| node_schedulable := false |>)) ;;
        promote_ec2_node_if_heartbeat_ready nid (Some (de_state d)) ;;
        flush ;;
        mret nid
    end.

(** ** Provisioning *)

(** [Ec2ProvisionRequest.validate] *)
Definition validate_provision_request (r : Ec2ProvisionRequest) : option string :=
  if negb (Py.truthy (Py.strip (rq_ami_id r))) then Some "ami_id is required for EC2 provisioning"%string
  else if negb (Py.truthy (Py.strip (rq_subnet_id r))) then Some "subnet_id is required for EC2 provisioning"%string
  else if bool_decide (rq_security_group_ids r = [])
  then Some "security_group_ids must contain at least one security group for VPC instances"%string
  else if negb (Py.truthy (Py.strip (rq_instance_type r)))
  then Some "instance_type is required for EC2 provisioning"%string
  else None.

(** [item.split("=", 1)]: a later entry of a key replaces an earlier one. *)
Fixpoint extra_tag_entries (items : list string) (out : list Ec2Tag) : list Ec2Tag + string :=
  match items with
  | [] => inl out
  | item :: items =>
      match Py.partition "=" item with
      | (_, None) => inr "DEVNEST_EC2_EXTRA_TAGS entries must use key=value"%string
      | (k, Some v) =>
          extra_tag_entries items
            (if Py.truthy (Py.strip k) && Py.truthy (Py.strip v) then tag_put (Py.strip k) (Py.strip v) out else out)
      end
  end.
Definition semicolon_to_comma (c : ascii) : ascii := if Ascii.eqb c ";" then ","%char else c.
Definition extra_tags_from_settings : list Ec2Tag + string :=
  let raw := Py.strip (ec2_extra_tags (cfg_ec2 env_settings)) in
  if negb (Py.truthy raw) then inl []
  else if Py.startswith "{" raw then
    match ec2_extra_tags_json (cfg_ec2 env_settings) with
    | inr e => inr e
    | inl data =>
        inl (foldl (λ m t, if Py.truthy (Py.strip t.1) && Py.truthy (Py.strip t.2)
                           then tag_put (Py.strip t.1) (Py.strip t.2) m else m) [] data)
    end
  else extra_tag_entries (comma_list (Py.on_chars (map semicolon_to_comma) raw)) [].

Definition provision_request_from_settings : Ec2ProvisionRequest + string :=
  let e := cfg_ec2 env_settings in
  match ec2_user_data e, extra_tags_from_settings with
  | inr err, _ | inl _, inr err => inr err
  | inl user_data, inl extra_tags => inl
      {| rq_ami_id := Py.strip (ec2_ami_id e);
         rq_instance_type := Py.or_else (Py.strip (ec2_instance_type e)) "t3.medium";
         rq_subnet_id := Py.strip (ec2_subnet_id e);
         rq_security_group_ids := comma_list (ec2_security_group_ids e);
         rq_iam_instance_profile_name := Py.strip_or_none (Some (ec2_instance_profile e));
         rq_key_name := Py.strip_or_none (Some (ec2_key_name e));
         rq_region := Py.strip_or_none (Some (cfg_aws_region env_settings));
         rq_node_key := None; rq_name_tag := None; rq_execution_mode := None; rq_ssh_user := None;
         rq_user_data := user_data; rq_extra_tags := extra_tags |}
  end.

Definition require_free_node_key (key : string) : M W unit :=
  found ← node_by_key key;
  match found with
  | Some _ => raise (NodeLifecycleError ("node_key '" ++ key ++ "' already exists"))
  | None => mret tt
  end.

Definition run_instances_params (req : Ec2ProvisionRequest) : RunInstancesParams :=
  let explicit_key := Py.strip_opt (rq_node_key req) in
  let name := Py.or_else (Py.strip_opt (rq_name_tag req)) (Py.or_else explicit_key "devnest-node") in
  let user_data := default ""%string (rq_user_data req) in
  {| ri_image_id := Py.strip (rq_ami_id req); ri_instance_type := Py.strip (rq_instance_type req);
     ri_subnet_id := Py.strip (rq_subnet_id req); ri_security_group_ids := rq_security_group_ids req;
     ri_tags := build_launch_tags_for_run_instances (Some explicit_key) name (rq_extra_tags req);
     ri_iam_instance_profile := Py.strip_or_none (rq_iam_instance_profile_name req);
     ri_key_name := Py.strip_or_none (rq_key_name req);
     ri_user_data := if Py.truthy (Py.strip user_data) then Some user_data else None |}.

(** The launched instance, its id and its private address. *)
Definition launch_instance (region : string) (req : Ec2ProvisionRequest) : M W (Ec2Instance * string * option string) :=
  resp ← client_call_with_throttle_retry (ec2_run_instances region (run_instances_params req));
  match resp with
  | inr e =>
      if bool_decide (aws_code e ∈ EC2_CLIENT_AUTH_ERROR_CODES)
      then raise (Ec2ProviderError ("AWS denied ec2 RunInstances (" ++ aws_code e ++ ")"))
      else raise (Ec2ProvisionConfigurationError ("ec2 RunInstances failed (" ++ aws_code e ++ "): " ++ aws_text e))
  | inl None => raise (Ec2ProvisionConfigurationError "run_instances returned no Instances")
  | inl (Some i) =>
      let iid := Py.strip (ei_instance_id i) in
      if Py.truthy iid then mret (i, iid, Py.strip_or_none (ei_private_ip i))
      else raise (Ec2ProvisionConfigurationError "run_instances returned empty InstanceId")
  end.

(** Waits for the instance and reads its address again, best effort. *)
Definition wait_running (region iid : string) (ip : option string) : M W (option string) :=
  fun s => let '(w, r) := ec2_wait_running region iid (st_world s) in
    match r with
    | inr e => (s <| st_world := w |>,
                inr (Ec2ProvisionConfigurationError ("wait instance_running failed for " ++ iid ++ ": " ++ e)))
    | inl _ =>
        try_except (d ← describe_ec2_instance region iid;
                    mret (match de_private_ip d with Some a => Some a | None => ip end))
          (λ e, if is_ec2_provider_error e then mret ip else raise e) (s <| st_world := w |>)
    end.

Definition provision_ec2_node (request : option Ec2ProvisionRequest) (wait_until_running : bool) : M W Z :=
  req ← match request with
        | Some r => mret r
        | None => match provision_request_from_settings with
                  | inl r => mret r
                  | inr e => raise (Ec2ProvisionConfigurationError e)
                  end
        end;
  match validate_provision_request req with
  | Some e => raise (Ec2ProvisionConfigurationError e)
  | None =>
      let explicit_key := Py.strip_opt (rq_node_key req) in
      when (Py.truthy explicit_key) (require_free_node_key explicit_key) ;;
      let region := client_region (rq_region req) in
      launched ← launch_instance region req;
      let '(inst, iid, ip) := launched in
      ip ← (if wait_until_running then wait_running region iid ip else mret ip);
      let node_key := Py.or_else explicit_key ("ec2-" ++ iid) in
      when (negb (Py.truthy explicit_key)) (require_free_node_key node_key) ;;
      let display_name := Py.or_else (Py.strip_opt (rq_name_tag req)) node_key in
      touch_world (λ w, (apply_devnest_tags_to_instance_bundle region node_key display_name inst (rq_extra_tags req) w).1) ;;
      capacity ← ec2_instance_type_capacity region (rq_instance_type req);
      let '(vcpu, mem_mb) := capacity in
      nid ← query (λ db, fresh_key (nodes db));
      on_db (λ db, flush_db (db <| nodes ::= <[nid :=
        ec2_node node_key iid region ip (chosen_execution_mode (rq_execution_mode req))
          (chosen_ssh_user (rq_ssh_user req)) ExecutionNodeStatus.PROVISIONING false vcpu mem_mb empty_metadata]> |>)) ;;
      mret nid
  end.

(** ** The heartbeat endpoint *)

Definition record_heartbeat_row (docker_ok : bool) (disk_free_mb : option Z) (n : ExecutionNode) : ExecutionNode :=
  let n := n <| node_last_heartbeat_at := Some env_now |> <| node_updated_at := env_now |>
             <| node_metadata ::= merge_heartbeat_metadata docker_ok disk_free_mb |> in
  if docker_ok then n <| node_last_error_code := None |> <| node_last_error_message := None |>
  else n <| node_last_error_code := Some "DOCKER_UNREACHABLE"%string |>
         <| node_last_error_message := Some "Heartbeat reported docker_ok=false"%string |>.

Definition post_execution_node_heartbeat (node_key : string) (docker_ok : bool) (disk_free_mb : option Z) : M W Z :=
  let nk := Py.strip node_key in
  found ← node_by_key nk;
  found ← match found with
          | Some kn => mret (Some kn)
          | None => if String.eqb nk (Py.strip default_local_node_key)
                    then ensure_default_local_execution_node ;; node_by_key nk
                    else mret None
          end;
  match found with
  | None => raise (HTTPException 404 ("execution node key='" ++ nk ++ "' not found"))
  | Some (nid, _) =>
      set_node nid (record_heartbeat_row docker_ok disk_free_mb) ;;
      commit ;;
      mret nid
  end.

(** ** Catalog rows without an instance *)

(** The arguments of [register_catalog_ec2_stub]. *)
Record CatalogEc2Stub := mkCatalogEc2Stub {
  cs_node_key : string;
  cs_provider_instance_id : option string;
  cs_private_ip : option string;
  cs_region : option string;
  cs_execution_mode : option string;
  cs_ssh_user : option string;
  cs_status : option string;
  cs_total_cpu : option cpu;
  cs_total_memory_mb : option Z;
  cs_allocatable_cpu : option cpu;
  cs_allocatable_memory_mb : option Z;
  cs_max_workspaces : option Z;
  cs_allocatable_disk_mb : option Z;
  cs_align_status_with_heartbeat : bool
}.

(** [v if v is not None and v > 0 else d] *)
Definition given_positive (v : option Z) (d : Z) : Z :=
  match v with Some n => if 0 <? n then n else d | None => d end.

(** [None]: no status given; [Some None]: neither READY nor NOT_READY. *)
Definition stub_status (status : option string) : option (option execution_node_status) :=
  let st := upper (Py.strip_opt status) in
  if negb (Py.truthy st) then None
  else if String.eqb st "READY" then Some (Some ExecutionNodeStatus.READY)
  else if String.eqb st "NOT_READY" then Some (Some ExecutionNodeStatus.NOT_READY)
  else Some None.

Definition aligned_status (hb : option time) : execution_node_status :=
  match hb with
  | None => ExecutionNodeStatus.NOT_READY
  | Some hb =>
      let setting := cfg_node_heartbeat_max_age_seconds env_settings in
      let max_age := if setting =? 0 then 300 else setting in
      let age := env_now - hb in
      if (0 <=? age) && (age <=? seconds max_age) then ExecutionNodeStatus.READY else ExecutionNodeStatus.NOT_READY
  end.
Definition resolved_status (c : CatalogEc2Stub) (given : option execution_node_status) (n : option ExecutionNode)
    : execution_node_status :=
  if cs_align_status_with_heartbeat c then aligned_status (n ≫= node_last_heartbeat_at)
  else match given, n with
       | Some st, _ => st
       | None, Some n => node_status n
       | None, None => ExecutionNodeStatus.NOT_READY
       end.

Definition stub_updated (c : CatalogEc2Stub) (pid region : string) (given : option execution_node_status)
    (acpu : cpu) (amem mxw adisk : Z) (n : ExecutionNode) : ExecutionNode :=
  n <| node_provider_type := ExecutionNodeProviderType.EC2 |> <| node_provider_instance_id := Some pid |>
    <| node_region := Some region |>
    <| node_private_ip := match Py.strip_or_none (cs_private_ip c) with Some a => Some a | None => node_private_ip n end |>
    <| node_execution_mode := chosen_execution_mode (cs_execution_mode c) |>
    <| node_ssh_user := Some (chosen_ssh_user (cs_ssh_user c)) |>
    <| node_allocatable_cpu := acpu |> <| node_allocatable_memory_mb := amem |>
    <| node_max_workspaces := mxw |> <| node_allocatable_disk_mb := adisk |>
    <| node_schedulable := false |> <| node_status := resolved_status c given (Some n) |>
    <| node_updated_at := env_now |>
    <| node_metadata ::= λ m, m <| nm_catalog_ec2_stub := true |> |>.

Definition register_catalog_ec2_stub (c : CatalogEc2Stub) : M W Z :=
  let nk := Py.strip (cs_node_key c) in
  if negb (Py.truthy nk) then raise (NodeLifecycleError "node_key is required") else
  let region := Py.or_else (Py.strip (Py.or_else (default ""%string (cs_region c))
                  (Py.or_else (Py.strip (cfg_aws_region env_settings)) "us-east-1"))) "us-east-1" in
  let pid := Py.or_else (Py.strip_opt (cs_provider_instance_id c)) ("catalog-pending:" ++ nk) in
  if 255 <? Py.len pid then raise (NodeLifecycleError "provider_instance_id exceeds 255 characters") else
  let acpu := given_positive (cs_allocatable_cpu c) (given_positive (cs_total_cpu c) (cores 4)) in
  let amem := given_positive (cs_allocatable_memory_mb c) (given_positive (cs_total_memory_mb c) 8192) in
  let mxw := given_positive (cs_max_workspaces c) DEFAULT_EXECUTION_NODE_MAX_WORKSPACES in
  let adisk := given_positive (cs_allocatable_disk_mb c) DEFAULT_EXECUTION_NODE_ALLOCATABLE_DISK_MB in
  match stub_status (cs_status c) with
  | Some None => raise (NodeLifecycleError "catalog stub status must be READY or NOT_READY")
  | st =>
      let given := match st with Some g => g | None => None end in
      found ← node_by_key nk;
      match found with
      | Some (nid, n) =>
          if bool_decide (node_provider_type n = ExecutionNodeProviderType.LOCAL) then
            raise (NodeLifecycleError ("node_key '" ++ nk ++ "' is already a local execution node"))
          else update_node nid (stub_updated c pid region given acpu amem mxw adisk) ;; mret nid
      | None =>
          nid ← query (λ db, fresh_key (nodes db));
          on_db (λ db, flush_db (db <| nodes ::= <[nid :=
            (ec2_node nk pid region (Py.strip_or_none (cs_private_ip c)) (chosen_execution_mode (cs_execution_mode c))
              (chosen_ssh_user (cs_ssh_user c)) (resolved_status c given None) false acpu amem
              (empty_metadata <| nm_catalog_ec2_stub := true |>))
              <| node_default_topology_id := None |> <| node_max_workspaces := mxw |>
              <| node_allocatable_disk_mb := adisk |>]> |>)) ;;
          mret nid
      end
  end.
End lifecycle.
