(* ===== verification/NodeInvariants.v ===== *)
(** * NodeInvariants: what every node operation keeps

    A node is schedulable only while READY, a TERMINATED node stays out of service,
    and no node row disappears: proved for each operation of [NodeBootstrap],
    [Ec2Registry] and [NodeLifecycle], from what each reads of the row before it
    writes it. *)

From S2P Require Import Prelude Models Session Services Scheduling NodeBootstrap.
From S2P Require Import Ec2Registry Ec2Cleanup NodeLifecycle.

(** ** Moves of a row *)

Definition admitted_ready (n : ExecutionNode) : Prop :=
  node_schedulable n = true → node_status n = ExecutionNodeStatus.READY.
Definition out_of_service (n : ExecutionNode) : Prop :=
  node_status n = ExecutionNodeStatus.TERMINATED ∧ node_schedulable n = false.

Record node_move (n n' : ExecutionNode) : Prop := {
  nm_admitted : admitted_ready n → admitted_ready n';
  nm_final : out_of_service n → out_of_service n'
}.
#[export] Instance node_move_preorder : PreOrder node_move.
Proof. split; [by split|]. intros n1 n2 n3 [] []. split; auto. Qed.

Record nodes_move (db db' : Db) : Prop := {
  nv_kept k n : nodes db !! k = Some n → ∃ n', nodes db' !! k = Some n' ∧ node_move n n';
  nv_new k n' : nodes db' !! k = Some n' → nodes db !! k = None → admitted_ready n'
}.
#[export] Instance nodes_move_preorder : PreOrder nodes_move.
Proof.
  split.
  - intros db. split; [intros k n H; by exists n|by intros k n' ->].
  - intros d1 d2 d3 [K1 N1] [K2 N2]. split.
    + intros k n (n' & H' & M)%K1. apply K2 in H' as (n'' & ? & ?). exists n''. split; [done|by etrans].
    + intros k n'' H3 H1. destruct (nodes d2 !! k) as [n'|] eqn:H2; [|by eapply N2].
      destruct (K2 _ _ H2) as (m & Hm & [Ha _]). rewrite H3 in Hm. injection Hm as <-. by eapply Ha, N1.
Qed.

Lemma nodes_move_same db db' : nodes db' = nodes db → nodes_move db db'.
Proof. intros H. split; [intros k n Hn; exists n; by rewrite H|by rewrite H; intros k n' ->]. Qed.
Lemma nodes_move_alter db db' nid f n : nodes db !! nid = Some n → nodes db' = alter f nid (nodes db) →
  node_move n (f n) → nodes_move db db'.
Proof.
  intros Hn Hdb Hm. split; rewrite Hdb.
  - intros k m Hk. rewrite lookup_alter. case_decide as E; [subst k|by exists m].
    rewrite Hk in Hn. injection Hn as ->. exists (f n). by rewrite Hk.
  - intros k m. rewrite lookup_alter. case_decide as E; [subst k; by rewrite Hn|congruence].
Qed.
Lemma nodes_move_insert db db' n : nodes db' = <[fresh_key (nodes db) := n]> (nodes db) → admitted_ready n →
  nodes_move db db'.
Proof.
  intros Hdb Hn. split; rewrite Hdb.
  - intros k m Hk. exists m. split; [|done]. rewrite lookup_insert_ne; [done|].
    intros <-. by rewrite fresh_key_fresh in Hk.
  - intros k m. rewrite lookup_insert. case_decide; [by intros [= <-]|congruence].
Qed.

(** ** Rules for operations that read a row before they write it *)

Section rules.
Context {W : Type}.

#[local] Abbreviation moved := (@tracked W nodes_move).

(** From [s], [m] ends in a state the nodes reach from those of [s0]. *)
Definition keeps {A} (s0 : St W) (m : M W A) (s : St W) : Prop :=
  wp m (λ _, moved s0) (λ _, moved s0) s.

Lemma moved_world s0 s s' : moved s0 s → world_only s s' → moved s0 s'.
Proof. intros [H1 H2] [E1 E2]. unfold tracked. rewrite E1, E2. done. Qed.
Lemma moved_db s0 s f : moved s0 s → nodes_move (st_db s) (f (st_db s)) → moved s0 (s <| st_db ::= f |>).
Proof. intros [H1 H2] H. split; [by etrans|]. destruct H2; [by left|by right]. Qed.

Lemma keeps_within {A} s0 s (m : M W A) : db_within nodes_move m → moved s0 s → keeps s0 m s.
Proof.
  intros Hm H. unfold keeps, wp. specialize (Hm s). assert (moved s0 (m s).1) by (by etrans).
  by destruct (m s) as [s' [a|e]].
Qed.
Lemma within_keeps {A} (m : M W A) : (∀ s, keeps s m s) → db_within nodes_move m.
Proof. intros H s. specialize (H s). unfold keeps, wp in H. by destruct (m s) as [s' [a|e]]. Qed.

Lemma keeps_ret {A} s0 s (a : A) : moved s0 s → keeps s0 (mret a) s.
Proof. by intros H; apply wp_ret. Qed.
Lemma keeps_raise {A} s0 s e : moved s0 s → keeps s0 (raise e : M W A) s.
Proof. by intros H; apply wp_raise. Qed.
Lemma keeps_bind {A B} s0 s (m : M W A) (k : A → M W B) :
  db_within nodes_move m → moved s0 s → (∀ a s', moved s0 s' → keeps s0 (k a) s') → keeps s0 (m ≫= k) s.
Proof.
  intros Hm H Hk. apply wp_bind. eapply wp_mono; [by apply keeps_within|intros a s' Hs; by apply Hk|done].
Qed.
Lemma keeps_world {A B} s0 s (m : M W A) (k : A → M W B) :
  within world_only m → moved s0 s → (∀ a s', world_only s s' → moved s0 s' → keeps s0 (k a) s') →
  keeps s0 (m ≫= k) s.
Proof.
  intros Hm H Hk. apply wp_bind. specialize (Hm s). unfold wp. destruct (m s) as [s' [a|e]]; simpl in Hm.
  - apply Hk; [done|by eapply moved_world].
  - by eapply moved_world.
Qed.
Lemma keeps_query {A B} s0 s (f : Db → A) (k : A → M W B) : keeps s0 (k (f (st_db s))) s → keeps s0 (query f ≫= k) s.
Proof. intros H. by apply wp_bind, wp_query. Qed.
Lemma keeps_row {B} s0 s nid (k : ExecutionNode → M W B) : moved s0 s →
  (∀ n, nodes (st_db s) !! nid = Some n → keeps s0 (k n) s) → keeps s0 (row nodes nid ≫= k) s.
Proof.
  intros Hs H. apply wp_bind. unfold row. apply wp_bind, wp_query.
  destruct (nodes (st_db s) !! nid) as [n|]; [by apply wp_ret, H|by apply wp_raise].
Qed.
Lemma keeps_write {B} s0 s nid f n (k : M W B) :
  nodes (st_db s) !! nid = Some n → node_move n (f n) → moved s0 s →
  (∀ s', moved s0 s' → nodes (st_db s') !! nid = Some (f n) → keeps s0 k s') →
  keeps s0 (set_node nid f ;; k) s.
Proof.
  intros Hn Hf Hs Hk. apply wp_bind. unfold set_node. apply wp_on_db, Hk.
  - apply moved_db; [done|]. by eapply nodes_move_alter.
  - cbn. by rewrite lookup_alter_eq, Hn.
Qed.
Lemma keeps_on_db {B} s0 s f (k : M W B) : moved s0 s → nodes_move (st_db s) (f (st_db s)) →
  (moved s0 (s <| st_db ::= f |>) → keeps s0 k (s <| st_db ::= f |>)) → keeps s0 (on_db f ;; k) s.
Proof. intros Hs Hf Hk. apply wp_bind, wp_on_db, Hk. by apply moved_db. Qed.
Lemma keeps_update {B} s0 s nid f n (k : M W B) :
  nodes (st_db s) !! nid = Some n → node_move n (f n) → moved s0 s →
  (∀ s', moved s0 s' → nodes (st_db s') !! nid = Some (f n) → keeps s0 k s') →
  keeps s0 (update_node nid f ;; k) s.
Proof.
  intros Hn Hf Hs Hk. unfold update_node, set_node. apply wp_bind, wp_bind, wp_on_db, wp_on_db, Hk.
  - apply moved_db; [|by apply nodes_move_same]. apply moved_db; [done|]. by eapply nodes_move_alter.
  - cbn. by rewrite lookup_alter_eq, Hn.
Qed.
End rules.

(** ** Moves that need no context *)

Section moves.
Context {W : Type} {env : Env}.
#[local] Abbreviation moved := (@tracked W nodes_move).

Lemma move_same_status n n' : node_status n' = node_status n → node_schedulable n' = node_schedulable n →
  node_move n n'.
Proof. intros E1 E2. split; unfold admitted_ready, out_of_service; by rewrite E1, E2. Qed.
Lemma move_to n st : node_status n ≠ ExecutionNodeStatus.TERMINATED →
  ∀ b, (b = true → st = ExecutionNodeStatus.READY) →
  ∀ n', node_status n' = st → node_schedulable n' = b → node_move n n'.
Proof.
  intros Hn b Hb n' E1 E2. split; [intros _|by intros []].
  unfold admitted_ready. rewrite E1, E2. exact Hb.
Qed.
Lemma move_terminated n n' : node_status n' = ExecutionNodeStatus.TERMINATED → node_schedulable n' = false →
  node_move n n'.
Proof. intros E1 E2. split; unfold admitted_ready, out_of_service; rewrite E1, E2; by auto. Qed.
Lemma move_heartbeat docker_ok disk n : node_move n (heartbeat_on docker_ok disk n).
Proof.
  unfold heartbeat_on. cbn. destruct docker_ok; [|by apply move_same_status].
  destruct (node_schedulable n && accepts_ready (node_status n)) eqn:E; [|by apply move_same_status].
  apply andb_true_iff in E as [E _].
  case_bool_decide as Hs; [|by apply move_same_status].
  apply (move_to n ExecutionNodeStatus.READY) with (b := true); [by rewrite Hs|done|done|done].
Qed.

Lemma within_set_node nid f : (∀ n, node_move n (f n)) → db_within nodes_move (set_node nid f : M W unit).
Proof.
  intros Hf. apply db_within_on_db. intros db. destruct (nodes db !! nid) as [n|] eqn:Hn.
  - by eapply nodes_move_alter.
  - apply nodes_move_same. cbn. apply alter_id. congruence.
Qed.
Lemma within_other f : (∀ db, nodes (f db) = nodes db) → db_within nodes_move (on_db f : M W unit).
Proof. intros H. apply db_within_on_db. intros db. by apply nodes_move_same. Qed.
Lemma within_flush : db_within nodes_move (flush : M W unit).
Proof. by apply within_other. Qed.
Lemma within_commit : db_within nodes_move (commit : M W unit).
Proof. intros s. split; [by apply nodes_move_same|right; by apply nodes_move_same]. Qed.
Lemma within_node_row nid : db_within nodes_move (row nodes nid : M W ExecutionNode).
Proof.
  intros s. unfold row, mbind, eff_bind, query, gets. simpl.
  destruct (nodes (st_db s) !! nid); simpl; reflexivity.
Qed.
Lemma within_world_only {A} (m : M W A) : within world_only m → db_within nodes_move m.
Proof. intros H s. destruct (H s) as [E1 E2]. unfold tracked. rewrite E1, E2. split; [reflexivity|by left]. Qed.
Lemma within_touch f : db_within nodes_move (touch_world f : M W unit).
Proof. intros s. split; [reflexivity|by left]. Qed.
Lemma within_query {A} (f : Db → A) : db_within nodes_move (query f : M W A).
Proof. apply within_gets. apply _. Qed.
Lemma keeps_insert {B} s0 s n (k : Z → M W B) : admitted_ready n → moved s0 s →
  (∀ nid s', moved s0 s' → keeps s0 (k nid) s') →
  keeps s0 (nid ← query (λ db, fresh_key (nodes db));
            on_db (λ db, flush_db (db <| nodes ::= <[nid := n]> |>)) ;; k nid) s.
Proof.
  intros Hn Hs Hk. apply keeps_query, keeps_on_db; [done|by apply (nodes_move_insert _ _ n)|]. intros H. by apply Hk.
Qed.
Lemma moves_ret {A} (a : A) : db_within nodes_move (mret a : M W A).
Proof. apply within_ret. apply _. Qed.
Lemma moves_raise {A} e : db_within nodes_move (raise e : M W A).
Proof. apply within_raise. apply _. Qed.
Lemma moves_bind {A B} (m : M W A) (k : A → M W B) :
  db_within nodes_move m → (∀ a, db_within nodes_move (k a)) → db_within nodes_move (m ≫= k).
Proof. apply within_bind. apply _. Qed.
Lemma moves_when b (m : M W unit) : (b = true → db_within nodes_move m) → db_within nodes_move (when b m).
Proof. apply within_when. apply _. Qed.
Lemma moves_for_each {A} (l : list A) (body : A → M W unit) :
  (∀ x, db_within nodes_move (body x)) → db_within nodes_move (for_each l body).
Proof. apply within_for_each. apply _. Qed.
End moves.

Create HintDb moves discriminated.
#[export] Hint Resolve within_flush within_commit within_node_row within_touch within_query moves_ret
  moves_raise : moves.

(** [moves] closes the frame of a computation built from framed pieces. *)
Ltac moves :=
  repeat first
    [ solve [eauto with moves nocore]
    | apply moves_bind; [|intros ?]
    | apply moves_when; intros ?
    | apply moves_for_each; intros ?
    | apply within_other; intros ?; reflexivity
    | case_match ].

(** ** The bootstrap and the heartbeats *)

Section bootstrap.
Context {W : Type} {env : Env}.

Lemma within_topology_row tid : db_within nodes_move (ensure_topology_row_for_local_dev tid : M W unit).
Proof. unfold ensure_topology_row_for_local_dev. moves. Qed.
#[local] Hint Resolve within_topology_row : moves.
Lemma within_default_topology nid n : db_within nodes_move (ensure_execution_node_default_topology nid n : M W bool).
Proof.
  unfold ensure_execution_node_default_topology. destruct (node_default_topology_id n); moves.
  apply within_set_node. intros m. by apply move_same_status.
Qed.
#[local] Hint Resolve within_default_topology : moves.
Lemma capacity_same_status n :
  node_status (with_default_capacity n) = node_status n ∧ node_schedulable (with_default_capacity n) = node_schedulable n.
Proof. unfold with_default_capacity. by repeat case_match. Qed.
Lemma within_ensure_local : db_within nodes_move (ensure_default_local_execution_node : M W Z).
Proof.
  unfold ensure_default_local_execution_node. apply moves_bind; [by apply within_query|intros [[nid n]|]].
  - moves. apply within_set_node. intros m. destruct (capacity_same_status m). by apply move_same_status.
  - apply within_keeps. intros s. apply keeps_insert; [done|reflexivity|].
    intros nid s' H. by apply keeps_within; [moves|].
Qed.

Lemma within_heartbeat_target key id : within world_only (heartbeat_target key id : M W Z).
Proof.
  unfold heartbeat_target. destruct id; [|case_match; [|by apply within_raise, _]];
    (apply within_bind; [apply _|by apply within_gets, _|intros found]);
    repeat case_match; try (by apply within_ret, _); by apply within_raise, _.
Qed.
Lemma within_record_heartbeat key id docker_ok disk :
  db_within nodes_move (record_execution_node_heartbeat key id docker_ok disk : M W Z).
Proof.
  unfold record_execution_node_heartbeat. apply moves_bind; [apply within_world_only, within_heartbeat_target|].
  intros nid. moves. apply within_set_node. intros n. apply move_heartbeat.
Qed.
#[local] Hint Resolve within_ensure_local within_record_heartbeat : moves.

Lemma within_post `{!HeartbeatHost W} base key docker_ok disk slots :
  db_within nodes_move (post_internal_execution_node_heartbeat_http base key docker_ok disk slots : M W bool).
Proof.
  apply within_world_only. intros s. unfold post_internal_execution_node_heartbeat_http.
  by destruct (hh_post_heartbeat _ _ _ _ _ _).
Qed.
Lemma within_ask {A} (f : W → A) : db_within nodes_move (ask_world f : M W A).
Proof. apply within_gets. apply _. Qed.
#[local] Hint Resolve within_post within_ask : moves.
Lemma within_emit `{!HeartbeatHost W} : db_within nodes_move (emit_default_local_execution_node_heartbeat : M W unit).
Proof. unfold emit_default_local_execution_node_heartbeat, collect_local_execution_node_heartbeat_metrics. moves. Qed.

Lemma within_post_heartbeat key docker_ok disk :
  db_within nodes_move (post_execution_node_heartbeat key docker_ok disk : M W Z).
Proof.
  unfold post_execution_node_heartbeat, node_by_key. moves.
  apply within_set_node. intros n. apply move_same_status; unfold record_heartbeat_row; by case_match.
Qed.
End bootstrap.
#[export] Hint Resolve within_topology_row within_default_topology within_ensure_local within_record_heartbeat
  within_emit within_post_heartbeat : moves.

(** ** The registry *)

Section registry.
Context {W : Type} {env : Env} {cloud : Ec2Cloud W}.

Lemma throttled_world {R} (call : W → W * (R + AwsError)) : within world_only (client_call_with_throttle_retry call).
Proof. intros s. unfold client_call_with_throttle_retry. by destruct (throttle_retry _ _ _). Qed.

Ltac world :=
  repeat first
    [ apply throttled_world
    | apply within_bind; [apply _| |intros ?]
    | apply within_ret; apply _ | apply within_raise; apply _ | apply within_gets; apply _
    | case_match ].

Lemma describe_world region iid : within world_only (describe_ec2_instance region iid).
Proof. unfold describe_ec2_instance, require_instance_id. world. Qed.
Lemma capacity_world region it : within world_only (ec2_instance_type_capacity region it).
Proof. unfold ec2_instance_type_capacity. world. Qed.
Lemma keeps_ec2_row {B} s0 s iid key (k : option (Z * ExecutionNode) → M W B) : tracked nodes_move s0 s →
  keeps s0 (k None) s → (∀ nid n, nodes (st_db s) !! nid = Some n → keeps s0 (k (Some (nid, n))) s) →
  keeps s0 (ec2_row iid key ≫= k) s.
Proof.
  intros Hs Hnone Hsome. apply wp_bind. unfold ec2_row. apply wp_bind, wp_query.
  destruct (find_node_by_instance iid (st_db s)) as [[nid n]|] eqn:E.
  { apply wp_ret, Hsome. by apply first_row_Some in E as [? _]. }
  apply wp_bind, wp_query. destruct (find_node key (st_db s)) as [[nid n]|] eqn:E'; [|by apply wp_ret].
  case_match; [by apply wp_raise|]. case_match; [by apply wp_raise|].
  apply wp_ret, Hsome. by apply first_row_Some in E' as [? _].
Qed.

(** The status a description gives is one the row may move to. *)
Lemma sync_status_move existing state st b :
  compute_status_schedulable_after_ec2_sync existing state = (st, b) →
  (b = true → st = ExecutionNodeStatus.READY) ∧
  (existing = Some ExecutionNodeStatus.TERMINATED → st = ExecutionNodeStatus.TERMINATED ∧ b = false).
Proof.
  unfold compute_status_schedulable_after_ec2_sync. destruct existing as [[]|]; repeat case_match; intros [= <- <-]; done.
Qed.

Lemma refreshed_status key d mode user st b c mem n :
  node_status (refreshed key d mode user st b c mem n) = st ∧
  node_schedulable (refreshed key d mode user st b c mem n) = b.
Proof.
  unfold refreshed. cbv zeta.
  set (m := if bool_decide (st = _) && _ then _ else n).
  match goal with |- context [with_default_capacity ?x] => destruct (capacity_same_status x) as [-> ->] end.
  by case_match.
Qed.

Lemma within_register_node region iid key user mode catalog_only :
  db_within nodes_move (register_ec2_instance region iid key user mode catalog_only).
Proof.
  apply within_keeps. intros s0. unfold register_ec2_instance.
  apply keeps_world; [unfold require_instance_id; world|reflexivity|intros i s1 _ H1].
  apply keeps_world; [apply describe_world|done|intros d s2 _ H2].
  apply keeps_world; [apply capacity_world|done|intros [vcpu mem] s3 _ H3].
  apply keeps_ec2_row; [done| |intros nid n Hn].
  - cbn [fmap option_fmap option_map]. destruct (compute_status_schedulable_after_ec2_sync _ _) as [st b] eqn:E.
    apply sync_status_move in E as [E _]. apply keeps_insert; [|done|intros nid s' H'; by apply keeps_ret].
    unfold admitted_ready. cbn. intros [-> _]%andb_true_iff. by apply E.
  - cbn [fmap option_fmap option_map snd].
    destruct (compute_status_schedulable_after_ec2_sync _ _) as [st b] eqn:E. apply sync_status_move in E as [E Ef].
    apply keeps_query. case_match; [by apply keeps_raise|].
    apply (keeps_write _ _ _ _ n); [done| |done|intros s4 H4 Hn'].
    + match goal with |- node_move _ (refreshed ?k ?d ?m ?u ?st ?b ?c ?mm _) =>
        destruct (refreshed_status k d m u st b c mm n) as [E1 E2] end.
      destruct (decide (node_status n = ExecutionNodeStatus.TERMINATED)) as [Ht|Ht].
      * destruct Ef as [-> ->]; [by rewrite Ht|]. by apply move_terminated.
      * eapply move_to; [done| |exact E1|exact E2]. intros [-> _]%andb_true_iff. by apply E.
    + apply keeps_within; [|done]. moves. apply within_set_node. intros m. by apply move_same_status.
Qed.

#[local] Hint Resolve within_register_node : moves.
Lemma within_sync_all region ids : db_within nodes_move (sync_ec2_instances region ids).
Proof.
  unfold sync_ec2_instances. apply moves_bind; [destruct ids; moves|intros l]. moves.
Qed.

Lemma within_stale_row region kn : db_within nodes_move (reconcile_stale_row region kn).
Proof.
  unfold reconcile_stale_row. case_match; [moves|].
  apply moves_bind; [|intros state; case_match; moves; apply within_set_node; intros n; by apply move_terminated].
  apply within_world_only, within_try; [apply _| |].
  - apply within_bind; [apply _|apply describe_world|intros d; apply within_ret, _].
  - intros e. destruct e; first [apply within_raise, _|apply within_ret, _].
Qed.
Lemma within_reconcile_stale : db_within nodes_move reconcile_stale_ec2_execution_nodes.
Proof.
  unfold reconcile_stale_ec2_execution_nodes. case_match; [moves|]. apply moves_bind; [apply within_query|intros rows].
  induction rows as [|kn l IH]; cbn [reconcile_stale_rows]; [moves|].
  apply moves_bind; [apply within_stale_row|intros n]. apply moves_bind; [exact IH|intros m; moves].
Qed.
End registry.
#[export] Hint Resolve within_register_node within_sync_all within_reconcile_stale : moves.

(** ** The lifecycle operations *)

Section lifecycle.
Context {W : Type} {env : Env} {cloud : Ec2Cloud W}.

Lemma get_node_world id key : within world_only (get_node id key : M W Z).
Proof.
  unfold get_node, node_by_key. repeat first
    [ apply within_bind; [apply _| |intros ?]
    | apply within_ret; apply _ | apply within_raise; apply _ | apply within_gets; apply _ | case_match ].
Qed.

(** Every operation on a named node starts by reading it. *)
Lemma keeps_node {B} s0 s id key (k : Z → ExecutionNode → M W B) : tracked nodes_move s0 s →
  (∀ nid n s', tracked nodes_move s0 s' → nodes (st_db s') !! nid = Some n → keeps s0 (k nid n) s') →
  keeps s0 (nid ← get_node id key; n ← row nodes nid; k nid n) s.
Proof.
  intros Hs Hk. apply keeps_world; [apply get_node_world|done|intros nid s' _ H'].
  apply keeps_row; [done|intros n Hn]. by apply Hk.
Qed.

Lemma within_update nid f : (∀ n, node_move n (f n)) → db_within nodes_move (update_node nid f : M W unit).
Proof. intros H. unfold update_node. moves. by apply within_set_node. Qed.
Lemma keeps_update_ret {A} (s0 s : St W) nid f n (a : A) : nodes (st_db s) !! nid = Some n → node_move n (f n) →
  tracked nodes_move s0 s → keeps s0 (update_node nid f ;; mret a) s.
Proof. intros Hn Hf Hs. eapply keeps_update; [done..|]. intros s' H' _. by apply keeps_ret. Qed.

Lemma within_drain id key : db_within nodes_move (mark_node_draining id key : M W Z).
Proof.
  apply within_keeps. intros s. apply keeps_node; [reflexivity|intros nid n s' H' Hn].
  case_bool_decide as Ht; [by apply keeps_within; [moves|]|].
  case_match; [by apply keeps_within; [moves|]|].
  eapply keeps_update_ret; [done| |done]. by apply (move_to n ExecutionNodeStatus.DRAINING Ht false).
Qed.
Lemma within_undrain id key : db_within nodes_move (undrain_node id key : M W Z).
Proof.
  apply within_keeps. intros s. apply keeps_node; [reflexivity|intros nid n s' H' Hn].
  destruct (node_status n) eqn:Hst; try (by apply keeps_raise).
  - destruct (node_schedulable n); [by apply keeps_within; [moves|]|].
    eapply keeps_update_ret; [done| |done]. by apply (move_to n ExecutionNodeStatus.READY) with (b := true); [rewrite Hst|..].
  - eapply keeps_update_ret; [done| |done]. by apply (move_to n ExecutionNodeStatus.READY) with (b := true); [rewrite Hst|..].
Qed.
Lemma within_deregister_node id key : db_within nodes_move (deregister_node id key : M W Z).
Proof.
  apply within_keeps. intros s. apply keeps_node; [reflexivity|intros nid n s' H' Hn].
  case_match; [by apply keeps_within; [moves|]|].
  eapply keeps_update_ret; [done| |done]. by apply move_terminated.
Qed.

Lemma guard_world (m : M W unit) e b : m = (if b : bool then mret tt else raise e) → within world_only m.
Proof. intros ->. destruct b; [apply within_ret|apply within_raise]; apply _. Qed.
Lemma assert_ec2_world n op : within world_only (assert_ec2_node n op : M W unit).
Proof. unfold assert_ec2_node. case_bool_decide; [apply within_ret|apply within_raise]; apply _. Qed.
Lemma instance_world n : within world_only (instance_of_node n : M W string).
Proof. unfold instance_of_node. case_match; [apply within_ret|apply within_raise]; apply _. Qed.
Lemma touch_world_only (f : W → W) : within world_only (touch_world f).
Proof. by intros s. Qed.
Lemma state_after_world region iid : within world_only (state_after_terminate region iid).
Proof.
  unfold state_after_terminate. apply within_try; [apply _| |].
  - apply within_bind; [apply _|apply describe_world|intros d; apply within_ret, _].
  - intros []; first [apply within_ret, _|apply within_raise, _].
Qed.

(** The row is TERMINATING, and not in service, when AWS is asked. *)
Lemma keeps_terminating {B} (s0 s : St W) nid n (k : M W B) : tracked nodes_move s0 s →
  nodes (st_db s) !! nid = Some n → node_status n ≠ ExecutionNodeStatus.TERMINATED →
  (∀ s' n', tracked nodes_move s0 s' → nodes (st_db s') !! nid = Some n' →
     node_status n' = ExecutionNodeStatus.TERMINATING → keeps s0 k s') →
  keeps s0 (when (negb (bool_decide (node_status n = ExecutionNodeStatus.TERMINATING)))
              (update_node nid (set_lifecycle ExecutionNodeStatus.TERMINATING false)) ;; k) s.
Proof.
  intros Hs Hn Ht Hk. case_bool_decide as E; cbn [negb when].
  - apply wp_bind, wp_ret. by apply (Hk s n).
  - apply (keeps_update s0 s nid _ n); [done| |done|intros s' H' Hn'; by eapply Hk].
    by apply (move_to n ExecutionNodeStatus.TERMINATING Ht false).
Qed.

Lemma within_terminate id key wait : db_within nodes_move (terminate_ec2_node id key wait).
Proof.
  apply within_keeps. intros s0. apply keeps_node; [reflexivity|intros nid n s1 H1 Hn].
  apply keeps_world; [apply assert_ec2_world|done|intros [] s2 [E2 _] H2]. rewrite <- E2 in Hn.
  case_bool_decide as Ht; [by apply keeps_ret|].
  apply keeps_world; [apply instance_world|done|intros iid s3 [E3 _] H3]. rewrite <- E3 in Hn.
  apply (keeps_terminating _ _ _ n); [done..|intros s4 n' H4 Hn' Hst].
  apply keeps_world; [apply throttled_world|done|intros resp s5 [E5 _] H5]. rewrite <- E5 in Hn'.
  assert (Hnt : node_status n' ≠ ExecutionNodeStatus.TERMINATED) by (by rewrite Hst).
  destruct resp as [u|e].
  - apply keeps_world; [apply within_when; [apply _|intros _; apply touch_world_only]|done|intros [] s6 [E6 _] H6].
    rewrite <- E6 in Hn'.
    apply keeps_world; [apply state_after_world|done|intros st s7 [E7 _] H7]. rewrite <- E7 in Hn'.
    eapply keeps_update; [done| |done|intros s8 H8 _; apply keeps_within; [moves; apply within_touch|done]].
    by apply (move_to n' (if gone_state st then ExecutionNodeStatus.TERMINATED else ExecutionNodeStatus.TERMINATING) Hnt false).
  - eapply keeps_update; [done| |done|intros s6 H6 _; by apply keeps_raise].
    split; [|by intros []]. intros Ha Hs. rewrite Ha in Hst by exact Hs. done.
Qed.

Lemma ready_gate_world n : within world_only (run_ssm_ready_gate n).
Proof.
  unfold run_ssm_ready_gate. cbv zeta. repeat (case_match; [apply within_ret, _|]).
  intros s. by destruct (ssm_run_ready_gate _ _ _ _).
Qed.

(** Whether the node has proven readiness; on [true] its row is untouched. *)
Lemma wp_readiness (s0 s : St W) nid n st : tracked nodes_move s0 s → nodes (st_db s) !! nid = Some n →
  node_status n ≠ ExecutionNodeStatus.TERMINATED →
  wp (if bool_decide (node_execution_mode n = ExecutionNodeExecutionMode.SSM_DOCKER) then
        reason ← run_ssm_ready_gate n;
        match reason with Some reason => ready_gate_failure nid reason ;; mret false | None => mret true end
      else mret (bool_decide (ec2_heartbeat_readiness n st = None)))
    (λ ok s', tracked nodes_move s0 s' ∧ (ok = true → nodes (st_db s') !! nid = Some n))
    (λ _, tracked nodes_move s0) s.
Proof.
  intros Hs Hn Ht. case_match; [|by apply wp_ret].
  apply wp_bind. pose proof (ready_gate_world n s) as Hw. unfold wp at 1.
  destruct (run_ssm_ready_gate n s) as [s' [reason|e]]; simpl in Hw; [|by eapply moved_world].
  assert (H' : tracked nodes_move s0 s') by (by eapply moved_world). destruct Hw as [E _]. rewrite <- E in Hn.
  destruct reason as [reason|]; [|by apply wp_ret].
  unfold ready_gate_failure, update_node, set_node. apply wp_bind, wp_bind, wp_on_db, wp_on_db, wp_ret.
  split; [|done]. apply moved_db; [apply moved_db; [done|]|by apply nodes_move_same].
  eapply nodes_move_alter; [exact Hn|done|]. by apply (move_to n ExecutionNodeStatus.PROVISIONING Ht false).
Qed.

Lemma keeps_promote (s0 s : St W) nid st : tracked nodes_move s0 s →
  keeps s0 (promote_ec2_node_if_heartbeat_ready nid st) s.
Proof.
  intros Hs. apply keeps_row; [done|intros n Hn]. case_match; [by apply keeps_ret|].
  destruct (promotable (node_status n)) eqn:Hp; cbn [negb]; [|by apply keeps_ret]. case_match; [by apply keeps_ret|].
  assert (Ht : node_status n ≠ ExecutionNodeStatus.TERMINATED) by (by intros E; rewrite E in Hp).
  apply wp_bind. eapply wp_mono; [by apply (wp_readiness s0)| |done]. intros [] s' [H' Hn']; [|by apply wp_ret].
  apply (keeps_update_ret s0 s' nid _ n); [by apply Hn'| |done].
  by apply (move_to n ExecutionNodeStatus.READY Ht true).
Qed.

Lemma within_sync id key promote : db_within nodes_move (sync_node_state id key promote).
Proof.
  apply within_keeps. intros s0. apply keeps_node; [reflexivity|intros nid n s1 H1 Hn].
  apply keeps_world; [apply assert_ec2_world|done|intros [] s2 _ H2].
  apply keeps_world; [apply instance_world|done|intros iid s3 _ H3].
  apply keeps_bind; [apply within_register_node|done|intros nid' s4 H4].
  case_match; [by apply keeps_ret|].
  destruct (promotable (node_status n)) eqn:Hp; cbn [negb]; [|by apply keeps_ret].
  apply keeps_world; [apply within_attempt, describe_world|done|intros [d|e] s5 _ H5];
    [|case_match; [by apply keeps_ret|by apply keeps_raise]].
  case_match; [by apply keeps_ret|]. apply keeps_row; [done|intros m Hm].
  assert (Hw : keeps s0 (when (bool_decide (node_status m = ExecutionNodeStatus.READY))
    (set_node nid (λ n', n' <| node_status := node_status n |> <| node_schedulable := false |>))) s5).
  { case_bool_decide as Hr; cbn [when]; [|by apply keeps_ret]. apply wp_on_db, moved_db; [done|].
    eapply nodes_move_alter; [exact Hm|done|]. by apply (move_to m (node_status n)) with (b := false); [rewrite Hr|..]. }
  apply wp_bind. eapply wp_mono; [exact Hw| |done]. intros [] s6 H6.
  apply wp_bind. eapply wp_mono; [by apply keeps_promote| |done]. intros b s7 H7.
  apply keeps_within; [moves|done].
Qed.

Lemma free_key_world key : within world_only (require_free_node_key key : M W unit).
Proof.
  unfold require_free_node_key, node_by_key. apply within_bind; [apply _|apply within_gets, _|intros []];
    [apply within_raise, _|apply within_ret, _].
Qed.
Lemma launch_world region req : within world_only (launch_instance region req).
Proof.
  unfold launch_instance. apply within_bind; [apply _|apply throttled_world|intros r].
  repeat case_match; first [apply within_raise, _|apply within_ret, _].
Qed.
Lemma wait_world region iid ip : within world_only (wait_running region iid ip).
Proof.
  intros s. unfold wait_running. destruct (ec2_wait_running region iid (st_world s)) as [w [u|e]]; [|done].
  assert (H : within world_only (try_except (d ← describe_ec2_instance region iid;
                mret (match de_private_ip d with Some a => Some a | None => ip end))
              (λ e, if is_ec2_provider_error e then mret ip else raise e))).
  { apply within_try; [apply _|apply within_bind; [apply _|apply describe_world|intros; apply within_ret, _]|].
    intros e. case_match; [apply within_ret, _|apply within_raise, _]. }
  exact (H (mkSt (st_db s) (st_committed s) w)).
Qed.

Lemma within_provision req wait : db_within nodes_move (provision_ec2_node req wait).
Proof.
  apply within_keeps. intros s0. unfold provision_ec2_node.
  apply keeps_world; [repeat case_match; first [apply within_raise, _|apply within_ret, _]|reflexivity|intros r s1 _ H1].
  case_match; [by apply keeps_raise|].
  apply keeps_world; [apply within_when; [apply _|intros _; apply free_key_world]|done|intros [] s2 _ H2].
  apply keeps_world; [apply launch_world|done|intros [[inst iid] ip] s3 _ H3].
  apply keeps_world; [case_match; [apply wait_world|apply within_ret, _]|done|intros a s4 _ H4].
  apply keeps_world; [apply within_when; [apply _|intros _; apply free_key_world]|done|intros [] s5 _ H5].
  apply keeps_world; [apply touch_world_only|done|intros [] s6 _ H6].
  apply keeps_world; [apply capacity_world|done|intros [vcpu mem] s7 _ H7].
  apply keeps_insert; [done|done|intros nid s8 H8; by apply keeps_ret].
Qed.
End lifecycle.

(** ** All of them *)

(** The operations of the three files, with their arguments.  The upsert of a catalog
    row is not among them: it may give a TERMINATED node's row a new status. *)
Inductive NodeOp :=
| EnsureLocal | Heartbeat (key : option string) (id : option Z) (docker_ok : bool) (disk_free_mb : Z)
| EmitHeartbeat | PostHeartbeat (key : string) (docker_ok : bool) (disk_free_mb : option Z)
| Register (region iid : string) (key user mode : option string) (catalog_only : bool)
| SyncAll (region : string) (ids : list string)
| Provision (req : option Ec2ProvisionRequest) (wait : bool)
| Drain (id : option Z) (key : option string) | Undrain (id : option Z) (key : option string)
| Deregister (id : option Z) (key : option string)
| Terminate (id : option Z) (key : option string) (wait : bool)
| Sync (id : option Z) (key : option string) (promote : bool)
| ReconcileStale.

Section operations.
Context {W : Type} {env : Env} {cloud : Ec2Cloud W} {host : HeartbeatHost W}.

Definition run_node_op (op : NodeOp) : M W unit :=
  match op with
  | EnsureLocal => ensure_default_local_execution_node ;; mret tt
  | Heartbeat key id docker_ok disk => record_execution_node_heartbeat key id docker_ok disk ;; mret tt
  | EmitHeartbeat => emit_default_local_execution_node_heartbeat
  | PostHeartbeat key docker_ok disk => post_execution_node_heartbeat key docker_ok disk ;; mret tt
  | Register region iid key user mode catalog_only =>
      register_ec2_instance region iid key user mode catalog_only ;; mret tt
  | SyncAll region ids => sync_ec2_instances region ids
  | Provision req wait => provision_ec2_node req wait ;; mret tt
  | Drain id key => mark_node_draining id key ;; mret tt
  | Undrain id key => undrain_node id key ;; mret tt
  | Deregister id key => deregister_node id key ;; mret tt
  | Terminate id key wait => terminate_ec2_node id key wait ;; mret tt
  | Sync id key promote => sync_node_state id key promote ;; mret tt
  | ReconcileStale => reconcile_stale_ec2_execution_nodes ;; mret tt
  end.

#[local] Hint Resolve within_provision within_drain within_undrain within_deregister_node within_terminate within_sync : moves.
Lemma node_op_moves op : db_within nodes_move (run_node_op op).
Proof. destruct op; cbn [run_node_op]; moves. Qed.

(** C33. Every operation on nodes but the registration of catalog stubs, which can bring
    a TERMINATED row back, keeps each node row, whatever its arguments, its outcome and
    what the cloud answers, never leaves a node schedulable that is not READY, and never
    brings a TERMINATED node back into service; what it commits on the way keeps them
    too. *)
Theorem node_operations_keep_service_states (op : NodeOp) (s : St W) :
  let s' := (run_node_op op s).1 in
  (∀ k n, nodes (st_db s) !! k = Some n → out_of_service n →
     ∃ n', nodes (st_db s') !! k = Some n' ∧ out_of_service n') ∧
  ((∀ k n, nodes (st_db s) !! k = Some n → admitted_ready n) →
     ∀ k n', nodes (st_db s') !! k = Some n' → admitted_ready n') ∧
  (st_committed s' = st_committed s ∨ nodes_move (st_db s) (st_committed s')).
Proof.
  intros s'. pose proof (node_op_moves op s) as [[K N] C]. fold s' in K, N, C. split_and!; [| |exact C].
  - intros k n Hn Hf. destruct (K _ _ Hn) as (n' & ? & [_ Hm]). eauto.
  - intros Hall k n' Hn'. destruct (nodes (st_db s) !! k) as [n|] eqn:Hn; [|by eapply N].
    destruct (K _ _ Hn) as (m & Hm & [Ha _]). rewrite Hn' in Hm. injection Hm as <-. by eapply Ha, Hall.
Qed.
End operations.
