(* ===== verification/Ec2UserData.v ===== *)
(** * Ec2UserData: the boot script of a launched instance

    [build_default_amazon_linux_2023_user_data] of
    [src/backend/app/services/infrastructure_service/models.py]: the script installs
    Docker, writes the environment file of the heartbeat and starts the heartbeat as a
    systemd unit. *)

From S2P Require Import Prelude Models.

(** The double quote inside the script. *)
Definition dq : string := String "034" EmptyString.

Definition service_name : string := "devnest-node-heartbeat".

Definition user_data_lines (q_node q_base q_secret q_projects : string) (interval : Z) : list string :=
  ["#!/bin/bash";
   "set -Eeuo pipefail";
   "";
   "install -d -m 0755 /var/log/devnest";
   "exec > >(tee -a /var/log/devnest/bootstrap.log) 2>&1";
   "";
   "if command -v dnf >/dev/null 2>&1; then";
   "  dnf install -y docker awscli-2";
   "elif command -v yum >/dev/null 2>&1; then";
   "  yum install -y docker awscli-2";
   "elif command -v apt-get >/dev/null 2>&1; then";
   "  apt-get update";
   "  DEBIAN_FRONTEND=noninteractive apt-get install -y docker.io curl";
   "else";
   "  echo " ++ dq ++ "DevNest bootstrap unsupported OS: no dnf, yum, or apt-get" ++ dq ++ " >&2";
   "  exit 42";
   "fi";
   "systemctl enable --now docker";
   "";
   "install -d -m 0755 /opt/devnest";
   "install -d -m 0755 /var/lib/devnest";
   "install -d -m 0775 " ++ q_projects;
   "";
   "cat >/opt/devnest/heartbeat.env <<'ENV'";
   "NODE_KEY=" ++ q_node;
   "INTERNAL_API_BASE_URL=" ++ q_base;
   "INTERNAL_API_KEY=" ++ q_secret;
   "HEARTBEAT_INTERVAL_SECONDS=" ++ Py.str_of_Z interval;
   "ENV";
   "chmod 0600 /opt/devnest/heartbeat.env";
   "";
   "cat >/opt/devnest/node-heartbeat.sh <<'SCRIPT'";
   "#!/bin/bash";
   "set -Eeuo pipefail";
   "source /opt/devnest/heartbeat.env";
   "while true; do";
   "  if command -v docker >/dev/null 2>&1 && docker info >/dev/null 2>&1; then";
   "    DOCKER_OK=true";
   "  else";
   "    DOCKER_OK=false";
   "  fi";
   "  DISK_FREE_MB=" ++ dq ++ "$(df -Pm /var/lib/devnest 2>/dev/null | awk 'NR==2 {print $4}')" ++ dq;
   "  DISK_FREE_MB=" ++ dq ++ "${DISK_FREE_MB:-0}" ++ dq;
   "  PAYLOAD=" ++ dq ++ "$(printf '{" ++ dq ++ "node_key" ++ dq ++ ":" ++ dq ++ "%s" ++ dq ++ "," ++ dq ++ "docker_ok" ++ dq ++ ":%s," ++ dq ++ "disk_free_mb" ++ dq ++ ":%s," ++ dq ++ "version" ++ dq ++ ":" ++ dq ++ "ec2-user-data-v1" ++ dq ++ "}' \";
   "    " ++ dq ++ "${NODE_KEY}" ++ dq ++ " " ++ dq ++ "${DOCKER_OK}" ++ dq ++ " " ++ dq ++ "${DISK_FREE_MB}" ++ dq ++ ")" ++ dq;
   "  curl -fsS -X POST " ++ dq ++ "${INTERNAL_API_BASE_URL%/}/internal/execution-nodes/heartbeat" ++ dq ++ " \";
   "    -H " ++ dq ++ "Content-Type: application/json" ++ dq ++ " \";
   "    -H " ++ dq ++ "X-Internal-API-Key: ${INTERNAL_API_KEY}" ++ dq ++ " \";
   "    --data " ++ dq ++ "${PAYLOAD}" ++ dq ++ " \";
   "    >/dev/null || true";
   "  sleep " ++ dq ++ "${HEARTBEAT_INTERVAL_SECONDS:-30}" ++ dq;
   "done";
   "SCRIPT";
   "chmod 0755 /opt/devnest/node-heartbeat.sh";
   "";
   "cat >/etc/systemd/system/" ++ service_name ++ ".service <<'UNIT'";
   "[Unit]";
   "Description=DevNest execution node heartbeat";
   "After=network-online.target docker.service";
   "Wants=network-online.target docker.service";
   "";
   "[Service]";
   "Type=simple";
   "EnvironmentFile=/opt/devnest/heartbeat.env";
   "ExecStart=/opt/devnest/node-heartbeat.sh";
   "Restart=always";
   "RestartSec=5";
   "StandardOutput=journal";
   "StandardError=journal";
   "";
   "[Install]";
   "WantedBy=multi-user.target";
   "UNIT";
   "";
   "systemctl daemon-reload";
   "systemctl enable --now " ++ service_name ++ ".service";
   "";
   "# Values quoted for shellcheck/readability; heartbeat.env is authoritative.";
   "printf 'DevNest bootstrap complete for node %s using API %s and projects base %s\n' " ++ q_node ++ " " ++ q_base ++ " " ++ q_projects]%string.

(** Each line with its newline. *)
Definition unlines (l : list string) : string := foldr (λ x r, x ++ newline ++ r)%string ""%string l.

Definition build_default_amazon_linux_2023_user_data (node_key internal_api_base_url internal_api_key
    workspace_projects_base : string) (heartbeat_interval_seconds : Z) : string + string :=
  let key := Py.strip node_key in
  let base := Py.rstrip_slash (Py.strip internal_api_base_url) in
  let projects := Py.or_else (Py.strip workspace_projects_base) "/var/lib/devnest/workspace-projects" in
  let interval := if heartbeat_interval_seconds =? 0 then 30 else heartbeat_interval_seconds in
  let interval := Z.max 5 (Z.min interval 3600) in
  if negb (Py.truthy key) then inr "node_key is required to render EC2 bootstrap user-data"%string
  else if negb (Py.truthy base) then
    inr "DEVNEST_EC2_HEARTBEAT_INTERNAL_API_BASE_URL or INTERNAL_API_BASE_URL is required to render EC2 bootstrap user-data"%string
  else if negb (Py.truthy internal_api_key) then
    inr "INTERNAL_API_KEY_INFRASTRUCTURE or INTERNAL_API_KEY is required to render EC2 bootstrap user-data"%string
  else inl (unlines (user_data_lines (shlex_quote key) (shlex_quote base) (shlex_quote internal_api_key)
              (shlex_quote projects) interval)).
