(* ===== verification/Autoscaler.v ===== *)
(** * Autoscaler: fleet capacity, scale-out and scale-in

    [src/backend/app/services/autoscaler_service/service.py] and the ticks of
    [src/backend/app/workers/autoscaler_loop.py].  A tick reads the whole fleet,
    decides, and launches or terminates at most one instance.  Of a decision the texts
    of its reasons and the copies of the settings are left out. *)

From S2P Require Import Prelude Models Session Services Frames Capacity.
From S2P Require Import Scheduling NodeBootstrap Ec2Registry Ec2Cleanup NodeLifecycle Ec2UserData.

(** ** Fleet queries *)

Definition is_ec2 (n : ExecutionNode) : bool := bool_decide (node_provider_type n = ExecutionNodeProviderType.EC2).

(** [_ACTIVE_EC2_NODE_STATUSES] *)
Definition active_ec2_status (st : execution_node_status) : bool :=
  match st with
  | ExecutionNodeStatus.PROVISIONING | ExecutionNodeStatus.READY | ExecutionNodeStatus.NOT_READY
  | ExecutionNodeStatus.DRAINING | ExecutionNodeStatus.TERMINATING | ExecutionNodeStatus.ERROR => true
  | ExecutionNodeStatus.TERMINATED => false
  end.
Definition active_ec2 (n : ExecutionNode) : bool := is_ec2 n && active_ec2_status (node_status n).
Definition ec2_in (st : execution_node_status) (n : ExecutionNode) : bool :=
  is_ec2 n && bool_decide (node_status n = st).

Definition count_nodes (P : ExecutionNode → bool) (db : Db) : Z := count_rows (λ kn, P kn.2) (nodes db).
Definition active_ec2_nodes_count (db : Db) : Z := count_nodes active_ec2 db.
Definition count_ec2_provisioning_nodes (db : Db) : Z := count_nodes (ec2_in ExecutionNodeStatus.PROVISIONING) db.
Definition ready_schedulable_ec2 (n : ExecutionNode) : bool :=
  ec2_in ExecutionNodeStatus.READY n && node_schedulable n.
Definition count_all_ready_schedulable_ec2 (db : Db) : Z := count_nodes ready_schedulable_ec2 db.

(** A workspace row that is not DELETED. *)
Definition live_workspace (db : Db) (wid : Z) : bool :=
  match workspaces db !! wid with
  | Some w => negb (bool_decide (ws_status w = WorkspaceStatus.DELETED))
  | None => false
  end.
(** [workload_count_on_node]; the grouped query [_workload_counts_by_node_keys] gives the same counts *)
Definition workload_count_on_node (db : Db) (node_key : string) : Z :=
  let key := Py.strip node_key in
  if Py.truthy key
  then count_rows (λ kr : Z * WorkspaceRuntime, bool_decide (rt_node_id kr.2 = Some key) && live_workspace db kr.1)
         (runtimes db)
  else 0.

(** A workspace of the node: by its own column, or by its runtime row. *)
Definition placed_on (db : Db) (nid : Z) (key : string) (kw : Z * Workspace) : bool :=
  bool_decide (ws_execution_node_id kw.2 = Some nid) ||
  (Py.truthy key && bool_decide (runtimes db !! kw.1 ≫= rt_node_id = Some key)).
Definition active_workspace_count_for_scale_down (db : Db) (nid : Z) (n : ExecutionNode) : Z :=
  let key := Py.strip (node_node_key n) in
  count_rows (λ kw : Z * Workspace, negb (bool_decide (ws_status kw.2 = WorkspaceStatus.DELETED)) &&
                                    placed_on db nid key kw) (workspaces db).

Definition queued (j : WorkspaceJob) : bool := bool_decide (job_status j = WorkspaceJobStatus.QUEUED).
(** [_PENDING_PLACEMENT_DEMAND_JOB_TYPES] *)
Definition placement_demand_job (jt : workspace_job_type) : bool :=
  match jt with
  | WorkspaceJobType.CREATE | WorkspaceJobType.START | WorkspaceJobType.RESTART | WorkspaceJobType.UPDATE
  | WorkspaceJobType.SNAPSHOT_RESTORE | WorkspaceJobType.REPO_IMPORT => true
  | _ => false
  end.
Definition count_queued_jobs (db : Db) (counts : workspace_job_type → bool) : Z :=
  count_rows (λ kj : Z * WorkspaceJob, queued kj.2 && counts (job_type kj.2)) (jobs db).
Definition count_active_or_queued_jobs (db : Db) : Z :=
  count_rows (λ kj : Z * WorkspaceJob, queued kj.2 || bool_decide (job_status kj.2 = WorkspaceJobStatus.RUNNING)) (jobs db).
Definition count_non_deleted_workspaces (db : Db) : Z :=
  count_rows (λ kw : Z * Workspace, negb (bool_decide (ws_status kw.2 = WorkspaceStatus.DELETED))) (workspaces db).
(** [_WORKSPACE_PENDING_COMPUTE_STATUSES] *)
Definition pending_compute (st : workspace_status) : bool :=
  match st with
  | WorkspaceStatus.CREATING | WorkspaceStatus.PENDING | WorkspaceStatus.STARTING
  | WorkspaceStatus.RESTARTING | WorkspaceStatus.UPDATING => true
  | _ => false
  end.
Definition count_workspaces_pending_placement_compute (db : Db) : Z :=
  count_rows (λ kw : Z * Workspace, pending_compute (ws_status kw.2)) (workspaces db).

Section capacity.
Context {env : Env}.

Definition autoscaler : AutoscalerSettings := cfg_autoscaler env_settings.
Definition provider_mode : string :=
  Py.lower (Py.strip (Py.or_else (cfg_node_provider env_settings) "all")).
Definition provider_allows_ec2_autoscale : bool :=
  String.eqb provider_mode "all" || String.eqb provider_mode "ec2".

(** The placement pool, [schedulable_placement_predicates]. *)
Definition placement_pool (db : Db) : list node_row :=
  List.filter (schedulable_base_predicates db) (map_to_list (nodes db)).

(** What a pool node has left; [nf_slots] may not be negative. *)
Definition node_key_of (kn : node_row) : string := Py.strip (node_node_key kn.2).
Definition slots_in_use (db : Db) (kn : node_row) : Z :=
  Z.max (count_active_workloads_on_node_key db (node_key_of kn)) (count_workspace_slot_claims_on_node_id db (Some kn.1)).
Definition free_slots_on (db : Db) (kn : node_row) : Z :=
  Z.max 0 (Z.max 0 (node_max_workspaces kn.2) - slots_in_use db kn).
Definition free_cpu_on (db : Db) (kn : node_row) : cpu :=
  Z.max 0 (Z.max 0 (node_allocatable_cpu kn.2) - (total_reserved_on_node_key db (node_key_of kn)).1).
Definition free_memory_on (db : Db) (kn : node_row) : Z :=
  Z.max 0 (Z.max 0 (node_allocatable_memory_mb kn.2) - (total_reserved_on_node_key db (node_key_of kn)).2).
Definition free_disk_on (db : Db) (kn : node_row) : Z :=
  Z.max 0 (Z.max 0 (node_allocatable_disk_mb kn.2) - total_reserved_disk_mb_on_node_key db (node_key_of kn)).

Definition any_ready_schedulable_node_can_fit_default_workspace (db : Db) : bool :=
  let req := default_request None None None None in
  List.existsb (λ kn : node_row,
      Py.truthy (node_key_of kn) &&
      (requested_slots req <=? Z.max 0 (node_max_workspaces kn.2 - slots_in_use db kn)) &&
      (requested_cpu req <=? Z.max 0 (node_allocatable_cpu kn.2 - (total_reserved_on_node_key db (node_key_of kn)).1)) &&
      (requested_memory_mb req <=?
         Z.max 0 (node_allocatable_memory_mb kn.2 - (total_reserved_on_node_key db (node_key_of kn)).2)) &&
      (requested_disk_mb req <=?
         Z.max 0 (node_allocatable_disk_mb kn.2 - total_reserved_disk_mb_on_node_key db (node_key_of kn))))
    (placement_pool db).

(** [min(slots, cpu // req, ..)] workspaces of the default shape. *)
Definition default_shapes (slots : Z) (c : cpu) (memory_mb disk_mb : Z) : Z :=
  let req := default_request None None None None in
  let fitting (avail r : Z) := if 0 <? r then avail / r else slots in
  Z.max 0 (Z.min (Z.min slots (fitting c (requested_cpu req)))
    (Z.min (fitting memory_mb (requested_memory_mb req)) (fitting disk_mb (requested_disk_mb req)))).
Definition workspace_slots_from_free_resources (free_slots : Z) (free_cpu : cpu) (free_memory_mb free_disk_mb : Z) : Z :=
  if free_slots <=? 0 then 0 else default_shapes free_slots free_cpu free_memory_mb free_disk_mb.
Definition estimated_empty_workspace_capacity_on_node (n : ExecutionNode) : Z :=
  default_shapes (Z.max 0 (node_max_workspaces n)) (Z.max 0 (node_allocatable_cpu n))
    (Z.max 0 (node_allocatable_memory_mb n)) (Z.max 0 (node_allocatable_disk_mb n)).

Definition sum_rows {A} (f : A → Z) (l : list A) : Z := foldr (λ x acc, f x + acc) 0 l.
Definition provisioning_capacity (db : Db) : Z :=
  sum_rows (λ kn : node_row, estimated_empty_workspace_capacity_on_node kn.2)
    (List.filter (λ kn : node_row, ec2_in ExecutionNodeStatus.PROVISIONING kn.2) (map_to_list (nodes db))).

Definition count_idle_ec2_nodes (db : Db) : Z :=
  Z.of_nat (length (List.filter (λ kn : node_row, is_ec2 kn.2 && (workload_count_on_node db (node_node_key kn.2) =? 0))
    (placement_pool db))).

(** ** Demand *)

Definition placement_failure_signal_window_seconds : Z := Z.max 1 (as_recent_activity_window_seconds autoscaler).
Definition count_recent_placement_failure_signals (db : Db) : Z :=
  Z.of_nat (length (List.filter (λ a, String.eqb (au_action a) "placement.no_schedulable_node" &&
    (env_now - seconds placement_failure_signal_window_seconds <=? au_created_at a)) (audit_logs db))).
Definition effective_recent_placement_failure_signals (db : Db)
    (pending_placement_jobs active_or_queued_jobs non_deleted_workspaces : Z) : Z :=
  let raw_recent := count_recent_placement_failure_signals db in
  if raw_recent <=? 0 then 0
  else if (pending_placement_jobs <=? 0) && (active_or_queued_jobs <=? 0) && (non_deleted_workspaces <=? 0) then 0
  else raw_recent.

(** ** The snapshot *)

(** [models.FleetCapacitySnapshot]; [round(x, 4)] on nano-cores: to a multiple of
    100000, ties to even. *)
Definition round4 (n : cpu) : cpu :=
  let q := n / 100000 in
  let r := n mod 100000 in
  100000 * (if r <? 50000 then q else if 50000 <? r then q + 1 else if Z.even q then q else q + 1).

Record FleetCapacitySnapshot := mkFleetCapacitySnapshot {
  fc_total_nodes : Z;
  fc_ec2_nodes_active : Z;
  fc_ready_schedulable_nodes : Z;
  fc_ready_schedulable_ec2_nodes : Z;
  fc_provisioning_nodes : Z;
  fc_draining_nodes : Z;
  fc_active_slots : Z;
  fc_free_slots : Z;
  fc_pending_workspace_jobs : Z;
  fc_pending_placement_jobs : Z;
  fc_recent_placement_failures : Z;
  fc_filtered_placement_failure_signals : Z;
  fc_pending_demand_workspace_units : Z;
  fc_ready_workspace_capacity : Z;
  fc_provisioning_workspace_capacity : Z;
  fc_total_available_workspace_capacity : Z;
  fc_total_allocatable_cpu : cpu;
  fc_free_cpu : cpu;
  fc_total_allocatable_memory_mb : Z;
  fc_free_memory_mb : Z;
  fc_total_allocatable_disk_mb : Z;
  fc_free_disk_mb : Z;
  fc_idle_ec2_node_count : Z
}.

Definition build_fleet_capacity_snapshot (db : Db) : FleetCapacitySnapshot :=
  let pool := placement_pool db in
  let keyed := List.filter (λ kn : node_row, Py.truthy (node_key_of kn)) pool in
  let free_slots := sum_rows (free_slots_on db) keyed in
  let free_cpu := sum_rows (free_cpu_on db) keyed in
  let free_mem := sum_rows (free_memory_on db) keyed in
  let free_disk := sum_rows (free_disk_on db) keyed in
  let pending_placement := count_queued_jobs db placement_demand_job in
  let recent := effective_recent_placement_failure_signals db pending_placement
                  (count_active_or_queued_jobs db) (count_non_deleted_workspaces db) in
  let filtered := if 1 <? recent then recent else 0 in
  let ready := workspace_slots_from_free_resources free_slots free_cpu free_mem free_disk in
  {| fc_total_nodes := count_nodes (λ _, true) db;
     fc_ec2_nodes_active := active_ec2_nodes_count db;
     fc_ready_schedulable_nodes := Z.of_nat (length pool);
     fc_ready_schedulable_ec2_nodes := Z.of_nat (length (List.filter (λ kn : node_row, is_ec2 kn.2) pool));
     fc_provisioning_nodes := count_ec2_provisioning_nodes db;
     fc_draining_nodes := count_nodes (ec2_in ExecutionNodeStatus.DRAINING) db;
     fc_active_slots := sum_rows (slots_in_use db) keyed;
     fc_free_slots := free_slots;
     fc_pending_workspace_jobs := count_queued_jobs db (λ _, true);
     fc_pending_placement_jobs := pending_placement;
     fc_recent_placement_failures := recent;
     fc_filtered_placement_failure_signals := filtered;
     fc_pending_demand_workspace_units := pending_placement + filtered;
     fc_ready_workspace_capacity := ready;
     fc_provisioning_workspace_capacity := provisioning_capacity db;
     fc_total_available_workspace_capacity := ready + provisioning_capacity db;
     fc_total_allocatable_cpu := round4 (sum_rows (λ kn : node_row, Z.max 0 (node_allocatable_cpu kn.2)) keyed);
     fc_free_cpu := round4 free_cpu;
     fc_total_allocatable_memory_mb := sum_rows (λ kn : node_row, Z.max 0 (node_allocatable_memory_mb kn.2)) keyed;
     fc_free_memory_mb := free_mem;
     fc_total_allocatable_disk_mb := sum_rows (λ kn : node_row, Z.max 0 (node_allocatable_disk_mb kn.2)) keyed;
     fc_free_disk_mb := free_disk;
     fc_idle_ec2_node_count := count_idle_ec2_nodes db |}.

(** Whether no resource reason prevents placing one default workspace. *)
Definition capacity_insufficient_for_one_workspace (cap : FleetCapacitySnapshot) : bool :=
  let req := default_request None None None None in
  (fc_free_slots cap <? requested_slots req) || (fc_free_cpu cap <? requested_cpu req) ||
  (fc_free_memory_mb cap <? requested_memory_mb req) || (fc_free_disk_mb cap <? requested_disk_mb req).

Definition effective_pending_demand_workspace_units (cap : FleetCapacitySnapshot) (db : Db) : Z :=
  if (0 <? fc_filtered_placement_failure_signals cap) && (fc_pending_placement_jobs cap =? 0) &&
     (count_workspaces_pending_placement_compute db =? 0)
  then 0 else fc_pending_placement_jobs cap + fc_filtered_placement_failure_signals cap.
End capacity.

(** ** Decisions *)

Section decisions.
Context {env : Env}.

Fixpoint least (l : list Z) : option Z :=
  match l with
  | [] => None
  | x :: r => Some (match least r with Some y => Z.min x y | None => x end)
  end.
Fixpoint greatest (l : list Z) : option Z :=
  match l with
  | [] => None
  | x :: r => Some (match greatest r with Some y => Z.max x y | None => x end)
  end.
Definition nodes_where (P : ExecutionNode → bool) (db : Db) : list ExecutionNode :=
  List.filter P (snd <$> map_to_list (nodes db)).

Definition minimum_age_among_active_ec2_nodes (db : Db) : option Z :=
  least (List.filter (λ age, 0 <=? age) ((λ n, env_now - node_created_at n) <$> nodes_where active_ec2 db)).
Definition latest_ec2_created_at (db : Db) : option time :=
  greatest (node_created_at <$> nodes_where (λ n, ec2_in ExecutionNodeStatus.PROVISIONING n || ec2_in ExecutionNodeStatus.READY n) db).
Definition latest_ec2_scale_in_at (db : Db) : option time :=
  greatest (node_updated_at <$> nodes_where (λ n, ec2_in ExecutionNodeStatus.DRAINING n ||
    ec2_in ExecutionNodeStatus.TERMINATING n || ec2_in ExecutionNodeStatus.TERMINATED n) db).

(** [age is not None and age >= 0 and age < cooldown] *)
Definition within_cooldown (since : option time) (cooldown_seconds : Z) : bool :=
  match since with
  | Some t => (0 <=? env_now - t) && (env_now - t <? seconds cooldown_seconds)
  | None => false
  end.

(** *** Settings that would block a launch *)

(** [_ec2_heartbeat_internal_api_base_url] and [_ec2_heartbeat_internal_api_key] *)
Definition heartbeat_internal_api_base_url : string :=
  let e := cfg_ec2 env_settings in
  Py.or_else (Py.strip (ec2_heartbeat_internal_api_base_url e)) (Py.strip (ec2_internal_api_base_url e)).
Definition heartbeat_internal_api_key : string :=
  let e := cfg_ec2 env_settings in
  Py.or_else (Py.strip (ec2_internal_api_key_infrastructure e)) (Py.strip (ec2_internal_api_key e)).
Definition has_bootstrap_config : bool :=
  Py.truthy heartbeat_internal_api_base_url && Py.truthy heartbeat_internal_api_key.

Definition ec2_autoscaler_provisioning_config_errors : list string :=
  let e := cfg_ec2 env_settings in
  let required (s msg : string) := if Py.truthy (Py.strip s) then [] else [msg] in
  let mode := Py.lower (Py.strip (Py.or_else (ec2_default_execution_mode e) "ssm_docker")) in
  let errors :=
    (required (cfg_aws_region env_settings) "AWS_REGION is required for EC2 autoscaler provisioning"
     ++ required (ec2_ami_id e) "DEVNEST_EC2_AMI_ID is required"
     ++ required (ec2_instance_type e) "DEVNEST_EC2_INSTANCE_TYPE is required"
     ++ required (ec2_subnet_id e) "DEVNEST_EC2_SUBNET_ID is required"
     ++ (match comma_list (ec2_security_group_ids e) with
         | [] => ["DEVNEST_EC2_SECURITY_GROUP_IDS must contain at least one security group id"%string]
         | _ => [] end)
     ++ (if String.eqb mode "ssm_docker" then
           required (ec2_instance_profile e)
             "DEVNEST_EC2_INSTANCE_PROFILE is required when DEVNEST_EC2_DEFAULT_EXECUTION_MODE=ssm_docker" else [])
     ++ (if String.eqb mode "ssh_docker" then
           required (ec2_key_name e)
             "DEVNEST_EC2_KEY_NAME is required when DEVNEST_EC2_DEFAULT_EXECUTION_MODE=ssh_docker" else [])
     ++ (if negb (ec2_has_custom_user_data e) && negb has_bootstrap_config && negb (ec2_bootstrap_prebaked e)
         then ["bootstrap config is required"%string] else []))%list in
  let invalid := match provision_request_from_settings with
                 | inl r => validate_provision_request r
                 | inr err => Some err
                 end in
  match invalid with
  | Some msg => if Py.truthy msg && forallb (λ e, negb (Py.contains msg e)) errors then errors ++ [msg] else errors
  | None => errors
  end%list.

(** *** Scale-in candidates *)

(** [models.ScaleDownEvaluation] *)
Record ScaleDownEvaluation := mkScaleDownEvaluation {
  sd_node_key : option string;
  sd_idle_ec2_ready_nodes : Z;
  sd_min_ec2_nodes_before_reclaim : Z
}.

(** Idle, and old enough: the age of the row stands for the time it has been idle. *)
Definition reclaimable (db : Db) (n : ExecutionNode) : bool :=
  ready_schedulable_ec2 n && (workload_count_on_node db (node_node_key n) =? 0) &&
  (node_created_at n <=? env_now - seconds (Z.max 0 (as_scale_down_idle_seconds autoscaler))).
Definition reclaim_key (n : ExecutionNode) : SortKey :=
  {| sk_cpu := node_allocatable_cpu n; sk_memory := node_allocatable_memory_mb n; sk_disk := 0; sk_workload := 0;
     sk_node_key := node_node_key n |}.
Definition evaluate_scale_down (db : Db) : ScaleDownEvaluation :=
  let n_ready := count_all_ready_schedulable_ec2 db in
  let min_ready := Z.max 0 (as_min_ec2_nodes_before_reclaim autoscaler) in
  let pick := if n_ready <? min_ready then None
              else head (sort_by (λ a b, key_le (reclaim_key a) (reclaim_key b)) (nodes_where (reclaimable db) db)) in
  {| sd_node_key := node_node_key <$> pick; sd_idle_ec2_ready_nodes := n_ready;
     sd_min_ec2_nodes_before_reclaim := min_ready |}.

(** *** The decision of a tick *)

Inductive FleetAction :=
| SuppressedByConfig | SuppressedByCap | SuppressedByRecentProvisioning | SuppressedByCooldown
| ScaleOutRecommended | ScaleInRecommended | NoAction.
#[export] Instance FleetAction_eq_dec : EqDecision FleetAction.
Proof. solve_decision. Defined.

(** [models.FleetAutoscalerDecision] *)
Record FleetAutoscalerDecision := mkFleetAutoscalerDecision {
  fd_action : FleetAction;
  fd_scale_out_recommended : bool;
  fd_scale_in_recommended : bool;
  fd_suppressed_by_cooldown : bool;
  fd_suppressed_by_cap : bool;
  fd_suppressed_by_config : bool;
  fd_suppressed_by_recent_provisioning : bool;
  fd_capacity : FleetCapacitySnapshot;
  fd_scale_down : ScaleDownEvaluation
}.

(** The first suppression, else the recommendation. *)
Definition fleet_action (by_config by_cap by_recent by_cooldown out_ in_ : bool) : FleetAction :=
  if by_config then SuppressedByConfig else if by_cap then SuppressedByCap
  else if by_recent then SuppressedByRecentProvisioning else if by_cooldown then SuppressedByCooldown
  else if out_ then ScaleOutRecommended else if in_ then ScaleInRecommended else NoAction.

Definition live_demand (cap : FleetCapacitySnapshot) (db : Db) : bool :=
  (0 <? effective_pending_demand_workspace_units cap db) || (0 <? fc_pending_workspace_jobs cap).

(** Pending demand beyond what is ready or incoming, or beyond the idle buffer. *)
Definition demand_exceeds_capacity (cap : FleetCapacitySnapshot) (db : Db) : bool :=
  let pending := effective_pending_demand_workspace_units cap db in
  (fc_total_available_workspace_capacity cap <? pending) ||
  ((fc_total_available_workspace_capacity cap =? 0) && (0 <? pending)) ||
  ((0 <? pending) && (fc_free_slots cap - pending <? as_min_idle_slots autoscaler) &&
   (fc_provisioning_workspace_capacity cap =? 0)).
(** No room for one workspace on the pool, and nothing on its way. *)
Definition pool_exhausted_or_missing (cap : FleetCapacitySnapshot) : bool :=
  capacity_insufficient_for_one_workspace cap &&
  ((0 <? fc_ready_schedulable_nodes cap) ||
   ((0 <? fc_ec2_nodes_active cap) && (fc_ready_schedulable_ec2_nodes cap =? 0) && (fc_provisioning_nodes cap =? 0))).
Definition scale_out_recommended (cap : FleetCapacitySnapshot) (db : Db) : bool :=
  live_demand cap db &&
  (demand_exceeds_capacity cap db ||
   (negb (any_ready_schedulable_node_can_fit_default_workspace db) && pool_exhausted_or_missing cap)).

Definition evaluate_fleet_autoscaler_tick (db : Db) : FleetAutoscalerDecision :=
  let a := autoscaler in
  let cap := build_fleet_capacity_snapshot db in
  let scale_down := evaluate_scale_down db in
  let out_ := scale_out_recommended cap db in
  let in_ := match sd_node_key scale_down with Some k => Py.truthy k | None => false end in
  let ready_to_act := as_enabled a && negb (as_evaluate_only a) in
  let '(by_config, by_cap, by_recent, by_cooldown) :=
    if out_ then
      (negb ready_to_act || negb provider_allows_ec2_autoscale ||
         (ready_to_act && provider_allows_ec2_autoscale &&
          negb (bool_decide (ec2_autoscaler_provisioning_config_errors = []))),
       (as_max_nodes a <=? fc_ec2_nodes_active cap) || (as_max_concurrent_provisioning a <=? fc_provisioning_nodes cap),
       (0 <? as_suppress_scale_out_recent_provision_seconds a) &&
         match minimum_age_among_active_ec2_nodes db with
         | Some age => age <? seconds (as_suppress_scale_out_recent_provision_seconds a)
         | None => false
         end,
       within_cooldown (latest_ec2_created_at db) (as_scale_out_cooldown_seconds a))
    else if in_ then
      (negb ready_to_act, fc_ec2_nodes_active cap <=? as_min_nodes a, false,
       within_cooldown (latest_ec2_scale_in_at db) (as_scale_in_cooldown_seconds a))
    else (false, false, false, false) in
  {| fd_action := fleet_action by_config by_cap by_recent by_cooldown out_ in_;
     fd_scale_out_recommended := out_; fd_scale_in_recommended := in_;
     fd_suppressed_by_cooldown := by_cooldown; fd_suppressed_by_cap := by_cap;
     fd_suppressed_by_config := by_config; fd_suppressed_by_recent_provisioning := by_recent;
     fd_capacity := cap; fd_scale_down := scale_down |}.
End decisions.

(** ** Acting on a decision *)

Section actions.
Context {W : Type} {env : Env} {cloud : Ec2Cloud W} {uuids : Uuids W}.

Definition autoscaler_node_key : M W string :=
  u ← new_uuid; mret ("ec2-autoscale-" ++ Py.prefix_to 12 u)%string.

(** [s.replace(old, new)] for a non-empty [old]: every occurrence from the left. *)
Fixpoint replace_from (fuel : nat) (old new s : string) : string :=
  match fuel, s with
  | Datatypes.S k, String c r =>
      if String.prefix old s
      then (new ++ replace_from k old new (substring (String.length old) (String.length s) s))%string
      else String c (replace_from k old new r)
  | _, _ => s
  end.
Definition replace (old new s : string) : string := replace_from (String.length s) old new s.

Definition workspace_projects_base_for_ec2 : string :=
  let e := cfg_ec2 env_settings in
  Py.or_else (Py.strip (ec2_workspace_projects_base e))
    (Py.or_else (Py.strip (ec2_default_workspace_projects_base e)) "/var/lib/devnest/workspace-projects").
Definition generated_user_data (key : string) : option string + string :=
  match build_default_amazon_linux_2023_user_data key heartbeat_internal_api_base_url heartbeat_internal_api_key
          workspace_projects_base_for_ec2 (ec2_heartbeat_interval_seconds (cfg_ec2 env_settings)) with
  | inl text => inl (Some text)
  | inr e => inr e
  end.

(** The user data of the request: custom, generated, or none for a prepared image. *)
Definition autoscaler_user_data (custom : option string) (key : string) : option string + string :=
  if Py.truthy (Py.strip_opt custom) then
    inl (Some (replace "{{DEVNEST_NODE_KEY}}" key (replace "{{NODE_KEY}}" key (default ""%string custom))))
  else if ec2_bootstrap_prebaked (cfg_ec2 env_settings) then inl custom
  else generated_user_data key.

Definition build_autoscaler_ec2_provision_request : M W Ec2ProvisionRequest :=
  match provision_request_from_settings with
  | inr e => raise (Ec2ProvisionConfigurationError e)
  | inl req =>
      key ← autoscaler_node_key;
      match autoscaler_user_data (rq_user_data req) key with
      | inr e => raise (Ec2ProvisionConfigurationError e)
      | inl user_data =>
          mret (req <| rq_node_key := Some key |> <| rq_name_tag := Some key |> <| rq_user_data := user_data |>)
      end
  end.

(** Best effort: one failure does not keep the others from being tried. *)
Definition provisioning_keys (db : Db) : list string :=
  node_node_key <$> sort_by (λ a b, match String.compare (node_node_key a) (node_node_key b) with Gt => false | _ => true end)
    (nodes_where (λ n, is_ec2 n && promotable (node_status n)) db).
Definition sync_provisioning_ec2_nodes : M W unit :=
  keys ← query provisioning_keys;
  for_each keys (λ key, attempt (sync_node_state None (Some key) true ;; flush) ;; mret tt).

Definition provision_one_from_fleet_decision (d : FleetAutoscalerDecision) : M W (option Z) :=
  if negb (bool_decide (fd_action d = ScaleOutRecommended)) then mret None
  else
    req ← build_autoscaler_ec2_provision_request;
    nid ← provision_ec2_node (Some req) true;
    flush ;;
    mret (Some nid).

Definition run_scale_out_tick : M W (FleetAutoscalerDecision * option Z) :=
  sync_provisioning_ec2_nodes ;;
  d ← query evaluate_fleet_autoscaler_tick;
  node ← provision_one_from_fleet_decision d;
  mret (d, node).

(** *** The hook of the worker and the internal routes *)

(** [models.ScaleUpEvaluation] *)
Record ScaleUpEvaluation := mkScaleUpEvaluation {
  su_should_provision : bool;
  su_provisioning_in_flight : Z;
  su_idle_ec2_node_count : Z
}.
Definition evaluate_scale_up (insufficient_capacity : bool) : M W ScaleUpEvaluation :=
  in_flight ← query count_ec2_provisioning_nodes;
  if negb (as_enabled autoscaler) || negb insufficient_capacity || negb provider_allows_ec2_autoscale
  then mret (mkScaleUpEvaluation false in_flight 0)
  else
    n_idle ← query count_idle_ec2_nodes;
    if 0 <? n_idle then mret (mkScaleUpEvaluation false in_flight n_idle)
    else if as_max_concurrent_provisioning autoscaler <=? in_flight then mret (mkScaleUpEvaluation false in_flight 0)
    else match provision_request_from_settings with
         | inr e => raise (Ec2ProvisionConfigurationError e)
         | inl req => mret (mkScaleUpEvaluation (bool_decide (validate_provision_request req = None)) in_flight 0)
         end.
Definition provision_capacity_if_needed (e : ScaleUpEvaluation) : M W (option Z) :=
  if negb (su_should_provision e) then mret None
  else nid ← provision_ec2_node None true; flush ;; mret (Some nid).

(** [maybe_provision_on_no_schedulable_capacity] *)
Definition provision_on_no_schedulable_capacity : M W (option Z) :=
  if negb (as_enabled autoscaler) || negb (as_provision_on_no_capacity autoscaler) then mret None
  else
    d ← query evaluate_fleet_autoscaler_tick;
    if negb (bool_decide (fd_action d = ScaleOutRecommended)) then mret None
    else try_except (provision_one_from_fleet_decision d) (λ _, mret None).

(** *** Scale-in *)

Definition select_node_for_scale_down (db : Db) : option (Z * ExecutionNode) :=
  key ← sd_node_key (evaluate_scale_down db);
  if Py.truthy key then find_node key db else None.

(** [session.expire_all()] after a commit: the next reads see what other sessions
    have committed, [others] of what this one committed. *)
Definition expire_all (others : Db → Db) : M W unit :=
  modify (λ s, let db := others (st_committed s) in s <| st_db := db |> <| st_committed := db |>).

Definition execute_scale_down (others : Db → Db) (d : FleetAutoscalerDecision) : M W (option Z) :=
  if negb (bool_decide (fd_action d = ScaleInRecommended)) then mret None else
  if negb (as_enabled autoscaler) then mret None else
  active_ec2 ← query active_ec2_nodes_count;
  if active_ec2 <=? as_min_nodes autoscaler then mret None else
  last_scale_in ← query latest_ec2_scale_in_at;
  if within_cooldown last_scale_in (as_scale_in_cooldown_seconds autoscaler) then mret None else
  let nk := Py.strip_opt (sd_node_key (fd_scale_down d)) in
  if negb (Py.truthy nk) then mret None else
  found ← node_by_key nk;
  match found with
  | None => mret None
  | Some (nid, n) =>
      if negb (ready_schedulable_ec2 n) then mret None else
      active ← query (λ db, active_workspace_count_for_scale_down db nid n);
      if negb (active =? 0) then mret None else
      if negb (Py.truthy (Py.strip_opt (node_provider_instance_id n))) then mret None else
      mark_node_draining None (Some nk) ;;
      commit ;;
      expire_all others ;;
      again ← node_by_key nk;
      match again with
      | None => mret None
      | Some (nid', n') =>
          active_after_drain ← query (λ db, active_workspace_count_for_scale_down db nid' n');
          if negb (active_after_drain =? 0) then
            undrain_node None (Some nk) ;;
            commit ;;
            mret None
          else
            out_ ← attempt (terminate_ec2_node None (Some nk) true);
            match out_ with
            | inl nid'' => commit ;; mret (Some nid'')
            | inr e => if is_ec2_provider_error e then commit ;; mret None else raise e
            end
      end
  end.

Definition reclaim_one_idle_ec2_node (others : Db → Db) : M W (option Z) :=
  if negb (as_enabled autoscaler) then mret None
  else
    d ← query evaluate_fleet_autoscaler_tick;
    if negb (bool_decide (fd_action d = ScaleInRecommended)) then mret None else execute_scale_down others d.

(** ** The loop's ticks *)

(** [except Exception: session.rollback(); raise] *)
Definition or_rollback {A} (m : M W A) : M W A := try_except m (λ e, rollback ;; raise e).

Definition run_autoscaler_loop_tick (others : Db → Db) : M W (FleetAction * option Z) :=
  or_rollback
    (dn ← run_scale_out_tick;
     let '(d, node) := dn : FleetAutoscalerDecision * option Z in
     reclaimed ← (if bool_decide (fd_action d = ScaleInRecommended) then execute_scale_down others d else mret None);
     commit ;;
     mret (fd_action d, match node with Some k => Some k | None => reclaimed end)).
Definition run_autoscaler_scale_down_tick (others : Db → Db) : M W (option Z) :=
  or_rollback (node ← reclaim_one_idle_ec2_node others; commit ;; mret node).
End actions.

(** ** The hook leaves jobs and statuses alone *)

Section hook.
Context {W : Type} {env : Env} {cloud : Ec2Cloud W} {uuids : Uuids W}.

Lemma quiet_world {A} (m : M W A) : (∀ s, st_db (m s).1 = st_db s ∧ st_committed (m s).1 = st_committed s) →
  db_within quiet m.
Proof. intros H s. destruct (H s) as [E1 E2]. unfold tracked. rewrite E1, E2. split; [reflexivity|by left]. Qed.
Lemma quiet_throttled {R} (call : W → W * (R + AwsError)) : db_within quiet (client_call_with_throttle_retry call).
Proof. apply quiet_world. intros s. unfold client_call_with_throttle_retry. by destruct (throttle_retry _ _ _). Qed.
Lemma quiet_new_uuid : db_within quiet (new_uuid : M W string).
Proof. apply quiet_world. intros s. unfold new_uuid. by destruct (uuid4_hex _). Qed.
#[local] Hint Resolve quiet_throttled quiet_new_uuid : quiet.

Lemma quiet_describe region iid : db_within quiet (describe_ec2_instance region iid).
Proof. unfold describe_ec2_instance, require_instance_id. solve_quiet. Qed.
Lemma quiet_capacity region ty : db_within quiet (ec2_instance_type_capacity region ty).
Proof. unfold ec2_instance_type_capacity. solve_quiet. Qed.
#[local] Hint Resolve quiet_describe quiet_capacity : quiet.
Lemma quiet_wait_running region iid ip : db_within quiet (wait_running region iid ip).
Proof.
  intros s. unfold wait_running. destruct (ec2_wait_running region iid (st_world s)) as [w [u|e]].
  - assert (H : db_within quiet (try_except (d ← describe_ec2_instance region iid;
                  mret (match de_private_ip d with Some a => Some a | None => ip end))
                (λ e, if is_ec2_provider_error e then mret ip else raise e))) by solve_quiet.
    exact (H (mkSt (st_db s) (st_committed s) w)).
  - split; [reflexivity|by left].
Qed.
#[local] Hint Resolve quiet_wait_running : quiet.
Lemma quiet_free_key b key : db_within quiet (when b (require_free_node_key key) : M W unit).
Proof. destruct b; unfold when, require_free_node_key, node_by_key; solve_quiet. Qed.
#[local] Hint Resolve quiet_free_key : quiet.
Lemma quiet_provision req wait : db_within quiet (provision_ec2_node req wait).
Proof.
  unfold provision_ec2_node, launch_instance. solve_quiet;
    try (apply quietly_within, quietly_on_db; intros db; by apply quiet_other).
Qed.
#[local] Hint Resolve quiet_provision : quiet.
Lemma quiet_provision_one d : db_within quiet (provision_one_from_fleet_decision d).
Proof.
  unfold provision_one_from_fleet_decision, build_autoscaler_ec2_provision_request, autoscaler_node_key. solve_quiet.
Qed.
#[local] Hint Resolve quiet_provision_one : quiet.
Lemma quiet_hook : db_within quiet (provision_on_no_schedulable_capacity ;; mret tt : M W unit).
Proof. unfold provision_on_no_schedulable_capacity. solve_quiet. Qed.
End hook.

(** The worker's [Autoscaler] as the source implements it. *)
#[export] Instance fleet_autoscaler {W : Type} {env : Env} {cloud : Ec2Cloud W} {uuids : Uuids W} : Autoscaler W :=
  {| maybe_provision_on_no_schedulable_capacity := provision_on_no_schedulable_capacity ;; mret tt;
     maybe_provision_quiet := quiet_hook |}.
