(* ===== verification/FleetSafety.v ===== *)
(** * FleetSafety: what the autoscaler may do to the fleet

    A scale-out tick launches only on demand, under its caps and cool-downs, and adds
    one unschedulable row; a scale-in terminates only a node that no live workspace is
    placed on, before the drain and after it, whatever other sessions commit in
    between. *)

From S2P Require Import Prelude Models Session Services Frames Capacity.
From S2P Require Import Scheduling NodeBootstrap Ec2Registry Ec2Cleanup NodeLifecycle NodeInvariants.
From S2P Require Import Ec2UserData Autoscaler.

(** ** Counting *)

Lemma filter_perm {A} (P : A → bool) (l l' : list A) : l ≡ₚ l' → List.filter P l ≡ₚ List.filter P l'.
Proof.
  induction 1 as [|x l l' _ IH|x y l|l1 l2 l3 _ IH1 _ IH2]; cbn [List.filter]; [done| | |by etrans].
  - case_match; [by constructor|done].
  - repeat case_match; try done. constructor.
Qed.
Lemma count_rows_insert {A} (P : Z * A → bool) (m : gmap Z A) k v : m !! k = None →
  count_rows P (<[k := v]> m) = count_rows P m + Z.b2z (P (k, v)).
Proof.
  intros Hk. unfold count_rows. rewrite (filter_perm P _ _ (map_to_list_insert m k v Hk)).
  cbn [List.filter]. destruct (P (k, v)); cbn [length Z.b2z]; lia.
Qed.
Lemma count_rows_zero {A} (P : Z * A → bool) (m : gmap Z A) :
  count_rows P m = 0 ↔ ∀ k v, m !! k = Some v → P (k, v) = false.
Proof.
  unfold count_rows. split.
  - intros H k v Hk. destruct (P (k, v)) eqn:E; [|done]. exfalso.
    assert (Hin : In (k, v) (List.filter P (map_to_list m))).
    { apply filter_In. split; [|done]. by apply list_elem_of_In, elem_of_map_to_list. }
    destruct (List.filter P (map_to_list m)); [done|simpl in H; lia].
  - intros H. destruct (List.filter P (map_to_list m)) as [|[k v] l] eqn:E; [done|exfalso].
    assert (Hin : In (k, v) (List.filter P (map_to_list m))) by (rewrite E; by left).
    apply filter_In in Hin as [Hin HP]. apply list_elem_of_In, elem_of_map_to_list in Hin.
    by rewrite (H _ _ Hin) in HP.
Qed.

(** ** Launching *)

Section launching.
Context {W : Type} {env : Env} {cloud : Ec2Cloud W} {uuids : Uuids W}.

(** A launched node's row: on its way, and not yet in the placement pool. *)
Record launched (n : ExecutionNode) : Prop := {
  la_provider : node_provider_type n = ExecutionNodeProviderType.EC2;
  la_status : node_status n = ExecutionNodeStatus.PROVISIONING;
  la_closed : node_schedulable n = false;
  la_capacity : node_max_workspaces n = DEFAULT_EXECUTION_NODE_MAX_WORKSPACES
}.
Definition one_launched (db : Db) (nid : Z) (db' : Db) : Prop :=
  nodes db !! nid = None ∧ ∃ n, launched n ∧ nodes db' = <[nid := n]> (nodes db).

Lemma wp_provision (req : option Ec2ProvisionRequest) wait (s : St W) :
  wp (provision_ec2_node req wait)
    (λ nid s', one_launched (st_db s) nid (st_db s') ∧ st_committed s' = st_committed s)
    (λ _ s', st_db s' = st_db s ∧ st_committed s' = st_committed s) s.
Proof.
  unfold provision_ec2_node.
  assert (HX : ∀ (e : Exn) s', world_only s s' → st_db s' = st_db s ∧ st_committed s' = st_committed s) by (by intros e s' []).
  apply (wp_world_bind _ _ _ _ s);
    [repeat case_match; first [apply within_raise, _|apply within_ret, _]|done|done|intros r s1 H1].
  case_match; [apply wp_raise; by destruct H1|].
  apply (wp_world_bind _ _ _ _ s); [apply within_when; [apply _|intros _; apply free_key_world]|done|done|intros [] s2 H2].
  apply (wp_world_bind _ _ _ _ s); [apply launch_world|done|done|intros [[inst iid] ip] s3 H3].
  apply (wp_world_bind _ _ _ _ s); [case_match; [apply wait_world|apply within_ret, _]|done|done|intros a s4 H4].
  apply (wp_world_bind _ _ _ _ s); [apply within_when; [apply _|intros _; apply free_key_world]|done|done|intros [] s5 H5].
  apply (wp_world_bind _ _ _ _ s); [apply touch_world_only|done|done|intros [] s6 H6].
  apply (wp_world_bind _ _ _ _ s); [apply capacity_world|done|done|intros [vcpu mem] s7 [E1 E2]].
  apply wp_bind, wp_query, wp_bind, wp_on_db, wp_ret. rewrite E1. split; [|exact E2].
  split; [apply fresh_key_fresh|]. eexists. split; [|cbn; by rewrite E1]. by split.
Qed.
End launching.

(** ** A scale-out tick *)

Section scale_out.
Context {W : Type} {env : Env} {cloud : Ec2Cloud W} {uuids : Uuids W}.

Lemma request_world : within world_only (build_autoscaler_ec2_provision_request : M W Ec2ProvisionRequest).
Proof.
  unfold build_autoscaler_ec2_provision_request, autoscaler_node_key.
  case_match; [|apply within_raise, _].
  apply within_bind; [apply _| |intros key; case_match; [apply within_ret, _|apply within_raise, _]].
  apply within_bind; [apply _| |intros u; apply within_ret, _].
  intros s. unfold new_uuid. by destruct (uuid4_hex _).
Qed.

(** What a decision lets the tick do; on failure the rows are as they were. *)
Lemma wp_provision_one d (s : St W) :
  wp (provision_one_from_fleet_decision d)
    (λ node s', st_committed s' = st_committed s ∧
       match node with
       | None => fd_action d ≠ ScaleOutRecommended ∧ s' = s
       | Some nid => fd_action d = ScaleOutRecommended ∧ one_launched (st_db s) nid (st_db s')
       end)
    (λ _ s', fd_action d = ScaleOutRecommended ∧ st_db s' = st_db s ∧ st_committed s' = st_committed s) s.
Proof.
  unfold provision_one_from_fleet_decision. case_bool_decide as Ha; cbn [negb]; [|by apply wp_ret].
  apply (wp_world_bind _ _ _ _ s); [apply request_world|done|by intros e s' []|intros req s1 [E1 E2]].
  apply wp_bind. eapply wp_mono; [apply wp_provision| |].
  - intros nid s2 [H2 H3]. apply wp_bind, wp_on_db, wp_ret. rewrite <- E1, <- E2. done.
  - intros e s2 []. split; [done|]. split; congruence.
Qed.

Lemma wp_sync_provisioning (s : St W) :
  wp sync_provisioning_ec2_nodes (λ _, tracked nodes_move s) (λ _ _, False) s.
Proof.
  unfold sync_provisioning_ec2_nodes. apply wp_bind, wp_query.
  apply (wp_for_each _ _ (tracked nodes_move s)); [reflexivity| |done].
  intros key s1 _ H1. apply wp_bind, wp_attempt.
  eapply wp_mono; [apply (keeps_within s); [|exact H1]| |].
  - apply moves_bind; [apply within_sync|intros; apply within_flush].
  - intros u s2 H2. by apply wp_ret.
  - intros e s2 H2. by apply wp_ret.
Qed.

(** *** What a recommendation means *)

Lemma action_out c1 c2 c3 c4 o i : fleet_action c1 c2 c3 c4 o i = ScaleOutRecommended →
  c1 = false ∧ c2 = false ∧ c3 = false ∧ c4 = false ∧ o = true.
Proof. unfold fleet_action. by destruct c1, c2, c3, c4, o, i. Qed.
Lemma action_in c1 c2 c3 c4 o i : fleet_action c1 c2 c3 c4 o i = ScaleInRecommended →
  c1 = false ∧ c2 = false ∧ c3 = false ∧ c4 = false ∧ o = false ∧ i = true.
Proof. unfold fleet_action. by destruct c1, c2, c3, c4, o, i. Qed.

(** Demand, permission, caps and cool-down of a launch. *)
Record may_launch (db : Db) : Prop := {
  ml_enabled : as_enabled autoscaler = true ∧ as_evaluate_only autoscaler = false;
  ml_provider : provider_allows_ec2_autoscale = true;
  ml_config : ec2_autoscaler_provisioning_config_errors = [];
  ml_demand : live_demand (build_fleet_capacity_snapshot db) db = true;
  ml_active : active_ec2_nodes_count db < as_max_nodes autoscaler;
  ml_provisioning : count_ec2_provisioning_nodes db < as_max_concurrent_provisioning autoscaler;
  ml_cooldown : within_cooldown (latest_ec2_created_at db) (as_scale_out_cooldown_seconds autoscaler) = false
}.

Lemma scale_out_decided db : fd_action (evaluate_fleet_autoscaler_tick db) = ScaleOutRecommended → may_launch db.
Proof.
  unfold evaluate_fleet_autoscaler_tick. cbv zeta. set (cap := build_fleet_capacity_snapshot db).
  destruct (scale_out_recommended cap db) eqn:Ho;
    [|destruct (match sd_node_key _ with Some _ => _ | None => _ end); cbn [fd_action];
      by intros (_ & _ & _ & _ & ?)%action_out].
  cbn [fd_action]. intros (H1 & H2 & H3 & H4 & _)%action_out.
  apply orb_false_iff in H1 as [[H1 Hp]%orb_false_iff Hc]. apply orb_false_iff in H2 as [Ha%Z.leb_gt Hq%Z.leb_gt].
  apply negb_false_iff in H1, Hp. rewrite H1, Hp in Hc. apply andb_true_iff in H1 as [He Hv%negb_true_iff].
  apply negb_false_iff, bool_decide_eq_true in Hc. apply andb_true_iff in Ho as [Hl _]. by split.
Qed.

Lemma one_launched_counts db nid db' : one_launched db nid db' →
  active_ec2_nodes_count db' = active_ec2_nodes_count db + 1 ∧
  count_ec2_provisioning_nodes db' = count_ec2_provisioning_nodes db + 1.
Proof.
  intros (Hf & n & [Hp Hs _ _] & E). unfold active_ec2_nodes_count, count_ec2_provisioning_nodes, count_nodes.
  rewrite E, !count_rows_insert by done. cbn [snd].
  assert (H : is_ec2 n = true) by (by apply bool_decide_eq_true_2).
  unfold active_ec2, ec2_in. by rewrite H, Hs.
Qed.

(** From the rows [db] the decision is taken on to the rows [db'] the tick ends with. *)
Definition launch_outcome (db db' : Db) (r : FleetAutoscalerDecision * option Z + Exn) : Prop :=
  match r with
  | inl (d, None) => d = evaluate_fleet_autoscaler_tick db ∧ fd_action d ≠ ScaleOutRecommended ∧ db' = db
  | inl (d, Some nid) =>
      d = evaluate_fleet_autoscaler_tick db ∧ may_launch db ∧ one_launched db nid db' ∧
      active_ec2_nodes_count db' ≤ as_max_nodes autoscaler ∧
      count_ec2_provisioning_nodes db' ≤ as_max_concurrent_provisioning autoscaler
  | inr _ => may_launch db ∧ db' = db
  end.

(** C28. A scale-out tick first reconciles the nodes on their way, which keeps the
    service states of the rows and cannot fail.  It then launches only if the
    autoscaler is enabled, may use EC2, is completely configured and there is live
    demand outside the cool-down; it adds exactly one row, PROVISIONING and not
    schedulable, and with it the fleet stays within max_nodes and the cap of
    concurrent launches.  When it does not launch, or the launch fails, no row is
    added, and in no case is anything committed that the reconciliation did not
    commit. *)
Theorem scale_out_stays_within_caps (s : St W) :
  let '(s', r) := run_scale_out_tick s in
  ∃ db, nodes_move (st_db s) db ∧
    (st_committed s' = st_committed s ∨ nodes_move (st_db s) (st_committed s')) ∧
    launch_outcome db (st_db s') r.
Proof.
  set (R (s' : St W) r := ∃ db, nodes_move (st_db s) db ∧
    (st_committed s' = st_committed s ∨ nodes_move (st_db s) (st_committed s')) ∧ launch_outcome db (st_db s') r).
  enough (H : wp run_scale_out_tick (λ r s', R s' (inl r)) (λ e s', R s' (inr e)) s).
  { unfold wp in H. by destruct (run_scale_out_tick s) as [s' [r|e]]. }
  unfold run_scale_out_tick, R. apply wp_bind. eapply wp_mono; [apply wp_sync_provisioning| |by intros].
  intros [] s1 [H1 Hc]. apply wp_bind, wp_query, wp_bind. eapply wp_mono; [apply wp_provision_one| |].
  - intros [nid|] s2 [Ec H2]; apply wp_ret; exists (st_db s1); rewrite Ec; split_and!; try done.
    + destruct H2 as [Ha%scale_out_decided H2]. cbn. destruct (one_launched_counts _ _ _ H2) as [-> ->].
      destruct Ha. split_and!; try done; lia.
    + cbn. destruct H2 as [Ha ->]. done.
  - intros e s2 (Ha & E1 & E2). exists (st_db s1). rewrite E2.
    split_and!; [done|done|]. split; [by apply scale_out_decided|done].
Qed.
End scale_out.

(** ** Scale-in *)

Section scale_in.
Context {W : Type} {env : Env} {cloud : Ec2Cloud W}.

(** No workspace that is not DELETED is placed on the node. *)
Definition unoccupied (db : Db) (nid : Z) (n : ExecutionNode) : Prop :=
  ∀ wid w, workspaces db !! wid = Some w → ws_status w ≠ WorkspaceStatus.DELETED →
    placed_on db nid (Py.strip (node_node_key n)) (wid, w) = false.
Lemma unoccupied_count db nid n : active_workspace_count_for_scale_down db nid n = 0 ↔ unoccupied db nid n.
Proof.
  unfold active_workspace_count_for_scale_down, unoccupied. rewrite count_rows_zero. cbn [fst snd].
  split; intros H wid w Hw; specialize (H wid w Hw); revert H; case_bool_decide as E; cbn [negb andb]; naive_solver.
Qed.

(** The node a scale-in may drain. *)
Record reclaim_target (d : FleetAutoscalerDecision) (db : Db) (nk : string) (nid : Z) (n : ExecutionNode) : Prop := {
  rt_decision : fd_action d = ScaleInRecommended ∧ nk = Py.strip_opt (sd_node_key (fd_scale_down d));
  rt_enabled : as_enabled autoscaler = true;
  rt_floor : as_min_nodes autoscaler < active_ec2_nodes_count db;
  rt_cooldown : within_cooldown (latest_ec2_scale_in_at db) (as_scale_in_cooldown_seconds autoscaler) = false;
  rt_row : find_node nk db = Some (nid, n);
  rt_in_pool : ready_schedulable_ec2 n = true;
  rt_unoccupied : unoccupied db nid n;
  rt_key : Py.truthy nk = true
}.

Lemma ready_ec2_status n : ready_schedulable_ec2 n = true →
  is_ec2 n = true ∧ node_status n = ExecutionNodeStatus.READY ∧ node_schedulable n = true.
Proof.
  unfold ready_schedulable_ec2, ec2_in. intros [[H1 H2%bool_decide_eq_true]%andb_true_iff H3]%andb_true_iff. done.
Qed.

(** The rows as the drain commits them. *)
Definition drained (nid : Z) (db : Db) : Db :=
  flush_db (flush_db (db <| nodes ::= alter (set_lifecycle ExecutionNodeStatus.DRAINING false) nid |>)).

Lemma wp_get_by_key nk nid n (Q : Z → St W → Prop) X s : Py.truthy nk = true → Py.strip nk = nk →
  find_node nk (st_db s) = Some (nid, n) → Q nid s → wp (get_node None (Some nk)) Q X s.
Proof.
  intros Ht Hs Hf HQ. unfold get_node. change (Py.strip_opt (Some nk)) with (Py.strip nk). rewrite Hs, Ht. cbn [negb].
  apply wp_bind, wp_query. rewrite Hf. by apply wp_ret.
Qed.
Lemma find_node_row nk db nid n : find_node nk db = Some (nid, n) → nodes db !! nid = Some n.
Proof. by intros [H _]%first_row_Some. Qed.

Lemma wp_drain nk nid n (Q : Z → St W → Prop) X s : Py.truthy nk = true → Py.strip nk = nk →
  find_node nk (st_db s) = Some (nid, n) → node_status n = ExecutionNodeStatus.READY →
  Q nid (s <| st_db ::= λ db, flush_db (db <| nodes ::= alter (set_lifecycle ExecutionNodeStatus.DRAINING false) nid |>) |>) →
  wp (mark_node_draining None (Some nk)) Q X s.
Proof.
  intros Ht Hs Hf Hr HQ. unfold mark_node_draining. apply wp_bind, (wp_get_by_key nk nid n); [done..|].
  apply wp_bind, (wp_row _ _ n); [by apply (find_node_row nk)|]. rewrite Hr. cbn [bool_decide andb].
  rewrite !bool_decide_eq_false_2 by done. cbn [andb].
  unfold update_node, set_node, flush. by apply wp_bind, wp_bind, wp_on_db, wp_on_db, wp_ret.
Qed.
Lemma wp_undrain nk nid n (Q : Z → St W → Prop) X s : Py.truthy nk = true → Py.strip nk = nk →
  find_node nk (st_db s) = Some (nid, n) → node_status n = ExecutionNodeStatus.DRAINING →
  Q nid (s <| st_db ::= λ db, flush_db (db <| nodes ::= alter (set_lifecycle ExecutionNodeStatus.READY true) nid |>) |>) →
  wp (undrain_node None (Some nk)) Q X s.
Proof.
  intros Ht Hs Hf Hr HQ. unfold undrain_node. apply wp_bind, (wp_get_by_key nk nid n); [done..|].
  apply wp_bind, (wp_row _ _ n); [by apply (find_node_row nk)|]. rewrite Hr.
  unfold update_node, set_node, flush. by apply wp_bind, wp_bind, wp_on_db, wp_on_db, wp_ret.
Qed.

(** *** Termination of a drained node *)

Definition withdrawn (sts : list execution_node_status) (nid : Z) (db : Db) : Prop :=
  ∃ m, nodes db !! nid = Some m ∧ node_schedulable m = false ∧ node_status m ∈ sts.
(** The cloud's answer to the request to terminate the instance of the row *)
Definition terminate_answer (n : ExecutionNode) (w : W) : W * (unit + AwsError) :=
  throttle_retry 5 (ec2_terminate_instances (client_region (node_region n)) (Py.strip_opt (node_provider_instance_id n))) w.
Definition on_their_way : list execution_node_status := [ExecutionNodeStatus.TERMINATING; ExecutionNodeStatus.TERMINATED].

Lemma wp_throttled {R} (call : W → W * (R + AwsError)) (Q : R + AwsError → St W → Prop) X s :
  (∀ r s', world_only s s' → throttle_retry 5 call (st_world s) = (st_world s', r) → Q r s') →
  wp (client_call_with_throttle_retry call) Q X s.
Proof. intros HQ. unfold wp, client_call_with_throttle_retry. destruct (throttle_retry _ _ _) eqn:E. by apply HQ. Qed.

Lemma wp_describe region iid (s : St W) :
  wp (describe_ec2_instance region iid) (λ _, world_only s)
    (λ e s', is_ec2_provider_error e = true ∧ world_only s s') s.
Proof.
  unfold describe_ec2_instance. apply wp_bind. unfold require_instance_id. case_match; [|by apply wp_raise].
  apply wp_ret, wp_bind, wp_throttled. intros r s1 H1 _.
  repeat case_match; first [by apply wp_raise|by apply wp_ret].
Qed.
Lemma wp_state_after region iid (s : St W) :
  wp (state_after_terminate region iid) (λ _, world_only s) (λ _ _, False) s.
Proof.
  unfold state_after_terminate. apply wp_try, wp_bind. eapply wp_mono; [apply wp_describe| |].
  - intros d s1 H1. by apply wp_ret.
  - intros e s1 [He H1]. by destruct e; try discriminate He; apply wp_ret.
Qed.
Lemma wp_update_node nid f n (Q : unit → St W → Prop) X (s : St W) : nodes (st_db s) !! nid = Some n →
  (∀ s', st_world s' = st_world s → nodes (st_db s') !! nid = Some (f n) → Q tt s') → wp (update_node nid f) Q X s.
Proof.
  intros Hn HQ. unfold update_node, set_node, flush. apply wp_bind, wp_on_db, wp_on_db, HQ; [done|].
  cbn. by rewrite lookup_alter_eq, Hn.
Qed.

Lemma wp_when_touch b f (Q : unit → St W → Prop) X (s : St W) :
  (∀ w, Q tt (s <| st_world := w |>)) → wp (when b (touch_world f)) Q X s.
Proof. intros HQ. destruct b; [exact (HQ (f (st_world s)))|]. specialize (HQ (st_world s)). by destruct s. Qed.

Lemma wp_terminate nk nid n (s : St W) : Py.truthy nk = true → Py.strip nk = nk →
  find_node nk (st_db s) = Some (nid, n) → is_ec2 n = true → node_status n = ExecutionNodeStatus.DRAINING →
  Py.truthy (Py.strip_opt (node_provider_instance_id n)) = true →
  wp (terminate_ec2_node None (Some nk) true)
    (λ k s', k = nid ∧ withdrawn on_their_way nid (st_db s') ∧ ∃ w', terminate_answer n (st_world s) = (w', inl tt))
    (λ e s', is_ec2_provider_error e = true ∧ withdrawn [ExecutionNodeStatus.ERROR] nid (st_db s') ∧
       ∃ e', terminate_answer n (st_world s) = (st_world s', inr e')) s.
Proof.
  intros Ht Hs Hf He%bool_decide_eq_true Hst Hi. pose proof (find_node_row _ _ _ _ Hf) as Hn.
  unfold terminate_ec2_node. apply wp_bind, (wp_get_by_key nk nid n); [done..|].
  apply wp_bind, (wp_row _ _ n); [done|]. unfold assert_ec2_node. rewrite (bool_decide_eq_true_2 _ He).
  apply wp_bind, wp_ret. rewrite Hst. rewrite bool_decide_eq_false_2 by done.
  unfold instance_of_node. rewrite Hi. apply wp_bind, wp_ret.
  rewrite bool_decide_eq_false_2 by done. cbn [negb when].
  apply wp_bind, (wp_update_node _ _ n); [done|]. intros s1 Ew H1.
  apply wp_bind, wp_throttled. rewrite Ew. fold (terminate_answer n (st_world s)).
  intros [[]|e] s2 [E2 _] Hans; rewrite <- E2 in H1; clear E2.
  - apply wp_bind, wp_modify, wp_bind. eapply wp_mono; [apply wp_state_after| |by intros].
    intros st s3 [E3 _]. cbn in E3. rewrite <- E3 in H1.
    apply wp_bind, (wp_update_node _ _ _ _ _ _ H1). intros s4 _ H4.
    assert (HL : withdrawn on_their_way nid (st_db s4)).
    { eexists. split; [exact H4|]. cbn. split; [done|]. unfold on_their_way. destruct (gone_state st); set_solver. }
    apply wp_bind, wp_when_touch. intros w. apply wp_ret. split; [done|]. split; [exact HL|by eexists].
  - apply wp_bind, (wp_update_node _ _ _ _ _ _ H1). intros s4 E4 H4. apply wp_raise. split; [done|]. split.
    + eexists. split; [exact H4|]. cbn. split; [done|set_solver].
    + exists e. by rewrite E4.
Qed.

(** *** The whole scale-in *)

Definition ready_again (nid : Z) (db : Db) : Prop :=
  ∃ m, nodes db !! nid = Some m ∧ node_status m = ExecutionNodeStatus.READY ∧ node_schedulable m = true.

(** After the drain of a reclaim target was committed and [db] read again: what
    happens to its node, given the state [s'] and the result [r]. *)
Definition after_drain (nk : string) (db : Db) (w : W) (s' : St W) (r : option Z + Exn) : Prop :=
  match find_node nk db with
  | None => r = inl None ∧ st_world s' = w
  | Some (nid, n) =>
      (¬ unoccupied db nid n → st_world s' = w) ∧
      (node_status n = ExecutionNodeStatus.DRAINING →
         (¬ unoccupied db nid n → r = inl None ∧ ready_again nid (st_committed s')) ∧
         (unoccupied db nid n → is_ec2 n = true → Py.truthy (Py.strip_opt (node_provider_instance_id n)) = true →
            match terminate_answer n w with
            | (_, inl _) => r = inl (Some nid) ∧ withdrawn on_their_way nid (st_committed s')
            | (w', inr _) => r = inl None ∧ withdrawn [ExecutionNodeStatus.ERROR] nid (st_committed s') ∧ st_world s' = w'
            end))
  end.
Definition scale_in_outcome (others : Db → Db) (d : FleetAutoscalerDecision) (s s' : St W) (r : option Z + Exn) : Prop :=
  s' = s ∧ r = inl None ∨
  ∃ nk nid n, reclaim_target d (st_db s) nk nid n ∧ after_drain nk (others (drained nid (st_db s))) (st_world s) s' r.

Lemma undrain_world nk : within (λ s s' : St W, st_world s' = st_world s) (undrain_node None (Some nk)).
Proof.
  assert (PreOrder (λ s s' : St W, st_world s' = st_world s)) by (split; [by intros s|intros a b c; congruence]).
  unfold undrain_node, get_node, node_by_key, row, update_node, set_node, flush, on_db.
  repeat first [ apply within_bind; [apply _| |intros ?] | apply within_ret; apply _ | apply within_raise; apply _
               | apply within_gets; apply _ | apply within_modify; [apply _|]; by intros | case_match | by intros ? ].
Qed.

Lemma wp_after_drain nk db w (s1 : St W) : Py.truthy nk = true → Py.strip nk = nk →
  st_db s1 = db → st_world s1 = w →
  wp (again ← node_by_key nk;
      match again with
      | None => mret None
      | Some (nid', n') =>
          active_after_drain ← query (λ db, active_workspace_count_for_scale_down db nid' n');
          if negb (active_after_drain =? 0) then undrain_node None (Some nk) ;; commit ;; mret None
          else
            out_ ← attempt (terminate_ec2_node None (Some nk) true);
            match out_ with
            | inl nid'' => commit ;; mret (Some nid'')
            | inr e => if is_ec2_provider_error e then commit ;; mret None else raise e
            end
      end)
    (λ a s', after_drain nk db w s' (inl a)) (λ e s', after_drain nk db w s' (inr e)) s1.
Proof.
  intros Ht Hs Hdb Hw. unfold after_drain.
  apply wp_bind, wp_query. rewrite Hdb. destruct (find_node nk db) as [[nid n]|] eqn:Hf; [|by apply wp_ret].
  apply wp_bind, wp_query. rewrite Hdb. pose proof (unoccupied_count db nid n) as Hu.
  destruct (Z.eqb_spec (active_workspace_count_for_scale_down db nid n) 0) as [E|E]; cbn [negb].
  - apply Hu in E. destruct (decide (node_status n = ExecutionNodeStatus.DRAINING ∧ is_ec2 n = true ∧
      Py.truthy (Py.strip_opt (node_provider_instance_id n)) = true)) as [(Hst & He & Hi)|Hno].
    + apply wp_bind, wp_attempt. eapply wp_mono; [apply (wp_terminate nk nid n); by rewrite ?Hdb| |].
      * intros k s2 (-> & HL & w' & Ha). rewrite Hw in Ha. apply wp_bind, wp_bind, wp_on_db, wp_modify, wp_ret. split; [by intros []|intros _].
        split; [by intros []|intros _ _ _]. rewrite Ha. split; [done|exact HL].
      * intros e s2 (He' & HL & e' & Ha). rewrite Hw in Ha. rewrite He'. apply wp_bind, wp_bind, wp_on_db, wp_modify, wp_ret.
        split; [by intros []|intros _]. split; [by intros []|intros _ _ _]. rewrite Ha. split; [done|]. split; [exact HL|done].
    + apply wp_any; intros; (split; [by intros []|]); intros Hst; (split; [by intros []|]); intros; by destruct Hno.
  - assert (Hn : ¬ unoccupied db nid n) by (by rewrite <- Hu).
    destruct (decide (node_status n = ExecutionNodeStatus.DRAINING)) as [Hst|Hst].
    + apply wp_bind, (wp_undrain nk nid n); [by rewrite ?Hdb..|]. apply wp_bind, wp_bind, wp_on_db, wp_modify, wp_ret.
      split; [done|intros _]. split; [intros _; split; [done|]|done].
      exists (set_lifecycle ExecutionNodeStatus.READY true n). split; [|by split]. cbn.
      by rewrite lookup_alter_eq, Hdb, (find_node_row _ _ _ _ Hf).
    + apply wp_bind. pose proof (undrain_world nk s1) as Hu'. unfold wp at 1.
      destruct (undrain_node None (Some nk) s1) as [s2 [a|e]]; cbn in Hu'; [apply wp_bind, wp_bind, wp_on_db, wp_modify, wp_ret|];
        (split; [intros _; by rewrite <- Hw|done]).
Qed.

(** C29. A scale-in is refused with nothing changed, or it drains a node that is a
    READY, schedulable EC2 node no live workspace is placed on, above the floor of the
    fleet and outside the cool-down, commits that, and reads the rows again, whatever
    other sessions committed in between.  If a live workspace is placed on the node
    now, nothing is asked of the cloud, and a row still DRAINING is back in the pool,
    committed; otherwise, for a row still DRAINING that names an instance, the cloud is
    asked to terminate that instance: with its consent the node is committed as
    TERMINATING or TERMINATED and its id returned, and with its refusal as ERROR, out of
    service either way. *)
Theorem scale_in_spares_workspaces (others : Db → Db) (d : FleetAutoscalerDecision) (s : St W) :
  let '(s', r) := execute_scale_down others d s in scale_in_outcome others d s s' r.
Proof.
  enough (H : wp (execute_scale_down others d) (λ a s', scale_in_outcome others d s s' (inl a))
    (λ e s', scale_in_outcome others d s s' (inr e)) s).
  { unfold wp in H. by destruct (execute_scale_down others d s) as [s' [a|e]]. }
  assert (Hno : scale_in_outcome others d s s (inl None)) by (by left).
  unfold execute_scale_down. case_bool_decide as Ha; cbn [negb]; [|by apply wp_ret].
  destruct (as_enabled autoscaler) eqn:He; cbn [negb]; [|by apply wp_ret].
  apply wp_bind, wp_query. destruct (Z.leb_spec (active_ec2_nodes_count (st_db s)) (as_min_nodes autoscaler)) as [|Hm]; [by apply wp_ret|].
  apply wp_bind, wp_query. destruct (within_cooldown _ _) eqn:Hc; [by apply wp_ret|].
  set (nk := Py.strip_opt _). destruct (Py.truthy nk) eqn:Ht; cbn [negb]; [|by apply wp_ret].
  apply wp_bind, wp_query. destruct (find_node nk (st_db s)) as [[nid n]|] eqn:Hf; [|by apply wp_ret].
  destruct (ready_schedulable_ec2 n) eqn:Hr; cbn [negb]; [|by apply wp_ret].
  apply wp_bind, wp_query. destruct (Z.eqb_spec (active_workspace_count_for_scale_down (st_db s) nid n) 0) as [Hu|]; cbn [negb]; [|by apply wp_ret].
  apply unoccupied_count in Hu. case_match; [by apply wp_ret|].
  assert (Hs : Py.strip nk = nk) by apply Py.strip_idem.
  apply wp_bind, (wp_drain nk nid n); [done..|by apply ready_ec2_status|].
  apply wp_bind, wp_bind, wp_on_db, wp_modify, wp_bind, wp_modify.
  eapply wp_mono; [apply (wp_after_drain nk (others (drained nid (st_db s))) (st_world s)); done| |];
    intros a s' H'; right; exists nk, nid, n; split; done.
Qed.
End scale_in.
