(* ===== verification/Cleanup.v ===== *)
(** * Cleanup: durable cleanup tasks

    [src/backend/app/services/cleanup_service/service.py].  A task records that a
    workspace's container, topology attachment and address lease may still exist
    and must be released; it is retried until the orchestrator's stop succeeds.
    The JSON of [detail] is its record; the cut at 8192 characters is not
    modelled. *)

From S2P Require Import Prelude Models Session Services Frames Placement.

Definition CLEANUP_SCOPE_BRINGUP_ROLLBACK : string := "bringup_rollback".
Definition CLEANUP_SCOPE_STOP_INCOMPLETE : string := "stop_incomplete".

Definition empty_detail : CleanupDetail := mkCleanupDetail None None None None None.

(** [task.workspace_id == wid AND task.status == 'PENDING'] *)
Definition pending_cleanup (wid : Z) (kc : Z * WorkspaceCleanupTask) : bool :=
  bool_decide (ct_workspace_id kc.2 = wid) &&
  bool_decide (ct_status kc.2 = WorkspaceCleanupTaskStatus.PENDING).

Definition pending_task_ids (wid : Z) (db : Db) : list Z :=
  (List.filter (pending_cleanup wid) (map_to_list (cleanup_tasks db))).*1.

(** The task of this workspace and scope (a UNIQUE pair). *)
Definition find_task (wid : Z) (scope : string) (db : Db) : option (Z * WorkspaceCleanupTask) :=
  first_row (λ kc, ct_workspace_id kc.2 = wid ∧ ct_scope kc.2 = scope) (cleanup_tasks db).

Section cleanup.
Context {W : Type} {env : Env}.

Definition ensure_durable_cleanup_task (wid : Z) (scope : string) (detail : option (list string))
    : M W unit :=
  let detail_str := match detail with
                    | Some (i :: l) => Some (empty_detail <| cd_issues := Some (i :: l) |>)
                    | _ => None
                    end in
  found ← query (find_task wid scope);
  match found with
  | None =>
      on_db (λ db, db <| cleanup_tasks ::= <[fresh_key (cleanup_tasks db) :=
        mkWorkspaceCleanupTask wid scope detail_str WorkspaceCleanupTaskStatus.PENDING 0 env_now]> |>)
  | Some (cid, task) =>
      when (negb (bool_decide (ct_status task = WorkspaceCleanupTaskStatus.SUCCEEDED)))
        (set_task cid (λ c,
           c <| ct_detail := match detail_str with Some d => Some d | None => ct_detail c end |>
             <| ct_status := WorkspaceCleanupTaskStatus.PENDING |>
             <| ct_updated_at := env_now |>))
  end.

(** One pass of the loop of [process_durable_cleanup_tasks_for_workspace]; the
    result is what [succeeded] grows by. *)
Definition process_cleanup_task (orch : Orchestrator W) (wid : Z) (container_id : option string)
    (cid : Z) : M W Z :=
  set_task cid (λ c, c <| ct_attempts ::= Z.add 1 |> <| ct_updated_at := env_now |>) ;;
  flush ;;
  res ← attempt (call (oc_stop orch wid container_id true));
  match res with
  | inr e =>
      set_task cid (λ c,
        c <| ct_detail := Some (empty_detail <| cd_error := Some (exn_str e) |>
                                             <| cd_attempt := Some (ct_attempts c) |>) |>
          <| ct_updated_at := env_now |>) ;;
      mret 0
  | inl r =>
      if sr_success r then
        set_task cid (λ c, c <| ct_status := WorkspaceCleanupTaskStatus.SUCCEEDED |>
                             <| ct_updated_at := env_now |>) ;;
        set_rt wid (λ r,
          if bool_decide (rt_health_status r = WorkspaceRuntimeHealthStatus.CLEANUP_REQUIRED)
          then r <| rt_health_status := WorkspaceRuntimeHealthStatus.UNKNOWN |>
                 <| rt_updated_at := env_now |>
          else r) ;;
        mret 1
      else
        set_task cid (λ c,
          c <| ct_detail := Some (empty_detail <| cd_issues := Some (default [] (sr_issues r)) |>
                                               <| cd_attempt := Some (ct_attempts c) |>) |>
            <| ct_updated_at := env_now |>) ;;
        mret 0
  end.

Fixpoint process_cleanup_tasks (orch : Orchestrator W) (wid : Z) (container_id : option string)
    (cids : list Z) : M W Z :=
  match cids with
  | [] => mret 0
  | cid :: rest =>
      n ← process_cleanup_task orch wid container_id cid;
      m ← process_cleanup_tasks orch wid container_id rest;
      mret (n + m)
  end.

Definition process_durable_cleanup_tasks_for_workspace (orch : Orchestrator W) (wid : Z) : M W Z :=
  tasks ← query (pending_task_ids wid);
  if bool_decide (tasks = []) then mret 0 else
  rt ← runtime_row wid;
  if negb (runtime_placement_row_complete rt) then mret 0 else
  process_cleanup_tasks orch wid (Py.strip_or_none (rt ≫= rt_container_id)) tasks.

(** [_merge_cleanup_deferred_note] on one task; [error] is its [extra]. *)
Definition merge_deferred_note (reason : string) (wid : Z) (error : option string)
    (c : WorkspaceCleanupTask) : WorkspaceCleanupTask :=
  let payload := default empty_detail (ct_detail c) in
  if bool_decide (cd_deferred_reason payload = Some reason) &&
     (default 0 (cd_deferred_workspace_id payload) =? wid)
  then c
  else c <| ct_detail := Some (payload <| cd_deferred_reason := Some reason |>
                                       <| cd_deferred_workspace_id := Some wid |>
                                       <| cd_error ::= λ old, match error with Some e => Some e | None => old end |>) |>
         <| ct_updated_at := env_now |>.

Definition merge_cleanup_deferred_note (cids : list Z) (reason : string) (wid : Z)
    (error : option string) : M W unit :=
  for_each cids (λ cid, set_task cid (merge_deferred_note reason wid error)).

(** [SELECT DISTINCT workspace_id .. WHERE status = 'PENDING' LIMIT n] *)
Definition workspaces_with_pending_cleanup (limit : Z) (db : Db) : list Z :=
  take (Z.to_nat (Z.max 1 limit))
    (remove_dups ((λ kc : Z * WorkspaceCleanupTask, ct_workspace_id kc.2) <$>
       List.filter (λ kc : Z * WorkspaceCleanupTask,
           bool_decide (ct_status kc.2 = WorkspaceCleanupTaskStatus.PENDING))
         (map_to_list (cleanup_tasks db)))).

Context {source : OrchestratorSource W}.

(** The body of the loop of [drain_pending_cleanup_tasks]. *)
Definition drain_workspace (wid : Z) : M W Z :=
  ws ← query (λ db, workspaces db !! wid);
  match ws with
  | None => mret 0
  | Some _ =>
      tasks ← query (pending_task_ids wid);
      if bool_decide (tasks = []) then mret 0 else
      rt ← runtime_row wid;
      match rt with
      | Some r =>
          if runtime_placement_row_complete rt then
            built ← attempt (build_default_orchestrator (Py.strip_opt (rt_node_id r))
                              (default 0 (rt_topology_id r)));
            match built with
            | inr e =>
                merge_cleanup_deferred_note tasks "orchestrator_binding_failed" wid
                  (Some (Py.prefix_to 500 (exn_str e))) ;;
                mret 0
            | inl orch => process_durable_cleanup_tasks_for_workspace orch wid
            end
          else
            merge_cleanup_deferred_note tasks "runtime_placement_incomplete" wid None ;; mret 0
      | None =>
          merge_cleanup_deferred_note tasks "runtime_placement_incomplete" wid None ;; mret 0
      end
  end.

Fixpoint drain_workspaces (wids : list Z) : M W Z :=
  match wids with
  | [] => mret 0
  | wid :: rest =>
      n ← drain_workspace wid;
      m ← drain_workspaces rest;
      mret (n + m)
  end.

Definition drain_pending_cleanup_tasks (limit_workspaces : Z) : M W Z :=
  wids ← query (workspaces_with_pending_cleanup limit_workspaces);
  drain_workspaces wids.
End cleanup.

(** ** Properties *)

Section properties.
Context {W : Type} {env : Env}.
Implicit Types s : St W.

Definition task_succeeded (db : Db) (cid : Z) : bool :=
  bool_decide (ct_status <$> cleanup_tasks db !! cid = Some WorkspaceCleanupTaskStatus.SUCCEEDED).
Definition succeeded_count (db : Db) (cids : list Z) : Z :=
  Z.of_nat (length (List.filter (task_succeeded db) cids)).

(** One attempt at a task: counted, and either SUCCEEDED or left as it was with
    the attempt in its note. *)
Definition task_attempted (c c' : WorkspaceCleanupTask) : Prop :=
  ct_workspace_id c' = ct_workspace_id c ∧ ct_scope c' = ct_scope c ∧
  ct_attempts c' = ct_attempts c + 1 ∧
  (ct_status c' = WorkspaceCleanupTaskStatus.SUCCEEDED ∨
   ct_status c' = ct_status c ∧
   ∃ d, ct_detail c' = Some d ∧ cd_attempt d = Some (ct_attempts c')).

(** What the cleanup leaves alone. *)
Definition cleanup_frame (db db' : Db) : Prop :=
  workspaces db' = workspaces db ∧ jobs db' = jobs db ∧ snapshots db' = snapshots db ∧
  sessions db' = sessions db ∧ nodes db' = nodes db ∧ configs db' = configs db ∧
  events db' = events db ∧ audit_logs db' = audit_logs db ∧ usage_records db' = usage_records db.

#[local] Instance cleanup_frame_trans : Transitive cleanup_frame.
Proof. unfold cleanup_frame. intros ???. intuition congruence. Qed.

Lemma wp_process_task orch wid cont cid c s (X : Exn → St W → Prop) :
  cleanup_tasks (st_db s) !! cid = Some c → ct_status c = WorkspaceCleanupTaskStatus.PENDING →
  wp (process_cleanup_task orch wid cont cid)
    (λ n s', cleanup_frame (st_db s) (st_db s') ∧
       (∀ k, k ≠ cid → cleanup_tasks (st_db s') !! k = cleanup_tasks (st_db s) !! k) ∧
       (∃ c', cleanup_tasks (st_db s') !! cid = Some c' ∧ task_attempted c c') ∧
       n = (if task_succeeded (st_db s') cid then 1 else 0)) X s.
Proof.
  intros Hc Hp. unfold process_cleanup_task. wp_db. apply wp_call. intros w b r.
  set (f := λ c : WorkspaceCleanupTask, _).
  assert (Htasks : ∀ g : WorkspaceCleanupTask → WorkspaceCleanupTask, ∀ k,
     alter g cid (alter f cid (cleanup_tasks (st_db s))) !! k =
     if decide (k = cid) then Some (g (f c)) else cleanup_tasks (st_db s) !! k).
  { intros g k. destruct (decide (k = cid)) as [->|];
      [by rewrite !alter_lookup_same, Hc|by rewrite !alter_lookup_other by done]. }
  destruct r as [r|e]; wp_db; [destruct (sr_success r)|]; wp_db.
  all: split_and!; [destruct b; repeat split|intros k Hk; destruct b; cbn; rewrite Htasks, decide_False; done| |].
  all: unfold task_succeeded; try (eexists; split; [destruct b; cbn; rewrite Htasks, decide_True by done; done|]).
  all: try (destruct b; cbn; rewrite Htasks, decide_True by done; cbn; by rewrite ?Hp).
  all: repeat split; cbn; try lia; eauto 10.
Qed.

Lemma elem_of_pending_task_ids wid db cid :
  cid ∈ pending_task_ids wid db ↔
  ∃ c, cleanup_tasks db !! cid = Some c ∧ ct_workspace_id c = wid ∧
       ct_status c = WorkspaceCleanupTaskStatus.PENDING.
Proof.
  unfold pending_task_ids. rewrite list_elem_of_fmap. split.
  - intros [[k c] [-> H]]. rewrite list_elem_of_In, List.filter_In, <- list_elem_of_In in H.
    destruct H as [H1 H2]. apply elem_of_map_to_list in H1. unfold pending_cleanup in H2.
    rewrite andb_true_iff, !bool_decide_eq_true in H2. destruct H2. eauto.
  - intros (c & H1 & H2 & H3). exists (cid, c). split; [done|].
    rewrite list_elem_of_In, List.filter_In, <- list_elem_of_In, elem_of_map_to_list.
    unfold pending_cleanup. rewrite andb_true_iff, !bool_decide_eq_true. done.
Qed.

Lemma NoDup_pending_task_ids wid db : NoDup (pending_task_ids wid db).
Proof.
  unfold pending_task_ids.
  assert (Hsub : (List.filter (pending_cleanup wid) (map_to_list (cleanup_tasks db))).*1
            `sublist_of` (map_to_list (cleanup_tasks db)).*1).
  2:{ refine (sublist_NoDup _ _ _ Hsub). apply NoDup_fst_map_to_list. }
  induction (map_to_list (cleanup_tasks db)) as [|kc l IH]; [done|]. cbn.
    destruct (pending_cleanup wid kc); cbn; by constructor.
Qed.

Lemma wp_process_tasks orch wid cont cids s (X : Exn → St W → Prop) :
  NoDup cids →
  (∀ k, k ∈ cids → ∃ c, cleanup_tasks (st_db s) !! k = Some c ∧
                        ct_status c = WorkspaceCleanupTaskStatus.PENDING) →
  wp (process_cleanup_tasks orch wid cont cids)
    (λ n s', cleanup_frame (st_db s) (st_db s') ∧
       (∀ k, k ∉ cids → cleanup_tasks (st_db s') !! k = cleanup_tasks (st_db s) !! k) ∧
       (∀ k c, k ∈ cids → cleanup_tasks (st_db s) !! k = Some c →
          ∃ c', cleanup_tasks (st_db s') !! k = Some c' ∧ task_attempted c c') ∧
       n = succeeded_count (st_db s') cids) X s.
Proof.
  revert s. induction cids as [|cid cids IH]; intros s Hnd Hin; cbn [process_cleanup_tasks].
  { apply wp_ret. split_and!; [by repeat split|done|by intros ?? []%not_elem_of_nil|done]. }
  apply NoDup_cons in Hnd as [Hni Hnd].
  destruct (Hin cid ltac:(left)) as (c & Hc & Hp).
  apply wp_bind. eapply wp_mono; [by eapply wp_process_task| |intros e s' H; exact H].
  intros n s1 (Hf1 & Ho1 & Ht1 & ->). cbn beta. apply wp_bind.
  eapply wp_mono; [apply IH| |intros e s' H; exact H]; [done| |].
  { intros k Hk. destruct (Hin k ltac:(by right)) as (c' & Hc' & Hp').
    exists c'. rewrite Ho1; [done|]. by intros ->. }
  intros m s2 (Hf2 & Ho2 & Ht2 & ->). apply wp_ret. split_and!.
  - by etrans.
  - intros k Hk. rewrite not_elem_of_cons in Hk. destruct Hk. by rewrite Ho2, Ho1.
  - intros k c0 [->|Hk]%elem_of_cons Hc0.
    + rewrite Ho2 by done. simplify_eq. done.
    + apply (Ht2 k c0 Hk). rewrite Ho1; [done|]. by intros ->.
  - unfold succeeded_count. cbn.
    assert (task_succeeded (st_db s1) cid = task_succeeded (st_db s2) cid) as ->.
    { unfold task_succeeded. by rewrite Ho2. }
    destruct (task_succeeded (st_db s2) cid); cbn [length]; lia.
Qed.

(** Cleanup debt is paid honestly: whatever the orchestrator does, raising
    included, processing never raises; each pending task of the workspace is
    attempted exactly once when the runtime's placement is known (and not at all
    otherwise), with its attempt counted and its failure noted; every other row
    is untouched; and the number returned is the number of those tasks that are
    now SUCCEEDED. *)
Lemma process_cleanup_attempts_each_task_once (orch : Orchestrator W) wid s :
  let '(s', res) := process_durable_cleanup_tasks_for_workspace orch wid s in
  let complete := runtime_placement_row_complete (runtimes (st_db s) !! wid) in
  ∃ n, res = inl n ∧ cleanup_frame (st_db s) (st_db s') ∧
  (∀ cid c, cleanup_tasks (st_db s) !! cid = Some c →
    if complete && pending_cleanup wid (cid, c)
    then ∃ c', cleanup_tasks (st_db s') !! cid = Some c' ∧ task_attempted c c'
    else cleanup_tasks (st_db s') !! cid = Some c) ∧
  n = (if complete then succeeded_count (st_db s') (pending_task_ids wid (st_db s)) else 0).
Proof.
  set (complete := runtime_placement_row_complete (runtimes (st_db s) !! wid)).
  destruct (process_durable_cleanup_tasks_for_workspace orch wid s) as [s' res] eqn:E.
  enough (H : wp (process_durable_cleanup_tasks_for_workspace orch wid) (λ n s',
    cleanup_frame (st_db s) (st_db s') ∧
    (∀ cid c, cleanup_tasks (st_db s) !! cid = Some c →
      if complete && pending_cleanup wid (cid, c)
      then ∃ c', cleanup_tasks (st_db s') !! cid = Some c' ∧ task_attempted c c'
      else cleanup_tasks (st_db s') !! cid = Some c) ∧
    n = (if complete then succeeded_count (st_db s') (pending_task_ids wid (st_db s)) else 0))
    (λ _ _, False) s).
  { pose proof (wp_run _ _ _ _ _ _ E H). destruct res as [n|]; [by exists n|done]. }
  assert (Hiff : ∀ cid c, cleanup_tasks (st_db s) !! cid = Some c →
            (cid ∈ pending_task_ids wid (st_db s) ↔ pending_cleanup wid (cid, c) = true)).
  { intros cid c Hc. rewrite elem_of_pending_task_ids. unfold pending_cleanup.
    rewrite andb_true_iff, !bool_decide_eq_true. cbn. split; [|by intros []; eauto].
    intros (c' & Hc' & ? & ?). by simplify_eq. }
  unfold process_durable_cleanup_tasks_for_workspace. wp_db. case_bool_decide as Hnil.
  { apply wp_ret. rewrite Hnil. split_and!; [by repeat split| |by destruct complete].
    intros cid c Hc. replace (pending_cleanup wid (cid, c)) with false; [by destruct complete|].
    symmetry. apply not_true_iff_false. rewrite <- Hiff, Hnil by done. apply not_elem_of_nil. }
  wp_db. fold complete. destruct complete; cbn [negb andb].
  2:{ apply wp_ret. split_and!; [by repeat split|done|done]. }
  eapply wp_mono; [apply (wp_process_tasks _ _ _ _ _ (λ _ _, False))| |by intros].
  { apply NoDup_pending_task_ids. }
  { intros k (c & ? & ? & ?)%elem_of_pending_task_ids. eauto. }
  intros n s2 (Hf & Ho & Ht & ->). split_and!; [done| |done].
  intros cid c Hc. destruct (pending_cleanup wid (cid, c)) eqn:Ep.
  - apply Ht; [by apply (Hiff cid c)|done].
  - rewrite Ho; [done|]. rewrite (Hiff cid c) by done. by rewrite Ep.
Qed.

(** Once a task of a workspace and scope has SUCCEEDED, a later request to
    make its cleanup durable again records nothing at all, so that debt is never
    retried, although the function promises to "insert or refresh" a task. *)
Lemma ensure_cleanup_ignored_after_success s wid scope detail cid task
    (Hfound : find_task wid scope (st_db s) = Some (cid, task))
    (Hdone : ct_status task = WorkspaceCleanupTaskStatus.SUCCEEDED) :
  ensure_durable_cleanup_task wid scope detail s = (s, inl tt).
Proof.
  unfold ensure_durable_cleanup_task. cbv [mbind eff_bind query gets]. rewrite Hfound.
  rewrite bool_decide_true by done. done.
Qed.

(** In every other case a PENDING task of that workspace and scope exists
    afterwards, no other task changes, and it carries the reported issues. *)
Lemma ensure_cleanup_makes_pending s wid scope detail
    (Hopen : ∀ cid task, find_task wid scope (st_db s) = Some (cid, task) →
               ct_status task ≠ WorkspaceCleanupTaskStatus.SUCCEEDED) :
  let '(s', res) := ensure_durable_cleanup_task wid scope detail s in
  res = inl tt ∧
  ∃ cid c, cleanup_tasks (st_db s') !! cid = Some c ∧ ct_workspace_id c = wid ∧
    ct_scope c = scope ∧ ct_status c = WorkspaceCleanupTaskStatus.PENDING ∧
    (∀ i l, detail = Some (i :: l) → ct_detail c = Some (empty_detail <| cd_issues := detail |>)) ∧
    ∀ k, k ≠ cid → cleanup_tasks (st_db s') !! k = cleanup_tasks (st_db s) !! k.
Proof.
  unfold ensure_durable_cleanup_task, when, set_task.
  cbv [mbind eff_bind query gets on_db modify mret eff_ret].
  destruct (find_task wid scope (st_db s)) as [[cid task]|] eqn:E.
  - rewrite bool_decide_false by (by eapply Hopen). cbn. split; [done|].
    apply first_row_Some in E as [Hc [H1 H2]].
    eexists cid, _. cbn. rewrite alter_lookup_same, Hc. split; [done|].
    split_and!; [done|done|done| |]; [by intros i l ->|]. intros k Hk. by rewrite alter_lookup_other.
  - cbn. split; [done|]. eexists _, _. rewrite lookup_insert_eq. split; [done|].
    split_and!; [done|done|done| |]; [by intros i l ->|]. intros k Hk. by rewrite lookup_insert_ne.
Qed.
End properties.
