(* ===== verification/Quota.v ===== *)
(** * Quota: quota resolution and enforcement

    [src/backend/app/services/quota_service/service.py].  A check counts the
    owner's usage, and on excess records and commits a QUOTA_EXCEEDED audit row
    before it raises.  Amounts in the error and the audit reason are in the
    model's units (nano-cores, seconds) and unrounded. *)

From S2P Require Import Prelude Models Session.

(** [_ACTIVE_WS_STATUSES] *)
Definition counts_as_active (st : workspace_status) : bool :=
  match st with
  | WorkspaceStatus.CREATING | WorkspaceStatus.PENDING | WorkspaceStatus.STARTING
  | WorkspaceStatus.RUNNING | WorkspaceStatus.STOPPING | WorkspaceStatus.STOPPED
  | WorkspaceStatus.RESTARTING | WorkspaceStatus.UPDATING | WorkspaceStatus.ERROR => true
  | WorkspaceStatus.DELETING | WorkspaceStatus.DELETED => false
  end.

(** [_RUNNING_WS_STATUSES] *)
Definition counts_as_running (st : workspace_status) : bool :=
  match st with
  | WorkspaceStatus.RUNNING | WorkspaceStatus.PENDING | WorkspaceStatus.STARTING
  | WorkspaceStatus.RESTARTING => true
  | _ => false
  end.

(** [_QUOTA_SNAPSHOT_STATUSES] *)
Definition counts_as_snapshot (st : workspace_snapshot_status) : bool :=
  match st with
  | WorkspaceSnapshotStatus.CREATING | WorkspaceSnapshotStatus.AVAILABLE
  | WorkspaceSnapshotStatus.RESTORING => true
  | WorkspaceSnapshotStatus.FAILED => false
  end.

(** [SELECT count() .. WHERE P] over a table *)
Definition workspaces_of (owner : Z) (counts : workspace_status → bool) (db : Db) : Z :=
  count_rows (λ kw : Z * Workspace, bool_decide (ws_owner_user_id kw.2 = owner) && counts (ws_status kw.2))
    (workspaces db).

(** ** The UTC month of an instant (proleptic Gregorian calendar) *)

Definition day_of_month (days : Z) : Z :=
  let z := days + 719468 in
  let doe := z mod 146097 in
  let yoe := (doe - doe / 1460 + doe / 36524 - doe / 146096) / 365 in
  let doy := doe - (365 * yoe + yoe / 4 - yoe / 100) in
  let mp := (5 * doy + 2) / 153 in
  doy - (153 * mp + 2) / 5 + 1.

Definition month_start (now : time) : time :=
  let days := now / seconds 86400 in
  seconds 86400 * (days - (day_of_month days - 1)).

(** ** Resolution *)

Definition scoped_quota (st : scope_type) (sid : option Z) (db : Db) : option Quota :=
  head (List.filter (λ q, bool_decide (q_scope_type q = st) && bool_decide (q_scope_id q = sid))
          (quotas db)).

(** [_get_effective_quota]: WORKSPACE, then USER, then GLOBAL *)
Definition get_effective_quota (owner_user_id workspace_id : option Z) (db : Db) : option Quota :=
  match workspace_id ≫= λ w, scoped_quota ScopeType.WORKSPACE (Some w) db with
  | Some q => Some q
  | None =>
      match owner_user_id ≫= λ u, scoped_quota ScopeType.USER (Some u) db with
      | Some q => Some q
      | None => scoped_quota ScopeType.GLOBAL None db
      end
  end.

Definition user_scope (u : Z) : string := "user:" ++ Py.str_of_Z u.
Definition workspace_scope (w : Z) : string := "workspace:" ++ Py.str_of_Z w.

(** ** Checks *)

Section checks.
Context {W : Type} {env : Env}.

(** [ActorType.USER if owner_user_id else SYSTEM] *)
Definition actor_type_of (user : option Z) : string :=
  match user with
  | Some u => if u =? 0 then "system" else "user"
  | None => "system"
  end.

Definition exceed_and_raise (quota_field : string) (limit current : Z) (scope : string)
    (owner_user_id workspace_id : option Z) : M W unit :=
  record_audit "quota.exceeded" "quota" "denied" owner_user_id (actor_type_of owner_user_id)
    None workspace_id None
    (Some ("Quota exceeded: " ++ quota_field ++ " limit=" ++ Py.str_of_Z limit ++ " current="
           ++ Py.str_of_Z current ++ " scope=" ++ scope)%string) ;;
  commit ;;
  raise (QuotaExceededError quota_field limit current scope).

Definition check_workspace_quota (owner_user_id : Z) : M W unit :=
  quota ← query (get_effective_quota (Some owner_user_id) None);
  match quota ≫= q_max_workspaces with
  | None => mret tt
  | Some limit =>
      current ← query (workspaces_of owner_user_id counts_as_active);
      when (limit <=? current)
        (exceed_and_raise "max_workspaces" limit current (user_scope owner_user_id)
           (Some owner_user_id) None)
  end.

(** The owner's stopped-session seconds since [since]. *)
Definition runtime_seconds (owner : Z) (since : time) (db : Db) : Z :=
  foldr (λ u acc,
    if bool_decide (us_owner_user_id u = Some owner) && String.eqb (us_event_type u) "workspace.stopped"
       && (since <=? us_created_at u)
    then us_quantity u + acc else acc) 0 (usage_records db).

Definition check_monthly_runtime_hours_quota (owner_user_id : Z) : M W unit :=
  quota ← query (get_effective_quota (Some owner_user_id) None);
  match quota ≫= q_max_runtime_hours with
  | None => mret tt
  | Some limit =>
      current ← query (runtime_seconds owner_user_id (month_start env_now));
      when (limit <=? current)
        (exceed_and_raise "max_runtime_hours" limit current (user_scope owner_user_id)
           (Some owner_user_id) None)
  end.

(** The reservations of the owner's workspaces, the ignored one left out. *)
Definition owner_reserved (f : WorkspaceRuntime → Z) (owner : Z) (ignore : option Z) (db : Db) : Z :=
  foldr (λ kr acc,
    match workspaces db !! kr.1 with
    | Some w => if bool_decide (ws_owner_user_id w = owner) && negb (bool_decide (ignore = Some kr.1))
                then f kr.2 + acc else acc
    | None => acc
    end) 0 (map_to_list (runtimes db)).

Definition check_owner_compute_quota (owner_user_id : Z) (proposed_cpu : cpu)
    (proposed_memory_mb : Z) (ignore_workspace_id : option Z) : M W unit :=
  quota ← query (get_effective_quota (Some owner_user_id) None);
  used_cpu ← query (owner_reserved rt_reserved_cpu owner_user_id ignore_workspace_id);
  used_mem ← query (owner_reserved rt_reserved_memory_mb owner_user_id ignore_workspace_id);
  let new_cpu := used_cpu + proposed_cpu in
  let new_mem := used_mem + proposed_memory_mb in
  match quota ≫= q_max_cpu with
  | Some lim => when (lim + 1 <? new_cpu)
      (exceed_and_raise "max_cpu" lim new_cpu (user_scope owner_user_id) (Some owner_user_id) None)
  | None => mret tt
  end ;;
  match quota ≫= q_max_memory_mb with
  | Some lim => when (lim <? new_mem)
      (exceed_and_raise "max_memory_mb" lim new_mem (user_scope owner_user_id) (Some owner_user_id) None)
  | None => mret tt
  end.

Definition running_workspaces_of (owner : Z) (except : option Z) (db : Db) : Z :=
  count_rows (λ kw : Z * Workspace,
      bool_decide (ws_owner_user_id kw.2 = owner) && counts_as_running (ws_status kw.2)
      && negb (bool_decide (except = Some kw.1))) (workspaces db).

Definition check_running_workspace_quota (owner_user_id : Z) (workspace_id : option Z) : M W unit :=
  quota ← query (get_effective_quota (Some owner_user_id) None);
  match quota ≫= q_max_running_workspaces with
  | None => mret tt
  | Some limit =>
      current ← query (running_workspaces_of owner_user_id workspace_id);
      when (limit <=? current)
        (exceed_and_raise "max_running_workspaces" limit current (user_scope owner_user_id)
           (Some owner_user_id) workspace_id)
  end.

Definition snapshots_of (wid : Z) (db : Db) : Z :=
  count_rows (λ ks : Z * WorkspaceSnapshot,
      bool_decide (snap_workspace_id ks.2 = wid) && counts_as_snapshot (snap_status ks.2))
    (snapshots db).

Definition check_snapshot_quota (workspace_id owner_user_id : Z) : M W unit :=
  quota ← query (get_effective_quota (Some owner_user_id) (Some workspace_id));
  match quota ≫= q_max_snapshots with
  | None => mret tt
  | Some limit =>
      current ← query (snapshots_of workspace_id);
      when (limit <=? current)
        (exceed_and_raise "max_snapshots" limit current (workspace_scope workspace_id)
           (Some owner_user_id) (Some workspace_id))
  end.

Definition check_session_quota (workspace_id owner_user_id current_session_count : Z) : M W unit :=
  quota ← query (get_effective_quota (Some owner_user_id) (Some workspace_id));
  match quota ≫= q_max_sessions with
  | None => mret tt
  | Some limit =>
      when (limit <=? current_session_count)
        (exceed_and_raise "max_sessions" limit current_session_count (workspace_scope workspace_id)
           (Some owner_user_id) (Some workspace_id))
  end.
End checks.

(** ** Properties *)

Lemma day_of_month_range days : 1 ≤ day_of_month days ≤ 31.
Proof.
  unfold day_of_month. cbv zeta.
  set (doy := _ - (365 * _ + _ - _)). clearbody doy. Z.to_euclidean_division_equations. lia.
Qed.

Section properties.
Context {W : Type} {env : Env}.

(** A denial: the audit row is appended and everything pending is committed. *)
Definition durable_denial (action : string) (s s' : St W) : Prop :=
  ∃ a, st_db s' = append_audit a (st_db s) ∧ st_committed s' = st_db s' ∧
       st_world s' = st_world s ∧ au_action a = action ∧ au_outcome a = "denied"%string.

(** [m] admits exactly the states satisfying [ok], changing nothing, and denies
    the others durably with an error satisfying [err]. *)
Definition check_enforces (m : M W unit) (action : string) (ok : Db → Prop) (err : Exn → Prop)
    : Prop :=
  ∀ s, wp m (λ _ s', s' = s ∧ ok (st_db s))
            (λ e s', durable_denial action s s' ∧ err e ∧ ¬ ok (st_db s)) s.

Definition is_quota_error (field : string) (e : Exn) : Prop :=
  ∃ limit current scope, e = QuotaExceededError field limit current scope.

Definition below (limit : option Z) (n : Z) : Prop := ∀ l, limit = Some l → n < l.
Definition at_most (limit : option Z) (n : Z) : Prop := ∀ l, limit = Some l → n ≤ l.

Lemma wp_exceed (field : string) limit current scope o w Q (X : Exn → St W → Prop) s :
  (∀ s', durable_denial "quota.exceeded" s s' →
         X (QuotaExceededError field limit current scope) s') →
  wp (exceed_and_raise field limit current scope o w) Q X s.
Proof. intros H. unfold exceed_and_raise, commit. wp_db. apply H. by eexists. Qed.

(** The shape of every single-limit check. *)
Lemma limit_check_enforces field lim cur scope o w :
  check_enforces
    (quota_limit ← query lim;
     match quota_limit with
     | None => mret tt
     | Some limit =>
         current ← query cur;
         when (limit <=? current) (exceed_and_raise field limit current scope o w)
     end) "quota.exceeded" (λ db, below (lim db) (cur db)) (is_quota_error field).
Proof.
  intros s. wp_db. destruct (lim (st_db s)) as [l|] eqn:E; wp_db.
  - destruct (Z.leb_spec l (cur (st_db s))); unfold when.
    + apply wp_exceed. intros s' Hd. split_and!; [done|by repeat eexists|].
      intros Hb. specialize (Hb l eq_refl). lia.
    + split; [done|]. intros l' [= <-]. lia.
  - split; [done|]. by intros.
Qed.

Lemma compute_check_enforces owner c m except :
  let quota db := get_effective_quota (Some owner) None db in
  check_enforces (check_owner_compute_quota owner c m except) "quota.exceeded"
    (λ db, at_most (Z.add 1 <$> (quota db ≫= q_max_cpu))
             (owner_reserved rt_reserved_cpu owner except db + c) ∧
           at_most (quota db ≫= q_max_memory_mb)
             (owner_reserved rt_reserved_memory_mb owner except db + m))
    (λ e, is_quota_error "max_cpu" e ∨ is_quota_error "max_memory_mb" e).
Proof.
  intros quota s. unfold check_owner_compute_quota, at_most, is_quota_error. wp_db.
  change (get_effective_quota (Some owner) None (st_db s)) with (quota (st_db s)).
  assert (Hmem : ∀ s', s' = s →
    wp match quota (st_db s) ≫= q_max_memory_mb with
       | Some lim => when (lim <? owner_reserved rt_reserved_memory_mb owner except (st_db s) + m)
           (exceed_and_raise "max_memory_mb" lim (owner_reserved rt_reserved_memory_mb owner except (st_db s) + m)
              (user_scope owner) (Some owner) None)
       | None => mret tt
       end (λ _ s', s' = s ∧ at_most (quota (st_db s) ≫= q_max_memory_mb)
             (owner_reserved rt_reserved_memory_mb owner except (st_db s) + m))
           (λ e s', durable_denial "quota.exceeded" s s' ∧ is_quota_error "max_memory_mb" e ∧
             ¬ at_most (quota (st_db s) ≫= q_max_memory_mb)
             (owner_reserved rt_reserved_memory_mb owner except (st_db s) + m)) s').
  { intros s' ->. unfold at_most, when. destruct (quota (st_db s) ≫= q_max_memory_mb) as [lm|];
      [destruct (Z.ltb_spec lm (owner_reserved rt_reserved_memory_mb owner except (st_db s) + m))|].
    - apply wp_exceed. intros s' Hd. split_and!; [done|by repeat eexists|]. intros Hb.
      specialize (Hb _ eq_refl). lia.
    - split; [done|]. intros l [= <-]. lia.
    - split; [done|]. by intros. }
  destruct (quota (st_db s) ≫= q_max_cpu) as [lc|]; unfold when;
    [destruct (Z.ltb_spec (lc + 1) (owner_reserved rt_reserved_cpu owner except (st_db s) + c))|].
  - apply wp_exceed. intros s' Hd. split_and!; [done|left; by repeat eexists|]. intros [Hb _].
    specialize (Hb _ eq_refl). lia.
  - wp_db. eapply wp_mono; [by apply Hmem| |].
    + intros _ s' [-> Hok]. split_and!; [done| |done]. intros l [= <-]. lia.
    + intros e s' (H1 & H2 & H3). split_and!; [done|by right|]. by intros [_ ?].
  - wp_db. eapply wp_mono; [by apply Hmem| |].
    + intros _ s' [-> Hok]. split_and!; [done| |done]. by intros l.
    + intros e s' (H1 & H2 & H3). split_and!; [done|by right|]. by intros [_ ?].
Qed.

Lemma month_check_enforces owner :
  check_enforces (check_monthly_runtime_hours_quota owner) "quota.exceeded"
    (λ db, below (get_effective_quota (Some owner) None db ≫= q_max_runtime_hours)
                 (runtime_seconds owner (month_start env_now) db))
    (is_quota_error "max_runtime_hours").
Proof.
  exact (limit_check_enforces _ (λ db, get_effective_quota (Some owner) None db ≫= q_max_runtime_hours)
           (runtime_seconds owner (month_start env_now)) _ _ _).
Qed.
Lemma running_check_enforces owner except :
  check_enforces (check_running_workspace_quota owner except) "quota.exceeded"
    (λ db, below (get_effective_quota (Some owner) None db ≫= q_max_running_workspaces)
                 (running_workspaces_of owner except db))
    (is_quota_error "max_running_workspaces").
Proof.
  exact (limit_check_enforces _ (λ db, get_effective_quota (Some owner) None db ≫= q_max_running_workspaces)
           (running_workspaces_of owner except) _ _ _).
Qed.
Lemma workspace_check_enforces owner :
  check_enforces (check_workspace_quota owner) "quota.exceeded"
    (λ db, below (get_effective_quota (Some owner) None db ≫= q_max_workspaces)
                 (workspaces_of owner counts_as_active db))
    (is_quota_error "max_workspaces").
Proof.
  exact (limit_check_enforces _ (λ db, get_effective_quota (Some owner) None db ≫= q_max_workspaces)
           (workspaces_of owner counts_as_active) _ _ _).
Qed.
Lemma session_check_enforces owner wid n :
  check_enforces (check_session_quota wid owner n) "quota.exceeded"
    (λ db, below (get_effective_quota (Some owner) (Some wid) db ≫= q_max_sessions) n)
    (is_quota_error "max_sessions").
Proof.
  exact (limit_check_enforces _ (λ db, get_effective_quota (Some owner) (Some wid) db ≫= q_max_sessions) (λ _, n) _ _ _).
Qed.
Lemma snapshot_check_enforces owner wid :
  check_enforces (check_snapshot_quota wid owner) "quota.exceeded"
    (λ db, below (get_effective_quota (Some owner) (Some wid) db ≫= q_max_snapshots) (snapshots_of wid db))
    (is_quota_error "max_snapshots").
Proof.
  exact (limit_check_enforces _ (λ db, get_effective_quota (Some owner) (Some wid) db ≫= q_max_snapshots)
           (snapshots_of wid) _ _ _).
Qed.

(** C18. Quota enforcement: each check admits exactly the states in which the
    owner's usage is below the limit of the most specific applicable quota (for
    CPU and memory: in which usage plus the proposal is within it), and then
    changes nothing; otherwise it raises, and the denial's audit row is already
    committed, so that it survives the caller's rollback. *)
Theorem quota_checks_enforce_limits (owner wid : Z) (except : option Z) (c : cpu) (m n : Z) :
  let eff w db := get_effective_quota (Some owner) w db in
  check_enforces (check_workspace_quota owner) "quota.exceeded"
    (λ db, below (eff None db ≫= q_max_workspaces) (workspaces_of owner counts_as_active db))
    (is_quota_error "max_workspaces") ∧
  check_enforces (check_monthly_runtime_hours_quota owner) "quota.exceeded"
    (λ db, below (eff None db ≫= q_max_runtime_hours) (runtime_seconds owner (month_start env_now) db))
    (is_quota_error "max_runtime_hours") ∧
  check_enforces (check_running_workspace_quota owner except) "quota.exceeded"
    (λ db, below (eff None db ≫= q_max_running_workspaces) (running_workspaces_of owner except db))
    (is_quota_error "max_running_workspaces") ∧
  check_enforces (check_snapshot_quota wid owner) "quota.exceeded"
    (λ db, below (eff (Some wid) db ≫= q_max_snapshots) (snapshots_of wid db))
    (is_quota_error "max_snapshots") ∧
  check_enforces (check_session_quota wid owner n) "quota.exceeded"
    (λ db, below (eff (Some wid) db ≫= q_max_sessions) n) (is_quota_error "max_sessions") ∧
  check_enforces (check_owner_compute_quota owner c m except) "quota.exceeded"
    (λ db, at_most (Z.add 1 <$> (eff None db ≫= q_max_cpu))
             (owner_reserved rt_reserved_cpu owner except db + c) ∧
           at_most (eff None db ≫= q_max_memory_mb)
             (owner_reserved rt_reserved_memory_mb owner except db + m))
    (λ e, is_quota_error "max_cpu" e ∨ is_quota_error "max_memory_mb" e).
Proof.
  intros eff. split_and!; [apply workspace_check_enforces|apply month_check_enforces|apply running_check_enforces
    |apply snapshot_check_enforces|apply session_check_enforces|apply compute_check_enforces].
Qed.

(** Precedence: a quota of the workspace decides before one of the user, and
    one of the user before the global one. *)
Lemma quota_most_specific_wins (db : Db) (owner wid : Z) :
  get_effective_quota (Some owner) (Some wid) db =
  from_option Some (from_option Some (scoped_quota ScopeType.GLOBAL None db)
    (scoped_quota ScopeType.USER (Some owner) db))
    (scoped_quota ScopeType.WORKSPACE (Some wid) db) ∧
  (∀ q, get_effective_quota (Some owner) None db = Some q →
     q_scope_type q ≠ ScopeType.WORKSPACE).
Proof.
  split; [by unfold get_effective_quota; cbn; repeat case_match|].
  assert (Hs : ∀ st sid q, scoped_quota st sid db = Some q → q_scope_type q = st).
  { intros st sid q Hq. unfold scoped_quota in Hq.
    apply head_Some_elem_of, list_elem_of_In, List.filter_In in Hq as [_ Hq].
    apply andb_true_iff in Hq as [Hq _]. by apply bool_decide_eq_true in Hq. }
  intros q. unfold get_effective_quota. cbn.
  destruct (scoped_quota ScopeType.USER _ db) eqn:E; [intros [= ->]|intros E'];
    [by rewrite (Hs _ _ _ E)|by rewrite (Hs _ _ _ E')].
Qed.

(** The month of an instant starts at most 31 days before it. *)
Lemma month_start_bounds now : month_start now ≤ now < month_start now + seconds (31 * 86400).
Proof.
  unfold month_start. cbv zeta. pose proof (day_of_month_range (now / seconds 86400)) as Hd.
  revert Hd. generalize (day_of_month (now / seconds 86400)). intros d Hd.
  unfold seconds in *. Z.to_euclidean_division_equations. lia.
Qed.
End properties.

(** 2024-02-29T12:00:00Z belongs to the month that started on 2024-02-01. *)
Example month_start_leap : month_start (seconds 1709208000) = seconds 1706745600.
Proof. reflexivity. Qed.
Example month_start_year : month_start (seconds 1704067200) = seconds 1704067200.
Proof. reflexivity. Qed.
