(* ===== verification/Policy.v ===== *)
(** * Policy: policy evaluation

    [src/backend/app/services/policy_service/service.py].  The active policies of
    a context are examined oldest first; the first blocking rule is recorded in a
    committed POLICY_DENIED audit row and raised. *)

From S2P Require Import Prelude Models Session Scheduling Quota.

(** The policy's scope covers this context. *)
Definition policy_applies (owner_user_id workspace_id : option Z) (p : Policy) : bool :=
  pol_is_active p &&
  match pol_scope_type p with
  | ScopeType.GLOBAL => true
  | ScopeType.USER => bool_decide (is_Some owner_user_id) && bool_decide (pol_scope_id p = owner_user_id)
  | ScopeType.WORKSPACE => bool_decide (is_Some workspace_id) && bool_decide (pol_scope_id p = workspace_id)
  end.

(** [_load_applicable_policies]: ordered by creation date *)
Definition load_applicable_policies (owner_user_id workspace_id : option Z) (db : Db) : list Policy :=
  sort_by (λ a b, pol_created_at a <=? pol_created_at b)
    (List.filter (policy_applies owner_user_id workspace_id) (policies db)).

(** [_rule(rules, key, True)] *)
Definition rule_allows (r : option bool) : bool := default true r.

Definition image_blocked (image : option string) (allowed : option (list string)) : bool :=
  match image, allowed with
  | Some i, Some l => Py.truthy i && negb (bool_decide (i ∈ l))
  | _, _ => false
  end.

Section evaluation.
Context {W : Type} {env : Env}.

Definition deny_and_raise (p : Policy) (action reason : string)
    (owner_user_id workspace_id : option Z) : M W unit :=
  record_audit "policy.denied" "policy" "denied" owner_user_id (actor_type_of owner_user_id)
    (Some (Py.str_of_Z (pol_policy_id p))) workspace_id None (Some (Py.prefix_to 4096 reason)) ;;
  commit ;;
  raise (PolicyViolationError (pol_name p) action reason).

Definition evaluate_workspace_creation (owner_user_id : Z) (image : option string)
    (is_private : bool) : M W unit :=
  ps ← query (load_applicable_policies (Some owner_user_id) None);
  for_each ps (λ p,
    let rules := pol_rules_json p in
    when (negb (rule_allows (pr_allow_workspace_creation rules)))
      (deny_and_raise p "workspace.create" "Workspace creation is disabled by policy"
         (Some owner_user_id) None) ;;
    when (image_blocked image (pr_allowed_runtime_images rules))
      (deny_and_raise p "workspace.create"
         ("Runtime image '" ++ default ""%string image ++ "' is not in the allowed list")
         (Some owner_user_id) None) ;;
    when (negb is_private && default false (pr_require_private_workspaces rules))
      (deny_and_raise p "workspace.create" "Policy requires all workspaces to be private"
         (Some owner_user_id) None)).

(** The loop of the four evaluators that look at one rule. *)
Definition evaluate_rule (rule : PolicyRules → option bool) (action reason : string)
    (owner_user_id workspace_id : option Z) (ps : list Policy) : M W unit :=
  for_each ps (λ p,
    when (negb (rule_allows (rule (pol_rules_json p))))
      (deny_and_raise p action reason owner_user_id workspace_id)).

Definition evaluate_workspace_start (owner_user_id workspace_id : Z) : M W unit :=
  ps ← query (load_applicable_policies (Some owner_user_id) (Some workspace_id));
  evaluate_rule pr_allow_workspace_start "workspace.start" "Workspace start is disabled by policy"
    (Some owner_user_id) (Some workspace_id) ps.

Definition evaluate_snapshot_creation (owner_user_id workspace_id : Z) : M W unit :=
  ps ← query (load_applicable_policies (Some owner_user_id) (Some workspace_id));
  evaluate_rule pr_allow_snapshot_creation "workspace.snapshot.create"
    "Snapshot creation is disabled by policy" (Some owner_user_id) (Some workspace_id) ps.

Definition evaluate_session_creation (owner_user_id workspace_id : Z) : M W unit :=
  ps ← query (load_applicable_policies (Some owner_user_id) (Some workspace_id));
  evaluate_rule pr_allow_session_creation "workspace.session.create"
    "Session creation is disabled by policy" (Some owner_user_id) (Some workspace_id) ps.

Definition evaluate_node_provisioning : M W unit :=
  ps ← query (load_applicable_policies None None);
  evaluate_rule pr_allow_node_provisioning "node.provision"
    "Node provisioning is disabled by policy" None None ps.
End evaluation.

(** ** Properties *)

Section properties.
Context {W : Type} {env : Env}.

(** No applicable active policy of the context has the rule off. *)
Definition no_policy_blocks (owner wid : option Z) (blocks : PolicyRules → bool) (db : Db) : Prop :=
  ∀ p, p ∈ policies db → policy_applies owner wid p = true → blocks (pol_rules_json p) = false.

Definition is_policy_error (action : string) (e : Exn) : Prop :=
  ∃ name reason, e = PolicyViolationError name action reason.

Lemma wp_deny p action reason o w Q (X : Exn → St W → Prop) s :
  (∀ s', durable_denial "policy.denied" s s' →
         X (PolicyViolationError (pol_name p) action reason) s') →
  wp (deny_and_raise p action reason o w) Q X s.
Proof. intros H. unfold deny_and_raise, commit. wp_db. apply H. by eexists. Qed.

Lemma elem_of_load owner wid db p :
  p ∈ load_applicable_policies owner wid db ↔ p ∈ policies db ∧ policy_applies owner wid p = true.
Proof.
  unfold load_applicable_policies. rewrite sort_by_perm, list_elem_of_In, List.filter_In.
  by rewrite <- list_elem_of_In.
Qed.

(** A loop over policies whose body either does nothing or denies durably. *)
Lemma policy_loop_enforces owner wid (body : Policy → M W unit) (blocks : PolicyRules → bool) action :
  (∀ p s, wp (body p) (λ _ s', s' = s ∧ blocks (pol_rules_json p) = false)
     (λ e s', durable_denial "policy.denied" s s' ∧ is_policy_error action e ∧
              blocks (pol_rules_json p) = true) s) →
  check_enforces (ps ← query (load_applicable_policies owner wid); for_each ps body)
    "policy.denied" (no_policy_blocks owner wid blocks) (is_policy_error action).
Proof.
  intros Hbody s. wp_db.
  enough (H : wp (for_each (load_applicable_policies owner wid (st_db s)) body)
    (λ _ s', s' = s ∧ ∀ p, p ∈ load_applicable_policies owner wid (st_db s) →
                           blocks (pol_rules_json p) = false)
    (λ e s', durable_denial "policy.denied" s s' ∧ is_policy_error action e ∧
       ∃ p, p ∈ load_applicable_policies owner wid (st_db s) ∧ blocks (pol_rules_json p) = true) s).
  { eapply wp_mono; [exact H| |].
    - intros _ s' [-> Hok]. split; [done|]. intros p H1 H2. apply Hok. by apply elem_of_load.
    - intros e s' (H1 & H2 & p & Hp%elem_of_load & H3). split_and!; [done|done|].
      intros Hok. destruct Hp. rewrite Hok in H3; done. }
  induction (load_applicable_policies owner wid (st_db s)) as [|p l IH]; cbn [for_each].
  { apply wp_ret. split; [done|]. by intros ? ?%not_elem_of_nil. }
  apply wp_bind. eapply wp_mono; [apply Hbody| |].
  - cbn beta. intros _ s' [-> Hp]. eapply wp_mono; [apply IH| |].
    + intros _ s' [-> Hl]. split; [done|]. intros q [->|Hq]%elem_of_cons; auto.
    + intros e s' (H1 & H2 & q & Hq & H3). split_and!; [done|done|]. exists q. split; [by right|done].
  - intros e s' (H1 & H2 & H3). split_and!; [done|done|]. exists p. split; [by left|done].
Qed.

Lemma rule_enforces owner wid rule action reason :
  check_enforces (W := W)
    (ps ← query (load_applicable_policies owner wid); evaluate_rule rule action reason owner wid ps)
    "policy.denied" (no_policy_blocks owner wid (λ r, negb (rule_allows (rule r))))
    (is_policy_error action).
Proof.
  apply policy_loop_enforces. intros p s. unfold when.
  destruct (negb (rule_allows (rule (pol_rules_json p)))); [|by apply wp_ret].
  apply wp_deny. intros s' Hd. split_and!; [done|by repeat eexists|done].
Qed.

Definition creation_blocked (image : option string) (is_private : bool) (r : PolicyRules) : bool :=
  negb (rule_allows (pr_allow_workspace_creation r))
  || image_blocked image (pr_allowed_runtime_images r)
  || (negb is_private && default false (pr_require_private_workspaces r)).

Lemma creation_enforces owner image is_private :
  check_enforces (W := W) (evaluate_workspace_creation owner image is_private) "policy.denied"
    (no_policy_blocks (Some owner) None (creation_blocked image is_private))
    (is_policy_error "workspace.create").
Proof.
  apply policy_loop_enforces. intros p s.
  unfold creation_blocked, when. set (r := pol_rules_json p).
  assert (Hd : ∀ b reason Q, b = true → wp (deny_and_raise p "workspace.create" reason (Some owner) None)
    Q (λ e s', durable_denial "policy.denied" s s' ∧ is_policy_error "workspace.create" e ∧ b = true) s).
  { intros b reason Q ->. apply wp_deny. intros s' H. split_and!; [done|by repeat eexists|done]. }
  destruct (negb (rule_allows _)); [apply wp_bind; by apply Hd|].
  destruct (image_blocked _ _); [wp_db; by apply Hd|].
  destruct (negb is_private && _); wp_db; [by apply Hd|done].
Qed.

(** Policy enforcement: each evaluator admits exactly the contexts no
    applicable active policy blocks (its rule switched off; for a creation, the
    image outside the allowed list or a public workspace where private ones are
    required as well) and then changes nothing; otherwise it raises the violation
    of that action, and the denial's audit row is already committed. *)
Lemma policy_evaluators_enforce_rules (owner wid : Z) (image : option string) (is_private : bool) :
  check_enforces (W := W) (evaluate_workspace_creation owner image is_private) "policy.denied"
    (no_policy_blocks (Some owner) None (creation_blocked image is_private))
    (is_policy_error "workspace.create") ∧
  check_enforces (W := W) (evaluate_workspace_start owner wid) "policy.denied"
    (no_policy_blocks (Some owner) (Some wid) (λ r, negb (rule_allows (pr_allow_workspace_start r))))
    (is_policy_error "workspace.start") ∧
  check_enforces (W := W) (evaluate_snapshot_creation owner wid) "policy.denied"
    (no_policy_blocks (Some owner) (Some wid) (λ r, negb (rule_allows (pr_allow_snapshot_creation r))))
    (is_policy_error "workspace.snapshot.create") ∧
  check_enforces (W := W) (evaluate_session_creation owner wid) "policy.denied"
    (no_policy_blocks (Some owner) (Some wid) (λ r, negb (rule_allows (pr_allow_session_creation r))))
    (is_policy_error "workspace.session.create") ∧
  check_enforces (W := W) evaluate_node_provisioning "policy.denied"
    (no_policy_blocks None None (λ r, negb (rule_allows (pr_allow_node_provisioning r))))
    (is_policy_error "node.provision").
Proof. split_and!; first [apply rule_enforces | apply creation_enforces]. Qed.
End properties.
