(* ===== verification/Gateway.v ===== *)
(** * Gateway: route decisions, the route-admin client and route targets

    [reconcile_service/decisions.py], [gateway_client/workspace_route_upstream.py],
    [gateway_client/gateway_client.py] and the route helpers of worker.py.
    [urllib.parse.urlsplit] is modelled for the port of an authority without
    brackets (IPv6 literals). *)

From S2P Require Import Prelude Models Session Services.

(** ** decisions.py *)

Definition has_http_scheme (t : string) : bool :=
  Py.startswith "http://" t || Py.startswith "https://" t.

Definition normalize_http_target (raw : option string) : string :=
  let t := Py.strip_opt raw in
  if negb (Py.truthy t) then "" else
  let t := if Py.contains "://" t then t else ("http://" ++ t)%string in
  if negb (has_http_scheme t) then "" else Py.rstrip_slash t.

Definition targets_equivalent (a b : option string) : bool :=
  String.eqb (normalize_http_target a) (normalize_http_target b).

Definition route_row_for_workspace (routes : list RouteRow) (wid : Z) : option RouteRow :=
  List.find (λ row, String.eqb (route_workspace_id row) (Py.str_of_Z wid)) routes.

Definition norm_public_host (raw : option string) : string := Py.lower (Py.strip_opt raw).
Definition norm_path_prefix (raw : option string) : string := Py.rstrip_slash (Py.strip_opt raw).

Definition gateway_route_needs_repair (route_row : option RouteRow)
    (observed expected_public_host expected_path_prefix : option string) : bool :=
  let ep := Py.strip_opt observed in
  if negb (Py.truthy ep) then false else
  if negb (Py.truthy (normalize_http_target (Some ep))) then false else
  match route_row with
  | None => true
  | Some row =>
      if negb (targets_equivalent (route_target row) observed) then true else
      let want := norm_public_host expected_public_host in
      if Py.truthy want && negb (String.eqb (norm_public_host (route_public_host row)) want) then true else
      negb (String.eqb (norm_path_prefix expected_path_prefix) (norm_path_prefix (route_path_prefix row)))
  end.

(** ** workspace_route_upstream.py *)

Definition registration_upstream (gateway_route_target internal_endpoint : option string) : string :=
  Py.or_else (Py.strip_opt gateway_route_target) (Py.strip_opt internal_endpoint).

Definition traefik_upstream_for_workspace_gateway (ws : option Workspace) (rt : WorkspaceRuntime) : string :=
  let u := registration_upstream (rt_gateway_route_target rt) (rt_internal_endpoint rt) in
  if Py.truthy u then u
  else match ws with Some w => Py.strip_opt (ws_endpoint_ref w) | None => "" end.

(** The first published host port of the container's IDE port. *)
Definition published_port (resolved_ports : list (Z * Z)) (ide_container_port : Z) : option Z :=
  fst <$> List.find (λ p : Z * Z, (p.2 =? ide_container_port) && (0 <? p.1)) resolved_ports.

Definition compose_traefik_upstream_target (traefik_routing_host : option string)
    (resolved_ports : list (Z * Z)) (topology_internal_endpoint : option string)
    (ide_container_port : Z) : option string :=
  let host := Py.strip_opt traefik_routing_host in
  match published_port resolved_ports ide_container_port with
  | Some p => if Py.truthy host then Some ("http://" ++ host ++ ":" ++ Py.str_of_Z p)%string
              else Py.strip_or_none topology_internal_endpoint
  | None => Py.strip_or_none topology_internal_endpoint
  end.

(** ** urlsplit(...).port *)

Definition is_scheme_char (c : ascii) : bool :=
  let n := Z.of_N (N_of_ascii c) in
  ((97 <=? n) && (n <=? 122)) || ((65 <=? n) && (n <=? 90)) || ((48 <=? n) && (n <=? 57))
  || Ascii.eqb c "+" || Ascii.eqb c "-" || Ascii.eqb c ".".
Definition is_letter (c : ascii) : bool :=
  let n := Z.of_N (N_of_ascii c) in ((97 <=? n) && (n <=? 122)) || ((65 <=? n) && (n <=? 90)).

Definition valid_scheme (s : string) : bool :=
  match s with
  | EmptyString => false
  | String c _ => is_letter c && forallb is_scheme_char (list_ascii_of_string s)
  end.

(** [(netloc, path)] of [urlsplit(url)] *)
Definition urlsplit (url : string) : string * string :=
  let rest := match Py.partition ":" url with
              | (scheme, Some r) => if valid_scheme scheme then r else url
              | (_, None) => url
              end in
  let is_path_end c := Ascii.eqb c "?" || Ascii.eqb c "#" in
  match rest with
  | String "/" (String "/" r) =>
      let netloc := Py.until (λ c, Ascii.eqb c "/" || is_path_end c) r in
      (netloc, Py.until is_path_end (String.substring (String.length netloc) (String.length r) r))
  | _ => ("", Py.until is_path_end rest)
  end%string.

(** The port of a netloc: [inl None] when there is none, [inr tt] for the [ValueError]. *)
Definition netloc_port (netloc : string) : option Z + unit :=
  let hostinfo := default netloc (Py.after_last "@" netloc) in
  match (Py.partition ":" hostinfo).2 with
  | None | Some EmptyString => inl None
  | Some p => match Py.digits p with
              | Some n => if n <=? 65535 then inl (Some n) else inr tt
              | None => inr tt
              end
  end.

(** [_route_target_port] *)
Definition route_target_port (value : option string) : option Z :=
  let raw := Py.strip_opt value in
  if negb (Py.truthy raw) then None else
  let '(netloc, path) := urlsplit (if Py.contains "://" raw then raw else "http://" ++ raw)%string in
  match netloc_port netloc with
  | inr _ => None
  | inl (Some p) => Some p
  | inl None => Py.after_last ":" (Py.or_else netloc path) ≫= Py.digits
  end.

(** ** The route-admin client and the worker's route helpers *)

(** [ExecutionMode in _REMOTE_EXECUTION_MODES or provider == EC2] *)
Definition is_remote_node (n : ExecutionNode) : bool :=
  match node_provider_type n, node_execution_mode n with
  | ExecutionNodeProviderType.EC2, _ => true
  | _, ExecutionNodeExecutionMode.SSM_DOCKER | _, ExecutionNodeExecutionMode.SSH_DOCKER => true
  | _, ExecutionNodeExecutionMode.LOCAL_DOCKER => false
  end.

Section gateway.
Context {W : Type} {env : Env} {routes : RouteAdmin W}.

(** [_normalize_target] *)
Definition normalize_target (internal_endpoint : string) : string + Exn :=
  let t := Py.strip internal_endpoint in
  if negb (Py.truthy t) then inr (ValueError "internal_endpoint is empty") else
  let t := if Py.contains "://" t then t else ("http://" ++ t)%string in
  if negb (has_http_scheme t)
  then inr (ValueError "internal_endpoint must be http(s) URL or host:port") else inl t.

(** The payload [register_route] posts. *)
Definition route_payload (workspace_id internal_endpoint public_host : string)
    (path_prefix node_key : option string) (execution_node_id : option Z) : RoutePayload + Exn :=
  let wid := Py.strip workspace_id in
  let host := Py.strip public_host in
  if negb (Py.truthy wid) || negb (Py.truthy host)
  then inr (ValueError "workspace_id and public_host are required")
  else match normalize_target internal_endpoint with
  | inr e => inr e
  | inl target => inl (mkRoutePayload wid host target (Py.strip_or_none path_prefix)
                         (Py.strip_or_none node_key) execution_node_id)
  end.

Definition register_route (workspace_id internal_endpoint public_host : string)
    (path_prefix node_key : option string) (execution_node_id : option Z) : M W unit :=
  match route_payload workspace_id internal_endpoint public_host path_prefix node_key execution_node_id with
  | inr e => raise e
  | inl payload => call_gateway (ra_post_route payload)
  end.

Definition deregister_route (workspace_id : string) : M W unit :=
  let wid := Py.strip workspace_id in
  if negb (Py.truthy wid) then raise (ValueError "workspace_id is empty")
  else call_gateway (ra_delete_route wid).

Definition get_registered_routes : M W (list RouteRow) := call_gateway ra_get_routes.

Definition gateway_default_public_host (wid : Z) (base_domain : string) : string :=
  let dom := Py.strip_dots (Py.strip (Py.or_else base_domain "app.devnest.local")) in
  "ws-" ++ Py.str_of_Z wid ++ "." ++ dom.

(** [(ws.public_host or "").strip() or _gateway_default_public_host(..)] *)
Definition workspace_public_host (wid : Z) (w : Workspace) : string :=
  Py.or_else (Py.strip_opt (ws_public_host w))
    (gateway_default_public_host wid (cfg_base_domain env_settings)).

(** Register the route of a workspace's upstream, as both callers do. *)
Definition register_workspace_route (wid : Z) (w : Workspace) (node_key : option string)
    (upstream : string) : M W unit :=
  register_route (Py.str_of_Z wid) upstream (workspace_public_host wid w)
    (Py.strip_or_none (ws_gateway_path_prefix w)) (Py.strip_or_none node_key)
    (ws_execution_node_id w).

(** [_gateway_try_register_running]: every exception is swallowed *)
Definition gateway_try_register_running (wid : Z) : M W unit :=
  try_except
    (if negb (cfg_gateway_enabled env_settings) then mret tt else
     rt ← runtime_row wid;
     match rt with
     | None => mret tt
     | Some r =>
         w ← get_workspace_row wid;
         let upstream := traefik_upstream_for_workspace_gateway (Some w) r in
         if negb (Py.truthy upstream) then mret tt
         else register_workspace_route wid w (rt_node_id r) upstream
     end)
    (λ _, mret tt).

(** [_gateway_try_deregister] *)
Definition gateway_try_deregister (wid : Z) : M W unit :=
  try_except
    (if negb (cfg_gateway_enabled env_settings) then mret tt
     else deregister_route (Py.str_of_Z wid))
    (λ _, mret tt).

(** [_remote_gateway_route_target_for_node] *)
Definition remote_gateway_route_target_for_node (node_key : option string)
    (execution_node_id : option Z) (gateway_route_target internal_endpoint : option string)
    : M W (option string) :=
  let key := Py.strip_opt node_key in
  by_key ← (if Py.truthy key then found ← node_by_key key; mret (snd <$> found) else mret None);
  node ← match by_key with
         | Some n => mret (Some n)
         | None => query (λ db, execution_node_id ≫= λ nid, nodes db !! nid)
         end;
  match node with
  | None => mret (Py.strip_or_none gateway_route_target)
  | Some n =>
      if negb (is_remote_node n) then mret (Py.strip_or_none gateway_route_target) else
      let private_ip := Py.strip_opt (node_private_ip n) in
      if negb (Py.truthy private_ip) then
        raise (WorkspaceBringUpError (mkBringUpFailure
          "remote EC2 route target requires execution_node.private_ip" false None None None None))
      else
      let port := match route_target_port gateway_route_target with
                  | None | Some 0 => route_target_port internal_endpoint
                  | Some p => Some p
                  end in
      match port with
      | None => raise (WorkspaceBringUpError (mkBringUpFailure
          "remote EC2 route target requires a published IDE host port" false None None None None))
      | Some p => mret (Some (private_ip ++ ":" ++ Py.str_of_Z p)%string)
      end
  end.
End gateway.

(** ** Properties *)

Section properties.
Context {W : Type} {env : Env} {routes : RouteAdmin W}.

Lemma truthy_false s : Py.truthy s = false → s = ""%string.
Proof. unfold Py.truthy. intros H%negb_false_iff. by apply String.eqb_eq. Qed.
Lemma truthy_true s : Py.truthy s = true ↔ s ≠ ""%string.
Proof. unfold Py.truthy. by rewrite negb_true_iff, String.eqb_neq. Qed.

Lemma http_scheme_head u : has_http_scheme u = true → ∃ r, u = String "h" r.
Proof.
  unfold has_http_scheme, Py.startswith. destruct u as [|c r]; [by cbn|]. cbn [String.prefix].
  destruct (ascii_dec "h" c) as [<-|]; [eauto|by cbn].
Qed.

Lemma rstrip_slash_nonempty c r : c ≠ "/"%char → Py.rstrip_slash (String c r) ≠ ""%string.
Proof.
  intros Hc. unfold Py.rstrip_slash, Py.on_chars. simpl.
  rewrite Py.rstrip_by_cons; [done|]. by apply Ascii.eqb_neq.
Qed.

(** The target the client posts denotes the upstream it was given. *)
Lemma normalize_target_equivalent u t :
  normalize_target u = inl t →
  normalize_http_target (Some t) = normalize_http_target (Some u) ∧
  Py.truthy (normalize_http_target (Some t)) = true.
Proof.
  unfold normalize_target, normalize_http_target. cbn [Py.strip_opt default].
  destruct (Py.truthy (Py.strip u)) eqn:Hu; cbn [negb]; [|done].
  set (u' := if Py.contains "://" (Py.strip u) then _ else _).
  destruct (has_http_scheme u') eqn:Hs; cbn [negb]; [|done]. intros [= <-].
  assert (Hstrip : Py.strip u' = u').
  { unfold u'. destruct (Py.contains "://" (Py.strip u)); [apply Py.strip_idem|].
    apply Py.strip_app_stripped; [done|apply Py.strip_idem|]. by apply truthy_true. }
  assert (Hne : Py.truthy u' = true).
  { apply truthy_true. unfold u'. destruct (Py.contains _ _); [by apply truthy_true|done]. }
  assert (Hcont : Py.contains "://" u' = true).
  { unfold u'. destruct (Py.contains "://" (Py.strip u)) eqn:E; [done|]. by destruct (Py.strip u). }
  change (Py.strip_opt (Some u')) with (Py.strip u').
  change (Py.strip_opt (Some u)) with (Py.strip u).
  rewrite Hstrip, Hne, Hcont, Hs, Hu. fold u'. rewrite Hs. cbn [negb].
  split; [done|]. apply truthy_true.
  apply http_scheme_head in Hs as [r ->]. by apply rstrip_slash_nonempty.
Qed.

(** The row route-admin lists for a registered payload. *)
Definition registered_row (p : RoutePayload) : RouteRow :=
  mkRouteRow (rp_workspace_id p) (Some (rp_target p)) (Some (rp_public_host p)) (rp_path_prefix p).

Lemma norm_path_prefix_strip p : norm_path_prefix (Py.strip_or_none p) = norm_path_prefix p.
Proof.
  unfold norm_path_prefix, Py.strip_or_none. case_decide as H; [by rewrite H|].
  change (Py.strip_opt (Some (Py.strip_opt p))) with (Py.strip (Py.strip (default ""%string p))).
  by rewrite Py.strip_idem.
Qed.

(** A registered route is not reported as needing repair. *)
Lemma registered_row_settled (wid u host : string) (prefix nk : option string) (eid : option Z) p :
  route_payload wid u host prefix nk eid = inl p →
  gateway_route_needs_repair (Some (registered_row p)) (Some u) (Some host) prefix = false.
Proof.
  unfold route_payload. destruct (_ || _); [done|].
  destruct (normalize_target u) as [t|] eqn:Et; [|done]. intros [= <-].
  apply normalize_target_equivalent in Et as [Et _].
  unfold gateway_route_needs_repair, registered_row, targets_equivalent, norm_public_host.
  cbn [route_target route_public_host route_path_prefix rp_target rp_public_host rp_path_prefix].
  destruct (Py.truthy _); [|done]. cbn [negb]. destruct (Py.truthy _); [|done]. cbn [negb].
  rewrite Et, String.eqb_refl. cbn [negb].
  assert (Hh : Py.strip_opt (Some (Py.strip host)) = Py.strip_opt (Some host))
    by (unfold Py.strip_opt; cbn; apply Py.strip_idem).
  rewrite Hh, String.eqb_refl, andb_false_r, norm_path_prefix_strip, String.eqb_refl. done.
Qed.

(** Route repair converges: a route that is registered for an upstream, host
    and prefix is not reported as needing repair for the same upstream, host and
    prefix; and whenever a repair is called for with a non-blank host, the client
    accepts the registration. *)
Lemma gateway_repair_converges (wid : Z) (u host : string) (prefix nk : option string)
    (eid : option Z) :
  (∀ p, route_payload (Py.str_of_Z wid) u host prefix nk eid = inl p →
     gateway_route_needs_repair (Some (registered_row p)) (Some u) (Some host) prefix = false) ∧
  (∀ row, gateway_route_needs_repair row (Some u) (Some host) prefix = true →
     Py.strip host ≠ ""%string → Py.strip (Py.str_of_Z wid) ≠ ""%string →
     ∃ p, route_payload (Py.str_of_Z wid) u host prefix nk eid = inl p).
Proof.
  split; [intros p; apply registered_row_settled|]. unfold route_payload.
  intros row Hrep Hh Hw. rewrite (proj2 (truthy_true _) Hh), (proj2 (truthy_true _) Hw). cbn [negb orb].
  unfold gateway_route_needs_repair in Hrep. unfold normalize_target.
  change (Py.strip u) with (Py.strip_opt (Some u)).
  destruct (Py.truthy (Py.strip_opt (Some u))) eqn:E1; [|done]. cbn [negb] in *.
  unfold normalize_http_target in Hrep.
  assert (Hs : Py.strip_opt (Some (Py.strip_opt (Some u))) = Py.strip_opt (Some u))
    by (unfold Py.strip_opt; cbn; apply Py.strip_idem).
  rewrite Hs, E1 in Hrep. cbn [negb] in Hrep.
  destruct (has_http_scheme _); [eauto|done].
Qed.

(** *** Ports of remote targets *)

(** The characters of a host name or an IPv4 address. *)
Definition is_host_char (c : ascii) : bool :=
  let n := Z.of_N (N_of_ascii c) in
  is_letter c || ((48 <=? n) && (n <=? 57)) || Ascii.eqb c "." || Ascii.eqb c "-".
Definition is_host (s : string) : bool :=
  Py.truthy s && forallb is_host_char (list_ascii_of_string s).

Lemma host_char_excludes c : is_host_char c = true →
  Py.is_space c = false ∧ c ≠ ":"%char ∧ c ≠ "/"%char ∧ c ≠ "@"%char ∧ c ≠ "?"%char ∧ c ≠ "#"%char.
Proof.
  destruct c as [[] [] [] [] [] [] [] []]; vm_compute; try discriminate; intros _;
    repeat split; discriminate.
Qed.

Lemma str_of_Z_host p : 0 ≤ p → all_chars is_host_char (Py.str_of_Z p).
Proof.
  intros Hp. eapply all_chars_weaken; [|by apply str_of_Z_digits]. intros c Hc.
  destruct c as [[] [] [] [] [] [] [] []]; by vm_compute in Hc |- *.
Qed.


Lemma contains_no_slash s : all_chars (λ d, negb (Ascii.eqb "/" d)) s → Py.contains "://" s = false.
Proof.
  induction s as [|d s IH]; intros H; [done|]. inversion H as [|? ? Hd Hs]; subst.
  change (Py.contains "://" (String d s)) with (Py.startswith "://" (String d s) || Py.contains "://" s).
  rewrite IH by done. rewrite orb_false_r, startswith_cons.
  destruct (ascii_dec ":" d); [|done]. destruct s as [|a s]; [done|].
  inversion Hs as [|? ? He]; subst. rewrite startswith_cons.
  destruct (ascii_dec "/" a) as [<-|]; [done|done].
Qed.

Lemma host_port_chars ip p : is_host ip = true → 0 ≤ p →
  all_chars (λ c, is_host_char c || Ascii.eqb ":" c) (ip ++ ":" ++ Py.str_of_Z p).
Proof.
  unfold is_host. intros [_ H]%andb_true_iff Hp. rewrite !all_chars_app. split_and!.
  - apply Forall_forall. intros c Hc. rewrite forallb_forall in H.
    by rewrite H by (by apply list_elem_of_In).
  - by repeat constructor.
  - eapply all_chars_weaken; [|by apply str_of_Z_host]. intros c ->. done.
Qed.

(** A [host:port] target is read back as its port. *)
Lemma route_target_port_host_port ip p :
  is_host ip = true → 0 ≤ p ≤ 65535 →
  route_target_port (Some (ip ++ ":" ++ Py.str_of_Z p)%string) = Some p.
Proof.
  intros Hip [Hp1 Hp2]. set (t := (ip ++ ":" ++ Py.str_of_Z p)%string).
  assert (Ht : all_chars (λ c, is_host_char c || Ascii.eqb ":" c) t) by (by apply host_port_chars).
  assert (Hex : ∀ c, is_host_char c || Ascii.eqb ":" c = true →
    Py.is_space c = false ∧ Ascii.eqb "/" c = false ∧ Ascii.eqb "@" c = false ∧
    Ascii.eqb "?" c = false ∧ Ascii.eqb "#" c = false).
  { intros c [Hc| <-%Ascii.eqb_eq]%orb_true_iff; [|done].
    destruct (host_char_excludes c Hc) as (H1 & _ & H2 & H3 & H4 & H5).
    rewrite !Ascii.eqb_neq. split_and!; congruence. }
  assert (Hw : ∀ Q, (∀ c, is_host_char c || Ascii.eqb ":" c = true → Q c = true) → all_chars Q t).
  { intros Q HQ. exact (all_chars_weaken _ _ _ HQ Ht). }
  unfold route_target_port. change (Py.strip_opt (Some t)) with (Py.strip t).
  rewrite strip_no_space.
  2:{ apply Hw. intros c Hc. by rewrite (proj1 (Hex c Hc)). }
  assert (Hne : Py.truthy t = true).
  { apply truthy_true. unfold t. unfold is_host in Hip. apply andb_true_iff in Hip as [Hip _].
    apply truthy_true in Hip. by destruct ip. }
  rewrite Hne. cbn [negb]. rewrite contains_no_slash.
  2:{ apply Hw. intros c Hc. by destruct (Hex c Hc) as (_ & -> & _). }
  assert (Hsplit : urlsplit ("http://" ++ t) = (t, Py.until (λ c, Ascii.eqb c "?" || Ascii.eqb c "#")
            (String.substring (String.length t) (String.length t) t))).
  { unfold urlsplit. change ("http://" ++ t)%string with ("http" ++ String ":" ("//" ++ t))%string.
    rewrite partition_host by (by repeat constructor). change (valid_scheme "http") with true.
    change ("//" ++ t)%string with (String "/" (String "/" t)). cbn iota zeta.
    rewrite (until_none (λ c, Ascii.eqb c "/" || (Ascii.eqb c "?" || Ascii.eqb c "#")) t); [done|]. apply Hw. intros c Hc.
    destruct (Hex c Hc) as (_ & H1 & _ & H2 & H3). rewrite !(Ascii.eqb_sym c), H1, H2, H3. done. }
  rewrite Hsplit. unfold netloc_port. rewrite after_last_none.
  2:{ apply Hw. intros c Hc. by destruct (Hex c Hc) as (_ & _ & -> & _). }
  cbn [default from_option]. unfold t. change (":" ++ Py.str_of_Z p)%string with (String ":" (Py.str_of_Z p)).
  rewrite partition_host.
  2:{ unfold is_host in Hip. apply andb_true_iff in Hip as [_ Hip]. rewrite forallb_forall in Hip.
      apply Forall_forall. intros c Hc%list_elem_of_In. specialize (Hip c Hc).
      destruct (host_char_excludes c Hip) as (_ & H & _).
      apply negb_true_iff, Ascii.eqb_neq. congruence. }
  cbn [snd]. pose proof (Py.digits_str_of_Z p Hp1) as Hd.
  destruct (Py.str_of_Z p) eqn:Es; [done|]. rewrite Hd.
  destruct (Z.leb_spec p 65535); [done|lia].
Qed.

(** The route target chosen for a workspace on a remote node is the node's
    private address with the container's published port, taken from the route
    target the orchestrator reported or else from the internal endpoint, and
    reading the chosen target back gives that same port. *)
Lemma remote_route_target_roundtrip (s s' : St W) (nk grt ie target : option string)
    (eid : option Z) (nid : Z) (n : ExecutionNode) (ip : string)
    (Hnode : find_node (Py.strip_opt nk) (st_db s) = Some (nid, n))
    (Hkey : Py.strip_opt nk ≠ ""%string)
    (Hremote : is_remote_node n = true)
    (Hip : Py.strip_opt (node_private_ip n) = ip ∧ is_host ip = true)
    (Hports : ∀ v p, (v = grt ∨ v = ie) → route_target_port v = Some p → 0 ≤ p ≤ 65535)
    (Hrun : remote_gateway_route_target_for_node nk eid grt ie s = (s', inl target)) :
  ∃ p, target = Some (ip ++ ":" ++ Py.str_of_Z p)%string ∧ s' = s ∧
    route_target_port target = Some p ∧
    (route_target_port grt = Some p ∨ route_target_port ie = Some p).
Proof.
  revert Hrun. unfold remote_gateway_route_target_for_node, node_by_key.
  rewrite (proj2 (truthy_true _) Hkey).
  cbv [mbind eff_bind query gets mret eff_ret raise]. rewrite Hnode. cbn [fmap option_fmap option_map snd].
  rewrite Hremote. destruct Hip as [-> Hip]. cbn [negb].
  assert (Htr : Py.truthy ip = true) by (unfold is_host in Hip; by apply andb_true_iff in Hip as [? _]).
  rewrite Htr. cbn [negb].
  set (port := match route_target_port grt with None | Some 0 => _ | Some _ => _ end).
  assert (Hport : ∀ p, port = Some p → route_target_port grt = Some p ∨ route_target_port ie = Some p).
  { intros p. unfold port. destruct (route_target_port grt) as [[|q|q]|]; auto. }
  clearbody port. destruct port as [p|]; [|done]. intros [= <- <-]. exists p.
  split_and!; [done|done| |by apply Hport]. apply route_target_port_host_port; [done|].
  destruct (Hport p eq_refl) as [H|H]; [apply (Hports grt)|apply (Hports ie)]; auto.
Qed.
End properties.
