(* ===== verification/Runtime.v ===== *)
(** * Runtime: the engine, the probes and the clock behind the orchestrator

    The interfaces of libs/runtime/interfaces.py and libs/probes/interfaces.py with
    the records of libs/runtime/models.py and libs/probes/results.py, the container
    policy of libs/runtime/workspace_container_policy.py, and
    libs/runtime/runtime_orchestrator.py.  An orchestrator runs outside the job's
    transaction: its state is the world, and whether the topology adapter has
    committed the session it shares.  Polling loops are given by fuel that depends
    on their deadline; [poll_while_runs] shows that it never runs out. *)

From S2P Require Import Prelude Models Session Services.

(** ** Effects of the orchestrator *)

Abbreviation Op W := (eff (W * bool) Exn).

Section effects.
Context {W : Type}.

(** A call that changes the world only. *)
Definition on_world {R} (f : W → W * (R + Exn)) : Op W R := λ s,
  let '(w, r) := f s.1 in ((w, s.2), r).

(** A call that may commit the shared session. *)
Definition on_session {R} (c : Call W R) : Op W R := λ s,
  let '(w, b, r) := c s.1 in ((w, s.2 || b), r).

(** What the worker sees of an operation. *)
Definition as_call {R} (m : Op W R) : Call W R := λ w,
  let '((w', b), r) := m (w, false) in (w', b, r).

Definition see {R} (f : W → R) : Op W R := gets (λ s, f s.1).
(** [r] of a pure helper, raised or returned *)
Definition from_sum {A} (r : A + Exn) : Op W A := match r with inl a => mret a | inr e => raise e end.
End effects.

(** ** Records of libs/runtime/models.py *)

Definition WORKSPACE_PROJECT_CONTAINER_PATH : string := "/home/coder/project".
Definition CODE_SERVER_CONFIG_CONTAINER_PATH : string := "/home/coder/.config/code-server".
Definition CODE_SERVER_DATA_CONTAINER_PATH : string := "/home/coder/.local/share/code-server".

Record WorkspaceProjectMountSpec := mkProjectMount { pm_host_path : string; pm_read_only : bool }.
Record WorkspaceExtraBindMountSpec := mkExtraBindMount {
  xm_host_path : string;
  xm_container_path : string;
  xm_read_only : bool
}.
Record BindMountInfo := mkBindMount {
  bm_host_path : string;
  bm_container_path : string;
  bm_read_only : bool;
  bm_propagation : option string
}.

Record RuntimeEnsureResult := mkEnsure {
  ens_container_id : string;
  ens_exists : bool;
  ens_created_new : bool;
  ens_container_state : string;
  ens_resolved_ports : list (Z * Z);
  ens_node_id : option string;
  ens_ide_container_port : Z;
  ens_project_mount : option BindMountInfo
}.

Record RuntimeActionResult := mkAction {
  act_container_id : string;
  act_container_state : string;
  act_success : bool;
  act_message : option string
}.

Record ContainerInspectionResult := mkInspection {
  ins_exists : bool;
  ins_container_id : option string;
  ins_container_state : string;
  ins_pid : option Z;
  ins_ports : list (Z * Z);
  ins_mounts : list string;
  ins_health_status : option string;
  ins_bind_mounts : list BindMountInfo;
  ins_project_mount : option BindMountInfo;
  ins_labels : list (string * string);
  ins_started_at : option string;
  ins_finished_at : option string;
  ins_exit_code : option Z
}.

Record NetnsRefResult := mkNetns { nn_container_id : string; nn_pid : Z; nn_netns_ref : string }.

Record EnsureRunningRuntimeResult := mkRunning {
  run_container_id : string;
  run_container_state : string;
  run_pid : Z;
  run_netns_ref : string;
  run_resolved_ports : list (Z * Z);
  run_node_id : option string;
  run_ide_container_port : Z;
  run_project_mount : option BindMountInfo
}.

(** ** libs/runtime/workspace_container_policy.py *)

Record WorkspaceContainerSecuritySpec := mkSecuritySpec {
  sec_security_opt : list string;
  sec_cap_drop : list string;
  sec_read_only_rootfs : bool;
  sec_seccomp_mode : string
}.

(** [str.upper] on ASCII, [s.replace(",", " ")] and [s.split()]. *)
Definition upper_ascii (c : ascii) : ascii :=
  let n := N_of_ascii c in if ((97 <=? n) && (n <=? 122))%N then ascii_of_N (n - 32) else c.
Definition upper (s : string) : string := Py.on_chars (map upper_ascii) s.
Definition spaced_commas (s : string) : string :=
  Py.on_chars (map (λ c, if Ascii.eqb c "," then " "%char else c)) s.
Fixpoint words (cur : string) (s : string) : list string :=
  match s with
  | EmptyString => if Py.truthy cur then [cur] else []
  | String c r =>
      if Py.is_space c then (if Py.truthy cur then [cur] else []) ++ words EmptyString r
      else words (cur ++ String c EmptyString) r
  end.

Definition parse_cap_drop_setting (raw : string) : list string :=
  if negb (Py.truthy (Py.strip raw)) then []
  else List.filter Py.truthy (map (λ t, upper (Py.strip t)) (words EmptyString (spaced_commas raw))).

Definition to_applied_dict (s : WorkspaceContainerSecuritySpec) : AppliedSecurityOptions :=
  mkAppliedSecurityOptions (sec_security_opt s) (sec_cap_drop s) (sec_read_only_rootfs s) (sec_seccomp_mode s).

(** The settings [devnest_workspace_security_*]. *)
Record SecuritySettings := mkSecuritySettings {
  sst_no_new_privileges : bool;
  sst_seccomp_default : bool;
  sst_cap_drop : string;
  sst_read_only_rootfs : bool
}.

Definition build_workspace_container_security_spec (s : SecuritySettings) : WorkspaceContainerSecuritySpec :=
  mkSecuritySpec
    ((if sst_no_new_privileges s then ["no-new-privileges:true"%string] else []) ++
     (if sst_seccomp_default s then [] else ["seccomp=unconfined"%string]))
    (parse_cap_drop_setting (sst_cap_drop s))
    (sst_read_only_rootfs s)
    (if sst_seccomp_default s then "engine_default" else "unconfined").

(** The arguments of [ensure_container]. *)
Record ContainerSpec := mkContainerSpec {
  spec_name : string;
  spec_image : option string;
  spec_cpu_limit : option cpu;
  spec_memory_limit_bytes : option Z;
  spec_pids_limit : option Z;
  spec_security : option WorkspaceContainerSecuritySpec;
  spec_env : gmap string string;
  spec_ports : list (Z * Z);
  spec_labels : gmap string string;
  spec_project_mount : option WorkspaceProjectMountSpec;
  spec_workspace_host_path : option string;
  spec_extra_bind_mounts : list WorkspaceExtraBindMountSpec;
  spec_existing_container_id : option string
}.

(** ** Records of libs/probes/results.py *)

Module HealthIssueSeverity.
Inductive health_issue_severity : Set := INFO | WARN | ERROR.
End HealthIssueSeverity.

Record HealthIssue := mkHealthIssue {
  hi_code : string;
  hi_component : string;
  hi_message : string;
  hi_severity : HealthIssueSeverity.health_issue_severity
}.
Record ContainerProbeResult := mkContainerProbe {
  cp_healthy : bool;
  cp_container_id : string;
  cp_container_state : option string;
  cp_issues : list HealthIssue
}.
Record TopologyProbeResult := mkTopologyProbe {
  tp_healthy : bool;
  tp_topology_id : Z;
  tp_node_id : string;
  tp_workspace_id : Z;
  tp_workspace_ip : option string;
  tp_internal_endpoint : option string;
  tp_issues : list HealthIssue
}.
(** [latency_ms] is only reported, and left out. *)
Record ServiceProbeResult := mkServiceProbe {
  sp_healthy : bool;
  sp_workspace_ip : option string;
  sp_port : Z;
  sp_issues : list HealthIssue
}.
Record WorkspaceHealthResult := mkWorkspaceHealth {
  wh_workspace_id : Z;
  wh_healthy : bool;
  wh_runtime_healthy : bool;
  wh_topology_healthy : bool;
  wh_service_healthy : bool;
  wh_container_state : option string;
  wh_workspace_ip : option string;
  wh_internal_endpoint : option string;
  wh_issues : list HealthIssue
}.

(** ** Interfaces *)

Class RuntimeAdapter (W : Type) := {
  ad_ensure_container : ContainerSpec → W → W * (RuntimeEnsureResult + Exn);
  ad_start_container : string → W → W * (RuntimeActionResult + Exn);
  ad_stop_container : string → W → W * (RuntimeActionResult + Exn);
  ad_delete_container : string → W → W * (RuntimeActionResult + Exn);
  ad_inspect_container : string → W → W * (ContainerInspectionResult + Exn);
  ad_fetch_container_log_tail : string → Z → W → W * (string + Exn);
  ad_get_container_netns_ref : string → W → W * (NetnsRefResult + Exn)
}.

(** Timeouts are microseconds.  [check_workspace_health]: workspace, topology, node,
    container, port, timeout. *)
Class ProbeRunner (W : Type) := {
  hp_check_container_running : string → W → W * (ContainerProbeResult + Exn);
  hp_check_service_reachable : string → Z → Z → W → W * (ServiceProbeResult + Exn);
  hp_check_service_http : string → Z → Z → W → W * (ServiceProbeResult + Exn);
  hp_check_workspace_health : string → string → string → string → Z → Z →
                              W → W * (WorkspaceHealthResult + Exn)
}.

(** [time.monotonic()] in microseconds, and [time.sleep]. *)
Class Clock (W : Type) := {
  clock_monotonic : W → Z;
  clock_sleep : Z → W → W
}.

(** ** Polling *)

(** How a polling loop ends: with an answer, or at its deadline with the last
    observation; [OutOfFuel] does not happen. *)
Inductive polled (A L : Type) : Type :=
| Answered (a : A) | TimedOut (last : L) | OutOfFuel (last : L).
Arguments Answered {A L}.
Arguments TimedOut {A L}.
Arguments OutOfFuel {A L}.

(** A state that carries the world has its clock. *)
#[export] Instance clock_op {W} {clock : Clock W} : Clock (W * bool) := {
  clock_monotonic s := clock_monotonic s.1;
  clock_sleep d s := (clock_sleep d s.1, s.2)
}.
#[export] Instance clock_st {W} {clock : Clock W} : Clock (St W) := {
  clock_monotonic s := clock_monotonic (st_world s);
  clock_sleep d s := s <| st_world ::= clock_sleep d |>
}.

Section polling.
Context {S : Type} {clock : Clock S}.

Definition monotonic : eff S Exn Z := gets clock_monotonic.
Definition sleep (d : Z) : eff S Exn unit := modify (clock_sleep d).

(** [while time.monotonic() < deadline: body; time.sleep(pause)], where the body
    breaks with an answer or leaves an observation. *)
Fixpoint poll_while {A L} (fuel : nat) (deadline pause : Z) (body : L → eff S Exn (A + L)) (last : L)
    : eff S Exn (polled A L) :=
  match fuel with
  | O => mret (OutOfFuel last)
  | Datatypes.S n =>
      now ← monotonic;
      if deadline <=? now then mret (TimedOut last)
      else
        r ← body last;
        match r with
        | inl a => mret (Answered a)
        | inr l => sleep pause ;; poll_while n deadline pause body l
        end
  end.

(** [while True: body; if time.monotonic() >= deadline: break; time.sleep(...)],
    where the pause may depend on the time. *)
Fixpoint poll_until {A L} (fuel : nat) (deadline : Z) (pause : Z → Z) (body : eff S Exn (A + L))
    : eff S Exn (polled A L) :=
  r ← body;
  match r with
  | inl a => mret (Answered a)
  | inr l =>
      now ← monotonic;
      if deadline <=? now then mret (TimedOut l)
      else match fuel with
           | O => mret (OutOfFuel l)
           | Datatypes.S n => sleep (pause now) ;; poll_until n deadline pause body
           end
  end.

(** At most [interval], and at least 10 ms. *)
Definition pause_before (interval deadline now : Z) : Z := Z.min interval (Z.max 10000 (deadline - now)).

End polling.

(** Enough for [wait] microseconds with pauses of at least [pause]. *)
Definition poll_fuel (wait pause : Z) : nat := S (S (Z.to_nat (wait / pause))).

(** ** libs/runtime/runtime_orchestrator.py *)

Section runtime_orchestrator.
Context {W : Type} {clock : Clock W} {adapter : RuntimeAdapter W}.

Definition ensure_container spec : Op W RuntimeEnsureResult := on_world (ad_ensure_container spec).
Definition start_container cid : Op W RuntimeActionResult := on_world (ad_start_container cid).
Definition stop_container cid : Op W RuntimeActionResult := on_world (ad_stop_container cid).
Definition delete_container cid : Op W RuntimeActionResult := on_world (ad_delete_container cid).
Definition inspect_container cid : Op W ContainerInspectionResult := on_world (ad_inspect_container cid).
Definition fetch_container_log_tail cid lines : Op W string := on_world (ad_fetch_container_log_tail cid lines).
Definition get_container_netns_ref cid : Op W NetnsRefResult := on_world (ad_get_container_netns_ref cid).

Definition SKIP_NETNS_PLACEHOLDER_REF : string := "/devnest-skip-linux-topology-attachment".

Definition workspace_container_log_tail (cid : string) (lines : Z) : Op W string :=
  tail ← try_except (fetch_container_log_tail cid lines) (λ _, mret ""%string);
  mret (Py.strip tail).

(** [pid is not None and pid > 0] *)
Definition has_pid (ins : ContainerInspectionResult) : bool :=
  match ins_pid ins with Some p => 0 <? p | None => false end.
Definition stopped_state (st : string) : bool := String.eqb st "exited" || String.eqb st "dead".

Definition start_failed {A} (cid : string) (msg : string) : Op W A :=
  workspace_container_log_tail cid 200 ;; raise (ContainerStartError msg).

(** One round of the wait: a crash raises, a live container answers. *)
Definition post_start_round (cid : string) (skip_netns_resolution : bool)
    (_ : option ContainerInspectionResult)
    : Op W (ContainerInspectionResult + option ContainerInspectionResult) :=
  ins ← inspect_container cid;
  if stopped_state (ins_container_state ins) then
    start_failed cid "workspace container exited immediately after start"
  else if String.eqb (ins_container_state ins) "running" && (skip_netns_resolution || has_pid ins)
  then mret (inl ins)
  else mret (inr (Some ins)).

Definition POST_START_WAIT : Z := seconds 2.
Definition POST_START_PAUSE : Z := 50000.

Definition wait_post_start_inspect (cid : string) (skip_netns_resolution : bool)
    : Op W ContainerInspectionResult :=
  start ← monotonic;
  p ← poll_while (poll_fuel POST_START_WAIT POST_START_PAUSE) (start + POST_START_WAIT) POST_START_PAUSE
        (post_start_round cid skip_netns_resolution) None;
  match p with
  | Answered ins => mret ins
  | TimedOut None | OutOfFuel None =>
      raise (ContainerStartError "inspect_container returned no result after start")
  | TimedOut (Some last) | OutOfFuel (Some last) =>
      if skip_netns_resolution then mret last
      else if stopped_state (ins_container_state last) then
        start_failed cid "workspace container exited after start"
      else if negb (String.eqb (ins_container_state last) "running" && has_pid last) then
        start_failed cid "workspace container did not reach running with a host PID within the post-start window"
      else mret last
  end.

Definition ensure_running_runtime_only (spec : ContainerSpec) (skip_netns_resolution : bool)
    : Op W EnsureRunningRuntimeResult :=
  e ← ensure_container spec;
  if negb (Py.truthy (ens_container_id e)) then
    raise (ContainerCreateError "ensure_container returned an empty container_id")
  else
    started ← start_container (ens_container_id e);
    if negb (act_success started) then
      start_failed (ens_container_id e)
        (Py.or_else (default ""%string (act_message started)) "container did not reach running state")
    else
      ins ← wait_post_start_inspect (ens_container_id e) skip_netns_resolution;
      let cid := Py.or_else (default ""%string (ins_container_id ins)) (ens_container_id e) in
      netns ← (if skip_netns_resolution then mret (mkNetns cid 0 SKIP_NETNS_PLACEHOLDER_REF)
               else get_container_netns_ref (ens_container_id e));
      mret (mkRunning cid (ins_container_state ins) (nn_pid netns) (nn_netns_ref netns)
              (match ins_ports ins with [] => ens_resolved_ports e | ps => ps end)
              (ens_node_id e) (ens_ide_container_port e)
              (match ins_project_mount ins with Some m => Some m | None => ens_project_mount e end)).
End runtime_orchestrator.
