(* ===== verification/HostFiles.v ===== *)
(** * HostFiles: the file system of the control plane

    What the source uses of [os], [pathlib] and [shutil], and of the subprocesses
    [chown], [setpriv] and [runuser], on a tree of directories, regular files and
    symbolic links with their owners.  [namei] is the kernel's reading of a path, which
    follows links on its way, and [realpath] that of Python.  A relative path is taken
    from the root; two names of one file (hard links) are two files.  Which operations
    the system denies, and how far an operation that failed got, is up to the world. *)

From S2P Require Import Prelude Models Session Services Runtime.

Abbreviation path := (list string) (only parsing).

(** ** Paths *)

(** The components of [s.split("/")], without the empty ones and [.]. *)
Fixpoint components (cur : string) (s : string) : list string :=
  match s with
  | EmptyString => [cur]
  | String c r =>
      if Ascii.eqb c "/" then cur :: components EmptyString r
      else components (cur ++ String c EmptyString) r
  end.

(** The steps of a path: its components, without the empty ones. *)
Definition steps (s : string) : path := List.filter Py.truthy (components EmptyString s).

(** [os.path.normpath]: [..] leaves the directory before it; at the root it stays there. *)
Definition skipped (c : string) : bool := String.eqb c "" || String.eqb c ".".
Definition step_into (p : path) (c : string) : path :=
  if skipped c then p
  else if String.eqb c ".." then removelast p
  else p ++ [c].
Definition joined (p : path) (s : string) : path := if Py.startswith "/" s then steps s else p ++ steps s.
Definition show (p : path) : string := ("/" ++ Py.join "/" p)%string.

(** [posixpath.join], [posixpath.basename], [posixpath.dirname] *)
Definition ends_with_slash (s : string) : bool :=
  match List.rev (list_ascii_of_string s) with c :: _ => Ascii.eqb c "/" | [] => false end.
Definition join_path (a b : string) : string :=
  if Py.startswith "/" b then b
  else if String.eqb a "" || ends_with_slash a then (a ++ b)%string
  else (a ++ "/" ++ b)%string.
Definition basename (s : string) : string := default s (Py.after_last "/" s).
Definition dirname (s : string) : string :=
  let keep := substring 0 (String.length s - String.length (basename s)) s in
  let stripped := Py.rstrip_slash keep in
  if Py.truthy stripped then stripped else keep.

(** ** The tree *)

Inductive FsNode : Set :=
| Directory (uid gid : Z) | RegularFile (uid gid : Z) (content : string) | SymbolicLink (uid gid : Z) (target : string).
Abbreviation FileTree := (gmap (list string) FsNode).

Definition is_directory (n : option FsNode) : bool :=
  match n with Some (Directory _ _) => true | _ => false end.
Definition is_regular (n : option FsNode) : bool :=
  match n with Some (RegularFile _ _ _) => true | _ => false end.
Definition is_link (n : option FsNode) : bool :=
  match n with Some (SymbolicLink _ _ _) => true | _ => false end.
Definition owner (n : FsNode) : Z * Z :=
  match n with Directory u g | RegularFile u g _ | SymbolicLink u g _ => (u, g) end.
Definition owned_by (uid gid : Z) (n : FsNode) : FsNode :=
  match n with
  | Directory _ _ => Directory uid gid
  | RegularFile _ _ c => RegularFile uid gid c
  | SymbolicLink _ _ l => SymbolicLink uid gid l
  end.

(** [q] is [p] or below it. *)
Definition within_dir (p q : path) : Prop := p `prefix_of` q.
#[export] Instance within_dir_dec p q : Decision (within_dir p q) := _.

Definition children (p : path) (t : FileTree) : list string :=
  omap last (List.filter (λ q, bool_decide (within_dir p q ∧ length q = S (length p))) (map_to_list t).*1).

(** The nodes at and below [p] that satisfy [which], with a new owner, or removed. *)
Definition chowned (p : path) (which : path → bool) (uid gid : Z) (t : FileTree) : FileTree :=
  map_imap (λ q n, Some (if bool_decide (within_dir p q) && which q then owned_by uid gid n else n)) t.
Definition removed (p : path) (which : path → bool) (t : FileTree) : FileTree :=
  filter (λ '(q, _), ¬ (within_dir p q ∧ which q = true)) t.

(** ** Finding a node *)

Definition enoent : Exn := FileNotFoundError "No such file or directory".
Definition enotdir : Exn := OSError "Not a directory".
Definition eisdir : Exn := OSError "Is a directory".
Definition eexist : Exn := FileExistsError "File exists".
Definition eloop : Exn := OSError "Too many levels of symbolic links".

(** Where a link is read from *)
Definition link_base (cur : path) (target : string) : path := if Py.startswith "/" target then [] else cur.

(** The kernel's reading of a path from the directory [cur]: each step is taken in a
    directory; a link is replaced by its target, the last step's only if [follow], and at
    most [links] of them.  The node at the result may be missing. *)
Fixpoint namei (links : nat) (t : FileTree) (follow : bool) : path → path → path + Exn :=
  fix from (cur cs : path) : path + Exn :=
    match cs with
    | [] => inl cur
    | c :: rest =>
        match t !! cur with
        | Some (Directory _ _) =>
            if skipped c then from cur rest
            else if String.eqb c ".." then from (removelast cur) rest
            else match t !! (cur ++ [c]) with
                 | Some (SymbolicLink _ _ target) =>
                     if (match rest with [] => negb follow | _ => false end) then inl (cur ++ [c])
                     else match links with
                          | O => inr eloop
                          | S n => namei n t follow (link_base cur target) (components EmptyString target ++ rest)
                          end
                 | _ => from (cur ++ [c]) rest
                 end
        | None => inr enoent
        | Some _ => inr enotdir
        end
    end.
Definition MAXSYMLINKS : nat := 40.
Definition find_path (t : FileTree) (follow : bool) (p : path) : path + Exn := namei MAXSYMLINKS t follow [] p.
(** What [stat] ([lstat] without [follow]) finds at a path *)
Definition node_at (t : FileTree) (follow : bool) (p : path) : option FsNode :=
  match find_path t follow p with inl q => t !! q | inr _ => None end.

(** [os.path.realpath]: the path without links, what does not exist taken as it is
    written; [false] when a link leads back to itself, and is left.  [within_links]: the
    links being read, each of which adds one to the depth, so that as many as the tree
    has nodes are enough. *)
Fixpoint realpath_from (depth : nat) (within_links : list path) (t : FileTree) : path → path → path * bool :=
  fix from (cur cs : path) : path * bool :=
    match cs with
    | [] => (cur, true)
    | c :: rest =>
        if skipped c then from cur rest
        else if String.eqb c ".." then from (removelast cur) rest
        else match t !! (cur ++ [c]) with
             | Some (SymbolicLink _ _ target) =>
                 match depth with
                 | S d =>
                     if bool_decide (cur ++ [c] ∈ within_links) then (foldl step_into (cur ++ [c]) rest, false)
                     else match realpath_from d ((cur ++ [c]) :: within_links) t (link_base cur target)
                                 (components EmptyString target) with
                          | (p, true) => from p rest
                          | (p, false) => (foldl step_into p rest, false)
                          end
                 | O => (foldl step_into (cur ++ [c]) rest, false)
                 end
             | _ => from (cur ++ [c]) rest
             end
    end.
Definition realpath (t : FileTree) (p : path) : path * bool := realpath_from (S (size t)) [] t [] p.

(** ** The interface to the operating system *)

Inductive FsOp : Set := OpMkdir | OpListDir | OpUnlink | OpRead | OpWrite | OpRename | OpSymlink | OpLink.
(** [chown -R], and [os.chown] along [os.walk] *)
Inductive ChownTool : Set := ShellChown | WalkChown.
(** [test -w && test -x], and [test -r && test -w], as the runtime user *)
Inductive AccessCheck : Set := WritableDir | ReadWriteFile.
Inductive PrivDrop : Set := SetPriv | RunUser.

Class HostFs (W : Type) := {
  hf_tree : W → FileTree;
  hf_set_tree : FileTree → W → W;
  hf_tree_set : ∀ t w, hf_tree (hf_set_tree t w) = t;
  (** the text of the [OSError], if the system refuses *)
  hf_denied : FsOp → path → W → option string;
  (** the nodes a recursive operation reaches, and its error; without one it
      reaches all *)
  hf_chown : ChownTool → path → W → (path → bool) * option string;
  hf_rmtree : path → W → (path → bool) * option string;
  hf_chown_all : ∀ tool p w q, (hf_chown tool p w).2 = None → (hf_chown tool p w).1 q = true;
  hf_rmtree_all : ∀ p w q, (hf_rmtree p w).2 = None → (hf_rmtree p w).1 q = true;
  (** the exit status 0, or what [subprocess.run] raises *)
  hf_access : AccessCheck → PrivDrop → path → Z → Z → W → bool + Exn;
  hf_euid : Z;
  hf_egid : Z;
  hf_has_chown : bool;                                    (* shutil.which *)
  hf_has_setpriv : bool;
  hf_has_runuser : bool;
  hf_tempdir : string;
  (** DEVNEST_WORKSPACE_CONTAINER_UID and _GID, "1000" when unset *)
  hf_container_uid : string;
  hf_container_gid : string
}.

(** The control plane's own filesystem: [Path.is_dir], the names in a directory, and
    whether a path is a file that is not empty. *)
Class HostFilesystem (W : Type) := {
  fs_is_dir : string → W → bool;
  fs_list_dir : string → W → list string;
  fs_nonempty_file : string → W → bool
}.

Section host.
Context {W : Type} {fs : HostFs W}.

Definition files : Op W FileTree := see hf_tree.
Definition set_files (f : FileTree → FileTree) : Op W unit :=
  modify (λ s, (hf_set_tree (f (hf_tree s.1)) s.1, s.2)).

Definition permitted (op : FsOp) (p : path) : Op W unit :=
  d ← see (hf_denied op p);
  match d with Some m => raise (OSError m) | None => mret tt end.

(** [os.path.realpath]; [Path.resolve], which raises for a link that leads back to
    itself *)
Definition os_realpath (s : string) : Op W string := t ← files; mret (show (realpath t (steps s)).1).
Definition resolve_at (p : path) : Op W path :=
  t ← files;
  if (realpath t p).2 then mret (realpath t p).1 else raise (RuntimeError "Symlink loop").
Definition path_resolve (s : string) : Op W string := p ← resolve_at (steps s); mret (show p).

Definition is_dir_at (p : path) : Op W bool := t ← files; mret (is_directory (node_at t true p)).
Definition is_file_at (p : path) : Op W bool := t ← files; mret (is_regular (node_at t true p)).
Definition exists_at (p : path) : Op W bool := t ← files; mret (bool_decide (is_Some (node_at t true p))).
Definition lexists_at (p : path) : Op W bool := t ← files; mret (bool_decide (is_Some (node_at t false p))).
Definition is_dir (s : string) : Op W bool := is_dir_at (steps s).
Definition is_file (s : string) : Op W bool := is_file_at (steps s).
Definition lexists (s : string) : Op W bool := lexists_at (steps s).
Definition is_symlink (s : string) : Op W bool := t ← files; mret (is_link (node_at t false (steps s))).

(** [os.mkdir]: the path it makes must be new, in a directory. *)
Definition mkdir_at (p : path) : Op W unit :=
  permitted OpMkdir p ;;
  t ← files;
  q ← from_sum (find_path t false p);
  match t !! q with
  | Some _ => raise eexist
  | None => set_files <[q := Directory hf_euid hf_egid]>
  end.
(** An [OSError] does not matter for a directory that is there. *)
Definition unless_dir (p : path) (e : Exn) : Op W unit :=
  if is_oserror e then there ← is_dir_at p; if there : bool then mret tt else raise e else raise e.

(** [Path.mkdir(exist_ok=True)]; with [parents=True], a path has as many parents as steps. *)
Definition mkdir_once (p : path) : Op W unit :=
  try_except (mkdir_at p) (λ e, match e with FileNotFoundError _ => raise e | _ => unless_dir p e end).
Fixpoint mkdir_parents (n : nat) (p : path) : Op W unit :=
  try_except (mkdir_once p) (λ e, match n, e with
    | S n, FileNotFoundError _ => mkdir_parents n (removelast p) ;; mkdir_once p
    | _, _ => raise e
    end).
Definition mkdir_path (p : path) : Op W unit := mkdir_parents (length p) p.

(** [os.makedirs] *)
Fixpoint makedirs_from (n : nat) (exist_ok : bool) (p : path) : Op W unit :=
  let make := try_except (mkdir_at p) (λ e, if exist_ok then unless_dir p e else raise e) in
  match n with
  | O => make
  | S n =>
      there ← exists_at (removelast p);
      if there : bool then make
      else
        try_except (makedirs_from n exist_ok (removelast p))
          (λ e, match e with FileExistsError _ => mret tt | _ => raise e end) ;;
        if String.eqb (default ""%string (last p)) "." then mret tt else make
  end.
Definition makedirs_at (exist_ok : bool) (p : path) : Op W unit := makedirs_from (length p) exist_ok p.
(** [os.makedirs(path, exist_ok=True)] *)
Definition makedirs (s : string) : Op W unit := makedirs_at true (steps s).

(** [os.stat(path, follow_symlinks=False)] *)
Definition stat_uid_gid (s : string) : Op W (Z * Z) :=
  t ← files;
  q ← from_sum (find_path t false (steps s));
  match t !! q with
  | Some n => mret (owner n)
  | None => raise enoent
  end.

Definition listdir (s : string) : Op W (list string) :=
  permitted OpListDir (steps s) ;;
  t ← files;
  q ← from_sum (find_path t true (steps s));
  match t !! q with
  | Some (Directory _ _) => mret (children q t)
  | Some _ => raise enotdir
  | None => raise enoent
  end.

(** [os.unlink] of a file or a link *)
Definition unlink_at (p : path) : Op W unit :=
  permitted OpUnlink p ;;
  t ← files;
  q ← from_sum (find_path t false p);
  match t !! q with
  | Some (Directory _ _) => raise eisdir
  | Some _ => set_files (delete q)
  | None => raise enoent
  end.
Definition unlink (s : string) : Op W unit := unlink_at (steps s).

(** [shutil.rmtree(path)], of a directory and not of a link to one; with
    [ignore_errors=True] the error is dropped. *)
Definition rmtree_at (p : path) : Op W (option Exn) :=
  t ← files;
  match find_path t false p with
  | inr e => mret (Some e)
  | inl q =>
      match t !! q with
      | Some (Directory _ _) =>
          r ← see (hf_rmtree q);
          set_files (removed q r.1) ;;
          mret (OSError <$> r.2)
      | Some (SymbolicLink _ _ _) => mret (Some (OSError "Cannot call rmtree on a symbolic link"))
      | Some (RegularFile _ _ _) => mret (Some enotdir)
      | None => mret (Some enoent)
      end
  end.
Definition rmtree (s : string) : Op W unit :=
  e ← rmtree_at (steps s);
  match e with Some e => raise e | None => mret tt end.

Definition read_at (p : path) : Op W string :=
  permitted OpRead p ;;
  t ← files;
  q ← from_sum (find_path t true p);
  match t !! q with
  | Some (RegularFile _ _ c) => mret c
  | Some _ => raise eisdir
  | None => raise enoent
  end.
Definition read_file (s : string) : Op W string := read_at (steps s).

(** [open(path, "w")] keeps the owner of an existing file, and makes the file a link
    leads to. *)
Definition write_at (p : path) (content : string) : Op W unit :=
  permitted OpWrite p ;;
  t ← files;
  q ← from_sum (find_path t true p);
  match t !! q with
  | Some (Directory _ _) => raise eisdir
  | Some (RegularFile u g _) => set_files <[q := RegularFile u g content]>
  | Some (SymbolicLink _ _ _) => raise eloop                  (* not after following links *)
  | None => set_files <[q := RegularFile hf_euid hf_egid content]>
  end.
Definition write_file (s : string) (content : string) : Op W unit := write_at (steps s) content.

(** One recursive change of owner, of links and not of what they lead to; the error is
    returned. *)
Definition chown_tree (tool : ChownTool) (s : string) (uid gid : Z) : Op W (option string) :=
  t ← files;
  match find_path t false (steps s) with
  | inr e => mret (Some (exn_str e))
  | inl q =>
      r ← see (hf_chown tool q);
      set_files (chowned q r.1 uid gid) ;;
      mret r.2
  end.
End host.

(** The queries of the requests, on the same tree. *)
#[export] Instance host_filesystem {W} {fs : HostFs W} : HostFilesystem W := {
  fs_is_dir s w := is_directory (node_at (hf_tree w) true (steps s));
  fs_list_dir s w :=
    match find_path (hf_tree w) true (steps s) with inl q => children q (hf_tree w) | inr _ => [] end;
  fs_nonempty_file s w :=
    match node_at (hf_tree w) true (steps s) with Some (RegularFile _ _ c) => Py.truthy c | _ => false end
}.
