(* ===== verification/ProjectDirs.v ===== *)
(** * ProjectDirs: workspace directories on the execution host

    node_execution_service/workspace_project_dir.py: the names of workspace
    directories, creating them and handing them to the runtime user, pruning those of
    no workspace, and the configuration of code-server, on the control plane's own
    file system ([HostFiles]) or over a remote shell.  [expanduser] and the owner
    reports in the log are left out. *)

From S2P Require Import Prelude Models Session Services Runtime HostFiles.

(** ** Names *)

(** [^[a-zA-Z0-9][a-zA-Z0-9_.-]{0,127}$]; the [$] also allows a final newline,
    which the preceding [strip] has removed *)
Definition path_char (c : ascii) : bool :=
  alphanumeric c || Ascii.eqb c "_" || Ascii.eqb c "." || Ascii.eqb c "-".
Definition path_safe (s : string) : bool :=
  match list_ascii_of_string s with
  | [] => false
  | c :: r => alphanumeric c && List.forallb path_char r && (Nat.leb (length r) 127)
  end.

(** [workspace_project_dir_name] *)
Definition workspace_project_dir_name (workspace_id : string) (project_storage_key : option string)
    : string + Exn :=
  let wid := Py.strip workspace_id in
  if negb (path_safe wid) then inr (ValueError "unsafe or empty workspace_id for host path") else
  match Py.strip_or_none project_storage_key with
  | None => inl wid
  | Some key =>
      if path_safe key then inl (wid ++ "-" ++ key)%string
      else inr (ValueError "unsafe workspace project storage key for host path")
  end.

Definition WORKSPACE_USER_PROJECT_SUBDIR : string := "project".

Section bundles.
Context {W : Type} {fs : HostFilesystem W}.

Definition workspace_bundle_has_legacy_root_level_files (root : string) (w : W) : bool :=
  fs_is_dir root w &&
  List.existsb (λ name, negb (String.eqb name WORKSPACE_USER_PROJECT_SUBDIR
                              || String.eqb name "code-server" || Py.startswith "." name))
    (fs_list_dir root w).

Definition workspace_bundle_project_data_present (root : string) (w : W) : bool :=
  if negb (fs_is_dir root w) then false
  else if fs_is_dir (root ++ "/" ++ WORKSPACE_USER_PROJECT_SUBDIR)%string w then true
  else workspace_bundle_has_legacy_root_level_files root w.
End bundles.

(** ** The runtime user *)

Section local.
Context {W : Type} {fs : HostFs W}.

Definition workspace_container_uid_gid : Z * Z :=
  match Py.parse_int (Py.strip hf_container_uid), Py.parse_int (Py.strip hf_container_gid) with
  | Some u, Some g => (u, g)
  | _, _ => (1000, 1000)
  end.

(** [os.geteuid() == 0] *)
Definition strict_chown : bool := hf_euid =? 0.

Definition ensure_host_path_owned_by_workspace_user (s : string) (strict : bool) : Op W unit :=
  root ← path_resolve s;
  there ← lexists root;
  if negb (there : bool) then mret tt
  else
    e ← chown_tree WalkChown root workspace_container_uid_gid.1 workspace_container_uid_gid.2;
    match e with
    | Some m => if strict then raise (OSError m) else mret tt
    | None => mret tt
    end.

Definition chown_tree_for_workspace_runtime (s : string) (strict : bool) : Op W unit :=
  root ← os_realpath s;
  there ← lexists root;
  if negb (there : bool) then
    if strict then raise (OSError "workspace host path missing for chown") else mret tt
  else if strict_chown && hf_has_chown then
    e ← chown_tree ShellChown root workspace_container_uid_gid.1 workspace_container_uid_gid.2;
    match e with
    | None => mret tt
    | Some m => if strict then raise (OSError "chown -R failed")
                else ensure_host_path_owned_by_workspace_user root strict
    end
  else ensure_host_path_owned_by_workspace_user root strict.

Definition finalize_workspace_host_project_tree_ownership (project_root : string) (strict : bool) : Op W unit :=
  root ← os_realpath (Py.strip project_root);
  there ← lexists root;
  if negb (there : bool) then
    if strict then raise (OSError "workspace project root missing for final chown") else mret tt
  else chown_tree_for_workspace_runtime root strict.

Definition verify_workspace_runtime_owns_path (s : string) : Op W unit :=
  got ← stat_uid_gid s;
  if bool_decide (got = workspace_container_uid_gid) then mret tt
  else raise (OSError "workspace host bind-mount path not owned by runtime user").

(** The check under the runtime user's ids, when the process is root and can drop
    them. *)
Definition verify_access (check : AccessCheck) (msg : string) (s : string) : Op W unit :=
  if negb strict_chown then mret tt
  else
    let tool := if hf_has_setpriv then Some SetPriv else if hf_has_runuser then Some RunUser else None in
    match tool with
    | None => mret tt
    | Some t =>
        r ← see (hf_access check t (steps s) workspace_container_uid_gid.1 workspace_container_uid_gid.2);
        match r with
        | inl true => mret tt
        | inl false => raise (OSError msg)
        | inr e => raise e
        end
    end.
Definition verify_workspace_runtime_can_write_dir : string → Op W unit :=
  verify_access WritableDir "workspace host bind-mount path not writable by runtime user".
Definition verify_workspace_runtime_can_read_write_file : string → Op W unit :=
  verify_access ReadWriteFile "workspace host file not readable/writable by runtime user".

(** ** Directories *)

Definition projects_root (projects_base : string) : string :=
  Py.or_else (Py.strip projects_base) (join_path hf_tempdir "devnest-workspaces").

Definition default_local_ensure_workspace_project_dir (projects_base workspace_id : string)
    (project_storage_key : option string) (allow_create : bool) : Op W string :=
  match workspace_project_dir_name workspace_id project_storage_key with
  | inr e => raise e
  | inl dir_name =>
      p ← os_realpath (join_path (projects_root projects_base) dir_name);
      directory_preexisted ← is_dir p;
      (if directory_preexisted : bool then mret tt
       else if negb allow_create then
         raise (ValueError "workspace project directory missing for resume")
       else
         try_except (mkdir_path (steps p))
           (λ e, if is_oserror e then raise (ValueError "cannot create workspace project directory")
                 else raise e)) ;;
      chown_tree_for_workspace_runtime p strict_chown ;;
      verify_workspace_runtime_owns_path p ;;
      verify_workspace_runtime_can_write_dir p ;;
      mret p
  end.

Definition resolve_workspace_ide_bind_host_path (bundle_host_path : string) (launch_mode_raw : option string)
    : Op W string :=
  br ← os_realpath bundle_host_path;
  let pr := join_path br WORKSPACE_USER_PROJECT_SUBDIR in
  there ← is_dir pr;
  if there : bool then path_resolve pr
  else
    let explicit := (λ m, Py.lower (Py.strip m)) <$> launch_mode_raw in
    legacy ← see (workspace_bundle_has_legacy_root_level_files br);
    if bool_decide (explicit = Some "new"%string) || (bool_decide (launch_mode_raw = None) && negb legacy)
    then mkdir_path (steps pr) ;; path_resolve pr
    else path_resolve br.

(** The directory names of the live rows; a bad name raises. *)
Fixpoint live_dir_names (refs : list (string * option string)) : list string + Exn :=
  match refs with
  | [] => inl []
  | (wid, key) :: rest =>
      if negb (Py.truthy (Py.strip wid)) then live_dir_names rest
      else match workspace_project_dir_name wid key, live_dir_names rest with
           | inr e, _ => inr e
           | _, inr e => inr e
           | inl n, inl ns => inl (n :: ns)
           end
  end.

Fixpoint prune_children (root : string) (live : list string) (names : list string) : Op W (list string) :=
  match names with
  | [] => mret []
  | n :: rest =>
      let child := join_path root n in
      dir ← is_dir child;
      if negb (dir : bool) || bool_decide (n ∈ live) then prune_children root live rest
      else rmtree child ;; r ← prune_children root live rest; mret (child :: r)
  end.

Definition prune_orphaned_workspace_project_dirs (projects_base : string)
    (live_workspace_refs : list (string * option string)) : Op W (list string) :=
  let base := Py.strip projects_base in
  if negb (Py.truthy base) then mret []
  else
    root ← os_realpath base;
    there ← is_dir root;
    if negb (there : bool) then mret []
    else match live_dir_names live_workspace_refs with
         | inr e => raise e
         | inl live => names ← listdir root; prune_children root live names
         end.
End local.

(** ** The configuration file of code-server *)

(** [auth_mode] as the functions below normalise it. *)
Definition normal_auth_mode (auth_mode : string) : string :=
  let mode := Py.lower (Py.strip (Py.or_else auth_mode "none")) in
  if String.eqb mode "none" || String.eqb mode "password" then mode else "none".

Definition trusted_origins_lines : string := ("trusted-origins:" ++ newline ++ "  - '*'" ++ newline)%string.

(** Matching on ASCII, ignoring case. *)
Fixpoint after_prefix (p s : string) : option string :=
  match p, s with
  | EmptyString, _ => Some s
  | String a p', String b s' =>
      if Ascii.eqb (Py.lower_ascii a) (Py.lower_ascii b) then after_prefix p' s' else None
  | _, EmptyString => None
  end.
Fixpoint span_spaces (s : string) : string * string :=
  match s with
  | String c r => if Py.is_space c then let '(a, b) := span_spaces r in (String c a, b) else (EmptyString, s)
  | EmptyString => (EmptyString, EmptyString)
  end.
Definition word_start (s : string) : bool :=
  match s with String c _ => alphanumeric c || Ascii.eqb c "_" | EmptyString => false end.
Fixpoint after_line (s : string) : string :=
  match s with
  | String c r => if Ascii.eqb c "010" then s else after_line r
  | EmptyString => EmptyString
  end.

(** A match of the pattern for an [auth: none] or [auth: password] line, at the start
    of a line: the white space before it, which is kept, and what follows the line. *)
Definition match_auth (s : string) : option (string * string) :=
  let '(group, r) := span_spaces s in
  r1 ← after_prefix "auth:" r;
  let r2 := (span_spaces r1).2 in
  r3 ← match after_prefix "none" r2 with
       | Some r3 => if word_start r3 then None else Some r3
       | None => match after_prefix "password" r2 with
                 | Some r3 => if word_start r3 then None else Some r3
                 | None => None
                 end
       end;
  Some (group, after_line r3).

(** [re.subn] of that pattern by the wanted mode, and whether it matched. *)
Fixpoint sub_auth (fuel : nat) (mode : string) (line_start : bool) (s : string) : string * bool :=
  match fuel with
  | O => (s, false)
  | S n =>
      match (if line_start then match_auth s else None) with
      | Some (group, rest) =>
          ((group ++ "auth: " ++ mode ++ (sub_auth n mode false rest).1)%string, true)
      | None =>
          match s with
          | EmptyString => (EmptyString, false)
          | String c r => let '(t, b) := sub_auth n mode (Ascii.eqb c "010") r in (String c t, b)
          end
      end
  end.

(** Some line starts with [trusted-origins:], up to white space. *)
Fixpoint has_trusted_origins (line_start : bool) (s : string) : bool :=
  (line_start &&
   match after_prefix "trusted-origins" (span_spaces s).2 with
   | Some r => match (span_spaces r).2 with String c _ => Ascii.eqb c ":" | EmptyString => false end
   | None => false
   end) ||
  match s with
  | String c r => has_trusted_origins (Ascii.eqb c "010") r
  | EmptyString => false
  end.

Definition seeded_config (comment mode : string) : string :=
  (comment ++ newline ++ "auth: " ++ mode ++ newline ++ trusted_origins_lines)%string.
Definition CONFIG_COMMENT : string :=
  "# DevNest: code-server auth is managed by DEVNEST_WORKSPACE_AUTH_MODE; trusted origins for reverse-proxy access.".

Definition patched_config (mode content : string) : string :=
  let '(t, matched) := sub_auth (S (String.length content)) mode true content in
  let t := if matched : bool then t else ("auth: " ++ mode ++ newline ++ content)%string in
  if has_trusted_origins true t then t
  else (Py.on_chars (Py.rstrip_by Py.is_space) t ++ newline ++ newline ++ trusted_origins_lines)%string.

Section config.
Context {W : Type} {fs : HostFs W}.

(** [except OSError: return] *)
Definition ignore_os_error (m : Op W unit) : Op W unit :=
  try_except m (λ e, if is_oserror e then mret tt else raise e).

Definition ensure_code_server_bind_auth_proxy_config (cfg_host auth_mode : string) : Op W unit :=
  let host_dir := Py.strip cfg_host in
  let mode := normal_auth_mode auth_mode in
  let p := join_path host_dir "config.yaml" in
  if negb (Py.truthy host_dir) then mret tt
  else
    made ← attempt (makedirs host_dir);
    match made with
    | inr e => if is_oserror e then mret tt else raise e
    | inl _ =>
        ignore_os_error
          (there ← is_file p;
           if negb (there : bool) then write_file p (seeded_config CONFIG_COMMENT mode)
           else content ← read_file p; write_file p (patched_config mode content))
    end.
End config.

(** ** Remote hosts *)

(** [CommandRunner.run] on an execution node. *)
Class RemoteShell (W : Type) := { rs_run : list string → W → W * (string + Exn) }.

Section remote.
Context {W : Type} {fs : HostFs W} {shell : RemoteShell W}.

Definition remote_run (cmd : list string) : Op W string := on_world (rs_run cmd).

Definition is_runtime_error (e : Exn) : bool := match e with RuntimeError _ => true | _ => false end.

Definition owner_spec : string :=
  (Py.str_of_Z workspace_container_uid_gid.1 ++ ":" ++ Py.str_of_Z workspace_container_uid_gid.2)%string.

Definition ssh_remote_ensure_workspace_project_dir (projects_base workspace_id : string)
    (project_storage_key : option string) (allow_create : bool) : Op W string :=
  match workspace_project_dir_name workspace_id project_storage_key with
  | inr e => raise e
  | inl dir_name =>
      let base := Py.rstrip_slash (Py.strip projects_base) in
      if negb (Py.startswith "/" base) then
        raise (ValueError "remote workspace_projects_base must be an absolute POSIX path")
      else
        let remote_path := (base ++ "/" ++ dir_name)%string in
        existed_before ← try_except
          (remote_run ["sh"; "-lc"; "test -d " ++ shlex_quote remote_path]%string ;; mret true)
          (λ e, if is_runtime_error e then mret false else raise e);
        (if existed_before : bool then mret tt
         else if negb allow_create then
           raise (ValueError "workspace project directory missing on execution host for resume")
         else remote_run ["mkdir"; "-p"; remote_path]%string ;; mret tt) ;;
        remote_run ["chown"; "-R"; owner_spec; remote_path]%string ;;
        mret remote_path
  end.

Definition assignment (name value : string) : string := (name ++ "=" ++ value)%string.
Definition stat_report (what : string) : string :=
  ("stat -c " ++ dquoted (what ++ "_uid=%u " ++ what ++ "_gid=%g " ++ what ++ "_mode=%a path=%n") ++ " " ++
   dquoted (String "$" (if String.eqb what "config_yaml" then "cfg_yaml" else what)) ++ " || true")%string.

Definition code_server_script (bundle project cfg data cfg_yaml launch mode : string) : list string :=
  let content := seeded_config CONFIG_COMMENT mode in
  ["set -e";
   assignment "bundle" (shlex_quote bundle); assignment "project" (shlex_quote project);
   assignment "cfg" (shlex_quote cfg); assignment "data" (shlex_quote data);
   assignment "cfg_yaml" (shlex_quote cfg_yaml); assignment "launch" (shlex_quote launch);
   assignment "uid" (Py.str_of_Z workspace_container_uid_gid.1);
   assignment "gid" (Py.str_of_Z workspace_container_uid_gid.2);
   "mkdir -p " ++ dquoted "$project" ++ " " ++ dquoted "$cfg" ++ " " ++ dquoted "$data";
   "if [ " ++ dquoted "$launch" ++ " = " ++ dquoted "new" ++ " ] && [ -d " ++ dquoted "$data" ++ " ]; then";
   "  find " ++ dquoted "$data" ++ " -mindepth 1 -maxdepth 1 ! -name extensions -exec rm -rf -- {} +";
   "fi";
   "cat > " ++ dquoted "$cfg_yaml" ++ " <<'DEVNEST_CODE_SERVER_CONFIG'" ++ newline ++ content ++
     "DEVNEST_CODE_SERVER_CONFIG";
   "chown -R " ++ dquoted "$uid:$gid" ++ " " ++ dquoted "$bundle";
   "chmod u+rwX,g+rwX " ++ dquoted "$bundle" ++ " " ++ dquoted "$cfg" ++ " " ++ dquoted "$data" ++ " " ++
     dquoted "$cfg_yaml" ++ " || true";
   stat_report "bundle"; stat_report "project"; stat_report "cfg"; stat_report "data";
   stat_report "config_yaml"]%string.

Definition remote_prepare_code_server_bind_mounts (bundle_host_path workspace_id : string)
    (project_host_path : option string) (auth_mode launch_mode : string) : Op W (string * string) :=
  if negb (path_safe (Py.strip workspace_id)) then
    raise (ValueError "unsafe or empty workspace_id for host path")
  else
    let bundle := Py.rstrip_slash (Py.strip bundle_host_path) in
    if negb (Py.startswith "/" bundle) then
      raise (ValueError "remote workspace bundle path must be an absolute POSIX path")
    else
      let project := Py.rstrip_slash (Py.strip (Py.or_else (default ""%string project_host_path) bundle)) in
      if negb (Py.startswith "/" project) then
        raise (ValueError "remote workspace project path must be an absolute POSIX path")
      else
        let launch := Py.or_else (Py.lower (Py.strip (Py.or_else launch_mode "resume"))) "resume" in
        let cs_base := join_path bundle "code-server" in
        let cfg_host := join_path cs_base "config" in
        let data_host := join_path cs_base "data" in
        remote_run ["sh"; "-lc"; Py.join newline
          (code_server_script bundle project cfg_host data_host (join_path cfg_host "config.yaml") launch
             (normal_auth_mode auth_mode))]%string ;;
        mret (cfg_host, data_host).

(** A report for the log, whose failure is ignored. *)
Definition log_remote_workspace_config_bind_host_before_docker_start (config_host_path : string) : Op W unit :=
  let cfg := Py.strip config_host_path in
  if negb (Py.truthy cfg) then mret tt
  else
    try_except
      (remote_run ["sh"; "-lc"; Py.join newline
         ["set -e"; assignment "cfg" (shlex_quote cfg);
          "if [ ! -e " ++ dquoted "$cfg" ++ " ]; then echo " ++ dquoted "exists=false path=$cfg" ++ "; exit 0; fi";
          stat_report "cfg";
          "if [ -f " ++ dquoted "$cfg/config.yaml" ++ " ]; then";
          "  stat -c " ++ dquoted "config_yaml_uid=%u config_yaml_gid=%g config_yaml_mode=%a path=%n" ++ " " ++
            dquoted "$cfg/config.yaml" ++ " || true";
          "fi"]]%string ;; mret tt)
      (λ e, if is_runtime_error e then mret tt else raise e).
End remote.
