(* ===== verification/DockerRuntime.v ===== *)
(** * DockerRuntime: the runtime adapter over the Docker SDK

    [libs/runtime/docker_runtime.py]: the [RuntimeAdapter] of Runtime.v for an engine
    reached through docker-py.  The engine is the interface [DockerEngine]; what it
    reports of a container is a JSON object, which the adapter reduces to a
    [ContainerInspectionResult].  Where the code calls [.get] on a value that is
    neither falsy nor a dict, [None] stands for the [AttributeError].  The engine
    reports no fractional numbers.  Strings are ASCII. *)

From S2P Require Import Prelude PyValues Models Session Services Scheduling.
From S2P Require Import Runtime.

Abbreviation PyDict := (list (option string * PyValue)).

(** ** The engine *)

(** What [create_host_config] and [create_container] get. *)
Record HostConfig := mkHostConfig {
  hc_binds : list string;
  hc_port_bindings : list (string * option Z);
  hc_nano_cpus : option Z;
  hc_mem_limit : option Z;
  hc_pids_limit : option Z;
  hc_security_opt : list string;
  hc_cap_drop : list string;
  hc_read_only : bool;
  hc_tmpfs : list (string * string)
}.
Record CreateRequest := mkCreateRequest {
  cr_image : string;
  cr_name : string;
  cr_environment : gmap string string;
  cr_labels : gmap string string;
  cr_host_config : HostConfig;
  cr_ports : list Z
}.

(** [docker.DockerClient]: [dk_inspect] is [containers.get(ref)] or [reload], and
    returns [attrs]; the other operations on a container take its id; [dk_create]
    returns the response's [Id] or [id], if it has one. *)
Class DockerEngine (W : Type) := {
  dk_inspect : string → W → W * (PyDict + Exn);
  dk_start : string → W → W * (unit + Exn);
  dk_stop : string → Z → W → W * (unit + Exn);
  dk_restart : string → Z → W → W * (unit + Exn);
  dk_remove : string → bool → W → W * (unit + Exn);
  dk_logs : string → Z → W → W * (string + Exn);
  dk_create : CreateRequest → W → W * (option string + Exn);
  dk_pull : string → W → W * (unit + Exn)
}.

(** [docker.errors.NotFound] and [docker.errors.APIError] with their subclasses *)
Definition is_docker_not_found (e : Exn) : bool :=
  match e with DockerNotFound _ | DockerImageNotFound _ => true | _ => false end.
Definition is_docker_api_error (e : Exn) : bool :=
  match e with DockerNotFound _ | DockerImageNotFound _ | DockerAPIError _ => true | _ => false end.

(** The process the adapter runs in: its environment and its view of /proc. *)
Class RuntimeHost (W : Type) := {
  rh_stop_timeout_seconds : string;       (* DEVNEST_RUNTIME_STOP_TIMEOUT_SECONDS, or "" *)
  rh_workspace_image : option string;     (* DEVNEST_WORKSPACE_IMAGE *)
  rh_linux : bool;                        (* sys.platform == "linux" *)
  rh_pid_visible : Z → W → bool           (* os.path.isdir(f"/proc/{pid}") *)
}.

(** ** Reading what the engine reports *)

(** [attrs.get(k) or {}], where a dict is expected; [None] is the [AttributeError]. *)
Definition as_object (v : option PyValue) : option PyDict :=
  match v with
  | None => Some []
  | Some v => if py_truthy v then as_map v else Some []
  end.
Definition object_at (k : string) (m : PyDict) : option PyDict := as_object (dict_get k m).

(** [for x in m.get(k) or []], where a list is expected *)
Definition items_at (k : string) (m : PyDict) : option (list PyValue) :=
  match dict_get k m with
  | None => Some []
  | Some v => if py_truthy v then as_list v else Some []
  end.

(** [int(v)], [None] for a [TypeError] or [ValueError] *)
Definition py_int (v : PyValue) : option Z :=
  match v with
  | PInt n => Some n
  | PBool b => Some (if b then 1 else 0)
  | PStr s => Py.parse_int (Py.strip s)
  | _ => None
  end.

Section normalize.
Context {repr : PyRepr}.

(** [str(m.get(k) or "")] *)
Definition text_at (k : string) (m : PyDict) : string := py_str (get_or k (PStr "") m).

(** [v is None] or [v == ""], and [str(v).strip()] otherwise *)
Definition stripped_text_at (k : string) (m : PyDict) : option string :=
  match dict_get k m with
  | None | Some PNone | Some (PStr EmptyString) => None
  | Some v => Some (Py.strip (py_str v))
  end.

Definition normalize_engine_state (raw : option PyValue) : string :=
  match raw with
  | None | Some PNone => "unknown"
  | Some v => let s := Py.strip (py_str v) in if Py.truthy s then Py.lower s else "unknown"
  end.

Definition label_pair (kv : option string * PyValue) : option (string * string) :=
  k ← kv.1; Some (k, match kv.2 with PNone => "" | v => py_str v end).
(** Tuples of strings, and of numbers, in Python's order *)
Definition string_pair_le (a b : string * string) : bool :=
  match String.compare a.1 b.1 with Lt => true | Gt => false | Eq => String.leb a.2 b.2 end.
Definition port_pair_le (a b : Z * Z) : bool := (a.1 <? b.1) || ((a.1 =? b.1) && (a.2 <=? b.2)).

Definition normalize_inspection_labels (attrs : PyDict) : list (string * string) :=
  match dict_get "Config" attrs ≫= as_map with
  | None => []
  | Some cfg =>
      match dict_get "Labels" cfg ≫= as_map with
      | None => []
      | Some raw => sort_by string_pair_le (omap label_pair raw)
      end
  end.

(** The container port of a key such as ["8080/tcp"] *)
Definition spec_port (container_spec : string) : option Z :=
  Py.parse_int (Py.strip (fst (Py.partition "/" container_spec))).

Definition binding_port (cport : Z) (b : PyValue) : option (list (Z * Z)) :=
  if negb (py_truthy b) then Some [] else
  m ← as_map b;
  match dict_get "HostPort" m with
  | None | Some PNone => Some []
  | Some hp => Some (match Py.digits (Py.strip (py_str hp)) with Some p => [(p, cport)] | None => [] end)
  end.
Definition port_bindings_of (kv : option string * PyValue) : option (list (Z * Z)) :=
  match kv.1 ≫= spec_port with
  | None => Some []
  | Some cport =>
      if negb (py_truthy kv.2) then Some [] else
      bindings ← as_list kv.2;
      out ← mapM (binding_port cport) bindings; Some (List.concat out)
  end.
Definition normalize_ports (attrs : PyDict) : option (list (Z * Z)) :=
  net ← object_at "NetworkSettings" attrs;
  net_ports ← object_at "Ports" net;
  out ← mapM port_bindings_of net_ports;
  Some (sort_by port_pair_le (List.concat out)).

(** The dicts among the items *)
Definition dicts_of (items : list PyValue) : list PyDict := omap as_map items.

Definition mount_text (m : PyDict) : string :=
  let dest := text_at "Destination" m in
  let src := text_at "Source" m in
  if Py.truthy src then (src ++ ":" ++ dest)%string else dest.
Definition normalize_mounts (attrs : PyDict) : option (list string) :=
  ms ← items_at "Mounts" attrs; Some (mount_text <$> dicts_of ms).

Definition normalize_health (attrs : PyDict) : option (option string) :=
  state ← object_at "State" attrs;
  health ← object_at "Health" state;
  Some (match dict_get "Status" health with
        | Some v => if py_truthy v then Some (Py.lower (py_str v)) else None
        | None => None
        end).

Definition bind_mount_info (m : PyDict) : option BindMountInfo :=
  if negb (String.eqb (Py.lower (text_at "Type" m)) "bind") then None else
  let dest := Py.strip (text_at "Destination" m) in
  let src := Py.strip (text_at "Source" m) in
  if negb (Py.truthy dest) then None else
  Some (mkBindMount src dest
          (match dict_get "RW" m with Some (PBool false) => true | _ => false end)
          (match dict_get "Propagation" m with
           | None | Some PNone => None
           | Some v => let p := Py.strip (py_str v) in if Py.truthy p then Some p else None
           end)).
Definition normalize_bind_mount_infos (attrs : PyDict) : option (list BindMountInfo) :=
  ms ← items_at "Mounts" attrs; Some (omap bind_mount_info (dicts_of ms)).

Definition workspace_project_bind (bind_mounts : list BindMountInfo) : option BindMountInfo :=
  List.find (λ b, String.eqb (Py.rstrip_slash (bm_container_path b))
                    (Py.rstrip_slash WORKSPACE_PROJECT_CONTAINER_PATH)) bind_mounts.

Definition normalize_pid (raw : option PyValue) : option Z :=
  match raw ≫= py_int with
  | Some p => if p <=? 0 then None else Some p
  | None => None
  end.

Definition inspection_not_found : ContainerInspectionResult :=
  mkInspection false None "missing" None [] [] None [] None [] None None None.

Definition normalize_inspection (attrs : PyDict) : option ContainerInspectionResult :=
  state ← object_at "State" attrs;
  bind_mounts ← normalize_bind_mount_infos attrs;
  ports ← normalize_ports attrs;
  mounts ← normalize_mounts attrs;
  health ← normalize_health attrs;
  Some (mkInspection true
          (match dict_get "Id" attrs with
           | None | Some PNone => None
           | Some v => let sid := Py.strip (py_str v) in if Py.truthy sid then Some sid else None
           end)
          (normalize_engine_state (dict_get "Status" state))
          (normalize_pid (dict_get "Pid" state))
          ports mounts health bind_mounts (workspace_project_bind bind_mounts)
          (normalize_inspection_labels attrs)
          (stripped_text_at "StartedAt" state) (stripped_text_at "FinishedAt" state)
          (dict_get "ExitCode" state ≫= py_int)).
End normalize.

(** ** What a container is created from *)

(** [os.path.isabs], and the checks of [_resolve_project_host_path_for_create]; the
    SSM adapter differs in a message only. *)
Definition resolve_project_host_path (not_absolute : string) (project_mount : option WorkspaceProjectMountSpec)
    (workspace_host_path : option string) : string * bool + Exn :=
  let pm_raw := match project_mount with Some pm => Py.strip (pm_host_path pm) | None => ""%string end in
  let wh_raw := Py.strip_opt workspace_host_path in
  if Py.truthy pm_raw && Py.truthy wh_raw && negb (String.eqb pm_raw wh_raw) then
    inr (ContainerCreateError "project_mount.host_path and workspace_host_path disagree; pass one consistent path")
  else
  let chosen := Py.or_else pm_raw wh_raw in
  if negb (Py.truthy chosen) then
    inr (ContainerCreateError "project_mount or workspace_host_path is required to create a workspace container")
  else if negb (Py.startswith "/" chosen) then inr (ContainerCreateError not_absolute)
  else inl (chosen, match project_mount with Some pm => pm_read_only pm | None => false end).
Definition resolve_project_host_path_for_create :=
  resolve_project_host_path "project workspace host path must be absolute (Docker bind source)".

Definition BindSignature : Type := string * string * bool.
Definition bool_le (a b : bool) : bool := negb a || b.
Definition signature_le (a b : BindSignature) : bool :=
  match String.compare a.1.1 b.1.1, String.compare a.1.2 b.1.2 with
  | Lt, _ => true | Gt, _ => false
  | Eq, Lt => true | Eq, Gt => false
  | Eq, Eq => bool_le a.2 b.2
  end.

Definition bind_mount_signature (b : BindMountInfo) : BindSignature :=
  (Py.strip (bm_host_path b), Py.rstrip_slash (bm_container_path b), bm_read_only b).
Definition existing_bind_signatures (bind_mounts : list BindMountInfo) : list BindSignature :=
  sort_by signature_le (bind_mount_signature <$> bind_mounts).

Definition extra_signature (spec : WorkspaceExtraBindMountSpec) : BindSignature :=
  (Py.strip (xm_host_path spec), Py.rstrip_slash (Py.strip (xm_container_path spec)), xm_read_only spec).
Definition requested_bind_signatures (workspace_host_path : option string)
    (extra : list WorkspaceExtraBindMountSpec) : option (list BindSignature) + Exn :=
  let with_extra project :=
    match project ++ (extra_signature <$> extra) with
    | [] => inl None
    | requested => inl (Some (sort_by signature_le requested))
    end in
  if Py.truthy (Py.strip_opt workspace_host_path) then
    match resolve_project_host_path_for_create None workspace_host_path with
    | inr e => inr e
    | inl (host_path, proj_ro) => with_extra [(host_path, WORKSPACE_PROJECT_CONTAINER_PATH, proj_ro)]
    end
  else with_extra [].

(** One step per mount: the destinations seen so far, and the strings. *)
Fixpoint extra_bind_strings_from (seen_dest : list string) (mounts : list WorkspaceExtraBindMountSpec)
    : list string + Exn :=
  match mounts with
  | [] => inl []
  | spec :: mounts =>
      let hp := Py.strip (xm_host_path spec) in
      let cp := Py.strip (xm_container_path spec) in
      if negb (Py.truthy hp) || negb (Py.truthy cp) then
        inr (ContainerCreateError "extra_bind_mounts requires non-empty host_path and container_path on every entry")
      else
      let dest_key := Py.or_else (Py.rstrip_slash cp) "/" in
      if String.eqb dest_key (Py.rstrip_slash WORKSPACE_PROJECT_CONTAINER_PATH) then
        inr (ContainerCreateError "extra_bind_mounts cannot target the project mount path")
      else if bool_decide (dest_key ∈ seen_dest) then
        inr (ContainerCreateError "duplicate extra_bind_mounts container_path")
      else
      match extra_bind_strings_from (dest_key :: seen_dest) mounts with
      | inr e => inr e
      | inl out => inl ((hp ++ ":" ++ cp ++ ":" ++ (if xm_read_only spec then "ro" else "rw"))%string :: out)
      end
  end.
Definition extra_bind_strings : list WorkspaceExtraBindMountSpec → list string + Exn := extra_bind_strings_from [].

(** A dict of port bindings in insertion order. *)
Fixpoint set_binding (key : string) (hp : option Z) (m : list (string * option Z)) : list (string * option Z) :=
  match m with
  | [] => [(key, hp)]
  | (k, v) :: m => if String.eqb k key then (k, hp) :: m else (k, v) :: set_binding key hp m
  end.
Fixpoint port_bindings_from (bindings : list (string * option Z)) (ports : list (Z * Z))
    : list (string * option Z) + Exn :=
  match ports with
  | [] => inl bindings
  | (host_p, cp) :: ports =>
      if cp <=? 0 then inr (ContainerCreateError "container port in ports= must be positive")
      else port_bindings_from (set_binding (Py.str_of_Z cp ++ "/tcp")
                                 (if host_p <=? 0 then None else Some host_p) bindings) ports
  end.
Definition port_bindings_from_spec : list (Z * Z) → list (string * option Z) + Exn := port_bindings_from [].

Definition resolved_ports_tuple (bindings : list (string * option Z)) : list (Z * Z) :=
  sort_by port_pair_le (omap (λ kv : string * option Z, hp ← kv.2; cport ← spec_port kv.1; Some (hp, cport)) bindings).
Definition exposed_container_ports (bindings : list (string * option Z)) : list Z :=
  sort_by Z.leb (remove_dups (omap (λ kv : string * option Z, spec_port kv.1) bindings)).

(** [e ← m; ...] on results *)
Definition then_result {A B} (r : A + Exn) (k : A → B + Exn) : B + Exn :=
  match r with inl a => k a | inr e => inr e end.

(** The limits of a container *)
Definition check_limits (spec : ContainerSpec) : unit + Exn :=
  let bad (o : option Z) := match o with Some n => n <=? 0 | None => false end in
  if bad (spec_cpu_limit spec) then inr (ContainerCreateError "cpu_limit must be positive when set")
  else if bad (spec_memory_limit_bytes spec) then
    inr (ContainerCreateError "memory_limit_bytes must be positive when set")
  else if bad (spec_pids_limit spec) then inr (ContainerCreateError "pids_limit must be positive when set")
  else inl tt.

Definition READ_ONLY_TMPFS : list (string * string) :=
  [("/tmp", "rw,nosuid,noexec,size=256m"); ("/run", "rw,nosuid,size=64m")]%string.

Section create.
Context {W : Type} {host : RuntimeHost W}.

Definition default_stop_timeout_s : Z :=
  match Py.digits (Py.strip rh_stop_timeout_seconds) with
  | Some n => Z.max 1 n
  | None => 10
  end.

Definition default_workspace_image : string :=
  Py.or_else (Py.strip (default "devnest/workspace:latest"%string rh_workspace_image)) "devnest/workspace:latest".
Definition resolve_image (image : option string) : string :=
  if Py.truthy (Py.strip_opt image) then Py.strip_opt image else default_workspace_image.

(** The request [ensure_container] makes for a spec, and the published ports it
    expects: its checks come in the code's order. *)
Definition create_request (spec : ContainerSpec) : CreateRequest * list (string * option Z) + Exn :=
  then_result (resolve_project_host_path_for_create (spec_project_mount spec) (spec_workspace_host_path spec))
    (λ '(host_path, proj_ro),
  then_result (check_limits spec) (λ _,
  then_result (port_bindings_from_spec (spec_ports spec)) (λ port_bindings,
  then_result (extra_bind_strings (spec_extra_bind_mounts spec)) (λ extra,
  let sec := spec_security spec in
  let read_only := match sec with Some s => sec_read_only_rootfs s | None => false end in
  inl (mkCreateRequest (resolve_image (spec_image spec)) (spec_name spec) (spec_env spec) (spec_labels spec)
         (mkHostConfig
            ((host_path ++ ":" ++ WORKSPACE_PROJECT_CONTAINER_PATH ++ ":" ++
              (if proj_ro : bool then "ro" else "rw"))%string :: extra)
            port_bindings (spec_cpu_limit spec) (spec_memory_limit_bytes spec) (spec_pids_limit spec)
            (match sec with Some s => sec_security_opt s | None => [] end)
            (match sec with Some s => sec_cap_drop s | None => [] end)
            read_only (if read_only then READ_ONLY_TMPFS else []))
         (exposed_container_ports port_bindings), port_bindings))))).
End create.

(** ** DockerRuntimeAdapter *)

(** [RuntimeActionResult] of a success *)
Definition action_ok (cid state : string) : RuntimeActionResult := mkAction cid state true None.
(** [ins.container_id or cid] *)
Definition id_or (ins : ContainerInspectionResult) (cid : string) : string :=
  Py.or_else (default ""%string (ins_container_id ins)) cid.

Definition container_state_needs_engine_stop (container_state : string) : bool :=
  bool_decide (container_state ∈ ["running"; "restarting"; "paused"]%string).
Definition NETNS_ATTEMPTS : nat := 50.
Definition NETNS_PAUSE : Z := 100000.
Definition netns_path (pid : Z) : string := ("/proc/" ++ Py.str_of_Z pid ++ "/ns/net")%string.

(** The result for a container that is already there *)
Definition reused (ins : ContainerInspectionResult) : RuntimeEnsureResult :=
  mkEnsure (default ""%string (ins_container_id ins)) true false (ins_container_state ins) (ins_ports ins)
    None WORKSPACE_IDE_CONTAINER_PORT (ins_project_mount ins).
Definition created (ins : ContainerInspectionResult) (cid : string) (port_bindings : list (string * option Z))
    : RuntimeEnsureResult :=
  mkEnsure (id_or ins cid) true true (ins_container_state ins)
    (match ins_ports ins with [] => resolved_ports_tuple port_bindings | ps => ps end)
    None WORKSPACE_IDE_CONTAINER_PORT (ins_project_mount ins).

Section adapter.
Context {W : Type} {repr : PyRepr} {engine : DockerEngine W} {host : RuntimeHost W} {clock : Clock W}.
Implicit Types (cid ref : string) (attrs : PyDict).

Definition result_of {A} (r : A + Exn) : eff W Exn A := match r with inl a => mret a | inr e => raise e end.
(** [except] for the exceptions [p] holds of *)
Definition catch {A} (p : Exn → bool) (m : eff W Exn A) (h : Exn → eff W Exn A) : eff W Exn A :=
  try_except m (λ e, if p e then h e else raise e).

Definition normalized attrs : eff W Exn ContainerInspectionResult :=
  match normalize_inspection attrs with
  | Some ins => mret ins
  | None => raise (AttributeError "object has no attribute 'get'")
  end.
(** [ctr.id] *)
Definition ctr_id attrs : string := match dict_get "Id" attrs with Some (PStr s) => s | _ => ""%string end.

Definition get_container_if_exists ref : eff W Exn (option PyDict) :=
  catch is_docker_not_found (c ← dk_inspect ref; mret (Some c)) (λ _, mret None).

Definition dk_inspect_container cid : eff W Exn ContainerInspectionResult :=
  c ← get_container_if_exists cid;
  match c with
  | None => mret inspection_not_found
  | Some attrs => normalized attrs
  end.

Definition clamp_lines (lines : Z) : Z := Z.max 1 (Z.min lines 4096).
Definition dk_fetch_container_log_tail cid (lines : Z) : eff W Exn string :=
  try_except (attrs ← dk_inspect cid; dk_logs (ctr_id attrs) (clamp_lines lines)) (λ _, mret ""%string).

(** *** ensure_container *)

(** Removes a container whose binds are not the requested ones. *)
Definition drop_mismatched (spec : ContainerSpec) (existing : option PyDict) : eff W Exn (option PyDict) :=
  match existing with
  | None => mret None
  | Some attrs =>
      ins ← normalized attrs;
      requested ← result_of (requested_bind_signatures (spec_workspace_host_path spec) (spec_extra_bind_mounts spec));
      match requested with
      | None => mret (Some attrs)
      | Some binds =>
          if bool_decide (existing_bind_signatures (ins_bind_mounts ins) = binds) then mret (Some attrs)
          else
            try_except (dk_remove (ctr_id attrs) true)
              (λ e, if is_docker_not_found e then mret tt
                    else if is_docker_api_error e then
                      raise (ContainerCreateError "failed to replace stale container with mismatched bind mounts")
                    else raise e) ;;
            mret None
      end
  end.

(** [_create] *)
Definition create_once (req : CreateRequest) : eff W Exn PyDict :=
  id ← dk_create req;
  if Py.truthy (default ""%string id) then dk_inspect (default ""%string id)
  else raise (ContainerCreateError "create_container returned no Id").
Definition is_image_not_found (e : Exn) : bool := match e with DockerImageNotFound _ => true | _ => false end.
Definition as_create_error {A} (m : eff W Exn A) : eff W Exn A :=
  catch is_docker_api_error m (λ e, raise (ContainerCreateError (exn_str e))).
Definition create_pulling (req : CreateRequest) : eff W Exn PyDict :=
  try_except (create_once req)
    (λ e, if is_image_not_found e then
            catch is_docker_api_error (dk_pull (cr_image req))
              (λ pull_err, raise (ContainerCreateError "failed to pull image")) ;;
            as_create_error (create_once req)
          else if is_docker_api_error e then raise (ContainerCreateError (exn_str e))
          else raise e).

Definition find_existing (spec : ContainerSpec) : eff W Exn (option PyDict) :=
  let rid := Py.strip_opt (spec_existing_container_id spec) in
  by_id ← (if Py.truthy rid then get_container_if_exists rid else mret None);
  match by_id with
  | Some c => mret (Some c)
  | None => get_container_if_exists (spec_name spec)
  end.

Definition create_container (spec : ContainerSpec) : eff W Exn RuntimeEnsureResult :=
  req ← result_of (create_request spec);
  ctr ← create_pulling req.1;
  attrs ← dk_inspect (ctr_id ctr);
  ins ← normalized attrs;
  mret (created ins "" req.2).

Definition dk_ensure_container (spec : ContainerSpec) : eff W Exn RuntimeEnsureResult :=
  if negb (Py.truthy (Py.strip (spec_name spec))) then
    raise (ContainerCreateError "container name must be non-empty")
  else
    found ← find_existing spec;
    existing ← drop_mismatched spec found;
    match existing with
    | Some attrs => ins ← normalized attrs; mret (reused ins)
    | None => create_container spec
    end.

(** *** start, stop, restart, delete *)

Definition not_found_error {A} : eff W Exn A := raise (ContainerNotFoundError "container not found").

(** [containers.get] for the hint on the image's command, whose failure is ignored *)
Definition command_hint cid : eff W Exn unit := try_except (dk_inspect cid ;; mret tt) (λ _, mret tt).

Definition dk_start_container cid : eff W Exn RuntimeActionResult :=
  ins ← dk_inspect_container cid;
  if negb (ins_exists ins) then not_found_error
  else if String.eqb (ins_container_state ins) "running" then mret (action_ok (id_or ins cid) (ins_container_state ins))
  else
    ctr ← catch is_docker_not_found (dk_inspect cid) (λ _, not_found_error);
    fresh ← dk_inspect (ctr_id ctr);
    live ← normalized fresh;
    if String.eqb (ins_container_state live) "running" then
      mret (action_ok (id_or live cid) (ins_container_state live))
    else
      catch is_docker_api_error (dk_start (ctr_id fresh)) (λ e, raise (ContainerStartError (exn_str e))) ;;
      after ← dk_inspect_container cid;
      if String.eqb (ins_container_state after) "running" then
        mret (action_ok (id_or after cid) (ins_container_state after))
      else
        command_hint cid ;;
        mret (mkAction (id_or after cid) (ins_container_state after) false
                (Some ("unexpected state after start: " ++ ins_container_state after)%string)).

Definition stopped_result cid cid_out (after : ContainerInspectionResult) : RuntimeActionResult :=
  if negb (ins_exists after) then action_ok cid_out "missing"
  else if container_state_needs_engine_stop (ins_container_state after) then
    mkAction (id_or after cid) (ins_container_state after) false
      (Some ("container still active after stop: " ++ ins_container_state after)%string)
  else action_ok (id_or after cid) (ins_container_state after).

Definition dk_stop_container cid : eff W Exn RuntimeActionResult :=
  ins ← dk_inspect_container cid;
  if negb (ins_exists ins) then mret (action_ok cid "missing")
  else
  let cid_out := id_or ins cid in
  if negb (container_state_needs_engine_stop (ins_container_state ins)) then
    mret (action_ok cid_out (ins_container_state ins))
  else
    ctr ← get_container_if_exists cid;
    match ctr with
    | None => mret (action_ok cid_out "missing")
    | Some ctr =>
        fresh ← dk_inspect (ctr_id ctr);
        live ← normalized fresh;
        if negb (container_state_needs_engine_stop (ins_container_state live)) then
          mret (action_ok (id_or live cid_out) (ins_container_state live))
        else
          catch is_docker_api_error (dk_stop (ctr_id fresh) default_stop_timeout_s)
            (λ e, raise (ContainerStopError (exn_str e))) ;;
          after ← dk_inspect_container cid;
          mret (stopped_result cid cid_out after)
    end.

Definition dk_restart_container cid : eff W Exn RuntimeActionResult :=
  ins ← dk_inspect_container cid;
  if negb (ins_exists ins) then not_found_error
  else
    ctr ← catch is_docker_not_found (dk_inspect cid) (λ _, not_found_error);
    fresh ← dk_inspect (ctr_id ctr);
    catch is_docker_api_error (dk_restart (ctr_id fresh) default_stop_timeout_s)
      (λ e, raise (ContainerStartError (exn_str e))) ;;
    after ← dk_inspect_container cid;
    if negb (ins_exists after) then raise (ContainerNotFoundError "container not found after restart")
    else if String.eqb (ins_container_state after) "running" then
      mret (action_ok (id_or after cid) (ins_container_state after))
    else
      command_hint cid ;;
      mret (mkAction (id_or after cid) (ins_container_state after) false
              (Some ("unexpected state after restart: " ++ ins_container_state after)%string)).

Definition deleted_result cid_known (final : ContainerInspectionResult) : RuntimeActionResult :=
  if ins_exists final then
    mkAction (id_or final cid_known) (ins_container_state final) false (Some "container still exists after delete"%string)
  else action_ok cid_known "missing".

(** Stop if need be, then remove; whether the container was still there. *)
Definition stop_and_remove ref (live : ContainerInspectionResult) : eff W Exn bool :=
  try_except
    (when (container_state_needs_engine_stop (ins_container_state live))
       (catch is_docker_api_error (dk_stop ref default_stop_timeout_s)
          (λ e, raise (ContainerStopError (exn_str e)))) ;;
     dk_remove ref false ;; mret true)
    (λ e, if is_docker_not_found e then mret false
          else if is_docker_api_error e then raise (ContainerDeleteError (exn_str e))
          else raise e).

Definition dk_delete_container cid : eff W Exn RuntimeActionResult :=
  ins ← dk_inspect_container cid;
  if negb (ins_exists ins) then mret (action_ok cid "missing")
  else
    ctr ← get_container_if_exists cid;
    match ctr with
    | None => mret (action_ok (id_or ins cid) "missing")
    | Some ctr =>
        fresh ← dk_inspect (ctr_id ctr);
        live ← normalized fresh;
        let cid_known := id_or live (id_or ins cid) in
        there ← stop_and_remove (ctr_id fresh) live;
        if negb there then mret (action_ok cid_known "missing")
        else
          final ← dk_inspect_container cid;
          mret (deleted_result cid_known final)
    end.

(** *** get_container_netns_ref *)

Definition may_get_pid (state : string) : bool :=
  bool_decide (state ∈ ["running"; "restarting"; "created"; "paused"]%string).
(** What [for _ in range(n)] leaves: a reference, or the last inspection. *)
Fixpoint await_pid (n : nat) cid (last : option ContainerInspectionResult)
    : eff W Exn (NetnsRefResult + option ContainerInspectionResult) :=
  match n with
  | O => mret (inr last)
  | S n =>
      ins ← dk_inspect_container cid;
      if negb (ins_exists ins) || negb (Py.truthy (default ""%string (ins_container_id ins))) then
        raise (NetnsRefError "container not found")
      else if has_pid ins then
        let pid := default 0 (ins_pid ins) in
        visible ← gets (rh_pid_visible pid);
        if negb rh_linux || visible then
          mret (inl (mkNetns (default ""%string (ins_container_id ins)) pid (netns_path pid)))
        else raise (NetnsRefError "host PID is not visible under /proc in this process namespace")
      else if may_get_pid (ins_container_state ins) then
        sleep NETNS_PAUSE ;; await_pid n cid (Some ins)
      else mret (inr (Some ins))
  end.

(** The log tail of an exited container goes into the message. *)
Definition exit_log_hint cid (state : string) : eff W Exn unit :=
  when (String.eqb state "exited")
    (try_except (attrs ← dk_inspect cid; dk_logs (ctr_id attrs) 48 ;; mret tt) (λ _, mret tt)).

Definition dk_get_container_netns_ref cid : eff W Exn NetnsRefResult :=
  r ← await_pid NETNS_ATTEMPTS cid None;
  match r with
  | inl ref => mret ref
  | inr None => raise AssertionError
  | inr (Some ins) =>
      exit_log_hint (id_or ins cid) (ins_container_state ins) ;;
      raise (NetnsRefError "no host PID for container after waiting")
  end.

#[local] Instance docker_runtime_adapter : RuntimeAdapter W := {
  ad_ensure_container := dk_ensure_container;
  ad_start_container := dk_start_container;
  ad_stop_container := dk_stop_container;
  ad_delete_container := dk_delete_container;
  ad_inspect_container := dk_inspect_container;
  ad_fetch_container_log_tail := dk_fetch_container_log_tail;
  ad_get_container_netns_ref := dk_get_container_netns_ref
}.
End adapter.
