(* ===== verification/SsmRuntime.v ===== *)
(** * SsmRuntime: commands and containers on a node reached through AWS SSM

    [node_execution_service/ssm_send_command.py] and ssm_remote_command_runner.py: a
    command is sent, and its invocation polled until it ends; and
    [libs/runtime/ssm_docker_runtime.py]: the [RuntimeAdapter] of Runtime.v that runs
    the docker command on the node.  The SSM API and the JSON reader are parameters;
    what SSM reports is the stripped status with its output. *)

From S2P Require Import Prelude PyValues Models Session Services Scheduling.
From S2P Require Import LinuxNet Runtime ProjectDirs DockerRuntime.

(** ** ssm_send_command.py *)

(** [ClientError] with its code and text, or another exception. *)
Inductive AwsFailure := ClientError (code msg : string) | AwsOther (e : Exn).
Record SsmInvocation := mkInvocation {
  inv_status : string;
  inv_stdout : string;
  inv_stderr : string
}.
(** [send_command] (instance, comment, timeout, commands) returns the command's id, if
    the response has one; [get_command_invocation] takes the command and instance. *)
Class SsmApi (W : Type) := {
  ssm_send_command : string → string → Z → list string → W → W * (option string + AwsFailure);
  ssm_get_command_invocation : string → string → W → W * (SsmInvocation + AwsFailure)
}.

Definition SSM_AUTH_CODES : list string :=
  ["AccessDeniedException"; "UnauthorizedOperation"; "AuthFailure"; "InvalidClientTokenId"; "ExpiredToken"].
Definition POLL_INTERVAL : Z := 500000.
Definition MAX_POLL_WAIT_CEILING : Z := 7200.
Definition MIN_POLL_WAIT : Z := 120.
Definition SEND_THROTTLE_RETRIES : nat := 4.
Definition GET_THROTTLE_RETRIES : nat := 6.
Definition terminal_status (status : string) : bool :=
  bool_decide (status ∈ ["Success"; "Cancelled"; "Failed"; "TimedOut"; "Undeliverable"; "Terminated"]%string).

(** [_INSTANCE_ID_RE], [^i-[0-9a-f]{8,32}$] without regard to case; [$] also matches
    before a final newline, which the strip has removed. *)
Definition is_hex_digit (c : ascii) : bool :=
  let n := N_of_ascii (Py.lower_ascii c) in
  (((48 <=? n) && (n <=? 57)) || ((97 <=? n) && (n <=? 102)))%N.
Definition instance_id_match (s : string) : bool :=
  match s with
  | String i (String "-" rest) =>
      Ascii.eqb (Py.lower_ascii i) "i" && (8 <=? Py.len rest) && (Py.len rest <=? 32) &&
      forallb is_hex_digit (list_ascii_of_string rest)
  | _ => false
  end.

(** [SsmExecutionError] is a [NodeExecutionBindingError]'s sibling that only the
    runner catches, so its text stands for it. *)
Definition require_ssm_instance_id (instance_id : string) : string + string :=
  let iid := Py.strip instance_id in
  if instance_id_match iid then inl iid else inr "invalid SSM target instance id"%string.

Definition compute_poll_deadline_seconds (ssm_timeout_seconds : Z) : Z :=
  Z.min (Z.max (ssm_timeout_seconds + 60) MIN_POLL_WAIT) MAX_POLL_WAIT_CEILING.
(** [min(0.25 * 2 ** attempt, 8.0)] in microseconds *)
Definition throttle_delay (attempt : nat) : Z := Z.min (250000 * 2 ^ Z.of_nat attempt) 8000000.

(** What the runner sees of a failure: [SsmExecutionError], or an exception it passes on. *)
Inductive SsmFailure := SsmExecutionError (msg : string) | SsmEscaped (e : Exn).

Section send.
Context {W : Type} {api : SsmApi W} {clock : Clock W}.

Definition denied_or_failed (call code msg : string) : SsmFailure :=
  SsmExecutionError (if bool_decide (code ∈ SSM_AUTH_CODES) then "AWS denied ssm " ++ call ++ " (" ++ code ++ ")"
                     else "ssm " ++ call ++ " failed (" ++ code ++ "): " ++ msg)%string.
Definition ssm_raise {A} (f : SsmFailure) : eff W SsmFailure A := raise f.
Definition ssm_sleep (d : Z) : eff W SsmFailure unit := modify (clock_sleep d).

(** [_send_command_with_throttle_retry]; [retries] attempts after this one. *)
Fixpoint send_command_with_throttle_retry (retries attempt : nat) (iid comment : string) (timeout : Z)
    (commands : list string) : eff W SsmFailure (option string) := λ w,
  let '(w, r) := ssm_send_command iid comment timeout commands w in
  match r with
  | inl id => (w, inl id)
  | inr (AwsOther e) => (w, inr (SsmEscaped e))
  | inr (ClientError code msg) =>
      match retries with
      | S retries =>
          if String.eqb code "ThrottlingException" then
            (ssm_sleep (throttle_delay attempt) ;;
             send_command_with_throttle_retry retries (S attempt) iid comment timeout commands) w
          else (w, inr (denied_or_failed "SendCommand" code msg))
      | O => (w, inr (denied_or_failed "SendCommand" code msg))
      end
  end.

(** How the polling ends: with the last status and output, or out of fuel, which does
    not happen. *)
Inductive SsmPolled := PollDone (status stdout stderr : string) | PollOutOfFuel.

(** [while time.monotonic() < deadline]: the state of the loop is the last status and
    the throttled attempts since the last answer. *)
Fixpoint poll_invocation (fuel : nat) (cmd_id iid : string) (deadline : Z) (status : string) (throttled : nat)
    : eff W SsmFailure SsmPolled :=
  match fuel with
  | O => mret PollOutOfFuel
  | S fuel => λ w,
      if deadline <=? clock_monotonic w then (w, inl (PollDone status "" "")) else
      let '(w, r) := ssm_get_command_invocation cmd_id iid w in
      match r with
      | inr (AwsOther e) => (w, inr (SsmEscaped e))
      | inr (ClientError code msg) =>
          if String.eqb code "ThrottlingException" && (throttled <? GET_THROTTLE_RETRIES)%nat then
            (ssm_sleep (throttle_delay throttled) ;;
             poll_invocation fuel cmd_id iid deadline status (S throttled)) w
          else if String.eqb code "InvocationDoesNotExist" then
            (ssm_sleep POLL_INTERVAL ;; poll_invocation fuel cmd_id iid deadline status throttled) w
          else (w, inr (denied_or_failed "GetCommandInvocation" code msg))
      | inl inv =>
          let status := Py.strip (inv_status inv) in
          if terminal_status status then (w, inl (PollDone status (inv_stdout inv) (inv_stderr inv)))
          else (ssm_sleep POLL_INTERVAL ;; poll_invocation fuel cmd_id iid deadline status O) w
      end
  end.

(** Every round sleeps a quarter of a second at least. *)
Definition poll_rounds (wait : Z) : nat := poll_fuel wait 250000.

Definition settle_command (p : SsmPolled) : eff W SsmFailure (string * string) :=
  match p with
  | PollOutOfFuel => ssm_raise (SsmExecutionError "ssm command did not finish")
  | PollDone status stdout stderr =>
      if negb (terminal_status status) then ssm_raise (SsmExecutionError "ssm command did not finish")
      else if negb (String.eqb status "Success") then
        ssm_raise (SsmExecutionError ("ssm RunShellScript " ++ status ++ ": " ++
          Py.strip (Py.or_else (Py.or_else stderr stdout) status)))
      else mret (stdout, stderr)
  end.

Definition send_run_shell_script (instance_id : string) (commands : list string) (comment : string)
    (timeout_seconds : Z) : eff W SsmFailure (string * string) :=
  match require_ssm_instance_id instance_id with
  | inr msg => ssm_raise (SsmExecutionError msg)
  | inl iid =>
      if bool_decide (commands = []) then ssm_raise (SsmExecutionError "SSM commands list is empty") else
      let ssm_timeout := Z.min (Z.max 30 timeout_seconds) 172800 in
      let poll_wait := seconds (compute_poll_deadline_seconds ssm_timeout) in
      id ← send_command_with_throttle_retry SEND_THROTTLE_RETRIES O iid (Py.prefix_to 80 comment) ssm_timeout commands;
      let cmd_id := default ""%string id in
      if negb (Py.truthy cmd_id) then ssm_raise (SsmExecutionError "ssm SendCommand returned no CommandId") else
      now ← gets clock_monotonic;
      p ← poll_invocation (poll_rounds poll_wait) cmd_id iid (now + poll_wait) "Pending" O;
      settle_command p
  end.

(** [SsmRemoteCommandRunner.run] *)
Definition shlex_join (cmd : list string) : string := Py.join " " (shlex_quote <$> cmd).
Definition ssm_run (instance_id : string) (cmd : list string) : W → W * (string + Exn) := λ w,
  match cmd with
  | [] => (w, inr (ValueError "cmd must be a non-empty list of strings"))
  | _ =>
      let '(w, r) := send_run_shell_script (Py.strip instance_id) [("set -euo pipefail && " ++ shlex_join cmd)%string]
                       "DevNest-runner" 3600 w in
      (w, match r with
          | inl out => inl out.1
          | inr (SsmExecutionError msg) => inr (RuntimeError ("ssm remote command failed: " ++ msg))
          | inr (SsmEscaped e) => inr e
          end)
  end.
Definition ssm_shell (instance_id : string) : RemoteShell W := {| rs_run := ssm_run instance_id |}.
End send.

(** ** ssm_docker_runtime.py *)

(** [json.loads], [None] for a [JSONDecodeError] *)
Class JsonReader := json_loads : string → option PyValue.

Definition resolve_project_host_path_remote :=
  resolve_project_host_path "remote workspace host path must be absolute POSIX path on the execution host".

(** [f"{cpu:.6f}".rstrip("0").rstrip(".") or "0"] of a number of nano-cores, to the
    nearest micro-core. *)
Definition rstrip_char (c : ascii) : string → string := Py.on_chars (Py.rstrip_by (Ascii.eqb c)).
Fixpoint zero_padded (width : nat) (n : Z) : string :=
  match width with
  | O => ""
  | S w => zero_padded w (n / 10) ++ String (ascii_of_N (48 + Z.to_N (n mod 10))) ""
  end%string.
Definition nearest_micro (c : cpu) : Z :=
  let q := c / 1000 in
  let r := c mod 1000 in
  if (500 <? r) || ((r =? 500) && Z.odd q) then q + 1 else q.
Definition cpus_argument (c : cpu) : string :=
  let micro := nearest_micro c in
  Py.or_else (rstrip_char "." (rstrip_char "0"
    (Py.str_of_Z (micro / 1000000) ++ "." ++ zero_padded 6 (micro mod 1000000))%string)) "0".

(** The arguments of [docker create], in the code's order *)
Definition flags (flag : string) (values : list string) : list string :=
  List.concat ((λ v, [flag; v]) <$> values).
Definition key_value (kv : string * string) : string := (kv.1 ++ "=" ++ kv.2)%string.
Definition sorted_items (m : gmap string string) : list (string * string) := sort_by string_pair_le (map_to_list m).
Definition publish_argument (kv : string * option Z) : option string :=
  cport ← spec_port kv.1;
  Some (Py.str_of_Z (default 0 kv.2) ++ ":" ++ Py.str_of_Z cport)%string.
Definition security_arguments (s : WorkspaceContainerSecuritySpec) : list string :=
  flags "--security-opt" (sec_security_opt s) ++ flags "--cap-drop" (sec_cap_drop s) ++
  (if sec_read_only_rootfs s then "--read-only"%string ::
     flags "--tmpfs" ((λ kv : string * string, (kv.1 ++ ":" ++ kv.2)%string) <$> READ_ONLY_TMPFS) else []).
Definition optional_flag (flag : string) (v : option string) : list string :=
  match v with Some v => [flag; v] | None => [] end.

Section ssm_adapter.
Context {W : Type} {repr : PyRepr} {json : JsonReader} {shell : RemoteShell W} {host : RuntimeHost W}.
Implicit Types (cid : string).

Definition docker_cli (args : list string) : eff W Exn string := rs_run ("docker"%string :: args).
(** [except RuntimeError as e: raise error(str(e))] *)
Definition runtime_error_as (error : string → Exn) {A} (m : eff W Exn A) : eff W Exn A :=
  catch is_runtime_error m (λ e, raise (error (exn_str e))).

(** [json.loads] of the output, where it is a list *)
Definition reported (out : string) : option (list PyValue) := v ← json_loads out; as_list v.
Definition ssm_inspect_container cid : eff W Exn ContainerInspectionResult :=
  out ← catch is_runtime_error (o ← docker_cli ["inspect"%string; cid]; mret (Some o)) (λ _, mret None);
  match (out : option string) ≫= reported with
  | Some (PDict attrs :: _) => normalized attrs
  | Some (_ :: _) => raise (AttributeError "object has no attribute 'get'")
  | Some [] | None => mret inspection_not_found
  end.

Definition ssm_fetch_container_log_tail cid (lines : Z) : eff W Exn string :=
  try_except (out ← docker_cli ["logs"; "--tail"; Py.str_of_Z (clamp_lines lines); cid]%string; mret (Py.strip out))
    (λ _, mret ""%string).

(** The docker command line for a spec, and the published ports it expects *)
Definition create_arguments (spec : ContainerSpec) (host_path mode : string) (extra : list string)
    (port_bindings : list (string * option Z)) : list string :=
  ["create"; "--name"; spec_name spec]%string ++
  flags "--label" (key_value <$> sorted_items (spec_labels spec)) ++
  flags "-e" (key_value <$> sorted_items (spec_env spec)) ++
  ["-v"; host_path ++ ":" ++ WORKSPACE_PROJECT_CONTAINER_PATH ++ ":" ++ mode]%string ++
  flags "-v" extra ++
  flags "-p" (omap publish_argument (sort_by (λ a b : string * option Z, String.leb a.1 b.1) port_bindings)) ++
  optional_flag "--cpus" (cpus_argument <$> spec_cpu_limit spec) ++
  optional_flag "--memory" (Py.str_of_Z <$> spec_memory_limit_bytes spec) ++
  optional_flag "--pids-limit" (Py.str_of_Z <$> spec_pids_limit spec) ++
  from_option security_arguments [] (spec_security spec) ++
  [resolve_image (spec_image spec)].

Definition create_command (spec : ContainerSpec) : list string * list (string * option Z) + Exn :=
  then_result (resolve_project_host_path_remote (spec_project_mount spec) (spec_workspace_host_path spec))
    (λ '(host_path, proj_ro),
  then_result (check_limits spec) (λ _,
  then_result (port_bindings_from_spec (spec_ports spec)) (λ port_bindings,
  then_result (extra_bind_strings (spec_extra_bind_mounts spec)) (λ extra,
  inl (create_arguments spec host_path (if proj_ro : bool then "ro" else "rw") extra port_bindings,
       port_bindings))))).

(** The last line of the output that is not blank *)
Definition last_line (out : string) : string :=
  default ""%string (last (List.filter Py.truthy (Py.strip <$> splitlines (Py.strip out)))).

Definition ssm_find_existing (spec : ContainerSpec) : eff W Exn (option ContainerInspectionResult) :=
  let rid := Py.strip_opt (spec_existing_container_id spec) in
  by_id ← (if Py.truthy rid then ins ← ssm_inspect_container rid; mret (if ins_exists ins then Some ins else None)
           else mret None);
  match by_id with
  | Some ins => mret (Some ins)
  | None => ins ← ssm_inspect_container (spec_name spec); mret (if ins_exists ins then Some ins else None)
  end.

Definition ssm_create_container (spec : ContainerSpec) : eff W Exn RuntimeEnsureResult :=
  cmd ← result_of (create_command spec);
  runtime_error_as (λ _, ContainerCreateError "failed to pull image")
    (docker_cli ["pull"%string; resolve_image (spec_image spec)]) ;;
  out ← runtime_error_as ContainerCreateError (docker_cli cmd.1);
  let cid := last_line out in
  if negb (Py.truthy cid) then raise (ContainerCreateError "docker create returned empty id")
  else
    ins ← ssm_inspect_container cid;
    mret (created ins cid cmd.2).

Definition ssm_ensure_container (spec : ContainerSpec) : eff W Exn RuntimeEnsureResult :=
  if negb (Py.truthy (Py.strip (spec_name spec))) then
    raise (ContainerCreateError "container name must be non-empty")
  else
    existing ← ssm_find_existing spec;
    match existing with
    | Some ins => mret (reused ins)
    | None => ssm_create_container spec
    end.

(** [docker inspect] again for the hint on the image's command *)
Definition ssm_command_hint cid : eff W Exn unit :=
  try_except (docker_cli ["inspect"%string; cid] ;; mret tt) (λ _, mret tt).

Definition ssm_start_container cid : eff W Exn RuntimeActionResult :=
  ins ← ssm_inspect_container cid;
  if negb (ins_exists ins) then not_found_error
  else if String.eqb (ins_container_state ins) "running" then mret (action_ok (id_or ins cid) (ins_container_state ins))
  else
    ins2 ← ssm_inspect_container cid;
    if String.eqb (ins_container_state ins2) "running" then
      mret (action_ok (id_or ins2 cid) (ins_container_state ins2))
    else
      runtime_error_as ContainerStartError (docker_cli ["start"%string; cid]) ;;
      after ← ssm_inspect_container cid;
      if String.eqb (ins_container_state after) "running" then
        mret (action_ok (id_or after cid) (ins_container_state after))
      else
        ssm_command_hint cid ;;
        mret (mkAction (id_or after cid) (ins_container_state after) false
                (Some ("unexpected state after start: " ++ ins_container_state after)%string)).

Definition ssm_stop cid : eff W Exn string :=
  docker_cli ["stop"; "-t"; Py.str_of_Z default_stop_timeout_s; cid]%string.

Definition ssm_stop_container cid : eff W Exn RuntimeActionResult :=
  ins ← ssm_inspect_container cid;
  if negb (ins_exists ins) then mret (action_ok cid "missing")
  else
  let cid_out := id_or ins cid in
  if negb (container_state_needs_engine_stop (ins_container_state ins)) then
    mret (action_ok cid_out (ins_container_state ins))
  else
    live ← ssm_inspect_container cid;
    if negb (ins_exists live) then mret (action_ok cid_out "missing")
    else if negb (container_state_needs_engine_stop (ins_container_state live)) then
      mret (action_ok (id_or live cid_out) (ins_container_state live))
    else
      runtime_error_as ContainerStopError (ssm_stop cid) ;;
      after ← ssm_inspect_container cid;
      mret (stopped_result cid cid_out after).

Definition ssm_restart_container cid : eff W Exn RuntimeActionResult :=
  ins ← ssm_inspect_container cid;
  if negb (ins_exists ins) then not_found_error
  else
    runtime_error_as ContainerStartError
      (docker_cli ["restart"; "-t"; Py.str_of_Z default_stop_timeout_s; cid]%string) ;;
    after ← ssm_inspect_container cid;
    if negb (ins_exists after) then raise (ContainerNotFoundError "container not found after restart")
    else if String.eqb (ins_container_state after) "running" then
      mret (action_ok (id_or after cid) (ins_container_state after))
    else
      ssm_command_hint cid ;;
      mret (mkAction (id_or after cid) (ins_container_state after) false
              (Some ("unexpected state after restart: " ++ ins_container_state after)%string)).

(** The stop's [ContainerStopError] is no [RuntimeError], so it escapes the handler. *)
Definition ssm_delete_container cid : eff W Exn RuntimeActionResult :=
  ins ← ssm_inspect_container cid;
  if negb (ins_exists ins) then mret (action_ok cid "missing")
  else
    live ← ssm_inspect_container cid;
    if negb (ins_exists live) then mret (action_ok (id_or ins cid) "missing")
    else
      let cid_known := id_or live (id_or ins cid) in
      removed ← try_except
        (when (container_state_needs_engine_stop (ins_container_state live))
           (runtime_error_as ContainerStopError (ssm_stop cid) ;; mret tt) ;;
         docker_cli ["rm"; "-f"; cid]%string ;; mret true)
        (λ e, if is_runtime_error e then
                final ← ssm_inspect_container cid;
                if negb (ins_exists final) then mret false else raise (ContainerDeleteError (exn_str e))
              else raise e);
      if negb (removed : bool) then mret (action_ok cid_known "missing")
      else
        final ← ssm_inspect_container cid;
        mret (deleted_result cid_known final).

Definition ssm_get_container_netns_ref cid : eff W Exn NetnsRefResult :=
  ins ← ssm_inspect_container cid;
  let id := default ""%string (ins_container_id ins) in
  if negb (ins_exists ins) || negb (Py.truthy id) then raise (NetnsRefError "container not found")
  else if negb (has_pid ins) then raise (NetnsRefError "no host PID for container")
  else let pid := default 0 (ins_pid ins) in mret (mkNetns id pid (netns_path pid)).

#[local] Instance ssm_runtime_adapter : RuntimeAdapter W := {
  ad_ensure_container := ssm_ensure_container;
  ad_start_container := ssm_start_container;
  ad_stop_container := ssm_stop_container;
  ad_delete_container := ssm_delete_container;
  ad_inspect_container := ssm_inspect_container;
  ad_fetch_container_log_tail := ssm_fetch_container_log_tail;
  ad_get_container_netns_ref := ssm_get_container_netns_ref
}.
End ssm_adapter.

(** ** The wait for a command ends *)

Section wait.
Context {W : Type} {api : SsmApi W} {clock : Clock W}.
Hypothesis sleeps : ∀ d w, 0 ≤ d → clock_monotonic w + d ≤ clock_monotonic (clock_sleep d w).
Hypothesis answers_later : ∀ id iid w, clock_monotonic w ≤ clock_monotonic (ssm_get_command_invocation id iid w).1.

Lemma throttle_delay_least n : 250000 ≤ throttle_delay n.
Proof.
  unfold throttle_delay. assert (1 ≤ 2 ^ Z.of_nat n) by (apply (Z.pow_le_mono_r 2 0); lia). lia.
Qed.

(** With time that moves forward the polling loop never runs out of fuel: it ends at
    its deadline, or with a terminal status SSM reported together with that output, or
    with an error. *)
Lemma ssm_wait_ends fuel cmd_id iid deadline status throttled w :
  terminal_status status = false → deadline - clock_monotonic w ≤ 250000 * (Z.of_nat fuel - 1) → (0 < fuel)%nat →
  wp (poll_invocation fuel cmd_id iid deadline status throttled)
    (λ p w', match p with
     | PollDone st out err =>
         if terminal_status st then
           ∃ inv w1 w2, ssm_get_command_invocation cmd_id iid w1 = (w2, inl inv) ∧
             Py.strip (inv_status inv) = st ∧ inv_stdout inv = out ∧ inv_stderr inv = err
         else deadline ≤ clock_monotonic w'
     | PollOutOfFuel => False
     end) (λ _ _, True) w.
Proof.
  revert status throttled w. induction fuel as [|fuel IH]; intros status throttled w Hst Hd Hf; [lia|].
  unfold wp. cbn [poll_invocation]. destruct (Z.leb_spec deadline (clock_monotonic w)) as [|Hlt]; [by rewrite Hst|].
  pose proof (answers_later cmd_id iid w) as Hl.
  destruct (ssm_get_command_invocation cmd_id iid w) as [w1 r] eqn:E. cbn [fst] in Hl.
  assert (Hnext : ∀ d st n, 250000 ≤ d → terminal_status st = false →
    wp (ssm_sleep d ;; poll_invocation fuel cmd_id iid deadline st n)
    (λ p w', match p with
     | PollDone st out err =>
         if terminal_status st then
           ∃ inv w1 w2, ssm_get_command_invocation cmd_id iid w1 = (w2, inl inv) ∧
             Py.strip (inv_status inv) = st ∧ inv_stdout inv = out ∧ inv_stderr inv = err
         else deadline ≤ clock_monotonic w'
     | PollOutOfFuel => False
     end) (λ _ _, True) w1).
  { intros d st n Hd2 Hst2. pose proof (sleeps d w1 ltac:(lia)) as Hs. apply wp_bind, wp_modify.
    apply IH; [done| |destruct fuel; lia]. lia. }
  destruct r as [inv|[code msg|e]]; [| |done].
  - destruct (terminal_status (Py.strip (inv_status inv))) eqn:Et.
    + rewrite Et. by exists inv, w, w1.
    + apply (Hnext POLL_INTERVAL); [unfold POLL_INTERVAL; lia|done].
  - destruct (_ && _); [apply Hnext; [apply throttle_delay_least|done]|].
    destruct (String.eqb code "InvocationDoesNotExist"); [apply Hnext; [unfold POLL_INTERVAL; lia|done]|done].
Qed.
End wait.
