(* ===== verification/RuntimeContracts.v ===== *)
(** * RuntimeContracts: what both runtime adapters promise

    The contract the orchestrator relies on ([AdapterContract]), its proof for the
    Docker adapter and for the SSM adapter, whatever the engine or the shell answers;
    the calls [ensure_container] makes; and the two adapters compared. *)

From S2P Require Import Prelude Traces PyValues Models Session Services.
From S2P Require Import Scheduling.
From S2P Require Import LinuxNet Runtime ProjectDirs DockerRuntime SsmRuntime.

(** ** The contract *)

Class AdapterContract (W : Type) {adapter : RuntimeAdapter W} := {
  contract_ensure spec w : wp (ad_ensure_container spec)
    (λ r _, ens_exists r = true ∧ ens_node_id r = None ∧
            ens_ide_container_port r = WORKSPACE_IDE_CONTAINER_PORT) (λ _ _, True) w;
  contract_start cid w : wp (ad_start_container cid)
    (λ r _, act_success r = String.eqb (act_container_state r) "running") (λ _ _, True) w;
  contract_stop cid w : wp (ad_stop_container cid)
    (λ r _, act_success r = negb (container_state_needs_engine_stop (act_container_state r))) (λ _ _, True) w;
  contract_delete cid w : wp (ad_delete_container cid)
    (λ r _, act_success r = true → act_container_state r = "missing"%string) (λ _ _, True) w;
  contract_netns cid w : wp (ad_get_container_netns_ref cid)
    (λ r _, 0 < nn_pid r ∧ nn_netns_ref r = netns_path (nn_pid r)) (λ _ _, True) w
}.

(** What follows any call, when only the shape of the answer matters. *)
Section shapes.
Context {S : Type}.
Lemma wp_bind_any {A B} (m : eff S Exn A) (k : A → eff S Exn B) (Q : B → S → Prop) s :
  (∀ a s', wp (k a) Q (λ _ _, True) s') → wp (m ≫= k) Q (λ _ _, True) s.
Proof. intros H. apply wp_bind. unfold wp. destruct (m s) as [s' [a|e]]; [apply H|done]. Qed.
Lemma wp_then_any {A B} (m : eff S Exn A) (k : eff S Exn B) (Q : B → S → Prop) s :
  (∀ s', wp k Q (λ _ _, True) s') → wp (m ;; k) Q (λ _ _, True) s.
Proof. intros H. apply wp_bind_any. intros _. apply H. Qed.
Lemma wp_raise_any {A} (e : Exn) (Q : A → S → Prop) s : wp (raise e) Q (λ _ _, True) s.
Proof. done. Qed.
End shapes.

(** Walks through binds and branches to the results; [if]s are destructed with their
    equations, and calls may answer anything. *)
Ltac shape_step :=
  match goal with
  | |- wp (mret _) _ _ _ => apply wp_ret
  | |- wp (raise _) _ _ _ => apply wp_raise_any
  | |- wp not_found_error _ _ _ => apply wp_raise_any
  | |- wp (_ ≫= _) _ _ _ => apply wp_bind_any; intros
  | |- wp (if ?b then _ else _) _ _ _ => let E := fresh "E" in destruct b eqn:E
  | |- wp (match ?x with Some _ => _ | None => _ end) _ _ _ => destruct x
  | |- wp (let _ := _ in _) _ _ _ => cbv zeta
  end.
Ltac shapes := repeat shape_step.

Lemma has_pid_pos ins : has_pid ins = true → 0 < default 0 (ins_pid ins).
Proof. unfold has_pid. destruct (ins_pid ins); [by intros ?%Z.ltb_lt|done]. Qed.
Lemma needs_stop_missing : container_state_needs_engine_stop "missing" = false.
Proof. done. Qed.
Lemma stopped_result_shape cid cid_out after :
  act_success (stopped_result cid cid_out after) =
  negb (container_state_needs_engine_stop (act_container_state (stopped_result cid cid_out after))).
Proof.
  unfold stopped_result. destruct (negb (ins_exists after)); [done|].
  destruct (container_state_needs_engine_stop _) eqn:E; cbn; by rewrite E.
Qed.
Lemma deleted_result_shape cid final :
  act_success (deleted_result cid final) = true → act_container_state (deleted_result cid final) = "missing"%string.
Proof. unfold deleted_result. by destruct (ins_exists final). Qed.

Section docker.
Context {W : Type} {repr : PyRepr} {engine : DockerEngine W} {host : RuntimeHost W} {clock : Clock W}.
#[local] Existing Instance docker_runtime_adapter.

Lemma await_pid_shape n cid last w :
  wp (await_pid n cid last)
    (λ r _, match r with inl ref => 0 < nn_pid ref ∧ nn_netns_ref ref = netns_path (nn_pid ref) | inr _ => True end)
    (λ _ _, True) w.
Proof.
  revert last w. induction n as [|n IH]; intros last w; cbn [await_pid]; [by apply wp_ret|].
  apply wp_bind_any. intros ins w1. shapes; try done.
  split; [by apply has_pid_pos|done].
Qed.

#[export] Instance docker_contract : AdapterContract W.
Proof.
  split; intros; cbn [ad_ensure_container ad_start_container ad_stop_container ad_delete_container
                      ad_get_container_netns_ref docker_runtime_adapter].
  - unfold dk_ensure_container, create_container. by shapes.
  - unfold dk_start_container. shapes; cbn; by rewrite ?E0, ?E1, ?E2.
  - unfold dk_stop_container. shapes; cbn [action_ok act_success act_container_state]; try done;
      [by symmetry..|apply stopped_result_shape].
  - unfold dk_delete_container. shapes; try done. apply deleted_result_shape.
  - unfold dk_get_container_netns_ref. apply wp_bind. eapply wp_mono; [apply await_pid_shape| |done].
    intros [ref|[ins|]] w' H; [by apply wp_ret| |done]. by shapes.
Qed.
End docker.

Section ssm.
Context {W : Type} {repr : PyRepr} {json : JsonReader} {shell : RemoteShell W} {host : RuntimeHost W}.
#[local] Existing Instance ssm_runtime_adapter.

#[export] Instance ssm_contract : AdapterContract W.
Proof.
  split; intros; cbn [ad_ensure_container ad_start_container ad_stop_container ad_delete_container
                      ad_get_container_netns_ref ssm_runtime_adapter].
  - unfold ssm_ensure_container, ssm_create_container. by shapes.
  - unfold ssm_start_container. shapes; cbn; by rewrite ?E0, ?E1, ?E2.
  - unfold ssm_stop_container. shapes; cbn [action_ok act_success act_container_state]; try done;
      [by symmetry..|apply stopped_result_shape].
  - unfold ssm_delete_container. shapes; try done. apply deleted_result_shape.
  - unfold ssm_get_container_netns_ref. shapes. apply negb_false_iff in E0. split; [by apply has_pid_pos|done].
Qed.
End ssm.

(** ** A running workspace container *)

Section client.
Context {W : Type} {clock : Clock W} {adapter : RuntimeAdapter W} {contract : AdapterContract W}.

Lemma wp_on_world {R} (f : W → W * (R + Exn)) (Q : R → W → Prop) (s : W * bool) :
  wp f Q (λ _ _, True) s.1 → wp (on_world f) (λ r s', Q r s'.1) (λ _ _, True) s.
Proof. unfold wp, on_world. by destruct (f s.1) as [w' [r|e]]. Qed.

(** What the wait accepts; [skip] without a network of its own. *)
Definition seen_alive (skip : bool) (ins : ContainerInspectionResult) : Prop :=
  if skip then stopped_state (ins_container_state ins) = false
  else ins_container_state ins = "running"%string ∧ has_pid ins = true.

Lemma wait_sees_it_alive cid skip (s : W * bool) :
  wp (wait_post_start_inspect cid skip) (λ ins _, seen_alive skip ins) (λ _ _, True) s.
Proof.
  unfold wait_post_start_inspect. apply wp_bind_any. intros start s1. apply wp_bind.
  set (body := post_start_round cid skip).
  set (I := λ l : option ContainerInspectionResult, ∀ ins, l = Some ins → stopped_state (ins_container_state ins) = false).
  set (Q := λ (p : polled ContainerInspectionResult (option ContainerInspectionResult)) (_ : W * bool),
    match p with Answered ins => seen_alive skip ins | TimedOut l | OutOfFuel l => I l end).
  enough (H : ∀ n d l s2, I l → wp (poll_while n d POST_START_PAUSE body l) Q (λ _ _, True) s2).
  { eapply wp_mono; [by apply H| |done]. intros [ins|[last|]|[last|]] s2 HQ; unfold start_failed; try (by apply wp_ret); try (by shapes).
    all: specialize (HQ last eq_refl); unfold seen_alive; destruct skip; [by apply wp_ret|]; shapes; try done;
      match goal with H : negb (_ && _) = false |- _ => by apply negb_false_iff, andb_true_iff in H as [H%String.eqb_eq ?] end. }
  induction n as [|n IH]; intros d l s2 Hl; cbn [poll_while]; [by apply wp_ret|]. apply wp_bind_any. intros now s3.
  destruct (d <=? now); [by apply wp_ret|]. apply wp_bind.
  enough (Hb : wp (body l) (λ r _, match r with inl ins => seen_alive skip ins | inr l => I l end) (λ _ _, True) s3).
  { eapply wp_mono; [exact Hb| |done]. intros [a|l'] s4 Ha; [by apply wp_ret|]. apply wp_then_any. intros s5. by apply IH. }
  unfold body, post_start_round. apply wp_bind_any. intros ins s4. destruct (stopped_state _) eqn:Est; [by unfold start_failed; shapes|].
  destruct (String.eqb_spec (ins_container_state ins) "running") as [Er|]; cbn [andb]; [|by apply wp_ret; intros ? [= <-]].
  destruct (skip || has_pid ins) eqn:Ep; apply wp_ret; [|by intros ? [= <-]]. unfold seen_alive. by destruct skip.
Qed.

(** C24. A runtime the orchestrator gets back from [ensure_running_runtime_only] is
    usable: over any adapter that keeps the contract, as both the Docker and the SSM
    adapter do, its container has an id and serves the IDE on the port the proxy is given.
    When the network namespace is wanted, the container was seen running with a host
    process, and the namespace is that of the process; when it is skipped, as for remote
    nodes and without Linux networking, the container was not seen stopped, and the
    process is 0 and the namespace the placeholder. *)
Theorem started_runtime_is_usable (spec : ContainerSpec) (skip : bool) (s : W * bool) :
  wp (ensure_running_runtime_only spec skip)
    (λ r _, Py.truthy (run_container_id r) = true ∧ run_ide_container_port r = WORKSPACE_IDE_CONTAINER_PORT ∧
       if skip then stopped_state (run_container_state r) = false ∧ run_pid r = 0 ∧ run_netns_ref r = SKIP_NETNS_PLACEHOLDER_REF
       else run_container_state r = "running"%string ∧ 0 < run_pid r ∧ run_netns_ref r = netns_path (run_pid r))
    (λ _ _, True) s.
Proof.
  unfold ensure_running_runtime_only. apply wp_bind. unfold ensure_container.
  eapply wp_mono; [apply wp_on_world, contract_ensure| |done]. intros e s1 (_ & _ & Hport).
  destruct (Py.truthy (ens_container_id e)) eqn:Hid; cbn [negb]; [|done].
  apply wp_bind_any. intros started s2. destruct (negb (act_success started)); [by unfold start_failed; shapes|].
  apply wp_bind. eapply wp_mono; [apply wait_sees_it_alive| |done]. intros ins s3 Hseen.
  assert (Htruthy : Py.truthy (Py.or_else (default ""%string (ins_container_id ins)) (ens_container_id e)) = true)
    by (unfold Py.or_else; by destruct (Py.truthy (default _ _)) eqn:E).
  cbv zeta. apply wp_bind. destruct skip; [by apply wp_ret, wp_ret|]. destruct Hseen as [Hrun _]. unfold get_container_netns_ref.
  eapply wp_mono; [apply wp_on_world, contract_netns| |done]. intros nn s4 [Hpid Hns]. by apply wp_ret.
Qed.
End client.

(** ** The calls of [ensure_container] *)

Inductive EngineCall :=
| CallInspect (ref : string) | CallStart (ref : string) | CallStop (ref : string) (timeout : Z)
| CallRestart (ref : string) (timeout : Z) | CallRemove (ref : string) (force : bool)
| CallLogs (ref : string) (tail : Z) | CallCreate (req : CreateRequest) | CallPull (image : string).

Section trace.
Context {W : Type} {repr : PyRepr} {engine : DockerEngine W} {host : RuntimeHost W}.

#[local] Abbreviation only_calls := (@Traces.only_calls W EngineCall).
(** The same engine, which also writes down the calls. *)
#[local] Instance traced_engine : DockerEngine (W * list EngineCall) := {
  dk_inspect ref := traced (CallInspect ref) (dk_inspect ref);
  dk_start ref := traced (CallStart ref) (dk_start ref);
  dk_stop ref t := traced (CallStop ref t) (dk_stop ref t);
  dk_restart ref t := traced (CallRestart ref t) (dk_restart ref t);
  dk_remove ref force := traced (CallRemove ref force) (dk_remove ref force);
  dk_logs ref n := traced (CallLogs ref n) (dk_logs ref n);
  dk_create req := traced (CallCreate req) (dk_create req);
  dk_pull image := traced (CallPull image) (dk_pull image)
}.
#[local] Instance traced_host : RuntimeHost (W * list EngineCall) := {
  rh_stop_timeout_seconds := rh_stop_timeout_seconds;
  rh_workspace_image := rh_workspace_image;
  rh_linux := rh_linux;
  rh_pid_visible pid s := rh_pid_visible pid s.1
}.

(** The container has every destination once, and the project only once. *)
Definition destination (m : WorkspaceExtraBindMountSpec) : string :=
  Py.or_else (Py.rstrip_slash (Py.strip (xm_container_path m))) "/".
Lemma extra_bind_strings_ok seen ms out : extra_bind_strings_from seen ms = inl out →
  NoDup (destination <$> ms) ∧ Forall (λ m, (destination m ∉ seen) ∧
    destination m ≠ Py.rstrip_slash WORKSPACE_PROJECT_CONTAINER_PATH) ms ∧ length out = length ms.
Proof.
  revert seen out. induction ms as [|m ms IH]; intros seen out; cbn [extra_bind_strings_from].
  { intros [= <-]. by repeat constructor. }
  destruct (_ || _); [done|]. cbv zeta. fold (destination m).
  destruct (String.eqb_spec (destination m) (Py.rstrip_slash WORKSPACE_PROJECT_CONTAINER_PATH)) as [|Hp]; [done|].
  case_bool_decide as Hs; [done|]. destruct (extra_bind_strings_from _ ms) as [out'|] eqn:E; [|done].
  intros [= <-]. apply IH in E as (Hn & Hf & Hl). cbn. split_and!.
  - apply NoDup_cons. split; [|done]. intros (m' & Hm & Hin)%list_elem_of_fmap.
    rewrite Forall_forall in Hf. destruct (Hf m' Hin) as [Hnot _]. rewrite <- Hm in Hnot. set_solver.
  - constructor; [done|]. eapply Forall_impl; [exact Hf|]. intros m' [H1 H2]. split; [set_solver|done].
  - by rewrite Hl.
Qed.

(** What a request carries over from the spec. *)
Definition requested_by (spec : ContainerSpec) (req : CreateRequest) : Prop :=
  let hc := cr_host_config req in
  cr_name req = spec_name spec ∧ cr_environment req = spec_env spec ∧ cr_labels req = spec_labels spec ∧
  hc_nano_cpus hc = spec_cpu_limit spec ∧ hc_mem_limit hc = spec_memory_limit_bytes spec ∧
  hc_pids_limit hc = spec_pids_limit spec ∧
  (∀ n, spec_cpu_limit spec = Some n ∨ spec_memory_limit_bytes spec = Some n ∨ spec_pids_limit spec = Some n → 0 < n) ∧
  NoDup (Py.rstrip_slash WORKSPACE_PROJECT_CONTAINER_PATH :: (destination <$> spec_extra_bind_mounts spec)) ∧
  length (hc_binds hc) = S (length (spec_extra_bind_mounts spec)) ∧
  (∀ sec, spec_security spec = Some sec → hc_security_opt hc = sec_security_opt sec ∧
     hc_cap_drop hc = sec_cap_drop sec ∧ hc_read_only hc = sec_read_only_rootfs sec).

Lemma check_limits_ok spec n : check_limits spec = inl tt →
  spec_cpu_limit spec = Some n ∨ spec_memory_limit_bytes spec = Some n ∨ spec_pids_limit spec = Some n → 0 < n.
Proof.
  unfold check_limits. intros H Hn.
  destruct (spec_cpu_limit spec) as [a|], (spec_memory_limit_bytes spec) as [b|], (spec_pids_limit spec) as [c|];
    repeat match type of H with context [?x <=? 0] => destruct (Z.leb_spec x 0); [done|] end;
    destruct Hn as [[= <-]|[[= <-]|[= <-]]]; done.
Qed.
Lemma create_request_ok spec req pb : create_request spec = inl (req, pb) → requested_by spec req.
Proof.
  unfold create_request, then_result. destruct (resolve_project_host_path_for_create _ _) as [[hp ro]|]; [|done].
  destruct (check_limits spec) as [[]|] eqn:El; [|done]. destruct (port_bindings_from_spec _); [|done].
  destruct (extra_bind_strings _) as [extra|] eqn:Ex; [|done]. intros [= <- <-].
  apply extra_bind_strings_ok in Ex as (Hn & Hf & Hlen). unfold requested_by. cbn.
  split_and!; try done.
  - intros n Hn'. by eapply check_limits_ok.
  - apply NoDup_cons. split; [|done]. intros (m & Hm & Hin)%list_elem_of_fmap.
    rewrite Forall_forall in Hf. by destruct (Hf m Hin) as [_ []].
  - by rewrite Hlen.
  - by intros sec ->.
Qed.

Definition ensure_call (spec : ContainerSpec) (call : EngineCall) : Prop :=
  match call with
  | CallInspect _ => True
  | CallRemove _ force => force = true ∧ ∃ binds,
      requested_bind_signatures (spec_workspace_host_path spec) (spec_extra_bind_mounts spec) = inl (Some binds)
  | CallCreate req => ∃ pb, create_request spec = inl (req, pb) ∧ requested_by spec req
  | CallPull image => image = resolve_image (spec_image spec)
  | _ => False
  end.

Lemma within_ret_bind {S A B} (R : S → S → Prop) (a : A) (k : A → eff S Exn B) : within R (k a) → within R (mret a ≫= k).
Proof. intros H s. exact (H s). Qed.
Lemma within_raise_bind {S A B} (R : S → S → Prop) `{!PreOrder R} e (k : A → eff S Exn B) : within R (raise e ≫= k).
Proof. intros s. change (R s s). reflexivity. Qed.

Section calls.
Context (P : EngineCall → Prop) (HP : ∀ ref, P (CallInspect ref)).
Lemma calls_inspect ref : within (only_calls P) (dk_inspect ref).
Proof. apply within_traced, HP. Qed.
Lemma calls_catch {A} p (m : eff (W * list EngineCall) Exn A) h :
  within (only_calls P) m → (∀ e, within (only_calls P) (h e)) → within (only_calls P) (catch p m h).
Proof.
  intros Hm Hh. apply within_try; [apply _|done|]. intros e. destruct (p e); [apply Hh|apply within_raise, _].
Qed.
Lemma calls_result {A} (r : A + Exn) : within (only_calls P) (result_of r).
Proof. destruct r; [apply within_ret, _|apply within_raise, _]. Qed.
Lemma calls_normalized attrs : within (only_calls P) (normalized attrs).
Proof. unfold normalized. destruct (normalize_inspection attrs); [apply within_ret, _|apply within_raise, _]. Qed.
Lemma calls_get ref : within (only_calls P) (get_container_if_exists ref).
Proof.
  apply calls_catch; [|intros e; apply within_ret, _].
  apply (within_bind (only_calls P)); [apply calls_inspect|]. intros a. apply within_ret, _.
Qed.
Lemma calls_create_once req : P (CallCreate req) → within (only_calls P) (create_once req).
Proof.
  intros Hc. apply (within_bind (only_calls P)); [by apply within_traced|]. intros id.
  destruct (Py.truthy _); [apply calls_inspect|apply within_raise, _].
Qed.
Lemma calls_create_pulling req : P (CallCreate req) → P (CallPull (cr_image req)) →
  within (only_calls P) (create_pulling req).
Proof.
  intros Hc Hp. apply within_try; [apply _|by apply calls_create_once|]. intros e.
  destruct (is_image_not_found e); [|destruct (is_docker_api_error e); apply within_raise, _].
  apply (within_bind (only_calls P)).
  - apply calls_catch; [by apply within_traced|intros ?; apply within_raise, _].
  - intros _. apply calls_catch; [by apply calls_create_once|intros ?; apply within_raise, _].
Qed.
End calls.

Lemma ensure_makes_ensure_calls spec :
  within (only_calls (ensure_call spec)) (dk_ensure_container (W:=W * list EngineCall) spec).
Proof.
  pose proof (λ ref, I : ensure_call spec (CallInspect ref)) as HP.
  unfold dk_ensure_container. destruct (negb _); [apply within_raise, _|].
  apply (within_bind (only_calls (ensure_call spec))).
  { unfold find_existing. cbv zeta. apply (within_bind (only_calls (ensure_call spec))).
    - destruct (Py.truthy _); [by apply calls_get|apply within_ret, _].
    - intros [c|]; [apply within_ret, _|by apply calls_get]. }
  intros found. apply (within_bind (only_calls (ensure_call spec))).
  { unfold drop_mismatched. destruct found as [attrs|]; [|apply within_ret, _].
    apply (within_bind (only_calls (ensure_call spec))); [apply calls_normalized|]. intros ins.
    destruct (requested_bind_signatures _ _) as [[binds|]|e] eqn:Er; cbn [result_of].
    - apply within_ret_bind. destruct (bool_decide _); [apply within_ret, _|].
      apply (within_bind (only_calls (ensure_call spec))); [|intros _; apply within_ret, _].
      apply within_try; [apply _|apply within_traced; split; [done|by exists binds]|]. intros e.
      destruct (is_docker_not_found e); [apply within_ret, _|].
      destruct (is_docker_api_error e); apply within_raise, _.
    - apply within_ret_bind, within_ret, _.
    - apply within_raise_bind, _. }
  intros [attrs|].
  - apply (within_bind (only_calls (ensure_call spec))); [apply calls_normalized|]. intros ins. apply within_ret, _.
  - unfold create_container. destruct (create_request spec) as [[req pb]|e] eqn:Er; cbn [result_of].
    + apply within_ret_bind. cbn [fst snd].
      assert (Hc : ensure_call spec (CallCreate req)) by (exists pb; split; [done|by eapply create_request_ok]).
      assert (Hp : ensure_call spec (CallPull (cr_image req))).
      { revert Er. unfold create_request, then_result. destruct (resolve_project_host_path_for_create _ _) as [[hp ro]|]; [|done].
        destruct (check_limits spec); [|done]. destruct (port_bindings_from_spec _); [|done].
        destruct (extra_bind_strings _); [|done]. by intros [= <- _]. }
      apply (within_bind (only_calls (ensure_call spec))); [by apply calls_create_pulling|]. intros ctr.
      apply (within_bind (only_calls (ensure_call spec))); [by apply calls_inspect|]. intros attrs.
      apply (within_bind (only_calls (ensure_call spec))); [apply calls_normalized|]. intros ins. apply within_ret, _.
    + apply within_raise_bind, _.
Qed.

(** The engine has reported [attrs] at some time. *)
Definition reported_attrs (attrs : PyDict) : Prop := ∃ ref (w w' : W), dk_inspect ref w = (w', inl attrs).

Lemma wp_inspect_reported ref s :
  wp (dk_inspect (W:=W * list EngineCall) ref) (λ attrs _, reported_attrs attrs) (λ _ _, True) s.
Proof.
  unfold wp. cbn [dk_inspect traced_engine]. unfold traced.
  destruct (dk_inspect ref s.1) as [w [attrs|e]] eqn:E; [by exists ref, s.1, w|done].
Qed.
Lemma wp_get_reported ref s :
  wp (get_container_if_exists (W:=W * list EngineCall) ref)
    (λ o _, match o with Some attrs => reported_attrs attrs | None => True end) (λ _ _, True) s.
Proof.
  unfold get_container_if_exists, catch. apply wp_try. apply wp_bind.
  eapply wp_mono; [apply wp_inspect_reported| |].
  - intros attrs s' H. by apply wp_ret.
  - intros e s' _. destruct (is_docker_not_found e); [by apply wp_ret|done].
Qed.
Lemma wp_find_reported spec s :
  wp (find_existing (W:=W * list EngineCall) spec)
    (λ o _, match o with Some attrs => reported_attrs attrs | None => True end) (λ _ _, True) s.
Proof.
  unfold find_existing. cbv zeta. apply wp_bind.
  eapply (wp_mono _ (λ o _, match o with Some attrs => reported_attrs attrs | None => True end) _ (λ _ _, True)); [|
    intros [attrs|] s' H; [by apply wp_ret|apply wp_get_reported]|done].
  destruct (Py.truthy _); [apply wp_get_reported|by apply wp_ret].
Qed.

(** The container that is kept has the requested binds. *)
Definition keeps_binds (spec : ContainerSpec) (attrs : PyDict) : Prop :=
  reported_attrs attrs ∧ ∃ ins, normalize_inspection attrs = Some ins ∧
  ∀ binds, requested_bind_signatures (spec_workspace_host_path spec) (spec_extra_bind_mounts spec) = inl (Some binds) →
           existing_bind_signatures (ins_bind_mounts ins) = binds.
Lemma wp_drop_keeps spec found s : (∀ attrs, found = Some attrs → reported_attrs attrs) →
  wp (drop_mismatched (W:=W * list EngineCall) spec found)
    (λ o _, match o with Some attrs => keeps_binds spec attrs | None => True end) (λ _ _, True) s.
Proof.
  intros Hf. unfold drop_mismatched. destruct found as [attrs|]; [|by apply wp_ret].
  specialize (Hf attrs eq_refl). unfold normalized. destruct (normalize_inspection attrs) as [ins|] eqn:En; [|done].
  apply wp_bind, wp_ret. destruct (requested_bind_signatures _ _) as [[binds|]|e] eqn:Er; [| |done].
  - apply wp_bind, wp_ret. case_bool_decide as Hb.
    + apply wp_ret. split; [done|]. exists ins. split; [done|]. intros binds' Hr. rewrite Er in Hr. by injection Hr as <-.
    + apply wp_then_any. intros s'. by apply wp_ret.
  - apply wp_bind, wp_ret, wp_ret. split; [done|]. exists ins. split; [done|]. intros binds' Hr. by rewrite Er in Hr.
Qed.

(** A call that is in the log stays there. *)
Lemma wp_then_logged {A B} call (m : eff (W * list EngineCall) Exn A) (k : A → eff (W * list EngineCall) Exn B) s :
  wp m (λ _ s', call ∈ s'.2) (λ _ _, True) s → (∀ a, within (only_calls (λ _, True)) (k a)) →
  wp (m ≫= k) (λ _ s', call ∈ s'.2) (λ _ _, True) s.
Proof.
  intros Hm Hk. apply wp_bind. eapply wp_mono; [exact Hm| |done]. intros a s' Hin. unfold wp.
  specialize (Hk a s'). destruct (k a s') as [s2 [b|e]]; [|done]. destruct Hk as (l & Hl & _). cbn [fst] in Hl.
  rewrite Hl. set_solver.
Qed.
Lemma wp_create_once_logged req s :
  wp (create_once (W:=W * list EngineCall) req) (λ _ s', CallCreate req ∈ s'.2) (λ _ _, True) s.
Proof.
  apply wp_then_logged.
  - unfold wp. cbn [dk_create traced_engine]. unfold traced. destruct (dk_create req s.1) as [w [o|e]]; [|done].
    cbn [snd]. set_solver.
  - intros id. destruct (Py.truthy _); [by apply calls_inspect|apply within_raise, _].
Qed.
Lemma wp_create_pulling_logged req s :
  wp (create_pulling (W:=W * list EngineCall) req) (λ _ s', CallCreate req ∈ s'.2) (λ _ _, True) s.
Proof.
  unfold create_pulling. apply wp_try. eapply wp_mono; [apply wp_create_once_logged|done|].
  intros e s' _. destruct (is_image_not_found e); [|by destruct (is_docker_api_error e)].
  apply wp_then_any. intros s2. unfold as_create_error, catch. apply wp_try.
  eapply wp_mono; [apply wp_create_once_logged|done|]. intros e' s3 _. by destruct (is_docker_api_error e').
Qed.
Lemma wp_both {S A} (m : eff S Exn A) (Q Q' : A → S → Prop) s :
  wp m Q (λ _ _, True) s → wp m Q' (λ _ _, True) s → wp m (λ a s', Q a s' ∧ Q' a s') (λ _ _, True) s.
Proof. unfold wp. destruct (m s) as [s' [a|e]]; auto. Qed.
Lemma wp_create_logged spec s :
  wp (create_container (W:=W * list EngineCall) spec)
    (λ r s', ens_created_new r = true ∧ ∃ req pb, create_request spec = inl (req, pb) ∧ CallCreate req ∈ s'.2)
    (λ _ _, True) s.
Proof.
  apply wp_both; [unfold create_container; by shapes|].
  unfold create_container. destruct (create_request spec) as [[req pb]|e] eqn:Er; [|done].
  eapply (wp_mono _ (λ _ s', CallCreate req ∈ s'.2)); [|intros r s' H; exists req, pb; by split|done].
  apply wp_bind, wp_ret. cbn [fst snd]. apply wp_then_logged; [apply wp_create_pulling_logged|]. intros ctr.
  apply (within_bind (only_calls (λ _, True))); [by apply calls_inspect|]. intros attrs.
  apply (within_bind (only_calls (λ _, True))); [apply calls_normalized|]. intros ins. apply within_ret, _.
Qed.

(** C25. [ensure_container] over Docker, whatever the engine answers: it never starts,
    stops or restarts a container; it creates only containers with the name,
    environment, labels, limits and security options of the spec, the project bind and
    the extra binds at distinct destinations, and positive limits; it pulls only the
    image of the spec; it removes a container only, and then by force, when binds were
    asked for.  A result that is not newly created stands for a container the engine
    reported with exactly the binds asked for; one that is newly created was preceded
    by such a creation. *)
Theorem ensured_container_is_the_requested_one (spec : ContainerSpec) (w : W) :
  let '((w', calls), res) := dk_ensure_container (W:=W * list EngineCall) spec (w, []) in
  Forall (ensure_call spec) calls ∧
  ∀ r, res = inl r →
    if ens_created_new r
    then ∃ req pb, create_request spec = inl (req, pb) ∧ requested_by spec req ∧ CallCreate req ∈ calls
    else ∃ attrs ins, keeps_binds spec attrs ∧ normalize_inspection attrs = Some ins ∧ r = reused ins.
Proof.
  destruct (dk_ensure_container spec (w, [])) as [[w' calls] res] eqn:E. split.
  { pose proof (ensure_makes_ensure_calls spec (w, [])) as H. rewrite E in H.
    destruct H as (l & Hl & HF). cbn [fst snd app] in Hl. by subst l. }
  intros r ->.
  enough (H : wp (dk_ensure_container (W:=W * list EngineCall) spec)
    (λ r s', if ens_created_new r
      then ∃ req pb, create_request spec = inl (req, pb) ∧ CallCreate req ∈ s'.2
      else ∃ attrs ins, keeps_binds spec attrs ∧ normalize_inspection attrs = Some ins ∧ r = reused ins)
    (λ _ _, True) (w, [])).
  { unfold wp in H. rewrite E in H. cbn [snd] in H. destruct (ens_created_new r); [|done].
    destruct H as (req & pb & H1 & H2). exists req, pb. split_and!; [done|by eapply create_request_ok|done]. }
  unfold dk_ensure_container. destruct (negb _); [done|]. apply wp_bind.
  eapply wp_mono; [apply wp_find_reported| |done]. intros found s1 Hfound. apply wp_bind.
  eapply wp_mono; [apply wp_drop_keeps; by intros attrs ->| |done]. intros [attrs|] s2 H.
  - unfold normalized. destruct (normalize_inspection attrs) as [ins|] eqn:En; [|done].
    apply wp_bind, wp_ret, wp_ret. cbn [reused ens_created_new]. by exists attrs, ins.
  - eapply wp_mono; [apply wp_create_logged| |done]. intros r' s3 [-> H']. exact H'.
Qed.
End trace.

(** ** What a deletion means *)

Section deletion.
Context {W : Type} {repr : PyRepr} {engine : DockerEngine W} {host : RuntimeHost W}.

(** The last word of the engine was that there is no such container. *)
Definition engine_said_missing (w' : W) : Prop :=
  ∃ ref w e, is_docker_not_found e = true ∧
    (dk_inspect ref w = (w', inr e) ∨ dk_remove ref false w = (w', inr e)).

Lemma normalized_exists attrs ins : normalize_inspection attrs = Some ins → ins_exists ins = true.
Proof.
  unfold normalize_inspection. intros H. repeat (apply bind_Some in H as (? & _ & H)). by injection H as <-.
Qed.
Lemma wp_get_missing ref w :
  wp (get_container_if_exists ref) (λ o w', o = None → engine_said_missing w') (λ _ _, True) w.
Proof.
  unfold get_container_if_exists, catch. apply wp_try. unfold mbind, eff_bind, wp.
  destruct (dk_inspect ref w) as [w1 [attrs|e]] eqn:E; [done|].
  destruct (is_docker_not_found e) eqn:En; [|done]. intros _. exists ref, w, e. auto.
Qed.
Lemma wp_inspect_missing cid w :
  wp (dk_inspect_container cid) (λ ins w', ins_exists ins = false → engine_said_missing w') (λ _ _, True) w.
Proof.
  unfold dk_inspect_container. apply wp_bind. eapply wp_mono; [apply wp_get_missing| |done].
  intros [attrs|] w1 H; [|apply wp_ret; auto]. unfold normalized.
  destruct (normalize_inspection attrs) as [ins|] eqn:E; [|done]. apply wp_ret.
  rewrite (normalized_exists _ _ E). done.
Qed.
Lemma wp_remove_missing ref live w :
  wp (stop_and_remove ref live) (λ there w', there = false → engine_said_missing w') (λ _ _, True) w.
Proof.
  unfold stop_and_remove. apply wp_try. apply wp_bind.
  set (X := λ (e : Exn) (w' : W), is_docker_not_found e = true → engine_said_missing w').
  assert (Hh : ∀ e w', X e w' →
    wp (if is_docker_not_found e then mret false
        else if is_docker_api_error e then raise (ContainerDeleteError (exn_str e)) else raise e)
       (λ there w', there = false → engine_said_missing w') (λ _ _, True) w').
  { intros e w' He. destruct (is_docker_not_found e) eqn:En; [|by destruct (is_docker_api_error e)].
    apply wp_ret. intros _. by apply He. }
  assert (Hr : ∀ w1, wp (dk_remove ref false ;; mret true)
    (λ there w', there = false → engine_said_missing w')
    (λ e w', wp (if is_docker_not_found e then mret false
        else if is_docker_api_error e then raise (ContainerDeleteError (exn_str e)) else raise e)
       (λ there w', there = false → engine_said_missing w') (λ _ _, True) w') w1).
  { intros w1. apply wp_bind. unfold wp at 1. destruct (dk_remove ref false w1) as [w2 [[]|e]] eqn:E; [by apply wp_ret|].
    apply Hh. intros En. exists ref, w1, e. auto. }
  destruct (container_state_needs_engine_stop _); cbn [when]; [|apply wp_ret, Hr].
  unfold catch. apply wp_try. unfold wp at 1. destruct (dk_stop ref default_stop_timeout_s w) as [w1 [[]|e]]; [apply Hr|].
  destruct (is_docker_api_error e) eqn:Ea; [by apply (Hh (ContainerStopError (exn_str e)))|].
  apply (Hh e). intros En. by destruct e.
Qed.

(** Over Docker a successful deletion is confirmed by the engine: whatever it
    answers on the way, [delete_container] reports success only if the engine's last
    word was that the container does not exist. *)
Lemma deletion_is_confirmed (cid : string) (w : W) :
  wp (dk_delete_container cid) (λ r w', act_success r = true → engine_said_missing w') (λ _ _, True) w.
Proof.
  unfold dk_delete_container. apply wp_bind. eapply wp_mono; [apply wp_inspect_missing| |done].
  intros ins w1 H1. destruct (ins_exists ins) eqn:Ex; cbn [negb]; [|apply wp_ret; intros _; by apply H1].
  apply wp_bind. eapply wp_mono; [apply wp_get_missing| |done]. intros [ctr|] w2 H2; [|apply wp_ret; auto].
  apply wp_bind_any. intros fresh w3. apply wp_bind_any. intros live w4. cbv zeta. apply wp_bind.
  eapply wp_mono; [apply wp_remove_missing| |done]. intros [|] w5 H5; cbn [negb]; [|apply wp_ret; auto].
  apply wp_bind. eapply wp_mono; [apply wp_inspect_missing| |done]. intros final w6 H6. apply wp_ret.
  unfold deleted_result. destruct (ins_exists final) eqn:Ef; [done|]. intros _. by apply H6.
Qed.
End deletion.

(** ** The two adapters compared *)

Section compared.
Context {W : Type} {repr : PyRepr} {host : RuntimeHost W}.

(** The docker command line for a request of the Docker adapter *)
Definition command_of_request (req : CreateRequest) : list string :=
  let hc := cr_host_config req in
  ["create"; "--name"; cr_name req]%string ++
  flags "--label" (key_value <$> sorted_items (cr_labels req)) ++
  flags "-e" (key_value <$> sorted_items (cr_environment req)) ++
  flags "-v" (hc_binds hc) ++
  flags "-p" (omap publish_argument (sort_by (λ a b : string * option Z, String.leb a.1 b.1) (hc_port_bindings hc))) ++
  optional_flag "--cpus" (cpus_argument <$> hc_nano_cpus hc) ++
  optional_flag "--memory" (Py.str_of_Z <$> hc_mem_limit hc) ++
  optional_flag "--pids-limit" (Py.str_of_Z <$> hc_pids_limit hc) ++
  flags "--security-opt" (hc_security_opt hc) ++ flags "--cap-drop" (hc_cap_drop hc) ++
  (if hc_read_only hc then ["--read-only"%string] else []) ++
  flags "--tmpfs" ((λ kv : string * string, (kv.1 ++ ":" ++ kv.2)%string) <$> hc_tmpfs hc) ++
  [cr_image req].

(** C27. The two adapters create the same containers: a spec is refused by one exactly
    if it is refused by the other, and otherwise the command line the SSM adapter runs
    is the rendering of the request the Docker adapter makes, with the same ports. *)
Theorem adapters_create_the_same_container (spec : ContainerSpec) :
  match create_request spec, create_command spec with
  | inl (req, pb), inl (cmd, pb') => cmd = command_of_request req ∧ pb = pb'
  | inr _, inr _ => True
  | _, _ => False
  end.
Proof.
  unfold create_request, create_command, then_result, resolve_project_host_path_for_create,
    resolve_project_host_path_remote, resolve_project_host_path.
  destruct (_ && _); [done|]. destruct (negb (Py.truthy _)); [done|]. destruct (negb (Py.startswith _ _)); [done|].
  destruct (check_limits spec); [|done]. destruct (port_bindings_from_spec _) as [pb|]; [|done].
  destruct (extra_bind_strings _) as [extra|]; [|done]. split; [|done].
  unfold create_arguments, command_of_request. cbn [cr_host_config cr_name cr_labels cr_environment cr_image
    hc_binds hc_port_bindings hc_nano_cpus hc_mem_limit hc_pids_limit hc_security_opt hc_cap_drop hc_read_only hc_tmpfs].
  destruct (spec_security spec) as [sec|]; cbn [from_option]; [|done].
  unfold security_arguments. rewrite <- !app_assoc. by destruct (sec_read_only_rootfs sec).
Qed.
End compared.

(** A node that cannot be reached reads as one without the container: the SSM adapter
    reports the deletion, and the stop, of a container it never saw. *)
Lemma ssm_unreachable_deletes {W} {repr : PyRepr} {json : JsonReader} {shell : RemoteShell W}
    {host : RuntimeHost W} cid (w : W) :
  (∀ cmd w, ∃ msg, rs_run cmd w = (w, inr (RuntimeError msg))) →
  ssm_delete_container (W:=W) cid w = (w, inl (action_ok cid "missing")).
Proof.
  intros H. unfold ssm_delete_container, mbind, eff_bind.
  assert (Hi : ssm_inspect_container cid w = (w, inl inspection_not_found)).
  { unfold ssm_inspect_container, mbind, eff_bind, catch, try_except, docker_cli.
    by destruct (H ["docker"; "inspect"; cid]%string w) as [msg ->]. }
  by rewrite Hi.
Qed.
