(* ===== verification/Probes.v ===== *)
(** * Probes: the default probe runner

    [libs/probes/probe_runner.py] and constants.py: the [ProbeRunner] of Runtime.v over
    a runtime adapter, the topology's health checks, and either the shell of the
    execution node or sockets of this process.  Timeouts are finite; the latency of a
    probe is left out, and messages keep their first clause. *)

From S2P Require Import Prelude Ipaddress Models TopologyModels Topology Session.
From S2P Require Import Services Runtime HostFiles ProjectDirs.

(** ** Constants *)

Module ProbeIssueCode.
Definition RUNTIME_CONTAINER_MISSING : string := "RUNTIME_CONTAINER_MISSING".
Definition RUNTIME_NOT_RUNNING : string := "RUNTIME_NOT_RUNNING".
Definition RUNTIME_CONTAINER_STATE_UNKNOWN : string := "RUNTIME_CONTAINER_STATE_UNKNOWN".
Definition TOPOLOGY_UNHEALTHY : string := "TOPOLOGY_UNHEALTHY".
Definition TOPOLOGY_ATTACHMENT_MISSING : string := "TOPOLOGY_ATTACHMENT_MISSING".
Definition TOPOLOGY_WORKSPACE_IP_MISSING : string := "TOPOLOGY_WORKSPACE_IP_MISSING".
Definition TOPOLOGY_INTERNAL_ENDPOINT_MISSING : string := "TOPOLOGY_INTERNAL_ENDPOINT_MISSING".
Definition SERVICE_UNREACHABLE : string := "SERVICE_UNREACHABLE".
Definition SERVICE_TIMEOUT : string := "SERVICE_TIMEOUT".
Definition SERVICE_CONNECT_ERROR : string := "SERVICE_CONNECT_ERROR".
Definition SERVICE_HTTP_NOT_READY : string := "SERVICE_HTTP_NOT_READY".
Definition PROBE_EXECUTION_FAILED : string := "PROBE_EXECUTION_FAILED".
Definition PROBE_RUNTIME_BINARY_MISSING : string := "PROBE_RUNTIME_BINARY_MISSING".
End ProbeIssueCode.

(** ** What a probe uses *)

Class TopologyHealth (W : Type) := {
  th_check_topology : Z → string → W → W * (CheckTopologyResult + Exn);
  th_check_attachment : Z → string → Z → W → W * (CheckAttachmentResult + Exn);
  (** [format_service_reachability_diagnostics], where the adapter has it *)
  th_diagnostics : option (Z → string → Z → W → W * (string + Exn))
}.

(** [socket.create_connection]: what it returns or raises. *)
Inductive ConnectResult :=
| Connected | ConnectTimeout | ConnectRefused | ConnectGaiError (msg : string)
| ConnectOsError (errno : Z) (msg : string) | ConnectOther (e : Exn).
(** [urllib.request.urlopen]: a status, an [HTTPError], one of [URLError], [OSError] and
    [TimeoutError], or another exception. *)
Inductive UrlResult := UrlStatus (code : Z) | UrlHttpError (code : Z) | UrlFailed (msg : string) | UrlOther (e : Exn).
Class ProbeNetwork (W : Type) := {
  pn_connect : string → Z → Z → W → W * ConnectResult;
  pn_get : string → Z → W → W * UrlResult
}.

(** [service_reachability_runner], and the settings [devnest_workspace_ide_health_path],
    [devnest_probe_assume_colocated_engine] and [devnest_workspace_http_probe_enabled]. *)
Class ProbeConfig (W : Type) := {
  pc_runner : option (RemoteShell W);
  pc_ide_health_path : option string;
  pc_assume_colocated_engine : bool;
  pc_http_probe_enabled : bool
}.

(** ** Helpers *)

Definition parse_non_negative_int (raw : string) : option Z :=
  match Py.parse_int (Py.strip raw) with
  | Some v => if v <? 0 then None else Some v
  | None => None
  end.
Definition valid_port (port : Z) : bool := (1 <=? port) && (port <=? 65535).
Definition endpoint_or_none (workspace_ip : option string) (port : Z) : option string :=
  let ip := Py.strip_opt workspace_ip in
  if negb (Py.truthy ip) then None
  else if negb (valid_port port) then None
  else Some (ip ++ ":" ++ Py.str_of_Z port)%string.

(** ECONNREFUSED, EHOSTUNREACH, ENETUNREACH, ENETDOWN and EHOSTDOWN on Linux *)
Definition OSR_UNREACHABLE_ERRNOS : list Z := [111; 113; 101; 100; 112].
Definition dial_codes : list string := [ProbeIssueCode.SERVICE_UNREACHABLE; ProbeIssueCode.SERVICE_TIMEOUT].
Definition is_dial_issue (i : HealthIssue) : bool :=
  String.eqb (hi_component i) "service" && bool_decide (hi_code i ∈ dial_codes).
Definition with_message (f : string → string) (i : HealthIssue) : HealthIssue :=
  mkHealthIssue (hi_code i) (hi_component i) (f (hi_message i)) (hi_severity i).
Definition issue (code component message : string) : HealthIssue :=
  mkHealthIssue code component message HealthIssueSeverity.ERROR.
Definition service_issue (code message : string) : list HealthIssue := [issue code "service" message].

Definition no_listener_prefix (expected_port : Z) : string :=
  ("workspace topology attached but nothing is listening on 0.0.0.0:" ++ Py.str_of_Z expected_port ++
   " (IDE still starting or process exited); ")%string.
Definition prepend_topology_ok_no_listener_hint (expected_port : Z) (issues : list HealthIssue) : list HealthIssue :=
  let prefix := no_listener_prefix expected_port in
  (λ i, if is_dial_issue i && negb (Py.startswith prefix (hi_message i))
        then with_message (λ m, Py.prefix_to 5000 (prefix ++ m)) i else i) <$> issues.

(** The quotes around the missing program's name are single quotes or backticks. *)
Definition in_quotes (q name : string) : string := (q ++ name ++ q)%string.
Definition missing_probe_binary (t : string) : option string :=
  if negb (Py.contains "no such file or directory" (Py.lower t)) && negb (Py.contains "exit=127)" t) then None
  else List.find (λ name, Py.contains (in_quotes "'" name) t || Py.contains (in_quotes "`" name) t)
         ["nc"; "timeout"; "curl"]%string.
Definition probe_runtime_binary_issue (binary : string) : list HealthIssue :=
  [issue ProbeIssueCode.PROBE_RUNTIME_BINARY_MISSING "probe"
     ("probe runtime missing required binary: " ++ binary)%string].

(** [max(1, min(60, ceil(timeout)))] of microseconds *)
Definition whole_seconds (timeout : Z) : Z := Z.max 1 (Z.min 60 (- ((- timeout) / 1000000))).

Definition service_failed (ip : option string) (port : Z) (issues : list HealthIssue) : ServiceProbeResult :=
  mkServiceProbe false ip port issues.
Definition service_ok (ip : string) (port : Z) : ServiceProbeResult := mkServiceProbe true (Some ip) port [].
(** [ip or None] *)
Definition or_none (s : string) : option string := if Py.truthy s then Some s else None.

(** ** DefaultProbeRunner *)

Section probes.
Context {W : Type} {adapter : RuntimeAdapter W} {topology : TopologyHealth W} {net : ProbeNetwork W}
  {config : ProbeConfig W}.

Definition ide_health_http_path : string :=
  let p := Py.or_else (Py.strip (Py.or_else (default ""%string pc_ide_health_path) "/healthz")) "/healthz" in
  if Py.startswith "/" p then p else ("/" ++ p)%string.

Definition container_failed (cid : string) (state : option string) (i : HealthIssue) : ContainerProbeResult :=
  mkContainerProbe false cid state [i].
Definition judge_container (cid : string) (ins : ContainerInspectionResult) : ContainerProbeResult :=
  let id := Py.or_else (default ""%string (ins_container_id ins)) cid in
  let state := Py.lower (Py.strip (ins_container_state ins)) in
  if negb (ins_exists ins) then
    container_failed cid (Some (ins_container_state ins))
      (issue ProbeIssueCode.RUNTIME_CONTAINER_MISSING "runtime" "container does not exist")
  else if negb (Py.truthy state) || String.eqb state "unknown" then
    container_failed id (Some (ins_container_state ins))
      (issue ProbeIssueCode.RUNTIME_CONTAINER_STATE_UNKNOWN "runtime" "container state is unknown or unreadable")
  else if negb (String.eqb state "running") then
    container_failed id (Some (ins_container_state ins))
      (issue ProbeIssueCode.RUNTIME_NOT_RUNNING "runtime" ("container state is " ++ ins_container_state ins)%string)
  else mkContainerProbe true id (Some (ins_container_state ins)) [].

Definition check_container_running (container_id : string) : eff W Exn ContainerProbeResult :=
  let cid := Py.strip container_id in
  if negb (Py.truthy cid) then
    mret (container_failed "" None (issue ProbeIssueCode.PROBE_EXECUTION_FAILED "probe" "container_id is empty"))
  else
    r ← attempt (ad_inspect_container cid);
    mret (match r with
          | inr e => container_failed cid None (issue ProbeIssueCode.RUNTIME_CONTAINER_STATE_UNKNOWN "runtime"
                                                  ("inspect_container failed: " ++ exn_str e)%string)
          | inl ins => judge_container cid ins
          end).

Definition topology_failed (tid : Z) (nid : string) (wid : Z) (message : string) : TopologyProbeResult :=
  mkTopologyProbe false tid nid wid None None [issue ProbeIssueCode.PROBE_EXECUTION_FAILED "probe" message].
Definition detail_or (issues : list string) (message : string) : string :=
  match issues with [] => message | _ => Py.join "; " issues end.

(** The verdict on the answers of both checks *)
Definition judge_topology (tid : Z) (nid : string) (wid expected_port : Z)
    (topo_res : CheckTopologyResult) (att_res : CheckAttachmentResult) : TopologyProbeResult :=
  let ws_ip := or_none (Py.strip_opt (ca_workspace_ip att_res)) in
  let internal_endpoint := endpoint_or_none ws_ip expected_port in
  let issues :=
    (if ct_healthy topo_res then [] else
       [issue ProbeIssueCode.TOPOLOGY_UNHEALTHY "topology" (detail_or (ct_issues topo_res) "topology runtime unhealthy")]) ++
    (if ca_healthy att_res then [] else
       [issue ProbeIssueCode.TOPOLOGY_ATTACHMENT_MISSING "topology" (detail_or (ca_issues att_res) "attachment unhealthy")]) ++
    (match ws_ip with
     | None => [issue ProbeIssueCode.TOPOLOGY_WORKSPACE_IP_MISSING "topology" "workspace_ip is not set on attachment or lease"]
     | Some _ => []
     end) ++
    (match internal_endpoint, ws_ip with
     | Some _, _ => []
     | None, Some _ => [issue ProbeIssueCode.TOPOLOGY_INTERNAL_ENDPOINT_MISSING "topology" "cannot derive internal endpoint"]
     | None, None => [issue ProbeIssueCode.TOPOLOGY_INTERNAL_ENDPOINT_MISSING "topology"
                        "cannot derive internal endpoint without workspace_ip"]
     end) in
  mkTopologyProbe (match issues with [] => true | _ => false end) tid nid wid ws_ip internal_endpoint issues.

Definition check_topology_state (topology_id node_id workspace_id : string) (expected_port : Z)
    : eff W Exn TopologyProbeResult :=
  let nid := Py.prefix_to 128 (Py.strip node_id) in
  match parse_non_negative_int topology_id, parse_non_negative_int workspace_id with
  | Some tid, Some wid =>
      topo ← attempt (th_check_topology tid nid);
      match topo with
      | inr e => mret (topology_failed tid nid wid ("check_topology failed: " ++ exn_str e)%string)
      | inl topo_res =>
          att ← attempt (th_check_attachment tid nid wid);
          mret (match att with
                | inr e => topology_failed tid nid wid ("check_attachment failed: " ++ exn_str e)%string
                | inl att_res => judge_topology tid nid wid expected_port topo_res att_res
                end)
      end
  | tid, wid => mret (topology_failed (default 0 tid) nid (default 0 wid)
                        "topology_id and workspace_id must be non-negative integers")
  end.

(** *** Service probes *)

(** [runner.run] of a probe command; a [RuntimeError] is the result of [failed]. *)
Definition run_probe (runner : RemoteShell W) (cmd : list string) (ip : string) (port : Z)
    (failed : string → list HealthIssue) : eff W Exn ServiceProbeResult :=
  try_except (rs_run cmd ;; mret (service_ok ip port))
    (λ e, if is_runtime_error e then
            mret (service_failed (Some ip) port
                    (match missing_probe_binary (exn_str e) with
                     | Some binary => probe_runtime_binary_issue binary
                     | None => failed (exn_str e)
                     end))
          else raise e).

Definition check_service_reachable_via_runner (runner : RemoteShell W) (workspace_ip : string) (port timeout : Z)
    : eff W Exn ServiceProbeResult :=
  let ip := Py.strip workspace_ip in
  match parse_ipv4 ip with
  | None => mret (service_failed (or_none ip) port
                    (service_issue ProbeIssueCode.SERVICE_CONNECT_ERROR "remote service probe requires IPv4 workspace_ip"))
  | Some _ =>
      run_probe runner ["timeout"; Py.str_of_Z (whole_seconds timeout); "nc"; "-z"; ip; Py.str_of_Z port]%string ip port
        (λ m, service_issue ProbeIssueCode.SERVICE_UNREACHABLE ("remote nc probe failed: " ++ m)%string)
  end.

Definition judge_connection (ip : string) (port : Z) (r : ConnectResult) : ServiceProbeResult + Exn :=
  let fail code msg := inl (service_failed (Some ip) port (service_issue code msg)) in
  match r with
  | Connected => inl (service_ok ip port)
  | ConnectTimeout => fail ProbeIssueCode.SERVICE_TIMEOUT "TCP connect timed out"%string
  | ConnectRefused => fail ProbeIssueCode.SERVICE_UNREACHABLE "TCP connect refused"%string
  | ConnectGaiError _ => fail ProbeIssueCode.SERVICE_CONNECT_ERROR "TCP connect address resolution failed"%string
  | ConnectOsError errno _ =>
      if bool_decide (errno ∈ OSR_UNREACHABLE_ERRNOS)
      then fail ProbeIssueCode.SERVICE_UNREACHABLE "TCP connect unreachable"%string
      else fail ProbeIssueCode.SERVICE_CONNECT_ERROR "TCP connect failed"%string
  | ConnectOther e => inr e
  end.

Definition check_service_reachable (workspace_ip : string) (port timeout : Z) : eff W Exn ServiceProbeResult :=
  let ip := Py.strip workspace_ip in
  let refuse ip msg := mret (service_failed ip port (service_issue ProbeIssueCode.SERVICE_CONNECT_ERROR msg)) in
  if negb (Py.truthy ip) then refuse None "workspace_ip is empty"%string
  else if negb (valid_port port) then refuse (Some ip) "invalid port"%string
  else if timeout <=? 0 then refuse (Some ip) "timeout_seconds must be a finite positive value"%string
  else match pc_runner with
  | Some runner => check_service_reachable_via_runner runner ip port timeout
  | None =>
      if negb pc_assume_colocated_engine then refuse (Some ip) "TCP probe from this process is disabled"%string
      else λ w, let '(w, r) := pn_connect ip port timeout w in (w, judge_connection ip port r)
  end.

Definition health_url (ip : string) (port : Z) : string :=
  ("http://" ++ ip ++ ":" ++ Py.str_of_Z port ++ ide_health_http_path)%string.

Definition check_service_http_via_runner (runner : RemoteShell W) (workspace_ip : string) (port timeout : Z)
    : eff W Exn ServiceProbeResult :=
  let ip := Py.strip workspace_ip in
  match parse_ipv4 ip with
  | None => mret (service_failed (or_none ip) port
                    (service_issue ProbeIssueCode.SERVICE_HTTP_NOT_READY "remote HTTP probe requires IPv4 workspace_ip"))
  | Some _ =>
      let w := Py.str_of_Z (whole_seconds timeout) in
      run_probe runner ["timeout"; w; "curl"; "-sf"; "--max-time"; w; health_url ip port]%string ip port
        (λ m, service_issue ProbeIssueCode.SERVICE_HTTP_NOT_READY ("remote curl HTTP probe failed: " ++ m)%string)
  end.

Definition judge_http (ip : string) (port : Z) (r : UrlResult) : ServiceProbeResult + Exn :=
  let not_ready msg := inl (service_failed (Some ip) port (service_issue ProbeIssueCode.SERVICE_HTTP_NOT_READY msg)) in
  match r with
  | UrlStatus code | UrlHttpError code =>
      if code <? 400 then inl (service_ok ip port) else not_ready ("HTTP GET returned " ++ Py.str_of_Z code)%string
  | UrlFailed msg => not_ready ("HTTP GET failed: " ++ msg)%string
  | UrlOther e => inr e
  end.

Definition check_service_http (workspace_ip : string) (port timeout : Z) : eff W Exn ServiceProbeResult :=
  match pc_runner with
  | Some runner => check_service_http_via_runner runner workspace_ip port timeout
  | None => λ w,
      let ip := Py.strip workspace_ip in
      let '(w, r) := pn_get (health_url ip port) timeout w in (w, judge_http ip port r)
  end.

(** *** The aggregate *)

(** The first issue that [P] holds of, changed by [f]. *)
Fixpoint change_first {A} (P : A → bool) (f : A → A) (l : list A) : list A :=
  match l with
  | [] => []
  | x :: l => if P x then f x :: l else x :: change_first P f l
  end.

Definition augment_unreachable_service_probe (svc : ServiceProbeResult) (topo : TopologyProbeResult)
    : eff W Exn ServiceProbeResult :=
  match th_diagnostics with
  | Some fmt =>
      if sp_healthy svc || negb (existsb is_dial_issue (sp_issues svc)) then mret svc else
      r ← attempt (fmt (tp_topology_id topo) (tp_node_id topo) (tp_workspace_id topo));
      let blob := match r with inl b => b | inr e => ("diagnostics_error=" ++ exn_str e)%string end in
      let blob := Py.prefix_to 2400 (Py.strip blob) in
      mret (if negb (Py.truthy blob) then svc
            else mkServiceProbe (sp_healthy svc) (sp_workspace_ip svc) (sp_port svc)
                   (change_first is_dial_issue
                      (with_message (λ m, (m ++ "; host/workspace diagnostics: " ++ blob)%string)) (sp_issues svc)))
  | None => mret svc
  end.

(** [service_healthy] and [service_issues] for a workspace with an address *)
Definition probe_service (topo : TopologyProbeResult) (ws_ip : string) (expected_port timeout : Z)
    : eff W Exn (bool * list HealthIssue) :=
  reached ← check_service_reachable ws_ip expected_port timeout;
  svc ← augment_unreachable_service_probe reached topo;
  if sp_healthy svc then
    if pc_http_probe_enabled then
      http ← check_service_http ws_ip expected_port timeout;
      mret (sp_healthy http, sp_issues svc ++ sp_issues http)
    else mret (sp_healthy svc, sp_issues svc)
  else mret (false, if tp_healthy topo then prepend_topology_ok_no_listener_hint expected_port (sp_issues svc)
                    else sp_issues svc).

Definition skipped_service (topo : TopologyProbeResult) : bool * list HealthIssue :=
  (false, if existsb (λ i, String.eqb (hi_code i) ProbeIssueCode.TOPOLOGY_WORKSPACE_IP_MISSING) (tp_issues topo) then []
          else [issue ProbeIssueCode.TOPOLOGY_WORKSPACE_IP_MISSING "topology"
                  "service probe skipped: no workspace_ip from topology probe"]).

Definition check_workspace_health (workspace_id topology_id node_id container_id : string)
    (expected_port timeout : Z) : eff W Exn WorkspaceHealthResult :=
  ctr ← check_container_running container_id;
  topo ← check_topology_state topology_id node_id workspace_id expected_port;
  let ws_ip := Py.strip_opt (tp_workspace_ip topo) in
  svc ← (if Py.truthy ws_ip then probe_service topo ws_ip expected_port timeout else mret (skipped_service topo));
  mret (mkWorkspaceHealth (tp_workspace_id topo) (cp_healthy ctr && tp_healthy topo && svc.1)
          (cp_healthy ctr) (tp_healthy topo) svc.1 (cp_container_state ctr) (tp_workspace_ip topo)
          (tp_internal_endpoint topo) (cp_issues ctr ++ tp_issues topo ++ svc.2)).

#[local] Instance default_probe_runner : ProbeRunner W := {
  hp_check_container_running := check_container_running;
  hp_check_service_reachable := check_service_reachable;
  hp_check_service_http := check_service_http;
  hp_check_workspace_health := check_workspace_health
}.
End probes.

(** ** Properties *)

Section properties.
Context {W : Type} {adapter : RuntimeAdapter W} {topology : TopologyHealth W} {net : ProbeNetwork W}
  {config : ProbeConfig W}.

(** What the collaborators must have answered for a verdict *)
Definition container_seen_running (container_id : string) : Prop :=
  ∃ ins w w', ad_inspect_container (Py.strip container_id) w = (w', inl ins) ∧
    ins_exists ins = true ∧ Py.lower (Py.strip (ins_container_state ins)) = "running"%string.
Definition topology_seen_healthy (topology_id node_id workspace_id ip : string) (port : Z) : Prop :=
  ∃ tid wid topo att w1 w1' w2 w2', parse_non_negative_int topology_id = Some tid ∧
    parse_non_negative_int workspace_id = Some wid ∧ valid_port port = true ∧
    th_check_topology tid (Py.prefix_to 128 (Py.strip node_id)) w1 = (w1', inl topo) ∧ ct_healthy topo = true ∧
    th_check_attachment tid (Py.prefix_to 128 (Py.strip node_id)) wid w2 = (w2', inl att) ∧ ca_healthy att = true ∧
    Py.strip_opt (ca_workspace_ip att) = ip.
Definition service_connected (ip : string) (port timeout : Z) : Prop :=
  ∃ w w', match pc_runner with
  | Some runner => ∃ out, rs_run (RemoteShell := runner)
      ["timeout"; Py.str_of_Z (whole_seconds timeout); "nc"; "-z"; ip; Py.str_of_Z port]%string w = (w', inl out)
  | None => pc_assume_colocated_engine = true ∧ pn_connect ip port timeout w = (w', Connected)
  end.
Definition service_answers_http (ip : string) (port timeout : Z) : Prop :=
  ∃ w w', match pc_runner with
  | Some runner => ∃ out, rs_run (RemoteShell := runner)
      ["timeout"; Py.str_of_Z (whole_seconds timeout); "curl"; "-sf"; "--max-time";
       Py.str_of_Z (whole_seconds timeout); health_url ip port]%string w = (w', inl out)
  | None => ∃ code, code < 400 ∧ (pn_get (health_url ip port) timeout w = (w', UrlStatus code) ∨
                                  pn_get (health_url ip port) timeout w = (w', UrlHttpError code))
  end.
(** The exceptions no probe handles *)
Definition escapes (e : Exn) : Prop :=
  (∃ runner cmd (w w' : W), pc_runner = Some runner ∧ is_runtime_error e = false ∧
     rs_run (RemoteShell := runner) cmd w = (w', inr e)) ∨
  (∃ ip port timeout (w w' : W), pn_connect ip port timeout w = (w', ConnectOther e)) ∨
  (∃ url timeout (w w' : W), pn_get url timeout w = (w', UrlOther e)).

(** A verdict is healthy exactly when it comes without issues. *)
Definition agrees (healthy : bool) (issues : list HealthIssue) : Prop := healthy = true ↔ issues = [].

Lemma wp_container cid w :
  wp (check_container_running cid)
    (λ c _, agrees (cp_healthy c) (cp_issues c) ∧ (cp_healthy c = true → container_seen_running cid))
    (λ _ _, False) w.
Proof.
  unfold check_container_running. cbv zeta. destruct (negb _); [by apply wp_ret|]. unfold agrees.
  unfold wp, mbind, eff_bind, attempt. destruct (ad_inspect_container (Py.strip cid) w) as [w' [ins|e]] eqn:E; [|done].
  cbn. unfold judge_container. cbv zeta.
  destruct (ins_exists ins) eqn:Ex; [|done]. cbn [negb]. destruct (_ || _); [done|].
  destruct (String.eqb_spec (Py.lower (Py.strip (ins_container_state ins))) "running") as [Hr|]; [|done].
  split; [done|]. intros _. by exists ins, w, w'.
Qed.

Lemma judge_topology_sound tid nid wid port topo att :
  let r := judge_topology tid nid wid port topo att in
  agrees (tp_healthy r) (tp_issues r) ∧
  (tp_healthy r = true → ct_healthy topo = true ∧ ca_healthy att = true ∧ valid_port port = true ∧
     Py.strip_opt (tp_workspace_ip r) = Py.strip_opt (ca_workspace_ip att)).
Proof.
  unfold judge_topology, agrees, endpoint_or_none, or_none. cbv zeta.
  destruct (ct_healthy topo), (ca_healthy att); cbn [app tp_healthy tp_issues tp_workspace_ip]; try done.
  assert (Hid : Py.strip_opt (Some (Py.strip_opt (ca_workspace_ip att))) = Py.strip_opt (ca_workspace_ip att))
    by apply Py.strip_idem.
  destruct (Py.truthy (Py.strip_opt (ca_workspace_ip att))) eqn:Et; [|done]. rewrite Hid.
  rewrite Et. cbn [negb]. by destruct (valid_port port).
Qed.

Lemma wp_topology_probe tid nid wid port w :
  wp (check_topology_state tid nid wid port)
    (λ t _, agrees (tp_healthy t) (tp_issues t) ∧
            (tp_healthy t = true → topology_seen_healthy tid nid wid (Py.strip_opt (tp_workspace_ip t)) port))
    (λ _ _, False) w.
Proof.
  unfold check_topology_state, agrees. cbv zeta.
  destruct (parse_non_negative_int tid) as [t|] eqn:Et, (parse_non_negative_int wid) as [n|] eqn:En; try by apply wp_ret.
  unfold wp, mbind, eff_bind, attempt.
  destruct (th_check_topology t _ w) as [w1 [topo|e]] eqn:E1; [|done]. cbv beta iota.
  destruct (th_check_attachment t _ n w1) as [w2 [att|e]] eqn:E2; [|done]. cbn.
  destruct (judge_topology_sound t (Py.prefix_to 128 (Py.strip nid)) n port topo att) as [Ha Hs]. cbv zeta in Ha, Hs.
  split; [exact Ha|]. intros H. destruct (Hs H) as (H1 & H2 & H3 & H4).
  exists t, n, topo, att, w, w1, w1, w2. done.
Qed.

(** Every service probe ends with a verdict that agrees with its issues, a success with
    the evidence [P], or with an exception that escapes. *)
Definition service_verdict (m : eff W Exn ServiceProbeResult) (P : Prop) : Prop :=
  ∀ w, wp m (λ r _, agrees (sp_healthy r) (sp_issues r) ∧ (sp_healthy r = true → P)) (λ e _, escapes e) w.

Lemma verdict_failed ip port code msg P :
  service_verdict (mret (service_failed ip port (service_issue code msg))) P.
Proof. intros w. by apply wp_ret. Qed.
Lemma verdict_run_probe runner cmd ip port failed (P : Prop) :
  pc_runner = Some runner → (∀ m, failed m ≠ []) →
  ((∃ w w' out, rs_run (RemoteShell := runner) cmd w = (w', inl out)) → P) →
  service_verdict (run_probe runner cmd ip port failed) P.
Proof.
  intros Hr Hf HP w. unfold run_probe. apply wp_try. unfold mbind, eff_bind, wp, agrees.
  destruct (rs_run cmd w) as [w' [out|e]] eqn:E.
  - cbn. split; [done|]. intros _. apply HP. by exists w, w', out.
  - destruct (is_runtime_error e) eqn:Ee; cbn.
    + split; [|done]. specialize (Hf (exn_str e)). by destruct (missing_probe_binary _).
    + left. by exists runner, cmd, w, w'.
Qed.

Lemma reachable_verdict ip port timeout : Py.strip ip = ip →
  service_verdict (check_service_reachable ip port timeout) (service_connected ip port timeout).
Proof.
  intros Hip. unfold check_service_reachable. cbv zeta. rewrite Hip.
  destruct (negb (Py.truthy ip)); [apply verdict_failed|]. destruct (negb (valid_port port)); [apply verdict_failed|].
  destruct (timeout <=? 0); [apply verdict_failed|]. destruct pc_runner as [runner|] eqn:Er.
  - unfold check_service_reachable_via_runner. cbv zeta. rewrite Hip.
    destruct (parse_ipv4 ip); [|apply verdict_failed].
    apply verdict_run_probe; [done|done|]. intros (w & w' & out & H). exists w, w'. rewrite Er. by exists out.
  - destruct pc_assume_colocated_engine eqn:Ec; cbn [negb]; [|apply verdict_failed]. intros w. unfold wp, agrees.
    destruct (pn_connect ip port timeout w) as [w' r] eqn:E. destruct r; cbn; try done.
    + split; [done|]. intros _. exists w, w'. by rewrite Er.
    + by case_bool_decide.
    + right. left. by exists ip, port, timeout, w, w'.
Qed.
Lemma http_verdict ip port timeout : Py.strip ip = ip →
  service_verdict (check_service_http ip port timeout) (service_answers_http ip port timeout).
Proof.
  intros Hip. unfold check_service_http. destruct pc_runner as [runner|] eqn:Er.
  - unfold check_service_http_via_runner. cbv zeta. rewrite Hip. destruct (parse_ipv4 ip); [|apply verdict_failed].
    apply verdict_run_probe; [done|done|]. intros (w & w' & out & H). exists w, w'. rewrite Er. by exists out.
  - intros w. cbv zeta. rewrite Hip. unfold wp, agrees. destruct (pn_get (health_url ip port) timeout w) as [w' r] eqn:E.
    destruct r as [code|code|msg|e]; cbn; try done.
    + destruct (Z.ltb_spec code 400); cbn; [|done]. split; [done|]. intros _. exists w, w'. rewrite Er. exists code. auto.
    + destruct (Z.ltb_spec code 400); cbn; [|done]. split; [done|]. intros _. exists w, w'. rewrite Er. exists code. auto.
    + right. right. by exists (health_url ip port), timeout, w, w'.
Qed.

Lemma change_first_nil {A} P f (l : list A) : change_first P f l = [] ↔ l = [].
Proof. destruct l as [|x l]; [done|]. cbn. by destruct (P x). Qed.
Lemma augment_verdict svc topo w :
  wp (augment_unreachable_service_probe svc topo)
    (λ r _, sp_healthy r = sp_healthy svc ∧ (sp_issues r = [] ↔ sp_issues svc = [])) (λ _ _, False) w.
Proof.
  unfold augment_unreachable_service_probe. destruct th_diagnostics as [fmt|]; [|by apply wp_ret].
  destruct (_ || _); [by apply wp_ret|]. unfold wp, mbind, eff_bind, attempt.
  destruct (fmt _ _ _ w) as [w' r]. cbn. destruct (negb _); [done|]. cbn. split; [done|apply change_first_nil].
Qed.

Lemma probe_service_verdict topo ip port timeout w : Py.strip ip = ip →
  wp (probe_service topo ip port timeout)
    (λ r _, agrees r.1 r.2 ∧ (r.1 = true → service_connected ip port timeout ∧
              (pc_http_probe_enabled = true → service_answers_http ip port timeout)))
    (λ e _, escapes e) w.
Proof.
  intros Hip. unfold probe_service. apply wp_bind. eapply wp_mono; [by apply reachable_verdict| |done].
  intros reached w1 [Ha Hs]. apply wp_bind. eapply wp_mono; [apply augment_verdict| |done].
  intros svc w2 [Hh Hi]. unfold agrees in *. destruct (sp_healthy svc) eqn:Eh.
  - assert (Hn : sp_issues svc = []) by (apply Hi, Ha; congruence). destruct pc_http_probe_enabled.
    + apply wp_bind. eapply wp_mono; [by apply http_verdict| |done]. intros http w3 [Hha Hhs]. apply wp_ret.
      cbn [fst snd]. rewrite Hn. split; [exact Hha|]. intros H. split; [apply Hs; congruence|auto].
    + apply wp_ret. cbn [fst snd]. split; [done|]. intros _. split; [apply Hs; congruence|done].
  - apply wp_ret. cbn [fst snd]. split; [|done]. split; [done|]. intros H.
    assert (Hn : sp_issues svc = []).
    { destruct (tp_healthy topo); [|done]. unfold prepend_topology_ok_no_listener_hint in H. by apply fmap_nil_inv in H. }
    apply Hi, Ha in Hn. congruence.
Qed.

(** C26. A health check tells the truth: whatever the engine, the topology and the
    network answer, [check_workspace_health] returns a result that is healthy exactly
    when it lists no issue; a healthy one means that the engine reported the container
    running, the topology reported node and attachment healthy with the address of the
    result, a connection to that address and port was made from where the probe runs,
    and, with HTTP probing on, the IDE answered below 400.  It raises only what the
    node's shell raises besides [RuntimeError], or what no socket error covers. *)
Theorem health_check_tells_the_truth (workspace_id topology_id node_id container_id : string)
    (port timeout : Z) (w : W) :
  wp (check_workspace_health workspace_id topology_id node_id container_id port timeout)
    (λ r _, (wh_healthy r = true ↔ wh_issues r = []) ∧
            (wh_healthy r = true →
             container_seen_running container_id ∧
             topology_seen_healthy topology_id node_id workspace_id (Py.strip_opt (wh_workspace_ip r)) port ∧
             service_connected (Py.strip_opt (wh_workspace_ip r)) port timeout ∧
             (pc_http_probe_enabled = true → service_answers_http (Py.strip_opt (wh_workspace_ip r)) port timeout)))
    (λ e _, escapes e) w.
Proof.
  unfold check_workspace_health. apply wp_bind. eapply wp_mono; [apply wp_container| |done]. intros ctr w1 [Hca Hcs].
  apply wp_bind. eapply wp_mono; [apply wp_topology_probe| |done]. intros topo w2 [Hta Hts]. cbv zeta. apply wp_bind.
  set (ip := Py.strip_opt (tp_workspace_ip topo)) in *. unfold agrees in *.
  assert (Hend : ∀ svc w3, agrees svc.1 svc.2 ∨ (svc.1 = false ∧ tp_issues topo ++ svc.2 ≠ []) →
    (svc.1 = true → service_connected ip port timeout ∧ (pc_http_probe_enabled = true → service_answers_http ip port timeout)) →
    wp (mret (mkWorkspaceHealth (tp_workspace_id topo) (cp_healthy ctr && tp_healthy topo && svc.1)
          (cp_healthy ctr) (tp_healthy topo) svc.1 (cp_container_state ctr) (tp_workspace_ip topo)
          (tp_internal_endpoint topo) (cp_issues ctr ++ tp_issues topo ++ svc.2)) : eff W Exn WorkspaceHealthResult)
      (λ r _, (wh_healthy r = true ↔ wh_issues r = []) ∧
            (wh_healthy r = true → container_seen_running container_id ∧
             topology_seen_healthy topology_id node_id workspace_id (Py.strip_opt (wh_workspace_ip r)) port ∧
             service_connected (Py.strip_opt (wh_workspace_ip r)) port timeout ∧
             (pc_http_probe_enabled = true → service_answers_http (Py.strip_opt (wh_workspace_ip r)) port timeout)))
      (λ e _, escapes e) w3).
  { intros svc w3 Ha Hs. apply wp_ret. cbn. rewrite !andb_true_iff. split; [|naive_solver].
    split; [intros [[H1 H2] H3]|intros (H1 & H2)%app_nil].
    - apply Hca in H1 as ->. apply Hta in H2 as ->. destruct Ha as [Ha|[Ha _]]; [by apply Ha|congruence].
    - destruct Ha as [Ha|[_ Ha]]; [|done]. apply app_nil in H2 as [H2 H3]. unfold agrees in Ha. tauto. }
  destruct (Py.truthy ip) eqn:Et.
  - eapply wp_mono; [apply probe_service_verdict, Py.strip_idem| |done]. intros svc w3 [Ha Hs]. apply Hend; auto.
  - apply wp_ret, Hend; [|done]. right. unfold skipped_service. cbn. split; [done|].
    destruct (existsb _ (tp_issues topo)) eqn:Ee; [by destruct (tp_issues topo)|]. by intros [_ ?]%app_nil.
Qed.
End properties.
