(* ===== verification/Orchestration.v ===== *)
(** * Orchestration: preparing a workspace's container

    orchestrator_service/service.py, [DefaultOrchestratorService]: the inputs of a
    bring-up, the environment, bind mounts and start of the container.  The container
    engine, the probes, the topology adapter, the host's files and the shell of the
    node are interfaces.  [BringUp] holds the rest of bring-up and stopping,
    [OrchestratorOps] the other operations. *)

From S2P Require Import Prelude Models Session Services Placement Gateway.
From S2P Require Import Topology Runtime HostFiles ProjectDirs.

(** ** Interface to the topology adapter

    libs/topology/interfaces.py; [OrchestratorTopology] gives the instance of
    [DbTopologyAdapter].  The adapter commits the session it shares. *)
Class TopologyAdapter (W : Type) := {
  tp_ensure_node_topology : Z → string → Call W EnsureNodeTopologyResult;
  tp_allocate_workspace_ip : Z → string → Z → Call W AllocateWorkspaceIPResult;
  (** topology, node, workspace, container, network namespace, address *)
  tp_attach_workspace : Z → string → Z → string → string → string → Call W AttachWorkspaceResult;
  tp_detach_workspace : Z → string → Z → Call W DetachWorkspaceResult;
  tp_release_workspace_ip_lease : Z → string → Z → Call W bool;
  tp_delete_topology : Z → string → Call W unit;
  tp_run_topology_janitor : Z → string → Z → Call W TopologyJanitorResult;
  (** [assert_netns_attach_target_visible] and [os.path.isdir(f"/proc/{pid}")] *)
  tp_assert_netns_attach_target_visible : string → Call W unit;
  tp_pid_visible : Z → W → bool
}.

(** ** Settings and constructor arguments *)

(** [devnest_workspace_*]; the two waits are microseconds, [None] when not finite.
    [wk_skip_linux_attachment] is DEVNEST_TOPOLOGY_SKIP_LINUX_ATTACHMENT. *)
Class WorkspaceSettings := {
  wk_cpu_limit : ConfigValue;
  wk_memory_limit_mb : ConfigValue;
  wk_pids_limit : ConfigValue;
  wk_auth_mode : string;
  wk_password : string;
  wk_ide_tcp_wait : option Z;
  wk_ide_tcp_poll_interval : option Z;
  wk_security : SecuritySettings;
  wk_skip_linux_attachment : string
}.

(** What [DefaultOrchestratorService] is built with; [svc_remote_dirs] tells a project
    directory made over the node's shell, [svc_has_docker_client] a Docker engine
    client from the SSM adapter, and [svc_snapshot_ssh] a runner over SSH. *)
Record OrchestratorConfig := mkOrchestratorConfig {
  svc_topology_id : Z;
  svc_node_id : string;
  svc_workspace_projects_base : string;
  svc_workspace_image : option string;
  svc_traefik_routing_host : option string;
  svc_remote_dirs : bool;
  svc_has_docker_client : bool;
  svc_snapshot_ssh : bool;
  svc_workspace_host_command_runner : bool;
  svc_remote_topology_attach_deferred : bool
}.

Definition CONFIG_VERSION_LABEL : string := "devnest.config_version".

(** [_BringUpContext] *)
Record BringUpContext := mkBringUpContext {
  ctx_wid : string;
  ctx_ws_int : Z;
  ctx_container_name : string;
  ctx_workspace_host_path : string;
  ctx_project_storage_key : option string;
  ctx_launch_mode : string;
  ctx_labels : gmap string string
}.

(** [_AppliedWorkspaceRuntimePolicy] *)
Record AppliedWorkspaceRuntimePolicy := mkAppliedPolicy {
  ap_cpu_limit_cores : cpu;
  ap_memory_limit_mib : Z;
  ap_pids_limit : Z;
  ap_security_spec : WorkspaceContainerSecuritySpec
}.

(** An error before any rollback. *)
Definition bring_up_error (m : string) : Exn :=
  WorkspaceBringUpError (mkBringUpFailure m false None None None None).

(** ** Pure helpers *)

(** [_CONTAINER_NAME_RE.sub("-", s)]: every run of other characters becomes a dash. *)
Fixpoint dash_runs (in_run : bool) (s : string) : string :=
  match s with
  | EmptyString => EmptyString
  | String c r =>
      if path_char c then String c (dash_runs false r)
      else if in_run then dash_runs true r else String "-" (dash_runs true r)
  end.
Definition starts_alphanumeric (s : string) : bool :=
  match s with String c _ => alphanumeric c | EmptyString => false end.
Definition sanitize_container_name (workspace_id : string) : string :=
  let raw := dash_runs false (Py.strip workspace_id) in
  let raw := if starts_alphanumeric raw then raw
             else if Py.truthy raw then ("w" ++ raw)%string else "workspace"%string in
  Py.prefix_to 120 ("devnest-ws-" ++ raw).

(** A limit given by the caller, or the setting's, under [float()] or [int()]. *)
Definition limit_value (given : option ConfigValue) (setting : ConfigValue) : ConfigValue :=
  match given with None | Some CfgNull => setting | Some v => v end.

Definition resolve_bringup_runtime_limits_triplet {env : WorkspaceSettings}
    (cpu_limit_cores memory_limit_mib pids_limit : option ConfigValue) : (cpu * Z * Z) + Exn :=
  let c := limit_value cpu_limit_cores wk_cpu_limit in
  let m := limit_value memory_limit_mib wk_memory_limit_mb in
  let p := limit_value pids_limit wk_pids_limit in
  let whole v what :=
    match v with
    | CfgNumber n => inl n
    | CfgInfinite => inr (OtherException "OverflowError")
    | CfgNull | CfgNaN | CfgUnparseable => inr (bring_up_error ("runtime:" ++ what ++ ":invalid"))
    end in
  match c with
  | CfgNull | CfgUnparseable => inr (bring_up_error "runtime:cpu_limit_cores:invalid")
  | CfgNumber _ | CfgNaN | CfgInfinite =>
      match whole m "memory_limit_mib"%string, whole p "pids_limit"%string with
      | inr e, _ => inr e
      | _, inr e => inr e
      | inl m, inl p =>
          match c with
          | CfgNumber n =>
              if n <=? 0 then inr (bring_up_error "runtime:cpu_limit_cores:must_be_positive_finite")
              else if m <=? 0 then inr (bring_up_error "runtime:memory_limit_mib:must_be_positive")
              else if p <=? 0 then inr (bring_up_error "runtime:pids_limit:must_be_positive")
              else inl (n, m, p)
          | _ => inr (bring_up_error "runtime:cpu_limit_cores:must_be_positive_finite")
          end
      end
  end.

Definition bringup_result_with_applied (r : WorkspaceBringUpResult) (applied : option AppliedWorkspaceRuntimePolicy)
    : WorkspaceBringUpResult :=
  match applied with
  | None => r
  | Some a => r <| br_applied_cpu_limit_cores := Some (ap_cpu_limit_cores a) |>
                <| br_applied_memory_limit_mib := Some (ap_memory_limit_mib a) |>
                <| br_applied_pids_limit := Some (ap_pids_limit a) |>
                <| br_applied_security_options := Some (to_applied_dict (ap_security_spec a)) |>
  end.

Definition parse_topology_workspace_id (workspace_id : string) : Z + Exn :=
  match Py.parse_int (Py.strip workspace_id) with
  | None => inr (bring_up_error "workspace_id must be a base-10 integer for V1 topology allocation")
  | Some v => if v <? 0 then inr (bring_up_error "workspace_id must be non-negative") else inl v
  end.

Definition issues_or_none (issues : list string) : option (list string) :=
  match List.filter Py.truthy (map Py.strip issues) with [] => None | l => Some l end.

Definition any_issue (prefix : string) (issues : list string) : bool :=
  List.existsb (λ i, Py.startswith prefix (Py.strip i)) issues.

Definition stop_workspace_success_roll_up (stop_success : bool) (topology_detached : option bool)
    (issues : list string) : bool :=
  if bool_decide (topology_detached = Some false) && any_issue "topology:detach_failed:" issues then false
  else if any_issue "topology:ip_release_failed:" issues then false
  else stop_success.

Definition label_value (labels : list (string * string)) (key : string) : option string :=
  snd <$> List.find (λ kv : string * string, String.eqb kv.1 key) labels.

Definition config_version_from_inspection (ins : ContainerInspectionResult) : Z :=
  if negb (ins_exists ins) then 0
  else match label_value (ins_labels ins) CONFIG_VERSION_LABEL with
       | None => 0
       | Some raw => if negb (Py.truthy (Py.strip raw)) then 0
                     else match Py.parse_int (Py.strip raw) with Some v => Z.max 0 v | None => 0 end
       end.

Definition env_skip_linux_topology_attachment {env : WorkspaceSettings} : bool :=
  let raw := Py.lower (Py.strip wk_skip_linux_attachment) in
  List.existsb (String.eqb raw) ["1"; "true"; "yes"]%string.

(** [x or y] where [x] may be [None]. *)
Definition opt_or_else (x : option string) (y : string) : string := Py.or_else (default ""%string x) y.

(** [f"{i.component}:{i.code}:{i.message}"] *)
Definition issue_text (i : HealthIssue) : string :=
  (hi_component i ++ ":" ++ hi_code i ++ ":" ++ hi_message i)%string.

(** ** Bringing up *)

Section orchestration.
Context {W : Type} {env : Env} {wk : WorkspaceSettings} {clock : Clock W} {adapter : RuntimeAdapter W}
  {topology : TopologyAdapter W} {probes : ProbeRunner W} {fs : HostFs W} {shell : RemoteShell W}.
Context (svc : OrchestratorConfig).

Definition ensure_workspace_project_dir (wid : string) (key : option string) (allow_create : bool) : Op W string :=
  if svc_remote_dirs svc
  then ssh_remote_ensure_workspace_project_dir (svc_workspace_projects_base svc) wid key allow_create
  else default_local_ensure_workspace_project_dir (svc_workspace_projects_base svc) wid key allow_create.

(** [self._remote_topology_attach_deferred and self._workspace_host_command_runner is not None] *)
Definition remote_host : bool :=
  svc_remote_topology_attach_deferred svc && svc_workspace_host_command_runner svc.

Definition is_value_error (e : Exn) : bool := match e with ValueError _ => true | _ => false end.

Definition bring_up_build_context (workspace_id : string) (project_storage_key : option string)
    (requested_config_version : option Z) (launch_mode : option string) : Op W BringUpContext :=
  let wid := Py.strip workspace_id in
  if negb (Py.truthy wid) then raise (bring_up_error "workspace_id is empty")
  else
    ws_int ← from_sum (parse_topology_workspace_id wid);
    let mode := match launch_mode with
                | None => "resume"%string
                | Some m => Py.or_else (Py.lower (Py.strip m)) "resume"
                end in
    let allow_create := match launch_mode with None => true | Some _ => String.eqb mode "new" end in
    bundle ← try_except (ensure_workspace_project_dir wid project_storage_key allow_create)
      (λ e, if is_value_error e then raise (bring_up_error (exn_str e)) else raise e);
    host_path ← resolve_workspace_ide_bind_host_path bundle launch_mode;
    let labels := <["devnest.workspace_id" := wid]> (<["devnest.managed_by" := "orchestrator"]> ∅)%string in
    let labels := match requested_config_version with
                  | Some v => <[CONFIG_VERSION_LABEL := Py.str_of_Z v]> labels
                  | None => labels
                  end in
    mret (mkBringUpContext wid ws_int (sanitize_container_name wid) host_path
            (Py.strip_or_none project_storage_key) mode labels).

(** *** Environment and bind mounts *)

Definition auth_mode_error : Exn :=
  bring_up_error "DEVNEST_WORKSPACE_AUTH_MODE must be either 'none' or 'password'".
Definition valid_auth_mode (m : string) : bool := String.eqb m "none" || String.eqb m "password".

Definition code_server_env (workspace_id node_key : string) : gmap string string + Exn :=
  let auth_mode := Py.lower (Py.strip (Py.or_else wk_auth_mode "none")) in
  if negb (valid_auth_mode auth_mode) then inr auth_mode_error
  else
    let base : gmap string string := list_to_map
      [("CS_DISABLE_GETTING_STARTED_OVERRIDE", "1"); ("CODE_SERVER_AUTH", auth_mode);
       ("DEVNEST_WORKSPACE_AUTH_MODE", auth_mode); ("DEVNEST_WORKSPACE_ID", Py.strip workspace_id);
       ("DEVNEST_NODE_KEY", Py.strip node_key); ("PORT", Py.str_of_Z WORKSPACE_IDE_CONTAINER_PORT)]%string in
    inl (if String.eqb auth_mode "password" && Py.truthy wk_password
         then <["DEVNEST_WORKSPACE_PASSWORD"%string := wk_password]> base else base).

(** The container's environment: the defaults under the caller's, with the
    authentication mode made consistent; and that mode. *)
Definition container_env (wid : string) (given : gmap string string) : (gmap string string * string) + Exn :=
  match code_server_env wid (svc_node_id svc) with
  | inr e => inr e
  | inl defaults =>
      let merged := given ∪ defaults in
      let get k := default ""%string (merged !! k) in
      let auth_mode := Py.lower (Py.strip (Py.or_else (get "DEVNEST_WORKSPACE_AUTH_MODE"%string)
                         (Py.or_else (get "CODE_SERVER_AUTH"%string) "none"))) in
      if negb (valid_auth_mode auth_mode) then inr auth_mode_error
      else
        let merged := <["DEVNEST_WORKSPACE_AUTH_MODE" := auth_mode]>
                        (<["CODE_SERVER_AUTH" := auth_mode]> merged)%string in
        if String.eqb auth_mode "none" then
          inl (delete "PASSWORD" (delete "DEVNEST_WORKSPACE_PASSWORD" merged), auth_mode)%string
        else if negb (Py.truthy (Py.strip_opt (merged !! "DEVNEST_WORKSPACE_PASSWORD"%string))) then
          inr (bring_up_error "DEVNEST_WORKSPACE_AUTH_MODE=password requires DEVNEST_WORKSPACE_PASSWORD")
        else inl (merged, auth_mode)
  end.

(** The entries of the data directory that do not survive a new launch. *)
Fixpoint clear_entries (data_host : string) (entries : list string) : Op W unit :=
  match entries with
  | [] => mret tt
  | entry :: rest =>
      let target := join_path data_host entry in
      (if String.eqb entry "extensions" then mret tt
       else
         dir ← is_dir target;
         link ← is_symlink target;
         try_except (if dir && negb link then rmtree target else unlink target)
           (λ e, match e with FileNotFoundError _ => mret tt | _ => raise e end)) ;;
      clear_entries data_host rest
  end.
Definition reset_code_server_state_for_new_workspace (data_host launch_mode : string) : Op W unit :=
  let mode := Py.or_else (Py.lower (Py.strip launch_mode)) "resume" in
  if negb (String.eqb mode "new") then mret tt
  else
    dir ← is_dir data_host;
    if negb (dir : bool) then mret tt
    else entries ← listdir data_host; clear_entries data_host entries.

Definition bind_mounts (cfg_host data_host : string) : list WorkspaceExtraBindMountSpec :=
  [mkExtraBindMount cfg_host CODE_SERVER_CONFIG_CONTAINER_PATH false;
   mkExtraBindMount data_host CODE_SERVER_DATA_CONTAINER_PATH false].

(** [except OSError as e: raise WorkspaceBringUpError(...)] *)
Definition os_error_as_bring_up {A} (msg : string) (m : Op W A) : Op W A :=
  try_except m (λ e, if is_oserror e then raise (bring_up_error msg) else raise e).

Definition not_writable : string := "workspace host bind-mount path not writable by runtime user".

(** The bundle of an IDE directory: the parent of a [project] directory. *)
Definition bundle_root_of (ide_bind_host : string) : string :=
  if String.eqb (basename ide_bind_host) WORKSPACE_USER_PROJECT_SUBDIR
  then dirname ide_bind_host else ide_bind_host.
(** [str(Path(p))] of an absolute path *)
Definition path_str (s : string) : string := show (steps s).

Definition prepare_local_code_server (bundle_root launch_mode auth_mode : string)
    : Op W (list WorkspaceExtraBindMountSpec) :=
  let cs_base := join_path bundle_root "code-server" in
  let cfg_host := join_path cs_base "config" in
  let data_host := join_path cs_base "data" in
  os_error_as_bring_up not_writable
    (makedirs cfg_host ;;
     makedirs data_host ;;
     cfg_dir ← os_realpath cfg_host;
     data_dir ← os_realpath data_host;
     reset_code_server_state_for_new_workspace data_dir launch_mode ;;
     ensure_code_server_bind_auth_proxy_config cfg_dir auth_mode ;;
     finalize_workspace_host_project_tree_ownership bundle_root strict_chown ;;
     for_each [cfg_dir; data_dir]
       (λ host, verify_workspace_runtime_owns_path host ;; verify_workspace_runtime_can_write_dir host) ;;
     there ← is_file (join_path cfg_host "config.yaml");
     when there
       (verify_workspace_runtime_owns_path (join_path cfg_host "config.yaml") ;;
        verify_workspace_runtime_can_read_write_file (join_path cfg_host "config.yaml")) ;;
     mret (bind_mounts cfg_dir data_dir)).

Definition code_server_extra_bind_mounts (wid : string) (workspace_host_path : option string)
    (launch_mode : string) (project_storage_key : option string) (auth_mode : string)
    : Op W (list WorkspaceExtraBindMountSpec) :=
  let wid_clean := Py.strip wid in
  if negb (Py.truthy wid_clean) then mret []
  else
    ide ← (if Py.truthy (Py.strip_opt workspace_host_path)
           then (p ← os_realpath (Py.strip_opt workspace_host_path); mret (Some p))
           else
             try_except
               (d ← ensure_workspace_project_dir wid_clean (Py.strip_or_none project_storage_key) true;
                mret (Some d))
               (λ e, if is_value_error e then mret None else raise e));
    match ide with
    | None => mret []
    | Some ide_bind_host =>
        if negb (Py.truthy ide_bind_host) then mret []
        else if remote_host then
          let remote_ide := Py.rstrip_slash ide_bind_host in
          hosts ← try_except
            (remote_prepare_code_server_bind_mounts (bundle_root_of remote_ide) wid_clean (Some remote_ide)
               auth_mode launch_mode)
            (λ e, if is_runtime_error e || is_value_error e
                  then raise (bring_up_error "remote workspace host bind-mount path not writable by runtime user")
                  else raise e);
          mret (bind_mounts hosts.1 hosts.2)
        else
          bundle_root ← path_resolve (bundle_root_of (path_str ide_bind_host));
          prepare_local_code_server bundle_root launch_mode auth_mode
    end.

(** *** The container *)

Definition verify_bind_source (host_path : string) : Op W unit :=
  verify_workspace_runtime_owns_path host_path ;; verify_workspace_runtime_can_write_dir host_path.

(** Before the engine call: the sources belong to the runtime user. *)
Definition pre_start_checks (ctx : BringUpContext) (mounts : list WorkspaceExtraBindMountSpec) : Op W unit :=
  when (negb remote_host)
    (for_each mounts (λ m,
       let hp := Py.strip (xm_host_path m) in
       when (Py.truthy hp) (os_error_as_bring_up not_writable (verify_bind_source hp))) ;;
     let proj := Py.strip (ctx_workspace_host_path ctx) in
     when (Py.truthy proj) (os_error_as_bring_up not_writable (verify_bind_source proj))).

Definition config_bind_host (mounts : list WorkspaceExtraBindMountSpec) : string :=
  match List.find (λ m, String.eqb (Py.rstrip_slash (Py.strip (xm_container_path m)))
                           CODE_SERVER_CONFIG_CONTAINER_PATH) mounts with
  | Some m => Py.strip (xm_host_path m)
  | None => ""
  end.

Definition container_spec (ctx : BringUpContext) (cpu_limit_cores : cpu) (memory_limit_mib pids_limit : Z)
    (security_spec : WorkspaceContainerSecuritySpec) (merged_env : gmap string string)
    (mounts : list WorkspaceExtraBindMountSpec) : ContainerSpec :=
  mkContainerSpec (ctx_container_name ctx) (svc_workspace_image svc) (Some cpu_limit_cores)
    (if 0 <? memory_limit_mib then Some (memory_limit_mib * 1024 * 1024) else None) (Some pids_limit)
    (Some security_spec) merged_env [(0, WORKSPACE_IDE_CONTAINER_PORT)] (ctx_labels ctx) None
    (Some (ctx_workspace_host_path ctx)) mounts None.

Definition bring_up_start_container (ctx : BringUpContext) (cpu_limit_cores : cpu)
    (memory_limit_mib pids_limit : Z) (security_spec : WorkspaceContainerSecuritySpec)
    (given_env : gmap string string) : Op W EnsureRunningRuntimeResult :=
  e ← from_sum (container_env (ctx_wid ctx) given_env);
  mounts ← code_server_extra_bind_mounts (ctx_wid ctx) (Some (ctx_workspace_host_path ctx))
             (ctx_launch_mode ctx) (ctx_project_storage_key ctx) e.2;
  pre_start_checks ctx mounts ;;
  try_except
    (let proj := Py.strip (ctx_workspace_host_path ctx) in
     when (Py.truthy proj && negb remote_host)
       (finalize_workspace_host_project_tree_ownership proj strict_chown) ;;
     when (Py.truthy (config_bind_host mounts) && remote_host)
       (log_remote_workspace_config_bind_host_before_docker_start (config_bind_host mounts)) ;;
     ensure_running_runtime_only
       (container_spec ctx cpu_limit_cores memory_limit_mib pids_limit security_spec e.1 mounts)
       (env_skip_linux_topology_attachment || svc_remote_topology_attach_deferred svc))
    (λ x, if is_runtime_adapter_error x then raise (bring_up_error ("runtime bring-up failed: " ++ exn_str x))
          else raise x).
End orchestration.
