(* ===== verification/SnapshotArchives.v ===== *)
(** * SnapshotArchives: archives of project directories

    orchestrator_service/snapshot_filesystem.py, the snapshot operations of
    orchestrator_service/service.py and node_execution_service/ssh_command_runner.py:
    writing the files of a workspace to an archive, from its container, its node or
    this host, and putting an archive back in place of the project directory.  The
    format of an archive is the interface [TarFormat]; its extraction is that of CPython
    3.11 and of the data filter of 3.12, symbolic and hard links included.  Left out are
    the owner, mode and times an archive records of a member, what a broken stream left
    in a file, and the 2000-character cut of error output.  Files with two names are told
    apart from others during an extraction only. *)

From S2P Require Import Prelude Models Session Services Scheduling Runtime.
From S2P Require Import LinuxNet HostFiles ProjectDirs DockerRuntime Orchestration.

(** ** Archives *)

Inductive TarKind := TarFile (content : string) | TarDir | TarSymlink (target : string)
| TarHardlink (target : string) | TarDevice.
Record TarMember := mkTarMember { tm_name : string; tm_kind : TarKind }.

(** A gzipped tar as the content of a file; [tar_data_filter] tells a Python of 3.12 or
    later, whose [extractall] is called with [filter="data"]. *)
Class TarFormat := {
  tar_gz : list TarMember → string;
  untar : string → option (list TarMember);
  untar_gz ms : untar (tar_gz ms) = Some ms;
  tar_data_filter : bool
}.

(** What [docker exec] and a process answer; [mkdtemp] makes a name that is new. *)
Record StreamResult := mkStream { sr_stdout : string; sr_stderr : string; sr_code : option Z }.
Definition TEMP_PREFIX : string := ".devnest-restore-tmp-".
Class ArchiveStreams (W : Type) {fs : HostFs W} := {
  as_inspect : string → W → W * (unit + Exn);
  as_exec : string → list string → W → W * (StreamResult + Exn);
  as_popen : list string → option string → W → W * (StreamResult + Exn);
  as_temp_name : list string → W → string;
  (** new, and made of letters, digits and underscores *)
  as_temp_new : ∀ p w q, within_dir (p ++ [TEMP_PREFIX ++ as_temp_name p w]%string) q → hf_tree w !! q = None;
  as_temp_plain : ∀ p w d, (TEMP_PREFIX ++ as_temp_name p w)%string ≠ (d ++ ".bak")%string
}.

(** ** Commands over SSH *)

Record SshRemoteCommandRunner := mkSshRunner { ssh_user : string; ssh_host : string; ssh_port : Z }.
Definition new_ssh_runner (user host : string) (port : Z) : SshRemoteCommandRunner :=
  mkSshRunner (Py.strip user) (Py.strip host) port.
Definition ssh_prefix_argv (r : SshRemoteCommandRunner) : list string :=
  ["ssh"; "-o"; "BatchMode=yes"; "-o"; "ConnectTimeout=15"; "-o"; "StrictHostKeyChecking=accept-new";
   "-p"; Py.str_of_Z (ssh_port r); ssh_user r ++ "@" ++ ssh_host r; "--"]%string.
Definition ssh_argv (r : SshRemoteCommandRunner) (cmd : list string) : list string + Exn :=
  match cmd with
  | [] => inr (ValueError "cmd must be a non-empty list of strings")
  | _ => inl (ssh_prefix_argv r ++ cmd)
  end.

(** What the remote shell is given: ssh joins the words after the host. *)
Fixpoint after_dashes (argv : list string) : list string :=
  match argv with [] => [] | w :: argv => if String.eqb w "--" then argv else after_dashes argv end.
Definition remote_command_line (argv : list string) : string := Py.join " " (after_dashes argv).

(** ** Paths and members *)

Fixpoint path_leb (p q : list string) : bool :=
  match p, q with
  | [], _ => true
  | _ :: _, [] => false
  | a :: p, b :: q => if String.eqb a b then path_leb p q else String.leb a b
  end.
(** What [root.rglob] reaches: it goes into the directories that can be listed, and not
    through links. *)
Definition reached (listable : list string → bool) (root : list string) (t : FileTree) (q : list string) : bool :=
  bool_decide (within_dir root q ∧ q ≠ root) &&
  forallb (λ n, is_directory (t !! take n q) && listable (take n q)) (seq (length root) (length q - length root)).
(** [sorted(root.rglob("*"))], of which those that are files or links to files *)
Definition files_below (listable : list string → bool) (root : list string) (t : FileTree) : list (list string) :=
  sort_by path_leb
    (List.filter (λ q, reached listable root t q && is_regular (node_at t true q)) (map_to_list t).*1).
Definition relative_to (root q : list string) : list string := drop (length root) q.
Definition arcname (root q : list string) : string := Py.join "/" (relative_to root q).
Definition unsafe_path (name : string) : Exn := WorkspaceSnapshotError ("snapshot:import:unsafe_path:'" ++ name ++ "'").
Definition loop_error : Exn := RuntimeError "Symlink loop".
Definition validate_member (t : FileTree) (dest : list string) (m : TarMember) : option Exn :=
  let name := Py.strip (tm_name m) in
  if negb (Py.truthy name) || Py.startswith "/" name || Py.startswith ".." name then Some (unsafe_path name)
  else if (match tm_kind m with TarDevice => true | _ => false end)
  then Some (WorkspaceSnapshotError ("snapshot:import:unsafe_member_type:'" ++ name ++ "'"))
  else
    let '(target, ok) := realpath t (joined dest name) in
    if negb ok then Some loop_error
    else if negb (bool_decide (within_dir dest target)) then Some (unsafe_path name)
    else match tm_kind m with
    | TarHardlink linkname =>
        let '(link_target, ok) := realpath t (joined dest linkname) in
        if negb ok then Some loop_error
        else if bool_decide (within_dir dest link_target) then None
        else Some (WorkspaceSnapshotError ("snapshot:import:unsafe_hardlink:'" ++ name ++ "'"))
    | _ => None
    end.
Fixpoint validate_tar_members (t : FileTree) (dest : list string) (ms : list TarMember) : option Exn :=
  match ms with
  | [] => None
  | m :: ms => match validate_member t dest m with Some e => Some e | None => validate_tar_members t dest ms end
  end.

(** [tarfile.data_filter]: members and link targets stay inside, links are relative; the
    names that reach it are. *)
Definition filtered_out (t : FileTree) (path : list string) (m : TarMember) : bool :=
  let dest := (realpath t path).1 in
  let outside p := negb (bool_decide (within_dir dest (realpath t p).1)) in
  outside (joined dest (tm_name m)) ||
  match tm_kind m with
  | TarSymlink linkname => Py.startswith "/" linkname || outside (dest ++ removelast (steps (tm_name m)) ++ steps linkname)
  | TarHardlink linkname => Py.startswith "/" linkname || outside (dest ++ steps linkname)
  | TarDevice => true
  | _ => false
  end.

(** [os.path.normpath], by which members are compared *)
Definition norm_step (p : list string) (c : string) : list string :=
  if skipped c then p
  else if String.eqb c ".." then (match last p with Some d => if String.eqb d ".." then p ++ [c] else removelast p | None => [c] end)
  else p ++ [c].
Definition normpath (cs : list string) : list string := foldl norm_step [] cs.
(** [_getmember]: the last member of that name, and those before it *)
Fixpoint last_member (name : list string) (before ms : list TarMember) : option (TarMember * list TarMember) :=
  match ms with
  | [] => None
  | m :: ms =>
      match last_member name (before ++ [m]) ms with
      | Some found => Some found
      | None => if bool_decide (normpath (steps (tm_name m)) = name) && negb (Py.startswith "/" (tm_name m))
                then Some (m, before) else None
      end
  end.
(** [_find_link_target]: a symbolic link's in the whole archive, a hard link's before it *)
Definition find_link_target (archive before : list TarMember) (m : TarMember) : option (TarMember * list TarMember) :=
  let dir := removelast (steps (tm_name m)) in
  match tm_kind m with
  | TarSymlink linkname =>
      if bool_decide (dir = []) && Py.startswith "/" linkname then None
      else last_member (normpath (dir ++ steps linkname)) [] archive
  | TarHardlink linkname =>
      if Py.startswith "/" linkname then None else last_member (normpath (steps linkname)) [] before
  | _ => None
  end.

(** The names that hard links have given files *)
Abbreviation Names := (list (list (list string))).
Definition names_of (q : list string) (shared : Names) : list (list string) :=
  List.concat (List.filter (λ g, bool_decide (q ∈ g)) shared).
Definition with_name (q q' : list string) (shared : Names) : Names :=
  (q' :: q :: names_of q shared) :: List.filter (λ g, negb (bool_decide (q ∈ g))) shared.
Definition without_name (q : list string) (shared : Names) : Names :=
  map (List.filter (λ p, negb (bool_decide (p = q)))) shared.
Definition rewritten (c : string) (qs : list (list string)) (t : FileTree) : FileTree :=
  foldr (alter (λ n, match n with RegularFile u g _ => RegularFile u g c | n => n end)) t qs.

(** [rename(p, q)]: what is below [p] is then below [q]. *)
Definition renamed_path (p q r : list string) : list string :=
  if bool_decide (within_dir q r) then p ++ drop (length q) r
  else if bool_decide (within_dir p r) then q ++ drop (length p) r else r.
Definition renamed (p q : list string) (t : FileTree) : FileTree :=
  kmap (renamed_path p q) (removed q (λ _, true) t).

Section archives.
Context {W : Type} {fs : HostFs W} {tar : TarFormat} {streams : ArchiveStreams W}.

Definition suppress_oserror (m : Op W unit) : Op W unit :=
  try_except m (λ e, if is_oserror e then mret tt else raise e).
Definition unlink_if_file (p : list string) : Op W unit :=
  suppress_oserror (there ← is_file_at p; when there (unlink_at p)).
Definition size_of_file (p : list string) : Op W (option Z) :=
  t ← files; mret (match node_at t true p with Some (RegularFile _ _ c) => Some (Py.len c) | _ => None end).

(** *** Exporting *)

Definition export_running_workspace_tar_from_container (container_id : string) (dest : list string)
    : Op W (bool * list string) :=
  found ← attempt (on_world (as_inspect container_id));
  match found with
  | inr e => if is_docker_not_found e then mret (false, ["snapshot:export:container_not_found"%string])
             else if is_docker_api_error e then mret (false, ["snapshot:export:inspect_failed:" ++ exn_str e]%string)
             else raise e
  | inl _ =>
      try_except
        (r ← on_world (as_exec container_id ["tar"; "-czf"; "-"; "-C"; WORKSPACE_PROJECT_CONTAINER_PATH; "."]%string);
         write_at dest (sr_stdout r) ;;
         if bool_decide (sr_code r = Some 0) then mret (true, [])
         else mret (false, ["snapshot:export:tar_nonzero_exit:" ++ Py.str_of_opt_Z (sr_code r); sr_stderr r]%string))
        (λ e, if is_oserror e then
                unlink_if_file dest ;; mret (false, ["snapshot:export:write_failed:" ++ exn_str e]%string)
              else if is_docker_api_error e then mret (false, ["snapshot:export:docker_exec_failed:" ++ exn_str e]%string)
              else raise e)
  end.

(** [popen_for_remote_command(["sh", "-c", inner])] *)
Definition popen_for_remote_command (r : SshRemoteCommandRunner) (inner : string) (stdin : option string)
    : Op W (StreamResult + string) :=
  match ssh_argv r ["sh"; "-c"; inner]%string with
  | inr e => raise e
  | inl argv =>
      x ← attempt (on_world (as_popen argv stdin));
      match x with
      | inl s => mret (inl s)
      | inr e => if is_oserror e then mret (inr (exn_str e)) else raise e
      end
  end.
Definition export_inner (root : string) : string := ("tar -czf - -C " ++ shlex_quote root ++ " .")%string.
Definition export_host_tree_tar_via_ssh (r : SshRemoteCommandRunner) (host_project_root : string) (dest : list string)
    : Op W (bool * list string) :=
  let root := Py.strip host_project_root in
  if negb (Py.startswith "/" root) then mret (false, ["snapshot:export:remote_host_path_not_absolute"%string])
  else
    x ← popen_for_remote_command r (export_inner root) None;
    match x with
    | inr e => mret (false, ["snapshot:export:ssh_popen_failed:" ++ e]%string)
    | inl s =>
        written ← attempt (write_at dest (sr_stdout s));
        match written with
        | inr e => if is_oserror e then
                     unlink_if_file dest ;; mret (false, ["snapshot:export:write_failed:" ++ exn_str e]%string)
                   else raise e
        | inl _ =>
            if bool_decide (sr_code s = Some 0) then mret (true, [])
            else unlink_if_file dest ;;
                 mret (false, ["snapshot:export:remote_tar_exit:" ++ Py.str_of_opt_Z (sr_code s); sr_stderr s]%string)
        end
    end.

(** [tf.add] of each: a link is stored as such, and the archive itself is left out. *)
Fixpoint read_members (root dest : list string) (qs : list (list string)) : Op W (list TarMember) :=
  match qs with
  | [] => mret []
  | q :: qs =>
      if bool_decide (q = dest) then read_members root dest qs
      else
        t ← files;
        kind ← (match node_at t false q with
                | Some (SymbolicLink _ _ l) => mret (TarSymlink l)
                | _ => c ← read_at q; mret (TarFile c)
                end);
        ms ← read_members root dest qs;
        mret (mkTarMember (arcname root q) kind :: ms)
  end.
(** [tarfile.open(dest, "w:gz")] makes the file before the tree is walked. *)
Definition export_local_tree (root dest : list string) : Op W (bool * list string) :=
  try_except
    (write_at dest "" ;;
     t ← files;
     listable ← see (λ w q, bool_decide (hf_denied OpListDir q w = None));
     ms ← read_members root dest (files_below listable root t);
     write_at dest (tar_gz ms) ;;
     mret (true, []))
    (λ e, if is_oserror e then unlink_if_file dest ;; mret (false, ["snapshot:export:io_error:" ++ exn_str e]%string)
          else raise e).

(** *** Importing *)

Definition symlink_at (linkname : string) (p : list string) : Op W unit :=
  permitted OpSymlink p ;;
  t ← files;
  q ← from_sum (find_path t false p);
  match t !! q with
  | Some _ => raise eexist
  | None => if Py.truthy linkname then set_files <[q := SymbolicLink hf_euid hf_egid linkname]> else raise enoent
  end.
(** [os.link], of a link itself; the names are then those of one file. *)
Definition link_name (shared : Names) (src p : list string) : Op W Names :=
  permitted OpLink p ;;
  t ← files;
  q ← from_sum (find_path t false src);
  q' ← from_sum (find_path t false p);
  match t !! q, t !! q' with
  | None, _ => raise enoent
  | Some (Directory _ _), _ => raise (OSError "Operation not permitted")
  | Some _, Some _ => raise eexist
  | Some n, None => set_files <[q' := n]> ;; mret (with_name q q' shared)
  end.
Definition unlink_name (shared : Names) (p : list string) : Op W Names :=
  t ← files;
  unlink_at p ;;
  mret (match find_path t false p with inl q => without_name q shared | inr _ => shared end).
(** Writing a file writes it under all its names. *)
Definition write_names (shared : Names) (p : list string) (c : string) : Op W unit :=
  t ← files;
  write_at p c ;;
  match find_path t true p with
  | inl q => set_files (rewritten c (names_of q shared))
  | inr _ => mret tt
  end.
Definition make_member_dir (p : list string) : Op W unit :=
  try_except (mkdir_at p) (λ e, match e with
    | FileExistsError _ => there ← is_dir_at p; if there : bool then mret tt else raise e
    | _ => raise e
    end).

Definition make_parents (target : list string) : Op W unit :=
  there ← exists_at (removelast target); when (negb there) (makedirs_at false (removelast target)).

(** [_extract_member] of [m], before which [before] are in the archive, at [target].  A
    link that cannot be made is a copy of the member it names, if there is one; a chain of
    such copies longer than the archive has come back to where it was.  [first] tells the
    member that is extracted from one copied in its place. *)
Fixpoint extract_at (fuel : nat) (first : bool) (archive before : list TarMember) (tmp target : list string)
    (m : TarMember) (shared : Names) : Op W Names :=
  let named (missing : Exn) : Op W Names :=
    match find_link_target archive before m with
    | None => raise missing
    | Some (m', before') =>
        match fuel with
        | O => raise (RuntimeError "maximum recursion depth exceeded")
        | S n => extract_at n false archive before' tmp target m' shared
        end
    end in
  let unable := TarError "unable to resolve link inside archive" in
  let or_copy (shared' : Op W Names) : Op W Names :=
    try_except shared' (λ e, if is_oserror e then named unable else raise e) in
  make_parents target ;;
  match tm_kind m with
  | TarFile c => write_names shared target c ;; mret shared
  | TarDir => make_member_dir target ;; mret shared
  | TarSymlink linkname =>
      there ← lexists_at target;
      or_copy (shared' ← (if there : bool then unlink_name shared target else mret shared);
               symlink_at linkname target ;;
               mret shared')
  | TarHardlink linkname =>
      if first then
        or_copy (there ← exists_at (joined tmp linkname);
                 if there : bool then link_name shared (joined tmp linkname) target
                 else named (KeyError "linkname not found"))
      else named unable
  | TarDevice => raise (OSError "devices are refused before")
  end.
(** [extractall]: an [ExtractError] is only noted. *)
Definition extract_member (tmp : list string) (archive before : list TarMember) (m : TarMember) (shared : Names)
    : Op W Names :=
  t ← files;
  if tar_data_filter && filtered_out t tmp m then raise (TarError "member refused by the data filter")
  else
    try_except (extract_at (length archive) true archive before tmp (joined tmp (tm_name m)) m shared)
      (λ e, match e with TarError _ => mret shared | _ => raise e end).
Fixpoint extract_members (tmp : list string) (archive before ms : list TarMember) (shared : Names) : Op W unit :=
  match ms with
  | [] => mret tt
  | m :: ms => shared' ← extract_member tmp archive before m shared; extract_members tmp archive (before ++ [m]) ms shared'
  end.
Definition extractall (tmp : list string) (ms : list TarMember) : Op W unit := extract_members tmp ms [] ms [].

Definition mkdtemp (parent : list string) : Op W (list string) :=
  name ← see (as_temp_name parent);
  let tmp := parent ++ [TEMP_PREFIX ++ name]%string in
  mkdir_at tmp ;;
  mret tmp.

(** [os.rename]: a directory in place of one that is empty or not there, another node in
    place of one that is not a directory *)
Definition rename_at (p q : list string) : Op W unit :=
  permitted OpRename q ;;
  t ← files;
  p' ← from_sum (find_path t false p);
  q' ← from_sum (find_path t false q);
  if bool_decide (p' = q') then mret tt
  else if bool_decide (within_dir p' q') then raise (OSError "Invalid argument")
  else match t !! p', t !! q' with
  | None, _ => raise enoent
  | Some (Directory _ _), Some (Directory _ _) =>
      match children q' t with
      | [] => set_files (renamed p' q')
      | _ => raise (OSError "Directory not empty")
      end
  | Some (Directory _ _), Some _ => raise enotdir
  | Some _, Some (Directory _ _) => raise eisdir
  | Some _, _ => set_files (renamed p' q')
  end.

Definition backup_of (dest : list string) : list string :=
  removelast dest ++ [(default ""%string (last dest) ++ ".bak")%string].
Definition atomic_swap (tmp dest : list string) : Op W unit :=
  let bak := backup_of dest in
  try_except
    (old ← exists_at bak;
     when old (rmtree_at bak ;; mret tt) ;;
     there ← exists_at dest;
     when there (rename_at dest bak) ;;
     rename_at tmp dest ;;
     left_over ← exists_at bak;
     when left_over (rmtree_at bak ;; mret tt))
    (λ e, if is_oserror e then
            there ← exists_at dest;
            kept ← exists_at bak;
            when (negb there && kept) (suppress_oserror (rename_at bak dest)) ;;
            raise (WorkspaceSnapshotError ("snapshot:import:atomic_swap_failed:" ++ exn_str e))
          else raise e).
Definition safe_snapshot_tar_extract (ms : list TarMember) (given : list string) : Op W unit :=
  dest ← resolve_at given;
  mkdir_path dest ;;
  t ← files;
  match validate_tar_members t dest ms with
  | Some e => raise e
  | None =>
      tmp ← mkdtemp (removelast dest);
      finally
        (try_except (extractall tmp ms ;; atomic_swap tmp dest)
           (λ e, match e with
                 | WorkspaceSnapshotError _ => raise e
                 | TarError m => raise (WorkspaceSnapshotError ("snapshot:import:extract_failed:" ++ m))
                 | _ => if is_oserror e then raise (WorkspaceSnapshotError ("snapshot:import:extract_failed:" ++ exn_str e))
                        else raise e
                 end))
        (there ← exists_at tmp; when there (rmtree_at tmp ;; mret tt))
  end.

Definition import_inner (root : string) : string :=
  ("mkdir -p " ++ shlex_quote root ++ " && tar -xzf - -C " ++ shlex_quote root)%string.
Definition import_archive_to_host_via_ssh (r : SshRemoteCommandRunner) (host_project_root : string)
    (archive : list string) : Op W (bool * list string) :=
  let root := Py.strip host_project_root in
  if negb (Py.startswith "/" root) then mret (false, ["snapshot:import:remote_host_path_not_absolute"%string])
  else
    content ← attempt (read_at archive);
    match content with
    | inr e => if is_oserror e then mret (false, ["snapshot:import:stdin_write_failed:" ++ exn_str e]%string) else raise e
    | inl c =>
        x ← popen_for_remote_command r (import_inner root) (Some c);
        mret (match x with
              | inr e => (false, ["snapshot:import:ssh_popen_failed:" ++ e]%string)
              | inl s => if bool_decide (sr_code s = Some 0) then (true, [])
                         else (false, ["snapshot:import:remote_tar_exit:" ++ Py.str_of_opt_Z (sr_code s); sr_stderr s]%string)
              end)
    end.
End archives.

(** ** Archives made by an execution node itself *)

Definition build_ssm_docker_snapshot_export_to_s3_script (workspace_id snapshot_id : Z) (container_id s3_uri : string)
    : string + Exn :=
  let cid := Py.strip container_id in
  let uri := Py.strip s3_uri in
  if negb (Py.truthy cid) then inr (ValueError "container_id is required")
  else if negb (Py.startswith "s3://" uri) then inr (ValueError "s3_uri must start with s3://")
  else inl (Py.join newline
    ["set -euo pipefail";
     "tmp=" ++ shlex_quote ("/tmp/devnest-ws-" ++ Py.str_of_Z workspace_id ++ ".tar.gz");
     "trap 'rm -f " ++ dquoted "$tmp" ++ "' EXIT";
     "docker exec " ++ shlex_quote cid ++ " tar czf - -C " ++ shlex_quote WORKSPACE_PROJECT_CONTAINER_PATH ++
       " . > " ++ dquoted "$tmp";
     "test -s " ++ dquoted "$tmp";
     "bytes=" ++ dquoted ("$(wc -c < " ++ dquoted "$tmp" ++ " | tr -d '[:space:]')");
     "aws s3 cp " ++ dquoted "$tmp" ++ " " ++ shlex_quote uri;
     "printf 'devnest_snapshot_bytes=%s\n' " ++ dquoted "$bytes"]%string).
Definition BYTES_PREFIX : string := "devnest_snapshot_bytes=".
(** [line.split("=", 1)[1].strip()] of the last such line, if it is a number *)
Definition reported_size (stdout : string) : option Z :=
  foldl (λ size line, if Py.startswith BYTES_PREFIX line
                      then Py.parse_int (Py.strip (default ""%string (Py.partition "=" line).2)) else size)
    None (splitlines stdout).
Definition export_running_workspace_tar_to_s3_via_ssm {W} {ssm : RemoteShell W} (workspace_id snapshot_id : Z)
    (container_id s3_uri : string) : Op W (bool * option Z * list string) :=
  try_except
    (script ← from_sum (build_ssm_docker_snapshot_export_to_s3_script workspace_id snapshot_id container_id s3_uri);
     stdout ← on_world (rs_run ["sh"; "-lc"; script]%string);
     mret (true, reported_size stdout, []))
    (λ e, mret (false, None, ["snapshot:export:ssm_s3_failed:" ++ exn_str e]%string)).

(** ** The orchestrator's operations *)

Section snapshots.
Context {W : Type} {env : Env} {wk : WorkspaceSettings} {adapter : RuntimeAdapter W} {fs : HostFs W}
  {shell : RemoteShell W} {tar : TarFormat} {streams : ArchiveStreams W}.
Context (svc : OrchestratorConfig) (ssh : SshRemoteCommandRunner).

Definition workspace_project_path_for_snapshot (workspace_id : string) (project_storage_key : option string)
    : Op W string :=
  let wid := Py.strip workspace_id in
  if negb (Py.truthy wid) then raise (WorkspaceSnapshotError "workspace_id is empty")
  else
    from_sum (parse_topology_workspace_id wid) ;;
    bundle ← try_except (d ← ensure_workspace_project_dir svc wid project_storage_key true; path_resolve d)
      (λ e, match e with ValueError m => raise (WorkspaceSnapshotError m) | _ => raise e end);
    let pr := join_path bundle WORKSPACE_USER_PROJECT_SUBDIR in
    there ← is_dir pr;
    mret (if there : bool then pr else bundle).

Definition snapshot_result (wid : string) (size : option Z) (r : bool * list string) : WorkspaceSnapshotOperationResult :=
  if r.1 then mkWorkspaceSnapshotOperationResult wid true size None
  else mkWorkspaceSnapshotOperationResult wid false None (Some r.2).
Definition snapshot_refusal (wid message : string) : WorkspaceSnapshotOperationResult :=
  mkWorkspaceSnapshotOperationResult wid false None (Some [message]).
Definition exported (wid : string) (dest : list string) (r : bool * list string) : Op W WorkspaceSnapshotOperationResult :=
  size ← (if r.1 then size_of_file dest else mret None);
  mret (snapshot_result wid size r).

(** From the project directory, here or on the node *)
Definition export_project_dir (wid : string) (project_storage_key : option string) (dest : list string)
    : Op W WorkspaceSnapshotOperationResult :=
  root ← attempt (workspace_project_path_for_snapshot wid project_storage_key);
  match root with
  | inr (WorkspaceSnapshotError m) => mret (snapshot_refusal wid m)
  | inr e => raise e
  | inl root =>
      root_path ← resolve_at (steps root);
      there ← is_dir_at root_path;
      if negb (there : bool) then
        if svc_snapshot_ssh svc then (r ← export_host_tree_tar_via_ssh ssh root dest; exported wid dest r)
        else mret (snapshot_refusal wid "snapshot:export:project_dir_missing")
      else r ← export_local_tree root_path dest; exported wid dest r
  end.

Definition export_workspace_filesystem_snapshot (workspace_id : string) (project_storage_key : option string)
    (archive_path : string) (container_id : option string) : Op W WorkspaceSnapshotOperationResult :=
  let wid := Py.strip workspace_id in
  if negb (Py.truthy wid) then mret (snapshot_refusal workspace_id "snapshot:export:workspace_id_empty")
  else match parse_topology_workspace_id wid with
  | inr e => mret (snapshot_refusal wid (exn_str e))
  | inl _ =>
      dest ← resolve_at (steps archive_path);
      made ← attempt (mkdir_path (removelast dest));
      match made with
      | inr e => if is_oserror e then mret (snapshot_refusal wid ("snapshot:export:mkdir_failed:" ++ exn_str e)) else raise e
      | inl _ =>
          match Py.strip_or_none container_id, svc_has_docker_client svc with
          | Some cid, true =>
              ins ← attempt (inspect_container cid);
              match ins with
              | inr e => mret (snapshot_refusal wid ("snapshot:export:inspect_failed:" ++ exn_str e))
              | inl i =>
                  if ins_exists i && String.eqb (Py.lower (Py.strip (ins_container_state i))) "running" then
                    (r ← export_running_workspace_tar_from_container cid dest; exported wid dest r)
                  else export_project_dir wid project_storage_key dest
              end
          | Some _, false =>
              mret (snapshot_result wid None (false, ["snapshot:export:ssm_docker_binary_export_unsupported";
                "Snapshots from running workspaces on ssm_docker nodes require a Docker engine client"]%string))
          | None, _ => export_project_dir wid project_storage_key dest
          end
      end
  end.

(** From an archive on this host *)
Definition import_local_archive (wid : string) (src dest : list string) (ms : list TarMember)
    : Op W WorkspaceSnapshotOperationResult :=
  r ← attempt (safe_snapshot_tar_extract ms dest);
  match r with
  | inl _ => size ← size_of_file src; mret (snapshot_result wid size (true, []))
  | inr (WorkspaceSnapshotError m) => mret (snapshot_refusal wid m)
  | inr (TarError m) => mret (snapshot_refusal wid ("snapshot:import:failed:" ++ m))
  | inr e => if is_oserror e then mret (snapshot_refusal wid ("snapshot:import:failed:" ++ exn_str e)) else raise e
  end.
Definition import_workspace_filesystem_snapshot (workspace_id : string) (project_storage_key : option string)
    (archive_path : string) : Op W WorkspaceSnapshotOperationResult :=
  let wid := Py.strip workspace_id in
  root ← attempt (workspace_project_path_for_snapshot wid project_storage_key);
  match root with
  | inr (WorkspaceSnapshotError m) => mret (snapshot_refusal (Py.or_else wid workspace_id) m)
  | inr e => raise e
  | inl root =>
      dest ← resolve_at (steps root);
      src ← resolve_at (steps archive_path);
      there ← is_file_at src;
      if negb (there : bool) then mret (snapshot_refusal wid "snapshot:import:archive_missing")
      else
        content ← read_at src;
        match untar content with
        | None => mret (snapshot_refusal wid "snapshot:import:invalid_archive_format")
        | Some ms =>
            dir ← is_dir_at dest;
            if negb (dir : bool) then
              if svc_snapshot_ssh svc then
                (r ← import_archive_to_host_via_ssh ssh root src;
                 size ← size_of_file src; mret (snapshot_result wid size r))
              else mret (snapshot_refusal wid "snapshot:import:project_dir_missing")
            else import_local_archive wid src dest ms
        end
  end.
End snapshots.
