(* ===== verification/ArchiveSafety.v ===== *)
(** * ArchiveSafety: restoring an archive

    The theorems about [SnapshotArchives]: what a restore can touch, that a failed one
    leaves the project as it was, and that a restored export has the files and links of
    the project exported. *)

From S2P Require Import Prelude Models Session Services Scheduling Runtime.
From S2P Require Import LinuxNet HostFiles ProjectDirs DockerRuntime Orchestration SnapshotArchives.

(** ** Files and links of a tree *)

Inductive Entry : Set := TextOf (content : string) | LinkTo (target : string).
Definition entry_of (n : option FsNode) : option Entry :=
  match n with
  | Some (RegularFile _ _ c) => Some (TextOf c)
  | Some (SymbolicLink _ _ l) => Some (LinkTo l)
  | _ => None
  end.
(** The file or link at a path *)
Definition entry (t : FileTree) (r : list string) : option Entry := entry_of (t !! r).
Lemma link_entry n : is_link n = true → ∃ l, entry_of n = Some (LinkTo l).
Proof. destruct n as [[]|]; try done. by eexists. Qed.
Lemma entry_link n l : entry_of n = Some (LinkTo l) → is_link n = true.
Proof. by destruct n as [[]|]. Qed.
Lemma directory_no_link n : is_directory n = true → is_link n = false.
Proof. by destruct n as [[]|]. Qed.
Lemma no_entry n : entry_of n = None → n = None ∨ is_directory n = true.
Proof. destruct n as [[]|]; auto; discriminate. Qed.

(** ** Paths *)

Definition apart (p q : list string) : Prop := ¬ within_dir p q ∧ ¬ within_dir q p.
Lemma within_dir_trans p q r : within_dir p q → within_dir q r → within_dir p r.
Proof. apply transitivity. Qed.
Lemma within_app p r : within_dir p (p ++ r).
Proof. by exists r. Qed.
Lemma drop_within (p r : list string) : drop (length p) (p ++ r) = r.
Proof. apply drop_app_length. Qed.
Lemma siblings_apart (par : list string) a b : a ≠ b → apart (par ++ [a]) (par ++ [b]).
Proof.
  intros H. split; intros [r E]; rewrite <- app_assoc in E; apply app_inv_head in E; cbn in E; congruence.
Qed.
Lemma apart_sym p q : apart p q → apart q p.
Proof. intros [??]. by split. Qed.
Lemma apart_below p q r : apart p q → ¬ within_dir p (q ++ r).
Proof. intros [H1 H2] H. destruct (prefix_weak_total p q (q ++ r)); [done|by exists r|by apply H1|by apply H2]. Qed.
Lemma within_longer p q : within_dir p q → (length p ≤ length q)%nat.
Proof. apply prefix_length. Qed.
Lemma not_within_prefix p c q : within_dir q p → ¬ within_dir (p ++ [c]) q.
Proof. intros H1%within_longer H2%within_longer. rewrite length_app in H2. cbn in H2. lia. Qed.
Lemma removelast_within (p : list string) : within_dir (removelast p) p.
Proof. destruct p as [|c p] using rev_ind; [done|]. rewrite removelast_last. apply within_app. Qed.
(** A path below [p ++ r] is above [p], or below it and above [r]. *)
Lemma within_app_cases p r q : within_dir q (p ++ r) → within_dir q p ∨ ∃ r', q = p ++ r' ∧ within_dir r' r.
Proof.
  intros H. destruct (prefix_weak_total q p (p ++ r)) as [Hq|[r' ->]]; [done|apply within_app|by left|].
  right. exists r'. split; [done|]. by apply prefix_app_inv in H.
Qed.

(** A name that stands for a directory entry, a path that only leads down, and the
    entries it passes *)
Definition real (c : string) : bool := negb (skipped c) && negb (String.eqb c "..").
Definition forward (cs : list string) : bool := forallb (λ c, negb (String.eqb c "..")) cs.
Definition norm (cs : list string) : list string := List.filter (λ c, negb (skipped c)) cs.
Lemma norm_app a b : norm (a ++ b) = norm a ++ norm b.
Proof. apply List.filter_app. Qed.
Lemma norm_real p : forallb real p = true → norm p = p.
Proof.
  induction p as [|c p IH]; [done|]. cbn [forallb norm List.filter]. fold (norm p). unfold real at 1.
  rewrite !andb_true_iff. intros [[-> _] H]. by rewrite IH.
Qed.
Lemma real_forward p : forallb real p = true → forward p = true.
Proof. unfold forward. rewrite !forallb_forall. intros H c Hc. specialize (H c Hc). by apply andb_true_iff in H as [_ ?]. Qed.
Lemma forward_app a b : forward (a ++ b) = forward a && forward b.
Proof. apply forallb_app. Qed.
Lemma forward_removelast p : forward p = true → forward (removelast p) = true.
Proof. destruct p as [|c p] using rev_ind; [done|]. rewrite removelast_last, forward_app. by intros [? _]%andb_true_iff. Qed.
Lemma norm_removelast p : within_dir (norm (removelast p)) (norm p).
Proof. destruct p as [|c p] using rev_ind; [done|]. rewrite removelast_last, norm_app. apply within_app. Qed.
Lemma real_snoc p c : forallb real (p ++ [c]) = forallb real p && real c.
Proof. rewrite forallb_app. cbn. by rewrite andb_true_r. Qed.
Lemma real_removelast p : forallb real p = true → forallb real (removelast p) = true.
Proof. destruct p as [|c p _] using rev_ind; [done|]. rewrite removelast_last, real_snoc. by intros [? _]%andb_true_iff. Qed.

(** *** Paths without links *)

Definition unlinked (t : FileTree) (p : list string) : Prop :=
  ∀ q, q ≠ [] → within_dir q p → is_link (t !! q) = false.
Definition grounded (t : FileTree) (p : list string) : Prop := ∀ q, within_dir q p → is_directory (t !! q) = true.
(** The path leads down, and through no link. *)
Definition direct (t : FileTree) (p : list string) : Prop := forward p = true ∧ unlinked t (norm p).
Lemma grounded_unlinked t p : grounded t p → unlinked t p.
Proof. intros H q _ Hq. by apply directory_no_link, H. Qed.
Lemma unlinked_within t p q : unlinked t p → within_dir q p → unlinked t q.
Proof. intros H Hq r Hr Hrq. apply H; [done|by etrans]. Qed.
Lemma grounded_within t p q : grounded t p → within_dir q p → grounded t q.
Proof. intros H Hq r Hr. apply H. by etrans. Qed.
Lemma direct_removelast t p : direct t p → direct t (removelast p).
Proof. intros [H1 H2]. split; [by apply forward_removelast|]. eapply unlinked_within; [done|apply norm_removelast]. Qed.
Lemma direct_real t p : forallb real p = true → unlinked t p → direct t p.
Proof. intros H1 H2. split; [by apply real_forward|by rewrite norm_real]. Qed.

Lemma namei_cons links t follow cur c rest :
  namei links t follow cur (c :: rest) =
  match t !! cur with
  | Some (Directory _ _) =>
      if skipped c then namei links t follow cur rest
      else if String.eqb c ".." then namei links t follow (removelast cur) rest
      else match t !! (cur ++ [c]) with
           | Some (SymbolicLink _ _ target) =>
               if (match rest with [] => negb follow | _ => false end) then inl (cur ++ [c])
               else match links with
                    | O => inr eloop
                    | S n => namei n t follow (link_base cur target) (components EmptyString target ++ rest)
                    end
           | _ => namei links t follow (cur ++ [c]) rest
           end
  | None => inr enoent
  | Some _ => inr enotdir
  end.
Proof. by destruct links. Qed.
Lemma namei_nil links t follow cur : namei links t follow cur [] = inl cur.
Proof. by destruct links. Qed.

Lemma namei_error links t follow cur cs e : namei links t follow cur cs = inr e → is_oserror e = true.
Proof.
  revert cur cs. induction links as [|n IHn]; intros cur cs; revert cur; induction cs as [|c cs IH]; intros cur;
    rewrite ?namei_nil, ?namei_cons; try done; repeat case_match; eauto; intros [= <-]; done.
Qed.
Lemma namei_direct links t follow cs cur q : forward cs = true →
  (∀ p, p ≠ [] → within_dir p (norm cs) → is_link (t !! (cur ++ p)) = false) →
  namei links t follow cur cs = inl q →
  q = cur ++ norm cs ∧ ∀ p, within_dir p (norm cs) → p ≠ norm cs → is_directory (t !! (cur ++ p)) = true.
Proof.
  revert cur. induction cs as [|c cs IH]; intros cur; rewrite ?namei_nil, ?namei_cons.
  { intros _ _ [= <-]. cbn. rewrite app_nil_r. split; [done|]. intros p Hp. by apply prefix_nil_inv in Hp. }
  cbn [forward forallb norm List.filter]. fold (forward cs) (norm cs). intros [Hc Hf]%andb_true_iff Hl.
  apply negb_true_iff in Hc. destruct (t !! cur) as [[u g| |]|] eqn:Ecur; try discriminate.
  rewrite Hc. destruct (skipped c); cbn [negb] in *; [by apply IH|].
  assert (Hnl : is_link (t !! (cur ++ [c])) = false) by (apply Hl; [done|by exists (norm cs)]).
  intros E. assert (E' : namei links t follow (cur ++ [c]) cs = inl q) by (by destruct (t !! (cur ++ [c])) as [[]|]).
  apply IH in E' as [-> Hd]; [|done|].
  - split; [by rewrite <- app_assoc|]. intros [|a p] Hp Hne; [by rewrite app_nil_r, Ecur|].
    apply prefix_cons_inv_1 in Hp as Ha. subst a. apply prefix_cons_inv_2 in Hp.
    specialize (Hd p Hp). rewrite <- app_assoc in Hd. apply Hd. congruence.
  - intros p Hp Hpre. rewrite <- app_assoc. apply Hl; [done|]. by apply prefix_cons.
Qed.
Lemma find_direct t follow p q : direct t p → find_path t follow p = inl q →
  q = norm p ∧ ∀ r, within_dir r (norm p) → r ≠ norm p → is_directory (t !! r) = true.
Proof. intros [H1 H2] E. by apply (namei_direct MAXSYMLINKS t follow p []). Qed.

(** Through directories a path leads to where it says. *)
Lemma namei_grounded links t follow cs cur rest : forallb real cs = true →
  (∀ p, within_dir p cs → is_directory (t !! (cur ++ p)) = true) →
  namei links t follow cur (cs ++ rest) = namei links t follow (cur ++ cs) rest.
Proof.
  revert cur. induction cs as [|c cs IH]; intros cur; cbn [app forallb]; [by rewrite app_nil_r|].
  intros [Hc Hr]%andb_true_iff Hd. unfold real in Hc. apply andb_true_iff in Hc as [Hs%negb_true_iff Hu%negb_true_iff].
  rewrite namei_cons, Hs, Hu. assert (H0 := Hd [] (prefix_nil _)). rewrite app_nil_r in H0.
  assert (H1 := Hd [c] ltac:(by exists cs)). destruct (t !! cur) as [[]|]; try done.
  destruct (t !! (cur ++ [c])) as [[]|]; try done. rewrite IH; [by rewrite <- app_assoc|done|].
  intros p Hp. rewrite <- app_assoc. apply Hd. by apply prefix_cons.
Qed.
Lemma find_child t follow p c : forallb real (p ++ [c]) = true → grounded t p →
  (follow = true → is_link (t !! (p ++ [c])) = false) → find_path t follow (p ++ [c]) = inl (p ++ [c]).
Proof.
  rewrite real_snoc. intros [Hp Hc]%andb_true_iff Hg Hl. unfold find_path. rewrite namei_grounded by done. cbn [app].
  unfold real in Hc. apply andb_true_iff in Hc as [Hs%negb_true_iff Hu%negb_true_iff].
  rewrite namei_cons, Hs, Hu. assert (H0 := Hg p (reflexivity _)). destruct (t !! p) as [[]|]; try done.
  rewrite namei_nil. destruct (t !! (p ++ [c])) as [[]|]; try done. destruct follow; [|done]. by discriminate Hl.
Qed.

Lemma realpath_nil depth wl t cur : realpath_from depth wl t cur [] = (cur, true).
Proof. by destruct depth. Qed.
Lemma realpath_cons depth wl t cur c rest :
  realpath_from depth wl t cur (c :: rest) =
  if skipped c then realpath_from depth wl t cur rest
  else if String.eqb c ".." then realpath_from depth wl t (removelast cur) rest
  else match t !! (cur ++ [c]) with
       | Some (SymbolicLink _ _ target) =>
           match depth with
           | S d =>
               if bool_decide (cur ++ [c] ∈ wl) then (foldl step_into (cur ++ [c]) rest, false)
               else match realpath_from d ((cur ++ [c]) :: wl) t (link_base cur target) (components EmptyString target) with
                    | (p, true) => realpath_from depth wl t p rest
                    | (p, false) => (foldl step_into p rest, false)
                    end
           | O => (foldl step_into (cur ++ [c]) rest, false)
           end
       | _ => realpath_from depth wl t (cur ++ [c]) rest
       end.
Proof. by destruct depth. Qed.

(** A path of real names and no links *)
Definition canonical (t : FileTree) (p : list string) : Prop := forallb real p = true ∧ unlinked t p.
Lemma canonical_nil t : canonical t [].
Proof. split; [done|]. by intros q Hq ->%prefix_nil_inv. Qed.
Lemma canonical_removelast t p : canonical t p → canonical t (removelast p).
Proof.
  intros [Hr Hl]. split; [by apply real_removelast|eapply unlinked_within; [done|apply removelast_within]].
Qed.
Lemma canonical_snoc t p c : canonical t p → real c = true → is_link (t !! (p ++ [c])) = false → canonical t (p ++ [c]).
Proof.
  intros [Hr Hl] Hc Hn. split; [by rewrite real_snoc, Hr|]. intros q Hq Hpre.
  destruct (within_app_cases p [c] q Hpre) as [?|(r' & -> & Hr')]; [by apply Hl|].
  destruct r' as [|a r']; [rewrite app_nil_r in *; by apply Hl|].
  apply prefix_cons_inv_1 in Hr' as Ha. subst a. by apply prefix_cons_inv_2, prefix_nil_inv in Hr' as ->.
Qed.
Lemma canonical_direct t p : canonical t p → direct t p ∧ norm p = p.
Proof. intros [H1 H2]. split; [by apply direct_real|by apply norm_real]. Qed.

(** What [realpath] gives is one. *)
Lemma realpath_from_canonical depth wl t cur cs p : canonical t cur →
  realpath_from depth wl t cur cs = (p, true) → canonical t p.
Proof.
  revert wl cur cs p. induction depth as [|depth IHd]; intros wl cur cs; revert cur; induction cs as [|c cs IH]; intros cur p Hcur;
    rewrite ?realpath_nil, ?realpath_cons; try (by intros [= <-]).
  all: destruct (skipped c) eqn:Hs; [by apply IH|].
  all: destruct (String.eqb c "..") eqn:Hu; [apply IH; by apply canonical_removelast|].
  all: assert (Hc : real c = true) by (unfold real; by rewrite Hs, Hu).
  all: assert (Hdown : is_link (t !! (cur ++ [c])) = false → canonical t (cur ++ [c])) by (intros; by apply canonical_snoc).
  - destruct (t !! (cur ++ [c])) as [[u g|u g x|u g l]|]; try discriminate; apply IH; by apply Hdown.
  - destruct (t !! (cur ++ [c])) as [[u g|u g x|u g l]|]; try (apply IH; by apply Hdown).
    case_bool_decide; [discriminate|].
    destruct (realpath_from depth _ t (link_base cur l) _) as [r [|]] eqn:E; [|discriminate].
    apply IH. eapply IHd; [|exact E]. unfold link_base. case_match; [apply canonical_nil|done].
Qed.
Lemma realpath_canonical t p q : realpath t p = (q, true) → canonical t q.
Proof. apply realpath_from_canonical, canonical_nil. Qed.

(** *** Directories that are made *)

(** Only directories are new, on the way to [p]. *)
Definition made (p : list string) (t t' : FileTree) : Prop :=
  ∀ r, t' !! r = t !! r ∨ t !! r = None ∧ is_directory (t' !! r) = true ∧ within_dir r p.
#[export] Instance made_preorder p : PreOrder (made p).
Proof.
  split; [intros t r; by left|]. intros t1 t2 t3 H1 H2 r. destruct (H1 r) as [E1|(E1 & Hd1 & Hr1)], (H2 r) as [E2|(E2 & Hd2 & Hr2)].
  - left. congruence.
  - right. by rewrite <- E1.
  - right. by rewrite E2.
  - by rewrite E2 in Hd1.
Qed.
Lemma made_within p q t t' : within_dir q p → made q t t' → made p t t'.
Proof. intros Hq H r. destruct (H r) as [?|(? & ? & ?)]; [by left|right]. split_and!; [done..|by etrans]. Qed.
Lemma made_keeps p t t' r n : made p t t' → t !! r = Some n → t' !! r = Some n.
Proof. intros H E. destruct (H r) as [->|(? & _)]; congruence. Qed.
Lemma made_entry p t t' r : made p t t' → entry t' r = entry t r.
Proof. intros H. unfold entry. destruct (H r) as [->|(-> & Hd & _)]; [done|]. by destruct (t' !! r) as [[]|]. Qed.
Lemma made_link p t t' r : made p t t' → is_link (t' !! r) = is_link (t !! r).
Proof. intros H. destruct (H r) as [->|(-> & Hd & _)]; [done|]. by destruct (t' !! r) as [[]|]. Qed.
Lemma made_directory p t t' r : made p t t' → is_directory (t !! r) = true → is_directory (t' !! r) = true.
Proof. intros H Hd. destruct (t !! r) eqn:E; [|done]. by rewrite (made_keeps _ _ _ _ _ H E). Qed.
Lemma made_unlinked p t t' q : made p t t' → unlinked t q → unlinked t' q.
Proof. intros H Hq r Hr Hrq. rewrite (made_link _ _ _ _ H). by apply Hq. Qed.
Lemma made_direct p t t' q : made p t t' → direct t q → direct t' q.
Proof. intros H [H1 H2]. split; [done|]. by eapply made_unlinked. Qed.
Lemma made_grounded p t t' q : made p t t' → grounded t q → grounded t' q.
Proof. intros H Hq r Hr. eapply made_directory; [done|]. by apply Hq. Qed.

(** ** What the operations do to the tree *)

Section rules.
Context {W : Type} {fs : HostFs W}.
Definition tree (s : W * bool) : FileTree := hf_tree s.1.

Lemma wp_files (Q : FileTree → W * bool → Prop) X s : Q (tree s) s → wp files Q X s.
Proof. done. Qed.
Lemma wp_set_files f (Q : unit → W * bool → Prop) X s : (∀ s', tree s' = f (tree s) → Q tt s') → wp (set_files f) Q X s.
Proof. intros H. apply H. unfold tree. cbn. by rewrite hf_tree_set. Qed.
Lemma wp_permitted op p (Q : unit → W * bool → Prop) X s : Q tt s → (∀ m, X (OSError m) s) → wp (permitted op p) Q X s.
Proof. intros H1 H2. unfold permitted, see, wp, mbind, eff_bind, gets. cbn. destruct (hf_denied op p s.1); [apply H2|apply H1]. Qed.
Lemma wp_from_sum {A} (x : A + Exn) (Q : A → W * bool → Prop) X s :
  (∀ a, x = inl a → Q a s) → (∀ e, x = inr e → X e s) → wp (from_sum x) Q X s.
Proof. intros H1 H2. destruct x; [by apply H1|by apply H2]. Qed.

(** A failing operation leaves the tree. *)
Definition os_failure (s : W * bool) (e : Exn) (s' : W * bool) : Prop := tree s' = tree s ∧ is_oserror e = true.
Ltac op :=
  repeat match goal with
    | |- wp (_ ≫= _) _ _ _ => apply wp_bind
    | |- wp files _ _ _ => apply wp_files
    | |- wp (permitted _ _) _ _ _ => apply wp_permitted; [|intros ?; by split]
    | |- wp (from_sum (find_path _ _ _)) _ _ _ =>
        let q := fresh "q" in let E := fresh "Eq" in
        apply wp_from_sum; [intros q E|intros ? E; split; [done|by eapply namei_error]]
    | |- wp (mret _) _ _ _ => apply wp_ret
    | |- wp (set_files _) _ _ _ => let s := fresh "s" in let Ht := fresh "Ht" in apply wp_set_files; intros s Ht
    end.

Lemma wp_exists_at p (Q : bool → W * bool → Prop) X s :
  Q (bool_decide (is_Some (node_at (tree s) true p))) s → wp (exists_at p) Q X s.
Proof. intros H. unfold exists_at. op. exact H. Qed.
Lemma wp_is_dir_at p (Q : bool → W * bool → Prop) X s :
  Q (is_directory (node_at (tree s) true p)) s → wp (is_dir_at p) Q X s.
Proof. intros H. unfold is_dir_at. op. exact H. Qed.
Lemma found_direct t follow p n : direct t p → node_at t follow p = Some n →
  t !! norm p = Some n ∧ ∀ r, within_dir r (norm p) → r ≠ norm p → is_directory (t !! r) = true.
Proof.
  intros Hp. unfold node_at. destruct (find_path t follow p) as [q|] eqn:E; [|done]. apply find_direct in E as [-> Hd]; [|done]. by split.
Qed.
Lemma directory_grounded t follow p : direct t p → is_directory (node_at t follow p) = true → grounded t (norm p).
Proof.
  intros Hp Hd. destruct (node_at t follow p) as [n|] eqn:E; [|done]. apply found_direct in E as [E H]; [|done].
  intros r Hr. destruct (decide (r = norm p)) as [->|]; [by rewrite E|by apply H].
Qed.

(** *** Making directories *)

Lemma wp_mkdir_at p s : direct (tree s) p →
  wp (mkdir_at p) (λ _ s', made (norm p) (tree s) (tree s') ∧ grounded (tree s') (norm p)) (os_failure s) s.
Proof.
  intros Hp. unfold mkdir_at. op. apply find_direct in Eq as [-> Hd]; [|done].
  destruct (tree s !! norm p) eqn:E; [by split|]. op. rewrite Ht. split.
  - intros r. destruct (decide (r = norm p)) as [->|Hne]; [right|left; by rewrite lookup_insert_ne].
    rewrite lookup_insert_eq. by split_and!.
  - intros r Hr. destruct (decide (r = norm p)) as [->|Hne]; [by rewrite lookup_insert_eq|]. rewrite lookup_insert_ne by done. by apply Hd.
Qed.
Lemma wp_unless_dir p e s : direct (tree s) p → is_oserror e = true →
  wp (unless_dir p e) (λ _ s', tree s' = tree s ∧ grounded (tree s') (norm p)) (os_failure s) s.
Proof.
  intros Hp He. unfold unless_dir. rewrite He. apply wp_bind, wp_is_dir_at.
  destruct (is_directory _) eqn:E; [|by apply wp_raise]. apply wp_ret. split; [done|]. by eapply directory_grounded.
Qed.
Lemma wp_mkdir_once p s : direct (tree s) p →
  wp (mkdir_once p) (λ _ s', made (norm p) (tree s) (tree s') ∧ grounded (tree s') (norm p)) (os_failure s) s.
Proof.
  intros Hp. unfold mkdir_once. apply wp_try. eapply wp_mono; [by apply wp_mkdir_at|done|]. intros e s' [Ht He].
  assert (Hu : wp (unless_dir p e) (λ _ s'', made (norm p) (tree s) (tree s'') ∧ grounded (tree s'') (norm p)) (os_failure s) s').
  { eapply wp_mono; [apply wp_unless_dir; by rewrite ?Ht|intros [] s'' [E Hg]|intros e' s'' [E He']]; rewrite Ht in E.
    - by rewrite E in *.
    - by split. }
  destruct e; try exact Hu. apply wp_raise. by split.
Qed.
Lemma wp_mkdir_parents n p s : canonical (tree s) p →
  wp (mkdir_parents n p) (λ _ s', made p (tree s) (tree s') ∧ grounded (tree s') p)
    (λ e s', made p (tree s) (tree s') ∧ is_oserror e = true) s.
Proof.
  assert (Honce : ∀ p s, canonical (tree s) p → wp (mkdir_once p) (λ _ s', made p (tree s) (tree s') ∧ grounded (tree s') p) (os_failure s) s).
  { intros q s0 Hq. destruct (canonical_direct _ _ Hq) as [Hd Hn]. pose proof (wp_mkdir_once q s0 Hd) as H. by rewrite Hn in H. }
  revert p s. induction n as [|n IH]; intros p s Hp; cbn [mkdir_parents]; apply wp_try;
    (eapply wp_mono; [by apply Honce|done|]); intros e s1 [Ht He];
    assert (Hfail : made p (tree s) (tree s1) ∧ is_oserror e = true) by (by rewrite Ht).
  { by destruct e; apply wp_raise. }
  destruct e; try by apply wp_raise. apply wp_bind.
  eapply wp_mono; [apply IH; rewrite Ht; by apply canonical_removelast| |].
  - intros [] s2 [Hm _]. apply (made_within p) in Hm; [|apply removelast_within]. rewrite Ht in Hm.
    eapply wp_mono; [apply Honce; destruct Hp; split; [done|by eapply made_unlinked]| |].
    + intros [] s3 [Hm' Hg]. split; [by etrans|done].
    + intros e s3 [E' He']. rewrite E'. by split.
  - intros e s2 [Hm He']. rewrite Ht in Hm. split; [|done]. eapply made_within; [apply removelast_within|done].
Qed.
(** [os.makedirs]; the directory is there then if no [.] is in its path. *)
Lemma wp_makedirs_from n ok p s : direct (tree s) p →
  wp (makedirs_from n ok p)
    (λ _ s', made (norm p) (tree s) (tree s') ∧ (forallb real p = true → grounded (tree s') p))
    (λ e s', made (norm p) (tree s) (tree s') ∧ is_oserror e = true) s.
Proof.
  revert p s. assert (Hmake : ∀ p s0 s, direct (tree s0) p → made (norm p) (tree s0) (tree s) →
    wp (try_except (mkdir_at p) (λ e, if ok then unless_dir p e else raise e))
      (λ _ s', made (norm p) (tree s0) (tree s') ∧ (forallb real p = true → grounded (tree s') p))
      (λ e s', made (norm p) (tree s0) (tree s') ∧ is_oserror e = true) s).
  { intros p s0 s Hp Hm. assert (Hp' := made_direct _ _ _ _ Hm Hp). apply wp_try. eapply wp_mono; [by apply wp_mkdir_at| |].
    - intros [] s' [Hm' Hg]. split; [by etrans|]. intros Hr. by rewrite norm_real in Hg.
    - intros e s' [Ht He]. destruct ok; [|apply wp_raise; by rewrite Ht].
      eapply wp_mono; [apply wp_unless_dir; by rewrite ?Ht| |]; unfold os_failure; rewrite Ht.
      + intros [] s'' [E Hg]. rewrite E in *. split; [done|]. intros Hr. by rewrite norm_real in Hg.
      + intros e' s'' [E He']. by rewrite E. }
  induction n as [|n IH]; intros p s Hp; cbn [makedirs_from]; [by apply Hmake|].
  apply wp_bind, wp_exists_at. case_bool_decide; [by apply Hmake|]. apply wp_bind, wp_try.
  assert (Hw := norm_removelast p).
  assert (Hlast : ∀ s1, made (norm p) (tree s) (tree s1) →
    wp (if String.eqb (default ""%string (last p)) "." then mret tt
        else try_except (mkdir_at p) (λ e, if ok then unless_dir p e else raise e))
      (λ _ s', made (norm p) (tree s) (tree s') ∧ (forallb real p = true → grounded (tree s') p))
      (λ e s', made (norm p) (tree s) (tree s') ∧ is_oserror e = true) s1).
  { intros s1 Hm. destruct (String.eqb_spec (default ""%string (last p)) ".") as [E|E]; [|by apply Hmake].
    apply wp_ret. split; [done|]. intros Hr. destruct p as [|c p] using rev_ind; [done|]. rewrite last_snoc in E. cbn in E. subst c.
    rewrite real_snoc in Hr. by apply andb_true_iff in Hr as [_ ?]. }
  eapply wp_mono; [apply IH; by apply direct_removelast| |].
  - intros [] s1 [Hm _]. apply Hlast. by eapply made_within.
  - intros e s1 [Hm He]. apply (made_within (norm p)) in Hm; [|done]. destruct e; try (apply wp_raise; by split). by apply wp_ret, Hlast.
Qed.

Lemma wp_write_at p c s : direct (tree s) p →
  wp (write_at p c)
    (λ _ s', (∃ u g, tree s' = <[norm p := RegularFile u g c]> (tree s)) ∧ is_directory (tree s !! norm p) = false)
    (os_failure s) s.
Proof.
  intros Hp. unfold write_at. op. apply find_direct in Eq as [-> _]; [|done].
  destruct (tree s !! norm p) as [[u g|u g c'|u g l]|] eqn:E; [by split|op; split; [by exists u, g|done]|by split|].
  op. split; [by eexists _, _|done].
Qed.
Lemma wp_write_names p c s : direct (tree s) p →
  wp (write_names [] p c)
    (λ _ s', (∃ u g, tree s' = <[norm p := RegularFile u g c]> (tree s)) ∧ is_directory (tree s !! norm p) = false)
    (os_failure s) s.
Proof.
  intros Hp. unfold write_names. op. eapply wp_mono; [by apply wp_write_at| |done]. intros [] s1 H.
  destruct (find_path (tree s) true p); [|by apply wp_ret]. op. by rewrite Ht.
Qed.
Lemma wp_read_at p s : direct (tree s) p →
  wp (read_at p) (λ c s', tree s' = tree s ∧ entry (tree s) (norm p) = Some (TextOf c)) (os_failure s) s.
Proof.
  intros Hp. unfold read_at. op. apply find_direct in Eq as [-> _]; [|done]. unfold entry.
  destruct (tree s !! norm p) as [[u g|u g c|u g l]|]; [by split|op; by split|by split..].
Qed.
Lemma wp_make_member_dir p s : direct (tree s) p →
  wp (make_member_dir p) (λ _ s', made (norm p) (tree s) (tree s')) (os_failure s) s.
Proof.
  intros Hp. unfold make_member_dir. apply wp_try. eapply wp_mono; [by apply wp_mkdir_at|by intros [] s' []|].
  intros e s' [Ht He]. assert (Hfail : os_failure s e s') by by split. destruct e; try by apply wp_raise.
  apply wp_bind, wp_is_dir_at. destruct (is_directory _); [apply wp_ret; by rewrite Ht|by apply wp_raise].
Qed.

(** *** Moving and removing beside each other *)

Lemma wp_rmtree_child p c s : forallb real (p ++ [c]) = true → grounded (tree s) p →
  wp (rmtree_at (p ++ [c])) (λ _ s', ∃ which, tree s' = removed (p ++ [c]) which (tree s)) (λ _ _, False) s.
Proof.
  intros Hr Hg. assert (Hno : ∃ which, tree s = removed (p ++ [c]) which (tree s)).
  { exists (λ _, false). unfold removed. symmetry. apply map_filter_id. intros q n _ [_ ?]. done. }
  unfold rmtree_at. op. rewrite find_child by done. destruct (tree s !! (p ++ [c])) as [[]|]; try by apply wp_ret.
  apply wp_bind. unfold see, gets, wp at 1. cbn. op. rewrite Ht. by eexists.
Qed.
Lemma wp_rename_child p a b s : forallb real p = true → real a = true → real b = true → a ≠ b → grounded (tree s) p →
  wp (rename_at (p ++ [a]) (p ++ [b]))
    (λ _ s', tree s' = renamed (p ++ [a]) (p ++ [b]) (tree s)) (os_failure s) s.
Proof.
  intros Hp Ha Hb Hne Hg. unfold rename_at. apply wp_bind, wp_permitted; [|by split]. apply wp_bind, wp_files.
  assert (Ea : find_path (tree s) false (p ++ [a]) = inl (p ++ [a])) by (apply find_child; [by rewrite real_snoc, Hp|done|done]).
  assert (Eb : find_path (tree s) false (p ++ [b]) = inl (p ++ [b])) by (apply find_child; [by rewrite real_snoc, Hp|done|done]).
  rewrite Ea, Eb. apply wp_bind, wp_ret, wp_bind, wp_ret.
  rewrite bool_decide_false by (intros E; apply app_inj_tail in E as [_ ?]; done).
  rewrite bool_decide_false by apply (siblings_apart p a b Hne).
  destruct (tree s !! (p ++ [a])) as [[]|], (tree s !! (p ++ [b])) as [[]|]; try by split.
  all: try (destruct (children _ _); [|by split]). all: by op.
Qed.

(** Removing what is at [p] if it is there leaves the rest. *)
Definition cleared (p : list string) (t t' : FileTree) : Prop := ∀ r, ¬ within_dir p r → t' !! r = t !! r.
Lemma removed_at p which t r : removed p which t !! r = if bool_decide (within_dir p r) && which r then None else t !! r.
Proof.
  unfold removed. destruct (bool_decide (within_dir p r) && which r) eqn:E.
  - apply map_lookup_filter_None. right. intros n _ H. apply H. apply andb_true_iff in E as [E1 E2].
    by apply bool_decide_eq_true in E1.
  - destruct (t !! r) as [n|] eqn:En; [|apply map_lookup_filter_None; by left].
    apply map_lookup_filter_Some. split; [done|]. intros [H1 H2]. by rewrite bool_decide_true, H2 in E.
Qed.
Lemma wp_clear {A} p c (k : Op W A) Q X s : forallb real (p ++ [c]) = true → grounded (tree s) p →
  (∀ s', cleared (p ++ [c]) (tree s) (tree s') → wp k Q X s') →
  wp (there ← exists_at (p ++ [c]); when there (rmtree_at (p ++ [c]) ;; mret tt) ;; k) Q X s.
Proof.
  intros Hr Hg Hk. apply wp_bind, wp_exists_at, wp_bind. case_bool_decide as E; cbn [when]; [|by apply wp_ret, Hk].
  apply wp_bind. eapply wp_mono; [by apply wp_rmtree_child| |done]. intros e s' [which Ht]. apply wp_ret, Hk. rewrite Ht.
  intros r H. by rewrite removed_at, bool_decide_false.
Qed.
Lemma wp_clear_last p c (Q : unit → W * bool → Prop) X s : forallb real (p ++ [c]) = true → grounded (tree s) p →
  (∀ s', cleared (p ++ [c]) (tree s) (tree s') → Q tt s') →
  wp (there ← exists_at (p ++ [c]); when there (rmtree_at (p ++ [c]) ;; mret tt)) Q X s.
Proof.
  intros Hr Hg H. assert (Hw := wp_clear p c (mret tt) Q X s Hr Hg (λ s' Hs, wp_ret tt Q X s' (H s' Hs))).
  revert Hw. unfold wp, mbind, eff_bind. destruct (exists_at _ s) as [s1 [b|e]]; [|done].
  by destruct (when b _ s1) as [s2 [[]|e]].
Qed.
End rules.

(** ** What an archive holds *)

(** The path of a member below the directory it is unpacked in, and what it puts there *)
Definition place (m : TarMember) : list string := norm (steps (tm_name m)).
Definition member_entry (m : TarMember) : option Entry :=
  match tm_kind m with TarFile c => Some (TextOf c) | TarSymlink l => Some (LinkTo l) | _ => None end.
Definition is_link_member (m : TarMember) : bool := match tm_kind m with TarSymlink _ => true | _ => false end.
(** The files and links of the archive: of those at one path, the last *)
Definition unpacked (ms : list TarMember) (rel : list string) : option Entry :=
  last (omap (λ m, if decide (place m = rel) then member_entry m else None) ms).
Lemma unpacked_snoc ms m rel :
  unpacked (ms ++ [m]) rel =
  if decide (place m = rel) then (match member_entry m with Some e => Some e | None => unpacked ms rel end) else unpacked ms rel.
Proof.
  unfold unpacked. rewrite omap_app. cbn. case_decide; [|by rewrite app_nil_r].
  destruct (member_entry m); [by rewrite last_snoc|by rewrite app_nil_r].
Qed.
Lemma unpacked_Some ms rel e : unpacked ms rel = Some e → ∃ m, m ∈ ms ∧ place m = rel ∧ member_entry m = Some e.
Proof.
  unfold unpacked. intros H%last_Some_elem_of. apply list_elem_of_omap in H as (m & Hm & He).
  case_decide; [|done]. by exists m.
Qed.

(** No link of the archive is on the way to another member, and what is on the way to a
    link is a directory. *)
Definition unhindered (ms : list TarMember) : Prop :=
  ∀ i j m m', i ≠ j → ms !! i = Some m → ms !! j = Some m' → within_dir (place m) (place m') →
    is_link_member m = false ∧ (is_link_member m' = true → tm_kind m = TarDir).
Lemma unhindered_before before m rest m' : unhindered (before ++ m :: rest) → m' ∈ before →
  (within_dir (place m') (place m) → is_link_member m' = false ∧ (is_link_member m = true → tm_kind m' = TarDir)) ∧
  (within_dir (place m) (place m') → is_link_member m = false).
Proof.
  intros H [i Hi]%list_elem_of_lookup. assert (Hl := lookup_lt_Some _ _ _ Hi).
  assert (H1 : (before ++ m :: rest) !! i = Some m') by (by rewrite lookup_app_l).
  assert (H2 : (before ++ m :: rest) !! length before = Some m) by (by apply list_lookup_middle).
  split; intros Hw; [eapply (H i (length before))|eapply (H (length before) i)]; eauto; lia.
Qed.

(** The way to a path below [tmp] *)
Section members.
Context {W : Type} {fs : HostFs W}.

(** The system does not refuse to make links. *)
Definition links_allowed : Prop := ∀ p (w : W), hf_denied OpSymlink p w = None.
(** A member whose name does not lead out: a file, a directory, or a link of real names *)
Record safe_member (m : TarMember) : Prop := {
  sm_relative : Py.startswith "/" (tm_name m) = false;
  sm_forward : forward (steps (tm_name m)) = true;
  sm_kind : match tm_kind m with
            | TarFile _ | TarDir => True
            | TarSymlink l => forallb real (steps (tm_name m)) = true ∧ steps (tm_name m) ≠ [] ∧ Py.truthy l = true ∧ links_allowed
            | TarHardlink _ | TarDevice => False
            end
}.
Definition restorable (ms : list TarMember) : Prop := Forall safe_member ms ∧ unhindered ms.
End members.

(** [done] is unpacked in [tmp], in the tree that was [t0]. *)
Record unpacking (tmp : list string) (done : list TarMember) (t0 t : FileTree) : Prop := {
  un_outside r : ¬ within_dir tmp r → t !! r = t0 !! r;
  un_entries rel : entry t (tmp ++ rel) = unpacked done rel;
  un_dirs rel : is_directory (t !! (tmp ++ rel)) = true → rel = [] ∨ ∃ m, m ∈ done ∧ within_dir rel (place m);
  un_tmp : grounded t tmp
}.

Section unpacking.
Context (tmp : list string) (before : list TarMember) (m : TarMember) (rest : list TarMember).
Hypothesis Hall : unhindered (before ++ m :: rest).

Lemma unpacking_link t0 t r : unpacking tmp before t0 t → within_dir r (tmp ++ place m) → is_link (t !! r) = false.
Proof using Hall.
  intros H Hr. destruct (is_link (t !! r)) eqn:E; [|done].
  destruct (within_app_cases _ _ _ Hr) as [Ht|(rel & -> & Hrel)].
  - apply (un_tmp _ _ _ _ H) in Ht. apply directory_no_link in Ht. congruence.
  - apply link_entry in E as [l El]. pose proof (un_entries _ _ _ _ H rel) as Hu. unfold entry in Hu. rewrite El in Hu. symmetry in Hu.
    apply unpacked_Some in Hu as (m' & Hm' & Hp & He). destruct (unhindered_before _ _ _ _ Hall Hm') as [Hno _].
    rewrite Hp in Hno. destruct (Hno Hrel) as [Hlink _]. unfold member_entry in He. unfold is_link_member in Hlink. by destruct (tm_kind m').
Qed.
(** On the way to a link there is nothing but directories, and nothing where it goes. *)
Lemma unpacking_way t0 t rel : unpacking tmp before t0 t → is_link_member m = true → within_dir rel (place m) →
  t !! (tmp ++ rel) = None ∨ is_directory (t !! (tmp ++ rel)) = true.
Proof using Hall.
  intros H Hm Hrel. destruct (entry t (tmp ++ rel)) as [e|] eqn:E; [|by apply no_entry].
  exfalso. pose proof (un_entries _ _ _ _ H rel) as Hu. rewrite E in Hu. symmetry in Hu.
  apply unpacked_Some in Hu as (m' & Hm' & Hp & He). destruct (unhindered_before _ _ _ _ Hall Hm') as [Hno _].
  rewrite Hp in Hno. destruct (Hno Hrel) as [_ Hdir]. unfold member_entry in He. by rewrite (Hdir Hm) in He.
Qed.
Lemma unpacking_vacant t0 t : unpacking tmp before t0 t → is_link_member m = true → place m ≠ [] → t !! (tmp ++ place m) = None.
Proof using Hall.
  intros H Hm Hne. destruct (unpacking_way t0 t (place m) H Hm (reflexivity _)) as [?|Hd]; [done|].
  destruct (un_dirs _ _ _ _ H _ Hd) as [?|(m' & Hm' & Hw)]; [done|].
  destruct (unhindered_before _ _ _ _ Hall Hm') as [_ Hno]. by rewrite Hno in Hm.
Qed.
Lemma unpacking_direct t0 t cs : unpacking tmp before t0 t → forallb real tmp = true → forward cs = true → norm cs = place m →
  direct t (tmp ++ cs).
Proof using Hall.
  intros H Ht Hf Hn. split; [by rewrite forward_app, Hf, real_forward|]. rewrite norm_app, Hn, (norm_real tmp) by done.
  intros r _ Hr. by eapply unpacking_link.
Qed.

Lemma unpacking_made t0 t t1 : unpacking tmp before t0 t → made (tmp ++ place m) t t1 → member_entry m = None →
  unpacking tmp (before ++ [m]) t0 t1.
Proof using Type.
  clear Hall rest. intros H Hm Hno. split.
  - intros r Hr. rewrite <- (un_outside _ _ _ _ H r Hr). destruct (Hm r) as [?|(E & _ & Hw)]; [done|].
    destruct (within_app_cases _ _ _ Hw) as [Hw'|(rel & -> & _)]; [|by destruct Hr; apply within_app].
    apply (un_tmp _ _ _ _ H) in Hw'. by rewrite E in Hw'.
  - intros rel. rewrite (made_entry _ _ _ _ Hm), (un_entries _ _ _ _ H), unpacked_snoc, Hno. by case_decide.
  - intros rel Hd. destruct (Hm (tmp ++ rel)) as [E|(E & _ & Hw)].
    + rewrite E in Hd. destruct (un_dirs _ _ _ _ H _ Hd) as [?|(m' & Hm' & Hw)]; [by left|]. right. exists m'. split; [set_solver|done].
    + right. exists m. split; [set_solver|]. by apply prefix_app_inv in Hw.
  - eapply made_grounded; [done|]. apply H.
Qed.
Lemma unpacking_put t0 t t1 n : unpacking tmp before t0 t → made (tmp ++ place m) t t1 →
  is_directory (t1 !! (tmp ++ place m)) = false → is_Some (entry_of (Some n)) → entry_of (Some n) = member_entry m →
  unpacking tmp (before ++ [m]) t0 (<[tmp ++ place m := n]> t1).
Proof using Type.
  clear Hall rest. intros H Hm Hfree [e He] Hn.
  assert (Hdir : ∀ r, is_directory (<[tmp ++ place m := n]> t1 !! r) = is_directory (t1 !! r)).
  { intros r. destruct (decide (r = tmp ++ place m)) as [->|Hr]; [|by rewrite lookup_insert_ne].
    rewrite lookup_insert_eq, Hfree. by destruct n. }
  assert (Ht1 : grounded t1 tmp) by (eapply made_grounded; [done|apply H]). split.
  - intros r Hr. rewrite lookup_insert_ne by (intros <-; destruct Hr; apply within_app).
    rewrite <- (un_outside _ _ _ _ H r Hr). destruct (Hm r) as [?|(E & _ & Hw)]; [done|].
    destruct (within_app_cases _ _ _ Hw) as [Hw'|(rel & -> & _)]; [|by destruct Hr; apply within_app].
    apply (un_tmp _ _ _ _ H) in Hw'. by rewrite E in Hw'.
  - intros rel. rewrite unpacked_snoc, <- Hn, He. unfold entry. case_decide as E; [by rewrite E, lookup_insert_eq|].
    rewrite lookup_insert_ne by (intros E'; apply app_inv_head in E'; done).
    fold (entry t1 (tmp ++ rel)). rewrite (made_entry _ _ _ _ Hm). apply H.
  - intros rel. rewrite Hdir. intros Hd. destruct (Hm (tmp ++ rel)) as [E|(E & _ & Hw)].
    + rewrite E in Hd. destruct (un_dirs _ _ _ _ H _ Hd) as [?|(m' & Hm' & Hw)]; [by left|]. right. exists m'. split; [set_solver|done].
    + right. exists m. split; [set_solver|]. by apply prefix_app_inv in Hw.
  - intros r Hr. rewrite Hdir. by apply Ht1.
Qed.
End unpacking.

(** ** Extraction *)

Section extraction.
Context {W : Type} {fs : HostFs W} {tar : TarFormat}.
Context (tmp : list string) (Htmp : forallb real tmp = true).

(** What a member that cannot be put there leaves *)
Definition extract_failure (t0 : FileTree) (e : Exn) (s : W * bool) : Prop :=
  (∀ r, ¬ within_dir tmp r → tree s !! r = t0 !! r) ∧ (is_oserror e = true ∨ ∃ x, e = TarError x).
Lemma joined_relative name : Py.startswith "/" name = false → joined tmp name = tmp ++ steps name.
Proof. intros H. unfold joined. by rewrite H. Qed.
Lemma node_exists_kind t p : direct t p → is_Some (node_at t true p) → grounded t (norm p) ∨ is_directory (t !! norm p) = false ∧ is_Some (t !! norm p).
Proof.
  intros Hp [n Hn]. apply found_direct in Hn as [E Hd]; [|done]. rewrite E. destruct (is_directory (Some n)) eqn:Ed; [left|right; by split].
  intros r Hr. destruct (decide (r = norm p)) as [->|]; [by rewrite E|by apply Hd].
Qed.

Section member.
Context (archive before : list TarMember) (m : TarMember) (rest : list TarMember).
Hypothesis Hall : unhindered (before ++ m :: rest).
Hypothesis Hsafe : safe_member (W := W) m.
Abbreviation cs := (steps (tm_name m)).

(** Its parent is made first. *)
Lemma wp_make_parents t0 s : unpacking tmp before t0 (tree s) →
  wp (make_parents (tmp ++ cs))
    (λ _ s', made (norm (removelast (tmp ++ cs))) (tree s) (tree s') ∧
       (is_link_member m = true → grounded (tree s') (removelast (tmp ++ cs))))
    (λ e s', made (norm (removelast (tmp ++ cs))) (tree s) (tree s') ∧ is_oserror e = true) s.
Proof using Hall Hsafe Htmp.
  intros H. destruct Hsafe as [Hrel Hf Hkind]. unfold make_parents.
  assert (Hd : direct (tree s) (tmp ++ cs)) by (by eapply unpacking_direct).
  assert (Hd' := direct_removelast _ _ Hd).
  assert (Hlreal : is_link_member m = true → cs ≠ [] ∧ forallb real cs = true).
  { unfold is_link_member. intros Hl. destruct (tm_kind m); try done. by destruct Hkind as (? & ? & _). }
  assert (Hreal : is_link_member m = true → removelast (tmp ++ cs) = tmp ++ removelast cs ∧ forallb real (removelast (tmp ++ cs)) = true).
  { intros Hl. destruct (Hlreal Hl) as [Hne Hr]. rewrite removelast_app by done. split; [done|].
    rewrite forallb_app, Htmp. by apply real_removelast. }
  apply wp_bind, wp_exists_at. case_bool_decide as E; cbn [negb when].
  - apply wp_ret. split; [done|]. intros Hl. destruct (Hreal Hl) as [Er Hrr].
    destruct (node_exists_kind _ _ Hd' E) as [Hg|[Hno [n Hn]]]; [by rewrite norm_real in Hg|]. exfalso.
    rewrite norm_real in Hno, Hn by done. rewrite Er in Hno, Hn.
    destruct (unpacking_way _ _ _ _ Hall t0 (tree s) (removelast cs) H Hl) as [E'|E']; [|congruence..].
    unfold place. destruct (Hlreal Hl) as [_ Hr]. rewrite norm_real by done. apply removelast_within.
  - eapply wp_mono; [by apply wp_makedirs_from| |done].
    intros [] s' [Hm Hg]. split; [done|]. intros Hl. by apply Hg, Hreal.
Qed.

Lemma wp_extract_at fuel t0 s : unpacking tmp before t0 (tree s) →
  wp (extract_at fuel true archive before tmp (tmp ++ cs) m [])
    (λ shared s', shared = [] ∧ unpacking tmp (before ++ [m]) t0 (tree s'))
    (λ e s', (∀ r, ¬ within_dir tmp r → tree s' !! r = t0 !! r) ∧ is_oserror e = true) s.
Proof using Hall Hsafe Htmp.
  intros H. assert (Hsafe' := Hsafe). destruct Hsafe' as [Hrel Hf Hkind].
  assert (Hd : direct (tree s) (tmp ++ cs)) by (by eapply unpacking_direct).
  assert (Hnorm : norm (tmp ++ cs) = tmp ++ place m) by (rewrite norm_app; unfold place; by rewrite (norm_real tmp)).
  assert (Hup : ∀ t, made (norm (removelast (tmp ++ cs))) (tree s) t → made (tmp ++ place m) (tree s) t).
  { intros t. rewrite <- Hnorm. apply made_within, norm_removelast. }
  assert (Hout : ∀ t, made (tmp ++ place m) (tree s) t → ∀ r, ¬ within_dir tmp r → t !! r = t0 !! r).
  { intros t Hm r Hr. rewrite <- (un_outside _ _ _ _ H r Hr). destruct (Hm r) as [?|(E & _ & Hw)]; [done|].
    destruct (within_app_cases _ _ _ Hw) as [Hw'|(rel & -> & _)]; [|by destruct Hr; apply within_app].
    apply (un_tmp _ _ _ _ H) in Hw'. by rewrite E in Hw'. }
  assert (Hparents : ∀ (k : Op W Names), (∀ s1, made (norm (removelast (tmp ++ cs))) (tree s) (tree s1) →
      made (tmp ++ place m) (tree s) (tree s1) → direct (tree s1) (tmp ++ cs) →
      (is_link_member m = true → grounded (tree s1) (removelast (tmp ++ cs))) →
      wp k (λ shared s', shared = [] ∧ unpacking tmp (before ++ [m]) t0 (tree s'))
        (λ e s', (∀ r, ¬ within_dir tmp r → tree s' !! r = t0 !! r) ∧ is_oserror e = true) s1) →
    wp (make_parents (tmp ++ cs) ;; k) (λ shared s', shared = [] ∧ unpacking tmp (before ++ [m]) t0 (tree s'))
      (λ e s', (∀ r, ¬ within_dir tmp r → tree s' !! r = t0 !! r) ∧ is_oserror e = true) s).
  { intros k Hk. apply wp_bind. eapply wp_mono; [by apply (wp_make_parents t0)| |].
    - intros [] s1 [Hm Hg]. assert (Hm' := Hup _ Hm). apply Hk; [done|done|by eapply made_direct|done].
    - intros e s1 [Hm%Hup He]. split; [by apply Hout|done]. }
  destruct (tm_kind m) as [c| |l|l|] eqn:Ek; try done.
  - assert (E : extract_at fuel true archive before tmp (tmp ++ cs) m [] = (make_parents (tmp ++ cs) ;; write_names [] (tmp ++ cs) c ;; mret []))
      by (destruct fuel; cbn [extract_at]; by rewrite Ek).
    rewrite E. apply Hparents. intros s1 _ Hm Hd1 _. apply wp_bind. eapply wp_mono; [by apply wp_write_names| |].
    + intros [] s2 [(u & g & Ht) Hno]. apply wp_ret. split; [done|]. rewrite Ht, Hnorm. rewrite Hnorm in Hno.
      apply (unpacking_put _ _ _ _ (tree s)); [done|done|done|by eexists|unfold member_entry; by rewrite Ek].
    + intros e s2 [Ht He]. rewrite Ht. split; [by apply Hout|done].
  - assert (E : extract_at fuel true archive before tmp (tmp ++ cs) m [] = (make_parents (tmp ++ cs) ;; make_member_dir (tmp ++ cs) ;; mret []))
      by (destruct fuel; cbn [extract_at]; by rewrite Ek).
    rewrite E. apply Hparents. intros s1 _ Hm Hd1 _. apply wp_bind. eapply wp_mono; [by apply wp_make_member_dir| |].
    + intros [] s2 Hm2. apply wp_ret. split; [done|]. rewrite Hnorm in Hm2.
      eapply unpacking_made; [exact H|by etrans|unfold member_entry; by rewrite Ek].
    + intros e s2 [Ht He]. rewrite Ht. split; [by apply Hout|done].
  - assert (∃ h, extract_at fuel true archive before tmp (tmp ++ cs) m [] = (make_parents (tmp ++ cs) ;;
      there ← lexists_at (tmp ++ cs);
      try_except (shared' ← (if there : bool then unlink_name [] (tmp ++ cs) else mret []); symlink_at l (tmp ++ cs) ;; mret shared') h))
      as [h E] by (destruct fuel; cbn [extract_at]; rewrite Ek; by eexists).
    rewrite E. clear E. assert (Hl : is_link_member m = true) by (unfold is_link_member; by rewrite Ek).
    apply Hparents. intros s1 Hm0 Hm Hd1 Hg. specialize (Hg Hl). destruct Hkind as (Hr & Hne & Hlt & Hallow).
    assert (Hrp : removelast (tmp ++ cs) = tmp ++ removelast cs) by by apply removelast_app.
    assert (Hpl : place m = cs) by by apply norm_real. assert (Hlen : (length (removelast cs) < length cs)%nat).
    { destruct cs as [|c x _] using rev_ind; [done|]. rewrite removelast_last, length_app. cbn. lia. }
    assert (Hvac : tree s1 !! (tmp ++ cs) = None).
    { destruct (Hm0 (tmp ++ cs)) as [->|(_ & _ & Hw%within_longer)].
      - rewrite <- Hpl. eapply unpacking_vacant; [exact Hall|exact H|exact Hl|rewrite Hpl; exact Hne].
      - exfalso. rewrite Hrp, norm_real, !length_app in Hw; [lia|]. rewrite forallb_app, Htmp. by apply real_removelast. }
    assert (Hfind : find_path (tree s1) false (tmp ++ cs) = inl (tmp ++ cs)).
    { destruct cs as [|c x _] using rev_ind; [done|]. rewrite app_assoc. rewrite removelast_last in Hrp. rewrite Hrp in Hg.
      apply find_child; [by rewrite <- app_assoc, forallb_app, Htmp, Hr|done|done]. }
    assert (Hnode : node_at (tree s1) false (tmp ++ cs) = None) by (unfold node_at; by rewrite Hfind).
    apply wp_bind. unfold lexists_at. apply wp_bind, wp_files, wp_ret. rewrite Hnode, bool_decide_false by by intros [].
    apply wp_try, wp_bind, wp_ret, wp_bind. unfold symlink_at, permitted. apply wp_bind, wp_bind.
    unfold see, gets, wp at 1. rewrite Hallow. apply wp_ret, wp_bind, wp_files. rewrite Hfind. apply wp_bind, wp_ret.
    rewrite Hvac, Hlt. apply wp_set_files. intros s2 Ht. apply wp_ret. split; [done|]. rewrite Ht. rewrite <- Hpl.
    rewrite <- Hpl in Hvac.
    apply (unpacking_put _ _ _ _ (tree s)); [done|done|by rewrite Hvac|by eexists|unfold member_entry; by rewrite Ek].
Qed.
End member.

Lemma wp_extract_member archive before m rest t0 s : unhindered (before ++ m :: rest) → safe_member (W := W) m →
  unpacking tmp before t0 (tree s) →
  wp (extract_member tmp archive before m [])
    (λ shared s', shared = [] ∧ unpacking tmp (before ++ [m]) t0 (tree s')) (extract_failure t0) s.
Proof using Htmp.
  intros Hall Hsafe H. unfold extract_member. apply wp_bind, wp_files. destruct (tar_data_filter && _).
  { apply wp_raise. split; [intros r Hr; by apply H|right; by eexists]. }
  rewrite joined_relative by apply Hsafe. apply wp_try. eapply wp_mono; [by eapply wp_extract_at|done|].
  intros e s' [Ho He]. destruct e; try discriminate He; apply wp_raise; split; auto.
Qed.
Lemma wp_extract_members archive before ms t0 s : restorable (W := W) (before ++ ms) → unpacking tmp before t0 (tree s) →
  wp (extract_members tmp archive before ms []) (λ _ s', unpacking tmp (before ++ ms) t0 (tree s')) (extract_failure t0) s.
Proof using Htmp.
  revert before s. induction ms as [|m ms IH]; intros before s [Hs Hall] H; cbn [extract_members].
  { apply wp_ret. by rewrite app_nil_r. }
  apply wp_bind. eapply wp_mono; [eapply wp_extract_member; [exact Hall| |exact H]| |done].
  { rewrite Forall_app, Forall_cons in Hs. apply Hs. }
  intros shared s' [-> H']. assert (E : before ++ m :: ms = (before ++ [m]) ++ ms) by by rewrite <- app_assoc.
  rewrite E. apply IH; [by rewrite <- E|done].
Qed.
Lemma wp_extractall ms s : restorable (W := W) ms → grounded (tree s) tmp → (∀ rel, rel ≠ [] → tree s !! (tmp ++ rel) = None) →
  wp (extractall tmp ms) (λ _ s', unpacking tmp ms (tree s) (tree s')) (extract_failure (tree s)) s.
Proof using Htmp.
  intros Hms Hg Hnew. apply (wp_extract_members ms [] ms); [done|]. split; try done; intros [|c rel].
  - rewrite app_nil_r. unfold entry. specialize (Hg tmp (reflexivity _)). by destruct (tree s !! tmp) as [[]|].
  - unfold entry. by rewrite Hnew.
  - by left.
  - by rewrite Hnew.
Qed.
End extraction.

(** ** The swap *)

Lemma renamed_path_inv p q r : apart p q → renamed_path p q (renamed_path p q r) = r.
Proof.
  intros Ha. assert (Ha' := apart_sym _ _ Ha). unfold renamed_path at 2.
  destruct (bool_decide_reflect (within_dir q r)) as [[x ->]|H1]; [|destruct (bool_decide_reflect (within_dir p r)) as [[x ->]|H2]].
  - rewrite drop_within. unfold renamed_path. rewrite bool_decide_false by (by apply apart_below).
    rewrite bool_decide_true by apply within_app. by rewrite drop_within.
  - rewrite drop_within. unfold renamed_path. rewrite bool_decide_true by apply within_app. by rewrite drop_within.
  - unfold renamed_path. by rewrite !bool_decide_false.
Qed.
Lemma renamed_at p q t r : apart p q → renamed p q t !! r =
  if bool_decide (within_dir q r) then t !! (p ++ drop (length q) r)
  else if bool_decide (within_dir p r) then None else t !! r.
Proof.
  intros Ha. unfold renamed.
  assert (Hinj : Inj (=) (=) (renamed_path p q)).
  { intros a b E. by rewrite <- (renamed_path_inv p q a Ha), E, renamed_path_inv. }
  rewrite <- (renamed_path_inv p q r Ha) at 1. rewrite lookup_kmap by done. rewrite removed_at, andb_true_r.
  assert (Ha' := apart_sym _ _ Ha). unfold renamed_path.
  destruct (decide (within_dir q r)) as [H1|H1]; [rewrite (bool_decide_true (within_dir q r)) by done|rewrite (bool_decide_false (within_dir q r)) by done].
  - by rewrite bool_decide_false by (by apply apart_below).
  - destruct (decide (within_dir p r)) as [H2|H2];
      [rewrite (bool_decide_true (within_dir p r)) by done|rewrite (bool_decide_false (within_dir p r)) by done].
    + by rewrite bool_decide_true by apply within_app.
    + by rewrite bool_decide_false.
Qed.

Section swap.
Context {W : Type} {fs : HostFs W}.

Lemma backup_of_snoc par d : backup_of (par ++ [d]) = par ++ [d ++ ".bak"]%string.
Proof. unfold backup_of. by rewrite removelast_last, last_snoc. Qed.
Lemma bak_name d : d ≠ (d ++ ".bak")%string.
Proof. induction d as [|a d' IH]; cbn; [done|]. intros E. by injection E. Qed.
Lemma bak_apart par d : apart (par ++ [d]) (backup_of (par ++ [d])).
Proof. rewrite backup_of_snoc. apply siblings_apart, bak_name. Qed.
Lemma real_long c : (2 < String.length c)%nat → real c = true.
Proof.
  intros H. unfold real, skipped. destruct (String.eqb_spec c "") as [->|]; [cbn in H; lia|].
  destruct (String.eqb_spec c ".") as [->|]; [cbn in H; lia|]. destruct (String.eqb_spec c "..") as [->|]; [cbn in H; lia|done].
Qed.
Lemma real_bak d : real (d ++ ".bak") = true.
Proof. apply real_long. rewrite length_app_string. cbn. lia. Qed.

(** Outside three directories nothing changes. *)
Definition same_outside (ps : list (list string)) (t t' : FileTree) : Prop :=
  ∀ r, Forall (λ p, ¬ within_dir p r) ps → t' !! r = t !! r.
Definition moved (p q : list string) (t t' : FileTree) : Prop := ∀ rel, t' !! (q ++ rel) = t !! (p ++ rel).

Lemma renamed_moved p q t : apart p q → moved p q t (renamed p q t).
Proof. intros H rel. rewrite renamed_at by done. rewrite bool_decide_true by apply within_app. by rewrite drop_within. Qed.
Lemma renamed_gone p q t rel : apart p q → renamed p q t !! (p ++ rel) = None.
Proof.
  intros H. rewrite renamed_at by done. rewrite bool_decide_false by (by apply apart_below, apart_sym).
  by rewrite bool_decide_true by apply within_app.
Qed.
Lemma renamed_outside p q t r : apart p q → ¬ within_dir p r → ¬ within_dir q r → renamed p q t !! r = t !! r.
Proof. intros H H1 H2. rewrite renamed_at by done. by rewrite !bool_decide_false. Qed.

Definition kept_aside (dest : list string) (t t' : FileTree) : Prop :=
  moved dest dest t t' ∨ moved dest (backup_of dest) t t'.

Context (par : list string) (d x : string) (Hpar : forallb real par = true) (Hrd : real d = true) (Hrx : real x = true).
Context (Hd : x ≠ d) (Hb : x ≠ (d ++ ".bak")%string).
Abbreviation dest := (par ++ [d]).
Abbreviation tmp := (par ++ [x]).
Abbreviation bak := (backup_of dest).

Lemma tmp_dest : apart tmp dest.
Proof using Hd. by apply siblings_apart. Qed.
Lemma tmp_bak : apart tmp bak.
Proof using Hb. rewrite backup_of_snoc. by apply siblings_apart. Qed.
Lemma real_child c : real c = true → forallb real (par ++ [c]) = true.
Proof using Hpar. intros H. by rewrite real_snoc, Hpar. Qed.
Lemma above_outside r : within_dir r par → Forall (λ p, ¬ within_dir p r) [dest; bak; tmp].
Proof. intros H. rewrite backup_of_snoc, !Forall_cons. split_and!; [by apply not_within_prefix..|done]. Qed.
Lemma grounded_outside t t' : same_outside [dest; bak; tmp] t t' → grounded t par → grounded t' par.
Proof. intros H Hg r Hr. rewrite H; [by apply Hg|by apply above_outside]. Qed.
Lemma directory_there t c : grounded t par → real c = true → is_directory (t !! (par ++ [c])) = true →
  is_Some (node_at t true (par ++ [c])).
Proof using Hpar.
  intros Hg Hc Hdir. unfold node_at. rewrite find_child by (done || by apply real_child || (intros _; by apply directory_no_link)).
  destruct (t !! (par ++ [c])); [by eexists|done].
Qed.
Lemma gone_not_there t c : grounded t par → real c = true → t !! (par ++ [c]) = None → node_at t true (par ++ [c]) = None.
Proof using Hpar.
  intros Hg Hc Hno. unfold node_at. rewrite find_child; [done|by apply real_child|done|by rewrite Hno].
Qed.

Lemma wp_put_back e (Q : unit → W * bool → Prop) s0 s : grounded (tree s0) par →
  same_outside [dest; bak; tmp] (tree s0) (tree s) → is_directory (tree s0 !! dest) = true →
  (moved dest dest (tree s0) (tree s) ∨ tree s !! dest = None ∧ moved dest bak (tree s0) (tree s)) →
  wp (there ← exists_at dest; kept ← exists_at bak; when (negb there && kept) (suppress_oserror (rename_at bak dest)) ;;
      raise (WorkspaceSnapshotError e)) Q
    (λ e s', (∃ m, e = WorkspaceSnapshotError m) ∧ same_outside [dest; bak; tmp] (tree s0) (tree s') ∧ kept_aside dest (tree s0) (tree s')) s.
Proof using Hpar Hrd.
  intros Hg0 Ho Hdir Hcase. assert (Hg := grounded_outside _ _ Ho Hg0). apply wp_bind, wp_exists_at, wp_bind, wp_exists_at.
  destruct Hcase as [Hk|[Hgone Hm]].
  - rewrite bool_decide_true by (apply directory_there; [done..|];
      specialize (Hk []); rewrite !app_nil_r in Hk; by rewrite Hk).
    cbn [negb andb when]. apply wp_bind, wp_ret, wp_raise. split; [by eexists|]. split; [done|by left].
  - rewrite (gone_not_there (tree s) d) by done. rewrite (bool_decide_false (is_Some None)) by by intros [].
    rewrite bool_decide_true by (rewrite backup_of_snoc in *; apply directory_there; [done|by apply real_bak|];
      specialize (Hm []); rewrite !app_nil_r in Hm; by rewrite Hm).
    cbn [negb andb when]. apply wp_bind. unfold suppress_oserror. apply wp_try.
    rewrite backup_of_snoc. eapply wp_mono; [apply wp_rename_child; [done|by apply real_bak|done|apply not_eq_sym, bak_name|done]| |].
    + intros [] s' Ht. rewrite <- backup_of_snoc in Ht. apply wp_raise. split; [by eauto|]. rewrite Ht.
      assert (Hbd := apart_sym _ _ (bak_apart par d)). split.
      * intros r Hr. rewrite <- backup_of_snoc in Hr. rewrite !Forall_cons in Hr. destruct Hr as (H1 & H2 & H3 & _).
        rewrite renamed_outside by done. apply Ho. by rewrite !Forall_cons.
      * left. intros rel. rewrite renamed_moved by done. apply Hm.
    + intros e' s' [Ht He]. rewrite He. apply wp_ret, wp_raise. rewrite Ht, <- backup_of_snoc. split; [by eauto|]. split; [done|by right].
Qed.

Lemma wp_atomic_swap s : grounded (tree s) par → is_directory (tree s !! dest) = true →
  wp (atomic_swap tmp dest)
    (λ _ s', same_outside [dest; bak; tmp] (tree s) (tree s') ∧ moved tmp dest (tree s) (tree s'))
    (λ e s', (∃ m, e = WorkspaceSnapshotError m) ∧ same_outside [dest; bak; tmp] (tree s) (tree s') ∧ kept_aside dest (tree s) (tree s')) s.
Proof using Hd Hb Hpar Hrd Hrx.
  intros Hg Hdir. unfold atomic_swap. assert (Hbd := bak_apart par d). assert (Htd := tmp_dest). assert (Htb := tmp_bak).
  apply wp_try. rewrite backup_of_snoc in *.
  apply wp_clear; [by apply real_child, real_bak|done|]. intros s1 H1. rewrite <- backup_of_snoc in *.
  assert (Hd1 : moved dest dest (tree s) (tree s1)) by (intros rel; apply H1; by apply apart_below, apart_sym).
  assert (Ht1 : moved tmp tmp (tree s) (tree s1)) by (intros rel; apply H1; by apply apart_below, apart_sym).
  assert (Ho1 : same_outside [dest; bak; tmp] (tree s) (tree s1)).
  { intros r Hr. rewrite !Forall_cons in Hr. destruct Hr as (? & ? & ? & _). by apply H1. }
  assert (Hg1 := grounded_outside _ _ Ho1 Hg).
  apply wp_bind, wp_exists_at. rewrite bool_decide_true by (apply directory_there; [done..|];
    specialize (Hd1 []); rewrite !app_nil_r in Hd1; by rewrite Hd1).
  cbn [when]. apply wp_bind. rewrite backup_of_snoc in *.
  eapply wp_mono; [apply wp_rename_child; [done..|by apply real_bak|apply bak_name|done]| |]; rewrite <- backup_of_snoc in *.
  2: { intros e s2 [Ht He]. rewrite He. apply (wp_put_back _ _ s); rewrite ?Ht; auto. }
  intros [] s2 Ht2.
  assert (Hd2 : moved dest bak (tree s) (tree s2)) by (intros rel; rewrite Ht2, renamed_moved by done; apply Hd1).
  assert (Ht2' : moved tmp tmp (tree s) (tree s2)).
  { intros rel. rewrite Ht2, renamed_outside; [apply Ht1|done|by apply apart_below, apart_sym|by apply apart_below, apart_sym]. }
  assert (Ho2 : same_outside [dest; bak; tmp] (tree s) (tree s2)).
  { intros r Hr. rewrite <- (Ho1 r Hr). rewrite !Forall_cons in Hr.
    destruct Hr as (? & ? & ? & _). by rewrite Ht2, renamed_outside. }
  assert (Hg2 := grounded_outside _ _ Ho2 Hg).
  apply wp_bind. eapply wp_mono; [by apply wp_rename_child| |].
  2: { intros e s3 [Ht He]. rewrite He. apply (wp_put_back _ _ s); rewrite ?Ht; auto. right. split; [|done].
       assert (Hgone := renamed_gone dest bak (tree s1) [] Hbd). rewrite app_nil_r in Hgone. by rewrite Ht2. }
  intros [] s3 Ht3.
  assert (Ho3 : same_outside [dest; bak; tmp] (tree s) (tree s3)).
  { intros r Hr. rewrite <- (Ho2 r Hr). rewrite !Forall_cons in Hr.
    destruct Hr as (? & ? & ? & _). by rewrite Ht3, renamed_outside. }
  rewrite backup_of_snoc in *. apply wp_clear_last; [by apply real_child, real_bak|by apply (grounded_outside (tree s)); rewrite ?backup_of_snoc|].
  intros s4 H4. rewrite <- backup_of_snoc in *. split.
  - intros r Hr. rewrite <- (Ho3 r Hr). apply H4. rewrite !Forall_cons in Hr. by destruct Hr as (? & ? & ? & _).
  - intros rel. rewrite H4 by (by apply apart_below, apart_sym). rewrite Ht3, renamed_moved by done. apply Ht2'.
Qed.
End swap.

(** ** A restore *)

(** The files and links of a directory are those of another. *)
Definition same_entries (p : list string) (t : FileTree) (q : list string) (t' : FileTree) : Prop :=
  ∀ rel, entry t' (q ++ rel) = entry t (p ++ rel).
(** Everything outside a directory and the place of its backup is as it was. *)
Definition spared (dest : list string) (t t' : FileTree) : Prop :=
  ∀ r n, ¬ within_dir dest r → ¬ within_dir (backup_of dest) r → t !! r = Some n → t' !! r = Some n.
Definition kept_project (dest : list string) (t t' : FileTree) : Prop :=
  same_entries dest t dest t' ∨ same_entries dest t (backup_of dest) t'.
(** A snapshot error, an [OSError], or that of a path whose links go round *)
Definition restore_error (e : Exn) : Prop :=
  is_oserror e = true ∨ (∃ m, e = WorkspaceSnapshotError m) ∨ e = loop_error.
Lemma moved_entries p q t t' : moved p q t t' → same_entries p t q t'.
Proof. intros H rel. unfold entry. by rewrite H. Qed.

Lemma validation_failure t dest ms e : validate_tar_members t dest ms = Some e → restore_error e.
Proof.
  assert (Hsnap : ∀ m, restore_error (WorkspaceSnapshotError m)) by (intros m; right; left; by eexists).
  assert (Hloop : restore_error loop_error) by (right; by right).
  induction ms as [|m ms IH]; cbn; [done|]. destruct (validate_member t dest m) eqn:E; [|done]. intros [= <-].
  revert E. unfold validate_member, unsafe_path. repeat case_match; intros E; try done; injection E as <-; done.
Qed.

Section restore.
Context {W : Type} {fs : HostFs W} {tar : TarFormat} {streams : ArchiveStreams W}.

Lemma wp_mkdir_path p s : canonical (tree s) p →
  wp (mkdir_path p) (λ _ s', made p (tree s) (tree s') ∧ grounded (tree s') p)
    (λ e s', made p (tree s) (tree s') ∧ is_oserror e = true) s.
Proof. apply wp_mkdir_parents. Qed.

(** A new directory beside the project *)
Lemma wp_mkdtemp par s : forallb real par = true → grounded (tree s) par →
  wp (mkdtemp par)
    (λ tmp s', ∃ x, tmp = par ++ [x] ∧ real x = true ∧ (∀ d, x ≠ d ++ ".bak")%string ∧
       (∀ rel, tree s !! (tmp ++ rel) = None) ∧ (∀ r, ¬ within_dir tmp r → tree s' !! r = tree s !! r) ∧
       grounded (tree s') tmp ∧ ∀ rel, rel ≠ [] → tree s' !! (tmp ++ rel) = None) (os_failure s) s.
Proof.
  intros Hp Hg. unfold mkdtemp, see, gets. apply wp_bind. unfold wp at 1. cbn beta iota. cbv zeta.
  set (x := (TEMP_PREFIX ++ as_temp_name par s.1)%string).
  assert (Hx : real x = true) by (apply real_long; unfold x; rewrite length_app_string; cbn; lia).
  assert (Hnew : ∀ rel, tree s !! ((par ++ [x]) ++ rel) = None) by (intros rel; eapply as_temp_new; apply within_app).
  assert (Hno : ∀ r, within_dir (par ++ [x]) r → tree s !! r = None) by (intros r [rel ->]; apply Hnew).
  assert (Hc : canonical (tree s) (par ++ [x])).
  { split; [by rewrite real_snoc, Hp|]. intros q _ Hq. destruct (within_app_cases _ _ _ Hq) as [Hq'|(r & -> & Hr)].
    - by apply directory_no_link, Hg.
    - destruct r as [|a r]; [rewrite app_nil_r; by apply directory_no_link, Hg|]. apply prefix_cons_inv_1 in Hr as Ha. subst a.
      rewrite Hno; [done|]. exists r. by rewrite <- app_assoc. }
  destruct (canonical_direct _ _ Hc) as [Hd Hn]. apply wp_bind. eapply wp_mono; [by apply wp_mkdir_at| |done].
  rewrite Hn. intros [] s' [Hm Hg']. apply wp_ret. exists x. split; [done|]. split; [done|]. split; [intros d; apply as_temp_plain|].
  split; [done|]. assert (Hold : ∀ r, r ≠ par ++ [x] → tree s' !! r = tree s !! r).
  { intros r Hr. destruct (Hm r) as [?|(E & _ & Hw)]; [done|].
    destruct (within_app_cases _ _ _ Hw) as [Hw'|(rel & -> & Hrel)]; [apply Hg in Hw'; by rewrite E in Hw'|].
    destruct rel as [|a rel]; [rewrite app_nil_r in E; specialize (Hg par (reflexivity _)); by rewrite E in Hg|].
    apply prefix_cons_inv_1 in Hrel as Ha. subst a. by apply prefix_cons_inv_2, prefix_nil_inv in Hrel as ->. }
  split; [intros r Hr; apply Hold; by intros ->|]. split; [done|]. intros rel Hrel. rewrite Hold; [apply Hnew|].
  intros E. apply Hrel. apply (app_inv_head (par ++ [x])). by rewrite app_nil_r.
Qed.

Section at_tmp.
Context (par : list string) (d x : string) (Hpar : forallb real par = true) (Hrd : real d = true) (Hrx : real x = true).
Context (Hd : x ≠ d) (Hb : x ≠ (d ++ ".bak")%string).
Abbreviation dest := (par ++ [d]).
Abbreviation tmp := (par ++ [x]).
Abbreviation bak := (backup_of dest).

Definition unrestored (s : W * bool) (e : Exn) (s' : W * bool) : Prop :=
  (∃ m, e = WorkspaceSnapshotError m) ∧ same_outside [dest; bak; tmp] (tree s) (tree s') ∧ kept_project dest (tree s) (tree s').
Lemma tmp_outside t t' : (∀ r, ¬ within_dir tmp r → t' !! r = t !! r) → same_outside [dest; bak; tmp] t t'.
Proof. intros H r Hr. apply H. rewrite !Forall_cons in Hr. by destruct Hr as (_ & _ & ? & _). Qed.

Lemma wp_extract_and_swap ms h s : restorable (W := W) ms → grounded (tree s) tmp →
  (∀ rel, rel ≠ [] → tree s !! (tmp ++ rel) = None) → is_directory (tree s !! dest) = true →
  (∀ e, (is_oserror e = true ∨ (∃ m, e = WorkspaceSnapshotError m) ∨ ∃ m, e = TarError m) → ∃ m, h e = raise (WorkspaceSnapshotError m)) →
  wp (try_except (extractall tmp ms ;; atomic_swap tmp dest) h)
    (λ _ s', same_outside [dest; bak; tmp] (tree s) (tree s') ∧ ∀ rel, entry (tree s') (dest ++ rel) = unpacked ms rel)
    (unrestored s) s.
Proof using Hpar Hrd Hrx Hd Hb.
  intros Hms Hg Hnew Hdir Hh. assert (Htd := tmp_dest par d x Hd). apply wp_try, wp_bind.
  assert (Hdest : ∀ t, (∀ r, ¬ within_dir tmp r → t !! r = tree s !! r) → moved dest dest (tree s) t).
  { intros t Ht rel. apply Ht. by apply apart_below. }
  eapply wp_mono; [apply wp_extractall; [by apply real_child|done..]| |].
  - intros [] s1 [Ho He _ Hg1]. assert (Ho1 := tmp_outside _ _ Ho).
    eapply wp_mono; [apply (wp_atomic_swap par d x Hpar Hrd Hrx Hd Hb)| |].
    + eapply grounded_within; [done|apply within_app].
    + specialize (Hdest _ Ho []). rewrite !app_nil_r in Hdest. by rewrite Hdest.
    + intros [] s2 [Ho2 Hm]. split; [intros r Hr; by rewrite Ho2, Ho1|intros rel; by rewrite (moved_entries _ _ _ _ Hm), He].
    + intros e s2 ([m ->] & Ho2 & Hk). destruct (Hh (WorkspaceSnapshotError m)) as [m' ->]; [by right; left; eexists|].
      apply wp_raise. split; [by eexists|]. split; [intros r Hr; by rewrite Ho2, Ho1|]. specialize (Hdest _ Ho).
      destruct Hk as [Hk|Hk]; [left|right]; intros rel; unfold entry; by rewrite Hk, Hdest.
  - intros e s1 [Ho He]. destruct (Hh e) as [m ->]; [destruct He as [?|?]; [by left|by right; right]|].
    apply wp_raise. split; [by eexists|]. split; [by apply tmp_outside|]. left. by apply moved_entries, Hdest.
Qed.
End at_tmp.

Lemma outside_spared (par : list string) (d x : string) (t t' t'' : FileTree) : (∀ rel, t !! ((par ++ [x]) ++ rel) = None) →
  (∀ r n, Forall (λ p, ¬ within_dir p r) [par ++ [d]; backup_of (par ++ [d]); par ++ [x]] → t !! r = Some n → t' !! r = Some n) →
  cleared (par ++ [x]) t' t'' → spared (par ++ [d]) t t''.
Proof.
  intros Hn Ho Hc r n H1 H2 Hr. destruct (decide (within_dir (par ++ [x]) r)) as [[rel ->]|H3]; [by rewrite Hn in Hr|].
  rewrite Hc by done. apply Ho; [by rewrite !Forall_cons|done].
Qed.

Lemma wp_safe_snapshot_tar_extract ms given par d s : restorable (W := W) ms →
  let dest := par ++ [d] in
  (realpath (tree s) given).1 = dest →
  wp (safe_snapshot_tar_extract ms given)
    (λ _ s', spared dest (tree s) (tree s') ∧ ∀ rel, entry (tree s') (dest ++ rel) = unpacked ms rel)
    (λ e s', restore_error e ∧ spared dest (tree s) (tree s') ∧ kept_project dest (tree s) (tree s')) s.
Proof.
  intros Hms dest Egiven. unfold safe_snapshot_tar_extract, resolve_at. apply wp_bind, wp_bind, wp_files.
  assert (Hsame : ∀ e t, restore_error e → made dest (tree s) t →
    restore_error e ∧ spared dest (tree s) t ∧ kept_project dest (tree s) t).
  { intros e t He Hm. split; [done|]. split; [intros r n _ _; by eapply made_keeps|]. left. intros rel. by eapply made_entry. }
  assert (Hos : ∀ e, is_oserror e = true → restore_error e) by (by left).
  destruct (realpath (tree s) given) as [p [|]] eqn:Er; cbn in Egiven; subst p; cbn [fst snd];
    [|apply wp_raise, Hsame; [by right; right|done]].
  apply wp_ret, wp_bind. assert (Hc := realpath_canonical _ _ _ Er).
  eapply wp_mono; [by apply wp_mkdir_path| |intros e s1 [Hm He]; apply Hsame; auto].
  intros [] s1 [Hm Hg1]. apply wp_bind, wp_files.
  destruct (validate_tar_members _ dest ms) as [e|] eqn:Ev; [apply wp_raise, Hsame; [by eapply validation_failure|done]|].
  replace (removelast dest) with par by (unfold dest; by rewrite removelast_last).
  destruct Hc as [Hreal Hlink]. unfold dest in Hreal. rewrite real_snoc in Hreal. apply andb_true_iff in Hreal as [Hpar Hrd].
  assert (Hgp : grounded (tree s1) par) by (eapply grounded_within; [done|apply within_app]).
  apply wp_bind. eapply wp_mono; [by apply wp_mkdtemp| |].
  2: { intros e s2 [Ht He]. rewrite Ht. apply Hsame; auto. }
  intros tmp s2 (x & -> & Hrx & Hbak & Hnew & Ho2 & Hg2 & Hempty).
  assert (Hdir1 : is_directory (tree s1 !! dest) = true) by (by apply Hg1).
  assert (Hx : x ≠ d). { intros ->. specialize (Hnew []). rewrite app_nil_r in Hnew. unfold dest in Hdir1. by rewrite Hnew in Hdir1. }
  assert (Htd := tmp_dest par d x Hx).
  assert (Hn0 : ∀ rel, tree s !! ((par ++ [x]) ++ rel) = None).
  { intros rel. destruct (tree s !! ((par ++ [x]) ++ rel)) eqn:E; [|done].
    specialize (Hnew rel). by rewrite (made_keeps _ _ _ _ _ Hm E) in Hnew. }
  assert (Hpost : ∀ s3 s4, same_outside [dest; backup_of dest; par ++ [x]] (tree s2) (tree s3) →
    cleared (par ++ [x]) (tree s3) (tree s4) → spared dest (tree s) (tree s4)).
  { intros s3 s4 Ho Hcl. eapply (outside_spared par d x); [done| |done]. intros r n Hr E. rewrite Ho by done.
    rewrite Ho2 by (rewrite !Forall_cons in Hr; by destruct Hr as (_ & _ & ? & _)). by eapply made_keeps. }
  assert (Hclear : ∀ s3, same_outside [dest; backup_of dest; par ++ [x]] (tree s2) (tree s3) → grounded (tree s3) par).
  { intros s3 Ho. eapply (grounded_outside par d x); [done|]. intros r Hr. rewrite Ho2; [by apply Hgp|]. by apply not_within_prefix. }
  assert (Hents : ∀ rel, entry (tree s2) (dest ++ rel) = entry (tree s) (dest ++ rel)).
  { intros rel. rewrite <- (made_entry _ _ _ _ Hm). unfold entry. by rewrite Ho2 by (by apply apart_below). }
  apply wp_finally. eapply wp_mono; [apply (wp_extract_and_swap par d x Hpar Hrd Hrx Hx (Hbak d)); [done..| |]| |].
  - rewrite Ho2; [done|]. by destruct Htd.
  - intros e [He|[[m ->]|[m ->]]]; [destruct e; cbn in He; try discriminate He; rewrite ?He; eexists; reflexivity|by eexists|by eexists].
  - intros [] s3 [Ho Hu]. apply wp_clear_last; [by rewrite real_snoc, Hpar|by apply Hclear|]. intros s4 Hcl.
    split; [by eapply Hpost|]. intros rel. unfold entry. rewrite Hcl by (by apply apart_below). apply Hu.
  - intros e s3 ([m ->] & Ho & Hkp). apply wp_clear_last; [by rewrite real_snoc, Hpar|by apply Hclear|]. intros s4 Hcl.
    split; [right; left; by eexists|]. split; [by eapply Hpost|].
    destruct Hkp as [Hkp|Hkp]; [left|right]; intros rel; rewrite <- Hents, <- Hkp; unfold entry; rewrite Hcl; try done.
    + by apply apart_below.
    + apply apart_below. exact (tmp_bak par d x (Hbak d)).
Qed.
End restore.

(** ** Round trip *)

(** The name of a directory entry *)
Definition plain_component (c : string) : bool := real c && forallb (λ a, negb (Ascii.eqb a "/")) (list_ascii_of_string c).
Lemma plain_truthy c : plain_component c = true → Py.truthy c = true.
Proof. by destruct c. Qed.
Lemma plain_real p : forallb plain_component p = true → forallb real p = true.
Proof. rewrite !forallb_forall. intros H c Hc. specialize (H c Hc). by apply andb_true_iff in H as [? _]. Qed.

Lemma components_append cur a r : forallb (λ x, negb (Ascii.eqb x "/")) (list_ascii_of_string a) = true →
  components cur (a ++ r) = components (cur ++ a) r.
Proof.
  revert cur. induction a as [|x a IH]; intros cur; [by rewrite append_nil_r|]. intros [H1 H2]%andb_true_iff. apply negb_true_iff in H1.
  change (String x a ++ r)%string with (String x (a ++ r)). unfold components at 1. fold components. rewrite H1, IH by done.
  by rewrite append_assoc.
Qed.
Lemma components_join a l : forallb plain_component (a :: l) = true → components "" (Py.join "/" (a :: l)) = a :: l.
Proof.
  revert a. induction l as [|b l IH]; intros a H; cbn [forallb] in H; apply andb_true_iff in H as [Ha Hl];
    apply andb_true_iff in Ha as [_ Ha].
  - change (Py.join "/" [a]) with a. rewrite <- (append_nil_r a) at 1. by rewrite components_append.
  - change (Py.join "/" (a :: b :: l)) with (a ++ String "/" (Py.join "/" (b :: l)))%string. rewrite components_append by done.
    change (a :: components "" (Py.join "/" (b :: l)) = a :: b :: l). by rewrite IH.
Qed.
Lemma steps_join a l : forallb plain_component (a :: l) = true → steps (Py.join "/" (a :: l)) = a :: l.
Proof.
  intros H. unfold steps. rewrite components_join by done. apply forallb_filter_id. apply forallb_forall. intros c Hc.
  apply plain_truthy. rewrite forallb_forall in H. by apply H.
Qed.
Lemma join_relative a l : forallb plain_component (a :: l) = true → Py.startswith "/" (Py.join "/" (a :: l)) = false.
Proof.
  intros H. cbn [forallb] in H. apply andb_true_iff in H as [Ha _]. destruct a as [|x a]; [done|].
  apply andb_true_iff in Ha as [_ Ha]. cbn -[Ascii.eqb] in Ha. apply andb_true_iff in Ha as [Ha _].
  apply negb_true_iff, Ascii.eqb_neq in Ha.
  assert (Hs : ∀ r, Py.startswith "/" (String x r) = false).
  { intros r. rewrite startswith_cons. by destruct (ascii_dec "/" x). }
  destruct l; apply Hs.
Qed.

(** What the file system makes sure of below a directory *)
Record tidy (root : list string) (t : FileTree) : Prop := {
  ti_names rel : is_Some (t !! (root ++ rel)) → forallb plain_component rel = true;
  ti_targets rel u g l : t !! (root ++ rel) = Some (SymbolicLink u g l) → Py.truthy l = true;
  ti_parents rel c : is_Some (t !! (root ++ (rel ++ [c]))) → is_directory (t !! (root ++ rel)) = true
}.
Lemma tidy_above root t rel rel' : tidy root t → is_Some (t !! (root ++ rel)) → within_dir rel' rel → rel' ≠ rel →
  is_directory (t !! (root ++ rel')) = true.
Proof.
  intros H. revert rel'. induction rel as [|c rel IH] using rev_ind; intros rel' Hs Hw Hne; [by apply prefix_nil_inv in Hw|].
  assert (Hd := ti_parents _ _ H _ _ Hs). destruct (within_app_cases _ _ _ Hw) as [Hw'|(r & -> & Hr)].
  - destruct (decide (rel' = rel)) as [->|]; [done|]. apply IH; [|done|done]. by destruct (t !! (root ++ rel)).
  - destruct r as [|a r]; [by rewrite app_nil_r|]. apply prefix_cons_inv_1 in Hr as Ha. subst a.
    by apply prefix_cons_inv_2, prefix_nil_inv in Hr as ->.
Qed.
Lemma tidy_grounded root t rel : tidy root t → grounded t root → is_Some (t !! (root ++ rel)) → rel ≠ [] →
  grounded t (removelast (root ++ rel)).
Proof.
  intros Ht Hg Hs Hne r Hr. destruct rel as [|c rel _] using rev_ind; [done|]. rewrite app_assoc, removelast_last in Hr.
  destruct (within_app_cases _ _ _ Hr) as [?|(r' & -> & Hr')]; [by apply Hg|].
  eapply tidy_above; [done..| |]; [etrans; [done|apply within_app]|]. intros ->. apply within_longer in Hr'. rewrite length_app in Hr'. cbn in Hr'. lia.
Qed.
Lemma tidy_found root t rel follow : tidy root t → forallb real root = true → grounded t root → is_Some (t !! (root ++ rel)) → rel ≠ [] →
  (follow = true → is_link (t !! (root ++ rel)) = false) → find_path t follow (root ++ rel) = inl (root ++ rel).
Proof.
  intros Ht Hr Hg Hs Hne. assert (Hg' := tidy_grounded _ _ _ Ht Hg Hs Hne). assert (Hn := ti_names _ _ Ht _ Hs).
  destruct rel as [|c rel _] using rev_ind; [done|]. rewrite app_assoc in *. rewrite removelast_last in Hg'.
  apply find_child; [|done]. rewrite <- app_assoc, forallb_app, Hr. by apply plain_real.
Qed.

(** Whether a path leads to a file does not depend on what is in files. *)
Definition kind_of (n : option FsNode) : option (option string) :=
  match n with Some (Directory _ _) => Some None | Some (SymbolicLink _ _ l) => Some (Some l) | _ => None end.
Lemma namei_kinds t t' links follow cur cs : (∀ r, kind_of (t !! r) = kind_of (t' !! r)) → (∀ r, is_Some (t !! r) ↔ is_Some (t' !! r)) →
  namei links t follow cur cs = namei links t' follow cur cs.
Proof.
  intros Hk Hs. revert cur cs. induction links as [|n IHn]; intros cur cs; revert cur; induction cs as [|c cs IH]; intros cur;
    rewrite ?namei_nil, ?namei_cons; try done.
  all: assert (K := Hk cur); assert (S' := Hs cur); assert (K2 := Hk (cur ++ [c])).
  all: rewrite ?IH, ?IHn; destruct (t !! cur) as [[]|], (t' !! cur) as [[]|]; try done; try discriminate K;
    try (by destruct S' as [S1 S2]; (destruct S1; eauto; done) || (destruct S2; eauto; done)).
  all: destruct (skipped c); [done|]; destruct (String.eqb c ".."); [done|].
  all: destruct (t !! (cur ++ [c])) as [[]|], (t' !! (cur ++ [c])) as [[]|]; try done; injection K2 as ->; by rewrite ?IHn.
Qed.

(** *** Exporting *)

Definition exported_member (root : list string) (t : FileTree) (rel : list string) : TarMember :=
  mkTarMember (Py.join "/" rel)
    (match entry t (root ++ rel) with Some (TextOf c) => TarFile c | Some (LinkTo l) => TarSymlink l | None => TarDir end).
(** [t] before, [t'] after the export: the files, and the links to files *)
Definition exported_members (root : list string) (t t' : FileTree) (ms : list TarMember) : Prop :=
  ∃ rels, ms = map (exported_member root t) rels ∧ NoDup rels ∧
    ∀ rel, rel ∈ rels ↔ rel ≠ [] ∧ is_Some (t !! (root ++ rel)) ∧ is_regular (node_at t' true (root ++ rel)) = true.

Lemma elem_of_files_below listable root t q : tidy root t → grounded t root → (∀ r, within_dir root r → listable r = true) →
  q ∈ files_below listable root t ↔
  ∃ rel, q = root ++ rel ∧ rel ≠ [] ∧ is_Some (t !! (root ++ rel)) ∧ is_regular (node_at t true (root ++ rel)) = true.
Proof.
  intros Ht Hg Hl. unfold files_below. rewrite sort_by_perm, list_elem_of_In, List.filter_In, <- list_elem_of_In, andb_true_iff.
  assert (Hkey : q ∈ (map_to_list t).*1 ↔ is_Some (t !! q)).
  { rewrite list_elem_of_fmap. split; [intros ([q' n] & -> & H%elem_of_map_to_list); by exists n|].
    intros [n Hn]. exists (q, n). split; [done|by apply elem_of_map_to_list]. }
  rewrite Hkey. unfold reached. rewrite andb_true_iff, bool_decide_eq_true. split.
  - intros (Hs & [[[rel ->] Hne] _] & Hr). exists rel. split_and!; [done| |done|done]. intros ->. by rewrite app_nil_r in Hne.
  - intros (rel & -> & Hne & Hs & Hr). split; [done|]. split; [|done]. split; [split; [apply within_app|]|].
    + intros E. apply Hne. apply (app_inv_head root). by rewrite app_nil_r.
    + apply forallb_forall. intros n Hn%in_seq. rewrite length_app in Hn. rewrite take_app_ge by lia.
      rewrite andb_true_iff. split; [|apply Hl, within_app].
      eapply tidy_above; [done..| |]; [exists (drop (n - length root) rel); by rewrite take_drop|].
      intros E. apply (f_equal length) in E. rewrite length_take in E. lia.
Qed.

Lemma files_below_NoDup listable root t : NoDup (files_below listable root t).
Proof. unfold files_below. rewrite sort_by_perm. apply NoDup_ListNoDup, List.NoDup_filter, NoDup_ListNoDup, NoDup_fst_map_to_list. Qed.

Section export.
Context {W : Type} {fs : HostFs W} {tar : TarFormat} {streams : ArchiveStreams W}.
Context (root archive : list string).
Hypothesis Hroot : forallb real root = true.
Hypothesis Hapart : ¬ within_dir root archive.

Lemma wp_read_members qs s : tidy root (tree s) → grounded (tree s) root →
  (∀ q, q ∈ qs → ∃ rel, q = root ++ rel ∧ rel ≠ [] ∧ is_Some (tree s !! (root ++ rel))) →
  wp (read_members root archive qs)
    (λ ms s', tree s' = tree s ∧ ms = map (exported_member root (tree s)) (map (relative_to root) qs)) (os_failure s) s.
Proof using Hroot Hapart.
  revert s. induction qs as [|q qs IH]; intros s Ht Hg Hq; cbn [read_members map]; [by apply wp_ret|].
  destruct (Hq q ltac:(set_solver)) as (rel & -> & Hne & Hs).
  rewrite bool_decide_false by (intros <-; apply Hapart, within_app). apply wp_bind, wp_files.
  assert (Hnode : node_at (tree s) false (root ++ rel) = tree s !! (root ++ rel)) by (unfold node_at; by rewrite tidy_found).
  assert (Hrest : ∀ k s1, tree s1 = tree s →
    k = tm_kind (exported_member root (tree s) rel) →
    wp (ms ← read_members root archive qs; mret (mkTarMember (arcname root (root ++ rel)) k :: ms))
      (λ ms s', tree s' = tree s ∧ ms = exported_member root (tree s) (relative_to root (root ++ rel)) ::
         map (exported_member root (tree s)) (map (relative_to root) qs)) (os_failure s) s1).
  { intros k s1 E ->. apply wp_bind. eapply wp_mono; [apply IH; rewrite E; [done..|intros q Hin; apply Hq; set_solver]| |].
    - intros ms s2 [E2 ->]. apply wp_ret. rewrite E2, E. split; [done|]. unfold arcname, relative_to. by rewrite drop_within.
    - intros e s2 [E2 He]. split; [by rewrite E2|done]. }
  rewrite Hnode. apply wp_bind.
  destruct (is_link (tree s !! (root ++ rel))) eqn:El.
  { destruct (tree s !! (root ++ rel)) as [[]|] eqn:E; try discriminate El. apply wp_ret, Hrest; [done|]. cbn. unfold entry. by rewrite E. }
  assert (Hd : canonical (tree s) (root ++ rel)).
  { split; [rewrite forallb_app, Hroot; by apply plain_real, (ti_names _ _ Ht)|]. intros r Hr Hw.
    destruct (decide (r = root ++ rel)) as [->|Hd]; [done|]. apply directory_no_link.
    destruct (within_app_cases _ _ _ Hw) as [?|(r' & -> & Hr')]; [by apply Hg|]. eapply tidy_above; [done..|]. by intros ->. }
  destruct (canonical_direct _ _ Hd) as [Hd' Hn].
  assert (Hread : wp (c ← read_at (root ++ rel); mret (TarFile c))
    (λ k s', tree s' = tree s ∧ k = tm_kind (exported_member root (tree s) rel)) (os_failure s) s).
  { apply wp_bind. eapply wp_mono; [by apply wp_read_at| |done]. intros c s1 [E1 Hc]. apply wp_ret. split; [done|].
    rewrite Hn in Hc. cbn. by rewrite Hc. }
  apply (wp_mono _ (λ k s', tree s' = tree s ∧ k = tm_kind (exported_member root (tree s) rel)) _ (os_failure s));
    [|intros k s1 [E1 Hk]; by apply Hrest|done].
  destruct (tree s !! (root ++ rel)) as [[]|]; [exact Hread|exact Hread|discriminate El|exact Hread].
Qed.

Lemma wp_unlink_if_file p (Q : unit → W * bool → Prop) X s : (∀ s', Q tt s') → wp (unlink_if_file p) Q X s.
Proof.
  intros H. unfold unlink_if_file, suppress_oserror. apply wp_try.
  apply (wp_mono _ (λ _ _, True) _ (λ e _, is_oserror e = true)); [|intros [] s' _; apply H|].
  - apply wp_bind. unfold is_file_at. apply wp_bind, wp_files, wp_ret. destruct (is_regular _); cbn [when]; [|by apply wp_ret].
    unfold unlink_at. apply wp_bind, wp_permitted; [|done]. apply wp_bind, wp_files, wp_bind.
    apply wp_from_sum; [|intros e E; by eapply namei_error]. intros q _. destruct (tree s !! q) as [[]|]; done.
  - intros e s' He. cbn in He. rewrite He. by apply wp_ret.
Qed.

(** Writing the archive leaves what is below the root. *)
Lemma archive_written t u g c : grounded t root → is_directory (t !! archive) = false →
  let t' := <[archive := RegularFile u g c]> t in
  (∀ rel, t' !! (root ++ rel) = t !! (root ++ rel)) ∧ grounded t' root.
Proof using Hapart.
  intros Hg Hd. assert (Hne : ∀ rel, archive ≠ root ++ rel) by (intros rel ->; apply Hapart, within_app). split.
  - intros rel. by rewrite lookup_insert_ne.
  - intros r Hr. destruct (decide (r = archive)) as [->|]; [apply Hg in Hr; congruence|rewrite lookup_insert_ne by done; by apply Hg].
Qed.
Lemma tidy_same t t' : (∀ rel, t' !! (root ++ rel) = t !! (root ++ rel)) → tidy root t → tidy root t'.
Proof. intros E []. split; intros *; rewrite ?E; eauto. Qed.

Lemma wp_export_local_tree s : canonical (tree s) root → canonical (tree s) archive → grounded (tree s) root → tidy root (tree s) →
  (∀ (w : W) q, within_dir root q → hf_denied OpListDir q w = None) →
  wp (export_local_tree root archive)
    (λ r s', r.1 = true → (∃ ms, entry (tree s') archive = Some (TextOf (tar_gz ms)) ∧ exported_members root (tree s) (tree s') ms))
    (λ _ _, False) s.
Proof using Hroot Hapart.
  intros Hcr Hca Hg Ht Hlist. unfold export_local_tree. apply wp_try.
  assert (Hfail : ∀ e s1, is_oserror e = true →
    wp (if is_oserror e then unlink_if_file archive ;; mret (false, ["snapshot:export:io_error:" ++ exn_str e]%string) else raise e)
      (λ r s', r.1 = true → (∃ ms, entry (tree s') archive = Some (TextOf (tar_gz ms)) ∧ exported_members root (tree s) (tree s') ms))
      (λ _ _, False) s1).
  { intros e s1 He. rewrite He. apply wp_bind, wp_unlink_if_file. intros s2. by apply wp_ret. }
  destruct (canonical_direct _ _ Hca) as [Hda Hna].
  apply wp_bind. eapply wp_mono; [by apply wp_write_at| |intros e s1 [_ He]; by apply Hfail]. rewrite Hna.
  intros [] s1 [(u & g & E1) Hfree]. destruct (archive_written _ u g "" Hg Hfree) as [Hsame1 Hg1]. rewrite <- E1 in Hsame1, Hg1.
  apply wp_bind, wp_files, wp_bind. unfold see, gets, wp at 1. set (listable := λ q, bool_decide (hf_denied OpListDir q s1.1 = None)).
  assert (Hl : ∀ r, within_dir root r → listable r = true) by (intros r Hr; by apply bool_decide_true, Hlist).
  assert (Ht1 := tidy_same _ _ Hsame1 Ht). assert (Hfb := λ q, elem_of_files_below listable root (tree s1) q Ht1 Hg1 Hl).
  apply wp_bind. eapply wp_mono; [apply wp_read_members; [done..|]| |intros e s2 [_ He]; by apply Hfail].
  { intros q (rel & -> & Hne & Hs & _)%Hfb. by exists rel. }
  intros ms s2 [E2 ->]. apply wp_bind.
  assert (Hda2 : direct (tree s2) archive).
  { rewrite E2, E1. split; [by apply real_forward, Hca|]. rewrite Hna. intros r Hr Hw.
    destruct (decide (r = archive)) as [->|]; [by rewrite lookup_insert_eq|]. rewrite lookup_insert_ne by done. by apply Hca. }
  eapply wp_mono; [by apply wp_write_at| |intros e s3 [_ He]; by apply Hfail]. rewrite Hna.
  intros [] s3 [(u' & g' & E3) _]. apply wp_ret. intros _. eexists. split; [unfold entry; by rewrite E3, lookup_insert_eq|].
  exists (map (relative_to root) (files_below listable root (tree s1))). split; [|split].
  - apply map_ext. intros rel. unfold exported_member, entry. by rewrite Hsame1.
  - apply NoDup_fmap_2_strong; [|apply files_below_NoDup]. intros q q' (r & -> & _)%Hfb (r' & -> & _)%Hfb.
    unfold relative_to. rewrite !drop_within. by intros ->.
  - intros rel. rewrite list_elem_of_fmap.
    assert (Hk : is_regular (node_at (tree s3) true (root ++ rel)) = is_regular (node_at (tree s1) true (root ++ rel))).
    { assert (Ea : is_regular (tree s1 !! archive) = true) by (by rewrite E1, lookup_insert_eq).
      unfold node_at, find_path. rewrite E3, E2. rewrite (namei_kinds _ (tree s1)).
      - destruct (namei _ _ _ _ _) as [q|]; [|done]. destruct (decide (q = archive)) as [->|]; [by rewrite lookup_insert_eq|by rewrite lookup_insert_ne].
      - intros r. destruct (decide (r = archive)) as [->|]; [|by rewrite lookup_insert_ne]. rewrite lookup_insert_eq. by destruct (tree s1 !! archive) as [[]|].
      - intros r. destruct (decide (r = archive)) as [->|]; [|by rewrite lookup_insert_ne]. rewrite lookup_insert_eq.
        by destruct (tree s1 !! archive) as [[]|]. }
    rewrite Hk, <- Hsame1. split.
    + intros (q & -> & (rel' & -> & Hr)%Hfb). unfold relative_to. by rewrite drop_within.
    + intros Hr. exists (root ++ rel). unfold relative_to. rewrite drop_within. split; [done|]. apply Hfb. by exists rel.
Qed.
End export.

(** *** An export can be restored *)

Section round_trip.
Context {W : Type} {fs : HostFs W} {tar : TarFormat} {streams : ArchiveStreams W}.

Lemma exported_place root t rel : rel ≠ [] → forallb plain_component rel = true → place (exported_member root t rel) = rel.
Proof. destruct rel as [|a l]; [done|]. intros _ H. unfold place. cbn [tm_name exported_member]. rewrite steps_join by done. by apply norm_real, plain_real. Qed.
Lemma exported_entry root t rel : member_entry (exported_member root t rel) = entry t (root ++ rel).
Proof. unfold member_entry. cbn [tm_kind exported_member]. by destruct (entry t (root ++ rel)) as [[]|]. Qed.
Lemma unpacked_exported root t rels rel : Forall (λ r, r ≠ [] ∧ forallb plain_component r = true) rels →
  unpacked (map (exported_member root t) rels) rel = if decide (rel ∈ rels) then entry t (root ++ rel) else None.
Proof.
  induction rels as [|r rels IH] using rev_ind; intros H; [done|]. rewrite Forall_app, Forall_singleton in H. destruct H as [Hrs [Hne Hr]].
  rewrite map_app. cbn [map]. rewrite unpacked_snoc, IH, exported_place, exported_entry by done.
  destruct (decide (r = rel)) as [->|].
  - rewrite (decide_True (P := rel ∈ rels ++ [rel])) by set_solver. destruct (entry t (root ++ rel)) eqn:E; [done|]. by case_decide.
  - destruct (decide (rel ∈ rels)); [rewrite decide_True by set_solver|rewrite decide_False by set_solver]; done.
Qed.

Lemma exported_restorable root t t' ms : (∀ p (w : W), hf_denied OpSymlink p w = None) → tidy root t →
  exported_members root t t' ms → restorable (W := W) ms.
Proof.
  intros Hlinks Ht (rels & -> & Hdup & Hrels).
  assert (Hplain : ∀ rel, rel ∈ rels → rel ≠ [] ∧ forallb plain_component rel = true).
  { intros rel (Hne & Hs & _)%Hrels. split; [done|]. by eapply ti_names. }
  split.
  - apply Forall_forall. intros m (rel & -> & Hin)%list_elem_of_fmap. destruct (Hplain _ Hin) as [Hne Hp]. destruct rel as [|a l]; [done|].
    split; cbn [tm_name exported_member].
    + by apply join_relative.
    + rewrite steps_join by done. by apply real_forward, plain_real.
    + unfold exported_member. cbn [tm_kind tm_name]. destruct (entry t (root ++ a :: l)) as [[c|target]|] eqn:E; [done| |done].
      rewrite steps_join by done. split; [by apply plain_real|]. split; [done|]. split; [|done].
      unfold entry in E. destruct (t !! (root ++ a :: l)) as [[]|] eqn:En; try discriminate E. injection E as <-. by eapply ti_targets.
  - intros i j m m' Hij Hi Hj Hw. rewrite list_lookup_fmap in Hi, Hj.
    apply fmap_Some in Hi as (r & Hi & ->). apply fmap_Some in Hj as (r' & Hj & ->).
    assert (Hr := list_elem_of_lookup_2 _ _ _ Hi). assert (Hr' := list_elem_of_lookup_2 _ _ _ Hj).
    destruct (Hplain _ Hr) as [Hne Hp], (Hplain _ Hr') as [Hne' Hp']. rewrite !exported_place in Hw by done.
    assert (Hd : is_directory (t !! (root ++ r)) = true).
    { eapply tidy_above; [done|by apply Hrels|done|]. intros ->. apply Hij. by eapply NoDup_lookup. }
    unfold is_link_member, exported_member, entry. cbn [tm_kind]. by destruct (t !! (root ++ r)) as [[]|].
Qed.


(** C32. An exported snapshot restores the project it was taken from.  The directory is
    given by its real path, its subdirectories can be listed, the archive is a real path
    outside of it, and the system makes symbolic links.  When the local export succeeds,
    the archive reads back as members that, unpacked into any project directory at any
    later time, either give that directory exactly the files of the exported one with
    their contents and its links to files (not those to directories or to nothing, and
    no empty directories), or fail and leave the files and links of the project where they
    were or in their backup. *)
Theorem restored_snapshot_has_the_exported_files root archive s :
  realpath (tree s) root = (root, true) → is_directory (node_at (tree s) true root) = true → tidy root (tree s) →
  realpath (tree s) archive = (archive, true) → ¬ within_dir root archive →
  (∀ (w : W) q, within_dir root q → hf_denied OpListDir q w = None) → (∀ p (w : W), hf_denied OpSymlink p w = None) →
  wp (export_local_tree root archive)
    (λ r s1, r.1 = true → ∃ c ms, entry (tree s1) archive = Some (TextOf c) ∧ untar c = Some ms ∧
       ∀ s2 given par d, (realpath (tree s2) given).1 = par ++ [d] →
         wp (safe_snapshot_tar_extract ms given)
           (λ _ s3, ∀ rel, entry (tree s3) ((par ++ [d]) ++ rel) =
              if is_regular (node_at (tree s1) true (root ++ rel)) then entry (tree s) (root ++ rel) else None)
           (λ _ s3, kept_project (par ++ [d]) (tree s2) (tree s3)) s2)
    (λ _ _, False) s.
Proof.
  intros Hr Hdir Ht Ha Hapart Hlist Hlinks. apply realpath_canonical in Hr, Ha. destruct (canonical_direct _ _ Hr) as [Hd Hn].
  assert (Hg := directory_grounded _ _ _ Hd Hdir). rewrite Hn in Hg.
  eapply wp_mono; [by apply wp_export_local_tree; [apply Hr|..]| |done]. intros r s1 H Hok.
  destruct (H Hok) as (ms & Hc & Hms). exists (tar_gz ms), ms. split; [done|]. split; [apply untar_gz|]. intros s2 given par d Hgiven.
  eapply wp_mono; [apply wp_safe_snapshot_tar_extract; [by eapply exported_restorable|exact Hgiven]| |by intros e s3 (_ & _ & Hk)].
  intros [] s3 [_ Hu] rel. rewrite Hu. destruct Hms as (rels & -> & _ & Hrels). rewrite unpacked_exported.
  2: { apply Forall_forall. intros q (Hne & Hs & _)%Hrels. split; [done|]. by eapply ti_names. }
  destruct (is_regular _) eqn:Ereg; [|rewrite decide_False; [done|]; intros (_ & _ & ?)%Hrels; congruence].
  case_decide as E; [done|]. unfold entry. destruct (tree s !! (root ++ rel)) as [n|] eqn:En; [|done].
  destruct (decide (rel = [])) as [->|Hne]; [rewrite app_nil_r in En; specialize (Hg root (reflexivity _)); rewrite En in Hg; by destruct n|].
  destruct E. apply Hrels. by rewrite En.
Qed.
End round_trip.
