(* ===== verification/BringUp.v ===== *)
(** * BringUp: starting and stopping workspaces

    orchestrator_service/service.py: the waits for a live container, the attachment to
    the topology, the health probe, [stop_workspace_runtime], the compensating
    rollback and [bring_up_workspace_runtime].  Log tails are fetched, for what the
    fetch may do, but left out of messages. *)

From S2P Require Import Prelude Models Session Services Placement Gateway.
From S2P Require Import Topology Runtime HostFiles ProjectDirs Orchestration.

Section bring_up.
Context {W : Type} {env : Env} {wk : WorkspaceSettings} {clock : Clock W} {adapter : RuntimeAdapter W}
  {topology : TopologyAdapter W} {probes : ProbeRunner W} {fs : HostFs W} {shell : RemoteShell W}.
Context (svc : OrchestratorConfig).

(** ** Waiting for a live container *)

Definition exited_before_attach {A} (cid : string) (lines : Z) (what : string) : Op W A :=
  fetch_container_log_tail cid lines ;;
  raise (bring_up_error ("workspace runtime exited before topology attach (" ++ what ++ ")")).

Definition alive_round (cid phase : string)
    : Op W (ContainerInspectionResult + ContainerInspectionResult) :=
  ins ← inspect_container cid;
  if negb (ins_exists ins) then exited_before_attach cid 120 ("phase=" ++ phase ++ ", container missing")
  else if stopped_state (ins_container_state ins) then exited_before_attach cid 120 ("phase=" ++ phase)
  else if String.eqb (ins_container_state ins) "running" && has_pid ins then mret (inl ins)
  else mret (inr ins).

Definition ALIVE_INTERVAL : Z := 120000.

Definition bring_up_wait_workspace_alive_for_topology (cid phase : string) (max_wait : Z)
    : Op W ContainerInspectionResult :=
  if env_skip_linux_topology_attachment then inspect_container cid
  else
    start ← monotonic;
    let wait := Z.max 50000 max_wait in
    p ← poll_until (poll_fuel wait 10000) (start + wait) (pause_before ALIVE_INTERVAL (start + wait))
          (alive_round cid phase);
    match p with
    | Answered ins => mret ins
    | TimedOut _ | OutOfFuel _ => exited_before_attach cid 120 ("phase=" ++ phase ++ ", waited")
    end.

(** ** Attaching to the topology *)

Definition netns_precheck (cid : string) (netns : NetnsRefResult) : Op W unit :=
  visible ← see (tp_pid_visible (nn_pid netns));
  when (negb (0 <? nn_pid netns) || visible)
    (try_except (on_session (tp_assert_netns_attach_target_visible (nn_netns_ref netns)))
       (λ e, if is_runtime_error e
             then exited_before_attach cid 160 "netns target not visible from control plane before linux attach"
             else raise e)).

Definition attach_steps (ctx : BringUpContext) (running : EnsureRunningRuntimeResult)
    : Op W (NetnsRefResult * AttachWorkspaceResult) :=
  let cid := run_container_id running in
  let tid := svc_topology_id svc in
  let node_id := svc_node_id svc in
  bring_up_wait_workspace_alive_for_topology cid "before_ensure_node_topology" 2500000 ;;
  on_session (tp_ensure_node_topology tid node_id) ;;
  ip_res ← on_session (tp_allocate_workspace_ip tid node_id (ctx_ws_int ctx));
  bring_up_wait_workspace_alive_for_topology cid "after_allocate_workspace_ip_before_netns" (seconds 12) ;;
  netns ← (if env_skip_linux_topology_attachment
           then mret (mkNetns cid (run_pid running) (run_netns_ref running))
           else
             bring_up_wait_workspace_alive_for_topology cid "before_get_container_netns_ref" (seconds 3) ;;
             n ← get_container_netns_ref cid;
             netns_precheck cid n ;;
             mret n);
  attach_res ← on_session (tp_attach_workspace tid node_id (ctx_ws_int ctx) cid (nn_netns_ref netns)
                             (al_workspace_ip ip_res));
  mret (netns, attach_res).

Definition dead_container (ins : ContainerInspectionResult) : bool :=
  negb (ins_exists ins) || stopped_state (ins_container_state ins) || negb (has_pid ins).

Definition bring_up_attach_topology (ctx : BringUpContext) (running : EnsureRunningRuntimeResult)
    : Op W (NetnsRefResult * AttachWorkspaceResult) :=
  if svc_remote_topology_attach_deferred svc then
    mret (mkNetns (run_container_id running) (run_pid running)
            (Py.or_else (run_netns_ref running) "remote-topology-deferred"),
          mkAttachResult 0 "" None None "")
  else
    try_except (attach_steps ctx running)
      (λ e,
        if is_topology_error e then
          ins ← inspect_container (run_container_id running);
          fetch_container_log_tail (run_container_id running) 200 ;;
          raise (bring_up_error
            (if dead_container ins then "workspace runtime exited before topology attach: " ++ exn_str e
             else "topology bring-up failed (after workspace runtime was running): " ++ exn_str e))
        else if is_runtime_adapter_error e then
          raise (bring_up_error ("workspace runtime not ready for topology (PID/netns handoff): " ++ exn_str e))
        else raise e).

(** ** Probing *)

Definition clamp (lo hi v : Z) : Z := Z.max lo (Z.min hi v).
Definition wait_total : Z := clamp (seconds 1) (seconds 600) (default (seconds 90) wk_ide_tcp_wait).
Definition poll_interval : Z := clamp 50000 (seconds 30) (default 1500000 wk_ide_tcp_poll_interval).

(** One probe of a service: an answer when it is healthy, else the last result. *)
Definition service_round (probe : Z → Op W ServiceProbeResult) (deadline : Z) (_ : option ServiceProbeResult)
    : Op W (ServiceProbeResult + option ServiceProbeResult) :=
  now ← monotonic;
  r ← probe (Z.min (seconds 5) (Z.max 500000 (deadline - now)));
  mret (if sp_healthy r then inl r else inr (Some r)).

Definition poll_service (wait interval : Z) (probe : Z → Op W ServiceProbeResult)
    : Op W (polled ServiceProbeResult (option ServiceProbeResult)) :=
  start ← monotonic;
  poll_while (poll_fuel wait interval) (start + wait) interval (service_round probe (start + wait)) None.

Definition gateway_target (ports : list (Z * Z)) (internal_endpoint : option string) : option string :=
  compose_traefik_upstream_target (svc_traefik_routing_host svc) ports internal_endpoint
    WORKSPACE_IDE_CONTAINER_PORT.

(** The result of a health check, before any rollback. *)
Definition health_result (wid : string) (success : bool) (cid cst netns ip ep gw : option string)
    (probe_healthy : option bool) (issues : list string) : WorkspaceBringUpResult :=
  mkWorkspaceBringUpResult wid success (Some (svc_node_id svc)) (Some (Py.str_of_Z (svc_topology_id svc)))
    cid cst netns ip ep gw probe_healthy (issues_or_none issues) false None None None None None None.

(** [next((int(host) for host, container in ... if ...), None)] *)
Definition first_host_port (ports : list (Z * Z)) : option Z :=
  fst <$> List.find (λ p : Z * Z, p.2 =? WORKSPACE_IDE_CONTAINER_PORT) ports.

Definition bring_up_run_remote_host_port_probe (wid : string) (running : EnsureRunningRuntimeResult)
    (netns : NetnsRefResult) (wait interval : Z) : Op W WorkspaceBringUpResult :=
  let host_port := first_host_port (run_resolved_ports running) in
  ctr ← on_world (hp_check_container_running (run_container_id running));
  service ← match host_port with
            | None => mret (false, ["service:published_port_missing:no published host port for IDE container port"%string])
            | Some port =>
                p ← poll_service wait interval (λ t, on_world (hp_check_service_http "127.0.0.1" port t));
                mret (match p with
                      | Answered _ => (true, [])
                      | TimedOut (Some r) | OutOfFuel (Some r) => (false, map issue_text (sp_issues r))
                      | TimedOut None | OutOfFuel None => (false, [])
                      end)
            end;
  let internal_ep := (λ p, "127.0.0.1:" ++ Py.str_of_Z p)%string <$> host_port in
  let ok := cp_healthy ctr && service.1 in
  mret (health_result wid ok (Some (run_container_id running)) (Some (run_container_state running))
          (Some (nn_netns_ref netns)) None internal_ep
          (gateway_target (run_resolved_ports running) internal_ep) (Some ok)
          (map issue_text (cp_issues ctr) ++ service.2)).

Definition check_workspace_health (wid cid : string) (timeout : Z) : Op W WorkspaceHealthResult :=
  on_world (hp_check_workspace_health wid (Py.str_of_Z (svc_topology_id svc)) (svc_node_id svc) cid
              WORKSPACE_IDE_CONTAINER_PORT timeout).

Definition probe_failed {A} (e : Exn) : Op W A :=
  raise (bring_up_error ("probe health check failed: " ++ exn_str e)).

Definition bring_up_run_probe (ctx : BringUpContext) (running : EnsureRunningRuntimeResult)
    (netns : NetnsRefResult) (attach_res : AttachWorkspaceResult) : Op W WorkspaceBringUpResult :=
  if svc_remote_topology_attach_deferred svc then
    bring_up_run_remote_host_port_probe (ctx_wid ctx) running netns wait_total poll_interval
  else
    let ws_ip := Py.strip (at_workspace_ip attach_res) in
    health ← try_except
      (tcp_reached ← (if Py.truthy ws_ip then
                        p ← poll_service wait_total poll_interval
                              (λ t, on_world (hp_check_service_reachable ws_ip WORKSPACE_IDE_CONTAINER_PORT t));
                        mret (match p with Answered _ => true | _ => false end)
                      else mret false);
       let final_timeout := if Py.truthy ws_ip && (tcp_reached : bool)
                            then Z.min (seconds 45) (Z.max (seconds 8) (wait_total / 6)) else seconds 5 in
       check_workspace_health (ctx_wid ctx) (run_container_id running) final_timeout)
      probe_failed;
    let internal_ep := Some (opt_or_else (wh_internal_endpoint health) (at_internal_endpoint attach_res)) in
    mret (health_result (ctx_wid ctx) (wh_healthy health) (Some (run_container_id running))
            (Some (opt_or_else (wh_container_state health) (run_container_state running)))
            (Some (nn_netns_ref netns))
            (Some (opt_or_else (wh_workspace_ip health) (at_workspace_ip attach_res)))
            internal_ep (gateway_target (run_resolved_ports running) internal_ep)
            (Some (wh_healthy health)) (map issue_text (wh_issues health))).

(** ** Stopping *)

Definition stop_load_inspection (wid container_ref : string) : Op W (Z * option string * option string) :=
  ws_int ← from_sum (parse_topology_workspace_id wid);
  ins ← try_except (inspect_container container_ref)
    (λ e, raise (WorkspaceStopError ("inspect_container failed: " ++ exn_str e)));
  mret (ws_int, Py.strip_or_none (Some (opt_or_else (ins_container_id ins) container_ref)),
        Py.strip_or_none (Some (ins_container_state ins))).

(** [detach_workspace], where a topology error becomes an issue and any other one the
    error of the caller; stopping and deleting share it. *)
Definition detach_topology_best_effort (unexpected : string → Exn) (ws_int : Z)
    : Op W (bool * list string) :=
  r ← attempt (on_session (tp_detach_workspace (svc_topology_id svc) (svc_node_id svc) ws_int));
  match r with
  | inl det => mret (de_detached det, [])
  | inr e => if is_topology_error e then mret (false, ["topology:detach_failed:" ++ exn_str e]%string)
             else raise (unexpected ("unexpected detach failure: " ++ exn_str e)%string)
  end.
Definition stop_detach_topology_best_effort : Z → Op W (bool * list string) :=
  detach_topology_best_effort WorkspaceStopError.

Definition stop_container_best_effort (container_id : option string)
    : Op W (bool * option string * list string) :=
  match container_id with
  | None => mret (false, None, ["runtime:container_id_missing"%string])
  | Some cid =>
      r ← attempt (stop_container cid);
      match r with
      | inl res => mret (act_success res, Py.strip_or_none (Some (act_container_state res)),
          if act_success res then []
          else ["runtime:stop_failed:" ++ opt_or_else (act_message res) "stop_container returned success=False"]%string)
      | inr e => if is_runtime_adapter_error e then mret (false, None, ["runtime:stop_failed:" ++ exn_str e]%string)
                 else raise (WorkspaceStopError ("unexpected stop failure: " ++ exn_str e))
      end
  end.

Definition release_lease_best_effort (ws_int : Z) : Op W (list string) :=
  r ← attempt (on_session (tp_release_workspace_ip_lease (svc_topology_id svc) (svc_node_id svc) ws_int));
  match r with
  | inl _ => mret []
  | inr e => if is_topology_error e then mret ["topology:ip_release_failed:" ++ exn_str e]%string else raise e
  end.

Definition CONTAINER_ID_REQUIRED : string := "runtime:authoritative_container_id_required".

Definition stop_workspace_runtime (workspace_id : string) (container_id : option string)
    (release_ip_lease : bool) : Op W WorkspaceStopResult :=
  let wid := Py.strip workspace_id in
  let cid_in := Py.strip_opt container_id in
  if negb (Py.truthy wid) then raise (WorkspaceStopError "workspace_id is empty")
  else if authoritative_container_ref_required && negb (Py.truthy cid_in) then
    mret (mkWorkspaceStopResult wid false None None None (Some [CONTAINER_ID_REQUIRED]))
  else
    '(ws_int, cid, state_before) ← stop_load_inspection wid (Py.or_else cid_in (sanitize_container_name wid));
    '(detached, detach_issues) ← stop_detach_topology_best_effort ws_int;
    '(stop_success, stopped, stop_issues) ← stop_container_best_effort cid;
    release_issues ← (if release_ip_lease then release_lease_best_effort ws_int else mret []);
    let issues := detach_issues ++ stop_issues ++ release_issues in
    mret (mkWorkspaceStopResult wid (stop_workspace_success_roll_up stop_success (Some detached) issues)
            cid (match stopped with Some s => Some s | None => state_before end) (Some detached)
            (issues_or_none issues)).

(** ** Rolling back *)

(** The remaining attempts: whether one succeeded, the issues of the others, and the
    last result. *)
Fixpoint rollback_attempts (attempts : list Z) (wid : string) (cid : option string)
    (issues : list string) (last_stop : option WorkspaceStopResult)
    : Op W (bool * list string * option WorkspaceStopResult) :=
  match attempts with
  | [] => mret (false, issues, last_stop)
  | n :: rest =>
      r ← attempt (stop_workspace_runtime wid cid true);
      match r with
      | inl res =>
          if sr_success res then mret (true, issues, Some res)
          else
            when (n =? 1) (sleep 350000) ;;
            rollback_attempts rest wid cid
              (issues ++ ["rollback:stop_incomplete:" ++ Py.str_of_Z n ++ ":" ++
                          Py.join "," (default ["no_issues_field"%string] (sr_issues res))]%string) (Some res)
      | inr (WorkspaceStopError m) =>
          when (n =? 1) (sleep 350000) ;;
          rollback_attempts rest wid cid
            (issues ++ ["rollback:stop_error:" ++ Py.str_of_Z n ++ ":" ++ m]%string) last_stop
      | inr e => raise e
      end
  end.

Definition bring_up_compensating_rollback (ctx : BringUpContext) (running : option EnsureRunningRuntimeResult)
    : Op W (bool * list string * option WorkspaceStopResult) :=
  rollback_attempts [1; 2] (ctx_wid ctx) (Py.strip_or_none (run_container_id <$> running)) [] None.

(** Evidence for the log, whose failure is ignored. *)
Definition bring_up_log_runtime_failure_before_rollback (running : option EnsureRunningRuntimeResult) : Op W unit :=
  match Py.strip_or_none (run_container_id <$> running) with
  | None => mret tt
  | Some cid =>
      try_except (inspect_container cid ;; fetch_container_log_tail cid 250 ;; mret tt) (λ _, mret tt)
  end.

(** [x or y] on optional strings *)
Definition first_of (x y : option string) : option string :=
  match x with Some s => if Py.truthy s then Some s else y | None => y end.

Definition failed_bring_up {A} (ctx : BringUpContext) (running : option EnsureRunningRuntimeResult) (e : Exn)
    : Op W A :=
  bring_up_log_runtime_failure_before_rollback running ;;
  '(ok, rb_issues, stop_out) ← bring_up_compensating_rollback ctx running;
  raise (WorkspaceBringUpError (mkBringUpFailure
    (match e with WorkspaceBringUpError f => bue_message f
                | _ => "unexpected bring-up failure: " ++ exn_str e end)
    true (Some ok) (match rb_issues with [] => None | l => Some l end)
    (first_of (stop_out ≫= sr_container_id) (run_container_id <$> running))
    (stop_out ≫= sr_container_state))).

Definition unhealthy_bring_up (ctx : BringUpContext) (running : EnsureRunningRuntimeResult)
    (r : WorkspaceBringUpResult) : Op W WorkspaceBringUpResult :=
  bring_up_log_runtime_failure_before_rollback (Some running) ;;
  '(ok, rb_issues, stop_out) ← bring_up_compensating_rollback ctx (Some running);
  let unless_rolled_back (o : option string) := if ok : bool then None else o in
  mret (mkWorkspaceBringUpResult (br_workspace_id r) false (br_node_id r) (br_topology_id r)
    (first_of (stop_out ≫= sr_container_id) (br_container_id r))
    (first_of (stop_out ≫= sr_container_state) (br_container_state r))
    (br_netns_ref r) (unless_rolled_back (br_workspace_ip r)) (unless_rolled_back (br_internal_endpoint r))
    (unless_rolled_back (br_gateway_route_target r)) (Some false)
    (issues_or_none (default [] (br_issues r) ++ rb_issues)) true (Some ok) (issues_or_none rb_issues)
    None None None None).

Definition bring_up_workspace_runtime (workspace_id : string) (project_storage_key : option string)
    (requested_config_version : option Z) (cpu_limit_cores memory_limit_mib pids_limit : option ConfigValue)
    (given_env : gmap string string) (launch_mode : option string) : Op W WorkspaceBringUpResult :=
  ctx ← bring_up_build_context svc workspace_id project_storage_key requested_config_version launch_mode;
  '(cpu_eff, mem_eff, pids_eff) ←
    from_sum (resolve_bringup_runtime_limits_triplet cpu_limit_cores memory_limit_mib pids_limit);
  let sec_spec := build_workspace_container_security_spec wk_security in
  started ← attempt (bring_up_start_container svc ctx cpu_eff mem_eff pids_eff sec_spec given_env);
  result ← match started with
           | inr e => failed_bring_up ctx None e
           | inl running =>
               probed ← attempt
                 ('(netns, attach_res) ← bring_up_attach_topology ctx running;
                  bring_up_run_probe ctx running netns attach_res);
               match probed with
               | inr e => failed_bring_up ctx (Some running) e
               | inl r => if br_success r then mret r else unhealthy_bring_up ctx running r
               end
           end;
  mret (bringup_result_with_applied result (Some (mkAppliedPolicy cpu_eff mem_eff pids_eff sec_spec))).
End bring_up.
