(* ===== verification/OrchestratorOps.v ===== *)
(** * OrchestratorOps: deleting, restarting, updating and checking workspaces

    orchestrator_service/service.py: the remaining operations of
    [DefaultOrchestratorService] on a workspace's runtime; restart and update compose
    stopping and bringing up. *)

From S2P Require Import Prelude Models Session Services Placement Gateway.
From S2P Require Import Topology Runtime HostFiles ProjectDirs Orchestration BringUp.

Section operations.
Context {W : Type} {env : Env} {wk : WorkspaceSettings} {clock : Clock W} {adapter : RuntimeAdapter W}
  {topology : TopologyAdapter W} {probes : ProbeRunner W} {fs : HostFs W} {shell : RemoteShell W}.
Context (svc : OrchestratorConfig).

(** ** Deleting *)

Definition delete_load_inspection (wid container_ref : string) : Op W (Z * option string) :=
  ws_int ← match parse_topology_workspace_id wid with
           | inl v => mret v
           | inr e => raise (WorkspaceDeleteError (exn_str e))
           end;
  ins ← try_except (inspect_container container_ref)
    (λ e, raise (WorkspaceDeleteError ("inspect_container failed: " ++ exn_str e)));
  mret (ws_int, Py.strip_or_none (Some (opt_or_else (ins_container_id ins) container_ref))).

Definition delete_detach_topology_best_effort : Z → Op W (bool * list string) :=
  detach_topology_best_effort svc WorkspaceDeleteError.

Definition delete_container_best_effort (container_id : option string)
    : Op W (bool * option string * list string) :=
  match container_id with
  | None => mret (false, None, ["runtime:container_id_missing"%string])
  | Some cid =>
      r ← attempt (delete_container cid);
      match r with
      | inl res => mret (act_success res, Py.strip_or_none (Some (act_container_state res)),
          if act_success res then []
          else ["runtime:delete_failed:" ++ opt_or_else (act_message res) "delete_container returned success=False"]%string)
      | inr (ContainerNotFoundError _) => mret (true, Some "missing"%string, [])
      | inr e => if is_runtime_adapter_error e then mret (false, None, ["runtime:delete_failed:" ++ exn_str e]%string)
                 else raise (WorkspaceDeleteError ("unexpected delete failure: " ++ exn_str e))
      end
  end.

Definition delete_topology_runtime_best_effort : Op W (bool * list string) :=
  r ← attempt (on_session (tp_delete_topology (svc_topology_id svc) (svc_node_id svc)));
  match r with
  | inl _ => mret (true, [])
  | inr (TopologyDeleteError m) => mret (false, ["topology:delete_failed:" ++ m]%string)
  | inr e => raise (WorkspaceDeleteError ("unexpected topology delete failure: " ++ exn_str e))
  end.

Definition delete_workspace_runtime (workspace_id : string) (container_id : option string)
    : Op W WorkspaceDeleteResult :=
  let wid := Py.strip workspace_id in
  let cid_in := Py.strip_opt container_id in
  if negb (Py.truthy wid) then raise (WorkspaceDeleteError "workspace_id is empty")
  else if authoritative_container_ref_required && negb (Py.truthy cid_in) then
    mret (mkWorkspaceDeleteResult wid false (Some false) None None None (Some [CONTAINER_ID_REQUIRED]))
  else
    '(ws_int, cid) ← delete_load_inspection wid (Py.or_else cid_in (sanitize_container_name wid));
    '(detached, detach_issues) ← delete_detach_topology_best_effort ws_int;
    '(deleted, _, delete_issues) ← delete_container_best_effort cid;
    '(topology_deleted, topology_issues) ← delete_topology_runtime_best_effort;
    mret (mkWorkspaceDeleteResult wid (deleted && detached) (Some deleted) (Some detached)
            (Some topology_deleted) cid (issues_or_none (detach_issues ++ delete_issues ++ topology_issues))).

(** ** Restarting *)

Definition workspace_project_host_dir_exists (workspace_id : string) (project_storage_key : option string)
    : Op W bool :=
  let wid := Py.strip workspace_id in
  let base := Py.strip (svc_workspace_projects_base svc) in
  if negb (Py.truthy wid && Py.truthy base) then mret false
  else
    dir_name ← from_sum (workspace_project_dir_name wid project_storage_key);
    p ← os_realpath (join_path base dir_name);
    is_dir p.

(** An unsuccessful restart: the container is as the stop left it. *)
Definition failed_restart (wid : string) (stop_success : bool) (stop_res : WorkspaceStopResult)
    (issues : list string) : WorkspaceRestartResult :=
  mkWorkspaceRestartResult wid false (Some stop_success) (Some false) (sr_container_id stop_res)
    (sr_container_state stop_res) (Some (svc_node_id svc)) (Some (Py.str_of_Z (svc_topology_id svc)))
    None None None None (issues_or_none issues) None None None None.

Definition restart_workspace_runtime (workspace_id : string) (project_storage_key container_id : option string)
    (requested_config_version : option Z) : Op W WorkspaceRestartResult :=
  let wid := Py.strip workspace_id in
  if negb (Py.truthy wid) then raise (WorkspaceRestartError "workspace_id is empty")
  else
    match parse_topology_workspace_id wid with
    | inr e => raise (WorkspaceRestartError (exn_str e))
    | inl _ =>
        stopped ← attempt (stop_workspace_runtime svc wid container_id false);
        match stopped with
        | inr (WorkspaceStopError m) => raise (WorkspaceRestartError m)
        | inr e => raise e
        | inl stop_res =>
            let issues := default [] (sr_issues stop_res) in
            if negb (sr_success stop_res) then mret (failed_restart wid false stop_res issues)
            else
              there ← workspace_project_host_dir_exists wid project_storage_key;
              up ← attempt (bring_up_workspace_runtime svc wid project_storage_key requested_config_version
                              None None None ∅ (if there : bool then Some "resume"%string else None));
              match up with
              | inr (WorkspaceBringUpError f) =>
                  mret (failed_restart wid true stop_res (issues ++ ["bringup:failed:" ++ bue_message f]%string))
              | inr e => raise e
              | inl r =>
                  mret (mkWorkspaceRestartResult wid (br_success r) (Some true) (Some (br_success r))
                    (br_container_id r) (br_container_state r)
                    (first_of (br_node_id r) (Some (svc_node_id svc)))
                    (first_of (br_topology_id r) (Some (Py.str_of_Z (svc_topology_id svc))))
                    (br_workspace_ip r) (br_internal_endpoint r) (br_gateway_route_target r)
                    (br_probe_healthy r) (issues_or_none (issues ++ default [] (br_issues r)))
                    (br_applied_cpu_limit_cores r) (br_applied_memory_limit_mib r)
                    (br_applied_pids_limit r) (br_applied_security_options r))
              end
        end
    end.

(** ** Updating *)

Definition IDE_TIMEOUT : Z := seconds 5.

(** A container that already has the requested version is only checked. *)
Definition noop_result (wid : string) (success : bool) (current requested : Z)
    (cid cst ip ep gw : option string) (healthy : option bool) (issues : list string) : WorkspaceUpdateResult :=
  mkWorkspaceUpdateResult wid success current requested (Some "noop"%string) true None None cid cst
    (Some (svc_node_id svc)) (Some (Py.str_of_Z (svc_topology_id svc))) ip ep gw healthy
    (issues_or_none issues) None None None None.

Definition normal_state (ins : ContainerInspectionResult) : string :=
  Py.lower (Py.strip (ins_container_state ins)).

Definition update_workspace_runtime_noop (wid : string) (ins : ContainerInspectionResult)
    (container_ref : string) (requested current : Z) : Op W WorkspaceUpdateResult :=
  let cid := Py.strip (opt_or_else (ins_container_id ins) container_ref) in
  let blocked cid cst issue := noop_result wid false current requested cid cst None None None None [issue] in
  if negb (ins_exists ins) then mret (blocked None None "update:noop:workspace_runtime_not_found"%string)
  else if negb (String.eqb (normal_state ins) "running") then
    mret (blocked (Py.strip_or_none (Some cid)) (Some (ins_container_state ins))
            ("update:noop:container_not_running:" ++ Py.or_else (normal_state ins) "unknown")%string)
  else if negb (Py.truthy cid) then
    mret (blocked None (Some (ins_container_state ins)) "update:noop:container_id_missing"%string)
  else
    health ← try_except (check_workspace_health svc wid cid IDE_TIMEOUT)
      (λ e, raise (WorkspaceUpdateError ("probe health check failed: " ++ exn_str e)));
    mret (noop_result wid (wh_healthy health) current requested (Some cid)
            (Some (opt_or_else (wh_container_state health) (ins_container_state ins)))
            (wh_workspace_ip health) (wh_internal_endpoint health)
            (gateway_target svc (ins_ports ins) (wh_internal_endpoint health)) (Some (wh_healthy health))
            (map issue_text (wh_issues health))).

Definition update_workspace_runtime (workspace_id : string) (project_storage_key container_id : option string)
    (requested : Z) : Op W WorkspaceUpdateResult :=
  let wid := Py.strip workspace_id in
  let cid_in := Py.strip_opt container_id in
  if requested <? 0 then raise (WorkspaceUpdateError "requested_config_version must be non-negative")
  else if negb (Py.truthy wid) then raise (WorkspaceUpdateError "workspace_id is empty")
  else
    match parse_topology_workspace_id wid with
    | inr e => raise (WorkspaceUpdateError (exn_str e))
    | inl _ =>
        if authoritative_container_ref_required && negb (Py.truthy cid_in) then
          mret (mkWorkspaceUpdateResult wid false 0 requested (Some "blocked"%string) false None None None None
                  None None None None None None (Some [CONTAINER_ID_REQUIRED]) None None None None)
        else
          let container_ref := Py.or_else cid_in (sanitize_container_name wid) in
          ins ← try_except (inspect_container container_ref)
            (λ e, raise (WorkspaceUpdateError ("inspect_container failed: " ++ exn_str e)));
          let current := config_version_from_inspection ins in
          if current =? requested then update_workspace_runtime_noop wid ins container_ref requested current
          else
            restarted ← attempt (restart_workspace_runtime wid project_storage_key container_id (Some requested));
            match restarted with
            | inr (WorkspaceRestartError m) => raise (WorkspaceUpdateError m)
            | inr e => raise e
            | inl r =>
                mret (mkWorkspaceUpdateResult wid (rr_success r) current requested (Some "restart"%string) false
                  (rr_stop_success r) (rr_bringup_success r) (rr_container_id r) (rr_container_state r)
                  (rr_node_id r) (rr_topology_id r) (rr_workspace_ip r) (rr_internal_endpoint r)
                  (rr_gateway_route_target r) (rr_probe_healthy r)
                  (issues_or_none (default [] (rr_issues r)))
                  (rr_applied_cpu_limit_cores r) (rr_applied_memory_limit_mib r)
                  (rr_applied_pids_limit r) (rr_applied_security_options r))
            end
    end.

(** ** Checking *)

(** [try: ... get_container_netns_ref(...).netns_ref except Exception: None] *)
Definition netns_ref_or_none (cid : string) : Op W (option string) :=
  try_except (n ← get_container_netns_ref cid; mret (Some (nn_netns_ref n))) (λ _, mret None).

Definition check_workspace_runtime_health (workspace_id : string) (container_id : option string)
    : Op W WorkspaceBringUpResult :=
  let wid := Py.strip workspace_id in
  let cid_in := Py.strip_opt container_id in
  let unwell cid cst issue := health_result svc wid false cid cst None None None None (Some false) [issue] in
  if negb (Py.truthy wid) then raise (bring_up_error "workspace_id is empty")
  else
    from_sum (parse_topology_workspace_id wid) ;;
    if authoritative_container_ref_required && negb (Py.truthy cid_in) then
      mret (unwell None None CONTAINER_ID_REQUIRED)
    else
      let container_ref := Py.or_else cid_in (sanitize_container_name wid) in
      ins ← try_except (inspect_container container_ref)
        (λ e, raise (bring_up_error ("inspect_container failed: " ++ exn_str e)));
      let cid := Py.strip (opt_or_else (ins_container_id ins) container_ref) in
      if negb (ins_exists ins) then mret (unwell None (Some "missing"%string) "health:container:not_found"%string)
      else if negb (Py.truthy cid) then
        mret (unwell None (Some (ins_container_state ins)) "health:container:container_id_missing"%string)
      else if negb (String.eqb (normal_state ins) "running") then
        mret (unwell (Some cid) (Some (ins_container_state ins))
                ("health:container:not_running:" ++ Py.or_else (normal_state ins) "unknown")%string)
      else if svc_remote_topology_attach_deferred svc then
        netns_ref ← netns_ref_or_none cid;
        let ref := opt_or_else netns_ref "remote-topology-deferred" in
        let pid := default 0 (ins_pid ins) in
        bring_up_run_remote_host_port_probe svc wid
          (mkRunning cid (ins_container_state ins) pid ref (ins_ports ins) (Some (svc_node_id svc))
             WORKSPACE_IDE_CONTAINER_PORT None)
          (mkNetns cid pid ref) (seconds 5) (seconds 1)
      else
        health ← try_except (check_workspace_health svc wid cid IDE_TIMEOUT) probe_failed;
        netns_ref ← netns_ref_or_none cid;
        mret (health_result svc wid (wh_healthy health) (Some cid)
                (Some (opt_or_else (wh_container_state health) (ins_container_state ins))) netns_ref
                (wh_workspace_ip health) (wh_internal_endpoint health)
                (gateway_target svc (ins_ports ins) (wh_internal_endpoint health)) (Some (wh_healthy health))
                (map issue_text (wh_issues health))).

(** [run_topology_janitor], as the reconcile job calls it. *)
Definition service_run_topology_janitor (stale_attaching_seconds : Z) : Op W TopologyJanitorResult :=
  on_session (tp_run_topology_janitor (svc_topology_id svc) (svc_node_id svc) stale_attaching_seconds).
End operations.
