(* ===== verification/Waits.v ===== *)
(** * Waits: the polling loops of a bring-up end

    The loops of [Runtime] and [BringUp] against the meaning of Python's [while]: a
    big-step relation without fuel.  Time must only move forward, and [sleep] must
    sleep ([ForwardClock]). *)

From S2P Require Import Prelude Models Session Services Topology Runtime.
From S2P Require Import HostFiles ProjectDirs Orchestration BringUp.

(** ** The meaning of the loops *)

Section loops.
Context {S : Type} {clock : Clock S}.
Implicit Types s : S.

(** [while time.monotonic() < deadline: body; time.sleep(pause)]: the state after the
    loop, and its result or the exception of the body. *)
Inductive while_runs {A L} (deadline pause : Z) (body : L → eff S Exn (A + L))
    : L → S → S → polled A L + Exn → Prop :=
| while_done last s : deadline ≤ clock_monotonic s →
    while_runs deadline pause body last s s (inl (TimedOut last))
| while_answer last s s' a : clock_monotonic s < deadline → body last s = (s', inl (inl a)) →
    while_runs deadline pause body last s s' (inl (Answered a))
| while_raise last s s' e : clock_monotonic s < deadline → body last s = (s', inr e) →
    while_runs deadline pause body last s s' (inr e)
| while_next last l s s1 s' r : clock_monotonic s < deadline → body last s = (s1, inl (inr l)) →
    while_runs deadline pause body l (clock_sleep pause s1) s' r →
    while_runs deadline pause body last s s' r.

(** [while True: body; if time.monotonic() >= deadline: break; time.sleep(...)] *)
Inductive until_runs {A L} (deadline : Z) (pause : Z → Z) (body : eff S Exn (A + L))
    : S → S → polled A L + Exn → Prop :=
| until_answer s s' a : body s = (s', inl (inl a)) →
    until_runs deadline pause body s s' (inl (Answered a))
| until_raise s s' e : body s = (s', inr e) → until_runs deadline pause body s s' (inr e)
| until_done s s' l : body s = (s', inl (inr l)) → deadline ≤ clock_monotonic s' →
    until_runs deadline pause body s s' (inl (TimedOut l))
| until_next s s1 s' l r : body s = (s1, inl (inr l)) → clock_monotonic s1 < deadline →
    until_runs deadline pause body (clock_sleep (pause (clock_monotonic s1)) s1) s' r →
    until_runs deadline pause body s s' r.

(** ** Fuel is enough *)

(** Time does not run backwards. *)
Definition later s s' : Prop := clock_monotonic s ≤ clock_monotonic s'.
#[export] Instance later_preorder : PreOrder later.
Proof. split; [intros s; unfold later; lia|intros a b c; unfold later; lia]. Qed.

Hypothesis sleeps : ∀ d s, 0 ≤ d → clock_monotonic s + d ≤ clock_monotonic (clock_sleep d s).

Lemma poll_while_eq {A L} n deadline pause (body : L → eff S Exn (A + L)) last s :
  poll_while (Datatypes.S n) deadline pause body last s =
  if deadline <=? clock_monotonic s then (s, inl (TimedOut last))
  else match body last s with
       | (s1, inl (inl a)) => (s1, inl (Answered a))
       | (s1, inl (inr l)) => poll_while n deadline pause body l (clock_sleep pause s1)
       | (s1, inr e) => (s1, inr e)
       end.
Proof.
  cbn [poll_while]. unfold mbind, eff_bind, monotonic, gets, mret, eff_ret, sleep, modify.
  destruct (deadline <=? _); [done|]. by destruct (body last s) as [s1 [[a|l]|e]].
Qed.

Lemma poll_until_eq {A L} n deadline pause (body : eff S Exn (A + L)) s :
  poll_until n deadline pause body s =
  match body s with
  | (s1, inl (inl a)) => (s1, inl (Answered a))
  | (s1, inl (inr l)) =>
      if deadline <=? clock_monotonic s1 then (s1, inl (TimedOut l))
      else match n with
           | O => (s1, inl (OutOfFuel l))
           | Datatypes.S n => poll_until n deadline pause body (clock_sleep (pause (clock_monotonic s1)) s1)
           end
  | (s1, inr e) => (s1, inr e)
  end.
Proof.
  destruct n; cbn [poll_until]; unfold mbind, eff_bind, monotonic, gets, mret, eff_ret, sleep, modify;
    destruct (body s) as [s1 [[a|l]|e]]; try done; by destruct (deadline <=? _).
Qed.

Lemma poll_while_runs {A L} deadline pause (body : L → eff S Exn (A + L)) fuel last s :
  0 < pause → (∀ l, within later (body l)) →
  deadline - clock_monotonic s ≤ pause * (Z.of_nat fuel - 1) → (0 < fuel)%nat →
  let run := poll_while fuel deadline pause body last s in
  while_runs deadline pause body last s run.1 run.2.
Proof.
  intros Hp Hb. revert last s. induction fuel as [|n IH]; intros last s Hd Hf; [lia|].
  cbv zeta. rewrite poll_while_eq.
  destruct (deadline <=? clock_monotonic s) eqn:Et; [by apply while_done, Z.leb_le|].
  apply Z.leb_gt in Et. specialize (Hb last s). unfold later in Hb.
  destruct (body last s) as [s1 [[a|l]|e]] eqn:Eb; cbn in *; [by apply while_answer| |by apply while_raise].
  pose proof (sleeps pause s1 ltac:(lia)) as Hs.
  eapply while_next; [done..|]. apply IH; cbn; [|destruct n; [nia|lia]]. nia.
Qed.

Lemma poll_until_runs {A L} deadline pause least (body : eff S Exn (A + L)) fuel s :
  0 ≤ least → (∀ now, least ≤ pause now) → within later body →
  deadline - clock_monotonic s ≤ least * Z.of_nat fuel →
  let run := poll_until fuel deadline pause body s in
  until_runs deadline pause body s run.1 run.2.
Proof.
  intros H0 Hi Hb. revert s. induction fuel as [|n IH]; intros s Hd; cbv zeta; rewrite poll_until_eq;
    pose proof (Hb s) as Hs; unfold later in Hs;
    destruct (body s) as [s1 [[a|l]|e]] eqn:Eb; cbn in Hs;
    try (by apply until_answer); try (by apply until_raise);
    (destruct (deadline <=? clock_monotonic s1) eqn:Et; [apply Z.leb_le in Et; by apply until_done|]);
    apply Z.leb_gt in Et; [lia|].
  set (p := pause _). assert (Hp : least ≤ p) by apply Hi.
  pose proof (sleeps p s1 ltac:(lia)) as Hsl. eapply until_next; [done|lia|].
  apply IH. fold p. nia.
Qed.

Lemma poll_fuel_enough wait pause : 0 < pause → wait ≤ pause * (Z.of_nat (poll_fuel wait pause) - 1).
Proof.
  intros Hp. unfold poll_fuel. rewrite !Nat2Z.inj_succ.
  destruct (decide (0 ≤ wait)) as [Hw|Hw].
  - rewrite Z2Nat.id by (apply Z.div_pos; lia). pose proof (Z.mod_pos_bound wait pause Hp).
    pose proof (Z.div_mod wait pause ltac:(lia)). nia.
  - nia.
Qed.
End loops.

(** ** The loops of the orchestrator *)

Section waits.
Context {W : Type} {env : Env} {wk : WorkspaceSettings} {clock : Clock W} {adapter : RuntimeAdapter W}
  {topology : TopologyAdapter W} {probes : ProbeRunner W}.

(** [time.monotonic] is monotonic, and [time.sleep] suspends for at least as long. *)
Class ForwardClock := {
  fc_sleep d w : 0 ≤ d → clock_monotonic w + d ≤ clock_monotonic (clock_sleep d w);
  fc_inspect cid w : clock_monotonic w ≤ clock_monotonic (ad_inspect_container cid w).1;
  fc_log_tail cid n w : clock_monotonic w ≤ clock_monotonic (ad_fetch_container_log_tail cid n w).1;
  fc_reachable ip port t w : clock_monotonic w ≤ clock_monotonic (hp_check_service_reachable ip port t w).1;
  fc_http ip port t w : clock_monotonic w ≤ clock_monotonic (hp_check_service_http ip port t w).1
}.
Context {forward : ForwardClock}.

Lemma op_sleeps d (s : W * bool) : 0 ≤ d → clock_monotonic s + d ≤ clock_monotonic (clock_sleep d s).
Proof. apply fc_sleep. Qed.

Lemma later_on_world {R} (f : W → W * (R + Exn)) :
  (∀ w, clock_monotonic w ≤ clock_monotonic (f w).1) → within later (on_world f).
Proof. intros H [w b]. unfold on_world, later. specialize (H w). cbn. by destruct (f w). Qed.

#[local] Hint Extern 1 (within later (on_world _)) => apply later_on_world; intros : within.
#[local] Hint Resolve fc_inspect fc_log_tail fc_reachable fc_http later_preorder : within.

Lemma later_log_tail cid n : within later (workspace_container_log_tail cid n).
Proof. unfold workspace_container_log_tail, fetch_container_log_tail. eauto 8 with within. Qed.

Lemma later_post_start cid skip o : within later (post_start_round cid skip o).
Proof.
  unfold post_start_round, start_failed, inspect_container. apply within_bind; [apply _|eauto with within|].
  intros ins. destruct (stopped_state _); [|destruct (_ && _); eauto with within].
  apply within_bind; [apply _|apply later_log_tail|eauto with within].
Qed.

Lemma later_alive cid phase : within later (alive_round cid phase).
Proof.
  unfold alive_round, exited_before_attach, inspect_container, fetch_container_log_tail.
  apply within_bind; [apply _|eauto with within|]. intros ins.
  destruct (negb _); [|destruct (stopped_state _); [|destruct (_ && _); eauto with within]];
    (apply within_bind; [apply _|eauto with within|eauto with within]).
Qed.

Lemma later_service probe deadline o : (∀ t, within later (probe t)) → within later (service_round probe deadline o).
Proof.
  intros Hp. unfold service_round, monotonic, see.
  apply within_bind; [apply _|eauto with within|intros now]. apply within_bind; [apply _|apply Hp|eauto with within].
Qed.

Lemma service_wait_ends wait interval probe s : 0 < interval → (∀ t, within later (probe t)) →
  let deadline := clock_monotonic s.1 + wait in
  while_runs deadline interval (service_round probe deadline) None s
    (poll_service wait interval probe s).1 (poll_service wait interval probe s).2.
Proof.
  intros Hi Hp deadline.
  change (poll_service wait interval probe s) with
    (poll_while (poll_fuel wait interval) deadline interval (service_round probe deadline) None s).
  apply poll_while_runs; [apply op_sleeps|done|intros l; by apply later_service| |unfold poll_fuel; lia].
  pose proof (poll_fuel_enough wait interval Hi). unfold deadline. cbn. lia.
Qed.

Lemma poll_interval_positive : 0 < poll_interval.
Proof. unfold poll_interval, clamp. lia. Qed.

(** Every wait of a bring-up ends: on any container, phase, address and port, and
    whatever the engine and the probes answer, the fuelled loops compute what the
    loops of the source mean, an answer, a timeout at their deadline or an exception
    of a round, and are never cut short. *)
Lemma bring_up_waits_end :
  (∀ cid skip s, let deadline := clock_monotonic s.1 + POST_START_WAIT in
     let run := poll_while (poll_fuel POST_START_WAIT POST_START_PAUSE) deadline POST_START_PAUSE
                  (post_start_round cid skip) None s in
     while_runs deadline POST_START_PAUSE (post_start_round cid skip) None s run.1 run.2) ∧
  (∀ cid phase max_wait s, let wait := Z.max 50000 max_wait in
     let deadline := clock_monotonic s.1 + wait in
     let pause := pause_before ALIVE_INTERVAL deadline in
     let run := poll_until (poll_fuel wait 10000) deadline pause (alive_round cid phase) s in
     until_runs deadline pause (alive_round cid phase) s run.1 run.2) ∧
  (∀ wait ip port s, let deadline := clock_monotonic s.1 + wait in
     let probe t := on_world (hp_check_service_reachable ip port t) in
     let run := poll_service wait poll_interval probe s in
     while_runs deadline poll_interval (service_round probe deadline) None s run.1 run.2) ∧
  (∀ wait interval ip port s, 0 < interval → let deadline := clock_monotonic s.1 + wait in
     let probe t := on_world (hp_check_service_http ip port t) in
     let run := poll_service wait interval probe s in
     while_runs deadline interval (service_round probe deadline) None s run.1 run.2).
Proof.
  split_and!; intros.
  - apply poll_while_runs; [apply op_sleeps|done|intros l; apply later_post_start| |unfold poll_fuel; lia].
    pose proof (poll_fuel_enough POST_START_WAIT POST_START_PAUSE ltac:(done)). cbn in *. lia.
  - apply (poll_until_runs op_sleeps _ _ 10000); [done| |apply later_alive|].
    + intros now. unfold pause, pause_before, ALIVE_INTERVAL. lia.
    + pose proof (poll_fuel_enough wait 10000 ltac:(done)). unfold deadline. cbn. lia.
  - apply service_wait_ends; [apply poll_interval_positive|intros t; apply later_on_world, fc_reachable].
  - apply service_wait_ends; [done|intros t; apply later_on_world, fc_http].
Qed.
End waits.
