(* ===== verification/BringUpOutcome.v ===== *)
(** * BringUpOutcome: how a bring-up can end

    Whatever the engine, the topology, the probes, the files and the shell do:
    bringing a workspace up is refused before any of the first three is asked, or ends
    healthy, or is rolled back by [stop_workspace_runtime]. *)

From S2P Require Import Prelude Models Session Services Topology Runtime.
From S2P Require Import HostFiles ProjectDirs Placement Orchestration BringUp.

(** ** Steps of the collaborators

    What one call of a collaborator does to the world and to the shared session. *)

Section steps.
Context {W : Type} {clock : Clock W} {adapter : RuntimeAdapter W} {topology : TopologyAdapter W}
  {probes : ProbeRunner W} {fs : HostFs W} {shell : RemoteShell W}.
Implicit Types s : W * bool.

(** The host's files and the node's shell. *)
Inductive host_step : W * bool → W * bool → Prop :=
| step_files t w b : host_step (w, b) (hf_set_tree t w, b)
| step_shell cmd w b : host_step (w, b) ((rs_run cmd w).1, b).

Definition after_call {R} (c : Call W R) s : W * bool := ((c s.1).1.1, s.2 || (c s.1).1.2).

Inductive service_step : W * bool → W * bool → Prop :=
| step_host s s' : host_step s s' → service_step s s'
| step_sleep d w b : service_step (w, b) (clock_sleep d w, b)
| step_ensure_container spec w b : service_step (w, b) ((ad_ensure_container spec w).1, b)
| step_start_container cid w b : service_step (w, b) ((ad_start_container cid w).1, b)
| step_stop_container cid w b : service_step (w, b) ((ad_stop_container cid w).1, b)
| step_inspect_container cid w b : service_step (w, b) ((ad_inspect_container cid w).1, b)
| step_log_tail cid n w b : service_step (w, b) ((ad_fetch_container_log_tail cid n w).1, b)
| step_netns_ref cid w b : service_step (w, b) ((ad_get_container_netns_ref cid w).1, b)
| step_container_running cid w b : service_step (w, b) ((hp_check_container_running cid w).1, b)
| step_service_reachable ip port t w b : service_step (w, b) ((hp_check_service_reachable ip port t w).1, b)
| step_service_http ip port t w b : service_step (w, b) ((hp_check_service_http ip port t w).1, b)
| step_workspace_health a c d e port t w b :
    service_step (w, b) ((hp_check_workspace_health a c d e port t w).1, b)
| step_ensure_topology tid nid s : service_step s (after_call (tp_ensure_node_topology tid nid) s)
| step_allocate_ip tid nid wid s : service_step s (after_call (tp_allocate_workspace_ip tid nid wid) s)
| step_attach tid nid wid cid netns ip s :
    service_step s (after_call (tp_attach_workspace tid nid wid cid netns ip) s)
| step_detach tid nid wid s : service_step s (after_call (tp_detach_workspace tid nid wid) s)
| step_release tid nid wid s : service_step s (after_call (tp_release_workspace_ip_lease tid nid wid) s)
| step_assert_netns netns s : service_step s (after_call (tp_assert_netns_attach_target_visible netns) s).

(** Sequences of them. *)
Definition host_run : W * bool → W * bool → Prop := rtc host_step.
Definition service_run : W * bool → W * bool → Prop := rtc service_step.
#[export] Instance host_run_preorder : PreOrder host_run := _.
#[export] Instance service_run_preorder : PreOrder service_run := _.

Lemma within_world (R : W * bool → W * bool → Prop) {A} (f : W → W * (A + Exn)) :
  (∀ w b, R (w, b) ((f w).1, b)) → within (rtc R) (on_world f).
Proof. intros H [w b]. apply rtc_once. specialize (H w b). unfold on_world. cbn. by destruct (f w). Qed.
Lemma service_call {A} (c : Call W A) :
  (∀ s, service_step s (after_call c s)) → within service_run (on_session c).
Proof.
  intros H s. apply rtc_once. specialize (H s). unfold on_session, after_call in *.
  by destruct (c s.1) as [[w b] r].
Qed.
Lemma host_service s s' : host_run s s' → service_run s s'.
Proof. induction 1; [reflexivity|]. eapply rtc_l; [by apply step_host|done]. Qed.

Lemma within_see R `{!PreOrder R} {A} (f : W → A) : within (S := W * bool) R (see f).
Proof. by apply within_gets. Qed.
Lemma within_set_files f : within host_run (set_files f).
Proof. apply within_modify. intros [w b]. apply rtc_once, step_files. Qed.
Lemma within_remote_run cmd : within host_run (remote_run cmd).
Proof. apply within_world, step_shell. Qed.
Lemma within_sleep d : within service_run (sleep d).
Proof. apply within_modify. intros [w b]. apply rtc_once, step_sleep. Qed.
Lemma within_monotonic : within service_run monotonic.
Proof. apply within_gets, _. Qed.
End steps.

Create HintDb service.
#[export] Hint Constructors service_step : service.
#[export] Hint Resolve within_set_files within_remote_run within_sleep within_monotonic : service.
#[export] Hint Extern 2 (within service_run (on_world _)) => apply within_world; intros; auto with service : service.
#[export] Hint Extern 2 (within service_run (on_session _)) => apply service_call; intros; auto with service : service.

(** Decomposes a computation along its binds, handlers and case distinctions. *)
Ltac service_step :=
  match goal with
  | |- within _ _ => solve [eauto with service]
  | |- within ?R (_ ≫= _) => apply (within_bind R); [|intros ?]
  | |- within ?R (try_except _ _) => apply (within_try R); [|intros ?]
  | |- within ?R (attempt _) => apply (within_attempt R)
  | |- within ?R (when _ _) => apply (within_when R); intros ?
  | |- within ?R (for_each _ _) => apply (within_for_each R); intros ?
  | |- within ?R (mret _) => apply (within_ret R)
  | |- within ?R (raise _) => apply (within_raise R)
  | |- within ?R (see _) => apply (within_see R)
  | |- within _ (match ?x with _ => _ end) => destruct x
  | |- within _ (let _ := _ in _) => cbv zeta
  | |- within _ (from_sum ?x) => unfold from_sum
  end.
Ltac service := repeat service_step.

Section host_operations.
Context {W : Type} {fs : HostFs W} {shell : RemoteShell W}.

Lemma run_files : within host_run files.
Proof. apply within_see, _. Qed.
Lemma run_permitted op p : within host_run (permitted op p).
Proof. unfold permitted. service. Qed.
#[local] Hint Resolve run_files run_permitted : service.
Lemma run_resolve_at p : within host_run (resolve_at p).
Proof. unfold resolve_at. service. Qed.
Lemma run_is_dir_at p : within host_run (is_dir_at p).
Proof. unfold is_dir_at. service. Qed.
Lemma run_exists_at p : within host_run (exists_at p).
Proof. unfold exists_at. service. Qed.
#[local] Hint Resolve run_resolve_at run_is_dir_at run_exists_at : service.
Lemma run_realpath p : within host_run (os_realpath p).
Proof. unfold os_realpath. service. Qed.
Lemma run_path_resolve p : within host_run (path_resolve p).
Proof. unfold path_resolve. service. Qed.
Lemma run_is_dir p : within host_run (is_dir p).
Proof. apply run_is_dir_at. Qed.
Lemma run_is_file p : within host_run (is_file p).
Proof. unfold is_file, is_file_at. service. Qed.
Lemma run_lexists p : within host_run (lexists p).
Proof. unfold lexists, lexists_at. service. Qed.
Lemma run_is_symlink p : within host_run (is_symlink p).
Proof. unfold is_symlink. service. Qed.
Lemma run_mkdir_at p : within host_run (mkdir_at p).
Proof. unfold mkdir_at. service. Qed.
Lemma run_unless_dir p e : within host_run (unless_dir p e).
Proof. unfold unless_dir. service. Qed.
#[local] Hint Resolve run_mkdir_at run_unless_dir : service.
Lemma run_makedirs_from n ok p : within host_run (makedirs_from n ok p).
Proof. revert p. induction n as [|n IH]; intros p; cbn [makedirs_from]; service. Qed.
Lemma run_mkdir_once p : within host_run (mkdir_once p).
Proof. unfold mkdir_once. service. Qed.
#[local] Hint Resolve run_mkdir_once : service.
Lemma run_mkdir_parents n p : within host_run (mkdir_parents n p).
Proof. revert p. induction n as [|n IH]; intros p; cbn [mkdir_parents]; service; eauto with service. Qed.
Lemma run_mkdir_path p : within host_run (mkdir_path p).
Proof. apply run_mkdir_parents. Qed.
Lemma run_makedirs p : within host_run (makedirs p).
Proof. apply run_makedirs_from. Qed.
Lemma run_stat p : within host_run (stat_uid_gid p).
Proof. unfold stat_uid_gid. service. Qed.
Lemma run_listdir p : within host_run (listdir p).
Proof. unfold listdir. service. Qed.
Lemma run_unlink p : within host_run (unlink p).
Proof. unfold unlink, unlink_at. service. Qed.
Lemma run_rmtree_at p : within host_run (rmtree_at p).
Proof. unfold rmtree_at. service. Qed.
#[local] Hint Resolve run_rmtree_at : service.
Lemma run_rmtree p : within host_run (rmtree p).
Proof. unfold rmtree. service. Qed.
Lemma run_read_file p : within host_run (read_file p).
Proof. unfold read_file, read_at. service. Qed.
Lemma run_write_file p c : within host_run (write_file p c).
Proof. unfold write_file, write_at. service. Qed.
Lemma run_chown_tree tool p u g : within host_run (chown_tree tool p u g).
Proof. unfold chown_tree. service. Qed.
#[local] Hint Resolve run_realpath run_path_resolve run_is_dir run_is_file run_lexists run_is_symlink run_mkdir_path run_makedirs
  run_stat run_listdir run_unlink run_rmtree run_read_file run_write_file run_chown_tree : service.

Lemma run_ensure_owned p strict : within host_run (ensure_host_path_owned_by_workspace_user p strict).
Proof. unfold ensure_host_path_owned_by_workspace_user. service. Qed.
#[local] Hint Resolve run_ensure_owned : service.
Lemma run_chown_runtime p strict : within host_run (chown_tree_for_workspace_runtime p strict).
Proof. unfold chown_tree_for_workspace_runtime. service. Qed.
#[local] Hint Resolve run_chown_runtime : service.
Lemma run_finalize p strict : within host_run (finalize_workspace_host_project_tree_ownership p strict).
Proof. unfold finalize_workspace_host_project_tree_ownership. service. Qed.
Lemma run_verify_owns p : within host_run (verify_workspace_runtime_owns_path p).
Proof. unfold verify_workspace_runtime_owns_path. service. Qed.
Lemma run_verify_access k m p : within host_run (verify_access k m p).
Proof. unfold verify_access. service. Qed.
Lemma run_verify_dir p : within host_run (verify_workspace_runtime_can_write_dir p).
Proof. apply run_verify_access. Qed.
Lemma run_verify_file p : within host_run (verify_workspace_runtime_can_read_write_file p).
Proof. apply run_verify_access. Qed.
#[local] Hint Resolve run_finalize run_verify_owns run_verify_dir run_verify_file : service.
Lemma run_ensure_local base wid key create :
  within host_run (default_local_ensure_workspace_project_dir base wid key create).
Proof. unfold default_local_ensure_workspace_project_dir. service. Qed.
Lemma run_ensure_remote base wid key create :
  within host_run (ssh_remote_ensure_workspace_project_dir base wid key create).
Proof. unfold ssh_remote_ensure_workspace_project_dir. service. Qed.
Lemma run_resolve_ide p mode : within host_run (resolve_workspace_ide_bind_host_path p mode).
Proof. unfold resolve_workspace_ide_bind_host_path. service. Qed.
#[local] Hint Resolve run_ensure_local run_ensure_remote run_resolve_ide : service.
Lemma run_ensure svc wid key create : within host_run (ensure_workspace_project_dir svc wid key create).
Proof. unfold ensure_workspace_project_dir. service. Qed.
#[local] Hint Resolve run_ensure : service.
Lemma run_build_context svc ws_id key v mode : within host_run (bring_up_build_context svc ws_id key v mode).
Proof. unfold bring_up_build_context. service. Qed.

(** The bind mounts of code-server *)
Lemma run_clear_entries d l : within host_run (clear_entries d l).
Proof. induction l as [|x l IH]; cbn [clear_entries]; service. Qed.
#[local] Hint Resolve run_clear_entries : service.
Lemma run_reset d mode : within host_run (reset_code_server_state_for_new_workspace d mode).
Proof. unfold reset_code_server_state_for_new_workspace. service. Qed.
Lemma run_auth_config d mode : within host_run (ensure_code_server_bind_auth_proxy_config d mode).
Proof. unfold ensure_code_server_bind_auth_proxy_config, ignore_os_error. service. Qed.
#[local] Hint Resolve run_reset run_auth_config : service.
Lemma run_prepare_local b launch auth : within host_run (prepare_local_code_server b launch auth).
Proof. unfold prepare_local_code_server, os_error_as_bring_up. service. Qed.
Lemma run_prepare_remote b wid p auth launch :
  within host_run (remote_prepare_code_server_bind_mounts b wid p auth launch).
Proof. unfold remote_prepare_code_server_bind_mounts. service. Qed.
#[local] Hint Resolve run_prepare_local run_prepare_remote : service.
Lemma run_mounts svc wid p launch key auth :
  within host_run (code_server_extra_bind_mounts svc wid p launch key auth).
Proof. unfold code_server_extra_bind_mounts. service. Qed.
Lemma run_pre_start svc ctx mounts : within host_run (pre_start_checks svc ctx mounts).
Proof. unfold pre_start_checks, os_error_as_bring_up, verify_bind_source. service. Qed.
Lemma run_log_remote p : within host_run (log_remote_workspace_config_bind_host_before_docker_start p).
Proof. unfold log_remote_workspace_config_bind_host_before_docker_start. service. Qed.
End host_operations.

Section service_operations.
Context {W : Type} {env : Env} {wk : WorkspaceSettings} {clock : Clock W} {adapter : RuntimeAdapter W}
  {topology : TopologyAdapter W} {probes : ProbeRunner W} {fs : HostFs W} {shell : RemoteShell W}.
Context (svc : OrchestratorConfig).

Lemma from_host {A} (m : Op W A) : within host_run m → within service_run m.
Proof. intros H s. apply host_service, H. Qed.

Lemma run_poll_while {A L} n deadline pause (body : L → Op W (A + L)) last :
  (∀ l, within service_run (body l)) → within service_run (poll_while n deadline pause body last).
Proof.
  intros Hb. revert last. induction n as [|n IH]; intros last; cbn [poll_while]; service.
Qed.
Lemma run_poll_until {A L} n deadline interval (body : Op W (A + L)) :
  within service_run body → within service_run (poll_until n deadline interval body).
Proof. intros Hb. induction n as [|n IH]; cbn [poll_until]; service. Qed.

#[local] Hint Resolve run_finalize run_mounts run_pre_start run_log_remote : service.
#[local] Hint Extern 3 (within service_run _) => apply from_host : service.
#[local] Hint Unfold inspect_container fetch_container_log_tail get_container_netns_ref ensure_container
  start_container stop_container : service.

Lemma run_start_failed {A} cid m : within service_run (start_failed cid m : Op W A).
Proof. unfold start_failed, workspace_container_log_tail, fetch_container_log_tail. service. Qed.
#[local] Hint Resolve run_start_failed : service.
Lemma run_ensure_running spec skip : within service_run (ensure_running_runtime_only spec skip).
Proof.
  unfold ensure_running_runtime_only, wait_post_start_inspect, ensure_container, start_container,
    get_container_netns_ref. service.
  apply run_poll_while. intros o. unfold post_start_round, inspect_container. service.
Qed.
#[local] Hint Resolve run_ensure_running : service.
Lemma run_start ctx c m p sec given : within service_run (bring_up_start_container svc ctx c m p sec given).
Proof. unfold bring_up_start_container. service. Qed.

Lemma run_exited {A} cid n w : within service_run (exited_before_attach cid n w : Op W A).
Proof. unfold exited_before_attach, fetch_container_log_tail. service. Qed.
#[local] Hint Resolve run_exited : service.
Lemma run_wait_alive cid phase w : within service_run (bring_up_wait_workspace_alive_for_topology cid phase w).
Proof.
  unfold bring_up_wait_workspace_alive_for_topology, inspect_container. service.
  apply run_poll_until. unfold alive_round, inspect_container. service.
Qed.
#[local] Hint Resolve run_wait_alive : service.
Lemma run_attach ctx running : within service_run (bring_up_attach_topology svc ctx running).
Proof.
  unfold bring_up_attach_topology, attach_steps, netns_precheck, inspect_container, fetch_container_log_tail,
    get_container_netns_ref. service.
Qed.

Lemma run_poll_service wait interval probe : (∀ t, within service_run (probe t)) →
  within service_run (poll_service (W := W) wait interval probe).
Proof.
  intros Hp. unfold poll_service. service. apply run_poll_while. intros o.
  unfold service_round. service.
Qed.
#[local] Hint Resolve run_poll_service : service.
Lemma run_probe ctx running netns att : within service_run (bring_up_run_probe svc ctx running netns att).
Proof.
  unfold bring_up_run_probe, bring_up_run_remote_host_port_probe, check_workspace_health, probe_failed. service.
Qed.

Lemma run_stop ws_id cid release : within service_run (stop_workspace_runtime svc ws_id cid release).
Proof.
  unfold stop_workspace_runtime, stop_load_inspection, stop_detach_topology_best_effort,
    detach_topology_best_effort, stop_container_best_effort, release_lease_best_effort, inspect_container,
    stop_container. service.
Qed.
Lemma run_evidence running : within service_run (bring_up_log_runtime_failure_before_rollback running).
Proof.
  unfold bring_up_log_runtime_failure_before_rollback, inspect_container, fetch_container_log_tail. service.
Qed.
End service_operations.

(** ** Outcomes *)

Section outcome.
Context {W : Type} {env : Env} {wk : WorkspaceSettings} {clock : Clock W} {adapter : RuntimeAdapter W}
  {topology : TopologyAdapter W} {probes : ProbeRunner W} {fs : HostFs W} {shell : RemoteShell W}.
Context (svc : OrchestratorConfig).
Implicit Types s : W * bool.

(** The last thing that happened since [s0]: a stop with release of the lease, that
    reported success. *)
Definition stopped_cleanly (wid : string) s0 s' : Prop :=
  ∃ s cid res, service_run s0 s ∧ stop_workspace_runtime svc wid cid true s = (s', inl res) ∧
    sr_success res = true.
(** Or a stop that raised. *)
Definition stop_raised (wid : string) s0 s' (e : Exn) : Prop :=
  ∃ s cid, service_run s0 s ∧ stop_workspace_runtime svc wid cid true s = (s', inr e).

Lemma wp_rollback_attempts l wid cid issues last
    (Q : bool * list string * option WorkspaceStopResult → W * bool → Prop) X s0 s : service_run s0 s →
  (∀ issues' res s', stopped_cleanly wid s0 s' → Q (true, issues', Some res) s') →
  (∀ issues' last' s', service_run s0 s' → (l ≠ [] ∨ issues ≠ [] → issues' ≠ []) → Q (false, issues', last') s') →
  (∀ e s', stop_raised wid s0 s' e → (∀ m, e ≠ WorkspaceStopError m) → X e s') →
  wp (rollback_attempts svc l wid cid issues last) Q X s.
Proof.
  intros Hs Hok Hno Hx. revert issues last s Hs Hno.
  induction l as [|n rest IH]; intros issues last s Hs Hno;
    [apply wp_ret, Hno; [done|by intros [?|?]]|].
  assert (Hnext : ∀ issue last' s', service_run s0 s' →
    wp (when (n =? 1) (sleep 350000) ;; rollback_attempts svc rest wid cid (issues ++ [issue]) last') Q X s').
  { intros issue last' s' Hs'. apply wp_bind.
    assert (Hr : ∀ s2, service_run s0 s2 →
      wp (rollback_attempts svc rest wid cid (issues ++ [issue]) last') Q X s2).
    { intros s2 H2. apply IH; [done|]. intros issues' last'' s3 H3 Hi. apply Hno; [done|]. intros _. apply Hi.
      right. by destruct issues. }
    destruct (n =? 1); unfold when; [apply wp_modify|by apply wp_ret, Hr].
    apply Hr. destruct s' as [w b]. eapply rtc_r; [done|apply step_sleep]. }
  cbn [rollback_attempts]. apply wp_bind, wp_attempt.
  pose proof (run_stop svc wid cid true s) as Hrun.
  destruct (stop_workspace_runtime svc wid cid true s) as [s' [res|e]] eqn:E; unfold wp at 1; rewrite E.
  - cbn in Hrun. destruct (sr_success res) eqn:Er;
      [apply wp_ret, Hok; by exists s, cid, res|apply Hnext; by etrans].
  - cbn in Hrun. destruct e; try (apply wp_raise, Hx; [by exists s, cid|done]). apply Hnext. by etrans.
Qed.

(** *** The probe's verdict *)

Definition verdict (r : WorkspaceBringUpResult) : Prop :=
  br_probe_healthy r = Some (br_success r) ∧ br_rollback_attempted r = false ∧ br_rollback_succeeded r = None.

(** A computation about which only its steps matter. *)
Lemma wp_runs {A} (m : Op W A) (Q : A → W * bool → Prop) X s0 s : within service_run m → service_run s0 s →
  (∀ a s', service_run s0 s' → Q a s') → (∀ e s', service_run s0 s' → X e s') → wp m Q X s.
Proof.
  intros Hm Hs HQ HX. specialize (Hm s). unfold wp.
  destruct (m s) as [s' [a|e]]; [apply HQ|apply HX]; by etrans.
Qed.
Lemma probe_verdict ctx running netns att s :
  wp (bring_up_run_probe svc ctx running netns att) (λ r _, verdict r) (λ _ _, True) s.
Proof.
  unfold bring_up_run_probe. destruct (svc_remote_topology_attach_deferred svc).
  - unfold bring_up_run_remote_host_port_probe. apply wp_bind, wp_any; [|done]. intros ctr s1.
    apply wp_bind, wp_any; [|done]. by intros service s2.
  - apply wp_bind, wp_any; [|done]. by intros health s1.
Qed.
Lemma wp_probe ctx running netns att (Q : WorkspaceBringUpResult → W * bool → Prop) X s0 s : service_run s0 s →
  (∀ r s', service_run s0 s' → verdict r → Q r s') → (∀ e s', service_run s0 s' → X e s') →
  wp (bring_up_run_probe svc ctx running netns att) Q X s.
Proof.
  intros Hs HQ HX. pose proof (run_probe svc ctx running netns att s) as Hm.
  pose proof (probe_verdict ctx running netns att s) as Hv. unfold wp in *.
  destruct (bring_up_run_probe svc ctx running netns att s) as [s' [r|e]]; [apply HQ|apply HX]; try done; by etrans.
Qed.

(** *** The theorem *)

Inductive bring_up_outcome (wid : string) s s' : WorkspaceBringUpResult + Exn → Prop :=
| bring_up_refused e : host_run s s' → bring_up_outcome wid s s' (inr e)
| bring_up_healthy r : br_success r = true → br_probe_healthy r = Some true →
    br_rollback_attempted r = false → br_rollback_succeeded r = None → bring_up_outcome wid s s' (inl r)
| bring_up_unhealthy r ok : br_success r = false → br_probe_healthy r = Some false →
    br_rollback_attempted r = true → br_rollback_succeeded r = Some ok →
    (ok = true → br_workspace_ip r = None ∧ br_internal_endpoint r = None ∧ br_gateway_route_target r = None ∧
                 stopped_cleanly wid s s') →
    bring_up_outcome wid s s' (inl r)
| bring_up_failed f ok : bue_rollback_attempted f = true → bue_rollback_succeeded f = Some ok →
    (ok = true → stopped_cleanly wid s s') → (ok = false → is_Some (bue_rollback_issues f)) →
    bring_up_outcome wid s s' (inr (WorkspaceBringUpError f))
| bring_up_rollback_raised e : stop_raised wid s s' e → (∀ m, e ≠ WorkspaceStopError m) →
    bring_up_outcome wid s s' (inr e).

Lemma wp_evidence running (Q : unit → W * bool → Prop) X s0 s : service_run s0 s →
  (∀ s', service_run s0 s' → Q tt s') →
  wp (bring_up_log_runtime_failure_before_rollback running) Q X s.
Proof.
  intros Hs HQ. pose proof (run_evidence running s) as Hr.
  assert (H : wp (bring_up_log_runtime_failure_before_rollback running) (λ _ _, True) (λ _ _, False) s).
  { unfold bring_up_log_runtime_failure_before_rollback. destruct (Py.strip_or_none _); [|done].
    by apply wp_try, wp_any. }
  unfold wp in *. destruct (bring_up_log_runtime_failure_before_rollback running s) as [s' [[]|e]]; [|done].
  apply HQ. by etrans.
Qed.

Lemma wp_failed_bring_up {A} ctx running e0 s0 s (Q : A → W * bool → Prop) : service_run s0 s →
  wp (failed_bring_up svc ctx running e0) Q (λ e s', bring_up_outcome (ctx_wid ctx) s0 s' (inr e)) s.
Proof.
  intros Hs. unfold failed_bring_up. apply wp_bind, (wp_evidence _ _ _ s0); [done|]. intros s1 H1. apply wp_bind.
  unfold bring_up_compensating_rollback. apply (wp_rollback_attempts _ _ _ _ _ _ _ s0); [done|..].
  - intros msgs res s' Hc. apply wp_raise. by eapply bring_up_failed.
  - intros msgs last s' _ Hi. apply wp_raise. eapply bring_up_failed; [done..|]. intros _.
    destruct msgs; [by destruct Hi; [left|]|by eexists].
  - intros e s' Hr He. by apply bring_up_rollback_raised.
Qed.

Lemma wp_unhealthy_bring_up ctx running r s0 s (Q : WorkspaceBringUpResult → W * bool → Prop) : service_run s0 s →
  (∀ r' s', bring_up_outcome (ctx_wid ctx) s0 s' (inl r') → Q r' s') →
  wp (unhealthy_bring_up svc ctx running r) Q (λ e s', bring_up_outcome (ctx_wid ctx) s0 s' (inr e)) s.
Proof.
  intros Hs HQ. unfold unhealthy_bring_up. apply wp_bind, (wp_evidence _ _ _ s0); [done|]. intros s1 H1.
  apply wp_bind. unfold bring_up_compensating_rollback. apply (wp_rollback_attempts _ _ _ _ _ _ _ s0); [done|..].
  - intros msgs res s' Hc. apply wp_ret, HQ. by eapply bring_up_unhealthy.
  - intros msgs last s' _ Hi. apply wp_ret, HQ. by eapply bring_up_unhealthy.
  - intros e s' Hr He. by apply bring_up_rollback_raised.
Qed.

Lemma outcome_applied wid s s' r a : bring_up_outcome wid s s' (inl r) →
  bring_up_outcome wid s s' (inl (bringup_result_with_applied r a)).
Proof.
  intros H. destruct a; [|done]. inversion H; subst; [by apply bring_up_healthy|by eapply bring_up_unhealthy].
Qed.

Lemma context_wid ws_id key v mode s :
  wp (bring_up_build_context svc ws_id key v mode) (λ ctx _, ctx_wid ctx = Py.strip ws_id) (λ _ _, True) s.
Proof.
  unfold bring_up_build_context. destruct (negb _); [done|].
  apply wp_bind, wp_any; [intros n s1|done]. cbv zeta. apply wp_bind, wp_any; [intros d s2|done].
  by apply wp_bind, wp_any.
Qed.

Lemma wp_context ws_id key v mode (Q : BringUpContext → W * bool → Prop) X s :
  (∀ ctx s', host_run s s' → ctx_wid ctx = Py.strip ws_id → Q ctx s') → (∀ e s', host_run s s' → X e s') →
  wp (bring_up_build_context svc ws_id key v mode) Q X s.
Proof.
  intros HQ HX. pose proof (run_build_context svc ws_id key v mode s) as Hw.
  pose proof (context_wid ws_id key v mode s) as Hc. unfold wp in *.
  destruct (bring_up_build_context svc ws_id key v mode s) as [s' [ctx|e]]; [by apply HQ|by apply HX].
Qed.

Lemma bring_up_ends ws_id key v c m p given mode s :
  let '(s', r) := bring_up_workspace_runtime svc ws_id key v c m p given mode s in
  bring_up_outcome (Py.strip ws_id) s s' r.
Proof.
  destruct (bring_up_workspace_runtime _ _ _ _ _ _ _ _ _ s) as [s' r] eqn:E.
  eapply (wp_run _ (λ r s', bring_up_outcome (Py.strip ws_id) s s' (inl r))
    (λ e s', bring_up_outcome (Py.strip ws_id) s s' (inr e))) in E; [by destruct r|].
  unfold bring_up_workspace_runtime. apply wp_bind, wp_context; [|intros; by apply bring_up_refused].
  intros ctx s1 HR Hwid. rewrite <- Hwid. apply wp_bind.
  unfold from_sum. destruct (resolve_bringup_runtime_limits_triplet c m p) as [[[cl ml] pl]|e];
    [apply wp_ret|by apply wp_raise, bring_up_refused].
  apply host_service in HR. apply wp_bind, wp_attempt, (wp_runs _ _ _ s);
    [apply run_start|done|intros running s2 H2|intros e s2 H2; by apply wp_bind, wp_failed_bring_up].
  apply wp_bind, wp_bind, wp_attempt, wp_bind, (wp_runs _ _ _ s);
    [apply run_attach|done|intros [netns att] s3 H3|intros e s3 H3; by apply wp_failed_bring_up].
  apply (wp_probe _ _ _ _ _ _ s); [done|intros r0 s4 H4 (Hp & Ha & Hn)|intros e s4 H4; by apply wp_failed_bring_up].
  destruct (br_success r0) eqn:Es.
  - apply wp_ret, wp_ret, outcome_applied, bring_up_healthy; [done|by rewrite Hp|done..].
  - apply wp_unhealthy_bring_up; [done|]. intros r1 s5 H. by apply wp_ret, outcome_applied.
Qed.
(** C4. How a bring-up ends, whatever the collaborators do.  It is refused before the
    engine, the topology and the probes are asked anything; or it reports a healthy
    workspace; or it reports an unhealthy one, or raises, after a rollback whose
    success means that the last operation was a stop with release of the address that
    reported success, and whose failure is explained; or the stop of a rollback
    raised something other than its own error, which then is the bring-up's. *)
Theorem bring_up_ends_healthy_or_rolled_back ws_id key v c m p given mode s :
  let '(s', r) := bring_up_workspace_runtime svc ws_id key v c m p given mode s in
  bring_up_outcome (Py.strip ws_id) s s' r.
Proof. apply bring_up_ends. Qed.
End outcome.
