(* ===== verification/OrchestratorTopology.v ===== *)
(** * OrchestratorTopology: the orchestrator over [DbTopologyAdapter]

    The instance of [TopologyAdapter] that libs/topology/db_topology_adapter.py gives,
    with the other collaborators beside the adapter's tables; and what a rolled back
    bring-up, a stop and a deletion leave there. *)

From S2P Require Import Prelude Models Session Services Ipaddress TopologyModels.
From S2P Require Import LinuxNet TopologyPlan Topology TopologyRepair.
From S2P Require Import Runtime HostFiles ProjectDirs Placement Orchestration BringUp.
From S2P Require Import OrchestratorOps BringUpOutcome.

(** ** Instances *)

Section instances.
Context {W : Type}.

(** An operation on the world beside the tables. *)
Definition beside {R} (f : W → W * R) (s : TopologyState W) : TopologyState W * R :=
  let '(w, r) := f (ts_world s) in (s <| ts_world := w |>, r).

#[export] Instance adapter_beside {a : RuntimeAdapter W} : RuntimeAdapter (TopologyState W) := {
  ad_ensure_container spec := beside (ad_ensure_container spec);
  ad_start_container cid := beside (ad_start_container cid);
  ad_stop_container cid := beside (ad_stop_container cid);
  ad_delete_container cid := beside (ad_delete_container cid);
  ad_inspect_container cid := beside (ad_inspect_container cid);
  ad_fetch_container_log_tail cid n := beside (ad_fetch_container_log_tail cid n);
  ad_get_container_netns_ref cid := beside (ad_get_container_netns_ref cid)
}.
#[export] Instance probes_beside {p : ProbeRunner W} : ProbeRunner (TopologyState W) := {
  hp_check_container_running cid := beside (hp_check_container_running cid);
  hp_check_service_reachable ip port t := beside (hp_check_service_reachable ip port t);
  hp_check_service_http ip port t := beside (hp_check_service_http ip port t);
  hp_check_workspace_health a b c d port t := beside (hp_check_workspace_health a b c d port t)
}.
#[export] Instance clock_beside {c : Clock W} : Clock (TopologyState W) := {
  clock_monotonic s := clock_monotonic (ts_world s);
  clock_sleep d s := s <| ts_world ::= clock_sleep d |>
}.
#[export] Instance shell_beside {r : RemoteShell W} : RemoteShell (TopologyState W) := {
  rs_run cmd := beside (rs_run cmd)
}.
#[export, program] Instance fs_beside {fs : HostFs W} : HostFs (TopologyState W) := {
  hf_tree s := hf_tree (ts_world s);
  hf_set_tree t s := s <| ts_world ::= hf_set_tree t |>;
  hf_denied op p s := hf_denied op p (ts_world s);
  hf_chown tool p s := hf_chown tool p (ts_world s);
  hf_rmtree p s := hf_rmtree p (ts_world s);
  hf_access k t p u g s := hf_access k t p u g (ts_world s);
  hf_euid := hf_euid; hf_egid := hf_egid; hf_has_chown := hf_has_chown;
  hf_has_setpriv := hf_has_setpriv; hf_has_runuser := hf_has_runuser; hf_tempdir := hf_tempdir;
  hf_container_uid := hf_container_uid; hf_container_gid := hf_container_gid
}.
Next Obligation. intros fs t s. apply hf_tree_set. Qed.
Next Obligation. intros fs tool p s q. apply hf_chown_all. Qed.
Next Obligation. intros fs p s q. apply hf_rmtree_all. Qed.
End instances.

Section db_topology.
Context {W : Type} {env : Env} {shared : SharedTables W} {host : HostNetwork W} {config : AdapterConfig W}.
(** Whether an operation between two states committed the shared session; the results
    below do not depend on it. *)
Context (committed : TopologyState W → TopologyState W → bool).

Definition in_session {R} (m : T W R) : Call (TopologyState W) R := λ s,
  let '(s', r) := m s in (s', committed s s', r).

#[export] Instance db_topology : TopologyAdapter (TopologyState W) := {
  tp_ensure_node_topology tid nid := in_session (ensure_node_topology tid nid);
  tp_allocate_workspace_ip tid nid wid := in_session (allocate_workspace_ip tid nid wid);
  tp_attach_workspace tid nid wid cid netns ip := in_session (attach_workspace tid nid wid cid netns ip);
  tp_detach_workspace tid nid wid := in_session (detach_workspace tid nid wid);
  tp_release_workspace_ip_lease tid nid wid := in_session (release_workspace_ip_lease tid nid wid);
  tp_delete_topology tid nid := in_session (delete_topology tid nid);
  tp_run_topology_janitor tid nid stale := in_session (run_topology_janitor tid nid stale);
  tp_assert_netns_attach_target_visible netns := in_session (assert_netns_attach_target_visible netns);
  tp_pid_visible pid s := hn_pid_visible (Py.str_of_Z pid) (ts_world s)
}.
End db_topology.

(** ** The adapter's state between operations *)

Create HintDb clean discriminated.

Section clean.
Context {W : Type} {env : Env} {shared : SharedTables W} {host : HostNetwork W} {config : AdapterConfig W}.
Context (quiet : calm).

Definition keeps_clean (s s' : TopologyState W) : Prop := clean s → clean s'.
#[export] Instance keeps_clean_preorder : PreOrder keeps_clean.
Proof. split; [by intros s ?|]. intros a b c. unfold keeps_clean. auto. Qed.

Lemma clean_query {A} (f : TopologyTables → A) : within keeps_clean (tquery f).
Proof. by intros s ?. Qed.
Lemma clean_rollback : within keeps_clean trollback.
Proof. intros s [Heq Hok]. split; [done|]. cbn. by rewrite <- Heq. Qed.
Lemma clean_commit g : within keeps_clean (commit_change g).
Proof.
  intros s Hc. assert (H : wp (commit_change g) (λ _ s', clean s') (λ _ s', clean s') s).
  { apply (wp_commit_calm quiet); [done|intros w t _ Hok; by apply clean_intro|].
    intros w e _. split; [done|apply Hc]. }
  unfold wp in H. by destruct (commit_change g s) as [s' [?|?]].
Qed.
Lemma clean_os {A} (m : T W A) : within same_tables m → within keeps_clean m.
Proof. intros H s [Heq Hok]. destruct (H s) as [H1 H2]. split; [congruence|by rewrite H1]. Qed.

Ltac clean_step :=
  match goal with
  | |- within _ (_ ≫= _) => apply (within_bind keeps_clean); [|intros ?]
  | |- within _ (try_except _ _) => apply (within_try keeps_clean); [|intros ?]
  | |- within _ (attempt _) => apply (within_attempt keeps_clean)
  | |- within _ (mret _) => apply (within_ret keeps_clean)
  | |- within _ (raise _) => apply (within_raise keeps_clean)
  | |- within _ (tquery _) => apply clean_query
  | |- within _ trollback => apply clean_rollback
  | |- within _ (commit_change _) => apply clean_commit
  | |- within _ (match ?x with _ => _ end) => destruct x
  | |- within _ (let _ := _ in _) => cbv zeta
  | |- within _ _ => solve [apply clean_os; linux_frame | eauto with clean]
  | |- within _ (except_runtime _ _) => unfold except_runtime
  | |- within _ (best_effort _) => unfold best_effort
  end.
Ltac solve_clean := repeat clean_step.

Lemma clean_runtime_of rid : within keeps_clean (runtime_of rid).
Proof. unfold runtime_of. solve_clean. Qed.
#[local] Hint Resolve clean_runtime_of : clean.
Lemma clean_sync rid : within keeps_clean (sync_linux_node_bridge rid).
Proof. unfold sync_linux_node_bridge. solve_clean. Qed.
#[local] Hint Resolve clean_sync : clean.
Lemma clean_write tid nid plan ex k : within keeps_clean (write_runtime tid nid plan ex k).
Proof.
  unfold write_runtime, choose_runtime_cidr_and_gateway, parse_ipv4_network, first_usable_host,
    allocate_child_subnet, gateway_for, first_usable_host. solve_clean.
Qed.
#[local] Hint Resolve clean_write : clean.
Lemma clean_ensure_attempts tid nid plan ks : within keeps_clean (ensure_attempts tid nid plan ks).
Proof. induction ks as [|k ks IH]; cbn [ensure_attempts]; solve_clean. Qed.
#[local] Hint Resolve clean_ensure_attempts : clean.
Lemma clean_ensure tid nid : within keeps_clean (ensure_node_topology tid nid).
Proof. unfold ensure_node_topology, node_bridge_plan, runtime_to_ensure_result. solve_clean. Qed.
#[local] Hint Resolve clean_ensure : clean.
Lemma clean_ready tid nid : within keeps_clean (ready_runtime (W := W) tid nid).
Proof. unfold ready_runtime. solve_clean. Qed.
#[local] Hint Resolve clean_ready : clean.
Lemma clean_allocate tid nid wid : within keeps_clean (allocate_workspace_ip tid nid wid).
Proof.
  unfold allocate_workspace_ip. cbv zeta. clean_step; [apply clean_ready|].
  induction (seqZ 0 ALLOCATE_IP_MAX_ATTEMPTS) as [|k ks IH]; cbn [allocate_attempts];
    unfold allocate_workspace_ip_attempt, lease_free_host, iter_candidate_workspace_hosts,
      gateway_as_address, used_ips; solve_clean.
Qed.
Lemma clean_failure tid nid wid aid h ip rel : within keeps_clean (attach_failure_best_effort tid nid wid aid h ip rel).
Proof. unfold attach_failure_best_effort, linux_detach_host_veth. solve_clean. Qed.
#[local] Hint Resolve clean_failure : clean.
Lemma clean_attach tid nid wid cid n ip : within keeps_clean (attach_workspace tid nid wid cid n ip).
Proof.
  unfold attach_workspace, attachable_runtime, require_leased_ip, checked_netns, fast_path, attach_anew,
    wire_attachment, persist_attached, run_linux_attach. solve_clean.
Qed.
Lemma clean_detach tid nid wid : within keeps_clean (detach_workspace tid nid wid).
Proof. unfold detach_workspace, linux_detach_host_veth. solve_clean. Qed.
Lemma clean_release tid nid wid : within keeps_clean (release_workspace_ip_lease tid nid wid).
Proof. unfold release_workspace_ip_lease. solve_clean. Qed.
Lemma clean_assert_netns n : within keeps_clean (assert_netns_attach_target_visible n).
Proof. apply clean_os. linux_frame. Qed.
End clean.

(** ** What a stop with release leaves *)

Section network.
Context {W : Type} {env : Env} {wk : WorkspaceSettings} {shared : SharedTables W} {host : HostNetwork W}
  {config : AdapterConfig W} {clock : Clock W} {adapter : RuntimeAdapter W} {probes : ProbeRunner W}
  {fs : HostFs W} {shell : RemoteShell W}.
Context (committed : TopologyState W → TopologyState W → bool) (svc : OrchestratorConfig).
#[local] Instance topology : TopologyAdapter (TopologyState W) := db_topology committed.
Implicit Types s : TopologyState W * bool.

Lemma after_in_session {R} (m : T W R) s : within keeps_clean m → clean s.1 → clean (after_call (in_session committed m) s).1.
Proof.
  intros Hm Hc. unfold after_call, in_session. cbn. specialize (Hm s.1 Hc).
  by destruct (m s.1) as [s' r].
Qed.
Lemma beside_clean {R} (f : W → W * R) (s : TopologyState W) : clean s → clean (beside f s).1.
Proof. intros Hc. unfold beside. by destruct (f (ts_world s)). Qed.

Lemma service_step_clean s s' : calm → service_step s s' → clean s.1 → clean s'.1.
Proof.
  intros Hq Hs. destruct Hs as [? ? []| | | | | | | | | | | | | | | | |]; cbn [fst];
    try (by intros; apply beside_clean); try done;
    intros; (apply after_in_session; [|done]);
    auto using clean_ensure, clean_allocate, clean_attach, clean_detach, clean_release, clean_assert_netns.
Qed.
Lemma service_run_clean s s' : calm → service_run s s' → clean s.1 → clean s'.1.
Proof. intros Hq. induction 1; [done|]. eauto using service_step_clean. Qed.

(** The network of a workspace is given up: its attachment is DETACHED, if it has one,
    and no lease of it is active. *)
Definition network_released (t : TopologyTables) (wid : Z) : Prop :=
  detached_of t (svc_topology_id svc) (normal_node_id (svc_node_id svc)) wid ∧
  released_of t (svc_topology_id svc) (normal_node_id (svc_node_id svc)) wid.

(** An issue of the topology fails the roll-up. *)
Lemma detach_issue_fails ok m l : stop_workspace_success_roll_up ok (Some false)
  (("topology:detach_failed:" ++ m)%string :: l) = false.
Proof.
  unfold stop_workspace_success_roll_up, any_issue. cbn [existsb].
  pose proof (Py.startswith_strip "t" (list_ascii_of_string "opology:detach_failed") ":" m eq_refl eq_refl) as H.
  change (string_of_list_ascii _) with "topology:detach_failed:"%string in H. by rewrite H.
Qed.
Lemma release_issue_fails ok d l m : stop_workspace_success_roll_up ok d
  (l ++ [("topology:ip_release_failed:" ++ m)%string]) = false.
Proof.
  unfold stop_workspace_success_roll_up. destruct (_ && _); [done|].
  assert (Ha : any_issue "topology:ip_release_failed:" (l ++ [("topology:ip_release_failed:" ++ m)%string]) = true).
  { apply existsb_exists. eexists. split; [apply in_app_iff; right; by left|].
    apply (Py.startswith_strip "t" (list_ascii_of_string "opology:ip_release_failed") ":" m); done. }
  by rewrite Ha.
Qed.

Lemma wp_beside {A} (f : W → W * (A + Exn)) (Q : A → TopologyState W * bool → Prop) X s :
  (∀ a w, Q a (s.1 <| ts_world := w |>, s.2)) → (∀ e w, X e (s.1 <| ts_world := w |>, s.2)) →
  wp (on_world (beside f)) Q X s.
Proof. intros HQ HX. unfold wp, on_world, beside. destruct (f (ts_world s.1)) as [w [a|e]]; auto. Qed.

Lemma wp_in_session {A} (m : T W A) (Q : A → TopologyState W * bool → Prop) X s :
  wp m (λ a (t : TopologyState W), ∀ b, Q a (t, b)) (λ e (t : TopologyState W), ∀ b, X e (t, b)) s.1 →
  wp (on_session (in_session committed m)) Q X s.
Proof. unfold wp, on_session, in_session. destruct (m s.1) as [s' [a|e]]; cbn; auto. Qed.

Lemma wp_stop_container cid (Q : bool * option string * list string → TopologyState W * bool → Prop) X s :
  (∀ r w, Q r (s.1 <| ts_world := w |>, s.2)) → (∀ m s', X (WorkspaceStopError m) s') →
  wp (stop_container_best_effort cid) Q X s.
Proof.
  intros HQ HX. unfold stop_container_best_effort. destruct cid as [cid|].
  2:{ apply wp_ret. specialize (HQ (false, None, ["runtime:container_id_missing"%string]) (ts_world s.1)).
      by destruct s as [[] b]. }
  apply wp_bind, wp_attempt, wp_beside; intros r w; [apply wp_ret, HQ|].
  destruct (is_runtime_adapter_error r); [apply wp_ret, HQ|by apply wp_raise].
Qed.

Lemma detached_same (t t' : TopologyTables) tid nid wid : tt_attachments t' = tt_attachments t →
  detached_of t tid nid wid → detached_of t' tid nid wid.
Proof. intros Ht H aid a. unfold attachment_of. rewrite Ht. apply H. Qed.

(** Stopping with release of the address, from a state without pending changes: a
    reported success means the network is released, and only the stop's own error is
    raised. *)
Lemma wp_stop_release ws_id cid s n : calm → clean s.1 →
  parse_topology_workspace_id (Py.strip ws_id) = inl n →
  wp (stop_workspace_runtime svc ws_id cid true)
    (λ res s', sr_success res = true → network_released (ts_tables s'.1) n)
    (λ e _, ∃ m, e = WorkspaceStopError m) s.
Proof.
  intros Hq Hc Hn. unfold stop_workspace_runtime. destruct (negb _); [by eexists|]. destruct (_ && _); [done|].
  apply wp_bind. unfold stop_load_inspection. apply wp_bind. unfold from_sum. rewrite Hn.
  apply wp_ret, wp_bind, wp_try, wp_beside; [intros ins w|intros; by eexists]. apply wp_ret, wp_bind.
  unfold stop_detach_topology_best_effort, detach_topology_best_effort. apply wp_bind, wp_attempt, wp_in_session.
  assert (Hc1 : clean (s.1 <| ts_world := w |>)) by apply Hc.
  assert (Hrel : ∀ s1 (Q : list string → TopologyState W * bool → Prop), clean s1.1 →
    (∀ l s2, tt_attachments (ts_tables s2.1) = tt_attachments (ts_tables s1.1) →
       released_of (ts_tables s2.1) (svc_topology_id svc) (normal_node_id (svc_node_id svc)) n → Q l s2) →
    wp (release_lease_best_effort svc n) Q (λ e _, ∃ m, e = WorkspaceStopError m) s1).
  { intros s1 Q H1 HQ. unfold release_lease_best_effort. apply wp_bind, wp_attempt, wp_in_session.
    apply (wp_release Hq); [done|]. intros rel s2 _ _ Ha Hr b. by apply wp_ret, HQ. }
  apply (wp_detach Hq); [done| |].
  - intros det s1 H1 _ _ Hd b. apply wp_ret, wp_bind, wp_stop_container; [intros [[ok st] msgs] w1|by eexists].
    apply wp_bind, Hrel; [apply H1|]. intros l s2 Ha Hr. apply wp_ret. intros _.
    split; [|done]. by eapply detached_same.
  - intros e s1 H1 _ b. destruct (is_topology_error e); [|by eexists].
    apply wp_ret, wp_bind, wp_stop_container; [intros [[ok st] msgs] w1|by eexists].
    apply wp_bind, Hrel; [apply H1|]. intros l s2 _ _. apply wp_ret. cbn [sr_success app].
    by rewrite detach_issue_fails.
Qed.

(** C5. A rollback gives the network back: on the topology adapter's own tables, when
    every commit succeeds, a bring-up that was not refused before anything but files
    and the node's shell was asked either reports a healthy workspace, or reports or
    raises the outcome of a rollback; and a successful rollback leaves no attachment
    of the workspace on the node that is not DETACHED and no active lease. *)
Theorem rolled_back_bring_up_releases_network ws_id key v c m p given mode s n
    (Hq : calm) (Hc : clean s.1) (Hn : parse_topology_workspace_id (Py.strip ws_id) = inl n) :
  let '(s', r) := bring_up_workspace_runtime svc ws_id key v c m p given mode s in
  host_run s s' ∨
  match r with
  | inl res => br_success res = true ∨
      br_rollback_attempted res = true ∧ (br_rollback_succeeded res = Some true → network_released (ts_tables s'.1) n)
  | inr (WorkspaceBringUpError f) => bue_rollback_attempted f = true ∧
      (bue_rollback_succeeded f = Some true → network_released (ts_tables s'.1) n)
  | inr _ => False
  end.
Proof.
  pose proof (bring_up_ends svc ws_id key v c m p given mode s) as H.
  destruct (bring_up_workspace_runtime _ _ _ _ _ _ _ _ _ s) as [s' r].
  assert (Hstop : ∀ s1 cid, service_run s s1 →
    wp (stop_workspace_runtime svc (Py.strip ws_id) cid true)
      (λ res s', sr_success res = true → network_released (ts_tables s'.1) n)
      (λ e _, ∃ m, e = WorkspaceStopError m) s1).
  { intros s1 cid Hr. apply wp_stop_release; [done|by eapply service_run_clean|by rewrite Py.strip_idem]. }
  assert (Hs : stopped_cleanly svc (Py.strip ws_id) s s' → network_released (ts_tables s'.1) n).
  { intros (s1 & cid & res & Hr & E & Hok). by apply (wp_run _ _ _ _ _ _ E (Hstop s1 cid Hr)). }
  destruct H as [e He|r H1 H2 H3 H4|r ok H1 H2 H3 H4 H5|f ok H1 H2 H3 H4|e (s1 & cid & Hr & E) He];
    [by left|right..].
  - by left.
  - right. split; [done|]. rewrite H4. intros [= ->]. by apply Hs, H5.
  - split; [done|]. rewrite H2. intros [= ->]. by apply Hs, H3.
  - destruct (wp_run _ _ _ _ _ _ E (Hstop s1 cid Hr)) as [x ->]. by destruct (He x).
Qed.
End network.
