(* ===== verification/Notifications.v ===== *)
(** * Notifications: what users are told, and through which channels

    notification_service: creating a notification for its recipients, dispatching it to
    the channels each has enabled, delivering and retrying, reading and dismissing,
    preferences and push subscriptions, and the notification of a job's outcome.  Every
    write of a repository commits, so the tables are one state; a row that violates a
    constraint raises and is not written.  SMTP and random values are an interface. *)

From S2P Require Import Prelude PyValues Models Scheduling.

(** ** Enumerations and tables *)

Module NotificationStatus.
Inductive notification_status : Set := PENDING | PARTIALLY_SENT | SENT | FAILED | CANCELLED.
#[export] Instance notification_status_eq_dec : EqDecision notification_status.
Proof. solve_decision. Defined.
End NotificationStatus.
Export (hints) NotificationStatus.
Abbreviation notification_status := NotificationStatus.notification_status (only parsing).

Module RecipientStatus.
Inductive recipient_status : Set := PENDING | DELIVERED | FAILED | READ | DISMISSED.
#[export] Instance recipient_status_eq_dec : EqDecision recipient_status.
Proof. solve_decision. Defined.
End RecipientStatus.
Export (hints) RecipientStatus.
Abbreviation recipient_status := RecipientStatus.recipient_status (only parsing).

Module DeliveryStatus.
Inductive delivery_status : Set := QUEUED | SENT | DELIVERED | FAILED | SKIPPED.
#[export] Instance delivery_status_eq_dec : EqDecision delivery_status.
Proof. solve_decision. Defined.
End DeliveryStatus.
Export (hints) DeliveryStatus.
Abbreviation delivery_status := DeliveryStatus.delivery_status (only parsing).

Module DeliveryChannel.
Inductive delivery_channel : Set := IN_APP | EMAIL | PUSH.
#[export] Instance delivery_channel_eq_dec : EqDecision delivery_channel.
Proof. solve_decision. Defined.
Definition value (c : delivery_channel) : string :=
  match c with IN_APP => "IN_APP" | EMAIL => "EMAIL" | PUSH => "PUSH" end.
End DeliveryChannel.
Export (hints) DeliveryChannel.
Abbreviation delivery_channel := DeliveryChannel.delivery_channel (only parsing).

Record Notification := mkNotification {
  nt_type : string;
  nt_title : string;
  nt_body : string;
  nt_payload_json : PyValue;
  nt_source_service : string;
  nt_source_event_id : option string;
  nt_priority : string;
  nt_status : notification_status;
  nt_created_at : time
}.
#[export] Instance rebuild_Notification : Rebuild Notification := fun r =>
  mkNotification (nt_type r) (nt_title r) (nt_body r) (nt_payload_json r) (nt_source_service r) (nt_source_event_id r)
    (nt_priority r) (nt_status r) (nt_created_at r).
Record NotificationRecipient := mkRecipient {
  nr_notification_id : Z;
  nr_user_id : Z;
  nr_status : recipient_status;
  nr_read_at : option time;
  nr_dismissed_at : option time
}.
#[export] Instance rebuild_NotificationRecipient : Rebuild NotificationRecipient := fun r =>
  mkRecipient (nr_notification_id r) (nr_user_id r) (nr_status r) (nr_read_at r) (nr_dismissed_at r).
(** The channel is the text of its column. *)
Record NotificationDelivery := mkDelivery {
  nd_notification_id : Z;
  nd_notification_recipient_id : Z;
  nd_channel : string;
  nd_provider : string;
  nd_status : delivery_status;
  nd_attempt_count : Z;
  nd_last_error_code : option string;
  nd_last_error_message : option string;
  nd_provider_message_id : option string;
  nd_sent_at : option time;
  nd_delivered_at : option time;
  nd_updated_at : time
}.
#[export] Instance rebuild_NotificationDelivery : Rebuild NotificationDelivery := fun r =>
  mkDelivery (nd_notification_id r) (nd_notification_recipient_id r) (nd_channel r) (nd_provider r) (nd_status r)
    (nd_attempt_count r) (nd_last_error_code r) (nd_last_error_message r) (nd_provider_message_id r) (nd_sent_at r)
    (nd_delivered_at r) (nd_updated_at r).
Record NotificationPreference := mkPreference {
  np_user_id : Z;
  np_notification_type : string;
  np_in_app_enabled : bool;
  np_email_enabled : bool;
  np_push_enabled : bool
}.
#[export] Instance rebuild_NotificationPreference : Rebuild NotificationPreference := fun r =>
  mkPreference (np_user_id r) (np_notification_type r) (np_in_app_enabled r) (np_email_enabled r) (np_push_enabled r).
Record PushSubscription := mkSubscription {
  ps_user_id : Z;
  ps_platform : string;
  ps_endpoint : string;
  ps_p256dh_key : option string;
  ps_auth_key : option string;
  ps_device_token : option string;
  ps_device_name : option string;
  ps_last_seen_at : time;
  ps_revoked : bool
}.
#[export] Instance rebuild_PushSubscription : Rebuild PushSubscription := fun r =>
  mkSubscription (ps_user_id r) (ps_platform r) (ps_endpoint r) (ps_p256dh_key r) (ps_auth_key r) (ps_device_token r)
    (ps_device_name r) (ps_last_seen_at r) (ps_revoked r).

(** [addresses] gives the e-mail address of each user that exists. *)
Record NotifyDb := mkNotifyDb {
  notifications : gmap Z Notification;
  receipts : gmap Z NotificationRecipient;
  attempts_made : gmap Z NotificationDelivery;
  channel_preferences : gmap Z NotificationPreference;
  push_subscriptions : gmap Z PushSubscription;
  addresses : gmap Z string;
  notification_seq : Z; receipt_seq : Z; delivery_seq : Z; preference_seq : Z; subscription_seq : Z
}.
#[export] Instance rebuild_NotifyDb : Rebuild NotifyDb := fun r =>
  mkNotifyDb (notifications r) (receipts r) (attempts_made r) (channel_preferences r) (push_subscriptions r) (addresses r)
    (notification_seq r) (receipt_seq r) (delivery_seq r) (preference_seq r) (subscription_seq r).

(** [NotifyFailure] is an [IntegrityError], an error of SMTP that is not handled, or a
    [ValueError]. *)
Inductive NotifyError :=
| NotificationNotFoundError | DeliveryNotFoundError | InvalidDeliveryStateError | PushSubscriptionNotFoundError
| NotifyHttp (status : Z) (detail : string)
| NotifyFailure (msg : string).

(** ** Sending *)

Class SmtpSettings := {
  smtp_host : string; smtp_port : Z; smtp_use_tls : bool; smtp_user : string; smtp_password : string;
  smtp_from_address : string
}.
Record RenderedEmail := mkEmail { em_to : string; em_subject : string; em_text_body : string; em_html_body : string }.
(** A session with the host: TLS, the login, the sender and the message.  It accepts the
    message, raises an [OSError] or [SMTPException], or another error. *)
Inductive SmtpOutcome := SmtpAccepted | SmtpRefused (msg : string) | SmtpRaised (msg : string).
Class Smtp (W : Type) := {
  smtp_send : string → Z → bool → option (string * string) → string → RenderedEmail → W → W * SmtpOutcome;
  smtp_token_hex : Z → W → W * string
}.

Record NotifySt (W : Type) := mkNotifySt { ns_db : NotifyDb; ns_world : W }.
Arguments mkNotifySt {W}.
Arguments ns_db {W}.
Arguments ns_world {W}.
#[export] Instance rebuild_NotifySt W : Rebuild (NotifySt W) := fun r => mkNotifySt (ns_db r) (ns_world r).
Abbreviation N W := (eff (NotifySt W) NotifyError).

Section notifications.
Context {W : Type} {env : Env} {settings : SmtpSettings} {smtp : Smtp W}.

Definition on_notify (f : NotifyDb → NotifyDb) : N W unit := modify (λ s, s <| ns_db ::= f |>).
Definition nquery {A} (f : NotifyDb → A) : N W A := gets (λ s, f (ns_db s)).
Definition smtp_call {A} (f : W → W * A) : N W A := λ s, let '(w, a) := f (ns_world s) in (s <| ns_world := w |>, inl a).

(** *** Repositories *)

(** The body's column holds 8192 characters. *)
Definition create_notification (n : Notification) : N W Z :=
  k ← nquery notification_seq;
  if 8192 <? Py.len (nt_body n) then raise (NotifyFailure "StringDataRightTruncation")
  else on_notify (λ db, db <| notifications ::= <[k := n]> |> <| notification_seq := k + 1 |>) ;; mret k.
Definition receipt_of (notification_id user_id : Z) (db : NotifyDb) : option (Z * NotificationRecipient) :=
  first_row (λ kr, nr_notification_id kr.2 = notification_id ∧ nr_user_id kr.2 = user_id) (receipts db).
(** The user must exist, and is a recipient at most once. *)
Definition create_recipient (notification_id user_id : Z) : N W Z :=
  k ← nquery receipt_seq;
  known ← nquery (λ db, addresses db !! user_id);
  twice ← nquery (receipt_of notification_id user_id);
  if negb (bool_decide (is_Some known)) || bool_decide (is_Some twice) then raise (NotifyFailure "IntegrityError")
  else
    on_notify (λ db, db <| receipts ::= <[k := mkRecipient notification_id user_id RecipientStatus.PENDING None None]> |>
                        <| receipt_seq := k + 1 |>) ;;
    mret k.
Definition create_delivery (notification_id notification_recipient_id : Z) (channel : string) (status : delivery_status) : N W Z :=
  k ← nquery delivery_seq;
  on_notify (λ db, db <| attempts_made ::= <[k := mkDelivery notification_id notification_recipient_id channel "stub" status 0
                                                   None None None None None env_now]> |>
                      <| delivery_seq := k + 1 |>) ;;
  mret k.
Definition get_delivery_by_id (delivery_id : Z) : N W (option NotificationDelivery) := nquery (λ db, attempts_made db !! delivery_id).
Definition update_delivery (delivery_id : Z) (f : NotificationDelivery → NotificationDelivery) : N W unit :=
  on_notify (λ db, db <| attempts_made ::= alter (λ d, (f d) <| nd_updated_at := env_now |>) delivery_id |>).
Definition list_deliveries_for_notification (notification_id : Z) (db : NotifyDb) : list (Z * NotificationDelivery) :=
  List.filter (λ kd, nd_notification_id kd.2 =? notification_id) (map_to_list (attempts_made db)).
Definition update_recipient (recipient_id : Z) (f : NotificationRecipient → NotificationRecipient) : N W unit :=
  on_notify (λ db, db <| receipts ::= alter f recipient_id |>).
Definition get_preference_by_user_and_type (user_id : Z) (ty : string) (db : NotifyDb) : option (Z * NotificationPreference) :=
  first_row (λ kp, np_user_id kp.2 = user_id ∧ np_notification_type kp.2 = ty) (channel_preferences db).
Definition list_subscriptions_for_user (user_id : Z) (include_revoked : bool) (db : NotifyDb) : list (Z * PushSubscription) :=
  List.filter (λ ks, (ps_user_id ks.2 =? user_id) && (include_revoked || negb (ps_revoked ks.2))) (map_to_list (push_subscriptions db)).

(** *** Channels *)

Definition delivered (provider : string) (mid : option string) (d : NotificationDelivery) : NotificationDelivery :=
  d <| nd_status := DeliveryStatus.DELIVERED |> <| nd_sent_at := Some env_now |> <| nd_delivered_at := Some env_now |>
    <| nd_provider_message_id := mid |> <| nd_provider := provider |>.
Definition failed_with (err : string) (d : NotificationDelivery) : NotificationDelivery :=
  d <| nd_status := DeliveryStatus.FAILED |> <| nd_last_error_message := Some err |>.

Definition apply_in_app_delivery (delivery_id : Z) : N W unit :=
  update_delivery delivery_id (λ d, d <| nd_status := DeliveryStatus.DELIVERED |> <| nd_sent_at := Some env_now |>
                                      <| nd_delivered_at := Some env_now |> <| nd_provider := "in_app"%string |>).

Definition render_email (n : Notification) (to_email : string) : RenderedEmail :=
  mkEmail to_email (nt_title n) (nt_body n) ("<html><body><p>" ++ nt_body n ++ "</p></body></html>").
(** The provider's id of the message, or the error *)
Definition send_via_smtp (rendered : RenderedEmail) : N W (string + string) :=
  let from_addr := Py.strip smtp_from_address in
  if negb (Py.truthy from_addr) then mret (inr "smtp_from_address is not configured"%string)
  else if negb (Py.truthy (Py.strip (em_to rendered))) then mret (inr "recipient address is empty"%string)
  else
    let user := Py.strip smtp_user in
    let credentials := if Py.truthy user then Some (user, smtp_password) else None in
    sent ← smtp_call (smtp_send (Py.strip smtp_host) smtp_port smtp_use_tls credentials from_addr rendered);
    match sent with
    | SmtpRefused e => mret (inr (Py.prefix_to 2048 e))
    | SmtpRaised e => raise (NotifyFailure e)
    | SmtpAccepted => hex ← smtp_call (smtp_token_hex 8); mret (inl ("smtp-" ++ hex)%string)
    end.
Definition send_email (rendered : RenderedEmail) : N W (string + string) :=
  if negb (Py.truthy (Py.strip smtp_host)) then mret (inl "stub-email-message-id"%string) else send_via_smtp rendered.
Definition apply_email_delivery (delivery_id : Z) (n : Notification) (r : NotificationRecipient) : N W unit :=
  user ← nquery (λ db, addresses db !! nr_user_id r);
  sent ← send_email (render_email n (default ""%string user));
  let provider := if Py.truthy (Py.strip smtp_host) then "smtp"%string else "stub_email"%string in
  update_delivery delivery_id (match sent with inl mid => delivered provider (Some mid) | inr err => failed_with err end).

Definition send_push (user_id : Z) : N W (string + string) :=
  subs ← nquery (list_subscriptions_for_user user_id false);
  mret (match subs with [] => inr "no_active_push_subscriptions"%string | _ => inl "stub-push-message-id"%string end).
Definition apply_push_delivery (delivery_id : Z) (r : NotificationRecipient) : N W unit :=
  sent ← send_push (nr_user_id r);
  update_delivery delivery_id (match sent with inl mid => delivered "stub_push" (Some mid) | inr err => failed_with err end).

(** *** Deliveries *)

Definition error_text (e : NotifyError) : string := match e with NotifyFailure m => m | _ => ""%string end.
Definition run_channel (delivery_id : Z) (d : NotificationDelivery) (n : Notification) (r : NotificationRecipient) : N W unit :=
  if String.eqb (nd_channel d) (DeliveryChannel.value DeliveryChannel.IN_APP) then apply_in_app_delivery delivery_id
  else if String.eqb (nd_channel d) (DeliveryChannel.value DeliveryChannel.EMAIL) then apply_email_delivery delivery_id n r
  else if String.eqb (nd_channel d) (DeliveryChannel.value DeliveryChannel.PUSH) then apply_push_delivery delivery_id r
  else update_delivery delivery_id (failed_with ("unknown_channel:" ++ nd_channel d)).
Definition promote_recipient (delivery_id : Z) : N W (option NotificationDelivery) :=
  final ← get_delivery_by_id delivery_id;
  match final with
  | None => mret None
  | Some d =>
      rec ← nquery (λ db, receipts db !! nd_notification_recipient_id d);
      when (bool_decide (nd_status d = DeliveryStatus.DELIVERED) &&
            bool_decide (nr_status <$> rec = Some RecipientStatus.PENDING))
        (update_recipient (nd_notification_recipient_id d) (λ r, r <| nr_status := RecipientStatus.DELIVERED |>)) ;;
      mret (Some d)
  end.
Definition try_deliver (delivery_id : Z) : N W (option NotificationDelivery) :=
  found ← get_delivery_by_id delivery_id;
  match found with
  | None => mret None
  | Some d =>
      if bool_decide (nd_status d = DeliveryStatus.SKIPPED) then mret (Some d)
      else
        update_delivery delivery_id (λ d, d <| nd_attempt_count ::= Z.succ |>) ;;
        n ← nquery (λ db, notifications db !! nd_notification_id d);
        r ← nquery (λ db, receipts db !! nd_notification_recipient_id d);
        match n, r with
        | Some n, Some r =>
            try_except (run_channel delivery_id d n r)
              (λ e, update_delivery delivery_id (failed_with (Py.prefix_to 2048 (error_text e)))) ;;
            promote_recipient delivery_id
        | _, _ =>
            update_delivery delivery_id (failed_with "missing_notification_or_recipient") ;;
            get_delivery_by_id delivery_id
        end
  end.
Definition retry_delivery (delivery_id : Z) : N W NotificationDelivery :=
  found ← get_delivery_by_id delivery_id;
  match found with
  | None => raise DeliveryNotFoundError
  | Some d =>
      if negb (bool_decide (nd_status d = DeliveryStatus.FAILED)) then raise InvalidDeliveryStateError
      else
        update_delivery delivery_id (λ d, d <| nd_status := DeliveryStatus.QUEUED |> <| nd_last_error_code := None |>
                                            <| nd_last_error_message := None |>) ;;
        result ← try_deliver delivery_id;
        match result with Some d => mret d | None => raise DeliveryNotFoundError end
  end.

(** *** Dispatch *)

Definition all_channels : list delivery_channel := [DeliveryChannel.IN_APP; DeliveryChannel.EMAIL; DeliveryChannel.PUSH].
Definition resolve_enabled_channels (user_id : Z) (ty : string) (db : NotifyDb) : list delivery_channel :=
  match get_preference_by_user_and_type user_id ty db with
  | None => all_channels
  | Some (_, p) =>
      (if np_in_app_enabled p then [DeliveryChannel.IN_APP] else []) ++
      (if np_email_enabled p then [DeliveryChannel.EMAIL] else []) ++
      (if np_push_enabled p then [DeliveryChannel.PUSH] else [])
  end.
Definition dispatch_channel (notification_id recipient_id : Z) (enabled : list delivery_channel) (c : delivery_channel) : N W unit :=
  if negb (bool_decide (c ∈ enabled)) then
    create_delivery notification_id recipient_id (DeliveryChannel.value c) DeliveryStatus.SKIPPED ;; mret tt
  else
    d ← create_delivery notification_id recipient_id (DeliveryChannel.value c) DeliveryStatus.QUEUED;
    try_deliver d ;; mret tt.
Definition dispatch_for_recipient (notification_id : Z) (ty : string) (recipient_id user_id : Z) : N W unit :=
  enabled ← nquery (resolve_enabled_channels user_id ty);
  for_each all_channels (dispatch_channel notification_id recipient_id enabled).

Definition derive_notification_status (statuses : list delivery_status) : notification_status :=
  let any st := existsb (λ s, bool_decide (s = st)) statuses in
  if any DeliveryStatus.QUEUED then NotificationStatus.PENDING
  else if forallb (λ s, bool_decide (s = DeliveryStatus.SKIPPED)) statuses then NotificationStatus.SENT
  else if any DeliveryStatus.FAILED then
    (if any DeliveryStatus.DELIVERED then NotificationStatus.PARTIALLY_SENT else NotificationStatus.FAILED)
  else NotificationStatus.SENT.
Definition refresh_notification_status (notification_id : Z) : N W unit :=
  rows ← nquery (list_deliveries_for_notification notification_id);
  match rows with
  | [] => mret tt
  | _ =>
      let new_status := derive_notification_status (map (λ kd, nd_status kd.2) rows) in
      n ← nquery (λ db, notifications db !! notification_id);
      match n with
      | None => mret tt
      | Some n =>
          when (negb (bool_decide (nt_status n = new_status)))
            (on_notify (λ db, db <| notifications ::= alter (λ n, n <| nt_status := new_status |>) notification_id |>))
      end
  end.

(** ** Services *)

Definition create_notification_event (ty title body : string) (payload : PyValue) (recipient_user_ids : list Z)
    (priority source_service : string) (source_event_id : option string) : N W (Z * Notification) :=
  nid ← create_notification (mkNotification ty title body payload source_service source_event_id priority
                               NotificationStatus.PENDING env_now);
  for_each recipient_user_ids (λ uid,
    rid ← create_recipient nid uid;
    dispatch_for_recipient nid ty rid uid) ;;
  refresh_notification_status nid ;;
  refreshed ← nquery (λ db, notifications db !! nid);
  match refreshed with Some n => mret (nid, n) | None => raise (NotifyFailure "AssertionError") end.

(** The page, newest first, and how many there are in all *)
Definition listed (filter_mode : string) (r : NotificationRecipient) : bool :=
  if String.eqb filter_mode "unread" then
    bool_decide (nr_read_at r = None) && bool_decide (nr_dismissed_at r = None)
  else if String.eqb filter_mode "read" then bool_decide (is_Some (nr_read_at r))
  else true.
Definition receipts_of_user (user_id : Z) (filter_mode : string) (db : NotifyDb) : list (Z * NotificationRecipient) :=
  List.filter (λ kr, (nr_user_id kr.2 =? user_id) && listed filter_mode kr.2) (map_to_list (receipts db)).
Definition list_notifications_for_user (user_id : Z) (filter_mode : string) (limit offset : Z) (db : NotifyDb)
    : list (Notification * NotificationRecipient) * Z :=
  let mine := receipts_of_user user_id filter_mode db in
  let joined := omap (λ kr, n ← notifications db !! nr_notification_id kr.2; Some (n, kr.2)) mine in
  let newest_first := sort_by (λ a b, nt_created_at b.1 <=? nt_created_at a.1) joined in
  (take (Z.to_nat limit) (drop (Z.to_nat offset) newest_first), Z.of_nat (length mine)).

Definition get_notification_for_user (user_id notification_id : Z) : N W (Notification * (Z * NotificationRecipient)) :=
  found ← nquery (receipt_of notification_id user_id);
  match found with
  | None => raise NotificationNotFoundError
  | Some r =>
      n ← nquery (λ db, notifications db !! notification_id);
      match n with None => raise NotificationNotFoundError | Some n => mret (n, r) end
  end.
Definition read_now (r : NotificationRecipient) : NotificationRecipient :=
  r <| nr_read_at := Some env_now |> <| nr_status := RecipientStatus.READ |>.
Definition dismissed_now (r : NotificationRecipient) : NotificationRecipient :=
  r <| nr_dismissed_at := Some env_now |> <| nr_status := RecipientStatus.DISMISSED |>.
Definition mark_read (user_id notification_id : Z) : N W NotificationRecipient :=
  found ← get_notification_for_user user_id notification_id;
  let '(rid, r) := found.2 in
  update_recipient rid read_now ;; mret (read_now r).
Definition mark_read_bulk (user_id : Z) (notification_ids : list Z) : N W (list NotificationRecipient) :=
  rows ← nquery (λ db, List.filter (λ kr, (nr_user_id kr.2 =? user_id) && bool_decide (nr_notification_id kr.2 ∈ notification_ids))
                         (map_to_list (receipts db)));
  for_each rows (λ kr, update_recipient kr.1 read_now) ;;
  mret (map (λ kr, read_now kr.2) rows).
Definition dismiss_notification (user_id notification_id : Z) : N W NotificationRecipient :=
  found ← get_notification_for_user user_id notification_id;
  let '(rid, r) := found.2 in
  update_recipient rid dismissed_now ;; mret (dismissed_now r).
Definition validate_priority (value : string) : N W string :=
  if bool_decide (value ∈ ["LOW"; "NORMAL"; "HIGH"; "CRITICAL"]%string) then mret value
  else raise (NotifyFailure ("invalid priority: " ++ value)).

Definition list_preferences_for_user (user_id : Z) (db : NotifyDb) : list (Z * NotificationPreference) :=
  List.filter (λ kp, np_user_id kp.2 =? user_id) (map_to_list (channel_preferences db)).
Definition upsert_preference (user_id : Z) (ty : string) (in_app_enabled email_enabled push_enabled : bool) : N W unit :=
  existing ← nquery (get_preference_by_user_and_type user_id ty);
  match existing with
  | None => on_notify (λ db, db <| channel_preferences ::= <[preference_seq db := mkPreference user_id ty in_app_enabled email_enabled push_enabled]> |>
                                <| preference_seq := preference_seq db + 1 |>)
  | Some (k, _) =>
      on_notify (λ db, db <| channel_preferences ::= alter (λ p, p <| np_in_app_enabled := in_app_enabled |>
                                                                  <| np_email_enabled := email_enabled |>
                                                                  <| np_push_enabled := push_enabled |>) k |>)
  end.

Definition register_subscription (user_id : Z) (platform endpoint : string)
    (p256dh_key auth_key device_token device_name : option string) : N W unit :=
  on_notify (λ db, db <| push_subscriptions ::= <[subscription_seq db := mkSubscription user_id platform endpoint p256dh_key auth_key
                                                    device_token device_name env_now false]> |>
                      <| subscription_seq := subscription_seq db + 1 |>).
Definition revoke_subscription (user_id push_subscription_id : Z) : N W unit :=
  found ← nquery (λ db, push_subscriptions db !! push_subscription_id);
  match found with
  | Some s => if ps_user_id s =? user_id
              then on_notify (λ db, db <| push_subscriptions ::= alter (λ s, s <| ps_revoked := true |>) push_subscription_id |>)
              else raise PushSubscriptionNotFoundError
  | None => raise PushSubscriptionNotFoundError
  end.

(** ** The outcome of a job *)

(** [_WORKSPACE_JOB_NOTIFICATION_MAP]: type, title and the end of the body *)
Definition WORKSPACE_JOB_NOTIFICATION_MAP (ty : workspace_job_type) (st : workspace_job_status) : option (string * string * string) :=
  match ty, st with
  | WorkspaceJobType.CREATE, WorkspaceJobStatus.SUCCEEDED => Some ("workspace.create.succeeded", "Workspace created", "is ready to use.")
  | WorkspaceJobType.CREATE, WorkspaceJobStatus.FAILED => Some ("workspace.create.failed", "Workspace creation failed", "could not be created.")
  | WorkspaceJobType.STOP, WorkspaceJobStatus.SUCCEEDED => Some ("workspace.stop.succeeded", "Workspace stopped", "has been stopped.")
  | WorkspaceJobType.STOP, WorkspaceJobStatus.FAILED => Some ("workspace.stop.failed", "Workspace stop failed", "could not be stopped.")
  | WorkspaceJobType.RESTART, WorkspaceJobStatus.SUCCEEDED => Some ("workspace.restart.succeeded", "Workspace restarted", "is back online.")
  | WorkspaceJobType.RESTART, WorkspaceJobStatus.FAILED => Some ("workspace.restart.failed", "Workspace restart failed", "could not be restarted.")
  | WorkspaceJobType.DELETE, WorkspaceJobStatus.SUCCEEDED => Some ("workspace.delete.succeeded", "Workspace deleted", "has been deleted.")
  | WorkspaceJobType.DELETE, WorkspaceJobStatus.FAILED => Some ("workspace.delete.failed", "Workspace delete failed", "could not be deleted.")
  | _, _ => None
  end%string.
Definition job_type_text (ty : workspace_job_type) : string :=
  match ty with
  | WorkspaceJobType.CREATE => "CREATE" | WorkspaceJobType.START => "START" | WorkspaceJobType.STOP => "STOP"
  | WorkspaceJobType.RESTART => "RESTART" | WorkspaceJobType.DELETE => "DELETE" | WorkspaceJobType.UPDATE => "UPDATE"
  | WorkspaceJobType.RECONCILE_RUNTIME => "RECONCILE_RUNTIME" | WorkspaceJobType.SNAPSHOT_CREATE => "SNAPSHOT_CREATE"
  | WorkspaceJobType.SNAPSHOT_RESTORE => "SNAPSHOT_RESTORE" | WorkspaceJobType.REPO_IMPORT => "REPO_IMPORT"
  | WorkspaceJobType.Unrecognized raw => raw
  end.
Definition job_status_text (st : workspace_job_status) : string :=
  match st with
  | WorkspaceJobStatus.QUEUED => "QUEUED" | WorkspaceJobStatus.RUNNING => "RUNNING" | WorkspaceJobStatus.SUCCEEDED => "SUCCEEDED"
  | WorkspaceJobStatus.FAILED => "FAILED" | WorkspaceJobStatus.CANCELLED => "CANCELLED"
  end.
Definition job_error (j : WorkspaceJob) : string := default ""%string (job_error_msg j).
Definition maybe_emit_workspace_lifecycle_notification (wid : Z) (w : Workspace) (jid : Z) (j : WorkspaceJob) : N W unit :=
  match WORKSPACE_JOB_NOTIFICATION_MAP (job_type j) (job_status j) with
  | None => mret tt
  | Some (ty, title, default_suffix) =>
      let is_failed := bool_decide (job_status j = WorkspaceJobStatus.FAILED) in
      let body := (dquoted (ws_name w) ++ " " ++ default_suffix)%string in
      let body := if is_failed && Py.truthy (job_error j) then (body ++ " " ++ job_error j)%string else body in
      let code := default ""%string (ws_last_error_code w) in
      let payload := dict_of
        ([("workspace_id", PInt wid); ("workspace_name", PStr (ws_name w));
          ("workspace_status", PStr (WorkspaceStatus.value (ws_status w))); ("job_id", PInt jid);
          ("job_type", PStr (job_type_text (job_type j))); ("job_status", PStr (job_status_text (job_status j)))]%string ++
         (if Py.truthy (job_error j) then [("error_message"%string, PStr (job_error j))] else []) ++
         (if Py.truthy code then [("last_error_code"%string, PStr code)] else [])) in
      create_notification_event ty title body (PDict payload) [ws_owner_user_id w]
        (if is_failed then "HIGH" else "NORMAL") "workspace_job_worker"
        (Some ("workspace_job:" ++ Py.str_of_Z jid ++ ":" ++ ty)%string) ;;
      mret tt
  end.

(** ** Routes

    The user is the one [get_current_user] found. *)

Definition answering_notify {A} (f : NotifyError → option (Z * string)) (m : N W A) : N W A :=
  try_except m (λ e, match f e with Some (status, detail) => raise (NotifyHttp status detail) | None => raise e end).
Definition not_found (e : NotifyError) : option (Z * string) :=
  match e with NotificationNotFoundError => Some (404, "Notification not found"%string) | _ => None end.

Definition internal_create_notification (ty title body : string) (payload : PyValue) (recipient_user_ids : list Z)
    (priority source_service : string) (source_event_id : option string) : N W (Z * Notification) :=
  p ← validate_priority priority;
  create_notification_event ty title body payload recipient_user_ids p source_service source_event_id.
Definition internal_retry_delivery (delivery_id : Z) : N W NotificationDelivery :=
  answering_notify (λ e, match e with
    | DeliveryNotFoundError => Some (404, "Delivery not found"%string)
    | InvalidDeliveryStateError => Some (409, "Delivery is not in a failed state"%string)
    | _ => None end) (retry_delivery delivery_id).
Definition get_notification (user_id notification_id : Z) : N W (Notification * (Z * NotificationRecipient)) :=
  answering_notify not_found (get_notification_for_user user_id notification_id).
Definition mark_notification_read (user_id notification_id : Z) : N W (Notification * NotificationRecipient) :=
  rec ← answering_notify not_found (mark_read user_id notification_id);
  n ← get_notification_for_user user_id notification_id;
  mret (n.1, rec).
Definition dismiss_notification_route (user_id notification_id : Z) : N W (Notification * NotificationRecipient) :=
  rec ← answering_notify not_found (dismiss_notification user_id notification_id);
  n ← get_notification_for_user user_id notification_id;
  mret (n.1, rec).
Fixpoint with_notifications (user_id : Z) (recs : list NotificationRecipient) : N W (list (Notification * NotificationRecipient)) :=
  match recs with
  | [] => mret []
  | rec :: recs =>
      n ← get_notification_for_user user_id (nr_notification_id rec);
      rest ← with_notifications user_id recs;
      mret ((n.1, rec) :: rest)
  end.
Definition mark_notifications_read_bulk (user_id : Z) (notification_ids : list Z) : N W (list (Notification * NotificationRecipient)) :=
  recs ← mark_read_bulk user_id notification_ids;
  with_notifications user_id recs.
Definition put_preferences (user_id : Z) (items : list (string * (bool * bool * bool))) : N W (list (Z * NotificationPreference)) :=
  for_each items (λ '(ty, (a, e, p)), upsert_preference user_id ty a e p) ;;
  nquery (list_preferences_for_user user_id).
Definition revoke_push_subscription (user_id push_subscription_id : Z) : N W unit :=
  answering_notify (λ e, match e with PushSubscriptionNotFoundError => Some (404, "Push subscription not found"%string) | _ => None end)
    (revoke_subscription user_id push_subscription_id).
End notifications.

(** ** Rules *)

Definition set_delivery (k : Z) (d : NotificationDelivery) (db : NotifyDb) : NotifyDb := db <| attempts_made ::= <[k := d]> |>.
Definition set_receipt (k : Z) (r : NotificationRecipient) (db : NotifyDb) : NotifyDb := db <| receipts ::= <[k := r]> |>.
Lemma set_delivery_twice k d d' db : set_delivery k d' (set_delivery k d db) = set_delivery k d' db.
Proof. destruct db. unfold set_delivery, field_update. cbn. by rewrite insert_insert_eq. Qed.

Section rules.
Context {W : Type} {env : Env} {settings : SmtpSettings} {smtp : Smtp W}.
Implicit Types (s : NotifySt W) (db : NotifyDb).

Lemma wp_on_notify f (Q : unit → NotifySt W → Prop) X s : Q tt (s <| ns_db ::= f |>) → wp (on_notify f) Q X s.
Proof. done. Qed.
Lemma wp_nquery {A} (f : NotifyDb → A) (Q : A → NotifySt W → Prop) X s : Q (f (ns_db s)) s → wp (nquery f) Q X s.
Proof. done. Qed.
Lemma wp_smtp_call {A} (f : W → W * A) (Q : A → NotifySt W → Prop) X s :
  (∀ w a, Q a (s <| ns_world := w |>)) → wp (smtp_call f) Q X s.
Proof. intros H. unfold wp, smtp_call. destruct (f _) as [w a]. apply H. Qed.
Lemma wp_answering_notify {A} f (m : N W A) (Q : A → NotifySt W → Prop) X s :
  wp m Q (λ _ s', ∀ e, X e s') s → wp (answering_notify f m) Q X s.
Proof.
  intros H. unfold answering_notify. apply wp_try. eapply wp_mono; [exact H|done|]. intros e s' HX. cbn beta.
  destruct (f e) as [[? ?]|]; apply wp_raise, HX.
Qed.
Lemma wp_update_delivery k d f (Q : unit → NotifySt W → Prop) X s : attempts_made (ns_db s) !! k = Some d →
  Q tt (s <| ns_db ::= set_delivery k ((f d) <| nd_updated_at := env_now |>) |>) → wp (update_delivery k f) Q X s.
Proof. intros Hd HQ. apply wp_on_notify. revert Hd HQ. destruct s as [[] w]. intros Hd. unfold set_delivery, field_update. cbn. by erewrite alter_insert. Qed.
Lemma wp_update_recipient k r f (Q : unit → NotifySt W → Prop) X s : receipts (ns_db s) !! k = Some r →
  Q tt (s <| ns_db ::= set_receipt k (f r) |>) → wp (update_recipient k f) Q X s.
Proof. intros Hd HQ. apply wp_on_notify. revert Hd HQ. destruct s as [[] w]. intros Hd. unfold set_receipt, field_update. cbn. by erewrite alter_insert. Qed.

(** *** One attempt *)

Definition subscribed (uid : Z) (db : NotifyDb) : bool :=
  match list_subscriptions_for_user uid false db with [] => false | _ => true end.
(** What an attempt on [c] makes of the delivery [d]; [sub] tells whether the user has a
    push subscription. *)
Record attempted_on (c : delivery_channel) (sub : bool) (d d' : NotificationDelivery) : Prop := {
  at_notification : nd_notification_id d' = nd_notification_id d;
  at_recipient : nd_notification_recipient_id d' = nd_notification_recipient_id d;
  at_channel : nd_channel d' = nd_channel d;
  at_count : nd_attempt_count d' = nd_attempt_count d + 1;
  at_status :
    match c with
    | DeliveryChannel.IN_APP => nd_status d' = DeliveryStatus.DELIVERED
    | DeliveryChannel.PUSH => nd_status d' = if sub then DeliveryStatus.DELIVERED else DeliveryStatus.FAILED
    | DeliveryChannel.EMAIL =>
        nd_status d' = DeliveryStatus.DELIVERED ∨
        (nd_status d' = DeliveryStatus.FAILED ∧ Py.truthy (Py.strip smtp_host) = true)
    end;
  at_delivered : nd_status d' = DeliveryStatus.DELIVERED → nd_delivered_at d' = Some env_now;
  at_failed : nd_status d' = DeliveryStatus.FAILED → is_Some (nd_last_error_message d')
}.
Definition promoted (d : NotificationDelivery) (r : NotificationRecipient) : NotificationRecipient :=
  if bool_decide (nd_status d = DeliveryStatus.DELIVERED) && bool_decide (nr_status r = RecipientStatus.PENDING)
  then r <| nr_status := RecipientStatus.DELIVERED |> else r.

Lemma wp_send_email rendered (Q : string + string → NotifySt W → Prop) X s :
  (∀ mid w, Q (inl mid) (s <| ns_world := w |>)) →
  (Py.truthy (Py.strip smtp_host) = true → ∀ err w, Q (inr err) (s <| ns_world := w |>) ∧ ∀ e, X e (s <| ns_world := w |>)) →
  wp (send_email rendered) Q X s.
Proof.
  intros Hok Hbad. assert (Hs : s = s <| ns_world := ns_world s |>) by (by destruct s).
  unfold send_email, send_via_smtp. destruct (Py.truthy (Py.strip smtp_host)) eqn:Eh; cbn [negb].
  2:{ rewrite Hs. apply wp_ret, Hok. }
  assert (Hi : ∀ err, Q (inr err) s) by (intros err; rewrite Hs; by apply Hbad).
  destruct (negb _); [by apply wp_ret|]. destruct (negb _); [by apply wp_ret|].
  apply wp_bind, wp_smtp_call. intros w [|e|e].
  - apply wp_bind, wp_smtp_call. intros w' hex. apply wp_ret. exact (Hok _ w').
  - apply wp_ret. by apply Hbad.
  - apply wp_raise. by apply Hbad.
Qed.

Lemma wp_run_channel c did d n r (s : NotifySt W) :
  attempts_made (ns_db s) !! did = Some d → nd_channel d = DeliveryChannel.value c →
  wp (try_except (run_channel did d n r) (λ e, update_delivery did (failed_with (Py.prefix_to 2048 (error_text e)))))
    (λ _ s', ∃ d', attempted_on c (subscribed (nr_user_id r) (ns_db s)) (d <| nd_attempt_count ::= Z.pred |>) d' ∧
                   ns_db s' = set_delivery did d' (ns_db s))
    (λ _ _, False) s.
Proof.
  intros Hd Hc. unfold run_channel. rewrite Hc. apply wp_try.
  assert (Hw : ∀ w, attempts_made (ns_db (s <| ns_world := w |>)) !! did = Some d) by (by intros w).
  destruct c; cbn [DeliveryChannel.value String.eqb Ascii.eqb Bool.eqb].
  - eapply wp_update_delivery; [exact Hd|]. eexists. split; [|done]. split; cbn; try done. lia.
  - unfold apply_email_delivery. apply wp_bind, wp_nquery, wp_bind, wp_send_email.
    + intros mid w. eapply wp_update_delivery; [apply Hw|]. eexists. split; [|done]. split; cbn; try done; [lia|by left].
    + intros Hh err w. split; [|intros e]; (eapply wp_update_delivery; [apply Hw|]); (eexists; split; [|done]); split; cbn; try done; try lia; by right.
  - unfold apply_push_delivery, send_push. apply wp_bind, wp_bind, wp_nquery, wp_ret.
    eapply wp_update_delivery; [exact Hd|]. eexists. split; [|done].
    unfold subscribed. destruct (list_subscriptions_for_user (nr_user_id r) false (ns_db s)); split; cbn; try done; lia.
Qed.

Lemma wp_try_deliver c did d n r (s : NotifySt W) :
  attempts_made (ns_db s) !! did = Some d → nd_status d ≠ DeliveryStatus.SKIPPED → nd_channel d = DeliveryChannel.value c →
  notifications (ns_db s) !! nd_notification_id d = Some n → receipts (ns_db s) !! nd_notification_recipient_id d = Some r →
  wp (try_deliver did)
    (λ res s', ∃ d', attempted_on c (subscribed (nr_user_id r) (ns_db s)) d d' ∧ res = Some d' ∧
       ns_db s' = set_receipt (nd_notification_recipient_id d) (promoted d' r) (set_delivery did d' (ns_db s)))
    (λ _ _, False) s.
Proof.
  intros Hd Hst Hc Hn Hr. unfold try_deliver. apply wp_bind, wp_nquery. rewrite Hd. cbv beta iota. rewrite bool_decide_false by done.
  apply wp_bind. eapply wp_update_delivery; [exact Hd|]. set (d1 := d <| nd_attempt_count ::= Z.succ |> <| nd_updated_at := env_now |>).
  apply wp_bind, wp_nquery, wp_bind, wp_nquery. destruct s as [db w]. cbn in Hd, Hn, Hr |- *. rewrite Hn, Hr.
  apply wp_bind. eapply wp_mono; [apply (wp_run_channel c did d1 n r); [by cbn; rewrite lookup_insert_eq|done]| |done].
  cbn beta. intros [] [db' w'] (d' & [] & Hdb). cbn in Hdb. rewrite set_delivery_twice in Hdb. subst db'.
  cbn in at_notification0, at_recipient0, at_channel0, at_count0, at_status0.
  unfold promote_recipient, get_delivery_by_id. apply wp_bind, wp_nquery. cbn. rewrite lookup_insert_eq. cbn. 
  apply wp_bind, wp_nquery. cbn. rewrite at_recipient0, Hr. cbn. apply wp_bind.
  assert (Hend : wp (when (bool_decide (nd_status d' = DeliveryStatus.DELIVERED) && bool_decide (Some (nr_status r) = Some RecipientStatus.PENDING))
     (update_recipient (nd_notification_recipient_id d) (λ r, r <| nr_status := RecipientStatus.DELIVERED |>)))
     (λ _ s', ns_db s' = set_receipt (nd_notification_recipient_id d) (promoted d' r) (set_delivery did d' db)) (λ _ _, False)
     (mkNotifySt (set_delivery did d' db) w')).
  { unfold promoted. rewrite (bool_decide_ext (Some (nr_status r) = Some RecipientStatus.PENDING) (nr_status r = RecipientStatus.PENDING)) by (split; [congruence|intros ->; done]).
    destruct (_ && _); cbn [when].
    - eapply wp_update_recipient; [exact Hr|done].
    - apply wp_ret. cbn. destruct db. unfold set_receipt, set_delivery, field_update. cbn in *. by rewrite (insert_id _ _ _ Hr). }
  eapply wp_mono; [exact Hend| |done]. intros [] s' Hs'. apply wp_ret. exists d'. split; [|split; [done|exact Hs']].
  split; try done. lia.
Qed.

(** *** Dispatch *)

Definition new_delivery (d : NotificationDelivery) (db : NotifyDb) : NotifyDb :=
  db <| attempts_made ::= <[delivery_seq db := d]> |> <| delivery_seq ::= Z.succ |>.
Definition blank_delivery (nid rid : Z) (c : delivery_channel) (st : delivery_status) : NotificationDelivery :=
  mkDelivery nid rid (DeliveryChannel.value c) "stub" st 0 None None None None None env_now.
(** The delivery of [c] to a recipient: skipped if the user switched the channel off *)
Definition dispatched (nid rid uid : Z) (ty : string) (c : delivery_channel) (db : NotifyDb) (d : NotificationDelivery) : Prop :=
  if bool_decide (c ∈ resolve_enabled_channels uid ty db)
  then attempted_on c (subscribed uid db) (blank_delivery nid rid c DeliveryStatus.QUEUED) d
  else d = blank_delivery nid rid c DeliveryStatus.SKIPPED.
Lemma dispatched_rows nid rid uid ty c db d : dispatched nid rid uid ty c db d →
  nd_notification_id d = nid ∧ nd_notification_recipient_id d = rid ∧ nd_channel d = DeliveryChannel.value c.
Proof. unfold dispatched. case_bool_decide; [by intros []|by intros ->]. Qed.

Lemma wp_dispatch_channel nid rid uid ty c n r (s : NotifySt W) :
  notifications (ns_db s) !! nid = Some n → receipts (ns_db s) !! rid = Some r → nr_user_id r = uid →
  wp (dispatch_channel nid rid (resolve_enabled_channels uid ty (ns_db s)) c)
    (λ _ s', ∃ d, dispatched nid rid uid ty c (ns_db s) d ∧ ns_db s' = set_receipt rid (promoted d r) (new_delivery d (ns_db s)))
    (λ _ _, False) s.
Proof.
  intros Hn Hr Hu. unfold dispatch_channel, dispatched. case_bool_decide as He; cbn [negb].
  - unfold create_delivery. apply wp_bind, wp_bind, wp_nquery, wp_bind, wp_on_notify, wp_ret.
    set (s1 := s <| ns_db ::= _ |>). apply wp_bind. eapply wp_mono.
    + apply (wp_try_deliver c _ (blank_delivery nid rid c DeliveryStatus.QUEUED) n r s1); try done.
      destruct s as [db w]. cbn. apply lookup_insert_eq.
    + cbn beta. intros _ [db' w'] (d & Hd & _ & Hdb). apply wp_ret. exists d. rewrite Hu in Hd. split; [exact Hd|].
      cbn [ns_db] in Hdb |- *. rewrite Hdb. unfold s1. destruct s as [[] w]. unfold set_receipt, set_delivery, new_delivery, field_update. cbn.
      by rewrite insert_insert_eq.
    + done.
  - unfold create_delivery. apply wp_bind, wp_bind, wp_nquery, wp_bind, wp_on_notify, wp_ret, wp_ret. eexists. split; [done|].
    unfold promoted, blank_delivery. cbn [nd_status]. rewrite bool_decide_false by done. cbn [andb].
    destruct s as [[] w]. unfold set_receipt, new_delivery, field_update. cbn in *. by rewrite (insert_id _ _ _ Hr).
Qed.

(** The deliveries of the channels [cs], one after the other *)
Fixpoint told_via (nid rid uid : Z) (ty : string) (cs : list delivery_channel) (db db' : NotifyDb) : Prop :=
  match cs with
  | [] => db' = db
  | c :: cs => ∃ d r, receipts db !! rid = Some r ∧ dispatched nid rid uid ty c db d ∧
                 told_via nid rid uid ty cs (set_receipt rid (promoted d r) (new_delivery d db)) db'
  end.
Lemma promoted_same d r : nr_user_id (promoted d r) = nr_user_id r ∧ nr_notification_id (promoted d r) = nr_notification_id r ∧
  nr_read_at (promoted d r) = nr_read_at r ∧ nr_dismissed_at (promoted d r) = nr_dismissed_at r.
Proof. unfold promoted. by destruct (_ && _). Qed.
Lemma wp_told_via nid rid uid ty cs n (enabled : list delivery_channel) (s : NotifySt W) r :
  enabled = resolve_enabled_channels uid ty (ns_db s) →
  notifications (ns_db s) !! nid = Some n → receipts (ns_db s) !! rid = Some r → nr_user_id r = uid →
  wp (for_each cs (dispatch_channel nid rid enabled)) (λ _ s', told_via nid rid uid ty cs (ns_db s) (ns_db s')) (λ _ _, False) s.
Proof.
  revert s r. induction cs as [|c cs IH]; intros s r -> Hn Hr Hu; [by apply wp_ret|]. cbn [for_each]. apply wp_bind.
  eapply wp_mono; [by eapply wp_dispatch_channel| |done]. intros [] s' (d & Hd & Hdb).
  eapply wp_mono; [apply (IH s' (promoted d r))| |done].
  - by rewrite Hdb.
  - by rewrite Hdb.
  - rewrite Hdb. apply lookup_insert_eq.
  - by rewrite (proj1 (promoted_same d r)).
  - intros [] s'' H. cbn. exists d, r. by rewrite <- Hdb.
Qed.

(** ** What the rows keep *)

Definition receipt_ok (db : NotifyDb) (r : NotificationRecipient) : Prop :=
  is_Some (notifications db !! nr_notification_id r) ∧ is_Some (addresses db !! nr_user_id r) ∧
  match nr_status r with
  | RecipientStatus.PENDING | RecipientStatus.DELIVERED => True
  | RecipientStatus.READ => is_Some (nr_read_at r)
  | RecipientStatus.DISMISSED => is_Some (nr_dismissed_at r)
  | RecipientStatus.FAILED => False
  end.
(** A delivery belongs to a recipient of its notification, is over one of the channels,
    and has been skipped, or attempted with a known outcome. *)
Definition delivery_ok (db : NotifyDb) (d : NotificationDelivery) : Prop :=
  ∃ r c, receipts db !! nd_notification_recipient_id d = Some r ∧ nr_notification_id r = nd_notification_id d ∧
    nd_channel d = DeliveryChannel.value c ∧
    match nd_status d with
    | DeliveryStatus.SKIPPED => nd_attempt_count d = 0
    | DeliveryStatus.DELIVERED => 0 < nd_attempt_count d ∧ is_Some (nd_delivered_at d) ∧ nr_status r ≠ RecipientStatus.PENDING
    | DeliveryStatus.FAILED => 0 < nd_attempt_count d ∧ is_Some (nd_last_error_message d)
    | DeliveryStatus.QUEUED | DeliveryStatus.SENT => False
    end.
Record notify_ok (db : NotifyDb) : Prop := {
  ok_recipients : unique_by always (λ r, (nr_notification_id r, nr_user_id r)) (receipts db);
  ok_preferences : unique_by always (λ p, (np_user_id p, np_notification_type p)) (channel_preferences db);
  ok_deliveries : unique_by always (λ d, (nd_notification_recipient_id d, nd_channel d)) (attempts_made db);
  ok_receipts : ∀ k r, receipts db !! k = Some r → receipt_ok db r;
  ok_attempts : ∀ k d, attempts_made db !! k = Some d → delivery_ok db d;
  ok_notification_seq : below_seq (notifications db) (notification_seq db);
  ok_receipt_seq : below_seq (receipts db) (receipt_seq db);
  ok_delivery_seq : below_seq (attempts_made db) (delivery_seq db);
  ok_preference_seq : below_seq (channel_preferences db) (preference_seq db)
}.

Lemma channel_value_inj (c c' : delivery_channel) : DeliveryChannel.value c = DeliveryChannel.value c' → c = c'.
Proof. by destruct c, c'. Qed.
Lemma below_insert_old {R} (m : gmap Z R) seq k x : below_seq m seq → is_Some (m !! k) → below_seq (<[k := x]> m) seq.
Proof. intros H [y Hy] i z Hi. apply lookup_insert_Some in Hi as [[<- _]|[_ Hi]]; eauto. Qed.
Lemma unique_insert_old {R C} (f : R → C) (m : gmap Z R) k x x' : unique_by always f m → m !! k = Some x → f x' = f x →
  unique_by always f (<[k := x']> m).
Proof.
  intros Hu Hk Hf. eapply unique_by_within; [|exact Hu]. intros i y Hi _. apply lookup_insert_Some in Hi as [[<- <-]|[_ Hi]]; eauto.
Qed.

(** *** A recipient's row changes *)

(** [r'] may stand where [r] stood. *)
Definition receipt_moves (r r' : NotificationRecipient) : Prop :=
  nr_notification_id r' = nr_notification_id r ∧ nr_user_id r' = nr_user_id r ∧
  match nr_status r' with
  | RecipientStatus.PENDING => nr_status r = RecipientStatus.PENDING
  | RecipientStatus.DELIVERED => True
  | RecipientStatus.READ => is_Some (nr_read_at r')
  | RecipientStatus.DISMISSED => is_Some (nr_dismissed_at r')
  | RecipientStatus.FAILED => False
  end.
Lemma ok_set_receipt db k r r' : notify_ok db → receipts db !! k = Some r → receipt_moves r r' → notify_ok (set_receipt k r' db).
Proof.
  intros [] Hk (E1 & E2 & Hst). constructor; try done; cbn.
  - eapply unique_insert_old; [done..|]. congruence.
  - intros i x Hi. apply lookup_insert_Some in Hi as [[<- <-]|[_ Hi]]; [|by eapply ok_receipts0].
    destruct (ok_receipts0 _ _ Hk) as (H1 & H2 & _). unfold receipt_ok. rewrite E1, E2. split_and!; try done. by destruct (nr_status r').
  - intros i d Hi. destruct (ok_attempts0 _ _ Hi) as (r0 & c & H0 & H1 & H2 & H3). unfold delivery_ok. cbn.
    destruct (decide (nd_notification_recipient_id d = k)) as [Ek|]; [|exists r0, c; by rewrite lookup_insert_ne].
    rewrite Ek in *. assert (r0 = r) as -> by congruence. exists r', c. rewrite lookup_insert_eq. split_and!; try done; [congruence|].
    destruct (nd_status d); try done. destruct H3 as (? & ? & Hne). split_and!; try done. intros Hp. rewrite Hp in Hst. done.
  - apply below_insert_old; [done|by eexists].
Qed.

Lemma promoted_moves db d r : receipt_ok db r → receipt_moves r (promoted d r).
Proof.
  intros (_ & _ & H). unfold promoted. destruct (_ && _); [done|]. split_and!; [done..|]. by destruct (nr_status r).
Qed.
Lemma promoted_settles d r : nd_status d = DeliveryStatus.DELIVERED → nr_status (promoted d r) ≠ RecipientStatus.PENDING.
Proof.
  intros E. unfold promoted. rewrite bool_decide_true by done. cbn [andb]. destruct (bool_decide _) eqn:Ep; [done|]. by apply bool_decide_eq_false in Ep.
Qed.

(** *** A new delivery *)

Lemma ok_new_delivery db d : notify_ok db → delivery_ok db d →
  (∀ k d', attempts_made db !! k = Some d' → nd_notification_recipient_id d' = nd_notification_recipient_id d →
           nd_channel d' ≠ nd_channel d) → notify_ok (new_delivery d db).
Proof.
  intros [] Hd Hf. constructor; try done; cbn.
  - apply unique_by_insert; auto using below_seq_fresh. intros _ k d' Hk _ [= E1 E2]. by apply (Hf k d').
  - intros k x Hk. apply lookup_insert_Some in Hk as [[_ <-]|[_ Hk]]; [done|by eapply ok_attempts0].
  - by apply below_seq_insert.
Qed.
Lemma attempted_on_ok c sub d d' db r : attempted_on c sub d d' → 0 ≤ nd_attempt_count d →
  nd_channel d = DeliveryChannel.value c → receipts db !! nd_notification_recipient_id d = Some r →
  nr_notification_id r = nd_notification_id d → (nd_status d' = DeliveryStatus.DELIVERED → nr_status r ≠ RecipientStatus.PENDING) →
  delivery_ok db d'.
Proof.
  intros [] Hc Hch Hr Hn Hp. exists r, c. rewrite at_recipient0, at_notification0, at_channel0. split_and!; try done.
  assert (Hs : nd_status d' = DeliveryStatus.DELIVERED ∨ nd_status d' = DeliveryStatus.FAILED).
  { destruct c; [by left|destruct at_status0 as [|[]]; auto|]. rewrite at_status0. destruct sub; auto. }
  destruct Hs as [Hs|Hs]; rewrite Hs; rewrite at_count0; split_and!; auto with lia. by rewrite at_delivered0.
Qed.
Lemma dispatched_ok nid rid uid ty c db0 d db r : dispatched nid rid uid ty c db0 d → receipts db !! rid = Some r →
  nr_notification_id r = nid → (nd_status d = DeliveryStatus.DELIVERED → nr_status r ≠ RecipientStatus.PENDING) → delivery_ok db d.
Proof.
  unfold dispatched. case_bool_decide.
  - intros Hd Hr Hn Hp. eapply attempted_on_ok; [exact Hd|done..].
  - intros -> Hr Hn _. exists r, c. by split_and!.
Qed.

(** *** What telling a recipient changes *)

Record told (nid rid uid : Z) (ty : string) (cs : list delivery_channel) (db db' : NotifyDb) : Prop := {
  td_ok : notify_ok db';
  td_others : notifications db' = notifications db ∧ channel_preferences db' = channel_preferences db ∧
    push_subscriptions db' = push_subscriptions db ∧ addresses db' = addresses db ∧ receipt_seq db' = receipt_seq db ∧
    notification_seq db' = notification_seq db;
  td_receipts : ∀ k, k ≠ rid → receipts db' !! k = receipts db !! k;
  td_receipt : ∀ r, receipts db !! rid = Some r → ∃ r', receipts db' !! rid = Some r' ∧
    nr_notification_id r' = nr_notification_id r ∧ nr_user_id r' = nr_user_id r ∧
    nr_read_at r' = nr_read_at r ∧ nr_dismissed_at r' = nr_dismissed_at r ∧
    (r' = r ∨ nr_status r' = RecipientStatus.DELIVERED ∧ ∃ k d, attempts_made db' !! k = Some d ∧
       nd_notification_recipient_id d = rid ∧ nd_status d = DeliveryStatus.DELIVERED);
  td_old : ∀ k d, attempts_made db !! k = Some d → attempts_made db' !! k = Some d;
  td_new : ∀ k d, attempts_made db' !! k = Some d → attempts_made db !! k = Some d ∨
    nd_notification_id d = nid ∧ nd_notification_recipient_id d = rid;
  td_each : ∀ c, c ∈ cs → ∃ k d, attempts_made db' !! k = Some d ∧ dispatched nid rid uid ty c db d
}.
Lemma told_one nid rid uid ty c db d r : notify_ok db → receipts db !! rid = Some r → nr_notification_id r = nid →
  dispatched nid rid uid ty c db d →
  (∀ k d', attempts_made db !! k = Some d' → nd_notification_recipient_id d' = rid → nd_channel d' ≠ DeliveryChannel.value c) →
  notify_ok (set_receipt rid (promoted d r) (new_delivery d db)).
Proof.
  intros Hok Hr Hn Hd Hf. destruct (dispatched_rows _ _ _ _ _ _ _ Hd) as (E1 & E2 & E3).
  change (notify_ok (new_delivery d (set_receipt rid (promoted d r) db))). apply ok_new_delivery.
  - eapply ok_set_receipt; [done..|]. eapply promoted_moves, ok_receipts; done.
  - eapply dispatched_ok; [exact Hd|cbn; apply lookup_insert_eq| |apply promoted_settles].
    by rewrite (proj1 (proj2 (promoted_same d r))).
  - cbn. rewrite E2, E3. exact Hf.
Qed.
Lemma told_via_told nid rid uid ty cs db db' r : notify_ok db → NoDup cs → receipts db !! rid = Some r → nr_notification_id r = nid →
  (∀ c k d, c ∈ cs → attempts_made db !! k = Some d → nd_notification_recipient_id d = rid → nd_channel d ≠ DeliveryChannel.value c) →
  told_via nid rid uid ty cs db db' → told nid rid uid ty cs db db'.
Proof.
  revert db r. induction cs as [|c cs IH]; intros db r Hok Hnd Hr Hn Hf; cbn.
  - intros ->. split; try done; [intros x Hx; exists x; auto 8|by left|intros c Hc; by apply not_elem_of_nil in Hc].
  - intros (d & r0 & Hr0 & Hd & H). assert (r0 = r) as -> by congruence. destruct (dispatched_rows _ _ _ _ _ _ _ Hd) as (E1 & E2 & E3).
    apply NoDup_cons in Hnd as [Hc Hnd]. set (db1 := set_receipt rid (promoted d r) (new_delivery d db)) in *.
    assert (Hok1 : notify_ok db1) by (eapply told_one; [done..|]; intros; eapply Hf; [left|done..]).
    assert (Hold : ∀ k x, attempts_made db !! k = Some x → attempts_made db1 !! k = Some x).
    { intros k x Hk. cbn. rewrite lookup_insert_ne; [done|]. intros <-. by rewrite (below_seq_fresh _ _ (ok_delivery_seq _ Hok)) in Hk. }
    assert (Hnew : attempts_made db1 !! delivery_seq db = Some d) by apply lookup_insert_eq.
    destruct (IH db1 (promoted d r) Hok1 Hnd) as [Tok (T1 & T2 & T3 & T4 & T5 & T6) Tr Ts To Tn Te]; [cbn; apply lookup_insert_eq| | |exact H|].
    { by rewrite (proj1 (proj2 (promoted_same d r))). }
    { intros c' k x Hc' Hk Hx. cbn in Hk. apply lookup_insert_Some in Hk as [[<- <-]|[_ Hk]].
      - rewrite E3. intros E. apply channel_value_inj in E as ->. done.
      - eapply Hf; [by right|done..]. }
    split; try done.
    + intros k Hk. rewrite Tr by done. cbn. by rewrite lookup_insert_ne.
    + intros r1 Hr1. assert (r1 = r) as -> by congruence. destruct (Ts (promoted d r)) as (r' & H1 & H2 & H3 & H5 & H6 & H4); [cbn; apply lookup_insert_eq|].
      destruct (promoted_same d r) as (P1 & P2 & P3 & P4). exists r'. split_and!; [done|congruence..|]. destruct H4 as [->|H4]; [|by right].
      unfold promoted in *. destruct (bool_decide (nd_status d = _)) eqn:Es; [|by left]. destruct (bool_decide (nr_status r = _)); [|by left].
      right. split; [done|]. exists (delivery_seq db), d. split_and!; [by apply To|done|]. by apply bool_decide_eq_true in Es.
    + auto.
    + intros k x Hk. apply Tn in Hk as [Hk|]; [|by right]. cbn in Hk. apply lookup_insert_Some in Hk as [[<- <-]|[_ Hk]]; auto.
    + intros c' [->|Hc']%elem_of_cons; [|by apply Te]. exists (delivery_seq db), d. split; [by apply To|done].
Qed.

(** *** A new recipient *)

Definition new_receipt (nid uid : Z) (db : NotifyDb) : NotifyDb :=
  db <| receipts ::= <[receipt_seq db := mkRecipient nid uid RecipientStatus.PENDING None None]> |> <| receipt_seq ::= Z.succ |>.
Lemma receipt_of_None nid uid db k r : receipt_of nid uid db = None → receipts db !! k = Some r →
  ¬ (nr_notification_id r = nid ∧ nr_user_id r = uid).
Proof. intros H Hk. by apply (first_row_None _ _ _ _ H Hk). Qed.
Lemma wp_create_recipient nid uid (Q : Z → NotifySt W → Prop) X s :
  (is_Some (addresses (ns_db s) !! uid) → receipt_of nid uid (ns_db s) = None →
     Q (receipt_seq (ns_db s)) (s <| ns_db ::= new_receipt nid uid |>)) →
  (∀ e, (is_Some (addresses (ns_db s) !! uid) → receipt_of nid uid (ns_db s) ≠ None) → X e s) → wp (create_recipient nid uid) Q X s.
Proof.
  intros HQ HX. unfold create_recipient. apply wp_bind, wp_nquery, wp_bind, wp_nquery, wp_bind, wp_nquery.
  destruct (bool_decide (is_Some (addresses (ns_db s) !! uid))) eqn:Ea; cbn [negb orb].
  2:{ apply wp_raise, HX. intros Hi. by apply bool_decide_eq_false in Ea. }
  destruct (bool_decide (is_Some (receipt_of nid uid (ns_db s)))) eqn:Er.
  - apply wp_raise, HX. intros _ E. rewrite E in Er. by apply bool_decide_eq_true, is_Some_None in Er.
  - apply bool_decide_eq_true in Ea. apply bool_decide_eq_false, eq_None_not_Some in Er. by apply wp_bind, wp_on_notify, wp_ret, HQ.
Qed.
Lemma ok_new_receipt nid uid db : notify_ok db → is_Some (notifications db !! nid) → is_Some (addresses db !! uid) →
  receipt_of nid uid db = None → notify_ok (new_receipt nid uid db).
Proof.
  intros Hok Hn Ha Hf. pose proof (below_seq_fresh _ _ (ok_receipt_seq _ Hok)) as Hk. destruct Hok. constructor; try done; cbn.
  - apply unique_by_insert; [done|done|]. intros _ j r Hj _ [= E1 E2]. by apply (receipt_of_None _ _ _ _ _ Hf Hj).
  - intros k r Hr. apply lookup_insert_Some in Hr as [[_ <-]|[_ Hr]]; [by split_and!|by eapply ok_receipts0].
  - intros k d Hd. destruct (ok_attempts0 _ _ Hd) as (r & c & H1 & H2). exists r, c. split; [|done]. cbn.
    rewrite lookup_insert_ne; [done|]. intros E. by rewrite <- E, Hk in H1.
  - by apply below_seq_insert.
Qed.

(** *** What telling the recipients changes *)

Lemma dispatched_same nid rid uid ty c db db' d : channel_preferences db' = channel_preferences db →
  push_subscriptions db' = push_subscriptions db → dispatched nid rid uid ty c db' d → dispatched nid rid uid ty c db d.
Proof.
  intros E1 E2. unfold dispatched, resolve_enabled_channels, get_preference_by_user_and_type, subscribed, list_subscriptions_for_user.
  by rewrite E1, E2.
Qed.
Definition reached (nid : Z) (ty : string) (uid : Z) (db db' : NotifyDb) : Prop :=
  ∃ rid r, receipts db' !! rid = Some r ∧ nr_notification_id r = nid ∧ nr_user_id r = uid ∧
    (∀ c, ∃ k d, attempts_made db' !! k = Some d ∧ dispatched nid rid uid ty c db d) ∧
    nr_read_at r = None ∧ nr_dismissed_at r = None ∧
    (nr_status r = RecipientStatus.PENDING ∨ nr_status r = RecipientStatus.DELIVERED) ∧
    (nr_status r = RecipientStatus.DELIVERED ↔ ∃ k d, attempts_made db' !! k = Some d ∧ nd_notification_recipient_id d = rid ∧
       nd_status d = DeliveryStatus.DELIVERED).
Record told_all (nid : Z) (ty : string) (uids : list Z) (db db' : NotifyDb) : Prop := {
  ta_ok : notify_ok db';
  ta_others : notifications db' = notifications db ∧ channel_preferences db' = channel_preferences db ∧
    push_subscriptions db' = push_subscriptions db ∧ addresses db' = addresses db ∧ notification_seq db' = notification_seq db;
  ta_kept : ∀ k r, receipts db !! k = Some r → receipts db' !! k = Some r;
  ta_new : ∀ k r, receipts db' !! k = Some r → receipts db !! k = Some r ∨ nr_notification_id r = nid ∧ nr_user_id r ∈ uids;
  ta_old : ∀ k d, attempts_made db !! k = Some d → attempts_made db' !! k = Some d;
  ta_added : ∀ k d, attempts_made db' !! k = Some d → attempts_made db !! k = Some d ∨
    nd_notification_id d = nid ∧ receipts db !! nd_notification_recipient_id d = None;
  ta_each : ∀ uid, uid ∈ uids → reached nid ty uid db db'
}.

Lemma all_channels_each : NoDup all_channels ∧ ∀ c, c ∈ all_channels.
Proof.
  split; [by apply (bool_decide_unpack (NoDup all_channels)); vm_compute|]. intros c. unfold all_channels. rewrite !elem_of_cons. destruct c; auto.
Qed.

Lemma wp_tell_one nid ty uid n (s : NotifySt W) : notify_ok (ns_db s) → notifications (ns_db s) !! nid = Some n →
  wp (rid ← create_recipient nid uid; dispatch_for_recipient nid ty rid uid)
    (λ _ s', told_all nid ty [uid] (ns_db s) (ns_db s'))
    (λ _ s', s' = s ∧ (is_Some (addresses (ns_db s) !! uid) → receipt_of nid uid (ns_db s) ≠ None)) s.
Proof.
  intros Hok Hn. apply wp_bind, wp_create_recipient; [|done]. intros Ha Hf.
  set (rid := receipt_seq (ns_db s)). set (r := mkRecipient nid uid RecipientStatus.PENDING None None).
  pose proof (below_seq_fresh _ _ (ok_receipt_seq _ Hok)) as Hfresh. fold rid in Hfresh.
  set (s1 := s <| ns_db ::= new_receipt nid uid |>). set (db := ns_db s) in *.
  assert (Hok1 : notify_ok (ns_db s1)) by (apply ok_new_receipt; [done|by eexists|done..]).
  assert (Hr : receipts (ns_db s1) !! rid = Some r) by apply lookup_insert_eq.
  unfold dispatch_for_recipient. apply wp_bind, wp_nquery.
  eapply wp_mono; [eapply (wp_told_via nid rid uid ty all_channels n); done| |done]. intros [] s2 Hvia.
  assert (Hnone : ∀ c k d, c ∈ all_channels → attempts_made (ns_db s1) !! k = Some d → nd_notification_recipient_id d = rid →
    nd_channel d ≠ DeliveryChannel.value c).
  { intros c k d _ Hd Hrid. destruct (ok_attempts _ Hok k d Hd) as (r0 & _ & Hr0 & _). by rewrite Hrid, Hfresh in Hr0. }
  destruct all_channels_each as [Hnd Hall].
  destruct (told_via_told nid rid uid ty all_channels (ns_db s1) (ns_db s2) r Hok1 Hnd Hr eq_refl Hnone Hvia)
    as [Tok (T1 & T2 & T3 & T4 & T5 & T6) Tr Ts To Tn Te].
  destruct (Ts r Hr) as (r' & Hr' & R1 & R2 & R3 & R4 & Hst).
  assert (Hother : ∀ k, k ≠ rid → receipts (ns_db s2) !! k = receipts db !! k) by (intros k Hk; rewrite Tr by done; cbn; by rewrite lookup_insert_ne).
  split; [exact Tok|exact (conj T1 (conj T2 (conj T3 (conj T4 T6))))| | |exact To| |].
  - intros k x Hk. rewrite Hother; [done|]. intros ->. congruence.
  - intros k x Hk. destruct (decide (k = rid)) as [->|Hne]; [|left; by rewrite <- Hother]. right. assert (x = r') as -> by congruence.
    rewrite R1, R2. split; [done|]. by apply list_elem_of_singleton.
  - intros k d Hk. apply Tn in Hk as [Hk|[E1 E2]]; [by left|]. right. by rewrite E2.
  - intros u ->%list_elem_of_singleton. exists rid, r'. split_and!; try done.
    + intros c. destruct (Te c) as (k & d & Hk & Hd); [apply Hall|]. exists k, d. split; [done|].
      by eapply (dispatched_same _ _ _ _ _ _ (ns_db s1)).
    + destruct Hst as [->|[? _]]; [by left|by right].
    + destruct Hst as [->|[E H]]; [|split; [intros _; exact H|done]]. split; [done|]. intros (k & d & Hk & Hd & Hs).
      destruct (ok_attempts _ Tok k d Hk) as (r0 & c & H0 & _ & _ & H3). rewrite Hs in H3. rewrite Hd, Hr' in H0.
      injection H0 as <-. by destruct H3 as (_ & _ & ?).
Qed.


(** *** The status of a notification *)


Lemma ok_notifications db db' : notify_ok db → receipts db' = receipts db → attempts_made db' = attempts_made db →
  channel_preferences db' = channel_preferences db → addresses db' = addresses db → receipt_seq db' = receipt_seq db →
  delivery_seq db' = delivery_seq db → preference_seq db' = preference_seq db →
  below_seq (notifications db') (notification_seq db') →
  (∀ k, is_Some (notifications db !! k) → is_Some (notifications db' !! k)) → notify_ok db'.
Proof.
  intros [] E1 E2 E3 E4 E5 E6 E7 Hb Hn. constructor; rewrite ?E1, ?E2, ?E3, ?E4, ?E5, ?E6, ?E7; try done.
  - intros k r Hk. destruct (ok_receipts0 _ _ Hk) as (H1 & H2). unfold receipt_ok. rewrite E4. auto.
  - intros k d Hk. unfold delivery_ok. rewrite E1. exact (ok_attempts0 _ _ Hk).
Qed.
Definition new_notification (n : Notification) (db : NotifyDb) : NotifyDb :=
  db <| notifications ::= <[notification_seq db := n]> |> <| notification_seq ::= Z.succ |>.
Lemma ok_new_notification db n : notify_ok db → notify_ok (new_notification n db).
Proof.
  intros Hok. eapply ok_notifications; try done; cbn.
  - apply below_seq_insert, Hok.
  - intros k [y Hk]. apply lookup_insert_is_Some. destruct (decide (notification_seq db = k)); [by left|]. right. split; [done|by exists y].
Qed.
Lemma ok_status db nid n st : notify_ok db → notifications db !! nid = Some n →
  notify_ok (db <| notifications ::= <[nid := n <| nt_status := st |>]> |>).
Proof.
  intros Hok Hn. eapply ok_notifications; try done; cbn.
  - apply below_insert_old; [apply Hok|by eexists].
  - intros k [y Hk]. apply lookup_insert_is_Some. destruct (decide (nid = k)); [by left|]. right. split; [done|by exists y].
Qed.

(** ** Every request keeps the rows consistent *)

Definition keeps {A} (m : N W A) : Prop := ∀ s, notify_ok (ns_db s) →
  wp m (λ _ s', notify_ok (ns_db s')) (λ _ s', notify_ok (ns_db s')) s.
Lemma keeps_rows_ret {A} (a : A) : keeps (mret a).
Proof. by intros s Hs. Qed.
Lemma keeps_rows_raise {A} e : keeps (A := A) (raise e).
Proof. by intros s Hs. Qed.
Lemma keeps_rows_query {A} (f : NotifyDb → A) : keeps (nquery f).
Proof. by intros s Hs. Qed.
Lemma keeps_rows_bind {A B} (m : N W A) (k : A → N W B) : keeps m → (∀ a, keeps (k a)) → keeps (m ≫= k).
Proof. intros Hm Hk s Hs. apply wp_bind. eapply wp_mono; [by apply Hm| |done]. intros a s' Hs'. by apply Hk. Qed.
Lemma keeps_each {A} (l : list A) body : (∀ x, keeps (body x)) → keeps (for_each l body).
Proof. intros H s Hs. apply (wp_for_each _ _ (λ s, notify_ok (ns_db s))); [done| |done]. intros x s' _ Hs'. by apply H. Qed.
Lemma keeps_answering {A} f (m : N W A) : keeps m → keeps (answering_notify f m).
Proof. intros H s Hs. apply wp_answering_notify. eapply wp_mono; [by apply H|done|]. by intros e s' Hs' e'. Qed.
Lemma keeps_update_recipient k f : (∀ r, receipt_moves r (f r)) → keeps (update_recipient k f).
Proof.
  intros Hf s Hs. destruct (receipts (ns_db s) !! k) as [r|] eqn:Er.
  - eapply wp_update_recipient; [exact Er|]. by eapply (ok_set_receipt (ns_db s)).
  - apply wp_on_notify. destruct s as [[] w]. unfold field_update. cbn in *.
    replace (alter f k receipts0) with receipts0; [done|]. apply map_eq. intros i. destruct (decide (k = i)) as [<-|];
      [by rewrite lookup_alter_eq, Er|by rewrite lookup_alter_ne].
Qed.
Lemma read_moves r : receipt_moves r (read_now r).
Proof. split_and!; [done..|by eexists]. Qed.
Lemma dismissed_moves r : receipt_moves r (dismissed_now r).
Proof. split_and!; [done..|by eexists]. Qed.
Lemma keeps_get uid nid : keeps (get_notification_for_user uid nid).
Proof.
  apply keeps_rows_bind; [apply keeps_rows_query|]. intros [r|]; [|apply keeps_rows_raise]. apply keeps_rows_bind; [apply keeps_rows_query|].
  intros [n|]; [apply keeps_rows_ret|apply keeps_rows_raise].
Qed.
Lemma keeps_mark_read uid nid : keeps (mark_read uid nid).
Proof.
  apply keeps_rows_bind; [apply keeps_get|]. intros [n [rid r]]. apply keeps_rows_bind; [|intros _; apply keeps_rows_ret].
  apply keeps_update_recipient, read_moves.
Qed.
Lemma keeps_dismiss uid nid : keeps (dismiss_notification uid nid).
Proof.
  apply keeps_rows_bind; [apply keeps_get|]. intros [n [rid r]]. apply keeps_rows_bind; [|intros _; apply keeps_rows_ret].
  apply keeps_update_recipient, dismissed_moves.
Qed.
Lemma keeps_bulk uid nids : keeps (mark_notifications_read_bulk uid nids).
Proof.
  apply keeps_rows_bind.
  - apply keeps_rows_bind; [apply keeps_rows_query|]. intros rows. apply keeps_rows_bind; [|intros _; apply keeps_rows_ret].
    apply keeps_each. intros kr. apply keeps_update_recipient, read_moves.
  - intros recs. induction recs as [|r recs IH]; [apply keeps_rows_ret|]. cbn [with_notifications].
    apply keeps_rows_bind; [apply keeps_get|]. intros n. apply keeps_rows_bind; [exact IH|]. intros rest. apply keeps_rows_ret.
Qed.

Lemma ok_preferences_changed db m seq : notify_ok db →
  unique_by always (λ p, (np_user_id p, np_notification_type p)) m → below_seq m seq →
  notify_ok (db <| channel_preferences := m |> <| preference_seq := seq |>).
Proof. intros []. by constructor. Qed.
Lemma keeps_upsert uid ty a e p : keeps (upsert_preference uid ty a e p).
Proof.
  intros s Hok. apply wp_bind, wp_nquery. destruct (get_preference_by_user_and_type uid ty (ns_db s)) as [[k q]|] eqn:Hx; apply wp_on_notify.
  - apply first_row_Some in Hx as [Hk _].
    match goal with |- context [alter ?f k] => set (g := f) end.
    cut (notify_ok ((ns_db s) <| channel_preferences := alter g k (channel_preferences (ns_db s)) |> <| preference_seq := preference_seq (ns_db s) |>));
      [by destruct s as [[] ?]|].
    apply ok_preferences_changed; [done|..]; erewrite alter_insert by done.
    + eapply unique_insert_old; [apply Hok|done|done].
    + apply below_insert_old; [apply Hok|by eexists].
  - apply (ok_preferences_changed (ns_db s) _ _ Hok).
    + apply unique_by_insert; [apply Hok|apply below_seq_fresh, Hok|]. intros _ j y Hj _ [= E1 E2].
      by apply (first_row_None _ _ _ _ Hx Hj).
    + apply below_seq_insert, Hok.
Qed.

Lemma ok_set_delivery db k d d' : notify_ok db → attempts_made db !! k = Some d → delivery_ok db d' →
  nd_notification_recipient_id d' = nd_notification_recipient_id d → nd_channel d' = nd_channel d → notify_ok (set_delivery k d' db).
Proof.
  intros [] Hk Hd E1 E2. constructor; try done; cbn.
  - eapply unique_insert_old; [done..|]. congruence.
  - intros i x Hi. apply lookup_insert_Some in Hi as [[_ <-]|[_ Hi]]; [done|by eapply ok_attempts0].
  - apply below_insert_old; [done|by eexists].
Qed.
(** A retry attempts a failed delivery once more. *)
Lemma wp_retry k (s : NotifySt W) : notify_ok (ns_db s) →
  wp (retry_delivery k)
    (λ d' s', ∃ d r c, attempts_made (ns_db s) !! k = Some d ∧ nd_status d = DeliveryStatus.FAILED ∧
       nd_channel d = DeliveryChannel.value c ∧ receipts (ns_db s) !! nd_notification_recipient_id d = Some r ∧
       attempted_on c (subscribed (nr_user_id r) (ns_db s)) d d' ∧
       ns_db s' = set_receipt (nd_notification_recipient_id d) (promoted d' r) (set_delivery k d' (ns_db s)))
    (λ _ s', s' = s) s.
Proof.
  intros Hok. unfold retry_delivery, get_delivery_by_id. apply wp_bind, wp_nquery.
  destruct (attempts_made (ns_db s) !! k) as [d|] eqn:Ed; [|by apply wp_raise].
  destruct (bool_decide (nd_status d = DeliveryStatus.FAILED)) eqn:Es; cbn [negb]; [|by apply wp_raise].
  apply bool_decide_eq_true in Es. destruct (ok_attempts _ Hok k d Ed) as (r & c & Hr & En & Ec & _).
  destruct (ok_receipts _ Hok _ _ Hr) as ([n Hn] & _). rewrite En in Hn.
  apply wp_bind. eapply wp_update_delivery; [exact Ed|]. set (d1 := _ <| nd_updated_at := env_now |>). apply wp_bind.
  eapply wp_mono; [apply (wp_try_deliver c k d1 n r); [apply lookup_insert_eq|done|exact Ec|exact Hn|exact Hr]| |done].
  cbn beta. intros _ s' (d' & Hd' & -> & Hdb). apply wp_ret. exists d, r, c. split_and!; try done.
  - destruct Hd'. by constructor.
  - rewrite Hdb. destruct s as [db w]. cbn [ns_db]. change (ns_db ((mkNotifySt db w) <| ns_db ::= set_delivery k d1 |>)) with (set_delivery k d1 db).
    by rewrite set_delivery_twice.
Qed.
Lemma keeps_retry k : keeps (retry_delivery k).
Proof.
  intros s Hok. eapply wp_mono; [by apply wp_retry| |by intros e s' ->]. cbn beta. intros d' s' (d & r & c & Hd & Hs & Hc & Hr & Ha & ->).
  set (rid := nd_notification_recipient_id d) in *.
  change (notify_ok (set_delivery k d' (set_receipt rid (promoted d' r) (ns_db s)))).
  destruct (ok_attempts _ Hok k d Hd) as (r0 & c0 & Hr0 & En & _ & Hst). rewrite Hs in Hst. assert (r0 = r) as -> by (unfold rid in *; congruence).
  eapply ok_set_delivery.
  - eapply ok_set_receipt; [done..|]. eapply promoted_moves, ok_receipts; done.
  - exact Hd.
  - eapply attempted_on_ok; [exact Ha|lia|done|cbn; apply lookup_insert_eq| |apply promoted_settles].
    by rewrite (proj1 (proj2 (promoted_same d' r))).
  - by destruct Ha.
  - by destruct Ha.
Qed.
Lemma keeps_refresh nid : keeps (refresh_notification_status nid).
Proof.
  intros s Hok. unfold refresh_notification_status. apply wp_bind, wp_nquery. destruct (list_deliveries_for_notification _ _); [by apply wp_ret|].
  apply wp_bind, wp_nquery. destruct (notifications (ns_db s) !! nid) as [n|] eqn:En; [|by apply wp_ret].
  destruct (bool_decide _); cbn [negb when]; [by apply wp_ret|]. apply wp_on_notify.
  match goal with |- context [alter ?f nid] => set (g := f) end.
  cut (notify_ok ((ns_db s) <| notifications ::= <[nid := g n]> |>)); [destruct s as [[] ?]; unfold field_update; cbn in *; by erewrite alter_insert|].
  by apply ok_status.
Qed.
Lemma keeps_event ty title body payload uids prio src ev : keeps (create_notification_event ty title body payload uids prio src ev).
Proof.
  intros s Hok. unfold create_notification_event, create_notification. apply wp_bind, wp_bind, wp_nquery.
  destruct (8192 <? _); [by apply wp_raise|]. apply wp_bind, wp_on_notify, wp_ret. set (n := mkNotification _ _ _ _ _ _ _ _ _).
  set (s1 := s <| ns_db ::= _ |>). assert (Hok1 : notify_ok (ns_db s1)) by (exact (ok_new_notification (ns_db s) n Hok)).
  set (nid := notification_seq (ns_db s)). assert (Hn : notifications (ns_db s1) !! nid = Some n) by apply lookup_insert_eq.
  clearbody s1 nid n. clear s Hok. apply wp_bind.
  apply (wp_for_each _ _ (λ s, notify_ok (ns_db s) ∧ notifications (ns_db s) !! nid = Some n)); [done| |].
  - intros uid s' _ [Hok' Hn']. eapply wp_mono; [by eapply wp_tell_one| |by intros e s'' [-> _]].
    cbn beta. intros [] s'' Ht. split; [apply Ht|]. by rewrite (proj1 (ta_others _ _ _ _ _ Ht)).
  - intros s' [Hok' _]. apply wp_bind. eapply wp_mono; [by apply keeps_refresh| |done]. intros [] s'' Hok''. apply wp_bind, wp_nquery.
    by destruct (notifications (ns_db s'') !! nid); [apply wp_ret|apply wp_raise].
Qed.
Lemma keeps_subscriptions (f : NotifyDb → NotifyDb) : (∀ db, ∃ m seq, f db = db <| push_subscriptions := m |> <| subscription_seq := seq |>) →
  keeps (on_notify f).
Proof.
  intros Hf s []. apply wp_on_notify. destruct s as [db w]. cbn. destruct (Hf db) as (m & seq & ->). by constructor.
Qed.

Inductive NotifyRequest :=
| CreateNotification (ty title body : string) (payload : PyValue) (uids : list Z) (priority source : string) (event : option string)
| RetryDelivery (delivery : Z)
| ReadNotification (user notification : Z)
| ReadNotifications (user : Z) (notifications : list Z)
| DismissNotification (user notification : Z)
| PutPreferences (user : Z) (items : list (string * (bool * bool * bool)))
| RegisterPush (user : Z) (platform endpoint : string) (p256dh auth token name : option string)
| RevokePush (user subscription : Z)
| JobOutcome (wid : Z) (w : Workspace) (jid : Z) (j : WorkspaceJob).
Definition serve_notify (r : NotifyRequest) : N W unit :=
  match r with
  | CreateNotification ty t b p u pr src ev => internal_create_notification ty t b p u pr src ev ;; mret tt
  | RetryDelivery d => internal_retry_delivery d ;; mret tt
  | ReadNotification u n => mark_notification_read u n ;; mret tt
  | ReadNotifications u ns => mark_notifications_read_bulk u ns ;; mret tt
  | DismissNotification u n => dismiss_notification_route u n ;; mret tt
  | PutPreferences u items => put_preferences u items ;; mret tt
  | RegisterPush u p e k a t n => register_subscription u p e k a t n
  | RevokePush u k => revoke_push_subscription u k
  | JobOutcome wid w jid j => maybe_emit_workspace_lifecycle_notification wid w jid j
  end.
Lemma keeps_serve r : keeps (serve_notify r).
Proof.
  destruct r; cbn [serve_notify]; try (apply keeps_rows_bind; [|intros ?; apply keeps_rows_ret]).
  - unfold internal_create_notification, validate_priority. apply keeps_rows_bind; [|intros p; apply keeps_event].
    destruct (bool_decide _); [apply keeps_rows_ret|apply keeps_rows_raise].
  - apply keeps_answering, keeps_retry.
  - apply keeps_rows_bind; [apply keeps_answering, keeps_mark_read|]. intros x. apply keeps_rows_bind; [apply keeps_get|]. intros ?. apply keeps_rows_ret.
  - apply keeps_bulk.
  - apply keeps_rows_bind; [apply keeps_answering, keeps_dismiss|]. intros x. apply keeps_rows_bind; [apply keeps_get|]. intros ?. apply keeps_rows_ret.
  - apply keeps_rows_bind; [|intros _; apply keeps_rows_query]. apply keeps_each. intros [ty [[a e] p]]. apply keeps_upsert.
  - apply keeps_subscriptions. intros []. by do 2 eexists.
  - apply keeps_answering. apply keeps_rows_bind; [apply keeps_rows_query|]. intros [x|]; [|apply keeps_rows_raise]. destruct (_ =? _); [|apply keeps_rows_raise].
    apply keeps_subscriptions. intros [? ? ? ? ps ? ? ? ? ? seq]. by eexists (alter _ _ ps), seq.
  - unfold maybe_emit_workspace_lifecycle_notification. destruct (WORKSPACE_JOB_NOTIFICATION_MAP _ _) as [[[ty title] suffix]|]; [|apply keeps_rows_ret].
    apply keeps_rows_bind; [apply keeps_event|]. intros _. apply keeps_rows_ret.
Qed.
End rules.

(** Some request is served, at any time and whatever the mail host answers. *)
Inductive notify_step {W : Type} `{SmtpSettings, Smtp W} : NotifyDb → NotifyDb → Prop :=
| NotifyServed (env : Env) (r : NotifyRequest) (w : W) (db : NotifyDb) :
    notify_step db (ns_db (serve_notify r (mkNotifySt db w)).1).

(** ** What notifications promise *)

Section promises.
Context {W : Type} {settings : SmtpSettings} {smtp : Smtp W}.

(** C13. Whatever requests are served, in any order, with any clock and any mail host, also
    those that fail half way: a user receives a notification at most once and a channel
    delivers to a recipient at most once; every delivery belongs to a recipient of its
    notification, and has been skipped without an attempt, delivered, or has failed with
    a message; a recipient to whom something was delivered is not PENDING any more. *)
Theorem notifications_stay_consistent db db' : rtc (notify_step (W := W)) db db' → notify_ok db → notify_ok db'.
Proof.
  induction 1 as [|a b c Hs _ IH]; [done|]. intros H. apply IH. destruct Hs as [env r w db0].
  pose proof (keeps_serve r (mkNotifySt db0 w) H) as Hk. unfold wp in Hk. by destruct (serve_notify _ _) as [s' [?|?]].
Qed.


End promises.
