(* ===== verification/WorkerRows.v ===== *)
(** * WorkerRows: how the job worker writes job, workspace and runtime rows

    The helpers of [src/backend/app/workers/workspace_job_worker/worker.py] below
    the finalizers: parsing, runtime synchronisation, job state transitions and
    the placement and binding failure handlers.  Rows are named by their keys;
    [jid] and [wid] are the [job] and [ws] objects of the source. *)

From S2P Require Import Prelude Models Session Services FailureHandling Sessions.
From S2P Require Import Placement Cleanup Gateway.

(** ** Constants *)
Definition ERROR_CODE_JOB : string := "WORKSPACE_JOB_FAILED".
Definition ERROR_CODE_ORCH : string := "ORCHESTRATOR_EXCEPTION".
Definition ERROR_CODE_PLACEMENT : string := "PLACEMENT_FAILED".
Definition ERROR_CODE_ORCHESTRATOR_BINDING : string := "ORCHESTRATOR_BINDING_FAILED".
Definition CAPACITY_WAIT_MESSAGE : string := WORKSPACE_CAPACITY_PENDING_LAST_ERROR.
Definition CAPACITY_TIMEOUT_MESSAGE : string :=
  "Timed out waiting for execution capacity. Please try again later.".
Definition NODE_READINESS_WAIT_MESSAGE : string := "Waiting for node readiness".
Definition NODE_READINESS_TIMEOUT_MESSAGE : string :=
  "Timed out waiting for node readiness. Please try again later.".

(** ** Parsing helpers *)

(** [_format_issues] *)
Definition format_issues (issues : option (list string)) : option string :=
  match issues with
  | None | Some [] => None
  | Some l => Some (truncate 8192
      (Py.join "; " (List.filter (λ x, Py.truthy (Py.strip x)) l)))
  end.
(** [_format_issues(issues) or fallback] *)
Definition issues_or (issues : option (list string)) (fallback : string) : string :=
  Py.or_else (default ""%string (format_issues issues)) fallback.

Definition update_noop_issues_imply_stopped_workspace (issues : option (list string)) : bool :=
  List.existsb (λ raw, let s := Py.strip raw in
      Py.startswith "update:noop:workspace_runtime_not_found" s
      || Py.startswith "update:noop:container_not_running:" s) (default [] issues).

Definition parse_topology_id (val : option string) : option Z :=
  let s := Py.strip_opt val in
  if Py.truthy s then Py.parse_int s else None.

Definition health_from_probe (probe : option bool) : runtime_health_status :=
  match probe with
  | Some true => WorkspaceRuntimeHealthStatus.HEALTHY
  | Some false => WorkspaceRuntimeHealthStatus.UNHEALTHY
  | None => WorkspaceRuntimeHealthStatus.UNKNOWN
  end.

(** [float(raw)], non-finite and non-positive values dropped *)
Definition cpu_override (v : option ConfigValue) : option cpu + Exn :=
  match v with
  | Some (CfgNumber n) => inl (if n <=? 0 then None else Some n)
  | Some CfgUnparseable => inr (ValueError "cpu_limit_cores must be a positive number")
  | None | Some (CfgNull | CfgNaN | CfgInfinite) => inl None
  end.

(** [int(raw)]: NaN is a [ValueError], an infinity an uncaught [OverflowError] *)
Definition int_override (v : option ConfigValue) (message : string) : option Z + Exn :=
  match v with
  | Some (CfgNumber n) => inl (if n <=? 0 then None else Some n)
  | Some (CfgUnparseable | CfgNaN) => inr (ValueError message)
  | Some CfgInfinite => inr (OtherException "cannot convert float infinity to integer")
  | None | Some CfgNull => inl None
  end.

Definition workspace_job_runtime_overrides_from_config (cfg : RuntimeConfig)
    : (option cpu * option Z * option Z) + Exn :=
  match cpu_override (cfg_cpu_limit_cores cfg) with
  | inr e => inr e
  | inl c =>
      match int_override (cfg_memory_limit_mib cfg) "memory_limit_mib must be a positive integer" with
      | inr e => inr e
      | inl m =>
          match int_override (cfg_pids_limit cfg) "pids_limit must be a positive integer" with
          | inr e => inr e
          | inl p => inl (c, m, p)
          end
      end
  end.

(** [_node_key_from_error_message]: the first [node '..'] of the message *)
Definition quote_char (c : ascii) : bool := Ascii.eqb c "'" || Ascii.eqb c "034".
Fixpoint node_key_from_error_message (m : string) : option string :=
  match m with
  | EmptyString => None
  | String _ r =>
      let found :=
        if Py.startswith "node '" m || Py.startswith ("node " ++ String "034" EmptyString) m then
          let after := String.substring 6 (String.length m - 6) m in
          let key := Py.until quote_char after in
          if Py.truthy key && negb (Nat.eqb (String.length key) (String.length after))
          then Some key else None
        else None in
      match found with Some k => Some k | None => node_key_from_error_message r end
  end.

Definition readiness_markers : list string :=
  ["ssm connectivity check failed"; "invocationdoesnotexist"; "undeliverable";
   "ssm runshellscript failed"; "docker: command not found"; "docker not found";
   "failed to pull image"; "docker pull"; "readygatepending"; "node.ready_gate"]%string.

Definition is_node_readiness_error (message : string) : bool :=
  let m := Py.lower (Py.strip message) in
  List.existsb (λ marker, Py.contains marker m) readiness_markers.

Definition node_readiness_retry_allowed (jt : workspace_job_type) : bool :=
  match jt with
  | WorkspaceJobType.CREATE | WorkspaceJobType.START | WorkspaceJobType.RESTART
  | WorkspaceJobType.UPDATE => true
  | _ => false
  end.

(** ** Runtime rows *)

(** The columns of a fresh [WorkspaceRuntime(workspace_id=..)]. *)
Definition new_runtime (now : time) : WorkspaceRuntime :=
  mkWorkspaceRuntime None None None None None None None WorkspaceRuntimeHealthStatus.UNKNOWN
    0 0 0 None None None None None now.

Definition clear_reservation (r : WorkspaceRuntime) : WorkspaceRuntime :=
  r <| rt_reserved_cpu := 0 |> <| rt_reserved_memory_mb := 0 |> <| rt_reserved_disk_mb := 0 |>.

Definition clear_applied_limits (r : WorkspaceRuntime) : WorkspaceRuntime :=
  r <| rt_applied_cpu_limit_cores := None |> <| rt_applied_memory_limit_mb := None |>
    <| rt_applied_pids_limit := None |> <| rt_applied_security_options := None |>.

(** What an orchestrator result says about a running runtime; [obs_reserved]
    stands for the [reserved_*] keyword arguments, which no caller passes. *)
Record RuntimeObservation := mkObservation {
  obs_node_id : option string;
  obs_topology_id : option string;
  obs_container_id : option string;
  obs_container_state : option string;
  obs_internal_endpoint : option string;
  obs_probe_healthy : option bool;
  obs_gateway_route_target : option string;
  obs_reserved_cpu : option cpu;
  obs_reserved_memory_mb : option Z;
  obs_reserved_disk_mb : option Z;
  obs_applied_cpu_limit_cores : option cpu;
  obs_applied_memory_limit_mb : option Z;
  obs_applied_pids_limit : option Z;
  obs_applied_security_options : option AppliedSecurityOptions
}.

Section runtime_rows.
Context {W : Type} {env : Env}.

Definition clear_runtime_capacity_reservation (wid : Z) : M W unit :=
  set_rt wid (λ r,
    if (rt_reserved_cpu r <=? 0) && (rt_reserved_memory_mb r <=? 0) && (rt_reserved_disk_mb r <=? 0)
    then r else clear_reservation r <| rt_updated_at := env_now |>).

Definition get_persisted_container_id (wid : Z) : M W (option string) :=
  rt ← runtime_row wid; mret (rt ≫= rt_container_id).

(** [_get_or_create_runtime]: the row of [wid] exists afterwards *)
Definition get_or_create_runtime (wid : Z) : M W unit :=
  rt ← runtime_row wid;
  match rt with
  | Some _ => mret tt
  | None => on_db (λ db, flush_db (db <| runtimes ::= <[wid := new_runtime env_now]> |>))
  end.

Definition observed_runtime (o : RuntimeObservation) (config_version : Z)
    (r : WorkspaceRuntime) : WorkspaceRuntime :=
  let placed := Py.truthy (Py.strip_opt (obs_node_id o)) in
  let r1 :=
    r <| rt_node_id := obs_node_id o |>
      <| rt_topology_id := parse_topology_id (obs_topology_id o) |>
      <| rt_container_id := obs_container_id o |>
      <| rt_container_state := obs_container_state o |>
      <| rt_internal_endpoint := obs_internal_endpoint o |>
      <| rt_gateway_route_target := obs_gateway_route_target o |>
      <| rt_config_version := Some config_version |> in
  let r2 :=
    if placed then
      r1 <| rt_reserved_cpu := default (cfg_required_cpu env_settings) (obs_reserved_cpu o) |>
         <| rt_reserved_memory_mb := default (cfg_required_memory_mb env_settings) (obs_reserved_memory_mb o) |>
         <| rt_reserved_disk_mb := default (cfg_required_disk_mb env_settings) (obs_reserved_disk_mb o) |>
         <| rt_applied_cpu_limit_cores := obs_applied_cpu_limit_cores o |>
         <| rt_applied_memory_limit_mb := obs_applied_memory_limit_mb o |>
         <| rt_applied_pids_limit := obs_applied_pids_limit o |>
         <| rt_applied_security_options := obs_applied_security_options o |>
    else clear_applied_limits (clear_reservation r1) in
  r2 <| rt_health_status := health_from_probe (obs_probe_healthy o) |>
     <| rt_last_heartbeat_at := if bool_decide (obs_probe_healthy o = Some true) then Some env_now
                                else rt_last_heartbeat_at r |>
     <| rt_updated_at := env_now |>.

Definition apply_runtime_bringup_like (wid : Z) (o : RuntimeObservation) (config_version : Z) : M W unit :=
  get_or_create_runtime wid ;; set_rt wid (observed_runtime o config_version).

(** The row after a compensating rollback that succeeded. *)
Definition rolled_back_runtime (container_id container_state endpoint target : option string)
    (r : WorkspaceRuntime) : WorkspaceRuntime :=
  clear_applied_limits (clear_reservation
    (r <| rt_container_id ::= λ old, match container_id with Some c => Some c | None => old end |>
       <| rt_container_state ::= λ old, match container_state with Some c => Some c | None => old end |>
       <| rt_internal_endpoint := endpoint |> <| rt_gateway_route_target := target |>))
  <| rt_health_status := WorkspaceRuntimeHealthStatus.UNKNOWN |> <| rt_updated_at := env_now |>.

Definition mark_cleanup_required (r : WorkspaceRuntime) : WorkspaceRuntime :=
  r <| rt_health_status := WorkspaceRuntimeHealthStatus.CLEANUP_REQUIRED |> <| rt_updated_at := env_now |>.

(** [list(a or b or [])] *)
Definition first_nonempty (a b : option (list string)) : option (list string) :=
  match a with Some (_ :: _) => a | _ => b end.

Definition sync_runtime_after_failed_bringup (wid : Z) (res : WorkspaceBringUpResult) : M W unit :=
  if negb (br_rollback_attempted res) then mret tt else
  rt ← runtime_row wid;
  match rt with
  | None => mret tt
  | Some _ =>
      if bool_decide (br_rollback_succeeded res = Some true) then
        set_rt wid (rolled_back_runtime (br_container_id res) (br_container_state res)
                      (br_internal_endpoint res) (br_gateway_route_target res))
      else
        ensure_durable_cleanup_task wid CLEANUP_SCOPE_BRINGUP_ROLLBACK
          (first_nonempty (br_rollback_issues res) (br_issues res)) ;;
        set_rt wid mark_cleanup_required
  end.

Definition sync_runtime_after_bringup_exception (wid : Z) (f : BringUpFailure) : M W unit :=
  if negb (bue_rollback_attempted f) then mret tt else
  rt ← runtime_row wid;
  match rt with
  | None => mret tt
  | Some _ =>
      if bool_decide (bue_rollback_succeeded f = Some true) then
        set_rt wid (rolled_back_runtime (bue_rollback_container_id f) (bue_rollback_container_state f)
                      None None)
      else
        ensure_durable_cleanup_task wid CLEANUP_SCOPE_BRINGUP_ROLLBACK (bue_rollback_issues f) ;;
        set_rt wid mark_cleanup_required
  end.

Definition stopped_runtime (res : WorkspaceStopResult) (r : WorkspaceRuntime) : WorkspaceRuntime :=
  clear_applied_limits (clear_reservation
    (r <| rt_container_id ::= λ old, match sr_container_id res with Some c => Some c | None => old end |>
       <| rt_container_state ::= λ old, match sr_container_state res with Some c => Some c | None => old end |>
       <| rt_topology_id ::= λ old, if bool_decide (sr_topology_detached res = Some false) then old else None |>
       <| rt_internal_endpoint := None |> <| rt_gateway_route_target := None |>))
  <| rt_health_status := WorkspaceRuntimeHealthStatus.UNKNOWN |>
  <| rt_last_heartbeat_at := None |> <| rt_updated_at := env_now |>.

Definition apply_runtime_stop (wid : Z) (res : WorkspaceStopResult) : M W unit :=
  get_or_create_runtime wid ;; set_rt wid (stopped_runtime res).

(** [_clear_runtime_after_delete]: the row is deleted *)
Definition clear_runtime_after_delete (wid : Z) : M W unit :=
  on_db (λ db, db <| runtimes ::= delete wid |>).
End runtime_rows.

(** ** Job and workspace rows *)

Section job_rows.
Context {W : Type} {env : Env}.

Definition running_job (j : WorkspaceJob) : WorkspaceJob :=
  j <| job_status := WorkspaceJobStatus.RUNNING |> <| job_started_at := Some env_now |>
    <| job_attempt ::= Z.add 1 |>.
Definition mark_job_running (jid : Z) : M W unit := set_job jid running_job.

Definition succeeded_job (j : WorkspaceJob) : WorkspaceJob :=
  j <| job_status := WorkspaceJobStatus.SUCCEEDED |> <| job_finished_at := Some env_now |>
    <| job_error_msg := None |> <| job_failure_stage := None |> <| job_failure_code := None |>
    <| job_next_attempt_after := None |>.
Definition mark_job_succeeded (jid : Z) : M W unit := set_job jid succeeded_job.

Definition failed_job (message : string) (stage : failure_stage) (code : string)
    (j : WorkspaceJob) : WorkspaceJob :=
  j <| job_status := WorkspaceJobStatus.FAILED |> <| job_finished_at := Some env_now |>
    <| job_error_msg := Some (truncate 8192 message) |> <| job_failure_stage := Some stage |>
    <| job_failure_code := Some (Py.or_else code (FailureStage.value stage)) |>
    <| job_next_attempt_after := None |>.
(** [_mark_job_failed]; its other reads feed metrics only *)
Definition mark_job_failed (jid : Z) (message : string) (stage : failure_stage) (code : string)
    : M W unit :=
  set_job jid (failed_job message stage code).

Definition clear_errors (w : Workspace) : Workspace :=
  w <| ws_last_error_code := None |> <| ws_last_error_message := None |> <| ws_status_reason := None |>.
(** [_workspace_set_error] *)
Definition set_error (code message : string) (w : Workspace) : Workspace :=
  w <| ws_last_error_code := Some (truncate 64 code) |>
    <| ws_last_error_message := Some (truncate 4096 message) |>
    <| ws_status_reason := Some (truncate 1024 message) |>.
(** [_touch_workspace] *)
Definition touch (w : Workspace) : Workspace := w <| ws_updated_at := env_now |>.
Definition touch_workspace (wid : Z) : M W unit := set_ws wid touch.

(** [ws.status = ERROR; _workspace_set_error(..); _touch_workspace(..)] *)
Definition workspace_to_error (wid : Z) (code message : string) : M W unit :=
  set_ws wid (λ w, touch (set_error code message (w <| ws_status := WorkspaceStatus.ERROR |>))).

(** The workspace waits for capacity or for its node. *)
Definition workspace_to_pending (wid : Z) (message reason : string) : M W unit :=
  set_ws wid (λ w, touch
    (w <| ws_status := WorkspaceStatus.PENDING |> <| ws_last_error_message := Some message |>
       <| ws_last_error_code := None |> <| ws_status_reason := Some reason |>)).

Definition begin_create_bringup_after_placement (wid : Z) (jt : workspace_job_type) : M W unit :=
  w ← get_workspace_row wid;
  when (bool_decide (jt = WorkspaceJobType.CREATE) && bool_decide (ws_status w = WorkspaceStatus.PENDING))
    (set_ws wid (λ w, touch
       (w <| ws_status := WorkspaceStatus.CREATING |>
          <| ws_status_reason := Some "Provisioning workspace runtime..."%string |>
          <| ws_last_error_message := None |> <| ws_last_error_code := None |>))).

Definition mark_node_not_ready_for_retry (node_key : option string) (reason : string) : M W unit :=
  let key := Py.strip_opt node_key in
  if negb (Py.truthy key) then mret tt else
  found ← node_by_key key;
  match found with
  | Some (nid, n) =>
      if bool_decide (node_provider_type n = ExecutionNodeProviderType.EC2) then
        set_node nid (λ n,
          n <| node_status := ExecutionNodeStatus.PROVISIONING |> <| node_schedulable := false |>
            <| node_last_error_code := Some "ReadyGatePending"%string |>
            <| node_last_error_message := Some (truncate 4096 reason) |>
            <| node_updated_at := env_now |>) ;;
        flush
      else mret tt
  | None => mret tt
  end.

(** The terminal tail of the placement and binding handlers. *)
Definition fail_job_and_workspace (wid jid : Z) (message : string) (stage : failure_stage)
    (failure_code error_code : string) : M W unit :=
  mark_job_failed jid message stage failure_code ;;
  workspace_to_error wid error_code message ;;
  clear_runtime_capacity_reservation wid.

Definition fail_job_from_placement (wid jid : Z) (e : Exn) (placement_reason : string) : M W unit :=
  let message := exn_str e in
  let stage := (classify_placement_error e).1 in
  match e with
  | NoSchedulableNodeError _ =>
      retry ← try_schedule_capacity_retry jid CAPACITY_WAIT_MESSAGE env_now;
      if retry : bool then workspace_to_pending wid CAPACITY_WAIT_MESSAGE "Preparing capacity..."
      else
        j ← get_job_row jid;
        let message := if capacity_wait_timed_out j env_now then CAPACITY_TIMEOUT_MESSAGE else message in
        fail_job_and_workspace wid jid message stage placement_reason ERROR_CODE_PLACEMENT
  | _ =>
      retry ← try_schedule_workspace_job_retry jid message stage (Some placement_reason) env_now;
      if retry : bool then touch_workspace wid
      else fail_job_and_workspace wid jid message stage placement_reason ERROR_CODE_PLACEMENT
  end.

Definition fail_job_from_orchestrator_binding (wid jid : Z) (jt : workspace_job_type) (e : Exn) : M W unit :=
  let message := exn_str e in
  if node_readiness_retry_allowed jt && is_node_readiness_error message then
    mark_node_not_ready_for_retry (node_key_from_error_message message) message ;;
    retry ← try_schedule_node_readiness_retry jid NODE_READINESS_WAIT_MESSAGE env_now;
    if retry : bool then
      workspace_to_pending wid NODE_READINESS_WAIT_MESSAGE "Waiting for available node..."
    else
      fail_job_and_workspace wid jid NODE_READINESS_TIMEOUT_MESSAGE FailureStage.CAPACITY
        "node_readiness" ERROR_CODE_ORCHESTRATOR_BINDING
  else
    retry ← try_schedule_workspace_job_retry jid message orchestrator_binding_retryable.1
              (Some "orchestrator_binding"%string) env_now;
    if retry : bool then touch_workspace wid
    else fail_job_and_workspace wid jid message orchestrator_binding_retryable.1
           "orchestrator_binding" ERROR_CODE_ORCHESTRATOR_BINDING.

(** [_finalize_job_failed_workspace_error]; every caller passes a stage *)
Definition finalize_job_failed_workspace_error (wid jid : Z) (message : string)
    (stage : failure_stage) : M W unit :=
  mark_job_failed jid message stage (FailureStage.value stage) ;;
  workspace_to_error wid ERROR_CODE_JOB message ;;
  clear_runtime_capacity_reservation wid ;;
  j ← get_job_row jid;
  w ← get_workspace_row wid;
  record_audit "workspace.job.failed" "workspace" "failure" (Some (job_requested_by_user_id j)) "system"
    (Some (Py.str_of_Z wid)) (Some wid) (Some jid) (Some (Py.prefix_to 4096 message)) ;;
  record_usage (Some wid) (Some (ws_owner_user_id w)) "workspace.job.failed" 1 None (Some jid).

Definition resolve_orchestrator_result_failure (wid jid : Z) (message : string)
    (stage : failure_stage) (retryable : bool) : M W unit :=
  scheduled ← (if retryable then try_schedule_workspace_job_retry jid message stage
                                   (Some (FailureStage.value stage)) env_now
               else mret false);
  if scheduled : bool then touch_workspace wid
  else finalize_job_failed_workspace_error wid jid message stage.
End job_rows.
