(* ===== verification/Finalizers.v ===== *)
(** * Finalizers: mapping orchestrator results onto rows

    The [_finalize_*] functions of worker.py: what each result of the orchestrator
    does to the job, workspace and runtime rows, the sessions, the gateway route,
    the audit log and the usage ledger. *)

From S2P Require Import Prelude Models Session Services FailureHandling Sessions.
From S2P Require Import Cleanup Gateway WorkerRows.

(** [a or b] on optional strings *)
Definition opt_or (a b : option string) : option string :=
  match a with Some s => if Py.truthy s then a else b | None => b end.

Section finalizers.
Context {W : Type} {env : Env} {routes : RouteAdmin W}.

Definition sync_workspace_execution_node_id (wid : Z) (node_id : option string) : M W unit :=
  let key := Py.strip_opt node_id in
  if negb (Py.truthy key) then mret tt else
  found ← node_by_key key;
  match found with
  | None => mret tt
  | Some (nid, _) => set_ws wid (λ w, w <| ws_execution_node_id := Some nid |>)
  end.

(** The audit row of a job that succeeded. *)
Definition audit_job_succeeded (wid jid : Z) : M W unit :=
  j ← get_job_row jid;
  record_audit "workspace.job.succeeded" "workspace" "success" (Some (job_requested_by_user_id j)) "system"
    (Some (Py.str_of_Z wid)) (Some wid) (Some jid) None.

Definition usage_for (wid jid : Z) (event_type : string) (quantity : Z) (node_id : option string) : M W unit :=
  w ← get_workspace_row wid;
  record_usage (Some wid) (Some (ws_owner_user_id w)) event_type quantity node_id (Some jid).

Definition running_workspace (endpoint : option string) (w : Workspace) : Workspace :=
  touch (clear_errors (w <| ws_status := WorkspaceStatus.RUNNING |>)
           <| ws_endpoint_ref := opt_or endpoint (ws_endpoint_ref w) |>
           <| ws_last_started := Some env_now |>).

Definition finalize_runtime_running_success (wid jid : Z) (config_version : Z)
    (o : RuntimeObservation) : M W unit :=
  w ← get_workspace_row wid;
  target ← remote_gateway_route_target_for_node (obs_node_id o) (ws_execution_node_id w)
             (obs_gateway_route_target o) (obs_internal_endpoint o);
  apply_runtime_bringup_like wid
    (mkObservation (obs_node_id o) (obs_topology_id o) (obs_container_id o) (obs_container_state o)
       (obs_internal_endpoint o) (obs_probe_healthy o) target (obs_reserved_cpu o)
       (obs_reserved_memory_mb o) (obs_reserved_disk_mb o) (obs_applied_cpu_limit_cores o)
       (obs_applied_memory_limit_mb o) (obs_applied_pids_limit o) (obs_applied_security_options o))
    config_version ;;
  sync_workspace_execution_node_id wid (obs_node_id o) ;;
  mark_job_succeeded jid ;;
  set_ws wid (running_workspace (opt_or target (obs_internal_endpoint o))) ;;
  revoke_all_workspace_sessions wid ;;
  gateway_try_register_running wid ;;
  audit_job_succeeded wid jid ;;
  usage_for wid jid "workspace.started" 1 (obs_node_id o).

Definition bringup_observation (r : WorkspaceBringUpResult) : RuntimeObservation :=
  mkObservation (br_node_id r) (br_topology_id r) (br_container_id r) (br_container_state r)
    (br_internal_endpoint r) (br_probe_healthy r) (br_gateway_route_target r) None None None
    (br_applied_cpu_limit_cores r) (br_applied_memory_limit_mib r) (br_applied_pids_limit r)
    (br_applied_security_options r).

Definition bringup_failure_message (r : WorkspaceBringUpResult) : string :=
  let base := issues_or (br_issues r) "Bring-up completed without success" in
  match br_rollback_succeeded r, format_issues (br_rollback_issues r) with
  | Some false, Some extra =>
      if Py.truthy extra then (base ++ "; rollback_failed: " ++ extra)%string else base
  | _, _ => base
  end.

Definition finalize_bringup_result (wid jid : Z) (jt : workspace_job_type)
    (r : WorkspaceBringUpResult) (config_version : Z) : M W unit :=
  if br_success r then
    finalize_runtime_running_success wid jid config_version (bringup_observation r)
  else
    sync_runtime_after_failed_bringup wid r ;;
    resolve_orchestrator_result_failure wid jid (bringup_failure_message r) FailureStage.CONTAINER
      (lifecycle_result_failure_retryable jt).

(** [max(0, int((_now() - ws.last_started).total_seconds()))] *)
Definition session_seconds (w : Workspace) : Z :=
  match ws_last_started w with
  | None => 0
  | Some t => Z.max 0 (Z.quot (env_now - t) (seconds 1))
  end.

Definition finalize_stop_result (wid jid : Z) (r : WorkspaceStopResult) : M W unit :=
  if sr_success r then
    apply_runtime_stop wid r ;;
    mark_job_succeeded jid ;;
    set_ws wid (λ w, touch (clear_errors (w <| ws_status := WorkspaceStatus.STOPPED |>)
                              <| ws_last_stopped := Some env_now |>)) ;;
    revoke_all_workspace_sessions wid ;;
    gateway_try_deregister wid ;;
    audit_job_succeeded wid jid ;;
    w ← get_workspace_row wid;
    usage_for wid jid "workspace.stopped" (session_seconds w) None
  else
    ensure_durable_cleanup_task wid CLEANUP_SCOPE_STOP_INCOMPLETE (sr_issues r) ;;
    resolve_orchestrator_result_failure wid jid (issues_or (sr_issues r) "Stop completed without success")
      FailureStage.CONTAINER false.

(** [ws.status = DELETED; _workspace_clear_errors(ws)], touched *)
Definition deleted_workspace (w : Workspace) : Workspace :=
  touch (clear_errors (w <| ws_status := WorkspaceStatus.DELETED |>)).

(** [_finalize_delete_result]: the result's [success] is recorded, not consulted *)
Definition finalize_delete_result (wid jid : Z) : M W unit :=
  mark_job_succeeded jid ;;
  set_ws wid deleted_workspace ;;
  clear_runtime_after_delete wid ;;
  revoke_all_workspace_sessions wid ;;
  gateway_try_deregister wid ;;
  audit_job_succeeded wid jid ;;
  usage_for wid jid "workspace.deleted" 1 None.

Definition finalize_delete_runtime_missing_idempotent (wid jid : Z) : M W unit :=
  mark_job_succeeded jid ;;
  set_ws wid deleted_workspace ;;
  revoke_all_workspace_sessions wid ;;
  gateway_try_deregister wid ;;
  audit_job_succeeded wid jid ;;
  usage_for wid jid "workspace.deleted" 1 None.

Definition restart_observation (r : WorkspaceRestartResult) : RuntimeObservation :=
  mkObservation (rr_node_id r) (rr_topology_id r) (rr_container_id r) (rr_container_state r)
    (rr_internal_endpoint r) (rr_probe_healthy r) (rr_gateway_route_target r) None None None
    (rr_applied_cpu_limit_cores r) (rr_applied_memory_limit_mib r) (rr_applied_pids_limit r)
    (rr_applied_security_options r).

Definition finalize_restart_result (wid jid : Z) (jt : workspace_job_type)
    (r : WorkspaceRestartResult) (config_version : Z) : M W unit :=
  if rr_success r then
    finalize_runtime_running_success wid jid config_version (restart_observation r)
  else
    resolve_orchestrator_result_failure wid jid (issues_or (rr_issues r) "Restart completed without success")
      FailureStage.CONTAINER (lifecycle_result_failure_retryable jt).

Definition update_observation (r : WorkspaceUpdateResult) : RuntimeObservation :=
  mkObservation (ur_node_id r) (ur_topology_id r) (ur_container_id r) (ur_container_state r)
    (ur_internal_endpoint r) (ur_probe_healthy r) (ur_gateway_route_target r) None None None
    (ur_applied_cpu_limit_cores r) (ur_applied_memory_limit_mib r) (ur_applied_pids_limit r)
    (ur_applied_security_options r).

(** The row of a no-op update that found no running container. *)
Definition noop_stopped_runtime (r : WorkspaceUpdateResult) (config_version : Z)
    (rt : WorkspaceRuntime) : WorkspaceRuntime :=
  clear_applied_limits (clear_reservation
    (rt <| rt_node_id := ur_node_id r |>
        <| rt_topology_id := parse_topology_id (ur_topology_id r) |>
        <| rt_container_id := ur_container_id r |>
        <| rt_container_state := ur_container_state r |>
        <| rt_internal_endpoint := ur_internal_endpoint r |>
        <| rt_gateway_route_target := ur_gateway_route_target r |>
        <| rt_config_version := Some config_version |>))
  <| rt_health_status := WorkspaceRuntimeHealthStatus.UNKNOWN |>
  <| rt_last_heartbeat_at := None |> <| rt_updated_at := env_now |>.

Definition finalize_update_result (wid jid : Z) (jt : workspace_job_type)
    (r : WorkspaceUpdateResult) : M W unit :=
  j ← get_job_row jid;
  let cfg_v := if ur_requested_config_version r =? 0 then job_requested_config_version j
               else ur_requested_config_version r in
  if ur_success r then
    finalize_runtime_running_success wid jid cfg_v (update_observation r)
  else
    let msg := issues_or (ur_issues r) "Update completed without success" in
    if ur_no_op r && update_noop_issues_imply_stopped_workspace (ur_issues r) then
      get_or_create_runtime wid ;;
      set_rt wid (noop_stopped_runtime r cfg_v) ;;
      mark_job_succeeded jid ;;
      set_ws wid (λ w, touch (clear_errors (w <| ws_status := WorkspaceStatus.STOPPED |>)
                                <| ws_status_reason := Some (truncate 1024 msg) |>)) ;;
      revoke_all_workspace_sessions wid ;;
      mret tt
    else
      resolve_orchestrator_result_failure wid jid msg FailureStage.CONTAINER
        (lifecycle_result_failure_retryable jt).
End finalizers.
