(* ===== verification/SnapshotJobs.v ===== *)
(** * SnapshotJobs: executing snapshot and repository-import jobs

    [_execute_snapshot_create_job], [_execute_snapshot_restore_job] and
    [_execute_repo_import_job] of worker.py. *)

From S2P Require Import Prelude Models Session Services FailureHandling WorkerRows.
From S2P Require Import Finalizers.

Section snapshot_jobs.
Context {W : Type} {env : Env} {storage : SnapshotStorage W} {git : GitExecutor W}.

Definition is_remote_ec2_ssm_snapshot_node (n : option ExecutionNode) : bool :=
  match n with
  | None => false
  | Some n => bool_decide (node_provider_type n = ExecutionNodeProviderType.EC2)
              || bool_decide (node_execution_mode n = ExecutionNodeExecutionMode.SSM_DOCKER)
  end.

Definition snapshot_failure (wid : Z) (issues : option (list string)) : WorkspaceSnapshotOperationResult :=
  mkWorkspaceSnapshotOperationResult (Py.str_of_Z wid) false None issues.

Definition export_remote_ec2_snapshot_to_s3 (wid sid : Z) (container_id : string) (n : ExecutionNode)
    : M W WorkspaceSnapshotOperationResult :=
  let iid := Py.strip_opt (node_provider_instance_id n) in
  let region := Py.strip (Py.or_else (default ""%string (node_region n)) (cfg_aws_region env_settings)) in
  if negb (Py.truthy iid) then
    mret (snapshot_failure wid (Some ["snapshot:remote:ssm_missing_instance_id"%string]))
  else if negb (Py.truthy region) then
    mret (snapshot_failure wid (Some ["snapshot:remote:ssm_missing_region"%string]))
  else
    res ← attempt (call_storage (ss_export_via_ssm wid sid container_id iid region));
    match res with
    | inr e => mret (snapshot_failure wid (Some [("snapshot:remote:exception:" ++ exn_str e)%string]))
    | inl (ok, size_bytes, issues) =>
        if ok : bool then mret (mkWorkspaceSnapshotOperationResult (Py.str_of_Z wid) true size_bytes None)
        else mret (snapshot_failure wid issues)
    end.

Definition set_snapshot_status (sid : Z) (st : workspace_snapshot_status) : M W unit :=
  set_snap sid (λ s, s <| snap_status := st |>).

(** The container a snapshot is taken from while the workspace runs. *)
Definition snapshot_container (w : Workspace) (rt : option WorkspaceRuntime) : option string :=
  match rt with
  | None => None
  | Some r =>
      if bool_decide (ws_status w = WorkspaceStatus.RUNNING) &&
         String.eqb (Py.lower (Py.strip_opt (rt_container_state r))) "running"
      then Py.strip_or_none (rt_container_id r) else None
  end.

(** [_mark_job_failed(..); _touch_workspace(ws)] *)
Definition fail_snapshot_job (wid jid : Z) (message : string) (stage : failure_stage) (code : string)
    : M W unit :=
  mark_job_failed jid message stage code ;; touch_workspace wid.

Definition snapshot_event (wid : Z) (event_type message : string) : M W unit :=
  w ← get_workspace_row wid;
  record_workspace_event wid event_type (Some (ws_status w)) message.

Definition snapshot_audit (wid jid sid : Z) (action outcome : string) (reason : option string) : M W unit :=
  j ← get_job_row jid;
  record_audit action "workspace_snapshot" outcome (Some (job_requested_by_user_id j)) "system"
    (Some (Py.str_of_Z sid)) (Some wid) (Some jid) reason.

(** The row becomes AVAILABLE, with its archive's address and size. *)
Definition available_snapshot (wid sid size : Z) (s : WorkspaceSnapshot) : WorkspaceSnapshot :=
  s <| snap_storage_uri := ss_storage_uri wid sid |> <| snap_size_bytes := Some size |>
    <| snap_status := WorkspaceSnapshotStatus.AVAILABLE |>.

Definition snapshot_created (wid jid sid : Z) (res : WorkspaceSnapshotOperationResult) : M W unit :=
  let size := default 0 (so_size_bytes res) in
  set_snap sid (available_snapshot wid sid size) ;;
  mark_job_succeeded jid ;;
  touch_workspace wid ;;
  snapshot_event wid "workspace.snapshot.created" "Workspace snapshot materialized" ;;
  snapshot_audit wid jid sid "workspace.snapshot.created" "success" None ;;
  usage_for wid jid "snapshot.created" size None.

Definition snapshot_create_failed (wid jid sid : Z) (res : WorkspaceSnapshotOperationResult) : M W unit :=
  let msg := match so_issues res with
             | Some (i :: l) => Py.join "; " (i :: l)
             | _ => "snapshot:create:failed"%string
             end in
  set_snapshot_status sid WorkspaceSnapshotStatus.FAILED ;;
  attempt (call_storage (ss_delete_archive wid sid)) ;;
  mark_job_failed jid msg FailureStage.STORAGE "SNAPSHOT_CREATE_FAILED" ;;
  touch_workspace wid ;;
  snapshot_event wid "workspace.snapshot.failed" msg ;;
  snapshot_audit wid jid sid "workspace.snapshot.create.failed" "failure" (Some msg).

Definition execute_snapshot_create_job (orch : Orchestrator W) (wid jid : Z) : M W unit :=
  j ← get_job_row jid;
  match job_workspace_snapshot_id j with
  | None => fail_snapshot_job wid jid "SNAPSHOT_CREATE job missing workspace_snapshot_id"
              FailureStage.UNKNOWN "SNAPSHOT_JOB_INVALID"
  | Some sid =>
      snap ← query (λ db, snapshots db !! sid);
      match snap with
      | None => fail_snapshot_job wid jid "Snapshot row missing or workspace mismatch"
                  FailureStage.UNKNOWN "SNAPSHOT_ROW_INVALID"
      | Some sn =>
          if negb (snap_workspace_id sn =? wid) then
            mark_job_failed jid "Snapshot row missing or workspace mismatch" FailureStage.UNKNOWN
              "SNAPSHOT_ROW_INVALID" ;;
            set_snapshot_status sid WorkspaceSnapshotStatus.FAILED ;;
            touch_workspace wid
          else
            rt ← runtime_row wid;
            w ← get_workspace_row wid;
            node ← query (λ db, ws_execution_node_id w ≫= λ nid, nodes db !! nid);
            let cid := snapshot_container w rt in
            let via_ssm := match cid, node with
                           | Some c, Some n => if ss_remote && is_remote_ec2_ssm_snapshot_node node
                                               then Some (c, n) else None
                           | _, _ => None
                           end in
            res ← match via_ssm with
                  | Some (c, n) => export_remote_ec2_snapshot_to_s3 wid sid c n
                  | None => call (oc_export_snapshot orch wid (ws_project_storage_key w) (ss_archive_path wid sid) cid)
                  end;
            if so_success res then
              uploaded ← (if ss_remote && negb (bool_decide (is_Some via_ssm))
                          then attempt (call_storage (ss_upload_archive wid sid))
                          else mret (inl tt));
              match uploaded with
              | inr e =>
                  set_snapshot_status sid WorkspaceSnapshotStatus.FAILED ;;
                  fail_snapshot_job wid jid ("snapshot:create:upload_failed:" ++ exn_str e)
                    FailureStage.STORAGE "SNAPSHOT_CREATE_UPLOAD_FAILED"
              | inl _ => snapshot_created wid jid sid res
              end
            else snapshot_create_failed wid jid sid res
      end
  end.

Definition snapshot_restored (wid jid sid : Z) : M W unit :=
  set_snapshot_status sid WorkspaceSnapshotStatus.AVAILABLE ;;
  mark_job_succeeded jid ;;
  touch_workspace wid ;;
  snapshot_event wid "workspace.snapshot.restored" "Workspace files restored from snapshot" ;;
  snapshot_audit wid jid sid "workspace.snapshot.restored" "success" None ;;
  usage_for wid jid "snapshot.restored" 1 None.

(** A failed restore releases the snapshot: it is AVAILABLE again. *)
Definition snapshot_restore_failed (wid jid sid : Z) (msg code : string) : M W unit :=
  set_snapshot_status sid WorkspaceSnapshotStatus.AVAILABLE ;;
  mark_job_failed jid msg FailureStage.STORAGE code ;;
  touch_workspace wid ;;
  snapshot_event wid "workspace.snapshot.failed" msg.

Definition execute_snapshot_restore_job (orch : Orchestrator W) (wid jid : Z) : M W unit :=
  j ← get_job_row jid;
  match job_workspace_snapshot_id j with
  | None => fail_snapshot_job wid jid "SNAPSHOT_RESTORE job missing workspace_snapshot_id"
              FailureStage.UNKNOWN "SNAPSHOT_JOB_INVALID"
  | Some sid =>
      snap ← query (λ db, snapshots db !! sid);
      if negb (bool_decide (snap_workspace_id <$> snap = Some wid)) then
        fail_snapshot_job wid jid "Snapshot row missing or workspace mismatch"
          FailureStage.UNKNOWN "SNAPSHOT_ROW_INVALID"
      else
        downloaded ← (if ss_remote then attempt (call_storage (ss_download_archive wid sid))
                      else mret (inl tt));
        match downloaded with
        | inr e =>
            set_snapshot_status sid WorkspaceSnapshotStatus.AVAILABLE ;;
            fail_snapshot_job wid jid ("snapshot:restore:download_failed:" ++ exn_str e)
              FailureStage.STORAGE "SNAPSHOT_RESTORE_DOWNLOAD_FAILED"
        | inl _ =>
            present ← call_storage (ss_has_nonempty_archive wid sid);
            if negb (present : bool) then
              snapshot_restore_failed wid jid sid
                ("snapshot:restore:archive_missing_or_empty:" ++ ss_archive_path wid sid)
                "SNAPSHOT_RESTORE_MISSING_ARCHIVE"
            else
              w ← get_workspace_row wid;
              res ← call (oc_import_snapshot orch wid (ws_project_storage_key w) (ss_archive_path wid sid));
              if so_success res then snapshot_restored wid jid sid
              else snapshot_restore_failed wid jid sid
                     (match so_issues res with
                      | Some (i :: l) => Py.join "; " (i :: l)
                      | _ => "snapshot:restore:failed"%string
                      end) "SNAPSHOT_RESTORE_FAILED"
        end
  end.

(** The repository being imported: the newest pending or cloning row. *)
Definition pending_repository (wid : Z) (db : Db) : option Z :=
  let ids := (List.filter (λ kr : Z * WorkspaceRepository,
                bool_decide (repo_workspace_id kr.2 = wid) &&
                (String.eqb (repo_clone_status kr.2) "pending"
                 || String.eqb (repo_clone_status kr.2) "cloning"))
              (map_to_list (repositories db))).*1 in
  match ids with [] => None | i :: l => Some (foldr Z.max i l) end.

Definition repository_failed (rid : Z) (msg : string) : M W unit :=
  set_repo rid (λ r, r <| repo_clone_status := "failed"%string |> <| repo_error_msg := Some msg |>
                       <| repo_updated_at := env_now |>).

(** [FailureStage.ORCHESTRATION] is no member of the enumeration, so evaluating
    the arguments of every [_mark_job_failed] call of this job raises. *)
Definition mark_import_failed : M W unit := raise (AttributeError "ORCHESTRATION").

Definition execute_repo_import_job (wid jid : Z) : M W unit :=
  found ← query (pending_repository wid);
  match found with
  | None => mark_import_failed
  | Some rid =>
      set_repo rid (λ r, r <| repo_clone_status := "cloning"%string |> <| repo_updated_at := env_now |>) ;;
      flush ;;
      rt ← runtime_row wid;
      match rt ≫= (λ r, cid ← rt_container_id r; if Py.truthy cid then Some (r, cid) else None) with
      | None => repository_failed rid "Workspace runtime container not available" ;; mark_import_failed
      | Some (r, cid) =>
          repo ← row repositories rid;
          token ← match repo_provider repo with
                  | Some p => if Py.truthy p && negb (repo_owner_user_id repo =? 0)
                              then call_storage (git_provider_token (repo_owner_user_id repo) p)
                              else mret None
                  | None => mret None
                  end;
          res ← attempt (call_storage (git_clone (rt_node_id r) cid (repo_branch repo)
                                         (repo_repo_url repo) (repo_clone_dir repo) token));
          match res with
          | inr e => repository_failed rid (Py.prefix_to 512 (exn_str e)) ;; mark_import_failed
          | inl (false, output) =>
              repository_failed rid (Py.prefix_to 512 output) ;; mark_import_failed
          | inl (true, _) =>
              set_repo rid (λ r, r <| repo_clone_status := "cloned"%string |>
                                   <| repo_last_synced_at := Some env_now |>
                                   <| repo_error_msg := None |> <| repo_updated_at := env_now |>) ;;
              mark_job_succeeded jid
          end
      end
  end.
End snapshot_jobs.
