(* ===== verification/Reconcile.v ===== *)
(** * Reconcile: executing RECONCILE_RUNTIME jobs

    [src/backend/app/services/reconcile_service/reconcile_runtime.py]: drift
    detection and repair of a workspace's runtime row, container and gateway route,
    under a per-workspace advisory lock. *)

From S2P Require Import Prelude Models Session Services FailureHandling Sessions.
From S2P Require Import Placement Cleanup Gateway WorkerRows Finalizers.

(** [_BUSY_RECONCILE] *)
Definition busy_reconcile (st : workspace_status) : bool :=
  match st with
  | WorkspaceStatus.CREATING | WorkspaceStatus.PENDING | WorkspaceStatus.STARTING
  | WorkspaceStatus.STOPPING | WorkspaceStatus.RESTARTING | WorkspaceStatus.UPDATING
  | WorkspaceStatus.DELETING => true
  | _ => false
  end.

Section reconcile.
Context {W : Type} {env : Env} {routes : RouteAdmin W} {lock : ReconcileLock W}.

(** [try: m except GatewayClientError as e: h(str(e))] *)
Definition catch_gateway {A} (m : M W A) (h : string → M W A) : M W A :=
  try_except m (λ e, match e with GatewayClientError msg => h msg | _ => raise e end).

Definition strict_list_routes : M W (list RouteRow) :=
  if cfg_gateway_enabled env_settings then get_registered_routes else mret [].

Definition strict_register_route (wid : Z) (upstream : string) : M W unit :=
  w ← get_workspace_row wid;
  rt ← runtime_row wid;
  register_workspace_route wid w (rt ≫= rt_node_id) upstream.

Definition strict_deregister_route (wid : Z) : M W unit :=
  when (cfg_gateway_enabled env_settings) (deregister_route (Py.str_of_Z wid)).

(** [record_workspace_event(.., status=ws.status, ..)] *)
Definition reconcile_event (wid : Z) (event_type message : string) : M W unit :=
  w ← get_workspace_row wid;
  record_workspace_event wid event_type (Some (ws_status w)) message.

Definition best_effort_remove_orphan_gateway_route (wid : Z) (message : string) : M W unit :=
  if negb (cfg_gateway_enabled env_settings) then mret tt else
  removed ← catch_gateway
    (listed ← strict_list_routes;
     match route_row_for_workspace listed wid with
     | None => mret false
     | Some _ => strict_deregister_route wid ;; mret true
     end)
    (λ _, mret false);
  when removed (reconcile_event wid "controlplane.reconcile_cleaned_orphan" message).

(** The ledger of one row, given the workspace's status. *)
Definition repaired_ledger (st : workspace_status) (r : WorkspaceRuntime) : WorkspaceRuntime :=
  match st with
  | WorkspaceStatus.STOPPED | WorkspaceStatus.ERROR | WorkspaceStatus.DELETED =>
      if (0 <? rt_reserved_cpu r) || (0 <? rt_reserved_memory_mb r) || (0 <? rt_reserved_disk_mb r)
      then clear_reservation r <| rt_updated_at := env_now |> else r
  | WorkspaceStatus.RUNNING =>
      if Py.truthy (Py.strip_opt (rt_node_id r)) && (rt_reserved_cpu r <=? 0)
         && (rt_reserved_memory_mb r <=? 0) && (rt_reserved_disk_mb r <=? 0)
      then r <| rt_reserved_cpu := cores 1 |> <| rt_reserved_memory_mb := 512 |>
             <| rt_reserved_disk_mb := 4096 |> <| rt_updated_at := env_now |>
      else r
  | _ => r
  end.

Definition repair_runtime_capacity_ledger (wid : Z) : M W unit :=
  w ← get_workspace_row wid;
  set_rt wid (repaired_ledger (ws_status w)).

Definition fail_reconcile (wid jid : Z) (message : string) : M W unit :=
  let '(stage, retryable) := classify_reconcile_failure message in
  scheduled ← (if retryable then try_schedule_workspace_job_retry jid message stage
                                   (Some (FailureStage.value stage)) env_now
               else mret false);
  if scheduled : bool then touch_workspace wid
  else
    record_audit "reconcile.failed" "workspace" "failure" None "internal_service"
      (Some (Py.str_of_Z wid)) (Some wid) (Some jid) (Some (Py.prefix_to 4096 message)) ;;
    w ← get_workspace_row wid;
    match ws_status w with
    | WorkspaceStatus.STOPPED | WorkspaceStatus.ERROR | WorkspaceStatus.DELETED =>
        mark_job_failed jid message stage (FailureStage.value stage) ;; touch_workspace wid
    | _ => finalize_job_failed_workspace_error wid jid message stage
    end.

(** List the routes and deregister the workspace's, or report the failure: the
    common part of three reconcilers.  [k] continues with whether a route was
    removed. *)
Definition remove_listed_route (wid jid : Z) (k : bool → M W unit) : M W unit :=
  listed ← catch_gateway (l ← strict_list_routes; mret (inl l)) (λ m, mret (inr m));
  match listed with
  | inr m => fail_reconcile wid jid ("reconcile:gateway_list_failed:" ++ m)
  | inl l =>
      match route_row_for_workspace l wid with
      | None => k false
      | Some _ =>
          removed ← catch_gateway (strict_deregister_route wid ;; mret (inl tt)) (λ m, mret (inr m));
          match removed with
          | inr m => fail_reconcile wid jid ("reconcile:gateway_deregister_failed:" ++ m)
          | inl _ => k true
          end
      end
  end.

Definition reconcile_deleted (wid jid : Z) : M W unit :=
  if negb (cfg_gateway_enabled env_settings) then
    reconcile_event wid "controlplane.reconcile_noop" "Reconcile noop (gateway disabled)" ;;
    mark_job_succeeded jid
  else
    remove_listed_route wid jid (λ removed,
      (if removed : bool
       then reconcile_event wid "controlplane.reconcile_cleaned_orphan"
              "Removed orphan gateway route for deleted workspace"
       else reconcile_event wid "controlplane.reconcile_noop"
              "Reconcile noop (no gateway route for deleted workspace)") ;;
      mark_job_succeeded jid).

Definition reconcile_error_cleanup (orch : Orchestrator W) (wid jid : Z) : M W unit :=
  cid ← get_persisted_container_id wid;
  res ← try_except (r ← call (oc_stop orch wid cid true); mret (inl r))
          (λ e, match e with WorkspaceStopError m => mret (inr m) | _ => raise e end);
  match res with
  | inr m => fail_reconcile wid jid ("reconcile:error_cleanup_stop_failed:" ++ m)
  | inl stop_res =>
      when (sr_success stop_res)
        (apply_runtime_stop wid stop_res ;;
         reconcile_event wid "controlplane.reconcile_fixed_runtime"
           "Reconcile: cleaned orphan workspace engine/topology lease for ERROR workspace") ;;
      if negb (cfg_gateway_enabled env_settings) then
        reconcile_event wid "controlplane.reconcile_noop"
          "Reconcile noop (gateway disabled; engine cleanup attempted)" ;;
        mark_job_succeeded jid
      else
        remove_listed_route wid jid (λ removed,
          (if removed : bool
           then reconcile_event wid "controlplane.reconcile_cleaned_orphan"
                  "Removed orphan gateway route while workspace in ERROR"
           else reconcile_event wid "controlplane.reconcile_noop"
                  "Reconcile noop (no orphan gateway route after engine cleanup)") ;;
          mark_job_succeeded jid)
  end.

(** [try: orchestrator.check_workspace_runtime_health(..) except WorkspaceBringUpError] *)
Definition check_health (orch : Orchestrator W) (wid : Z) (cid : option string)
    : M W (WorkspaceBringUpResult + string) :=
  try_except (r ← call (oc_check_health orch wid cid); mret (inl r))
    (λ e, match e with WorkspaceBringUpError f => mret (inr (bue_message f)) | _ => raise e end).

Definition reconcile_stopped (orch : Orchestrator W) (wid jid : Z) : M W unit :=
  cid ← get_persisted_container_id wid;
  health ← check_health orch wid cid;
  match health with
  | inr m => fail_reconcile wid jid ("reconcile:health_check_failed:" ++ m)
  | inl h =>
      if br_success h then
        res ← try_except (r ← call (oc_stop orch wid cid false); mret (inl r))
                (λ e, match e with WorkspaceStopError m => mret (inr m) | _ => raise e end);
        match res with
        | inr m => fail_reconcile wid jid ("reconcile:stop_failed:" ++ m)
        | inl stop_res =>
            finalize_stop_result wid jid stop_res ;;
            j ← get_job_row jid;
            if negb (bool_decide (job_status j = WorkspaceJobStatus.SUCCEEDED)) then
              reconcile_event wid "controlplane.reconcile_failed"
                (Py.or_else (default ""%string (job_error_msg j)) "reconcile:stop_finalize_failed")
            else
              reconcile_event wid "controlplane.reconcile_fixed_runtime"
                "Stopped lingering runtime while workspace was STOPPED" ;;
              best_effort_remove_orphan_gateway_route wid
                "Removed orphan gateway route after stop reconcile (strict cleanup)"
        end
      else
        let finish (fixed_route : bool) :=
          (if fixed_route
           then reconcile_event wid "controlplane.reconcile_cleaned_orphan"
                  "Removed orphan gateway route while workspace was STOPPED"
           else reconcile_event wid "controlplane.reconcile_noop"
                  "Reconcile noop (already aligned with STOPPED)") ;;
          mark_job_succeeded jid in
        if cfg_gateway_enabled env_settings then remove_listed_route wid jid finish else finish false
  end.

(** [_runtime_snapshot] *)
Definition runtime_snapshot (wid : Z) (db : Db)
    : option (option string * option string * option string * runtime_health_status) :=
  (λ r, (rt_container_id r, rt_internal_endpoint r, rt_gateway_route_target r, rt_health_status r))
    <$> runtimes db !! wid.

(** The observation of a health check; the applied limits are not passed on. *)
Definition health_observation (h : WorkspaceBringUpResult) (target : option string) : RuntimeObservation :=
  mkObservation (br_node_id h) (br_topology_id h) (br_container_id h) (br_container_state h)
    (br_internal_endpoint h) (br_probe_healthy h) target None None None None None None None.

(** The route repair of [_reconcile_running]; [inl fixed] continues. *)
Definition repair_route (wid jid : Z) (upstream : string) : M W (bool + unit) :=
  if negb (cfg_gateway_enabled env_settings && Py.truthy upstream) then mret (inl false) else
  listed ← catch_gateway (l ← strict_list_routes; mret (inl l)) (λ m, mret (inr m));
  match listed with
  | inr m => fail_reconcile wid jid ("reconcile:gateway_list_failed:" ++ m) ;; mret (inr tt)
  | inl l =>
      w ← get_workspace_row wid;
      if gateway_route_needs_repair (route_row_for_workspace l wid) (Some upstream)
           (Some (workspace_public_host wid w)) (Py.strip_or_none (ws_gateway_path_prefix w))
      then
        done ← catch_gateway (strict_register_route wid upstream ;; mret (inl tt)) (λ m, mret (inr m));
        match done with
        | inr m => fail_reconcile wid jid ("reconcile:gateway_register_failed:" ++ m) ;; mret (inr tt)
        | inl _ =>
            reconcile_event wid "controlplane.reconcile_fixed_route" "Re-registered gateway route" ;;
            mret (inl true)
        end
      else mret (inl false)
  end.

Definition reconcile_running (orch : Orchestrator W) (wid jid : Z) (config_version : Z) : M W unit :=
  cid ← get_persisted_container_id wid;
  health ← check_health orch wid cid;
  match health with
  | inr m => fail_reconcile wid jid ("reconcile:health_check_failed:" ++ m)
  | inl h =>
      if negb (br_success h) then
        fail_reconcile wid jid (issues_or (br_issues h) "reconcile:runtime_not_healthy")
      else
        before ← query (runtime_snapshot wid);
        w ← get_workspace_row wid;
        target ← remote_gateway_route_target_for_node (br_node_id h) (ws_execution_node_id w)
                   (br_gateway_route_target h) (br_internal_endpoint h);
        apply_runtime_bringup_like wid (health_observation h target) config_version ;;
        after ← query (runtime_snapshot wid);
        let runtime_changed := negb (bool_decide (before = after)) in
        let route_endpoint := opt_or target (br_internal_endpoint h) in
        set_ws wid (λ w, touch (w <| ws_endpoint_ref := opt_or route_endpoint (ws_endpoint_ref w) |>)) ;;
        when runtime_changed
          (reconcile_event wid "controlplane.reconcile_fixed_runtime"
             "Synced WorkspaceRuntime from observed health") ;;
        w ← get_workspace_row wid;
        rt ← runtime_row wid;
        let upstream := match rt with
                        | Some r => traefik_upstream_for_workspace_gateway (Some w) r
                        | None => registration_upstream target (br_internal_endpoint h)
                        end in
        repaired ← repair_route wid jid upstream;
        match repaired with
        | inr _ => mret tt
        | inl fixed_route =>
            when (negb runtime_changed && negb fixed_route)
              (reconcile_event wid "controlplane.reconcile_noop"
                 "Reconcile noop (runtime and gateway already aligned)") ;;
            mark_job_succeeded jid
        end
  end.

(** The body of [execute_reconcile_runtime_job] under the lock. *)
Definition reconcile_locked (orch : Orchestrator W) (wid jid : Z) (config_version : Z) : M W unit :=
  when (cfg_topology_janitor_enabled env_settings)
    (attempt (call (oc_run_topology_janitor orch)) ;; mret tt) ;;
  attempt (process_durable_cleanup_tasks_for_workspace orch wid) ;;
  reconcile_event wid "controlplane.reconcile_started" "Reconcile started" ;;
  record_audit "reconcile.started" "workspace" "success" None "internal_service"
    (Some (Py.str_of_Z wid)) (Some wid) (Some jid) None ;;
  repair_runtime_capacity_ledger wid ;;
  w ← get_workspace_row wid;
  if busy_reconcile (ws_status w) then
    fail_reconcile wid jid
      ("reconcile:workspace_busy (status=" ++ WorkspaceStatus.value (ws_status w) ++ ")")
  else
    match ws_status w with
    | WorkspaceStatus.DELETED => reconcile_deleted wid jid
    | WorkspaceStatus.ERROR => reconcile_error_cleanup orch wid jid
    | WorkspaceStatus.STOPPED => reconcile_stopped orch wid jid
    | WorkspaceStatus.RUNNING => reconcile_running orch wid jid config_version
    | st => fail_reconcile wid jid ("reconcile:unsupported_workspace_status:" ++ WorkspaceStatus.value st)
    end.

Definition execute_reconcile_runtime_job (orch : Orchestrator W) (wid jid : Z) (config_version : Z) : M W unit :=
  acquired ← (λ s, match rl_try_acquire wid (st_world s) with
                   | (w, b) => (s <| st_world := w |>, inl b)
                   end);
  if acquired : bool then
    finally (reconcile_locked orch wid jid config_version) (touch_world (rl_release wid))
  else fail_reconcile wid jid "reconcile:advisory_lock_contended".
End reconcile.
