(* ===== verification/Worker.v ===== *)
(** * Worker: claiming, executing and settling jobs

    [src/backend/app/workers/workspace_job_worker/worker.py] from [_execute_job_body]
    on: the dispatch of a claimed job to the orchestrator, its exception handlers,
    the claim ([FOR UPDATE SKIP LOCKED]), the reclaim of stuck jobs and the two
    drivers.  The environment and secrets passed to the container and the
    features are not modelled. *)

From S2P Require Import Prelude Models Session Services Frames FailureHandling.
From S2P Require Import Sessions Scheduling Placement Cleanup Gateway WorkerRows.
From S2P Require Import Finalizers SnapshotJobs Reconcile Notifications.

(** [select(WorkspaceConfig).where(workspace_id).order_by(version.desc()).first()] *)
Definition latest_config (wid : Z) (db : Db) : option WorkspaceConfig :=
  head (sort_by (λ a b, wc_version b <=? wc_version a)
          (List.filter (λ c, wc_workspace_id c =? wid) (configs db))).

Definition empty_config : RuntimeConfig := mkRuntimeConfig None None None.

(** [_ORCHESTRATOR_EXCEPTIONS] *)
Definition is_orchestrator_exception (e : Exn) : bool :=
  match e with
  | WorkspaceBringUpError _ | WorkspaceStopError _ | WorkspaceDeleteError _
  | WorkspaceRestartError _ | WorkspaceUpdateError _ | WorkspaceSnapshotError _ => true
  | _ => false
  end.

(** [isinstance(e, (WorkspaceStopError, WorkspaceDeleteError))] *)
Definition is_stop_or_delete_error (e : Exn) : bool :=
  match e with WorkspaceStopError _ | WorkspaceDeleteError _ => true | _ => false end.

Section execute.
Context {W : Type} {env : Env} {routes : RouteAdmin W} {lock : ReconcileLock W}
  {storage : SnapshotStorage W} {git : GitExecutor W}.

Definition execute_bringup (orch : Orchestrator W) (wid jid : Z) (j : WorkspaceJob) : M W unit :=
  cfg ← query (latest_config wid);
  let cfg_json := match cfg with Some c => wc_config_json c | None => empty_config end in
  match workspace_job_runtime_overrides_from_config cfg_json with
  | inr (ValueError msg) =>
      mark_job_failed jid msg FailureStage.UNKNOWN "INVALID_RUNTIME_LIMITS" ;;
      workspace_to_error wid "INVALID_RUNTIME_LIMITS" msg
  | inr e => raise e
  | inl (c, m, p) =>
      w ← get_workspace_row wid;
      res ← call (oc_bring_up orch wid (ws_project_storage_key w) (job_requested_config_version j) c m p
                    (bool_decide (job_type j = WorkspaceJobType.CREATE)));
      finalize_bringup_result wid jid (job_type j) res (job_requested_config_version j)
  end.

Definition execute_job_body (orchestrator : option (Orchestrator W)) (wid jid : Z) : M W unit :=
  j ← get_job_row jid;
  let cfg_v := job_requested_config_version j in
  let jt := job_type j in
  if bool_decide (jt = WorkspaceJobType.REPO_IMPORT) then execute_repo_import_job wid jid else
  match orchestrator with
  | None => raise AssertionError
  | Some orch =>
      match jt with
      | WorkspaceJobType.CREATE | WorkspaceJobType.START => execute_bringup orch wid jid j
      | WorkspaceJobType.STOP =>
          cid ← get_persisted_container_id wid;
          res ← call (oc_stop orch wid cid false);
          finalize_stop_result wid jid res
      | WorkspaceJobType.DELETE =>
          cid ← get_persisted_container_id wid;
          call (oc_delete orch wid cid) ;;
          finalize_delete_result wid jid
      | WorkspaceJobType.RESTART =>
          cid ← get_persisted_container_id wid;
          w ← get_workspace_row wid;
          res ← call (oc_restart orch wid (ws_project_storage_key w) cid cfg_v);
          finalize_restart_result wid jid jt res cfg_v
      | WorkspaceJobType.UPDATE =>
          cid ← get_persisted_container_id wid;
          w ← get_workspace_row wid;
          res ← call (oc_update orch wid (ws_project_storage_key w) cid cfg_v);
          finalize_update_result wid jid jt res
      | WorkspaceJobType.RECONCILE_RUNTIME => execute_reconcile_runtime_job orch wid jid cfg_v
      | WorkspaceJobType.SNAPSHOT_CREATE => execute_snapshot_create_job orch wid jid
      | WorkspaceJobType.SNAPSHOT_RESTORE => execute_snapshot_restore_job orch wid jid
      | WorkspaceJobType.REPO_IMPORT | WorkspaceJobType.Unrecognized _ =>
          raise (UnsupportedWorkspaceJobTypeError "Unsupported WorkspaceJob.type")
      end
  end.

(** [maybe_emit_workspace_lifecycle_notification] writes the rows of [Notifications]
    through the worker's own session, and every write commits it.  (A text that its
    column refuses, and so raises, is left to [Notifications].) *)
Definition notify_outcome (j : WorkspaceJob) : M W unit :=
  when (bool_decide (is_Some (WORKSPACE_JOB_NOTIFICATION_MAP (job_type j) (job_status j)))) commit.

(** [_emit_job_outcome_event] *)
Definition emit_job_outcome_event (wid jid : Z) : M W unit :=
  flush ;;
  j ← get_job_row jid;
  w ← get_workspace_row wid;
  let event ty msg := record_workspace_event wid ty (Some (ws_status w)) msg in
  let is_reconcile := bool_decide (job_type j = WorkspaceJobType.RECONCILE_RUNTIME) in
  if bool_decide (job_status j = WorkspaceJobStatus.QUEUED)
     && bool_decide (is_Some (job_next_attempt_after j))
     && Py.truthy (Py.strip_opt (job_error_msg j))
  then
    event "controlplane.job_retry_scheduled"%string "Workspace job retry scheduled after transient failure"%string ;;
    when is_reconcile
      (event "controlplane.reconcile_retry_scheduled"%string "Reconcile job retry scheduled"%string)
  else
    match job_status j with
    | WorkspaceJobStatus.SUCCEEDED =>
        notify_outcome j ;;
        event "controlplane.job_succeeded"%string "Workspace job succeeded"%string
    | WorkspaceJobStatus.FAILED =>
        notify_outcome j ;;
        when (effective_max_attempts j <=? job_attempt j)
          (event "controlplane.job_retry_exhausted"%string "Workspace job retries exhausted"%string) ;;
        event "controlplane.job_failed"%string "Workspace job failed"%string ;;
        when is_reconcile
          (event "controlplane.reconcile_failed_terminal"%string "Reconcile job failed (terminal)"%string)
    | _ => mret tt
    end.

(** The message of an orchestrator exception, with a failed rollback's issues. *)
Definition orchestrator_exception_message (e : Exn) : string :=
  match e with
  | WorkspaceBringUpError f =>
      match bue_rollback_succeeded f, format_issues (bue_rollback_issues f) with
      | Some false, Some rb =>
          if Py.truthy rb then (exn_str e ++ "; rollback_failed: " ++ rb)%string else exn_str e
      | _, _ => exn_str e
      end
  | _ => exn_str e
  end.

(** The snapshot row of a snapshot job that failed terminally. *)
Definition release_snapshot (jt : workspace_job_type) (sid : option Z) : M W unit :=
  match sid with
  | None => mret tt
  | Some k =>
      match jt with
      | WorkspaceJobType.SNAPSHOT_CREATE =>
          set_snap k (λ s, if bool_decide (snap_status s = WorkspaceSnapshotStatus.CREATING)
                           then s <| snap_status := WorkspaceSnapshotStatus.FAILED |> else s)
      | WorkspaceJobType.SNAPSHOT_RESTORE => set_snapshot_status k WorkspaceSnapshotStatus.AVAILABLE
      | _ => mret tt
      end
  end.

(** The readiness branch of the orchestrator-exception handler. *)
Definition readiness_failure (orchestrator : option (Orchestrator W)) (wid jid : Z) (msg : string) : M W unit :=
  mark_node_not_ready_for_retry (orchestrator ≫= oc_node_id) msg ;;
  retry ← try_schedule_node_readiness_retry jid NODE_READINESS_WAIT_MESSAGE env_now;
  if retry : bool then
    workspace_to_pending wid NODE_READINESS_WAIT_MESSAGE "Waiting for available node..."
  else
    fail_job_and_workspace wid jid NODE_READINESS_TIMEOUT_MESSAGE FailureStage.CAPACITY
      "node_readiness" ERROR_CODE_ORCH.

(** The handler [except _ORCHESTRATOR_EXCEPTIONS]. *)
Definition handle_orchestrator_exception (orchestrator : option (Orchestrator W)) (wid jid : Z)
    (j : WorkspaceJob) (e : Exn) : M W unit :=
  let jt := job_type j in
  match e with
  | WorkspaceBringUpError f => when (bue_rollback_attempted f) (sync_runtime_after_bringup_exception wid f)
  | _ => mret tt
  end ;;
  let msg := orchestrator_exception_message e in
  if node_readiness_retry_allowed jt && is_node_readiness_error msg then
    readiness_failure orchestrator wid jid msg
  else
    let snapshot_job := is_snapshot_job jt in
    let stage := if snapshot_job then FailureStage.STORAGE else FailureStage.CONTAINER in
    let retry := orchestrator_exception_retryable jt && negb (is_stop_or_delete_error e) in
    scheduled ← (if retry then try_schedule_workspace_job_retry jid msg stage (Some ERROR_CODE_ORCH) env_now
                 else mret false);
    if scheduled : bool then touch_workspace wid
    else
      mark_job_failed jid msg stage ERROR_CODE_ORCH ;;
      release_snapshot jt (job_workspace_snapshot_id j) ;;
      if snapshot_job then touch_workspace wid
      else
        workspace_to_error wid ERROR_CODE_ORCH msg ;;
        clear_runtime_capacity_reservation wid.

(** [_process_claimed_running_job] *)
Definition process_claimed_running_job (orchestrator : option (Orchestrator W)) (jid : Z) : M W unit :=
  j ← get_job_row jid;
  let wid := job_workspace_id j in
  ws ← query (λ db, workspaces db !! wid);
  match ws with
  | None => mark_job_failed jid "Workspace row not found for job" FailureStage.UNKNOWN "missing_workspace"
  | Some w =>
      record_workspace_event wid "controlplane.job_running" (Some (ws_status w)) "Workspace job started" ;;
      try_except (execute_job_body orchestrator wid jid)
        (λ e,
          if is_orchestrator_exception e then handle_orchestrator_exception orchestrator wid jid j e
          else match e with
          | UnsupportedWorkspaceJobTypeError msg =>
              mark_job_failed jid msg FailureStage.UNKNOWN ERROR_CODE_JOB ;;
              workspace_to_error wid ERROR_CODE_JOB msg ;;
              clear_runtime_capacity_reservation wid
          | _ => raise e
          end) ;;
      emit_job_outcome_event wid jid
  end.
End execute.

(** ** Claiming *)

Section claim.
Context {W : Type} {env : Env}.

(** The queue of a claim: eligible rows no other transaction has locked
    ([SKIP LOCKED]), oldest first. *)
Definition claimable (locked : Z → bool) (db : Db) : list (Z * WorkspaceJob) :=
  sort_by (λ a b, job_created_at a.2 <=? job_created_at b.2)
    (List.filter (λ kj : Z * WorkspaceJob, queued_job_eligible env_now kj.2 && negb (locked kj.1))
       (map_to_list (jobs db))).

Definition try_claim_next_queued_workspace_job (locked : Z → bool) : M W (option Z) :=
  queue ← query (claimable locked);
  match queue with
  | [] => mret None
  | (jid, _) :: _ => mark_job_running jid ;; flush ;; mret (Some jid)
  end.

Definition try_claim_queued_workspace_job_by_id (locked : Z → bool) (jid : Z) : M W (option Z) :=
  job ← query (λ db, jobs db !! jid);
  match job with
  | Some j =>
      if queued_job_eligible env_now j && negb (locked jid)
      then mark_job_running jid ;; flush ;; mret (Some jid)
      else mret None
  | None => mret None
  end.
End claim.

(** ** Drivers *)

Section drivers.
Context {W : Type} {env : Env} {routes : RouteAdmin W} {lock : ReconcileLock W}
  {storage : SnapshotStorage W} {git : GitExecutor W} {source : OrchestratorSource W}
  {autoscaler : Autoscaler W}.

(** [record_placement_failed_scale_out_signal] *)
Definition record_placement_failed_scale_out_signal (wid jid : Z) (detail : string) : M W unit :=
  record_audit "placement.no_schedulable_node" "workspace" "failure" None "internal_service"
    (Some (Py.str_of_Z wid)) (if 0 <? wid then Some wid else None) (Some jid)
    (Some (Py.prefix_to 4096 (Py.or_else detail "placement failed: no schedulable execution node"))).

(** Bind the job to an orchestrator; a repository import only resolves its placement. *)
Definition bind_job (wid : Z) (jt : workspace_job_type) : M W (option (Orchestrator W)) :=
  if bool_decide (jt = WorkspaceJobType.REPO_IMPORT) then
    resolve_orchestrator_placement wid jt ;; mret None
  else orch ← get_orchestrator wid jt; mret (Some orch).

(** The placement and binding stage of both drivers: [inl] continues with the
    orchestrator, [inr] says the failure has been settled. *)
Definition bind_or_settle (wid jid : Z) (jt : workspace_job_type)
    : M W (option (Orchestrator W) + unit) :=
  try_except (orch ← bind_job wid jt; mret (inl orch))
    (λ e,
      if is_placement_error e then
        match e with
        | NoSchedulableNodeError msg =>
            record_placement_failed_scale_out_signal wid jid msg ;;
            attempt maybe_provision_on_no_schedulable_capacity ;;
            mret tt
        | _ => mret tt
        end ;;
        fail_job_from_placement wid jid e
          (match e with NoSchedulableNodeError _ => "no_schedulable_node" | _ => "placement" end) ;;
        emit_job_outcome_event wid jid ;;
        mret (inr tt)
      else match e with
      | AppOrchestratorBindingError _ =>
          fail_job_from_orchestrator_binding wid jid jt e ;;
          emit_job_outcome_event wid jid ;;
          mret (inr tt)
      | _ => raise e
      end).

(** What follows a successful claim in both drivers; [delete_shortcut] is the
    idempotent DELETE of [_process_next_queued_job_return_id], which
    [run_queued_workspace_job_by_id] does not have. *)
Definition process_claimed (delete_shortcut : bool) (jid : Z) : M W unit :=
  j ← get_job_row jid;
  let wid := job_workspace_id j in
  let jt := job_type j in
  ws ← query (λ db, workspaces db !! wid);
  match ws with
  | None => mark_job_failed jid "Workspace row not found for job" FailureStage.UNKNOWN "missing_workspace"
  | Some _ =>
      rt ← runtime_row wid;
      if delete_shortcut && bool_decide (jt = WorkspaceJobType.DELETE) && negb (bool_decide (is_Some rt)) then
        finalize_delete_runtime_missing_idempotent wid jid ;;
        emit_job_outcome_event wid jid
      else
        bound ← bind_or_settle wid jid jt;
        match bound with
        | inr _ => mret tt
        | inl orch =>
            begin_create_bringup_after_placement wid jt ;;
            process_claimed_running_job orch jid
        end
  end.

Definition process_next_queued_job_return_id (locked : Z → bool) : M W (option Z) :=
  claimed ← try_claim_next_queued_workspace_job locked;
  match claimed with
  | None => mret None
  | Some jid => process_claimed true jid ;; mret (Some jid)
  end.

(** A fresh session sees the committed state. *)
Definition open_session : M W unit := rollback.

(** [try: m; commit except Exception: rollback; raise] *)
Definition in_transaction {A} (m : M W A) : M W A :=
  open_session ;;
  try_except (a ← m; commit ;; mret a) (λ e, rollback ;; raise e).

Definition run_queued_workspace_job_by_id (locked : Z → bool) (jid : Z) : M W bool :=
  in_transaction
    (claimed ← try_claim_queued_workspace_job_by_id locked jid;
     match claimed with
     | None => mret false
     | Some jid => process_claimed false jid ;; mret true
     end).

(** The loop of [run_pending_jobs]: processed count and last id. *)
Fixpoint run_jobs (locked : Z → bool) (limit : nat) (processed : Z) (last_id : option Z)
    : M W (Z * option Z) :=
  match limit with
  | O => mret (processed, last_id)
  | S n =>
      jid ← in_transaction (process_next_queued_job_return_id locked);
      match jid with
      | None => mret (processed, last_id)
      | Some j => run_jobs locked n (processed + 1) (Some j)
      end
  end.

Definition run_pending_jobs (locked : Z → bool)
    (limit : Z) : M W (Z * option Z) :=
  result ← run_jobs locked (Z.to_nat (Z.max 1 limit)) 0 None;
  attempt (in_transaction (drain_pending_cleanup_tasks (Z.max 8 (Z.max 1 limit)))) ;;
  mret result.

(** *** Stuck jobs *)

Definition is_stuck (cutoff : time) (j : WorkspaceJob) : bool :=
  bool_decide (job_status j = WorkspaceJobStatus.RUNNING) &&
  match job_started_at j with Some t => t <=? cutoff | None => false end.

Definition is_lifecycle_job (jt : workspace_job_type) : bool :=
  match jt with
  | WorkspaceJobType.CREATE | WorkspaceJobType.START | WorkspaceJobType.STOP
  | WorkspaceJobType.RESTART | WorkspaceJobType.UPDATE | WorkspaceJobType.DELETE => true
  | _ => false
  end.

Definition stuck_message (jid : Z) : string := "stuck_running_reclaimed:job_id=" ++ Py.str_of_Z jid.

Definition reclaim_job (jid : Z) : M W unit :=
  j ← get_job_row jid;
  let wid := job_workspace_id j in
  ws ← query (λ db, workspaces db !! wid);
  retried ← try_schedule_workspace_job_retry jid (stuck_message jid) FailureStage.UNKNOWN
              (Some "STUCK_RUNNING_RECLAIMED"%string) env_now;
  if retried : bool then when (bool_decide (is_Some ws)) (touch_workspace wid)
  else
    mark_job_failed jid (stuck_message jid) FailureStage.UNKNOWN "STUCK_RUNNING_TERMINAL" ;;
    when (bool_decide (is_Some ws) && is_lifecycle_job (job_type j))
      (workspace_to_error wid "STUCK_RUNNING_TERMINAL" (stuck_message jid) ;;
       clear_runtime_capacity_reservation wid).

Definition stuck_jobs (cutoff : time) (db : Db) : list Z :=
  take 20 (List.filter (λ kj : Z * WorkspaceJob, is_stuck cutoff kj.2) (map_to_list (jobs db))).*1.

Definition reclaim_stuck_running_jobs : M W Z :=
  let timeout := cfg_workspace_job_stuck_timeout_seconds env_settings in
  if timeout <=? 0 then mret 0 else
  open_session ;;
  stuck ← query (stuck_jobs (env_now - seconds timeout));
  if bool_decide (stuck = []) then mret 0 else
  for_each stuck reclaim_job ;;
  commit ;;
  mret (Z.of_nat (length stuck)).
End drivers.
