(* ===== verification/Settlement.v ===== *)
(** * Settlement: what executing a claimed job does to it and to its workspace

    Helper lemmas and the relational specification of a job's execution: a claimed
    job is put back on the queue, or ends SUCCEEDED or FAILED, and the status of its
    workspace follows; no other job and no other workspace's status changes. *)

From S2P Require Import Prelude Models Session Services Frames FailureHandling.
From S2P Require Import Sessions Scheduling Placement Cleanup Gateway WorkerRows.
From S2P Require Import Finalizers SnapshotJobs Reconcile Worker.

(** ** Quiet helpers *)

Section quiet_helpers.
Context {W : Type} {env : Env}.

Lemma quietly_runtime_row wid : quietly (runtime_row wid : M W _).
Proof. apply quietly_query. Qed.
Lemma quietly_node_by_key key : quietly (node_by_key key : M W _).
Proof. apply quietly_query. Qed.
Lemma quietly_touch wid : quietly (touch_workspace wid : M W unit).
Proof. apply quietly_set_ws. by intros []. Qed.
Lemma quietly_clear_reservation wid : quietly (clear_runtime_capacity_reservation wid : M W unit).
Proof. apply quietly_set_rt. Qed.
Lemma quietly_container_id wid : quietly (get_persisted_container_id wid : M W _).
Proof. apply quietly_bind; [apply quietly_query|intros; apply quietly_ret]. Qed.
Lemma quietly_get_or_create wid : quietly (get_or_create_runtime wid : M W unit).
Proof.
  apply quietly_bind; [apply quietly_query|intros [r|]]; [apply quietly_ret|].
  apply quietly_on_db. intros db. by apply quiet_other.
Qed.
Lemma quietly_bringup_like wid o v : quietly (apply_runtime_bringup_like wid o v : M W unit).
Proof. apply quietly_bind; [apply quietly_get_or_create|intros; apply quietly_set_rt]. Qed.
Lemma quietly_runtime_stop wid r : quietly (apply_runtime_stop wid r : M W unit).
Proof. apply quietly_bind; [apply quietly_get_or_create|intros; apply quietly_set_rt]. Qed.
Lemma quietly_clear_runtime wid : quietly (clear_runtime_after_delete wid : M W unit).
Proof. apply quietly_on_db. intros db. by apply quiet_other. Qed.
Lemma quietly_ensure_cleanup wid scope d : quietly (ensure_durable_cleanup_task wid scope d : M W unit).
Proof.
  unfold ensure_durable_cleanup_task. cbv zeta.
  apply quietly_bind; [apply quietly_query|intros [[cid task]|]]; [solve_quiet|].
  apply quietly_on_db. intros db. by apply quiet_other.
Qed.
Lemma quietly_revoke wid : quietly (revoke_all_workspace_sessions wid : M W Z).
Proof.
  split; intros s; [split; [|by left; rewrite revoke_all_run]|intros e];
    rewrite revoke_all_run; [|done]. cbn.
  destruct (revoke_all_frame wid (st_db s)) as (Hj & _ & _ & _ & Hc & _ & _).
  split; [done| |done]. intros k. apply revoke_all_ws_status.
Qed.
End quiet_helpers.

#[export] Hint Resolve quietly_runtime_row quietly_node_by_key quietly_touch quietly_clear_reservation
  quietly_container_id quietly_get_or_create quietly_bringup_like quietly_runtime_stop
  quietly_clear_runtime quietly_ensure_cleanup quietly_revoke : quiet.

Section quiet_helpers2.
Context {W : Type} {env : Env} {routes : RouteAdmin W}.

Lemma quietly_sync_failed_bringup wid r : quietly (sync_runtime_after_failed_bringup wid r : M W unit).
Proof. unfold sync_runtime_after_failed_bringup. solve_quiet. Qed.
Lemma quietly_sync_bringup_exception wid f : quietly (sync_runtime_after_bringup_exception wid f : M W unit).
Proof. unfold sync_runtime_after_bringup_exception. solve_quiet. Qed.
Lemma quietly_mark_node k r : quietly (mark_node_not_ready_for_retry k r : M W unit).
Proof. unfold mark_node_not_ready_for_retry. solve_quiet. Qed.
Lemma quietly_sync_node wid k : quietly (sync_workspace_execution_node_id wid k : M W unit).
Proof. unfold sync_workspace_execution_node_id. solve_quiet. Qed.
Lemma within_register a b c d e f : db_within quiet (register_route a b c d e f : M W unit).
Proof. unfold register_route. solve_quiet. Qed.
Lemma within_deregister a : db_within quiet (deregister_route a : M W unit).
Proof. unfold deregister_route. cbv zeta. solve_quiet. Qed.
Lemma within_remote_target a b c d : db_within quiet (remote_gateway_route_target_for_node a b c d : M W _).
Proof. unfold remote_gateway_route_target_for_node. cbv zeta. solve_quiet. Qed.
#[local] Hint Resolve within_register within_deregister : quiet.
Lemma quietly_try_register wid : quietly (gateway_try_register_running wid : M W unit).
Proof.
  unfold gateway_try_register_running, register_workspace_route, get_workspace_row.
  apply quietly_try; solve_quiet.
Qed.
Lemma quietly_try_deregister wid : quietly (gateway_try_deregister wid : M W unit).
Proof.
  unfold gateway_try_deregister. apply quietly_try; solve_quiet.
Qed.
Lemma within_resolve_placement wid jt : db_within quiet (resolve_orchestrator_placement wid jt : M W _).
Proof.
  intros s. destruct (workspaces (st_db s) !! wid) as [ws|] eqn:Hws.
  - pose proof (wp_resolve_placement wid jt ws (λ _ s', tracked quiet s s')
      (λ _ s', tracked quiet s s') s Hws) as H.
    assert (Hp : ∀ s', placement_state s s' → tracked quiet s s').
    { intros s' [->| ->]; [reflexivity|]. split; [by apply quiet_other|by left]. }
    specialize (H (λ _ _ s' Hs _, Hp s' Hs) (λ _ s' Hs _, Hp s' Hs)). unfold wp in H.
    by destruct (resolve_orchestrator_placement wid jt s) as [s' [p|e]].
  - unfold resolve_orchestrator_placement, get_workspace_row, row.
    cbv [mbind eff_bind query gets raise]. rewrite Hws. cbn. reflexivity.
Qed.
End quiet_helpers2.

#[export] Hint Resolve quietly_sync_failed_bringup quietly_sync_bringup_exception quietly_mark_node
  quietly_sync_node within_register within_deregister within_remote_target quietly_try_register
  quietly_try_deregister within_resolve_placement : quiet.

(** ** The specification *)

(** The status of a workspace after a job of type [jt] ended in [out], when it was
    [st] before. *)
Definition status_after (jt : workspace_job_type) (out : workspace_job_status)
    (st st' : workspace_status) : Prop :=
  match out with
  | WorkspaceJobStatus.QUEUED =>
      st' = st ∨ (st' = WorkspaceStatus.PENDING)
  | WorkspaceJobStatus.SUCCEEDED =>
      match jt with
      | WorkspaceJobType.CREATE | WorkspaceJobType.START | WorkspaceJobType.RESTART =>
          st' = WorkspaceStatus.RUNNING
      | WorkspaceJobType.UPDATE => st' = WorkspaceStatus.RUNNING ∨ st' = WorkspaceStatus.STOPPED
      | WorkspaceJobType.STOP => st' = WorkspaceStatus.STOPPED
      | WorkspaceJobType.DELETE => st' = WorkspaceStatus.DELETED
      | _ => st' = st
      end
  | WorkspaceJobStatus.FAILED =>
      match jt with
      (* its own failure leaves the status; a failure to place the job does not *)
      | WorkspaceJobType.SNAPSHOT_CREATE | WorkspaceJobType.SNAPSHOT_RESTORE =>
          st' = st ∨ st' = WorkspaceStatus.ERROR
      | WorkspaceJobType.RECONCILE_RUNTIME =>
          st' = WorkspaceStatus.ERROR ∨
          (st' = st ∧ (st = WorkspaceStatus.STOPPED ∨ st = WorkspaceStatus.DELETED))
      | _ => st' = WorkspaceStatus.ERROR
      end
  | _ => False
  end.

(** The job row when it leaves RUNNING: only its outcome columns change. *)
Record settled_row {env : Env} (j j' : WorkspaceJob) : Prop := mkSettledRow {
  sr_identity :
    job_workspace_id j' = job_workspace_id j ∧ job_type j' = job_type j ∧
    job_workspace_snapshot_id j' = job_workspace_snapshot_id j ∧
    job_requested_by_user_id j' = job_requested_by_user_id j ∧
    job_requested_config_version j' = job_requested_config_version j ∧
    job_created_at j' = job_created_at j ∧ job_max_attempts j' = job_max_attempts j ∧
    job_attempt j' = job_attempt j;
  sr_outcome :
    match job_status j' with
    | WorkspaceJobStatus.QUEUED =>
        job_finished_at j' = None ∧ job_started_at j' = None ∧
        (∃ t, job_next_attempt_after j' = Some t ∧ env_now ≤ t) ∧
        (* within the retry budget, or waiting for capacity before the deadline *)
        (job_attempt j < effective_max_attempts j ∨
         job_failure_stage j' = Some FailureStage.CAPACITY ∧ capacity_wait_timed_out j env_now = false)
    | WorkspaceJobStatus.SUCCEEDED =>
        job_finished_at j' = Some env_now ∧ job_error_msg j' = None ∧ job_next_attempt_after j' = None
    | WorkspaceJobStatus.FAILED =>
        job_finished_at j' = Some env_now ∧ is_Some (job_error_msg j') ∧
        is_Some (job_failure_stage j') ∧ job_next_attempt_after j' = None
    | _ => False
    end
}.

(** The whole effect on jobs, statuses and configurations. *)
Record settled {env : Env} (jid wid : Z) (j : WorkspaceJob) (st : workspace_status) (db db' : Db)
  : Prop := mkSettled {
  settled_job : ∃ j', jobs db' = <[jid := j']> (jobs db) ∧ settled_row j j' ∧
    ∃ st', ws_status <$> workspaces db' !! wid = Some st' ∧
           status_after (job_type j) (job_status j') st st';
  settled_others : ∀ k, k ≠ wid →
    ws_status <$> workspaces db' !! k = ws_status <$> workspaces db !! k;
  settled_configs : configs db' = configs db
}.

Section settles.
Context {W : Type} {env : Env} {routes : RouteAdmin W}.
Context (jid wid : Z) (j0 : WorkspaceJob) (st0 : workspace_status).

(** The claimed job and its workspace as its execution finds them. *)
Definition ready (db : Db) : Prop :=
  jobs db !! jid = Some j0 ∧ ws_status <$> workspaces db !! wid = Some st0.

(** [m] settles the job, or raises having done nothing but quiet changes. *)
Definition settles (m : M W unit) : Prop := ∀ s, ready (st_db s) →
  wp m (λ _ s', settled jid wid j0 st0 (st_db s) (st_db s'))
       (λ _ s', tracked quiet s s') s.

(** [m] follows a settlement: it neither raises nor disturbs it, as long as the
    two rows exist. *)
Definition tail (m : M W unit) : Prop := ∀ s,
  is_Some (jobs (st_db s) !! jid) → is_Some (workspaces (st_db s) !! wid) →
  wp m (λ _ s', quiet (st_db s) (st_db s')) (λ _ _, False) s.

Lemma ready_quiet db db' : quiet db db' → ready db → ready db'.
Proof. intros [H1 H2 _] [H3 H4]. split; [by rewrite H1|by rewrite H2]. Qed.

Lemma settled_before db0 db db' : quiet db0 db → settled jid wid j0 st0 db db' → settled jid wid j0 st0 db0 db'.
Proof.
  intros [Hj Hs Hc] [(j' & H1 & H2 & H3) H4 H5]. split.
  - exists j'. by rewrite <- Hj.
  - intros k Hk. by rewrite H4, Hs.
  - congruence.
Qed.

Lemma settled_after db0 db db' : settled jid wid j0 st0 db0 db → quiet db db' → settled jid wid j0 st0 db0 db'.
Proof.
  intros [(j' & H1 & H2 & st' & H3 & H3') H4 H5] [Hj Hs Hc]. split.
  - exists j'. rewrite Hj. split_and!; [done|done|]. exists st'. by rewrite Hs.
  - intros k Hk. by rewrite Hs, H4.
  - congruence.
Qed.

Lemma settled_rows db0 db : settled jid wid j0 st0 db0 db →
  is_Some (jobs db !! jid) ∧ is_Some (workspaces db !! wid).
Proof.
  intros [(j' & H1 & _ & st' & H3 & _) _ _]. rewrite H1, lookup_insert_eq.
  split; [by eexists|]. destruct (workspaces db !! wid); [by eexists|done].
Qed.

(** *** Rules *)

Lemma settles_quiet_bind {A} (m : M W A) k :
  db_within quiet m → (∀ a, settles (k a)) → settles (m ≫= k).
Proof.
  intros Hm Hk s Hr. apply wp_bind. apply wp_quiet_raise; [done| |done].
  intros a s' Hq. eapply wp_mono; [apply Hk; by eapply ready_quiet, Hr; apply Hq| |].
  - intros ? s'' Hs. eapply settled_before; [apply Hq|done].
  - cbn. intros ? s'' Hs. by etrans.
Qed.

Lemma settles_job_row k : settles (k j0) → settles (j ← get_job_row jid; k j).
Proof.
  intros Hk s Hr. apply wp_bind. eapply wp_row; [apply Hr|]. by apply Hk.
Qed.

Lemma settles_ws_row k : (∀ w, ws_status w = st0 → settles (k w)) → settles (w ← get_workspace_row wid; k w).
Proof.
  intros Hk s Hr. apply wp_bind. destruct Hr as [Hj Hw].
  destruct (workspaces (st_db s) !! wid) as [w|] eqn:E; [|done]. injection Hw as Hw.
  eapply wp_row; [exact E|]. apply Hk; [done|]. split; [done|]. rewrite E. simpl. by f_equal.
Qed.

Lemma settles_then m t : settles m → tail t → settles (m ;; t).
Proof.
  intros Hm Ht s Hr. apply wp_bind. eapply wp_mono; [by apply Hm| |done].
  intros [] s' Hs. destruct (settled_rows _ _ Hs) as [H1 H2].
  eapply wp_mono; [by apply Ht| |done]. intros [] s'' Hq. by eapply settled_after.
Qed.

Lemma settles_assoc (m : M W unit) (k1 k2 : M W unit) :
  settles ((m ;; k1) ;; k2) → settles (m ;; k1 ;; k2).
Proof.
  intros H s Hr. specialize (H s Hr). revert H. unfold wp, mbind, eff_bind.
  by destruct (m s) as [s' [a|e]].
Qed.

Lemma settles_bind_assoc {A B} (m : M W A) (f : A → M W B) (k : B → M W unit) :
  settles (a ← m; b ← f a; k b) → settles (b ← (a ← m; f a); k b).
Proof.
  intros H s Hr. specialize (H s Hr). revert H. unfold wp, mbind, eff_bind.
  by destruct (m s) as [s' [a|e]].
Qed.

Lemma settles_finally m f : settles m → settles (finally m (touch_world f)).
Proof.
  intros Hm s Hr. apply wp_finally. eapply wp_mono; [by apply Hm| |].
  - intros [] s' Hs. by apply wp_modify.
  - intros e s' Ht. by apply wp_modify.
Qed.

(** An exception handler settles from where the exception left the rows. *)
Lemma settles_try m h : settles m → (∀ e, settles (h e)) → settles (try_except m h).
Proof.
  intros Hm Hh s Hr. apply wp_try. eapply wp_mono; [by apply Hm|done|].
  intros e s' Ht. eapply wp_mono; [apply Hh; eapply ready_quiet, Hr; apply Ht| |].
  - intros [] s'' Hs. eapply settled_before; [apply Ht|done].
  - intros e' s'' Ht'. exact (transitivity Ht Ht').
Qed.

Lemma settles_ret_bind {A} (a : A) k : settles (k a) → settles (mret a ≫= k).
Proof. intros H s Hr. by apply H. Qed.

Lemma settles_raise e : settles (raise e).
Proof. intros s _. by apply wp_raise. Qed.

Lemma tail_quiet m : quietly m → tail m.
Proof. intros Hm s _ _. apply wp_quiet; [done|]. by intros ? s' []. Qed.
Lemma tail_bind {A} (m : M W A) k : quietly m → (∀ a, tail (k a)) → tail (m ≫= k).
Proof.
  intros Hm Hk s Hj Hw. apply wp_bind, wp_quiet; [done|]. intros a s' [Hq _].
  destruct Hq as [H1 H2 H3]. eapply wp_mono; [apply Hk| |done].
  - by rewrite H1.
  - specialize (H2 wid). destruct (workspaces (st_db s') !! wid), (workspaces (st_db s) !! wid);
      try done; by destruct Hw.
  - intros [] s'' Hq'. etrans; [|done]. by split.
Qed.
Lemma tail_then (m k : M W unit) : tail m → tail k → tail (m ;; k).
Proof.
  intros Hm Hk s Hj Hw. apply wp_bind. eapply wp_mono; [by apply Hm| |done].
  intros [] s' Hq. destruct Hq as [H1 H2 H3]. eapply wp_mono; [apply Hk| |done].
  - by rewrite H1.
  - specialize (H2 wid). destruct (workspaces (st_db s') !! wid), (workspaces (st_db s) !! wid);
      try done; by destruct Hw.
  - intros [] s'' Hq'. etrans; [|done]. by split.
Qed.
Lemma tail_bind_assoc {A B} (m : M W A) (f : A → M W B) (k : B → M W unit) :
  tail (a ← m; b ← f a; k b) → tail (b ← (a ← m; f a); k b).
Proof.
  intros H s Hj Hw. specialize (H s Hj Hw). revert H. unfold wp, mbind, eff_bind.
  by destruct (m s) as [s' [a|e]].
Qed.
Lemma tail_job_row k : (∀ j, tail (k j)) → tail (j ← get_job_row jid; k j).
Proof.
  intros Hk s [j Hj] Hw. apply wp_bind. eapply wp_row; [exact Hj|]. apply Hk; [by eexists|done].
Qed.
Lemma tail_ws_row k : (∀ w, tail (k w)) → tail (w ← get_workspace_row wid; k w).
Proof.
  intros Hk s Hj [w Hw]. apply wp_bind. eapply wp_row; [exact Hw|]. apply Hk; [done|by eexists].
Qed.

(** Writing the outcome of the job and then the workspace's new status. *)
Lemma settles_write fj fw :
  settled_row j0 (fj j0) →
  (∀ w, ws_status w = st0 → status_after (job_type j0) (job_status (fj j0)) st0 (ws_status (fw w))) →
  settles (set_job jid fj ;; set_ws wid fw).
Proof.
  intros Hrow Hst s [Hj Hw]. wp_db. split; cbn.
  - exists (fj j0). split_and!; [|done|].
    + apply map_eq. intros k. rewrite lookup_alter, lookup_insert.
      case_decide; [subst|done]. by rewrite Hj.
    + destruct (workspaces (st_db s) !! wid) as [w|] eqn:E; [|done]. injection Hw as Hw.
      exists (ws_status (fw w)). rewrite alter_lookup_same, E. split; [done|by apply Hst].
  - intros k Hk. by rewrite alter_lookup_other.
  - done.
Qed.

(** Writing the outcome of the job alone: the status stays. *)
Lemma settles_write_job fj :
  settled_row j0 (fj j0) → status_after (job_type j0) (job_status (fj j0)) st0 st0 →
  settles (set_job jid fj).
Proof.
  intros Hrow Hst s [Hj Hw]. wp_db. split; cbn; [|done|done].
  exists (fj j0). split_and!; [|done|by exists st0].
  apply map_eq. intros k. rewrite lookup_alter, lookup_insert. case_decide; [subst|done]. by rewrite Hj.
Qed.
End settles.

Ltac settle_tail_step :=
  match goal with
  | |- tail ?j ?w (get_job_row ?j ≫= _) => apply tail_job_row; intros ?
  | |- tail ?j ?w (get_workspace_row ?w ≫= _) => apply tail_ws_row; intros ?
  | |- tail _ _ (match ?x with _ => _ end) => destruct x
  | |- tail _ _ _ => solve [apply tail_quiet; solve_quiet]
  | |- tail _ _ (when _ _) => unfold when
  | |- tail _ _ (_ ≫= _) => apply tail_bind; [solve [solve_quiet]|intros ?]
  | |- tail _ _ (_ ≫= _) => apply tail_then
  end.
Ltac settle_tail := cbv beta zeta; repeat settle_tail_step.

(** ** Rows *)

Section rows.
Context {env : Env}.

Lemma settled_succeeded j : settled_row j (succeeded_job j).
Proof. by split; [|split_and!]. Qed.
Lemma settled_failed j msg stage code : settled_row j (failed_job msg stage code j).
Proof. split; [done|]. split_and!; try done; by eexists. Qed.
Lemma settled_requeued j msg stage fc : job_attempt j < effective_max_attempts j →
  settled_row j (requeued_for_retry msg stage fc env_now j).
Proof.
  intros Hb. split; [done|]. split_and!; [done|done| |by left].
  eexists. split; [done|]. unfold seconds. lia.
Qed.
Lemma settled_requeued_capacity j msg code : capacity_wait_timed_out j env_now = false →
  settled_row j (requeued_for_capacity msg code env_now j).
Proof.
  intros Hb. split; [done|]. split_and!; [done|done| |by right]. eexists. split; [done|].
  pose proof (proj1 capacity_retry_backoff_range). unfold seconds. lia.
Qed.

(** The columns that say where the workspace is kept apart from its status. *)
Lemma status_set_error c m w : ws_status (set_error c m w) = ws_status w.
Proof. by destruct w. Qed.
End rows.

Section failures.
Context {W : Type} {env : Env} {routes : RouteAdmin W}.
Context (jid wid : Z) (j0 : WorkspaceJob) (st0 : workspace_status).

Lemma status_after_error jt st :
  status_after jt WorkspaceJobStatus.FAILED st WorkspaceStatus.ERROR.
Proof. destruct jt; simpl; auto. Qed.

Lemma settles_retry msg stage fc (A B : M W unit) :
  (job_attempt j0 < effective_max_attempts j0 →
   settles jid wid j0 st0 (set_job jid (requeued_for_retry msg stage fc env_now) ;; A)) →
  settles jid wid j0 st0 B →
  settles jid wid j0 st0
    (r ← try_schedule_workspace_job_retry jid msg stage fc env_now; if r : bool then A else B).
Proof.
  intros HA HB s Hr. apply wp_bind. eapply wp_try_retry; [apply Hr| |].
  - intros Hb. by apply (HA Hb s Hr).
  - intros _. by apply HB.
Qed.

Lemma settles_capacity_retry msg code (A B : M W unit) :
  (capacity_wait_timed_out j0 env_now = false →
   settles jid wid j0 st0 (set_job jid (requeued_for_capacity msg code env_now) ;; A)) →
  settles jid wid j0 st0 B →
  settles jid wid j0 st0
    (r ← (j ← get_job_row jid;
          if capacity_wait_timed_out j env_now then mret false
          else set_job jid (requeued_for_capacity msg code env_now) ;; mret true);
     if r : bool then A else B).
Proof.
  intros HA HB s Hr. apply wp_bind. eapply wp_try_capacity; [apply Hr| |].
  - intros Hb. by apply (HA Hb s Hr).
  - intros _. by apply HB.
Qed.

Lemma settles_requeue_touch fj :
  settled_row j0 (fj j0) → job_status (fj j0) = WorkspaceJobStatus.QUEUED →
  settles jid wid j0 st0 (set_job jid fj ;; touch_workspace wid : M W unit).
Proof.
  intros Hrow Hq. apply settles_write; [done|]. intros w Hw. rewrite Hq. left. by destruct w.
Qed.

Lemma settles_requeue_pending fj msg reason :
  settled_row j0 (fj j0) → job_status (fj j0) = WorkspaceJobStatus.QUEUED →
  settles jid wid j0 st0 (set_job jid fj ;; workspace_to_pending wid msg reason : M W unit).
Proof.
  intros Hrow Hq. apply settles_write; [done|]. intros w Hw. rewrite Hq. right. by destruct w.
Qed.

Lemma settles_fail_error msg stage code ecode emsg :
  settles jid wid j0 st0 (mark_job_failed jid msg stage code ;; workspace_to_error wid ecode emsg : M W unit).
Proof.
  apply settles_write; [apply settled_failed|]. intros w Hw.
  replace (ws_status _) with WorkspaceStatus.ERROR by (by destruct w). by apply status_after_error.
Qed.

Lemma settles_fail_job_and_workspace msg stage fc ec :
  settles jid wid j0 st0 (fail_job_and_workspace wid jid msg stage fc ec : M W unit).
Proof.
  apply settles_assoc, settles_then; [by apply settles_fail_error|settle_tail].
Qed.

Lemma settles_finalize_failed msg stage :
  settles jid wid j0 st0 (finalize_job_failed_workspace_error wid jid msg stage : M W unit).
Proof.
  apply settles_assoc, settles_then; [by apply settles_fail_error|settle_tail].
Qed.

Lemma settles_result_failure msg stage retryable :
  settles jid wid j0 st0 (resolve_orchestrator_result_failure wid jid msg stage retryable : M W unit).
Proof.
  unfold resolve_orchestrator_result_failure. destruct retryable.
  - apply settles_retry; [|by apply settles_finalize_failed].
    intros Hb. by apply settles_requeue_touch; [apply settled_requeued|].
  - apply settles_ret_bind. by apply settles_finalize_failed.
Qed.

Lemma settles_from_placement e reason :
  settles jid wid j0 st0 (fail_job_from_placement wid jid e reason : M W unit).
Proof.
  unfold fail_job_from_placement. cbv zeta.
  assert (Hgen : ∀ msg stage, settles jid wid j0 st0
    (retry ← try_schedule_workspace_job_retry jid msg stage (Some reason) env_now;
     if retry : bool then touch_workspace wid
     else fail_job_and_workspace wid jid msg stage reason ERROR_CODE_PLACEMENT : M W unit)).
  { intros msg stage. apply settles_retry; [|by apply settles_fail_job_and_workspace].
    intros Hb. by apply settles_requeue_touch; [apply settled_requeued|]. }
  destruct e; try apply Hgen. apply settles_capacity_retry.
  - intros Hb. by apply settles_requeue_pending; [apply settled_requeued_capacity|].
  - apply settles_job_row. by apply settles_fail_job_and_workspace.
Qed.

Lemma settles_from_binding e :
  settles jid wid j0 st0 (fail_job_from_orchestrator_binding wid jid (job_type j0) e : M W unit).
Proof.
  unfold fail_job_from_orchestrator_binding. cbv zeta.
  destruct (_ && _).
  - apply settles_quiet_bind; [solve_quiet|intros _]. apply settles_capacity_retry.
    + intros Hb. by apply settles_requeue_pending; [apply settled_requeued_capacity|].
    + by apply settles_fail_job_and_workspace.
  - apply settles_retry; [|by apply settles_fail_job_and_workspace].
    intros Hb. by apply settles_requeue_touch; [apply settled_requeued|].
Qed.
End failures.

(** ** The finalizers *)

Section finalizers.
Context {W : Type} {env : Env} {routes : RouteAdmin W}.
Context (jid wid : Z) (j0 : WorkspaceJob) (st0 : workspace_status).

(** Success recorded on the job, a new workspace row, then a tail. *)
Lemma settles_success fw (t : M W unit) :
  (∀ w, ws_status w = st0 →
     status_after (job_type j0) WorkspaceJobStatus.SUCCEEDED st0 (ws_status (fw w))) →
  tail jid wid t →
  settles jid wid j0 st0 (mark_job_succeeded jid ;; set_ws wid fw ;; t).
Proof.
  intros Hst Ht. apply settles_assoc, settles_then; [|done].
  by apply settles_write; [apply settled_succeeded|].
Qed.

Lemma settles_running_success cfg o :
  status_after (job_type j0) WorkspaceJobStatus.SUCCEEDED st0 WorkspaceStatus.RUNNING →
  settles jid wid j0 st0 (finalize_runtime_running_success wid jid cfg o : M W unit).
Proof.
  intros Hst. unfold finalize_runtime_running_success, usage_for, audit_job_succeeded.
  apply settles_ws_row; intros w _.
  apply settles_quiet_bind; [solve_quiet|intros target].
  apply settles_quiet_bind; [solve_quiet|intros _].
  apply settles_quiet_bind; [solve_quiet|intros _].
  apply settles_success; [intros w' _; by destruct w'|settle_tail].
Qed.

Lemma settles_bringup_result r cfg :
  status_after (job_type j0) WorkspaceJobStatus.SUCCEEDED st0 WorkspaceStatus.RUNNING →
  settles jid wid j0 st0 (finalize_bringup_result wid jid (job_type j0) r cfg : M W unit).
Proof.
  intros Hst. unfold finalize_bringup_result. destruct (br_success r).
  - by apply settles_running_success.
  - apply settles_quiet_bind; [solve_quiet|intros _]. apply settles_result_failure.
Qed.

Lemma settles_restart_result r cfg :
  status_after (job_type j0) WorkspaceJobStatus.SUCCEEDED st0 WorkspaceStatus.RUNNING →
  settles jid wid j0 st0 (finalize_restart_result wid jid (job_type j0) r cfg : M W unit).
Proof.
  intros Hst. unfold finalize_restart_result. destruct (rr_success r).
  - by apply settles_running_success.
  - apply settles_result_failure.
Qed.

Lemma settles_stop_result r :
  status_after (job_type j0) WorkspaceJobStatus.SUCCEEDED st0 WorkspaceStatus.STOPPED →
  settles jid wid j0 st0 (finalize_stop_result wid jid r : M W unit).
Proof.
  intros Hst. unfold finalize_stop_result, usage_for, audit_job_succeeded. destruct (sr_success r).
  - apply settles_quiet_bind; [solve_quiet|intros _].
    apply settles_success; [intros w' _; by destruct w'|settle_tail].
  - apply settles_quiet_bind; [solve_quiet|intros _]. apply settles_result_failure.
Qed.

Lemma settles_delete_result :
  status_after (job_type j0) WorkspaceJobStatus.SUCCEEDED st0 WorkspaceStatus.DELETED →
  settles jid wid j0 st0 (finalize_delete_result wid jid : M W unit).
Proof.
  intros Hst. unfold finalize_delete_result, usage_for, audit_job_succeeded.
  apply settles_success; [intros w' _; by destruct w'|settle_tail].
Qed.

Lemma settles_delete_missing :
  status_after (job_type j0) WorkspaceJobStatus.SUCCEEDED st0 WorkspaceStatus.DELETED →
  settles jid wid j0 st0 (finalize_delete_runtime_missing_idempotent wid jid : M W unit).
Proof.
  intros Hst. unfold finalize_delete_runtime_missing_idempotent, usage_for, audit_job_succeeded.
  apply settles_success; [intros w' _; by destruct w'|settle_tail].
Qed.

Lemma settles_update_result r :
  job_type j0 = WorkspaceJobType.UPDATE →
  settles jid wid j0 st0 (finalize_update_result wid jid (job_type j0) r : M W unit).
Proof.
  intros Hjt. unfold finalize_update_result. apply settles_job_row.
  destruct (ur_success r).
  - apply settles_running_success. rewrite Hjt. by left.
  - destruct (_ && _); [|apply settles_result_failure].
    apply settles_quiet_bind; [solve_quiet|intros _].
    apply settles_quiet_bind; [solve_quiet|intros _].
    apply settles_success; [intros w' _; rewrite Hjt; right; by destruct w'|settle_tail].
Qed.
End finalizers.

(** ** Reconciliation *)

Section gateway_errors.
Context {W : Type} {env : Env} {routes : RouteAdmin W}.

(** [m] raises nothing but [GatewayClientError]. *)
Definition gateway_only {A} (m : M W A) : Prop :=
  ∀ s e, (m s).2 = inr e → ∃ msg, e = GatewayClientError msg.

Lemma gateway_only_bind {A B} (m : M W A) (k : A → M W B) :
  gateway_only m → (∀ a, gateway_only (k a)) → gateway_only (m ≫= k).
Proof.
  intros Hm Hk s e. unfold mbind, eff_bind. specialize (Hm s).
  destruct (m s) as [s' [a|e']]; [apply Hk|]. cbn. intros [= ->]. by apply Hm.
Qed.
Lemma gateway_only_quietly {A} (m : M W A) : quietly m → gateway_only m.
Proof. intros [_ Hn] s e He. by destruct (Hn s e). Qed.
Lemma gateway_only_call {R} (c : W → W * (R + string)) : gateway_only (call_gateway c).
Proof.
  intros s e. unfold call_gateway. destruct (c (st_world s)) as [w [a|msg]]; cbn; [done|].
  intros [= <-]. by eexists.
Qed.
Lemma gateway_only_list : gateway_only (strict_list_routes : M W _).
Proof.
  unfold strict_list_routes. case_match; [apply gateway_only_call|].
  apply gateway_only_quietly, quietly_ret.
Qed.
(** The key of a route is never blank. *)
Lemma gateway_only_deregister wid : gateway_only (strict_deregister_route wid : M W unit).
Proof.
  unfold strict_deregister_route, when, deregister_route. cbv zeta.
  rewrite Py.truthy_strip_str_of_Z. case_match; [apply gateway_only_call|].
  apply gateway_only_quietly, quietly_ret.
Qed.

Lemma quietly_catch_gateway {A} (m : M W A) h :
  db_within quiet m → gateway_only m → (∀ msg, quietly (h msg)) → quietly (catch_gateway m h).
Proof.
  intros Hm Hg Hh. unfold catch_gateway. split.
  - apply within_try_quiet; [done|]. intros []; try apply within_raise_quiet. apply Hh.
  - intros s e. unfold try_except. specialize (Hg s). destruct (m s) as [s' [a|e']]; [done|].
    destruct (Hg e' eq_refl) as [msg ->]. apply Hh.
Qed.

Lemma within_deregister_strict wid : db_within quiet (strict_deregister_route wid : M W unit).
Proof. unfold strict_deregister_route, deregister_route. cbv zeta. unfold when. solve_quiet. Qed.
Lemma within_list_strict : db_within quiet (strict_list_routes : M W _).
Proof. unfold strict_list_routes, get_registered_routes. solve_quiet. Qed.
Lemma within_register_strict wid u : db_within quiet (strict_register_route wid u : M W unit).
Proof.
  unfold strict_register_route, register_workspace_route, get_workspace_row. solve_quiet.
Qed.
#[local] Hint Resolve within_deregister_strict within_list_strict within_register_strict : quiet.

Lemma quietly_list_routes :
  quietly (catch_gateway (l ← strict_list_routes; mret (inl l)) (λ m, mret (inr m)) : M W (_ + string)).
Proof.
  apply quietly_catch_gateway; [solve_quiet| |solve_quiet; intros; solve_quiet].
  apply gateway_only_bind; [apply gateway_only_list|]. intros. apply gateway_only_quietly, quietly_ret.
Qed.
Lemma quietly_deregister wid :
  quietly (catch_gateway (strict_deregister_route wid ;; mret (inl tt)) (λ m, mret (inr m)) : M W (unit + string)).
Proof.
  apply quietly_catch_gateway; [solve_quiet| |solve_quiet; intros; solve_quiet].
  apply gateway_only_bind; [apply gateway_only_deregister|].
  intros. apply gateway_only_quietly, quietly_ret.
Qed.
Lemma within_register_caught wid u :
  db_within quiet (catch_gateway (strict_register_route wid u ;; mret (inl tt)) (λ m, mret (inr m))
    : M W (unit + string)).
Proof. unfold catch_gateway. solve_quiet. Qed.

Lemma quietly_remove_orphan_check wid :
  quietly (catch_gateway
    (listed ← strict_list_routes;
     match route_row_for_workspace listed wid with
     | None => mret false
     | Some _ => strict_deregister_route wid ;; mret true
     end)
    (λ _, mret false) : M W bool).
Proof.
  apply quietly_catch_gateway; [solve_quiet| |solve_quiet; intros; solve_quiet].
  apply gateway_only_bind; [apply gateway_only_list|]. intros l.
  destruct (route_row_for_workspace l wid); [|apply gateway_only_quietly, quietly_ret].
  apply gateway_only_bind; [apply gateway_only_deregister|].
  intros. apply gateway_only_quietly, quietly_ret.
Qed.
End gateway_errors.

#[export] Hint Resolve within_deregister_strict within_list_strict within_register_strict
  quietly_list_routes quietly_deregister within_register_caught quietly_remove_orphan_check : quiet.

(** ** Reconciling

    Every path of [execute_reconcile_runtime_job] puts the job back on the queue or ends
    it, leaves the status of a workspace it repairs and moves one it cannot reconcile to
    ERROR. *)

Section cleanup_frames.
Context {W : Type} {env : Env}.

Lemma quietly_cleanup_task orch wid c cid : quietly (process_cleanup_task orch wid c cid : M W Z).
Proof. unfold process_cleanup_task. solve_quiet. Qed.
Lemma quietly_cleanup_tasks orch wid c cids : quietly (process_cleanup_tasks orch wid c cids : M W Z).
Proof.
  induction cids as [|cid cids IH]; simpl; [solve_quiet|].
  apply quietly_bind; [apply quietly_cleanup_task|intros n].
  apply quietly_bind; [done|solve_quiet; intros; solve_quiet].
Qed.
Lemma quietly_cleanup_for_workspace orch wid :
  quietly (process_durable_cleanup_tasks_for_workspace orch wid : M W Z).
Proof.
  unfold process_durable_cleanup_tasks_for_workspace.
  apply quietly_bind; [apply quietly_query|intros tasks]. case_bool_decide; [solve_quiet|].
  apply quietly_bind; [apply quietly_runtime_row|intros rt].
  destruct (negb _); [solve_quiet|apply quietly_cleanup_tasks].
Qed.
End cleanup_frames.
#[export] Hint Resolve quietly_cleanup_for_workspace : quiet.

Section reconcile.
Context {W : Type} {env : Env} {routes : RouteAdmin W} {lock : ReconcileLock W}.
Context (jid wid : Z) (j0 : WorkspaceJob) (st0 : workspace_status).
Hypothesis (Hjt : job_type j0 = WorkspaceJobType.RECONCILE_RUNTIME).

Lemma settles_fail_reconcile msg : settles jid wid j0 st0 (fail_reconcile wid jid msg : M W unit).
Proof.
  unfold fail_reconcile. destruct (classify_reconcile_failure msg) as [stage retryable].
  assert (Hterm : settles jid wid j0 st0
    (record_audit "reconcile.failed" "workspace" "failure" None "internal_service"
      (Some (Py.str_of_Z wid)) (Some wid) (Some jid) (Some (Py.prefix_to 4096 msg)) ;;
    w ← get_workspace_row wid;
    match ws_status w with
    | WorkspaceStatus.STOPPED | WorkspaceStatus.ERROR | WorkspaceStatus.DELETED =>
        mark_job_failed jid msg stage (FailureStage.value stage) ;; touch_workspace wid
    | _ => finalize_job_failed_workspace_error wid jid msg stage
    end : M W unit)).
  { apply settles_quiet_bind; [solve_quiet|intros _]. apply settles_ws_row. intros w Hw.
    destruct (ws_status w) eqn:E; try apply settles_finalize_failed.
    all: apply settles_write; [apply settled_failed|]; intros w' Hw';
      cbn; rewrite Hjt, Hw', <- Hw; auto. }
  destruct retryable; [|by apply settles_ret_bind].
  apply settles_retry; [|done]. intros Hb. by apply settles_requeue_touch; [apply settled_requeued|].
Qed.

Lemma settles_reconciled : settles jid wid j0 st0 (mark_job_succeeded jid : M W unit).
Proof. apply settles_write_job; [apply settled_succeeded|]. cbn. by rewrite Hjt. Qed.

Lemma settles_event_then ty msg (m : M W unit) :
  settles jid wid j0 st0 m → settles jid wid j0 st0 (reconcile_event wid ty msg ;; m).
Proof.
  intros Hm. unfold reconcile_event, get_workspace_row.
  apply settles_quiet_bind; [solve_quiet|done].
Qed.

Lemma settles_remove_listed_route k :
  (∀ b, settles jid wid j0 st0 (k b)) → settles jid wid j0 st0 (remove_listed_route wid jid k : M W unit).
Proof.
  intros Hk. unfold remove_listed_route.
  apply settles_quiet_bind; [solve_quiet|intros [l|m]]; [|apply settles_fail_reconcile].
  destruct (route_row_for_workspace l wid); [|done].
  apply settles_quiet_bind; [solve_quiet|intros [[]|m]]; [done|apply settles_fail_reconcile].
Qed.

Lemma settles_finish_route (b : bool) ty1 msg1 ty2 msg2 :
  settles jid wid j0 st0
    ((if b then reconcile_event wid ty1 msg1 else reconcile_event wid ty2 msg2) ;;
     mark_job_succeeded jid : M W unit).
Proof. destruct b; apply settles_event_then, settles_reconciled. Qed.

Lemma settles_reconcile_deleted : settles jid wid j0 st0 (reconcile_deleted wid jid : M W unit).
Proof.
  unfold reconcile_deleted. destruct (negb _); [apply settles_event_then, settles_reconciled|].
  apply settles_remove_listed_route. intros b. apply settles_finish_route.
Qed.

Lemma within_event ty msg : db_within quiet (reconcile_event wid ty msg : M W unit).
Proof. unfold reconcile_event, get_workspace_row. solve_quiet. Qed.

Lemma settles_reconcile_error orch :
  settles jid wid j0 st0 (reconcile_error_cleanup orch wid jid : M W unit).
Proof.
  unfold reconcile_error_cleanup.
  apply settles_quiet_bind; [solve_quiet|intros cid].
  apply settles_quiet_bind; [solve_quiet|intros [res|m]]; [|apply settles_fail_reconcile].
  apply settles_quiet_bind.
  { destruct (sr_success res); [|apply quietly_within, quietly_ret].
    apply within_bind_quiet; [solve_quiet|intros; apply within_event]. }
  intros _. destruct (negb _); [apply settles_event_then, settles_reconciled|].
  apply settles_remove_listed_route. intros b. apply settles_finish_route.
Qed.

Lemma within_check_health orch cid : db_within quiet (check_health orch wid cid : M W _).
Proof. unfold check_health. solve_quiet. Qed.

Lemma settles_reconcile_stopped orch : st0 = WorkspaceStatus.STOPPED →
  settles jid wid j0 st0 (reconcile_stopped orch wid jid : M W unit).
Proof.
  intros Hst. unfold reconcile_stopped.
  apply settles_quiet_bind; [solve_quiet|intros cid].
  apply settles_quiet_bind; [apply within_check_health|intros [h|m]]; [|apply settles_fail_reconcile].
  destruct (br_success h).
  - apply settles_quiet_bind; [solve_quiet|intros [res|m]]; [|apply settles_fail_reconcile].
    apply settles_then; [apply settles_stop_result; by rewrite Hjt|].
    unfold best_effort_remove_orphan_gateway_route, reconcile_event. settle_tail.
  - cbv zeta. destruct (cfg_gateway_enabled env_settings).
    + apply settles_remove_listed_route. intros b. apply settles_finish_route.
    + apply settles_event_then, settles_reconciled.
Qed.

Lemma settles_repair_route upstream (k : bool → M W unit) :
  (∀ b, settles jid wid j0 st0 (k b)) →
  settles jid wid j0 st0
    (r ← repair_route wid jid upstream; match r with inr _ => mret tt | inl b => k b end).
Proof.
  intros Hk.
  assert (Hfail : ∀ m, settles jid wid j0 st0
    (r ← (fail_reconcile wid jid m ;; mret (inr tt)); match r with inr _ => mret tt | inl b => k b end)).
  { intros m. apply settles_bind_assoc. apply settles_then; [apply settles_fail_reconcile|].
    exact (tail_quiet _ _ (mret tt) (quietly_ret tt)). }
  unfold repair_route. destruct (negb _); [apply settles_ret_bind, Hk|].
  apply settles_bind_assoc, settles_quiet_bind; [solve_quiet|intros [l|m]]; [|apply Hfail].
  apply settles_bind_assoc, settles_ws_row. intros w _.
  destruct (gateway_route_needs_repair _ _ _ _); [|apply settles_ret_bind, Hk].
  apply settles_bind_assoc, settles_quiet_bind; [solve_quiet|intros [[]|m]]; [|apply Hfail].
  apply settles_bind_assoc, settles_event_then, settles_ret_bind, Hk.
Qed.

Lemma settles_reconcile_running orch cfg :
  settles jid wid j0 st0 (reconcile_running orch wid jid cfg : M W unit).
Proof.
  unfold reconcile_running.
  apply settles_quiet_bind; [solve_quiet|intros cid].
  apply settles_quiet_bind; [apply within_check_health|intros [h|m]]; [|apply settles_fail_reconcile].
  destruct (negb _); [apply settles_fail_reconcile|].
  apply settles_quiet_bind; [solve_quiet|intros before].
  apply settles_ws_row; intros w _.
  apply settles_quiet_bind; [solve_quiet|intros target].
  apply settles_quiet_bind; [solve_quiet|intros _].
  apply settles_quiet_bind; [solve_quiet|intros after]. cbv zeta.
  apply settles_quiet_bind; [apply quietly_within, quietly_set_ws; by intros []|intros _].
  apply settles_quiet_bind.
  { destruct (negb _); [apply within_event|apply quietly_within, quietly_ret]. }
  intros _. apply settles_ws_row; intros w' _.
  apply settles_quiet_bind; [solve_quiet|intros rt].
  apply settles_repair_route. intros fixed. apply settles_quiet_bind; [|intros; apply settles_reconciled].
  destruct (_ && _); [apply within_event|apply quietly_within, quietly_ret].
Qed.

Lemma settles_reconcile_locked orch cfg :
  settles jid wid j0 st0 (reconcile_locked orch wid jid cfg : M W unit).
Proof.
  unfold reconcile_locked.
  apply settles_quiet_bind; [solve_quiet|intros _].
  apply settles_quiet_bind; [solve_quiet|intros _].
  apply settles_event_then.
  apply settles_quiet_bind; [solve_quiet|intros _].
  apply settles_quiet_bind.
  { unfold repair_runtime_capacity_ledger, get_workspace_row. solve_quiet. }
  intros _. apply settles_ws_row; intros w Hw.
  destruct (busy_reconcile _); [apply settles_fail_reconcile|].
  destruct (ws_status w); try apply settles_fail_reconcile.
  - apply settles_reconcile_running.
  - by apply settles_reconcile_stopped.
  - apply settles_reconcile_error.
  - apply settles_reconcile_deleted.
Qed.

Lemma settles_execute_reconcile orch cfg :
  settles jid wid j0 st0 (execute_reconcile_runtime_job orch wid jid cfg : M W unit).
Proof.
  unfold execute_reconcile_runtime_job. apply settles_quiet_bind.
  - intros s. destruct (rl_try_acquire wid (st_world s)) as [w b]. split; [reflexivity|by left].
  - intros []; [apply settles_finally, settles_reconcile_locked|apply settles_fail_reconcile].
Qed.
End reconcile.
