(* ===== verification/Binding.v ===== *)
(** * Binding: building the orchestrator of a job

    [orchestrator_service/app_factory.py] and [node_execution_service/factory.py]:
    the placement of a job is resolved, the execution mode of its node chosen and
    the node's Docker engine reached, and an orchestrator is built that is bound to
    the node and the topology.  The engine connections and the orchestrator behind
    its interface are parameters; the image, the projects base and the command
    runners, which are only handed on, are left out. *)

From S2P Require Import Prelude Models Session Services Frames FailureHandling.
From S2P Require Import Sessions Scheduling Placement Cleanup Gateway WorkerRows.
From S2P Require Import Finalizers SnapshotJobs Reconcile Worker Settlement.

(** ** Connections *)

(** [docker.from_env().ping()], [docker.DockerClient(base_url).ping()] and
    [SsmRemoteCommandRunner.run(["echo", ...])]. *)
Class ExecutionHosts (W : Type) := {
  eh_local_docker : W → W * (unit + Exn);
  eh_ssh_docker : string → W → W * (unit + Exn);
  eh_ssm_ping : string → string → W → W * (unit + Exn)
}.

(** How the node's engine and shell are reached. *)
Inductive ExecutionEngine : Set :=
| LocalEngine | SshEngine (base_url : string) | SsmEngine (instance_id region : string).

Record NodeExecutionBundle := mkNodeExecutionBundle {
  bundle_engine : ExecutionEngine;
  bundle_traefik_routing_host : option string;
  bundle_defer_topology_attach : bool
}.

(** [DefaultOrchestratorService(..., topology_id, node_id, ...)] *)
Class OrchestratorFactory (W : Type) := {
  default_orchestrator : NodeExecutionBundle → string → Z → Orchestrator W;
  default_orchestrator_node : ∀ b node_id tid, oc_node_id (default_orchestrator b node_id tid) = Some node_id
}.

(** [urllib.parse.quote(s, safe="")] on ASCII. *)
Definition unreserved (c : ascii) : bool :=
  let n := Z.of_N (N_of_ascii c) in
  is_letter c || ((48 <=? n) && (n <=? 57)) || existsb (Ascii.eqb c) ["_"; "."; "-"; "~"]%char.
Definition hex_digit (n : N) : ascii := ascii_of_N (if (n <? 10)%N then 48 + n else 55 + n)%N.
Fixpoint quote (s : string) : string :=
  match s with
  | EmptyString => EmptyString
  | String c r =>
      if unreserved c then String c (quote r)
      else String "%" (String (hex_digit (N_of_ascii c / 16)) (String (hex_digit (N_of_ascii c mod 16)) (quote r)))
  end.

(** [NodeExecutionBindingError] from an exception of [m]. *)
Definition binding_error (prefix : string) (e : Exn) : Exn :=
  NodeExecutionBindingError (prefix ++ exn_str e).

Section binding.
Context {W : Type} {env : Env} {hosts : ExecutionHosts W} {factory : OrchestratorFactory W}.

Definition execution_connect_host (n : ExecutionNode) : string :=
  Py.or_else (Py.strip_opt (node_ssh_host n))
    (Py.or_else (Py.strip_opt (node_hostname n)) (Py.strip_opt (node_private_ip n))).

Definition ec2_traefik_routing_host (n : ExecutionNode) : option string :=
  if bool_decide (node_provider_type n = ExecutionNodeProviderType.EC2)
  then Py.strip_or_none (node_private_ip n) else None.

Definition bundle_local_docker : M W NodeExecutionBundle :=
  try_except (call_storage eh_local_docker ;; mret (mkNodeExecutionBundle LocalEngine None false))
    (λ e, raise (binding_error "Docker engine not available for local execution: " e)).

Definition bundle_ssm_docker (n : ExecutionNode) : M W NodeExecutionBundle :=
  let iid := Py.strip_opt (node_provider_instance_id n) in
  if negb (Py.truthy iid) then
    raise (NodeExecutionBindingError "ssm_docker node requires provider_instance_id")
  else
    let region := Py.or_else (Py.strip_opt (node_region n)) (Py.strip (cfg_aws_region env_settings)) in
    if negb (Py.truthy region) then
      raise (NodeExecutionBindingError "ssm_docker node requires region on the row or AWS_REGION")
    else
      try_except (call_storage (eh_ssm_ping iid region))
        (λ e, match e with
              | RuntimeError _ => raise (binding_error "SSM connectivity check failed for node: " e)
              | _ => raise e
              end) ;;
      mret (mkNodeExecutionBundle (SsmEngine iid region) (ec2_traefik_routing_host n) true).

Definition ssh_base_url (n : ExecutionNode) : string :=
  let user := Py.or_else (Py.strip_opt (node_ssh_user n)) "root" in
  let port := if node_ssh_port n =? 0 then 22 else node_ssh_port n in
  ("ssh://" ++ quote user ++ "@" ++ execution_connect_host n ++ ":" ++ Py.str_of_Z port)%string.

Definition bundle_ssh_docker (n : ExecutionNode) : M W NodeExecutionBundle :=
  if negb (Py.truthy (execution_connect_host n)) then
    raise (NodeExecutionBindingError "ssh_docker node requires a non-empty ssh_host, hostname, or private_ip")
  else
    try_except (call_storage (eh_ssh_docker (ssh_base_url n)))
      (λ e, raise (binding_error "cannot reach Docker daemon on node: " e)) ;;
    mret (mkNodeExecutionBundle (SshEngine (ssh_base_url n)) (ec2_traefik_routing_host n) true).

Definition resolve_node_execution_bundle (execution_node_key : string) : M W NodeExecutionBundle :=
  let key := Py.strip execution_node_key in
  let override := Py.lower (Py.strip (cfg_execution_mode env_settings)) in
  if negb (Py.truthy key) then
    if String.eqb override "ssm" then
      raise (NodeExecutionBindingError "DEVNEST_EXECUTION_MODE=ssm requires a non-empty execution_node_key")
    else bundle_local_docker
  else
    found ← node_by_key key;
    match found with
    | None => raise (NodeExecutionBindingError "no execution_node row for node_key")
    | Some (_, n) =>
        if String.eqb override "local" then
          if bool_decide (node_provider_type n = ExecutionNodeProviderType.LOCAL) then bundle_local_docker
          else raise (NodeExecutionBindingError "DEVNEST_EXECUTION_MODE=local is only valid for provider_type=local nodes")
        else if String.eqb override "ssm" then
          if bool_decide (node_provider_type n = ExecutionNodeProviderType.EC2) then bundle_ssm_docker n
          else raise (NodeExecutionBindingError "DEVNEST_EXECUTION_MODE=ssm requires provider_type=ec2")
        else match node_execution_mode n with
        | ExecutionNodeExecutionMode.SSM_DOCKER => bundle_ssm_docker n
        | ExecutionNodeExecutionMode.SSH_DOCKER => bundle_ssh_docker n
        | ExecutionNodeExecutionMode.LOCAL_DOCKER => bundle_local_docker
        end
    end.

(** Both arguments are given, as every caller in the modelled code does. *)
Definition build_default_orchestrator_for_session (execution_node_key : string) (topology_id : Z)
    : M W (Orchestrator W) :=
  bundle ← try_except (resolve_node_execution_bundle execution_node_key)
    (λ e, match e with
          | NodeExecutionBindingError m => raise (AppOrchestratorBindingError m)
          | _ => raise e
          end);
  let node_id := Py.or_else (Py.strip execution_node_key) (cfg_env_node_key env_settings) in
  mret (default_orchestrator bundle node_id topology_id).

Definition build_orchestrator_for_workspace_job (wid : Z) (jt : workspace_job_type)
    : M W (Orchestrator W) :=
  target ← resolve_orchestrator_placement wid jt;
  build_default_orchestrator_for_session target.1 target.2.
End binding.

(** ** Properties *)

Section properties.
Context {W : Type} {env : Env} {hosts : ExecutionHosts W} {factory : OrchestratorFactory W}.
Implicit Types s : St W.

(** What an engine connection may do: change the world. *)
Definition same_rows (s s' : St W) : Prop :=
  st_db s' = st_db s ∧ st_committed s' = st_committed s.

#[export] Instance same_rows_preorder : PreOrder same_rows.
Proof. split; [by intros s|]. intros a b c [] []. split; congruence. Qed.

(** The engine that runs the containers of a node, under the override of the
    execution mode. *)
Definition serves (n : ExecutionNode) (e : ExecutionEngine) : Prop :=
  match e with
  | LocalEngine => node_execution_mode n = ExecutionNodeExecutionMode.LOCAL_DOCKER ∨
                   node_provider_type n = ExecutionNodeProviderType.LOCAL
  | SshEngine url => node_execution_mode n = ExecutionNodeExecutionMode.SSH_DOCKER ∧
                     url = ssh_base_url n ∧ execution_connect_host n ≠ ""%string
  | SsmEngine iid region =>
      (node_execution_mode n = ExecutionNodeExecutionMode.SSM_DOCKER ∨
       node_provider_type n = ExecutionNodeProviderType.EC2) ∧
      iid = Py.strip_opt (node_provider_instance_id n) ∧ iid ≠ ""%string ∧ region ≠ ""%string
  end.

(** Errors of the binding, and those of the SSM client it lets through. *)
Definition is_binding_error (e : Exn) : Prop :=
  ∃ m, e = NodeExecutionBindingError m.

Lemma wp_connect (c : W → W * (unit + Exn)) (Q : unit → St W → Prop) X s :
  (∀ s', same_rows s s' → Q tt s') → (∀ e s', same_rows s s' → X e s') →
  wp (call_storage c) Q X s.
Proof.
  intros HQ HX. unfold wp, call_storage. destruct (c (st_world s)) as [w [[]|e]]; [apply HQ|apply HX]; done.
Qed.

Lemma wp_bundle_local (Q : NodeExecutionBundle → St W → Prop) X s :
  (∀ s', same_rows s s' → Q (mkNodeExecutionBundle LocalEngine None false) s') →
  (∀ e s', same_rows s s' → is_binding_error e → X e s') →
  wp bundle_local_docker Q X s.
Proof.
  intros HQ HX. unfold bundle_local_docker. apply wp_try, wp_bind, wp_connect; intros; [by apply wp_ret, HQ|].
  apply wp_raise, HX; [done|by eexists].
Qed.

Lemma wp_bundle_ssm n (Q : NodeExecutionBundle → St W → Prop) X s :
  (node_execution_mode n = ExecutionNodeExecutionMode.SSM_DOCKER ∨
   node_provider_type n = ExecutionNodeProviderType.EC2) →
  (∀ e s', same_rows s s' → serves n e → e ≠ LocalEngine →
     Q (mkNodeExecutionBundle e (ec2_traefik_routing_host n) true) s') →
  (∀ e s', same_rows s s' → is_binding_error e → X e s') →
  (∀ e s' iid region w w', same_rows s s' → eh_ssm_ping iid region w = (w', inr e) → X e s') →
  wp (bundle_ssm_docker n) Q X s.
Proof.
  intros Hn HQ HX HX2. unfold bundle_ssm_docker.
  destruct (Py.truthy (Py.strip_opt (node_provider_instance_id n))) eqn:Hi; cbn [negb];
    [|apply HX; [done|by eexists]].
  set (region := Py.or_else _ _). destruct (Py.truthy region) eqn:Hr; cbn [negb];
    [|apply HX; [done|by eexists]].
  apply wp_bind, wp_try. unfold wp at 1, call_storage. set (iid := Py.strip_opt _) in *.
  destruct (eh_ssm_ping iid region (st_world s)) as [w [[]|e]] eqn:Hping.
  - apply wp_ret, HQ; [done| |done]. split; [done|]. apply negb_true_iff, String.eqb_neq in Hi, Hr. done.
  - destruct e; try (by eapply HX2). apply wp_raise, HX; [done|by eexists].
Qed.

Lemma wp_bundle_ssh n (Q : NodeExecutionBundle → St W → Prop) X s :
  node_execution_mode n = ExecutionNodeExecutionMode.SSH_DOCKER →
  (∀ e s', same_rows s s' → serves n e → e ≠ LocalEngine →
     Q (mkNodeExecutionBundle e (ec2_traefik_routing_host n) true) s') →
  (∀ e s', same_rows s s' → is_binding_error e → X e s') →
  wp (bundle_ssh_docker n) Q X s.
Proof.
  intros Hn HQ HX. unfold bundle_ssh_docker.
  destruct (Py.truthy (execution_connect_host n)) eqn:Hh; cbn [negb]; [|apply HX; [done|by eexists]].
  apply wp_bind, wp_try, wp_connect.
  - intros s' Hs. apply wp_ret, HQ; [done| |done]. by apply negb_true_iff, String.eqb_neq in Hh.
  - intros e s' Hs. apply wp_raise, HX; [done|by eexists].
Qed.

(** A bundle for a node key: the local host for a blank key, else the node's row. *)
Definition bundle_for (s : St W) (key : string) (b : NodeExecutionBundle) : Prop :=
  (bundle_defer_topology_attach b = false ↔ bundle_engine b = LocalEngine) ∧
  if Py.truthy (Py.strip key)
  then ∃ nid n, find_node (Py.strip key) (st_db s) = Some (nid, n) ∧ serves n (bundle_engine b)
  else bundle_engine b = LocalEngine.

Lemma wp_resolve_bundle key (Q : NodeExecutionBundle → St W → Prop) X s :
  (∀ b s', same_rows s s' → bundle_for s key b → Q b s') →
  (∀ e s', same_rows s s' → is_binding_error e → X e s') →
  (∀ e s' iid region w w', same_rows s s' → eh_ssm_ping iid region w = (w', inr e) → X e s') →
  wp (resolve_node_execution_bundle key) Q X s.
Proof.
  intros HQ HX HX2. unfold resolve_node_execution_bundle.
  assert (Herr : ∀ m, X (NodeExecutionBindingError m) s) by (intros m; apply HX; [done|by eexists]).
  destruct (Py.truthy (Py.strip key)) eqn:Hk; cbn [negb].
  2:{ destruct (String.eqb _ "ssm"); [apply Herr|]. apply wp_bundle_local; [|done].
      intros s' Hs. apply HQ; [done|]. split; [done|]. by rewrite Hk. }
  unfold node_by_key. apply wp_bind, wp_query.
  destruct (find_node (Py.strip key) (st_db s)) as [[nid n]|] eqn:Hf; [|apply Herr].
  assert (Hloc : serves n LocalEngine → wp bundle_local_docker Q X s).
  { intros Hn. apply wp_bundle_local; [|done]. intros s' Hs. apply HQ; [done|]. split; [done|].
    rewrite Hk. eauto. }
  assert (Hrem : ∀ e s', same_rows s s' → serves n e → e ≠ LocalEngine →
     Q (mkNodeExecutionBundle e (ec2_traefik_routing_host n) true) s').
  { intros e s' Hs Hn Hne. apply HQ; [done|]. split; [by cbn|]. rewrite Hk. eauto. }
  destruct (String.eqb _ "local"); [case_bool_decide; [apply Hloc; by right|apply Herr]|].
  destruct (String.eqb _ "ssm"); [case_bool_decide; [|apply Herr]; by apply wp_bundle_ssm; [right| | |]|].
  destruct (node_execution_mode n) eqn:Hm.
  - apply Hloc. by left.
  - by apply wp_bundle_ssh.
  - by apply wp_bundle_ssm; [left| | |].
Qed.

Lemma within_build_default key tid :
  db_within quiet (build_default_orchestrator_for_session key tid : M W (Orchestrator W)).
Proof.
  intros s.
  assert (Hr : ∀ s', same_rows s s' → tracked quiet s s').
  { intros s' [H1 H2]. split; [rewrite H1; reflexivity|]. rewrite H2. by left. }
  assert (H : wp (build_default_orchestrator_for_session key tid) (λ _ s', tracked quiet s s')
                (λ _ s', tracked quiet s s') s).
  { unfold build_default_orchestrator_for_session. apply wp_bind, wp_try, wp_resolve_bundle.
    - intros b s' Hs _. by apply wp_ret, Hr.
    - intros e s' Hs [m ->]. by apply wp_raise, Hr.
    - intros e s' ? ? ? ? Hs _. destruct e; by apply wp_raise, Hr. }
  unfold wp in H. by destruct (build_default_orchestrator_for_session key tid s) as [s' [o|e]].
Qed.

Lemma within_build_for_job wid jt :
  db_within quiet (build_orchestrator_for_workspace_job wid jt : M W (Orchestrator W)).
Proof.
  unfold build_orchestrator_for_workspace_job. apply within_bind_quiet;
    [apply within_resolve_placement|intros [key tid]; apply within_build_default].
Qed.

(** The source the drivers are started with (workspace_job_runner.py and
    workspace_job_poll_loop.py). *)
#[export] Instance job_orchestrators : OrchestratorSource W := {
  get_orchestrator := build_orchestrator_for_workspace_job;
  build_default_orchestrator := build_default_orchestrator_for_session;
  get_orchestrator_quiet := within_build_for_job;
  build_default_orchestrator_quiet := within_build_default
}.

(** C19. Binding follows placement: the orchestrator of a job is bound to the node
    and topology its placement gives, over the engine its node's row (or the
    override) names, deferring the topology attachment exactly for remote engines;
    and a failure is a placement error or a binding error, which the worker
    settles, unless the SSM client itself raises something other than
    [RuntimeError]. *)
Theorem job_orchestrator_is_bound s wid jt ws (Hws : workspaces (st_db s) !! wid = Some ws) :
  let '(s', res) := build_orchestrator_for_workspace_job wid jt s in
  ∃ s0, placement_state s s0 ∧ same_rows s0 s' ∧
  match res with
  | inl orch => ∃ key tid b, placed s s0 wid ws jt key tid ∧ bundle_for s0 key b ∧
      orch = default_orchestrator b (Py.or_else (Py.strip key) (cfg_env_node_key env_settings)) tid
  | inr e => is_placement_error e = true ∨ (∃ m, e = AppOrchestratorBindingError m) ∨
      (∃ iid region w w', eh_ssm_ping iid region w = (w', inr e))
  end.
Proof.
  destruct (build_orchestrator_for_workspace_job wid jt s) as [s' res] eqn:E.
  eapply (wp_run _ (λ orch s', ∃ s0, placement_state s s0 ∧ same_rows s0 s' ∧ ∃ key tid b,
      placed s s0 wid ws jt key tid ∧ bundle_for s0 key b ∧
      orch = default_orchestrator b (Py.or_else (Py.strip key) (cfg_env_node_key env_settings)) tid)
    (λ e s', ∃ s0, placement_state s s0 ∧ same_rows s0 s' ∧
      (is_placement_error e = true ∨ (∃ m, e = AppOrchestratorBindingError m) ∨
       (∃ iid region w w', eh_ssm_ping iid region w = (w', inr e))))) in E; [by destruct res|].
  unfold build_orchestrator_for_workspace_job. apply wp_bind. eapply wp_resolve_placement; [done| |].
  - intros key tid s0 Hs Hp. cbn. unfold build_default_orchestrator_for_session.
    apply wp_bind, wp_try, wp_resolve_bundle.
    + intros b s1 H1 Hb. apply wp_ret. exists s0. split_and!; [done|done|]. by exists key, tid, b.
    + intros e s1 H1 [m ->]. apply wp_raise. exists s0. split_and!; [done|done|]. right; left. by eexists.
    + intros e s1 iid region w w' H1 Hping. destruct e; apply wp_raise; exists s0;
        (split_and!; [done|done|]); first [by right; right; eauto 10|by right; left; eexists].
  - intros e s0 Hs He. exists s0. split_and!; [done|done|by left].
Qed.
End properties.
