(* ===== verification/Execution.v ===== *)
(** * Execution: every claimed job is settled

    The proof that [process_claimed] settles the job it was given on every path of
    the worker, and what the queue and the reclaim do around it. *)

From S2P Require Import Prelude Models Session Services Frames FailureHandling.
From S2P Require Import Sessions Scheduling Placement Cleanup Gateway WorkerRows.
From S2P Require Import Finalizers SnapshotJobs Reconcile Worker Settlement.

(** ** Snapshot and import jobs *)

Section snapshot_jobs.
Context {W : Type} {env : Env} {routes : RouteAdmin W} {storage : SnapshotStorage W}
  {git : GitExecutor W}.
Context (jid wid : Z) (j0 : WorkspaceJob) (st0 : workspace_status).

(** The jobs whose own outcome leaves the workspace's status. *)
Definition keeps_status : Prop :=
  status_after (job_type j0) WorkspaceJobStatus.SUCCEEDED st0 st0 ∧
  status_after (job_type j0) WorkspaceJobStatus.FAILED st0 st0.

Lemma settles_succeed_then (t : M W unit) :
  keeps_status → tail jid wid t → settles jid wid j0 st0 (mark_job_succeeded jid ;; t).
Proof.
  intros [Hs _] Ht. apply settles_then; [|done]. by apply settles_write_job; [apply settled_succeeded|].
Qed.
Lemma settles_fail_then msg stage code (t : M W unit) :
  keeps_status → tail jid wid t → settles jid wid j0 st0 (mark_job_failed jid msg stage code ;; t).
Proof.
  intros [_ Hf] Ht. apply settles_then; [|done]. by apply settles_write_job; [apply settled_failed|].
Qed.

Lemma settles_fail_snapshot_job msg stage code : keeps_status →
  settles jid wid j0 st0 (fail_snapshot_job wid jid msg stage code : M W unit).
Proof. intros Hk. apply settles_fail_then; [done|settle_tail]. Qed.

Lemma quietly_set_snapshot_status sid st : quietly (set_snapshot_status sid st : M W unit).
Proof. apply quietly_set_snap. Qed.
#[local] Hint Resolve quietly_set_snapshot_status : quiet.

Lemma settles_snapshot_created sid res : keeps_status →
  settles jid wid j0 st0 (snapshot_created wid jid sid res : M W unit).
Proof.
  intros Hk. unfold snapshot_created, snapshot_event, snapshot_audit, usage_for.
  apply settles_quiet_bind; [solve_quiet|intros _]. apply settles_succeed_then; [done|settle_tail].
Qed.
Lemma settles_snapshot_create_failed sid res : keeps_status →
  settles jid wid j0 st0 (snapshot_create_failed wid jid sid res : M W unit).
Proof.
  intros Hk. unfold snapshot_create_failed, snapshot_event, snapshot_audit.
  apply settles_quiet_bind; [solve_quiet|intros _].
  apply settles_quiet_bind; [solve_quiet|intros _]. apply settles_fail_then; [done|settle_tail].
Qed.
Lemma settles_snapshot_restored sid : keeps_status →
  settles jid wid j0 st0 (snapshot_restored wid jid sid : M W unit).
Proof.
  intros Hk. unfold snapshot_restored, snapshot_event, snapshot_audit, usage_for.
  apply settles_quiet_bind; [solve_quiet|intros _]. apply settles_succeed_then; [done|settle_tail].
Qed.
Lemma settles_snapshot_restore_failed sid msg code : keeps_status →
  settles jid wid j0 st0 (snapshot_restore_failed wid jid sid msg code : M W unit).
Proof.
  intros Hk. unfold snapshot_restore_failed, snapshot_event.
  apply settles_quiet_bind; [solve_quiet|intros _]. apply settles_fail_then; [done|settle_tail].
Qed.

Lemma settles_snapshot_create orch : keeps_status →
  settles jid wid j0 st0 (execute_snapshot_create_job orch wid jid : M W unit).
Proof.
  intros Hk. unfold execute_snapshot_create_job. apply settles_job_row.
  destruct (job_workspace_snapshot_id j0) as [sid|]; [|by apply settles_fail_snapshot_job].
  apply settles_quiet_bind; [solve_quiet|intros [sn|]]; [|by apply settles_fail_snapshot_job].
  destruct (negb _); [apply settles_fail_then; [done|settle_tail]|].
  apply settles_quiet_bind; [solve_quiet|intros rt]. apply settles_ws_row; intros w _.
  apply settles_quiet_bind; [solve_quiet|intros node]. cbv zeta.
  apply settles_quiet_bind; [unfold export_remote_ec2_snapshot_to_s3; solve_quiet|intros res].
  destruct (so_success res); [|by apply settles_snapshot_create_failed].
  apply settles_quiet_bind; [solve_quiet|intros [[]|e]]; [by apply settles_snapshot_created|].
  apply settles_quiet_bind; [solve_quiet|intros _]. by apply settles_fail_snapshot_job.
Qed.

Lemma settles_snapshot_restore orch : keeps_status →
  settles jid wid j0 st0 (execute_snapshot_restore_job orch wid jid : M W unit).
Proof.
  intros Hk. unfold execute_snapshot_restore_job. apply settles_job_row.
  destruct (job_workspace_snapshot_id j0) as [sid|]; [|by apply settles_fail_snapshot_job].
  apply settles_quiet_bind; [solve_quiet|intros sn].
  destruct (negb _); [by apply settles_fail_snapshot_job|].
  apply settles_quiet_bind; [solve_quiet|intros [[]|e]].
  - apply settles_quiet_bind; [solve_quiet|intros present].
    destruct (negb present); [by apply settles_snapshot_restore_failed|].
    apply settles_ws_row; intros w _.
    apply settles_quiet_bind; [solve_quiet|intros res].
    destruct (so_success res); [by apply settles_snapshot_restored|by apply settles_snapshot_restore_failed].
  - apply settles_quiet_bind; [solve_quiet|intros _]. by apply settles_fail_snapshot_job.
Qed.

Lemma settles_repo_import : status_after (job_type j0) WorkspaceJobStatus.SUCCEEDED st0 st0 →
  settles jid wid j0 st0 (execute_repo_import_job wid jid : M W unit).
Proof.
  intros Hk. unfold execute_repo_import_job, mark_import_failed, repository_failed.
  assert (Hs : settles jid wid j0 st0 (mark_job_succeeded jid : M W unit)).
  { by apply settles_write_job; [apply settled_succeeded|]. }
  apply settles_quiet_bind; [solve_quiet|intros [rid|]]; [|apply settles_raise].
  apply settles_quiet_bind; [solve_quiet|intros _].
  apply settles_quiet_bind; [solve_quiet|intros _].
  apply settles_quiet_bind; [solve_quiet|intros rt]. destruct (rt ≫= _) as [[r cid]|].
  - apply settles_quiet_bind; [solve_quiet|intros repo].
    apply settles_quiet_bind; [solve_quiet|intros token].
    apply settles_quiet_bind; [solve_quiet|intros [[[] out]|e]].
    + by apply settles_quiet_bind; [solve_quiet|intros _].
    + apply settles_quiet_bind; [solve_quiet|intros _]. apply settles_raise.
    + apply settles_quiet_bind; [solve_quiet|intros _]. apply settles_raise.
  - apply settles_quiet_bind; [solve_quiet|intros _]. apply settles_raise.
Qed.
End snapshot_jobs.
#[export] Hint Resolve quietly_set_snapshot_status : quiet.

(** ** The body of a job and its exception handlers *)

Section body.
Context {W : Type} {env : Env} {routes : RouteAdmin W} {lock : ReconcileLock W}
  {storage : SnapshotStorage W} {git : GitExecutor W}.
Context (jid wid : Z) (j0 : WorkspaceJob) (st0 : workspace_status).

Lemma settles_bringup orch :
  status_after (job_type j0) WorkspaceJobStatus.SUCCEEDED st0 WorkspaceStatus.RUNNING →
  settles jid wid j0 st0 (execute_bringup orch wid jid j0 : M W unit).
Proof.
  intros Hst. unfold execute_bringup. apply settles_quiet_bind; [solve_quiet|intros cfg]. cbv zeta.
  destruct (workspace_job_runtime_overrides_from_config _) as [[[c m] p]|[]]; try apply settles_raise.
  - apply settles_ws_row; intros w _.
    apply settles_quiet_bind; [solve_quiet|intros res]. by apply settles_bringup_result.
  - apply settles_fail_error.
Qed.

Lemma settles_job_body orchestrator :
  settles jid wid j0 st0 (execute_job_body orchestrator wid jid : M W unit).
Proof.
  unfold execute_job_body. apply settles_job_row. cbv zeta.
  case_bool_decide as Hri; [apply settles_repo_import; by rewrite Hri|].
  destruct orchestrator as [orch|]; [|apply settles_raise].
  destruct (job_type j0) eqn:E; try done; rewrite <- ?E.
  - apply settles_bringup. by rewrite E.
  - apply settles_bringup. by rewrite E.
  - apply settles_quiet_bind; [solve_quiet|intros cid].
    apply settles_quiet_bind; [solve_quiet|intros res]. apply settles_stop_result. by rewrite E.
  - apply settles_quiet_bind; [solve_quiet|intros cid].
    apply settles_ws_row; intros w _.
    apply settles_quiet_bind; [solve_quiet|intros res]. apply settles_restart_result. by rewrite E.
  - apply settles_quiet_bind; [solve_quiet|intros cid].
    apply settles_quiet_bind; [solve_quiet|intros res]. apply settles_delete_result. by rewrite E.
  - apply settles_quiet_bind; [solve_quiet|intros cid].
    apply settles_ws_row; intros w _.
    apply settles_quiet_bind; [solve_quiet|intros res]. by apply settles_update_result.
  - by apply settles_execute_reconcile.
  - apply settles_snapshot_create. unfold keeps_status. rewrite E. cbn. auto.
  - apply settles_snapshot_restore. unfold keeps_status. rewrite E. cbn. auto.
  - apply settles_raise.
Qed.

Lemma tail_emit : tail jid wid (emit_job_outcome_event wid jid : M W unit).
Proof. unfold emit_job_outcome_event, notify_outcome. settle_tail. Qed.

Lemma settles_readiness orchestrator msg :
  settles jid wid j0 st0 (readiness_failure orchestrator wid jid msg : M W unit).
Proof.
  unfold readiness_failure. apply settles_quiet_bind; [solve_quiet|intros _].
  apply settles_capacity_retry; [|apply settles_fail_job_and_workspace].
  intros Hb. by apply settles_requeue_pending; [apply settled_requeued_capacity|].
Qed.

(** The terminal branch of the handler. *)
Lemma settles_orchestrator_terminal msg stage :
  settles jid wid j0 st0
    (mark_job_failed jid msg stage ERROR_CODE_ORCH ;;
     release_snapshot (job_type j0) (job_workspace_snapshot_id j0) ;;
     if is_snapshot_job (job_type j0) then touch_workspace wid
     else workspace_to_error wid ERROR_CODE_ORCH msg ;; clear_runtime_capacity_reservation wid : M W unit).
Proof.
  destruct (is_snapshot_job (job_type j0)) eqn:E.
  - apply settles_fail_then; [|unfold release_snapshot; settle_tail].
    unfold keeps_status. destruct (job_type j0); try done; cbn; auto.
  - assert (Hr : release_snapshot (W:=W) (job_type j0) (job_workspace_snapshot_id j0) = mret tt).
    { unfold release_snapshot. destruct (job_workspace_snapshot_id j0); [|done].
      by destruct (job_type j0). }
    rewrite Hr. apply (settles_fail_job_and_workspace jid wid j0 st0 msg stage ERROR_CODE_ORCH).
Qed.

Lemma settles_orchestrator_exception orchestrator e :
  settles jid wid j0 st0 (handle_orchestrator_exception orchestrator wid jid j0 e : M W unit).
Proof.
  unfold handle_orchestrator_exception. cbv zeta. apply settles_quiet_bind.
  { destruct e; try apply quietly_within, quietly_ret. destruct (bue_rollback_attempted _); solve_quiet. }
  intros _. destruct (_ && is_node_readiness_error _); [apply settles_readiness|].
  destruct (_ && negb _).
  - apply settles_retry; [|apply settles_orchestrator_terminal].
    intros Hb. by apply settles_requeue_touch; [apply settled_requeued|].
  - apply settles_ret_bind. apply settles_orchestrator_terminal.
Qed.

Lemma settles_claimed_running orchestrator : job_workspace_id j0 = wid →
  settles jid wid j0 st0 (process_claimed_running_job orchestrator jid : M W unit).
Proof.
  intros Hwid. unfold process_claimed_running_job. apply settles_job_row. cbv zeta. rewrite Hwid.
  intros s Hr. apply wp_bind, wp_query. destruct (workspaces (st_db s) !! wid) as [w|] eqn:E.
  2:{ destruct Hr as [_ Hw]. by rewrite E in Hw. }
  revert Hr. apply settles_quiet_bind; [solve_quiet|intros _].
  apply settles_then; [|apply tail_emit]. apply settles_try; [apply settles_job_body|].
  intros e. destruct (is_orchestrator_exception e); [apply settles_orchestrator_exception|].
  destruct e; try apply settles_raise. apply settles_fail_job_and_workspace.
Qed.
End body.

(** ** From the claim to the commit *)

Section processing.
Context {W : Type} {env : Env} {routes : RouteAdmin W} {lock : ReconcileLock W}
  {storage : SnapshotStorage W} {git : GitExecutor W} {source : OrchestratorSource W}
  {autoscaler : Autoscaler W}.

(** A CREATE job moves its workspace from PENDING to CREATING before it runs. *)
Definition begun_status (jt : workspace_job_type) (st st' : workspace_status) : Prop :=
  st' = st ∨
  (jt = WorkspaceJobType.CREATE ∧ st = WorkspaceStatus.PENDING ∧ st' = WorkspaceStatus.CREATING).

(** What a job's execution may have changed when it raises. *)
Record begun (jt : workspace_job_type) (wid : Z) (db db' : Db) : Prop := mkBegun {
  begun_jobs : jobs db' = jobs db;
  begun_this : ∀ st, ws_status <$> workspaces db !! wid = Some st →
    ∃ st', ws_status <$> workspaces db' !! wid = Some st' ∧ begun_status jt st st';
  begun_others : ∀ k, k ≠ wid →
    ws_status <$> workspaces db' !! k = ws_status <$> workspaces db !! k;
  begun_configs : configs db' = configs db
}.

Lemma begun_quiet jt wid db db' : quiet db db' → begun jt wid db db'.
Proof.
  intros [H1 H2 H3]. split; [done| |by intros|done].
  intros st Hst. exists st. split; [by rewrite H2|by left].
Qed.
Lemma begun_trans jt wid a b c : begun jt wid a b → begun jt wid b c → begun jt wid a c.
Proof.
  intros [A1 A2 A3 A4] [B1 B2 B3 B4]. split; try congruence.
  - intros st Hst. destruct (A2 st Hst) as (st1 & H1 & S1), (B2 st1 H1) as (st2 & H2 & S2).
    exists st2. split; [done|]. unfold begun_status in *.
    destruct S1 as [->|(?&?&->)], S2 as [->|(?&?&->)]; auto.
  - intros k Hk. by rewrite B3, A3.
Qed.
#[global] Instance begun_preorder jt wid : PreOrder (begun jt wid).
Proof. split; [intros db; by apply begun_quiet|intros a b c; apply begun_trans]. Qed.
Lemma begun_tracked jt wid (s s' : St W) : tracked quiet s s' → tracked (begun jt wid) s s'.
Proof.
  intros [H1 H2]. split; [by apply begun_quiet|]. destruct H2; [by left|right; by apply begun_quiet].
Qed.

Section one_job.
Context (jid wid : Z) (j0 : WorkspaceJob) (st0 : workspace_status) (Hwid : job_workspace_id j0 = wid).

(** Settled, from the status the job started its workspace with. *)
Definition settled_from (db db' : Db) : Prop :=
  ∃ st1, begun_status (job_type j0) st0 st1 ∧ settled jid wid j0 st1 db db'.

Lemma settles_bound (k : option (Orchestrator W) → M W unit) s :
  ready jid wid j0 st0 (st_db s) →
  (∀ o s', tracked quiet s s' → wp (k o) (λ _ s', settled_from (st_db s) (st_db s'))
                                      (λ _ s', tracked (begun (job_type j0) wid) s s') s') →
  wp (r ← bind_or_settle wid jid (job_type j0); match r with inr _ => mret tt | inl o => k o end)
    (λ _ s', settled_from (st_db s) (st_db s')) (λ _ s', tracked (begun (job_type j0) wid) s s') s.
Proof.
  intros Hr Hk. apply wp_bind, wp_try, wp_bind, wp_quiet_raise.
  { unfold bind_job. solve_quiet. }
  { intros o s' Ht. apply wp_ret. by apply Hk. }
  intros e s' Ht.
  enough (H : settles jid wid j0 st0
    (r ← (if is_placement_error e then
      match e with
      | NoSchedulableNodeError msg =>
          record_placement_failed_scale_out_signal wid jid msg ;;
          attempt maybe_provision_on_no_schedulable_capacity ;;
          mret tt
      | _ => mret tt
      end ;;
      fail_job_from_placement wid jid e
        (match e with NoSchedulableNodeError _ => "no_schedulable_node" | _ => "placement" end) ;;
      emit_job_outcome_event wid jid ;;
      mret (inr tt)
    else match e with
    | AppOrchestratorBindingError _ =>
        fail_job_from_orchestrator_binding wid jid (job_type j0) e ;;
        emit_job_outcome_event wid jid ;;
        mret (inr tt)
    | _ => raise e
    end); match r with inr _ => mret tt | inl o => k o end)).
  { apply wp_bind_inv. eapply wp_mono; [apply H; eapply ready_quiet, Hr; apply Ht| |].
    - intros [] s'' Hs. exists st0. split; [by left|]. eapply settled_before; [apply Ht|done].
    - intros e' s'' Ht'. apply begun_tracked. exact (transitivity Ht Ht'). }
  destruct (is_placement_error e) eqn:Hpe.
  - apply settles_bind_assoc, settles_quiet_bind.
    { unfold record_placement_failed_scale_out_signal. destruct e; solve_quiet. }
    intros _. apply settles_bind_assoc, settles_then; [apply settles_from_placement|].
    apply tail_bind_assoc, tail_then; [apply tail_emit|].
    exact (tail_quiet _ _ (mret tt) (quietly_ret tt)).
  - destruct e; try (intros s0 _; by apply wp_raise).
    apply settles_bind_assoc, settles_then; [apply settles_from_binding|].
    apply tail_bind_assoc, tail_then; [apply tail_emit|].
    exact (tail_quiet _ _ (mret tt) (quietly_ret tt)).
Qed.

(** The start of a CREATE job's bring-up. *)
Lemma wp_begin_create s (Q : unit → St W → Prop) X :
  ready jid wid j0 st0 (st_db s) →
  (∀ st1 s', begun_status (job_type j0) st0 st1 → ready jid wid j0 st1 (st_db s') →
     tracked (begun (job_type j0) wid) s s' → Q tt s') →
  wp (begin_create_bringup_after_placement wid (job_type j0)) Q X s.
Proof.
  intros [Hj Hw] HQ. unfold begin_create_bringup_after_placement.
  destruct (workspaces (st_db s) !! wid) as [w|] eqn:E; [|done]. injection Hw as Hw.
  wp_db. eapply wp_row; [exact E|]. destruct (_ && _) eqn:Hb.
  2:{ apply (HQ st0); [by left|split; [done|]; rewrite E; simpl; by f_equal|reflexivity]. }
  apply andb_prop in Hb as [Hjt%bool_decide_eq_true Hst%bool_decide_eq_true]. subst st0.
  apply wp_on_db. rewrite Hst in HQ.
  apply (HQ WorkspaceStatus.CREATING); cbn; [by right| |].
  - split; [done|]. cbn. rewrite alter_lookup_same, E. by destruct w.
  - split; [|by left]. split; cbn; [done| | |done].
    + intros st. rewrite E. cbn. intros [= <-]. exists WorkspaceStatus.CREATING.
      rewrite alter_lookup_same, E. split; [by destruct w|]. right. by rewrite Hst.
    + intros k Hk. by rewrite alter_lookup_other.
Qed.

Lemma settled_from_begun db db1 st1 db' :
  begun_status (job_type j0) st0 st1 → begun (job_type j0) wid db db1 →
  settled jid wid j0 st1 db1 db' → settled_from db db'.
Proof.
  intros Hst [B1 _ B3 B4] [(j' & H1 & H2 & H3) H4 H5]. exists st1. split; [done|]. split.
  - exists j'. by rewrite <- B1.
  - intros k Hk. by rewrite H4, B3.
  - congruence.
Qed.

Lemma wp_process_claimed b s : ready jid wid j0 st0 (st_db s) →
  wp (process_claimed b jid) (λ _ s', settled_from (st_db s) (st_db s'))
     (λ _ s', tracked (begun (job_type j0) wid) s s') s.
Proof.
  intros Hr. unfold process_claimed. apply wp_bind. eapply wp_row; [apply Hr|]. cbv zeta.
  rewrite Hwid. apply wp_bind, wp_query.
  destruct (workspaces (st_db s) !! wid) as [w|] eqn:E.
  2:{ destruct Hr as [_ Hw]. by rewrite E in Hw. }
  apply wp_bind, wp_query. destruct (b && _ && _) eqn:Hdel.
  - apply andb_prop in Hdel as [[_ Hjt%bool_decide_eq_true]%andb_prop _].
    eapply wp_mono; [apply (settles_then jid wid j0 st0); [|apply tail_emit|done]| |].
    + apply settles_delete_missing. by rewrite Hjt.
    + intros [] s' Hs. exists st0. split; [by left|done].
    + intros e s' Ht. by apply begun_tracked.
  - apply settles_bound; [done|]. intros o s' Ht.
    assert (Hr' : ready jid wid j0 st0 (st_db s')) by (eapply ready_quiet, Hr; apply Ht).
    apply wp_bind, wp_begin_create; [done|]. intros st1 s'' Hst1 Hr1 Ht1.
    assert (Hb : tracked (begun (job_type j0) wid) s s'')
      by exact (transitivity (begun_tracked _ _ _ _ Ht) Ht1).
    eapply wp_mono; [by apply (settles_claimed_running jid wid j0 st1)| |].
    + intros [] s3 Hs. eapply settled_from_begun; [done|apply Hb|done].
    + intros e s3 Hs. exact (transitivity Hb (begun_tracked _ _ _ _ Hs)).
Qed.
End one_job.

(** *** The claim *)

(** The job a claim takes: eligible, not locked, and no younger than any other. *)
Record chosen (locked : Z → bool) (db : Db) (jid : Z) (j : WorkspaceJob) : Prop := mkChosen {
  ch_row : jobs db !! jid = Some j;
  ch_eligible : queued_job_eligible env_now j = true;
  ch_unlocked : locked jid = false;
  ch_oldest : ∀ jid' j', jobs db !! jid' = Some j' → queued_job_eligible env_now j' = true →
    locked jid' = false → job_created_at j ≤ job_created_at j'
}.

Definition claim_db (jid : Z) (db : Db) : Db := flush_db (db <| jobs ::= alter running_job jid |>).

Lemma claimable_spec locked db jid j :
  (jid, j) ∈ claimable locked db ↔
  jobs db !! jid = Some j ∧ queued_job_eligible env_now j = true ∧ locked jid = false.
Proof.
  unfold claimable. rewrite sort_by_perm, list_elem_of_In, List.filter_In, <- list_elem_of_In,
    elem_of_map_to_list. cbn. rewrite andb_true_iff, negb_true_iff. done.
Qed.

Lemma claimable_head locked db jid j rest :
  claimable locked db = (jid, j) :: rest → chosen locked db jid j.
Proof.
  intros E. assert (Hin : (jid, j) ∈ claimable locked db) by (rewrite E; left).
  apply claimable_spec in Hin as (H1 & H2 & H3). split; [done|done|done|].
  intros jid' j' Hj' He Hl. assert (Hin' : (jid', j') ∈ claimable locked db) by (by apply claimable_spec).
  unfold claimable in E, Hin'. rewrite sort_by_perm in Hin'.
  set (le := λ a b : Z * WorkspaceJob, job_created_at a.2 <=? job_created_at b.2) in *.
  assert (Hle : le (jid, j) (jid', j') = true).
  { apply Is_true_true, (sort_by_head_least le) with (l := List.filter
        (λ kj, queued_job_eligible env_now kj.2 && negb (locked kj.1)) (map_to_list (jobs db))).
    - intros a b. unfold le. lia.
    - intros a b c. unfold le. rewrite !Is_true_true. lia.
    - by rewrite E.
    - done. }
  unfold le in Hle. cbn in Hle. lia.
Qed.

Lemma wp_claim_next locked (Q : option Z → St W → Prop) X s :
  (claimable locked (st_db s) = [] → Q None s) →
  (∀ jid j, chosen locked (st_db s) jid j → Q (Some jid) (s <| st_db ::= claim_db jid |>)) →
  wp (try_claim_next_queued_workspace_job locked) Q X s.
Proof.
  intros Hn Hs. unfold try_claim_next_queued_workspace_job. apply wp_bind, wp_query.
  destruct (claimable locked (st_db s)) as [|[jid j] rest] eqn:E; [by apply wp_ret, Hn|].
  apply claimable_head in E. by apply (Hs jid j).
Qed.

Lemma running_in_claim jid j db : jobs db !! jid = Some j →
  jobs (claim_db jid db) = <[jid := running_job j]> (jobs db).
Proof.
  intros Hj. apply map_eq. intros k. cbn. rewrite lookup_alter, lookup_insert.
  case_decide; [subst|done]. by rewrite Hj.
Qed.
End processing.
