(* ===== verification/Queue.v ===== *)
(** * Queue: what the drivers do to the job queue

    The transactions of the two drivers, the loop of [run_pending_jobs] and the
    reclaim of stuck jobs: which job is taken, what is committed, what a crash
    leaves, and that the loop drains the queue. *)

From S2P Require Import Prelude Models Session Services Frames FailureHandling.
From S2P Require Import Sessions Scheduling Placement Cleanup Gateway WorkerRows.
From S2P Require Import Finalizers SnapshotJobs Reconcile Worker Settlement.
From S2P Require Import Execution.

(** The foreign key of [WorkspaceJob.workspace_id]. *)
Definition jobs_reference_workspaces (db : Db) : Prop :=
  ∀ jid j, jobs db !! jid = Some j → is_Some (workspaces db !! job_workspace_id j).

Section queue.
Context {W : Type} {env : Env} {routes : RouteAdmin W} {lock : ReconcileLock W}
  {storage : SnapshotStorage W} {git : GitExecutor W} {source : OrchestratorSource W}
  {autoscaler : Autoscaler W}.

Lemma wp_in_transaction {A} (m : M W A) (Q : A → St W → Prop) X s :
  wp m (λ a s', Q a (mkSt (flush_db (st_db s')) (flush_db (st_db s')) (st_world s')))
       (λ e s', X e (mkSt (st_committed s') (st_committed s') (st_world s')))
     (mkSt (st_committed s) (st_committed s) (st_world s)) →
  wp (in_transaction m) Q X s.
Proof.
  intros H. unfold in_transaction, open_session, rollback, commit, flush, on_db.
  apply wp_bind, wp_modify, wp_try, wp_bind. eapply wp_mono; [exact H| |].
  - intros a [db cm w] Ha. exact Ha.
  - intros e [db cm w] He. exact He.
Qed.

(** A job that ended: where its row and its workspace's status went. *)
Definition job_settled (jid : Z) (j : WorkspaceJob) (db db' : Db) : Prop :=
  ∃ st, ws_status <$> workspaces db !! job_workspace_id j = Some st ∧
        settled_from jid (job_workspace_id j) (running_job j) st db db'.

(** A job whose execution raised: its claim was rolled back, or an orchestrator
    call had committed it; other jobs and other workspaces' statuses are intact. *)
Record job_aborted (jid : Z) (j : WorkspaceJob) (db db' : Db) : Prop := mkAborted {
  ab_jobs : jobs db' = jobs db ∨ jobs db' = <[jid := running_job j]> (jobs db);
  ab_status : ∀ st, ws_status <$> workspaces db !! job_workspace_id j = Some st →
    ∃ st', ws_status <$> workspaces db' !! job_workspace_id j = Some st' ∧
           begun_status (job_type j) st st';
  ab_others : ∀ k, k ≠ job_workspace_id j →
    ws_status <$> workspaces db' !! k = ws_status <$> workspaces db !! k;
  ab_configs : configs db' = configs db
}.

Lemma settled_from_claim jid j st db db' : jobs db !! jid = Some j →
  settled_from jid (job_workspace_id j) (running_job j) st (claim_db jid db) db' →
  settled_from jid (job_workspace_id j) (running_job j) st db (flush_db db').
Proof.
  intros Hj (st1 & Hst & [(j' & H1 & H2 & H3) H4 H5]). exists st1. split; [done|]. split; [|done|done].
  exists j'. split_and!; [|done|done]. cbn. rewrite H1, (running_in_claim jid j) by done.
  by rewrite insert_insert_eq.
Qed.

(** The transaction of one driver pass, given the claim. *)
Lemma wp_claimed_job b jid j s (Q : unit → St W → Prop) X :
  jobs_reference_workspaces (st_db s) → jobs (st_db s) !! jid = Some j →
  st_committed s = st_db s →
  (∀ s', job_settled jid j (st_db s) (flush_db (st_db s')) → Q tt s') →
  (∀ e s', job_aborted jid j (st_db s) (st_committed s') → X e s') →
  wp (process_claimed b jid) Q X (s <| st_db ::= claim_db jid |>).
Proof.
  intros Hfk Hj Hc HQ HX. destruct (Hfk jid j Hj) as [w Hw].
  set (wid := job_workspace_id j) in *. set (s1 := s <| st_db ::= claim_db jid |>).
  assert (Hr : ready jid wid (running_job j) (ws_status w) (st_db s1)).
  { split; [cbn; rewrite alter_lookup_same, Hj; done|]. cbn. by rewrite Hw. }
  eapply wp_mono; [by apply (wp_process_claimed jid wid (running_job j) (ws_status w))| |].
  - intros [] s' Hs. apply HQ. exists (ws_status w). fold wid. rewrite Hw. split; [done|].
    by apply settled_from_claim.
  - intros e s' [_ Hcm]. apply HX. destruct Hcm as [-> | [B1 B2 B3 B4]].
    + cbn. rewrite Hc. split; [by left| |done|done]. intros st Hst. exists st. split; [done|by left].
    + split; [right; rewrite B1; by apply (running_in_claim jid j)| |exact B3|exact B4].
      intros st Hst. by apply B2.
Qed.

Lemma wp_next_job locked s (Q : option Z → St W → Prop) X :
  jobs_reference_workspaces (st_committed s) →
  (∀ s', claimable locked (st_committed s) = [] → st_committed s' = flush_db (st_committed s) →
     st_db s' = st_committed s' → Q None s') →
  (∀ jid j s', chosen locked (st_committed s) jid j → st_db s' = st_committed s' →
     job_settled jid j (st_committed s) (st_committed s') → Q (Some jid) s') →
  (∀ e jid j s', chosen locked (st_committed s) jid j → st_db s' = st_committed s' →
     job_aborted jid j (st_committed s) (st_committed s') → X e s') →
  wp (in_transaction (process_next_queued_job_return_id locked)) Q X s.
Proof.
  intros Hfk HN HS HX. apply wp_in_transaction. unfold process_next_queued_job_return_id.
  apply wp_bind, wp_claim_next.
  - intros Hq. apply wp_ret. by apply HN.
  - intros jid j Hch. apply wp_bind. cbn in Hch. pose proof (ch_row _ _ _ _ Hch) as Hj.
    apply (wp_claimed_job true jid j (mkSt (st_committed s) (st_committed s) (st_world s))); try done.
    + intros s' Hs. apply wp_ret. by eapply HS.
    + intros e s' Hs. by eapply HX.
Qed.

(** C2. Executing the next job: the worker takes an oldest eligible job that no
    other worker holds.  Whatever the orchestrator, the gateway, the storage and
    git do, either the transaction commits and the job has left RUNNING with its
    workspace's status following the outcome (and the retry budget respected), or
    it raises, and the committed database shows the job as it was or as claimed.
    No other job and no other workspace's status changes in either case. *)
Theorem next_job_settles_or_aborts locked (s : St W)
    (Hfk : jobs_reference_workspaces (st_committed s)) :
  let db := st_committed s in
  let '(s', r) := in_transaction (process_next_queued_job_return_id locked) s in
  st_db s' = st_committed s' ∧
  match r with
  | inl None => claimable locked db = [] ∧ st_committed s' = flush_db db
  | inl (Some jid) => ∃ j, chosen locked db jid j ∧ job_settled jid j db (st_committed s')
  | inr _ => ∃ jid j, chosen locked db jid j ∧ job_aborted jid j db (st_committed s')
  end.
Proof.
  cbv zeta. destruct (in_transaction _ s) as [s' r] eqn:E.
  pose proof (wp_next_job locked s
    (λ r s', st_db s' = st_committed s' ∧ match r with
      | None => claimable locked (st_committed s) = [] ∧ st_committed s' = flush_db (st_committed s)
      | Some jid => ∃ j, chosen locked (st_committed s) jid j ∧
                         job_settled jid j (st_committed s) (st_committed s')
      end)
    (λ e s', st_db s' = st_committed s' ∧ ∃ jid j, chosen locked (st_committed s) jid j ∧
                         job_aborted jid j (st_committed s) (st_committed s')) Hfk) as H.
  eapply wp_run in E; [|apply H; eauto 8].
  by destruct r as [[jid|]|e].
Qed.

(** *** Draining the queue *)

(** The jobs that run afterwards ran before, apart from those in [except]. *)
Definition no_new_running (except : Z → Prop) (db db' : Db) : Prop := ∀ k j,
  jobs db' !! k = Some j → job_status j = WorkspaceJobStatus.RUNNING → ¬ except k →
  jobs db !! k = Some j.

Lemma no_new_running_trans P Q a b c : (∀ k, P k → Q k) →
  no_new_running P a b → no_new_running Q b c → no_new_running Q a c.
Proof. intros HPQ H1 H2 k j Hk Hr Hn. apply H1; [by apply H2|done|auto]. Qed.

Lemma settled_no_new_running jid j db db' P : job_settled jid j db db' → no_new_running P db db'.
Proof.
  intros (st & _ & st1 & _ & [(j' & H1 & [_ Hout] & _) _ _]) k r Hk Hr _. rewrite H1 in Hk.
  apply lookup_insert_Some in Hk as [[<- <-]|[_ Hk]]; [|done]. by rewrite Hr in Hout.
Qed.

Lemma aborted_no_new_running jid j db db' :
  job_aborted jid j db db' → no_new_running (.= jid) db db'.
Proof.
  intros [[H|H] _ _ _] k r Hk Hr Hn; rewrite H in Hk; [done|]. by rewrite lookup_insert_ne in Hk.
Qed.

Lemma settled_references jid j db db' : jobs db !! jid = Some j → job_settled jid j db db' →
  jobs_reference_workspaces db → jobs_reference_workspaces db'.
Proof.
  intros Hj (st & Hst & st1 & _ & [(j' & H1 & [(Hw & _) _] & st' & H3 & _) H4 _]) Hfk k r Hk.
  assert (Hex : ∀ wid, is_Some (workspaces db !! wid) → is_Some (workspaces db' !! wid)).
  { intros wid Hwid. rewrite <- (fmap_is_Some ws_status). destruct (decide (wid = job_workspace_id j)) as [->|Hne].
    - by rewrite H3.
    - by rewrite H4, fmap_is_Some. }
  rewrite H1 in Hk. apply lookup_insert_Some in Hk as [[<- <-]|[_ Hk]]; apply Hex.
  - rewrite Hw. exact (Hfk jid j Hj).
  - by apply (Hfk k).
Qed.

Lemma wp_run_jobs locked n p last s :
  jobs_reference_workspaces (st_committed s) →
  wp (run_jobs locked n p last)
    (λ r s', p ≤ r.1 ≤ p + Z.of_nat n ∧
             (r.1 < p + Z.of_nat n → claimable locked (st_committed s') = []) ∧
             no_new_running (λ _, False) (st_committed s) (st_committed s'))
    (λ _ s', ∃ jid, no_new_running (.= jid) (st_committed s) (st_committed s')) s.
Proof.
  revert p last s. induction n as [|n IH]; intros p last s Hfk.
  { apply wp_ret. cbn. split_and!; [lia|lia|lia|by intros k j]. }
  cbn [run_jobs]. apply wp_bind, wp_next_job; [done| | |].
  - intros s' Hq Hc _. apply wp_ret. cbn. split_and!; [lia|lia| |].
    + intros _. by rewrite Hc.
    + by rewrite Hc; intros k j.
  - intros jid j s' Hch _ Hs.
    eapply wp_mono; [apply IH; by eapply settled_references, Hfk; [apply Hch|]| |].
    + intros [p' l'] s'' (H1 & H2 & H3). cbn in *. split_and!; [lia|lia| |].
      * intros Hlt. apply H2. lia.
      * eapply (no_new_running_trans (λ _, False)); [done|by eapply settled_no_new_running|exact H3].
    + intros e s'' [k Hk]. exists k.
      eapply (no_new_running_trans (λ _, False)); [done|by eapply settled_no_new_running|exact Hk].
  - intros e jid j s' _ _ Hab. exists jid. by eapply aborted_no_new_running.
Qed.

Lemma quietly_drain wids : quietly (drain_workspaces wids : M W Z).
Proof.
  induction wids as [|wid wids IH]; simpl; [solve_quiet|]. apply quietly_bind.
  - unfold drain_workspace, merge_cleanup_deferred_note. solve_quiet.
  - intros n. apply quietly_bind; [done|intros; solve_quiet].
Qed.

(** A quiet transaction leaves the committed jobs as they were. *)
Lemma wp_quiet_transaction {A} (m : M W A) (Q : A + Exn → St W → Prop) X s :
  db_within quiet m →
  (∀ r s', quiet (st_committed s) (st_committed s') → Q r s') →
  wp (attempt (in_transaction m)) Q X s.
Proof.
  intros Hm HQ. apply wp_attempt, wp_in_transaction. apply wp_quiet_raise; [done| |].
  - intros a s' [Hq _]. apply HQ. cbn. etrans; [exact Hq|by apply quiet_other].
  - intros e s' [_ [Hc|Hc]]; apply HQ; cbn; [by rewrite Hc|done].
Qed.

(** C6. One tick of the worker ([run_pending_jobs]): it processes at most
    [max(1, limit)] jobs, stops early only when no eligible unlocked job is left,
    and leaves no job RUNNING that was not; should a job's execution raise out of
    the loop, at most that one job stays claimed. *)
Theorem run_pending_jobs_drains_queue locked limit (s : St W)
    (Hfk : jobs_reference_workspaces (st_committed s)) :
  let '(s', r) := run_pending_jobs locked limit s in
  match r with
  | inl (n, _) =>
      0 ≤ n ≤ Z.max 1 limit ∧
      (n < Z.max 1 limit → claimable locked (st_committed s') = []) ∧
      no_new_running (λ _, False) (st_committed s) (st_committed s')
  | inr _ => ∃ jid, no_new_running (.= jid) (st_committed s) (st_committed s')
  end.
Proof.
  enough (H : wp (run_pending_jobs locked limit)
    (λ r s', 0 ≤ r.1 ≤ Z.max 1 limit ∧
      (r.1 < Z.max 1 limit → claimable locked (st_committed s') = []) ∧
      no_new_running (λ _, False) (st_committed s) (st_committed s'))
    (λ _ s', ∃ jid, no_new_running (.= jid) (st_committed s) (st_committed s')) s).
  { destruct (run_pending_jobs locked limit s) as [s' r] eqn:E. eapply wp_run in E; [|exact H].
    by destruct r as [[n last]|e]. }
  apply wp_bind. eapply wp_mono; [by apply wp_run_jobs| |done].
  intros [n last] s1 (H1 & H2 & H3). apply wp_bind, wp_quiet_transaction.
  { unfold drain_pending_cleanup_tasks. apply within_bind_quiet; [solve_quiet|].
    intros wids. apply quietly_within, quietly_drain. }
  intros _ s2 [Hj _ _]. apply wp_ret. cbn in *. split_and!; [lia|lia| |].
  - intros Hlt. unfold claimable. rewrite Hj. apply H2. lia.
  - intros k j. rewrite Hj. apply H3.
Qed.

(** *** One job by its id *)

Lemma wp_claim_by_id locked jid s (Q : option Z → St W → Prop) X :
  ((∀ j, jobs (st_db s) !! jid = Some j → queued_job_eligible env_now j = true → locked jid = true) →
     Q None s) →
  (∀ j, jobs (st_db s) !! jid = Some j → queued_job_eligible env_now j = true → locked jid = false →
     Q (Some jid) (s <| st_db ::= claim_db jid |>)) →
  wp (try_claim_queued_workspace_job_by_id locked jid) Q X s.
Proof.
  intros Hn Hs. unfold try_claim_queued_workspace_job_by_id. apply wp_bind, wp_query.
  destruct (jobs (st_db s) !! jid) as [j|] eqn:Hj; [|by apply wp_ret, Hn].
  destruct (queued_job_eligible env_now j) eqn:He; cbn [andb].
  - destruct (locked jid) eqn:Hl; cbn [negb].
    + apply wp_ret, Hn. by intros.
    + by apply (Hs j).
  - apply wp_ret, Hn. intros j' [= <-] H. congruence.
Qed.

Lemma wp_run_by_id locked jid s (Q : bool → St W → Prop) X :
  jobs_reference_workspaces (st_committed s) →
  (∀ s', (∀ j, jobs (st_committed s) !! jid = Some j → queued_job_eligible env_now j = true →
            locked jid = true) →
     st_committed s' = flush_db (st_committed s) → Q false s') →
  (∀ j s', jobs (st_committed s) !! jid = Some j → queued_job_eligible env_now j = true →
     locked jid = false → job_settled jid j (st_committed s) (st_committed s') → Q true s') →
  (∀ e j s', jobs (st_committed s) !! jid = Some j → queued_job_eligible env_now j = true →
     job_aborted jid j (st_committed s) (st_committed s') → X e s') →
  wp (run_queued_workspace_job_by_id locked jid) Q X s.
Proof.
  intros Hfk HF HT HX. apply wp_in_transaction. apply wp_bind, wp_claim_by_id; cbn.
  - intros Hn. by apply HF.
  - intros j Hj He Hl. apply wp_bind.
    apply (wp_claimed_job false jid j (mkSt (st_committed s) (st_committed s) (st_world s))); try done.
    + intros s' Hs. apply wp_ret. by apply (HT j).
    + intros e s' Hs. by apply (HX e j).
Qed.

(** C3. The last attempt is final: a job claimed on its last attempt and past
    its capacity deadline is SUCCEEDED or FAILED once [run_queued_workspace_job_by_id]
    returns [True], whatever its collaborators answered. *)
Theorem last_attempt_is_final locked (s : St W) jid j
    (Hfk : jobs_reference_workspaces (st_committed s))
    (Hj : jobs (st_committed s) !! jid = Some j)
    (Hlast : effective_max_attempts j ≤ job_attempt j + 1)
    (Hdeadline : capacity_wait_timed_out j env_now = true) :
  let '(s', r) := run_queued_workspace_job_by_id locked jid s in
  r = inl true → ∃ j', jobs (st_committed s') !! jid = Some j' ∧
    (job_status j' = WorkspaceJobStatus.SUCCEEDED ∨ job_status j' = WorkspaceJobStatus.FAILED).
Proof.
  enough (H : wp (run_queued_workspace_job_by_id locked jid)
    (λ r s', r = true → ∃ j', jobs (st_committed s') !! jid = Some j' ∧
      (job_status j' = WorkspaceJobStatus.SUCCEEDED ∨ job_status j' = WorkspaceJobStatus.FAILED))
    (λ _ _, True) s).
  { destruct (run_queued_workspace_job_by_id locked jid s) as [s' r] eqn:E.
    eapply wp_run in E; [|exact H]. destruct r; [|done]. intros [= ->]. by apply E. }
  apply wp_run_by_id; [done|done| |done]. intros j0 s' Hj0 _ _ Hs _.
  assert (j0 = j) as -> by congruence.
  destruct Hs as (st & _ & st1 & _ & [(j' & H1 & [_ Hout] & _) _ _]).
  exists j'. rewrite H1, lookup_insert_eq. split; [done|].
  destruct (job_status j') eqn:E; try done; auto.
  destruct Hout as (_ & _ & _ & [Hb|[_ Hb]]); exfalso.
  - change (1 + job_attempt j < effective_max_attempts j) in Hb. lia.
  - change (capacity_wait_timed_out j env_now = false) in Hb. congruence.
Qed.
End queue.

(** ** Stuck jobs *)

Section reclaim.
Context {W : Type} {env : Env}.

(** The row of a stuck job afterwards. *)
Definition reclaimed (jid : Z) (j : WorkspaceJob) : WorkspaceJob :=
  if effective_max_attempts j <=? job_attempt j
  then failed_job (stuck_message jid) FailureStage.UNKNOWN "STUCK_RUNNING_TERMINAL" j
  else requeued_for_retry (stuck_message jid) FailureStage.UNKNOWN
         (Some "STUCK_RUNNING_RECLAIMED"%string) env_now j.

Lemma reclaimed_not_stuck cutoff jid j : is_stuck cutoff (reclaimed jid j) = false.
Proof. unfold reclaimed. by destruct (_ <=? _). Qed.

Lemma alter_insert_row {A} (f : A → A) (m : gmap Z A) k v :
  m !! k = Some v → alter f k m = <[k := f v]> m.
Proof.
  intros Hk. apply map_eq. intros i. rewrite lookup_alter, lookup_insert.
  case_decide; [subst|done]. by rewrite Hk.
Qed.

(** What reclaiming [jids] may do to a workspace's status: an exhausted job
    moves its workspace to ERROR. *)
Definition reclaimed_status (jids : list Z) (db db' : Db) : Prop := ∀ k,
  ws_status <$> workspaces db' !! k = ws_status <$> workspaces db !! k ∨
  (ws_status <$> workspaces db' !! k = Some WorkspaceStatus.ERROR ∧ is_Some (workspaces db !! k) ∧
   ∃ jid j, jid ∈ jids ∧ jobs db !! jid = Some j ∧ job_workspace_id j = k ∧
            effective_max_attempts j ≤ job_attempt j).

Lemma wp_reclaim_job jid j s (Q : unit → St W → Prop) X :
  jobs (st_db s) !! jid = Some j →
  (∀ s', jobs (st_db s') = <[jid := reclaimed jid j]> (jobs (st_db s)) →
     reclaimed_status [jid] (st_db s) (st_db s') → Q tt s') →
  wp (reclaim_job jid) Q X s.
Proof.
  intros Hj HQ. unfold reclaim_job. apply wp_bind. eapply wp_row; [exact Hj|]. cbv zeta.
  apply wp_bind, wp_query, wp_bind. unfold reclaimed in HQ.
  eapply wp_try_retry; [exact Hj| |]; intros Hb.
  - destruct (Z.leb_spec (effective_max_attempts j) (job_attempt j)); [lia|].
    case_bool_decide; apply HQ; cbn; try by apply alter_insert_row.
    + intros k. left. cbn. rewrite lookup_alter. case_decide; [subst|done].
      by destruct (workspaces (st_db s) !! _) as [[]|].
    + intros k. by left.
  - destruct (Z.leb_spec (effective_max_attempts j) (job_attempt j)); [|lia].
    case_bool_decide as Hw; destruct (is_lifecycle_job (job_type j)); apply HQ; cbn;
      try by apply alter_insert_row.
    2,3,4: intros k; by left.
    intros k. cbn. destruct (decide (k = job_workspace_id j)) as [->|Hne].
    + right. rewrite alter_lookup_same. destruct Hw as [w Hw]. rewrite Hw. split; [by destruct w|].
      split; [by eexists|]. exists jid, j. split; [left|done].
    + left. by rewrite alter_lookup_other.
Qed.

Lemma wp_reclaim_all L s (Q : unit → St W → Prop) X :
  NoDup L → (∀ k, k ∈ L → is_Some (jobs (st_db s) !! k)) →
  (∀ s', (∀ k, jobs (st_db s') !! k = if bool_decide (k ∈ L) then reclaimed k <$> jobs (st_db s) !! k
                                      else jobs (st_db s) !! k) →
     reclaimed_status L (st_db s) (st_db s') → Q tt s') →
  wp (for_each L reclaim_job) Q X s.
Proof.
  intros Hnd Hin HQ. revert s Hin HQ. induction Hnd as [|jid L Hni Hnd IH]; intros s Hin HQ.
  { apply wp_ret, HQ; [|intros k; by left]. intros k.
    by rewrite bool_decide_eq_false_2 by apply not_elem_of_nil. }
  cbn [for_each]. destruct (Hin jid ltac:(left)) as [j Hj].
  apply wp_bind, (wp_reclaim_job jid j); [done|]. intros s1 H1 Hs1. apply IH.
  - intros k Hk. rewrite H1. destruct (decide (k = jid)) as [->|Hne].
    + rewrite lookup_insert_eq. by eexists.
    + rewrite lookup_insert_ne by done. apply Hin. by right.
  - intros s2 H2 Hs2. apply HQ.
    + intros k. rewrite H2, H1. destruct (decide (k = jid)) as [->|Hne].
      * rewrite (bool_decide_eq_false_2 (jid ∈ L)), (bool_decide_eq_true_2 (jid ∈ _)) by (done || left).
        by rewrite lookup_insert_eq, Hj.
      * rewrite lookup_insert_ne by done.
        assert (k ∈ jid :: L ↔ k ∈ L) as Hiff by (rewrite elem_of_cons; naive_solver).
        by rewrite (bool_decide_ext _ _ Hiff).
    + intros k. destruct (Hs1 k) as [E1|(E1 & Hw & jid' & j' & Hin' & Hj' & Hk & Hb)],
        (Hs2 k) as [E2|(E2 & Hw2 & jid2 & j2 & Hin2 & Hj2 & Hk2 & Hb2)].
      * left. by rewrite E2.
      * right. split; [done|]. split.
        { rewrite <- (fmap_is_Some ws_status). rewrite <- E1. by rewrite fmap_is_Some. }
        exists jid2, j2. split; [by right|]. split; [|done]. rewrite H1 in Hj2.
        by rewrite lookup_insert_ne in Hj2 by (by intros ->).
      * right. split; [by rewrite E2|]. split; [done|]. exists jid', j'.
        split; [|done]. by apply list_elem_of_singleton in Hin' as ->; left.
      * right. split; [done|]. split; [done|]. exists jid', j'.
        split; [|done]. by apply list_elem_of_singleton in Hin' as ->; left.
Qed.

Lemma stuck_jobs_rows cutoff db k : k ∈ stuck_jobs cutoff db →
  ∃ j, jobs db !! k = Some j ∧ is_stuck cutoff j = true.
Proof.
  intros Hk. unfold stuck_jobs in Hk. apply elem_of_take in Hk as (i & Hk & _).
  apply list_elem_of_lookup_2, list_elem_of_fmap in Hk as ([k' j] & -> & Hk).
  rewrite list_elem_of_In, List.filter_In, <- list_elem_of_In, elem_of_map_to_list in Hk.
  by exists j.
Qed.
Lemma stuck_jobs_NoDup cutoff db : NoDup (stuck_jobs cutoff db).
Proof.
  unfold stuck_jobs. eapply sublist_NoDup; [apply (NoDup_fst_map_to_list (jobs db))|].
  etrans; [apply sublist_take|].
  generalize (map_to_list (jobs db)). intros l. induction l as [|x l IH]; simpl; [done|].
  destruct (is_stuck _ _); by constructor.
Qed.
Lemma stuck_jobs_complete cutoff db k j : (length (stuck_jobs cutoff db) < 20)%nat →
  jobs db !! k = Some j → is_stuck cutoff j = true → k ∈ stuck_jobs cutoff db.
Proof.
  unfold stuck_jobs. intros Hl Hk Hs. rewrite length_take in Hl. rewrite take_ge by lia.
  apply list_elem_of_fmap. exists (k, j). split; [done|].
  rewrite list_elem_of_In, List.filter_In, <- list_elem_of_In, elem_of_map_to_list. done.
Qed.

(** The rows after the jobs in [stuck] were reclaimed. *)
Definition reclaimed_jobs (stuck : list Z) (db db' : Db) : Prop := ∀ k,
  jobs db' !! k = if bool_decide (k ∈ stuck) then reclaimed k <$> jobs db !! k else jobs db !! k.

Definition stuck_cutoff : time :=
  env_now - seconds (cfg_workspace_job_stuck_timeout_seconds env_settings).

Lemma wp_reclaim_stuck s (Q : Z → St W → Prop) X :
  let stuck := if cfg_workspace_job_stuck_timeout_seconds env_settings <=? 0 then []
               else stuck_jobs stuck_cutoff (st_committed s) in
  (∀ s', reclaimed_jobs stuck (st_committed s) (st_committed s') →
     reclaimed_status stuck (st_committed s) (st_committed s') → Q (Z.of_nat (length stuck)) s') →
  wp reclaim_stuck_running_jobs Q X s.
Proof.
  intros stuck HQ. unfold reclaim_stuck_running_jobs. cbv zeta.
  assert (Hnil : stuck = [] → ∀ s', st_committed s' = st_committed s → Q 0 s').
  { intros Hs s' Hc. specialize (HQ s'). rewrite Hs, Hc in HQ. apply HQ.
    - intros k. by rewrite bool_decide_eq_false_2 by apply not_elem_of_nil.
    - intros k. by left. }
  destruct (Z.leb_spec (cfg_workspace_job_stuck_timeout_seconds env_settings) 0); [by apply Hnil|].
  apply wp_bind, wp_modify, wp_bind, wp_query. cbn. fold stuck_cutoff stuck.
  case_bool_decide as Hst; [by apply Hnil|].
  apply wp_bind, wp_reclaim_all; [apply stuck_jobs_NoDup| |].
  - intros k Hk. apply stuck_jobs_rows in Hk as (j & Hk & _). by eexists.
  - intros s' Hj Hs. by apply HQ.
Qed.

Lemma reclaimed_no_stuck db db' : (length (stuck_jobs stuck_cutoff db) < 20)%nat →
  reclaimed_jobs (stuck_jobs stuck_cutoff db) db db' → stuck_jobs stuck_cutoff db' = [].
Proof.
  intros Hlen Hdb'. apply elem_of_nil_inv. intros k Hk.
  apply stuck_jobs_rows in Hk as (j & Hk & Hs). rewrite Hdb' in Hk. case_bool_decide as Hin.
  - destruct (jobs db !! k) as [j0|]; [|done]. injection Hk as <-. by rewrite reclaimed_not_stuck in Hs.
  - by eapply Hin, stuck_jobs_complete.
Qed.

(** Reclaim of stuck jobs: one tick takes up to twenty jobs RUNNING past the
    timeout; each goes back on the queue while it has attempts left and fails
    otherwise, no other job changes, a workspace's status changes only to ERROR
    and only for a job out of attempts, and unless the cap of twenty was reached
    no stuck job remains. *)
Lemma reclaim_frees_stuck_jobs (s : St W)
    (Htimeout : 0 < cfg_workspace_job_stuck_timeout_seconds env_settings) :
  let stuck := stuck_jobs stuck_cutoff (st_committed s) in
  let '(s', r) := reclaim_stuck_running_jobs s in
  r = inl (Z.of_nat (length stuck)) ∧
  reclaimed_jobs stuck (st_committed s) (st_committed s') ∧
  reclaimed_status stuck (st_committed s) (st_committed s') ∧
  ((length stuck < 20)%nat → stuck_jobs stuck_cutoff (st_committed s') = []).
Proof.
  intros stuck.
  enough (H : wp reclaim_stuck_running_jobs
    (λ r s', r = Z.of_nat (length stuck) ∧ reclaimed_jobs stuck (st_committed s) (st_committed s') ∧
             reclaimed_status stuck (st_committed s) (st_committed s')) (λ _ _, False) s).
  { destruct (reclaim_stuck_running_jobs s) as [s' r] eqn:E. eapply wp_run in E; [|exact H].
    destruct r as [n|e]; [|done]. destruct E as (-> & Hj & Hs). split_and!; [done|done|done|].
    intros Hlen. by eapply reclaimed_no_stuck. }
  apply wp_reclaim_stuck. destruct (Z.leb_spec (cfg_workspace_job_stuck_timeout_seconds env_settings) 0); [lia|].
  done.
Qed.
End reclaim.
