(* ===== verification/Routing.v ===== *)
(** * Routing: the public addresses of workspaces

    [src/backend/app/libs/routing/workspace_routing.py]: slugs, the two routing modes
    (one host per workspace, or one host per user with a path per workspace) and
    reading hosts and paths back.  Strings are ASCII; regular expressions are written
    out as the functions they denote. *)

From S2P Require Import Prelude Models.

(** ** Slugs *)

Definition dash : ascii := "-"%char.
Definition slug_char (c : ascii) : bool :=
  let n := N_of_ascii c in ((97 <=? n) && (n <=? 122))%N || is_digit_char c || Ascii.eqb c dash.

(** [re.sub(r"\s+", "-", s)] *)
Fixpoint spaces_to_dash (in_run : bool) (l : list ascii) : list ascii :=
  match l with
  | [] => []
  | c :: r => if Py.is_space c then (if in_run then spaces_to_dash true r else dash :: spaces_to_dash true r)
              else c :: spaces_to_dash false r
  end.
(** [re.sub(r"-+", "-", s)] *)
Fixpoint collapse_dashes (in_run : bool) (l : list ascii) : list ascii :=
  match l with
  | [] => []
  | c :: r => if Ascii.eqb c dash then (if in_run then collapse_dashes true r else dash :: collapse_dashes true r)
              else c :: collapse_dashes false r
  end.
Definition strip_dashes : list ascii → list ascii := Py.strip_by (Ascii.eqb dash).

Definition slugify_workspace_name (raw : string) : string :=
  let s := Py.lower (Py.strip raw) in
  Py.prefix_to 128
    (Py.on_chars (λ l, strip_dashes (collapse_dashes false (List.filter slug_char (spaces_to_dash false l)))) s).

(** The loop of both allocators: [base], [base-2], [base-3], ... until one is free. *)
Definition numbered (base : string) (n : Z) : string := (base ++ "-" ++ Py.str_of_Z n)%string.
Fixpoint first_free (taken : string → bool) (fuel : nat) (base candidate : string) (n : Z) : option string :=
  match fuel with
  | O => None
  | S k => if taken candidate then first_free taken k base (numbered base n) (n + 1) else Some candidate
  end.

Definition owner_slug_taken (owner_user_id : Z) (db : Db) (slug : string) : bool :=
  bool_decide (is_Some (first_row (λ kw, ws_owner_user_id kw.2 = owner_user_id ∧ ws_url_slug kw.2 = slug ∧
                                         ws_status kw.2 ≠ WorkspaceStatus.DELETED) (workspaces db))).
Definition allocate_unique_workspace_url_slug (owner_user_id : Z) (display_name : string) (db : Db) : option string :=
  let base := Py.or_else (slugify_workspace_name display_name) "workspace" in
  first_free (owner_slug_taken owner_user_id db) (S (size (workspaces db))) base base 2.

Definition route_slug_taken (us : gmap Z UserAuth) (slug : string) : bool :=
  bool_decide (is_Some (first_row (λ ku, ua_route_subdomain_slug ku.2 = Some slug) us)).
Definition allocate_unique_route_subdomain_slug (preferred_username : string) (us : gmap Z UserAuth) : option string :=
  let base := Py.or_else (slugify_workspace_name preferred_username) "user" in
  first_free (route_slug_taken us) (S (size us)) base base 2.

(** ** Addresses *)

Section routing.
Context {env : Env}.

Definition clean_domain (s : string) : string := Py.strip_dots (Py.strip s).

Definition effective_public_base_domain : string :=
  Py.or_else (clean_domain (default ""%string (cfg_public_base_domain env_settings)))
    (clean_domain (cfg_base_domain env_settings)).

Definition tenant_workspace_urls_enabled : bool :=
  let mode := Py.lower (Py.strip (cfg_workspace_domain_mode env_settings)) in
  if String.eqb mode "legacy" then false
  else if String.eqb mode "tenant" then true
  else cfg_tenant_subdomain_routing_enabled env_settings.

(** [s.rstrip(":")] *)
Definition rstrip_colons (s : string) : string := Py.on_chars (Py.rstrip_by (Ascii.eqb ":")) s.
Definition normal_scheme (s : string) : string := rstrip_colons (Py.lower (Py.strip s)).

Definition effective_public_scheme : string :=
  let pub := normal_scheme (cfg_public_scheme env_settings) in
  if Py.truthy pub then pub
  else if tenant_workspace_urls_enabled then "https"
  else normal_scheme (Py.or_else (cfg_gateway_public_scheme env_settings) "http").

Definition effective_browser_port : Z :=
  if 0 <? cfg_public_port env_settings then cfg_public_port env_settings
  else if tenant_workspace_urls_enabled then 0
  else cfg_gateway_public_port env_settings.

Definition gateway_public_host_with_port (host scheme : string) (port : Z) : string :=
  if port <=? 0 then host
  else
    let sch := normal_scheme (Py.or_else scheme "http") in
    if (String.eqb sch "http" && (port =? 80)) || (String.eqb sch "https" && (port =? 443)) then host
    else (host ++ ":" ++ Py.str_of_Z port)%string.

(** [s.split(":")[0]] *)
Definition before_colon (s : string) : string := (Py.partition ":" s).1.

Definition workspace_url (scheme host path : string) : string := (scheme ++ "://" ++ host ++ path)%string.

Definition build_workspace_url (user : UserAuth) (wid : Z) (w : Workspace) : string :=
  let scheme := effective_public_scheme in
  let with_port host := gateway_public_host_with_port host scheme effective_browser_port in
  let sub := Py.lower (Py.strip_opt (ua_route_subdomain_slug user)) in
  let slug := Py.lower (Py.strip (ws_url_slug w)) in
  if tenant_workspace_urls_enabled && Py.truthy sub && Py.truthy slug then
    workspace_url scheme (with_port (sub ++ "." ++ effective_public_base_domain)%string) ("/workspaces/" ++ slug)
  else
    let explicit := Py.strip_opt (ws_public_host w) in
    let host := if Py.truthy explicit then before_colon explicit
                else ("ws-" ++ Py.str_of_Z wid ++ "." ++
                      clean_domain (Py.or_else (cfg_base_domain env_settings) "app.devnest.local"))%string in
    workspace_url scheme (with_port host) "/".
End routing.

(** [_gateway_unique_public_host] of workspace_intent_service.py *)
Definition gateway_unique_public_host (wid : Z) (base_domain : string) (key : option string) : string :=
  let dom := Py.strip_dots (Py.strip (Py.or_else base_domain "app.devnest.local")) in
  let suffix := Py.lower (Py.strip_opt key) in
  let label := ("ws-" ++ Py.str_of_Z wid)%string in
  let label := if Py.truthy suffix then (label ++ "-" ++ suffix)%string else label in
  (label ++ "." ++ dom)%string.

(** [_assign_workspace_gateway_public_identity] of the same file: the host and path
    prefix stored on the row, [None] for an absent owner row. *)
Definition public_identity {env : Env} (owner : option UserAuth) (wid : Z) (w : Workspace) : Workspace :=
  match owner with
  | None => w
  | Some u =>
      let sub := Py.lower (Py.strip_opt (ua_route_subdomain_slug u)) in
      let slug := Py.lower (Py.strip (ws_url_slug w)) in
      if negb (cfg_gateway_enabled env_settings) then w
      else if tenant_workspace_urls_enabled && Py.truthy sub && Py.truthy slug then
        w <| ws_public_host := Some (sub ++ "." ++ effective_public_base_domain)%string |>
          <| ws_gateway_path_prefix := Some ("/workspaces/" ++ slug)%string |>
      else
        w <| ws_public_host := Some (gateway_unique_public_host wid (cfg_base_domain env_settings)
                                       (ws_project_storage_key w)) |>
          <| ws_gateway_path_prefix := None |>
  end.

(** *** Reading addresses back *)

Definition without_suffix (suffix s : string) : option string :=
  if Nat.leb (String.length suffix) (String.length s) &&
     String.eqb (substring (String.length s - String.length suffix) (String.length suffix) s) suffix
  then Some (substring 0 (String.length s - String.length suffix) s) else None.

Definition parse_workspace_host (host base_domain : string) : option string :=
  let h := Py.lower (before_colon (Py.strip host)) in
  let dom := Py.strip_dots (Py.lower (Py.strip base_domain)) in
  if negb (Py.truthy h) || negb (Py.truthy dom) then None
  else match without_suffix ("." ++ dom) h with
       | None => None
       | Some label =>
           let label := Py.strip_dots (Py.strip label) in
           if negb (Py.truthy label) || Py.contains "." label then None else Some label
       end.

(** The slug of [^/workspaces/([^/]+)]. *)
Fixpoint after_literal (p s : string) : option string :=
  match p, s with
  | EmptyString, _ => Some s
  | String a p', String b s' => if Ascii.eqb a b then after_literal p' s' else None
  | _, EmptyString => None
  end.
Definition slug_of_path (path : string) : option string :=
  match after_literal "/workspaces/" path with
  | None => None
  | Some rest =>
      let seg := Py.until (Ascii.eqb "/") rest in
      let slug := Py.lower (Py.strip seg) in
      if Py.truthy seg && Py.truthy slug then Some slug else None
  end.

(** ** The allocators *)

Section allocators.

(** The k-th candidate. *)
Definition candidate (base : string) (k : nat) : string :=
  match k with O => base | S _ => numbered base (Z.of_nat k + 1) end.

Lemma numbered_length base n : (String.length base < String.length (numbered base n))%nat.
Proof. unfold numbered. rewrite !length_append. cbn [String.length]. lia. Qed.

#[local] Instance candidate_inj base : Inj eq eq (candidate base).
Proof.
  intros [|i] [|j] H; [done|..]; cbn [candidate] in H.
  - pose proof (numbered_length base (Z.of_nat (S j) + 1)). rewrite <- H in *. lia.
  - pose proof (numbered_length base (Z.of_nat (S i) + 1)). rewrite H in *. lia.
  - apply (inj (String.append base)), (inj (String.append "-")), (inj pretty) in H. lia.
Qed.

(** What the loop has found after starting at the k-th candidate. *)
Definition loop_result (taken : string → bool) (base : string) (k fuel : nat) (r : option string) : Prop :=
  match r with
  | None => ∀ i, (i < fuel)%nat → taken (candidate base (k + i)) = true
  | Some x => ∃ i, (i < fuel)%nat ∧ x = candidate base (k + i) ∧ taken x = false ∧
                   ∀ j, (j < i)%nat → taken (candidate base (k + j)) = true
  end.

Lemma first_free_loop taken base fuel k :
  loop_result taken base k fuel (first_free taken fuel base (candidate base k) (Z.of_nat k + 2)).
Proof.
  revert k. induction fuel as [|n IH]; intros k; cbn [first_free]; [intros i; lia|].
  destruct (taken (candidate base k)) eqn:Hk.
  - replace (numbered base (Z.of_nat k + 2)) with (candidate base (S k)) by (cbn [candidate]; f_equal; lia).
    replace (Z.of_nat k + 2 + 1) with (Z.of_nat (S k) + 2) by lia.
    specialize (IH (S k)). unfold loop_result in *.
    assert (Hsucc : ∀ i, (k + S i)%nat = (S k + i)%nat) by (intros i; lia).
    destruct (first_free _ _ _ _ _) as [x|].
    + destruct IH as (i & Hi & -> & Hf & Hb). exists (S i). rewrite !Hsucc. split_and!; [lia|done|done|].
      intros [|j] Hj; [by rewrite Nat.add_0_r|]. rewrite Hsucc. apply Hb. lia.
    + intros [|i] Hi; [by rewrite Nat.add_0_r|]. rewrite Hsucc. apply IH. lia.
  - exists O. rewrite Nat.add_0_r. split_and!; [lia|done|done|]. intros j. lia.
Qed.

(** One round more than there are taken candidates is enough. *)
Lemma first_free_ends taken base (used : list string) fuel :
  (∀ x, taken x = true → x ∈ used) → (length used < fuel)%nat →
  ∃ k, first_free taken fuel base base 2 = Some (candidate base k) ∧ taken (candidate base k) = false ∧
       ∀ j, (j < k)%nat → taken (candidate base j) = true.
Proof.
  intros Hused Hf. pose proof (first_free_loop taken base fuel 0) as H. unfold loop_result in H. cbn [Nat.add candidate] in H.
  change (Z.of_nat 0 + 2) with 2 in H.
  destruct (first_free taken fuel base base 2) as [x|].
  { destruct H as (i & _ & -> & Hx & Hb). by exists i. }
  exfalso. assert (Hsub : (candidate base <$> seq 0 fuel) ⊆+ used).
  { apply NoDup_submseteq; [apply NoDup_fmap_2; [apply _|apply NoDup_seq]|].
    intros x (i & -> & Hi)%list_elem_of_fmap. apply Hused, H. apply elem_of_seq in Hi. lia. }
  apply submseteq_length in Hsub. rewrite length_fmap, length_seq in Hsub. lia.
Qed.

End allocators.

(** ** The form of a slug *)

Definition is_slug : string → Prop := all_chars slug_char.

Section slugs.

Lemma collapse_dashes_slug b l : Forall (λ c, slug_char c = true) l →
  Forall (λ c, slug_char c = true) (collapse_dashes b l).
Proof.
  intros H. revert b. induction H as [|c l Hc Hl IH]; intros b; cbn; [done|].
  destruct (Ascii.eqb c dash); [destruct b; [done|by constructor]|by constructor].
Qed.

Lemma slugify_is_slug raw : is_slug (slugify_workspace_name raw).
Proof.
  unfold is_slug, slugify_workspace_name. apply all_chars_prefix.
  rewrite <- (Py.on_chars_on_chars strip_dashes). apply all_chars_strip_by.
  unfold all_chars. rewrite Py.list_ascii_on_chars. apply collapse_dashes_slug, Forall_forall.
  intros c Hc%list_elem_of_In. by apply List.filter_In in Hc as [_ Hc].
Qed.

Lemma slug_or_else raw d : is_slug d → Py.truthy d = true →
  let s := Py.or_else (slugify_workspace_name raw) d in is_slug s ∧ Py.truthy s = true.
Proof.
  intros Hd Ht. cbv zeta. unfold Py.or_else.
  destruct (Py.truthy (slugify_workspace_name raw)) eqn:E; auto using slugify_is_slug.
Qed.

Lemma candidate_is_slug base k : is_slug base → is_slug (candidate base k).
Proof.
  intros H. destruct k as [|k]; [done|]. unfold candidate, numbered, is_slug. rewrite !all_chars_app.
  split_and!; [done|by repeat constructor|]. eapply all_chars_weaken; [|by apply str_of_Z_digits; lia].
  intros c Hc. unfold slug_char. by rewrite Hc, orb_true_r.
Qed.

Lemma candidate_truthy base k : Py.truthy base = true → Py.truthy (candidate base k) = true.
Proof. destruct k; [done|]. unfold candidate, numbered. by destruct base. Qed.

(** What an allocator returns: the first candidate of [base] that is not [taken]. *)
Record allocated (taken : string → bool) (base slug : string) : Prop := {
  al_first : ∃ k, slug = candidate base k ∧ ∀ j, (j < k)%nat → taken (candidate base j) = true;
  al_free : taken slug = false;
  al_slug : is_slug slug;
  al_truthy : Py.truthy slug = true
}.

(** Taken slugs are columns of rows, so one round more than there are rows is enough. *)
Lemma first_free_allocates {A} (taken : string → bool) (m : gmap Z A) (col : A → string) raw d :
  (∀ x, taken x = true → ∃ k v, m !! k = Some v ∧ col v = x) → is_slug d → Py.truthy d = true →
  let base := Py.or_else (slugify_workspace_name raw) d in
  ∃ slug, first_free taken (S (size m)) base base 2 = Some slug ∧ allocated taken base slug.
Proof.
  intros Hused Hd Ht base. pose proof (slug_or_else raw d Hd Ht) as [Hs Hb].
  destruct (first_free_ends taken base ((λ kv : Z * A, col kv.2) <$> map_to_list m) (S (size m))) as (k & Hk & Hf & Hbefore).
  - intros x (i & v & Hi & <-)%Hused. apply list_elem_of_fmap. exists (i, v). split; [done|]. by apply elem_of_map_to_list.
  - rewrite length_fmap, length_map_to_list. lia.
  - exists (candidate base k). split; [done|]. split; [eauto|done|by apply candidate_is_slug|by apply candidate_truthy].
Qed.

Lemma owner_slug_taken_row owner db x : owner_slug_taken owner db x = true ↔
  ∃ k w, workspaces db !! k = Some w ∧ ws_owner_user_id w = owner ∧ ws_url_slug w = x ∧ ws_status w ≠ WorkspaceStatus.DELETED.
Proof.
  unfold owner_slug_taken. rewrite bool_decide_eq_true. split.
  - intros [[k w] Hf]. apply first_row_Some in Hf as [Hk (? & ? & ?)]. eauto 6.
  - intros (k & w & Hk & HP). destruct (first_row _ _) eqn:Hf; [eauto|].
    eapply first_row_None in Hf; [|exact Hk]. by destruct Hf.
Qed.
Lemma route_slug_taken_row us x : route_slug_taken us x = true ↔
  ∃ k u, us !! k = Some u ∧ ua_route_subdomain_slug u = Some x.
Proof.
  unfold route_slug_taken. rewrite bool_decide_eq_true. split.
  - intros [[k u] Hf]. apply first_row_Some in Hf as [Hk ?]. eauto.
  - intros (k & u & Hk & HP). destruct (first_row _ _) eqn:Hf; [eauto|].
    eapply first_row_None in Hf; [|exact Hk]. by destruct Hf.
Qed.

Lemma url_slug_allocated owner name db : ∃ slug,
  allocate_unique_workspace_url_slug owner name db = Some slug ∧
  allocated (owner_slug_taken owner db) (Py.or_else (slugify_workspace_name name) "workspace") slug.
Proof.
  apply (first_free_allocates _ _ ws_url_slug); [|by repeat constructor|done].
  intros x (k & w & ? & _ & ? & _)%owner_slug_taken_row. eauto.
Qed.
Lemma route_slug_allocated name us : ∃ slug,
  allocate_unique_route_subdomain_slug name us = Some slug ∧
  allocated (route_slug_taken us) (Py.or_else (slugify_workspace_name name) "user") slug.
Proof.
  apply (first_free_allocates _ _ (λ u, default ""%string (ua_route_subdomain_slug u))); [|by repeat constructor|done].
  intros x (k & u & ? & Hu)%route_slug_taken_row. exists k, u. by rewrite Hu.
Qed.

(** Both slug allocators end, whatever rows there are and whatever the name: they
    return the first of [base], [base-2], [base-3], ... that no live workspace of
    the owner (no user) has, and it is a non-empty slug. *)
Lemma slug_allocation_ends (owner : Z) (name : string) (db : Db) :
  (∃ slug, allocate_unique_workspace_url_slug owner name db = Some slug ∧
     allocated (owner_slug_taken owner db) (Py.or_else (slugify_workspace_name name) "workspace") slug) ∧
  (∃ slug, allocate_unique_route_subdomain_slug name (users db) = Some slug ∧
     allocated (route_slug_taken (users db)) (Py.or_else (slugify_workspace_name name) "user") slug).
Proof. split; [apply url_slug_allocated|apply route_slug_allocated]. Qed.
End slugs.
