(* ===== verification/Accounts.v ===== *)
(** * Accounts: signing in

    auth_service/services and api/dependencies.py: registration, passwords, refresh
    tokens, access tokens, password resets, sign-in through GitHub and Google, and the
    deletion of an account.  Password hashes, the signature of tokens, random values,
    HTTP to the providers and the rows of other services are interfaces; a refresh token
    is stored as its SHA-256 digest ([Digest]).  The keys of a table come from a sequence,
    which never gives one again. *)

From S2P Require Import Prelude PyValues Models Digest Binding Routing.

(** ** Tables *)

Record Account := mkAccount { acc_user : UserAuth; acc_password_hash : string; acc_email : string }.
#[export] Instance rebuild_Account : Rebuild Account := fun r =>
  mkAccount (acc_user r) (acc_password_hash r) (acc_email r).
Record RefreshToken := mkRefreshToken {
  tok_user_id : Z;
  tok_token_hash : string;
  tok_expires_at : time;
  tok_revoked : bool
}.
#[export] Instance rebuild_RefreshToken : Rebuild RefreshToken := fun r =>
  mkRefreshToken (tok_user_id r) (tok_token_hash r) (tok_expires_at r) (tok_revoked r).
Record OAuthLink := mkOAuthLink { oa_user_id : Z; oa_oauth_provider : string; oa_provider_user_id : string }.
Record PasswordResetToken := mkResetToken {
  prt_user_id : Z;
  prt_token_hash : string;
  prt_expires_at : time;
  prt_used : bool
}.
#[export] Instance rebuild_PasswordResetToken : Rebuild PasswordResetToken := fun r =>
  mkResetToken (prt_user_id r) (prt_token_hash r) (prt_expires_at r) (prt_used r).

(** Of profiles, settings and the rows of notifications only the user is kept; a
    delivery belongs to a recipient. *)
Record AuthDb := mkAuthDb {
  accounts : gmap Z Account;
  tokens : gmap Z RefreshToken;
  oauths : gmap Z OAuthLink;
  reset_tokens : gmap Z PasswordResetToken;
  profiles : gset Z;
  user_settings : gset Z;
  recipients : gmap Z Z;
  deliveries : gmap Z Z;
  preferences : gmap Z Z;
  subscriptions : gmap Z Z;
  (** actions on users in the audit log, with the user *)
  user_audit : list (string * Z);
  account_seq : Z; token_seq : Z; oauth_seq : Z; reset_seq : Z
}.
#[export] Instance rebuild_AuthDb : Rebuild AuthDb := fun r =>
  mkAuthDb (accounts r) (tokens r) (oauths r) (reset_tokens r) (profiles r) (user_settings r) (recipients r) (deliveries r)
    (preferences r) (subscriptions r) (user_audit r) (account_seq r) (token_seq r) (oauth_seq r) (reset_seq r).
Definition users_of (db : AuthDb) : gmap Z UserAuth := acc_user <$> accounts db.

(** ** Errors, settings and the world *)

Inductive AuthError :=
| DuplicateUsernameError | DuplicateEmailError | InvalidCredentialsError | UnknownRefreshTokenError
| InvalidRefreshTokenError | InvalidCurrentPasswordError | InvalidResetTokenError | InvalidAccountPasswordError
| UserAuthNotFoundError | UnsupportedOAuthProviderError (provider : string) | OAuthStateError (msg : string)
| OAuthProviderError (msg : string)
| HTTPException (status : Z) (detail : string)
(** the [ValueError] of bcrypt, the errors of PyJWT and of reading a claim, the
    [IntegrityError] of a commit, errors of HTTP and of reading a response *)
| AuthFailure (msg : string).

Class AuthSettings := {
  jwt_secret_key : string; jwt_algorithm : string;
  access_token_expire_minutes : Z; refresh_token_expire_days : Z; password_reset_token_expire_minutes : Z;
  password_reset_return_token : bool;
  oauth_github_client_id : string; oauth_github_client_secret : string; github_oauth_public_base_url : string;
  oauth_google_client_id : string; oauth_google_client_secret : string; gcloud_oauth_public_base_url : string
}.

(** The payload of a token; times in seconds. *)
Record Claims := mkClaims {
  cl_sub : option string; cl_type : option string; cl_typ : option string; cl_provider : option string;
  cl_nonce : option string; cl_iat : Z; cl_exp : Z
}.
(** PyJWT: a token encoded under a key is read back under it until it expires. *)
Class Jwt := {
  jwt_encode : Claims → string → string → string;
  jwt_decode : string → string → string → time → Claims + string;
  jwt_decode_encode c key alg now : 1000000 * cl_iat c ≤ now → now < 1000000 * cl_exp c →
    jwt_decode (jwt_encode c key alg) key alg now = inl c;
  jwt_unexpired t key alg now c : jwt_decode t key alg now = inl c → now < 1000000 * cl_exp c
}.

(** [aw_hashpw] draws a salt, and [aw_placeholder] is the hash of 32 random bytes;
    [aw_token n] is [secrets.token_urlsafe(n)]; [aw_referenced] tells whether rows of other
    services keep the user from being deleted.  Requests answer a status and a body, if
    it is JSON. *)
Record HttpReply := mkReply { rp_status : Z; rp_json : option PyValue }.
Class AuthWorld (W : Type) := {
  aw_checkpw : string → string → bool + string;
  aw_hashpw : string → W → W * (string + string);
  aw_hashpw_checks pw w w' h : aw_hashpw pw w = (w', inl h) → aw_checkpw pw h = inl true;
  aw_placeholder : W → W * string;
  aw_token : Z → W → W * string;
  aw_referenced : Z → W → bool;
  aw_post : string → list (string * string) → W → W * (HttpReply + string);
  aw_get : string → string → W → W * (HttpReply + string)
}.

Record AuthSt (W : Type) := mkAuthSt { as_db : AuthDb; as_committed : AuthDb; as_world : W }.
Arguments mkAuthSt {W}.
Arguments as_db {W}.
Arguments as_committed {W}.
Arguments as_world {W}.
#[export] Instance rebuild_AuthSt W : Rebuild (AuthSt W) := fun r => mkAuthSt (as_db r) (as_committed r) (as_world r).
Abbreviation A W := (eff (AuthSt W) AuthError).

Section accounts.
Context {W : Type} {env : Env} {settings : AuthSettings} {jwt : Jwt} {world : AuthWorld W}.

Definition on_auth (f : AuthDb → AuthDb) : A W unit := modify (λ s, s <| as_db ::= f |>).
Definition select {B} (f : AuthDb → B) : A W B := gets (λ s, f (as_db s)).
Definition auth_commit : A W unit := modify (λ s, s <| as_committed := as_db s |>).
Definition auth_rollback : A W unit := modify (λ s, s <| as_db := as_committed s |>).
Definition draw {B} (f : W → W * B) : A W B := λ s, let '(w, b) := f (as_world s) in (s <| as_world := w |>, inl b).
Definition attempted {B} (m : A W (B + string)) : A W B :=
  r ← m; match r with inl b => mret b | inr e => raise (AuthFailure e) end.

Definition account_by (P : Account → Prop) `{∀ a, Decision (P a)} (db : AuthDb) : option (Z * Account) :=
  first_row (λ ka, P ka.2) (accounts db).
Definition account_named (username : string) : AuthDb → option (Z * Account) :=
  account_by (λ a, ua_username (acc_user a) = username).
Definition account_with_email (email : string) : AuthDb → option (Z * Account) := account_by (λ a, acc_email a = email).

Definition checkpw (password hash : string) : A W bool := attempted (mret (aw_checkpw password hash)).
Definition hashpw (password : string) : A W string := attempted (draw (aw_hashpw password)).

(** [session.add] of a row with a key of the table's sequence *)
Definition add_account (a : Account) : A W Z :=
  k ← select account_seq;
  on_auth (λ db, db <| accounts ::= <[k := a]> |> <| account_seq := k + 1 |>) ;; mret k.
Definition add_token (t : RefreshToken) : A W unit :=
  on_auth (λ db, db <| tokens ::= <[token_seq db := t]> |> <| token_seq := token_seq db + 1 |>).
Definition add_oauth (o : OAuthLink) : A W unit :=
  on_auth (λ db, db <| oauths ::= <[oauth_seq db := o]> |> <| oauth_seq := oauth_seq db + 1 |>).
Definition add_reset_token (t : PasswordResetToken) : A W unit :=
  on_auth (λ db, db <| reset_tokens ::= <[reset_seq db := t]> |> <| reset_seq := reset_seq db + 1 |>).
Definition create_profile (user_id : Z) : A W unit := on_auth (λ db, db <| profiles ::= ({[user_id]} ∪.) |>) ;; auth_commit.
Definition audit_user (action : string) (user_id : Z) : A W unit := on_auth (λ db, db <| user_audit ::= (λ l, l ++ [(action, user_id)]) |>).

(** ** Tokens *)

Definition in_seconds (t : time) : Z := t / 1000000.
Definition create_access_token (user_id : Z) : string :=
  jwt_encode (mkClaims (Some (Py.str_of_Z user_id)) (Some "access"%string) None None None (in_seconds env_now)
                (in_seconds (env_now + seconds (60 * access_token_expire_minutes)))) jwt_secret_key jwt_algorithm.
(** [int(data["sub"])] *)
Definition claimed_user (c : Claims) : Z + AuthError :=
  if negb (bool_decide (cl_type c = Some "access"%string)) then inr (AuthFailure "not an access token")
  else match cl_sub c with
  | None => inr (AuthFailure "'sub'")
  | Some sub => match Py.parse_int (Py.strip sub) with
                | Some n => inl n
                | None => inr (AuthFailure "invalid literal for int() with base 10") end
  end.
Definition decode_access_user_id (token : string) : Z + AuthError :=
  match jwt_decode token jwt_secret_key jwt_algorithm env_now with
  | inr e => inr (AuthFailure e)
  | inl c => claimed_user c
  end.
Definition hash_refresh_token (raw : string) : string := sha256_hexdigest raw.
Definition new_refresh_token_value : A W string := draw (aw_token 48).

Record LoginTokens := mkLoginTokens { access_token : string; refresh_token : string }.
(** The end of [login_user], and [_issue_tokens] *)
Definition issue_tokens (user_id : Z) : A W LoginTokens :=
  refresh_plain ← new_refresh_token_value;
  add_token (mkRefreshToken user_id (hash_refresh_token refresh_plain)
               (env_now + seconds (86400 * refresh_token_expire_days)) false) ;;
  auth_commit ;;
  mret (mkLoginTokens (create_access_token user_id) refresh_plain).

Definition login_user (username password : string) : A W LoginTokens :=
  user ← select (account_named username);
  match user with
  | None => raise InvalidCredentialsError
  | Some (uid, a) =>
      ok ← checkpw password (acc_password_hash a);
      if negb ok then raise InvalidCredentialsError else issue_tokens uid
  end.

Definition token_with_hash (hash : string) (db : AuthDb) : option (Z * RefreshToken) :=
  first_row (λ kt, tok_token_hash kt.2 = hash) (tokens db).
Definition logout_refresh_token (refresh_token : string) : A W unit :=
  found ← select (token_with_hash (hash_refresh_token refresh_token));
  match found with
  | None => raise UnknownRefreshTokenError
  | Some (k, t) =>
      if tok_revoked t then raise UnknownRefreshTokenError
      else on_auth (λ db, db <| tokens ::= alter (λ t, t <| tok_revoked := true |>) k |>) ;; auth_commit
  end.
Definition refresh_access_token (refresh_token_plain : string) : A W string :=
  found ← select (token_with_hash (hash_refresh_token refresh_token_plain));
  match found with
  | None => raise InvalidRefreshTokenError
  | Some (_, t) =>
      if tok_revoked t then raise InvalidRefreshTokenError
      else if tok_expires_at t <? env_now then raise InvalidRefreshTokenError
      else mret (create_access_token (tok_user_id t))
  end.

(** ** Registration and passwords *)

Definition route_slug_for (username : string) (db : AuthDb) : option string :=
  allocate_unique_route_subdomain_slug username (users_of db).
Definition register_user (username email password : string) : A W Z :=
  taken ← select (account_named username);
  when (bool_decide (is_Some taken)) (raise DuplicateUsernameError) ;;
  taken ← select (account_with_email email);
  when (bool_decide (is_Some taken)) (raise DuplicateEmailError) ;;
  password_hash ← hashpw password;
  slug ← select (route_slug_for username);
  uid ← add_account (mkAccount (mkUserAuth username slug) password_hash email);
  auth_commit ;;
  create_profile uid ;;
  mret uid.

Definition set_password (user_id : Z) (hash : string) : A W unit :=
  on_auth (λ db, db <| accounts ::= alter (λ a, a <| acc_password_hash := hash |>) user_id |>).
Definition revoke_tokens_of (user_id : Z) : A W unit :=
  on_auth (λ db, db <| tokens ::= fmap (λ t, if tok_user_id t =? user_id then t <| tok_revoked := true |> else t) |>).
(** [user] is the row of the signed-in user. *)
Definition change_password (user_id : Z) (user : Account) (current_password new_password : string) : A W unit :=
  ok ← checkpw current_password (acc_password_hash user);
  if negb ok then raise InvalidCurrentPasswordError
  else
    hash ← hashpw new_password;
    set_password user_id hash ;;
    revoke_tokens_of user_id ;;
    auth_commit.

Definition use_pending_resets (user_id : Z) : A W unit :=
  on_auth (λ db, db <| reset_tokens ::= fmap (λ t, if prt_user_id t =? user_id then t <| prt_used := true |> else t) |>).
Definition request_password_reset (email : string) : A W (option string) :=
  user ← select (account_with_email email);
  match user with
  | None => mret None
  | Some (uid, _) =>
      use_pending_resets uid ;;
      raw ← draw (aw_token 32);
      add_reset_token (mkResetToken uid (hash_refresh_token raw)
                         (env_now + seconds (60 * password_reset_token_expire_minutes)) false) ;;
      auth_commit ;;
      mret (Some raw)
  end.
Definition pending_reset (hash : string) (db : AuthDb) : option (Z * PasswordResetToken) :=
  first_row (λ kt, prt_token_hash kt.2 = hash ∧ prt_used kt.2 = false) (reset_tokens db).
Definition reset_password_with_token (token new_password : string) : A W unit :=
  found ← select (pending_reset (hash_refresh_token token));
  match found with
  | None => raise InvalidResetTokenError
  | Some (k, t) =>
      if prt_expires_at t <? env_now then raise InvalidResetTokenError
      else
        user ← select (λ db, accounts db !! prt_user_id t);
        match user with
        | None => raise InvalidResetTokenError
        | Some _ =>
            hash ← hashpw new_password;
            set_password (prt_user_id t) hash ;;
            on_auth (λ db, db <| reset_tokens ::= alter (λ t, t <| prt_used := true |>) k |>) ;;
            revoke_tokens_of (prt_user_id t) ;;
            auth_commit
        end
  end.

(** ** The signed-in user *)

Definition get_user_auth_entry (user_id : Z) : A W (Z * Account) :=
  found ← select (λ db, accounts db !! user_id);
  match found with Some a => mret (user_id, a) | None => raise UserAuthNotFoundError end.
(** The scheme and the token of the Authorization header *)
Definition bearer (creds : option (string * string)) : option string :=
  match creds with
  | Some (scheme, token) => if String.eqb (Py.lower scheme) "bearer" then Some token else None
  | None => None
  end.
Definition http {B} (status : Z) (detail : string) : A W B := raise (HTTPException status detail).
Definition get_current_user (creds : option (string * string)) : A W (Z * Account) :=
  match bearer creds with
  | None => http 401 "Missing or invalid Authorization header"
  | Some token =>
      match decode_access_user_id token with
      | inr _ => http 401 "Invalid or expired access token"
      | inl user_id => try_except (get_user_auth_entry user_id) (λ _, http 401 "User not found")
      end
  end.
Definition get_optional_bearer_user (creds : option (string * string)) : A W (option (Z * Account)) :=
  match bearer creds with
  | None => mret None
  | Some token =>
      match decode_access_user_id token with
      | inr _ => mret None
      | inl user_id => try_except (u ← get_user_auth_entry user_id; mret (Some u)) (λ _, mret None)
      end
  end.

(** ** Deleting an account *)

Definition user_has_oauth_link (user_id : Z) (db : AuthDb) : bool :=
  bool_decide (is_Some (first_row (λ ko, oa_user_id ko.2 = user_id) (oauths db))).
Definition without_user {R} (user_of : R → Z) (user_id : Z) (m : gmap Z R) : gmap Z R :=
  filter (λ kr, user_of kr.2 ≠ user_id) m.
Definition purge_user_related_rows (user_id : Z) (db : AuthDb) : AuthDb :=
  db <| deliveries ::= filter (λ kd, recipients db !! kd.2 ≠ Some user_id) |>
     <| recipients ::= without_user id user_id |>
     <| preferences ::= without_user id user_id |>
     <| subscriptions ::= without_user id user_id |>
     <| tokens ::= without_user tok_user_id user_id |>
     <| oauths ::= without_user oa_user_id user_id |>
     <| reset_tokens ::= without_user prt_user_id user_id |>
     <| profiles ::= (.∖ {[user_id]}) |>
     <| user_settings ::= (.∖ {[user_id]}) |>.
Definition delete_account_for_current_user (user_id : Z) (user : Account) (password : option string) : A W unit :=
  has_oauth ← select (user_has_oauth_link user_id);
  when (negb has_oauth)
    (let password := default ""%string password in
     if negb (Py.truthy password) then raise InvalidAccountPasswordError
     else ok ← checkpw password (acc_password_hash user);
          if ok : bool then mret tt else raise InvalidAccountPasswordError) ;;
  on_auth (purge_user_related_rows user_id) ;;
  on_auth (λ db, db <| accounts ::= delete user_id |>) ;;
  referenced ← gets (λ s, aw_referenced user_id (as_world s));
  if referenced : bool then raise (AuthFailure "IntegrityError") else auth_commit.

(** ** Signing in through a provider *)

Record OAuthProfile := mkOAuthProfile { pf_provider_user_id : string; pf_email : string; pf_username : string }.

Definition normalize_oauth_provider (provider : string) : string + AuthError :=
  let p := Py.strip (Py.lower provider) in
  if bool_decide (p ∈ ["github"; "google"]%string) then inl p else inr (UnsupportedOAuthProviderError provider).
Definition from_result {B} (r : B + AuthError) : A W B := match r with inl b => mret b | inr e => raise e end.

Definition create_oauth_state (provider : string) : A W string :=
  nonce ← draw (aw_token 16);
  mret (jwt_encode (mkClaims None None (Some "oauth_state"%string) (Some provider) (Some nonce) (in_seconds env_now)
                      (in_seconds (env_now + seconds 600))) jwt_secret_key jwt_algorithm).
Definition verify_oauth_state (token expected_provider : string) : option AuthError :=
  match jwt_decode token jwt_secret_key jwt_algorithm env_now with
  | inr _ => Some (OAuthStateError "invalid state")
  | inl c =>
      if negb (bool_decide (cl_typ c = Some "oauth_state"%string)) then Some (OAuthStateError "invalid state type")
      else if negb (bool_decide (cl_provider c = Some expected_provider)) then Some (OAuthStateError "provider mismatch")
      else None
  end.

Definition oauth_callback_path (provider : string) : string := ("/auth/oauth/" ++ provider ++ "/callback")%string.
Definition normalize_oauth_public_base (raw : string) : string :=
  let s := Py.rstrip_slash (Py.strip raw) in
  if negb (Py.truthy s) then ""%string
  else if Py.startswith "http://" s || Py.startswith "https://" s then s else ("http://" ++ s)%string.
(** for the providers that [normalize_oauth_provider] lets through *)
Definition oauth_redirect_uri (provider : string) : string + AuthError :=
  let raw := if String.eqb provider "github" then github_oauth_public_base_url else gcloud_oauth_public_base_url in
  let base := normalize_oauth_public_base raw in
  if negb (Py.truthy base) then inr (OAuthProviderError (provider ++
    " OAuth is not configured (set GITHUB_OAUTH_PUBLIC_BASE_URL or GCLOUD_OAUTH_PUBLIC_BASE_URL)"))
  else inl (base ++ oauth_callback_path provider)%string.

(** [urllib.parse.urlencode] *)
Fixpoint quote_plus (s : string) : string :=
  match s with
  | EmptyString => EmptyString
  | String c r => if Ascii.eqb c " " then String "+" (quote_plus r) else (quote (String c EmptyString) ++ quote_plus r)%string
  end.
Definition urlencode (items : list (string * string)) : string :=
  Py.join "&" (map (λ kv : string * string, quote_plus kv.1 ++ "=" ++ quote_plus kv.2)%string items).
Definition build_github_authorization_url (state : string) : string + AuthError :=
  if negb (Py.truthy oauth_github_client_id) then inr (OAuthProviderError "GitHub OAuth is not configured")
  else match oauth_redirect_uri "github" with
  | inr e => inr e
  | inl redirect_uri => inl ("https://github.com/login/oauth/authorize?" ++ urlencode
      [("client_id", oauth_github_client_id); ("redirect_uri", redirect_uri); ("scope", "read:user user:email");
       ("state", state)])%string
  end.
Definition build_google_authorization_url (state : string) : string + AuthError :=
  if negb (Py.truthy oauth_google_client_id) then inr (OAuthProviderError "Google OAuth is not configured")
  else match oauth_redirect_uri "google" with
  | inr e => inr e
  | inl redirect_uri => inl ("https://accounts.google.com/o/oauth2/v2/auth?" ++ urlencode
      [("client_id", oauth_google_client_id); ("redirect_uri", redirect_uri); ("response_type", "code");
       ("scope", "openid email profile"); ("state", state); ("access_type", "online");
       ("include_granted_scopes", "true")])%string
  end.
Definition start_oauth_authorization_url (provider : string) : A W string :=
  p ← from_result (normalize_oauth_provider provider);
  state ← create_oauth_state p;
  from_result (if String.eqb p "github" then build_github_authorization_url state else build_google_authorization_url state).

(** Reading a response: [.json()], [.get] of a dict, [.strip()] of a string *)
Definition body_of (r : HttpReply) : A W PyValue :=
  match rp_json r with Some v => mret v | None => raise (AuthFailure "JSONDecodeError") end.
Definition dict_body (v : PyValue) : A W (list (option string * PyValue)) :=
  match as_map v with Some m => mret m | None => raise (AuthFailure "AttributeError") end.
Definition text_or_empty (v : PyValue) : A W string :=
  match v with PStr s => mret (Py.strip s) | _ => raise (AuthFailure "AttributeError") end.
Definition rows_of (v : PyValue) : A W (list PyValue) :=
  match v with
  | PList l => mret l
  | PStr "" | PDict [] => mret []
  | PStr _ | PDict _ => raise (AuthFailure "AttributeError")
  | _ => raise (AuthFailure "TypeError")
  end.
Definition http_failed (r : HttpReply) : bool := 400 <=? rp_status r.

Definition username_char (c : ascii) : bool := alphanumeric c || existsb (Ascii.eqb c) ["."; "_"; "-"]%char.
(** [re.sub] of [[^a-zA-Z0-9._-]+] by [_] *)
Fixpoint underscored (in_run : bool) (l : list ascii) : list ascii :=
  match l with
  | [] => []
  | c :: r => if username_char c then c :: underscored false r
              else if in_run then underscored true r else "_"%char :: underscored true r
  end.
Definition safe_username (raw : string) : string :=
  Py.prefix_to 255 (Py.on_chars (λ l, Py.strip_by (λ c, existsb (Ascii.eqb c) ["."; "_"; "-"]%char) (underscored false l)) raw).

Context {repr : PyRepr}.

Definition exchange_github_code (code : string) : A W string :=
  redirect_uri ← from_result (oauth_redirect_uri "github");
  r ← attempted (draw (aw_post "https://github.com/login/oauth/access_token"
        [("client_id", oauth_github_client_id); ("client_secret", oauth_github_client_secret); ("code", code);
         ("redirect_uri", redirect_uri)]%string));
  if http_failed r then raise (OAuthProviderError ("GitHub token exchange failed: " ++ Py.str_of_Z (rp_status r)))
  else
    v ← body_of r; data ← dict_body v;
    let err := default PNone (dict_get "error" data) in
    if py_truthy err then raise (OAuthProviderError ("GitHub token error: " ++ py_str err))
    else
      let token := default PNone (dict_get "access_token" data) in
      if py_truthy token then mret (py_str token)
      else raise (OAuthProviderError "GitHub token response missing access_token").
(** ["access_token" in data] *)
Definition has_access_token (v : PyValue) : bool :=
  match v with
  | PDict m => bool_decide (is_Some (dict_get "access_token" m))
  | PList l => existsb (λ x, match x with PStr s => String.eqb s "access_token" | _ => false end) l
  | PStr s => Py.contains "access_token" s
  | _ => false
  end.
Definition iterable (v : PyValue) : bool := match v with PDict _ | PList _ | PStr _ => true | _ => false end.
Definition exchange_google_code (code : string) : A W string :=
  redirect_uri ← from_result (oauth_redirect_uri "google");
  r ← attempted (draw (aw_post "https://oauth2.googleapis.com/token"
        [("client_id", oauth_google_client_id); ("client_secret", oauth_google_client_secret); ("code", code);
         ("redirect_uri", redirect_uri); ("grant_type", "authorization_code")]%string));
  if http_failed r then raise (OAuthProviderError ("Google token exchange failed: " ++ Py.str_of_Z (rp_status r)))
  else
    v ← body_of r;
    if negb (has_access_token v) then
      (if iterable v then raise (OAuthProviderError "Google token response missing access_token")
       else raise (AuthFailure "TypeError"))
    else match dict_get "access_token" (default [] (as_map v)) with
    | Some token => mret (py_str token)
    | None => raise (AuthFailure "TypeError")
    end.

(** The address of the first row that satisfies [which] *)
Fixpoint first_email (which : list (option string * PyValue) → bool) (rows : list PyValue) : A W string :=
  match rows with
  | [] => mret ""%string
  | v :: rows =>
      row ← dict_body v;
      let email := default PNone (dict_get "email" row) in
      if which row && py_truthy email then mret (Py.strip (py_str email)) else first_email which rows
  end.
Definition is_primary (row : list (option string * PyValue)) : bool := py_truthy (default PNone (dict_get "primary" row)).
Definition fetch_github_profile (access_token : string) : A W OAuthProfile :=
  ur ← attempted (draw (aw_get "https://api.github.com/user" access_token));
  if http_failed ur then raise (OAuthProviderError ("GitHub user failed: " ++ Py.str_of_Z (rp_status ur)))
  else
    v ← body_of ur; u ← dict_body v;
    let uid := py_str (default (PStr "") (dict_get "id" u)) in
    if negb (Py.truthy uid) then raise (OAuthProviderError "GitHub user missing id")
    else
      login ← text_or_empty (get_or "login" (PStr "") u);
      public_email ← text_or_empty (get_or "email" (PStr "") u);
      email ← (if Py.truthy public_email then mret public_email
               else
                 er ← attempted (draw (aw_get "https://api.github.com/user/emails" access_token));
                 if http_failed er then raise (OAuthProviderError "GitHub emails failed")
                 else
                   v ← body_of er; rows ← rows_of v;
                   primary ← first_email is_primary rows;
                   if Py.truthy primary then mret primary else first_email (λ _, true) rows);
      if negb (Py.truthy email) then raise (OAuthProviderError "GitHub user has no email (grant user:email)")
      else mret (mkOAuthProfile uid (Py.lower email) (safe_username (Py.or_else login ("gh_" ++ uid)))).
Definition fetch_google_profile (access_token : string) : A W OAuthProfile :=
  r ← attempted (draw (aw_get "https://www.googleapis.com/oauth2/v2/userinfo" access_token));
  if http_failed r then raise (OAuthProviderError ("Google userinfo failed: " ++ Py.str_of_Z (rp_status r)))
  else
    v ← body_of r; u ← dict_body v;
    let uid := let id := get_or "id" (get_or "sub" (PStr "") u) u in py_str id in
    if negb (Py.truthy uid) then raise (OAuthProviderError "Google user missing id")
    else
      email ← text_or_empty (get_or "email" (PStr "") u);
      if negb (Py.truthy email) then raise (OAuthProviderError "Google user missing email")
      else
        name ← text_or_empty (get_or "name" (PStr (Py.partition "@" email).1) u);
        mret (mkOAuthProfile uid (Py.lower email) (Py.or_else (safe_username name) ("g_" ++ uid))).

(** The names tried: [root], [root_1], [root_2], ..., cut to 255 characters *)
Definition username_candidate (root : string) (n : nat) : string :=
  match n with
  | O => root
  | _ => let suffix := ("_" ++ Py.str_of_Z (Z.of_nat n))%string in (Py.prefix_to (255 - Py.len suffix) root ++ suffix)%string
  end.
Fixpoint free_username (taken : string → bool) (root : string) (fuel n : nat) : option string :=
  match fuel with
  | O => None
  | S fuel => if taken (username_candidate root n) then free_username taken root fuel (S n)
              else Some (username_candidate root n)
  end.
Definition username_taken (db : AuthDb) (username : string) : bool := bool_decide (is_Some (account_named username db)).
Definition unique_username (base : string) (db : AuthDb) : option string :=
  free_username (username_taken db) (Py.prefix_to 255 (Py.or_else base "user")) (S (S (size (accounts db)))) 0.

Definition oauth_row (provider provider_user_id : string) (db : AuthDb) : option (Z * OAuthLink) :=
  first_row (λ ko, oa_oauth_provider ko.2 = provider ∧ oa_provider_user_id ko.2 = provider_user_id) (oauths db).
Definition complete_oauth (provider code state : string) : A W LoginTokens :=
  p ← from_result (normalize_oauth_provider provider);
  match verify_oauth_state state p with
  | Some e => raise e
  | None =>
      profile ← (if String.eqb p "github"
                 then access ← exchange_github_code code; fetch_github_profile access
                 else access ← exchange_google_code code; fetch_google_profile access);
      linked ← select (oauth_row p (pf_provider_user_id profile));
      match linked with
      | Some (_, o) =>
          user ← select (λ db, accounts db !! oa_user_id o);
          match user with
          | None => raise (OAuthProviderError "OAuth row references missing user")
          | Some _ => issue_tokens (oa_user_id o)
          end
      | None =>
          existing ← select (account_with_email (pf_email profile));
          match existing with
          | Some (uid, _) =>
              add_oauth (mkOAuthLink uid p (pf_provider_user_id profile)) ;;
              auth_commit ;;
              issue_tokens uid
          | None =>
              username ← select (unique_username (Py.or_else (pf_username profile) (p ++ "_" ++ pf_provider_user_id profile)));
              let username := default ""%string username in
              route_slug ← select (route_slug_for username);
              password_hash ← draw aw_placeholder;
              uid ← add_account (mkAccount (mkUserAuth username route_slug) password_hash (pf_email profile));
              auth_commit ;;
              create_profile uid ;;
              add_oauth (mkOAuthLink uid p (pf_provider_user_id profile)) ;;
              auth_commit ;;
              issue_tokens uid
          end
      end
  end.

(** ** The routes *)

(** [except ...: raise HTTPException(status, detail)] for the errors [f] knows *)
Definition answering {B} (f : AuthError → option (Z * string)) (m : A W B) : A W B :=
  try_except m (λ e, match f e with Some (status, detail) => http status detail | None => raise e end).

Definition register (username email password : string) : A W Z :=
  uid ← answering (λ e, match e with
          | DuplicateUsernameError => Some (409, "Username already registered"%string)
          | DuplicateEmailError => Some (409, "Email already registered"%string)
          | _ => None end) (register_user username email password);
  audit_user "auth.user.registered" uid ;;
  auth_commit ;;
  mret uid.
Definition login (username password : string) : A W LoginTokens :=
  answering (λ e, match e with InvalidCredentialsError => Some (401, "Invalid username or password"%string) | _ => None end)
    (login_user username password).
Definition logout (refresh_token : string) : A W unit :=
  answering (λ e, match e with UnknownRefreshTokenError => Some (400, "Unknown or already revoked refresh token"%string) | _ => None end)
    (logout_refresh_token refresh_token).
(** The token of the answer *)
Definition forgot_password (email : string) : A W (option string) :=
  raw ← request_password_reset email;
  mret (if password_reset_return_token then raw else None).
Definition reset_password_endpoint (token new_password : string) : A W unit :=
  answering (λ e, match e with InvalidResetTokenError => Some (400, "Invalid or expired reset token"%string) | _ => None end)
    (reset_password_with_token token new_password).
Definition change_password_endpoint (creds : option (string * string)) (current_password new_password : string) : A W unit :=
  current ← get_current_user creds;
  answering (λ e, match e with InvalidCurrentPasswordError => Some (401, "Current password is incorrect"%string) | _ => None end)
    (change_password current.1 current.2 current_password new_password).
Definition refresh_token_endpoint (query header cookie : option string) : A W string :=
  let given o := default ""%string o in
  let raw := Py.or_else (given query) (Py.or_else (given header) (given cookie)) in
  if negb (Py.truthy raw) then http 400 "Missing refresh token (query refresh_token, header X-Refresh-Token, or cookie refresh_token)"
  else answering (λ e, match e with InvalidRefreshTokenError => Some (401, "Invalid or expired refresh token"%string) | _ => None end)
         (refresh_access_token raw).
Definition delete_account (creds : option (string * string)) (password : option string) : A W unit :=
  current ← get_current_user creds;
  audit_user "auth.user.deleted" current.1 ;;
  try_except (delete_account_for_current_user current.1 current.2 password)
    (λ e, match e with
          | InvalidAccountPasswordError => auth_rollback ;; http 401 "Password required or invalid"
          | _ => raise e end).
Definition oauth_start (oauth_provider : string) : A W string :=
  answering (λ e, match e with
    | UnsupportedOAuthProviderError _ => Some (400, "Unsupported OAuth provider"%string)
    | OAuthProviderError m => Some (503, m)
    | _ => None end) (start_oauth_authorization_url oauth_provider).
(** The access token of the body and the refresh token of the cookie *)
Definition oauth_callback (oauth_provider code state : string) : A W LoginTokens :=
  answering (λ e, match e with
    | UnsupportedOAuthProviderError _ => Some (400, "Unsupported OAuth provider"%string)
    | OAuthStateError _ => Some (400, "Invalid or expired OAuth state"%string)
    | OAuthProviderError m => Some (502, m)
    | _ => None end) (complete_oauth oauth_provider code state).

(** [^[a-z0-9](?:[a-z0-9-]{0,126}[a-z0-9])?$] *)
Definition route_subdomain (s : string) : bool :=
  let l := list_ascii_of_string s in
  let edge o := match o with Some c => slug_char c && negb (Ascii.eqb c "-") | None => false end in
  (Py.len s <=? 128) && forallb slug_char l && edge (head l) && edge (last l).
Definition check_route_tenant_public (subdomain : string) : A W unit :=
  let raw := Py.lower (Py.strip subdomain) in
  if negb (Py.truthy raw) || negb (route_subdomain raw) then http 404 "Tenant not found"
  else
    found ← select (λ db, route_slug_taken (users_of db) raw);
    if found : bool then mret tt else http 404 "Tenant not found".
Definition get_auth_profile (creds : option (string * string)) : A W (Z * UserAuth * string) :=
  current ← get_current_user creds;
  let u := acc_user current.2 in
  mret (current.1, mkUserAuth (ua_username u) (Py.strip_or_none (ua_route_subdomain_slug u)), acc_email current.2).
End accounts.
