(* ===== verification/AccountSafety.v ===== *)
(** * AccountSafety: what the accounts keep

    The rows of [Accounts] stay consistent, a change of password ends every session and
    every reset link, and a sign-in gives exactly the account whose password was given. *)

From S2P Require Import Prelude PyValues Models Digest Binding Routing Accounts.

Definition owned {R} (user_of : R → Z) (m : gmap Z R) (db : AuthDb) : Prop :=
  ∀ k x, m !! k = Some x → is_Some (accounts db !! user_of x).
Definition pending (t : PasswordResetToken) : Prop := prt_used t = false.
Definition slug_of (a : Account) : option string := ua_route_subdomain_slug (acc_user a).
Definition name_of (a : Account) : string := ua_username (acc_user a).

Record accounts_ok (db : AuthDb) : Prop := {
  ok_names : unique_by always name_of (accounts db);
  ok_emails : unique_by always acc_email (accounts db);
  ok_slugs : unique_by always slug_of (accounts db);
  ok_links : unique_by always (λ o, (oa_oauth_provider o, oa_provider_user_id o)) (oauths db);
  ok_resets : unique_by pending prt_user_id (reset_tokens db);
  ok_token_owner : owned tok_user_id (tokens db) db;
  ok_link_owner : owned oa_user_id (oauths db) db;
  ok_reset_owner : owned prt_user_id (reset_tokens db) db;
  ok_account_seq : below_seq (accounts db) (account_seq db);
  ok_token_seq : below_seq (tokens db) (token_seq db);
  ok_link_seq : below_seq (oauths db) (oauth_seq db);
  ok_reset_seq : below_seq (reset_tokens db) (reset_seq db)
}.

Lemma owned_insert {R} (user_of : R → Z) m db k x : owned user_of m db → is_Some (accounts db !! user_of x) →
  owned user_of (<[k := x]> m) db.
Proof.
  intros H Hx j y. destruct (decide (j = k)) as [->|]; [rewrite lookup_insert_eq; by intros [= <-]|].
  rewrite lookup_insert_ne by done. apply H.
Qed.

(** ** Changes that keep the rows consistent *)

Lemma ok_add_account db a : accounts_ok db →
  (∀ k b, accounts db !! k = Some b → name_of b ≠ name_of a ∧ acc_email b ≠ acc_email a ∧ slug_of b ≠ slug_of a) →
  accounts_ok (db <| accounts ::= <[account_seq db := a]> |> <| account_seq := account_seq db + 1 |>).
Proof.
  intros [] Hn. pose proof (below_seq_fresh _ _ ok_account_seq0) as Hk.
  assert (Hown : ∀ {R} (user_of : R → Z) m db', accounts db' = <[account_seq db := a]> (accounts db) → owned user_of m db → owned user_of m db').
  { intros R user_of m db' E Ho k x Hx. rewrite E. apply Ho in Hx as [y Hy]. apply lookup_insert_is_Some. destruct (decide (account_seq db = user_of x)); [by left|].
    right. split; [done|by exists y]. }
  constructor; try (by eapply Hown); cbn; auto using below_seq_insert; apply unique_by_insert; auto; intros _ k b Hb _; by apply (Hn k b).
Qed.
Lemma ok_add_token db t : accounts_ok db → is_Some (accounts db !! tok_user_id t) →
  accounts_ok (db <| tokens ::= <[token_seq db := t]> |> <| token_seq := token_seq db + 1 |>).
Proof. intros [] Ho. constructor; cbn; auto using below_seq_insert. by apply owned_insert. Qed.
Lemma ok_add_oauth db o : accounts_ok db → is_Some (accounts db !! oa_user_id o) →
  (∀ k o', oauths db !! k = Some o' → ¬ (oa_oauth_provider o' = oa_oauth_provider o ∧ oa_provider_user_id o' = oa_provider_user_id o)) →
  accounts_ok (db <| oauths ::= <[oauth_seq db := o]> |> <| oauth_seq := oauth_seq db + 1 |>).
Proof.
  intros [] Ho Hn. constructor; cbn; auto using below_seq_insert; [|by apply owned_insert].
  apply unique_by_insert; auto using below_seq_fresh. intros _ k o' Hk _ [= E1 E2]. by apply (Hn k o').
Qed.
Lemma ok_add_reset db t : accounts_ok db → is_Some (accounts db !! prt_user_id t) →
  (∀ k t', reset_tokens db !! k = Some t' → prt_user_id t' = prt_user_id t → prt_used t' = true) →
  accounts_ok (db <| reset_tokens ::= <[reset_seq db := t]> |> <| reset_seq := reset_seq db + 1 |>).
Proof.
  intros [] Ho Hn. constructor; cbn; auto using below_seq_insert; [|by apply owned_insert].
  apply unique_by_insert; auto using below_seq_fresh. intros _ k t' Hk Hp E. unfold pending in Hp. by rewrite (Hn k t' Hk E) in Hp.
Qed.
(** Flags that are set *)
Lemma ok_map_tokens db (f : RefreshToken → RefreshToken) : accounts_ok db → (∀ t, tok_user_id (f t) = tok_user_id t) →
  accounts_ok (db <| tokens ::= fmap f |>).
Proof.
  intros [] Hf. constructor; cbn; auto.
  - intros k x. rewrite lookup_fmap_Some. intros (t & <- & Ht). rewrite Hf. by eapply ok_token_owner0.
  - eapply below_seq_within; [|done]. intros k x. rewrite lookup_fmap_Some. intros (t & _ & Ht). by eexists.
Qed.
Lemma ok_map_resets db (f : PasswordResetToken → PasswordResetToken) : accounts_ok db →
  (∀ t, prt_user_id (f t) = prt_user_id t ∧ (prt_used (f t) = false → prt_used t = false)) →
  accounts_ok (db <| reset_tokens ::= fmap f |>).
Proof.
  intros [] Hf. constructor; cbn; auto.
  - eapply unique_by_within; [|done]. intros k x. rewrite lookup_fmap_Some. intros (t & <- & Ht) Hp. destruct (Hf t) as [E H].
    exists t. split; [done|]. split; [by apply H|done].
  - intros k x. rewrite lookup_fmap_Some. intros (t & <- & Ht). destruct (Hf t) as [-> _]. by eapply ok_reset_owner0.
  - eapply below_seq_within; [|done]. intros k x. rewrite lookup_fmap_Some. intros (t & _ & Ht). by eexists.
Qed.
Lemma ok_alter_token db f k : accounts_ok db → (∀ t, tok_user_id (f t) = tok_user_id t) → accounts_ok (db <| tokens ::= alter f k |>).
Proof.
  intros [] Hf. constructor; cbn; auto.
  - intros i y (x & Hx & [->| ->])%alter_lookup_Some; rewrite ?Hf; by eapply ok_token_owner0.
  - eapply below_seq_within; [|done]. intros i y (x & Hx & _)%alter_lookup_Some. by eexists.
Qed.
Lemma ok_alter_reset db f k : accounts_ok db → (∀ t, prt_user_id (f t) = prt_user_id t ∧ prt_used (f t) = true) →
  accounts_ok (db <| reset_tokens ::= alter f k |>).
Proof.
  intros [] Hf. constructor; cbn; auto.
  - eapply unique_by_within; [|done]. intros i y (x & Hx & [->| ->])%alter_lookup_Some Hp; [by eauto|].
    unfold pending in Hp. by rewrite (proj2 (Hf x)) in Hp.
  - intros i y (x & Hx & [->| ->])%alter_lookup_Some; rewrite ?(proj1 (Hf x)); by eapply ok_reset_owner0.
  - eapply below_seq_within; [|done]. intros i y (x & Hx & _)%alter_lookup_Some. by eexists.
Qed.
Lemma ok_set_password db uid h : accounts_ok db → accounts_ok (db <| accounts ::= alter (λ a, a <| acc_password_hash := h |>) uid |>).
Proof.
  intros []. assert (Hu : ∀ {C} (f : Account → C), (∀ a, f (a <| acc_password_hash := h |>) = f a) → unique_by always f (accounts db) →
    unique_by always f (alter (λ a, a <| acc_password_hash := h |>) uid (accounts db))).
  { intros C f Hf. apply unique_by_within. intros i y (x & Hx & [->| ->])%alter_lookup_Some _; [by eauto|]. exists x. by rewrite Hf. }
  assert (Ho : ∀ {R} (user_of : R → Z) m db', accounts db' = alter (λ a, a <| acc_password_hash := h |>) uid (accounts db) →
    owned user_of m db → owned user_of m db').
  { intros R user_of m db' E H k x Hx. rewrite E, lookup_alter_is_Some. exact (H k x Hx). }
  constructor; try (by eapply Ho); cbn; auto. eapply below_seq_within; [|done]. intros i y (x & Hx & _)%alter_lookup_Some. by eexists.
Qed.
Lemma ok_delete db uid : accounts_ok db → accounts_ok (purge_user_related_rows uid db <| accounts ::= delete uid |>).
Proof.
  intros []. unfold purge_user_related_rows.
  assert (Hw : ∀ {R} (user_of : R → Z) (m : gmap Z R) k x, without_user user_of uid m !! k = Some x → m !! k = Some x ∧ user_of x ≠ uid).
  { intros R user_of m k x [? ?]%map_lookup_filter_Some. done. }
  assert (Ho : ∀ {R} (user_of : R → Z) (m : gmap Z R) db', accounts db' = delete uid (accounts db) → owned user_of m db →
    owned user_of (without_user user_of uid m) db').
  { intros R user_of m db' E H k x [Hx Hne]%Hw. rewrite E, lookup_delete_ne by done. by eapply H. }
  constructor; try (by eapply Ho); cbn; auto; eauto using below_seq_within.
  all: try (eapply unique_by_within; [|done]; intros k x Hk _; try apply lookup_delete_Some in Hk as [_ Hk]; try apply Hw in Hk as [Hk _]; by eauto).
  all: try (eapply below_seq_within; [|done]; intros k x Hk; try apply lookup_delete_Some in Hk as [_ Hk]; try apply Hw in Hk as [Hk _]; by eauto).
  eapply unique_by_within; [|done]. intros k x Hk Hp. apply Hw in Hk as [Hk _]. by eauto.
Qed.

(** ** Free names *)

Lemma after_last_app c a r : all_chars (λ d, negb (Ascii.eqb c d)) r → Py.after_last c (a ++ String c r) = Some r.
Proof.
  intros H. induction a as [|d a IH].
  - change ("" ++ String c r)%string with (String c r). cbn [Py.after_last]. by rewrite after_last_none, Ascii.eqb_refl.
  - change (String d a ++ String c r)%string with (String d (a ++ String c r)). cbn [Py.after_last]. by rewrite IH.
Qed.
Lemma candidate_number root n : (0 < n)%nat → Py.after_last "_" (username_candidate root n) = Some (Py.str_of_Z (Z.of_nat n)).
Proof.
  intros Hn. destruct n as [|n]; [lia|]. unfold username_candidate.
  change ("_" ++ Py.str_of_Z (Z.of_nat (S n)))%string with (String "_" (Py.str_of_Z (Z.of_nat (S n)))). apply after_last_app.
  eapply all_chars_weaken; [|apply str_of_Z_digits; lia]. intros c Hc. destruct c as [[] [] [] [] [] [] [] []]; by vm_compute in Hc |- *.
Qed.
Lemma free_username_spec taken root fuel n :
  match free_username taken root fuel n with
  | Some x => taken x = false
  | None => ∀ i, (n ≤ i < n + fuel)%nat → taken (username_candidate root i) = true
  end.
Proof.
  revert n. induction fuel as [|fuel IH]; intros n; cbn [free_username]; [intros i Hi; lia|].
  destruct (taken (username_candidate root n)) eqn:E; [|done]. specialize (IH (S n)). destruct (free_username _ _ _ _); [done|].
  intros i Hi. destruct (decide (i = n)) as [->|]; [done|]. apply IH. lia.
Qed.
Lemma unique_username_free base db : ∃ name, unique_username base db = Some name ∧ account_named name db = None.
Proof.
  unfold unique_username. set (root := Py.prefix_to 255 (Py.or_else base "user")).
  pose proof (free_username_spec (username_taken db) root (S (S (size (accounts db)))) 0) as H.
  destruct (free_username _ _ _ _) as [x|].
  { exists x. split; [done|]. unfold username_taken in H. apply bool_decide_eq_false in H. by apply eq_None_not_Some. }
  exfalso. set (used := (λ ka : Z * Account, name_of ka.2) <$> map_to_list (accounts db)).
  assert (Hsub : (username_candidate root <$> seq 1 (S (size (accounts db)))) ⊆+ used).
  { apply NoDup_submseteq.
    - apply NoDup_fmap_2_strong; [|apply NoDup_seq]. intros i j Hi%elem_of_seq Hj%elem_of_seq E.
      apply (f_equal (Py.after_last "_")) in E. rewrite !candidate_number in E by lia. apply (inj Some) in E.
      apply (f_equal Py.parse_int) in E. rewrite !Py.parse_int_str_of_Z in E. injection E. lia.
    - intros x (i & -> & Hi%elem_of_seq)%list_elem_of_fmap. assert (Ht := H i ltac:(lia)). unfold username_taken in Ht.
      apply bool_decide_eq_true in Ht as [[k a] Hk]. apply first_row_Some in Hk as [Hk Hn]. cbn in Hn.
      apply list_elem_of_fmap. exists (k, a). split; [done|by apply elem_of_map_to_list]. }
  apply submseteq_length in Hsub. unfold used in Hsub. rewrite !length_fmap, length_seq, length_map_to_list in Hsub. lia.
Qed.

(** ** Rules *)

Ltac world_steps :=
  repeat first
    [ simple apply within_ret; apply _ | simple apply within_raise; apply _
    | solve [auto with within]
    | apply within_bind; [apply _| |intros ?]
    | match goal with |- within _ (if ?b then _ else _) => destruct b end
    | match goal with |- within _ (match ?x with _ => _ end) => destruct x end ].

Section rules.
Context {W : Type} {env : Env} {settings : AuthSettings} {jwt : Jwt} {world : AuthWorld W} {repr : PyRepr}.
Implicit Types (s : AuthSt W).

Lemma wp_on_auth f (Q : unit → AuthSt W → Prop) X s : Q tt (s <| as_db ::= f |>) → wp (on_auth f) Q X s.
Proof. done. Qed.
Lemma wp_select {B} (f : AuthDb → B) (Q : B → AuthSt W → Prop) X s : Q (f (as_db s)) s → wp (select f) Q X s.
Proof. done. Qed.
Lemma wp_auth_commit (Q : unit → AuthSt W → Prop) X s : Q tt (s <| as_committed := as_db s |>) → wp auth_commit Q X s.
Proof. done. Qed.
Lemma wp_draw {B} (f : W → W * B) (Q : B → AuthSt W → Prop) X s :
  (∀ w b, f (as_world s) = (w, b) → Q b (s <| as_world := w |>)) → wp (draw f) Q X s.
Proof. intros H. unfold wp, draw. destruct (f (as_world s)) as [w b] eqn:E. by apply H. Qed.
Lemma wp_checkpw password hash (Q : bool → AuthSt W → Prop) X s :
  (∀ b, aw_checkpw password hash = inl b → Q b s) → (∀ m, X (AuthFailure m) s) → wp (checkpw password hash) Q X s.
Proof.
  intros HQ HX. unfold checkpw, attempted. apply wp_bind, wp_ret. destruct (aw_checkpw password hash) eqn:E; [by apply wp_ret, HQ|by apply wp_raise].
Qed.
Lemma wp_hashpw password (Q : string → AuthSt W → Prop) X s :
  (∀ w h, aw_checkpw password h = inl true → Q h (s <| as_world := w |>)) →
  (∀ w m, X (AuthFailure m) (s <| as_world := w |>)) → wp (hashpw password) Q X s.
Proof.
  intros HQ HX. unfold hashpw, attempted. apply wp_bind, wp_draw. intros w [h|e] E; [|by apply wp_raise].
  apply wp_ret, HQ. by eapply aw_hashpw_checks.
Qed.

(** An error of the service is answered or passes. *)
Lemma wp_answering {B} f (m : A W B) (Q : B → AuthSt W → Prop) X s : wp m Q (λ _ s', ∀ e, X e s') s → wp (answering f m) Q X s.
Proof.
  intros H. unfold answering. apply wp_try. eapply wp_mono; [exact H|done|]. intros e s' HX. cbn beta.
  destruct (f e) as [[? ?]|]; apply wp_raise, HX.
Qed.

(** Only the world moves. *)
Definition world_moves (s s' : AuthSt W) : Prop := as_db s' = as_db s ∧ as_committed s' = as_committed s.
#[export] Instance world_moves_preorder : PreOrder world_moves.
Proof. split; [by split|]. intros a b c [] []. split; congruence. Qed.
Lemma world_draw {B} (f : W → W * B) : within world_moves (draw f).
Proof. intros s. unfold draw. by destruct (f _). Qed.
Lemma world_attempted {B} (m : A W (B + string)) : within world_moves m → within world_moves (attempted m).
Proof. intros H. apply within_bind; [apply _|done|]. intros ?. world_steps. Qed.
Lemma world_from_result {B} (r : B + AuthError) : within world_moves (from_result r).
Proof. unfold from_result. world_steps. Qed.
Lemma world_body r : within world_moves (body_of r).
Proof. unfold body_of. world_steps. Qed.
Lemma world_dict v : within world_moves (dict_body v).
Proof. unfold dict_body. world_steps. Qed.
Lemma world_text v : within world_moves (text_or_empty v).
Proof. unfold text_or_empty. world_steps. Qed.
Lemma world_rows v : within world_moves (rows_of v).
Proof. unfold rows_of. world_steps. Qed.
Lemma world_first_email which rows : within world_moves (first_email which rows).
Proof.
  induction rows as [|v rows IH]; cbn; [world_steps|]. apply within_bind; [apply _|apply world_dict|]. intros row. world_steps.
Qed.
End rules.
#[local] Hint Resolve world_draw world_attempted world_from_result world_body world_dict world_text world_rows world_first_email : within.

Section profiles.
Context {W : Type} {env : Env} {settings : AuthSettings} {jwt : Jwt} {world : AuthWorld W} {repr : PyRepr}.

Lemma world_profile (p : string) code :
  within (world_moves (W := W)) (if String.eqb p "github" then access ← exchange_github_code code; fetch_github_profile access
                        else access ← exchange_google_code code; fetch_google_profile access).
Proof.
  unfold exchange_github_code, exchange_google_code, fetch_github_profile, fetch_google_profile. world_steps.
Qed.
End profiles.

(** ** Every request keeps the rows consistent *)

Section kept.
Context {W : Type} {env : Env} {settings : AuthSettings} {jwt : Jwt} {world : AuthWorld W} {repr : PyRepr}.
Implicit Types (s : AuthSt W).

Definition ok_st s : Prop := accounts_ok (as_db s) ∧ accounts_ok (as_committed s).
Definition kept {B} (m : A W B) : Prop := ∀ s, ok_st s → wp m (λ _, ok_st) (λ _, ok_st) s.

Lemma wp_moves {B} (m : A W B) (Q : B → AuthSt W → Prop) X s : within world_moves m →
  (∀ a s', world_moves s s' → Q a s') → (∀ e s', world_moves s s' → X e s') → wp m Q X s.
Proof. intros Hm HQ HX. specialize (Hm s). unfold wp. by destruct (m s) as [s' [a|e]]; [apply HQ|apply HX]. Qed.
Lemma ok_moves s s' : world_moves s s' → ok_st s → ok_st s'.
Proof. intros [H1 H2] [H3 H4]. split; by rewrite ?H1, ?H2. Qed.
Lemma ok_write s f : ok_st s → accounts_ok (f (as_db s)) → ok_st (s <| as_db ::= f |>).
Proof. intros [_ H]. by split. Qed.
Lemma ok_commit s : ok_st s → ok_st (s <| as_committed := as_db s |>).
Proof. intros [H _]. by split. Qed.
Lemma kept_answering {B} f (m : A W B) : kept m → kept (answering f m).
Proof.
  intros H s Hs. unfold answering. apply wp_try. eapply wp_mono; [by apply H|done|]. intros e s' Hs'. cbn beta.
  destruct (f e) as [[? ?]|]; by apply wp_raise.
Qed.
Lemma kept_bind {B C} (m : A W B) (k : B → A W C) : kept m → (∀ b, kept (k b)) → kept (m ≫= k).
Proof. intros Hm Hk s Hs. apply wp_bind. eapply wp_mono; [by apply Hm| |done]. intros b s' Hs'. by apply Hk. Qed.
Lemma kept_ok_ret {B} (b : B) : kept (mret b).
Proof. intros s Hs. by apply wp_ret. Qed.
Lemma kept_ok_raise {B} e : kept (B := B) (raise e).
Proof. intros s Hs. by apply wp_raise. Qed.
Lemma kept_select {B} (f : AuthDb → B) : kept (select f).
Proof. intros s Hs. by apply wp_select. Qed.
Lemma kept_moves {B} (m : A W B) : within world_moves m → kept m.
Proof. intros H s Hs. apply wp_moves; [done|..]; intros ? s' Hm; by eapply ok_moves. Qed.

Lemma account_by_Some P `{∀ a, Decision (P a)} db k a : account_by P db = Some (k, a) → accounts db !! k = Some a ∧ P a.
Proof. apply first_row_Some. Qed.
Lemma account_by_None P `{∀ a, Decision (P a)} db k a : account_by P db = None → accounts db !! k = Some a → ¬ P a.
Proof. intros H1 H2. by apply (first_row_None _ _ _ _ H1 H2). Qed.

Lemma wp_issue uid s : ok_st s → is_Some (accounts (as_db s) !! uid) →
  wp (issue_tokens uid) (λ _, ok_st) (λ _, ok_st) s.
Proof.
  intros Hs Hu. unfold issue_tokens, new_refresh_token_value, add_token. apply wp_bind, wp_draw. intros w raw _.
  apply wp_bind, wp_on_auth, wp_bind, wp_auth_commit, wp_ret, ok_commit, ok_write; [done|]. by apply ok_add_token; [apply Hs|].
Qed.
Lemma kept_login username password : kept (login username password).
Proof.
  apply kept_answering. intros s Hs. unfold login_user. apply wp_bind, wp_select.
  destruct (account_named username (as_db s)) as [[uid a]|] eqn:E; [|by apply wp_raise]. apply account_by_Some in E as [E _].
  apply wp_bind, wp_checkpw; [|done]. intros [] _; cbn [negb]; [apply wp_issue; [done|by eexists]|by apply wp_raise].
Qed.
Lemma kept_logout t : kept (logout t).
Proof.
  apply kept_answering. intros s Hs. unfold logout_refresh_token. apply wp_bind, wp_select.
  destruct (token_with_hash _ _) as [[k r]|]; [|by apply wp_raise]. destruct (tok_revoked r); [by apply wp_raise|].
  apply wp_bind, wp_on_auth, wp_auth_commit, ok_commit, ok_write; [done|]. by apply ok_alter_token; [apply Hs|].
Qed.
Lemma kept_refresh q h c : kept (refresh_token_endpoint q h c).
Proof.
  unfold refresh_token_endpoint. destruct (negb _); [apply kept_ok_raise|]. apply kept_answering. intros s Hs.
  unfold refresh_access_token. apply wp_bind, wp_select. destruct (token_with_hash _ _) as [[k r]|]; [|by apply wp_raise].
  destruct (tok_revoked r); [by apply wp_raise|]. destruct (_ <? _); [by apply wp_raise|by apply wp_ret].
Qed.
Lemma kept_get_current_user creds : kept (get_current_user creds).
Proof.
  unfold get_current_user. destruct (bearer creds) as [token|]; [|apply kept_ok_raise]. destruct (decode_access_user_id token) as [uid|]; [|apply kept_ok_raise].
  intros s Hs. apply wp_try. unfold get_user_auth_entry. apply wp_bind, wp_select.
  destruct (_ !! _); [by apply wp_ret|apply wp_raise; by apply wp_raise].
Qed.

(** The two halves of a change of password *)
Lemma ok_new_password s uid h : ok_st s → ok_st (s <| as_db ::= λ db, db <| accounts ::= alter (λ a, a <| acc_password_hash := h |>) uid |> |>).
Proof. intros Hs. apply ok_write; [done|]. apply ok_set_password, Hs. Qed.
Lemma ok_revoke_tokens s uid : ok_st s →
  ok_st (s <| as_db ::= λ db, db <| tokens ::= fmap (λ t, if tok_user_id t =? uid then t <| tok_revoked := true |> else t) |> |>).
Proof. intros Hs. apply ok_write; [done|]. apply ok_map_tokens; [apply Hs|]. intros t. by destruct (_ =? _). Qed.
Lemma kept_change_password creds cur new : kept (change_password_endpoint creds cur new).
Proof.
  unfold change_password_endpoint. apply kept_bind; [apply kept_get_current_user|]. intros [uid a]. apply kept_answering.
  intros s Hs. unfold change_password, set_password, revoke_tokens_of. apply wp_bind, wp_checkpw; [|done].
  intros [] _; cbn [negb]; [|by apply wp_raise]. apply wp_bind, wp_hashpw; [|done]. intros w h _.
  apply wp_bind, wp_on_auth, wp_bind, wp_on_auth, wp_auth_commit, ok_commit, ok_revoke_tokens, ok_new_password, Hs.
Qed.
Lemma kept_reset_password t new : kept (reset_password_endpoint t new).
Proof.
  apply kept_answering. intros s Hs. unfold reset_password_with_token, set_password, revoke_tokens_of. apply wp_bind, wp_select.
  destruct (pending_reset _ _) as [[k r]|]; [|by apply wp_raise]. destruct (_ <? _); [by apply wp_raise|].
  apply wp_bind, wp_select. destruct (accounts _ !! _); [|by apply wp_raise]. apply wp_bind, wp_hashpw; [|done]. intros w h _.
  apply wp_bind, wp_on_auth, wp_bind, wp_on_auth, wp_bind, wp_on_auth, wp_auth_commit, ok_commit, ok_revoke_tokens, ok_write.
  - by apply ok_new_password.
  - apply ok_alter_reset; [|done]. apply ok_set_password, Hs.
Qed.

(** A new account: the name and the address are free, and so is the slug allocated. *)
Lemma slug_is_new username (db : AuthDb) k b : accounts db !! k = Some b → slug_of b ≠ route_slug_for username db.
Proof.
  intros Hk E. destruct (route_slug_allocated username (users_of db)) as (slug & Hs & Hal). unfold route_slug_for in E.
  rewrite Hs in E. pose proof (al_free _ _ _ Hal) as Hf. apply not_true_iff_false in Hf. apply Hf, route_slug_taken_row.
  exists k, (acc_user b). split; [|done]. unfold users_of. by rewrite lookup_fmap, Hk.
Qed.
Lemma wp_new_account {B} username email hash slug s (k : Z → A W B) (Q : B → AuthSt W → Prop) X : ok_st s →
  account_named username (as_db s) = None → account_with_email email (as_db s) = None → slug = route_slug_for username (as_db s) →
  (∀ s', ok_st s' → accounts (as_db s') !! account_seq (as_db s) = Some (mkAccount (mkUserAuth username slug) hash email) →
     oauths (as_db s') = oauths (as_db s) → wp (k (account_seq (as_db s))) Q X s') →
  wp (uid ← add_account (mkAccount (mkUserAuth username slug) hash email); auth_commit ;; create_profile uid ;; k uid) Q X s.
Proof.
  intros Hs Hn He -> HQ. set (db := as_db s) in *. set (a := mkAccount _ hash email).
  assert (Hnew : accounts_ok (db <| accounts ::= <[account_seq db := a]> |> <| account_seq := account_seq db + 1 |>)).
  { apply ok_add_account; [apply Hs|]. intros i b Hk. split_and!.
    - by eapply account_by_None in Hn.
    - by eapply account_by_None in He.
    - by apply slug_is_new with i. }
  unfold add_account. apply wp_bind, wp_bind, wp_select, wp_bind, wp_on_auth, wp_ret.
  apply wp_bind, wp_auth_commit, wp_bind. unfold create_profile. apply wp_bind, wp_on_auth, wp_auth_commit, HQ.
  - apply ok_commit, ok_write; [by apply ok_commit, ok_write|]. destruct Hnew. by constructor.
  - cbn. by rewrite lookup_insert_eq.
  - done.
Qed.
Lemma kept_audit action uid : kept (audit_user (W := W) action uid).
Proof. intros s Hs. apply wp_on_auth, ok_write; [done|]. destruct Hs as [[] _]. by constructor. Qed.
Lemma kept_commit : kept (auth_commit (W := W)).
Proof. intros s Hs. by apply wp_auth_commit, ok_commit. Qed.
Lemma kept_register username email password : kept (register username email password).
Proof.
  unfold register. apply kept_bind; [apply kept_answering|intros uid; apply kept_bind; [apply kept_audit|intros ?; apply kept_bind; [apply kept_commit|intros ?; apply kept_ok_ret]]].
  intros s Hs. unfold register_user. apply wp_bind, wp_select, wp_bind.
  destruct (account_named username (as_db s)) eqn:En; [by apply wp_raise|]. cbn [when]. apply wp_ret, wp_bind, wp_select, wp_bind.
  destruct (account_with_email email (as_db s)) eqn:Ee; [by apply wp_raise|]. apply wp_ret, wp_bind, wp_hashpw; [|done].
  intros w h _. apply wp_bind, wp_select. apply wp_new_account; [done..|]. intros s' Hs' _ _. by apply wp_ret.
Qed.

Lemma kept_forgot email : kept (forgot_password email).
Proof.
  apply kept_bind; [|intros ?; apply kept_ok_ret]. intros s Hs. unfold request_password_reset, use_pending_resets, add_reset_token.
  apply wp_bind, wp_select. destruct (account_with_email email (as_db s)) as [[uid a]|] eqn:E; [|by apply wp_ret].
  apply account_by_Some in E as [E _]. apply wp_bind, wp_on_auth, wp_bind, wp_draw. intros w raw _.
  apply wp_bind, wp_on_auth, wp_bind, wp_auth_commit, wp_ret, ok_commit, ok_write.
  - apply (ok_write s _); [done|]. apply ok_map_resets; [apply Hs|]. intros t. by destruct (_ =? _).
  - apply ok_add_reset.
    + apply ok_map_resets; [apply Hs|]. intros t. by destruct (_ =? _).
    + cbn. by eexists.
    + cbn. intros k t'. rewrite lookup_fmap_Some. intros (t & <- & _) Hu. destruct (prt_user_id t =? uid) eqn:Et; [done|].
      apply Z.eqb_neq in Et. done.
Qed.
Lemma kept_delete_for uid a password : kept (delete_account_for_current_user uid a password).
Proof.
  unfold delete_account_for_current_user. apply kept_bind; [apply kept_select|]. intros linked. apply kept_bind.
  - destruct linked; cbn [negb when]; [apply kept_ok_ret|]. destruct (negb _); [apply kept_ok_raise|]. intros s Hs.
    apply wp_bind, wp_checkpw; [|done]. intros [] _; [by apply wp_ret|by apply wp_raise].
  - intros _ s Hs. apply wp_bind, wp_on_auth, wp_bind, wp_on_auth, wp_bind, wp_gets.
    match goal with |- context [aw_referenced uid ?w] => destruct (aw_referenced uid w) end;
      [apply wp_raise|apply wp_auth_commit, ok_commit]; (split; [by apply (ok_delete (as_db s)), Hs|by apply Hs]).
Qed.
Lemma kept_delete_account creds password : kept (delete_account creds password).
Proof.
  unfold delete_account. apply kept_bind; [apply kept_get_current_user|]. intros [uid a]. apply kept_bind; [apply kept_audit|]. intros _ s Hs.
  apply wp_try. eapply wp_mono; [by apply kept_delete_for|done|]. intros e s' Hs'. cbn beta.
  destruct e; try (by apply wp_raise). apply wp_bind, wp_modify, wp_raise. split; apply Hs'.
Qed.

Lemma kept_oauth_callback provider code state : kept (oauth_callback provider code state).
Proof.
  apply kept_answering. unfold complete_oauth. apply kept_bind; [apply kept_moves, world_from_result|]. intros p.
  destruct (verify_oauth_state state p); [apply kept_ok_raise|]. apply kept_bind; [apply kept_moves, world_profile|]. intros profile s Hs.
  apply wp_bind, wp_select. destruct (oauth_row _ _ _) as [[k o]|] eqn:Eo.
  - apply first_row_Some in Eo as [Eo _]. apply wp_bind, wp_select.
    destruct (accounts _ !! _) eqn:E; [by apply wp_issue; [|rewrite E]|by apply wp_raise].
  - assert (Hlink : ∀ db uid, oauths db = oauths (as_db s) → accounts_ok db → is_Some (accounts db !! uid) →
      accounts_ok (db <| oauths ::= <[oauth_seq db := mkOAuthLink uid p (pf_provider_user_id profile)]> |> <| oauth_seq := oauth_seq db + 1 |>)).
    { intros db uid E Hok Hu. apply ok_add_oauth; [done|done|]. rewrite E. intros k o Hk. by apply (first_row_None _ _ _ _ Eo Hk). }
    apply wp_bind, wp_select. destruct (account_with_email _ _) as [[uid a]|] eqn:Ee.
    + apply account_by_Some in Ee as [Ee _]. unfold add_oauth. apply wp_bind, wp_on_auth, wp_bind, wp_auth_commit. apply wp_issue.
      * apply ok_commit, ok_write; [done|]. apply Hlink; [done|apply Hs|by eexists].
      * cbn. by eexists.
    + apply wp_bind, wp_select. destruct (unique_username_free (Py.or_else (pf_username profile) (p ++ "_" ++ pf_provider_user_id profile)%string) (as_db s)) as (name & -> & Hn).
      cbn [default from_option id]. apply wp_bind, wp_select, wp_bind, wp_draw. intros w h _. apply wp_new_account; [done..|].
      intros s' Hs' Ha Ho. cbn [as_db] in *. unfold add_oauth. apply wp_bind, wp_on_auth, wp_bind, wp_auth_commit, wp_issue.
      * apply ok_commit, ok_write; [done|]. apply Hlink; [done|apply Hs'|by eexists].
      * cbn. by eexists.
Qed.
End kept.

(** ** Requests *)

Inductive AuthRequest :=
| Register (username email password : string)
| Login (username password : string)
| Logout (refresh_token : string)
| ForgotPassword (email : string)
| ResetPassword (token new_password : string)
| ChangePassword (creds : option (string * string)) (current_password new_password : string)
| RefreshAccess (query header cookie : option string)
| DeleteAccount (creds : option (string * string)) (password : option string)
| OAuthStart (provider : string)
| OAuthCallback (provider code state : string)
| RouteTenant (subdomain : string)
| AuthProfile (creds : option (string * string)).

Section requests.
Context {W : Type} {settings : AuthSettings} {jwt : Jwt} {world : AuthWorld W} {repr : PyRepr}.

Definition serve_auth {env : Env} (r : AuthRequest) : A W unit :=
  match r with
  | Register u e p => register u e p ;; mret tt
  | Login u p => login u p ;; mret tt
  | Logout t => logout t
  | ForgotPassword e => forgot_password e ;; mret tt
  | ResetPassword t p => reset_password_endpoint t p
  | ChangePassword c p n => change_password_endpoint c p n
  | RefreshAccess q h c => refresh_token_endpoint q h c ;; mret tt
  | DeleteAccount c p => delete_account c p
  | OAuthStart p => oauth_start p ;; mret tt
  | OAuthCallback p c s => oauth_callback p c s ;; mret tt
  | RouteTenant s => check_route_tenant_public s
  | AuthProfile c => get_auth_profile c ;; mret tt
  end.
(** A request in a session of its own, at some time and with any answers of the world *)
Definition fresh_auth (db : AuthDb) (w : W) : AuthSt W := mkAuthSt db db w.
Inductive auth_step : AuthDb → AuthDb → Prop :=
| Served (env : Env) (r : AuthRequest) (w : W) (db : AuthDb) : auth_step db (as_committed (serve_auth r (fresh_auth db w)).1).

Lemma kept_serve_auth {env : Env} r : kept (serve_auth r).
Proof.
  destruct r; cbn [serve_auth]; try (apply kept_bind; [|intros ?; apply kept_ok_ret]);
    auto using kept_register, kept_login, kept_logout, kept_forgot, kept_reset_password, kept_change_password, kept_refresh,
      kept_delete_account, kept_oauth_callback.
  - apply kept_answering. unfold start_oauth_authorization_url, create_oauth_state. apply kept_bind; [apply kept_moves, world_from_result|].
    intros p. apply kept_bind; [|intros ?; apply kept_moves, world_from_result]. apply kept_bind; [apply kept_moves, world_draw|intros ?; apply kept_ok_ret].
  - unfold check_route_tenant_public. destruct (_ || _); [apply kept_ok_raise|]. apply kept_bind; [apply kept_select|].
    intros []; [apply kept_ok_ret|apply kept_ok_raise].
  - apply kept_bind; [apply kept_get_current_user|intros ?; apply kept_ok_ret].
Qed.
Lemma step_keeps_ok db db' : auth_step db db' → accounts_ok db → accounts_ok db'.
Proof.
  intros [env r w db0] Hok. pose proof (kept_serve_auth r (fresh_auth db0 w) (conj Hok Hok)) as H. unfold wp in H.
  destruct (serve_auth r (fresh_auth db0 w)) as [s' [u|e]]; apply H.
Qed.
End requests.

(** ** What tokens become *)

(** Rows that were there keep their owner and hash, and a flag that is set stays. *)
Record aged (db db' : AuthDb) : Prop := {
  ag_token_seq : token_seq db ≤ token_seq db';
  ag_reset_seq : reset_seq db ≤ reset_seq db';
  ag_token k t' : tokens db' !! k = Some t' → k < token_seq db → ∃ t, tokens db !! k = Some t ∧
    tok_user_id t' = tok_user_id t ∧ tok_token_hash t' = tok_token_hash t ∧ (tok_revoked t = true → tok_revoked t' = true);
  ag_reset k t' : reset_tokens db' !! k = Some t' → k < reset_seq db → ∃ t, reset_tokens db !! k = Some t ∧
    prt_user_id t' = prt_user_id t ∧ prt_token_hash t' = prt_token_hash t ∧ (prt_used t = true → prt_used t' = true)
}.
#[export] Instance aged_preorder : PreOrder aged.
Proof.
  split; [intros db; split; [lia|lia|eauto..]|]. intros a b c [] []. split; [lia|lia|..].
  - intros k t3 Hk Hlt. destruct (ag_token1 k t3 Hk) as (t2 & H2 & -> & -> & R2); [lia|].
    destruct (ag_token0 k t2 H2 Hlt) as (t1 & H1 & -> & -> & R1). eauto 7.
  - intros k t3 Hk Hlt. destruct (ag_reset1 k t3 Hk) as (t2 & H2 & -> & -> & R2); [lia|].
    destruct (ag_reset0 k t2 H2 Hlt) as (t1 & H1 & -> & -> & R1). eauto 7.
Qed.
Lemma aged_frame db db' : tokens db' = tokens db → reset_tokens db' = reset_tokens db → token_seq db' = token_seq db →
  reset_seq db' = reset_seq db → aged db db'.
Proof. intros E1 E2 E3 E4. split; rewrite ?E1, ?E2; [lia|lia|eauto..]. Qed.
(** Rows changed one by one, or dropped *)
Lemma aged_tokens db (m : gmap Z RefreshToken) :
  (∀ k t', m !! k = Some t' → ∃ t, tokens db !! k = Some t ∧ tok_user_id t' = tok_user_id t ∧ tok_token_hash t' = tok_token_hash t ∧
     (tok_revoked t = true → tok_revoked t' = true)) → aged db (db <| tokens := m |>).
Proof. intros H. split; cbn; [lia|lia| |eauto]. intros k t' Hk _. by apply H. Qed.
Lemma aged_resets db (m : gmap Z PasswordResetToken) :
  (∀ k t', m !! k = Some t' → ∃ t, reset_tokens db !! k = Some t ∧ prt_user_id t' = prt_user_id t ∧ prt_token_hash t' = prt_token_hash t ∧
     (prt_used t = true → prt_used t' = true)) → aged db (db <| reset_tokens := m |>).
Proof. intros H. split; cbn; [lia|lia|eauto|]. intros k t' Hk _. by apply H. Qed.

Section aging.
Context {W : Type} {env : Env} {settings : AuthSettings} {jwt : Jwt} {world : AuthWorld W} {repr : PyRepr}.

Definition ages (s s' : AuthSt W) : Prop :=
  ∀ db0, aged db0 (as_db s) → aged db0 (as_committed s) → aged db0 (as_db s') ∧ aged db0 (as_committed s').
#[export] Instance ages_preorder : PreOrder ages.
Proof. split; [by split|]. intros a b c H1 H2 db0 Ha Hc. destruct (H1 db0 Ha Hc). by apply H2. Qed.
Lemma ages_on_auth f : (∀ db, aged db (f db)) → within ages (on_auth (W := W) f).
Proof. intros H s db0 Ha Hc. split; [|done]. etrans; [exact Ha|apply H]. Qed.
Lemma ages_commit : within ages (auth_commit (W := W)).
Proof. by intros s db0 Ha Hc. Qed.
Lemma ages_rollback : within ages (auth_rollback (W := W)).
Proof. by intros s db0 Ha Hc. Qed.
Lemma ages_moves {B} (m : A W B) : within world_moves m → within ages m.
Proof. intros H s db0 Ha Hc. destruct (H s) as [-> ->]. done. Qed.
Lemma ages_select {B} (f : AuthDb → B) : within ages (select (W := W) f).
Proof. by intros s db0. Qed.

Lemma aged_new_token db t : aged db (db <| tokens ::= <[token_seq db := t]> |> <| token_seq := token_seq db + 1 |>).
Proof. split; cbn; [lia|lia| |eauto]. intros k t' Hk Hlt. rewrite lookup_insert_ne in Hk by lia. eauto. Qed.
Lemma aged_new_reset db t : aged db (db <| reset_tokens ::= <[reset_seq db := t]> |> <| reset_seq := reset_seq db + 1 |>).
Proof. split; cbn; [lia|lia|eauto|]. intros k t' Hk Hlt. rewrite lookup_insert_ne in Hk by lia. eauto. Qed.
Lemma aged_revoked db uid : aged db (db <| tokens ::= fmap (λ t, if tok_user_id t =? uid then t <| tok_revoked := true |> else t) |>).
Proof.
  apply aged_tokens. intros k t'. rewrite lookup_fmap_Some. intros (t & <- & Ht). exists t. by destruct (_ =? _).
Qed.
Lemma aged_used db uid : aged db (db <| reset_tokens ::= fmap (λ t, if prt_user_id t =? uid then t <| prt_used := true |> else t) |>).
Proof. apply aged_resets. intros k t'. rewrite lookup_fmap_Some. intros (t & <- & Ht). exists t. by destruct (_ =? _). Qed.
Lemma aged_revoke_one db k : aged db (db <| tokens ::= alter (λ t, t <| tok_revoked := true |>) k |>).
Proof. apply aged_tokens. intros i t' (t & Ht & [->| ->])%alter_lookup_Some; exists t; by split_and!. Qed.
Lemma aged_use_one db k : aged db (db <| reset_tokens ::= alter (λ t, t <| prt_used := true |>) k |>).
Proof. apply aged_resets. intros i t' (t & Ht & [->| ->])%alter_lookup_Some; exists t; by split_and!. Qed.
Lemma aged_purge db uid : aged db (purge_user_related_rows uid db).
Proof.
  split; cbn; [lia|lia|..]; intros k t' [Hk _]%map_lookup_filter_Some _; exists t'; by split_and!.
Qed.
End aging.

Create HintDb aged discriminated.
#[local] Hint Resolve aged_new_token aged_new_reset aged_revoked aged_used aged_revoke_one aged_use_one aged_purge : aged.
Ltac ages_steps :=
  repeat first
    [ simple apply within_ret; apply _ | simple apply within_raise; apply _ | simple apply within_gets; apply _
    | simple apply ages_commit | simple apply ages_rollback | simple apply ages_select
    | simple apply ages_on_auth; intros ?; solve [auto with aged | by apply aged_frame]
    | simple apply ages_moves; first [simple apply world_draw|simple apply world_from_result|simple apply world_profile]
    | simple apply ages_moves; simple apply world_attempted; world_steps
    | simple apply within_bind; [apply _| |intros ?]
    | simple apply within_try; [apply _| |intros ?]
    | simple apply within_when; [apply _|intros ?]
    | match goal with |- within _ (if ?b then _ else _) => destruct b end
    | match goal with |- within _ (match ?x with _ => _ end) => destruct x end ].

Section sessions.
Context {W : Type} {settings : AuthSettings} {jwt : Jwt} {world : AuthWorld W} {repr : PyRepr}.

Lemma ages_issue {env : Env} uid : within ages (issue_tokens (W := W) uid).
Proof. unfold issue_tokens, new_refresh_token_value, add_token. ages_steps. Qed.
Lemma ages_current {env : Env} creds : within ages (get_current_user (W := W) creds).
Proof. unfold get_current_user, get_user_auth_entry, http. ages_steps. Qed.
Lemma ages_oauth {env : Env} p c st : within ages (complete_oauth (W := W) p c st).
Proof.
  unfold complete_oauth, add_oauth, add_account, create_profile. ages_steps; apply ages_issue.
Qed.
Lemma ages_serve_auth {env : Env} r : within ages (serve_auth (W := W) r).
Proof.
  destruct r; cbn [serve_auth]; unfold register, register_user, login, login_user, logout, logout_refresh_token, forgot_password,
    request_password_reset, reset_password_endpoint, reset_password_with_token, change_password_endpoint, change_password,
    refresh_token_endpoint, refresh_access_token, delete_account, delete_account_for_current_user, oauth_start,
    start_oauth_authorization_url, create_oauth_state, oauth_callback, check_route_tenant_public, get_auth_profile, answering,
    add_account, add_reset_token, create_profile, audit_user, set_password, revoke_tokens_of, use_pending_resets, checkpw, hashpw, http;
    ages_steps; first [apply ages_issue|apply ages_current|apply ages_oauth|idtac].
Qed.
Lemma step_ages db db' : auth_step (W := W) db db' → aged db db'.
Proof.
  intros [env r w db0]. pose proof (ages_serve_auth r (fresh_auth db0 w) db0) as H. apply H; reflexivity.
Qed.
Lemma steps_age db db' : rtc (auth_step (W := W)) db db' → aged db db'.
Proof. induction 1 as [|a b c Hs _ IH]; [reflexivity|]. etrans; [by apply step_ages|done]. Qed.

Lemma steps_keep_ok db db' : rtc (auth_step (W := W)) db db' → accounts_ok db → accounts_ok db'.
Proof. induction 1 as [|a b c Hs _ IH]; [done|]. intros H. by eapply IH, step_keeps_ok. Qed.
(** C11. Whatever requests the routes of auth_service serve, in any order, with any
    clock and any answer of the providers, committed or failed half way: usernames,
    e-mail addresses and route subdomains of the accounts stay distinct, so do the
    provider's users that are linked, at most one reset link of a user is pending, no
    refresh token, link or reset token outlives its account, and keys are never reused. *)
Theorem accounts_stay_consistent db db' : rtc (auth_step (W := W)) db db' → accounts_ok db → accounts_ok db'.
Proof. apply steps_keep_ok. Qed.

(** *** Changes of password *)

Definition all_revoked (uid : Z) (db : AuthDb) : Prop := ∀ k t, tokens db !! k = Some t → tok_user_id t = uid → tok_revoked t = true.
(** From [db] on a refresh token is good for a row that is neither revoked nor expired,
    and one of the user only if it was issued since. *)
Definition sessions_ended (uid : Z) (db : AuthDb) : Prop :=
  ∀ db' (env : Env) (w : W) refresh s' access, rtc (auth_step (W := W)) db db' →
    refresh_access_token refresh (fresh_auth db' w) = (s', inl access) →
    ∃ k t, tokens db' !! k = Some t ∧ tok_token_hash t = hash_refresh_token refresh ∧ tok_revoked t = false ∧
      env_now ≤ tok_expires_at t ∧ access = create_access_token (tok_user_id t) ∧
      (tok_user_id t = uid → token_seq db ≤ k).
(** A reset link is good for an unused row, and one of the user only if it was made since. *)
Definition links_ended (uid : Z) (db : AuthDb) : Prop :=
  ∀ db' (env : Env) (w : W) link password s', rtc (auth_step (W := W)) db db' →
    reset_password_endpoint link password (fresh_auth db' w) = (s', inl tt) →
    ∃ k t, reset_tokens db' !! k = Some t ∧ prt_token_hash t = hash_refresh_token link ∧ prt_used t = false ∧
      env_now ≤ prt_expires_at t ∧ (prt_user_id t = uid → reset_seq db ≤ k).

Lemma revoked_sessions_end uid db : all_revoked uid db → sessions_ended uid db.
Proof.
  intros Hall db' env w refresh s' access Hsteps. unfold refresh_access_token, mbind, eff_bind, select, gets. cbn.
  destruct (token_with_hash _ db') as [[k t]|] eqn:E; [|done]. apply first_row_Some in E as [Hk Hh]. cbn in Hh.
  destruct (tok_revoked t) eqn:Er; [done|]. destruct (tok_expires_at t <? env_now) eqn:Ee; [done|]. intros [= _ <-].
  exists k, t. split_and!; try done; [lia|]. intros Hu. destruct (decide (token_seq db ≤ k)) as [|Hlt]; [done|].
  destruct (ag_token _ _ (steps_age _ _ Hsteps) k t Hk) as (t0 & H0 & E1 & _ & Hr); [lia|].
  rewrite Hr in Er; [done|]. apply (Hall k t0 H0). congruence.
Qed.
(** What a reset does, and to whom *)
Definition password_set (uid : Z) (password : string) (db db' : AuthDb) : Prop :=
  ∃ a h, accounts db !! uid = Some a ∧ aw_checkpw password h = inl true ∧
    accounts db' = <[uid := a <| acc_password_hash := h |>]> (accounts db) ∧
    tokens db' = (λ r, if tok_user_id r =? uid then r <| tok_revoked := true |> else r) <$> tokens db.
Definition reset_done (uid : Z) (db : AuthDb) (now : time) (link password : string) (db' : AuthDb) : Prop :=
  password_set uid password db db' ∧
  ∃ k t, reset_tokens db !! k = Some t ∧ prt_user_id t = uid ∧ prt_token_hash t = hash_refresh_token link ∧ prt_used t = false ∧
    now ≤ prt_expires_at t ∧ reset_tokens db' = <[k := t <| prt_used := true |>]> (reset_tokens db).
Lemma wp_reset {env : Env} db w link password :
  wp (reset_password_endpoint link password) (λ _ s', ∃ uid, reset_done uid db env_now link password (as_committed s'))
    (λ _ s', as_committed s' = db) (fresh_auth db w).
Proof.
  apply wp_answering. unfold reset_password_with_token, set_password, revoke_tokens_of.
  apply wp_bind, wp_select. cbn [fresh_auth as_db].
  destruct (pending_reset _ _) as [[k t]|] eqn:E; [|by apply wp_raise].
  apply first_row_Some in E as [Hk [Hh Hu]]. cbn in Hh, Hu. destruct (_ <? _) eqn:Ee; [by apply wp_raise|].
  apply wp_bind, wp_select. cbn [fresh_auth as_db]. destruct (accounts db !! prt_user_id t) as [a|] eqn:Ea; [|by apply wp_raise].
  apply wp_bind, wp_hashpw; [|done]. intros w' h Hpw.
  apply wp_bind, wp_on_auth, wp_bind, wp_on_auth, wp_bind, wp_on_auth, wp_auth_commit. exists (prt_user_id t). split.
  - exists a, h. split_and!; try done. cbn. by erewrite alter_insert.
  - exists k, t. split_and!; try done; [lia|]. cbn. by erewrite alter_insert.
Qed.
Lemma wp_change {env : Env} db w creds cur new :
  wp (change_password_endpoint creds cur new)
    (λ _ s', ∃ token uid a, bearer creds = Some token ∧ decode_access_user_id token = inl uid ∧ accounts db !! uid = Some a ∧
       aw_checkpw cur (acc_password_hash a) = inl true ∧ password_set uid new db (as_committed s'))
    (λ _ s', as_committed s' = db) (fresh_auth db w).
Proof.
  unfold change_password_endpoint, get_current_user, http. apply wp_bind. destruct (bearer creds) as [token|] eqn:Eb; [|by apply wp_raise].
  destruct (decode_access_user_id token) as [uid|] eqn:Et; [|by apply wp_raise]. apply wp_try. unfold get_user_auth_entry.
  apply wp_bind, wp_select. cbn [fresh_auth as_db]. destruct (accounts db !! uid) as [a|] eqn:Ea; [|by apply wp_raise, wp_raise].
  apply wp_ret, wp_answering. cbn [fst snd]. unfold change_password, set_password, revoke_tokens_of.
  apply wp_bind, wp_checkpw; [|done]. intros [] Hc; cbn [negb]; [|by apply wp_raise]. apply wp_bind, wp_hashpw; [|done]. intros w' h Hpw.
  apply wp_bind, wp_on_auth, wp_bind, wp_on_auth, wp_auth_commit. exists token, uid, a. split_and!; try done.
  exists a, h. split_and!; try done. cbn. by erewrite alter_insert.
Qed.
Lemma password_set_revokes uid password db db' : password_set uid password db db' → all_revoked uid db'.
Proof.
  intros (a & h & _ & _ & _ & Et) k t. rewrite Et, lookup_fmap_Some. intros (r & <- & _).
  destruct (tok_user_id r =? uid) eqn:E; [done|]. by apply Z.eqb_neq in E.
Qed.
Lemma used_links_end uid db : (∀ k t, reset_tokens db !! k = Some t → prt_user_id t = uid → prt_used t = true) → links_ended uid db.
Proof.
  intros Hall db' env w link password s' Hsteps H. pose proof (wp_reset db' w link password) as Hwp. unfold wp in Hwp. rewrite H in Hwp.
  destruct Hwp as (uid' & _ & k & t & Hk & _ & Hh & Hu & He & _). exists k, t. split_and!; try done. intros Hid.
  destruct (decide (reset_seq db ≤ k)) as [|Hlt]; [done|].
  destruct (ag_reset _ _ (steps_age _ _ Hsteps) k t Hk) as (t0 & H0 & E1 & _ & Hr); [lia|].
  rewrite Hr in Hu; [done|]. apply (Hall k t0 H0). congruence.
Qed.

(** C9. A change of password needs an access token of the account and its current
    password; a reset needs a pending reset link that has not expired.  Either stores a
    hash of the new password for that account only and revokes its refresh tokens: from
    then on, whatever is served, a refresh of one of its sessions succeeds only with a
    token issued afterwards.  After a reset no reset link made before it works again. *)
Theorem new_password_ends_sessions db : accounts_ok db →
  (∀ (env : Env) (w : W) creds cur new s', change_password_endpoint creds cur new (fresh_auth db w) = (s', inl tt) →
     ∃ token uid a, bearer creds = Some token ∧ decode_access_user_id token = inl uid ∧ accounts db !! uid = Some a ∧
       aw_checkpw cur (acc_password_hash a) = inl true ∧ password_set uid new db (as_committed s') ∧
       sessions_ended uid (as_committed s')) ∧
  (∀ (env : Env) (w : W) link new s', reset_password_endpoint link new (fresh_auth db w) = (s', inl tt) →
     ∃ uid, reset_done uid db env_now link new (as_committed s') ∧
       sessions_ended uid (as_committed s') ∧ links_ended uid (as_committed s')).
Proof.
  intros Hok. split.
  - intros env w creds cur new s' H. pose proof (wp_change db w creds cur new) as Hwp. unfold wp in Hwp. rewrite H in Hwp.
    destruct Hwp as (token & uid & a & ? & ? & ? & ? & Hset). exists token, uid, a. split_and!; try done.
    by eapply revoked_sessions_end, password_set_revokes.
  - intros env w link new s' H. pose proof (wp_reset db w link new) as Hwp. unfold wp in Hwp. rewrite H in Hwp.
    destruct Hwp as (uid & Hdone). exists uid. split; [done|]. destruct Hdone as [Hset (k & t & Hk & Hid & Hh & Hu & He & Er)].
    split; [by eapply revoked_sessions_end, password_set_revokes|]. apply used_links_end. intros i r Hi Hr. rewrite Er in Hi.
    destruct (decide (i = k)) as [->|Hne]; [rewrite lookup_insert_eq in Hi; by injection Hi as <-|].
    rewrite lookup_insert_ne in Hi by done. destruct (prt_used r) eqn:Eu; [done|]. exfalso. apply Hne.
    apply (ok_resets _ Hok i k r t); try done. congruence.
Qed.

(** *** Signing in *)

Definition signed_in {env : Env} (uid : Z) (lt : LoginTokens) (db db' : AuthDb) : Prop :=
  db' = db <| tokens ::= <[token_seq db := mkRefreshToken uid (hash_refresh_token (refresh_token lt))
                                             (env_now + seconds (86400 * refresh_token_expire_days)) false]> |>
           <| token_seq := token_seq db + 1 |> ∧
  ∀ later : Env, @env_now env ≤ @env_now later → @env_now later < 1000000 * in_seconds (@env_now env + seconds (60 * access_token_expire_minutes)) →
    decode_access_user_id (env := later) (access_token lt) = inl uid.
Lemma access_token_reads_back {env : Env} uid (later : Env) : @env_now env ≤ @env_now later →
  @env_now later < 1000000 * in_seconds (@env_now env + seconds (60 * access_token_expire_minutes)) →
  decode_access_user_id (env := later) (create_access_token (env := env) uid) = inl uid.
Proof.
  intros H1 H2. unfold decode_access_user_id, create_access_token. rewrite jwt_decode_encode; cbn [cl_iat cl_exp]; [|unfold in_seconds|done].
  - unfold claimed_user. cbn [cl_type cl_sub bool_decide decide]. rewrite bool_decide_true by done. cbn [negb]. by rewrite strip_str_of_Z, Py.parse_int_str_of_Z.
  - pose proof (Z.mul_div_le (@env_now env) 1000000). lia.
Qed.

(** C10. A sign-in succeeds exactly if an account has the name and its hash accepts
    the password.  It then adds one refresh token, stored as a digest and expiring as
    configured, and its access token reads back as that account until it expires;
    otherwise nothing changes and an error is answered. *)
Theorem login_gives_the_account db username password (w : W) {env : Env} : accounts_ok db →
  let '(s', r) := login username password (fresh_auth db w) in
  match r with
  | inl lt => ∃ uid a, accounts db !! uid = Some a ∧ name_of a = username ∧ aw_checkpw password (acc_password_hash a) = inl true ∧
                signed_in uid lt db (as_committed s')
  | inr _ => as_committed s' = db ∧
      ∀ uid a, accounts db !! uid = Some a → name_of a = username → aw_checkpw password (acc_password_hash a) ≠ inl true
  end.
Proof.
  intros Hok.
  assert (Hwp : wp (login username password)
    (λ lt s', ∃ uid a, accounts db !! uid = Some a ∧ name_of a = username ∧ aw_checkpw password (acc_password_hash a) = inl true ∧
                signed_in uid lt db (as_committed s'))
    (λ _ s', as_committed s' = db ∧
      ∀ uid a, accounts db !! uid = Some a → name_of a = username → aw_checkpw password (acc_password_hash a) ≠ inl true) (fresh_auth db w)).
  { apply wp_answering. unfold login_user. apply wp_bind, wp_select. cbn [fresh_auth as_db].
    destruct (account_named username db) as [[uid a]|] eqn:En.
    2: { apply wp_raise. intros _. split; [done|]. intros uid a Ha Hn. by destruct (account_by_None _ _ _ _ En Ha). }
    apply account_by_Some in En as [Ha Hn].
    assert (Hother : aw_checkpw password (acc_password_hash a) ≠ inl true → ∀ uid' a', accounts db !! uid' = Some a' → name_of a' = username →
      aw_checkpw password (acc_password_hash a') ≠ inl true).
    { intros Hc uid' a' Ha' Hn'. assert (uid' = uid) as -> by (apply (ok_names _ Hok uid' uid a' a); try done; unfold name_of in *; congruence). congruence. }
    apply wp_bind. unfold checkpw, attempted. apply wp_bind, wp_ret. destruct (aw_checkpw password (acc_password_hash a)) as [[]|m] eqn:Ec.
    - apply wp_ret. cbn [negb]. unfold issue_tokens, new_refresh_token_value, add_token. apply wp_bind, wp_draw. intros w' raw _.
      apply wp_bind, wp_on_auth, wp_bind, wp_auth_commit, wp_ret. exists uid, a. split_and!; try done. split; [done|]. intros later.
      apply access_token_reads_back.
    - apply wp_ret, wp_raise. intros _. split; [done|by apply Hother].
    - apply wp_raise. intros _. split; [done|by apply Hother]. }
  unfold wp in Hwp. destruct (login username password (fresh_auth db w)) as [s' [lt|e]]; exact Hwp.
Qed.
End sessions.
