(* ===== verification/GatewayAuth.v ===== *)
(** * GatewayAuth: what the edge proxy lets through

    [src/backend/app/services/workspace_service/api/routers/internal_gateway_auth.py]:
    Traefik asks this endpoint before it proxies a request to a workspace.  The
    handler only reads, so it is a function of the rows.  Header text is ASCII. *)

From S2P Require Import Prelude Models Session Sessions Gateway Routing.

(** ** Which workspace a request addresses *)

(** The longest prefix of characters satisfying [P], and what follows it. *)
Fixpoint span (P : ascii → bool) (s : string) : string * string :=
  match s with
  | EmptyString => (EmptyString, EmptyString)
  | String c r => if P c then let '(a, b) := span P r in (String c a, b) else (EmptyString, s)
  end.

(** [int(s)] of digits; CPython refuses more than 4300 of them with a [ValueError]. *)
Definition int_of_digits (s : string) : option Z :=
  if Py.len s <=? 4300 then Py.digits s else None.

(** The group of [_WS_HOST_RE], [^ws-(\d+)(?:-[a-z0-9-]+)?\.]: no backtracking can
    help, as a digit is neither a dash nor a dot and a slug character no dot. *)
Definition ws_host_match (host : string) : option string :=
  rest ← after_literal "ws-" host;
  let '(ds, rest) := span is_digit_char rest in
  if negb (Py.truthy ds) then None else
  match rest with
  | String "." _ => Some ds
  | String "-" r =>
      let '(key, r) := span slug_char r in
      match r with String "." _ => if Py.truthy key then Some ds else None | _ => None end
  | _ => None
  end.

Definition workspace_id_from_host (host base_domain : string) : option Z :=
  let host_clean := Py.lower (before_colon (Py.strip host)) in
  match ws_host_match host_clean with
  | Some ds => int_of_digits ds
  | None =>
      let dom := Py.strip_dots (Py.lower (Py.strip base_domain)) in
      if negb (Py.truthy dom) then None else
      prefix ← without_suffix ("." ++ dom) host_clean;
      if Py.truthy prefix && forallb is_digit_char (list_ascii_of_string prefix)
      then int_of_digits prefix else None
  end.

(** [urlparse(raw).path], [None] when it raises.  Control characters and spaces in
    front and tabs and line breaks anywhere are dropped; an authority with
    brackets raises unless it is an IPv6 literal, which is left out. *)
Definition is_c0_or_space (c : ascii) : bool := (N_of_ascii c <=? 32)%N.
Definition is_tab_or_newline (c : ascii) : bool :=
  let n := N_of_ascii c in ((n =? 9) || (n =? 10) || (n =? 13))%N.
Definition uses_params : list string :=
  [""; "ftp"; "hdl"; "prospero"; "http"; "imap"; "https"; "shttp"; "rtsp"; "rtsps"; "rtspu"; "sip";
   "sips"; "mms"; "sftp"; "tel"]%string.
Definition without_params (path : string) : string :=
  match Py.after_last "/" path with
  | None => Py.until (Ascii.eqb ";") path
  | Some last =>
      (Py.prefix_to (Py.len path - Py.len last) path ++ Py.until (Ascii.eqb ";") last)%string
  end.
Definition urlparse_path (raw : string) : option string :=
  let url := Py.on_chars (λ l, List.filter (λ c, negb (is_tab_or_newline c)) (Py.lstrip_by is_c0_or_space l)) raw in
  let '(netloc, path) := urlsplit url in
  let scheme := match Py.partition ":" url with
                | (s, Some _) => if valid_scheme s then Py.lower s else ""%string
                | _ => ""%string
                end in
  if Py.contains "[" netloc || Py.contains "]" netloc then None
  else Some (if bool_decide (scheme ∈ uses_params) then without_params path else path).

Definition extract_workspace_slug_from_path (path_or_uri : string) : option string :=
  let raw := Py.strip path_or_uri in
  if negb (Py.truthy raw) then None else
  let path := Py.until (Ascii.eqb "?") raw in
  let path :=
    match path with
    | EmptyString => path
    | String "/" _ => path
    | String _ _ =>
        match urlparse_path raw with
        | Some p => Py.or_else p "/"
        | None => String "/" (default raw (Py.partition "/" raw).2)
        end
    end in
  slug_of_path path.

Section auth.
Context {env : Env} {tokens : TokenHash}.

Definition user_by_subdomain (sub : string) (db : Db) : option (Z * UserAuth) :=
  first_row (λ ku, ua_route_subdomain_slug ku.2 = Some sub) (users db).
Definition workspace_by_slug (owner : Z) (slug : string) (db : Db) : option (Z * Workspace) :=
  first_row (λ kw, ws_owner_user_id kw.2 = owner ∧ Py.lower (ws_url_slug kw.2) = Py.lower slug ∧
                   ws_status kw.2 ≠ WorkspaceStatus.DELETED) (workspaces db).

Definition resolve_workspace_id_from_gateway_request (forwarded_host forwarded_uri : string) (db : Db)
    : option Z :=
  match workspace_id_from_host forwarded_host (clean_domain (cfg_base_domain env_settings)) with
  | Some wid => Some wid
  | None =>
      if negb tenant_workspace_urls_enabled then None else
      sub ← parse_workspace_host forwarded_host effective_public_base_domain;
      slug ← extract_workspace_slug_from_path (Py.or_else forwarded_uri "/");
      user ← user_by_subdomain sub db;
      ws ← workspace_by_slug user.1 slug db;
      Some ws.1
  end.

(** The request headers and the path of the handler's own URL. *)
Record ForwardAuthRequest := mkForwardAuthRequest {
  fr_forwarded_host : option string;
  fr_host : option string;
  fr_forwarded_uri : option string;
  fr_url_path : string;
  fr_session_header : option string;
  fr_session_cookie : option string
}.
Inductive GatewayResponse := Allowed | Denied (content : string).

Definition WORKSPACE_SESSION_COOKIE_NAME : string := "devnest_ws_session".
Definition SESSION_REQUIRED : string :=
  "workspace session required: send X-DevNest-Workspace-Session or attach cookie (HttpOnly "
  ++ WORKSPACE_SESSION_COOKIE_NAME ++ " from POST /workspaces/attach/{id})".

Definition requested_host (r : ForwardAuthRequest) : string :=
  Py.strip (Py.or_else (default ""%string (fr_forwarded_host r)) (default ""%string (fr_host r))).
Definition requested_uri (r : ForwardAuthRequest) : string :=
  Py.strip (Py.or_else (default ""%string (fr_forwarded_uri r)) (fr_url_path r)).
Definition presented_token (r : ForwardAuthRequest) : string :=
  Py.or_else (Py.strip_opt (fr_session_header r)) (Py.strip_opt (fr_session_cookie r)).

Definition gateway_forward_auth (r : ForwardAuthRequest) (db : Db) : GatewayResponse :=
  if negb (cfg_gateway_auth_enabled env_settings) then Allowed else
  match resolve_workspace_id_from_gateway_request (requested_host r) (requested_uri r) db with
  | None => Denied "workspace host not recognized"
  | Some wid =>
      let token_plain := presented_token r in
      if negb (Py.truthy token_plain) then Denied SESSION_REQUIRED else
      match session_by_hash (hash_workspace_session_token token_plain) db with
      | None => Denied "invalid workspace session token"
      | Some (sid, ws_session) =>
          if negb (sess_workspace_id ws_session =? wid) then Denied "session workspace mismatch"
          else if negb (bool_decide (sess_status ws_session = WorkspaceSessionStatus.ACTIVE))
          then Denied "workspace session is not active"
          else if sess_expires_at ws_session <=? env_now then Denied "workspace session expired"
          else match workspaces db !! wid with
               | None => Denied "workspace not found"
               | Some w =>
                   if bool_decide (ws_status w = WorkspaceStatus.RUNNING) then Allowed
                   else Denied ("workspace is not running (" ++ WorkspaceStatus.value (ws_status w) ++ ")")
               end
      end
  end.
End auth.

(** ** Host names and paths as text *)

Section texts.

(** The characters of a lower-case host name. *)
Definition dns_char (c : ascii) : bool := slug_char c || Ascii.eqb "." c.

Lemma dns_char_normal c : dns_char c = true →
  Py.is_space c = false ∧ Py.lower_ascii c = c ∧ Ascii.eqb ":" c = false.
Proof. destruct c as [[] [] [] [] [] [] [] []]; vm_compute; try discriminate; done. Qed.
Lemma slug_char_dns c : slug_char c = true → dns_char c = true.
Proof. unfold dns_char. by intros ->. Qed.
Lemma slug_char_excludes c : slug_char c = true →
  Ascii.eqb "." c = false ∧ Ascii.eqb "/" c = false ∧ Ascii.eqb "?" c = false.
Proof. destruct c as [[] [] [] [] [] [] [] []]; vm_compute; try discriminate; done. Qed.
Lemma digit_slug c : is_digit_char c = true → slug_char c = true.
Proof. unfold slug_char. intros ->. by rewrite orb_true_r. Qed.

Lemma is_slug_dns s : is_slug s → all_chars dns_char s.
Proof. apply all_chars_weaken, slug_char_dns. Qed.
Lemma slug_without (d : ascii) s : is_slug s → (d = "."%char ∨ d = "/"%char ∨ d = "?"%char) →
  all_chars (λ c, negb (Ascii.eqb d c)) s.
Proof.
  intros H Hd. eapply all_chars_weaken; [|exact H]. intros c (H1 & H2 & H3)%slug_char_excludes.
  destruct Hd as [->|[->| ->]]; by apply negb_true_iff.
Qed.
Lemma is_slug_str_of_Z n : 0 ≤ n → is_slug (Py.str_of_Z n).
Proof. intros Hn. eapply all_chars_weaken; [apply digit_slug|by apply str_of_Z_digits]. Qed.

Lemma lower_dns s : all_chars dns_char s → Py.lower s = s.
Proof.
  induction s as [|c s IH]; intros H; [done|]. inversion H as [|? ? Hc Hs]; subst.
  apply dns_char_normal in Hc as (_ & Hc & _). simpl. by rewrite Hc, IH.
Qed.
Lemma truthy_lower s : Py.truthy (Py.lower s) = Py.truthy s.
Proof. by destruct s. Qed.
Lemma strip_dns s : all_chars dns_char s → Py.strip s = s.
Proof.
  intros H. apply strip_no_space. eapply all_chars_weaken; [|exact H].
  intros c (-> & _)%dns_char_normal. done.
Qed.
Lemma strip_dots_idem s : Py.strip_dots (Py.strip_dots s) = Py.strip_dots s.
Proof. unfold Py.strip_dots. rewrite Py.on_chars_on_chars. unfold Py.on_chars. by rewrite Py.strip_by_idem. Qed.

(** What may follow a host name: nothing, or a port. *)
Definition port_suffix (p : string) : Prop := p = ""%string ∨ ∃ r, p = String ":" r.
Lemma before_colon_port s p : all_chars dns_char s → port_suffix p → before_colon (s ++ p) = s.
Proof.
  intros H Hp. assert (Hc : all_chars (λ d, negb (Ascii.eqb ":" d)) s).
  { eapply all_chars_weaken; [|exact H]. intros c (_ & _ & ->)%dns_char_normal. done. }
  clear H. destruct Hp as [->|[r ->]]; [|unfold before_colon; by rewrite partition_host].
  unfold before_colon. induction s as [|c s IH]; [done|]. inversion Hc as [|? ? H1 H2]; subst.
  change (String c s ++ "")%string with (String c (s ++ "")). cbn [Py.partition].
  rewrite (proj1 (negb_true_iff _) H1). specialize (IH H2).
  destruct (Py.partition ":" (s ++ "")) as [a b]. cbn [fst] in *. by rewrite IH.
Qed.
Lemma host_clean_dns s p : all_chars dns_char s → port_suffix p → Py.lower (before_colon (s ++ p)) = s.
Proof. intros H Hp. by rewrite before_colon_port, lower_dns. Qed.

Lemma substring_app_l a b : substring 0 (String.length a) (a ++ b) = a.
Proof. induction a as [|c a IH]; simpl; [by destruct b|]. by f_equal. Qed.
Lemma substring_all b : substring 0 (String.length b) b = b.
Proof. induction b as [|c b IH]; simpl; [done|]. by f_equal. Qed.
Lemma substring_app_r a b : substring (String.length a) (String.length b) (a ++ b) = b.
Proof. induction a as [|c a IH]; simpl; [apply substring_all|exact IH]. Qed.
Lemma without_suffix_app a b : without_suffix b (a ++ b) = Some a.
Proof.
  unfold without_suffix. rewrite length_append, Nat.add_sub, substring_app_l, substring_app_r.
  rewrite String.eqb_refl. by rewrite (proj2 (Nat.leb_le _ _)) by lia.
Qed.
Lemma substring_split n s : (n ≤ String.length s)%nat →
  s = (substring 0 n s ++ substring n (String.length s - n) s)%string.
Proof.
  revert n. induction s as [|c s IH]; intros [|n] H; simpl in *; try done; try lia.
  - by rewrite substring_all.
  - apply (f_equal (String c)), IH. lia.
Qed.
Lemma without_suffix_Some s b a : without_suffix b s = Some a → s = (a ++ b)%string.
Proof.
  unfold without_suffix. intros H. case_match eqn:E; [|done]. injection H as <-.
  apply andb_true_iff in E as [Hl%Nat.leb_le He%String.eqb_eq].
  rewrite (substring_split (String.length s - String.length b) s) at 1 by lia. f_equal.
  rewrite <- He at 3. f_equal. lia.
Qed.

Lemma after_literal_app p s : after_literal p (p ++ s) = Some s.
Proof. induction p as [|c p IH]; simpl; [done|]. by rewrite Ascii.eqb_refl. Qed.
Lemma after_literal_stop p s c r : all_chars (λ d, negb (Ascii.eqb c d)) p →
  after_literal p (s ++ String c r) = (λ x, (x ++ String c r)%string) <$> after_literal p s.
Proof.
  revert s. induction p as [|d p IH]; intros s H; [done|]. inversion H as [|? ? Hd Hp]; subst.
  destruct s as [|e s]; simpl.
  - rewrite Ascii.eqb_sym, (proj1 (negb_true_iff _) Hd). done.
  - destruct (Ascii.eqb d e); [by apply IH|done].
Qed.

Lemma span_stop P s c r : P c = false →
  span P (s ++ String c r) = let '(a, b) := span P s in (a, (b ++ String c r)%string).
Proof.
  intros Hc. induction s as [|d s IH]; simpl; [by rewrite Hc|]. destruct (P d); [|done].
  rewrite IH. by destruct (span P s).
Qed.
Lemma span_all P s : all_chars P s → span P s = (s, ""%string).
Proof.
  induction s as [|c s IH]; intros H; [done|]. inversion H as [|? ? Hc Hs]; subst. simpl.
  by rewrite Hc, IH.
Qed.
Lemma span_rest_head P s a c b : span P s = (a, String c b) → P c = false.
Proof.
  revert a. induction s as [|d s IH]; intros a H; simpl in H; [done|].
  destruct (P d) eqn:Hd; [destruct (span P s) as [x y]; injection H as <- ->; by eapply IH|congruence].
Qed.
Lemma until_app P a b : all_chars (λ d, negb (P d)) a → Py.until P (a ++ b) = (a ++ Py.until P b)%string.
Proof.
  intros H. induction a as [|d a IH]; [done|]. inversion H as [|? ? Hd Ha]; subst.
  change (String d a ++ b)%string with (String d (a ++ b)). cbn [Py.until].
  rewrite (proj1 (negb_true_iff _) Hd). by apply (f_equal (String d)), IH.
Qed.
Lemma after_literal_Some p s r : after_literal p s = Some r → s = (p ++ r)%string.
Proof.
  revert s. induction p as [|c p IH]; intros s H; simpl in H; [by injection H as ->|].
  destruct s as [|d s]; [done|]. destruct (Ascii.eqb_spec c d) as [<-|]; [|done].
  by apply (f_equal (String c)), IH.
Qed.
Lemma span_split P s a b : span P s = (a, b) → s = (a ++ b)%string.
Proof.
  revert a. induction s as [|c s IH]; intros a H; simpl in H; [by injection H as <- <-|].
  destruct (P c); [|by injection H as <- <-]. destruct (span P s) as [x y]. injection H as <- <-.
  by apply (f_equal (String c)), IH.
Qed.
End texts.

(** ** Labels that name a workspace by number *)

Section labels.

(** The digits of a label [ws-(\d+)(-[a-z0-9-]+)?] *)
Definition ws_label (s : string) : option string :=
  rest ← after_literal "ws-" s;
  let '(ds, rest) := span is_digit_char rest in
  if negb (Py.truthy ds) then None else
  match rest with
  | EmptyString => Some ds
  | String "-" r => if Py.truthy r then Some ds else None
  | _ => None
  end.

Lemma ws_host_match_label s r : is_slug s → ws_host_match (s ++ String "." r) = ws_label s.
Proof.
  intros Hs. unfold ws_host_match, ws_label. rewrite after_literal_stop by (by repeat constructor).
  destruct (after_literal "ws-" s) as [t|] eqn:Ht; [|done]. apply after_literal_Some in Ht as ->.
  apply all_chars_app in Hs as [_ Hs]. cbn [fmap option_fmap option_map mbind option_bind].
  rewrite span_stop by done. destruct (span is_digit_char t) as [ds u] eqn:Hu.
  apply span_split in Hu as ->. apply all_chars_app in Hs as [_ Hs].
  destruct (negb (Py.truthy ds)); [done|]. destruct u as [|c u]; [done|].
  inversion Hs as [|? ? Hc Hu]; subst. change (String c u ++ String "." r)%string with (String c (u ++ String "." r)).
  destruct (decide (c = "-"%char)) as [->|Hne].
  - rewrite span_stop, span_all by done. done.
  - destruct c as [[] [] [] [] [] [] [] []]; try done.
Qed.

(** A user whose subdomain has this form shares the name space of the workspace hosts. *)
Definition legacy_shaped (sub : string) : bool :=
  bool_decide (is_Some (ws_label sub)) || Py.truthy sub && forallb is_digit_char (list_ascii_of_string sub).

(** A host header [host] or [host:port]. *)
Record host_header (h host : string) : Prop := {
  hh_stripped : Py.strip h = h;
  hh_port : ∃ p, port_suffix p ∧ h = (host ++ p)%string
}.
Lemma host_header_clean h host : host_header h host → all_chars dns_char host →
  Py.lower (before_colon (Py.strip h)) = host.
Proof. intros [-> (p & Hp & ->)] H. by apply host_clean_dns. Qed.

Lemma strip_dots_none s : is_slug s → Py.strip_dots s = s.
Proof.
  intros H. unfold Py.strip_dots, Py.on_chars. rewrite <- (string_of_list_ascii_of_string s) at 2. f_equal.
  assert (Hid : ∀ l, Forall (λ c, slug_char c = true) l → Py.lstrip_by (Ascii.eqb ".") l = l).
  { intros l Hl. apply Py.lstrip_by_id. intros c r ->. inversion Hl; subst. by apply slug_char_excludes. }
  unfold Py.strip_by, Py.rstrip_by. rewrite (Hid _ H), Hid; [apply rev_involutive|]. by apply Forall_rev.
Qed.
Lemma contains_char_none c s : all_chars (λ d, negb (Ascii.eqb c d)) s → Py.contains (String c "") s = false.
Proof.
  induction s as [|d s IH]; intros H; [done|]. inversion H as [|? ? Hd Hs]; subst.
  change (Py.startswith (String c "") (String d s) || Py.contains (String c "") s = false).
  rewrite IH by done. rewrite orb_false_r, startswith_cons.
  destruct (ascii_dec c d) as [->|]; [by rewrite Ascii.eqb_refl in Hd|done].
Qed.

Lemma first_label a b x y : is_slug a → is_slug b → (a ++ "." ++ x = b ++ "." ++ y)%string → a = b.
Proof.
  intros Ha Hb H. apply (f_equal (Py.partition ".")) in H. revert H.
  change ("." ++ x)%string with (String "." x). change ("." ++ y)%string with (String "." y).
  rewrite !partition_host by (apply slug_without; auto). congruence.
Qed.
Lemma truthy_str_of_Z n : Py.truthy (Py.str_of_Z n) = true.
Proof.
  apply truthy_true. intros H. pose proof (Py.parse_int_str_of_Z n) as Hp. by rewrite H in Hp.
Qed.
Lemma forallb_chars P s : forallb P (list_ascii_of_string s) = true ↔ all_chars P s.
Proof. unfold all_chars. rewrite Forall_forall, forallb_forall. by setoid_rewrite list_elem_of_In. Qed.

Lemma host_dns sub base : is_slug sub → all_chars dns_char base → all_chars dns_char (sub ++ "." ++ base).
Proof. intros Hs Hb. rewrite !all_chars_app. split_and!; [by apply is_slug_dns|by repeat constructor|done]. Qed.

Lemma plain_label_no_id h sub base dom : host_header h (sub ++ "." ++ base) →
  is_slug sub → legacy_shaped sub = false → all_chars dns_char base →
  workspace_id_from_host h dom = None.
Proof.
  intros Hh Hs [Hl Hd]%orb_false_iff Hb. unfold workspace_id_from_host.
  rewrite (host_header_clean _ _ Hh) by (by apply host_dns).
  change ("." ++ base)%string with (String "." base). rewrite ws_host_match_label by done.
  apply bool_decide_eq_false in Hl. destruct (ws_label sub); [destruct Hl; eauto|].
  destruct (negb _); [done|]. destruct (without_suffix _ _) as [x|] eqn:Hx; [|done].
  apply without_suffix_Some in Hx. cbn [mbind option_bind].
  destruct (Py.truthy x && _) eqn:E; [|done]. apply andb_true_iff in E as [Ht Hx'].
  enough (sub = x) as -> by (by rewrite Ht, Hx' in Hd). apply forallb_chars in Hx'.
  eapply first_label; [done| |exact Hx]. by eapply all_chars_weaken; [apply digit_slug|].
Qed.

Lemma numbered_label_id h n key rest dom : host_header h (key ++ "." ++ rest) →
  is_slug key → ws_label key = Some (Py.str_of_Z n) → 0 ≤ n → Py.len (Py.str_of_Z n) ≤ 4300 →
  all_chars dns_char rest → workspace_id_from_host h dom = Some n.
Proof.
  intros Hh Hk Hl Hn Hlen Hr. unfold workspace_id_from_host.
  rewrite (host_header_clean _ _ Hh) by (by apply host_dns).
  change ("." ++ rest)%string with (String "." rest). rewrite ws_host_match_label, Hl by done.
  unfold int_of_digits. rewrite (proj2 (Z.leb_le _ _)) by done. by apply Py.digits_str_of_Z.
Qed.

Lemma ws_label_number n : 0 ≤ n → ws_label ("ws-" ++ Py.str_of_Z n) = Some (Py.str_of_Z n).
Proof.
  intros Hn. unfold ws_label. rewrite after_literal_app. cbn [mbind option_bind].
  rewrite span_all by (by apply str_of_Z_digits). rewrite truthy_str_of_Z. done.
Qed.
Lemma ws_label_keyed n key : 0 ≤ n → Py.truthy key = true →
  ws_label ("ws-" ++ Py.str_of_Z n ++ "-" ++ key) = Some (Py.str_of_Z n).
Proof.
  intros Hn Hk. unfold ws_label. rewrite after_literal_app. cbn [mbind option_bind].
  change ("-" ++ key)%string with (String "-" key).
  rewrite span_stop, span_all by (done || by apply str_of_Z_digits).
  rewrite truthy_str_of_Z. change (""%string ++ String "-" key)%string with (String "-" key).
  cbn [negb]. by rewrite Hk.
Qed.
End labels.

(** ** The addresses of workspaces *)

Section addresses.
Context {env : Env} {tokens : TokenHash}.

Definition normal_domain (s : string) : Prop := Py.truthy s = true ∧ all_chars dns_char s.

(** Domains in lower case, as the deployment configures them. *)
Record normal_domains : Prop := {
  nd_public : normal_domain effective_public_base_domain;
  nd_legacy : normal_domain (clean_domain (Py.or_else (cfg_base_domain env_settings) "app.devnest.local"))
}.

(** No two users share a subdomain, no two live workspaces of a user a slug. *)
Record distinct_slugs (db : Db) : Prop := {
  ds_users i j u v sub : users db !! i = Some u → users db !! j = Some v →
    ua_route_subdomain_slug u = Some sub → ua_route_subdomain_slug v = Some sub → i = j;
  ds_workspaces i j w v : workspaces db !! i = Some w → workspaces db !! j = Some v →
    ws_owner_user_id w = ws_owner_user_id v → Py.lower (ws_url_slug w) = Py.lower (ws_url_slug v) →
    ws_status w ≠ WorkspaceStatus.DELETED → ws_status v ≠ WorkspaceStatus.DELETED → i = j
}.

(** A live workspace whose stored address is the one [public_identity] gave it. *)
Record addressable (db : Db) (wid : Z) (w : Workspace) (u : UserAuth) : Prop := {
  ad_row : workspaces db !! wid = Some w;
  ad_id : 0 ≤ wid ∧ Py.len (Py.str_of_Z wid) ≤ 4300;
  ad_live : ws_status w ≠ WorkspaceStatus.DELETED;
  ad_owner : users db !! ws_owner_user_id w = Some u;
  ad_gateway : cfg_gateway_enabled env_settings = true;
  ad_identity : public_identity (Some u) wid w = w;
  ad_slug : is_slug (ws_url_slug w);
  ad_key k : ws_project_storage_key w = Some k → is_slug k;
  ad_subdomain sub : ua_route_subdomain_slug u = Some sub → is_slug sub ∧ legacy_shaped sub = false
}.

(** What may follow the stored path. *)
Definition below_prefix (rest : string) : Prop :=
  rest = ""%string ∨ ∃ c t, rest = String c t ∧ (c = "/"%char ∨ c = "?"%char).

(** A request Traefik's rule for [w] sends to it: the stored host, and a path below
    the stored prefix. *)
Record addressed_to (w : Workspace) (r : ForwardAuthRequest) : Prop := {
  at_host host : ws_public_host w = Some host → host_header (requested_host r) host;
  at_path prefix : ws_gateway_path_prefix w = Some prefix →
    ∃ rest, requested_uri r = (prefix ++ rest)%string ∧ below_prefix rest
}.

Lemma slug_of_prefixed slug rest : is_slug slug → Py.truthy slug = true → below_prefix rest →
  let uri := ("/workspaces/" ++ slug ++ rest)%string in
  Py.strip uri = uri → extract_workspace_slug_from_path uri = Some slug.
Proof.
  intros Hs Ht Hrest uri Hstrip. unfold extract_workspace_slug_from_path. rewrite Hstrip.
  set (t := Py.until (Ascii.eqb "?") rest).
  assert (Hpath : Py.until (Ascii.eqb "?") uri = ("/workspaces/" ++ slug ++ t)%string).
  { unfold uri. by rewrite !until_app by (by repeat constructor || by apply slug_without; auto). }
  rewrite Hpath. change (Py.truthy uri) with true. cbn [negb].
  change (slug_of_path ("/workspaces/" ++ slug ++ t) = Some slug).
  unfold slug_of_path. rewrite after_literal_app, until_app by (apply slug_without; auto).
  assert (Hend : Py.until (Ascii.eqb "/") t = ""%string).
  { unfold t. by destruct Hrest as [->|(c & x & -> & [->| ->])]. }
  rewrite Hend, append_nil_r, Ht. by rewrite strip_dns, lower_dns, Ht by (by apply is_slug_dns).
Qed.

Lemma tenant_host_label h sub base : host_header h (sub ++ "." ++ base) → is_slug sub →
  Py.truthy sub = true → normal_domain base → Py.strip_dots base = base →
  parse_workspace_host h base = Some sub.
Proof.
  intros Hh Hs Ht [Hb Hbd] Hdots. unfold parse_workspace_host.
  rewrite (host_header_clean _ _ Hh) by (by apply host_dns).
  rewrite strip_dns, lower_dns, Hdots, Hb by done.
  assert (Hne : Py.truthy (sub ++ "." ++ base) = true) by (by destruct sub).
  rewrite Hne. cbn [negb orb]. rewrite without_suffix_app.
  rewrite (strip_dns sub), strip_dots_none, Ht by (by apply is_slug_dns || done).
  cbn [negb orb]. rewrite contains_char_none; [done|]. apply slug_without; auto.
Qed.

Lemma public_domain_trimmed : Py.strip_dots effective_public_base_domain = effective_public_base_domain.
Proof.
  unfold effective_public_base_domain, Py.or_else, clean_domain. case_match; apply strip_dots_idem.
Qed.

(** A workspace host names its workspace by number. *)
Lemma legacy_address_resolves db wid h key :
  0 ≤ wid → Py.len (Py.str_of_Z wid) ≤ 4300 → normal_domains → (∀ k, key = Some k → is_slug k) →
  host_header h (gateway_unique_public_host wid (cfg_base_domain env_settings) key) →
  ∀ uri, resolve_workspace_id_from_gateway_request h uri db = Some wid.
Proof.
  intros Hw Hlen [_ [_ Hd]] Hkey Hh uri. unfold resolve_workspace_id_from_gateway_request.
  enough (workspace_id_from_host h (clean_domain (cfg_base_domain env_settings)) = Some wid) as -> by done.
  assert (Hk : is_slug (Py.lower (Py.strip_opt key))).
  { destruct key as [k|]; [|constructor]. unfold Py.strip_opt. cbn [default].
    pose proof (Hkey k eq_refl) as Hk. by rewrite strip_dns, lower_dns by (by apply is_slug_dns). }
  unfold gateway_unique_public_host in Hh. cbv zeta in Hh.
  set (s := Py.lower (Py.strip_opt key)) in *.
  assert (Hw' : is_slug ("ws-" ++ Py.str_of_Z wid)).
  { apply all_chars_app. split; [by repeat constructor|by apply is_slug_str_of_Z]. }
  destruct (Py.truthy s) eqn:Es.
  - eapply numbered_label_id; [exact Hh| |by rewrite append_assoc, ws_label_keyed|done|done|done].
    apply all_chars_app. split; [done|]. apply all_chars_app. split; [by repeat constructor|done].
  - eapply numbered_label_id; [exact Hh|done|by apply ws_label_number|done|done|done].
Qed.

(** A user's host and a path below [/workspaces/<slug>] name his workspace. *)
Lemma tenant_address_resolves db wid w u sub h uri rest :
  workspaces db !! wid = Some w → ws_status w ≠ WorkspaceStatus.DELETED →
  users db !! ws_owner_user_id w = Some u → ua_route_subdomain_slug u = Some sub →
  is_slug sub → Py.truthy sub = true → legacy_shaped sub = false →
  is_slug (ws_url_slug w) → Py.truthy (ws_url_slug w) = true →
  distinct_slugs db → normal_domains → tenant_workspace_urls_enabled = true →
  host_header h (sub ++ "." ++ effective_public_base_domain) →
  Py.strip uri = uri → uri = ("/workspaces/" ++ ws_url_slug w ++ rest)%string → below_prefix rest →
  resolve_workspace_id_from_gateway_request h uri db = Some wid.
Proof.
  intros Hrow Hlive Hu Hus Hs Hts Hl Hslug Htl Hdist [Hpub _] Hten Hh Hstrip Huri Hrest.
  unfold resolve_workspace_id_from_gateway_request.
  rewrite (plain_label_no_id _ sub effective_public_base_domain) by (done || apply Hpub). rewrite Hten. cbn [negb].
  rewrite (tenant_host_label _ sub) by (done || apply public_domain_trimmed). cbn [mbind option_bind].
  assert (Hor : Py.or_else uri "/" = uri) by (by rewrite Huri). rewrite Hor, Huri.
  rewrite slug_of_prefixed by (done || congruence). cbn [mbind option_bind].
  assert (Hfu : user_by_subdomain sub db = Some (ws_owner_user_id w, u)).
  { apply first_row_unique; [done..|]. intros k v Hk Hv. by eapply (ds_users _ Hdist). }
  rewrite Hfu. cbn [mbind option_bind fst].
  assert (Hfw : workspace_by_slug (ws_owner_user_id w) (ws_url_slug w) db = Some (wid, w)).
  { apply first_row_unique; [done..|]. intros k v Hk (Ho & Hsl & Hd). by eapply (ds_workspaces _ Hdist). }
  by rewrite Hfw.
Qed.

(** A request addressed to a workspace resolves to it. *)
Lemma address_resolves db wid w u r : addressable db wid w u → normal_domains → distinct_slugs db →
  addressed_to w r →
  resolve_workspace_id_from_gateway_request (requested_host r) (requested_uri r) db = Some wid.
Proof.
  intros [Hrow [Hid Hlen] Hlive Hu Hgw Hident Hslug Hkey Hsub] Hdom Hdist [Hhost Hpath].
  unfold public_identity in Hident. cbv zeta in Hident. rewrite Hgw in Hident. cbn [negb] in Hident.
  assert (Hsl : Py.lower (Py.strip (ws_url_slug w)) = ws_url_slug w).
  { by rewrite strip_dns, lower_dns by (by apply is_slug_dns). }
  rewrite Hsl in Hident. destruct (_ && _ && _) eqn:E.
  - apply andb_true_iff in E as [[Ht Hts]%andb_true_iff Htl].
    pose proof (f_equal ws_public_host Hident) as Hh. pose proof (f_equal ws_gateway_path_prefix Hident) as Hp.
    cbn in Hh, Hp. specialize (Hhost _ (eq_sym Hh)). destruct (Hpath _ (eq_sym Hp)) as (rest & Huri & Hrest).
    destruct (ua_route_subdomain_slug u) as [x|] eqn:Hx; [|by cbn in Hts]. destruct (Hsub x eq_refl) as [Hxs Hxl].
    assert (Hsx : Py.lower (Py.strip_opt (Some x)) = x).
    { unfold Py.strip_opt. cbn [default]. by rewrite strip_dns, lower_dns by (by apply is_slug_dns). }
    rewrite Hsx in *. eapply tenant_address_resolves; try done.
    + unfold requested_uri. apply Py.strip_idem.
    + by rewrite Huri, append_assoc.
  - pose proof (f_equal ws_public_host Hident) as Hh. cbn in Hh.
    by eapply legacy_address_resolves, Hhost, eq_sym, Hh.
Qed.

(** A session row that [token] opens for workspace [wid]. *)
Definition live_session (db : Db) (wid : Z) (token : string) : Prop :=
  ∃ sid ss, session_by_hash (hash_workspace_session_token token) db = Some (sid, ss) ∧
    sess_workspace_id ss = wid ∧ sess_status ss = WorkspaceSessionStatus.ACTIVE ∧ env_now < sess_expires_at ss.

Lemma forward_auth_decides r db wid : cfg_gateway_auth_enabled env_settings = true →
  resolve_workspace_id_from_gateway_request (requested_host r) (requested_uri r) db = Some wid →
  gateway_forward_auth r db = Allowed ↔
    Py.truthy (presented_token r) = true ∧ live_session db wid (presented_token r) ∧
    ws_status <$> workspaces db !! wid = Some WorkspaceStatus.RUNNING.
Proof.
  intros Hen Hres. unfold gateway_forward_auth. rewrite Hen, Hres. cbn [negb]. cbv zeta. unfold live_session.
  destruct (Py.truthy (presented_token r)); cbn [negb]; [|by split; [|intros []]].
  destruct (session_by_hash _ db) as [[sid ss]|]; [|by split; [|intros (_ & (? & ? & ? & _) & _)]].
  transitivity ((sess_workspace_id ss = wid ∧ sess_status ss = WorkspaceSessionStatus.ACTIVE ∧
                 env_now < sess_expires_at ss) ∧ ws_status <$> workspaces db !! wid = Some WorkspaceStatus.RUNNING).
  - destruct (Z.eqb_spec (sess_workspace_id ss) wid) as [->|]; cbn [negb]; [|by split; [|intros [[? _] _]]].
    case_bool_decide; cbn [negb]; [|by split; [|intros [(_ & ? & _) _]]].
    destruct (Z.leb_spec (sess_expires_at ss) env_now); [split; [done|intros [(_ & _ & ?) _]; lia]|].
    destruct (workspaces db !! wid) as [w|]; [|by split; [|intros []]]. cbn [fmap option_fmap option_map].
    case_bool_decide as Hr; [rewrite Hr|]; split; try done. intros [_ [= ?]]. done.
  - split; [intros [? ?]; split_and!; [done|eauto|done]|].
    intros (_ & (sid' & ss' & [= <- <-] & H) & ?). done.
Qed.

(** C35. A request to the address of an addressable workspace (its stored host, and its
    stored path prefix or below it), with gateway authentication on, domains in normal form
    and distinct slugs, is let through exactly when it carries the token of an ACTIVE,
    unexpired session of that workspace and the workspace is RUNNING; both address
    forms, one host per workspace and one host per user, are read back to the
    workspace they were made for. *)
Theorem gateway_auth_guards_routed_workspace (db : Db) (wid : Z) (w : Workspace) (u : UserAuth)
    (r : ForwardAuthRequest) :
  cfg_gateway_auth_enabled env_settings = true → normal_domains → distinct_slugs db →
  addressable db wid w u → addressed_to w r →
  gateway_forward_auth r db = Allowed ↔
    Py.truthy (presented_token r) = true ∧ live_session db wid (presented_token r) ∧
    ws_status w = WorkspaceStatus.RUNNING.
Proof.
  intros Hen Hdom Hdist Had Hto. rewrite (forward_auth_decides r db wid) by (done || by eapply address_resolves).
  rewrite (ad_row _ _ _ _ Had). cbn [fmap option_fmap option_map].
  split; intros (? & ? & Hr); (split_and!; [done..|]); congruence.
Qed.

(** A user whose subdomain has the form of a workspace host, [ws-<n>], receives his
    requests under a host the handler reads as workspace [n]: every request routed to
    any of his workspaces is judged by the sessions of workspace [n]. *)
Lemma numbered_subdomain_is_another_workspace (db : Db) (wid n : Z) (w : Workspace) (u : UserAuth)
    (r : ForwardAuthRequest) :
  cfg_gateway_auth_enabled env_settings = true → cfg_gateway_enabled env_settings = true →
  normal_domains → tenant_workspace_urls_enabled = true →
  0 ≤ n → Py.len (Py.str_of_Z n) ≤ 4300 → ua_route_subdomain_slug u = Some ("ws-" ++ Py.str_of_Z n)%string →
  Py.truthy (Py.strip (ws_url_slug w)) = true → public_identity (Some u) wid w = w → addressed_to w r →
  gateway_forward_auth r db = Allowed ↔
    Py.truthy (presented_token r) = true ∧ live_session db n (presented_token r) ∧
    ws_status <$> workspaces db !! n = Some WorkspaceStatus.RUNNING.
Proof.
  intros Hen Hgw [[_ Hpub] _] Hten Hn Hlen Hsub Hslug Hident [Hhost _]. apply forward_auth_decides; [done|].
  assert (Hs : is_slug ("ws-" ++ Py.str_of_Z n)).
  { apply all_chars_app. split; [by repeat constructor|by apply is_slug_str_of_Z]. }
  pose proof (f_equal ws_public_host Hident) as Hh. unfold public_identity in Hh. cbv zeta in Hh.
  rewrite Hgw, Hten, Hsub in Hh. unfold Py.strip_opt in Hh. cbn [default negb] in Hh.
  rewrite strip_dns, lower_dns in Hh by (by apply is_slug_dns).
  change (Py.truthy ("ws-" ++ Py.str_of_Z n)) with true in Hh. rewrite truthy_lower, Hslug in Hh. cbn in Hh.
  specialize (Hhost _ (eq_sym Hh)). unfold resolve_workspace_id_from_gateway_request.
  by rewrite (numbered_label_id _ n _ _ _ Hhost) by (done || by apply ws_label_number).
Qed.
End addresses.
