(* ===== verification/RouteAdminApp.v ===== *)
(** * RouteAdminApp: the route registration service of the edge

    [src/devnest-gateway/route_admin/route_admin_app.py]: the service behind
    Gateway.v's client.  It keeps the table of workspace routes in memory, writes
    the whole table as a Traefik document after every change, and reads that
    document back when it starts.  YAML and the file are parameters ([RoutesFile]);
    requests are served one at a time, as [_lock] makes them. *)

From S2P Require Import Prelude PyValues Models Session Services Scheduling.
From S2P Require Import Gateway.
From S2P Require Import Sessions Routing GatewayAuth.

(** ** The file of the routes *)

(** [ROUTES_FILE] on a disk [D]: [rf_load] is [None] when there is no file or it
    cannot be parsed; [rf_store] writes a temporary file and renames it. *)
Class RoutesFile (D : Type) := {
  rf_load : D → option PyValue;
  rf_store : PyValue → D → D * (unit + string)
}.

(** The process environment. *)
Class RouteAdminEnv := {
  DEVNEST_GATEWAY_AUTH_ENABLED : option string;
  DEVNEST_TLS_ENABLED : option string;
  DEVNEST_GATEWAY_PUBLIC_SCHEME : option string;
  DEVNEST_BASE_DOMAIN : option string
}.

(** ** Settings *)

Section settings.
Context {renv : RouteAdminEnv}.

Definition env_flag (v : option string) : bool :=
  bool_decide (Py.lower (Py.strip_opt v) ∈ ["1"; "true"; "yes"; "on"]%string).
Definition GATEWAY_AUTH_ENABLED : bool := env_flag DEVNEST_GATEWAY_AUTH_ENABLED.
Definition TLS_ENABLED : bool := env_flag DEVNEST_TLS_ENABLED.

Definition env_scheme_https : bool := String.eqb (Py.lower (Py.strip_opt DEVNEST_GATEWAY_PUBLIC_SCHEME)) "https".
Definition workspace_https_enabled : bool := TLS_ENABLED || env_scheme_https.
Definition base_domain : string := Py.lower (Py.strip_opt DEVNEST_BASE_DOMAIN).
Definition use_dns_wildcard_acme : bool :=
  if negb workspace_https_enabled then false
  else if negb (Py.truthy base_domain) || Py.contains "sslip.io" base_domain then false
  else true.

Definition tls_router_options : list (option string * PyValue) :=
  if negb workspace_https_enabled then []
  else if use_dns_wildcard_acme then
    dict_of [("certResolver", PStr "letsencrypt-dns");
             ("domains", PList [PDict (dict_of [("main", PStr ("*." ++ base_domain));
                                               ("sans", PList [PStr base_domain])])])]%string
  else [].
End settings.

(** ** Names and rules *)

Definition ROUTER_PREFIX : string := "devnest-reg-".
Definition router_name (workspace_id : string) : string := (ROUTER_PREFIX ++ workspace_id)%string.
Definition upstream_name (workspace_id : string) : string := (router_name workspace_id ++ "-upstream")%string.

(** [_SAFE_WID.match]: [$] also matches before a final newline. *)
Definition safe_wid_char (c : ascii) : bool :=
  alphanumeric c || Ascii.eqb "." c || Ascii.eqb "_" c || Ascii.eqb "-" c.
Definition safe_wid (s : string) : bool :=
  let body := default s (without_suffix newline s) in
  (1 <=? Py.len body) && (Py.len body <=? 128) && forallb safe_wid_char (list_ascii_of_string body).

Definition wid_from_router_name (rname : string) : option string :=
  rest ← after_literal ROUTER_PREFIX rname;
  let rest := default rest (without_suffix "-http" rest) in
  if negb (Py.truthy rest) || negb (safe_wid rest) then None else Some rest.

Definition not_backtick (c : ascii) : bool := negb (Ascii.eqb "`" c).
Definition quoted (open s : string) : option (string * string) :=
  rest ← after_literal open s;
  let '(group, rest) := span not_backtick rest in
  if negb (Py.truthy group) then None else
  rest ← after_literal "`)" rest;
  Some (group, rest).
Definition skip_blanks : string → string := Py.on_chars (Py.lstrip_by Py.is_space).

(** The group of [_HOST_RULE], the groups of [_HOST_RULE_PREFIX]: the characters a
    repetition takes cannot start what follows it, so no backtracking helps. *)
Definition HOST_RULE (rule : string) : option string :=
  '(host, rest) ← quoted "Host(`" rule;
  if Py.truthy (skip_blanks rest) then None else Some host.
Definition HOST_RULE_PREFIX (rule : string) : option (string * string) :=
  '(host, rest) ← quoted "Host(`" rule;
  rest ← after_literal "&&" (skip_blanks rest);
  '(path, rest) ← quoted "PathPrefix(`" (skip_blanks rest);
  if Py.truthy (skip_blanks rest) then None else Some (host, path).

(** [_normalize_target] *)
Definition normalize_registered_target (raw : string) : string + string :=
  let t := Py.strip raw in
  if negb (Py.truthy t) then inr "target is empty"%string else
  let t := if Py.contains "://" t then t else ("http://" ++ t)%string in
  if negb (has_http_scheme t)
  then inr "target must be http(s) URL or host:port"%string else inl t.

(** ** The table and its document *)

Record Route := mkRoute {
  reg_workspace_id : string;
  reg_public_host : string;
  reg_target : string;
  reg_path_prefix : string
}.
Definition sorted_routes (routes : gmap string Route) : list (string * Route) :=
  sort_by (λ a b, String.leb a.1 b.1) (map_to_list routes).

Section document.
Context {renv : RouteAdminEnv}.

Definition route_rule (row : Route) : string :=
  let path_prefix := Py.strip (reg_path_prefix row) in
  let rule := ("Host(`" ++ reg_public_host row ++ "`)")%string in
  if Py.truthy path_prefix then (rule ++ " && PathPrefix(`" ++ path_prefix ++ "`)")%string else rule.

Definition WORKSPACE_AUTH_MIDDLEWARE : string := "devnest-workspace-auth@file".
Definition strip_name (wid : string) : string := (router_name wid ++ "-stripprefix")%string.
Definition route_middlewares (wid : string) (row : Route) : list string :=
  (if GATEWAY_AUTH_ENABLED then [WORKSPACE_AUTH_MIDDLEWARE] else []) ++
  (if Py.truthy (Py.strip (reg_path_prefix row)) then [strip_name wid] else []).

Definition router_def (wid : string) (row : Route) (entrypoint : string) (with_tls : bool) : PyValue :=
  PDict (dict_of (
    [("rule", PStr (route_rule row)); ("entryPoints", PList [PStr entrypoint]);
     ("service", PStr (upstream_name wid))] ++
    (match route_middlewares wid row with
     | [] => []
     | mids => [("middlewares", PList (PStr <$> mids))]
     end) ++
    (if with_tls then [("tls", PDict tls_router_options)] else [])))%string.

Definition route_routers (kv : string * Route) : list (string * PyValue) :=
  let '(wid, row) := kv in
  if workspace_https_enabled then
    [(router_name wid, router_def wid row "websecure" true);
     ((router_name wid ++ "-http")%string, router_def wid row "web" false)]
  else [(router_name wid, router_def wid row "web" false)].
Definition route_service (kv : string * Route) : string * PyValue :=
  (upstream_name kv.1,
   PDict (dict_of [("loadBalancer", PDict (dict_of [("servers",
     PList [PDict (dict_of [("url", PStr (reg_target kv.2))])])]))]))%string.
Definition route_strip (kv : string * Route) : list (string * PyValue) :=
  let path_prefix := Py.strip (reg_path_prefix kv.2) in
  if Py.truthy path_prefix then
    [(strip_name kv.1, PDict (dict_of [("stripPrefix", PDict (dict_of [("prefixes", PList [PStr path_prefix])]))]))]%string
  else [].

(** What [_persist_locked] writes: the empty mapping for an empty table. *)
Definition routes_document (routes : gmap string Route) : PyValue :=
  if bool_decide (routes = ∅) then PDict [] else
  let rows := sorted_routes routes in
  let middlewares := dict_of (rows ≫= route_strip) in
  PDict (dict_of [("http", PDict (dict_of (
    [("routers", PDict (dict_of (rows ≫= route_routers)));
     ("services", PDict (dict_of (route_service <$> rows)))] ++
    (match middlewares with [] => [] | _ => [("middlewares", PDict middlewares)] end))))])%string.
End document.

(** ** Reading the document back *)

Section hydrate.
Context {repr : PyRepr}.

(** The router a workspace is read from: its own name, then its HTTP mirror. *)
Definition hydrated_router (routers : list (option string * PyValue)) (wid : string) : option PyValue :=
  match dict_get (router_name wid) routers with
  | Some rdef => Some rdef
  | None =>
      match dict_get (router_name wid ++ "-http") routers with
      | Some rdef => Some rdef
      | None => rname ← List.find (λ n, bool_decide (wid_from_router_name n = Some wid)) (dict_names routers);
                dict_get rname routers
      end
  end.

Definition hydrated_route (routers services : list (option string * PyValue)) (wid : string) : option Route :=
  rdef ← hydrated_router routers wid ≫= as_map;
  let rule := Py.strip (py_str (get_or "rule" (PStr "") rdef)) in
  '(public_host, path_prefix) ←
     match HOST_RULE_PREFIX rule with
     | Some (host, path) => Some (Py.strip host, Py.strip path)
     | None => host ← HOST_RULE rule; Some (Py.strip host, ""%string)
     end;
  svc ← dict_get (upstream_name wid) services ≫= as_map;
  lb ← as_map (get_or "loadBalancer" (PDict []) svc);
  servers ← as_list (get_or "servers" (PList []) lb);
  first ← head servers ≫= as_map;
  let target := Py.strip (py_str (get_or "url" (PStr "") first)) in
  if negb (Py.truthy target) then None else
  match normalize_registered_target target with
  | inr _ => None
  | inl target => Some (mkRoute wid public_host target path_prefix)
  end.

Definition hydrate_routes (raw : option PyValue) (routes : gmap string Route) : gmap string Route :=
  default routes (
    root ← raw ≫= as_map;
    http ← dict_get "http" root ≫= as_map;
    routers ← as_map (get_or "routers" (PDict []) http);
    services ← as_map (get_or "services" (PDict []) http);
    Some (foldl (λ routes wid, match hydrated_route routers services wid with
                               | Some row => <[wid := row]> routes
                               | None => routes
                               end)
                routes (remove_dups (omap wid_from_router_name (dict_names routers))))).
End hydrate.

(** ** The requests *)

Section service.
Context {D : Type} {renv : RouteAdminEnv} {repr : PyRepr} {file : RoutesFile D}.

Record App := mkApp { app_routes : gmap string Route; app_disk : D }.

(** The field limits of [RouteRegisterBody]. *)
Definition within_length (lo hi : Z) (s : string) : bool := (lo <=? Py.len s) && (Py.len s <=? hi).
Definition body_valid (body : RoutePayload) : bool :=
  within_length 1 128 (rp_workspace_id body) && within_length 1 512 (rp_public_host body) &&
  within_length 1 1024 (rp_target body) &&
  from_option (within_length 0 512) true (rp_path_prefix body) &&
  from_option (within_length 0 256) true (rp_node_key body) &&
  from_option (λ n, 1 <=? n) true (rp_execution_node_id body).

(** [_persist_locked]: an [OSError] leaves the file as it was. *)
Definition persist (routes : gmap string Route) (d : D) : App * (unit + string) :=
  let '(d, r) := rf_store (routes_document routes) d in (mkApp routes d, r).

(** Responses: a value, or the status of an error and its detail. *)
Definition app_register_route (body : RoutePayload) (a : App) : App * (Route + Z * string) :=
  if negb (body_valid body) then (a, inr (422, "validation error"%string)) else
  let wid := Py.strip (rp_workspace_id body) in
  if negb (safe_wid wid) then (a, inr (400, "invalid workspace_id"%string)) else
  match normalize_registered_target (rp_target body) with
  | inr detail => (a, inr (400, detail))
  | inl target =>
      let row := mkRoute wid (Py.strip (rp_public_host body)) target (Py.strip_opt (rp_path_prefix body)) in
      match persist (<[wid := row]> (app_routes a)) (app_disk a) with
      | (a, inl _) => (a, inl row)
      | (a, inr e) => (a, inr (500, e))
      end
  end.

Definition app_deregister_route (workspace_id : string) (a : App) : App * (unit + Z * string) :=
  let wid := Py.strip workspace_id in
  if negb (Py.truthy wid) then (a, inr (400, "empty workspace_id"%string)) else
  match persist (delete wid (app_routes a)) (app_disk a) with
  | (a, inl _) => (a, inl tt)
  | (a, inr e) => (a, inr (500, e))
  end.

Definition app_list_routes (a : App) : list Route := snd <$> sorted_routes (app_routes a).

(** [_lifespan] of a new process over the same file *)
Definition app_start (d : D) : App := mkApp (hydrate_routes (rf_load d) ∅) d.
Definition app_restart (a : App) : App := app_start (app_disk a).

(** The service as the client sees it: the JSON of a route, and any error status. *)
Definition listed_row (row : Route) : RouteRow :=
  mkRouteRow (reg_workspace_id row) (Some (reg_target row)) (Some (reg_public_host row))
    (Some (reg_path_prefix row)).
Definition without_status {A B} (f : A → B) (r : A + Z * string) : B + string :=
  match r with inl a => inl (f a) | inr (_, detail) => inr detail end.
#[local] Instance route_admin_app : RouteAdmin App := {
  ra_post_route body a := let '(a, r) := app_register_route body a in (a, without_status (λ _, tt) r);
  ra_delete_route wid a := let '(a, r) := app_deregister_route wid a in (a, without_status id r);
  ra_get_routes a := (a, inl (listed_row <$> app_list_routes a))
}.

(** The requests that change the table. *)
Inductive AppRequest := Register (body : RoutePayload) | Deregister (workspace_id : string).
Definition serve (a : App) (r : AppRequest) : App * (unit + string) :=
  match r with
  | Register body => ra_post_route body a
  | Deregister wid => ra_delete_route wid a
  end.
Definition serve_all (a : App) (rs : list AppRequest) : App := foldl (λ a r, (serve a r).1) a rs.
End service.

#[global] Arguments App : clear implicits.

(** The file returns the last document that was written to it in full. *)
Class RoutesFileLaws (D : Type) `{file : RoutesFile D} := {
  store_then_load doc d d' :
    dumpable doc = true → rf_store doc d = (d', inl tt) → rf_load d' = Some doc;
  failed_store_keeps doc d d' e : rf_store doc d = (d', inr e) → rf_load d' = rf_load d
}.

(** ** Names and rules as text *)

Section names.
Implicit Types (s wid : string).

Lemma append_inj_l a b s : (a ++ b = a ++ s)%string → b = s.
Proof. intros H. pose proof (after_literal_app a b) as H1. rewrite H, after_literal_app in H1. by injection H1. Qed.
Lemma append_inj_r a b s : (a ++ s = b ++ s)%string → a = b.
Proof. intros H. pose proof (without_suffix_app a s) as H1. rewrite H, without_suffix_app in H1. by injection H1. Qed.
Lemma without_suffix_None a b s : without_suffix s a = None → a ≠ (b ++ s)%string.
Proof. intros H ->. by rewrite without_suffix_app in H. Qed.

(** A workspace id whose router name is read back as it is. *)
Definition plain_wid wid : Prop :=
  safe_wid wid = true ∧ without_suffix "-http" wid = None ∧ Py.truthy wid = true.

Lemma router_name_read wid : plain_wid wid → wid_from_router_name (router_name wid) = Some wid.
Proof.
  intros (Hs & Hh & Ht). unfold wid_from_router_name, router_name. rewrite after_literal_app.
  cbn [mbind option_bind]. rewrite Hh. cbn [from_option id]. unfold id. by rewrite Ht, Hs.
Qed.
Lemma mirror_name_read wid : plain_wid wid → wid_from_router_name (router_name wid ++ "-http") = Some wid.
Proof.
  intros (Hs & Hh & Ht). unfold wid_from_router_name, router_name. rewrite append_assoc, after_literal_app.
  cbn [mbind option_bind]. rewrite without_suffix_app. cbn [from_option id]. unfold id. by rewrite Ht, Hs.
Qed.
Lemma router_name_inj wid wid' : router_name wid = router_name wid' → wid = wid'.
Proof. apply append_inj_l. Qed.
Lemma mirror_name_other wid wid' : without_suffix "-http" wid = None →
  router_name wid ≠ (router_name wid' ++ "-http")%string.
Proof.
  intros Hw H. unfold router_name in H. rewrite append_assoc in H. apply append_inj_l in H.
  by eapply without_suffix_None in Hw.
Qed.

Lemma all_chars_head P c s : all_chars P (String c s) → P c = true ∧ all_chars P s.
Proof. intros H. by inversion H. Qed.

Lemma quoted_app open g s : Py.truthy g = true → all_chars not_backtick g →
  quoted open (open ++ g ++ "`)" ++ s) = Some (g, s).
Proof.
  intros Hg Hb. unfold quoted. rewrite after_literal_app. cbn [mbind option_bind].
  change ("`)" ++ s)%string with (String "`" (String ")" s)). rewrite span_stop by done.
  rewrite span_all by done. cbn iota beta. rewrite Hg. cbn [negb].
  change ("" ++ String "`" (String ")" s))%string with ("`)" ++ s)%string.
  by rewrite after_literal_app.
Qed.
Lemma skip_blanks_text c s : Py.is_space c = false → skip_blanks (String c s) = String c s.
Proof.
  intros Hc. unfold skip_blanks, Py.on_chars. cbn [list_ascii_of_string].
  rewrite Py.lstrip_by_id by (by intros d r [= <- _]).
  apply (string_of_list_ascii_of_string (String c s)).
Qed.

Lemma strip_between c m d : Py.is_space c = false → Py.is_space d = false →
  Py.strip (String c (m ++ String d "")) = String c (m ++ String d "").
Proof.
  intros Hc Hd. unfold Py.strip, Py.on_chars, Py.strip_by. cbn [list_ascii_of_string].
  rewrite Py.list_ascii_of_app. cbn [list_ascii_of_string].
  rewrite (Py.lstrip_by_id _ (c :: _)) by (by intros e r [= <- _]).
  change (c :: list_ascii_of_string m ++ [d]) with ((c :: list_ascii_of_string m) ++ [d]).
  rewrite Py.rstrip_by_app; rewrite Py.rstrip_by_cons by done; [|done].
  change (Py.rstrip_by Py.is_space []) with (@nil ascii).
  change ((c :: list_ascii_of_string m) ++ [d]) with (c :: (list_ascii_of_string m ++ [d])).
  cbn [string_of_list_ascii]. f_equal. rewrite Py.string_of_list_app, string_of_list_ascii_of_string. done.
Qed.
End names.

(** ** A row and its entries in the document *)

Section rows.
Context {renv : RouteAdminEnv} {repr : PyRepr}.

(** A row the document carries in full: what a registration from the control plane
    puts into the table. *)
Definition plain_row (wid : string) (row : Route) : Prop :=
  plain_wid wid ∧ reg_workspace_id row = wid ∧
  Py.strip (reg_public_host row) = reg_public_host row ∧ Py.truthy (reg_public_host row) = true ∧
  all_chars not_backtick (reg_public_host row) ∧
  Py.strip (reg_path_prefix row) = reg_path_prefix row ∧ all_chars not_backtick (reg_path_prefix row) ∧
  Py.strip (reg_target row) = reg_target row ∧ Py.truthy (reg_target row) = true ∧
  normalize_registered_target (reg_target row) = inl (reg_target row).

(** Host and prefix of a rule *)
Definition rule_parts (rule : string) : option (string * string) :=
  match HOST_RULE_PREFIX rule with
  | Some (host, path) => Some (Py.strip host, Py.strip path)
  | None => host ← HOST_RULE rule; Some (Py.strip host, ""%string)
  end.

Lemma route_rule_host row : Py.truthy (reg_path_prefix row) = false →
  Py.strip (reg_path_prefix row) = reg_path_prefix row →
  route_rule row = ("Host(`" ++ reg_public_host row ++ "`)" ++ "")%string.
Proof. intros H E. unfold route_rule. by rewrite E, H. Qed.
Lemma route_rule_prefix row : Py.truthy (reg_path_prefix row) = true →
  Py.strip (reg_path_prefix row) = reg_path_prefix row →
  route_rule row = ("Host(`" ++ reg_public_host row ++ "`)" ++
                    " && " ++ "PathPrefix(`" ++ reg_path_prefix row ++ "`)" ++ "")%string.
Proof. intros H E. unfold route_rule. rewrite E, H. by rewrite !append_assoc. Qed.

Lemma route_rule_stripped row : Py.strip (route_rule row) = route_rule row.
Proof.
  assert (H : ∃ m, route_rule row = String "H" (m ++ String ")" "")).
  { unfold route_rule. destruct (Py.truthy _).
    - exists ("ost(`" ++ reg_public_host row ++ "`)" ++ " && PathPrefix(`" ++ Py.strip (reg_path_prefix row) ++ "`")%string.
      by rewrite !append_assoc.
    - exists ("ost(`" ++ reg_public_host row ++ "`")%string. by rewrite !append_assoc. }
  destruct H as [m ->]. by apply strip_between.
Qed.

Lemma rule_parts_row wid row : plain_row wid row →
  rule_parts (route_rule row) = Some (reg_public_host row, reg_path_prefix row).
Proof.
  intros (_ & _ & Hhs & Hht & Hhb & Hps & Hpb & _). unfold rule_parts, HOST_RULE_PREFIX, HOST_RULE.
  destruct (Py.truthy (reg_path_prefix row)) eqn:Hp.
  - rewrite route_rule_prefix, quoted_app by done. cbn [mbind option_bind].
    assert (Hsk : ∀ s, skip_blanks (" && " ++ s) = ("&&" ++ " " ++ s)%string).
    { intros s. transitivity (skip_blanks ("&& " ++ s)); [reflexivity|]. by apply skip_blanks_text. }
    rewrite Hsk, after_literal_app. cbn [mbind option_bind].
    assert (Hsk2 : ∀ s, skip_blanks (" " ++ "PathPrefix(`" ++ s) = ("PathPrefix(`" ++ s)%string).
    { intros s. transitivity (skip_blanks ("PathPrefix(`" ++ s)); [reflexivity|]. by apply skip_blanks_text. }
    rewrite Hsk2, quoted_app by done. cbn [mbind option_bind]. change (skip_blanks "") with ""%string.
    cbn [Py.truthy String.eqb negb]. by rewrite Hhs, Hps.
  - rewrite route_rule_host, quoted_app by done. cbn [mbind option_bind].
    change (after_literal "&&" (skip_blanks "")) with (@None string). cbn [mbind option_bind].
    change (skip_blanks "") with ""%string. cbn [Py.truthy String.eqb negb mbind option_bind]. rewrite Hhs.
    f_equal. f_equal. unfold Py.truthy in Hp. apply negb_false_iff, String.eqb_eq in Hp. by rewrite Hp.
Qed.

Lemma router_def_rule wid row e b :
  ∃ rdef, router_def wid row e b = PDict rdef ∧
    get_or "rule" (PStr "") rdef = PStr (route_rule row) ∧
    dict_get "service" rdef = Some (PStr (upstream_name wid)).
Proof.
  eexists. split; [done|]. unfold get_or.
  assert (H : Py.truthy (route_rule row) = true) by (unfold route_rule; by destruct (Py.truthy (Py.strip (reg_path_prefix row)))).
  destruct (route_middlewares wid row) as [|x l], b; (split; [|done]);
    (change (dict_get _ _) with (Some (PStr (route_rule row)))); cbn [py_truthy]; by rewrite H.
Qed.
End rows.

(** ** The document of a table *)

Section documents.
Context {renv : RouteAdminEnv} {repr : PyRepr}.
Implicit Types (routes : gmap string Route) (rows : list (string * Route)).

Lemma sorted_routes_in routes wid row : (wid, row) ∈ sorted_routes routes ↔ routes !! wid = Some row.
Proof. unfold sorted_routes. by rewrite sort_by_perm, elem_of_map_to_list. Qed.
Lemma sorted_routes_nodup routes : NoDup (sorted_routes routes).*1.
Proof.
  unfold sorted_routes. assert (Hp := sort_by_perm (λ a b : string * Route, String.leb a.1 b.1) (map_to_list routes)).
  rewrite Hp. apply NoDup_fst_map_to_list.
Qed.

Lemma bind_names {A} (f : A → list (string * PyValue)) (l : list A) : (l ≫= f).*1 = l ≫= (λ x, (f x).*1).
Proof. induction l as [|x l IH]; [done|]. cbn [mbind list_bind]. by rewrite fmap_app, IH. Qed.

Lemma route_routers_names kv n : n ∈ (route_routers kv).*1 →
  n = router_name kv.1 ∨ n = (router_name kv.1 ++ "-http")%string.
Proof. destruct kv as [wid row]. unfold route_routers. case_match; set_solver. Qed.

Lemma routers_nodup routes : (∀ wid row, routes !! wid = Some row → plain_wid wid) →
  NoDup (sorted_routes routes ≫= route_routers).*1.
Proof.
  intros Hok. rewrite bind_names. pose proof (sorted_routes_nodup routes) as Hnd.
  assert (Hw : ∀ kv, kv ∈ sorted_routes routes → without_suffix "-http" kv.1 = None).
  { intros [wid row] H%sorted_routes_in. by apply Hok in H as (_ & ? & _). }
  apply NoDup_bind.
  - intros [w1 r1] [w2 r2] n H1 H2 Hn1%route_routers_names Hn2%route_routers_names. simpl in *.
    assert (w1 = w2) as <-.
    { destruct Hn1 as [->| ->], Hn2 as [Hn|Hn].
      - by apply router_name_inj.
      - by apply mirror_name_other in Hn; [|apply (Hw (w1, r1))].
      - by symmetry in Hn; apply mirror_name_other in Hn; [|apply (Hw (w2, r2))].
      - by apply router_name_inj, (append_inj_r _ _ "-http"). }
    apply sorted_routes_in in H1, H2. congruence.
  - intros [wid row] H. unfold route_routers. case_match; simpl; [|by repeat constructor; set_solver].
    apply NoDup_cons. split; [|by repeat constructor; set_solver].
    rewrite list_elem_of_singleton. apply mirror_name_other. by apply (Hw (wid, row)).
  - by eapply NoDup_fmap_1.
Qed.

Lemma services_nodup routes : NoDup (route_service <$> sorted_routes routes).*1.
Proof.
  rewrite <- list_fmap_compose. change (fst ∘ route_service) with (upstream_name ∘ (fst (A:=string) (B:=Route))).
  rewrite list_fmap_compose. apply NoDup_fmap_2; [|apply sorted_routes_nodup].
  intros w1 w2 H. by apply router_name_inj, (append_inj_r _ _ "-upstream").
Qed.

(** The routers, the services and the middlewares of a document *)
Definition doc_routers routes : list (option string * PyValue) := dict_of (sorted_routes routes ≫= route_routers).
Definition doc_services routes : list (option string * PyValue) := dict_of (route_service <$> sorted_routes routes).

Lemma doc_router routes wid row :
  (∀ w r, routes !! w = Some r → plain_wid w) → routes !! wid = Some row →
  dict_get (router_name wid) (doc_routers routes) =
    Some (if workspace_https_enabled then router_def wid row "websecure" true
          else router_def wid row "web" false).
Proof.
  intros Hok Hrow. apply dict_of_get; [by apply routers_nodup|]. apply list_elem_of_bind.
  exists (wid, row). split; [|by apply sorted_routes_in]. unfold route_routers. case_match; set_solver.
Qed.
Lemma doc_service routes wid row : routes !! wid = Some row →
  dict_get (upstream_name wid) (doc_services routes) = Some (route_service (wid, row)).2.
Proof.
  intros Hrow. apply dict_of_get; [apply services_nodup|]. apply list_elem_of_fmap.
  exists (wid, row). split; [done|]. by apply sorted_routes_in.
Qed.

Lemma hydrated_doc_route routes wid row :
  (∀ w r, routes !! w = Some r → plain_row w r) → routes !! wid = Some row →
  hydrated_route (doc_routers routes) (doc_services routes) wid = Some row.
Proof.
  intros Hok Hrow. assert (Hwid : ∀ w r, routes !! w = Some r → plain_wid w) by (intros w r Hr; by apply Hok in Hr as [? _]).
  destruct (router_def_rule wid row (if workspace_https_enabled then "websecure" else "web")%string
              workspace_https_enabled) as (rdef & Hdef & Hrule & _).
  assert (Hr : hydrated_router (doc_routers routes) wid = Some (PDict rdef)).
  { unfold hydrated_router. rewrite (doc_router _ _ row) by done. by destruct workspace_https_enabled; rewrite Hdef. }
  pose proof (Hok _ _ Hrow) as Hplain.
  pose proof (rule_parts_row wid row Hplain) as Hparts. unfold rule_parts in Hparts.
  destruct Hplain as (_ & Hid & _ & _ & _ & _ & _ & Hts & Htt & Htn).
  unfold hydrated_route. rewrite Hr. cbn [mbind option_bind as_map]. rewrite Hrule.
  change (py_str (PStr (route_rule row))) with (route_rule row). rewrite route_rule_stripped, Hparts.
  cbn [mbind option_bind]. rewrite (doc_service _ _ row) by done.
  cbn [mbind option_bind as_map route_service snd].
  change (get_or "loadBalancer" _ _) with (PDict (dict_of [("servers", PList [PDict (dict_of [("url", PStr (reg_target row))])])]))%string.
  cbn [mbind option_bind as_map].
  change (get_or "servers" _ _) with (PList [PDict (dict_of [("url", PStr (reg_target row))])])%string.
  cbn [mbind option_bind as_map as_list head].
  assert (Hurl : get_or "url" (PStr "") (dict_of [("url"%string, PStr (reg_target row))]) = PStr (reg_target row)).
  { unfold get_or. change (dict_get _ _) with (Some (PStr (reg_target row))). cbn [py_truthy]. by rewrite Htt. }
  rewrite Hurl. cbn [py_str]. rewrite Hts, Htt, Htn. cbn [negb]. subst wid. by destruct row.
Qed.
End documents.

Section round_trip.
Context {renv : RouteAdminEnv} {repr : PyRepr}.
Implicit Types (routes : gmap string Route).

Lemma hydrate_fold_lookup (f : string → option Route) (ws : list string) routes k :
  foldl (λ routes wid, match f wid with Some row => <[wid := row]> routes | None => routes end) routes ws !! k =
    if decide (k ∈ ws) then match f k with Some row => Some row | None => routes !! k end else routes !! k.
Proof.
  revert routes. induction ws as [|w ws IH]; intros routes; simpl; [done|]. rewrite IH.
  assert (Hs : (match f w with Some row => <[w := row]> routes | None => routes end) !! k =
               if decide (k = w) then match f k with Some row => Some row | None => routes !! k end else routes !! k).
  { destruct (decide (k = w)) as [->|Hk]; destruct (f w); rewrite ?lookup_insert_eq, ?lookup_insert_ne; done. }
  rewrite Hs. destruct (decide (k = w)) as [<-|Hk], (decide (k ∈ ws)) as [Hin|Hin].
  - rewrite decide_True by set_solver. by destruct (f k).
  - by rewrite decide_True by set_solver.
  - by rewrite decide_True by set_solver.
  - by rewrite decide_False by set_solver.
Qed.

Lemma get_or_map k (v : list (option string * PyValue)) m : dict_get k m = Some (PDict v) → get_or k (PDict []) m = PDict v.
Proof. unfold get_or. intros ->. by destruct v. Qed.

Lemma document_parts routes : routes ≠ ∅ → ∃ http, routes_document routes = PDict [(Some "http"%string, PDict http)] ∧
  get_or "routers" (PDict []) http = PDict (doc_routers routes) ∧
  get_or "services" (PDict []) http = PDict (doc_services routes).
Proof.
  intros Hne. unfold routes_document. rewrite bool_decide_eq_false_2 by done. eexists. split; [reflexivity|].
  destruct (dict_of (_ ≫= route_strip)); split; by apply get_or_map.
Qed.

Lemma hydrate_document routes : (∀ w r, routes !! w = Some r → plain_row w r) →
  hydrate_routes (Some (routes_document routes)) ∅ = routes.
Proof.
  intros Hok. destruct (decide (routes = ∅)) as [->|Hne]; [done|].
  destruct (document_parts routes Hne) as (http & -> & Hr & Hs). unfold hydrate_routes.
  cbn [mbind option_bind as_map]. change (dict_get "http" _) with (Some (PDict http)).
  cbn [mbind option_bind as_map]. rewrite Hr, Hs. cbn [mbind option_bind as_map].
  match goal with |- default _ (Some ?x) = _ => change (x = routes) end.
  apply map_eq. intros wid. rewrite hydrate_fold_lookup, lookup_empty.
  assert (Hw : ∀ w r, routes !! w = Some r → plain_wid w) by (intros w r Hr'; by apply Hok in Hr' as [? _]).
  assert (Hin : wid ∈ omap wid_from_router_name (dict_names (doc_routers routes)) ↔ is_Some (routes !! wid)).
  { rewrite list_elem_of_omap. split.
    - intros (n & Hn & Hwid). apply dict_of_names in Hn. rewrite bind_names in Hn.
      apply list_elem_of_bind in Hn as ([w r] & Hn%route_routers_names & Hwr%sorted_routes_in). simpl in Hn.
      pose proof (Hw _ _ Hwr). destruct Hn as [->| ->];
        rewrite ?router_name_read, ?mirror_name_read in Hwid by done; injection Hwid as <-; eauto.
    - intros [row Hrow]. exists (router_name wid). split; [|by apply router_name_read; eapply Hw].
      apply dict_of_names. rewrite bind_names. apply list_elem_of_bind. exists (wid, row).
      split; [|by apply sorted_routes_in]. unfold route_routers. case_match; set_solver. }
  case_decide as Hd; rewrite elem_of_remove_dups, Hin in Hd.
  - destruct Hd as [row Hrow]. by rewrite (hydrated_doc_route _ _ row), Hrow by done.
  - by apply eq_None_not_Some in Hd.
Qed.

Lemma dumpable_router_def wid row e b : dumpable (router_def wid row e b) = true.
Proof.
  apply dumpable_dict_of. repeat apply Forall_app_2.
  - by repeat constructor.
  - destruct (route_middlewares wid row) as [|x l]; [constructor|]. constructor; [|done]. apply (dumpable_strings (x :: l)).
  - destruct b; [|done]. constructor; [|done]. cbn [snd]. unfold tls_router_options.
    repeat case_match; [done| |done]. apply dumpable_dict_of. by repeat constructor.
Qed.

Lemma dumpable_document routes : dumpable (routes_document routes) = true.
Proof.
  unfold routes_document. case_bool_decide; [done|]. apply (dumpable_dict_of [_]). constructor; [|done].
  apply dumpable_dict_of. apply Forall_app_2; [constructor; [|constructor; [|done]]|].
  - apply dumpable_dict_of, Forall_bind. apply Forall_forall. intros [wid row] _. unfold route_routers.
    case_match; repeat constructor; apply dumpable_router_def.
  - apply dumpable_dict_of, Forall_fmap, Forall_forall. intros [wid row] _. done.
  - destruct (dict_of _) eqn:E; [done|]. constructor; [|done]. cbn [snd]. rewrite <- E.
    apply dumpable_dict_of, Forall_bind, Forall_forall. intros kv _. unfold compose, route_strip.
    destruct (Py.truthy _); [|done]. by repeat constructor.
Qed.
End round_trip.

(** ** The registrations of the control plane *)

Section registrations.
Context {D : Type} {renv : RouteAdminEnv} {repr : PyRepr} {file : RoutesFile D} {laws : RoutesFileLaws D}.

(** The requests Gateway.v's client sends, for hosts and prefixes without a backtick. *)
Definition control_plane_request (r : AppRequest) : Prop :=
  match r with
  | Register body => ∃ wid u host prefix nk eid, 0 ≤ wid ∧
      route_payload (Py.str_of_Z wid) u host prefix nk eid = inl body ∧
      all_chars not_backtick host ∧ all_chars not_backtick (default ""%string prefix)
  | Deregister _ => True
  end.

Definition plain_table (routes : gmap string Route) : Prop :=
  ∀ wid row, routes !! wid = Some row → plain_row wid row.

Lemma normalize_registered_target_fixed raw t : normalize_registered_target raw = inl t →
  Py.strip t = t ∧ Py.truthy t = true ∧ normalize_registered_target t = inl t.
Proof.
  unfold normalize_registered_target. destruct (Py.truthy (Py.strip raw)) eqn:Hu; cbn [negb]; [|done].
  set (t' := if Py.contains "://" (Py.strip raw) then _ else _).
  destruct (has_http_scheme t') eqn:Hs; cbn [negb]; [|done]. intros [= <-].
  assert (Hstrip : Py.strip t' = t').
  { unfold t'. destruct (Py.contains "://" (Py.strip raw)); [apply Py.strip_idem|].
    apply Py.strip_app_stripped; [done|apply Py.strip_idem|]. by apply truthy_true. }
  assert (Hne : Py.truthy t' = true).
  { apply truthy_true. unfold t'. destruct (Py.contains _ _); [by apply truthy_true|done]. }
  assert (Hcont : Py.contains "://" t' = true).
  { unfold t'. destruct (Py.contains "://" (Py.strip raw)) eqn:E; [done|]. by destruct (Py.strip raw). }
  rewrite Hstrip, Hne, Hcont, Hs. done.
Qed.
Lemma normalize_target_registered u t : normalize_target u = inl t → normalize_registered_target u = inl t.
Proof.
  unfold normalize_target, normalize_registered_target. destruct (negb _); [done|].
  destruct (negb _); [done|]. by intros [= <-].
Qed.

Lemma digits_not_mirror n : 0 ≤ n → without_suffix "-http" (Py.str_of_Z n) = None.
Proof.
  intros Hn. destruct (without_suffix _ _) as [a|] eqn:E; [|done]. apply without_suffix_Some in E.
  pose proof (str_of_Z_digits n Hn) as Hd. rewrite E in Hd. apply all_chars_app in Hd as [_ Hd].
  by apply all_chars_head in Hd as [Hd _].
Qed.

Lemma strip_opt_strip_or_none p : Py.strip_opt (Py.strip_or_none p) = Py.strip_opt p.
Proof.
  unfold Py.strip_or_none. case_decide as H; [by rewrite H|].
  change (Py.strip_opt (Some (Py.strip_opt p))) with (Py.strip (Py.strip (default ""%string p))). apply Py.strip_idem.
Qed.

(** What an accepted registration of the control plane puts into the table. *)
Lemma registration_plain wid u host prefix nk eid body :
  0 ≤ wid → route_payload (Py.str_of_Z wid) u host prefix nk eid = inl body →
  all_chars not_backtick host → all_chars not_backtick (default ""%string prefix) →
  safe_wid (Py.strip (rp_workspace_id body)) = true →
  let row := mkRoute (Py.str_of_Z wid) (Py.strip host) (rp_target body) (Py.strip_opt prefix) in
  normalize_registered_target (rp_target body) = inl (rp_target body) ∧
  mkRoute (Py.strip (rp_workspace_id body)) (Py.strip (rp_public_host body)) (rp_target body)
    (Py.strip_opt (rp_path_prefix body)) = row ∧
  plain_row (Py.str_of_Z wid) row.
Proof.
  intros Hwid. unfold route_payload. rewrite strip_str_of_Z by done.
  destruct (negb (Py.truthy (Py.str_of_Z wid)) || negb (Py.truthy (Py.strip host))) eqn:Et; [done|].
  apply orb_false_iff in Et as [Hwt%negb_false_iff Hht%negb_false_iff].
  destruct (normalize_target u) as [t|] eqn:Htg; [|done]. intros [= <-] Hhb Hpb.
  cbn [rp_workspace_id rp_public_host rp_target rp_path_prefix]. rewrite strip_str_of_Z by done. intros Hsafe.
  apply normalize_target_registered, normalize_registered_target_fixed in Htg as (Hts & Htt & Htn).
  split; [done|]. split; [by rewrite Py.strip_idem, strip_opt_strip_or_none|].
  unfold plain_row, plain_wid. cbn [reg_workspace_id reg_public_host reg_target reg_path_prefix].
  split_and!; try done.
  - by apply digits_not_mirror.
  - apply Py.strip_idem.
  - by apply all_chars_strip_by.
  - apply Py.strip_idem.
  - by apply all_chars_strip_by.
Qed.

Lemma plain_insert routes wid row : plain_table routes → plain_row wid row → plain_table (<[wid := row]> routes).
Proof. intros H Hrow w r [[<- <-]|[_ Hr]]%lookup_insert_Some; [done|by apply H]. Qed.
Lemma plain_delete routes wid : plain_table routes → plain_table (delete wid routes).
Proof. intros H w r [_ Hr]%lookup_delete_Some. by apply H. Qed.

Lemma persist_result routes d a r : persist routes d = (a, r) →
  app_routes a = routes ∧ (r = inl tt → rf_load (app_disk a) = Some (routes_document routes)).
Proof.
  unfold persist. destruct (rf_store _ d) as [d' r'] eqn:E. intros [= <- <-]. split; [done|]. intros ->.
  by eapply store_then_load; [apply dumpable_document|].
Qed.
End registrations.

(** ** Properties *)

Section properties.
Context {D : Type} {renv : RouteAdminEnv} {repr : PyRepr} {file : RoutesFile D} {laws : RoutesFileLaws D}.
#[local] Existing Instance route_admin_app.

(** An answer without an error leaves the file holding the table. *)
Lemma serve_file a r a' : serve a r = (a', inl tt) →
  rf_load (app_disk a') = Some (routes_document (app_routes a')).
Proof.
  destruct r as [body|wid]; cbn [serve ra_post_route ra_delete_route route_admin_app].
  - unfold app_register_route. destruct (negb (body_valid body)); [done|].
    destruct (negb (safe_wid _)); [done|]. destruct (normalize_registered_target _) as [t|]; [|done].
    cbn zeta. destruct (persist _ _) as [a2 [[]|]] eqn:E; [|done]. apply persist_result in E as [E1 E2].
    intros [= <-]. rewrite E2, E1 by done. done.
  - unfold app_deregister_route. destruct (negb _); [done|].
    destruct (persist _ _) as [a2 [[]|]] eqn:E; [|done]. apply persist_result in E as [E1 E2].
    intros [= <-]. by rewrite E2, E1 by done.
Qed.

(** Every request of the control plane keeps the table plain. *)
Lemma serve_plain a r : control_plane_request r → plain_table (app_routes a) →
  plain_table (app_routes (serve a r).1).
Proof.
  intros Hr Ha. destruct r as [body|wid]; cbn [serve ra_post_route ra_delete_route route_admin_app].
  - unfold app_register_route. destruct (negb (body_valid body)); [done|].
    destruct (safe_wid _) eqn:Hs; cbn [negb]; [|done].
    destruct Hr as (wid & u & host & prefix & nk & eid & Hwid & Hp & Hhb & Hpb).
    destruct (registration_plain _ _ _ _ _ _ _ Hwid Hp Hhb Hpb Hs) as (Hn & Hrow & Hplain). rewrite Hn. cbn zeta.
    rewrite Hrow. injection Hrow as Hw _ _. rewrite Hw.
    destruct (persist _ _) as [a2 r2] eqn:E. apply persist_result in E as [E _].
    destruct r2; cbn [fst]; rewrite E; by apply plain_insert.
  - unfold app_deregister_route. destruct (negb _); [done|].
    destruct (persist _ _) as [a2 r2] eqn:E. apply persist_result in E as [E _].
    destruct r2; cbn [fst]; rewrite E; by apply plain_delete.
Qed.

Lemma serve_all_plain rs a : Forall control_plane_request rs → plain_table (app_routes a) →
  plain_table (app_routes (serve_all a rs)).
Proof.
  intros Hrs. revert a. induction Hrs as [|r rs Hr Hrs IH]; intros a Ha; [done|]. apply IH.
  by apply serve_plain.
Qed.

Lemma restart_after_success a r a' : control_plane_request r → plain_table (app_routes a) →
  serve a r = (a', inl tt) → app_restart a' = a'.
Proof.
  intros Hr Ha H. pose proof (serve_plain _ _ Hr Ha) as Hp. rewrite H in Hp.
  unfold app_restart, app_start. rewrite (serve_file _ _ _ H), hydrate_document by done. by destruct a'.
Qed.

Lemma listing_finds (a : App D) wid row : plain_table (app_routes a) → app_routes a !! Py.str_of_Z wid = Some row →
  route_row_for_workspace (listed_row <$> app_list_routes a) wid = Some (listed_row row).
Proof.
  intros Ha Hrow. unfold route_row_for_workspace, app_list_routes.
  assert (Hids : ∀ w r, app_routes a !! w = Some r → reg_workspace_id r = w).
  { intros w r Hr. by apply Ha in Hr as (_ & ? & _). }
  destruct (List.find _ _) as [x|] eqn:E.
  - apply List.find_some in E as [Hin He%String.eqb_eq]. apply list_elem_of_In, list_elem_of_fmap in Hin as (r & -> & Hin).
    apply list_elem_of_fmap in Hin as ([w r'] & -> & Hin%sorted_routes_in). cbn [snd listed_row route_workspace_id] in *.
    rewrite (Hids _ _ Hin) in He. congruence.
  - eapply List.find_none in E; [|apply list_elem_of_In, list_elem_of_fmap; exists row; split; [done|]].
    + cbn in E. by rewrite (Hids _ _ Hrow), String.eqb_refl in E.
    + apply list_elem_of_fmap. exists (Py.str_of_Z wid, row). split; [done|]. by apply sorted_routes_in.
Qed.

(** The row a registration leaves in the listing does for the client. *)
Lemma registration_settled a wid u host prefix nk eid body a' :
  0 ≤ wid → route_payload (Py.str_of_Z wid) u host prefix nk eid = inl body →
  all_chars not_backtick host → all_chars not_backtick (default ""%string prefix) →
  plain_table (app_routes a) → body_valid body = true → safe_wid (Py.strip (rp_workspace_id body)) = true →
  (serve a (Register body)).1 = a' →
  gateway_route_needs_repair (route_row_for_workspace (listed_row <$> app_list_routes a') wid)
    (Some u) (Some host) prefix = false.
Proof.
  intros Hwid Hp Hhb Hpb Ha Hv Hs <-.
  assert (Hr : control_plane_request (Register body)) by (exists wid, u, host, prefix, nk, eid; done).
  pose proof (serve_plain _ _ Hr Ha) as Ha'. revert Ha'.
  cbn [serve ra_post_route route_admin_app]. unfold app_register_route. rewrite Hv, Hs. cbn [negb].
  destruct (registration_plain _ _ _ _ _ _ _ Hwid Hp Hhb Hpb Hs) as (Hn & Hrow & _). rewrite Hn. cbn zeta.
  rewrite Hrow. injection Hrow as Hw _ _. rewrite Hw.
  destruct (persist _ _) as [a2 r2] eqn:E. apply persist_result in E as [E1 _].
  assert (Hf : ∀ x : Route, (let '(b, r) := match r2 with inl _ => (a2, inl x) | inr e => (a2, inr (500, e)) end in
    (b, without_status (λ _ : Route, tt) r)).1 = a2) by (by destruct r2).
  rewrite Hf. intros Ha'.
  rewrite (listing_finds _ _ (mkRoute (Py.str_of_Z wid) (Py.strip host) (rp_target body) (Py.strip_opt prefix)))
    by (try done; rewrite E1; by rewrite lookup_insert_eq).
  rewrite <- (registered_row_settled _ _ _ _ _ _ _ Hp). unfold gateway_route_needs_repair.
  revert Hp. unfold route_payload. destruct (_ || _); [done|]. destruct (normalize_target u); [|done].
  intros [= <-]. unfold registered_row, listed_row.
  cbn [route_target route_public_host route_path_prefix reg_target reg_public_host reg_path_prefix
       rp_target rp_public_host rp_path_prefix].
  rewrite norm_path_prefix_strip. unfold norm_path_prefix, Py.strip_opt. cbn [from_option id default].
  unfold default. cbn [from_option]. unfold id. by rewrite Py.strip_idem.
Qed.

Lemma registered_accepted a body a' : serve a (Register body) = (a', inl tt) →
  body_valid body = true ∧ safe_wid (Py.strip (rp_workspace_id body)) = true.
Proof.
  cbn [serve ra_post_route route_admin_app]. unfold app_register_route.
  destruct (body_valid body); [|done]. by destruct (safe_wid _).
Qed.

(** A registration whose write fails is refused, and leaves the file as it was, but
    its route is listed, so that reconciling does not write it again. *)
Lemma refused_registration_is_listed a wid u host prefix nk eid body d' e :
  0 ≤ wid → route_payload (Py.str_of_Z wid) u host prefix nk eid = inl body →
  all_chars not_backtick host → all_chars not_backtick (default ""%string prefix) →
  plain_table (app_routes a) → body_valid body = true → safe_wid (Py.strip (rp_workspace_id body)) = true →
  (∀ routes, rf_store (routes_document routes) (app_disk a) = (d', inr e)) →
  (serve a (Register body)).2 = inr e ∧
  rf_load (app_disk (serve a (Register body)).1) = rf_load (app_disk a) ∧
  gateway_route_needs_repair
    (route_row_for_workspace (listed_row <$> app_list_routes (serve a (Register body)).1) wid)
    (Some u) (Some host) prefix = false.
Proof.
  intros Hwid Hp Hhb Hpb Ha Hv Hs Hd. split; [|split; [|by eapply registration_settled]];
    cbn [serve ra_post_route route_admin_app]; unfold app_register_route; rewrite Hv, Hs; cbn [negb];
    destruct (registration_plain _ _ _ _ _ _ _ Hwid Hp Hhb Hpb Hs) as (-> & _ & _); cbn zeta;
    unfold persist; rewrite Hd; [done|]. exact (failed_store_keeps _ _ _ _ (Hd ∅)).
Qed.

(** C36. A restart of route-admin loses no route: after any requests of the control
    plane, the last of which was answered without an error, a new process that
    reads the file back has the same table; and a route whose registration was the
    last of them is listed by the new process as the control plane wants it, so
    that reconciling does not repair it. *)
Theorem registrations_survive_restart (rs : list AppRequest) (r : AppRequest) (d : D) (a' : App D) :
  Forall control_plane_request rs → control_plane_request r →
  serve (serve_all (mkApp ∅ d) rs) r = (a', inl tt) →
  app_restart a' = a' ∧
  ∀ wid u host prefix nk eid body, r = Register body → 0 ≤ wid →
    route_payload (Py.str_of_Z wid) u host prefix nk eid = inl body →
    all_chars not_backtick host → all_chars not_backtick (default ""%string prefix) →
    gateway_route_needs_repair (route_row_for_workspace (listed_row <$> app_list_routes (app_restart a')) wid)
      (Some u) (Some host) prefix = false.
Proof.
  intros Hrs Hr H. assert (Hp : plain_table (app_routes (serve_all (mkApp ∅ d) rs))).
  { apply serve_all_plain; [done|]. intros w row Hw. cbn in Hw. by rewrite lookup_empty in Hw. }
  pose proof (restart_after_success _ _ _ Hr Hp H) as Hre. split; [done|].
  intros wid u host prefix nk eid body -> Hwid Hb Hh Hpre. rewrite Hre.
  destruct (registered_accepted _ _ _ H). eapply registration_settled; [done..|]. by rewrite H.
Qed.

(** The routers and the services of a document *)
Definition document_part (part : string) (doc : PyValue) : list (option string * PyValue) :=
  default [] (root ← as_map doc; http ← dict_get "http" root ≫= as_map; dict_get part http ≫= as_map).

Lemma document_part_routers routes : document_part "routers" (routes_document routes) =
  if bool_decide (routes = ∅) then [] else doc_routers routes.
Proof.
  unfold routes_document. destruct (bool_decide_reflect (routes = ∅)); [done|].
  by destruct (dict_of (_ ≫= route_strip)).
Qed.
Lemma document_part_services routes : document_part "services" (routes_document routes) =
  if bool_decide (routes = ∅) then [] else doc_services routes.
Proof.
  unfold routes_document. destruct (bool_decide_reflect (routes = ∅)); [done|].
  by destruct (dict_of (_ ≫= route_strip)).
Qed.

(** C37. No way around the session check: when gateway authentication is switched
    on, every router in the file after a successful request - the plain-HTTP mirror
    of an HTTPS router included - runs the session middleware before any other,
    matches the host and prefix of a registered route, and leads to the service of
    that route's workspace, which has that route's target as its only server. *)
Theorem every_router_checks_the_session (a a' : App D) (r : AppRequest) (doc : PyValue) (n : string) (v : PyValue) :
  GATEWAY_AUTH_ENABLED = true → serve a r = (a', inl tt) → rf_load (app_disk a') = Some doc →
  (Some n, v) ∈ document_part "routers" doc →
  ∃ wid row rdef rest, app_routes a' !! wid = Some row ∧ v = PDict rdef ∧
    dict_get "middlewares" rdef = Some (PList (PStr WORKSPACE_AUTH_MIDDLEWARE :: rest)) ∧
    dict_get "rule" rdef = Some (PStr (route_rule row)) ∧
    dict_get "service" rdef = Some (PStr (upstream_name wid)) ∧
    dict_get (upstream_name wid) (document_part "services" doc) =
      Some (PDict (dict_of [("loadBalancer", PDict (dict_of [("servers",
        PList [PDict (dict_of [("url", PStr (reg_target row))])])]))]))%string.
Proof.
  intros Hauth H Hdoc Hin. rewrite (serve_file _ _ _ H) in Hdoc. injection Hdoc as <-.
  rewrite document_part_routers in Hin. rewrite document_part_services.
  case_bool_decide as He; [by apply not_elem_of_nil in Hin|]. apply dict_of_in, list_elem_of_bind in Hin.
  destruct Hin as ([wid row] & Hin & Hrow%sorted_routes_in).
  assert (Hv : ∃ e b, v = router_def wid row e b).
  { unfold route_routers in Hin. destruct workspace_https_enabled; [apply elem_of_cons in Hin as [Hin|Hin]|];
      [|apply list_elem_of_singleton in Hin..]; injection Hin as _ ->; eauto. }
  destruct Hv as (e & b & ->). exists wid, row. rewrite (doc_service _ _ row) by done. unfold router_def, route_middlewares. rewrite Hauth. cbn [app].
  do 2 eexists. split_and!; [done..| | | |done]; by destruct b.
Qed.
End properties.
