(* ===== verification/Intents.v ===== *)
(** * Intents: what users ask for

    [src/backend/app/services/workspace_service/services/workspace_intent_service.py]:
    the lifecycle requests (start, stop, restart, delete, update), the reconcile
    request with its lease, and the check that a workspace's data and hostname are
    where they are expected.  A request only records an intent: a new status and a
    queued job; the worker carries it out. *)

From S2P Require Import Prelude Models Session Services Frames FailureHandling.
From S2P Require Import Sessions Scheduling Quota Policy Gateway WorkerRows.
From S2P Require Import Reconcile Worker HostFiles ProjectDirs Routing.

(** [WorkspaceIntentResult] *)
Record WorkspaceIntentResult := mkWorkspaceIntentResult {
  ir_workspace_id : Z;
  ir_status : workspace_status;
  ir_job_id : Z;
  ir_job_type : workspace_job_type;
  ir_requested_config_version : Z
}.

(** [_BUSY_STATUSES] *)
Definition busy_status (st : workspace_status) : bool :=
  match st with
  | WorkspaceStatus.CREATING | WorkspaceStatus.PENDING | WorkspaceStatus.STARTING
  | WorkspaceStatus.STOPPING | WorkspaceStatus.RESTARTING | WorkspaceStatus.UPDATING
  | WorkspaceStatus.DELETING => true
  | _ => false
  end.

(** [float(cfg.get("cpu_limit_cores") or DEFAULT_WORKSPACE_REQUEST_CPU)]; a value
    that is no finite number is rejected here, which JSON does not allow either. *)
Definition proposed_cpu (v : option ConfigValue) : cpu + Exn :=
  match v with
  | None | Some CfgNull => inl (cores 1)
  | Some (CfgNumber n) => inl (if n =? 0 then cores 1 else n)
  | Some CfgUnparseable => inr (ValueError "could not convert string to float")
  | Some (CfgNaN | CfgInfinite) => inr (OtherException "not a JSON number")
  end.

(** [int(cfg.get("memory_limit_mib") or DEFAULT_WORKSPACE_REQUEST_MEMORY_MB)] *)
Definition proposed_memory_mb (v : option ConfigValue) : Z + Exn :=
  match v with
  | None | Some CfgNull => inl 512
  | Some (CfgNumber n) => inl (if n =? 0 then 512 else n)
  | Some (CfgUnparseable | CfgNaN) => inr (ValueError "invalid literal for int()")
  | Some CfgInfinite => inr (OtherException "cannot convert float infinity to integer")
  end.

Section intents.
Context {W : Type} {env : Env} {fs : HostFilesystem W}.

Definition stale_host_issue : string :=
  "Stored gateway hostname does not match the current DEVNEST_BASE_DOMAIN pattern".
Definition project_data_missing_issue : string :=
  "Persisted project data is missing on the execution host.".
Definition legacy_elsewhere_issue : string :=
  "Legacy workspace data may exist outside WORKSPACE_PROJECTS_BASE; see server logs for paths.".
Definition legacy_directories_issue : string :=
  "Legacy workspace directories still exist under temporary paths".

(** The hostname part of [_workspace_project_storage_reopen_assessment]. *)
Definition hostname_issues (wid : Z) (ws : Workspace) : list string :=
  if cfg_gateway_enabled env_settings && negb tenant_workspace_urls_enabled then
    let expected := gateway_unique_public_host wid (cfg_base_domain env_settings)
                      (Py.strip_or_none (ws_project_storage_key ws)) in
    let stored := Py.strip_opt (ws_public_host ws) in
    if Py.truthy stored && negb (String.eqb (Py.lower stored) (Py.lower expected))
    then [stale_host_issue] else []
  else [].

(** Its filesystem part: the issues and whether the data is missing. *)
Definition storage_issues (wid : Z) (ws : Workspace) (w : W) : (list string * option bool) + Exn :=
  let root := cfg_workspace_projects_root env_settings in
  let wid_s := Py.str_of_Z wid in
  let key := Py.strip_or_none (ws_project_storage_key ws) in
  if Py.truthy root && bool_decide (ws_status ws = WorkspaceStatus.RUNNING
       ∨ ws_status ws = WorkspaceStatus.STOPPED ∨ ws_status ws = WorkspaceStatus.ERROR)
     && fs_is_dir root w
  then
    match workspace_project_dir_name wid_s key with
    | inr e => inr e
    | inl dir_name =>
        let canon := (root ++ "/" ++ dir_name)%string in
        let legacy_hits := List.existsb (λ p, fs_is_dir p w)
          (["/tmp/devnest-workspaces/ws-" ++ wid_s; "/tmp/devnest-workspaces/" ++ wid_s]%string
           ++ match key with
              | Some k => ["/tmp/devnest-workspaces/" ++ wid_s ++ "-" ++ k]%string
              | None => []
              end) in
        inl (if negb (fs_is_dir canon w) then
               (project_data_missing_issue :: (if legacy_hits then [legacy_elsewhere_issue] else []),
                Some true)
             else if negb (workspace_bundle_project_data_present canon w) then
               ([project_data_missing_issue], Some true)
             else (if legacy_hits then [legacy_directories_issue] else [], Some false))
    end
  else inl ([], None).

(** [_workspace_project_storage_reopen_assessment] *)
Definition workspace_project_storage_reopen_assessment (wid : Z) (ws : Workspace) (w : W)
    : (list string * option bool) + Exn :=
  if bool_decide (ws_status ws = WorkspaceStatus.DELETED) then inl ([], None) else
  match storage_issues wid ws w with
  | inl (issues, missing) => inl (hostname_issues wid ws ++ issues, missing)
  | inr e => inr e
  end.

Definition ensure_workspace_reopen_allowed (wid : Z) (ws : Workspace) : M W unit :=
  a ← ask_world (workspace_project_storage_reopen_assessment wid ws);
  match a with
  | inr e => raise e
  | inl ([], _) => mret tt
  | inl (blockers, _) => raise (WorkspaceInvalidStateError (Py.join "; " blockers))
  end.

(** *** The common parts *)

Definition get_owned_workspace (wid owner_user_id : Z) (include_deleted : bool) : M W Workspace :=
  found ← query (λ db, workspaces db !! wid);
  match found with
  | None => raise WorkspaceNotFoundError
  | Some w =>
      if negb (ws_owner_user_id w =? owner_user_id) then raise WorkspaceNotFoundError
      else if bool_decide (ws_status w = WorkspaceStatus.DELETED) && negb include_deleted
      then raise WorkspaceNotFoundError
      else mret w
  end.

Definition require_not_busy (w : Workspace) : M W unit :=
  if busy_status (ws_status w)
  then raise (WorkspaceBusyError ("Workspace is busy (status=" ++ WorkspaceStatus.value (ws_status w) ++ ")"))
  else mret tt.

(** [if ws.status not in allowed: raise WorkspaceInvalidStateError(..)] *)
Definition require_status (allowed : workspace_status → bool) (message : string) (w : Workspace) : M W unit :=
  if allowed (ws_status w) then mret tt else raise (WorkspaceInvalidStateError message).

Definition latest_config_version (wid : Z) (db : Db) : option Z := wc_version <$> latest_config wid db.

Definition intent_config_version (wid : Z) : M W Z :=
  v ← query (latest_config_version wid);
  match v with
  | None => raise (WorkspaceInvalidStateError "Workspace has no configuration version")
  | Some v => mret v
  end.

(** [WorkspaceJob(..)] with its column defaults *)
Definition new_job (wid : Z) (jt : workspace_job_type) (user config_version : Z) (cid : string)
    : WorkspaceJob :=
  mkWorkspaceJob wid None jt WorkspaceJobStatus.QUEUED user config_version 0 None env_now None None
    (Some cid) 2 None None None.

(** [_START_JOB_TYPES] *)
Definition start_job_type (jt : workspace_job_type) : bool :=
  match jt with WorkspaceJobType.START | WorkspaceJobType.RESTART => true | _ => false end.

(** The quota and policy checks of [_persist_intent]. *)
Definition check_start_allowed (wid : Z) (w : Workspace) : M W unit :=
  let owner := ws_owner_user_id w in
  check_running_workspace_quota owner (Some wid) ;;
  check_monthly_runtime_hours_quota owner ;;
  cfg_row ← query (latest_config wid);
  let cfg_json := match cfg_row with Some c => wc_config_json c | None => empty_config end in
  match proposed_cpu (cfg_cpu_limit_cores cfg_json), proposed_memory_mb (cfg_memory_limit_mib cfg_json) with
  | inr e, _ => raise e
  | _, inr e => raise e
  | inl c, inl m =>
      check_owner_compute_quota owner c m (Some wid) ;;
      evaluate_workspace_start owner wid
  end.

Definition intent_audit_action (jt : workspace_job_type) : string :=
  match jt with
  | WorkspaceJobType.START => "workspace.start.requested"
  | WorkspaceJobType.STOP => "workspace.stop.requested"
  | WorkspaceJobType.RESTART => "workspace.restart.requested"
  | WorkspaceJobType.DELETE => "workspace.delete.requested"
  | _ => "workspace.update.requested"
  end.

(** [ws.status = new_status; ws.updated_at = now] *)
Definition with_status (st : workspace_status) (w : Workspace) : Workspace :=
  w <| ws_status := st |> <| ws_updated_at := env_now |>.

Definition persist_intent (wid : Z) (w : Workspace) (new_status : workspace_status)
    (jt : workspace_job_type) (user config_version : Z) (cid : string) : M W WorkspaceIntentResult :=
  when (start_job_type jt) (check_start_allowed wid w) ;;
  set_ws wid (with_status new_status) ;;
  jid ← add_job (new_job wid jt user config_version cid);
  record_workspace_event wid "controlplane.intent_queued" (Some new_status) "Intent accepted; job queued" ;;
  record_audit (intent_audit_action jt) "workspace" "success" (Some user) "user"
    (Some (Py.str_of_Z wid)) (Some wid) (Some jid) None ;;
  commit ;;
  mret (mkWorkspaceIntentResult wid new_status jid jt config_version).

(** *** The requests *)

Definition start_allowed (st : workspace_status) : bool :=
  bool_decide (st = WorkspaceStatus.STOPPED ∨ st = WorkspaceStatus.ERROR).
Definition stop_allowed (st : workspace_status) : bool := bool_decide (st = WorkspaceStatus.RUNNING).
Definition restart_allowed (st : workspace_status) : bool :=
  bool_decide (st = WorkspaceStatus.RUNNING ∨ st = WorkspaceStatus.STOPPED).
Definition delete_allowed (st : workspace_status) : bool :=
  bool_decide (st = WorkspaceStatus.RUNNING ∨ st = WorkspaceStatus.STOPPED
               ∨ st = WorkspaceStatus.ERROR ∨ st = WorkspaceStatus.DELETED).
Definition update_allowed (st : workspace_status) : bool :=
  bool_decide (st = WorkspaceStatus.RUNNING ∨ st = WorkspaceStatus.STOPPED ∨ st = WorkspaceStatus.ERROR).

Definition request_start_workspace (wid owner_user_id user : Z) (cid : string) : M W WorkspaceIntentResult :=
  w ← get_owned_workspace wid owner_user_id false;
  require_not_busy w ;;
  require_status start_allowed "Start is only allowed when stopped or error" w ;;
  ensure_workspace_reopen_allowed wid w ;;
  v ← intent_config_version wid;
  persist_intent wid w WorkspaceStatus.STARTING WorkspaceJobType.START user v cid.

Definition request_stop_workspace (wid owner_user_id user : Z) (cid : string) : M W WorkspaceIntentResult :=
  w ← get_owned_workspace wid owner_user_id false;
  require_not_busy w ;;
  require_status stop_allowed "Stop is only allowed when running" w ;;
  v ← intent_config_version wid;
  persist_intent wid w WorkspaceStatus.STOPPING WorkspaceJobType.STOP user v cid.

Definition request_restart_workspace (wid owner_user_id user : Z) (cid : string) : M W WorkspaceIntentResult :=
  w ← get_owned_workspace wid owner_user_id false;
  require_not_busy w ;;
  require_status restart_allowed "Restart is only allowed when running or stopped" w ;;
  ensure_workspace_reopen_allowed wid w ;;
  v ← intent_config_version wid;
  persist_intent wid w WorkspaceStatus.RESTARTING WorkspaceJobType.RESTART user v cid.

Definition request_delete_workspace (wid owner_user_id user : Z) (cid : string) : M W WorkspaceIntentResult :=
  w ← get_owned_workspace wid owner_user_id true;
  require_not_busy w ;;
  require_status delete_allowed "Delete is only allowed when running, stopped, error, or deleted" w ;;
  v ← intent_config_version wid;
  persist_intent wid w WorkspaceStatus.DELETING WorkspaceJobType.DELETE user v cid.

Definition request_update_workspace (wid owner_user_id user : Z) (runtime : RuntimeConfig) (cid : string)
    : M W WorkspaceIntentResult :=
  w ← get_owned_workspace wid owner_user_id false;
  require_not_busy w ;;
  require_status update_allowed "Update is only allowed when running, stopped, or error" w ;;
  latest ← intent_config_version wid;
  let next_version := latest + 1 in
  set_ws wid (with_status WorkspaceStatus.UPDATING) ;;
  on_db (λ db, flush_db (db <| configs ::= λ l, l ++ [mkWorkspaceConfig wid next_version runtime] |>)) ;;
  jid ← add_job (new_job wid WorkspaceJobType.UPDATE user next_version cid);
  record_workspace_event wid "controlplane.intent_queued" (Some WorkspaceStatus.UPDATING)
    "Update intent accepted; job queued" ;;
  commit ;;
  mret (mkWorkspaceIntentResult wid WorkspaceStatus.UPDATING jid WorkspaceJobType.UPDATE next_version).

(** *** The reconcile request *)

Definition pending_reconcile (wid : Z) (db : Db) : option (Z * WorkspaceJob) :=
  first_row (λ kj, job_workspace_id kj.2 = wid ∧ job_type kj.2 = WorkspaceJobType.RECONCILE_RUNTIME ∧
                   (job_status kj.2 = WorkspaceJobStatus.QUEUED ∨
                    job_status kj.2 = WorkspaceJobStatus.RUNNING)) (jobs db).

Definition check_reconcile_lease (wid : Z) : M W unit :=
  existing ← query (pending_reconcile wid);
  match existing with
  | None => mret tt
  | Some (jid, j) =>
      if bool_decide (job_status j = WorkspaceJobStatus.QUEUED) then
        raise (WorkspaceBusyError ("A RECONCILE_RUNTIME job is already queued (job_id=" ++ Py.str_of_Z jid ++ ")"))
      else
        match job_started_at j with
        | Some started =>
            if env_now - started <? seconds (cfg_reconcile_lease_ttl_seconds env_settings) then
              raise (WorkspaceBusyError ("A RECONCILE_RUNTIME job is already running (job_id="
                                         ++ Py.str_of_Z jid ++ ")"))
            else mret tt
        | None => mret tt
        end
  end.

Definition enqueue_reconcile_runtime_job (wid : Z) (cid : string) : M W WorkspaceIntentResult :=
  found ← query (λ db, workspaces db !! wid);
  match found with
  | None => raise WorkspaceNotFoundError
  | Some w =>
      require_not_busy w ;;
      require_status delete_allowed "Reconcile is only allowed when running, stopped, error, or deleted" w ;;
      check_reconcile_lease wid ;;
      v ← intent_config_version wid;
      jid ← add_job (new_job wid WorkspaceJobType.RECONCILE_RUNTIME (ws_owner_user_id w) v cid);
      record_workspace_event wid "controlplane.intent_queued" (Some (ws_status w)) "Reconcile job queued" ;;
      commit ;;
      mret (mkWorkspaceIntentResult wid (ws_status w) jid WorkspaceJobType.RECONCILE_RUNTIME v)
  end.

Definition best_effort_enqueue_reconcile_for_access_drift (wid : Z) (cid : string) : M W unit :=
  try_except (enqueue_reconcile_runtime_job wid cid ;; mret tt)
    (λ e, match e with
          | WorkspaceBusyError _ | WorkspaceInvalidStateError _ | WorkspaceNotFoundError => rollback
          | _ => raise e
          end).
End intents.

(** ** Properties *)

Section properties.
Context {W : Type} {env : Env} {fs : HostFilesystem W}.

(** A refusal leaves every job and workspace row, here and committed. *)
Definition refused (s s' : St W) : Prop :=
  jobs (st_db s') = jobs (st_db s) ∧ workspaces (st_db s') = workspaces (st_db s) ∧
  configs (st_db s') = configs (st_db s) ∧
  (st_committed s' = st_committed s ∨ st_committed s' = st_db s').

(** The requests' checks read rows and may commit a denial's audit row. *)
Definition checks (m : M W unit) : Prop := ∀ s, wp m (λ _ s', s' = s) (λ _ s', refused s s') s.

Lemma refused_refl s : refused s s.
Proof. split_and!; [done|done|done|by left]. Qed.

Lemma checks_enforced m action ok err : check_enforces m action ok err → checks m.
Proof.
  intros H s. eapply wp_mono; [apply H| |].
  - intros [] s' [-> _]. done.
  - intros e s' [(a & Hdb & Hc & _) _]. unfold refused. rewrite Hc, Hdb. split_and!; try done. by right.
Qed.
Lemma checks_bind m k : checks m → checks k → checks (m ;; k).
Proof.
  intros Hm Hk s. apply wp_bind. eapply wp_mono; [apply Hm| |done]. intros [] s' ->. apply Hk.
Qed.
Lemma checks_query {A} (f : Db → A) k : (∀ a, checks (k a)) → checks (a ← query f; k a).
Proof. intros Hk s. apply wp_bind, wp_query, Hk. Qed.
Lemma checks_raise e : checks (raise e).
Proof. intros s. apply wp_raise, refused_refl. Qed.
Lemma checks_ret : checks (mret tt).
Proof. intros s. by apply wp_ret. Qed.

Lemma checks_start_allowed wid w : checks (check_start_allowed wid w).
Proof.
  unfold check_start_allowed. cbv zeta.
  apply checks_bind; [by eapply checks_enforced, running_check_enforces|].
  apply checks_bind; [by eapply checks_enforced, month_check_enforces|].
  apply checks_query. intros cfg.
  destruct (proposed_cpu _) as [c|]; [|apply checks_raise].
  destruct (proposed_memory_mb _) as [m|]; [|apply checks_raise].
  apply checks_bind; [by eapply checks_enforced, compute_check_enforces|].
  by eapply checks_enforced, rule_enforces.
Qed.

(** What an accepted request of user [user] on workspace [wid] leaves: the new
    status, one new QUEUED job for configuration [v], all of it committed. *)
Record accepted (wid : Z) (w : Workspace) (new : workspace_status) (jt : workspace_job_type)
    (user : Z) (cid : string) (r : WorkspaceIntentResult) (s s' : St W) : Prop := mkAccepted {
  ac_result : ir_workspace_id r = wid ∧ ir_status r = new ∧ ir_job_type r = jt;
  ac_fresh : jobs (st_db s) !! ir_job_id r = None;
  ac_jobs : jobs (st_db s') =
    <[ir_job_id r := new_job wid jt user (ir_requested_config_version r) cid]> (jobs (st_db s));
  ac_workspaces : workspaces (st_db s') = <[wid := with_status new w]> (workspaces (st_db s));
  ac_version : latest_config_version wid (st_db s) =
    Some (ir_requested_config_version r - (if bool_decide (jt = WorkspaceJobType.UPDATE) then 1 else 0));
  ac_committed : st_committed s' = st_db s'
}.

(** [m] accepts the owner's request exactly in the allowed statuses, and
    otherwise leaves jobs and workspaces alone. *)
Definition lifecycle_request (wid owner user : Z) (allowed : workspace_status → bool)
    (new : workspace_status) (jt : workspace_job_type) (cid : string)
    (m : M W WorkspaceIntentResult) : Prop := ∀ s,
  wp m (λ r s', ∃ w, workspaces (st_db s) !! wid = Some w ∧ ws_owner_user_id w = owner ∧
                     allowed (ws_status w) = true ∧ busy_status (ws_status w) = false ∧
                     accepted wid w new jt user cid r s s')
       (λ _ s', refused s s') s.

Lemma wp_owned wid owner b s (Q : Workspace → St W → Prop) X :
  (∀ e, X e s) →
  (∀ w, workspaces (st_db s) !! wid = Some w → ws_owner_user_id w = owner → Q w s) →
  wp (get_owned_workspace wid owner b) Q X s.
Proof.
  intros HX HQ. unfold get_owned_workspace. apply wp_bind, wp_query.
  destruct (workspaces (st_db s) !! wid) as [w|] eqn:E; [|apply wp_raise, HX].
  destruct (Z.eqb_spec (ws_owner_user_id w) owner) as [Ho|Ho]; cbn [negb]; [|apply wp_raise, HX].
  destruct (_ && _); [apply wp_raise, HX|]. by apply wp_ret, HQ.
Qed.
Lemma wp_guards wid owner b allowed msg s (k : Workspace → M W WorkspaceIntentResult) Q X :
  (∀ e, X e s) →
  (∀ w, workspaces (st_db s) !! wid = Some w → ws_owner_user_id w = owner →
     allowed (ws_status w) = true → busy_status (ws_status w) = false → wp (k w) Q X s) →
  wp (w ← get_owned_workspace wid owner b; require_not_busy w ;; require_status allowed msg w ;; k w) Q X s.
Proof.
  intros HX Hk. apply wp_bind, wp_owned; [done|]. intros w Hw Ho.
  unfold require_not_busy, require_status. apply wp_bind.
  destruct (busy_status (ws_status w)) eqn:Hb; [apply wp_raise, HX|]. apply wp_ret, wp_bind.
  destruct (allowed (ws_status w)) eqn:Ha; [|apply wp_raise, HX]. by apply wp_ret, Hk.
Qed.
Lemma wp_reopen wid w s (Q : unit → St W → Prop) X :
  (∀ e, X e s) → Q tt s → wp (ensure_workspace_reopen_allowed wid w) Q X s.
Proof.
  intros HX HQ. unfold ensure_workspace_reopen_allowed. apply wp_bind, wp_gets.
  destruct (workspace_project_storage_reopen_assessment _ _ _) as [[[|i l] m]|e];
    [by apply wp_ret|apply wp_raise, HX|apply wp_raise, HX].
Qed.
Lemma wp_config_version wid s (Q : Z → St W → Prop) X :
  (∀ e, X e s) → (∀ v, latest_config_version wid (st_db s) = Some v → Q v s) →
  wp (intent_config_version wid) Q X s.
Proof.
  intros HX HQ. unfold intent_config_version. apply wp_bind, wp_query.
  destruct (latest_config_version wid (st_db s)); [by apply wp_ret, HQ|apply wp_raise, HX].
Qed.

Lemma wp_persist wid w new jt user v cid s :
  workspaces (st_db s) !! wid = Some w → latest_config_version wid (st_db s) = Some v →
  jt ≠ WorkspaceJobType.UPDATE →
  wp (persist_intent wid w new jt user v cid) (λ r s', accepted wid w new jt user cid r s s')
     (λ _ s', refused s s') s.
Proof.
  intros Hw Hv Hjt. unfold persist_intent. apply wp_bind. unfold when at 1.
  assert (Hrest : wp (set_ws wid (with_status new) ;;
    jid ← add_job (new_job wid jt user v cid);
    record_workspace_event wid "controlplane.intent_queued" (Some new) "Intent accepted; job queued" ;;
    record_audit (intent_audit_action jt) "workspace" "success" (Some user) "user"
      (Some (Py.str_of_Z wid)) (Some wid) (Some jid) None ;;
    commit ;; mret (mkWorkspaceIntentResult wid new jid jt v))
    (λ r s', accepted wid w new jt user cid r s s') (λ _ s', refused s s') s).
  { unfold add_job, commit. wp_db. split; cbn.
    - done.
    - apply fresh_key_fresh.
    - done.
    - by apply alter_row.
    - rewrite bool_decide_eq_false_2 by done. by rewrite Z.sub_0_r.
    - done. }
  destruct (start_job_type jt); [|by apply wp_ret].
  eapply wp_mono; [apply checks_start_allowed| |done]. by intros [] s' ->.
Qed.

Section requests.
Context (wid owner user : Z) (cid : string).

Lemma start_request_spec :
  lifecycle_request wid owner user start_allowed WorkspaceStatus.STARTING WorkspaceJobType.START cid
    (request_start_workspace wid owner user cid).
Proof.
  intros s. apply wp_guards; [intros; apply refused_refl|intros w Hw Ho Ha Hb].
  apply wp_bind, wp_reopen; [intros; apply refused_refl|].
  apply wp_bind, wp_config_version; [intros; apply refused_refl|intros v Hv].
  eapply wp_mono; [by apply wp_persist| |done]. eauto 8.
Qed.

Lemma stop_request_spec :
  lifecycle_request wid owner user stop_allowed WorkspaceStatus.STOPPING WorkspaceJobType.STOP cid
    (request_stop_workspace wid owner user cid).
Proof.
  intros s. apply wp_guards; [intros; apply refused_refl|intros w Hw Ho Ha Hb].
  apply wp_bind, wp_config_version; [intros; apply refused_refl|intros v Hv].
  eapply wp_mono; [by apply wp_persist| |done]. eauto 8.
Qed.

Lemma restart_request_spec :
  lifecycle_request wid owner user restart_allowed WorkspaceStatus.RESTARTING WorkspaceJobType.RESTART cid
    (request_restart_workspace wid owner user cid).
Proof.
  intros s. apply wp_guards; [intros; apply refused_refl|intros w Hw Ho Ha Hb].
  apply wp_bind, wp_reopen; [intros; apply refused_refl|].
  apply wp_bind, wp_config_version; [intros; apply refused_refl|intros v Hv].
  eapply wp_mono; [by apply wp_persist| |done]. eauto 8.
Qed.

Lemma delete_request_spec :
  lifecycle_request wid owner user delete_allowed WorkspaceStatus.DELETING WorkspaceJobType.DELETE cid
    (request_delete_workspace wid owner user cid).
Proof.
  intros s. apply wp_guards; [intros; apply refused_refl|intros w Hw Ho Ha Hb].
  apply wp_bind, wp_config_version; [intros; apply refused_refl|intros v Hv].
  eapply wp_mono; [by apply wp_persist| |done]. eauto 8.
Qed.

Lemma update_request_spec runtime :
  lifecycle_request wid owner user update_allowed WorkspaceStatus.UPDATING WorkspaceJobType.UPDATE cid
    (request_update_workspace wid owner user runtime cid).
Proof.
  intros s. apply wp_guards; [intros; apply refused_refl|intros w Hw Ho Ha Hb].
  apply wp_bind, wp_config_version; [intros; apply refused_refl|intros v Hv]. cbv zeta.
  unfold add_job, commit. wp_db. exists w. split_and!; try done. split; cbn.
  - done.
  - apply fresh_key_fresh.
  - done.
  - by apply alter_row.
  - rewrite Hv, bool_decide_eq_true_2 by done. f_equal. lia.
  - done.
Qed.
End requests.

(** C7. The lifecycle requests: start, stop, restart, delete and update are
    accepted only for the workspace's owner and only in the statuses each allows
    (never a busy one); acceptance sets the transitional status, queues exactly
    one fresh job for the latest configuration (for update, for the version it
    adds) and commits; a refusal, whatever its reason, changes no job, workspace
    or configuration. *)
Theorem lifecycle_requests_queue_one_job (wid owner user : Z) (runtime : RuntimeConfig) (cid : string) :
  lifecycle_request wid owner user start_allowed WorkspaceStatus.STARTING WorkspaceJobType.START cid
    (request_start_workspace wid owner user cid) ∧
  lifecycle_request wid owner user stop_allowed WorkspaceStatus.STOPPING WorkspaceJobType.STOP cid
    (request_stop_workspace wid owner user cid) ∧
  lifecycle_request wid owner user restart_allowed WorkspaceStatus.RESTARTING WorkspaceJobType.RESTART cid
    (request_restart_workspace wid owner user cid) ∧
  lifecycle_request wid owner user delete_allowed WorkspaceStatus.DELETING WorkspaceJobType.DELETE cid
    (request_delete_workspace wid owner user cid) ∧
  lifecycle_request wid owner user update_allowed WorkspaceStatus.UPDATING WorkspaceJobType.UPDATE cid
    (request_update_workspace wid owner user runtime cid).
Proof.
  split_and!; [apply start_request_spec|apply stop_request_spec|apply restart_request_spec
    |apply delete_request_spec|apply update_request_spec].
Qed.

(** A reconcile job of [wid] that is queued or running. *)
Definition reconcile_pending (wid : Z) (j : WorkspaceJob) : Prop :=
  job_workspace_id j = wid ∧ job_type j = WorkspaceJobType.RECONCILE_RUNTIME ∧
  (job_status j = WorkspaceJobStatus.QUEUED ∨ job_status j = WorkspaceJobStatus.RUNNING).

(** One whose worker is presumed dead: it runs since before the lease's TTL. *)
Definition reconcile_stale (j : WorkspaceJob) : Prop :=
  job_status j = WorkspaceJobStatus.RUNNING ∧
  ∀ t, job_started_at j = Some t → seconds (cfg_reconcile_lease_ttl_seconds env_settings) ≤ env_now - t.

Lemma reconcile_request_spec wid cid s :
  wp (enqueue_reconcile_runtime_job wid cid)
    (λ r s', ∃ w, workspaces (st_db s) !! wid = Some w ∧ busy_status (ws_status w) = false ∧
      ir_job_type r = WorkspaceJobType.RECONCILE_RUNTIME ∧ jobs (st_db s) !! ir_job_id r = None ∧
      jobs (st_db s') = <[ir_job_id r := new_job wid WorkspaceJobType.RECONCILE_RUNTIME
        (ws_owner_user_id w) (ir_requested_config_version r) cid]> (jobs (st_db s)) ∧
      workspaces (st_db s') = workspaces (st_db s) ∧ st_committed s' = st_db s' ∧
      ((∀ k j, jobs (st_db s) !! k = Some j → ¬ reconcile_pending wid j) ∨
       (∃ k j, jobs (st_db s) !! k = Some j ∧ reconcile_pending wid j ∧ reconcile_stale j)))
    (λ _ s', refused s s') s.
Proof.
  pose proof (refused_refl s) as HX.
  unfold enqueue_reconcile_runtime_job. apply wp_bind, wp_query.
  destruct (workspaces (st_db s) !! wid) as [w|] eqn:Hw; [|by apply wp_raise, HX].
  unfold require_not_busy, require_status. apply wp_bind.
  destruct (busy_status (ws_status w)) eqn:Hb; [by apply wp_raise, HX|]. apply wp_ret, wp_bind.
  destruct (delete_allowed (ws_status w)); [|by apply wp_raise, HX]. apply wp_ret, wp_bind.
  eapply (wp_mono _ (λ _ s', s' = s ∧
      ((∀ k j, jobs (st_db s) !! k = Some j → ¬ reconcile_pending wid j) ∨
       (∃ k j, jobs (st_db s) !! k = Some j ∧ reconcile_pending wid j ∧ reconcile_stale j)))
    _ (λ _ s', s' = s)).
  - unfold check_reconcile_lease. apply wp_bind, wp_query. unfold pending_reconcile.
    destruct (first_row _ _) as [[k j]|] eqn:Hf.
    + apply first_row_Some in Hf as [Hk Hp]. case_bool_decide as Hq; [by apply wp_raise|].
      assert (Hr : job_status j = WorkspaceJobStatus.RUNNING) by (by destruct Hp as (_ & _ & [?|?])).
      destruct (job_started_at j) as [t|] eqn:Ht.
      * destruct (Z.ltb_spec (env_now - t) (seconds (cfg_reconcile_lease_ttl_seconds env_settings)));
          [by apply wp_raise|]. apply wp_ret. split; [done|]. right. exists k, j.
        do 2 (split; [done|]). split; [done|]. intros t'. by rewrite Ht; intros [= <-].
      * apply wp_ret. split; [done|]. right. exists k, j.
        do 2 (split; [done|]). split; [done|]. by rewrite Ht.
    + apply wp_ret. split; [done|]. left. intros k j Hk Hp. by eapply (first_row_None _ _ k j Hf).
  - intros [] s' [-> Hl]. apply wp_bind, wp_config_version; [done|]. intros v Hv.
    unfold add_job, commit. wp_db. exists w. split_and!; try done. apply fresh_key_fresh.
  - intros e s' ->. by apply HX.
Qed.

(** The reconcile lease: a reconcile job is queued only for a settled
    workspace, whose status it leaves, and only when no reconcile job of that
    workspace is queued or running, unless one is running past the lease's TTL;
    a refusal changes no job, workspace or configuration. *)
Lemma reconcile_request_respects_lease (wid : Z) (cid : string) (s : St W) :
  let '(s', res) := enqueue_reconcile_runtime_job wid cid s in
  match res with
  | inl r => ∃ w, workspaces (st_db s) !! wid = Some w ∧ busy_status (ws_status w) = false ∧
      ir_job_type r = WorkspaceJobType.RECONCILE_RUNTIME ∧ jobs (st_db s) !! ir_job_id r = None ∧
      jobs (st_db s') = <[ir_job_id r := new_job wid WorkspaceJobType.RECONCILE_RUNTIME
        (ws_owner_user_id w) (ir_requested_config_version r) cid]> (jobs (st_db s)) ∧
      workspaces (st_db s') = workspaces (st_db s) ∧ st_committed s' = st_db s' ∧
      ((∀ k j, jobs (st_db s) !! k = Some j → ¬ reconcile_pending wid j) ∨
       (∃ k j, jobs (st_db s) !! k = Some j ∧ reconcile_pending wid j ∧ reconcile_stale j))
  | inr _ => refused s s'
  end.
Proof.
  pose proof (reconcile_request_spec wid cid s) as H. unfold wp in H.
  by destruct (enqueue_reconcile_runtime_job wid cid s) as [s' [r|e]].
Qed.
End properties.
