(* ===== verification/Secrets.v ===== *)
(** * Secrets: the stored keys of AI providers

    [src/backend/app/services/workspace_service/services/workspace_secret_service.py]:
    a key is stored encrypted, one row per workspace and provider, and read back as
    environment variables.  The cipher (Fernet, in a library) is an interface. *)

From S2P Require Import Prelude Models Session Services Quota.

(** [encrypt_token] and [decrypt_token] of integration_service/token_crypto.py;
    encrypting draws on the system's randomness, decrypting fails on a text that no
    encryption made. *)
Class TokenCrypto (W : Type) := {
  encrypt_token : W → string → W * string;
  decrypt_token : string → option string;
  decrypt_encrypt w plain : decrypt_token (encrypt_token w plain).2 = Some plain
}.

(** [AI_PROVIDER_SECRET_ENV] *)
Definition AI_PROVIDER_SECRET_ENV (provider : string) : option string :=
  if String.eqb provider "openai" then Some "OPENAI_API_KEY"%string
  else if String.eqb provider "anthropic" then Some "ANTHROPIC_API_KEY"%string
  else None.
Definition provider_secret_name (provider : string) : option string :=
  AI_PROVIDER_SECRET_ENV (Py.lower (Py.strip provider)).

Definition find_secret (wid : Z) (name : string) (db : Db) : option (Z * WorkspaceSecret) :=
  first_row (λ ks, wsec_workspace_id ks.2 = wid ∧ wsec_secret_name ks.2 = name) (secrets db).

Section secrets.
Context {W : Type} {env : Env} {crypto : TokenCrypto W}.

(** [_get_owned_workspace] of the same file: a DELETED workspace counts. *)
Definition require_owned_workspace (wid owner_user_id : Z) : M W unit :=
  found ← query (λ db, workspaces db !! wid);
  match found with
  | Some w => if ws_owner_user_id w =? owner_user_id then mret tt
              else raise (ValueError "workspace_not_found_or_not_owned")
  | None => raise (ValueError "workspace_not_found_or_not_owned")
  end.

Definition encrypt (plain : string) : M W string := fun s =>
  let '(w, text) := encrypt_token (st_world s) plain in (s <| st_world := w |>, inl text).

(** Returns the key of the row; the flush refuses a text longer than the column. *)
Definition upsert_workspace_ai_secret (wid owner_user_id : Z) (provider api_key : string) : M W Z :=
  match provider_secret_name provider with
  | None => raise (ValueError "unsupported_ai_provider")
  | Some secret_name =>
      let key_value := Py.strip api_key in
      if negb (Py.truthy key_value) then raise (ValueError "api_key_required") else
      require_owned_workspace wid owner_user_id ;;
      found ← query (find_secret wid secret_name);
      encrypted_value ← encrypt key_value;
      if negb (fits_varchar 8192 encrypted_value) then
        refuse_flush (DataError "value too long for type character varying(8192)")
      else
        sid ← match found with
              | None =>
                  sid ← query (λ db, fresh_key (secrets db));
                  on_db (λ db, db <| secrets ::= <[sid :=
                    mkWorkspaceSecret wid secret_name encrypted_value env_now env_now]> |>) ;;
                  mret sid
              | Some (sid, _) =>
                  on_db (λ db, db <| secrets ::= alter (λ r,
                    r <| wsec_encrypted_value := encrypted_value |> <| wsec_updated_at := env_now |>) sid |>) ;;
                  mret sid
              end;
        flush ;;
        mret sid
  end.

Definition delete_workspace_ai_secret (wid owner_user_id : Z) (provider : string) : M W bool :=
  match provider_secret_name provider with
  | None => raise (ValueError "unsupported_ai_provider")
  | Some secret_name =>
      require_owned_workspace wid owner_user_id ;;
      found ← query (find_secret wid secret_name);
      match found with
      | None => mret false
      | Some (sid, _) => on_db (λ db, db <| secrets ::= delete sid |>) ;; flush ;; mret true
      end
  end.

(** The environment of a workspace's secrets; a row that cannot be decrypted raises. *)
Fixpoint decrypt_rows (rows : list WorkspaceSecret) (acc : gmap string string) : gmap string string + Exn :=
  match rows with
  | [] => inl acc
  | r :: rest =>
      match decrypt_token (wsec_encrypted_value r) with
      | Some plain => decrypt_rows rest (<[wsec_secret_name r := plain]> acc)
      | None => inr (ValueError "token_decryption_failed")
      end
  end.
Definition secret_rows (wid : Z) (db : Db) : list WorkspaceSecret :=
  snd <$> List.filter (λ ks, wsec_workspace_id ks.2 =? wid) (map_to_list (secrets db)).
Definition resolve_workspace_runtime_secret_env (wid : Z) : M W (gmap string string) :=
  rows ← query (secret_rows wid);
  match decrypt_rows rows ∅ with inl e => mret e | inr e => raise e end.
End secrets.

(** ** Properties *)

Section properties.
Context {W : Type} {env : Env} {crypto : TokenCrypto W}.

(** The constraint of the table, and that every row was written by this service. *)
Record secrets_ok (db : Db) : Prop := {
  so_unique i j r r' : secrets db !! i = Some r → secrets db !! j = Some r' →
    wsec_workspace_id r = wsec_workspace_id r' → wsec_secret_name r = wsec_secret_name r' → i = j;
  so_readable i r : secrets db !! i = Some r → is_Some (decrypt_token (wsec_encrypted_value r))
}.

(** A secret of the workspace, readable as [v]. *)
Definition holds_secret (wid : Z) (name v : string) (db : Db) : Prop :=
  ∃ i r, secrets db !! i = Some r ∧ wsec_workspace_id r = wid ∧ wsec_secret_name r = name ∧
         decrypt_token (wsec_encrypted_value r) = Some v.
Definition secret_env (wid : Z) (db : Db) : gmap string string + Exn := decrypt_rows (secret_rows wid db) ∅.

Lemma decrypt_rows_spec rows : ∀ acc,
  Forall (λ r, is_Some (decrypt_token (wsec_encrypted_value r))) rows → NoDup (wsec_secret_name <$> rows) →
  ∃ e, decrypt_rows rows acc = inl e ∧
    ∀ name v, e !! name = Some v ↔
      (∃ r, r ∈ rows ∧ wsec_secret_name r = name ∧ decrypt_token (wsec_encrypted_value r) = Some v) ∨
      (name ∉ wsec_secret_name <$> rows) ∧ acc !! name = Some v.
Proof.
  induction rows as [|r rows IH]; intros acc HF HN; cbn [decrypt_rows fmap list_fmap].
  { exists acc. split; [done|]. intros name v. split; [intros H; right; split; [apply not_elem_of_nil|done]|].
    intros [(r & Hr%not_elem_of_nil & _)|[_ ?]]; done. }
  apply Forall_cons in HF as [[p Hp] HF]. cbn in HN. apply NoDup_cons in HN as [Hnew HN]. rewrite Hp.
  destruct (IH (<[wsec_secret_name r := p]> acc) HF HN) as (e & He & Hlook). exists e. split; [done|].
  intros name v. rewrite Hlook. clear IH Hlook He. destruct (decide (name = wsec_secret_name r)) as [->|Hne].
  - rewrite lookup_insert_eq. split.
    + intros [(r' & Hr' & Hn & Hd)|[_ [= <-]]].
      * exfalso. apply Hnew. rewrite <- Hn. by apply list_elem_of_fmap_2.
      * left. exists r. split; [by left|done].
    + intros [(r' & Hr' & Hn & Hd)|[Hin _]]; [|exfalso; apply Hin; by left].
      apply elem_of_cons in Hr' as [->|Hr']; [right; split; [done|congruence]|left; eauto].
  - rewrite lookup_insert_ne by done. split.
    + intros [(r' & Hr' & Hn & Hd)|[Hin Ha]]; [left; exists r'; split; [by right|done]|right].
      split; [by apply not_elem_of_cons|done].
    + intros [(r' & Hr' & Hn & Hd)|[Hin Ha]].
      * apply elem_of_cons in Hr' as [->|Hr']; [done|left; eauto].
      * apply not_elem_of_cons in Hin as [_ Hin]. by right.
Qed.

Lemma elem_of_secret_rows wid db r : r ∈ secret_rows wid db ↔ ∃ i, secrets db !! i = Some r ∧ wsec_workspace_id r = wid.
Proof.
  unfold secret_rows. rewrite list_elem_of_fmap. split.
  - intros ([i r'] & -> & Hin%list_elem_of_In). apply List.filter_In in Hin as [Hin Hw%Z.eqb_eq].
    exists i. split; [|done]. by apply elem_of_map_to_list, list_elem_of_In.
  - intros (i & Hi & Hw). exists (i, r). split; [done|]. apply list_elem_of_In, List.filter_In.
    split; [by apply list_elem_of_In, elem_of_map_to_list|by apply Z.eqb_eq].
Qed.
Lemma NoDup_secret_rows wid db : secrets_ok db → NoDup (wsec_secret_name <$> secret_rows wid db).
Proof.
  intros [Hu _]. unfold secret_rows. rewrite <- list_fmap_compose.
  assert (Hsub : ∀ x, x ∈ List.filter (λ ks : Z * WorkspaceSecret, wsec_workspace_id ks.2 =? wid) (map_to_list (secrets db)) →
    secrets db !! x.1 = Some x.2 ∧ wsec_workspace_id x.2 = wid).
  { intros [i r] Hin%list_elem_of_In. apply List.filter_In in Hin as [Hin Hw%Z.eqb_eq].
    split; [|done]. by apply elem_of_map_to_list, list_elem_of_In. }
  assert (HN : NoDup (List.filter (λ ks : Z * WorkspaceSecret, wsec_workspace_id ks.2 =? wid) (map_to_list (secrets db)))).
  { apply NoDup_ListNoDup, List.NoDup_filter, NoDup_ListNoDup, NoDup_map_to_list. }
  revert Hsub HN. induction (List.filter _ _) as [|x l IH]; intros Hsub HN; cbn; [constructor|].
  apply NoDup_cons in HN as [Hx HN]. constructor; [|apply IH; [|done]; intros y Hy; apply Hsub; by right].
  intros (y & Hxy & Hy)%list_elem_of_fmap. cbn in Hxy.
  destruct (Hsub x ltac:(by left)) as [Hx1 Hx2], (Hsub y ltac:(by right)) as [Hy1 Hy2].
  assert (x.1 = y.1) by (eapply Hu; eauto; congruence). apply Hx.
  destruct x as [i r], y as [j r']; cbn in *. subst j. by assert (r = r') as -> by congruence.
Qed.

(** The environment holds exactly the secrets of the workspace. *)
Lemma secret_env_spec wid db : secrets_ok db →
  ∃ e, secret_env wid db = inl e ∧ ∀ name v, e !! name = Some v ↔ holds_secret wid name v db.
Proof.
  intros Hok. destruct (decrypt_rows_spec (secret_rows wid db) ∅) as (e & He & Hlook).
  - apply Forall_forall. intros r (i & Hi & _)%elem_of_secret_rows. by eapply so_readable.
  - by apply NoDup_secret_rows.
  - exists e. split; [done|]. intros name v. rewrite Hlook, lookup_empty. unfold holds_secret. split.
    + intros [(r & (i & Hi & Hw)%elem_of_secret_rows & Hn & Hd)|[_ [=]]]. eauto 8.
    + intros (i & r & Hi & Hw & Hn & Hd). left. exists r. split; [|done]. apply elem_of_secret_rows. eauto.
Qed.

Lemma secret_env_change wid db db' (f : gmap string string → gmap string string) :
  secrets_ok db → secrets_ok db' →
  (∀ e, (∀ name v, e !! name = Some v ↔ holds_secret wid name v db) →
        ∀ name v, f e !! name = Some v ↔ holds_secret wid name v db') →
  ∃ e, secret_env wid db = inl e ∧ secret_env wid db' = inl (f e).
Proof.
  intros H H' Hf. destruct (secret_env_spec wid db H) as (e & He & Hl).
  destruct (secret_env_spec wid db' H') as (e' & He' & Hl'). exists e. split; [done|]. rewrite He'. f_equal.
  apply map_eq. intros name. apply option_eq. intros v. by rewrite Hl', (Hf e Hl).
Qed.

Lemma wp_owned_workspace wid owner (Q : unit → St W → Prop) X s :
  (∀ e, X e s) → (∀ w, workspaces (st_db s) !! wid = Some w → ws_owner_user_id w = owner → Q tt s) →
  wp (require_owned_workspace wid owner) Q X s.
Proof.
  intros HX HQ. unfold require_owned_workspace. apply wp_bind, wp_query.
  destruct (workspaces (st_db s) !! wid) as [w|]; [|by apply wp_raise].
  destruct (Z.eqb_spec (ws_owner_user_id w) owner); [by apply wp_ret, (HQ w)|by apply wp_raise].
Qed.

(** Of the rows, only those of the table move, and nothing is committed. *)
Definition only_secrets (s s' : St W) : Prop :=
  st_db s' = flush_db ((st_db s) <| secrets := secrets (st_db s') |>) ∧ st_committed s' = st_committed s.

(** The row an upsert writes. *)
Record upserted (wid : Z) (name value : string) (db : Db) (sid : Z) (db' : Db) : Prop := {
  up_row : ∃ r, secrets db' = <[sid := r]> (secrets db) ∧ wsec_workspace_id r = wid ∧
                wsec_secret_name r = name ∧ decrypt_token (wsec_encrypted_value r) = Some value;
  up_place : (∃ r, find_secret wid name db = Some (sid, r)) ∨
             find_secret wid name db = None ∧ secrets db !! sid = None
}.

(** The request is one the service takes: the owner's, for a known provider, and a key
    that is not blank. *)
Definition secret_request (wid owner : Z) (provider api_key : string) (db : Db) : Prop :=
  is_Some (provider_secret_name provider) ∧ Py.truthy (Py.strip api_key) = true ∧
  ∃ w, workspaces db !! wid = Some w ∧ ws_owner_user_id w = owner.
(** The encrypted key fits the column. *)
Definition secret_fits (api_key : string) (w : W) : bool :=
  fits_varchar 8192 (encrypt_token w (Py.strip api_key)).2.

Lemma wp_upsert wid owner provider api_key s :
  wp (upsert_workspace_ai_secret wid owner provider api_key)
    (λ sid s', only_secrets s s' ∧ secret_request wid owner provider api_key (st_db s) ∧
       secret_fits api_key (st_world s) = true ∧
       ∃ name, provider_secret_name provider = Some name ∧ upserted wid name (Py.strip api_key) (st_db s) sid (st_db s'))
    (λ _ s', s' = s ∧ ¬ secret_request wid owner provider api_key (st_db s) ∨
       flush_refused s s' ∧ secret_request wid owner provider api_key (st_db s) ∧ secret_fits api_key (st_world s) = false) s.
Proof.
  unfold upsert_workspace_ai_secret, secret_request, secret_fits.
  destruct (provider_secret_name provider) as [name|]; [|apply wp_raise; left; split; [done|by intros [[? [=]] _]]].
  cbv zeta. destruct (Py.truthy (Py.strip api_key)) eqn:Ht; cbn [negb];
    [|apply wp_raise; left; split; [done|by intros (_ & [=] & _)]].
  apply wp_bind. unfold require_owned_workspace. apply wp_bind, wp_query.
  destruct (workspaces (st_db s) !! wid) as [w|] eqn:Hw; [|apply wp_raise; left; split; [done|by intros (_ & _ & ? & [=] & _)]].
  destruct (Z.eqb_spec (ws_owner_user_id w) owner) as [Ho|];
    [|apply wp_raise; left; split; [done|by intros (_ & _ & ? & [= <-] & ?)]].
  assert (Hreq : is_Some (Some name) ∧ true = true ∧ ∃ w0, Some w = Some w0 ∧ ws_owner_user_id w0 = owner) by eauto.
  apply wp_ret, wp_bind, wp_query, wp_bind. unfold encrypt, wp at 1.
  pose proof (decrypt_encrypt (st_world s) (Py.strip api_key)) as Hd.
  destruct (encrypt_token (st_world s) (Py.strip api_key)) as [w' text]. cbn in Hd.
  destruct (fits_varchar 8192 text) eqn:Hfit; cbn [negb snd]; rewrite ?Hfit;
    [|apply wp_bind, wp_modify, wp_raise; right; done].
  destruct (find_secret wid name (st_db s)) as [[sid r]|] eqn:Hf; unfold flush.
  - apply wp_bind, wp_bind, wp_on_db, wp_ret, wp_bind, wp_on_db, wp_ret. cbn. split; [done|]. split; [done|]. split; [done|].
    pose proof Hf as (Hs & Hrw & Hrn)%first_row_Some. cbn in Hrw, Hrn.
    exists name. split; [done|]. split; [|left; eauto]. cbn.
    exists (r <| wsec_encrypted_value := text |> <| wsec_updated_at := env_now |>). cbn.
    split_and!; [exact (alter_row _ _ _ _ Hs)|done..].
  - apply wp_bind, wp_bind, wp_query, wp_bind, wp_on_db, wp_ret, wp_bind, wp_on_db, wp_ret. cbn.
    split; [done|]. split; [done|]. split; [done|].
    exists name. split; [done|]. split; [|right; split; [done|apply fresh_key_fresh]]. cbn. eexists. by split_and!.
Qed.

Lemma upserted_env wid name value db sid db' : secrets_ok db → upserted wid name value db sid db' →
  secrets_ok db' ∧ ∀ wid' n v, holds_secret wid' n v db' ↔
    (if decide (wid' = wid ∧ n = name) then v = value else holds_secret wid' n v db).
Proof.
  intros Hok [(r & Hs & Hrw & Hrn & Hrd) Hplace].
  assert (Hsame : ∀ i r', secrets db !! i = Some r' → wsec_workspace_id r' = wid → wsec_secret_name r' = name → i = sid).
  { intros i r' Hi Hw Hn. destruct Hplace as [(r0 & (H0 & H0w & H0n)%first_row_Some)|[Hno _]].
    - cbn in *. eapply (so_unique _ Hok); eauto; congruence.
    - exfalso. by eapply (first_row_None _ _ i r' Hno). }
  assert (Hold : ∀ r0, secrets db !! sid = Some r0 → wsec_workspace_id r0 = wid ∧ wsec_secret_name r0 = name).
  { intros r0 H0. destruct Hplace as [(r1 & (H1 & ? & ?)%first_row_Some)|[_ Hno]]; [|by rewrite Hno in H0].
    cbn in *. assert (r0 = r1) as -> by congruence. done. }
  split; [split|].
  - intros i j a b. rewrite Hs. rewrite !lookup_insert_Some.
    intros [[<- <-]|[Hi Ha]] [[<- <-]|[Hj Hb]] Hw Hn; [done| | |by eapply (so_unique _ Hok)].
    + symmetry. eapply Hsame; [exact Hb|congruence|congruence].
    + eapply Hsame; [exact Ha|congruence|congruence].
  - intros i a. rewrite Hs, lookup_insert_Some. intros [[<- <-]|[_ Ha]]; [eauto|by eapply so_readable].
  - intros wid' n v. unfold holds_secret. case_decide as E.
    + destruct E as [-> ->]. split.
      * intros (i & a & Hi & Hw & Hn & Hd). rewrite Hs, lookup_insert_Some in Hi.
        destruct Hi as [[<- <-]|[Hne Hi]]; [congruence|]. destruct Hne. symmetry. by eapply Hsame.
      * intros ->. exists sid, r. by rewrite Hs, lookup_insert_eq.
    + split.
      * intros (i & a & Hi & Hw & Hn & Hd). rewrite Hs, lookup_insert_Some in Hi.
        destruct Hi as [[<- <-]|[Hne Hi]]; [by destruct E; subst|eauto 7].
      * intros (i & a & Hi & Hw & Hn & Hd). exists i, a. rewrite Hs. split; [|done].
        rewrite lookup_insert_ne; [done|]. intros <-. destruct (Hold _ Hi). destruct E. by subst.
Qed.

(** C39. A stored AI key is injected.  The table has one row per workspace and provider and
    every value can be decrypted.  Storing a key then succeeds exactly for the owner, a
    known provider, a key that is not blank and an encrypted text that fits its column of
    8192 characters; the environment of the workspace's secrets is the one before with
    the provider's variable set to the key without surrounding blanks, other workspaces'
    environments are as before, and nothing is committed.  A refused request changes
    nothing; a text that does not fit has the transaction rolled back. *)
Theorem stored_secret_is_injected (wid owner : Z) (provider api_key : string) (s : St W) :
  secrets_ok (st_db s) →
  wp (upsert_workspace_ai_secret wid owner provider api_key)
    (λ _ s', secret_request wid owner provider api_key (st_db s) ∧ secret_fits api_key (st_world s) = true ∧
       secrets_ok (st_db s') ∧ only_secrets s s' ∧ ∃ name e,
       provider_secret_name provider = Some name ∧
       resolve_workspace_runtime_secret_env wid s = (s, inl e) ∧
       resolve_workspace_runtime_secret_env wid s' = (s', inl (<[name := Py.strip api_key]> e)) ∧
       ∀ wid', wid' ≠ wid → secret_env wid' (st_db s') = secret_env wid' (st_db s))
    (λ _ s', s' = s ∧ ¬ secret_request wid owner provider api_key (st_db s) ∨
       flush_refused s s' ∧ secret_request wid owner provider api_key (st_db s) ∧ secret_fits api_key (st_world s) = false) s.
Proof.
  intros Hok. eapply wp_mono; [apply wp_upsert| |done].
  intros sid s' (Honly & Hreq & Hfit & name & Hname & Hup). destruct (upserted_env _ _ _ _ _ _ Hok Hup) as [Hok' Hholds].
  do 4 (split; [done|]).
  destruct (secret_env_change wid _ _ <[name := Py.strip api_key]> Hok Hok') as (e & He & He').
  { intros e Hl n v. rewrite Hholds. case_decide as E.
    - destruct E as [_ ->]. rewrite lookup_insert_eq. split; congruence.
    - rewrite lookup_insert_ne; [apply Hl|]. intros <-. by apply E. }
  assert (Hres : ∀ (s0 : St W) e0, secret_env wid (st_db s0) = inl e0 →
    resolve_workspace_runtime_secret_env wid s0 = (s0, inl e0)).
  { intros s0 e0 H0. change (resolve_workspace_runtime_secret_env wid s0)
      with (match secret_env wid (st_db s0) with inl e => mret e | inr e => raise e end s0 : St W * (_ + Exn)).
    by rewrite H0. }
  exists name, e. split; [done|]. split; [by apply Hres|]. split; [by apply Hres|intros wid' Hne].
  destruct (secret_env_change wid' _ _ id Hok Hok') as (e' & -> & ->); [|done].
  intros e0 Hl n v. rewrite Hholds, decide_False; [apply Hl|]. by intros [? _].
Qed.
End properties.
