(* ===== verification/Creation.v ===== *)
(** * Creation: new workspaces

    [src/backend/app/services/workspace_service/services/workspace_intent_service.py]:
    creating a workspace, for a user or pinned to a node by an operator: the checks,
    the row with its address, its first configuration and its CREATE job; and the
    queries that show workspaces to their owner. *)

From S2P Require Import Prelude Models Session Services Scheduling Quota Policy.
From S2P Require Import Placement NodeBootstrap HostFiles ProjectDirs Routing GatewayAuth.
From S2P Require Import WorkerRows Sessions Intents Secrets.

(** ** Requests *)

(** [WorkspaceRuntimeSpecSchema]: what the modelled code reads of it *)
Record WorkspaceRuntimeSpec := mkWorkspaceRuntimeSpec {
  rs_image : option string;
  rs_cpu_limit_cores : option cpu;
  rs_memory_limit_mib : option Z;
  rs_pids_limit : option Z
}.
Definition config_number (v : option Z) : option ConfigValue :=
  Some (match v with None => CfgNull | Some n => CfgNumber n end).
Definition to_config_dict (r : WorkspaceRuntimeSpec) : RuntimeConfig :=
  mkRuntimeConfig (config_number (rs_cpu_limit_cores r)) (config_number (rs_memory_limit_mib r))
    (config_number (rs_pids_limit r)).

(** [CreateWorkspaceRequest], past its validators; the secret is provider and key. *)
Record CreateWorkspaceRequest := mkCreateWorkspaceRequest {
  cw_name : string;
  cw_is_private : bool;
  cw_runtime : WorkspaceRuntimeSpec;
  cw_ai_secret : option (string * string)
}.

Record CreateWorkspaceResult := mkCreateWorkspaceResult {
  cr_workspace_id : Z;
  cr_job_id : Z;
  cr_config_version : Z;
  cr_status : workspace_status
}.

(** [x or DEFAULT_WORKSPACE_REQUEST_..]: absent and zero give the default. *)
Definition or_default (d : Z) (v : option Z) : Z :=
  match v with None => d | Some n => if n =? 0 then d else n end.
Definition requested_cpu_of (r : WorkspaceRuntimeSpec) : cpu := or_default (cores 1) (rs_cpu_limit_cores r).
Definition requested_memory_mb_of (r : WorkspaceRuntimeSpec) : Z := or_default 512 (rs_memory_limit_mib r).

Section creation.
Context {W : Type} {env : Env} {uuids : Uuids W} {crypto : TokenCrypto W}.

(** ** The common parts *)

Definition check_creation_allowed (owner_user_id : Z) (body : CreateWorkspaceRequest) : M W unit :=
  check_workspace_quota owner_user_id ;;
  check_running_workspace_quota owner_user_id None ;;
  check_monthly_runtime_hours_quota owner_user_id ;;
  check_owner_compute_quota owner_user_id (requested_cpu_of (cw_runtime body))
    (requested_memory_mb_of (cw_runtime body)) None ;;
  evaluate_workspace_creation owner_user_id (rs_image (cw_runtime body)) (cw_is_private body).

Definition new_workspace (owner_user_id : Z) (body : CreateWorkspaceRequest) (slug key : string)
    (status : workspace_status) (node : option Z) (reason : option string) : Workspace :=
  {| ws_execution_node_id := node; ws_project_storage_key := Some key; ws_name := cw_name body;
     ws_url_slug := slug; ws_owner_user_id := owner_user_id; ws_status := status;
     ws_status_reason := reason; ws_last_error_code := None; ws_last_error_message := None;
     ws_endpoint_ref := None; ws_public_host := None; ws_gateway_path_prefix := None;
     ws_active_sessions_count := 0; ws_is_private := cw_is_private body;
     ws_created_at := env_now; ws_updated_at := env_now; ws_last_started := None; ws_last_stopped := None |}.

(** The foreign key and the columns of the row that what is given could violate; of the
    others the checks and the schema of the request have made sure. *)
Definition workspace_refused (db : Db) (w : Workspace) : option Exn :=
  let short n o := match o with None => true | Some t => fits_varchar n t end in
  if fits_varchar 255 (ws_name w) && fits_varchar 128 (ws_url_slug w) && short 64 (ws_project_storage_key w) &&
     short 512 (ws_public_host w) && short 512 (ws_gateway_path_prefix w)
  then if bool_decide (is_Some (users db !! ws_owner_user_id w)) then None else Some IntegrityError
  else Some (DataError "value too long for type character varying").

(** [session.flush()] of the row of workspace [wid] *)
Definition flush_workspace (wid : Z) : M W unit :=
  w ← get_workspace_row wid;
  bad ← query (λ db, workspace_refused db w);
  match bad with
  | Some e => refuse_flush e
  | None => flush
  end.

(** The row with its address, flushed before and after the address is set. *)
Definition insert_workspace (owner_user_id : Z) (body : CreateWorkspaceRequest) (status : workspace_status)
    (node : option Z) (reason : option string) : M W Z :=
  found ← query (allocate_unique_workspace_url_slug owner_user_id (cw_name body));
  match found with
  | None => raise (OtherException "unreachable: the search for a slug ends")
  | Some url_slug =>
      key ← new_uuid;
      wid ← query (λ db, fresh_key (workspaces db));
      on_db (λ db, db <| workspaces ::= <[wid :=
        new_workspace owner_user_id body url_slug key status node reason]> |>) ;;
      flush_workspace wid ;;
      when (cfg_gateway_enabled env_settings)
        (owner ← query (λ db, users db !! owner_user_id);
         set_ws wid (public_identity owner wid) ;;
         flush_workspace wid) ;;
      mret wid
  end.

Definition insert_config (wid version : Z) (runtime : WorkspaceRuntimeSpec) : M W unit :=
  on_db (λ db, flush_db (db <| configs ::= λ l, l ++ [mkWorkspaceConfig wid version (to_config_dict runtime)] |>)).

(** The CREATE job, the three records of the request, and the commit. *)
Definition queue_creation (wid owner_user_id : Z) (status : workspace_status) (message actor_type cid : string)
    : M W CreateWorkspaceResult :=
  jid ← add_job (new_job wid WorkspaceJobType.CREATE owner_user_id 1 cid);
  record_workspace_event wid "controlplane.intent_queued" (Some status) message ;;
  record_audit "workspace.create.requested" "workspace" "success" (Some owner_user_id) actor_type
    (Some (Py.str_of_Z wid)) (Some wid) (Some jid) None ;;
  record_usage (Some wid) (Some owner_user_id) "workspace.created" 1 None None ;;
  commit ;;
  mret (mkCreateWorkspaceResult wid jid 1 status).

(** ** A user's workspace *)

Definition DEFAULT_WORKSPACE_REQUEST_DISK_MB : Z := 4096.

Definition create_workspace (owner_user_id : Z) (body : CreateWorkspaceRequest) (cid : string)
    : M W CreateWorkspaceResult :=
  check_creation_allowed owner_user_id body ;;
  ensure_default_local_execution_node ;;
  when ((requested_cpu_of (cw_runtime body) <=? 0) || (requested_memory_mb_of (cw_runtime body) <=? 0) ||
        (DEFAULT_WORKSPACE_REQUEST_DISK_MB <=? 0))
    (raise (WorkspaceSchedulingInvalidError
       "placement requires positive requested_cpu, memory_limit_mib, and disk budget")) ;;
  wid ← insert_workspace owner_user_id body WorkspaceStatus.PENDING None (Some "Preparing capacity..."%string);
  insert_config wid 1 (cw_runtime body) ;;
  match cw_ai_secret body with
  | Some (provider, api_key) => upsert_workspace_ai_secret wid owner_user_id provider api_key ;; mret tt
  | None => mret tt
  end ;;
  queue_creation wid owner_user_id WorkspaceStatus.PENDING
    "Workspace creation accepted; provisioning asynchronously" "user" cid.

(** ** An operator's test workspace, pinned to a node *)

Definition pinned_node (execution_node_id : Z) : M W unit :=
  if negb (cfg_allow_pinned_create_placement env_settings) then
    raise (WorkspaceOperatorPinnedDisabledError "Pinned operator CREATE is disabled") else
  let allow := cfg_pinned_create_execution_node_ids env_settings in
  if bool_decide (allow = []) then
    raise (WorkspaceOperatorPinnedNotAllowlistedError "Set DEVNEST_PINNED_CREATE_EXECUTION_NODE_IDS") else
  if negb (bool_decide (execution_node_id ∈ allow)) then
    raise (WorkspaceOperatorPinnedNotAllowlistedError
      ("execution_node_id=" ++ Py.str_of_Z execution_node_id ++
       " is not listed in DEVNEST_PINNED_CREATE_EXECUTION_NODE_IDS.")) else
  chosen ← query (λ db, nodes db !! execution_node_id);
  match chosen with
  | None => raise (WorkspaceOperatorPinnedNodeInvalidError
                     ("execution_node id=" ++ Py.str_of_Z execution_node_id ++ " not found."))
  | Some n =>
      if negb (bool_decide (node_status n = ExecutionNodeStatus.READY)) then
        raise (WorkspaceOperatorPinnedNodeInvalidError "execution_node must be READY") else
      if negb (node_schedulable n) then
        raise (WorkspaceOperatorPinnedNodeInvalidError "execution_node must be schedulable=true for pinned bring-up.")
      else try_except (validate_operator_pinned_create_node_gates n) (λ e,
             match e with
             | InvalidPlacementParametersError m => raise (WorkspaceOperatorPinnedNodeInvalidError m)
             | _ => raise e
             end)
  end.

Definition create_operator_pinned_test_workspace (owner_user_id execution_node_id : Z)
    (runtime : option WorkspaceRuntimeSpec) (cid : string) : M W CreateWorkspaceResult :=
  pinned_node execution_node_id ;;
  suffix ← new_uuid;
  let body :=
    {| cw_name := PINNED_OPERATOR_TEST_WORKSPACE_NAME_PREFIX ++ Py.prefix_to 12 suffix;
       cw_is_private := true; cw_runtime := default (mkWorkspaceRuntimeSpec None None None None) runtime;
       cw_ai_secret := None |} in
  check_creation_allowed owner_user_id body ;;
  ensure_default_local_execution_node ;;
  wid ← insert_workspace owner_user_id body WorkspaceStatus.CREATING (Some execution_node_id) None;
  insert_config wid 1 (cw_runtime body) ;;
  queue_creation wid owner_user_id WorkspaceStatus.CREATING
    "Pinned operator test workspace creation accepted; job queued" "system" cid.
End creation.

(** ** Showing workspaces to their owner *)

(** [WorkspaceRuntimeQuotasResponse] *)
Record WorkspaceRuntimeQuotas := mkWorkspaceRuntimeQuotas {
  wq_cpu_limit_cores : cpu;
  wq_memory_limit_mib : Z;
  wq_pids_limit : Z;
  wq_security_options : option AppliedSecurityOptions
}.
Definition runtime_quotas_from_row (rt : option WorkspaceRuntime) : option WorkspaceRuntimeQuotas :=
  rt ← rt; c ← rt_applied_cpu_limit_cores rt; m ← rt_applied_memory_limit_mb rt; p ← rt_applied_pids_limit rt;
  Some (mkWorkspaceRuntimeQuotas c m p (rt_applied_security_options rt)).

Definition running_runtime (wid : Z) (w : Workspace) (db : Db) : option WorkspaceRuntime :=
  if bool_decide (ws_status w = WorkspaceStatus.RUNNING) then runtimes db !! wid else None.

(** The page of the owner's live workspaces, newest first, and their number. *)
Definition live_owned (owner_user_id : Z) (kw : Z * Workspace) : bool :=
  (ws_owner_user_id kw.2 =? owner_user_id) && negb (bool_decide (ws_status kw.2 = WorkspaceStatus.DELETED)).
Definition owned_workspaces (owner_user_id : Z) (db : Db) : list (Z * Workspace) :=
  List.filter (live_owned owner_user_id) (map_to_list (workspaces db)).
Definition list_workspaces (owner_user_id skip limit : Z) (db : Db)
    : list (Z * Workspace * option WorkspaceRuntimeQuotas) * Z :=
  let all := owned_workspaces owner_user_id db in
  let newest := sort_by (λ a b : Z * Workspace, ws_created_at b.2 <=? ws_created_at a.2) all in
  let page := take (Z.to_nat (Z.min limit 500)) (drop (Z.to_nat skip) newest) in
  ((λ kw : Z * Workspace, (kw, runtime_quotas_from_row (running_runtime kw.1 kw.2 db))) <$> page,
   Z.of_nat (length all)).

Section details.
Context {W : Type} {env : Env} {fs : HostFilesystem W} {storage : SnapshotStorage W}.

Fixpoint count_archived (wid : Z) (sids : list Z) : M W Z :=
  match sids with
  | [] => mret 0
  | sid :: rest =>
      present ← call_storage (ss_has_nonempty_archive wid sid);
      n ← count_archived wid rest;
      mret (if present : bool then n + 1 else n)
  end.
Definition available_snapshots (wid : Z) (db : Db) : list Z :=
  fst <$> List.filter (λ ks, (snap_workspace_id ks.2 =? wid) &&
                             bool_decide (snap_status ks.2 = WorkspaceSnapshotStatus.AVAILABLE))
            (map_to_list (snapshots db)).
Definition restorable_snapshot_count (wid : Z) : M W Z :=
  sids ← query (available_snapshots wid);
  count_archived wid sids.

(** [WorkspaceDetailResponse] *)
Record WorkspaceDetail := mkWorkspaceDetail {
  wd_workspace_id : Z;
  wd_workspace : Workspace;
  wd_latest_config_version : option Z;
  wd_reopen_issues : list string;
  wd_restorable_snapshot_count : Z;
  wd_project_data_lifecycle : string;
  wd_project_data_user_message : option string;
  wd_runtime_quotas : option WorkspaceRuntimeQuotas
}.
Definition project_data_lifecycle (data_missing : option bool) (snaps : Z) : string * option string :=
  (match data_missing with
   | Some true =>
       if (0 <? snaps)%Z
       then ("restore_required", Some "Restore an available snapshot, then start the workspace again.")
       else ("unrecoverable", Some "No snapshot is available; you can permanently remove this workspace.")
   | None => ("unknown", None)
   | Some false => ("ok", None)
   end)%string.

Definition get_workspace (wid owner_user_id : Z) : M W (option WorkspaceDetail) :=
  found ← query (λ db, workspaces db !! wid);
  match found with
  | None => mret None
  | Some w =>
      if negb (ws_owner_user_id w =? owner_user_id) then mret None else
      if bool_decide (ws_status w = WorkspaceStatus.DELETED) then mret None else
      rt ← query (running_runtime wid w);
      latest ← query (latest_config_version wid);
      a ← ask_world (workspace_project_storage_reopen_assessment wid w);
      match a with
      | inr e => raise e
      | inl (reopen, data_missing) =>
          snaps ← restorable_snapshot_count wid;
          let '(lifecycle, user_msg) := project_data_lifecycle data_missing snaps in
          mret (Some (mkWorkspaceDetail wid w latest reopen snaps lifecycle user_msg (runtime_quotas_from_row rt)))
      end
  end.

Definition get_workspace_by_url_slug (owner_user_id : Z) (url_slug : string) : M W (option WorkspaceDetail) :=
  let want := slugify_workspace_name url_slug in
  if negb (Py.truthy want) then mret None else
  found ← query (λ db, first_row (λ kw, ws_owner_user_id kw.2 = owner_user_id ∧
      Py.lower (ws_url_slug kw.2) = Py.lower want ∧ ws_status kw.2 ≠ WorkspaceStatus.DELETED) (workspaces db));
  match found with
  | None => mret None
  | Some (wid, _) => get_workspace wid owner_user_id
  end.
End details.

(** ** Properties *)

Section properties.
Context {W : Type} {env : Env} {uuids : Uuids W} {crypto : TokenCrypto W}.

(** The limits a creation is measured against. *)
Record creation_within_limits (owner : Z) (body : CreateWorkspaceRequest) (db : Db) : Prop := {
  cl_workspaces : below (get_effective_quota (Some owner) None db ≫= q_max_workspaces)
                        (workspaces_of owner counts_as_active db);
  cl_running : below (get_effective_quota (Some owner) None db ≫= q_max_running_workspaces)
                     (running_workspaces_of owner None db);
  cl_hours : below (get_effective_quota (Some owner) None db ≫= q_max_runtime_hours)
                   (runtime_seconds owner (month_start env_now) db);
  cl_cpu : at_most (Z.add 1 <$> (get_effective_quota (Some owner) None db ≫= q_max_cpu))
                   (owner_reserved rt_reserved_cpu owner None db + requested_cpu_of (cw_runtime body));
  cl_memory : at_most (get_effective_quota (Some owner) None db ≫= q_max_memory_mb)
                      (owner_reserved rt_reserved_memory_mb owner None db + requested_memory_mb_of (cw_runtime body));
  cl_policy : no_policy_blocks (Some owner) None
                (creation_blocked (rs_image (cw_runtime body)) (cw_is_private body)) db
}.

(** A denial: its audit row, committed, and nothing else. *)
Definition denied (s s' : St W) : Prop :=
  ∃ a, st_db s' = append_audit a (st_db s) ∧ st_committed s' = st_db s' ∧ au_outcome a = "denied"%string.
Lemma durable_denied action s s' : durable_denial action s s' → denied s s'.
Proof. intros (a & H1 & H2 & _ & _ & H3). by exists a. Qed.

Lemma wp_checked {A} m action ok err (k : M W A) (Q : A → St W → Prop) X s : check_enforces m action ok err →
  (ok (st_db s) → wp k Q X s) → (∀ e s', denied s s' → ¬ ok (st_db s) → X e s') → wp (m ;; k) Q X s.
Proof.
  intros Hm Hk HX. apply wp_bind. eapply wp_mono; [apply Hm| |].
  - intros [] s' [-> Hok]. by apply Hk.
  - intros e s' (Hd & _ & Hno). apply HX; [by eapply durable_denied|done].
Qed.

Lemma wp_creation_allowed {A} owner body (k : M W A) (Q : A → St W → Prop) X s :
  (creation_within_limits owner body (st_db s) → wp k Q X s) →
  (∀ e s', denied s s' → ¬ creation_within_limits owner body (st_db s) → X e s') →
  wp (check_creation_allowed owner body ;; k) Q X s.
Proof.
  intros Hk HX.
  enough (H : wp (check_creation_allowed owner body) (λ _ s', s' = s ∧ creation_within_limits owner body (st_db s))
    (λ _ s', denied s s' ∧ ¬ creation_within_limits owner body (st_db s)) s).
  { apply wp_bind. eapply wp_mono; [exact H|intros [] s' [-> ?]; by apply Hk|intros e s' []; by apply HX]. }
  unfold check_creation_allowed.
  apply (wp_checked _ _ _ _ _ _ _ _ (workspace_check_enforces owner)); [intros H1|intros e s' Hd Hn; split; [done|by intros []]].
  apply (wp_checked _ _ _ _ _ _ _ _ (running_check_enforces owner None)); [intros H2|intros e s' Hd Hn; split; [done|by intros []]].
  apply (wp_checked _ _ _ _ _ _ _ _ (month_check_enforces owner)); [intros H3|intros e s' Hd Hn; split; [done|by intros []]].
  apply (wp_checked _ _ _ _ _ _ _ _ (compute_check_enforces owner _ _ None));
    [intros [H4 H5]|intros e s' Hd Hn; split; [done|by intros []; apply Hn]].
  eapply wp_mono; [apply creation_enforces| |].
  - intros [] s' [-> H6]. by split.
  - intros e s' (Hd & _ & Hn). split; [by eapply durable_denied|by intros []].
Qed.

(** *** What the bootstrap of the local node leaves alone *)

Record same_requests (s s' : St W) : Prop := {
  sr_workspaces : workspaces (st_db s') = workspaces (st_db s);
  sr_jobs : jobs (st_db s') = jobs (st_db s);
  sr_configs : configs (st_db s') = configs (st_db s);
  sr_users : users (st_db s') = users (st_db s);
  sr_secrets : secrets (st_db s') = secrets (st_db s);
  sr_world : st_world s' = st_world s;
  sr_committed : st_committed s' = st_committed s
}.
#[local] Instance same_requests_preorder : PreOrder same_requests.
Proof. split; [by split|]. intros a b c [] []. split; congruence. Qed.

Lemma wp_topology tid (Q : unit → St W → Prop) X s0 s : same_requests s0 s →
  (∀ s', same_requests s0 s' → nodes (st_db s') = nodes (st_db s) → Q tt s') →
  wp (ensure_topology_row_for_local_dev tid) Q X s.
Proof.
  intros H0 HQ. unfold ensure_topology_row_for_local_dev, when. apply wp_bind, wp_query.
  destruct (_ && _); [apply wp_on_db|apply wp_ret]; by apply HQ; [etrans; [exact H0|]|].
Qed.
Lemma wp_ensure_local (s : St W) :
  wp ensure_default_local_execution_node (λ _ s', same_requests s s') (λ _ _, False) s.
Proof.
  unfold ensure_default_local_execution_node. apply wp_bind, wp_query.
  destruct (find_node _ _) as [[nid n]|] eqn:Hf.
  - apply first_row_Some in Hf as [Hn _]. apply wp_bind.
    assert (Hd : wp (ensure_execution_node_default_topology nid n)
      (λ _ s', same_requests s s' ∧ is_Some (nodes (st_db s') !! nid)) (λ _ _, False) s).
    { unfold ensure_execution_node_default_topology, set_node, flush. case_match; [by apply wp_ret; split|].
      apply wp_bind, wp_on_db, wp_bind, wp_on_db, wp_bind.
      assert (Hs : is_Some (alter (λ n0 : ExecutionNode, n0 <| node_default_topology_id := Some system_default_topology_id |>)
        nid (nodes (st_db s)) !! nid)) by (rewrite lookup_alter_eq, Hn; by eexists).
      unfold when at 1. case_match; [apply (wp_topology _ _ _ s); [by split|intros s' H1 H2]|apply wp_ret];
        apply wp_ret; (split; [done|]); cbn; by rewrite ?H2. }
    eapply wp_mono; [exact Hd| |done]. intros _ s1 [H1 [m Hm]].
    unfold set_node, flush. apply wp_bind, wp_on_db, wp_bind, wp_on_db, wp_bind.
    apply (wp_row _ _ (with_default_capacity m)); [cbn; by rewrite lookup_alter_eq, Hm|].
    assert (H2 : same_requests s (s1 <| st_db ::= λ db, db <| nodes ::= alter with_default_capacity nid |> |> <| st_db ::= flush_db |>))
      by (etrans; [exact H1|by split]).
    apply wp_bind. case_match; [unfold when; case_match; [apply (wp_topology _ _ _ s); [done|intros s3 H3 _]|apply wp_ret]|apply wp_ret];
      by apply wp_ret.
  - apply wp_bind, wp_query, wp_bind, wp_on_db, wp_bind.
    apply (wp_topology _ _ _ s); [by split|intros s' H' _]. by apply wp_ret.
Qed.

(** *** The row *)

(** What creates workspace [wid] of [owner] in [db]: a new key, a free slug, and the
    address the settings and the owner's subdomain give it. *)
Record created_row (owner : Z) (body : CreateWorkspaceRequest) (st : workspace_status) (node : option Z)
    (reason : option string) (wid : Z) (db : Db) (w : Workspace) : Prop := {
  cr_new : workspaces db !! wid = None;
  cr_row : ∃ slug u, let key := (uuid4_hex u).2 in
             allocated (owner_slug_taken owner db) (Py.or_else (slugify_workspace_name (cw_name body)) "workspace") slug ∧
             w = public_identity (users db !! owner) wid (new_workspace owner body slug key st node reason)
}.

Lemma public_identity_off owner wid w : cfg_gateway_enabled env_settings = false → public_identity owner wid w = w.
Proof. intros Hg. unfold public_identity. rewrite Hg. by destruct owner. Qed.
Lemma slug_taken_same owner db db' : workspaces db' = workspaces db → owner_slug_taken owner db' = owner_slug_taken owner db.
Proof. intros H. unfold owner_slug_taken. by rewrite H. Qed.

(** The row a request would write, and that the database takes it. *)
Definition planned_row (owner : Z) (body : CreateWorkspaceRequest) (st : workspace_status) (node : option Z)
    (reason : option string) (s : St W) : option Workspace :=
  slug ← allocate_unique_workspace_url_slug owner (cw_name body) (st_db s);
  Some (public_identity (users (st_db s) !! owner) (fresh_key (workspaces (st_db s)))
          (new_workspace owner body slug (uuid4_hex (st_world s)).2 st node reason)).
Definition row_storable (owner : Z) (body : CreateWorkspaceRequest) (st : workspace_status) (node : option Z)
    (reason : option string) (s : St W) : Prop :=
  ∃ w, planned_row owner body st node reason s = Some w ∧ workspace_refused (st_db s) w = None.

(** The address adds columns to check, to those of the row without one. *)
Lemma refused_without_address db o wid owner body slug key st node reason :
  let w := new_workspace owner body slug key st node reason in
  workspace_refused db (public_identity o wid w) = None → workspace_refused db w = None.
Proof.
  intros w. assert (Hsame : ws_name (public_identity o wid w) = ws_name w ∧ ws_url_slug (public_identity o wid w) = ws_url_slug w ∧
    ws_project_storage_key (public_identity o wid w) = ws_project_storage_key w ∧
    ws_owner_user_id (public_identity o wid w) = ws_owner_user_id w).
  { unfold public_identity. destruct o; [|done]. by repeat case_match. }
  destruct Hsame as (Hn & Hs & Hk & Ho). unfold workspace_refused. rewrite Hn, Hs, Hk, Ho. unfold new_workspace in w.
  subst w. cbn -[fits_varchar].
  generalize (ws_public_host (public_identity o wid (new_workspace owner body slug key st node reason))),
    (ws_gateway_path_prefix (public_identity o wid (new_workspace owner body slug key st node reason))).
  intros h p. match goal with |- (if ?c && ?x && ?y then _ else _) = _ → _ => destruct c, x, y end; done.
Qed.
Lemma refused_same db db' w : users db' = users db → workspace_refused db' w = workspace_refused db w.
Proof. intros H. unfold workspace_refused. by rewrite H. Qed.
Lemma slug_same owner name db db' : workspaces db' = workspaces db →
  allocate_unique_workspace_url_slug owner name db' = allocate_unique_workspace_url_slug owner name db.
Proof. intros H. unfold allocate_unique_workspace_url_slug, owner_slug_taken. by rewrite H. Qed.

Lemma wp_flush_workspace wid w (Q : unit → St W → Prop) X s : workspaces (st_db s) !! wid = Some w →
  (workspace_refused (st_db s) w = None → Q tt (s <| st_db ::= flush_db |>)) →
  (∀ e, is_Some (workspace_refused (st_db s) w) → X e (s <| st_db := st_committed s |>)) →
  wp (flush_workspace wid) Q X s.
Proof.
  intros Hw HQ HX. unfold flush_workspace. apply wp_bind. eapply (wp_row workspaces); [exact Hw|]. apply wp_bind, wp_query.
  destruct (workspace_refused _ _); [apply HX; eauto|by apply HQ].
Qed.

(** Of the rows only the workspace's is new; [s0] is the state before the request. *)
Record row_inserted (s0 s : St W) (wid : Z) (w : Workspace) : Prop := {
  ri_workspaces : workspaces (st_db s) = <[wid := w]> (workspaces (st_db s0));
  ri_jobs : jobs (st_db s) = jobs (st_db s0);
  ri_configs : configs (st_db s) = configs (st_db s0);
  ri_users : users (st_db s) = users (st_db s0);
  ri_secrets : secrets (st_db s) = secrets (st_db s0);
  ri_world : st_world s = (uuid4_hex (st_world s0)).1;
  ri_committed : st_committed s = st_committed s0
}.

Lemma wp_insert_workspace owner body st node reason (Q : Z → St W → Prop) X s0 s : same_requests s0 s →
  (∀ wid w s', created_row owner body st node reason wid (st_db s0) w → row_inserted s0 s' wid w →
     row_storable owner body st node reason s0 → Q wid s') →
  (∀ e s', flush_refused s0 s' → ¬ row_storable owner body st node reason s0 → X e s') →
  wp (insert_workspace owner body st node reason) Q X s.
Proof.
  intros [Ews Ej Ec Eu Es Ew Em] HQ HX. unfold insert_workspace. apply wp_bind, wp_query.
  destruct (url_slug_allocated owner (cw_name body) (st_db s)) as (slug & Hslug & Hal). rewrite Hslug.
  rewrite (slug_taken_same _ _ _ Ews) in Hal. rewrite (slug_same _ _ _ _ Ews) in Hslug.
  apply wp_bind. unfold new_uuid, wp at 1. destruct (uuid4_hex (st_world s)) as [w' key] eqn:Ekey.
  apply wp_bind, wp_query, wp_bind, wp_on_db. cbn -[public_identity]. rewrite Ews.
  set (wid := fresh_key (workspaces (st_db s0))). set (w := new_workspace owner body slug key st node reason).
  assert (Hrow : created_row owner body st node reason wid (st_db s0) (public_identity (users (st_db s0) !! owner) wid w)).
  { split; [apply fresh_key_fresh|]. exists slug, (st_world s). by rewrite Ekey. }
  assert (Hplan : planned_row owner body st node reason s0 = Some (public_identity (users (st_db s0) !! owner) wid w)).
  { unfold planned_row. rewrite Hslug. cbn -[public_identity]. by rewrite <- Ew, Ekey. }
  assert (Hno : ∀ e s', flush_refused s0 s' → is_Some (workspace_refused (st_db s0) w) ∨
    is_Some (workspace_refused (st_db s0) (public_identity (users (st_db s0) !! owner) wid w)) → X e s').
  { intros e s' Hs' Hr. apply HX; [done|]. intros (v & Hv & Hok). rewrite Hplan in Hv. injection Hv as <-.
    destruct Hr as [[x Hr]|[x Hr]]; [|congruence]. apply refused_without_address in Hok. unfold w in Hr. congruence. }
  assert (Ew1 : w' = (uuid4_hex (st_world s0)).1) by (by rewrite <- Ew, Ekey).
  apply wp_bind, (wp_flush_workspace _ w); [apply lookup_insert_eq| |].
  2: { intros e He. apply Hno; [by split; cbn|left]. revert He. cbn. by rewrite (refused_same (st_db s0)). }
  cbn -[public_identity]. rewrite (refused_same (st_db s0)) by done. intros Hok. unfold when.
  destruct (cfg_gateway_enabled env_settings) eqn:Hg.
  - apply wp_bind, wp_bind, wp_query. cbn -[public_identity]. rewrite Eu. unfold set_ws.
    apply wp_bind, wp_on_db. cbn -[public_identity].
    assert (Hl : alter (public_identity (users (st_db s0) !! owner) wid) wid (<[wid := w]> (workspaces (st_db s))) =
      <[wid := public_identity (users (st_db s0) !! owner) wid w]> (workspaces (st_db s0))).
    { rewrite (alter_row _ _ _ w) by apply lookup_insert_eq. by rewrite insert_insert_eq, Ews. }
    apply (wp_flush_workspace _ (public_identity (users (st_db s0) !! owner) wid w)); cbn -[public_identity];
      rewrite ?Hl, ?(refused_same (st_db s0)) by done; [apply lookup_insert_eq|intros Hok2|intros e He].
    + apply (HQ wid _ _ Hrow); [|by eexists]. split; cbn -[public_identity]; congruence.
    + apply Hno; [by split; cbn|by right].
  - apply wp_bind, wp_ret, wp_ret. apply (HQ wid _ _ Hrow).
    + rewrite public_identity_off by done. split; cbn; congruence.
    + exists w. split; [|done]. by rewrite Hplan, public_identity_off.
Qed.

(** *** The request *)

(** What an accepted creation leaves: one new workspace, configuration and CREATE job,
    the secret if one was given, everything committed. *)
Record creation (owner : Z) (body : CreateWorkspaceRequest) (st : workspace_status) (node : option Z)
    (reason : option string) (cid : string) (r : CreateWorkspaceResult) (s s' : St W) : Prop := {
  cn_workspace : ∃ w, created_row owner body st node reason (cr_workspace_id r) (st_db s) w ∧
                   workspaces (st_db s') = <[cr_workspace_id r := w]> (workspaces (st_db s));
  cn_result : cr_config_version r = 1 ∧ cr_status r = st;
  cn_fresh_job : jobs (st_db s) !! cr_job_id r = None;
  cn_job : jobs (st_db s') = <[cr_job_id r := new_job (cr_workspace_id r) WorkspaceJobType.CREATE owner 1 cid]> (jobs (st_db s));
  cn_config : configs (st_db s') = configs (st_db s) ++ [mkWorkspaceConfig (cr_workspace_id r) 1 (to_config_dict (cw_runtime body))];
  cn_secret : match cw_ai_secret body with
              | None => secrets (st_db s') = secrets (st_db s)
              | Some (provider, key) => ∃ name sid, provider_secret_name provider = Some name ∧
                  upserted (cr_workspace_id r) name (Py.strip key) (st_db s) sid (st_db s')
              end;
  cn_users : users (st_db s') = users (st_db s);
  cn_committed : st_committed s' = st_db s'
}.

(** The secret of the request can be stored: by then one key has been drawn. *)
Definition usable_secret (body : CreateWorkspaceRequest) (s : St W) : Prop :=
  match cw_ai_secret body with
  | None => True
  | Some (provider, key) => is_Some (provider_secret_name provider) ∧ Py.truthy (Py.strip key) = true ∧
      secret_fits key (uuid4_hex (st_world s)).1 = true
  end.
(** What else a user's request needs. *)
Definition preparing : option string := Some "Preparing capacity..."%string.
Record creation_ok (owner : Z) (body : CreateWorkspaceRequest) (s : St W) : Prop := {
  ok_cpu : 0 < requested_cpu_of (cw_runtime body);
  ok_memory : 0 < requested_memory_mb_of (cw_runtime body);
  ok_row : row_storable owner body WorkspaceStatus.PENDING None preparing s;
  ok_secret : usable_secret body s
}.

(** A request is denied, durably, outside the limits; otherwise [ok] fails and
    nothing is committed. *)
Definition creation_refused (owner : Z) (body : CreateWorkspaceRequest) (ok : Prop) (s s' : St W) : Prop :=
  ¬ creation_within_limits owner body (st_db s) ∧ denied s s' ∨
  creation_within_limits owner body (st_db s) ∧ ¬ ok ∧ st_committed s' = st_committed s.

Lemma upserted_same wid name v db1 db1' sid db2 db2' : secrets db1' = secrets db1 → secrets db2' = secrets db2 →
  upserted wid name v db1 sid db2 → upserted wid name v db1' sid db2'.
Proof.
  intros E1 E2 [Hrow Hplace]. split; [by rewrite E1, E2|]. unfold find_secret in *. by rewrite E1.
Qed.

Lemma public_identity_owner owner wid w : ws_owner_user_id (public_identity owner wid w) = ws_owner_user_id w.
Proof. unfold public_identity. by repeat case_match. Qed.

(** The last part, from a state [s1] that differs from [s] by the new row, its
    configuration and perhaps its secret. *)
Lemma wp_queue_creation owner body st node reason msg actor cid wid w s s1 :
  created_row owner body st node reason wid (st_db s) w →
  workspaces (st_db s1) = <[wid := w]> (workspaces (st_db s)) → jobs (st_db s1) = jobs (st_db s) →
  users (st_db s1) = users (st_db s) →
  configs (st_db s1) = configs (st_db s) ++ [mkWorkspaceConfig wid 1 (to_config_dict (cw_runtime body))] →
  match cw_ai_secret body with
  | None => secrets (st_db s1) = secrets (st_db s)
  | Some (provider, key) => ∃ name sid, provider_secret_name provider = Some name ∧
      upserted wid name (Py.strip key) (st_db s) sid (st_db s1)
  end →
  wp (queue_creation wid owner st msg actor cid) (λ r s', creation owner body st node reason cid r s s')
    (λ _ _, False) s1.
Proof.
  intros Hrow Hws Hj Hu Hc Hs. unfold queue_creation, add_job, commit. wp_db.
  split; cbn; try done.
  - exists w. by split.
  - rewrite <- Hj. apply fresh_key_fresh.
  - by rewrite Hj.
  - destruct (cw_ai_secret body) as [[provider key]|]; [|done].
    destruct Hs as (name & sid & Hn & Hup). exists name, sid. split; [done|]. revert Hup. by apply upserted_same.
Qed.

(** The node an operator may pin a workspace to. *)
Definition node_pinnable (nid : Z) (db : Db) : Prop :=
  cfg_allow_pinned_create_placement env_settings = true ∧ nid ∈ cfg_pinned_create_execution_node_ids env_settings ∧
  ∃ n, nodes db !! nid = Some n ∧ node_status n = ExecutionNodeStatus.READY ∧ node_schedulable n = true ∧
    cfg_enable_multi_node_scheduling env_settings = true ∧ execution_node_heartbeat_within_max_age n = true.
Lemma wp_pinned_node nid (s : St W) :
  wp (pinned_node nid) (λ _ s', s' = s ∧ node_pinnable nid (st_db s)) (λ _ s', s' = s ∧ ¬ node_pinnable nid (st_db s)) s.
Proof.
  unfold pinned_node, node_pinnable.
  destruct (cfg_allow_pinned_create_placement env_settings); cbn [negb]; [|apply wp_raise; split; [done|by intros []]].
  cbv zeta. case_bool_decide as E; [apply wp_raise; split; [done|rewrite E; by intros (_ & ?%elem_of_nil & _)]|clear E].
  case_bool_decide as E; cbn [negb]; [|apply wp_raise; split; [done|by intros (_ & ? & _)]].
  apply wp_bind, wp_query. destruct (nodes (st_db s) !! nid) as [n|]; [|apply wp_raise; split; [done|by intros (_ & _ & ? & [=] & _)]].
  case_bool_decide as Hr; cbn [negb]; [|apply wp_raise; split; [done|by intros (_ & _ & ? & [= <-] & ? & _)]].
  destruct (node_schedulable n) eqn:Hs; cbn [negb]; [|apply wp_raise; split; [done|intros (_ & _ & ? & [= <-] & _ & ? & _); congruence]].
  apply wp_try. unfold validate_operator_pinned_create_node_gates.
  destruct (cfg_enable_multi_node_scheduling env_settings); cbn [negb];
    [|apply wp_raise, wp_raise; split; [done|by intros (_ & _ & ? & [= <-] & _ & _ & [=] & _)]].
  destruct (execution_node_heartbeat_within_max_age n) eqn:Hh; cbn [negb];
    [|apply wp_raise, wp_raise; split; [done|intros (_ & _ & ? & [= <-] & _ & _ & _ & ?); congruence]].
  apply wp_ret. split; [done|]. split; [done|]. split; [done|]. by exists n.
Qed.

Lemma pinned_name_recognised nid suffix db (ws : Workspace) : node_pinnable nid db →
  ws_execution_node_id ws = Some nid → ws_name ws = (PINNED_OPERATOR_TEST_WORKSPACE_NAME_PREFIX ++ suffix)%string →
  workspace_uses_operator_pinned_create ws = true.
Proof.
  intros (Ha & Hin & _) Hn Hname. unfold workspace_uses_operator_pinned_create. rewrite Ha, Hn, Hname.
  rewrite bool_decide_eq_true_2 by done. cbn [andb].
  exact (Py.startswith_strip "d" (list_ascii_of_string "evnest-op-pinned-test") "-" suffix eq_refl eq_refl).
Qed.

Lemma create_spec owner body cid (s : St W) :
  wp (create_workspace owner body cid)
    (λ r s', creation_within_limits owner body (st_db s) ∧ creation_ok owner body s ∧
       creation owner body WorkspaceStatus.PENDING None preparing cid r s s')
    (λ _ s', creation_refused owner body (creation_ok owner body s) s s') s.
Proof.
  unfold create_workspace. apply wp_creation_allowed; [intros Hlim|by left].
  apply wp_bind. eapply wp_mono; [apply wp_ensure_local| |done]. intros nid s0 H0.
  assert (Hno : ∀ s', ¬ creation_ok owner body s → st_committed s' = st_committed s →
    creation_refused owner body (creation_ok owner body s) s s') by (by right).
  apply wp_bind. unfold when. change (DEFAULT_WORKSPACE_REQUEST_DISK_MB <=? 0) with false. rewrite orb_false_r.
  destruct (_ || _) eqn:Hpos.
  { apply wp_raise, Hno; [|apply H0]. intros []. apply orb_true_iff in Hpos as []; lia. }
  apply wp_ret, wp_bind. apply orb_false_iff in Hpos as [Hc%Z.leb_gt Hm%Z.leb_gt].
  apply (wp_insert_workspace _ _ _ _ _ _ _ s); [done| |intros e s' [_ Hs'] Hn; apply Hno; [by intros []|done]].
  intros wid w s1 Hrow Hins Hstore. unfold insert_config. apply wp_bind, wp_on_db, wp_bind.
  set (s2 := s1 <| st_db ::= _ |>). destruct Hins as [Iw Ij Ic Iu Is Ix Im].
  assert (Hq : ∀ s3, st_db s3 = flush_db ((st_db s2) <| secrets := secrets (st_db s3) |>) → usable_secret body s →
    match cw_ai_secret body with
    | None => secrets (st_db s3) = secrets (st_db s)
    | Some (provider, key) => ∃ name sid, provider_secret_name provider = Some name ∧
        upserted wid name (Py.strip key) (st_db s) sid (st_db s3)
    end →
    wp (queue_creation wid owner WorkspaceStatus.PENDING "Workspace creation accepted; provisioning asynchronously" "user" cid)
      (λ r s', creation_within_limits owner body (st_db s) ∧ creation_ok owner body s ∧
         creation owner body WorkspaceStatus.PENDING None preparing cid r s s')
      (λ _ s', creation_refused owner body (creation_ok owner body s) s s') s3).
  { intros s3 E3 Hus Hsec. eapply wp_mono; [eapply wp_queue_creation; [exact Hrow| | | | |exact Hsec]
      |intros r s' Hcn; split; [done|]; split; [by split|done]|done];
      rewrite E3; cbn; congruence. }
  unfold usable_secret in Hq. destruct (cw_ai_secret body) as [[provider key]|] eqn:Esec; [|by apply wp_ret, Hq].
  assert (Hw2 : st_world s2 = (uuid4_hex (st_world s)).1) by done.
  assert (Hown : ∃ w0, workspaces (st_db s2) !! wid = Some w0 ∧ ws_owner_user_id w0 = owner).
  { exists w. cbn. rewrite Iw, lookup_insert_eq. split; [done|]. destruct Hrow as [_ (slug & x & _ & ->)]. apply public_identity_owner. }
  apply wp_bind. eapply wp_mono; [apply wp_upsert| |].
  - intros sid s3 ([E3 _] & (Hn1 & Ht & _) & Hfit & name & Hn & Hup). rewrite Hw2 in Hfit. apply wp_ret, Hq; [done..|].
    exists name, sid. split; [done|]. revert Hup. by apply upserted_same.
  - intros e s3 Hs3. assert (Hc3 : st_committed s3 = st_committed s) by (by destruct Hs3 as [[-> _]|[[_ ->] _]]).
    apply Hno; [|done]. intros [_ _ _ Hu]. unfold usable_secret in Hu. rewrite Esec in Hu. destruct Hu as (H1 & H2 & H3).
    destruct Hs3 as [[_ Hn]|(_ & _ & Hf)]; [by apply Hn|congruence].
Qed.

(** The request an operator's call makes: a private workspace of the test prefix. *)
Definition pinned_request (runtime : option WorkspaceRuntimeSpec) (body : CreateWorkspaceRequest) : Prop :=
  ∃ suffix, body = mkCreateWorkspaceRequest (PINNED_OPERATOR_TEST_WORKSPACE_NAME_PREFIX ++ suffix) true
                     (default (mkWorkspaceRuntimeSpec None None None None) runtime) None.

(** The state after a key has been drawn *)
Definition after_uuid (s : St W) : St W := s <| st_world := (uuid4_hex (st_world s)).1 |>.

Lemma create_pinned_spec owner nid runtime cid (s : St W) :
  wp (create_operator_pinned_test_workspace owner nid runtime cid)
    (λ r s', node_pinnable nid (st_db s) ∧ ∃ body, pinned_request runtime body ∧
       creation_within_limits owner body (st_db s) ∧
       creation owner body WorkspaceStatus.CREATING (Some nid) None cid r s s' ∧
       ∀ w, workspaces (st_db s') !! cr_workspace_id r = Some w → workspace_uses_operator_pinned_create w = true)
    (λ _ s', ¬ node_pinnable nid (st_db s) ∧ s' = s ∨
       node_pinnable nid (st_db s) ∧ ∃ body, pinned_request runtime body ∧
         creation_refused owner body (row_storable owner body WorkspaceStatus.CREATING (Some nid) None (after_uuid s)) s s') s.
Proof.
  unfold create_operator_pinned_test_workspace. apply wp_bind.
  eapply wp_mono; [apply wp_pinned_node| |intros e s' []; by left]. intros [] s' [-> Hpin].
  apply wp_bind. unfold new_uuid, wp at 1. destruct (uuid4_hex (st_world s)) as [w' suffix] eqn:Euuid. cbv zeta.
  set (body := {| cw_name := _ |}). set (s0 := s <| st_world := w' |>).
  assert (E0 : after_uuid s = s0) by (unfold after_uuid; by rewrite Euuid).
  assert (Hbody : pinned_request runtime body) by (by eexists).
  apply wp_creation_allowed; [intros Hlim|intros e s' (a & H1 & H2 & H3) Hn; right; split; [done|]].
  2: { exists body. split; [done|]. left. split; [exact Hn|]. by exists a. }
  apply wp_bind. eapply wp_mono; [apply wp_ensure_local| |done]. intros k s1 H1.
  apply wp_bind, (wp_insert_workspace _ _ _ _ _ _ _ s0); [done| |intros e s' [_ Hs'] Hn].
  2: { right. split; [done|]. exists body. split; [done|]. right. rewrite E0. by split_and!. }
  intros wid w s2 Hrow [Iw Ij Ic Iu Is Ix Im] _.
  unfold insert_config. apply wp_bind, wp_on_db. cbn in *.
  eapply wp_mono; [by eapply (wp_queue_creation _ _ _ _ _ _ _ _ _ _ s); [exact Hrow|..]; cbn; rewrite ?Ic| |done].
  intros r s' Hc. split; [done|]. exists body. split_and!; [done..|]. intros w1 Hw1.
  destruct Hc as [(w2 & [_ (slug & x & _ & ->)] & Hws) _ _ _ _ _ _ _]. rewrite Hws, lookup_insert_eq in Hw1.
  injection Hw1 as <-. eapply (pinned_name_recognised nid (Py.prefix_to 12 suffix)); [done|..];
    unfold public_identity; by repeat case_match.
Qed.

(** C8. Creation: a user's request is accepted exactly if it is within the owner's quotas
    and policies, CPU and memory come out positive, and the database takes what it writes:
    the owner exists, name, slug, storage key and address fit their columns (a slug has
    128 characters, with its number), and so does the encrypted secret, if one is given
    for a known provider and not blank.  It then commits one new workspace, PENDING and
    unplaced, under a slug free for the owner and the address that goes with it,
    configuration version 1, one fresh CREATE job and the encrypted secret.  Outside the
    limits the denial is durable; any other refusal commits nothing.  An operator's pinned
    request needs a permitted, READY, schedulable node with a fresh heartbeat as well, and
    makes a workspace on that node which the placement of its CREATE job recognises as
    pinned. *)
Theorem creation_accepted_within_limits (owner : Z) (body : CreateWorkspaceRequest) (nid : Z)
    (runtime : option WorkspaceRuntimeSpec) (cid : string) (s : St W) :
  wp (create_workspace owner body cid)
    (λ r s', creation_within_limits owner body (st_db s) ∧ creation_ok owner body s ∧
       creation owner body WorkspaceStatus.PENDING None preparing cid r s s')
    (λ _ s', creation_refused owner body (creation_ok owner body s) s s') s ∧
  wp (create_operator_pinned_test_workspace owner nid runtime cid)
    (λ r s', node_pinnable nid (st_db s) ∧ ∃ body, pinned_request runtime body ∧
       creation_within_limits owner body (st_db s) ∧
       creation owner body WorkspaceStatus.CREATING (Some nid) None cid r s s' ∧
       ∀ w, workspaces (st_db s') !! cr_workspace_id r = Some w → workspace_uses_operator_pinned_create w = true)
    (λ _ s', ¬ node_pinnable nid (st_db s) ∧ s' = s ∨
       node_pinnable nid (st_db s) ∧ ∃ body, pinned_request runtime body ∧
         creation_refused owner body (row_storable owner body WorkspaceStatus.CREATING (Some nid) None (after_uuid s)) s s') s.
Proof. split; [apply create_spec|apply create_pinned_spec]. Qed.

(** *** Addresses *)

(** Stored slugs have the form of a slug, and live ones of an owner differ, as do
    those of users. *)
Record slugs_ok (db : Db) : Prop := {
  sl_distinct : distinct_slugs db;
  sl_form k w : workspaces db !! k = Some w → is_slug (ws_url_slug w)
}.

Lemma public_identity_slug owner wid w :
  let w' := public_identity owner wid w in
  ws_url_slug w' = ws_url_slug w ∧ ws_status w' = ws_status w ∧ ws_project_storage_key w' = ws_project_storage_key w.
Proof. unfold public_identity. by repeat case_match. Qed.
Lemma public_identity_idem owner wid w :
  public_identity owner wid (public_identity owner wid w) = public_identity owner wid w.
Proof.
  destruct owner as [u|]; [|done]. unfold public_identity. cbv zeta.
  destruct (cfg_gateway_enabled env_settings) eqn:Hg; cbn [negb]; [|done].
  destruct (tenant_workspace_urls_enabled && Py.truthy (Py.lower (Py.strip_opt (ua_route_subdomain_slug u))) &&
    Py.truthy (Py.lower (Py.strip (ws_url_slug w)))) eqn:E; cbn -[Py.strip]; rewrite E; by destruct w.
Qed.

Lemma lower_slug s : is_slug s → Py.lower s = s.
Proof. intros H. by apply lower_dns, is_slug_dns. Qed.

Lemma created_slugs_ok owner body st node reason wid db w db' : slugs_ok db →
  created_row owner body st node reason wid db w → workspaces db' = <[wid := w]> (workspaces db) →
  users db' = users db → slugs_ok db'.
Proof.
  intros [[Hu Hw] Hform] [Hnew (slug & x & Hal & ->)] Hws Hus. set (key := (uuid4_hex x).2) in *.
  destruct (public_identity_slug (users db !! owner) wid (new_workspace owner body slug key st node reason)) as (Es & Est & _).
  set (w := public_identity _ _ _) in *. cbn in Es.
  assert (Hfree : ∀ j v, workspaces db !! j = Some v → ws_owner_user_id v = owner →
    Py.lower (ws_url_slug v) = Py.lower slug → ws_status v ≠ WorkspaceStatus.DELETED → False).
  { intros j v Hj Ho Hl Hd. pose proof (al_free _ _ _ Hal) as Hf.
    rewrite !lower_slug in Hl by (eauto using al_slug).
    assert (owner_slug_taken owner db slug = true) by (apply owner_slug_taken_row; eauto 7). congruence. }
  assert (Ho : ws_owner_user_id w = owner) by apply public_identity_owner.
  split; [split|].
  - intros i j u v sub. rewrite Hus. apply Hu.
  - intros i j a b. rewrite Hws, !lookup_insert_Some.
    intros [[<- <-]|[Hi Ha]] [[<- <-]|[Hj Hb]] Hown Hl Hda Hdb; [done| | |by eapply Hw].
    + exfalso. eapply Hfree; [exact Hb|congruence|by rewrite <- Hl, Es|done].
    + exfalso. eapply Hfree; [exact Ha|congruence|by rewrite Hl, Es|done].
  - intros k a. rewrite Hws, lookup_insert_Some. intros [[<- <-]|[_ Ha]]; [rewrite Es; apply Hal|by eapply Hform].
Qed.

(** A user whose workspaces can be addressed: no subdomain that looks like a workspace
    host. *)
Definition plain_subdomain (u : UserAuth) : Prop :=
  ∀ sub, ua_route_subdomain_slug u = Some sub → is_slug sub ∧ legacy_shaped sub = false.

Lemma creation_addressable owner body st node reason cid r (s s' : St W) u :
  (∀ w : W, is_slug (uuid4_hex w).2) → creation owner body st node reason cid r s s' →
  cfg_gateway_enabled env_settings = true → st ≠ WorkspaceStatus.DELETED → users (st_db s) !! owner = Some u →
  plain_subdomain u → 0 ≤ cr_workspace_id r ∧ Py.len (Py.str_of_Z (cr_workspace_id r)) ≤ 4300 →
  ∃ w, addressable (st_committed s') (cr_workspace_id r) w u ∧ ws_owner_user_id w = owner ∧ ws_status w = st.
Proof.
  intros Huuid [(w & Hrow & Hws) _ _ _ _ _ Hus ->] Hg Hst Hu Hsub Hid.
  destruct Hrow as [_ (slug & x & Hal & Hw)]. set (key := (uuid4_hex x).2) in *. exists w.
  destruct (public_identity_slug (users (st_db s) !! owner) (cr_workspace_id r)
    (new_workspace owner body slug key st node reason)) as (Es & Est & Ek).
  assert (Ho : ws_owner_user_id w = owner) by (rewrite Hw; apply public_identity_owner).
  rewrite <- Hw in Es, Est, Ek. cbn in Es, Est, Ek. split; [|done].
  assert (Hl : workspaces (st_db s') !! cr_workspace_id r = Some w) by (by rewrite Hws, lookup_insert_eq).
  split; try done.
  - by rewrite Est.
  - by rewrite Ho, Hus.
  - rewrite Hw, Hu. apply public_identity_idem.
  - rewrite Es. apply Hal.
  - intros k. rewrite Ek. intros [= <-]. apply Huuid.
Qed.

(** C38. Creating a workspace, whatever its name, keeps the stored slugs well-formed and
    the live ones of each owner distinct, also when it is refused; and a new workspace whose
    id has at most 4300 digits has an address that forward authorisation, with domains in
    normal form, reads back to it.  The session has nothing uncommitted, the gateway is
    enabled, storage keys have the form of slugs, and the user exists with, if any, a
    subdomain that is a slug and does not look like a workspace host. *)
Theorem created_workspace_is_addressable (owner : Z) (body : CreateWorkspaceRequest) (cid : string)
    (u : UserAuth) (s : St W) :
  (∀ w : W, is_slug (uuid4_hex w).2) → st_db s = st_committed s → slugs_ok (st_committed s) →
  cfg_gateway_enabled env_settings = true → users (st_committed s) !! owner = Some u → plain_subdomain u →
  wp (create_workspace owner body cid)
    (λ r s', slugs_ok (st_committed s') ∧
       (0 ≤ cr_workspace_id r → Py.len (Py.str_of_Z (cr_workspace_id r)) ≤ 4300 →
        ∃ w, addressable (st_committed s') (cr_workspace_id r) w u ∧ ws_owner_user_id w = owner ∧
             ws_status w = WorkspaceStatus.PENDING ∧
             ∀ q, normal_domains → addressed_to w q →
               resolve_workspace_id_from_gateway_request (requested_host q) (requested_uri q) (st_committed s') =
               Some (cr_workspace_id r)))
    (λ _ s', slugs_ok (st_committed s')) s.
Proof.
  intros Huuid Hs Hok Hg Hu Hsub. rewrite <- Hs in Hok, Hu. eapply wp_mono; [apply create_spec| |].
  - intros r s' (_ & _ & Hc). assert (Hok' : slugs_ok (st_committed s')).
    { destruct Hc as [(w & Hrow & Hws) _ _ _ _ _ Hus ->]. by eapply created_slugs_ok. }
    split; [done|]. intros H0 Hl.
    destruct (creation_addressable _ _ _ _ _ _ _ _ _ u Huuid Hc) as (w & Ha & Ho & Hst); [done..|].
    exists w. split_and!; [done..|]. intros q Hdom Hq. eapply address_resolves; [done..|apply Hok'|done].
  - intros e s' [[_ (a & Hdb & -> & _)]|(_ & _ & ->)]; [|by rewrite <- Hs].
    rewrite Hdb. destruct Hok as [[H1 H2] H3]. by split; [split|].
Qed.
End properties.
