(* ===== verification/Access.v ===== *)
(** * Access: opening a workspace

    [src/backend/app/services/workspace_service/services/workspace_intent_service.py]:
    attaching to a running workspace, which hands out a session token, and asking for
    its coordinates with the token.  Both first make sure the gateway routes the
    workspace: they compare the registered route, repair it, wait for the gateway to
    list it, and for the edge proxy to serve it. *)

From S2P Require Import Prelude Models Session Services Sessions Quota.
From S2P Require Import Policy Gateway Runtime Waits HostFiles ProjectDirs.
From S2P Require Import Routing GatewayAuth Intents Creation.

(** [httpx.get(url, headers={"Host": host})] against the edge proxy: a status code, or
    nothing on a [RequestError]. *)
Class EdgeProbe (W : Type) := { edge_get : string → string → W → W * option Z }.

Section access.
Context {W : Type} {env : Env} {tokens : TokenHash} {routes : RouteAdmin W} {fs : HostFilesystem W}
  {clock : Clock W} {edge : EdgeProbe W}.

(** ** What access needs of the rows *)

Definition runtime_ready_for_access (w : Workspace) (rt : option WorkspaceRuntime) : bool :=
  bool_decide (ws_status w = WorkspaceStatus.RUNNING) &&
  match rt with Some r => Py.truthy (Py.strip_opt (rt_container_id r)) | None => false end.

Definition ensure_workspace_running_for_access (w : Workspace) : M W unit :=
  require_not_busy w ;;
  require_status (λ st, bool_decide (st = WorkspaceStatus.RUNNING)) "Access requires workspace status RUNNING" w.

Definition access_issues_for_runtime (rt : WorkspaceRuntime) : list string :=
  match rt_health_status rt with
  | WorkspaceRuntimeHealthStatus.HEALTHY => []
  | h => ["access:runtime:health:" ++ WorkspaceRuntimeHealthStatus.value h]%string
  end.

Definition resolve_public_host_for_gateway_display (wid : Z) (w : Workspace) (rt : option WorkspaceRuntime)
    : option string :=
  let explicit := Py.strip_opt (ws_public_host w) in
  if Py.truthy explicit then Some explicit
  else if negb (cfg_gateway_enabled env_settings) then None
  else if negb (runtime_ready_for_access w rt) then None
  else Some (gateway_unique_public_host wid (cfg_base_domain env_settings) (Py.strip_or_none (ws_project_storage_key w))).

(** [_derive_internal_edge_gateway_url] *)
Definition derive_internal_edge_gateway_url (wid : Z) (w : Workspace) : string :=
  let scheme := normal_scheme (Py.or_else (cfg_gateway_public_scheme env_settings) "http") in
  let internal_host := gateway_unique_public_host wid (cfg_base_domain env_settings)
                         (Py.strip_or_none (ws_project_storage_key w)) in
  workspace_url scheme (gateway_public_host_with_port internal_host scheme (cfg_gateway_public_port env_settings)) "/".

(** [(public_url, workspace_url, gateway_url)] *)
Definition workspace_access_urls (wid : Z) (w : Workspace) (rt : option WorkspaceRuntime) (db : Db)
    : option string * option string * option string :=
  if negb (cfg_gateway_enabled env_settings) || negb (runtime_ready_for_access w rt) then (None, None, None) else
  match users db !! ws_owner_user_id w with
  | None => (None, None, None)
  | Some user =>
      let browser := build_workspace_url user wid w in
      (Some browser, Some browser,
       Some (if tenant_workspace_urls_enabled then derive_internal_edge_gateway_url wid w else browser))
  end.

(** ** Waiting for the edge *)

Definition upstream_error_status (code : Z) : bool := (code =? 502) || (code =? 503) || (code =? 504).

Definition edge_probe (url host : string) : M W (option Z) := fun s =>
  let '(w, code) := edge_get url host (st_world s) in (s <| st_world := w |>, inl code).

(** One round: an answer other than 404 ends the wait. *)
Definition edge_round (url host : string) (_ : unit) : M W (Z + unit) :=
  code ← edge_probe url host;
  mret (match code with Some c => if c =? 404 then inr tt else inl c | None => inr tt end).

(** [((probe_path or "").strip() or "/").split("?", 1)[0]], with a leading slash *)
Definition probe_path_of (probe_path : option string) : string :=
  let path := Py.until (Ascii.eqb "?") (Py.or_else (Py.strip_opt probe_path) "/") in
  if Py.startswith "/" path then path else ("/" ++ path)%string.

(** Queue a reconcile job if possible, then fail. *)
Definition drifted {A} (wid : Z) (cid : string) (e : Exn) : M W A :=
  best_effort_enqueue_reconcile_for_access_drift wid cid ;; raise e.

Definition edge_wait_us : Z := 8000000.
Definition poll_pause_us : Z := 120000.
Definition ensure_traefik_edge_observes_host (wid : Z) (host_header_source probe_path cid : string) : M W unit :=
  let base := Py.strip (cfg_gateway_traefik_http_probe_base env_settings) in
  let host_header := Py.strip (before_colon (Py.strip host_header_source)) in
  if negb (Py.truthy base) || negb (Py.truthy host_header) then mret tt else
  let url := (Py.rstrip_slash base ++ probe_path_of (Some probe_path))%string in
  now ← monotonic;
  r ← poll_while (poll_fuel edge_wait_us poll_pause_us) (now + edge_wait_us) poll_pause_us (edge_round url host_header) tt;
  match r with
  | Answered code =>
      if upstream_error_status code then
        drifted wid cid (WorkspaceGatewayUnavailableError
          ("Gateway edge reached the workspace Host but the IDE upstream did not respond (HTTP " ++ Py.str_of_Z code ++ ")."))
      else mret tt
  | TimedOut _ | OutOfFuel _ =>
      drifted wid cid (WorkspaceGatewayUnavailableError
        "Edge gateway (Traefik) has not picked up the workspace route yet.")
  end.

(** ** The route *)

(** [except GatewayClientError] *)
Definition on_gateway_error {A} (m : M W A) (handler : M W A) : M W A :=
  try_except m (λ e, match e with GatewayClientError _ => handler | _ => raise e end).

(** One look at the registered routes: they agree, they do not, or the gateway failed. *)
Definition route_round (wid : Z) (upstream : string) (host prefix : option string) : M W (unit + bool) :=
  on_gateway_error
    (rows ← get_registered_routes;
     mret (if gateway_route_needs_repair (route_row_for_workspace rows wid) (Some upstream) host prefix
           then inr true else inl tt))
    (mret (inr false)).

Definition ensure_edge (wid : Z) (host prefix : option string) (cid : string) : M W unit :=
  let host_probe := Py.strip_opt host in
  when (Py.truthy host_probe) (ensure_traefik_edge_observes_host wid host_probe (default "/"%string prefix) cid).

(** The route is registered again; then route-admin must list it within four seconds. *)
Definition repair_stale_route (wid : Z) (w : Workspace) (rt : WorkspaceRuntime) (upstream : string)
    (host prefix : option string) (cid : string) : M W unit :=
  let public_host := Py.strip_opt host in
  try_except
    (if negb (Py.truthy public_host) then
       raise (WorkspaceInvalidStateError "Workspace public host is not ready for gateway routing.")
     else register_route (Py.str_of_Z wid) upstream public_host prefix (Py.strip_or_none (rt_node_id rt))
            (ws_execution_node_id w))
    (λ e, match e with
          | GatewayClientError _ | ValueError _ => drifted wid cid (WorkspaceInvalidStateError
              "Workspace gateway route was stale and could not be repaired automatically.")
          | _ => raise e
          end).

Definition route_wait_us : Z := 4000000.
Definition await_route (wid : Z) (upstream : string) (host prefix : option string) (cid : string) : M W unit :=
  now ← monotonic;
  r ← poll_until (poll_fuel route_wait_us poll_pause_us) (now + route_wait_us) (λ _, poll_pause_us)
        (route_round wid upstream host prefix);
  match r with
  | Answered _ => ensure_edge wid host prefix cid
  | TimedOut listed | OutOfFuel listed =>
      drifted wid cid (WorkspaceInvalidStateError
        (if listed : bool then "Workspace gateway route was repaired but route-admin still reports drift."
         else "Workspace gateway route was repaired but could not be verified before timeout."))
  end.

Definition ensure_gateway_route_ready_for_open (wid : Z) (w : Workspace) (rt : WorkspaceRuntime) (cid : string)
    : M W unit :=
  if negb (cfg_gateway_enabled env_settings) then mret tt else
  let observed_upstream := traefik_upstream_for_workspace_gateway (Some w) rt in
  if negb (Py.truthy observed_upstream) then
    drifted wid cid (WorkspaceInvalidStateError "Workspace is RUNNING but its gateway target is missing.")
  else
    let host := resolve_public_host_for_gateway_display wid w (Some rt) in
    let prefix := Py.strip_or_none (ws_gateway_path_prefix w) in
    listed ← on_gateway_error get_registered_routes
      (drifted wid cid (WorkspaceInvalidStateError "Workspace gateway state could not be verified right now."));
    if negb (gateway_route_needs_repair (route_row_for_workspace listed wid) (Some observed_upstream) host prefix)
    then ensure_edge wid host prefix cid
    else
      repair_stale_route wid w rt observed_upstream host prefix cid ;;
      await_route wid observed_upstream host prefix cid.

(** ** Attach and access *)

Record WorkspaceAccessResult := mkWorkspaceAccessResult {
  ar_workspace_id : Z;
  ar_status : workspace_status;
  ar_endpoint_ref : option string;
  ar_public_host : option string;
  ar_internal_endpoint : option string;
  ar_public_url : option string;
  ar_workspace_url : option string;
  ar_gateway_url : option string;
  ar_issues : list string
}.
Record WorkspaceAttachResult := mkWorkspaceAttachResult {
  at_access : WorkspaceAccessResult;
  at_active_sessions_count : Z;
  at_workspace_session_id : Z;
  at_session_token : string;
  at_session_expires_at : option time
}.

(** The coordinates, read after the commit. *)
Definition access_result (wid : Z) (rt : WorkspaceRuntime) (db : Db) : option WorkspaceAccessResult :=
  w ← workspaces db !! wid;
  let '(public_url, workspace_url, gateway_url) := workspace_access_urls wid w (Some rt) db in
  Some (mkWorkspaceAccessResult wid (ws_status w) (ws_endpoint_ref w)
          (resolve_public_host_for_gateway_display wid w (Some rt)) (rt_internal_endpoint rt)
          public_url workspace_url gateway_url (access_issues_for_runtime rt)).

(** The checks both share, up to the gateway. *)
Definition ready_to_open (wid owner_user_id : Z) (cid : string) : M W (Workspace * WorkspaceRuntime) :=
  w ← get_owned_workspace wid owner_user_id false;
  ensure_workspace_running_for_access w ;;
  found ← runtime_row wid;
  match found with
  | Some rt =>
      if negb (runtime_ready_for_access w (Some rt)) then
        raise (WorkspaceInvalidStateError "Workspace is RUNNING but runtime metadata is not ready for access yet; retry shortly.")
      else
        ensure_workspace_reopen_allowed wid w ;;
        ensure_gateway_route_ready_for_open wid w rt cid ;;
        mret (w, rt)
  | None => raise (WorkspaceInvalidStateError
              "Workspace is RUNNING but runtime metadata is not ready for access yet; retry shortly.")
  end.

(** An attribute of a row that is gone raises, as in [row]. *)
Definition read_back {A} (f : Db → option A) : M W A :=
  r ← query f;
  match r with Some a => mret a | None => raise ObjectDeletedError end.

Definition get_workspace_access (wid owner_user_id : Z) (workspace_session_token : option string) (cid : string)
    : M W WorkspaceAccessResult :=
  wr ← ready_to_open wid owner_user_id cid;
  let rt := (wr : Workspace * WorkspaceRuntime).2 in
  resolve_workspace_session_for_access wid owner_user_id (default ""%string workspace_session_token) ;;
  record_audit "workspace.access.granted" "workspace" "success" (Some owner_user_id) "user"
    (Some (Py.str_of_Z wid)) (Some wid) None None ;;
  commit ;;
  read_back (access_result wid rt).

(** The token is [secrets.token_urlsafe]'s. *)
Definition request_attach_workspace (wid owner_user_id : Z) (token cid : string) : M W WorkspaceAttachResult :=
  wr ← ready_to_open wid owner_user_id cid;
  let '(w, rt) := wr : Workspace * WorkspaceRuntime in
  check_session_quota wid owner_user_id (ws_active_sessions_count w) ;;
  evaluate_session_creation owner_user_id wid ;;
  created ← create_workspace_session wid owner_user_id token;
  let '(plain_token, sid) := created : string * Z in
  record_audit "workspace.attach.granted" "workspace_session" "success" (Some owner_user_id) "user"
    (Some (Py.str_of_Z sid)) (Some wid) None None ;;
  record_usage (Some wid) (Some owner_user_id) "session.created" 1 None None ;;
  commit ;;
  access ← read_back (access_result wid rt);
  count ← query (λ db, ws_active_sessions_count <$> workspaces db !! wid);
  expires ← query (λ db, sess_expires_at <$> sessions db !! sid);
  mret (mkWorkspaceAttachResult access (default 0 count) sid plain_token expires).
End access.

(** ** Properties *)

Section properties.
Context {W : Type} {env : Env} {tokens : TokenHash} {routes : RouteAdmin W} {fs : HostFilesystem W}
  {clock : Clock W} {edge : EdgeProbe W}.

(** What a refusal may have committed: a reconcile job of the workspace, at most. *)
Record no_grant (wid : Z) (db db' : Db) : Prop := {
  ng_sessions : sessions db' = sessions db;
  ng_workspaces : workspaces db' = workspaces db;
  ng_jobs : jobs db' = jobs db ∨
    ∃ jid j, jobs db !! jid = None ∧ jobs db' = <[jid := j]> (jobs db) ∧
      job_workspace_id j = wid ∧ job_type j = WorkspaceJobType.RECONCILE_RUNTIME ∧
      job_status j = WorkspaceJobStatus.QUEUED
}.
Lemma no_grant_refl wid db : no_grant wid db db.
Proof. split; [done|done|by left]. Qed.

(** *** Asking for a reconcile job *)

Definition same_sessions (db db' : Db) : Prop := sessions db' = sessions db.
#[local] Instance same_sessions_preorder : PreOrder same_sessions.
Proof. split; [by intros db|]. unfold same_sessions. intros a b c. congruence. Qed.

Lemma enqueue_same_sessions wid cid : db_within same_sessions (enqueue_reconcile_runtime_job wid cid : M W _).
Proof.
  unfold enqueue_reconcile_runtime_job, require_not_busy, require_status, check_reconcile_lease, intent_config_version,
    add_job, record_workspace_event, commit, flush.
  repeat first
    [ apply within_bind; [apply _| |intros ?] | apply within_ret; apply _ | apply within_raise; apply _
    | apply within_gets; apply _ | by apply db_within_on_db | case_match ].
  all: intros s; split; [done|by right].
Qed.

Lemma wp_enqueue wid cid (s : St W) :
  wp (enqueue_reconcile_runtime_job wid cid) (λ _ s', no_grant wid (st_db s) (st_committed s'))
    (λ _ s', st_committed s' = st_committed s ∨ no_grant wid (st_db s) (st_committed s')) s.
Proof.
  pose proof (reconcile_request_spec wid cid s) as Hspec. pose proof (enqueue_same_sessions wid cid s) as Hs.
  unfold wp in *. destruct (enqueue_reconcile_runtime_job wid cid s) as [s' [r|e]]; cbn in Hs.
  - destruct Hspec as (w & _ & _ & _ & Hf & Hj & Hw & Hc & _). rewrite Hc. split; [apply Hs|done|].
    right. by eexists _, _.
  - destruct Hspec as (Hj & Hw & _ & [Hc|Hc]); [by left|right]. rewrite Hc. split; [apply Hs|done|by left].
Qed.

Definition fresh_read (s0 s : St W) : Prop := st_db s0 = st_committed s0 ∧ world_only s0 s.

Lemma wp_drifted {A} wid cid e (Q : A → St W → Prop) (s0 s : St W) : fresh_read s0 s →
  wp (drifted wid cid e) Q (λ _ s', no_grant wid (st_committed s0) (st_committed s')) s.
Proof.
  intros [H0 [E1 E2]]. unfold drifted, best_effort_enqueue_reconcile_for_access_drift. apply wp_bind, wp_try, wp_bind.
  eapply wp_mono; [apply wp_enqueue| |].
  - intros r s' H. apply wp_ret, wp_raise. by rewrite <- H0, <- E1.
  - intros x s' H. rewrite E1, E2, H0 in H.
    assert (Hn : no_grant wid (st_committed s0) (st_committed s')) by (destruct H as [->|H]; [apply no_grant_refl|done]).
    destruct x; try (by apply wp_raise); unfold rollback; by apply wp_modify, wp_raise.
Qed.

(** *** Waiting and repairing only touch the world *)

Lemma gateway_world {R} (c : W → W * (R + string)) : within world_only (call_gateway c).
Proof. intros s. unfold call_gateway. by destruct (c (st_world s)). Qed.
Lemma probe_world url host : within world_only (edge_probe url host : M W _).
Proof. intros s. unfold edge_probe. by destruct (edge_get url host (st_world s)). Qed.
Lemma sleep_world d : within world_only (sleep d : M W unit).
Proof. by intros s. Qed.
Lemma edge_round_world url host u : within world_only (edge_round url host u : M W _).
Proof. apply within_bind; [apply _|apply probe_world|intros c]. apply within_ret, _. Qed.

Lemma poll_while_world {A L} fuel deadline pause (body : L → M W (A + L)) last :
  (∀ l, within world_only (body l)) → within world_only (poll_while fuel deadline pause body last).
Proof.
  intros Hb. revert last. induction fuel as [|n IH]; intros last; cbn [poll_while]; [apply within_ret, _|].
  apply within_bind; [apply _|apply within_gets, _|intros now]. case_match; [apply within_ret, _|].
  apply within_bind; [apply _|done|intros [a|l]]; [apply within_ret, _|].
  apply within_bind; [apply _|apply sleep_world|intros []]. apply IH.
Qed.
Lemma poll_until_world {A L} fuel deadline pause (body : M W (A + L)) :
  within world_only body → within world_only (poll_until fuel deadline pause body).
Proof.
  intros Hb. induction fuel as [|n IH]; cbn [poll_until];
    (apply within_bind; [apply _|done|intros [a|l]]; [apply within_ret, _|]);
    (apply within_bind; [apply _|apply within_gets, _|intros now]); (case_match; [apply within_ret, _|]).
  - apply within_ret, _.
  - apply within_bind; [apply _|apply sleep_world|intros []]. apply IH.
Qed.
Lemma routes_world : within world_only (get_registered_routes : M W _).
Proof. apply gateway_world. Qed.
Lemma route_round_world wid u host prefix : within world_only (route_round wid u host prefix : M W _).
Proof.
  unfold route_round, on_gateway_error. apply within_try; [apply _| |].
  - apply within_bind; [apply _|apply routes_world|intros rows]. apply within_ret, _.
  - intros e. destruct e; first [apply within_ret, _|apply within_raise, _].
Qed.
Lemma register_world wid u host prefix nk eid : within world_only (register_route wid u host prefix nk eid : M W _).
Proof. unfold register_route. case_match; [apply gateway_world|apply within_raise, _]. Qed.

(** [m] either leaves the rows as they were read, or fails having granted nothing. *)
Definition opens (wid : Z) (s0 : St W) {A} (m : M W A) (s : St W) : Prop :=
  wp m (λ _, world_only s0) (λ _ s', no_grant wid (st_committed s0) (st_committed s')) s.

Lemma opens_ret {A} wid s0 (a : A) s : fresh_read s0 s → opens wid s0 (mret a) s.
Proof. intros [_ H]. by apply wp_ret. Qed.
Lemma opens_raise {A} wid s0 e s : fresh_read s0 s → opens wid s0 (raise e : M W A) s.
Proof. intros [_ [_ E]]. apply wp_raise. rewrite E. apply no_grant_refl. Qed.
Lemma opens_drifted {A} wid s0 cid e s : fresh_read s0 s → opens wid s0 (drifted wid cid e : M W A) s.
Proof. apply wp_drifted. Qed.
Lemma opens_bind {A B} wid s0 (m : M W A) (k : A → M W B) s : fresh_read s0 s → opens wid s0 m s →
  (∀ a s', fresh_read s0 s' → opens wid s0 (k a) s') → opens wid s0 (m ≫= k) s.
Proof.
  intros [H0 _] Hm Hk. apply wp_bind. eapply wp_mono; [exact Hm| |done]. intros a s' H. by apply Hk.
Qed.
Lemma opens_world {A} wid s0 (m : M W A) s : fresh_read s0 s → within world_only m → opens wid s0 m s.
Proof.
  intros [H0 H] Hm. apply wp_world; [done|intros a s' H'; by etrans|intros e s' [_ ->]]. destruct H as [_ ->]. apply no_grant_refl.
Qed.
(** An exception of the world is turned into a drift report. *)
Lemma opens_try {A} wid s0 (m : M W A) h s : fresh_read s0 s → within world_only m →
  (∀ e s', fresh_read s0 s' → opens wid s0 (h e) s') → opens wid s0 (try_except m h) s.
Proof.
  intros [H0 H] Hm Hh. apply wp_try, wp_world; [done|intros a s' H'; by etrans|intros e s' H'].
  apply Hh. split; [done|]. by etrans.
Qed.

Lemma opens_edge wid s0 host path cid s : fresh_read s0 s →
  opens wid s0 (ensure_traefik_edge_observes_host wid host path cid) s.
Proof.
  intros Hf. unfold ensure_traefik_edge_observes_host. cbv zeta. case_match; [by apply opens_ret|].
  apply opens_bind; [done|by apply opens_world; [|apply within_gets, _]|intros now s1 Hs1].
  apply opens_bind; [done|by apply opens_world; [|apply poll_while_world; intros l; apply edge_round_world]|].
  intros [code|l|l] s2 Hs2; [case_match; [by apply opens_drifted|by apply opens_ret]|by apply opens_drifted..].
Qed.
Lemma opens_ensure_edge wid s0 host prefix cid s : fresh_read s0 s → opens wid s0 (ensure_edge wid host prefix cid) s.
Proof. intros Hf. unfold ensure_edge, when. cbv zeta. case_match; [by apply opens_edge|by apply opens_ret]. Qed.

Lemma opens_route wid s0 w rt cid s : fresh_read s0 s →
  opens wid s0 (ensure_gateway_route_ready_for_open wid w rt cid) s.
Proof.
  intros Hf. unfold ensure_gateway_route_ready_for_open. case_match; [by apply opens_ret|]. cbv zeta.
  case_match; [by apply opens_drifted|].
  apply opens_bind; [done| |intros rows s1 Hs1].
  { unfold on_gateway_error. apply opens_try; [done|apply routes_world|intros e s' H'].
    destruct e; first [by apply opens_drifted|by apply opens_raise]. }
  case_match; [by apply opens_ensure_edge|].
  apply opens_bind; [done| |intros [] s2 Hs2].
  - unfold repair_stale_route. cbv zeta. apply opens_try; [done| |intros e s' H'].
    + case_match; [apply within_raise, _|apply register_world].
    + destruct e; first [by apply opens_drifted|by apply opens_raise].
  - unfold await_route. apply opens_bind; [done|by apply opens_world; [|apply within_gets, _]|intros now s3 Hs3].
    apply opens_bind; [done|by apply opens_world; [|apply poll_until_world, route_round_world]|].
    intros [u|l|l] s4 Hs4; [by apply opens_ensure_edge|by apply opens_drifted..].
Qed.

(** *** Opening *)

(** A running workspace of the owner with a container. *)
Record openable (wid owner : Z) (w : Workspace) (rt : WorkspaceRuntime) (db : Db) : Prop := {
  op_row : workspaces db !! wid = Some w;
  op_owner : ws_owner_user_id w = owner;
  op_running : ws_status w = WorkspaceStatus.RUNNING;
  op_runtime : runtimes db !! wid = Some rt;
  op_container : Py.truthy (Py.strip_opt (rt_container_id rt)) = true
}.

Lemma wp_ready wid owner cid (s : St W) : st_db s = st_committed s →
  wp (ready_to_open wid owner cid) (λ wr s', world_only s s' ∧ openable wid owner wr.1 wr.2 (st_db s))
    (λ _ s', no_grant wid (st_committed s) (st_committed s')) s.
Proof.
  intros H0. assert (Hf : fresh_read s s) by done. pose proof (no_grant_refl wid (st_committed s)) as HX.
  unfold ready_to_open. apply wp_bind, wp_owned; [done|]. intros w Hw Ho.
  unfold ensure_workspace_running_for_access, require_not_busy, require_status. apply wp_bind, wp_bind.
  case_match; [by apply wp_raise|]. apply wp_ret. case_bool_decide as Hr; [|by apply wp_raise].
  apply wp_ret, wp_bind, wp_query. destruct (runtimes (st_db s) !! wid) as [rt|] eqn:Hrt; [|by apply wp_raise].
  unfold runtime_ready_for_access. rewrite bool_decide_eq_true_2 by done. cbn [andb].
  destruct (Py.truthy _) eqn:Hc; cbn [negb]; [|by apply wp_raise].
  apply wp_bind, wp_reopen; [done|]. apply wp_bind.
  eapply wp_mono; [by apply opens_route| |done]. intros [] s' H'. by apply wp_ret.
Qed.

Lemma denied_no_grant wid (s s' : St W) : denied s s' → no_grant wid (st_db s) (st_committed s').
Proof. intros (a & Hdb & -> & _). rewrite Hdb. split; [done|done|by left]. Qed.

(** *** Attaching *)

Definition seen_now (n : Z) (w : Workspace) : Workspace :=
  w <| ws_active_sessions_count := n |> <| ws_updated_at := env_now |>.

(** What an attach leaves: one new session for the token, committed. *)
Record attached (wid owner : Z) (token : string) (w : Workspace) (r : WorkspaceAttachResult) (db db' : Db) : Prop := {
  ta_token : at_session_token r = token;
  ta_status : ar_status (at_access r) = WorkspaceStatus.RUNNING;
  ta_fresh : sessions db !! at_workspace_session_id r = None;
  ta_sessions : sessions db' = <[at_workspace_session_id r := new_session wid owner token]> (sessions db);
  ta_flushed : sessions_sql db' = sessions db';
  ta_workspaces : ∃ n, workspaces db' = <[wid := seen_now n w]> (workspaces db);
  ta_jobs : jobs db' = jobs db;
  ta_users : users db' = users db
}.

Lemma wp_create_session wid owner token (Q : string * Z → St W → Prop) X s w :
  workspaces (st_db s) !! wid = Some w →
  (∀ n s', let sid := fresh_key (sessions (st_db s)) in
     sessions (st_db s') = <[sid := new_session wid owner token]> (sessions (st_db s)) →
     workspaces (st_db s') = <[wid := seen_now n w]> (workspaces (st_db s)) →
     jobs (st_db s') = jobs (st_db s) → users (st_db s') = users (st_db s) → Q (token, sid) s') →
  wp (create_workspace_session wid owner token) Q X s.
Proof.
  intros Hw HQ. unfold create_workspace_session, reconcile_workspace_active_session_count, set_ws.
  apply wp_bind, wp_query, wp_bind, wp_on_db, wp_bind, wp_bind, wp_query. cbn. rewrite Hw.
  apply wp_bind, wp_query. set (n := count_effective_active_sessions _ _ _).
  apply wp_bind, wp_on_db, wp_ret, wp_ret. apply (HQ n); [done| |done..]. cbn. exact (alter_row _ _ _ _ Hw).
Qed.

Lemma access_result_some wid rt db w : workspaces db !! wid = Some w →
  ∃ r, access_result wid rt db = Some r ∧ ar_status r = ws_status w.
Proof.
  intros Hw. unfold access_result. rewrite Hw. cbn [mbind option_bind].
  destruct (workspace_access_urls wid w (Some rt) db) as [[a b] c]. by eexists.
Qed.

Lemma attach_spec wid owner token cid (s : St W) : st_db s = st_committed s →
  wp (request_attach_workspace wid owner token cid)
    (λ r s', ∃ w rt, openable wid owner w rt (st_db s) ∧
       below (get_effective_quota (Some owner) (Some wid) (st_db s) ≫= q_max_sessions) (ws_active_sessions_count w) ∧
       no_policy_blocks (Some owner) (Some wid) (λ r, negb (rule_allows (pr_allow_session_creation r))) (st_db s) ∧
       attached wid owner token w r (st_db s) (st_db s') ∧ st_committed s' = st_db s')
    (λ _ s', no_grant wid (st_committed s) (st_committed s')) s.
Proof.
  intros H0. unfold request_attach_workspace. apply wp_bind. eapply wp_mono; [by apply wp_ready| |done].
  intros [w rt] s1 [[E1 E2] Hop]. cbn in Hop.
  apply (wp_checked _ _ _ _ _ _ _ _ (session_check_enforces owner wid _)).
  2: { intros e s' Hd _. rewrite <- H0, <- E1. by apply denied_no_grant. }
  intros Hq. apply (wp_checked _ _ _ _ _ _ _ _ (rule_enforces _ _ _ _ _)).
  2: { intros e s' Hd _. rewrite <- H0, <- E1. by apply denied_no_grant. }
  intros Hp. rewrite E1 in Hq, Hp.
  apply wp_bind, (wp_create_session _ _ _ _ _ _ w); [rewrite E1; apply Hop|]. cbv zeta.
  intros n s2 Hs Hw Hj Hu. rewrite E1 in *. unfold record_audit, record_usage.
  apply wp_bind, wp_on_db, wp_bind, wp_on_db, wp_bind. unfold commit, flush. apply wp_bind, wp_on_db, wp_modify.
  set (s3 := _ <| st_committed := _ |>). assert (Hw3 : workspaces (st_db s3) !! wid = Some (seen_now n w)).
  { change (workspaces (st_db s2) !! wid = Some (seen_now n w)). by rewrite Hw, lookup_insert_eq. }
  destruct (access_result_some wid rt (st_db s3) _ Hw3) as (r & Hr & Hst).
  unfold read_back. apply wp_bind, wp_bind, wp_query. rewrite Hr. apply wp_ret, wp_bind, wp_query, wp_bind, wp_query, wp_ret.
  exists w, rt. split_and!; try done. split; try done; cbn.
  - rewrite Hst. apply Hop.
  - apply fresh_key_fresh.
  - by exists n.
Qed.

(** *** The token opens the workspace *)

Lemma public_identity_seen o wid w n : public_identity o wid w = w →
  public_identity o wid (seen_now n w) = seen_now n w.
Proof.
  destruct o as [u|]; [|done]. unfold public_identity. cbv zeta.
  destruct (cfg_gateway_enabled env_settings); cbn [negb]; [|done].
  change (ws_url_slug (seen_now n w)) with (ws_url_slug w).
  change (ws_project_storage_key (seen_now n w)) with (ws_project_storage_key w).
  destruct (_ && _ && _); intros E; pose proof (f_equal ws_public_host E) as E1;
    pose proof (f_equal ws_gateway_path_prefix E) as E2; cbn in E1, E2;
    unfold seen_now; destruct w; cbn in *; by rewrite E1, E2.
Qed.

Lemma addressable_seen db db' wid w u n : addressable db wid w u →
  workspaces db' = <[wid := seen_now n w]> (workspaces db) → users db' = users db →
  addressable db' wid (seen_now n w) u.
Proof.
  intros [] Hw Hu. split; try done.
  - by rewrite Hw, lookup_insert_eq.
  - by rewrite Hu.
  - by apply public_identity_seen.
Qed.
Lemma distinct_slugs_seen db db' wid w n : workspaces db !! wid = Some w → distinct_slugs db →
  workspaces db' = <[wid := seen_now n w]> (workspaces db) → users db' = users db → distinct_slugs db'.
Proof.
  intros Hw [H1 H2] Hws Hu. split; [intros i j a b sub; rewrite Hu; apply H1|].
  assert (Hback : ∀ i a, workspaces db' !! i = Some a → ∃ b, workspaces db !! i = Some b ∧
    ws_owner_user_id a = ws_owner_user_id b ∧ ws_url_slug a = ws_url_slug b ∧ ws_status a = ws_status b).
  { intros i a. rewrite Hws, lookup_insert_Some. intros [[<- <-]|[_ Ha]]; [by exists w|by exists a]. }
  intros i j a b (a' & Ha & -> & -> & ->)%Hback (b' & Hb & -> & -> & ->)%Hback. by eapply H2.
Qed.

Lemma session_found sid ss db : sessions_sql db = sessions db → sessions db !! sid = Some ss →
  (∀ k r, sessions db !! k = Some r → sess_session_token_hash r = sess_session_token_hash ss → k = sid) →
  session_by_hash (sess_session_token_hash ss) db = Some (sid, ss).
Proof.
  intros Hsql Hs Hu. unfold session_by_hash. rewrite Hsql, (first_row_unique _ _ sid ss); [cbn; by rewrite Hs|done|done|].
  intros k v Hk Hh. by eapply Hu.
Qed.

(** C14. Attaching lets the owner in, and nobody else: in a session that has nothing
    uncommitted it succeeds only for the owner of a RUNNING workspace with a container,
    below the session quota and allowed by policy; it then commits exactly one new session,
    for the token it returns.  With gateway authentication on, domains in normal form,
    distinct slugs, and a token that is not empty and whose hash no session has, a request
    with that token addressed to the workspace is let through by forward authorisation, if
    the workspace is addressable; [numbered_subdomain_is_another_workspace] is the case of
    one that is not.  A refusal commits no session and no workspace change, and at most one
    queued reconcile job of the workspace, however long the gateway and the edge kept it
    waiting. *)
Theorem attached_user_is_let_in (wid owner : Z) (token cid : string) (s : St W) :
  st_db s = st_committed s →
  wp (request_attach_workspace wid owner token cid)
    (λ r s', ∃ w rt, openable wid owner w rt (st_committed s) ∧
       below (get_effective_quota (Some owner) (Some wid) (st_committed s) ≫= q_max_sessions) (ws_active_sessions_count w) ∧
       no_policy_blocks (Some owner) (Some wid) (λ r, negb (rule_allows (pr_allow_session_creation r))) (st_committed s) ∧
       attached wid owner token w r (st_committed s) (st_committed s') ∧
       ∀ u q, cfg_gateway_auth_enabled env_settings = true → normal_domains →
         distinct_slugs (st_committed s) → addressable (st_committed s) wid w u →
         (∀ k ss, sessions (st_committed s) !! k = Some ss →
            sess_session_token_hash ss ≠ hash_workspace_session_token token) →
         addressed_to w q → presented_token q = token → Py.truthy token = true →
         gateway_forward_auth q (st_committed s') = Allowed)
    (λ _ s', no_grant wid (st_committed s) (st_committed s')) s.
Proof.
  intros H0. eapply wp_mono; [by apply attach_spec| |done].
  intros r s' (w & rt & Hop & Hq & Hp & Hat & Hc). rewrite H0 in *. exists w, rt. rewrite Hc.
  do 4 (split; [done|]). intros u q Hen Hdom Hdist Had Hnew Hto Hpres Ht.
  destruct Hat as [_ _ Hfresh Hs Hflush [n Hw] _ Hu].
  set (sid := at_workspace_session_id r) in *. set (ss := new_session wid owner token) in *.
  apply (forward_auth_decides q (st_db s') wid); [done| |].
  - eapply (address_resolves _ wid (seen_now n w) u); [by eapply addressable_seen|done| |].
    + eapply distinct_slugs_seen; [apply Hop|done..].
    + destruct Hto. by split.
  - rewrite Hpres. split; [done|]. split.
    + exists sid, ss. split; [|split_and!; [done..|]].
      * apply (session_found sid ss); [done|by rewrite Hs, lookup_insert_eq|].
        intros k x. rewrite Hs, lookup_insert_Some. intros [[<- _]|[_ Hk]] Hh; [done|]. by destruct (Hnew k x Hk).
      * cbn. unfold seconds. lia.
    + rewrite Hw, lookup_insert_eq. cbn. f_equal. apply Hop.
Qed.
End properties.
