(* ===== verification/Snapshots.v ===== *)
(** * Snapshots: what users ask of snapshots

    [src/backend/app/services/workspace_service/services/snapshot_service.py]:
    creating, listing, reading, deleting, restoring and downloading snapshots.
    Creating and restoring only queue a job; the worker's side is [SnapshotJobs].
    The [metadata_json] column, which no code reads, is left out; the signed token
    of a direct download is the interface [DownloadTokens]. *)

From S2P Require Import Prelude Models Session Services Frames Sessions.
From S2P Require Import Scheduling Quota Policy WorkerRows Worker HostFiles.
From S2P Require Import Intents.

(** [jwt.encode] of the claims in snapshot_download_token.py. *)
Record DownloadClaims := mkDownloadClaims {
  dc_typ : string; dc_wid : Z; dc_sid : Z; dc_uid : Z; dc_iat : time; dc_exp : time
}.
Class DownloadTokens := { dt_encode : DownloadClaims → string }.

(** [CreateSnapshotResult] and [RestoreSnapshotResult]; the status is the row's in the
    former and the workspace's in the latter. *)
Record SnapshotRequestResult (S : Set) := mkSnapshotRequestResult {
  sr_workspace_id : Z; sr_snapshot_id : Z; sr_job_id : Z; sr_status : S
}.
Arguments mkSnapshotRequestResult {S}.
Arguments sr_workspace_id {S}.
Arguments sr_snapshot_id {S}.
Arguments sr_job_id {S}.
Arguments sr_status {S}.

Record SnapshotArchiveDownloadInfo := mkSnapshotArchiveDownloadInfo {
  di_local_path : string; di_suggested_filename : string; di_cleanup_after_send : bool
}.
Inductive SnapshotArchiveDownloadOffer : Set :=
| PresignedS3 (filename : string) (expires_in : Z) (presigned_url : string)
| BackendDirect (filename : string) (expires_in : Z) (relative_url : string).

Section snapshots.
Context {W : Type} {env : Env} {storage : SnapshotStorage W} {fs : HostFilesystem W} {tokens : DownloadTokens}.

(** [_SNAPSHOT_CREATE_ALLOWED] *)
Definition snapshot_create_allowed (st : workspace_status) : bool :=
  bool_decide (st = WorkspaceStatus.RUNNING ∨ st = WorkspaceStatus.STOPPED).

(** [int(max(version) or 1)] *)
Definition snapshot_config_version (wid : Z) (db : Db) : Z :=
  match latest_config_version wid db with Some v => if v =? 0 then 1 else v | None => 1 end.

Definition job_in_flight (j : WorkspaceJob) : bool :=
  bool_decide (job_status j = WorkspaceJobStatus.QUEUED ∨ job_status j = WorkspaceJobStatus.RUNNING).
Definition snapshot_job_type (jt : workspace_job_type) : bool :=
  bool_decide (jt = WorkspaceJobType.SNAPSHOT_CREATE ∨ jt = WorkspaceJobType.SNAPSHOT_RESTORE).

Definition pending_snapshot_jobs (wid : Z) (db : Db) : bool :=
  bool_decide (is_Some (first_row (λ kj, job_workspace_id kj.2 = wid ∧ job_in_flight kj.2 = true ∧
                                         snapshot_job_type (job_type kj.2) = true) (jobs db))).

Definition assert_workspace_owner (wid owner_user_id : Z) : M W unit :=
  found ← query (λ db, workspaces db !! wid);
  match found with
  | Some w => if ws_owner_user_id w =? owner_user_id then mret tt else raise WorkspaceNotFoundError
  | None => raise WorkspaceNotFoundError
  end.

Definition get_snapshot_for_owner (sid owner_user_id : Z) : M W WorkspaceSnapshot :=
  found ← query (λ db, snapshots db !! sid);
  match found with
  | None => raise (SnapshotNotFoundError "Snapshot not found")
  | Some sn =>
      ws ← query (λ db, workspaces db !! snap_workspace_id sn);
      match ws with
      | Some w => if ws_owner_user_id w =? owner_user_id then mret sn
                  else raise (SnapshotNotFoundError "Snapshot not found")
      | None => raise (SnapshotNotFoundError "Snapshot not found")
      end
  end.

(** [WorkspaceJob(.., workspace_snapshot_id=sid)] *)
Definition new_snapshot_job (wid sid : Z) (jt : workspace_job_type) (user config_version : Z) (cid : string)
    : WorkspaceJob :=
  (new_job wid jt user config_version cid) <| job_workspace_snapshot_id := Some sid |>.

(** The job, its event and its audit row. *)
Definition queue_snapshot_job (wid sid : Z) (jt : workspace_job_type) (owner_user_id : Z) (st : workspace_status)
    (message action cid : string) : M W Z :=
  v ← query (snapshot_config_version wid);
  jid ← add_job (new_snapshot_job wid sid jt owner_user_id v cid);
  record_workspace_event wid "controlplane.intent_queued" (Some st) message ;;
  record_audit action "workspace_snapshot" "success" (Some owner_user_id) "user"
    (Some (Py.str_of_Z sid)) (Some wid) (Some jid) None ;;
  commit ;;
  mret jid.

Definition new_snapshot (wid owner_user_id : Z) (name : string) (description : option string) : WorkspaceSnapshot :=
  let text := Py.prefix_to 8192 (Py.strip_opt description) in
  mkWorkspaceSnapshot wid (Py.prefix_to 255 (Py.strip name)) (if Py.truthy text then Some text else None)
    "pending" WorkspaceSnapshotStatus.CREATING None owner_user_id env_now.

Definition create_snapshot (wid owner_user_id : Z) (name : string) (description : option string) (cid : string)
    : M W (SnapshotRequestResult workspace_snapshot_status) :=
  assert_workspace_owner wid owner_user_id ;;
  w ← get_workspace_row wid;
  if negb (snapshot_create_allowed (ws_status w)) then
    raise (WorkspaceInvalidStateError "Snapshots can only be created for RUNNING or STOPPED workspaces")
  else
    pending ← query (pending_snapshot_jobs wid);
    if pending : bool then
      raise (SnapshotConflictError "A snapshot or restore job is already in progress for this workspace")
    else
      check_snapshot_quota wid owner_user_id ;;
      evaluate_snapshot_creation owner_user_id wid ;;
      sid ← query (λ db, fresh_key (snapshots db));
      on_db (λ db, flush_db (db <| snapshots ::= <[sid := new_snapshot wid owner_user_id name description]> |>)) ;;
      set_snap sid (λ s, s <| snap_storage_uri := ss_storage_uri wid sid |>) ;;
      jid ← queue_snapshot_job wid sid WorkspaceJobType.SNAPSHOT_CREATE owner_user_id (ws_status w)
              "Snapshot create job queued" "workspace.snapshot.create.requested" cid;
      mret (mkSnapshotRequestResult wid sid jid WorkspaceSnapshotStatus.CREATING).

(** Newest first. *)
Definition snapshots_by_age (wid : Z) (db : Db) : list (Z * WorkspaceSnapshot) :=
  sort_by (λ a b : Z * WorkspaceSnapshot, snap_created_at b.2 <=? snap_created_at a.2)
    (List.filter (λ ks : Z * WorkspaceSnapshot, snap_workspace_id ks.2 =? wid) (map_to_list (snapshots db))).

Definition list_snapshots (wid owner_user_id : Z) : M W (list (Z * WorkspaceSnapshot)) :=
  assert_workspace_owner wid owner_user_id ;;
  query (snapshots_by_age wid).

Definition get_snapshot (sid owner_user_id : Z) : M W WorkspaceSnapshot := get_snapshot_for_owner sid owner_user_id.

Definition job_references (sid : Z) (j : WorkspaceJob) : bool :=
  bool_decide (job_workspace_snapshot_id j = Some sid) && job_in_flight j.

(** [commit] after the deletion of the row: [workspace_job.workspace_snapshot_id] refers
    to it, without a rule for deletions. *)
Definition commit_deletion (sid : Z) : M W unit :=
  referring ← query (λ db, first_row (λ kj, job_workspace_snapshot_id kj.2 = Some sid) (jobs db));
  match referring with
  | Some _ => refuse_flush IntegrityError
  | None => on_db (λ db, db <| snapshots ::= delete sid |>) ;; commit
  end.

Definition delete_snapshot (sid owner_user_id : Z) : M W unit :=
  sn ← get_snapshot_for_owner sid owner_user_id;
  let wid := snap_workspace_id sn in
  pending ← query (λ db, first_row (λ kj, job_references sid kj.2 = true) (jobs db));
  match pending with
  | Some _ => raise (SnapshotConflictError "Cannot delete snapshot while a job references it")
  | None =>
      call_storage (ss_delete_archive wid sid) ;;
      w ← get_workspace_row wid;
      record_workspace_event wid "workspace.snapshot.deleted" (Some (ws_status w)) "Workspace snapshot deleted" ;;
      record_audit "workspace.snapshot.deleted" "workspace_snapshot" "success" (Some owner_user_id) "user"
        (Some (Py.str_of_Z sid)) (Some wid) None None ;;
      commit_deletion sid
  end.

Definition restore_snapshot (sid owner_user_id : Z) (cid : string)
    : M W (SnapshotRequestResult workspace_status) :=
  sn ← get_snapshot_for_owner sid owner_user_id;
  let wid := snap_workspace_id sn in
  w ← get_workspace_row wid;
  if negb (bool_decide (snap_status sn = WorkspaceSnapshotStatus.AVAILABLE)) then
    raise (WorkspaceInvalidStateError "Snapshot must be AVAILABLE")
  else if negb (bool_decide (ws_status w = WorkspaceStatus.STOPPED)) then
    raise (WorkspaceInvalidStateError "Workspace must be STOPPED before restore")
  else
    pending ← query (pending_snapshot_jobs wid);
    if pending : bool then
      raise (SnapshotConflictError "A snapshot or restore job is already in progress for this workspace")
    else
      present ← call_storage (ss_has_nonempty_archive wid sid);
      if negb (present : bool) then
        raise (WorkspaceInvalidStateError "Snapshot archive is missing or empty on storage; cannot restore")
      else
        set_snap sid (λ s, s <| snap_status := WorkspaceSnapshotStatus.RESTORING |>) ;;
        jid ← queue_snapshot_job wid sid WorkspaceJobType.SNAPSHOT_RESTORE owner_user_id (ws_status w)
                "Snapshot restore job queued" "workspace.snapshot.restore.requested" cid;
        mret (mkSnapshotRequestResult wid sid jid (ws_status w)).

(** *** Downloads *)

(** The loop over [list_snapshots]: the first AVAILABLE one with an archive. *)
Fixpoint first_archived (wid : Z) (rows : list (Z * WorkspaceSnapshot)) : M W (option (Z * WorkspaceSnapshot)) :=
  match rows with
  | [] => mret None
  | (sid, sn) :: r =>
      if negb (bool_decide (snap_status sn = WorkspaceSnapshotStatus.AVAILABLE)) then first_archived wid r
      else
        present ← call_storage (ss_has_nonempty_archive wid sid);
        if present : bool then mret (Some (sid, sn)) else first_archived wid r
  end.

Definition resolve_owned_snapshot_archive_for_download (wid owner_user_id : Z) (snapshot_id : option Z)
    : M W (Z * Z) :=
  assert_workspace_owner wid owner_user_id ;;
  chosen ← (match snapshot_id with
            | Some sid =>
                sn ← get_snapshot_for_owner sid owner_user_id;
                if snap_workspace_id sn =? wid then mret (sid, sn)
                else raise (SnapshotNotFoundError "Snapshot not found")
            | None =>
                rows ← list_snapshots wid owner_user_id;
                found ← first_archived wid rows;
                match found with
                | Some row => mret row
                | None => raise (SnapshotNotFoundError "No snapshot with a completed archive is available yet")
                end
            end);
  let '(sid, sn) := chosen in
  if negb (bool_decide (snap_status sn = WorkspaceSnapshotStatus.AVAILABLE)) then
    raise (WorkspaceInvalidStateError "Snapshot must be AVAILABLE")
  else
    present ← call_storage (ss_has_nonempty_archive (snap_workspace_id sn) sid);
    if negb (present : bool) then
      raise (WorkspaceInvalidStateError "Snapshot archive is missing or empty on storage")
    else mret (snap_workspace_id sn, sid).

Definition archive_filename (wid sid : Z) : string :=
  ("workspace-" ++ Py.str_of_Z wid ++ "-snapshot-" ++ Py.str_of_Z sid ++ ".tar.gz")%string.

Definition prepare_snapshot_archive_download (wid owner_user_id : Z) (snapshot_id : option Z)
    : M W SnapshotArchiveDownloadInfo :=
  target ← resolve_owned_snapshot_archive_for_download wid owner_user_id snapshot_id;
  let '(wid, sid) := target in
  (if ss_remote then call_storage (ss_download_archive wid sid) else mret tt) ;;
  let local_path := ss_archive_path wid sid in
  present ← ask_world (fs_nonempty_file local_path);
  if negb present then
    raise (WorkspaceInvalidStateError "Snapshot archive file is missing or empty after storage sync")
  else mret (mkSnapshotArchiveDownloadInfo local_path (archive_filename wid sid) ss_remote).

(** [create_snapshot_archive_download_token]; the times are whole seconds there. *)
Definition create_snapshot_archive_download_token (wid sid user_auth_id ttl_seconds : Z) : string :=
  let now := env_now / seconds 1 in
  dt_encode (mkDownloadClaims "snapshot_archive_dl" wid sid user_auth_id now (now + ttl_seconds)).

Definition build_snapshot_archive_download_offer (wid owner_user_id : Z) (snapshot_id : option Z)
    : M W SnapshotArchiveDownloadOffer :=
  target ← resolve_owned_snapshot_archive_for_download wid owner_user_id snapshot_id;
  let '(wid, sid) := target in
  let filename := archive_filename wid sid in
  if ss_remote then
    url ← call_storage (ss_presign wid sid filename 900);
    mret (PresignedS3 filename 900 url)
  else
    let token := create_snapshot_archive_download_token wid sid owner_user_id 600 in
    mret (BackendDirect filename 600
            ("/workspaces/" ++ Py.str_of_Z wid ++ "/snapshots/archive?download_token=" ++ token)).
End snapshots.

(** ** Properties *)

Section properties.
Context {W : Type} {env : Env} {storage : SnapshotStorage W} {fs : HostFilesystem W} {tokens : DownloadTokens}.
Implicit Types s : St W.

(** A refusal leaves jobs, workspaces, configurations and snapshots. *)
Definition snapshot_refused s s' : Prop :=
  refused s s' ∧ snapshots (st_db s') = snapshots (st_db s).

Lemma snapshot_refused_world s w : snapshot_refused s (s <| st_world := w |>).
Proof. split; [|done]. split_and!; [done..|by left]. Qed.
Lemma snapshot_refused_refl s : snapshot_refused s s.
Proof. split; [apply refused_refl|done]. Qed.
#[local] Hint Resolve snapshot_refused_world snapshot_refused_refl : core.

Definition snapshot_job_free (wid : Z) (db : Db) : Prop :=
  ∀ k j, jobs db !! k = Some j → job_workspace_id j = wid → job_in_flight j = true →
    snapshot_job_type (job_type j) = false.

Lemma pending_spec wid db : pending_snapshot_jobs wid db = false → snapshot_job_free wid db.
Proof.
  unfold pending_snapshot_jobs. intros H%bool_decide_eq_false k j Hk Hw Hf.
  destruct (snapshot_job_type (job_type j)) eqn:E; [|done]. exfalso. apply H.
  destruct (first_row _ _) eqn:Hr; [by eexists|]. exfalso. by eapply (first_row_None _ _ k j Hr).
Qed.

Lemma wp_storage {R} (c : W → W * (R + Exn)) (Q : R → St W → Prop) X s :
  (∀ w r, c (st_world s) = (w, inl r) → Q r (s <| st_world := w |>)) →
  (∀ w e, X e (s <| st_world := w |>)) → wp (call_storage c) Q X s.
Proof.
  intros HQ HX. unfold wp, call_storage. destruct (c (st_world s)) as [w [r|e]] eqn:E; [by apply HQ|apply HX].
Qed.

Lemma wp_assert_owner wid owner (Q : unit → St W → Prop) X s :
  (∀ e, (∀ w, workspaces (st_db s) !! wid = Some w → ws_owner_user_id w ≠ owner) → X e s) →
  (∀ w, workspaces (st_db s) !! wid = Some w → ws_owner_user_id w = owner → Q tt s) →
  wp (assert_workspace_owner wid owner) Q X s.
Proof.
  intros HX HQ. unfold assert_workspace_owner. apply wp_bind, wp_query.
  destruct (workspaces (st_db s) !! wid) as [w|]; [|by apply wp_raise, HX].
  destruct (Z.eqb_spec (ws_owner_user_id w) owner); [by eapply wp_ret, HQ|].
  apply wp_raise, HX. by intros w' [= <-].
Qed.

Lemma wp_owned_snapshot sid owner (Q : WorkspaceSnapshot → St W → Prop) X s : (∀ e, X e s) →
  (∀ sn w, snapshots (st_db s) !! sid = Some sn → workspaces (st_db s) !! snap_workspace_id sn = Some w →
     ws_owner_user_id w = owner → Q sn s) →
  wp (get_snapshot_for_owner sid owner) Q X s.
Proof.
  intros HX HQ. unfold get_snapshot_for_owner. apply wp_bind, wp_query.
  destruct (snapshots (st_db s) !! sid) as [sn|] eqn:E; [|apply wp_raise, HX]. apply wp_bind, wp_query.
  destruct (workspaces (st_db s) !! snap_workspace_id sn) as [w|] eqn:Ew; [|apply wp_raise, HX].
  destruct (Z.eqb_spec (ws_owner_user_id w) owner); [|apply wp_raise, HX]. by eapply wp_ret, HQ.
Qed.

(** A check that denies durably, before a snapshot request changes anything. *)
Lemma wp_snapshot_check m action ok err (Q : unit → St W → Prop) s : check_enforces m action ok err →
  (ok (st_db s) → Q tt s) → wp m Q (λ _ s', snapshot_refused s s') s.
Proof.
  intros H HQ. eapply wp_mono; [apply H|by intros [] s' [-> Hok]; apply HQ|].
  intros e s' [(a & Hdb & Hc & _) _]. unfold snapshot_refused, refused. rewrite Hc, Hdb.
  split; [split_and!; try done; by right|done].
Qed.

(** What an accepted request leaves: one fresh job in flight for the snapshot, no
    other of the workspace before, everything committed. *)
Record snapshot_accepted (wid sid : Z) (jt : workspace_job_type) (owner : Z) (cid : string) (jid : Z) s s'
    : Prop := mkSnapshotAccepted {
  sa_owner : ∃ w, workspaces (st_db s) !! wid = Some w ∧ ws_owner_user_id w = owner;
  sa_free : snapshot_job_free wid (st_db s);
  sa_fresh : jobs (st_db s) !! jid = None;
  sa_jobs : jobs (st_db s') = <[jid := new_snapshot_job wid sid jt owner
              (snapshot_config_version wid (st_db s)) cid]> (jobs (st_db s));
  sa_workspaces : workspaces (st_db s') = workspaces (st_db s);
  sa_committed : st_committed s' = st_db s'
}.

Lemma wp_queue_snapshot_job wid sid jt owner st msg action cid w (Q : Z → St W → Prop) X s0 s :
  workspaces (st_db s0) !! wid = Some w → ws_owner_user_id w = owner → snapshot_job_free wid (st_db s0) →
  jobs (st_db s) = jobs (st_db s0) → workspaces (st_db s) = workspaces (st_db s0) →
  configs (st_db s) = configs (st_db s0) →
  (∀ jid s', snapshot_accepted wid sid jt owner cid jid s0 s' → snapshots (st_db s') = snapshots (st_db s) →
     Q jid s') →
  wp (queue_snapshot_job wid sid jt owner st msg action cid) Q X s.
Proof.
  intros Hw Ho Hfree Hj Hws Hcfg HQ. unfold queue_snapshot_job, add_job, commit. wp_db.
  apply HQ; [|done]. split; cbn.
  - by exists w.
  - done.
  - rewrite <- Hj. apply fresh_key_fresh.
  - rewrite Hj. do 2 f_equal. unfold snapshot_config_version, latest_config_version, latest_config. by rewrite Hcfg.
  - done.
  - done.
Qed.

(** *** The three requests *)

Definition create_specified wid owner name desc cid : Prop := ∀ s,
  wp (create_snapshot wid owner name desc cid)
    (λ r s', sr_workspace_id r = wid ∧
       snapshot_accepted wid (sr_snapshot_id r) WorkspaceJobType.SNAPSHOT_CREATE owner cid (sr_job_id r) s s' ∧
       (∃ w, workspaces (st_db s) !! wid = Some w ∧ snapshot_create_allowed (ws_status w) = true) ∧
       below (get_effective_quota (Some owner) (Some wid) (st_db s) ≫= q_max_snapshots) (snapshots_of wid (st_db s)) ∧
       snapshots (st_db s) !! sr_snapshot_id r = None ∧
       snapshots (st_db s') = <[sr_snapshot_id r := (new_snapshot wid owner name desc)
         <| snap_storage_uri := ss_storage_uri wid (sr_snapshot_id r) |>]> (snapshots (st_db s)))
    (λ _ s', snapshot_refused s s') s.

Definition restore_specified sid owner cid : Prop := ∀ s,
  wp (restore_snapshot sid owner cid)
    (λ r s', ∃ sn w, snapshots (st_db s) !! sid = Some sn ∧ workspaces (st_db s) !! snap_workspace_id sn = Some w ∧
       snap_status sn = WorkspaceSnapshotStatus.AVAILABLE ∧ ws_status w = WorkspaceStatus.STOPPED ∧
       (∃ w', ss_has_nonempty_archive (snap_workspace_id sn) sid (st_world s) = (w', inl true)) ∧
       sr_workspace_id r = snap_workspace_id sn ∧ sr_snapshot_id r = sid ∧
       snapshot_accepted (snap_workspace_id sn) sid WorkspaceJobType.SNAPSHOT_RESTORE owner cid (sr_job_id r) s s' ∧
       snapshots (st_db s') =
         <[sid := sn <| snap_status := WorkspaceSnapshotStatus.RESTORING |>]> (snapshots (st_db s)))
    (λ _ s', snapshot_refused s s') s.

Definition delete_specified sid owner : Prop := ∀ s,
  wp (delete_snapshot sid owner)
    (λ _ s', ∃ sn w, snapshots (st_db s) !! sid = Some sn ∧ workspaces (st_db s) !! snap_workspace_id sn = Some w ∧
       ws_owner_user_id w = owner ∧
       (∀ k j, jobs (st_db s) !! k = Some j → job_workspace_snapshot_id j ≠ Some sid) ∧
       ss_delete_archive (snap_workspace_id sn) sid (st_world s) = (st_world s', inl tt) ∧
       snapshots (st_db s') = delete sid (snapshots (st_db s)) ∧
       jobs (st_db s') = jobs (st_db s) ∧ workspaces (st_db s') = workspaces (st_db s) ∧ st_committed s' = st_db s')
    (λ e s', snapshot_refused s s' ∨ e = IntegrityError ∧ flush_refused s s' ∧
       (∀ k j, jobs (st_db s) !! k = Some j → job_references sid j = false) ∧
       (∃ k j, jobs (st_db s) !! k = Some j ∧ job_workspace_snapshot_id j = Some sid) ∧
       ∃ sn, snapshots (st_db s) !! sid = Some sn ∧
         ss_delete_archive (snap_workspace_id sn) sid (st_world s) = (st_world s', inl tt)) s.

Lemma create_request_spec wid owner name desc cid : create_specified wid owner name desc cid.
Proof.
  intros s. unfold create_snapshot. apply wp_bind, wp_assert_owner; [done|]. intros w Hw Ho.
  apply wp_bind. eapply (wp_row workspaces); [exact Hw|].
  destruct (snapshot_create_allowed (ws_status w)) eqn:Ha; cbn [negb]; [|by apply wp_raise].
  apply wp_bind, wp_query. destruct (pending_snapshot_jobs wid (st_db s)) eqn:Hp; [by apply wp_raise|].
  apply pending_spec in Hp.
  apply wp_bind. eapply wp_snapshot_check; [apply snapshot_check_enforces|]. intros Hq.
  apply wp_bind. eapply wp_snapshot_check; [apply rule_enforces|]. intros _.
  apply wp_bind, wp_query. set (sid := fresh_key (snapshots (st_db s))).
  apply wp_bind, wp_on_db, wp_bind. unfold set_snap. apply wp_on_db, wp_bind.
  eapply wp_queue_snapshot_job; [exact Hw|exact Ho|exact Hp|reflexivity..|]. intros jid s' Hacc Hsn. apply wp_ret.
  split_and!; [done|done|by exists w|done|apply fresh_key_fresh|]. rewrite Hsn. cbn.
  by rewrite alter_insert_eq.
Qed.

Lemma restore_request_spec sid owner cid : restore_specified sid owner cid.
Proof.
  intros s. unfold restore_snapshot. apply wp_bind, wp_owned_snapshot; [done|]. intros sn w Hsn Hw Ho. cbv zeta.
  apply wp_bind. eapply (wp_row workspaces); [exact Hw|].
  case_bool_decide as Hst; cbn [negb]; [|by apply wp_raise].
  case_bool_decide as Hws; cbn [negb]; [|by apply wp_raise].
  apply wp_bind, wp_query. destruct (pending_snapshot_jobs _ _) eqn:Hp; [by apply wp_raise|].
  apply pending_spec in Hp.
  apply wp_bind, wp_storage; [|done]. intros w' [|] Harch; cbn [negb]; [|by apply wp_raise].
  apply wp_bind. unfold set_snap. apply wp_on_db, wp_bind.
  eapply wp_queue_snapshot_job; [exact Hw|exact Ho|exact Hp|reflexivity..|]. intros jid s' Hacc Hsn'. apply wp_ret.
  exists sn, w. split_and!; try done; [by exists w'|]. rewrite Hsn'. cbn. by apply alter_row.
Qed.

Lemma delete_snapshot_request_spec sid owner : delete_specified sid owner.
Proof.
  intros s. unfold delete_snapshot. apply wp_bind, wp_owned_snapshot; [by left|]. intros sn w Hsn Hw Ho. cbv zeta.
  apply wp_bind, wp_query. destruct (first_row _ _) as [p|] eqn:Hp; [apply wp_raise; by left|].
  assert (Hidle : ∀ k j, jobs (st_db s) !! k = Some j → job_references sid j = false).
  { intros k j Hk. destruct (job_references sid j) eqn:E; [|done]. exfalso. by eapply (first_row_None _ _ k j Hp Hk). }
  clear Hp. apply wp_bind, wp_storage; [|by left]. intros w' [] Hdel.
  apply wp_bind. eapply (wp_row workspaces); [exact Hw|]. unfold commit_deletion, commit, record_workspace_event, record_audit, flush.
  apply wp_bind, wp_on_db. apply wp_bind, wp_on_db. apply wp_bind, wp_query. cbn.
  destruct (first_row _ (jobs (st_db s))) as [[k j]|] eqn:Hr.
  - apply first_row_Some in Hr as [Hk Hj]. apply wp_bind, wp_modify, wp_raise. right.
    split_and!; try done; [by exists k, j|by exists sn].
  - apply wp_bind, wp_on_db. apply wp_bind, wp_on_db. apply wp_modify. exists sn, w. split_and!; try done.
    intros k j Hk Href. by eapply (first_row_None _ _ k j Hr Hk).
Qed.

(** C30. The snapshot requests: creating is accepted only for the owner, in RUNNING or
    STOPPED, within the snapshot quota and policy; restoring only for the owner of an
    AVAILABLE snapshot of a STOPPED workspace whose archive the storage reports; both
    only while no snapshot job of the workspace is queued or running.  Acceptance
    writes the one snapshot row and one fresh job for it and commits.  Deleting removes
    the archive and the row for the owner if no job at all refers to the snapshot; with a
    job in flight that does it is refused, and with finished ones only (as the one that
    made the snapshot) the archive is deleted and then the commit refused, the rows as
    committed before.  Any other refusal, whatever raised, leaves jobs, workspaces,
    configurations and snapshots. *)
Theorem snapshot_requests_specified wid sid owner name desc cid :
  create_specified wid owner name desc cid ∧ restore_specified sid owner cid ∧ delete_specified sid owner.
Proof. split_and!; [apply create_request_spec|apply restore_request_spec|apply delete_snapshot_request_spec]. Qed.

(** *** Downloads *)

Section downloads.
Variables (wid owner : Z) (has : Z → bool).
(** The storage answers, and answers the same. *)
Hypothesis storage_answers : ∀ sid w, ss_has_nonempty_archive wid sid w = (w, inl (has sid)).

Definition downloadable (db : Db) (sid : Z) (sn : WorkspaceSnapshot) : Prop :=
  snapshots db !! sid = Some sn ∧ snap_workspace_id sn = wid ∧
  snap_status sn = WorkspaceSnapshotStatus.AVAILABLE ∧ has sid = true.

Lemma wp_answer sid (Q : bool → St W → Prop) X s : Q (has sid) s →
  wp (call_storage (ss_has_nonempty_archive wid sid)) Q X s.
Proof. intros HQ. unfold wp, call_storage. rewrite storage_answers. by destruct s. Qed.

(** The first row that can be downloaded, and none before it can. *)
Lemma wp_first_archived rows (Q : option (Z * WorkspaceSnapshot) → St W → Prop) X s :
  (∀ l sid sn r, rows = l ++ (sid, sn) :: r → snap_status sn = WorkspaceSnapshotStatus.AVAILABLE → has sid = true →
     (∀ x, x ∈ l → snap_status x.2 = WorkspaceSnapshotStatus.AVAILABLE → has x.1 = false) →
     Q (Some (sid, sn)) s) →
  ((∀ x, x ∈ rows → snap_status x.2 = WorkspaceSnapshotStatus.AVAILABLE → has x.1 = false) → Q None s) →
  wp (first_archived wid rows) Q X s.
Proof.
  revert Q. induction rows as [|[sid sn] rows IH]; intros Q HS HN; simpl.
  { apply wp_ret, HN. intros x H. by apply elem_of_nil in H. }
  assert (Hskip : (snap_status sn = WorkspaceSnapshotStatus.AVAILABLE → has sid = false) → wp (first_archived wid rows) Q X s).
  { intros Hno. apply IH.
    - intros l sid' sn' r -> Ha Hh Hl. apply (HS ((sid, sn) :: l) sid' sn' r); [done..|].
      intros x [->|Hx]%elem_of_cons; [done|by apply Hl].
    - intros Hall. apply HN. intros x [->|Hx]%elem_of_cons; [done|by apply Hall]. }
  case_bool_decide as Hst; cbn [negb]; [|by apply Hskip].
  apply wp_bind, wp_answer. destruct (has sid) eqn:Eh; [|by apply Hskip].
  apply wp_ret, (HS [] sid sn rows); [done..|]. intros x H. by apply elem_of_nil in H.
Qed.

Lemma snapshots_by_age_in db sid sn : (sid, sn) ∈ snapshots_by_age wid db ↔
  snapshots db !! sid = Some sn ∧ snap_workspace_id sn = wid.
Proof.
  unfold snapshots_by_age. rewrite sort_by_perm, list_elem_of_In, filter_In, <- list_elem_of_In, elem_of_map_to_list.
  simpl. by rewrite Z.eqb_eq.
Qed.
Lemma snapshots_by_age_sorted db l x r y : snapshots_by_age wid db = l ++ x :: r → y ∈ x :: r →
  snap_created_at y.2 ≤ snap_created_at x.2.
Proof.
  intros He Hy. pose proof (sort_by_sorted (λ a b : Z * WorkspaceSnapshot, snap_created_at b.2 <=? snap_created_at a.2)
    (List.filter (λ ks : Z * WorkspaceSnapshot, snap_workspace_id ks.2 =? wid) (map_to_list (snapshots db)))) as Hs.
  fold (snapshots_by_age wid db) in Hs. rewrite He in Hs.
  assert (Hx : StronglySorted (λ a b : Z * WorkspaceSnapshot, snap_created_at b.2 <=? snap_created_at a.2) (x :: r)).
  { clear He Hy. revert Hs. intros Hs. specialize (Hs ltac:(intros a b; lia) ltac:(intros a b c; rewrite !Is_true_true; lia)).
    induction l as [|z l IH]; [done|]. inversion Hs; auto. }
  apply elem_of_cons in Hy as [->|Hy]; [lia|]. inversion Hx as [|? ? _ Hall]; subst.
  rewrite Forall_forall in Hall. specialize (Hall y Hy). apply Is_true_true in Hall. simpl in Hall. lia.
Qed.

(** Which archive a download without a snapshot id gets: when the storage answers,
    and answers the same, the newest AVAILABLE snapshot of the owner's workspace whose
    archive it has; and the request fails for an owner only when there is none.  No row
    and nothing outside changes. *)
Lemma download_offers_newest_archive s :
  let '(s', res) := resolve_owned_snapshot_archive_for_download wid owner None s in
  s' = s ∧
  match res with
  | inl (wid', sid) => wid' = wid ∧
      (∃ w, workspaces (st_db s) !! wid = Some w ∧ ws_owner_user_id w = owner) ∧
      ∃ sn, downloadable (st_db s) sid sn ∧
        ∀ sid' sn', downloadable (st_db s) sid' sn' → snap_created_at sn' ≤ snap_created_at sn
  | inr _ => ∀ w, workspaces (st_db s) !! wid = Some w → ws_owner_user_id w = owner →
      ∀ sid sn, ¬ downloadable (st_db s) sid sn
  end.
Proof.
  destruct (resolve_owned_snapshot_archive_for_download wid owner None s) as [s' res] eqn:E.
  eapply (wp_run _ (λ r s', s' = s ∧ r.1 = wid ∧
      (∃ w, workspaces (st_db s) !! wid = Some w ∧ ws_owner_user_id w = owner) ∧
      ∃ sn, downloadable (st_db s) r.2 sn ∧
        ∀ sid' sn', downloadable (st_db s) sid' sn' → snap_created_at sn' ≤ snap_created_at sn)
    (λ _ s', s' = s ∧ ∀ w, workspaces (st_db s) !! wid = Some w → ws_owner_user_id w = owner →
      ∀ sid sn, ¬ downloadable (st_db s) sid sn)) in E; [by destruct res as [[? ?]|?]|].
  unfold resolve_owned_snapshot_archive_for_download, list_snapshots.
  apply wp_bind, wp_assert_owner.
  { intros e Hno. split; [done|]. intros w Hw Ho. by destruct (Hno w). }
  intros w Hw Ho. apply wp_bind, wp_bind, wp_bind, wp_assert_owner; [intros e Hno; by destruct (Hno w)|].
  intros _ _ _. apply wp_query, wp_bind, wp_first_archived.
  - intros l sid sn r Hl Hst Hh Hbefore. apply wp_ret. rewrite bool_decide_eq_true_2 by done. cbn [negb].
    assert (Hin : (sid, sn) ∈ snapshots_by_age wid (st_db s)).
    { rewrite Hl. apply elem_of_app. right. by left. }
    apply snapshots_by_age_in in Hin as [Hsn Hwid]. rewrite Hwid.
    apply wp_bind, wp_answer. rewrite Hh. cbn [negb]. apply wp_ret. split_and!; [done|done|by exists w|].
    exists sn. split; [done|]. intros sid' sn' (Hs' & Hw' & Ha' & Hh').
    assert (Hin' : (sid', sn') ∈ snapshots_by_age wid (st_db s)) by (by apply snapshots_by_age_in).
    rewrite Hl in Hin'. apply elem_of_app in Hin' as [Hin'|Hin'].
    + pose proof (Hbefore _ Hin' Ha') as Hf. simpl in Hf. congruence.
    + by apply (snapshots_by_age_sorted _ _ _ _ (sid', sn') Hl).
  - intros Hnone. apply wp_raise. split; [done|]. intros _ _ _ sid sn (Hs & Hws & Ha & Hh).
    specialize (Hnone (sid, sn) ltac:(by apply snapshots_by_age_in) Ha). simpl in Hnone. congruence.
Qed.
End downloads.
End properties.
