(* ===== verification/System.v ===== *)
(** * System: requests, workers and the reclaim together

    The control plane as a transition system over committed database states: every
    step is one whole transaction of the modelled code, run at an arbitrary clock
    and configuration against arbitrary collaborators.  Invariants are proved by
    induction on the steps. *)

From S2P Require Import Prelude Models Session Services Frames FailureHandling.
From S2P Require Import Sessions Scheduling Placement Cleanup Gateway WorkerRows.
From S2P Require Import Finalizers SnapshotJobs Reconcile Worker Settlement.
From S2P Require Import Execution Queue Quota Policy HostFiles Intents.
From S2P Require Import Secrets Creation.

Section system.
Context {W : Type} {routes : RouteAdmin W} {lock : ReconcileLock W}
  {storage : SnapshotStorage W} {git : GitExecutor W} {fs : HostFilesystem W}
  {uuids : Uuids W} {crypto : TokenCrypto W}.

(** A request starts in a fresh session. *)
Definition fresh_session (s : St W) : Prop := st_db s = st_committed s.

(** The requests of one user for one workspace. *)
Inductive lifecycle_call {env : Env} (wid owner user : Z) (cid : string)
  : M W WorkspaceIntentResult → Prop :=
| call_start : lifecycle_call wid owner user cid (request_start_workspace wid owner user cid)
| call_stop : lifecycle_call wid owner user cid (request_stop_workspace wid owner user cid)
| call_restart : lifecycle_call wid owner user cid (request_restart_workspace wid owner user cid)
| call_delete : lifecycle_call wid owner user cid (request_delete_workspace wid owner user cid)
| call_update runtime :
    lifecycle_call wid owner user cid (request_update_workspace wid owner user runtime cid).

(** One transaction. *)
Inductive step : Db → Db → Prop :=
| step_request (env : Env) wid owner user cid m (s : St W) :
    fresh_session s → lifecycle_call wid owner user cid m →
    step (st_committed s) (st_committed (m s).1)
| step_create (env : Env) owner body cid (s : St W) :
    fresh_session s → step (st_committed s) (st_committed (create_workspace owner body cid s).1)
| step_create_pinned (env : Env) owner nid runtime cid (s : St W) :
    fresh_session s →
    step (st_committed s) (st_committed (create_operator_pinned_test_workspace owner nid runtime cid s).1)
| step_worker (env : Env) (source : OrchestratorSource W) (autoscaler : Autoscaler W) locked (s : St W) :
    step (st_committed s)
         (st_committed (in_transaction (process_next_queued_job_return_id locked) s).1)
| step_worker_by_id (env : Env) (source : OrchestratorSource W) (autoscaler : Autoscaler W)
    locked jid (s : St W) :
    step (st_committed s) (st_committed (run_queued_workspace_job_by_id locked jid s).1)
| step_reclaim (env : Env) (s : St W) :
    step (st_committed s) (st_committed (reclaim_stuck_running_jobs s).1).

(** *** What a step does, by the components' specifications *)

(** A request that was accepted, a workspace that was created, one job that settled or was aborted after it was
    found eligible, or a reclaim; or nothing that concerns jobs and statuses. *)
Inductive step_effect (db db' : Db) : Prop :=
| effect_none :
    jobs db' = jobs db →
    (∀ k, ws_status <$> workspaces db' !! k = ws_status <$> workspaces db !! k) → step_effect db db'
| effect_request (env : Env) wid w new jt user v cid jid :
    workspaces db !! wid = Some w → busy_status (ws_status w) = false → busy_status new = true →
    is_lifecycle_job jt = true → jobs db !! jid = None →
    jobs db' = <[jid := new_job wid jt user v cid]> (jobs db) →
    workspaces db' = <[wid := with_status new w]> (workspaces db) → step_effect db db'
| effect_created (env : Env) wid w user cid jid :
    workspaces db !! wid = None → busy_status (ws_status w) = true → jobs db !! jid = None →
    jobs db' = <[jid := new_job wid WorkspaceJobType.CREATE user 1 cid]> (jobs db) →
    workspaces db' = <[wid := w]> (workspaces db) → step_effect db db'
| effect_settled (env : Env) jid j :
    jobs db !! jid = Some j → job_status j = WorkspaceJobStatus.QUEUED → job_settled jid j db db' →
    step_effect db db'
| effect_aborted (env : Env) jid j :
    jobs db !! jid = Some j → job_status j = WorkspaceJobStatus.QUEUED → job_aborted jid j db db' →
    step_effect db db'
| effect_reclaim (env : Env) stuck :
    (∀ k, k ∈ stuck → ∃ j, jobs db !! k = Some j ∧ job_status j = WorkspaceJobStatus.RUNNING) →
    reclaimed_jobs stuck db db' → reclaimed_status stuck db db' → step_effect db db'.

Lemma eligible_queued {env : Env} j : queued_job_eligible env_now j = true →
  job_status j = WorkspaceJobStatus.QUEUED.
Proof. unfold queued_job_eligible. intros [H%bool_decide_eq_true _]%andb_prop. done. Qed.

Lemma request_effect (env : Env) wid owner user allowed new jt cid m (s : St W) :
  fresh_session s → lifecycle_request wid owner user allowed new jt cid m →
  busy_status new = true → is_lifecycle_job jt = true →
  step_effect (st_committed s) (st_committed (m s).1).
Proof.
  intros Hs Hm Hn Hjt. specialize (Hm s). unfold wp in Hm. unfold fresh_session in Hs.
  destruct (m s) as [s' [r|e]]; cbn.
  - destruct Hm as (w & Hw & _ & _ & Hb & [(<- & _ & <-) Hf Hj Hws _ ->]).
    rewrite <- Hs. by eapply effect_request.
  - destruct Hm as (Hj & Hws & _ & [-> | ->]); [by apply effect_none|].
    rewrite <- Hs. apply effect_none; [done|]. by rewrite Hws.
Qed.

Lemma creation_effect (env : Env) owner body st node reason cid r (s s' : St W) :
  fresh_session s → busy_status st = true → creation owner body st node reason cid r s s' →
  step_effect (st_committed s) (st_committed s').
Proof.
  intros Hs Hb [(w & [Hnew (slug & u & _ & Hw)] & Hws) _ Hf Hj _ _ _ ->]. rewrite <- Hs.
  apply (effect_created _ _ env (cr_workspace_id r) w owner cid (cr_job_id r)); try done.
  rewrite Hw. by destruct (public_identity_slug (users (st_db s) !! owner) (cr_workspace_id r)
    (new_workspace owner body slug (uuid4_hex u).2 st node reason)) as (_ & -> & _).
Qed.
Lemma creation_refused_effect owner body ok {env : Env} (s s' : St W) :
  fresh_session s → creation_refused owner body ok s s' → step_effect (st_committed s) (st_committed s').
Proof.
  intros Hs [[_ (a & Hdb & -> & _)]|(_ & _ & ->)]; [|by apply effect_none]. rewrite Hdb, Hs. by apply effect_none.
Qed.

Lemma step_has_effect db db' : jobs_reference_workspaces db → step db db' → step_effect db db'.
Proof.
  intros Hfk Hstep. destruct Hstep as [env wid owner user cid m s Hs Hm|env owner body cid s Hs
    |env owner nid runtime cid s Hs|env source autoscaler locked s
    |env source autoscaler locked jid s|env s].
  - destruct Hm.
    + by eapply request_effect; [|apply start_request_spec| |].
    + by eapply request_effect; [|apply stop_request_spec| |].
    + by eapply request_effect; [|apply restart_request_spec| |].
    + by eapply request_effect; [|apply delete_request_spec| |].
    + by eapply request_effect; [|apply update_request_spec| |].
  - pose proof (create_spec owner body cid s) as H. unfold wp in H.
    destruct (create_workspace owner body cid s) as [s' [r|e]]; [|exact (creation_refused_effect _ _ _ _ _ Hs H)].
    destruct H as (_ & _ & H). eapply creation_effect; [exact Hs| |exact H]. done.
  - pose proof (create_pinned_spec owner nid runtime cid s) as H. unfold wp in H.
    destruct (create_operator_pinned_test_workspace owner nid runtime cid s) as [s' [r|e]].
    + destruct H as (_ & body & _ & _ & H & _). eapply creation_effect; [exact Hs| |exact H]. done.
    + destruct H as [[_ ->]|(_ & body & _ & H)]; [by apply effect_none|exact (creation_refused_effect _ _ _ _ _ Hs H)].
  - assert (H : wp (in_transaction (process_next_queued_job_return_id locked))
      (λ _ s', step_effect (st_committed s) (st_committed s'))
      (λ _ s', step_effect (st_committed s) (st_committed s')) s).
    { apply wp_next_job; [done| | |].
      - intros s' _ -> _. by apply effect_none.
      - intros jid j s' [Hj He _ _] _ Hs. eapply effect_settled; [done|by eapply eligible_queued|done].
      - intros e jid j s' [Hj He _ _] _ Hs. eapply effect_aborted; [done|by eapply eligible_queued|done]. }
    unfold wp in H. by destruct (in_transaction _ s) as [s' [r|e]].
  - assert (H : wp (run_queued_workspace_job_by_id locked jid)
      (λ _ s', step_effect (st_committed s) (st_committed s'))
      (λ _ s', step_effect (st_committed s) (st_committed s')) s).
    { apply wp_run_by_id; [done| | |].
      - intros s' _ ->. by apply effect_none.
      - intros j s' Hj He _ Hs. eapply effect_settled; [done|by eapply eligible_queued|done].
      - intros e j s' Hj He Hs. eapply effect_aborted; [done|by eapply eligible_queued|done]. }
    unfold wp in H. by destruct (run_queued_workspace_job_by_id locked jid s) as [s' [r|e]].
  - assert (H : wp reclaim_stuck_running_jobs
      (λ _ s', step_effect (st_committed s) (st_committed s')) (λ _ _, False) s).
    { apply wp_reclaim_stuck. cbv zeta. intros s' Hj Hst. eapply effect_reclaim; [|exact Hj|exact Hst].
      intros k Hk. destruct (_ <=? _); [by apply not_elem_of_nil in Hk|].
      apply stuck_jobs_rows in Hk as (j & Hk & [Hr%bool_decide_eq_true _]%andb_prop). by exists j. }
    unfold wp in H. by destruct (reclaim_stuck_running_jobs s) as [s' [r|e]].
Qed.

(** *** Referential integrity *)

Lemma status_exists (db db' : Db) k :
  ws_status <$> workspaces db' !! k = ws_status <$> workspaces db !! k →
  is_Some (workspaces db !! k) → is_Some (workspaces db' !! k).
Proof. intros He Hs. by rewrite <- (fmap_is_Some ws_status), He, fmap_is_Some. Qed.

Lemma insert_keeps {A} (m : gmap Z A) i x k : is_Some (m !! k) → is_Some (<[i := x]> m !! k).
Proof. rewrite lookup_insert_is_Some'. by right. Qed.

(** Workspaces stay, and every job row names the workspace of a row before. *)
Lemma references_step db db' :
  (∀ k, is_Some (workspaces db !! k) → is_Some (workspaces db' !! k)) →
  (∀ k j', jobs db' !! k = Some j' → is_Some (workspaces db' !! job_workspace_id j') ∨
     ∃ j, jobs db !! k = Some j ∧ job_workspace_id j' = job_workspace_id j) →
  jobs_reference_workspaces db → jobs_reference_workspaces db'.
Proof.
  intros Hw Hj Hfk k j' Hk. destruct (Hj k j' Hk) as [H|(j & Hk' & ->)]; [done|].
  by apply Hw, (Hfk k).
Qed.

Lemma effect_references db db' :
  step_effect db db' → jobs_reference_workspaces db → jobs_reference_workspaces db'.
Proof.
  intros [Hj Hs|env wid w new jt user v cid jid Hw _ _ _ _ Hj Hws
    |env wid w user cid jid _ _ _ Hj Hws|env jid j Hj _ Hs|env jid j Hj _
    [Hjs Hst Ho _]|env stuck Hr Hj Hst] Hfk; [| | |by eapply settled_references| |]; revert Hfk;
    apply references_step.
  - intros k. by apply status_exists.
  - intros k j'. rewrite Hj. eauto.
  - intros k. rewrite Hws. by apply insert_keeps.
  - intros k j' Hk. rewrite Hj in Hk. apply lookup_insert_Some in Hk as [[<- <-]|[_ Hk]]; [left|by eauto].
    rewrite Hws. cbn. rewrite lookup_insert_eq. by eexists.
  - intros k. rewrite Hws. by apply insert_keeps.
  - intros k j' Hk. rewrite Hj in Hk. apply lookup_insert_Some in Hk as [[<- <-]|[_ Hk]]; [left|by eauto].
    rewrite Hws. cbn. rewrite lookup_insert_eq. by eexists.
  - intros k Hk. destruct (decide (k = job_workspace_id j)) as [->|Hne]; [|by eapply status_exists; [apply Ho|]].
    destruct Hk as [w Hw]. destruct (Hst (ws_status w)) as (st' & Hw' & _); [by rewrite Hw|].
    rewrite <- (fmap_is_Some ws_status), Hw'. by eexists.
  - intros k j' Hk. right. destruct Hjs as [Hjs|Hjs]; rewrite Hjs in Hk; [by eauto|].
    apply lookup_insert_Some in Hk as [[<- <-]|[_ Hk]]; [|by eauto]. by exists j.
  - intros k Hk. destruct (Hst k) as [He|(He & _ & _)]; [by eapply status_exists|].
    rewrite <- (fmap_is_Some ws_status), He. by eexists.
  - intros k j' Hk. right. rewrite Hj in Hk. case_bool_decide; [|by eauto].
    destruct (jobs db !! k) as [j|]; [|done]. injection Hk as <-. exists j. split; [done|].
    unfold reclaimed. by destruct (_ <=? _).
Qed.

(** *** Mutual exclusion *)

Definition outstanding (j : WorkspaceJob) : bool :=
  match job_status j with
  | WorkspaceJobStatus.QUEUED | WorkspaceJobStatus.RUNNING => true
  | _ => false
  end.

(** Only lifecycle jobs are outstanding, at most one per workspace, and its
    workspace is in a busy status. *)
Record exclusive (db : Db) : Prop := mkExclusive {
  ex_lifecycle : ∀ k j, jobs db !! k = Some j → outstanding j = true →
    is_lifecycle_job (job_type j) = true;
  ex_unique : ∀ k k' j j', jobs db !! k = Some j → jobs db !! k' = Some j' →
    outstanding j = true → outstanding j' = true →
    job_workspace_id j = job_workspace_id j' → k = k';
  ex_busy : ∀ k j, jobs db !! k = Some j → outstanding j = true →
    ∃ st, ws_status <$> workspaces db !! job_workspace_id j = Some st ∧ busy_status st = true
}.

(** A step that creates no outstanding job preserves it if the workspaces of the
    outstanding jobs stay busy. *)
Lemma exclusive_step db db' :
  (∀ k j', jobs db' !! k = Some j' → outstanding j' = true →
     ∃ j, jobs db !! k = Some j ∧ outstanding j = true ∧
          job_workspace_id j' = job_workspace_id j ∧ job_type j' = job_type j ∧
          (∀ st, ws_status <$> workspaces db !! job_workspace_id j = Some st → busy_status st = true →
             ∃ st', ws_status <$> workspaces db' !! job_workspace_id j = Some st' ∧ busy_status st' = true)) →
  exclusive db → exclusive db'.
Proof.
  intros H [E1 E2 E3]. split.
  - intros k j' Hk Ho. destruct (H k j' Hk Ho) as (j & Hj & Hoj & _ & -> & _). by eapply E1.
  - intros k k' j' j2' Hk Hk' Ho Ho' Hw.
    destruct (H k j' Hk Ho) as (j & Hj & Hoj & Hwj & _), (H k' j2' Hk' Ho') as (j2 & Hj2 & Hoj2 & Hwj2 & _).
    eapply (E2 k k' j j2); [done..|congruence].
  - intros k j' Hk Ho. destruct (H k j' Hk Ho) as (j & Hj & Hoj & -> & _ & Hb).
    destruct (E3 k j Hj Hoj) as (st & Hst & Hbs). by apply (Hb st).
Qed.

Lemma begun_busy jt st st' : begun_status jt st st' → busy_status st = true → busy_status st' = true.
Proof. by intros [->|(_ & -> & ->)]. Qed.

(** The busy status of a workspace no step touched. *)
Lemma busy_kept (db db' : Db) k st :
  ws_status <$> workspaces db' !! k = ws_status <$> workspaces db !! k →
  ws_status <$> workspaces db !! k = Some st → busy_status st = true →
  ∃ st', ws_status <$> workspaces db' !! k = Some st' ∧ busy_status st' = true.
Proof. intros -> H1 H2. by exists st. Qed.

(** A job queued for a workspace without outstanding jobs, made busy or busy from the
    start. *)
Lemma queued_exclusive (env : Env) db db' wid w jt user v cid jid :
  (∀ k j, jobs db !! k = Some j → outstanding j = true → job_workspace_id j ≠ wid) →
  busy_status (ws_status w) = true → is_lifecycle_job jt = true → jobs db !! jid = None →
  jobs db' = <[jid := new_job wid jt user v cid]> (jobs db) →
  workspaces db' = <[wid := w]> (workspaces db) → exclusive db → exclusive db'.
Proof.
  intros Hother Hb Hjt Hf Hj Hws [E1 E2 E3]. split.
  - intros k j Hk Ho. rewrite Hj in Hk. apply lookup_insert_Some in Hk as [[_ <-]|[_ Hk]]; [done|].
    by eapply E1.
  - intros k k' j j' Hk Hk' Ho Ho' Heq. rewrite Hj in Hk, Hk'.
    apply lookup_insert_Some in Hk as [[<- <-]|[_ Hk]], Hk' as [[<- <-]|[_ Hk']]; [done| | |by eapply E2].
    + by destruct (Hother k' j').
    + by destruct (Hother k j).
  - intros k j Hk Ho. rewrite Hj in Hk. rewrite Hws.
    apply lookup_insert_Some in Hk as [[<- <-]|[_ Hk]].
    + exists (ws_status w). cbn. by rewrite lookup_insert_eq.
    + rewrite lookup_insert_ne by (intros Heq; by apply (Hother k j Hk Ho)). by eapply E3.
Qed.
Lemma request_exclusive (env : Env) db db' wid w new jt user v cid jid :
  workspaces db !! wid = Some w → busy_status (ws_status w) = false → busy_status new = true →
  is_lifecycle_job jt = true → jobs db !! jid = None →
  jobs db' = <[jid := new_job wid jt user v cid]> (jobs db) →
  workspaces db' = <[wid := with_status new w]> (workspaces db) → exclusive db → exclusive db'.
Proof.
  intros Hw Hnb Hb Hjt Hf Hj Hws Hex. apply (queued_exclusive env db db' wid (with_status new w) jt user v cid jid); [|by destruct w|done..].
  intros k j Hk Ho Heq. destruct (ex_busy _ Hex k j Hk Ho) as (st & Hst & Hbs).
  rewrite Heq, Hw in Hst. injection Hst as <-. congruence.
Qed.

Lemma settled_exclusive (env : Env) db db' jid j :
  jobs db !! jid = Some j → job_status j = WorkspaceJobStatus.QUEUED → job_settled jid j db db' →
  exclusive db → exclusive db'.
Proof.
  intros Hj Hq (st & Hst & st1 & Hst1 & [(j' & H1 & [(Hw & Hjt & _) Hout] & st' & H3 & Haft) H4 _]) Hex.
  assert (Hoj : outstanding j = true) by (unfold outstanding; by rewrite Hq).
  apply (exclusive_step db); [|done]. intros k r Hk Ho. rewrite H1 in Hk.
  apply lookup_insert_Some in Hk as [[<- <-]|[Hne Hk]].
  - exists j. do 4 (split; [done|]). intros st0 Hst0 Hb. exists st'. split; [done|].
    assert (st0 = st) as -> by congruence. unfold outstanding in Ho.
    destruct (job_status j'); try done. cbn in Haft. destruct Haft as [->| ->]; [|done].
    by eapply begun_busy.
  - exists r. do 4 (split; [done|]). intros st0 Hst0 Hb. eapply busy_kept; [apply H4|done|done].
    intros Heq. apply Hne. by eapply (ex_unique db Hex jid k j r).
Qed.

Lemma aborted_exclusive (env : Env) db db' jid j :
  jobs db !! jid = Some j → job_status j = WorkspaceJobStatus.QUEUED → job_aborted jid j db db' →
  exclusive db → exclusive db'.
Proof.
  intros Hj Hq [Hjs Hst Ho _] Hex.
  assert (Hoj : outstanding j = true) by (unfold outstanding; by rewrite Hq).
  assert (Hb : ∀ k st, ws_status <$> workspaces db !! k = Some st → busy_status st = true →
    ∃ st', ws_status <$> workspaces db' !! k = Some st' ∧ busy_status st' = true).
  { intros k st H1 H2. destruct (decide (k = job_workspace_id j)) as [->|Hne].
    - destruct (Hst st H1) as (st' & H3 & H4). exists st'. split; [done|by eapply begun_busy].
    - eapply busy_kept; [by apply Ho|done|done]. }
  apply (exclusive_step db); [|done]. intros k r Hk Hor.
  destruct Hjs as [Hjs|Hjs]; rewrite Hjs in Hk; [by eauto 8|].
  apply lookup_insert_Some in Hk as [[<- <-]|[_ Hk]]; [|by eauto 8].
  exists j. do 4 (split; [done|]). apply Hb.
Qed.

Lemma reclaim_exclusive (env : Env) db db' stuck :
  (∀ k, k ∈ stuck → ∃ j, jobs db !! k = Some j ∧ job_status j = WorkspaceJobStatus.RUNNING) →
  reclaimed_jobs stuck db db' → reclaimed_status stuck db db' → exclusive db → exclusive db'.
Proof.
  intros Hr Hj Hst Hex.
  apply (exclusive_step db); [|done]. intros k r Hk Hor. rewrite Hj in Hk.
  assert (∃ j, jobs db !! k = Some j ∧ outstanding j = true ∧ job_workspace_id r = job_workspace_id j ∧
    job_type r = job_type j ∧ (k ∈ stuck → job_attempt j < effective_max_attempts j))
    as (j & Hkj & Ho & Hw & Ht & Hb).
  { case_bool_decide as Hin; [|by exists r; split_and!].
    destruct (Hr k Hin) as (j & Hkj & Hrun). rewrite Hkj in Hk. injection Hk as <-. exists j.
    unfold reclaimed, outstanding in *. rewrite Hrun.
    destruct (Z.leb_spec (effective_max_attempts j) (job_attempt j)); [done|]. by split_and!. }
  exists j. do 4 (split; [done|]). intros st H1 H2.
  destruct (Hst (job_workspace_id j)) as [He|(_ & _ & jid & j2 & Hin & Hj2 & Hw2 & Hmax)];
    [by eapply busy_kept|].
  destruct (Hr jid Hin) as (j2' & Hj2' & Hrun). assert (j2' = j2) as -> by congruence.
  assert (jid = k) as -> by (eapply (ex_unique db Hex jid k j2 j); unfold outstanding; by rewrite ?Hrun).
  assert (j2 = j) as -> by congruence. specialize (Hb Hin). lia.
Qed.

Lemma effect_exclusive db db' : step_effect db db' → exclusive db → exclusive db'.
Proof.
  intros [Hj Hs|env wid w new jt user v cid jid Hw Hnb Hb Hjt Hf Hj Hws
    |env wid w user cid jid Hnew Hb Hf Hj Hws|env jid j Hj Hq Hs
    |env jid j Hj Hq Hs|env stuck Hr Hj Hst].
  - apply exclusive_step. intros k j' Hk Ho. rewrite Hj in Hk. exists j'. do 4 (split; [done|]).
    intros st. by apply busy_kept.
  - by eapply request_exclusive.
  - intros Hex. apply (queued_exclusive env db db' wid w WorkspaceJobType.CREATE user 1 cid jid); [|done..]. intros k j Hk Ho Heq.
    destruct (ex_busy _ Hex k j Hk Ho) as (st & Hst & _). by rewrite Heq, Hnew in Hst.
  - by eapply settled_exclusive.
  - by eapply aborted_exclusive.
  - by eapply reclaim_exclusive.
Qed.

(** *** Theorems *)

(** C1. Mutual exclusion: whatever sequence of creations, lifecycle requests, worker
    passes (those that raise included) and reclaims runs, under whatever clocks,
    settings and collaborators, a workspace never has two outstanding lifecycle
    jobs, and it is in a busy status as long as it has one, so that further
    requests are refused. *)
Theorem lifecycle_jobs_exclude_each_other (db db' : Db) (Hreach : rtc step db db')
    (Hfk : jobs_reference_workspaces db) (Hex : exclusive db) :
  jobs_reference_workspaces db' ∧ exclusive db'.
Proof.
  induction Hreach as [db|db db1 db2 Hstep _ IH]; [done|].
  pose proof (step_has_effect _ _ Hfk Hstep) as He.
  apply IH; [by eapply effect_references|by eapply effect_exclusive].
Qed.
End system.
