(* ===== verification/SnapshotSystem.v ===== *)
(** * SnapshotSystem: snapshot and reconcile requests among the steps

    The transition system of [System] with the requests that work beside the life
    cycle: snapshots and reconciliation. *)

From S2P Require Import Prelude Models Session Services Frames FailureHandling.
From S2P Require Import Sessions Scheduling Placement Cleanup Gateway WorkerRows.
From S2P Require Import Finalizers SnapshotJobs Reconcile Worker Settlement.
From S2P Require Import Execution Queue Quota Policy HostFiles Intents.
From S2P Require Import Secrets Creation Snapshots System.

Section system.
Context {W : Type} {routes : RouteAdmin W} {lock : ReconcileLock W}
  {storage : SnapshotStorage W} {git : GitExecutor W} {fs : HostFilesystem W}
  {uuids : Uuids W} {crypto : TokenCrypto W}.

(** One transaction, of any of the requests or of a worker. *)
Inductive wide_step : Db → Db → Prop :=
| wide_lifecycle db db' : step (W := W) db db' → wide_step db db'
| wide_create (env : Env) wid owner name desc cid (s : St W) : fresh_session s →
    wide_step (st_committed s) (st_committed (create_snapshot wid owner name desc cid s).1)
| wide_restore (env : Env) sid owner cid (s : St W) : fresh_session s →
    wide_step (st_committed s) (st_committed (restore_snapshot sid owner cid s).1)
| wide_delete (env : Env) sid owner (s : St W) : fresh_session s →
    wide_step (st_committed s) (st_committed (delete_snapshot sid owner s).1)
| wide_reconcile (env : Env) wid cid (s : St W) : fresh_session s →
    wide_step (st_committed s) (st_committed (enqueue_reconcile_runtime_job wid cid s).1).

(** A snapshot job in flight. *)
Definition snapshot_in_flight (j : WorkspaceJob) : bool :=
  job_in_flight j && snapshot_job_type (job_type j).

(** At most one per workspace. *)
Definition one_snapshot_job (db : Db) : Prop := ∀ k k' j j',
  jobs db !! k = Some j → jobs db !! k' = Some j' →
  snapshot_in_flight j = true → snapshot_in_flight j' = true →
  job_workspace_id j = job_workspace_id j' → k = k'.

(** A step keeps it if every such job afterwards was one before. *)
Lemma one_snapshot_step db db' :
  (∀ k j', jobs db' !! k = Some j' → snapshot_in_flight j' = true →
     ∃ j, jobs db !! k = Some j ∧ snapshot_in_flight j = true ∧ job_workspace_id j' = job_workspace_id j) →
  one_snapshot_job db → one_snapshot_job db'.
Proof.
  intros H Hone k k' j j' Hk Hk' Ho Ho' Hw.
  destruct (H k j Hk Ho) as (i & Hi & Hoi & Hwi), (H k' j' Hk' Ho') as (i' & Hi' & Hoi' & Hwi').
  eapply (Hone k k' i i'); [done..|congruence].
Qed.

(** *** The steps of the life cycle *)

Lemma kept_in_flight (env : Env) db db' jid j j' :
  jobs db !! jid = Some j → job_status j = WorkspaceJobStatus.QUEUED →
  job_workspace_id j' = job_workspace_id j → job_type j' = job_type j →
  jobs db' = <[jid := j']> (jobs db) → one_snapshot_job db → one_snapshot_job db'.
Proof.
  intros Hj Hq Hw Ht Hjs. apply one_snapshot_step. intros k r Hk Ho. rewrite Hjs in Hk.
  apply lookup_insert_Some in Hk as [[<- <-]|[_ Hk]]; [|by exists r].
  exists j. split; [done|]. split; [|done]. unfold snapshot_in_flight, job_in_flight in *.
  rewrite Hq, <- Ht, bool_decide_eq_true_2 by (by left). by apply andb_true_iff in Ho as [_ ->].
Qed.

Lemma effect_snapshots (db db' : Db) : step_effect db db' → one_snapshot_job db → one_snapshot_job db'.
Proof.
  intros [Hj _|env wid w new jt user v cid jid _ _ _ Hjt _ Hj _|env wid w user cid jid _ _ _ Hj _|env jid j Hj Hq Hs|env jid j Hj Hq [Hjs _ _ _]
    |env stuck Hr Hj _].
  - intros Hone k k'. rewrite Hj. apply Hone.
  - apply one_snapshot_step. intros k r Hk Ho. rewrite Hj in Hk.
    apply lookup_insert_Some in Hk as [[<- <-]|[_ Hk]]; [|by exists r].
    unfold snapshot_in_flight, snapshot_job_type in Ho. cbn in Ho. by destruct jt.
  - apply one_snapshot_step. intros k r Hk Ho. rewrite Hj in Hk.
    apply lookup_insert_Some in Hk as [[<- <-]|[_ Hk]]; [done|by exists r].
  - destruct Hs as (st & _ & st1 & _ & [(j' & H1 & [(Hw & Hjt & _) _] & _) _ _]).
    intros Hone. exact (kept_in_flight env db db' jid j j' Hj Hq Hw Hjt H1 Hone).
  - destruct Hjs as [Hjs|Hjs]; [|intros Hone; exact (kept_in_flight env db db' jid j (running_job j) Hj Hq eq_refl eq_refl Hjs Hone)].
    intros Hone k k'. rewrite Hjs. apply Hone.
  - apply one_snapshot_step. intros k r Hk Ho. rewrite Hj in Hk. case_bool_decide as Hin; [|by exists r].
    destruct (Hr k Hin) as (j & Hkj & Hrun). rewrite Hkj in Hk. injection Hk as <-. exists j. split; [done|].
    unfold snapshot_in_flight, job_in_flight in *. rewrite Hrun, bool_decide_eq_true_2 by (by right).
    unfold reclaimed in *. destruct (_ <=? _); (split; [|done]); cbn in Ho; by apply andb_true_iff in Ho as [_ ->].
Qed.

(** *** The other requests *)

(** What such a request commits, if anything: one job at most, for a workspace that
    exists, and a snapshot job only if none is in flight. *)
Inductive request_commits (db db' : Db) : Prop :=
| commits_no_job : jobs db' = jobs db → workspaces db' = workspaces db → request_commits db db'
| commits_job jid j : jobs db' = <[jid := j]> (jobs db) → workspaces db' = workspaces db →
    is_Some (workspaces db !! job_workspace_id j) →
    (snapshot_in_flight j = true → snapshot_job_free (job_workspace_id j) db) → request_commits db db'.

Lemma refused_commits (s s' : St W) : fresh_session s → refused s s' → request_commits (st_committed s) (st_committed s').
Proof.
  intros Hs (Hj & Hw & _ & [-> | ->]); [by apply commits_no_job|]. rewrite <- Hs. by apply commits_no_job.
Qed.
Lemma accepted_commits (env : Env) wid sid jt owner cid jid (s s' : St W) : fresh_session s →
  snapshot_accepted wid sid jt owner cid jid s s' → request_commits (st_committed s) (st_committed s').
Proof.
  intros Hs [(w & Hw & _) Hfree _ Hj Hws ->]. rewrite <- Hs. eapply commits_job; [exact Hj|done| |done].
  by exists w.
Qed.

Lemma wide_request db db' : wide_step db db' → step (W := W) db db' ∨ request_commits db db'.
Proof.
  intros [? ? Hstep|env wid owner name desc cid s Hs|env sid owner cid s Hs|env sid owner s Hs|env wid cid s Hs];
    [by left|right..].
  - pose proof (create_request_spec wid owner name desc cid s) as H. unfold wp in H.
    destruct (create_snapshot _ _ _ _ _ s) as [s' [r|e]]; [|by destruct H; apply refused_commits].
    destruct H as (_ & H & _). by eapply accepted_commits.
  - pose proof (restore_request_spec sid owner cid s) as H. unfold wp in H.
    destruct (restore_snapshot _ _ _ s) as [s' [r|e]]; [|by destruct H; apply refused_commits].
    destruct H as (sn & w & _ & _ & _ & _ & _ & _ & _ & H & _). by eapply accepted_commits.
  - pose proof (delete_snapshot_request_spec sid owner s) as H. unfold wp in H.
    destruct (delete_snapshot _ _ s) as [s' [r|e]].
    2: { destruct H as [[H _]|(_ & [_ Hc] & _)]; [by apply refused_commits|cbn; rewrite Hc; by apply commits_no_job]. }
    destruct H as (sn & w & _ & _ & _ & _ & _ & _ & Hj & Hw & Hc). cbn. rewrite Hc, <- Hs. by apply commits_no_job.
  - pose proof (reconcile_request_spec wid cid s) as H. unfold wp in H.
    destruct (enqueue_reconcile_runtime_job _ _ s) as [s' [r|e]]; [|by apply refused_commits].
    destruct H as (w & Hw & _ & _ & _ & Hj & Hws & Hc & _). cbn. rewrite Hc, <- Hs.
    eapply commits_job; [exact Hj|done|by exists w|done].
Qed.

Lemma commits_references db db' : request_commits db db' → jobs_reference_workspaces db → jobs_reference_workspaces db'.
Proof.
  intros [Hj Hw|jid j Hj Hw Hex _] Hfk k r; rewrite Hj, Hw; [apply Hfk|].
  intros [[<- <-]|[_ Hk]]%lookup_insert_Some; [done|by eapply Hfk].
Qed.
Lemma commits_snapshots db db' : request_commits db db' → one_snapshot_job db → one_snapshot_job db'.
Proof.
  intros [Hj Hw|jid j Hj Hw Hex Hfree] Hone k k' r r'; rewrite Hj; [apply Hone|].
  assert (Hother : ∀ i q, jobs db !! i = Some q → snapshot_in_flight q = true → snapshot_in_flight j = true →
    job_workspace_id q ≠ job_workspace_id j).
  { intros i q Hi Hq Hjf Heq. unfold snapshot_in_flight in Hq. apply andb_true_iff in Hq as [H1 H2].
    rewrite (Hfree Hjf i q Hi Heq H1) in H2. done. }
  intros [[<- <-]|[_ Hk]]%lookup_insert_Some [[<- <-]|[_ Hk']]%lookup_insert_Some; [done| | |by eapply Hone].
  - intros H1 H2 Hw'. by destruct (Hother k' r').
  - intros H1 H2 Hw'. by destruct (Hother k r).
Qed.

(** Snapshot jobs exclude each other: whatever sequence of creations,
    lifecycle, snapshot and reconcile requests, worker passes (those that raise included) and reclaims runs, a
    workspace never has two snapshot jobs queued or running. *)
Lemma snapshot_jobs_exclude_each_other (db db' : Db) (Hreach : rtc wide_step db db')
    (Hfk : jobs_reference_workspaces db) (Hone : one_snapshot_job db) :
  jobs_reference_workspaces db' ∧ one_snapshot_job db'.
Proof.
  induction Hreach as [db|db db1 db2 Hstep _ IH]; [done|].
  destruct (wide_request _ _ Hstep) as [Hl|Hr].
  - pose proof (step_has_effect _ _ Hfk Hl). apply IH; [by eapply effect_references|by eapply effect_snapshots].
  - apply IH; [by eapply commits_references|by eapply commits_snapshots].
Qed.
End system.
