(* ===== verification/Scenarios.v ===== *)
(** * Scenarios: the control plane run on concrete rows

    A small database, settings and collaborators that answer (two kinds: ones for
    which everything succeeds, and an orchestrator that raises), used to evaluate
    the modelled code, and the traces that show what it does in situations the
    invariants of [System] leave out. *)

From S2P Require Import Prelude Models Session Services Frames FailureHandling.
From S2P Require Import Sessions Scheduling Placement Cleanup Gateway WorkerRows.
From S2P Require Import Finalizers SnapshotJobs Reconcile Worker Settlement Queue.
From S2P Require Import Quota Policy HostFiles Intents System Binding.
From S2P Require Import Routing Secrets.

(** ** Settings and collaborators *)

Definition demo_settings : Settings :=
  {| cfg_workspace_job_max_attempts := 3; cfg_workspace_job_retry_backoff_seconds := 10;
     cfg_workspace_job_stuck_timeout_seconds := 300;
     cfg_workspace_capacity_retry_timeout_seconds := 900;
     cfg_workspace_capacity_retry_backoff_seconds := 20; cfg_workspace_session_ttl_seconds := 3600;
     cfg_reconcile_lease_ttl_seconds := 120; cfg_gateway_enabled := true;
     cfg_base_domain := "app.devnest.local"; cfg_required_cpu := cores 1;
     cfg_required_memory_mb := 512; cfg_required_disk_mb := 4096; cfg_required_slots := 1;
     cfg_node_provider := "all"; cfg_enable_multi_node_scheduling := true;
     cfg_require_fresh_node_heartbeat := false; cfg_node_heartbeat_max_age_seconds := 300;
     cfg_node_resource_monitor_enabled := false; cfg_node_resource_check_interval_seconds := 60;
     cfg_node_min_free_disk_mb := 0; cfg_node_min_free_memory_mb := 0;
     cfg_devnest_env := "production"; cfg_allow_runtime_env_fallback := false;
     cfg_topology_janitor_enabled := false; cfg_allow_pinned_create_placement := false;
     cfg_pinned_create_execution_node_ids := []; cfg_env_topology_id := 1;
     cfg_env_node_key := "node-1"; cfg_aws_region := "us-east-1";
     cfg_workspace_domain_mode := "legacy"; cfg_tenant_subdomain_routing_enabled := false;
     cfg_workspace_projects_root := ""; cfg_execution_mode := "";
     cfg_public_base_domain := None; cfg_public_scheme := ""; cfg_public_port := 0;
     cfg_gateway_public_scheme := "http"; cfg_gateway_public_port := 0; cfg_gateway_auth_enabled := true;
     cfg_gateway_traefik_http_probe_base := ""; cfg_node_heartbeat_enabled := false;
     cfg_worker_emit_execution_node_heartbeat := true; cfg_worker_heartbeat_internal_api_base_url := "";
     cfg_autoscaler := mkAutoscalerSettings true false true 1 10 1 3 300 900 60 2 300 300;
     cfg_ec2 := mkEc2Settings "ubuntu" "ssm_docker" "ami-1" "t3.medium" "subnet-1" "sg-1" "profile" "" false (inl None)
                  "http://backend:8000" "" "" "key" "" "/srv/projects" 30 true true "" "devnest" "" (inl []) "" true |}.

(** The process at second [t]; the jitter is always the least. *)
Program Definition env_at (t : Z) : Env :=
  {| env_now := seconds t; env_settings := demo_settings; env_randint := λ lo _, lo |}.
Next Obligation. intros t lo hi. simpl. lia. Qed.

(** The outside world is the list of the routes registered with the gateway. *)
Definition World : Type := list RouteRow.

#[export] Instance demo_routes : RouteAdmin World :=
  {| ra_post_route p w := (mkRouteRow (rp_workspace_id p) (Some (rp_target p)) (Some (rp_public_host p))
                             (rp_path_prefix p) :: w, inl tt);
     ra_delete_route wid w := (List.filter (λ r, negb (String.eqb (route_workspace_id r) wid)) w, inl tt);
     ra_get_routes w := (w, inl w) |}.
#[export] Instance demo_lock : ReconcileLock World :=
  {| rl_try_acquire _ w := (w, true); rl_release _ w := w |}.
#[export] Instance demo_storage : SnapshotStorage World :=
  {| ss_remote := false; ss_archive_path _ _ := "/snapshots/a.tar.gz"; ss_storage_uri _ _ := "file:///snapshots/a.tar.gz";
     ss_has_nonempty_archive _ _ w := (w, inl true);
     ss_presign _ _ _ _ w := (w, inl "https://s3/a"%string); ss_upload_archive _ _ w := (w, inl tt);
     ss_download_archive _ _ w := (w, inl tt); ss_delete_archive _ _ w := (w, inl tt);
     ss_export_via_ssm _ _ _ _ _ w := (w, inl (true, Some 1, None)) |}.
#[export] Instance demo_git : GitExecutor World :=
  {| git_provider_token _ _ w := (w, inl None); git_clone _ _ _ _ _ _ w := (w, inl (true, ""%string)) |}.
#[export] Instance demo_fs : HostFilesystem World :=
  {| fs_is_dir _ _ := false; fs_list_dir _ _ := []; fs_nonempty_file _ _ := true |}.
#[export] Instance demo_uuids : Uuids World :=
  {| uuid4_hex w := (w, "6f1e2d3c4b5a49788796a5b4c3d2e1f0"%string) |}.
(** A cipher that only marks the text. *)
#[export] Program Instance demo_crypto : TokenCrypto World :=
  {| encrypt_token w plain := (w, ("sealed:" ++ plain)%string); decrypt_token := after_literal "sealed:" |}.
Next Obligation. intros w plain. by destruct plain. Qed.

Definition answer {R} (r : R) : Call World R := λ w, (w, false, inl r).
Definition fail {R} (e : Exn) : Call World R := λ w, (w, false, inr e).

Definition good_bringup : WorkspaceBringUpResult :=
  mkWorkspaceBringUpResult "1" true (Some "node-1") (Some "1") (Some "c1") (Some "running") None (Some "10.0.0.5")
    (Some "10.0.0.5:8080") (Some "10.0.0.5:8080") (Some true) None false None None
    (Some (cores 1)) (Some 512) (Some 256) None.

(** Every operation succeeds. *)
Definition good_orchestrator : Orchestrator World :=
  mkOrchestrator World (Some "node-1"%string)
    (λ _ _ _ _ _ _ _, answer good_bringup)
    (λ _ _ _, answer (mkWorkspaceStopResult "1"%string true (Some "c1"%string) (Some "exited"%string) (Some true) None))
    (λ _ _, answer (mkWorkspaceDeleteResult "1"%string true (Some true) (Some true) None (Some "c1"%string) None))
    (λ _ _ _ _, answer (mkWorkspaceRestartResult "1"%string true (Some true) (Some true) (Some "c1"%string)
       (Some "running"%string) (Some "node-1"%string) (Some "1"%string) (Some "10.0.0.5"%string) (Some "10.0.0.5:8080"%string) (Some "10.0.0.5:8080"%string)
       (Some true) None None None None None))
    (λ _ _ _ v, answer (mkWorkspaceUpdateResult "1"%string true 0 v (Some "restart"%string) false (Some true) (Some true)
       (Some "c1"%string) (Some "running"%string) (Some "node-1"%string) (Some "1"%string) (Some "10.0.0.5"%string) (Some "10.0.0.5:8080"%string) (Some "10.0.0.5:8080"%string)
       (Some true) None None None None None))
    (λ _ _, answer good_bringup)
    (λ _ _ _ _, answer (mkWorkspaceSnapshotOperationResult "1"%string true (Some 1024) None))
    (λ _ _ _, answer (mkWorkspaceSnapshotOperationResult "1"%string true None None))
    (answer tt).

(** Stopping raises a transport error outside the orchestrator's own classes. *)
Definition crashing_orchestrator : Orchestrator World :=
  mkOrchestrator World (Some "node-1"%string)
    (λ _ _ _ _ _ _ _, answer good_bringup) (λ _ _ _, fail (OtherException "connection reset"))
    (λ _ _, fail (OtherException "connection reset")) (λ _ _ _ _, fail (OtherException "connection reset"))
    (λ _ _ _ _, fail (OtherException "connection reset")) (λ _ _, answer good_bringup)
    (λ _ _ _ _, fail (OtherException "connection reset")) (λ _ _ _, fail (OtherException "connection reset"))
    (answer tt).

Program Definition source_of (o : Orchestrator World) : OrchestratorSource World :=
  {| get_orchestrator _ _ := mret o; build_default_orchestrator _ _ := mret o |}.
Next Obligation. intros o wid jt. apply quietly_within, quietly_ret. Qed.
Next Obligation. intros o key tid. apply quietly_within, quietly_ret. Qed.

(** Every engine answers, and the orchestrator of a bundle succeeds. *)
#[export] Instance demo_hosts : ExecutionHosts World :=
  {| eh_local_docker w := (w, inl tt); eh_ssh_docker _ w := (w, inl tt); eh_ssm_ping _ _ w := (w, inl tt) |}.
Definition bound_orchestrator (node_id : string) : Orchestrator World :=
  mkOrchestrator World (Some node_id)
    (oc_bring_up good_orchestrator) (oc_stop good_orchestrator) (oc_delete good_orchestrator)
    (oc_restart good_orchestrator) (oc_update good_orchestrator) (oc_check_health good_orchestrator)
    (oc_export_snapshot good_orchestrator) (oc_import_snapshot good_orchestrator)
    (oc_run_topology_janitor good_orchestrator).
#[export] Instance demo_factory : OrchestratorFactory World :=
  {| default_orchestrator _ node_id _ := bound_orchestrator node_id;
     default_orchestrator_node _ _ _ := eq_refl |}.

#[export] Program Instance demo_autoscaler : Autoscaler World :=
  {| maybe_provision_on_no_schedulable_capacity := mret tt |}.
Next Obligation. apply quietly_within, quietly_ret. Qed.

(** ** Rows *)

Definition demo_workspace (st : workspace_status) : Workspace :=
  mkWorkspace (Some 1) None "demo" "demo" 7 st None None None None None None 0 true 0 0 None None.

Definition demo_node : ExecutionNode :=
  mkExecutionNode "node-1" ExecutionNodeProviderType.LOCAL None None (Some "10.0.0.5"%string)
    ExecutionNodeExecutionMode.LOCAL_DOCKER ExecutionNodeStatus.READY true (cores 4) 8192 102400 32
    (Some 1) None None None 0 None None None None None None None 22 0 empty_metadata.

Definition demo_runtime : WorkspaceRuntime :=
  mkWorkspaceRuntime (Some "node-1"%string) (Some "c1"%string) (Some "running"%string) (Some 1)
    (Some "10.0.0.5:8080"%string) (Some "10.0.0.5:8080"%string) (Some 1)
    WorkspaceRuntimeHealthStatus.HEALTHY (cores 1) 512 4096 (Some (cores 1)) (Some 512) (Some 256) None
    None 0.

Definition demo_job (jt : workspace_job_type) (st : workspace_job_status) (attempt : Z)
    (started : option time) : WorkspaceJob :=
  mkWorkspaceJob 1 None jt st 7 1 attempt None 0 started None None 2 None None None.

(** One workspace of user 7 in status [st], with the given jobs. *)
Definition demo_db (st : workspace_status) (js : gmap Z WorkspaceJob) : Db :=
  mkDb {[1 := demo_workspace st]} js {[1 := demo_runtime]}
    [mkWorkspaceConfig 1 1 (mkRuntimeConfig None None None)] {[1 := demo_node]} ∅ ∅ ∅ ∅ ∅ {[1]}
    [] [] [] [] [] ∅ ∅.

Definition demo_state (db : Db) : St World := mkSt db db [].

Definition statuses (db : Db) : list workspace_status := ws_status <$> (map_to_list (workspaces db)).*2.
Definition job_states (db : Db) : list (Z * workspace_job_type * workspace_job_status) :=
  (λ kj : Z * WorkspaceJob, (kj.1, job_type kj.2, job_status kj.2)) <$> map_to_list (jobs db).

(** ** Traces *)

(** A stop request, carried out. *)
Example stop_is_carried_out :
  let s1 := (request_stop_workspace (env := env_at 10) 1 7 7 "c"
               (demo_state (demo_db WorkspaceStatus.RUNNING ∅))).1 in
  let s2 := (in_transaction (process_next_queued_job_return_id (env := env_at 20)
               (source := source_of good_orchestrator) (λ _, false)) s1).1 in
  statuses (st_committed s1) = [WorkspaceStatus.STOPPING] ∧
  statuses (st_committed s2) = [WorkspaceStatus.STOPPED] ∧
  job_states (st_committed s2) = [(1, WorkspaceJobType.STOP, WorkspaceJobStatus.SUCCEEDED)].
Proof. vm_compute. done. Qed.

(** A reconcile request on a running workspace, a stop request, one worker pass
    and a start request. *)
Definition reconcile_race : St World :=
  let s1 := (enqueue_reconcile_runtime_job (env := env_at 10) 1 "a"
               (demo_state (demo_db WorkspaceStatus.RUNNING ∅))).1 in
  let s2 := (request_stop_workspace (env := env_at 20) 1 7 7 "b" s1).1 in
  let s3 := (in_transaction (process_next_queued_job_return_id (env := env_at 30)
               (source := source_of good_orchestrator) (λ _, false)) s2).1 in
  (request_start_workspace (env := env_at 40) 1 7 7 "c" s3).1.

(** Reconcile jobs break the mutual exclusion: the reconcile job queued before
    a stop request finds the workspace busy, fails it into ERROR while the stop
    job is still queued, and a start request is then accepted, so that a STOP and
    a START job of the same workspace are both queued. *)
Lemma reconcile_breaks_exclusion :
  exclusive (st_committed (demo_state (demo_db WorkspaceStatus.RUNNING ∅))) ∧
  job_states (st_committed reconcile_race) =
    [(3, WorkspaceJobType.START, WorkspaceJobStatus.QUEUED);
     (2, WorkspaceJobType.STOP, WorkspaceJobStatus.QUEUED);
     (1, WorkspaceJobType.RECONCILE_RUNTIME, WorkspaceJobStatus.FAILED)] ∧
  ¬ exclusive (st_committed reconcile_race).
Proof.
  split; [by split|]. split; [vm_compute; reflexivity|]. intros [_ Hu _].
  assert (H : ∀ k, k = 2 ∨ k = 3 → ∃ j, jobs (st_committed reconcile_race) !! k = Some j ∧
    outstanding j = true ∧ job_workspace_id j = 1).
  { intros k [->| ->]; eexists; (split; [vm_compute; reflexivity|split; reflexivity]). }
  destruct (H 2 (or_introl eq_refl)) as (j & Hj & Ho & Hw),
    (H 3 (or_intror eq_refl)) as (j' & Hj' & Ho' & Hw').
  by assert (2 = 3) by (eapply Hu; [done..|congruence]).
Qed.

(** A repository import without a pending repository row, queued before a stop job. *)
Definition import_first : Db :=
  demo_db WorkspaceStatus.STOPPING
    (<[1 := demo_job WorkspaceJobType.REPO_IMPORT WorkspaceJobStatus.QUEUED 0 None]>
     {[2 := (demo_job WorkspaceJobType.STOP WorkspaceJobStatus.QUEUED 0 None)
            <| job_created_at := seconds 5 |>]}).

(** An exception ends a sequence. *)
Lemma bind_raise {A B} (m : M World A) (k : A → M World B) s s' e :
  m s = (s', inr e) → (m ≫= k) s = (s', inr e).
Proof. unfold mbind, eff_bind. by intros ->. Qed.

(** A failing repository import stops the worker: reporting the failure itself
    raises [AttributeError], so the tick ends with an exception, the import is
    rolled back to QUEUED with its attempt uncounted, and the stop job behind it is
    not reached; the next tick starts from the same committed state. *)
Lemma failing_import_blocks_the_queue (t limit : Z) :
  let '(s', r) := run_pending_jobs (env := env_at t) (source := source_of good_orchestrator)
                    (λ _, false) limit (demo_state import_first) in
  r = inr (AttributeError "ORCHESTRATION") ∧ st_committed s' = import_first.
Proof.
  unfold run_pending_jobs. destruct (Z.to_nat (Z.max 1 limit)) as [|n] eqn:E; [lia|]. clear E.
  assert (H : in_transaction (process_next_queued_job_return_id (env := env_at t)
     (source := source_of good_orchestrator) (λ _, false)) (demo_state import_first)
     = (demo_state import_first, inr (AttributeError "ORCHESTRATION"))) by (vm_compute; reflexivity).
  erewrite bind_raise; [|cbn [run_jobs]; by apply bind_raise]. done.
Qed.
