(* ===== verification/EdgeScenarios.v ===== *)
(** * EdgeScenarios: the control plane's edge on concrete rows

    Witnesses for the properties of creation, addresses, attaching and of the
    gateway's authorisation of requests. *)

From S2P Require Import Prelude PyValues Models Session Services Sessions Gateway.
From S2P Require Import Routing Cleanup.
From S2P Require Import GatewayAuth Quota Policy Runtime HostFiles Intents.
From S2P Require Import RouteAdminApp Secrets Creation Access Scenarios.

(** ** A tenant deployment *)

Program Definition tenant_env : Env :=
  {| env_now := seconds 1000;
     env_settings := demo_settings <| cfg_workspace_domain_mode := "tenant"%string |>
                       <| cfg_public_base_domain := Some "devnest.example"%string |>;
     env_randint := λ lo _, lo |}.
Next Obligation. intros lo hi. simpl. lia. Qed.
#[export] Instance demo_tokens : TokenHash := λ t, ("h:" ++ t)%string.

(** A clock that stands still, and an edge that answers at once. *)
#[export] Instance demo_clock : Clock World := {| clock_monotonic _ := 0; clock_sleep _ w := w |}.
#[export] Instance demo_edge : EdgeProbe World := {| edge_get _ _ w := (w, Some 200) |}.

Section edge.
#[local] Existing Instance tenant_env.

Definition alice : UserAuth := mkUserAuth "alice" (Some "alice"%string).
(** The slug the allocator gives a user named [ws-1]. *)
Definition mallory : UserAuth := mkUserAuth "ws-1" (allocate_unique_route_subdomain_slug "ws-1" ∅).

Definition blog (owner : Z) : Workspace :=
  (demo_workspace WorkspaceStatus.RUNNING) <| ws_owner_user_id := owner |> <| ws_url_slug := "blog"%string |>.
Definition edge_session (wid : Z) (token : string) : WorkspaceSession :=
  mkWorkspaceSession wid 7 WorkspaceSessionStatus.ACTIVE (hash_workspace_session_token token) 0 (seconds 2000) 0 0.
Definition edge_sessions : gmap Z WorkspaceSession := {[1 := edge_session 1 "tok"%string]}.

Definition edge_db : Db :=
  (demo_db WorkspaceStatus.RUNNING ∅)
    <| users := {[7 := alice; 9 := mallory]} |>
    <| workspaces := {[1 := public_identity (Some alice) 1 (blog 7); 3 := public_identity (Some mallory) 3 (blog 9)]} |>
    <| sessions := edge_sessions |> <| sessions_sql := edge_sessions |>.

Definition edge_request (host uri token : string) : ForwardAuthRequest :=
  mkForwardAuthRequest (Some host) None (Some uri) "/internal/gateway/auth" (Some token) None.

Lemma edge_domains : normal_domains.
Proof. split; (split; [done|]); by apply forallb_chars. Qed.

Ltac each_row H :=
  apply lookup_insert_Some in H as [[<- <-]|[_ [<- <-]%lookup_singleton_Some]].

Lemma edge_slugs : distinct_slugs edge_db.
Proof.
  split; intros i j a b.
  - intros sub Hi Hj. change (users edge_db) with ({[7 := alice; 9 := mallory]} : gmap Z UserAuth) in *. each_row Hi; each_row Hj; try done; intros H1 H2; vm_compute in H1, H2; congruence.
  - intros Hi Hj. change (workspaces edge_db) with
      ({[1 := public_identity (Some alice) 1 (blog 7); 3 := public_identity (Some mallory) 3 (blog 9)]} : gmap Z Workspace) in *.
    each_row Hi; each_row Hj; try done; intros H1; by vm_compute in H1.
Qed.

Lemma alice_addressable : addressable edge_db 1 (public_identity (Some alice) 1 (blog 7)) alice.
Proof.
  split; try (by vm_compute); try done.
  - by apply forallb_chars.
  - intros sub H. injection H as <-. split; [by apply forallb_chars|done].
Qed.

Lemma stripped_header h host p : Py.strip h = h → h = (host ++ p)%string → port_suffix p → host_header h host.
Proof. split; eauto. Qed.

(** Alice's blog, asked for with its token. *)
Lemma gateway_auth_guards_routed_workspace_witness :
  let r := edge_request "alice.devnest.example:8443" "/workspaces/blog/?folder=/src" "tok" in
  gateway_forward_auth r edge_db = Allowed ↔
    Py.truthy (presented_token r) = true ∧ live_session edge_db 1 (presented_token r) ∧
    ws_status (public_identity (Some alice) 1 (blog 7)) = WorkspaceStatus.RUNNING.
Proof.
  intros r. apply (gateway_auth_guards_routed_workspace edge_db 1 (public_identity (Some alice) 1 (blog 7)) alice r);
    [reflexivity|apply edge_domains|apply edge_slugs|apply alice_addressable|].
  split.
  - intros host H. vm_compute in H. injection H as <-.
    by apply (stripped_header _ _ ":8443"); [..|right; eexists].
  - intros prefix H. vm_compute in H. injection H as <-. exists "/?folder=/src"%string.
    split; [reflexivity|right; eauto].
Defined.

Example alice_opens_her_blog :
  gateway_forward_auth (edge_request "alice.devnest.example:8443" "/workspaces/blog/?folder=/src" "tok") edge_db = Allowed.
Proof. vm_compute. reflexivity. Qed.

(** Mallory's blog opens with the token of workspace 1, which is Alice's. *)
Lemma numbered_subdomain_is_another_workspace_witness :
  let r := edge_request "ws-1.devnest.example" "/workspaces/blog" "tok" in
  gateway_forward_auth r edge_db = Allowed ∧
  (gateway_forward_auth r edge_db = Allowed ↔
    Py.truthy (presented_token r) = true ∧ live_session edge_db 1 (presented_token r) ∧
    ws_status <$> workspaces edge_db !! 1 = Some WorkspaceStatus.RUNNING).
Proof.
  intros r. split; [vm_compute; reflexivity|].
  apply (numbered_subdomain_is_another_workspace edge_db 3 1 (public_identity (Some mallory) 3 (blog 9)) mallory r);
    try reflexivity; try done; [apply edge_domains|].
  split.
  - intros host H. vm_compute in H. injection H as <-. apply (stripped_header _ _ ""); [reflexivity|reflexivity|by left].
  - intros prefix H. vm_compute in H. injection H as <-. exists ""%string. split; [reflexivity|by left].
Defined.

(** ** Creating and opening *)

Definition edge_state : St World := mkSt edge_db edge_db [].
Definition notes : CreateWorkspaceRequest :=
  mkCreateWorkspaceRequest "Blog" true (mkWorkspaceRuntimeSpec None None None None) (Some ("openai", " sk-1 ")%string).

Lemma edge_slugs_ok : slugs_ok edge_db.
Proof.
  split; [apply edge_slugs|]. intros k w H. change (workspaces edge_db) with
    ({[1 := public_identity (Some alice) 1 (blog 7); 3 := public_identity (Some mallory) 3 (blog 9)]} : gmap Z Workspace) in H.
  each_row H; by apply forallb_chars.
Qed.

(** A second workspace called Blog: its slug is blog-2, and the slugs stay distinct. *)
Lemma created_workspace_is_addressable_witness :
  let s' := (create_workspace 7 notes "c" edge_state).1 in
  ws_url_slug <$> workspaces (st_committed s') !! 4 = Some "blog-2"%string ∧ slugs_ok (st_committed s').
Proof.
  split; [vm_compute; reflexivity|].
  assert (Hhex : ∀ w : World, is_slug (uuid4_hex w).2) by (intros w; by apply forallb_chars).
  pose proof (created_workspace_is_addressable 7 notes "c" alice edge_state Hhex eq_refl edge_slugs_ok eq_refl eq_refl) as H.
  unfold wp in H. destruct (create_workspace 7 notes "c" edge_state) as [s' [r|e]]; cbn.
  - apply H. intros sub [= <-]. split; [by apply forallb_chars|done].
  - apply H. intros sub [= <-]. split; [by apply forallb_chars|done].
Defined.

Lemma stored_secret_is_injected_witness :
  let s' := (upsert_workspace_ai_secret 1 7 "OpenAI" " sk-1 " edge_state).1 in
  secret_env 1 (st_db s') = inl {["OPENAI_API_KEY"%string := "sk-1"%string]} ∧ secrets_ok (st_db s').
Proof.
  split; [vm_compute; reflexivity|].
  assert (Hok : secrets_ok (st_db edge_state)) by (split; intros i; [intros j r r'|intros r]; by vm_compute).
  pose proof (stored_secret_is_injected 1 7 "OpenAI" " sk-1 " edge_state Hok) as H.
  unfold wp in H.
  assert (Hrun : match (upsert_workspace_ai_secret 1 7 "OpenAI" " sk-1 " edge_state).2 with inl _ => true | inr _ => false end = true)
    by (vm_compute; reflexivity).
  destruct (upsert_workspace_ai_secret 1 7 "OpenAI" " sk-1 " edge_state) as [s' [r|e]]; [|discriminate Hrun].
  by destruct H as (_ & _ & ? & _).
Defined.

(** Traefik's PathPrefix compares characters: while blog-2 has no route, requests for it go to
    the container of blog, after forward authorisation has asked for a session of blog-2. *)
Example longer_name_matches_the_prefix :
  let s' := (create_workspace 7 notes "c" edge_state).1 in
  Py.startswith "/workspaces/blog" "/workspaces/blog-2/" = true ∧
  resolve_workspace_id_from_gateway_request "alice.devnest.example" "/workspaces/blog-2/" (st_committed s') = Some 4.
Proof. vm_compute. by split. Qed.

Definition letters (n : nat) : string := string_of_list_ascii (repeat "a"%char n).
(** A name of 130 letters has a slug of 128; the second workspace of that name would have
    one of 130, and is refused by the database. *)
Example second_long_name_is_refused :
  let body := mkCreateWorkspaceRequest (letters 130) true (mkWorkspaceRuntimeSpec None None None None) None in
  let '(s1, r1) := create_workspace 7 body "c" edge_state in
  let '(s2, r2) := create_workspace 7 body "d" s1 in
  cr_workspace_id <$> (match r1 with inl r => Some r | inr _ => None end) = Some 4 ∧
  r2 = inr (DataError "value too long for type character varying") ∧ st_committed s2 = st_committed s1.
Proof. vm_compute. by split_and!. Qed.
(** A key may have 8192 characters, and so may its encrypted text, which is longer. *)
Example long_key_is_refused :
  (upsert_workspace_ai_secret 1 7 "openai" (letters (Z.to_nat 8190)) edge_state).2 =
  inr (DataError "value too long for type character varying(8192)").
Proof. vm_compute. reflexivity. Qed.

(** Alice attaches to her blog and opens it with the token she got. *)
Lemma attached_user_is_let_in_witness :
  let s' := (request_attach_workspace 1 7 "fresh" "c" edge_state).1 in
  gateway_forward_auth (edge_request "alice.devnest.example" "/workspaces/blog" "fresh") (st_committed s') = Allowed.
Proof.
  pose proof (attached_user_is_let_in 1 7 "fresh" "c" edge_state eq_refl) as H. unfold wp in H.
  assert (Hok : match (request_attach_workspace 1 7 "fresh" "c" edge_state).2 with inl _ => true | inr _ => false end = true)
    by (vm_compute; reflexivity).
  destruct (request_attach_workspace 1 7 "fresh" "c" edge_state) as [s' [r|e]]; [clear Hok|discriminate Hok].
  destruct H as (w & rt & [Hw _ _ _ _] & _ & _ & _ & H).
  change (gateway_forward_auth (edge_request "alice.devnest.example" "/workspaces/blog" "fresh") (st_committed s') = Allowed).
  pose proof (ad_row _ _ _ _ alice_addressable) as Ha.
  assert (Ew : w = public_identity (Some alice) 1 (blog 7)).
  { change (workspaces edge_db !! 1 = Some w) in Hw. rewrite Ha in Hw. exact (eq_sym (f_equal (default w) Hw)). }
  subst w. apply (H alice); [reflexivity|apply edge_domains|apply edge_slugs|apply alice_addressable| | |reflexivity..].
  - intros k ss Hk. change (({[1 := edge_session 1 "tok"%string]} : gmap Z WorkspaceSession) !! k = Some ss) in Hk.
    apply lookup_singleton_Some in Hk as [<- <-]. by vm_compute.
  - split.
    + intros host Hh. vm_compute in Hh. injection Hh as <-. apply (stripped_header _ _ ""); [reflexivity|reflexivity|by left].
    + intros prefix Hh. vm_compute in Hh. injection Hh as <-. exists ""%string. split; [reflexivity|by left].
Defined.
End edge.

(** ** Route-admin over a file in memory *)

Section route_admin.

#[local] Instance demo_repr : PyRepr := λ _, "[]"%string.
#[local] Instance demo_file : RoutesFile (option PyValue) :=
  {| rf_load d := d; rf_store doc _ := (Some doc, inl tt) |}.
#[local] Instance demo_file_laws : RoutesFileLaws (option PyValue).
Proof. split; [by intros doc d d' _ [= <-]|done]. Qed.
#[local] Instance guarded_edge : RouteAdminEnv :=
  {| DEVNEST_GATEWAY_AUTH_ENABLED := Some " True"%string; DEVNEST_TLS_ENABLED := None;
     DEVNEST_GATEWAY_PUBLIC_SCHEME := Some "https"%string; DEVNEST_BASE_DOMAIN := Some "devnest.example"%string |}.

Definition route_body (wid : string) : RoutePayload :=
  mkRoutePayload wid "alice.devnest.example" "http://10.0.0.5:32768" (Some "/workspaces/blog"%string) None None.
Definition empty_app : App (option PyValue) := mkApp ∅ None.
Definition register_one : AppRequest := Register (route_body "1").

Lemma register_one_from_control_plane : control_plane_request register_one.
Proof.
  exists 1, "10.0.0.5:32768"%string, "alice.devnest.example"%string, (Some "/workspaces/blog"%string), None, None.
  split; [lia|]. split; [by vm_compute|]. split; by repeat constructor.
Qed.

Lemma registrations_survive_restart_witness :
  let a' := serve_all empty_app [Deregister "7"; register_one] in
  app_restart a' = a' ∧
  gateway_route_needs_repair (route_row_for_workspace (listed_row <$> app_list_routes (app_restart a')) 1)
    (Some "10.0.0.5:32768"%string) (Some "alice.devnest.example"%string) (Some "/workspaces/blog"%string) = false.
Proof.
  intros a'. destruct (registrations_survive_restart [Deregister "7"] register_one None a') as [H1 H2].
  - by repeat constructor.
  - apply register_one_from_control_plane.
  - by vm_compute.
  - split; [exact H1|].
    apply (H2 1 _ _ _ None None (route_body "1")); [reflexivity|lia|by vm_compute|by repeat constructor..].
Defined.

(** Both routers of the workspace check the session: the HTTPS one and its mirror. *)
Lemma every_router_checks_the_session_witness :
  let a' := serve_all empty_app [register_one] in
  let doc := default PNone (rf_load (app_disk a')) in
  omap fst (document_part "routers" doc) = ["devnest-reg-1"; "devnest-reg-1-http"]%string ∧
  ∀ n v, (Some n, v) ∈ document_part "routers" doc →
  ∃ rdef rest, v = PDict rdef ∧
    dict_get "middlewares" rdef = Some (PList (PStr WORKSPACE_AUTH_MIDDLEWARE :: rest)).
Proof.
  split; [by vm_compute|]. intros n v Hin.
  destruct (every_router_checks_the_session empty_app (serve_all empty_app [register_one]) register_one
              (default PNone (rf_load (app_disk (serve_all empty_app [register_one])))) n v)
    as (wid & row & rdef & rest & _ & Hv & Hm & _); [by vm_compute..|exact Hin|].
  exists rdef, rest. exact (conj Hv Hm).
Defined.

(** Workspace ids that are not numbers: the router of [1-http] takes the place of the
    HTTP mirror of [1]; without HTTPS it is taken for that mirror, and a restart
    forgets it. *)
Example mirror_name_clash :
  let mirror app := dict_get "devnest-reg-1-http" (document_part "routers" (default PNone (rf_load (app_disk app)))) in
  mirror (serve_all empty_app [register_one; Register (route_body "1-http")]) ≠ mirror (serve_all empty_app [register_one]).
Proof. by vm_compute. Qed.
Definition plain_edge : RouteAdminEnv :=
  {| DEVNEST_GATEWAY_AUTH_ENABLED := None; DEVNEST_TLS_ENABLED := None;
     DEVNEST_GATEWAY_PUBLIC_SCHEME := None; DEVNEST_BASE_DOMAIN := None |}.
Example mirror_name_is_lost :
  let a := serve_all (renv := plain_edge) empty_app [Register (route_body "1-http")] in
  (reg_workspace_id <$> app_list_routes a) = ["1-http"]%string ∧ app_list_routes (app_restart a) = [].
Proof. vm_compute. done. Qed.

(** A blank host passes validation, and its route is lost on a restart. *)
Example blank_host_is_lost :
  let body := mkRoutePayload "1" " " "http://10.0.0.5:32768" None None None in
  let '(a, res) := serve empty_app (Register body) in
  res = inl tt ∧ length (app_list_routes a) = 1%nat ∧ app_list_routes (app_restart a) = [].
Proof. vm_compute. done. Qed.
End route_admin.
