(* ===== verification/TopologyScenarios.v ===== *)
(** * TopologyScenarios: the topology adapter on concrete tables

    A quiet database ([demo_shared]), hosts whose commands succeed or cannot be
    started, and runs of the adapter on them: what the code does where its parts do
    not fit together, and the instances of the topology theorems. *)

From S2P Require Import Prelude Models Ipaddress TopologyModels LinuxNet TopologyPlan.
From S2P Require Import Topology TopologyLeases TopologySubnets TopologyRepair TopologyAttach.
From S2P Require Import Scenarios.

(** ** Demo instances *)

#[local] Instance demo_env : Env := env_at 1000.

#[export] Program Instance demo_shared : SharedTables unit :=
  {| sh_commit w := (w, λ t, t, None) |}.
Next Obligation. done. Qed.
Next Obligation. intros [] t. split_and!; intros k a a' H H'; simpl in *; congruence. Qed.

Lemma demo_calm : calm (shared := demo_shared).
Proof. done. Qed.

(** No command touches the host; a process of the host cannot be started. *)
#[local] Instance demo_host : HostNetwork unit :=
  {| hn_run _ w := (w, Completed 0 "" ""); hn_linux := true; hn_pid_visible _ _ := true;
     hn_sidecar_netns _ := false; hn_via_host_nsenter := None |}.
Definition broken_host : HostNetwork unit :=
  {| hn_run _ w := (w, SpawnFailed "[Errno 2] No such file or directory: 'ip'"); hn_linux := true;
     hn_pid_visible _ _ := true; hn_sidecar_netns _ := false; hn_via_host_nsenter := None |}.

(** The database alone, and with the Linux attachments. *)
#[local] Instance db_only : AdapterConfig unit :=
  {| ac_apply_linux_bridge := false; ac_apply_linux_attachment := false; ac_pid_resolver := None; ac_docker_cli := false |}.
Definition linux_attach : AdapterConfig unit :=
  {| ac_apply_linux_bridge := false; ac_apply_linux_attachment := true; ac_pid_resolver := None; ac_docker_cli := false |}.

Definition start_of (t : TopologyTables) : TopologyState unit := mkTopologyState t t tt.

Definition one_topology : TopologyTables :=
  mkTopologyTables {[1 := mkTopology (Some empty_spec)]} ∅ ∅ ∅ {[7 := WorkspaceStatus.RUNNING]}.

(** The runtime of node n1 as [ensure_node_topology] makes it. *)
Definition ensured : TopologyState unit := (ensure_node_topology 1 "n1" (start_of one_topology)).1.
Definition leased_state : TopologyState unit := (allocate_workspace_ip 1 "n1" 7 ensured).1.

(** ** Where the parts do not fit together *)

(** A workspace is brought up in two transactions, the lease and then the attachment.
    The janitor's second pass releases every lease whose workspace is not ATTACHED,
    however young: run in between, it takes the lease and the attachment is refused. *)
Theorem janitor_takes_fresh_lease :
  let '(s, res) := (a ← allocate_workspace_ip 1 "n1" 7;
                    j ← run_topology_janitor 1 "n1" 3600;
                    r ← attempt (attach_workspace 1 "n1" 7 "c1" "/proc/42/ns/net" (al_workspace_ip a));
                    mret (a, j, r)) ensured in
  match res with
  | inl (a, j, r) =>
      al_leased_existing a = false ∧ j = mkJanitorResult 0 1 0 [] ∧
      r = inr (WorkspaceAttachmentError "workspace_ip must match an active allocation; call allocate_workspace_ip first")
  | inr _ => False
  end.
Proof. vm_compute. done. Qed.

(** When the wiring's process cannot be started, the [OSError] passes the handler of
    [attach_workspace]: the row stays ATTACHING and the lease stays taken. *)
Theorem unstartable_command_leaves_attaching :
  let '(s, res) := attach_workspace (host := broken_host) (config := linux_attach) 1 "n1" 7 "c1" "/proc/42/ns/net"
                     "10.128.0.11" leased_state in
  res = inr (OtherException "[Errno 2] No such file or directory: 'ip'") ∧
  (∃ aid a, tt_attachments (ts_committed s) !! aid = Some a ∧ att_status a = TopologyAttachmentStatus.ATTACHING) ∧
  ∃ lid l, find_active_allocation 1 "n1" 7 (ts_committed s) = Some (lid, l).
Proof. vm_compute. split_and!; [done|by exists 1; eexists|by do 2 eexists]. Qed.

(** Deleting a node's runtime keeps its leases.  When another node has taken the
    subnet meanwhile and the runtime is made again, the workspace is handed its old
    address, which the attachment then refuses. *)
Theorem deleted_runtime_leaves_stale_lease :
  let '(s, res) := (delete_topology 1 "n1" ;;
                    ensure_node_topology 1 "n2" ;;
                    e ← ensure_node_topology 1 "n1";
                    a ← allocate_workspace_ip 1 "n1" 7;
                    r ← attempt (attach_workspace 1 "n1" 7 "c1" "/proc/42/ns/net" (al_workspace_ip a));
                    mret (en_cidr e, a, r)) leased_state in
  res = inl (Some "10.128.16.0/20"%string, mkAllocateResult "10.128.0.11" true,
             inr (WorkspaceAttachmentError "workspace_ip is not within runtime CIDR")).
Proof. vm_compute. done. Qed.

(** ** Instances of the theorems *)

Lemma ensured_clean : clean ensured.
Proof. vm_compute. done. Qed.
Lemma leased_clean : clean leased_state.
Proof. vm_compute. done. Qed.

Definition demo_net : IPv4Network := default (mkNetwork 0 0) (parse_ipv4_net "10.128.0.0/20").
Definition demo_gateway : Z := default 0 (parse_ipv4 "10.128.0.1").

Lemma demo_range : runtime_range (ts_tables ensured) 1 (normal_node_id "n1") demo_net demo_gateway.
Proof.
  destruct (find_runtime 1 (normal_node_id "n1") (ts_tables ensured)) as [[rid r]|] eqn:E; [|by vm_compute in E].
  vm_compute in E. injection E as <- <-. eexists _, _. split; [by vm_compute|by vm_compute].
Qed.

Lemma allocated_ip_in_range_and_unique_witness :
  let '(s', res) := allocate_workspace_ip 1 "n1" 7 ensured in
  res = inl (mkAllocateResult "10.128.0.11" false) ∧ clean s' ∧
  ∃ aid l, tt_allocations (ts_committed s') !! aid = Some l ∧ ipa_ip l = "10.128.0.11"%string.
Proof.
  pose proof (allocated_ip_in_range_and_unique ensured 1 "n1" 7 ensured_clean) as H.
  assert (Hrun : (allocate_workspace_ip 1 "n1" 7 ensured).2 = inl (mkAllocateResult "10.128.0.11" false))
    by (vm_compute; reflexivity).
  cbv zeta in H. destruct (allocate_workspace_ip 1 "n1" 7 ensured) as [s' res]. cbn [snd] in Hrun. subst res.
  destruct H as [Hc (s0 & _ & net & gw & x & _ & _ & _ & _ & _ & _ & _ & aid & l & Hl & _ & _ & Hip & _)].
  split; [reflexivity|]. split; [exact Hc|]. exists aid, l. split; [exact Hl|exact Hip].
Defined.

Lemma free_address_is_leased_witness :
  ∃ x s', allocate_workspace_ip 1 "n1" 7 ensured = (s', inl (mkAllocateResult (str_of_ipv4 x) false)) ∧
    x ∈ candidate_hosts_spec demo_net demo_gateway.
Proof.
  apply (free_address_is_leased ensured 1 "n1" 7 demo_net demo_gateway demo_calm ensured_clean demo_range).
  - intros aid l H. vm_compute in H. discriminate.
  - intros aid l H. vm_compute in H. discriminate.
  - exists (demo_gateway + 10). split.
    + rewrite <- candidate_hosts_eq. apply (list_elem_of_lookup_2 _ 0). vm_compute. reflexivity.
    + intros (aid & l & H & _). vm_compute in H. discriminate.
Defined.

Lemma demo_pooled : pooled 1 (ts_tables ensured).
Proof.
  intros i r H _ _.
  assert (Hr : tr_cidr r = Some "10.128.0.0/20"%string).
  { assert (Hall : map_Forall (λ _ r, tr_cidr r = Some "10.128.0.0/20"%string) (tt_runtimes (ts_tables ensured))).
    { apply (bool_decide_unpack _). vm_compute. exact I. } by eapply Hall. }
  exists demo_net. split; [|rewrite Hr; by vm_compute].
  apply child_in_pool, (list_elem_of_lookup_2 _ 0). by vm_compute.
Qed.

Lemma ensure_keeps_subnets_disjoint_witness :
  let '(s', res) := ensure_node_topology 1 "n2" ensured in
  (∃ r, res = inl r ∧ en_cidr r = Some "10.128.16.0/20"%string) ∧
  subnets_disjoint 1 (ts_committed s').
Proof.
  assert (Hspec : ∀ topo, tt_topologies (ts_tables ensured) !! 1 = Some topo →
    spec_text (spec_cidr_value (default empty_spec (topo_spec_json topo))) = None).
  { intros topo H. vm_compute in H. injection H as <-. reflexivity. }
  assert (Hothers : ∀ t t', rival_step t t' → pooled 1 t → pooled 1 t') by (intros t t' [w ->] H; exact H).
  pose proof (ensure_keeps_subnets_disjoint ensured 1 "n2" ensured_clean demo_pooled Hothers Hspec) as H.
  assert (Hrun : match (ensure_node_topology 1 "n2" ensured).2 with
                 | inl r => en_cidr r = Some "10.128.16.0/20"%string
                 | inr _ => False
                 end) by (vm_compute; reflexivity).
  destruct (ensure_node_topology 1 "n2" ensured) as [s' [r|e]]; [|destruct Hrun].
  split; [exists r; split; [reflexivity|exact Hrun]|]. destruct H as (_ & _ & H & _). exact H.
Defined.

(** A workspace whose bring-up died: its row is ATTACHING since the start of time. *)
Definition stuck_tables : TopologyTables :=
  (ts_tables leased_state) <| tt_attachments := {[1 :=
    mkTopologyAttachment 1 "n1" 7 (Some "c1") TopologyAttachmentStatus.ATTACHING (Some "10.128.0.11")
      None None None None 0]} |>.

Lemma janitor_repairs_node_witness :
  let '(s', res) := run_topology_janitor 1 "n1" 300 (start_of stuck_tables) in
  res = inl (mkJanitorResult 1 0 0 []) ∧
  ∀ wid aid l, lease_of (ts_committed s') 1 (normal_node_id "n1") wid aid l → attached_of 1 (normal_node_id "n1") (ts_committed s') wid.
Proof.
  assert (Hc : clean (start_of stuck_tables)) by (vm_compute; done).
  assert (Hshort : Py.len (Py.strip "n1") ≤ 128) by (vm_compute; discriminate).
  destruct (run_topology_janitor 1 "n1" 300 (start_of stuck_tables)) as [s' res] eqn:E.
  assert (Hres : res = inl (mkJanitorResult 1 0 0 [])).
  { change res with (s', res).2. rewrite <- E. vm_compute. reflexivity. }
  subst res. split; [reflexivity|].
  apply (janitor_repairs_node _ _ _ _ _ _ demo_calm Hc Hshort E eq_refl).
Defined.

Lemma attach_workspace_settles_witness :
  let '(s', res) := attach_workspace 1 "n1" 7 "c1" "/proc/42/ns/net" "10.128.0.11" leased_state in
  res = inl (mkAttachResult 1 "10.128.0.11" (Some "dn1676b") (Some "10.128.0.1") "10.128.0.11:8080") ∧
  clean s' ∧ holds_lease 1 "n1" 7 "10.128.0.11" (ts_tables s').
Proof.
  pose proof (attach_workspace_settles demo_calm leased_state 1 "n1" 7 "c1" "/proc/42/ns/net" "10.128.0.11" leased_clean) as H.
  assert (Hrun : (attach_workspace 1 "n1" 7 "c1" "/proc/42/ns/net" "10.128.0.11" leased_state).2 =
    inl (mkAttachResult 1 "10.128.0.11" (Some "dn1676b"%string) (Some "10.128.0.1"%string) "10.128.0.11:8080"))
    by (vm_compute; reflexivity).
  cbv zeta in H. destruct (attach_workspace 1 "n1" 7 "c1" "/proc/42/ns/net" "10.128.0.11" leased_state) as [s' res].
  cbn [snd] in Hrun. subst res. destruct H as [Hc (_ & Hl & _)]. split; [reflexivity|]. split; [exact Hc|exact Hl].
Defined.
