(* ===== verification/OrchestratorScenarios.v ===== *)
(** * OrchestratorScenarios: bring-ups on a concrete node

    One node with a container engine, a clock that only [sleep] advances and an empty
    disk; runs of the orchestrator on it, and the instances of its theorems; an engine with
    one container, a shell that is cut off, and what the runtime adapters do with them. *)

From S2P Require Import Prelude Models Session Services TopologyModels LinuxNet TopologyPlan.
From S2P Require Import Topology TopologyRepair Runtime HostFiles ProjectDirs Placement.
From S2P Require Import Orchestration BringUp OrchestratorOps Waits BringUpOutcome OrchestratorTopology.
From S2P Require Import PyValues DockerRuntime SsmRuntime RuntimeContracts Scenarios.

(** ** A node *)

(** [nw_serves] tells whether the IDE answers. *)
Record NodeWorld := mkNodeWorld {
  nw_clock : Z;
  nw_tree : FileTree;
  nw_container : string;
  nw_serves : bool
}.

Definition answer {A} (w : NodeWorld) (a : A) : NodeWorld * (A + Exn) := (w, inl a).
Definition with_container (c : string) (w : NodeWorld) : NodeWorld :=
  mkNodeWorld (nw_clock w) (nw_tree w) c (nw_serves w).

Definition node_inspection (cid : string) (w : NodeWorld) : ContainerInspectionResult :=
  mkInspection true (Some cid) (nw_container w) (Some 42) [(32768, 8080)] [] None [] None [] None None None.

#[export] Instance node_engine : RuntimeAdapter NodeWorld := {
  ad_ensure_container spec w := answer (with_container "created" w)
    (mkEnsure (spec_name spec) false true "created" [(32768, 8080)] None 8080 None);
  ad_start_container cid w := answer (with_container "running" w) (mkAction cid "running" true None);
  ad_stop_container cid w := answer (with_container "exited" w) (mkAction cid "exited" true None);
  ad_delete_container cid w := answer (with_container "removed" w) (mkAction cid "removed" true None);
  ad_inspect_container cid w := answer w (node_inspection cid w);
  ad_fetch_container_log_tail cid n w := answer w "listening"%string;
  ad_get_container_netns_ref cid w := answer w (mkNetns cid 42 "/proc/42/ns/net")
}.
Definition no_answer : HealthIssue :=
  mkHealthIssue "service_unreachable" "service" "no answer" HealthIssueSeverity.ERROR.
Definition service_probe (w : NodeWorld) : ServiceProbeResult :=
  mkServiceProbe (nw_serves w) None 8080 (if nw_serves w then [] else [no_answer]).
#[export] Instance node_probes : ProbeRunner NodeWorld := {
  hp_check_container_running cid w := answer w (mkContainerProbe true cid (Some (nw_container w)) []);
  hp_check_service_reachable ip port t w := answer w (service_probe w);
  hp_check_service_http ip port t w := answer w (service_probe w);
  hp_check_workspace_health wid tid nid cid port t w := answer w
    (mkWorkspaceHealth 7 (nw_serves w) true true (nw_serves w) (Some (nw_container w)) None None
       (if nw_serves w then [] else [no_answer]))
}.
#[export] Instance node_clock : Clock NodeWorld := {
  clock_monotonic := nw_clock;
  clock_sleep d w := mkNodeWorld (nw_clock w + d) (nw_tree w) (nw_container w) (nw_serves w)
}.
#[export] Program Instance node_disk : HostFs NodeWorld := {
  hf_tree := nw_tree;
  hf_set_tree t w := mkNodeWorld (nw_clock w) t (nw_container w) (nw_serves w);
  hf_denied op p w := None;
  hf_chown tool p w := (λ _, true, None);
  hf_rmtree p w := (λ _, true, None);
  hf_access k t p u g w := inl true;
  hf_euid := 0; hf_egid := 0; hf_has_chown := true; hf_has_setpriv := true; hf_has_runuser := true;
  hf_tempdir := "/tmp"; hf_container_uid := "1000"; hf_container_gid := "1000"
}.
Solve Obligations with done.
#[export] Instance node_shell : RemoteShell NodeWorld := { rs_run cmd w := answer w ""%string }.

#[local] Instance node_settings : WorkspaceSettings := {
  wk_cpu_limit := CfgNumber 2; wk_memory_limit_mb := CfgNumber 2048; wk_pids_limit := CfgNumber 512;
  wk_auth_mode := "none"; wk_password := ""; wk_ide_tcp_wait := None; wk_ide_tcp_poll_interval := None;
  wk_security := mkSecuritySettings true true "" false; wk_skip_linux_attachment := ""
}.
Definition node_service : OrchestratorConfig :=
  mkOrchestratorConfig 1 "n1" "/srv/projects" (Some "devnest/workspace"%string) None false true false false false.

(** ** The adapter's tables beside the node *)

#[local] Instance demo_env : Env := env_at 1000.
#[export] Program Instance node_tables : SharedTables NodeWorld :=
  {| sh_commit w := (w, λ t, t, None) |}.
Next Obligation. done. Qed.
Next Obligation. intros w t. split_and!; intros k a a' H H'; simpl in *; congruence. Qed.
#[local] Instance node_network : HostNetwork NodeWorld :=
  {| hn_run _ w := (w, Completed 0 "" ""); hn_linux := true; hn_pid_visible _ _ := true;
     hn_sidecar_netns _ := false; hn_via_host_nsenter := None |}.
#[local] Instance tables_only : AdapterConfig NodeWorld :=
  {| ac_apply_linux_bridge := false; ac_apply_linux_attachment := false; ac_pid_resolver := None; ac_docker_cli := false |}.

Definition node_with (serves : bool) : TopologyState NodeWorld :=
  let t := mkTopologyTables {[1 := mkTopology (Some empty_spec)]} ∅ ∅ ∅ {[7 := WorkspaceStatus.STARTING]} in
  mkTopologyState t t (mkNodeWorld 0 ∅ "" serves).

#[local] Instance node_topology : TopologyAdapter (TopologyState NodeWorld) := db_topology (λ _ _, true).
Definition bring_up_on (serves : bool) :=
  bring_up_workspace_runtime node_service "7" (Some "key7"%string) (Some 1) None None None ∅ (Some "new"%string)
    (node_with serves, false).

Definition attachment_states (s : TopologyState NodeWorld) : list TopologyAttachmentStatus.topology_attachment_status :=
  (map_to_list (tt_attachments (ts_committed s))).*2 ≫= λ a, [att_status a].
Definition active_leases (s : TopologyState NodeWorld) : nat :=
  length (List.filter (λ l, match ipa_released_at l with None => true | _ => false end)
            (map_to_list (tt_allocations (ts_committed s))).*2).

(** A node whose IDE answers: the workspace runs, with its own directory owned by the
    runtime user, an address of the node's subnet and an attachment. *)
Example healthy_bring_up :
  let '(s, r) := bring_up_on true in
  match r with
  | inl b => br_success b = true ∧ br_rollback_attempted b = false ∧
             br_internal_endpoint b = Some "10.128.0.11:8080"%string ∧
             attachment_states s.1 = [TopologyAttachmentStatus.ATTACHED] ∧ active_leases s.1 = 1%nat
  | inr _ => False
  end.
Proof. vm_compute. done. Qed.

(** ** Instances of the theorems *)

#[export] Instance node_forward : ForwardClock (W := NodeWorld).
Proof. split; intros; cbn; lia. Qed.

(** A node whose IDE never answers: the waits end at their deadlines. *)
Definition created_node (t : Z) : NodeWorld := mkNodeWorld t ∅ "created" false.
Lemma wait_times_out : let pause := pause_before ALIVE_INTERVAL (seconds 5) in
  poll_until (poll_fuel (seconds 5) 10000) (seconds 5) pause (alive_round "c1" "attach") (created_node 0, false) =
  ((created_node (seconds 5), false), inl (TimedOut (node_inspection "c1" (created_node 0)))).
Proof. vm_compute. reflexivity. Qed.

Lemma bring_up_waits_end_witness :
  until_runs (seconds 5) (pause_before ALIVE_INTERVAL (seconds 5)) (alive_round "c1" "attach")
    (created_node 0, false) (created_node (seconds 5), false)
    (inl (TimedOut (node_inspection "c1" (created_node 0)))).
Proof.
  destruct bring_up_waits_end as (_ & H & _).
  specialize (H "c1"%string "attach"%string (seconds 5) (created_node 0, false)). cbv zeta in H.
  pose proof wait_times_out as E. cbv zeta in E.
  change (clock_monotonic (created_node 0, false).1 + Z.max 50000 (seconds 5)) with (seconds 5) in H.
  change (Z.max 50000 (seconds 5)) with (seconds 5) in H.
  rewrite E in H. exact H.
Defined.

Lemma node_calm : calm (W := NodeWorld).
Proof. done. Qed.
Lemma node_clean serves : clean (node_with serves).
Proof. by vm_compute. Qed.
Lemma files_keep_container (s s' : TopologyState NodeWorld * bool) : host_run s s' →
  nw_container (ts_world s'.1) = nw_container (ts_world s.1).
Proof. intros H. induction H as [|s1 s2 s3 Hs _ IH]; [done|]. rewrite IH. by destruct Hs. Qed.
Lemma workspace_seven : parse_topology_workspace_id (Py.strip "7") = inl 7.
Proof. by vm_compute. Qed.

(** A node whose IDE never answers: the rollback succeeds, and the attachment and the
    lease are gone. *)
Lemma unhealthy_bring_up_rolls_back :
  match (bring_up_on false).2 with
  | inl b => br_success b = false ∧ br_rollback_succeeded b = Some true
  | inr _ => False
  end ∧
  nw_container (ts_world (bring_up_on false).1.1) = "exited"%string.
Proof. vm_compute. done. Qed.

Lemma rolled_back_bring_up_releases_network_witness :
  let '(s, r) := bring_up_on false in
  match r with inl b => br_rollback_succeeded b = Some true | inr _ => False end ∧
  network_released node_service (ts_tables s.1) 7.
Proof.
  pose proof (rolled_back_bring_up_releases_network (λ _ _, true) node_service "7" (Some "key7"%string) (Some 1)
    None None None ∅ (Some "new"%string) (node_with false, false) 7 node_calm (node_clean false) workspace_seven) as H.
  pose proof unhealthy_bring_up_rolls_back as [Hrun Hexited].
  change (bring_up_workspace_runtime _ _ _ _ _ _ _ _ _ _) with (bring_up_on false) in H.
  destruct (bring_up_on false) as [s [b|e]]; [|done]. cbn [fst snd] in *. destruct Hrun as [Hb Hr].
  split; [done|]. destruct H as [H|[H|[_ H]]]; [|congruence|by apply H].
  apply files_keep_container in H. cbn [fst] in H. rewrite Hexited in H. discriminate.
Defined.

(** ** An engine with one container *)

(** The container's status, if it exists, and its project bind. *)
Record OneContainer := mkOneContainer { one_status : option string; one_source : string }.

Definition one_attrs (status source : string) : PyDict :=
  dict_of [("Id", PStr "c1");
           ("State", PDict (dict_of [("Status", PStr status);
                                     ("Pid", PInt (if String.eqb status "running" then 42 else 0))]));
           ("Mounts", PList [PDict (dict_of [("Type", PStr "bind"); ("Source", PStr source);
                                             ("Destination", PStr WORKSPACE_PROJECT_CONTAINER_PATH)])])]%string.

Section engine.
#[local] Instance no_repr : PyRepr := λ _, "{}"%string.
#[local] Instance one_engine : DockerEngine OneContainer := {
  dk_inspect _ w := (w, match one_status w with
                        | Some status => inl (one_attrs status (one_source w))
                        | None => inr (DockerNotFound "No such container") end);
  dk_start _ w := (mkOneContainer (Some "running"%string) (one_source w), inl tt);
  dk_stop _ _ w := (mkOneContainer (Some "exited"%string) (one_source w), inl tt);
  dk_restart _ _ w := (mkOneContainer (Some "running"%string) (one_source w), inl tt);
  dk_remove _ _ w := (mkOneContainer None "", inl tt);
  dk_logs _ _ w := (w, inl ""%string);
  dk_create req w := (mkOneContainer (Some "created"%string)
                        (match hc_binds (cr_host_config req) with b :: _ => (Py.partition ":" b).1 | [] => "" end),
                      inl (Some "c1"%string));
  dk_pull _ w := (w, inl tt)
}.
#[local] Instance one_host : RuntimeHost OneContainer := {
  rh_stop_timeout_seconds := " 30"; rh_workspace_image := None; rh_linux := true; rh_pid_visible _ _ := true
}.
#[local] Instance one_clock : Clock OneContainer := {| clock_monotonic _ := 0; clock_sleep _ w := w |}.
#[local] Existing Instance docker_runtime_adapter.

Definition blog_spec : ContainerSpec :=
  mkContainerSpec "ws-1" None (Some (cores 2)) (Some 1073741824) (Some 512) None ∅ [(0, 8080)] ∅ None
    (Some "/srv/blog"%string) [] None.

Lemma started_runtime_is_usable_witness :
  match (ensure_running_runtime_only blog_spec false (mkOneContainer None "", false)).2 with
  | inl r => run_container_state r = "running"%string ∧ run_netns_ref r = "/proc/42/ns/net"%string
  | inr _ => False
  end.
Proof.
  pose proof (started_runtime_is_usable (contract := docker_contract) blog_spec false (mkOneContainer None "", false)) as H.
  unfold wp in H.
  assert (Hok : (ensure_running_runtime_only blog_spec false (mkOneContainer None "", false)).2 =
    inl (mkRunning "c1" "running" 42 "/proc/42/ns/net" [] None 8080
           (Some (mkBindMount "/srv/blog" WORKSPACE_PROJECT_CONTAINER_PATH false None)))) by (vm_compute; reflexivity).
  destruct (ensure_running_runtime_only blog_spec false (mkOneContainer None "", false)) as [s' r].
  cbn [snd] in Hok. subst r. destruct H as (_ & _ & H1 & _ & H2). split; [exact H1|]. rewrite H2. reflexivity.
Defined.

(** A container with another project directory is replaced over Docker. *)
Example docker_replaces_mismatched :
  let '(w, res) := dk_ensure_container blog_spec (mkOneContainer (Some "running"%string) "/srv/other") in
  one_source w = "/srv/blog"%string ∧ ens_created_new <$> (match res with inl r => Some r | inr _ => None end) = Some true.
Proof. vm_compute. done. Qed.
End engine.

(** ** The same container through SSM *)

Section shell.
#[local] Instance ssm_repr : PyRepr := λ _, "{}"%string.
#[local] Instance canned_json : JsonReader := λ out,
  if String.eqb out "running" then Some (PList [PDict (one_attrs "running" "/srv/other")]) else None.
(** [docker inspect] works, and nothing else. *)
#[local] Instance one_shell : RemoteShell unit := {|
  rs_run cmd w := (w, match cmd with
                      | _ :: "inspect"%string :: _ => inl "running"%string
                      | _ => inr (RuntimeError "failed")
                      end) |}.
#[local] Instance ssm_host : RuntimeHost unit := {
  rh_stop_timeout_seconds := ""; rh_workspace_image := None; rh_linux := true; rh_pid_visible _ _ := true
}.

(** Through SSM the container with the other project directory is taken as it is. *)
Example ssm_keeps_mismatched :
  match ssm_ensure_container blog_spec tt with
  | (_, inl r) => ens_created_new r = false ∧ (bm_host_path <$> ens_project_mount r) = Some "/srv/other"%string
  | _ => False
  end.
Proof. vm_compute. done. Qed.
End shell.
