(* ===== verification/ArchiveScenarios.v ===== *)
(** * ArchiveScenarios: snapshots on a concrete disk

    A disk, a codec for archives and the instances of the theorems of [ArchiveSafety];
    a restore that fails after it wrote to the project, a restore whose way back is
    refused, and what the remote shell is given by an export over SSH. *)

From S2P Require Import Prelude Models Session Services Scheduling Runtime.
From S2P Require Import LinuxNet HostFiles ProjectDirs DockerRuntime Orchestration SnapshotArchives ArchiveSafety.

(** ** A codec *)

Definition triple_of (m : TarMember) : string * nat * string :=
  match tm_kind m with
  | TarFile c => (tm_name m, 0%nat, c)
  | TarDir => (tm_name m, 1%nat, ""%string)
  | TarSymlink l => (tm_name m, 2%nat, l)
  | TarHardlink l => (tm_name m, 3%nat, l)
  | TarDevice => (tm_name m, 4%nat, ""%string)
  end.
Definition of_triple (x : string * nat * string) : TarMember :=
  let '(name, k, c) := x in
  mkTarMember name (match k with 0 => TarFile c | 1 => TarDir | 2 => TarSymlink c | 3 => TarHardlink c | _ => TarDevice end%nat).
#[local] Instance kind_eq_dec : EqDecision TarKind.
Proof. solve_decision. Defined.
#[local] Instance member_eq_dec : EqDecision TarMember.
Proof. solve_decision. Defined.
#[local] Program Instance member_countable : Countable TarMember := inj_countable' triple_of of_triple _.
Next Obligation. by intros [n []]. Qed.

Fixpoint bits (p : positive) : string :=
  match p with xH => "" | xO p => String "0" (bits p) | xI p => String "1" (bits p) end.
Fixpoint of_bits (s : string) : positive :=
  match s with EmptyString => xH | String c s => if Ascii.eqb c "0" then xO (of_bits s) else xI (of_bits s) end.
Lemma of_bits_bits p : of_bits (bits p) = p.
Proof. induction p as [p IH|p IH|]; cbn; by rewrite ?IH. Qed.

Lemma decode_bits (ms : list TarMember) : decode (of_bits (bits (encode ms))) = Some ms.
Proof. by rewrite of_bits_bits, decode_encode. Qed.
(** Archives of a Python that filters the members, or not *)
Definition codec (filters : bool) : TarFormat := {|
  tar_gz ms := bits (encode ms); untar s := decode (of_bits s); untar_gz := decode_bits; tar_data_filter := filters
|}.

(** ** A disk *)

(** [dk_refuses]: the renames that are refused *)
Record Disk := mkDisk { disk_tree : FileTree; disk_refuses : list (list string) }.
#[local] Program Instance disk_files : HostFs Disk := {
  hf_tree := disk_tree;
  hf_set_tree t w := mkDisk t (disk_refuses w);
  hf_denied op p w := match op with
    | OpRename => if bool_decide (p ∈ disk_refuses w) then Some "Permission denied"%string else None
    | _ => None end;
  hf_chown tool p w := (λ _, true, None);
  hf_rmtree p w := (λ _, true, None);
  hf_access k t p u g w := inl true;
  hf_euid := 0; hf_egid := 0; hf_has_chown := true; hf_has_setpriv := true; hf_has_runuser := true;
  hf_tempdir := "/tmp"; hf_container_uid := "1000"; hf_container_gid := "1000"
}.
Solve Obligations with done.

(** A new name is longer than every name on the disk. *)
Fixpoint letters (n : nat) : string := match n with O => "a" | S n => String "a" (letters n) end.
Definition all_names (t : FileTree) : list string := List.concat (map_to_list t).*1.
Definition longest (t : FileTree) : nat := sum_list_with String.length (all_names t).
Lemma letters_length n : String.length (letters n) = S n.
Proof. induction n; cbn; congruence. Qed.
Lemma letters_end n : exists r, List.rev (list_ascii_of_string (letters n)) = ("a"%char :: r).
Proof. induction n as [|n [r IH]]; [by exists []|]. cbn. rewrite IH. by eexists. Qed.

#[local] Program Instance disk_streams : ArchiveStreams Disk := {
  as_inspect _ w := (w, inr (DockerNotFound "No such container"));
  as_exec _ _ w := (w, inr (DockerNotFound "No such container"));
  as_popen _ _ w := (w, inl (mkStream "" "" (Some 0)));
  as_temp_name _ w := letters (longest (disk_tree w))
}.
Next Obligation.
  intros p [t r] q [rel ->]. cbn. apply eq_None_not_Some. intros [n Hn].
  assert (Hin : (TEMP_PREFIX ++ letters (longest t))%string ∈ all_names t).
  { apply list_elem_of_In, in_concat. exists ((p ++ [TEMP_PREFIX ++ letters (longest t)]%string) ++ rel). split.
    - apply list_elem_of_In, list_elem_of_fmap. exists ((p ++ [TEMP_PREFIX ++ letters (longest t)]%string) ++ rel, n).
      split; [done|by apply elem_of_map_to_list].
    - apply list_elem_of_In. set_solver. }
  apply (sum_list_with_in _ String.length) in Hin. fold (longest t) in Hin. rewrite length_app_string, letters_length in Hin. lia.
Qed.
Next Obligation.
  intros p w d E. apply (f_equal (λ s, List.rev (list_ascii_of_string s))) in E. cbn beta in E.
  rewrite !Py.list_ascii_of_app, !rev_app_distr in E. destruct (letters_end (longest (disk_tree w))) as [r Hr].
  cbn [as_temp_name] in E. by rewrite Hr in E.
Qed.

(** ** Runs *)

Definition tidy_node (root : list string) (t : FileTree) (x : list string * FsNode) : bool :=
  negb (bool_decide (within_dir root x.1)) ||
  (forallb plain_component (relative_to root x.1) && (bool_decide (x.1 = root) || is_directory (t !! removelast x.1)) &&
   match x.2 with SymbolicLink _ _ l => Py.truthy l | _ => true end).
Lemma tidy_nodes root t : forallb (tidy_node root t) (map_to_list t) = true → tidy root t.
Proof.
  rewrite forallb_forall. intros H.
  assert (Hat : ∀ rel n, t !! (root ++ rel) = Some n → forallb plain_component rel = true ∧
    (root ++ rel = root ∨ is_directory (t !! removelast (root ++ rel)) = true) ∧
    match n with SymbolicLink _ _ l => Py.truthy l | _ => true end = true).
  { intros rel n Hn. specialize (H (root ++ rel, n)). unfold tidy_node in H. cbn [fst snd] in H.
    rewrite bool_decide_true in H by apply within_app. cbn [negb orb] in H. unfold relative_to in H. rewrite drop_within in H.
    specialize (H ltac:(by apply list_elem_of_In, elem_of_map_to_list)). rewrite !andb_true_iff, orb_true_iff, bool_decide_eq_true in H.
    destruct H as [[? ?] ?]. by split_and!. }
  split.
  - intros rel [n Hn]. by apply (Hat rel n).
  - intros rel u g l Hn. by apply (Hat rel (SymbolicLink u g l)).
  - intros rel c [n Hn]. destruct (Hat _ _ Hn) as (_ & Hd & _). rewrite app_assoc, removelast_last in Hd. destruct Hd as [E|?]; [|done].
    rewrite <- (app_nil_r root) in E at 2. rewrite <- app_assoc in E. apply app_inv_head in E. by destruct rel.
Qed.

Definition project : list string := ["srv"; "p"]%string.
Definition archive : list string := ["srv"; "a"]%string.
Definition dir : FsNode := Directory 0 0.
Definition file (c : string) : FsNode := RegularFile 0 0 c.
Definition link (l : string) : FsNode := SymbolicLink 0 0 l.
(** [/e] is a directory elsewhere, with a file [g]. *)
Definition disk_of (l : list (list string * FsNode)) (refused : list (list string)) : Disk * bool :=
  (mkDisk (list_to_map ([([], dir); (["srv"]%string, dir); (["e"]%string, dir); (["e"; "g"]%string, file "else"); (project, dir)] ++ l))
     refused, false).
Definition one_file : Disk * bool :=
  disk_of [(project ++ ["d"]%string, dir); (project ++ ["d"; "f"]%string, file "x"); (project ++ ["l"]%string, link "d/f")] [].

Lemma restored_snapshot_has_the_exported_files_witness :
  let run := @export_local_tree _ _ (codec false) project archive one_file in
  run.2 = inl (true, []) ∧
  ∃ c ms, entry (tree run.1) archive = Some (TextOf c) ∧ untar (TarFormat := codec false) c = Some ms ∧
    ∀ s2 given par d, (realpath (tree s2) given).1 = par ++ [d] →
      wp (@safe_snapshot_tar_extract _ _ (codec false) _ ms given)
        (λ _ s3, ∀ rel, entry (tree s3) ((par ++ [d]) ++ rel) =
           if is_regular (node_at (tree run.1) true (project ++ rel)) then entry (tree one_file) (project ++ rel) else None)
        (λ _ s3, kept_project (par ++ [d]) (tree s2) (tree s3)) s2.
Proof.
  assert (Hrun : (@export_local_tree _ _ (codec false) project archive one_file).2 = inl (true, [])) by (vm_compute; reflexivity).
  pose proof (@restored_snapshot_has_the_exported_files _ _ (codec false) _ project archive one_file) as H.
  unfold wp in H at 1. destruct (@export_local_tree _ _ (codec false) project archive one_file) as [s1 r] eqn:E.
  cbn [snd] in Hrun. subst r. split; [reflexivity|]. apply H; try (vm_compute; reflexivity); try reflexivity.
  - apply tidy_nodes. vm_compute. reflexivity.
  - intros [rel E']. discriminate E'.
Defined.

Example exported_files_come_back :
  let s1 := (@export_local_tree _ _ (codec false) project archive one_file).1 in
  let ms := [mkTarMember "d/f" (TarFile "x"); mkTarMember "l" (TarSymlink "d/f")] in
  let s2 := (@safe_snapshot_tar_extract _ _ (codec false) _ ms ["srv"; "q"]%string s1).1 in
  entry (tree s1) archive = Some (TextOf (tar_gz (TarFormat := codec false) ms)) ∧
  entry (tree s2) ["srv"; "q"; "d"; "f"]%string = Some (TextOf "x") ∧ entry (tree s2) ["srv"; "q"; "l"]%string = Some (LinkTo "d/f").
Proof. split_and!; vm_compute; reflexivity. Qed.
(** Links to directories, links to nothing and empty directories are left out. *)
Example left_out_of_an_export :
  let s := disk_of [(project ++ ["d"]%string, dir); (project ++ ["k"]%string, link "d"); (project ++ ["n"]%string, link "gone")] [] in
  let s1 := (@export_local_tree _ _ (codec false) project archive s).1 in
  entry (tree s1) archive = Some (TextOf (tar_gz (TarFormat := codec false) [])).
Proof. vm_compute. reflexivity. Qed.

Definition two_members : list TarMember := [mkTarMember "f" (TarFile "new"); mkTarMember "g/h" (TarFile "more")]%string.
Definition old_project : Disk * bool := disk_of [(project ++ ["f"]%string, file "old")] [].

(** The checks look at each member's name as the disk is before the restore; without the
    filter a link the archive makes lets the member after it out. *)
Definition linking_members : list TarMember := [mkTarMember "a" (TarSymlink "/e"); mkTarMember "a/g" (TarFile "new")]%string.
Example unfiltered_link_leads_out :
  let '(s', r) := @safe_snapshot_tar_extract _ _ (codec false) _ linking_members project old_project in
  r = inl tt ∧ entry (tree old_project) ["e"; "g"]%string = Some (TextOf "else") ∧
  entry (tree s') ["e"; "g"]%string = Some (TextOf "new").
Proof. vm_compute. by split_and!. Qed.
Example filtered_link_is_refused :
  let '(s', r) := @safe_snapshot_tar_extract _ _ (codec true) _ linking_members project old_project in
  r = inr (WorkspaceSnapshotError "snapshot:import:extract_failed:member refused by the data filter") ∧
  entry (tree s') ["e"; "g"]%string = Some (TextOf "else").
Proof. vm_compute. by split_and!. Qed.
(** A project with a link to a file elsewhere is refused its own export. *)
Example own_export_is_refused :
  let s := disk_of [(project ++ ["l"]%string, link "/e/g")] [] in
  let s1 := (@export_local_tree _ _ (codec false) project archive s).1 in
  let ms := [mkTarMember "l" (TarSymlink "/e/g")] in
  entry (tree s1) archive = Some (TextOf (tar_gz (TarFormat := codec false) ms)) ∧
  (@safe_snapshot_tar_extract _ _ (codec false) _ ms project s1).2 = inr (unsafe_path "l").
Proof. split; vm_compute; reflexivity. Qed.

(** Without the filter a name that leaves the directory and comes back to the project
    is let through: the member after it fails, the restore is refused, and the file in
    the project is the archive's. *)
Definition leaving_members : list TarMember :=
  [mkTarMember "a" TarDir; mkTarMember "a/../../p/f" (TarFile "new"); mkTarMember "f" TarDir; mkTarMember "f" (TarFile "x")]%string.
Example unfiltered_restore_writes_before_it_fails :
  let '(s', r) := @safe_snapshot_tar_extract _ _ (codec false) _ leaving_members project old_project in
  r = inr (WorkspaceSnapshotError "snapshot:import:extract_failed:Is a directory") ∧
  entry (tree s') (project ++ ["f"]%string) = Some (TextOf "new").
Proof. vm_compute. split; reflexivity. Qed.
Example filtered_restore_keeps_the_project :
  let '(s', r) := @safe_snapshot_tar_extract _ _ (codec true) _ leaving_members project old_project in
  r = inr (WorkspaceSnapshotError "snapshot:import:extract_failed:member refused by the data filter") ∧
  entry (tree s') (project ++ ["f"]%string) = Some (TextOf "old").
Proof. vm_compute. split; reflexivity. Qed.

(** The renames to the project's place are refused: its files are in the backup. *)
Example refused_swap_leaves_a_backup :
  let s := disk_of [(project ++ ["f"]%string, file "old")] [project] in
  let '(s', r) := @safe_snapshot_tar_extract _ _ (codec false) _ two_members project s in
  r = inr (WorkspaceSnapshotError "snapshot:import:atomic_swap_failed:Permission denied") ∧
  entry (tree s') (project ++ ["f"]%string) = None ∧ entry (tree s') (backup_of project ++ ["f"]%string) = Some (TextOf "old").
Proof. vm_compute. by split_and!. Qed.

(** A file the project may well have makes its export one that is refused. *)
Example dotted_name_is_refused :
  validate_tar_members (tree old_project) project [mkTarMember "..foo" (TarFile "x")] = Some (unsafe_path "..foo").
Proof. reflexivity. Qed.

(** The remote shell is given the words joined: its script is [tar] alone. *)
Example remote_shell_splits_the_script :
  let r := new_ssh_runner "ubuntu" "10.0.0.5" 22 in
  match ssh_argv r ["sh"; "-c"; export_inner "/srv/p"]%string with
  | inl argv => remote_command_line argv = "sh -c tar -czf - -C /srv/p ."%string
  | inr _ => False
  end.
Proof. reflexivity. Qed.
