(* ===== verification/AccountScenarios.v ===== *)
(** * AccountScenarios: accounts in a concrete world

    Hashes and tokens that can be computed, the instances of the theorems of
    [AccountSafety], and what a provider's e-mail address and the rows of other services
    do to an account; two users who are notified, and the instances of the theorems of
    [Notifications]. *)

From S2P Require Import Prelude PyValues Models Digest Binding Routing Accounts AccountSafety.
From S2P Require Import Notifications Scenarios ArchiveScenarios.

(** ** A world *)

Abbreviation claim_fields := (option string * option string * option string * option string * option string * Z * Z)%type.
Definition claims_tuple (c : Claims) :=
  (cl_sub c, cl_type c, cl_typ c, cl_provider c, cl_nonce c, cl_iat c, cl_exp c).
Definition of_claims_tuple (x : claim_fields) : Claims :=
  let '(a, b, c, d, e, i, t) := x in mkClaims a b c d e i t.
(** A token holds its key; the clock decides whether it has expired. *)
Definition plain_encode (c : Claims) (key alg : string) : string := bits (encode (key, claims_tuple c)).
Definition plain_decode (t key alg : string) (now : time) : Claims + string :=
  match decode (A := string * claim_fields) (of_bits t) with
  | Some (k, x) => if String.eqb k key && (now <? 1000000 * cl_exp (of_claims_tuple x)) then inl (of_claims_tuple x)
                   else inr "Signature has expired"%string
  | None => inr "Not enough segments"%string
  end.
Lemma plain_decode_encode c key alg now : now < 1000000 * cl_exp c → plain_decode (plain_encode c key alg) key alg now = inl c.
Proof.
  intros Ht%Z.ltb_lt. unfold plain_decode, plain_encode. rewrite of_bits_bits, decode_encode. destruct c as [a b c d e i t].
  cbn in Ht |- *. by rewrite String.eqb_refl, Ht.
Qed.
Lemma plain_decode_unexpired t key alg now c : plain_decode t key alg now = inl c → now < 1000000 * cl_exp c.
Proof.
  unfold plain_decode. destruct (decode _) as [[k x]|]; [|done]. destruct (_ && _) eqn:E; [|done]. intros [= <-].
  apply andb_true_iff in E as [_ E]. by apply Z.ltb_lt in E.
Qed.
#[local] Instance plain_jwt : Jwt := {|
  jwt_encode := plain_encode;
  jwt_decode := plain_decode;
  jwt_decode_encode c key alg now _ Ht := plain_decode_encode c key alg now Ht;
  jwt_unexpired := plain_decode_unexpired
|}.

(** The number of random values drawn, and a provider's user. *)
Record DeskWorld := mkDesk { dw_drawn : Z; dw_profile : PyValue; dw_referenced : list Z }.
#[local] Program Instance desk : AuthWorld DeskWorld := {
  aw_checkpw pw h := inl (String.eqb h ("h:" ++ pw));
  aw_hashpw pw w := (w, inl ("h:" ++ pw)%string);
  aw_placeholder w := (w, "random"%string);
  aw_token n w := (mkDesk (dw_drawn w + 1) (dw_profile w) (dw_referenced w), ("t" ++ Py.str_of_Z (dw_drawn w))%string);
  aw_referenced uid w := bool_decide (uid ∈ dw_referenced w);
  aw_post url data w := (w, inl (mkReply 200 (Some (PDict (dict_of [("access_token", PStr "a")])))));
  aw_get url token w := (w, inl (mkReply 200 (Some (dw_profile w))))
}.
Next Obligation. intros pw w w' h. cbn. intros [= <- <-]. by rewrite String.eqb_refl. Qed.
#[local] Instance desk_settings : AuthSettings := {|
  jwt_secret_key := "k"; jwt_algorithm := "HS256"; access_token_expire_minutes := 15; refresh_token_expire_days := 7;
  password_reset_token_expire_minutes := 60; password_reset_return_token := false;
  oauth_github_client_id := "id"; oauth_github_client_secret := "s"; github_oauth_public_base_url := "devnest.test";
  oauth_google_client_id := "id"; oauth_google_client_secret := "s"; gcloud_oauth_public_base_url := "devnest.test"
|}.
#[local] Instance desk_repr : PyRepr := λ _, "{}"%string.
#[local] Instance noon : Env := env_at (seconds 1000).

Definition no_accounts : AuthDb := mkAuthDb ∅ ∅ ∅ ∅ ∅ ∅ ∅ ∅ ∅ ∅ [] 1 1 1 1.
Definition idle : DeskWorld := mkDesk 0 PNone [].
Definition served (r : AuthRequest) (db : AuthDb) : AuthDb := as_committed (serve_auth r (fresh_auth db idle)).1.
(** Alice registers and signs in on two devices. *)
Definition with_alice : AuthDb := served (Login "alice" "pw") (served (Login "alice" "pw") (served (Register "alice" "alice@x.test" "pw") no_accounts)).

Lemma no_accounts_ok : accounts_ok no_accounts.
Proof. by constructor; intros ?. Qed.
Lemma reaches_alice : rtc (auth_step (W := DeskWorld)) no_accounts with_alice.
Proof.
  eapply rtc_l; [by apply (Served _ (Register "alice" "alice@x.test" "pw") idle)|].
  eapply rtc_l; [by apply (Served _ (Login "alice" "pw") idle)|]. apply rtc_once. apply (Served _ (Login "alice" "pw") idle).
Qed.

Lemma accounts_stay_consistent_witness :
  size (accounts with_alice) = 1%nat ∧ size (tokens with_alice) = 2%nat ∧ accounts_ok with_alice.
Proof.
  split; [vm_compute; reflexivity|]. split; [vm_compute; reflexivity|].
  refine (accounts_stay_consistent no_accounts with_alice reaches_alice no_accounts_ok).
Defined.

(** ** A new password *)

(** Alice asks for a reset link; [t2] is the first value drawn after her two sessions. *)
Definition forgotten : AuthDb := as_committed (serve_auth (ForgotPassword "alice@x.test") (fresh_auth with_alice (mkDesk 2 PNone []))).1.
Example with_a_link : size (reset_tokens forgotten) = 1%nat.
Proof. vm_compute. reflexivity. Qed.
Definition after_reset : AuthSt DeskWorld := (reset_password_endpoint "t2" "new" (fresh_auth forgotten (mkDesk 3 PNone []))).1.
Lemma reaches_forgotten : rtc (auth_step (W := DeskWorld)) no_accounts forgotten.
Proof. eapply rtc_r; [apply reaches_alice|]. apply (Served _ (ForgotPassword "alice@x.test") (mkDesk 2 PNone [])). Qed.
Lemma forgotten_ok : accounts_ok forgotten.
Proof. apply (steps_keep_ok _ _ reaches_forgotten no_accounts_ok). Qed.

Lemma new_password_ends_sessions_witness :
  reset_password_endpoint "t2" "new" (fresh_auth forgotten (mkDesk 3 PNone [])) = (after_reset, inl tt) ∧
  ∃ uid, reset_done uid forgotten env_now "t2" "new" (as_committed after_reset) ∧
    sessions_ended (W := DeskWorld) uid (as_committed after_reset) ∧ links_ended (W := DeskWorld) uid (as_committed after_reset).
Proof.
  assert (E : reset_password_endpoint "t2" "new" (fresh_auth forgotten (mkDesk 3 PNone [])) = (after_reset, inl tt)) by (vm_compute; reflexivity).
  split; [exact E|].
  exact (proj2 (new_password_ends_sessions forgotten forgotten_ok) noon (mkDesk 3 PNone []) "t2" "new" after_reset E).
Defined.

(** ** A sign-in *)

Lemma login_gives_the_account_witness :
  let '(s', r) := login "alice" "pw" (fresh_auth with_alice idle) in
  match r with
  | inl lt => ∃ uid a, accounts with_alice !! uid = Some a ∧ name_of a = "alice"%string ∧ aw_checkpw "pw" (acc_password_hash a) = inl true ∧
                signed_in uid lt with_alice (as_committed s')
  | inr _ => False
  end.
Proof.
  assert (Hok : accounts_ok with_alice) by (apply (steps_keep_ok _ _ reaches_alice no_accounts_ok)).
  assert (E : is_Some (match (login "alice" "pw" (fresh_auth with_alice idle)).2 with inl lt => Some lt | inr _ => None end))
    by (vm_compute; by eexists).
  pose proof (login_gives_the_account with_alice "alice" "pw" idle Hok) as H.
  destruct (login "alice" "pw" (fresh_auth with_alice idle)) as [s' [lt|e]]; [exact H|]. by destruct E.
Defined.
(** The result of a request, and the tables afterwards *)
Definition answer {B} (m : A DeskWorld B) (db : AuthDb) (w : DeskWorld) : B + AuthError := (m (fresh_auth db w)).2.
Definition then_ {B} (m : A DeskWorld B) (db : AuthDb) (w : DeskWorld) : AuthDb := as_committed (m (fresh_auth db w)).1.

(** The sessions of before a reset are over, and its link works once. *)
Example sessions_before_a_reset :
  answer (refresh_access_token "t0") (as_committed after_reset) idle = inr InvalidRefreshTokenError ∧
  answer (reset_password_endpoint "t2" "other") (as_committed after_reset) idle = inr (HTTPException 400 "Invalid or expired reset token") ∧
  answer (login "alice" "pw") (as_committed after_reset) idle = inr (HTTPException 401 "Invalid username or password").
Proof. split; [vm_compute; reflexivity|]. split; vm_compute; reflexivity. Qed.

(** A change of password leaves a reset link that was asked for before. *)
Definition alices_token : option (string * string) := Some ("Bearer"%string, create_access_token 1).
Definition changed : AuthDb := then_ (change_password_endpoint alices_token "pw" "changed") forgotten (mkDesk 3 PNone []).
Example a_change_leaves_reset_links :
  answer (refresh_access_token "t0") changed idle = inr InvalidRefreshTokenError ∧
  answer (reset_password_endpoint "t2" "thief") changed idle = inl tt.
Proof. split; vm_compute; reflexivity. Qed.

(** A user whom rows of other services refer to cannot be deleted; the others can. *)
Example a_referenced_user_stays :
  answer (delete_account alices_token (Some "pw"%string)) with_alice (mkDesk 2 PNone [1]) = inr (AuthFailure "IntegrityError") ∧
  then_ (delete_account alices_token (Some "pw"%string)) with_alice (mkDesk 2 PNone [1]) = with_alice ∧
  answer (delete_account alices_token (Some "pw"%string)) with_alice (mkDesk 2 PNone []) = inl tt ∧
  accounts (then_ (delete_account alices_token (Some "pw"%string)) with_alice (mkDesk 2 PNone [])) = ∅.
Proof. split_and!; vm_compute; reflexivity. Qed.

(** Google's userinfo says that the address is not verified; the sign-in gives the account
    that registered it, and links the two for good. *)
Definition unverified : PyValue := PDict (dict_of [("id", PStr "77"); ("email", PStr "Alice@x.test"); ("verified_email", PBool false)]).
Definition oauth_state : string := default ""%string (match answer (create_oauth_state "google") with_alice idle with inl s => Some s | inr _ => None end).
Definition linked : DeskWorld → AuthSt DeskWorld * (LoginTokens + AuthError) := λ w, oauth_callback "google" "code" oauth_state (fresh_auth with_alice w).
Example an_unverified_address_signs_in :
  (oauth_row "google" "77" (as_committed (linked (mkDesk 2 unverified [])).1) = Some (1, mkOAuthLink 1 "google" "77")) ∧
  match (linked (mkDesk 2 unverified [])).2 with
  | inl lt => decode_access_user_id (access_token lt) = inl 1
  | inr _ => False
  end.
Proof. split; vm_compute; reflexivity. Qed.

(** The state of an authorisation is no access token, nor the other way round. *)
Example states_are_not_access_tokens :
  decode_access_user_id oauth_state = inr (AuthFailure "not an access token") ∧
  verify_oauth_state (create_access_token 1) "google" = Some (OAuthStateError "invalid state type") ∧
  verify_oauth_state oauth_state "google" = None ∧
  verify_oauth_state oauth_state "github" = Some (OAuthStateError "provider mismatch").
Proof. split_and!; vm_compute; reflexivity. Qed.

(** ** Notifications *)

(** No mail host is configured, so mail is a stub that succeeds. *)
#[local] Instance no_mail : SmtpSettings := {|
  smtp_host := ""; smtp_port := 587; smtp_use_tls := true; smtp_user := ""; smtp_password := ""; smtp_from_address := "devnest@x.test"
|}.
#[local] Instance no_host : Smtp unit := {| smtp_send host port tls credentials from email w := (w, SmtpAccepted); smtp_token_hex n w := (w, "00"%string) |}.

(** Alice and Bob, and Bob has switched mail off for [news]. *)
Definition two_users : NotifyDb :=
  mkNotifyDb ∅ ∅ ∅ {[1 := mkPreference 2 "news" true false true]} ∅ {[1 := "alice@x.test"%string; 2 := "bob@x.test"%string]} 1 1 1 2 1.
Definition told_users (uids : list Z) (db : NotifyDb) : NotifySt unit * (Z * Notification + NotifyError) :=
  create_notification_event "news" "Hello" "World" PNone uids "NORMAL" "test" None (mkNotifySt db tt).
Definition news_sent : NotifyDb :=
  ns_db (serve_notify (CreateNotification "news" "Hello" "World" PNone [1; 2] "NORMAL" "test" None) (mkNotifySt two_users tt)).1.

Lemma two_users_ok : notify_ok two_users.
Proof.
  constructor; try (by intros ?); cbn.
  - intros i j x y Hi Hj _ _ _. apply lookup_singleton_Some in Hi as [<- _]. by apply lookup_singleton_Some in Hj as [<- _].
  - intros k p Hk. apply lookup_singleton_Some in Hk as [<- _]. lia.
Qed.

Definition bob_reads : NotifyDb := ns_db (serve_notify (ReadNotification 2 1) (mkNotifySt news_sent tt)).1.
Lemma reaches_news : rtc (notify_step (W := unit)) two_users bob_reads.
Proof.
  refine (rtc_l _ two_users news_sent bob_reads _ (rtc_once _ _ _)).
  - exact (NotifyServed noon (CreateNotification "news" "Hello" "World" PNone [1; 2] "NORMAL" "test" None) tt two_users).
  - exact (NotifyServed noon (ReadNotification 2 1) tt news_sent).
Qed.
Lemma notifications_stay_consistent_witness :
  size (receipts bob_reads) = 2%nat ∧ nr_status <$> receipts bob_reads !! 2 = Some RecipientStatus.READ ∧ notify_ok bob_reads.
Proof.
  split; [vm_compute; reflexivity|]. split; [vm_compute; reflexivity|].
  exact (notifications_stay_consistent two_users bob_reads reaches_news two_users_ok).
Defined.

(** Without a push subscription every notification is sent only in part. *)
Example push_is_on_by_default : nt_status <$> notifications news_sent !! 1 = Some NotificationStatus.PARTIALLY_SENT.
Proof. vm_compute. reflexivity. Qed.
(** A retry that succeeds leaves the status of the notification. *)
Definition subscribed_late : NotifyDb :=
  ns_db (serve_notify (RegisterPush 1 "WEB" "https://push.test" None None None None) (mkNotifySt (ns_db (told_users [1] two_users).1) tt)).1.
Definition retried : NotifyDb := ns_db (serve_notify (RetryDelivery 3) (mkNotifySt subscribed_late tt)).1.
Example a_retry_leaves_the_status :
  (nd_status <$> attempts_made subscribed_late !! 3 = Some DeliveryStatus.FAILED) ∧
  (nd_status <$> attempts_made retried !! 3 = Some DeliveryStatus.DELIVERED) ∧
  (nt_status <$> notifications retried !! 1 = Some NotificationStatus.PARTIALLY_SENT).
Proof. split_and!; vm_compute; reflexivity. Qed.
(** A user named twice is told once; the request fails and the notification stays PENDING. *)
Example a_user_named_twice :
  ((told_users [1; 1; 2] two_users).2 = inr (NotifyFailure "IntegrityError")) ∧
  (size (receipts (ns_db (told_users [1; 1; 2] two_users).1)) = 1%nat) ∧
  (nt_status <$> notifications (ns_db (told_users [1; 1; 2] two_users).1) !! 1 = Some NotificationStatus.PENDING).
Proof. split_and!; vm_compute; reflexivity. Qed.
(** The outcome of a job that failed with the longest message its own column holds cannot
    be written: the body is longer. *)
Fixpoint repeated (n : nat) (s : string) : string := match n with O => EmptyString | S n => (s ++ repeated n s)%string end.
Definition failed_stop (msg : string) : WorkspaceJob :=
  mkWorkspaceJob 7 None WorkspaceJobType.STOP WorkspaceJobStatus.FAILED 1 1 3 (Some msg) 0 None None None 3 None None None.
Definition outcome_told (msg : string) : unit + NotifyError :=
  (maybe_emit_workspace_lifecycle_notification 7 ((demo_workspace WorkspaceStatus.RUNNING) <| ws_owner_user_id := 1 |>) 9 (failed_stop msg) (mkNotifySt two_users tt)).2.
Example a_long_message_is_refused :
  outcome_told "stop failed" = inl tt ∧ outcome_told (repeated (Z.to_nat 8192) "x") = inr (NotifyFailure "StringDataRightTruncation").
Proof. split; vm_compute; reflexivity. Qed.
