(* ===== verification/Witnesses.v ===== *)
(** * Witnesses: the theorems applied to concrete rows

    For each theorem with hypotheses, an instance on the rows of [Scenarios] at
    which they hold, with the conclusion it gives there. *)

From S2P Require Import Prelude Models Session Services Frames FailureHandling.
From S2P Require Import Sessions Capacity Scheduling Placement Cleanup Gateway.
From S2P Require Import WorkerRows Finalizers SnapshotJobs Reconcile Worker Settlement.
From S2P Require Import Execution Queue Quota Policy Intents.
From S2P Require Import HostFiles System Scenarios Binding Snapshots SnapshotSystem.
From S2P Require Import Ec2Registry Ec2Cleanup NodeLifecycle SweepSafety.

#[local] Existing Instance demo_routes.
#[local] Instance demo_env : Env := env_at 1000.
#[local] Instance demo_source : OrchestratorSource World := source_of good_orchestrator.
#[local] Instance demo_hash : TokenHash := λ t, ("sha:" ++ t)%string.

Definition running_state : St World := demo_state (demo_db WorkspaceStatus.RUNNING ∅).

Lemma references_demo st js :
  (∀ k j, js !! k = Some j → job_workspace_id j = 1) → jobs_reference_workspaces (demo_db st js).
Proof. intros H k j Hk. rewrite (H k j Hk). by eexists. Qed.

Lemma references_single st k j : job_workspace_id j = 1 →
  jobs_reference_workspaces (demo_db st {[k := j]}).
Proof. intros H. apply references_demo. by intros k' j' [_ <-]%lookup_singleton_Some. Qed.

(** ** Queue *)

Definition stop_queued : St World :=
  demo_state (demo_db WorkspaceStatus.STOPPING
    {[5 := demo_job WorkspaceJobType.STOP WorkspaceJobStatus.QUEUED 0 None]}).
Definition stop_queued_last : St World :=
  demo_state (demo_db WorkspaceStatus.STOPPING
    {[5 := demo_job WorkspaceJobType.STOP WorkspaceJobStatus.QUEUED 1 None]}).
Definition stop_stuck : St World :=
  demo_state (demo_db WorkspaceStatus.STOPPING
    {[5 := demo_job WorkspaceJobType.STOP WorkspaceJobStatus.RUNNING 2 (Some 0)]}).

Lemma stop_queued_references : jobs_reference_workspaces (st_committed stop_queued).
Proof. by apply references_single. Qed.
Lemma stop_queued_last_references : jobs_reference_workspaces (st_committed stop_queued_last).
Proof. by apply references_single. Qed.

Lemma next_job_settles_or_aborts_witness :
  let '(s', r) := in_transaction (process_next_queued_job_return_id (λ _, false)) stop_queued in
  r = inl (Some 5) ∧ ∃ j, chosen (λ _, false) (st_committed stop_queued) 5 j ∧
                          job_settled 5 j (st_committed stop_queued) (st_committed s').
Proof.
  pose proof (next_job_settles_or_aborts (λ _, false) stop_queued
                stop_queued_references) as H.
  assert (Hrun : (in_transaction (process_next_queued_job_return_id (λ _, false)) stop_queued).2
                 = inl (Some 5)) by (vm_compute; reflexivity).
  cbv zeta in H. destruct (in_transaction _ stop_queued) as [s' r]. cbn [snd] in Hrun. subst r.
  split; [reflexivity|apply H].
Defined.

Lemma run_pending_jobs_drains_queue_witness :
  let '(s', r) := run_pending_jobs (λ _, false) 4 stop_queued in
  r = inl (1, Some 5) ∧ claimable (λ _, false) (st_committed s') = [].
Proof.
  pose proof (run_pending_jobs_drains_queue (λ _, false) 4 stop_queued
                stop_queued_references) as H.
  assert (Hrun : (run_pending_jobs (λ _, false) 4 stop_queued).2
                 = inl (1, Some 5)) by (vm_compute; reflexivity).
  destruct (run_pending_jobs _ 4 stop_queued) as [s' r]. cbn [snd] in Hrun. subst r.
  split; [reflexivity|]. apply H. reflexivity.
Defined.

Lemma last_attempt_is_final_witness :
  let '(s', r) := run_queued_workspace_job_by_id (λ _, false) 5 stop_queued_last in
  ∃ j', jobs (st_committed s') !! 5 = Some j' ∧
    (job_status j' = WorkspaceJobStatus.SUCCEEDED ∨ job_status j' = WorkspaceJobStatus.FAILED).
Proof.
  pose proof (last_attempt_is_final (λ _, false) stop_queued_last 5
    (demo_job WorkspaceJobType.STOP WorkspaceJobStatus.QUEUED 1 None)
    stop_queued_last_references eq_refl ltac:(vm_compute; discriminate) eq_refl) as H.
  assert (Hrun : (run_queued_workspace_job_by_id (λ _, false) 5 stop_queued_last).2 = inl true)
    by (vm_compute; reflexivity).
  destruct (run_queued_workspace_job_by_id _ 5 stop_queued_last) as [s' r]. by apply H.
Defined.

Lemma reclaim_frees_stuck_jobs_witness :
  stuck_jobs stuck_cutoff (st_committed stop_stuck) = [5] ∧
  stuck_jobs stuck_cutoff (st_committed (reclaim_stuck_running_jobs stop_stuck).1) = [].
Proof.
  split; [vm_compute; reflexivity|].
  pose proof (reclaim_frees_stuck_jobs (env := demo_env) stop_stuck ltac:(vm_compute; reflexivity)) as H.
  cbv zeta in H. destruct (reclaim_stuck_running_jobs stop_stuck) as [s' r].
  destruct H as (_ & _ & _ & H). apply H. vm_compute. lia.
Defined.

(** ** System *)

Lemma lifecycle_jobs_exclude_each_other_witness :
  let db' := st_committed (request_stop_workspace 1 7 7 "c" running_state).1 in
  job_states db' = [(1, WorkspaceJobType.STOP, WorkspaceJobStatus.QUEUED)] ∧ exclusive db'.
Proof.
  split; [vm_compute; reflexivity|].
  refine (proj2 (lifecycle_jobs_exclude_each_other (st_committed running_state) _
    (rtc_once _ _ (step_request demo_env 1 7 7 "c" _ running_state eq_refl (call_stop 1 7 7 "c")))
    (references_demo _ _ _) _)); [done|by split].
Defined.

(** ** Snapshots *)

(** A snapshot request, and a second one that is refused. *)
Lemma snapshot_jobs_exclude_each_other_witness :
  let s1 := (create_snapshot 1 7 "before upgrade" None "c" running_state).1 in
  let s2 := (create_snapshot 1 7 "again" None "d" s1).1 in
  job_states (st_committed s2) = [(1, WorkspaceJobType.SNAPSHOT_CREATE, WorkspaceJobStatus.QUEUED)] ∧
  one_snapshot_job (st_committed s2).
Proof.
  split; [vm_compute; reflexivity|].
  refine (proj2 (snapshot_jobs_exclude_each_other (st_committed running_state) _
    (rtc_l _ _ _ _ (wide_create demo_env 1 7 "before upgrade" None "c" running_state eq_refl)
       (rtc_once _ _ (wide_create demo_env 1 7 "again" None "d"
          (create_snapshot 1 7 "before upgrade" None "c" running_state).1 _)))
    (references_demo _ _ _) _)); [vm_compute; reflexivity|done|done].
Defined.

(** The job that made a snapshot refers to it for ever: its archive goes, its row stays. *)
Example made_snapshot_is_not_deleted :
  let s1 := (create_snapshot 1 7 "before upgrade" None "c" running_state).1 in
  let db := (st_committed s1) <| jobs ::= fmap (λ j, j <| job_status := WorkspaceJobStatus.SUCCEEDED |>) |>
              <| snapshots ::= fmap (λ sn, sn <| snap_status := WorkspaceSnapshotStatus.AVAILABLE |>) |> in
  let '(s2, r) := delete_snapshot 1 7 (demo_state db) in
  r = inr IntegrityError ∧ is_Some (snapshots (st_committed s2) !! 1).
Proof. vm_compute. split; [reflexivity|by eexists]. Qed.

Definition demo_snapshot (name : string) (st : workspace_snapshot_status) (created : time) : WorkspaceSnapshot :=
  mkWorkspaceSnapshot 1 name None "file:///snapshots/a.tar.gz" st (Some 10) 7 created.
Definition snapshot_state : St World :=
  demo_state ((demo_db WorkspaceStatus.RUNNING ∅) <| snapshots :=
    {[1 := demo_snapshot "old" WorkspaceSnapshotStatus.AVAILABLE 100;
      2 := demo_snapshot "new" WorkspaceSnapshotStatus.AVAILABLE 200;
      3 := demo_snapshot "failed" WorkspaceSnapshotStatus.FAILED 300]} |>).

Lemma download_offers_newest_archive_witness :
  let '(s', res) := resolve_owned_snapshot_archive_for_download 1 7 None snapshot_state in
  res = inl (1, 2) ∧ ∃ sn, downloadable 1 (λ _, true) (st_db snapshot_state) 2 sn ∧
    ∀ sid' sn', downloadable 1 (λ _, true) (st_db snapshot_state) sid' sn' → snap_created_at sn' ≤ snap_created_at sn.
Proof.
  pose proof (download_offers_newest_archive 1 7 (λ _, true) (λ _ _, eq_refl) snapshot_state) as H.
  assert (Hrun : (resolve_owned_snapshot_archive_for_download 1 7 None snapshot_state).2 = inl (1, 2))
    by (vm_compute; reflexivity).
  destruct (resolve_owned_snapshot_archive_for_download 1 7 None snapshot_state) as [s' res]. cbn [snd] in Hrun. subst res.
  destruct H as (_ & _ & _ & H). split; [reflexivity|exact H].
Defined.

(** ** Placement *)

Lemma placement_is_authoritative_witness :
  let '(s', res) := resolve_orchestrator_placement 1 WorkspaceJobType.STOP running_state in
  res = inl ("node-1"%string, 1) ∧
  placed running_state s' 1 (demo_workspace WorkspaceStatus.RUNNING) WorkspaceJobType.STOP "node-1" 1.
Proof.
  pose proof (placement_is_authoritative running_state 1 WorkspaceJobType.STOP
                (demo_workspace WorkspaceStatus.RUNNING) eq_refl) as H.
  assert (Hrun : (resolve_orchestrator_placement 1 WorkspaceJobType.STOP running_state).2
                 = inl ("node-1"%string, 1)) by (vm_compute; reflexivity).
  destruct (resolve_orchestrator_placement 1 WorkspaceJobType.STOP running_state) as [s' res].
  cbn [snd] in Hrun. subst res. split; [reflexivity|apply H].
Defined.

(** ** Binding *)

Lemma job_orchestrator_is_bound_witness :
  let '(s', res) := build_orchestrator_for_workspace_job 1 WorkspaceJobType.STOP running_state in
  res = inl (bound_orchestrator "node-1") ∧
  ∃ s0 key tid b, same_rows s0 s' ∧ bundle_for s0 key b ∧
    placed running_state s0 1 (demo_workspace WorkspaceStatus.RUNNING) WorkspaceJobType.STOP key tid.
Proof.
  pose proof (job_orchestrator_is_bound running_state 1 WorkspaceJobType.STOP
                (demo_workspace WorkspaceStatus.RUNNING) eq_refl) as H.
  assert (Hrun : (build_orchestrator_for_workspace_job 1 WorkspaceJobType.STOP running_state).2
                 = inl (bound_orchestrator "node-1")) by (vm_compute; reflexivity).
  destruct (build_orchestrator_for_workspace_job 1 WorkspaceJobType.STOP running_state) as [s' res].
  cbn [snd] in Hrun. subst res. split; [reflexivity|].
  destruct H as (s0 & _ & Hs & key & tid & b & Hp & Hb & _). by exists s0, key, tid, b.
Defined.

(** ** Sessions *)

Definition demo_session (status : workspace_session_status) (expires : time) : WorkspaceSession :=
  mkWorkspaceSession 1 7 status "sha:tok" 0 expires 0 0.
Definition session_state (expires : time) : St World :=
  let rows := {[3 := demo_session WorkspaceSessionStatus.ACTIVE expires]} in
  demo_state ((demo_db WorkspaceStatus.RUNNING ∅) <| sessions := rows |> <| sessions_sql := rows |>).

Lemma revoke_all_revokes_every_session_witness :
  ∃ r, sessions (st_db (revoke_all_workspace_sessions 1 (session_state (seconds 5000))).1) !! 3 = Some r ∧
       sess_status r ≠ WorkspaceSessionStatus.ACTIVE.
Proof.
  destruct (sessions (st_db (revoke_all_workspace_sessions 1 (session_state (seconds 5000))).1) !! 3)
    as [r|] eqn:E; [|vm_compute in E; discriminate].
  exists r. split; [reflexivity|].
  assert (Hw : sess_workspace_id r = 1) by (vm_compute in E; injection E as <-; reflexivity).
  exact (proj1 (revoke_all_revokes_every_session (session_state (seconds 5000)) 1 3 r eq_refl E) Hw).
Defined.

Lemma revoke_all_leaves_stale_count_witness :
  let s' := (revoke_all_workspace_sessions 1 (session_state (seconds 5000))).1 in
  ws_active_sessions_count <$> workspaces (st_db s') !! 1 = Some 1 ∧
  count_effective_active_sessions 1 env_now (flush_db (st_db s')) = 0.
Proof.
  exact (revoke_all_leaves_stale_count (session_state (seconds 5000)) 1
           (demo_workspace WorkspaceStatus.RUNNING) eq_refl eq_refl ltac:(vm_compute; discriminate)).
Defined.

Lemma resolve_grants_only_live_sessions_witness :
  let '(s', res) := resolve_workspace_session_for_access 1 7 " tok " (session_state (seconds 5000)) in
  res = inl 3 ∧ st_committed s' = st_committed (session_state (seconds 5000)).
Proof.
  assert (Hrun : (resolve_workspace_session_for_access 1 7 " tok " (session_state (seconds 5000))).2 = inl 3)
    by (vm_compute; reflexivity).
  destruct (resolve_workspace_session_for_access 1 7 " tok " (session_state (seconds 5000)))
    as [s' res] eqn:E. cbn [snd] in Hrun. subst res. split; [reflexivity|].
  exact (proj2 (proj2 (resolve_grants_only_live_sessions (session_state (seconds 5000)) s' 1 7 3 " tok " eq_refl E))).
Defined.

Lemma resolve_expires_durably_witness :
  let '(s', _) := resolve_workspace_session_for_access 1 7 "tok" (session_state (seconds 900)) in
  sess_status <$> sessions (st_committed s') !! 3 = Some WorkspaceSessionStatus.EXPIRED.
Proof.
  pose proof (resolve_expires_durably (session_state (seconds 900)) 1 7 3 "tok"
    (demo_session WorkspaceSessionStatus.ACTIVE (seconds 900)) eq_refl ltac:(vm_compute; discriminate)
    ltac:(vm_compute; reflexivity) (conj eq_refl eq_refl) eq_refl ltac:(vm_compute; discriminate)) as H.
  destruct (resolve_workspace_session_for_access 1 7 "tok" (session_state (seconds 900))) as [s' res].
  apply H.
Defined.

Lemma created_session_token_resolves_witness :
  ((ts ← create_workspace_session 1 7 "new";
    resolve_workspace_session_for_access 1 7 ts.1) (session_state (seconds 5000))).2 = inl 4.
Proof.
  rewrite (created_session_token_resolves (session_state (seconds 5000)) 1 7 "new" eq_refl).
  - reflexivity.
  - split; [vm_compute; reflexivity|discriminate].
  - intros sid r Hr.
    change (({[3 := demo_session WorkspaceSessionStatus.ACTIVE (seconds 5000)]} : gmap Z _) !! sid = Some r) in Hr.
    apply lookup_singleton_Some in Hr as [_ <-]. discriminate.
Defined.

(** ** Cleanup *)

Definition cleanup_state (st : cleanup_task_status) : St World :=
  demo_state ((demo_db WorkspaceStatus.STOPPED ∅)
    <| cleanup_tasks := {[2 := mkWorkspaceCleanupTask 1 CLEANUP_SCOPE_STOP_INCOMPLETE None st 1 0]} |>).

Lemma ensure_cleanup_ignored_after_success_witness :
  ensure_durable_cleanup_task 1 CLEANUP_SCOPE_STOP_INCOMPLETE (Some ["leak"%string])
    (cleanup_state WorkspaceCleanupTaskStatus.SUCCEEDED)
  = (cleanup_state WorkspaceCleanupTaskStatus.SUCCEEDED, inl tt).
Proof.
  exact (ensure_cleanup_ignored_after_success (cleanup_state WorkspaceCleanupTaskStatus.SUCCEEDED) 1
    CLEANUP_SCOPE_STOP_INCOMPLETE (Some ["leak"%string]) 2
    (mkWorkspaceCleanupTask 1 CLEANUP_SCOPE_STOP_INCOMPLETE None WorkspaceCleanupTaskStatus.SUCCEEDED 1 0)
    ltac:(vm_compute; reflexivity) eq_refl).
Defined.

Lemma ensure_cleanup_makes_pending_witness :
  let '(s', res) := ensure_durable_cleanup_task 1 CLEANUP_SCOPE_STOP_INCOMPLETE (Some ["leak"%string])
                      (cleanup_state WorkspaceCleanupTaskStatus.PENDING) in
  res = inl tt ∧ ∃ cid c, cleanup_tasks (st_db s') !! cid = Some c ∧
    ct_status c = WorkspaceCleanupTaskStatus.PENDING.
Proof.
  pose proof (ensure_cleanup_makes_pending (cleanup_state WorkspaceCleanupTaskStatus.PENDING) 1
    CLEANUP_SCOPE_STOP_INCOMPLETE (Some ["leak"%string])) as H.
  destruct (ensure_durable_cleanup_task _ _ _ _) as [s' res].
  destruct H as (Hr & cid & c & Hc & _ & _ & Hs & _).
  - intros cid task Hf. vm_compute in Hf. injection Hf as <- <-. discriminate.
  - split; [exact Hr|]. by exists cid, c.
Defined.

(** ** Gateway *)

Definition remote_ec2_node : ExecutionNode :=
  demo_node <| node_provider_type := ExecutionNodeProviderType.EC2 |>.
Definition ec2_state : St World :=
  demo_state ((demo_db WorkspaceStatus.RUNNING ∅) <| nodes := {[1 := remote_ec2_node]} |>).

Lemma remote_route_target_roundtrip_witness :
  route_target_port (Some "10.0.0.5:32768"%string) = Some 32768.
Proof.
  assert (Hrun : remote_gateway_route_target_for_node (Some "node-1"%string) (Some 1)
      (Some "172.17.0.2:32768"%string) None ec2_state = (ec2_state, inl (Some "10.0.0.5:32768"%string)))
    by (vm_compute; reflexivity).
  assert (Hip : Py.strip_opt (node_private_ip remote_ec2_node) = "10.0.0.5"%string ∧ is_host "10.0.0.5" = true)
    by (split; vm_compute; reflexivity).
  assert (Hports : ∀ v p, (v = Some "172.17.0.2:32768"%string ∨ v = None) →
    route_target_port v = Some p → 0 ≤ p ≤ 65535).
  { intros v p [-> | ->] Hv; vm_compute in Hv; [injection Hv as <-; lia|discriminate]. }
  destruct (remote_route_target_roundtrip ec2_state ec2_state (Some "node-1"%string)
    (Some "172.17.0.2:32768"%string) None (Some "10.0.0.5:32768"%string) (Some 1) 1 remote_ec2_node "10.0.0.5"
    ltac:(vm_compute; reflexivity) ltac:(vm_compute; discriminate) eq_refl
    Hip Hports Hrun)
    as (p & Ht & _ & Hp & _).
  rewrite Hp. vm_compute in Hp. exact (eq_sym Hp).
Defined.

(** ** Scheduling *)

Definition demo_request : WorkspaceComputeRequest := mkComputeRequest (cores 1) 512 4096 1.
Definition small_node : ExecutionNode :=
  demo_node <| node_node_key := "node-2" |> <| node_allocatable_cpu := cores 2 |>.
Definition two_nodes : Db :=
  (demo_db WorkspaceStatus.STOPPED ∅) <| nodes := (<[1 := demo_node]> {[2 := small_node]}) |>
    <| runtimes := ∅ |>.

Program Definition single_node_env : Env :=
  {| env_now := seconds 1000; env_settings := (demo_settings) <| cfg_enable_multi_node_scheduling := false |>;
     env_randint := λ lo _, lo |}.
Next Obligation. intros lo hi. simpl. lia. Qed.

Lemma single_node_gate_picks_primary_witness :
  let '(s', res) := select_node_for_workspace (env := single_node_env) demo_request (demo_state two_nodes) in
  res = inl (1, demo_node) ∧
  ∀ nid n, nodes (st_db s') !! nid = Some n →
    ready_schedulable_provider_predicates (env := single_node_env) n = true → 1 ≤ nid.
Proof.
  destruct (select_node_for_workspace (env := single_node_env) demo_request (demo_state two_nodes))
    as [s' res] eqn:E.
  assert (Hrun : res = inl (1, demo_node)).
  { change res with ((s', res).2). rewrite <- E. vm_compute. reflexivity. }
  subst res. split; [reflexivity|].
  exact (single_node_gate_picks_primary (env := single_node_env) (demo_state two_nodes) s' demo_request
           (1, demo_node) eq_refl E).
Defined.

Lemma sql_selection_agrees_with_ranking_witness :
  sql_select_node two_nodes demo_request = Some (2, small_node) ∧
  sql_select_node two_nodes demo_request
  = head (rank_candidate_nodes two_nodes (list_schedulable_nodes two_nodes) demo_request).
Proof.
  split; [vm_compute; reflexivity|].
  assert (Hn : ∀ i n, nodes two_nodes !! i = Some n → (i = 1 ∧ n = demo_node) ∨ (i = 2 ∧ n = small_node)).
  { intros i n Hi.
    change ((<[1 := demo_node]> {[2 := small_node]} : gmap Z _) !! i = Some n) in Hi.
    apply lookup_insert_Some in Hi as [[<- <-]|[_ [<- <-]%lookup_singleton_Some]]; auto. }
  apply sql_selection_agrees_with_ranking.
  - reflexivity.
  - intros wid r Hr. by destruct (lookup_empty_Some (M := gmap Z) wid r).
  - split.
    + intros i n [[-> ->]|[-> ->]]%Hn; (split; [vm_compute; reflexivity|discriminate]).
    + by intros i j n m [[-> ->]|[-> ->]]%Hn [[-> ->]|[-> ->]]%Hn.
  - intros i n [[-> ->]|[-> ->]]%Hn; vm_compute; reflexivity.
  - split_and!; vm_compute; reflexivity.
Defined.

(** ** Sweep of the cloud's resources *)

(** An operator's tags, one of which would pass the node off as another's. *)
Definition operator_tags : list Ec2Tag := [("team", "platform"); ("devnest:node-key", "node-9")]%string.
Lemma launched_resources_are_recognised_witness :
  let tags := build_launch_tags_for_run_instances (Some " node-1 "%string) "blog" operator_tags in
  ("team", "platform")%string ∈ tags ∧ devnest_autocleanup_eligible tags = true ∧ node_of_tags tags = "node-1"%string.
Proof.
  split; [vm_compute; set_solver|].
  refine (proj2 (launched_resources_are_recognised " node-1 " "blog" operator_tags _ _ _ _)); [reflexivity|by vm_compute..|].
  repeat constructor; by vm_compute.
Defined.
